(* ===== verification/_CoqProject ===== *)
-Q . S2P
Prelude.v
Bitfield.v
CyclicFifo.v
CLists.v
PhysMem.v
PoolAlloc.v
Pid.v
Mmu.v
PageDir.v
KMem.v
Kernel.v
Scheduler.v
VfsCache.v
Pipe.v
VfsFile.v
MemArea.v
Signal.v
Vfs.v
Protofs.v
ProtofsTree.v
Process.v
Sync.v
Tty.v
Time.v
Keyboard.v
Device.v
TextDisplay.v
VirtualTerm.v
Smemfs.v
PageFault.v
FileOps.v
Elf.v
Exec.v
Log.v
Cmdline.v
Sysctl.v
SmemFile.v
BootConfig.v
Bootloader.v
Flash.v
Usb.v
CdcAcm.v
Interrupt.v
Clock.v
Debug.v
Sdhi.v
Startup.v
Init.v
User.v
