(* ===== verification/Prelude.v ===== *)
(** * FiXos: a verification development of the FiXos kernel

    FiXos is a small UNIX-like kernel for the SH3 processor of Casio fx-9860
    calculators (src/).  It has an MMU with a software-loaded TLB, preemptive
    processes with signals, pipes and terminals, a virtual file system over an
    in-memory root file system and the flash storage of the calculator, and an ELF
    loader.  This development translates the C code of the kernel into executable
    definitions and proves what each part promises to the others.

    ** Conventions

    - A C integer is a [Z]; where its width matters the wrap-around is written out
      with [u8], [u16], [u32] and [s32] of this file.  Pointers are 32-bit values.
    - Objects reached by pointers (processes, open files, inodes, memory areas, pipe
      pages) are typed heaps of the record [kernel] (Kernel), so that every holder of
      a pointer sees an update.  Pages, pool headers, free lists and the links of
      src/utils/list.h are words of memory, as in the code.
    - A function of the code is a definition of the same name, with its guards and
      early returns.  [None] is a call that never returns or an access the code may
      not do (a NULL pointer, an index out of an array).  A call that sleeps is one
      pass of its loop, which completes or waits.
    - Code outside src/ (the firmware, the flash contents, hardware registers) is a
      parameter.  Uninitialised memory is an argument, named [stale] or [garbage].
    - Comments of the form "src/file: symbol" give the source of a definition.

    ** Files, in dependency order, and the sources they model

    - Prelude: integers, lists, tactics, the hint database [fixos].
    - Bitfield (utils/bitfield.h), CyclicFifo (utils/cyclic_fifo.c), CLists
      (utils/list.h): the data structures of the kernel.
    - PhysMem (arch/sh/physical_memory.c): the page allocator, and [PageMem], the
      interface its clients use.  PoolAlloc (utils/pool_alloc.c): pools of objects in
      pages, against [PageMem].  KMem: the pools of the kernel together, and the
      interface [KMem] against which the components above are proved.
    - Pid (PIDs of sys/process.c), Mmu (arch/sh/mmu.c), PageDir (sys/memory.c).
    - Kernel: the state.  Scheduler (sys/scheduler.c), Sync (sys/waitqueue.c,
      sys/mutex.c), Signal (sys/signal.c, arch/sh/signal.c), Process (sys/process.c),
      Time (sys/time.c, sys/stimer.c, sys/cpu_load.h, arch/sh/rtc.c).
    - VfsCache (fs/vfs_cache.c), Pipe (fs/pipe.c), VfsFile (fs/vfs_file.c,
      sys/files.c), Vfs (fs/vfs.c, fs/vfs_op.c, fs/vfs_directory.c), Protofs
      (fs/protofs/), ProtofsTree (mounting the root and creating nodes), Smemfs
      (fs/casio_smemfs/): files.
    - MemArea (sys/mem_area.c), PageFault (arch/sh/exception.c): memory of processes.
    - Tty (sys/tty.c), Keyboard, Device, TextDisplay, VirtualTerm (device/): the
      terminals, from the keys to the pixels.
    - FileOps (sys/files.c, fs/vfs_file.c, device/tty.c, device/display/display.c):
      calls on descriptors, which connect all kinds of files.
    - Elf (loader/elfloader/, sys/user.h), Exec (sys_execve): programs.
    - Log (utils/log.c, utils/strconv.c), Cmdline (sys/cmdline.c, sys/console.c, the
      arguments of init.c), Sysctl (sys/sysctl.c): the kernel's text interfaces.
    - SmemFile, BootConfig, Bootloader (bootloader/): the boot loader; the parser is
      proved for any source of characters ([CharSource]), which SmemFile implements.
    - Flash (arch/sh/memory/c_s29jl032h.c): programming the flash memory.
    - Usb (arch/sh/modules/usb.c), CdcAcm (device/usb/cdc_acm/): the USB controller as a
      program over its registers, and the terminal it carries.
    - Interrupt (arch/sh/interrupt.c, arch/sh/exception.c, arch/sh/process.c,
      sys/syscall.c): entry to and return from the kernel, the system call table.
    - Clock (arch/sh/kdelay.c, timer.c, freq.c, rtc.c), Debug (sys/kdebug.c,
      arch/sh/oops.c): delays, frequencies, the messages of a crash.
    - Sdhi (arch/sh/modules/sdhi.c, device/sd_card.h): the SD card host as a program
      over the registers of any controller ([SdDevice]).
    - Startup (the nodes and devices of init.c, test_process of tests.c): the first file
      tree and the first program.  Init (init.c): the whole of [init], from the reset, as
      steps on one machine state that call the components in the order of the code.
    - User (user/first_test_elf.c, user/dynld.c, user/sharedtest/test.c): the user
      program as an interaction tree of system calls, run by any kernel that keeps the
      contracts stated as classes ([UserKernel], [DirKernel], [InputKernel],
      [HeapKernel]).

    ** What the theorems show

    - Memory: pages and objects are never handed out twice and never lost
      (PhysMem, PoolAlloc, KMem); a translation loaded by one process is never used
      by another (Mmu); page directories implement a finite map of pages (PageDir);
      areas stay disjoint and a fault gives a page with the right contents (MemArea,
      PageFault); after a program is loaded, every page of its segments shows the
      bytes of the file (Elf), and execve puts the arguments where the program finds
      them (Exec).
    - Processes: the scheduler chooses round-robin and no runnable task starves;
      PIDs are unique; signals are delivered lowest first, and returning from a
      handler restores what was interrupted; timers and clocks count ticks.
    - Files: path resolution is a walk of the tree and balances the references of
      inodes (Protofs); creating a node adds its path to the table of the paths that
      resolve, and nothing else (ProtofsTree); closing keeps reference counts exact
      (VfsFile); pipes are streams, also through descriptors (Pipe, FileOps); reading
      the flash files gives the contents of their fragments (Smemfs).
    - Terminals: the line discipline refines a line editor in front of a bounded
      queue, for any driver (Tty); the screen shows the last lines of the text
      (VirtualTerm), also when it is written through a descriptor (FileOps).
    - Boot: the parser of the configuration file inverts its printer (BootConfig);
      booting leaves the kernel's segments and command line in memory and changes
      nothing else (Bootloader); the kernel splits that line into its arguments
      (Cmdline); from the reset, initialisation sends the log to the console the line
      names and creates a /dev/console with its number (Init); it ends with a switch to
      the first program, at its entry point (Startup).
    - Text: the decimal printer is inverted by reading, the formatter with its buffer
      prints what a reference formatter prints (Log); names of the control tree lead
      to their object (Sysctl).
    - Flash: an array programmed word by word is what the chip holds afterwards, and
      nothing else changes (Flash).
    - USB: the bytes of the endpoints are delivered in order and once (Usb); the host
      reads the descriptors, and what it types and is printed goes through the same
      line discipline as the keyboard (CdcAcm).
    - Interrupts: returning resumes what was interrupted, a system call leaves its
      result in r0 and a task whose quantum is over gives way (Interrupt); the
      calibrated frequency is within the error of its measure (Clock).
    - Devices: an SD command ends whatever the card does and is sent once (Sdhi); the
      keyboard is scanned every period while a timer is free (Keyboard).
    - User programs: listing a directory ends and prints each entry once, copying
      moves all the input, numbers are printed in full while they fit (User).
    - Several theorems state behaviour the authors did not intend, where the code
      differs from its comments; each is listed as a finding.

    ** Bounds and fuel

    Loops over arrays recurse on their index.  Loops that follow pointers take fuel:
    the lists of pages and pools (fuel above the number of pages, which the invariant
    bounds), the search of a PID ([CONFIG_PID_MAX] + 1 tries, enough whenever a PID is
    free), the chains of inodes and fragments (above the length of the chain, a
    hypothesis of the lemma and shown by the witnesses), the ancestors of a process
    (the length of the chain).  Where a theorem says that a call returns a result the
    fuel it needs is in its statement, and the result is not conditional on ending.

    ** Not modelled

    Assembly entry points, system call stubs and memory routines (memcpy and the like
    are the list operations they compute); the self tests of tests.c, which nothing
    calls; the parts of the user program that are commented out; the register map
    arch/sh/7705.h beyond the registers and fields the drivers use.
  *)

From Stdlib Require Export ZArith Lia.
From stdpp Require Export base tactics gmap numbers.
From stdpp Require Export list.
From Stdlib Require Ascii.
From Stdlib Require Export (notations) String.

#[global] Open Scope Z_scope.

(** ** Scope and notations of the development *)

Declare Scope fixos_scope.
Delimit Scope fixos_scope with fixos.

(** [x & m] as a C condition: some bit of [m] is set in [x]. *)
Definition flag_set (x m : Z) : bool := negb (Z.land x m =? 0).

Infix "&?" := flag_set (at level 60, no associativity) : fixos_scope.
#[global] Open Scope fixos_scope.

(** ** Machine integers

    The target is a 32-bit SuperH: [unsigned int], [size_t] and every pointer
    are 32 bits wide, [unsigned short] is 16, [unsigned char] is 8.  A C value
    is a [Z]; the conversions below write the wrap-around out. *)

Definition u8 (x : Z) : Z := x mod 256.
Definition u16 (x : Z) : Z := x mod 65536.
Definition u32 (x : Z) : Z := x mod 4294967296.
Definition s32 (x : Z) : Z := (x + 2147483648) mod 4294967296 - 2147483648.
(** conversion of a byte to the (signed) [char] of the target *)
Definition s8 (x : Z) : Z := (x + 128) mod 256 - 128.

(** Pointers are 32-bit addresses. *)
Abbreviation ptr := Z (only parsing).
Abbreviation NULL := 0 (only parsing).

(** ** Error codes, src/interface/fixos/errno.h *)

Definition EAGAIN : Z := 2.
Definition EBADF : Z := 3.
Definition EFAULT : Z := 4.
Definition EINTR : Z := 5.
Definition EINVAL : Z := 6.
Definition EIO : Z := 7.
Definition EISDIR : Z := 8.
Definition ENFILE : Z := 9.
Definition EMFILE : Z := 10.
Definition ENOTDIR : Z := 11.
Definition ENXIO : Z := 12.
Definition ENAMETOOLONG : Z := 13.
Definition EROFS : Z := 14.
Definition ENOENT : Z := 15.
Definition ESRCH : Z := 16.
Definition EACCES : Z := 17.
Definition EPERM : Z := 18.
Definition ENOMEM : Z := 19.

(** ** C array idioms *)

(** [for(i=0; i<length && !stop(a[i]); i++);] : the index the loop ends at. *)
Fixpoint scan {A} (stop : A → bool) (l : list A) : nat :=
  match l with
  | [] => O
  | x :: l' => if stop x then O else S (scan stop l')
  end.

(** [memcpy(buf + off, data, length data)] on an array. *)
Definition memcpy_to {A} (buf : list A) (off : nat) (data : list A) : list A :=
  list_inserts off data buf.

(** The [n] bytes read by [memcpy(_, buf + off, n)]. *)
Definition memcpy_from {A} (buf : list A) (off n : nat) : list A :=
  take n (drop off buf).

(** [arr[i]] for an array of pointers or integers indexed by a C [int]. *)
Definition aget (l : list Z) (i : Z) : Z := nth (Z.to_nat i) l 0.
(** [arr[i] = v] *)
Definition aset {A} (l : list A) (i : Z) (v : A) : list A := <[Z.to_nat i := v]> l.

(** A NUL-terminated string stored in a buffer: the bytes before the first NUL. *)
Fixpoint c_str (l : list Z) : list Z :=
  match l with
  | [] => []
  | c :: l' => if c =? 0 then [] else c :: c_str l'
  end.

(** The bytes of a string constant of the source. *)
Definition text (s : String.string) : list Z :=
  (λ c, Z.of_nat (Ascii.nat_of_ascii c)) <$> String.list_ascii_of_string s.
Arguments text s%_string_scope.

(** Run a sequence of operations, collecting what each one returns. *)
Fixpoint run {S O R} (step : S → O → S * R) (s : S) (ops : list O) : S * list R :=
  match ops with
  | [] => (s, [])
  | o :: ops' =>
      let '(s1, out) := step s o in
      let '(s2, outs) := run step s1 ops' in (s2, out :: outs)
  end.

(** ** Automation *)

(** A closed decidable fact, by evaluation. *)
Ltac by_computation := apply (bool_decide_unpack _); vm_compute; exact I.

(** Turns the boolean comparisons of the code into propositions. *)
Ltac breflect :=
  repeat match goal with
  | H : (_ && _) = true |- _ => apply andb_prop in H; destruct H
  | H : (_ || _) = false |- _ => apply orb_false_elim in H; destruct H
  | H : negb _ = true |- _ => apply negb_true_iff in H
  | H : negb _ = false |- _ => apply negb_false_iff in H
  | H : (_ =? _) = true |- _ => apply Z.eqb_eq in H
  | H : (_ =? _) = false |- _ => apply Z.eqb_neq in H
  | H : (_ <? _) = true |- _ => apply Z.ltb_lt in H
  | H : (_ <? _) = false |- _ => apply Z.ltb_ge in H
  | H : (_ <=? _) = true |- _ => apply Z.leb_le in H
  | H : (_ <=? _) = false |- _ => apply Z.leb_gt in H
  | H : Nat.eqb _ _ = true |- _ => apply Nat.eqb_eq in H
  | H : Nat.eqb _ _ = false |- _ => apply Nat.eqb_neq in H
  | H : Nat.ltb _ _ = true |- _ => apply Nat.ltb_lt in H
  | H : Nat.ltb _ _ = false |- _ => apply Nat.ltb_ge in H
  end.

(** Case analysis on the tests of the goal, with the comparisons reflected. *)
Ltac cases :=
  repeat (case_match; breflect; simplify_eq/=).

Create HintDb fixos.
Create Rewrite HintDb fixos.
#[export] Hint Extern 5 (_ ≤ _ < _) => lia : fixos.
#[export] Hint Extern 5 (_ < _) => lia : fixos.
#[export] Hint Extern 5 (_ ≤ _) => lia : fixos.

(** ** Lemmas on machine integers *)

Lemma u32_range x : 0 ≤ u32 x < 4294967296.
Proof. apply Z.mod_pos_bound. lia. Qed.

Lemma u32_small x : 0 ≤ x < 4294967296 → u32 x = x.
Proof. apply Z.mod_small. Qed.

Lemma u32_idem x : u32 (u32 x) = u32 x.
Proof. apply u32_small, u32_range. Qed.

Lemma u16_range x : 0 ≤ u16 x < 65536.
Proof. apply Z.mod_pos_bound. lia. Qed.

Lemma u16_small x : 0 ≤ x < 65536 → u16 x = x.
Proof. apply Z.mod_small. Qed.

Lemma u8_range x : 0 ≤ u8 x < 256.
Proof. apply Z.mod_pos_bound. lia. Qed.

Lemma u8_small x : 0 ≤ x < 256 → u8 x = x.
Proof. apply Z.mod_small. Qed.

Lemma s32_small x : -2147483648 ≤ x < 2147483648 → s32 x = x.
Proof. intros H. unfold s32. rewrite Z.mod_small; lia. Qed.

Lemma s32_range x : -2147483648 ≤ s32 x < 2147483648.
Proof. unfold s32. pose proof (Z.mod_pos_bound (x + 2147483648) 4294967296). lia. Qed.

(** Subtraction of a larger number wraps to the top of the range. *)
Lemma u32_neg x : -4294967296 ≤ x < 0 → u32 x = x + 4294967296.
Proof.
  intros H. unfold u32. symmetry. apply Z.mod_unique_pos with (-1); lia.
Qed.

#[export] Hint Rewrite @u32_small using lia : fixos.
#[export] Hint Rewrite @u16_small using lia : fixos.
#[export] Hint Rewrite @s32_small using lia : fixos.

(** ** Lemmas on bits *)

Lemma testbit_pow2 i j : 0 ≤ i → Z.testbit (2 ^ i) j = (i =? j).
Proof.
  intros Hi. destruct (Z.eqb_spec i j) as [->|Hne].
  - by apply Z.pow2_bits_true.
  - by apply Z.pow2_bits_false.
Qed.

Lemma testbit_high n i w : 0 ≤ n < 2 ^ w → w ≤ i → 0 ≤ w → Z.testbit n i = false.
Proof.
  intros Hn Hi Hw. rewrite <- (Z.mod_small n (2 ^ w)) by done.
  by apply Z.mod_pow2_bits_high.
Qed.

Lemma flag_set_bit x i : 0 ≤ i → (x &? 2 ^ i) = Z.testbit x i.
Proof.
  intros Hi. unfold flag_set.
  replace (Z.land x (2 ^ i)) with (if Z.testbit x i then 2 ^ i else 0).
  - destruct (Z.testbit x i).
    + pose proof (Z.pow_pos_nonneg 2 i). destruct (Z.eqb_spec (2 ^ i) 0); [lia | done].
    + done.
  - apply Z.bits_inj'. intros n Hn. rewrite Z.land_spec, testbit_pow2 by done.
    destruct (Z.testbit x i) eqn:Hx.
    + rewrite testbit_pow2 by done. destruct (Z.eqb_spec i n) as [->|]; [by rewrite Hx | by rewrite andb_false_r].
    + rewrite Z.testbit_0_l. destruct (Z.eqb_spec i n) as [->|]; [by rewrite Hx | by rewrite andb_false_r].
Qed.

(** A word stays below [2^w] under the bitwise operations used by the code. *)
Lemma land_range a b w : 0 ≤ w → 0 ≤ a < 2 ^ w → 0 ≤ b → 0 ≤ Z.land a b < 2 ^ w.
Proof.
  intros Hw Ha Hb. assert (Hn : 0 ≤ Z.land a b) by (apply Z.land_nonneg; lia).
  split; [done|]. destruct (decide (Z.land a b < 2 ^ w)) as [|Hge]; [done|exfalso].
  assert (Hl : w ≤ Z.log2 (Z.land a b)) by (apply Z.log2_le_pow2; [lia..|];
    pose proof (Z.pow_pos_nonneg 2 w); lia).
  assert (Hbit : Z.testbit (Z.land a b) (Z.log2 (Z.land a b)) = true).
  { apply Z.bit_log2. pose proof (Z.pow_pos_nonneg 2 w). lia. }
  rewrite Z.land_spec, (testbit_high a _ w) in Hbit by lia. done.
Qed.

Lemma lor_range a b w : 0 ≤ w → 0 ≤ a < 2 ^ w → 0 ≤ b < 2 ^ w → 0 ≤ Z.lor a b < 2 ^ w.
Proof.
  intros Hw Ha Hb. assert (Hn : 0 ≤ Z.lor a b) by (apply Z.lor_nonneg; lia).
  split; [done|]. destruct (decide (Z.lor a b < 2 ^ w)) as [|Hge]; [done|exfalso].
  pose proof (Z.pow_pos_nonneg 2 w).
  assert (Hl : w ≤ Z.log2 (Z.lor a b)) by (apply Z.log2_le_pow2; lia).
  assert (Hbit : Z.testbit (Z.lor a b) (Z.log2 (Z.lor a b)) = true) by (apply Z.bit_log2; lia).
  rewrite Z.lor_spec, (testbit_high a _ w), (testbit_high b _ w) in Hbit by lia. done.
Qed.

(** ** Lemmas on array scans *)

Section scan.
Context {A : Type}.
Implicit Types (l : list A) (stop : A → bool).

Lemma scan_le stop l : (scan stop l ≤ length l)%nat.
Proof. induction l as [|x l IH]; simpl; [done|]. case_match; simpl; lia. Qed.

(** Every element before the index the scan ends at was skipped. *)
Lemma scan_before stop l i x :
  (i < scan stop l)%nat → l !! i = Some x → stop x = false.
Proof.
  revert i. induction l as [|y l IH]; intros i Hi Hx; [done|].
  simpl in Hi. destruct (stop y) eqn:Hy; [lia|].
  destruct i as [|i]; simplify_eq/=; [done|]. apply (IH i); [lia|done].
Qed.

(** When the scan ends inside the array it ends on an element that stops it. *)
Lemma scan_stop stop l :
  (scan stop l < length l)%nat → ∃ x, l !! scan stop l = Some x ∧ stop x = true.
Proof.
  induction l as [|y l IH]; simpl; [lia|]. intros H.
  destruct (stop y) eqn:Hy; simpl in *; [by eexists|]. apply IH. lia.
Qed.

Lemma scan_end stop l :
  scan stop l = length l ↔ Forall (λ x, stop x = false) l.
Proof.
  induction l as [|y l IH]; simpl; [split; auto|].
  destruct (stop y) eqn:Hy.
  - split; [lia|]. intros Hf. apply Forall_inv in Hf. congruence.
  - rewrite Forall_cons_iff. split; [intros [= H]; split; [done|by apply IH]|].
    intros [_ Hf]. f_equal. by apply IH.
Qed.

Lemma scan_exists stop l i x :
  l !! i = Some x → stop x = true → (scan stop l ≤ i)%nat.
Proof.
  revert i. induction l as [|y l IH]; intros i Hi Hx; [done|]. simpl.
  destruct (stop y) eqn:Hy; [lia|]. destruct i as [|i]; simplify_eq/=; [congruence|].
  apply le_n_S. by apply IH.
Qed.

Lemma scan_lt_iff stop l :
  (scan stop l < length l)%nat ↔ ∃ x, x ∈ l ∧ stop x = true.
Proof.
  split.
  - intros H. destruct (scan_stop stop l H) as (x & Hx & Hs). exists x.
    split; [|done]. by eapply list_elem_of_lookup_2.
  - intros (x & Hx & Hs). apply list_elem_of_lookup in Hx as [i Hi].
    pose proof (scan_exists stop l i x Hi Hs). apply lookup_lt_Some in Hi. lia.
Qed.
End scan.

(** ** Lemmas on memory copies *)

Section memcpy.
Context {A : Type}.
Implicit Types (buf data l k : list A).

Lemma memcpy_to_length buf off data : length (memcpy_to buf off data) = length buf.
Proof. apply length_inserts. Qed.

Lemma memcpy_from_length buf off n :
  (off + n ≤ length buf)%nat → length (memcpy_from buf off n) = n.
Proof. intros H. unfold memcpy_from. rewrite length_take, length_drop. lia. Qed.

Lemma memcpy_to_app l k off data :
  length l = off → (length data ≤ length k)%nat →
  memcpy_to (l ++ k) off data = l ++ data ++ drop (length data) k.
Proof.
  intros <- Hk. unfold memcpy_to.
  rewrite <- (Nat.add_0_r (length l)), list_inserts_app_r. f_equal.
  rewrite <- (take_drop (length data) k) at 1.
  rewrite list_inserts_0_r; [done|]. rewrite length_take. lia.
Qed.

Lemma memcpy_to_spec buf off data :
  (off + length data ≤ length buf)%nat →
  memcpy_to buf off data = take off buf ++ data ++ drop (off + length data) buf.
Proof.
  intros H. rewrite <- (take_drop off buf) at 1.
  rewrite memcpy_to_app; [|rewrite length_take; lia|rewrite length_drop; lia].
  by rewrite drop_drop.
Qed.

Lemma memcpy_to_lookup buf off data j :
  (off + length data ≤ length buf)%nat →
  memcpy_to buf off data !! j = if decide (off ≤ j < off + length data)%nat then data !! (j - off)%nat else buf !! j.
Proof.
  intros Hl. unfold memcpy_to. case_decide as Hd.
  - apply list_lookup_inserts; lia.
  - destruct (decide (j < off)%nat); [by apply list_lookup_inserts_lt|]. apply list_lookup_inserts_ge. lia.
Qed.

Lemma memcpy_from_lookup buf off n j :
  memcpy_from buf off n !! j = if decide (j < n)%nat then buf !! (off + j)%nat else None.
Proof. unfold memcpy_from. rewrite lookup_take, lookup_drop. by case_decide. Qed.
End memcpy.

Lemma elem_of_mid {A} (x : A) l1 l2 : x ∈ l1 ++ x :: l2.
Proof. apply elem_of_app. right. apply list_elem_of_here. Qed.

(** The loop [for(i=0; i<n; i++) a[i] = v]. *)
Lemma foldl_insert_const {A} (v : A) (u : list A) n :
  (n ≤ length u)%nat → foldl (λ b i, <[i := v]> b) u (seq 0 n) = replicate n v ++ drop n u.
Proof.
  intros Hn. induction n as [|n IH]; [done|].
  rewrite seq_S, foldl_app, IH, replicate_S_end by lia. simpl.
  rewrite insert_app_r_alt by (rewrite length_replicate; lia).
  rewrite length_replicate, Nat.sub_diag. destruct (drop n u) as [|x l] eqn:Hd.
  { apply (f_equal length) in Hd. rewrite length_drop in Hd. simpl in Hd. lia. }
  simpl. rewrite <- app_assoc. simpl. do 2 f_equal.
  change l with (drop 1 (x :: l)). rewrite <- Hd, drop_drop. f_equal. lia.
Qed.

Lemma aset_length {A} (l : list A) i v : length (aset l i v) = length l.
Proof. apply length_insert. Qed.

Lemma aget_aset_eq (l : list Z) i v :
  0 ≤ i < Z.of_nat (length l) → aget (aset l i v) i = v.
Proof.
  intros Hi. unfold aget, aset. apply nth_lookup_Some.
  apply list_lookup_insert_eq. lia.
Qed.

Lemma aget_aset_ne (l : list Z) i j v :
  0 ≤ i → 0 ≤ j → i ≠ j → aget (aset l i v) j = aget l j.
Proof.
  intros Hi Hj Hne. unfold aget, aset. rewrite !nth_lookup.
  rewrite list_lookup_insert_ne; [done|lia].
Qed.

Lemma aget_lookup (l : list Z) i x :
  l !! Z.to_nat i = Some x → aget l i = x.
Proof. intros H. unfold aget. by rewrite nth_lookup, H. Qed.

Lemma c_str_app_nul s t : Forall (λ c, c ≠ 0) s → c_str (s ++ 0 :: t) = s.
Proof.
  induction 1 as [|c s Hc Hs IH]; [done|]. simpl.
  destruct (Z.eqb_spec c 0); [done|]. by rewrite IH.
Qed.

(** A relation that every operation keeps, with equal results, is kept by sequences. *)
Lemma run_simulation {S S' O R} (f : S → O → S * R) (g : S' → O → S' * R) (P : O → Prop) (rel : S → S' → Prop) s s' ops :
  (∀ s s' o, rel s s' → P o → (f s o).2 = (g s' o).2 ∧ rel (f s o).1 (g s' o).1) →
  rel s s' → Forall P ops → (run f s ops).2 = (run g s' ops).2 ∧ rel (run f s ops).1 (run g s' ops).1.
Proof.
  intros Hstep Hrel Hops. revert s s' Hrel. induction Hops as [|o ops Ho Hops IH]; intros s s' Hrel; [done|].
  cbn [run]. destruct (Hstep s s' o Hrel Ho) as [Heq Hrel1]. destruct (f s o) as [s1 r1], (g s' o) as [s1' r1']. cbn [fst snd] in *.
  destruct (IH s1 s1' Hrel1) as [Heq2 Hrel2]. destruct (run f s1 ops) as [s2 rs], (run g s1' ops) as [s2' rs']. cbn [fst snd] in *.
  split; [congruence|done].
Qed.
