(* ===== verification/Bitfield.v ===== *)
(** * Large bitfields (src/utils/bitfield.h)

    A bitfield is an array of 32-bit cells; bit [n] is bit [n%32] of cell
    [n/32].  The lemmas below show that the five operations implement a finite
    set of bit numbers: reading a bit after a write gives the written value at
    that bit and the previous value at any other. *)

From S2P Require Import Prelude.

(** ** Model *)

(** src/utils/bitfield.h: BITFIELD_BITS *)
Definition BITFIELD_BITS : Z := 32.

(** The number of cells of [BITFIELD_STATIC(name, bits)]. *)
(** src/utils/bitfield.h: BITFIELD_STATIC *)
Definition bitfield_cells (bits : Z) : Z := Z.quot (bits - 1) BITFIELD_BITS + 1.

(** src/utils/bitfield.h: bitfield_get *)
Definition bitfield_get (bitfield : list Z) (bit : Z) : bool :=
  aget bitfield (Z.quot bit BITFIELD_BITS) &? Z.shiftl 1 (Z.rem bit BITFIELD_BITS).

(** src/utils/bitfield.h: bitfield_set *)
Definition bitfield_set (bitfield : list Z) (bit : Z) : list Z :=
  aset bitfield (Z.quot bit BITFIELD_BITS)
    (Z.lor (aget bitfield (Z.quot bit BITFIELD_BITS)) (Z.shiftl 1 (Z.rem bit BITFIELD_BITS))).

(** src/utils/bitfield.h: bitfield_clear *)
Definition bitfield_clear (bitfield : list Z) (bit : Z) : list Z :=
  aset bitfield (Z.quot bit BITFIELD_BITS)
    (Z.land (aget bitfield (Z.quot bit BITFIELD_BITS))
            (u32 (Z.lnot (Z.shiftl 1 (Z.rem bit BITFIELD_BITS))))).

(** src/utils/bitfield.h: bitfield_set_value *)
Definition bitfield_set_value (bitfield : list Z) (bit val : Z) : list Z :=
  if negb (val =? 0) then bitfield_set bitfield bit else bitfield_clear bitfield bit.

(** The loop [for(i=0; i < cells; i++) bitfield[i] = 0]. *)
(** src/utils/bitfield.h: bitfield_all_clear *)
Definition bitfield_all_clear (bitfield : list Z) (size : Z) : list Z :=
  foldl (λ bf i, <[i := 0]> bf) bitfield (seq 0 (Z.to_nat (bitfield_cells size))).

(** ** Well-formedness *)

(** A bitfield of [n] bits: enough cells, each a 32-bit value. *)
Definition bitfield_wf (n : Z) (bf : list Z) : Prop :=
  length bf = Z.to_nat (bitfield_cells n) ∧ Forall (λ x, 0 ≤ x < 2 ^ 32) bf.

(** ** Lemmas *)

Lemma shift1_pow2 k : 0 ≤ k → Z.shiftl 1 k = 2 ^ k.
Proof. intros Hk. by rewrite Z.shiftl_mul_pow2, Z.mul_1_l by done. Qed.

Lemma cell_index n bit :
  0 < n → 0 ≤ bit < n →
  Z.quot bit 32 = bit / 32 ∧ Z.rem bit 32 = bit mod 32 ∧
  0 ≤ bit / 32 < bitfield_cells n ∧ 0 ≤ bit mod 32 < 32.
Proof.
  intros Hn Hb. rewrite Z.quot_div_nonneg, Z.rem_mod_nonneg by lia.
  split_and!; try done; try (apply Z.div_pos; lia); try (apply Z.mod_pos_bound; lia).
  unfold bitfield_cells, BITFIELD_BITS. rewrite Z.quot_div_nonneg by lia.
  assert (bit / 32 ≤ (n - 1) / 32) by (apply Z.div_le_mono; lia). lia.
Qed.

Lemma cell_eq b b' : b / 32 = b' / 32 → b mod 32 = b' mod 32 → b = b'.
Proof. intros Hq Hr. rewrite (Z.div_mod b 32), (Z.div_mod b' 32) by lia. by rewrite Hq, Hr. Qed.

Section laws.
Context (n : Z) (Hn : 0 < n).

Lemma bitfield_get_testbit bf bit :
  0 ≤ bit < n → bitfield_get bf bit = Z.testbit (aget bf (bit / 32)) (bit mod 32).
Proof.
  intros Hb. destruct (cell_index n bit Hn Hb) as (Hq & Hr & _ & Hm).
  unfold bitfield_get, BITFIELD_BITS. rewrite Hq, Hr, shift1_pow2 by lia.
  apply flag_set_bit. lia.
Qed.

Lemma aget_range bf i :
  Forall (λ x, 0 ≤ x < 2 ^ 32) bf → 0 ≤ aget bf i < 2 ^ 32.
Proof.
  intros Hf. unfold aget. rewrite nth_lookup.
  destruct (bf !! Z.to_nat i) eqn:Hl; simpl; [|lia].
  by eapply (Forall_lookup_1 _ _ _ _ Hf).
Qed.

Lemma bitfield_set_wf bf bit : 0 ≤ bit < n → bitfield_wf n bf → bitfield_wf n (bitfield_set bf bit).
Proof.
  intros Hb [Hl Hf]. destruct (cell_index n bit Hn Hb) as (Hq & Hr & Hc & Hm).
  unfold bitfield_set, BITFIELD_BITS. rewrite Hq, Hr, shift1_pow2 by lia.
  split; [by rewrite aset_length|]. apply Forall_insert; [done|].
  apply lor_range; [lia|by apply aget_range|].
  split; [apply Z.pow_nonneg; lia|]. apply Z.pow_lt_mono_r; lia.
Qed.

Lemma bitfield_clear_wf bf bit : 0 ≤ bit < n → bitfield_wf n bf → bitfield_wf n (bitfield_clear bf bit).
Proof.
  intros Hb [Hl Hf]. unfold bitfield_clear.
  split; [by rewrite aset_length|]. apply Forall_insert; [done|].
  apply land_range; [lia|by apply aget_range|]. apply u32_range.
Qed.

Lemma bitfield_get_set bf b b' :
  bitfield_wf n bf → 0 ≤ b < n → 0 ≤ b' < n →
  bitfield_get (bitfield_set bf b) b' = (b =? b') || bitfield_get bf b'.
Proof.
  intros [Hl Hf] Hb Hb'. rewrite !bitfield_get_testbit by done.
  destruct (cell_index n b Hn Hb) as (Hq & Hr & Hc & Hm).
  destruct (cell_index n b' Hn Hb') as (_ & _ & Hc' & Hm').
  unfold bitfield_set, BITFIELD_BITS. rewrite Hq, Hr, shift1_pow2 by lia.
  destruct (decide (b / 32 = b' / 32)) as [Heq|Hne].
  - rewrite Heq, aget_aset_eq by lia. rewrite Z.lor_spec, testbit_pow2 by lia.
    rewrite orb_comm. f_equal.
    destruct (Z.eqb_spec b b') as [->|Hbb]; [apply Z.eqb_refl|].
    apply Z.eqb_neq. intros Hmm. by apply Hbb, cell_eq.
  - rewrite aget_aset_ne by lia. destruct (Z.eqb_spec b b') as [->|]; [done|by rewrite orb_false_l].
Qed.

Lemma bitfield_get_clear bf b b' :
  bitfield_wf n bf → 0 ≤ b < n → 0 ≤ b' < n →
  bitfield_get (bitfield_clear bf b) b' = negb (b =? b') && bitfield_get bf b'.
Proof.
  intros [Hl Hf] Hb Hb'. rewrite !bitfield_get_testbit by done.
  destruct (cell_index n b Hn Hb) as (Hq & Hr & Hc & Hm).
  destruct (cell_index n b' Hn Hb') as (_ & _ & Hc' & Hm').
  unfold bitfield_clear, BITFIELD_BITS. rewrite Hq, Hr, shift1_pow2 by lia.
  destruct (decide (b / 32 = b' / 32)) as [Heq|Hne].
  - rewrite Heq, aget_aset_eq by lia. rewrite Z.land_spec. unfold u32.
    change 4294967296 with (2 ^ 32). rewrite Z.mod_pow2_bits_low by lia.
    rewrite Z.lnot_spec, testbit_pow2 by lia. rewrite andb_comm. do 2 f_equal.
    destruct (Z.eqb_spec b b') as [->|Hbb]; [apply Z.eqb_refl|].
    apply Z.eqb_neq. intros Hmm. by apply Hbb, cell_eq.
  - rewrite aget_aset_ne by lia. destruct (Z.eqb_spec b b') as [->|]; [done|by rewrite andb_true_l].
Qed.
End laws.

(** After [bitfield_all_clear] over the whole array no bit is set. *)
Lemma bitfield_all_clear_spec n bf :
  0 < n → bitfield_wf n bf →
  bitfield_all_clear bf n = replicate (Z.to_nat (bitfield_cells n)) 0.
Proof.
  intros Hn [Hl Hf]. unfold bitfield_all_clear.
  rewrite foldl_insert_const by lia. rewrite drop_ge by lia. by rewrite app_nil_r.
Qed.

Lemma bitfield_zero_wf n : bitfield_wf n (replicate (Z.to_nat (bitfield_cells n)) 0).
Proof. split; [by rewrite length_replicate|]. apply Forall_replicate. lia. Qed.

Lemma bitfield_get_zero k bit : bitfield_get (replicate k 0) bit = false.
Proof.
  unfold bitfield_get, flag_set, aget. rewrite nth_lookup.
  destruct (replicate k 0 !! _) eqn:Hl; simpl; [|done].
  apply lookup_replicate in Hl as [-> _]. done.
Qed.
