(* ===== verification/CyclicFifo.v ===== *)
(** * Cyclic byte FIFO (src/utils/cyclic_fifo.c)

    The kernel's byte queues (TTY input, pipes, keyboard events) are cyclic
    buffers.  The file models [cfifo_push] and [cfifo_pop] with their two-part
    copies and shows that they implement a bounded queue of bytes: the abstract
    queue [contents] of a well-formed FIFO evolves as the specification [Spec]
    says, for any sequence of operations. *)

From S2P Require Import Prelude.

(** ** Model *)

(** src/utils/cyclic_fifo.h: cyclic_fifo *)
Record cyclic_fifo := mk_fifo {
  max_size : Z;
  top : Z;
  size : Z;
  buffer : list Z
}.

(** [data] is the memory the [data] pointer of the caller points to. *)
(** src/utils/cyclic_fifo.c: cfifo_push *)
Definition cfifo_push (fifo : cyclic_fifo) (data : list Z) (nb : Z) : cyclic_fifo :=
  let room := u32 (max_size fifo - size fifo) in
  let nb := if room <? nb then room else nb in
  if 0 <? nb then
    let bottom := u32 (top fifo + size fifo) mod max_size fifo in
    let buf :=
      if top fifo <=? bottom then
        let realnb := u32 (max_size fifo - bottom) in
        let realnb := if nb <? realnb then nb else realnb in
        let buf := memcpy_to (buffer fifo) (Z.to_nat bottom)
                     (memcpy_from data 0 (Z.to_nat realnb)) in
        let data := drop (Z.to_nat realnb) data in
        if negb (realnb =? nb)
        then memcpy_to buf 0 (memcpy_from data 0 (Z.to_nat (nb - realnb)))
        else buf
      else
        memcpy_to (buffer fifo) (Z.to_nat bottom) (memcpy_from data 0 (Z.to_nat nb)) in
    mk_fifo (max_size fifo) (top fifo) (u32 (size fifo + nb)) buf
  else fifo.

(** The first component is what is written at [data], from its first byte. *)
(** src/utils/cyclic_fifo.c: cfifo_pop *)
Definition cfifo_pop (fifo : cyclic_fifo) (nb : Z) : list Z * cyclic_fifo :=
  let nb := if size fifo <? nb then size fifo else nb in
  if 0 <? nb then
    let endpos := u32 (top fifo + nb - 1) mod max_size fifo in
    let out :=
      if endpos <? top fifo then
        let realnb := u32 (max_size fifo - top fifo) in
        let realnb := if nb <? realnb then nb else realnb in
        let out := memcpy_from (buffer fifo) (Z.to_nat (top fifo)) (Z.to_nat realnb) in
        if negb (realnb =? nb)
        then out ++ memcpy_from (buffer fifo) 0 (Z.to_nat (nb - realnb))
        else out
      else memcpy_from (buffer fifo) (Z.to_nat (top fifo)) (Z.to_nat nb) in
    (out, mk_fifo (max_size fifo) (u32 (endpos + 1) mod max_size fifo)
            (u32 (size fifo - nb)) (buffer fifo))
  else ([], fifo).

(** ** Specification: a bounded queue of bytes *)

Module Spec.
Definition push (cap : Z) (q data : list Z) (nb : Z) : list Z :=
  q ++ take (Z.to_nat (Z.min nb (cap - Z.of_nat (length q)))) data.

Definition pop (q : list Z) (nb : Z) : list Z * list Z :=
  (take (Z.to_nat nb) q, drop (Z.to_nat nb) q).
End Spec.

(** ** Well-formedness and abstraction *)

(** The bound on [max_size] keeps [top + size] inside a [size_t]. *)
Definition fifo_wf (f : cyclic_fifo) : Prop :=
  0 < max_size f < 2 ^ 31 ∧ length (buffer f) = Z.to_nat (max_size f) ∧
  0 ≤ top f < max_size f ∧ 0 ≤ size f ≤ max_size f.

Definition contents (f : cyclic_fifo) : list Z :=
  take (Z.to_nat (size f))
    (drop (Z.to_nat (top f)) (buffer f) ++ take (Z.to_nat (top f)) (buffer f)).

(** Operations as data, to run sequences of them. *)
Inductive fifo_op :=
| OpPush (data : list Z) (nb : Z)
| OpPop (nb : Z).

Definition fifo_step (f : cyclic_fifo) (o : fifo_op) : cyclic_fifo * list Z :=
  match o with
  | OpPush data nb => (cfifo_push f data nb, [])
  | OpPop nb => let '(out, f') := cfifo_pop f nb in (f', out)
  end.

Definition spec_step (cap : Z) (q : list Z) (o : fifo_op) : list Z * list Z :=
  match o with
  | OpPush data nb => (Spec.push cap q data nb, [])
  | OpPop nb => let '(out, q') := Spec.pop q nb in (q', out)
  end.

(** The callers pass at least [nb] bytes, and a [size_t] count. *)
Definition op_ok (o : fifo_op) : Prop :=
  match o with
  | OpPush data nb => 0 ≤ nb < 2 ^ 32 ∧ nb ≤ Z.of_nat (length data)
  | OpPop nb => 0 ≤ nb < 2 ^ 32
  end.

(** ** Lemmas *)

Lemma contents_length f : fifo_wf f → length (contents f) = Z.to_nat (size f).
Proof.
  intros (Hm & Hl & Ht & Hs). unfold contents.
  rewrite length_take, length_app, length_drop, length_take. lia.
Qed.

Lemma mod_wrap a m : 0 < m → 0 ≤ a < 2 * m → a mod m = if a <? m then a else a - m.
Proof.
  intros Hm Ha. destruct (Z.ltb_spec a m).
  - apply Z.mod_small. lia.
  - symmetry. apply Z.mod_unique_pos with 1; lia.
Qed.

(** A buffer cut in three at the end of the data and at the end of the array. *)
Lemma split_three {A} (l : list A) i j :
  (i + j ≤ length l)%nat →
  ∃ a b c, l = a ++ b ++ c ∧ length a = i ∧ length b = j ∧ length c = (length l - i - j)%nat.
Proof.
  intros H. exists (take i l), (take j (drop i l)), (drop (i + j) l).
  rewrite !length_take, !length_drop. split_and!; [|lia..].
  rewrite <- drop_drop, take_drop. symmetry. apply take_drop.
Qed.

(** The data does not wrap: the free space is behind and before it. *)
Lemma push_straight (A B C data : list Z) (n k : nat) :
  (n ≤ length data)%nat → (n ≤ length C + length A)%nat → k = Nat.min n (length C) →
  let buf1 := memcpy_to (A ++ B ++ C) (length A + length B) (take k data) in
  let buf2 := if negb (Nat.eqb k n) then memcpy_to buf1 0 (take (n - k) (drop k data)) else buf1 in
  take (length B + n) (drop (length A) buf2 ++ take (length A) buf2) = B ++ take n data.
Proof.
  intros Hd Hn Hk buf1 buf2.
  assert (Hbuf1 : buf1 = A ++ B ++ take k data ++ drop k C).
  { unfold buf1. rewrite (app_assoc A), memcpy_to_app.
    - rewrite <- app_assoc, length_take. do 4 f_equal. lia.
    - by rewrite length_app.
    - rewrite length_take. lia. }
  unfold buf2. destruct (Nat.eqb_spec k n) as [->|Hne]; simpl.
  - rewrite Hbuf1, drop_app_length, (app_assoc B), <- (app_assoc (B ++ _)).
    apply take_app_length'. rewrite length_app, length_take. lia.
  - assert (k = length C) as Hkc by lia. rewrite Hbuf1, (drop_ge C), app_nil_r by lia.
    assert (Hdd : length (take (n - k) (drop k data)) = (n - k)%nat)
      by (rewrite length_take, length_drop; lia).
    rewrite memcpy_to_spec by (rewrite ?Hdd, ?length_app; simpl; lia).
    simpl. rewrite Hdd, (drop_app_le A), (app_assoc (take (n - k) _)) by lia.
    assert (HlA : length (take (n - k) (drop k data) ++ drop (n - k) A) = length A)
      by (rewrite length_app, Hdd, length_drop; lia).
    rewrite (drop_app_length' _ _ (length A)), (take_app_length' _ _ (length A)) by done.
    rewrite <- !app_assoc, (app_assoc (take k data)).
    rewrite (take_take_drop data k (n - k)). replace (k + (n - k))%nat with n by lia.
    rewrite app_assoc. apply take_app_length'. rewrite length_app, length_take. lia.
Qed.

(** The data wraps: the free space is one block in the middle. *)
Lemma push_wrapped (A M B data : list Z) (n : nat) :
  (n ≤ length data)%nat → (n ≤ length M)%nat →
  let buf := memcpy_to (A ++ M ++ B) (length A) (take n data) in
  take (length B + length A + n) (drop (length A + length M) buf ++ take (length A + length M) buf)
    = (B ++ A) ++ take n data.
Proof.
  intros Hd Hn buf. assert (Hld : length (take n data) = n) by (rewrite length_take; lia).
  assert (Hbuf : buf = A ++ (take n data ++ drop n M) ++ B).
  { unfold buf. rewrite memcpy_to_app; [|done|rewrite length_app; lia].
    rewrite Hld, drop_app_le by lia. by rewrite <- app_assoc. }
  assert (Hl : length (A ++ take n data ++ drop n M) = (length A + length M)%nat)
    by (rewrite !length_app, length_drop; lia).
  rewrite Hbuf, app_assoc, (drop_app_length' _ B), (take_app_length' _ B) by done.
  rewrite !app_assoc. rewrite take_app_le by (rewrite !length_app; lia).
  apply take_ge. rewrite !length_app. lia.
Qed.

(** The contents of a FIFO cut the way the two push lemmas see it. *)
Lemma contents_straight f :
  fifo_wf f → top f + size f < max_size f →
  ∃ A B C, buffer f = A ++ B ++ C ∧ contents f = B ∧ length A = Z.to_nat (top f) ∧
    length B = Z.to_nat (size f) ∧ length C = Z.to_nat (max_size f - top f - size f).
Proof.
  intros (Hm & Hl & Ht & Hs) Hst.
  destruct (split_three (buffer f) (Z.to_nat (top f)) (Z.to_nat (size f)))
    as (A & B & C & HABC & HA & HB & HC); [lia|].
  exists A, B, C. split_and!; try done; [|lia]. unfold contents.
  rewrite HABC, drop_app_length', <- app_assoc by done. apply take_app_length'. done.
Qed.

Lemma contents_wrapped f :
  fifo_wf f → max_size f ≤ top f + size f →
  ∃ A M B, buffer f = A ++ M ++ B ∧ contents f = B ++ A ∧
    length A = Z.to_nat (top f + size f - max_size f) ∧
    length M = Z.to_nat (max_size f - size f) ∧ length B = Z.to_nat (max_size f - top f).
Proof.
  intros (Hm & Hl & Ht & Hs) Hwr.
  destruct (split_three (buffer f) (Z.to_nat (top f + size f - max_size f)) (Z.to_nat (max_size f - size f)))
    as (A & M & B & HAMB & HA & HM & HB); [lia|].
  exists A, M, B. split_and!; try done; [|lia]. unfold contents.
  rewrite HAMB, (app_assoc A).
  rewrite (drop_app_length' (A ++ M)), (take_app_length' (A ++ M)) by (rewrite length_app; lia).
  rewrite app_assoc. apply take_app_length'. rewrite length_app. lia.
Qed.

(** The empty room case: nothing is pushed. *)
Lemma push_none f data nb :
  fifo_wf f → 0 ≤ nb → Z.min nb (max_size f - size f) ≤ 0 →
  cfifo_push f data nb = f ∧
  Spec.push (max_size f) (contents f) data nb = contents f.
Proof.
  intros Hwf Hnb Hmin. pose proof Hwf as (Hm & Hl & Ht & Hs).
  unfold cfifo_push, Spec.push. rewrite contents_length by done.
  rewrite u32_small, Z2Nat.id by lia. split.
  - destruct (Z.ltb_spec (max_size f - size f) nb).
    + destruct (Z.ltb_spec 0 (max_size f - size f)); [lia|done].
    + destruct (Z.ltb_spec 0 nb); [lia|done].
  - replace (Z.to_nat (Z.min nb (max_size f - size f))) with 0%nat by lia.
    by rewrite take_0, app_nil_r.
Qed.

Lemma if_lt_min a b : (if a <? b then a else b) = Z.min a b.
Proof. destruct (Z.ltb_spec a b); lia. Qed.

Lemma to_nat_eqb a b : 0 ≤ a → 0 ≤ b → (a =? b) = Nat.eqb (Z.to_nat a) (Z.to_nat b).
Proof. intros. destruct (Z.eqb_spec a b), (Nat.eqb_spec (Z.to_nat a) (Z.to_nat b)); lia. Qed.

(** What [cfifo_push] does when there is something to push, branch by branch. *)
Lemma push_unfold f data nb n :
  fifo_wf f → 0 ≤ nb → n = Z.min nb (max_size f - size f) → 0 < n →
  cfifo_push f data nb =
    mk_fifo (max_size f) (top f) (size f + n)
      (if top f + size f <? max_size f then
         let k := Nat.min (Z.to_nat n) (Z.to_nat (max_size f - top f - size f)) in
         let buf1 := memcpy_to (buffer f) (Z.to_nat (top f) + Z.to_nat (size f)) (take k data) in
         if negb (Nat.eqb k (Z.to_nat n))
         then memcpy_to buf1 0 (take (Z.to_nat n - k) (drop k data)) else buf1
       else memcpy_to (buffer f) (Z.to_nat (top f + size f - max_size f)) (take (Z.to_nat n) data)).
Proof.
  intros (Hm & Hl & Ht & Hs) Hnb Hn Hpos. unfold cfifo_push.
  rewrite (u32_small (max_size f - size f)), if_lt_min, Z.min_comm, <- Hn by lia.
  destruct (Z.ltb_spec 0 n); [|lia].
  rewrite (u32_small (top f + size f)), (u32_small (size f + n)), mod_wrap by lia.
  unfold memcpy_from. rewrite !drop_0. f_equal.
  destruct (Z.ltb_spec (top f + size f) (max_size f)).
  - destruct (Z.leb_spec (top f) (top f + size f)); [|lia].
    rewrite u32_small, if_lt_min by lia.
    rewrite to_nat_eqb, <- Z.sub_add_distr, Z2Nat.inj_sub, Z2Nat.inj_add by lia.
    by rewrite !Z2Nat.inj_min.
  - by destruct (Z.leb_spec (top f) (top f + size f - max_size f)); [lia|].
Qed.

Lemma cfifo_push_ok f data nb :
  fifo_wf f → 0 ≤ nb < 2 ^ 32 → nb ≤ Z.of_nat (length data) →
  contents (cfifo_push f data nb) = Spec.push (max_size f) (contents f) data nb ∧
  fifo_wf (cfifo_push f data nb) ∧ max_size (cfifo_push f data nb) = max_size f.
Proof.
  intros Hwf Hnb Hdata. pose proof Hwf as (Hm & Hl & Ht & Hs).
  remember (Z.min nb (max_size f - size f)) as n eqn:Hn.
  destruct (decide (n ≤ 0)) as [Hn0|Hn0].
  { destruct (push_none f data nb Hwf) as [-> ->]; [lia..|done]. }
  rewrite (push_unfold f data nb n) by (done || lia).
  unfold Spec.push. rewrite contents_length, Z2Nat.id, <- Hn by (done || lia).
  split_and!; [|split_and!; simpl; try lia|done].
  - unfold contents at 1. simpl.
    destruct (Z.ltb_spec (top f + size f) (max_size f)).
    + destruct (contents_straight f Hwf) as (A & B & C & HABC & Hc & HA & HB & HC); [done|].
      rewrite Hc, HABC, Z2Nat.inj_add, <- HA, <- HB by lia.
      apply push_straight; lia.
    + destruct (contents_wrapped f Hwf) as (A & M & B & HAMB & Hc & HA & HM & HB); [done|].
      rewrite Hc, HAMB, <- HA.
      replace (Z.to_nat (size f + n)) with (length B + length A + Z.to_nat n)%nat by lia.
      replace (Z.to_nat (top f)) with (length A + length M)%nat by lia.
      apply push_wrapped; lia.
  - by destruct (top f + size f <? max_size f); [case_match|]; rewrite ?memcpy_to_length.
Qed.

Lemma pop_unfold f nb n :
  fifo_wf f → 0 ≤ nb → n = Z.min nb (size f) → 0 < n →
  cfifo_pop f nb =
    (take (Z.to_nat n) (contents f),
     mk_fifo (max_size f) (if top f + n <? max_size f then top f + n else top f + n - max_size f)
       (size f - n) (buffer f)).
Proof.
  intros Hwf Hnb Hn Hpos. pose proof Hwf as (Hm & Hl & Ht & Hs). unfold cfifo_pop.
  rewrite if_lt_min, Z.min_comm, <- Hn. destruct (Z.ltb_spec 0 n); [|lia].
  rewrite (u32_small (top f + n - 1)), (mod_wrap (top f + n - 1)) by lia.
  rewrite !(u32_small (size f - n)), (u32_small (max_size f - top f)) by lia.
  rewrite if_lt_min, to_nat_eqb by lia. unfold memcpy_from, contents. rewrite drop_0, take_take.
  replace (Z.to_nat n `min` Z.to_nat (size f))%nat with (Z.to_nat n) by lia.
  destruct (Z.ltb_spec (top f + n - 1) (max_size f)) as [Hlt|Hge].
  - destruct (Z.ltb_spec (top f + n - 1) (top f)); [lia|].
    rewrite u32_small by lia. f_equal; [|f_equal].
    + rewrite take_app_le; [done|]. rewrite length_drop. lia.
    + replace (top f + n - 1 + 1) with (top f + n) by lia. apply mod_wrap; lia.
  - destruct (Z.ltb_spec (top f + n - 1 - max_size f) (top f)); [|lia].
    rewrite u32_small, mod_wrap by lia.
    destruct (Z.ltb_spec (top f + n) (max_size f)); [lia|].
    destruct (Z.ltb_spec (top f + n - 1 - max_size f + 1) (max_size f)); [|lia].
    f_equal; [|f_equal; lia].
    rewrite Z.min_r by lia. destruct (Nat.eqb_spec (Z.to_nat (max_size f - top f)) (Z.to_nat n)); [lia|].
    simpl. rewrite take_app_ge by (rewrite length_drop; lia).
    rewrite (take_ge (drop _ _)) by (rewrite length_drop; lia).
    rewrite take_take, length_drop. do 2 f_equal. lia.
Qed.

(** Moving [top] forward drops from the front of the rotated buffer. *)
Lemma rotate_drop (buf : list Z) (t n : nat) :
  (t < length buf)%nat → (n ≤ length buf)%nat →
  let t' := (if Nat.ltb (t + n) (length buf) then t + n else t + n - length buf)%nat in
  ∃ rest, drop t' buf ++ take t' buf = drop n (drop t buf ++ take t buf) ++ rest.
Proof.
  intros Ht Hn. simpl. destruct (Nat.ltb_spec (t + n) (length buf)).
  - exists (take n (drop t buf)). rewrite drop_app_le by (rewrite length_drop; lia).
    by rewrite drop_drop, <- app_assoc, take_take_drop.
  - eexists. rewrite (drop_app_ge _ _ n) by (rewrite length_drop; lia).
    rewrite length_drop. replace (n - (length buf - t))%nat with (t + n - length buf)%nat by lia.
    set (k := (t + n - length buf)%nat).
    assert (drop k buf = drop k (take t buf) ++ drop t buf) as ->; [|by rewrite <- app_assoc].
    rewrite <- (take_drop t buf) at 1. apply drop_app_le. rewrite length_take. lia.
Qed.

Lemma cfifo_pop_ok f nb :
  fifo_wf f → 0 ≤ nb < 2 ^ 32 →
  fst (cfifo_pop f nb) = fst (Spec.pop (contents f) nb) ∧
  contents (snd (cfifo_pop f nb)) = snd (Spec.pop (contents f) nb) ∧
  fifo_wf (snd (cfifo_pop f nb)) ∧ max_size (snd (cfifo_pop f nb)) = max_size f.
Proof.
  intros Hwf Hnb. pose proof Hwf as (Hm & Hl & Ht & Hs). pose proof (contents_length f Hwf) as Hcl.
  remember (Z.min nb (size f)) as n eqn:Hn. destruct (decide (n ≤ 0)) as [Hn0|Hn0].
  { unfold cfifo_pop, Spec.pop. rewrite if_lt_min. destruct (Z.ltb_spec 0 (Z.min (size f) nb)); [lia|].
    simpl. destruct (decide (nb = 0)) as [->|]; [by rewrite take_0, drop_0|].
    destruct (contents f) eqn:Hc; [by rewrite take_nil, drop_nil|]. simpl in Hcl. lia. }
  rewrite (pop_unfold f nb n) by (done || lia). unfold Spec.pop. simpl.
  assert (Hnn : Z.to_nat n = Nat.min (Z.to_nat nb) (length (contents f))) by lia.
  split_and!; [| |split_and!; simpl; try lia; case_match; breflect; lia|done].
  - rewrite Hnn. destruct (decide (Z.to_nat nb ≤ length (contents f))%nat).
    + by rewrite Nat.min_l.
    + by rewrite Nat.min_r, !take_ge by lia.
  - transitivity (drop (Z.to_nat n) (contents f)).
    + unfold contents. simpl. rewrite Z2Nat.inj_sub, skipn_firstn_comm by lia.
      destruct (rotate_drop (buffer f) (Z.to_nat (top f)) (Z.to_nat n)) as [rest Hrot]; [lia..|].
      replace (Z.to_nat (if _ <? _ then _ else _)) with
        (if Nat.ltb (Z.to_nat (top f) + Z.to_nat n) (length (buffer f))
         then (Z.to_nat (top f) + Z.to_nat n)%nat
         else (Z.to_nat (top f) + Z.to_nat n - length (buffer f))%nat).
      * rewrite Hrot. apply take_app_le. rewrite length_drop, length_app, length_drop, length_take. lia.
      * destruct (Z.ltb_spec (top f + n) (max_size f)), (Nat.ltb_spec (Z.to_nat (top f) + Z.to_nat n) (length (buffer f))); lia.
    + rewrite Hnn. destruct (decide (Z.to_nat nb ≤ length (contents f))%nat).
      * by rewrite Nat.min_l.
      * by rewrite Nat.min_r, !drop_ge by lia.
Qed.

(** C13: every sequence of [cfifo_push] and [cfifo_pop] calls on a well-formed
    FIFO returns the bytes a bounded queue of the same capacity returns, leaves
    the queue's contents in the buffer and keeps the FIFO well formed. *)
Theorem cfifo_refines_queue f ops :
  fifo_wf f → Forall op_ok ops →
  snd (run fifo_step f ops) = snd (run (spec_step (max_size f)) (contents f) ops) ∧
  contents (fst (run fifo_step f ops)) = fst (run (spec_step (max_size f)) (contents f) ops) ∧
  fifo_wf (fst (run fifo_step f ops)).
Proof.
  intros Hwf Hops.
  destruct (run_simulation fifo_step (spec_step (max_size f)) op_ok (λ g q, fifo_wf g ∧ contents g = q ∧ max_size g = max_size f)
    f (contents f) ops) as (Ho & Hw & Hc & _); [|done..|done].
  intros g q o (Hg & <- & Hm) Ho. destruct o as [data nb|nb]; simpl in *; rewrite <- Hm.
  - destruct Ho as [Ho1 Ho2]. pose proof (cfifo_push_ok g data nb Hg Ho1 Ho2). naive_solver.
  - pose proof (cfifo_pop_ok g nb Hg Ho) as Hp. unfold Spec.pop in Hp. destruct (cfifo_pop g nb). naive_solver.
Qed.

(** A FIFO of four bytes whose data wraps around twice. *)
Lemma cfifo_refines_queue_witness :
  snd (run fifo_step (mk_fifo 4 2 0 [9; 9; 9; 9])
    [OpPush [1; 2; 3] 3; OpPop 2; OpPush [4; 5; 6; 7] 4; OpPop 9]) = [[]; [1; 2]; []; [3; 4; 5; 6]].
Proof.
  rewrite (proj1 (cfifo_refines_queue (mk_fifo 4 2 0 [9; 9; 9; 9])
    [OpPush [1; 2; 3] 3; OpPop 2; OpPush [4; 5; 6; 7] 4; OpPop 9]
    ltac:(unfold fifo_wf; simpl; lia)
    ltac:(repeat constructor; simpl; lia))).
  reflexivity.
Defined.
