(* ===== verification/CLists.v ===== *)
(** * Intrusive circular lists (src/utils/list.h)

    The kernel links processes, memory areas and wait items through a
    [list_head]/[dlist_head] field.  Every list is circular: an empty head
    points to itself and the last element points back to the head.  The file
    models the operations on the memory that holds the link fields and relates
    a head to the sequence of its elements; the other components of the
    development work on that sequence. *)

From S2P Require Import Prelude.

(** ** Model *)

(** The memory of one link field: the word stored at the address of a node. *)
Abbreviation links := (Z → Z) (only parsing).

Definition upd (m : links) (a v : Z) : links := λ x, if x =? a then v else m x.

(** The two fields of [struct dlist_head]. *)
(** src/utils/list.h: dlist_head *)
Record dlinks := mk_dlinks { d_next : links; d_prev : links }.

(** src/utils/list.h: INIT_LIST_HEAD *)
Definition INIT_LIST_HEAD (nx : links) (head : ptr) : links := upd nx head head.

(** src/utils/list.h: INIT_DLIST_HEAD *)
Definition INIT_DLIST_HEAD (m : dlinks) (head : ptr) : dlinks :=
  mk_dlinks (upd (d_next m) head head) (upd (d_prev m) head head).

(** [list_for_each(cur, head)]: the sequence of values of [cur]; [None] when
    [fuel] iterations do not reach the head again. *)
(** src/utils/list.h: list_for_each *)
Fixpoint list_for_each_from (fuel : nat) (nx : links) (head cur : ptr) : option (list ptr) :=
  if cur =? head then Some []
  else match fuel with
       | O => None
       | S fuel => cons cur <$> list_for_each_from fuel nx head (nx cur)
       end.

Definition list_for_each (fuel : nat) (nx : links) (head : ptr) : option (list ptr) :=
  list_for_each_from fuel nx head (nx head).

(** src/utils/list.h: list_push_front *)
Definition list_push_front (nx : links) (head element : ptr) : links :=
  let nx := upd nx element (nx head) in
  upd nx head element.

(** The search loop [for(prev=head; prev->next!=element && prev->next!=head;
    prev=prev->next)]. *)
(** src/utils/list.h:76-76: list_remove *)
Fixpoint list_find_prev (fuel : nat) (nx : links) (head element prev : ptr) : option ptr :=
  if negb (nx prev =? element) && negb (nx prev =? head) then
    match fuel with
    | O => None
    | S fuel => list_find_prev fuel nx head element (nx prev)
    end
  else Some prev.

(** src/utils/list.h: list_remove *)
Definition list_remove (fuel : nat) (nx : links) (head element : ptr) : option links :=
  prev ← list_find_prev fuel nx head element head;
  Some (if nx prev =? element then
          let nx := upd nx prev (nx element) in
          upd nx element element
        else nx).

(** src/utils/list.h: dlist_push_front *)
Definition dlist_push_front (m : dlinks) (head element : ptr) : dlinks :=
  let nx := upd (d_next m) element (d_next m head) in
  let pv := upd (d_prev m) element head in
  let pv := upd pv (nx head) element in
  let nx := upd nx head element in
  mk_dlinks nx pv.

(** src/utils/list.h: dlist_push_back *)
Definition dlist_push_back (m : dlinks) (head element : ptr) : dlinks :=
  let pv := upd (d_prev m) element (d_prev m head) in
  let nx := upd (d_next m) element head in
  let nx := upd nx (pv head) element in
  let pv := upd pv head element in
  mk_dlinks nx pv.

(** src/utils/list.h: dlist_remove *)
Definition dlist_remove (m : dlinks) (element : ptr) : dlinks :=
  let pv := upd (d_prev m) (d_next m element) (d_prev m element) in
  let nx := upd (d_next m) (pv element) (d_next m element) in
  let pv := upd pv element element in
  let nx := upd nx element element in
  mk_dlinks nx pv.

(** ** Representation *)

(** [seg nx a xs b]: following [nx] from [a] meets [xs] in order, then [b]. *)
Fixpoint seg (nx : links) (a : ptr) (xs : list ptr) (b : ptr) : Prop :=
  match xs with
  | [] => nx a = b
  | x :: xs => nx a = x ∧ seg nx x xs b
  end.

(** The circular list at [head] holds exactly [xs], each element once. *)
Definition clist (nx : links) (head : ptr) (xs : list ptr) : Prop :=
  seg nx head xs head ∧ NoDup (head :: xs).

(** A doubly linked list: the [prev] fields hold the reversed sequence. *)
Definition dlist (m : dlinks) (head : ptr) (xs : list ptr) : Prop :=
  clist (d_next m) head xs ∧ seg (d_prev m) head (reverse xs) head.

(** ** Lemmas *)

Lemma upd_eq m a v : upd m a v a = v.
Proof. unfold upd. by rewrite Z.eqb_refl. Qed.

Lemma upd_ne m a v x : x ≠ a → upd m a v x = m x.
Proof. intros H. unfold upd. by destruct (Z.eqb_spec x a). Qed.

#[export] Hint Rewrite upd_eq : fixos.

(** Solves lookups in updated links when the addresses are known distinct. *)
Ltac upd_solve :=
  repeat first [ rewrite upd_eq | rewrite upd_ne by (done || set_solver || congruence) ].

Lemma seg_app nx a xs b ys c :
  seg nx a (xs ++ b :: ys) c ↔ seg nx a xs b ∧ seg nx b ys c.
Proof. revert a. induction xs as [|x xs IH]; intros a; simpl; [done|]. rewrite IH. tauto. Qed.

(** Only the links of [a] and of the elements matter. *)
Lemma seg_frame nx nx' a xs b :
  (∀ x, x ∈ a :: xs → nx' x = nx x) → seg nx a xs b → seg nx' a xs b.
Proof.
  revert a. induction xs as [|x xs IH]; intros a Hf; simpl.
  - rewrite Hf; [done|set_solver].
  - intros [Hx Hs]. rewrite Hf by set_solver. split; [done|].
    apply IH; [|done]. intros y Hy. apply Hf. set_solver.
Qed.

Lemma seg_upd nx a xs b p v : p ∉ a :: xs → seg nx a xs b → seg (upd nx p v) a xs b.
Proof. intros Hp. apply seg_frame. intros x Hx. apply upd_ne. set_solver. Qed.

(** Redirecting the last node of a segment. *)
Lemma seg_upd_last nx a xs y b c :
  y ∉ a :: xs → seg nx a (xs ++ [y]) b → seg (upd nx y c) a (xs ++ [y]) c.
Proof.
  intros Hy. rewrite !seg_app. intros [Hs Hl]. simpl. split; [by apply seg_upd|apply upd_eq].
Qed.

Lemma list_for_each_seg nx head cur xs fuel :
  seg nx cur xs head → cur ≠ head → head ∉ xs → (length xs < fuel)%nat →
  list_for_each_from fuel nx head cur = Some (cur :: xs).
Proof.
  revert cur fuel. induction xs as [|x xs IH]; intros cur fuel Hs Hc Hn Hf;
    (destruct fuel as [|fuel]; [simpl in *; lia|]); simpl in *;
    (destruct (Z.eqb_spec cur head); [done|]).
  - rewrite Hs. destruct fuel; simpl; by rewrite Z.eqb_refl.
  - destruct Hs as [-> Hs]. rewrite (IH x); [done|done|set_solver|set_solver|lia].
Qed.

(** The traversal visits exactly the elements, and ends. *)
Lemma list_for_each_spec nx head xs fuel :
  clist nx head xs → (length xs < fuel)%nat → list_for_each fuel nx head = Some xs.
Proof.
  intros [Hs Hnd] Hf. apply NoDup_cons in Hnd as [Hn Hnd].
  unfold list_for_each. destruct xs as [|x xs]; simpl in *.
  - rewrite Hs. destruct fuel; simpl; by rewrite Z.eqb_refl.
  - destruct Hs as [-> Hs]. apply list_for_each_seg; [done|set_solver..|lia].
Qed.

Lemma init_spec nx head : clist (INIT_LIST_HEAD nx head) head [].
Proof. split; [apply upd_eq|by apply NoDup_singleton]. Qed.

Lemma push_front_spec nx head e xs :
  clist nx head xs → e ≠ head → e ∉ xs → clist (list_push_front nx head e) head (e :: xs).
Proof.
  intros [Hs Hnd] Heh Hex. apply NoDup_cons in Hnd as [Hn Hnd].
  split; [|repeat (apply NoDup_cons; split); [set_solver..|done]].
  unfold list_push_front. simpl. split; [apply upd_eq|].
  destruct xs as [|x xs]; simpl in *.
  - rewrite upd_ne by done. by rewrite upd_eq.
  - destruct Hs as [Hx Hs]. rewrite upd_ne, upd_eq by done. split; [done|].
    apply seg_upd; [set_solver|]. apply seg_upd; [set_solver|done].
Qed.

(** The search loop ends on the predecessor of the element... *)
Lemma find_prev_present nx head e prev xs ys fuel :
  seg nx prev (xs ++ e :: ys) head → e ∉ xs → head ∉ xs → e ≠ head → (length xs ≤ fuel)%nat →
  list_find_prev fuel nx head e prev = Some (default prev (last xs)).
Proof.
  revert prev fuel. induction xs as [|x xs IH]; intros prev fuel Hs Hex Hhx Hne Hf; simpl in *.
  - destruct Hs as [Hp _]. destruct fuel; simpl; by rewrite Hp, Z.eqb_refl.
  - destruct Hs as [Hp Hs]. destruct fuel as [|fuel]; [lia|]. simpl. rewrite Hp.
    destruct (Z.eqb_spec x e); [set_solver|]. destruct (Z.eqb_spec x head); [set_solver|]. simpl.
    rewrite (IH x fuel), last_cons; [by destruct (last xs)|done|set_solver|set_solver|done|lia].
Qed.

(** ... or on the last node, whose [next] is the head. *)
Lemma find_prev_absent nx head e prev xs fuel :
  seg nx prev xs head → e ∉ xs → head ∉ xs → e ≠ head → (length xs ≤ fuel)%nat →
  list_find_prev fuel nx head e prev = Some (default prev (last xs)) ∧
  nx (default prev (last xs)) = head.
Proof.
  revert prev fuel. induction xs as [|x xs IH]; intros prev fuel Hs Hex Hhx Hne Hf; simpl in *.
  - split; [|done]. destruct fuel; simpl; by rewrite Hs, Z.eqb_refl, andb_false_r.
  - destruct Hs as [Hp Hs]. destruct fuel as [|fuel]; [lia|]. simpl. rewrite Hp.
    destruct (Z.eqb_spec x e); [set_solver|]. destruct (Z.eqb_spec x head); [set_solver|]. simpl.
    destruct (IH x fuel) as [H1 H2]; [done|set_solver|set_solver|done|lia|].
    rewrite H1, last_cons. by destruct (last xs).
Qed.

(** Unlinking an element: its predecessor is sent to its successor. *)
Lemma seg_unlink nx head e xs ys :
  seg nx head (xs ++ e :: ys) head → NoDup (head :: xs ++ e :: ys) →
  let p := default head (last xs) in
  nx p = e ∧ p ≠ e ∧ seg (upd (upd nx p (nx e)) e e) head (xs ++ ys) head.
Proof.
  intros Hs Hnd p. rewrite NoDup_cons, NoDup_app, NoDup_cons in Hnd.
  destruct Hnd as (Hh & Hxs & Hdisj & Hey & Hys). apply seg_app in Hs as [Hpre Hpost].
  assert (e ∉ xs) by (intros ?; apply (Hdisj e); set_solver).
  assert (Hlast : nx p = e ∧ p ≠ e ∧ p ∈ head :: xs ∧ seg (upd nx p (nx e)) head xs (nx e)).
  { unfold p. destruct xs as [|x xs' _] using rev_ind; simpl.
    - split_and!; [done|set_solver|set_solver|apply upd_eq].
    - rewrite last_snoc. simpl. apply NoDup_app in Hxs as (_ & Hd & _).
      split_and!; [by apply seg_app in Hpre as [_ Hl]|set_solver|set_solver|].
      eapply seg_upd_last; [set_solver|done]. }
  destruct Hlast as (Hp & Hpe & Hpin & Hnew). split_and!; [done|done|].
  assert (p ∉ ys) by (intros ?; apply elem_of_cons in Hpin as [->|Hin]; [|apply (Hdisj p)]; set_solver).
  destruct ys as [|y ys]; simpl in *.
  - rewrite app_nil_r. rewrite Hpost in Hnew |- *. apply seg_upd; [set_solver|done].
  - destruct Hpost as [Hy Hpost]. rewrite Hy in Hnew |- *. apply seg_app.
    split; [apply seg_upd; [set_solver|done]|].
    apply seg_upd; [set_solver|]. by apply seg_upd.
Qed.

Lemma NoDup_unlink (head e : Z) xs ys : NoDup (head :: xs ++ e :: ys) → NoDup (head :: xs ++ ys).
Proof.
  rewrite !NoDup_cons, !NoDup_app, NoDup_cons. intros (Hh & Hxs & Hdisj & Hey & Hys).
  split_and!; [set_solver|done| |done]. intros x Hx Hy. apply (Hdisj x); set_solver.
Qed.

Lemma remove_present nx head e xs ys fuel :
  clist nx head (xs ++ e :: ys) → (length xs ≤ fuel)%nat →
  ∃ nx', list_remove fuel nx head e = Some nx' ∧ clist nx' head (xs ++ ys) ∧ nx' e = e.
Proof.
  intros [Hs Hnd] Hf. destruct (seg_unlink nx head e xs ys Hs Hnd) as (Hp & Hpe & Hu).
  pose proof Hnd as Hnd'. rewrite NoDup_cons, NoDup_app in Hnd'. destruct Hnd' as (Hh & _ & Hdisj & _).
  unfold list_remove. rewrite (find_prev_present nx head e head xs ys).
  - simpl. rewrite Hp, Z.eqb_refl. eexists. split; [done|]. split; [|apply upd_eq].
    split; [done|by eapply NoDup_unlink].
  - done.
  - intros Hin. apply (Hdisj e); set_solver.
  - set_solver.
  - set_solver.
  - done.
Qed.

Lemma remove_absent nx head e xs fuel :
  clist nx head xs → e ∉ xs → e ≠ head → (length xs ≤ fuel)%nat →
  list_remove fuel nx head e = Some nx.
Proof.
  intros [Hs Hnd] Hex Hne Hf. apply NoDup_cons in Hnd as [Hn _]. unfold list_remove.
  destruct (find_prev_absent nx head e head xs fuel) as [-> Hp]; [done..|]. simpl.
  rewrite Hp. by destruct (Z.eqb_spec head e).
Qed.

Lemma dinit_spec m head : dlist (INIT_DLIST_HEAD m head) head [].
Proof. split; [split; [apply upd_eq|by apply NoDup_singleton]|apply upd_eq]. Qed.

Lemma dpush_front_spec m head e xs :
  dlist m head xs → e ≠ head → e ∉ xs → dlist (dlist_push_front m head e) head (e :: xs).
Proof.
  intros [Hc Hp] Heh Hex. pose proof (push_front_spec (d_next m) head e xs Hc Heh Hex) as Hc'.
  split; [exact Hc'|]. clear Hc'. destruct Hc as [Hs Hnd]. apply NoDup_cons in Hnd as [Hn Hnd].
  unfold dlist_push_front. cbn [d_next d_prev]. rewrite reverse_cons, (upd_ne _ _ _ head) by done.
  destruct xs as [|x xs]; simpl in *.
  - rewrite Hs, upd_eq, upd_ne by done. split; [done|apply upd_eq].
  - destruct Hs as [Hx Hs]. rewrite reverse_cons in Hp |- *.
    rewrite Hx. apply seg_app. split; [|simpl; rewrite upd_ne by set_solver; apply upd_eq].
    apply (seg_upd_last _ _ _ _ head).
    { rewrite elem_of_cons, elem_of_reverse. apply NoDup_cons in Hnd. set_solver. }
    apply seg_upd; [|done]. rewrite elem_of_cons, elem_of_app, elem_of_reverse. set_solver.
Qed.

(** The reversed view of a doubly linked list. *)
Lemma dlist_flip m head xs :
  dlist m head xs ↔ dlist (mk_dlinks (d_prev m) (d_next m)) head (reverse xs).
Proof.
  unfold dlist, clist. simpl. rewrite reverse_involutive, !NoDup_cons, elem_of_reverse.
  assert (NoDup (reverse xs) ↔ NoDup xs) as -> by (by rewrite reverse_Permutation). tauto.
Qed.

Lemma dpush_back_flip m head e :
  dlist_push_back m head e =
  let m' := dlist_push_front (mk_dlinks (d_prev m) (d_next m)) head e in
  mk_dlinks (d_prev m') (d_next m').
Proof. done. Qed.

Lemma dpush_back_spec m head e xs :
  dlist m head xs → e ≠ head → e ∉ xs → dlist (dlist_push_back m head e) head (xs ++ [e]).
Proof.
  intros Hd Heh Hex. apply dlist_flip. rewrite reverse_snoc, dpush_back_flip.
  apply dlist_flip in Hd. apply (dpush_front_spec _ _ e) in Hd; [|done|by rewrite elem_of_reverse].
  exact Hd.
Qed.

Lemma dremove_spec m head e xs ys :
  dlist m head (xs ++ e :: ys) → dlist (dlist_remove m e) head (xs ++ ys).
Proof.
  intros [[Hs Hnd] Hp].
  destruct (seg_unlink (d_next m) head e xs ys Hs Hnd) as (Hnp & Hpe & Hn').
  rewrite reverse_app, reverse_cons, <- app_assoc in Hp. simpl in Hp.
  assert (Hndr : NoDup (head :: reverse ys ++ e :: reverse xs)).
  { eapply NoDup_Permutation_proper; [|exact Hnd].
    rewrite !reverse_Permutation. apply Permutation_skip. by rewrite <- !Permutation_middle, Permutation_app_comm. }
  destruct (seg_unlink (d_prev m) head e (reverse ys) (reverse xs) Hp Hndr) as (Hpp & Hne & Hp').
  assert (Hne2 : d_next m e = default head (last (reverse ys))).
  { rewrite last_reverse. apply seg_app in Hs as [_ Hs].
    destruct ys as [|y ys]; simpl in *; [done|]. by destruct Hs as [-> _]. }
  assert (Hpe' : d_prev m e = default head (last xs)).
  { apply seg_app in Hp as [_ Hp]. destruct xs as [|x xs' _] using rev_ind; [done|].
    rewrite reverse_snoc in Hp. rewrite last_snoc. by destruct Hp as [-> _]. }
  unfold dlist_remove, dlist, clist. cbn [d_next d_prev]. rewrite (upd_ne _ _ _ e) by congruence.
  rewrite Hpe'. split; [split; [done|by eapply NoDup_unlink]|].
  rewrite reverse_app, Hne2, <- Hpe'. done.
Qed.

(** ** Operation sequences on a doubly linked list *)

Inductive dop := PushFront (e : ptr) | PushBack (e : ptr) | Remove (e : ptr).

Definition dop_run (head : ptr) (m : dlinks) (o : dop) : dlinks :=
  match o with
  | PushFront e => dlist_push_front m head e
  | PushBack e => dlist_push_back m head e
  | Remove e => dlist_remove m e
  end.

Module Spec.
(** What each operation does to the sequence of elements. *)
Definition dop_seq (xs : list ptr) (o : dop) : list ptr :=
  match o with
  | PushFront e => e :: xs
  | PushBack e => xs ++ [e]
  | Remove e => filter (λ x, x ≠ e) xs
  end.

(** The callers' obligation: push what is not linked, remove what is. *)
Definition dop_ok (head : ptr) (xs : list ptr) (o : dop) : bool :=
  match o with
  | PushFront e | PushBack e => bool_decide (e ≠ head ∧ e ∉ xs)
  | Remove e => bool_decide (e ∈ xs)
  end.

Fixpoint dops_ok (head : ptr) (xs : list ptr) (os : list dop) : bool :=
  match os with
  | [] => true
  | o :: os => dop_ok head xs o && dops_ok head (dop_seq xs o) os
  end.
End Spec.

Lemma filter_ne_absent (e : Z) (xs : list Z) : e ∉ xs → filter (λ x, x ≠ e) xs = xs.
Proof.
  induction xs as [|x xs IH]; intros He; [done|]. rewrite filter_cons_True by set_solver.
  rewrite IH by set_solver. done.
Qed.

Lemma filter_ne_split (e : Z) (xs ys : list Z) :
  NoDup (xs ++ e :: ys) → filter (λ x, x ≠ e) (xs ++ e :: ys) = xs ++ ys.
Proof.
  rewrite NoDup_app, NoDup_cons. intros (_ & Hd & He & _).
  rewrite filter_app, filter_cons_False by tauto.
  rewrite !filter_ne_absent; [done|tauto|]. intros Hin. apply (Hd e Hin). set_solver.
Qed.

Lemma dop_run_spec head m o xs :
  dlist m head xs → Spec.dop_ok head xs o = true → dlist (dop_run head m o) head (Spec.dop_seq xs o).
Proof.
  intros Hd Ho. destruct o as [e|e|e]; apply bool_decide_eq_true in Ho; simpl.
  - destruct Ho. by apply dpush_front_spec.
  - destruct Ho. by apply dpush_back_spec.
  - apply list_elem_of_split in Ho as (l1 & l2 & ->).
    rewrite filter_ne_split; [by apply dremove_spec|]. destruct Hd as [[_ Hnd] _].
    apply NoDup_cons in Hnd. tauto.
Qed.

(** ** Properties *)

(** [list_remove] terminates within as many iterations as the list has
    elements and unlinks exactly the given element: the list then holds the
    other elements in their order, whether or not the element was in it, and
    an unlinked element points to itself. *)
Theorem list_remove_correct nx head e xs fuel :
  clist nx head xs → e ≠ head → (length xs ≤ fuel)%nat →
  ∃ nx', list_remove fuel nx head e = Some nx' ∧
         clist nx' head (filter (λ x, x ≠ e) xs) ∧ (e ∈ xs → nx' e = e).
Proof.
  intros Hc Hne Hf. destruct (decide (e ∈ xs)) as [Hin|Hnin].
  - apply list_elem_of_split in Hin as (l1 & l2 & ->).
    destruct (remove_present nx head e l1 l2 fuel Hc) as (nx' & -> & Hc' & He).
    { rewrite length_app in Hf. simpl in Hf. lia. }
    exists nx'. destruct Hc as [_ [_ Hnd]%NoDup_cons]. by rewrite filter_ne_split.
  - exists nx. rewrite (remove_absent nx head e xs) by done. split_and!; [done| |done].
    by rewrite filter_ne_absent.
Qed.

(** The links of the list [2; 3; 4] with its head at 1. *)
Definition demo_links : links := λ x, if x =? 4 then 1 else x + 1.

Lemma list_remove_correct_witness :
  ∃ nx', list_remove 3 demo_links 1 3 = Some nx' ∧ clist nx' 1 [2; 4].
Proof.
  destruct (list_remove_correct demo_links 1 3 [2; 3; 4] 3) as (nx' & H & Hc & _).
  - split; [by repeat split|]. by apply (bool_decide_eq_true_1 (NoDup _)).
  - done.
  - simpl. lia.
  - exists nx'. by split.
Defined.

(** Every sequence of [dlist_push_front], [dlist_push_back] and
    [dlist_remove] that starts on an initialised head, pushes elements that are
    not linked and removes elements that are, leaves in the [next] fields the
    sequence the specification computes and in the [prev] fields its reverse. *)
Theorem dlist_ops_refine head m os :
  Spec.dops_ok head [] os = true →
  dlist (foldl (dop_run head) (INIT_DLIST_HEAD m head) os) head (foldl Spec.dop_seq [] os).
Proof.
  assert (∀ os m xs, dlist m head xs → Spec.dops_ok head xs os = true →
    dlist (foldl (dop_run head) m os) head (foldl Spec.dop_seq xs os)) as Hgen.
  { clear. induction os as [|o os IH]; intros m xs Hd Ho; [done|]. simpl in *.
    apply andb_prop in Ho as [Ho Hos]. apply IH; [by apply dop_run_spec|done]. }
  intros Ho. apply Hgen; [apply dinit_spec|done].
Qed.

Lemma dlist_ops_refine_witness :
  dlist (foldl (dop_run 1) (INIT_DLIST_HEAD (mk_dlinks (λ _, 7) (λ _, 9)) 1)
    [PushBack 2; PushFront 3; PushBack 4; Remove 2]) 1 [3; 4].
Proof. apply (dlist_ops_refine 1 _ [PushBack 2; PushFront 3; PushBack 4; Remove 2]). vm_compute. done. Defined.
