(* ===== verification/PhysMem.v ===== *)
(** * Physical pages (src/arch/sh/physical_memory.c)

    Free pages form a singly linked list threaded through the first word of
    each page.  The file models the discovery of the RAM size, the construction
    of the list, the two list operations and the [arch_pm_*] functions the rest
    of the kernel calls.  [PageMem] is the interface the clients rely on: word
    reads and writes and an allocator that never hands out a page twice. *)

From S2P Require Import Prelude.

(** ** Constants and address macros *)

(** src/arch/sh/include/arch/memory.h: PM_PAGE_ORDER *)
Definition PM_PAGE_ORDER : Z := 10.
(** src/arch/sh/include/arch/memory.h: PM_PAGE_BYTES *)
Definition PM_PAGE_BYTES : Z := Z.shiftl 1 PM_PAGE_ORDER.
(** src/arch/sh/include/arch/memory.h: PM_PHYSICAL_PAGE *)
Definition PM_PHYSICAL_PAGE (addr : Z) : Z := Z.shiftr (Z.land addr 0x1FFFFFFF) PM_PAGE_ORDER.
(** src/arch/sh/include/arch/memory.h: PM_PHYSICAL_ADDR *)
Definition PM_PHYSICAL_ADDR (pagenum : Z) : Z := u32 (Z.shiftl pagenum PM_PAGE_ORDER).
(** src/arch/sh/include/arch/memory.h: P1_SECTION_BASE *)
Definition P1_SECTION_BASE : Z := 0x80000000.
(** src/arch/sh/include/arch/memory.h: P2_SECTION_BASE *)
Definition P2_SECTION_BASE : Z := 0xA0000000.
(** src/arch/sh/include/arch/memory.h: SECTION_OFFSET *)
Definition SECTION_OFFSET (addr : Z) : Z := Z.land addr 0x1FFFFFFF.

Definition RAM_DEFAULT_ORDER : Z := 17.
Definition RAM_START_ADDRESS : Z := 0x08000000.
Definition MEM_PM_CACHED : Z := 0.
Definition MEM_PM_UNCACHED : Z := 1.

(** ** State *)

(** Memory is a map from word-aligned addresses to 32-bit words. *)
Abbreviation words := (Z → Z) (only parsing).
Definition wr (m : words) (a v : Z) : words := λ x, if x =? a then v else m x.

(** The static variables of the file with the memory that holds the list. *)
(** src/arch/sh/physical_memory.c:33-36: pm_first_free *)
Record pmem := mk_pmem { pm_mem : words; pm_first_free : ptr; pm_nbfree : Z }.

(** ** Discovery of the RAM size *)

Module Discover.
(** src/arch/sh/physical_memory.c:40-40: WATERMARK_START *)
Definition WATERMARK_START : Z := 0x12345678.
(** src/arch/sh/physical_memory.c:41-41: WATERMARK_CHECK *)
Definition WATERMARK_CHECK : Z := 0xF0F00F0F.
(** src/arch/sh/physical_memory.c:42-42: WATERMARK_CONFIRM *)
Definition WATERMARK_CONFIRM : Z := 0x0F0FF0F0.

Section bus.
(** The address decoder of the board: the RAM cell an address selects. *)
Context (decode : Z → Z).

(** The loop over [cur_order]; [n] counts the iterations left before 26.  The
    first component is [confirmed] after the loop. *)
(** src/arch/sh/physical_memory.c:55-73: pm_discover_ram_order *)
Fixpoint discover_loop (n : nat) (watermark cur_order confirmed : Z) (cells : words) : Z * words :=
  match n with
  | O => (confirmed, cells)
  | S n =>
      if (confirmed =? 0) && (cur_order <? 26) then
        let tocheck := watermark + Z.shiftl 1 cur_order in
        let '(confirmed, cells) :=
          if cells (decode tocheck) =? WATERMARK_START then
            let cells := wr cells (decode watermark) WATERMARK_CHECK in
            let '(confirmed, cells) :=
              if cells (decode tocheck) =? WATERMARK_CHECK then
                let cells := wr cells (decode watermark) WATERMARK_CONFIRM in
                if cells (decode tocheck) =? WATERMARK_CONFIRM then (cur_order, cells)
                else (confirmed, cells)
              else (confirmed, cells) in
            if confirmed =? 0 then (confirmed, wr cells (decode watermark) WATERMARK_START)
            else (confirmed, cells)
          else (confirmed, cells) in
        discover_loop n watermark (cur_order + 1) confirmed cells
      else (confirmed, cells)
  end.

(** [wm] is the address of the static variable [pm_watermark]. *)
(** src/arch/sh/physical_memory.c: pm_discover_ram_order *)
Definition pm_discover_ram_order (wm : ptr) (cells : words) : Z * words :=
  let watermark := P2_SECTION_BASE + SECTION_OFFSET wm in
  let cells := wr cells (decode watermark) WATERMARK_START in
  let '(confirmed, cells) := discover_loop 16 watermark PM_PAGE_ORDER 0 cells in
  if confirmed =? 0 then (RAM_DEFAULT_ORDER, cells) else (confirmed, cells).
End bus.
End Discover.

(** ** The free list *)

(** The loop that links the pages; [n] iterations are left. *)
(** src/arch/sh/physical_memory.c:110-120: pm_init_pages *)
Fixpoint init_loop (n : nat) (i nb_pages : Z) (page : ptr) (s : pmem) : pmem :=
  match n with
  | O => s
  | S n =>
      let m := if i + 1 =? nb_pages then wr (pm_mem s) page NULL
               else wr (pm_mem s) page (u32 (page + PM_PAGE_BYTES)) in
      let first := if i =? 0 then page else pm_first_free s in
      init_loop n (i + 1) nb_pages (m page) (mk_pmem m first (pm_nbfree s))
  end.

(** The address of the first page after the kernel image, before translation. *)
(** src/arch/sh/physical_memory.c:101-102: pm_init_pages *)
Definition first_page_of (end_stack : ptr) : Z :=
  let phy_end := Z.land end_stack 0x1FFFFFFF in
  u32 (Z.land (u32 (phy_end - 1)) (u32 (Z.shiftl 0xFFFFFFFF PM_PAGE_ORDER)) + PM_PAGE_BYTES).

(** src/arch/sh/physical_memory.c: pm_init_pages *)
Definition pm_init_pages (end_stack : ptr) (ram_order : Z) (s : pmem) : pmem :=
  let page := first_page_of end_stack in
  let nb_pages := u32 (Z.shiftl 1 ram_order + RAM_START_ADDRESS - page) / PM_PAGE_BYTES in
  let page := u32 (page + P1_SECTION_BASE) in
  let s := init_loop (Z.to_nat nb_pages) 0 nb_pages page s in
  mk_pmem (pm_mem s) (pm_first_free s) nb_pages.

(** [None]: no page is left and the kernel loops for ever. *)
(** src/arch/sh/physical_memory.c: pm_get_free_page *)
Definition pm_get_free_page (s : pmem) : option (Z * pmem) :=
  if negb (pm_first_free s =? NULL) then
    let ppn := PM_PHYSICAL_PAGE (pm_first_free s) in
    Some (ppn, mk_pmem (pm_mem s) (pm_mem s (pm_first_free s)) (pm_nbfree s - 1))
  else None.

(** [None]: page 0 is freed and the kernel loops for ever. *)
(** src/arch/sh/physical_memory.c: pm_free_page *)
Definition pm_free_page (ppn : Z) (s : pmem) : option pmem :=
  if negb (ppn =? 0) then
    let page := PM_PHYSICAL_ADDR ppn in
    let page := u32 (page + P1_SECTION_BASE) in
    let m := wr (pm_mem s) page (pm_first_free s) in
    Some (mk_pmem m page (pm_nbfree s + 1))
  else None.

(** src/arch/sh/physical_memory.c: arch_pm_get_free_page *)
Definition arch_pm_get_free_page (flags : Z) (s : pmem) : option (ptr * pmem) :=
  '(ppn, s) ← pm_get_free_page s;
  let ret := if flags &? MEM_PM_UNCACHED then P2_SECTION_BASE else P1_SECTION_BASE in
  Some (u32 (ret + PM_PHYSICAL_ADDR ppn), s).

(** src/arch/sh/physical_memory.c: arch_pm_release_page *)
Definition arch_pm_release_page (page : ptr) (s : pmem) : option pmem :=
  pm_free_page (PM_PHYSICAL_PAGE page) s.

(** ** Representation *)

(** The base address of the page an address lies in. *)
Definition page_of (a : Z) : Z := a - a mod 1024.

(** A page of the P1 section other than physical page 0. *)
Definition page_ok (p : ptr) : Prop := p mod 1024 = 0 ∧ 0x80000000 < p < 0xA0000000.

Fixpoint chain (m : words) (p : ptr) (xs : list ptr) : Prop :=
  match xs with
  | [] => p = NULL
  | x :: xs => p = x ∧ x ≠ NULL ∧ chain m (m x) xs
  end.

(** [pm_rep s xs]: the free list holds the pages [xs], each once. *)
Definition pm_rep (s : pmem) (xs : list ptr) : Prop :=
  chain (pm_mem s) (pm_first_free s) xs ∧ NoDup xs ∧ Forall page_ok xs ∧
  pm_nbfree s = Z.of_nat (length xs).

(** ** Lemmas *)

Lemma page_bytes : PM_PAGE_BYTES = 1024.
Proof. done. Qed.

Lemma wr_eq m a v : wr m a v a = v.
Proof. unfold wr. by rewrite Z.eqb_refl. Qed.

Lemma wr_ne m a v x : x ≠ a → wr m a v x = m x.
Proof. intros H. unfold wr. by destruct (Z.eqb_spec x a). Qed.

#[export] Hint Rewrite wr_eq : fixos.

Lemma chain_wr m a v p xs : a ∉ xs → chain m p xs → chain (wr m a v) p xs.
Proof.
  revert p. induction xs as [|x xs IH]; intros p Ha; [done|]. simpl.
  intros (-> & Hx & Hc). split_and!; [done..|]. rewrite wr_ne by set_solver.
  apply IH; [set_solver|done].
Qed.

Lemma page_of_ok p k : p mod 1024 = 0 → 0 ≤ k < 1024 → page_of (p + k) = p.
Proof.
  intros Hp Hk. unfold page_of. rewrite Z.add_mod, Hp, Z.add_0_l by lia.
  rewrite Z.mod_mod, (Z.mod_small k) by lia. lia.
Qed.

Lemma page_of_self p : p mod 1024 = 0 → page_of p = p.
Proof. unfold page_of. lia. Qed.

Lemma physical_page_spec a :
  0 ≤ a → PM_PHYSICAL_PAGE a = (a mod 2 ^ 29) / 1024.
Proof.
  intros Ha. unfold PM_PHYSICAL_PAGE, PM_PAGE_ORDER.
  change 0x1FFFFFFF with (Z.ones 29). rewrite Z.land_ones, Z.shiftr_div_pow2 by lia. done.
Qed.

(** From any address inside a page of P1 the code finds the page again. *)
Lemma physical_page_roundtrip p k :
  page_ok p → 0 ≤ k < 1024 →
  PM_PHYSICAL_PAGE (p + k) ≠ 0 ∧
  PM_PHYSICAL_ADDR (PM_PHYSICAL_PAGE (p + k)) = p - 0x80000000.
Proof.
  intros [Hm Hr] Hk.
  assert (Hd : ∃ q, p = 0x80000000 + 1024 * q ∧ 0 < q < 2 ^ 19).
  { exists (p / 1024 - 2097152). pose proof (Z.div_mod p 1024). lia. }
  destruct Hd as (q & -> & Hq).
  assert (PM_PHYSICAL_PAGE (2147483648 + 1024 * q + k) = q) as ->.
  { rewrite physical_page_spec by lia.
    replace ((2147483648 + 1024 * q + k) mod 2 ^ 29) with (1024 * q + k).
    - rewrite Z.mul_comm, Z.div_add_l, Z.div_small by lia. lia.
    - apply Z.mod_unique_pos with 4; lia. }
  unfold PM_PHYSICAL_ADDR, PM_PAGE_ORDER, P1_SECTION_BASE.
  rewrite Z.shiftl_mul_pow2 by lia. rewrite u32_small; lia.
Qed.

Lemma pm_get_spec s x xs flags :
  pm_rep s (x :: xs) →
  ∃ s', arch_pm_get_free_page flags s =
          Some (if flags &? MEM_PM_UNCACHED then x + 0x20000000 else x, s') ∧
        pm_rep s' xs ∧ pm_mem s' = pm_mem s.
Proof.
  intros (Hc & Hnd & Hok & Hn). simpl in Hc. destruct Hc as (Hf & Hx & Hc).
  apply Forall_cons in Hok as [Hx' Hok]. apply NoDup_cons in Hnd as [Hni Hnd].
  destruct (physical_page_roundtrip x 0 Hx') as (_ & Hr); [lia|]. rewrite Z.add_0_r in Hr.
  unfold arch_pm_get_free_page, pm_get_free_page. rewrite Hf.
  destruct (Z.eqb_spec x NULL) as [|_]; [done|]. simpl. rewrite Hr. destruct Hx' as [_ Hx'].
  eexists. split.
  - unfold P2_SECTION_BASE, P1_SECTION_BASE. do 2 f_equal.
    destruct (flags &? MEM_PM_UNCACHED); rewrite u32_small; lia.
  - split; [|done]. split_and!; try done. simpl in *. lia.
Qed.

Lemma pm_get_none s flags : pm_rep s [] → arch_pm_get_free_page flags s = None.
Proof.
  intros (Hc & _). simpl in Hc. unfold arch_pm_get_free_page, pm_get_free_page.
  by rewrite Hc.
Qed.

Lemma pm_release_spec s p k xs :
  pm_rep s xs → page_ok p → 0 ≤ k < 1024 → p ∉ xs →
  ∃ s', arch_pm_release_page (p + k) s = Some s' ∧ pm_rep s' (p :: xs) ∧
        pm_mem s' = wr (pm_mem s) p (pm_first_free s).
Proof.
  intros (Hc & Hnd & Hok & Hn) Hp Hk Hni.
  destruct (physical_page_roundtrip p k Hp Hk) as (Hz & Ha).
  unfold arch_pm_release_page, pm_free_page.
  destruct (Z.eqb_spec (PM_PHYSICAL_PAGE (p + k)) 0) as [|_]; [done|]. simpl. rewrite Ha.
  assert (u32 (p - 2147483648 + P1_SECTION_BASE) = p) as ->
    by (destruct Hp; unfold P1_SECTION_BASE; rewrite u32_small; lia).
  eexists. split; [done|]. split; [|done]. split_and!; simpl.
  - split_and!; [done|destruct Hp; lia|]. rewrite wr_eq. by apply chain_wr.
  - by constructor.
  - by constructor.
  - lia.
Qed.

(** The [n] consecutive pages from [p]. *)
Fixpoint pages_from (p : ptr) (n : nat) : list ptr :=
  match n with O => [] | S n => p :: pages_from (p + 1024) n end.

Lemma pages_from_length p n : length (pages_from p n) = n.
Proof. revert p. induction n as [|n IH]; intros p; simpl; [done|]. by rewrite IH. Qed.

Lemma pages_from_elem p n x :
  x ∈ pages_from p n → p ≤ x < p + 1024 * Z.of_nat n ∧ x mod 1024 = p mod 1024.
Proof.
  revert p. induction n as [|n IH]; intros p; simpl; [set_solver|].
  rewrite elem_of_cons. intros [->|Hx]; [lia|]. apply IH in Hx as [Hr ->].
  replace (p + 1024) with (p + 1 * 1024) by lia. rewrite Z.mod_add by lia. lia.
Qed.

Lemma pages_from_iff p n x :
  x ∈ pages_from p n ↔ p ≤ x < p + 1024 * Z.of_nat n ∧ x mod 1024 = p mod 1024.
Proof.
  split; [apply pages_from_elem|]. revert p. induction n as [|n IH]; intros p [Hr Hm]; simpl; [lia|].
  apply elem_of_cons. destruct (decide (x = p)) as [|Hne]; [by left|right]. apply IH.
  replace (p + 1024) with (p + 1 * 1024) by lia. rewrite Z.mod_add by lia.
  pose proof (Z.div_mod x 1024). pose proof (Z.div_mod p 1024). split; [lia|done].
Qed.

Lemma pages_from_nodup p n : NoDup (pages_from p n).
Proof.
  revert p. induction n as [|n IH]; intros p; simpl; constructor; [|apply IH].
  intros Hin%pages_from_elem. lia.
Qed.

Lemma pages_from_ok p n :
  p mod 1024 = 0 → 0x80000000 < p → p + 1024 * Z.of_nat n ≤ 0xA0000000 →
  Forall page_ok (pages_from p n).
Proof.
  intros Hm Hp Hn. apply Forall_forall. intros x Hx%pages_from_elem.
  split; [|lia]. destruct Hx as [_ ->]. done.
Qed.

Lemma init_loop_spec n i nb page s :
  i + Z.of_nat n = nb → 0 ≤ i → (0 < n)%nat → 0 < page → page + 1024 * Z.of_nat n < 2 ^ 32 →
  let s' := init_loop n i nb page s in
  chain (pm_mem s') page (pages_from page n) ∧
  pm_first_free s' = (if i =? 0 then page else pm_first_free s) ∧
  ∀ a, a < page → pm_mem s' a = pm_mem s a.
Proof.
  revert i page s. induction n as [|n IH]; intros i page s Hi Hi0 Hn Hp Hr; [lia|].
  cbn zeta. cbn [init_loop pages_from].
  destruct (Z.eqb_spec (i + 1) nb) as [He|He].
  - assert (n = O) as -> by lia. simpl. split_and!; try done; try lia.
    + apply wr_eq.
    + intros a Ha. by rewrite wr_ne by lia.
  - rewrite wr_eq. rewrite page_bytes.
    rewrite u32_small by lia.
    edestruct (IH (i + 1) (page + 1024)
      (mk_pmem (wr (pm_mem s) page (page + 1024)) (if i =? 0 then page else pm_first_free s) (pm_nbfree s)))
      as (Hc & Hf & Hm); [lia..|]. cbn zeta in Hc, Hf, Hm. cbn [pm_mem pm_first_free] in *.
    split_and!.
    + simpl. split_and!; [done|lia|]. rewrite Hm by lia. by rewrite wr_eq.
    + rewrite Hf. destruct (Z.eqb_spec (i + 1) 0); [lia|done].
    + intros a Ha. rewrite Hm by lia. by rewrite wr_ne by lia.
Qed.

Lemma land_page_mask x : 0 ≤ x < 2 ^ 32 → Z.land x (u32 (Z.shiftl 0xFFFFFFFF 10)) = x - x mod 1024.
Proof.
  intros Hx. change (u32 (Z.shiftl 0xFFFFFFFF 10)) with (Z.ldiff (Z.ones 32) (Z.ones 10)).
  assert (Z.land x (Z.ldiff (Z.ones 32) (Z.ones 10)) = Z.ldiff x (Z.ones 10)) as ->.
  { apply Z.bits_inj'. intros n Hn. rewrite Z.land_spec, !Z.ldiff_spec.
    destruct (decide (n < 32)) as [Hlt|Hge].
    - rewrite (Z.ones_spec_low 32 n) by lia. done.
    - rewrite (testbit_high x n 32) by lia. done. }
  rewrite Z.ldiff_ones_r, Z.shiftr_div_pow2, Z.shiftl_mul_pow2 by lia.
  change (2 ^ 10) with 1024. pose proof (Z.div_mod x 1024). lia.
Qed.

(** The first page starts at the first page boundary at or above the image end. *)
Lemma first_page_spec end_stack phy :
  phy = Z.land end_stack 0x1FFFFFFF → 0 < phy < 2 ^ 29 →
  first_page_of end_stack mod 1024 = 0 ∧ phy ≤ first_page_of end_stack < phy + 1024.
Proof.
  intros -> Hp. set (phy := Z.land end_stack 0x1FFFFFFF) in *. unfold first_page_of. fold phy.
  cbn zeta. rewrite (u32_small (phy - 1)) by lia. unfold PM_PAGE_ORDER.
  rewrite land_page_mask by lia. rewrite page_bytes.
  pose proof (Z.mod_pos_bound (phy - 1) 1024). pose proof (Z.div_mod (phy - 1) 1024).
  rewrite u32_small by lia. split; [|lia].
  replace (phy - 1 - (phy - 1) mod 1024 + 1024) with (((phy - 1) / 1024 + 1) * 1024) by lia.
  apply Z.mod_mul. lia.
Qed.

(** ** The interface of the page allocator

    What the clients of [arch_pm_get_free_page] and [arch_pm_release_page] rely
    on: memory reads and writes, and an allocator whose free pages [F] are never
    handed out twice and are the only memory it touches. *)
Class PageMem (M : Type) := {
  pg_read : M → ptr → Z;
  pg_write : ptr → Z → M → M;
  pg_get : Z → M → option (ptr * M);
  pg_release : ptr → M → option M;
  pg_inv : M → list ptr → Prop;
  pg_read_write m a v b : pg_read (pg_write a v m) b = if b =? a then v else pg_read m b;
  pg_write_inv m F a v : pg_inv m F → page_of a ∉ F → pg_inv (pg_write a v m) F;
  pg_free_ok m F : pg_inv m F → NoDup F ∧ Forall page_ok F;
  pg_get_some fl m F : pg_inv m F → F ≠ [] → is_Some (pg_get fl m);
  pg_get_inv fl m F a m' : pg_inv m F → pg_get fl m = Some (a, m') →
    ∃ p F', a = (if fl &? MEM_PM_UNCACHED then p + 0x20000000 else p) ∧ F ≡ₚ p :: F' ∧ pg_inv m' F' ∧ ∀ a, pg_read m' a = pg_read m a;
  pg_release_inv m F p a : pg_inv m F → page_ok p → p ∉ F →
    PM_PHYSICAL_PAGE a = PM_PHYSICAL_PAGE p →
    ∃ m', pg_release a m = Some m' ∧ pg_inv m' (p :: F) ∧
          ∀ a, a ≠ p → pg_read m' a = pg_read m a;
}.

Definition pmem_write (a v : Z) (s : pmem) : pmem :=
  mk_pmem (wr (pm_mem s) a v) (pm_first_free s) (pm_nbfree s).

#[global] Program Instance pmem_PageMem : PageMem pmem := {|
  pg_read s a := pm_mem s a;
  pg_write := pmem_write;
  pg_get := arch_pm_get_free_page;
  pg_release := arch_pm_release_page;
  pg_inv := pm_rep;
|}.
Next Obligation. done. Qed.
Next Obligation.
  intros s F a v (Hc & Hnd & Hok & Hn) Ha. split_and!; try done. apply chain_wr; [|done].
  intros Hin. apply Ha. rewrite Forall_forall in Hok. destruct (Hok a Hin) as [Hm _].
  by rewrite page_of_self.
Qed.
Next Obligation. by intros s F (_ & Hnd & Hok & _). Qed.
Next Obligation.
  intros fl s [|x xs] Hr Hne; [done|]. destruct (pm_get_spec s x xs fl Hr) as (s' & -> & _). by eexists.
Qed.
Next Obligation.
  intros fl s [|x xs] a s' Hr Hg.
  - by rewrite (pm_get_none s fl Hr) in Hg.
  - destruct (pm_get_spec s x xs fl Hr) as (s'' & Hg' & Hr' & Hm).
    rewrite Hg' in Hg. injection Hg as <- <-. exists x, xs. split_and!; [done..|]. by rewrite Hm.
Qed.
Next Obligation.
  intros s F p a Hr Hp Hni Ha. destruct (pm_release_spec s p 0 F Hr Hp) as (s' & Hrel & Hr' & Hm); [lia|done|].
  rewrite Z.add_0_r in Hrel. exists s'. split_and!; [|done|].
  - unfold arch_pm_release_page in *. by rewrite Ha.
  - intros b Hb. by rewrite Hm, wr_ne.
Qed.

(** ** Properties *)

(** The RAM cell selected by an address when only [k] address bits are decoded. *)
Definition partial_decode (k : Z) (decode : Z → Z) (lo : Z) : Prop :=
  ∀ a b, lo ≤ a < lo + 2 ^ 26 → lo ≤ b < lo + 2 ^ 26 →
    (decode a = decode b ↔ (a - b) mod 2 ^ k = 0).

Lemma discover_loop_found decode n w o k cells :
  partial_decode k decode w → 10 ≤ o ≤ k → k < 26 → k - o < Z.of_nat n →
  cells (decode w) = Discover.WATERMARK_START →
  (Discover.discover_loop decode n w o 0 cells).1 = k.
Proof.
  revert o cells. induction n as [|n IH]; intros o cells Hd Ho Hk Hn Hw; [lia|]. simpl.
  assert (Ho' : 0 < 2 ^ o < 2 ^ 26) by (split; [lia|apply Z.pow_lt_mono_r; lia]).
  assert (Ha : decode (w + 2 ^ o) = decode w ↔ (2 ^ o) mod 2 ^ k = 0).
  { rewrite (Hd (w + 2 ^ o) w) by lia. by replace (w + 2 ^ o - w) with (2 ^ o) by lia. }
  destruct (Z.ltb_spec o 26) as [_|]; [|lia]. cbn [negb andb].
  rewrite Z.shiftl_1_l.
  destruct (decide (o = k)) as [->|Hne].
  - rewrite Z.mod_same in Ha by lia. rewrite (proj2 Ha) by done. rewrite Hw, !wr_eq.
    cbn. destruct (Z.eqb_spec k 0); [lia|].
    destruct n; simpl; [done|]. destruct (Z.eqb_spec k 0); [lia|done].
  - assert (Hna : decode (w + 2 ^ o) ≠ decode w).
    { rewrite Ha, Z.mod_small; [lia|]. split; [lia|]. apply Z.pow_lt_mono_r; lia. }
    rewrite !(wr_ne _ _ _ (decode (w + 2 ^ o))) by done.
    destruct (Z.eqb_spec (cells (decode (w + 2 ^ o))) Discover.WATERMARK_START) as [->|_].
    + cbn. apply IH; [done|lia..|]. apply wr_eq.
    + apply IH; [done|lia..|done].
Qed.

(** On a board whose RAM of [2^k] bytes answers to every address equal modulo
    [2^k], [pm_discover_ram_order] returns exactly [k], whatever the RAM
    contained before, for every size from one page to 32 MiB. *)
Theorem pm_discover_ram_order_correct decode k wm cells :
  10 ≤ k < 26 → partial_decode k decode (P2_SECTION_BASE + SECTION_OFFSET wm) →
  (Discover.pm_discover_ram_order decode wm cells).1 = k.
Proof.
  intros Hk Hd. unfold Discover.pm_discover_ram_order. cbn zeta.
  set (w := P2_SECTION_BASE + SECTION_OFFSET wm) in *.
  pose proof (discover_loop_found decode 16 w 10 k
    (wr cells (decode w) Discover.WATERMARK_START) Hd) as Hl.
  unfold PM_PAGE_ORDER. destruct (Discover.discover_loop _ _ _ _ _ _) as [c cells'].
  simpl in Hl. rewrite Hl by (try apply wr_eq; lia).
  destruct (Z.eqb_spec k 0); [lia|done].
Qed.

Lemma pm_discover_ram_order_correct_witness :
  partial_decode 19 (λ a, a mod 2 ^ 19) (P2_SECTION_BASE + SECTION_OFFSET 0x88001000) ∧
  (Discover.pm_discover_ram_order (λ a, a mod 2 ^ 19) 0x88001000 (λ _, 0x12345678)).1 = 19.
Proof.
  assert (H : partial_decode 19 (λ a, a mod 2 ^ 19) (P2_SECTION_BASE + SECTION_OFFSET 0x88001000)).
  { intros a b _ _. rewrite Zminus_mod. pose proof (Z.mod_pos_bound a (2 ^ 19)).
    pose proof (Z.mod_pos_bound b (2 ^ 19)). split; [intros ->; by rewrite Z.sub_diag|].
    intros Hm. apply Z.mod_divide in Hm as [q Hq]; [|lia]. nia. }
  split; [exact H|]. apply (pm_discover_ram_order_correct _ 19); [lia|exact H].
Defined.

(** [pm_init_pages] puts on the free list exactly the pages that lie entirely
    between the end of the kernel image and the end of the RAM, each once, and
    [pm_nbfree] is their number. *)
Theorem pm_init_pages_correct end_stack ram_order s :
  10 ≤ ram_order < 26 → pm_first_free s = NULL →
  RAM_START_ADDRESS < Z.land end_stack 0x1FFFFFFF ≤ RAM_START_ADDRESS + 2 ^ ram_order →
  ∃ xs, pm_rep (pm_init_pages end_stack ram_order s) xs ∧
        ∀ p, p ∈ xs ↔ p mod 1024 = 0 ∧ 0x80000000 + Z.land end_stack 0x1FFFFFFF ≤ p ∧
                      p + 1024 ≤ 0x80000000 + RAM_START_ADDRESS + 2 ^ ram_order.
Proof.
  intros Ho Hf Hp. set (phy := Z.land end_stack 0x1FFFFFFF) in *. unfold RAM_START_ADDRESS in *.
  assert (Hb : 2 ^ 10 ≤ 2 ^ ram_order ≤ 2 ^ 25) by (split; apply Z.pow_le_mono_r; lia).
  assert (Hd : 2 ^ ram_order = 1024 * 2 ^ (ram_order - 10)).
  { change 1024 with (2 ^ 10). rewrite <- Z.pow_add_r by lia. f_equal. lia. }
  destruct (first_page_spec end_stack phy) as [Hm Hfp]; [done|lia|].
  unfold pm_init_pages, RAM_START_ADDRESS. cbn zeta.
  set (fp := first_page_of end_stack) in *. rewrite Z.shiftl_1_l, page_bytes.
  assert (Hq : fp = 1024 * (fp / 1024)) by (pose proof (Z.div_mod fp 1024); lia).
  set (n := 2 ^ (ram_order - 10) + 131072 - fp / 1024).
  assert (Hn0 : 0 ≤ n) by lia.
  rewrite (u32_small (2 ^ ram_order + 134217728 - fp)) by lia.
  replace (2 ^ ram_order + 134217728 - fp) with (n * 1024) by lia.
  rewrite Z.div_mul, (u32_small (fp + P1_SECTION_BASE)) by (unfold P1_SECTION_BASE; lia).
  exists (pages_from (fp + P1_SECTION_BASE) (Z.to_nat n)). unfold P1_SECTION_BASE. split.
  - split_and!; cbn [pm_mem pm_first_free pm_nbfree].
    + destruct (Z.to_nat n) as [|n'] eqn:Hn; [done|].
      destruct (init_loop_spec (S n') 0 n (fp + 0x80000000) s) as (Hc & -> & _); [lia..|]. exact Hc.
    + apply pages_from_nodup.
    + apply pages_from_ok; [|lia..]. change 2147483648 with (2097152 * 1024). by rewrite Z.mod_add.
    + rewrite pages_from_length. lia.
  - intros p. rewrite pages_from_iff. change 2147483648 with (2097152 * 1024) at 3. rewrite Z.mod_add, Hm by lia.
    pose proof (Z.div_mod p 1024). lia.
Qed.

Lemma pm_init_pages_correct_witness :
  ∃ xs, pm_rep (pm_init_pages 0x88004210 19 (mk_pmem (λ _, 77) 0 0)) xs ∧ 0x88004400 ∈ xs.
Proof.
  destruct (pm_init_pages_correct 0x88004210 19 (mk_pmem (λ _, 77) 0 0)) as (xs & Hr & Hx);
    [lia|done|vm_compute; split; [done|discriminate]|].
  exists xs. split; [exact Hr|]. apply Hx. vm_compute. split_and!; [done|discriminate..].
Defined.

(** *** Allocation traces *)

(** A client gets a page or releases the [i]-th page it holds, through any
    address inside it. *)
Inductive pm_op := GetPage | ReleasePage (i : nat) (k : Z).

#[global] Instance pm_op_eq_dec : EqDecision pm_op.
Proof. solve_decision. Defined.

(** [None]: the kernel loops for ever. *)
Definition pm_step (st : pmem * list ptr) (o : pm_op) : option (pmem * list ptr) :=
  let '(s, held) := st in
  match o with
  | GetPage => '(p, s) ← arch_pm_get_free_page MEM_PM_CACHED s; Some (s, p :: held)
  | ReleasePage i k =>
      match held !! i with
      | Some p => s ← arch_pm_release_page (p + k) s; Some (s, delete i held)
      | None => Some (s, held)
      end
  end.

Fixpoint pm_run (st : pmem * list ptr) (os : list pm_op) : option (pmem * list ptr) :=
  match os with [] => Some st | o :: os => st ← pm_step st o; pm_run st os end.

Definition pm_op_ok (o : pm_op) : Prop :=
  match o with GetPage => True | ReleasePage _ k => 0 ≤ k < 1024 end.

Lemma pm_step_ok s held free o :
  pm_rep s free → NoDup (free ++ held) → Forall page_ok held → pm_op_ok o →
  (o = GetPage → free ≠ []) →
  ∃ s' held' free', pm_step (s, held) o = Some (s', held') ∧ pm_rep s' free' ∧
    free' ++ held' ≡ₚ free ++ held ∧ Forall page_ok held' ∧
    length free' = match o with GetPage => pred (length free)
                   | ReleasePage i _ => length free + (if decide (i < length held)%nat then 1 else 0) end%nat.
Proof.
  intros Hr Hnd Hok Ho Hne. destruct o as [|i k]; simpl.
  - destruct free as [|x xs]; [by specialize (Hne eq_refl)|].
    destruct (pm_get_spec s x xs MEM_PM_CACHED Hr) as (s' & Hg & Hr' & _).
    simpl in Hg. rewrite Hg. simpl. do 3 eexists. split; [done|]. split; [exact Hr'|].
    destruct Hr as (_ & _ & Hx & _). apply Forall_cons in Hx as [Hx _].
    split_and!; [by rewrite <- Permutation_middle|by constructor|done].
  - destruct (held !! i) as [p|] eqn:Hi; simpl.
    + rewrite decide_True by (by eapply lookup_lt_Some).
      pose proof (delete_Permutation _ _ _ Hi) as Hperm.
      assert (Hp : page_ok p) by (rewrite Forall_lookup in Hok; by eapply Hok).
      assert (Hpf : p ∉ free).
      { apply NoDup_app in Hnd as (_ & Hd & _). intros Hin. apply (Hd p Hin).
        by eapply list_elem_of_lookup_2. }
      destruct (pm_release_spec s p k free Hr Hp Ho Hpf) as (s' & Hrel & Hr' & _).
      rewrite Hrel. simpl. do 3 eexists. split; [done|]. split; [exact Hr'|]. split_and!.
      * rewrite (Permutation_app_head free Hperm), <- Permutation_middle. done.
      * by apply Forall_delete.
      * simpl. lia.
    + rewrite decide_False by (apply lookup_ge_None in Hi; lia).
      exists s, held, free. split_and!; try done.
Qed.

(** C8: whatever sequence of gets and releases a client runs, provided it
    releases only pages it holds and never asks more pages than are free, the
    kernel does not hang, and the pages on the free list together with the pages held are
    exactly the initial ones: no page is lost, handed out twice or free while
    held; [pm_nbfree] counts the free ones. *)
Theorem pm_pages_conserved s held free os :
  pm_rep s free → NoDup (free ++ held) → Forall page_ok held → Forall pm_op_ok os →
  (length (filter (λ o, o = GetPage) os) ≤ length free)%nat →
  ∃ s' held' free', pm_run (s, held) os = Some (s', held') ∧ pm_rep s' free' ∧
    free' ++ held' ≡ₚ free ++ held ∧ pm_nbfree s' = Z.of_nat (length free').
Proof.
  revert s held free. induction os as [|o os IH]; intros s held free Hr Hnd Hok Ho Hn.
  - exists s, held, free. split_and!; try done. apply Hr.
  - apply Forall_cons in Ho as [Ho Hos].
    destruct (pm_step_ok s held free o) as (s1 & h1 & f1 & Hst & Hr1 & Hp1 & Hok1 & Hlen); [done..| |].
    { intros -> ->. rewrite filter_cons_True in Hn by done. simpl in Hn. lia. }
    cbn [pm_run]. rewrite Hst. cbn [mbind option_bind].
    destruct (IH s1 h1 f1) as (s2 & h2 & f2 & Hrun & Hr2 & Hp2 & Hnb); try done.
    { by rewrite Hp1. }
    { destruct o; [rewrite filter_cons_True in Hn by done; simpl in Hn; lia|].
      rewrite filter_cons_False in Hn by done. lia. }
    exists s2, h2, f2. split_and!; try done. by rewrite Hp2.
Qed.

Lemma pm_pages_conserved_witness :
  ∃ s' held' free',
    pm_run (mk_pmem (λ a, if a =? 0x88000000 then 0x88000400 else 0) 0x88000000 2, [])
      [GetPage; GetPage; ReleasePage 1 1023] = Some (s', held') ∧
    pm_rep s' free' ∧ free' ++ held' ≡ₚ [0x88000000; 0x88000400].
Proof.
  destruct (pm_pages_conserved (mk_pmem (λ a, if a =? 0x88000000 then 0x88000400 else 0) 0x88000000 2) []
    [0x88000000; 0x88000400] [GetPage; GetPage; ReleasePage 1 1023]) as (s' & h' & f' & Hrun & Hr & Hp & _).
  - split_and!; [by repeat split|by apply (bool_decide_eq_true_1 (NoDup _))| |done].
    repeat constructor; done.
  - by apply (bool_decide_eq_true_1 (NoDup _)).
  - constructor.
  - repeat constructor; simpl; lia.
  - simpl. lia.
  - exists s', h', f'. split_and!; [exact Hrun|exact Hr|exact Hp].
Defined.
