(* ===== verification/PoolAlloc.v ===== *)
(** * Pool allocator (src/utils/pool_alloc.c, src/utils/pool_alloc.h)

    Fixed-size objects are carved out of physical pages.  Each page starts with
    a [struct pool_page] (link to the next page, first empty object, number of
    empty objects); the empty objects of a page are linked through their first
    word.  The model works on the words of memory, against the page-allocator
    interface [PageMem], so the theorems cover the chaining the code really
    builds, including the link of the last object that it leaves unset. *)

From S2P Require Import Prelude PhysMem.

(** ** Model *)

(** src/utils/pool_alloc.h:55-66: pool_alloc *)
Record pool := mk_pool { objsz : Z; perpage : Z; first_page : ptr; first_nonfull : ptr }.

(** [sizeof(struct pool_page)] and the offsets of its fields. *)
(** src/utils/pool_alloc.h:43-49: pool_page *)
Definition sizeof_pool_page : Z := 12.
Definition pp_next (page : ptr) : ptr := page.
Definition pp_first_empty (page : ptr) : ptr := page + 4.
Definition pp_nbempty (page : ptr) : ptr := page + 8.

(** src/utils/pool_alloc.h: POOL_INIT *)
Definition POOL_INIT (sizeof_type : Z) : pool :=
  mk_pool sizeof_type ((PM_PAGE_BYTES - sizeof_pool_page) / sizeof_type) NULL NULL.

Section model.
Context {M : Type} `{!PageMem M}.
Implicit Types (m : M) (p : pool).

(** The loop that links the objects of a new page; returns the final [cur]. *)
(** src/utils/pool_alloc.c:47-51: get_new_pool_page *)
Fixpoint link_objs (n : nat) (objsz : Z) (prev cur : ptr) (m : M) : ptr * M :=
  match n with
  | O => (cur, m)
  | S n =>
      let m := if negb (prev =? NULL) then pg_write prev cur m else m in
      link_objs n objsz cur (cur + objsz) m
  end.

(** src/utils/pool_alloc.c: get_new_pool_page *)
Definition get_new_pool_page (p : pool) (m : M) : option (ptr * M) :=
  '(ret, m) ← pg_get MEM_PM_CACHED m;
  if negb (ret =? NULL) then
    let m := pg_write (pp_nbempty ret) (perpage p) m in
    let m := pg_write (pp_next ret) NULL m in
    let cur := ret + sizeof_pool_page in
    let m := pg_write (pp_first_empty ret) cur m in
    let '(cur, m) := link_objs (Z.to_nat (perpage p)) (objsz p) NULL cur m in
    Some (ret, pg_write cur NULL m)
  else Some (ret, m).

(** The page loops take fuel; [None] means the loop did not end within it. *)
(** src/utils/pool_alloc.c: get_first_nonfull *)
Fixpoint get_first_nonfull (fuel : nat) (m : M) (ret : ptr) : option ptr :=
  if negb (ret =? NULL) && (pg_read m (pp_nbempty ret) <=? 0) then
    match fuel with
    | O => None
    | S fuel => get_first_nonfull fuel m (pg_read m (pp_next ret))
    end
  else Some ret.

(** src/utils/pool_alloc.c: check_page_owned *)
Fixpoint check_page_owned (fuel : nat) (m : M) (cur page : ptr) : option bool :=
  if negb (cur =? NULL) && negb (cur =? page) then
    match fuel with
    | O => None
    | S fuel => check_page_owned fuel m (pg_read m (pp_next cur)) page
    end
  else Some (negb (cur =? NULL)).

(** src/utils/pool_alloc.c: pool_alloc *)
Definition pool_alloc (fuel : nat) (p : pool) (m : M) : option (ptr * pool * M) :=
  let curpage := first_nonfull p in
  '(curpage, p, m) ←
    (if curpage =? NULL then
       '(curpage, m) ← get_new_pool_page p m;
       if negb (curpage =? NULL) then
         let m := pg_write (pp_next curpage) (first_page p) m in
         Some (curpage, mk_pool (objsz p) (perpage p) curpage curpage, m)
       else Some (curpage, p, m)
     else Some (curpage, p, m));
  if negb (curpage =? NULL) then
    let ret := pg_read m (pp_first_empty curpage) in
    let m := pg_write (pp_first_empty curpage) (pg_read m (pg_read m (pp_first_empty curpage))) m in
    let m := pg_write (pp_nbempty curpage) (pg_read m (pp_nbempty curpage) - 1) m in
    if pg_read m (pp_nbempty curpage) <=? 0 then
      nonfull ← get_first_nonfull fuel m (first_page p);
      Some (ret, mk_pool (objsz p) (perpage p) (first_page p) nonfull, m)
    else Some (ret, p, m)
  else Some (NULL, p, m).

(** src/utils/pool_alloc.c: pool_free *)
Definition pool_free (fuel : nat) (p : pool) (object : ptr) (m : M) : option M :=
  let page := object - object mod PM_PAGE_BYTES in
  owned ← check_page_owned fuel m (first_page p) page;
  Some (if (owned : bool) then
          let m := pg_write object (pg_read m (pp_first_empty page)) m in
          let m := pg_write (pp_first_empty page) object m in
          pg_write (pp_nbempty page) (pg_read m (pp_nbempty page) + 1) m
        else m).
End model.

(** ** Representation *)

Section rep.
Context {M : Type} `{!PageMem M}.
(** The object size and count of the pool: [objsz] bytes, a multiple of the word
    size, and some room left after the last object. *)
Context (sz n : Z) (Hsz : 4 ≤ sz) (Hal : sz mod 4 = 0) (Hn : 0 < n) (Hfit : 12 + n * sz < 1024).
Implicit Types (m : M) (p : pool) (F : list ptr).

Fixpoint objs_from (cur : ptr) (k : nat) : list ptr :=
  match k with O => [] | S k => cur :: objs_from (cur + sz) k end.

(** The objects of a page. *)
Definition objs (pg : ptr) : list ptr := objs_from (pg + 12) (Z.to_nat n).

(** [prefix m f es]: from [f] the links go through [es]; the link of the last
    element is not constrained. *)
Fixpoint prefix m (f : ptr) (es : list ptr) : Prop :=
  match es with [] => True | e :: es => f = e ∧ prefix m (pg_read m e) es end.

(** Page [pg] has the empty objects [es], in the order they will be used. *)
Definition page_rep m (pg : ptr) (es : list ptr) : Prop :=
  pg_read m (pg + 8) = Z.of_nat (length es) ∧ prefix m (pg_read m (pg + 4)) es ∧
  NoDup es ∧ (∀ e, e ∈ es → e ∈ objs pg).

Definition pool_inv p m F (pages : list (ptr * list ptr)) : Prop :=
  objsz p = sz ∧ perpage p = n ∧ pg_inv m F ∧
  chain (pg_read m) (first_page p) pages.*1 ∧ NoDup pages.*1 ∧
  (∀ pg, pg ∈ pages.*1 → pg ∉ F ∧ page_ok pg) ∧
  (∀ pg es, (pg, es) ∈ pages → page_rep m pg es) ∧
  (first_nonfull p = NULL ∨ ∃ es, (first_nonfull p, es) ∈ pages ∧ es ≠ []).

(** An object is live when it was handed out and not freed since. *)
Definition live (pages : list (ptr * list ptr)) (o : ptr) : Prop :=
  ∃ pg es, (pg, es) ∈ pages ∧ o ∈ objs pg ∧ o ∉ es.

(** ** Lemmas *)

Lemma objs_from_iff cur k o :
  o ∈ objs_from cur k ↔ ∃ i, 0 ≤ i < Z.of_nat k ∧ o = cur + i * sz.
Proof.
  revert cur. induction k as [|k IH]; intros cur; simpl.
  - split; [set_solver|]. intros (i & ? & _). lia.
  - rewrite elem_of_cons, IH. split.
    + intros [->|(i & Hi & ->)]; [exists 0; lia|exists (i + 1); lia].
    + intros (i & Hi & ->). destruct (decide (i = 0)) as [->|]; [left; lia|].
      right. exists (i - 1). lia.
Qed.

Lemma objs_iff pg o : o ∈ objs pg ↔ ∃ i, 0 ≤ i < n ∧ o = pg + 12 + i * sz.
Proof. unfold objs. rewrite objs_from_iff. split; intros (i & ? & ->); exists i; lia. Qed.

Lemma objs_from_length cur k : length (objs_from cur k) = k.
Proof. revert cur. induction k as [|k IH]; intros cur; simpl; [done|]. by rewrite IH. Qed.

Lemma objs_from_nodup cur k : NoDup (objs_from cur k).
Proof.
  revert cur. induction k as [|k IH]; intros cur; simpl; constructor; [|apply IH].
  rewrite objs_from_iff. intros (i & Hi & He). nia.
Qed.

(** Every word of an object lies in the object's page, after the header. *)
Lemma objs_bounds pg o : o ∈ objs pg → pg + 12 ≤ o ∧ o + sz < pg + 1024.
Proof. rewrite objs_iff. intros (i & Hi & ->). nia. Qed.

Lemma objs_page pg o : pg mod 1024 = 0 → o ∈ objs pg → page_of o = pg.
Proof.
  intros Hp Ho%objs_bounds. replace o with (pg + (o - pg)) by lia. apply page_of_ok; [done|lia].
Qed.

(** Distinct objects do not overlap. *)
Lemma objs_disjoint pg o o' a :
  o ∈ objs pg → o' ∈ objs pg → o ≠ o' → o' ≤ a < o' + sz → a ≠ o.
Proof. rewrite !objs_iff. intros (i & Hi & ->) (j & Hj & ->) Hne Ha ->. assert (i ≠ j) by congruence. nia. Qed.

Lemma prefix_frame m m' f es :
  (∀ e, e ∈ es → pg_read m' e = pg_read m e) → prefix m f es → prefix m' f es.
Proof using.
  clear Hsz Hal Hn Hfit.
  revert f. induction es as [|e es IH]; intros f Hr; [done|]. simpl. intros [-> Hp].
  split; [done|]. rewrite Hr by set_solver. apply IH; [|done]. intros. apply Hr. set_solver.
Qed.

Lemma page_rep_frame m m' pg es :
  pg mod 1024 = 0 → (∀ a, page_of a = pg → pg_read m' a = pg_read m a) →
  page_rep m pg es → page_rep m' pg es.
Proof.
  intros Hp Hr (Hnb & Hpre & Hnd & Hin). split_and!; try done.
  - rewrite Hr; [done|]. apply page_of_ok; [done|lia].
  - rewrite Hr by (apply page_of_ok; [done|lia]). eapply prefix_frame; [|done].
    intros e He. apply Hr, objs_page; [done|by apply Hin].
Qed.

Lemma chain_frame (r r' : Z → Z) f xs : (∀ x, x ∈ xs → r' x = r x) → chain r f xs → chain r' f xs.
Proof using.
  clear Hsz Hal Hn Hfit.
  revert f. induction xs as [|x xs IH]; intros f Hr; [done|]. simpl. intros (-> & Hx & Hc).
  split_and!; [done..|]. rewrite Hr by set_solver. apply IH; [|done]. intros. apply Hr. set_solver.
Qed.

(** The allocator only depends on the words of its own pages. *)
Lemma pool_inv_frame p m m' F F' pages :
  pool_inv p m F pages → pg_inv m' F' → (∀ pg, pg ∈ pages.*1 → pg ∉ F') →
  (∀ a, page_of a ∈ pages.*1 → pg_read m' a = pg_read m a) → pool_inv p m' F' pages.
Proof.
  intros (Hs & Hp & Hi & Hc & Hnd & Hpg & Hrep & Hnf) Hi' HF' Hout. split_and!; try done.
  - eapply chain_frame; [|exact Hc]. intros x Hx. apply Hout. destruct (Hpg x Hx) as [_ [Hxm _]].
    by rewrite page_of_self.
  - intros q Hq. split; [by apply HF'|by apply Hpg].
  - intros q es Hq. assert (Hq' : q ∈ pages.*1) by (by apply (list_elem_of_fmap_2 fst) in Hq).
    destruct (Hpg q Hq') as [_ [Hqm _]]. apply page_rep_frame with m; [done| |by apply Hrep].
    intros b Hb. apply Hout. by rewrite Hb.
Qed.

(** The words written in one page: every other page and the page's own link keep
    their contents. *)
Definition same_outside m m' (pg : ptr) : Prop :=
  (∀ a, page_of a ≠ pg → pg_read m' a = pg_read m a) ∧ pg_read m' pg = pg_read m pg.

Lemma pool_inv_update p p' m m' F l1 l2 pg es es' :
  pool_inv p m F (l1 ++ (pg, es) :: l2) →
  objsz p' = sz → perpage p' = n → first_page p' = first_page p →
  pg_inv m' F → same_outside m m' pg → page_rep m' pg es' →
  (first_nonfull p' = NULL ∨ ∃ es, (first_nonfull p', es) ∈ l1 ++ (pg, es') :: l2 ∧ es ≠ []) →
  pool_inv p' m' F (l1 ++ (pg, es') :: l2).
Proof.
  intros (_ & _ & _ & Hc & Hnd & Hpg & Hrep & _) Hs Hpp Hfp Hi [Hout Hself] Hrep' Hnf.
  rewrite !fmap_app, !fmap_cons in *. cbn [fst] in *.
  assert (Hal' : ∀ x, x ∈ l1.*1 ++ pg :: l2.*1 → x mod 1024 = 0) by (intros x Hx; apply Hpg in Hx as [_ [? _]]; done).
  split_and!; try done; try (by rewrite ?fmap_app, ?fmap_cons).
  - rewrite Hfp, fmap_app, fmap_cons. cbn [fst]. eapply chain_frame; [|done]. intros x Hx. cbn beta.
    destruct (decide (x = pg)) as [->|Hne]; [done|]. apply Hout. rewrite page_of_self by auto. done.
  - intros q es'' Hq. destruct (decide (q = pg)) as [->|Hne].
    + assert (es'' = es') as ->; [|done].
      rewrite elem_of_app, elem_of_cons in Hq.
      apply NoDup_app in Hnd as (_ & Hd & [Hd' _]%NoDup_cons). destruct Hq as [Hq|[Hq|Hq]].
      * apply (list_elem_of_fmap_2 fst) in Hq. exfalso. apply (Hd pg Hq). set_solver.
      * by simplify_eq.
      * apply (list_elem_of_fmap_2 fst) in Hq. done.
    + assert (Hq' : (q, es'') ∈ l1 ++ (pg, es) :: l2) by set_solver.
      apply page_rep_frame with m; [|..|by apply Hrep].
      * apply Hal'. apply (list_elem_of_fmap_2 fst) in Hq'. by rewrite fmap_app, fmap_cons in Hq'.
      * intros a Ha. apply Hout. by rewrite Ha.
Qed.

Lemma rd_eq m a v : pg_read (pg_write a v m) a = v.
Proof using. by rewrite pg_read_write, Z.eqb_refl. Qed.

Lemma rd_ne m a v b : b ≠ a → pg_read (pg_write a v m) b = pg_read m b.
Proof using. intros Hb. rewrite pg_read_write. by destruct (Z.eqb_spec b a). Qed.

Ltac rd := repeat first [rewrite rd_eq | rewrite rd_ne by lia].

Lemma link_objs_spec k prev cur m c m' :
  link_objs k sz prev cur m = (c, m') → 0 < cur → 0 ≤ prev < cur →
  c = cur + Z.of_nat k * sz ∧ prefix m' cur (objs_from cur k) ∧
  ((0 < k)%nat → prev ≠ 0 → pg_read m' prev = cur) ∧
  (∀ a, prev = 0 ∨ a ≠ prev → a ∉ objs_from cur k → pg_read m' a = pg_read m a).
Proof.
  revert prev cur m. induction k as [|k IH]; intros prev cur m Hl Hc Hp; simpl in *.
  - simplify_eq. split_and!; [lia|done|lia|done].
  - apply IH in Hl as (-> & Hpre & Hlink & Hfr); [|lia..]. split_and!.
    + lia.
    + done.
    + destruct k as [|k]; [done|]. rewrite Hlink by lia. done.
    + intros _ Hp0. rewrite Hfr; [|lia|rewrite objs_from_iff; intros (i & ? & ?); nia].
      destruct (Z.eqb_spec prev 0); [lia|]. simpl. apply rd_eq.
    + intros a Ha Hna. rewrite Hfr by set_solver.
      destruct (Z.eqb_spec prev 0); simpl; [done|]. rewrite rd_ne; [done|]. by destruct Ha.
Qed.

Lemma link_objs_inv k prev cur m F :
  pg_inv m F → (prev ≠ 0 → page_of prev ∉ F) → (∀ o, o ∈ objs_from cur k → page_of o ∉ F) →
  pg_inv (link_objs k sz prev cur m).2 F.
Proof.
  revert prev cur m. induction k as [|k IH]; intros prev cur m Hi Hp Ho; simpl in *; [done|].
  apply IH.
  - destruct (Z.eqb_spec prev 0); simpl; [done|]. apply pg_write_inv; auto.
  - intros _. apply Ho. set_solver.
  - intros o Hin. apply Ho. set_solver.
Qed.

Lemma get_new_page_spec p m F :
  objsz p = sz → perpage p = n → pg_inv m F → F ≠ [] →
  ∃ pg m' F', get_new_pool_page p m = Some (pg, m') ∧ F ≡ₚ pg :: F' ∧ page_ok pg ∧
    pg_inv m' F' ∧ page_rep m' pg (objs pg) ∧ ∀ a, page_of a ≠ pg → pg_read m' a = pg_read m a.
Proof.
  intros Hs Hp Hi HF. destruct (pg_get_some MEM_PM_CACHED m F Hi HF) as [[pg m1] Hg].
  destruct (pg_get_inv MEM_PM_CACHED m F pg m1 Hi Hg) as (pg' & F' & Ha & HFF & Hi1 & Hr1).
  change (MEM_PM_CACHED &? MEM_PM_UNCACHED) with false in Ha. cbn in Ha. subst pg'.
  destruct (pg_free_ok m F Hi) as [Hnd Hok]. rewrite HFF in Hnd, Hok.
  apply NoDup_cons in Hnd as [Hni _]. apply Forall_cons in Hok as [Hpg _].
  pose proof Hpg as [Hm Hr]. exists pg. unfold get_new_pool_page. rewrite Hg. simpl.
  destruct (Z.eqb_spec pg 0) as [|_]; [lia|]. simpl. rewrite Hp, Hs.
  unfold pp_nbempty, pp_next, pp_first_empty, sizeof_pool_page.
  set (m2 := pg_write (pg + 4) (pg + 12) (pg_write pg 0 (pg_write (pg + 8) n m1))).
  assert (Hin : ∀ k, 0 ≤ k < 1024 → page_of (pg + k) ∉ F') by (intros; by rewrite page_of_ok).
  assert (Hi2 : pg_inv m2 F').
  { unfold m2. repeat apply pg_write_inv; try apply Hin; try lia; [done|]. by rewrite page_of_self. }
  pose proof (link_objs_inv (Z.to_nat n) NULL (pg + 12) m2 F' Hi2) as Hi3.
  destruct (link_objs (Z.to_nat n) sz 0 (pg + 12) m2) as [c m3] eqn:Hl.
  apply link_objs_spec in Hl as (-> & Hpre & _ & Hfr); [|lia..].
  eexists _, F'. split; [done|]. split; [done|]. split; [done|].
  assert (Hobj : ∀ a, a < pg + 12 → a ∉ objs pg) by (intros a Ha Ho%objs_bounds; lia).
  unfold page_rep. split_and!.
  - apply pg_write_inv; [apply Hi3; [done|]|].
    + intros o Ho. by rewrite (objs_page pg o).
    + rewrite Z2Nat.id by lia. replace (pg + 12 + n * sz) with (pg + (12 + n * sz)) by lia. apply Hin. nia.
  - rewrite rd_ne by nia. rewrite Hfr by (first [lia|apply Hobj; lia]). unfold m2. rd.
    unfold objs. rewrite objs_from_length. lia.
  - rewrite rd_ne by nia. rewrite Hfr by (first [lia|apply Hobj; lia]). unfold m2. rd.
    eapply prefix_frame; [|exact Hpre]. intros e He. rewrite rd_ne; [done|].
    apply objs_from_iff in He as (i & ? & ->). nia.
  - apply objs_from_nodup.
  - done.
  - intros a Ha. rewrite rd_ne.
    + rewrite Hfr.
      * unfold m2. rewrite !rd_ne; [done|..]; intros ->; apply Ha; rewrite ?page_of_ok, ?page_of_self by lia; done.
      * by left.
      * intros Ho. apply Ha. by apply objs_page.
    + intros ->. apply Ha. rewrite Z2Nat.id by lia.
      replace (pg + 12 + n * sz) with (pg + (12 + n * sz)) by lia. apply page_of_ok; [done|nia].
Qed.

Lemma get_first_nonfull_eq fuel m ret :
  get_first_nonfull fuel m ret =
  if negb (ret =? NULL) && (pg_read m (ret + 8) <=? 0) then
    match fuel with O => None | S fuel => get_first_nonfull fuel m (pg_read m ret) end
  else Some ret.
Proof. by destruct fuel. Qed.

Lemma check_page_owned_eq fuel m cur page :
  check_page_owned fuel m cur page =
  if negb (cur =? NULL) && negb (cur =? page) then
    match fuel with O => None | S fuel => check_page_owned fuel m (pg_read m cur) page end
  else Some (negb (cur =? NULL)).
Proof. by destruct fuel. Qed.

Lemma first_nonfull_spec fuel m f pages :
  chain (pg_read m) f pages.*1 → (∀ pg es, (pg, es) ∈ pages → page_rep m pg es) →
  (length pages ≤ fuel)%nat →
  ∃ r, get_first_nonfull fuel m f = Some r ∧ (r = NULL ∨ ∃ es, (r, es) ∈ pages ∧ es ≠ []).
Proof.
  revert fuel f. induction pages as [|[pg es] pages IH]; intros fuel f Hc Hrep Hf; simpl in Hc.
  - subst f. exists NULL. destruct fuel; simpl; auto.
  - destruct Hc as (-> & Hpg & Hc). destruct (Hrep pg es) as (Hnb & _); [set_solver|].
    rewrite get_first_nonfull_eq, Hnb.
    destruct (Z.eqb_spec pg NULL); [done|]. destruct es as [|e es]; simpl.
    + destruct fuel as [|fuel]; simpl in Hf; [lia|].
      destruct (IH fuel (pg_read m pg)) as (r & Hr & Hnf); [done|set_solver|lia|].
      exists r. split; [done|]. destruct Hnf as [|(es & ? & ?)]; [by left|right].
      exists es. set_solver.
    + exists pg. split; [done|right]. exists (e :: es). split; [set_solver|done].
Qed.

Lemma owned_spec fuel m f pages pg :
  chain (pg_read m) f pages → pg ∈ pages → (length pages ≤ fuel)%nat →
  check_page_owned fuel m f pg = Some true.
Proof.
  revert fuel f. induction pages as [|x pages IH]; intros fuel f Hc Hin Hf; simpl in *; [set_solver|].
  destruct Hc as (-> & Hx & Hc). rewrite check_page_owned_eq.
  destruct (Z.eqb_spec x NULL); [done|]. destruct (Z.eqb_spec x pg) as [->|Hne]; simpl.
  - done.
  - destruct fuel as [|fuel]; [lia|]. apply IH; [done|set_solver|lia].
Qed.

(** Taking the first empty object of a page. *)
Definition take_object m (pg : ptr) : M :=
  let m := pg_write (pg + 4) (pg_read m (pg_read m (pg + 4))) m in
  pg_write (pg + 8) (pg_read m (pg + 8) - 1) m.

(** The page and the object of a well-formed page, in terms of addresses. *)
Lemma page_rep_first m pg e es :
  page_rep m pg (e :: es) → pg_read m (pg + 4) = e ∧ pg + 12 ≤ e ∧ e + sz < pg + 1024.
Proof.
  intros (_ & [He _] & _ & Hin). split; [done|]. apply objs_bounds, Hin. set_solver.
Qed.

Lemma take_object_spec m F pg e es :
  pg_inv m F → page_ok pg → pg ∉ F → page_rep m pg (e :: es) →
  let m' := take_object m pg in
  pg_inv m' F ∧ same_outside m m' pg ∧ page_rep m' pg es ∧
  (∀ a, a ≠ pg + 4 → a ≠ pg + 8 → pg_read m' a = pg_read m a).
Proof.
  intros Hi [Hm Hr] HF Hrep. cbn zeta. destruct (page_rep_first _ _ _ _ Hrep) as (He & Hb).
  destruct Hrep as (Hnb & [_ Hpre] & [Hne Hnd]%NoDup_cons & Hin). unfold take_object. cbn zeta. rewrite He.
  assert (Hfr : ∀ a v w, a ≠ pg + 4 → a ≠ pg + 8 →
    pg_read (pg_write (pg + 8) v (pg_write (pg + 4) w m)) a = pg_read m a)
    by (intros; by rewrite !rd_ne).
  unfold page_rep, same_outside. split_and!.
  - repeat apply pg_write_inv; try done; rewrite page_of_ok; done || lia.
  - intros a Ha. apply Hfr; intros ->; apply Ha, page_of_ok; done || lia.
  - apply Hfr; lia.
  - rd. rewrite Hnb. simpl. lia.
  - rd. eapply prefix_frame; [|exact Hpre]. intros x Hx.
    assert (Hx' : x ∈ objs pg) by (apply Hin; set_solver). apply objs_bounds in Hx'. apply Hfr; lia.
  - done.
  - set_solver.
  - intros a H4 H8. by apply Hfr.
Qed.

Lemma live_update l1 l2 pg es es' x :
  NoDup (l1 ++ (pg, es) :: l2).*1 → (∀ q, q ∈ (l1 ++ (pg, es) :: l2).*1 → q mod 1024 = 0) →
  live (l1 ++ (pg, es') :: l2) x ↔
    (x ∈ objs pg ∧ x ∉ es') ∨ (x ∉ objs pg ∧ live (l1 ++ (pg, es) :: l2) x).
Proof.
  rewrite fmap_app, fmap_cons. cbn [fst]. intros Hnd Ha. apply NoDup_app in Hnd as (_ & Hd & [Hd' _]%NoDup_cons).
  assert (Hpg : pg mod 1024 = 0) by (apply Ha; set_solver). unfold live. split.
  - intros (q & fs & Hq & Ho & Hf). destruct (decide (x ∈ objs pg)) as [Hx|Hx]; [left|right].
    + split; [done|]. rewrite elem_of_app, elem_of_cons in Hq.
      destruct Hq as [Hq|[Hq|Hq]]; [|by simplify_eq|]; exfalso;
        apply (list_elem_of_fmap_2 fst) in Hq; simpl in Hq;
        (assert (q = pg) as -> by (rewrite <- (objs_page pg x), <- (objs_page q x) by (done || (apply Ha; set_solver)); done)).
      * apply (Hd pg Hq). set_solver.
      * done.
    + split; [done|]. exists q, fs. split_and!; [|done..].
      rewrite elem_of_app, elem_of_cons in *. destruct Hq as [Hq|[Hq|Hq]]; [by left| |by right; right].
      by simplify_eq.
  - intros [[Hx Hf]|[Hx (q & fs & Hq & Ho & Hf)]].
    + exists pg, es'. split_and!; [set_solver|done..].
    + exists q, fs. split_and!; [|done..].
      rewrite elem_of_app, elem_of_cons in *. destruct Hq as [Hq|[Hq|Hq]]; [by left| |by right; right].
      by simplify_eq.
Qed.

(** What a client observes of an allocation that hands out [o] and turns the
    pages [pages] into [pages']: [o] was not in use, it is the only object whose
    status changes, and no word of a live object is written. *)
Definition alloc_post m m' pages pages' (o : ptr) : Prop :=
  o ≠ NULL ∧ ¬ live pages o ∧ (∀ x, live pages' x ↔ x = o ∨ live pages x) ∧
  (∀ x a, live pages x → x ≤ a < x + sz → pg_read m' a = pg_read m a).

(** The common tail of [pool_alloc]: an object is taken from page [pg]. *)
Lemma alloc_tail fuel p m F l1 l2 pg e es :
  pool_inv p m F (l1 ++ (pg, e :: es) :: l2) → first_nonfull p = pg →
  (length (l1 ++ (pg, e :: es) :: l2) ≤ fuel)%nat →
  ∃ p', (if pg_read (take_object m pg) (pg + 8) <=? 0 then
           nonfull ← get_first_nonfull fuel (take_object m pg) (first_page p);
           Some (pg_read m (pg + 4), mk_pool (objsz p) (perpage p) (first_page p) nonfull, take_object m pg)
         else Some (pg_read m (pg + 4), p, take_object m pg)) = Some (e, p', take_object m pg) ∧
    pool_inv p' (take_object m pg) F (l1 ++ (pg, es) :: l2) ∧
    alloc_post m (take_object m pg) (l1 ++ (pg, e :: es) :: l2) (l1 ++ (pg, es) :: l2) e ∧
    ∀ a, page_of a ≠ pg → pg_read (take_object m pg) a = pg_read m a.
Proof.
  intros Hinv Hnf Hf. pose proof Hinv as (Hs & Hp & Hi & Hc & Hnd & Hpg & Hrep & _).
  assert (Hpgin : pg ∈ (l1 ++ (pg, e :: es) :: l2).*1) by (rewrite fmap_app; set_solver).
  assert (Hrp : page_rep m pg (e :: es)) by (apply Hrep; set_solver).
  destruct (Hpg pg Hpgin) as [HF Hok].
  destruct (page_rep_first _ _ _ _ Hrp) as (He & Hb).
  destruct (take_object_spec m F pg e es Hi Hok HF Hrp) as (Hi' & Hso & Hrp' & Hfr).
  assert (Hup : ∀ p', objsz p' = sz → perpage p' = n → first_page p' = first_page p →
    (first_nonfull p' = NULL ∨ ∃ es0, (first_nonfull p', es0) ∈ l1 ++ (pg, es) :: l2 ∧ es0 ≠ []) →
    pool_inv p' (take_object m pg) F (l1 ++ (pg, es) :: l2))
    by (intros; by eapply pool_inv_update).
  assert (Hpost : alloc_post m (take_object m pg) (l1 ++ (pg, e :: es) :: l2) (l1 ++ (pg, es) :: l2) e).
  { pose proof Hrp as (_ & _ & [Hees _]%NoDup_cons & Hin).
    assert (Heo : e ∈ objs pg) by (apply Hin; set_solver).
    assert (Hal' : ∀ q, q ∈ (l1 ++ (pg, e :: es) :: l2).*1 → q mod 1024 = 0) by (intros q Hq; apply Hpg in Hq as [_ [? _]]; done).
    pose proof (live_update l1 l2 pg (e :: es) (e :: es)) as Hl1.
    pose proof (live_update l1 l2 pg (e :: es) es) as Hl2.
    split_and!.
    - destruct Hok; lia.
    - rewrite Hl1 by done. set_solver.
    - intros x. rewrite Hl1, Hl2 by done. destruct (decide (x = e)) as [->|]; set_solver.
    - intros x a Hx Ha. destruct Hx as (q & fs & Hq & Ho & Hf').
      assert (Hq' : q ∈ (l1 ++ (pg, e :: es) :: l2).*1) by (by apply (list_elem_of_fmap_2 fst) in Hq).
      apply objs_bounds in Ho. destruct (Hpg q Hq') as [_ [Hqm _]]. destruct Hok as [Hpm _].
      apply Hfr; intros ->.
      + assert (q = pg); [|lia].
        pose proof (page_of_ok pg 4 Hpm ltac:(lia)) as H1.
        pose proof (page_of_ok q (pg + 4 - q) Hqm ltac:(lia)) as H2.
        replace (q + (pg + 4 - q)) with (pg + 4) in H2 by lia. congruence.
      + assert (q = pg); [|lia].
        pose proof (page_of_ok pg 8 Hpm ltac:(lia)) as H1.
        pose proof (page_of_ok q (pg + 8 - q) Hqm ltac:(lia)) as H2.
        replace (q + (pg + 8 - q)) with (pg + 8) in H2 by lia. congruence. }
  rewrite He. destruct Hrp' as (Hnb & Hrp'). rewrite Hnb.
  destruct (Z.leb_spec (Z.of_nat (length es)) 0) as [Hle|Hgt].
  - destruct (Hup (mk_pool sz n (first_page p) NULL)) as (_ & _ & _ & Hc' & _ & _ & Hrep' & _); [by auto..|].
    destruct (first_nonfull_spec fuel (take_object m pg) (first_page p) (l1 ++ (pg, es) :: l2)) as (r & -> & Hr);
      [done..| |].
    { rewrite length_app in *. simpl in *. lia. }
    simpl. eexists. split; [done|]. split; [|by destruct Hso]. by apply Hup.
  - exists p. split; [done|]. split; [|by destruct Hso]. apply Hup; [done..|]. right. exists es. rewrite Hnf.
    split; [set_solver|]. by destruct es.
Qed.

(** Linking a new page in front of the pool's pages: its objects are all empty,
    so no object becomes live. *)
Lemma new_page_inv p m m1 F F' pages pg :
  pool_inv p m F pages → F ≡ₚ pg :: F' → page_ok pg → pg_inv m1 F' → page_rep m1 pg (objs pg) →
  (∀ a, page_of a ≠ pg → pg_read m1 a = pg_read m a) →
  let m2 := pg_write (pp_next pg) (first_page p) m1 in
  pool_inv (mk_pool (objsz p) (perpage p) pg pg) m2 F' ([] ++ (pg, objs pg) :: pages) ∧
  (∀ x, live ([] ++ (pg, objs pg) :: pages) x ↔ live pages x) ∧
  (∀ x a, live pages x → x ≤ a < x + sz → pg_read m2 a = pg_read m a).
Proof.
  intros (Hs & Hp & Hi & Hc & Hnd & Hpg & Hrep & Hnf) HFF [Hm Hr] Hi1 Hrp Hout. cbn zeta.
  set (m2 := pg_write (pp_next pg) (first_page p) m1).
  destruct (pg_free_ok m F Hi) as [HndF HokF]. rewrite HFF in HndF. apply NoDup_cons in HndF as [HpgF HndF].
  assert (Hpgn : pg ∉ pages.*1).
  { intros Hin. apply Hpg in Hin as [Hin _]. apply Hin. rewrite HFF. set_solver. }
  assert (Hout2 : ∀ a, page_of a ≠ pg → pg_read m2 a = pg_read m a).
  { intros a Ha. unfold m2, pp_next. rewrite rd_ne; [by apply Hout|]. intros ->. by rewrite page_of_self in Ha. }
  split_and!.
  - split_and!; simpl; try done.
    + apply pg_write_inv; [done|]. unfold pp_next. by rewrite page_of_self.
    + split_and!; [done|lia|]. unfold m2, pp_next. rewrite rd_eq.
      eapply chain_frame; [|exact Hc]. intros x Hx. apply Hout2.
      apply Hpg in Hx as Hx'. destruct Hx' as [_ [? _]]. rewrite page_of_self by done. set_solver.
    + by constructor.
    + intros q [->|Hq]%elem_of_cons; [done|]. apply Hpg in Hq as [Hq ?]. split; [|done].
      intros Hin. apply Hq. rewrite HFF. set_solver.
    + intros q es [Hq|Hq]%elem_of_cons; simplify_eq.
      * destruct Hrp as (Hnb & Hpre & ?). unfold m2, pp_next. split; [by rewrite rd_ne by lia|].
        split; [|done]. rewrite rd_ne by lia. eapply prefix_frame; [|done].
        intros e He%objs_bounds. by rewrite rd_ne by lia.
      * assert (Hq' : q ∈ pages.*1) by (by apply (list_elem_of_fmap_2 fst) in Hq).
        apply page_rep_frame with m; [by apply Hpg in Hq' as [_ [? _]]| |by apply Hrep].
        intros a Ha. apply Hout2. rewrite Ha. set_solver.
    + right. exists (objs pg). split; [set_solver|]. unfold objs. by destruct (Z.to_nat n) eqn:?; [lia|].
  - intros x. unfold live. split; intros (q & fs & Hq & Ho & Hf'); exists q, fs; (split_and!; [|done..]); [|set_solver].
    apply elem_of_cons in Hq as [Hq|Hq]; [|done]. by simplify_eq.
  - intros x a (q & fs & Hq & Ho & _) Ha. apply Hout2. apply (list_elem_of_fmap_2 fst) in Hq. simpl in Hq.
    apply Hpg in Hq as Hq'. destruct Hq' as [_ [Hqm _]]. apply objs_bounds in Ho.
    replace a with (q + (a - q)) by lia. rewrite page_of_ok by (done || lia). set_solver.
Qed.

(** Allocation when the pool has a page with room, or a physical page is free. *)
Lemma pool_alloc_spec fuel p m F pages :
  pool_inv p m F pages → (length pages < fuel)%nat → first_nonfull p ≠ NULL ∨ F ≠ [] →
  ∃ o p' m' F' pages', pool_alloc fuel p m = Some (o, p', m') ∧ pool_inv p' m' F' pages' ∧
    alloc_post m m' pages pages' o ∧
    ((F' = F ∧ pages'.*1 = pages.*1) ∨ ∃ pg, F ≡ₚ pg :: F' ∧ pages'.*1 = pg :: pages.*1) ∧
    ∀ a, page_of a ∉ pages'.*1 → pg_read m' a = pg_read m a.
Proof.
  intros Hinv Hf Hroom. pose proof Hinv as (Hs & Hp & Hi & _ & _ & _ & _ & Hnf).
  unfold pool_alloc. cbn zeta. destruct (Z.eqb_spec (first_nonfull p) NULL) as [Hz|Hz].
  - destruct Hroom as [|HF]; [done|].
    destruct (get_new_page_spec p m F Hs Hp Hi HF) as (pg & m1 & F' & -> & HFF & Hok & Hi1 & Hrp & Hout).
    destruct (new_page_inv p m m1 F F' pages pg Hinv HFF Hok Hi1 Hrp Hout) as (Hinv2 & Hlive & Hfr2).
    simpl. destruct (Z.eqb_spec pg 0); [destruct Hok; lia|]. simpl. destruct (Z.eqb_spec pg 0); [done|]. simpl.
    set (m2 := pg_write (pp_next pg) (first_page p) m1) in *.
    destruct (objs pg) as [|e es] eqn:Hobjs.
    { exfalso. apply (f_equal length) in Hobjs. unfold objs in Hobjs. rewrite objs_from_length in Hobjs. simpl in *. lia. }
    destruct (alloc_tail fuel _ m2 F' [] pages pg e es Hinv2) as (p' & Ht & Hinv' & (He & Hnl & Hl & Hfr) & Hout'); [done|simpl; lia|].
    exists e, p', (take_object m2 pg), F', ([] ++ (pg, es) :: pages). split; [exact Ht|]. split; [done|].
    split; [|split; [right; by exists pg|]]; [split_and!; [done|by rewrite <- Hlive|..]|].
    + intros x. by rewrite Hl, Hlive.
    + intros x a Hx Ha. rewrite (Hfr x) by (done || by apply Hlive). by eapply Hfr2.
    + simpl. intros a Ha. assert (page_of a ≠ pg) by set_solver. rewrite Hout' by done.
      unfold m2, pp_next. destruct Hok as [Hm _]. rewrite rd_ne by (intros ->; by rewrite page_of_self in *).
      by apply Hout.
  - destruct Hnf as [|([|e es] & Hin & Hes)]; [done..|].
    apply list_elem_of_split in Hin as (l1 & l2 & ->).
    destruct (alloc_tail fuel p m F l1 l2 (first_nonfull p) e es Hinv) as (p' & Ht & Hinv' & Hpost & Hout'); [done|lia|].
    exists e, p', (take_object m (first_nonfull p)), F, (l1 ++ (first_nonfull p, es) :: l2).
    simpl. destruct (Z.eqb_spec (first_nonfull p) 0); [done|].
    split_and!; try done; try apply Hpost; [left; by rewrite !fmap_app|].
    intros a Ha. apply Hout'. rewrite fmap_app in Ha. set_solver.
Qed.

(** What a client observes of freeing the live object [o]. *)
Definition free_post m m' pages pages' (o : ptr) : Prop :=
  (∀ x, live pages' x ↔ x ≠ o ∧ live pages x) ∧
  (∀ x a, live pages x → x ≠ o → x ≤ a < x + sz → pg_read m' a = pg_read m a).

Lemma pool_free_spec fuel p m F pages o :
  pool_inv p m F pages → (length pages ≤ fuel)%nat → live pages o →
  ∃ m' pages', pool_free fuel p o m = Some m' ∧ pool_inv p m' F pages' ∧ free_post m m' pages pages' o ∧
    pages'.*1 = pages.*1 ∧ ∀ a, page_of a ∉ pages.*1 → pg_read m' a = pg_read m a.
Proof.
  intros Hinv Hf (pg & es & Hin & Ho & Hoe). pose proof Hinv as (Hs & Hp & Hi & Hc & Hnd & Hpg & Hrep & Hnf).
  assert (Hpgin : pg ∈ pages.*1) by (by apply (list_elem_of_fmap_2 fst) in Hin).
  destruct (Hpg pg Hpgin) as [HF Hok]. pose proof Hok as [Hm Hr].
  pose proof (objs_bounds pg o Ho) as Hb.
  destruct (Hrep pg es Hin) as (Hnb & Hpre & Hnde & Hine).
  assert (Hal' : ∀ q, q ∈ pages.*1 → q mod 1024 = 0) by (intros q Hq; apply Hpg in Hq as [_ [? _]]; done).
  apply list_elem_of_split in Hin as (l1 & l2 & ->).
  unfold pool_free. cbn zeta. rewrite page_bytes. change (o - o mod 1024) with (page_of o).
  rewrite (objs_page pg o Hm Ho). rewrite (owned_spec _ _ _ _ _ Hc Hpgin) by (rewrite length_fmap; lia). simpl.
  unfold pp_first_empty, pp_nbempty. eexists _, (l1 ++ (pg, o :: es) :: l2). split; [done|].
  set (m' := pg_write (pg + 8) _ _).
  assert (Hfr : ∀ a, a ≠ o → a ≠ pg + 4 → a ≠ pg + 8 → pg_read m' a = pg_read m a)
    by (intros; unfold m'; by rewrite !rd_ne).
  split_and!.
  - eapply (pool_inv_update p p m m' F l1 l2 pg es (o :: es)); try done.
    + unfold m'. repeat apply pg_write_inv; try done; rewrite ?page_of_ok, ?(objs_page pg o) by (done || lia); done.
    + split; [|apply Hfr; lia]. intros a Ha.
      apply Hfr; intros ->; apply Ha; rewrite ?page_of_ok, ?(objs_page pg o) by (done || lia); done.
    + unfold page_rep, m'. split_and!.
      * rd. rewrite Hnb. simpl. lia.
      * rd. split; [done|]. rd. eapply prefix_frame; [|exact Hpre]. intros e He.
        assert (e ≠ o) by congruence. apply Hine, objs_bounds in He. by rewrite !rd_ne by lia.
      * by constructor.
      * set_solver.
    + destruct Hnf as [|(fs & Hfs & Hne)]; [by left|right].
      destruct (decide (first_nonfull p = pg)) as [->|Hnp]; [exists (o :: es); split; [set_solver|done]|].
      exists fs. split; [|done]. set_solver.
  - split.
    + intros x. rewrite (live_update l1 l2 pg es (o :: es)), (live_update l1 l2 pg es es) by done. set_solver.
    + intros x a (q & fs & Hq & Hx & Hxf) Hne Ha. apply (list_elem_of_fmap_2 fst) in Hq. simpl in Hq.
      pose proof (objs_bounds q x Hx) as Hbx. pose proof (Hal' q Hq) as Hqm.
      assert (Hqa : page_of a = q).
      { replace a with (q + (a - q)) by lia. apply page_of_ok; [done|lia]. }
      destruct (decide (q = pg)) as [->|Hqp].
      * apply Hfr; [by eapply objs_disjoint|lia..].
      * apply Hfr; intros ->; apply Hqp; rewrite <- Hqa; rewrite ?page_of_ok, ?(objs_page pg o) by (done || lia); done.
  - by rewrite !fmap_app.
  - intros a Ha. apply Hfr; intros ->; apply Ha; rewrite ?page_of_ok, ?(objs_page pg o) by (done || lia); done.
Qed.
End rep.

(** ** Traces of a client *)

Section trace.
Context {M : Type} `{!PageMem M}.

(** A client allocates an object, frees the [i]-th object it holds, or stores
    a word at an offset of it. *)
Inductive pool_op := Alloc | Free (i : nat) | Store (i : nat) (k v : Z).

(** The client's view: the objects it holds with the words it stored there. *)
Abbreviation held := (list (ptr * gmap Z Z)) (only parsing).

Definition pool_step (fuel : nat) (st : pool * M * held) (o : pool_op) : option (pool * M * held) :=
  let '(p, m, h) := st in
  match o with
  | Alloc => '(x, p, m) ← pool_alloc fuel p m; Some (p, m, (x, ∅) :: h)
  | Free i =>
      match h !! i with
      | Some (x, _) => m ← pool_free fuel p x m; Some (p, m, delete i h)
      | None => Some (p, m, h)
      end
  | Store i k v =>
      match h !! i with
      | Some (x, c) => Some (p, pg_write (x + k) v m, <[i := (x, <[k := v]> c)]> h)
      | None => Some (p, m, h)
      end
  end.

Fixpoint pool_run (fuel : nat) (st : pool * M * held) (os : list pool_op) : option (pool * M * held) :=
  match os with [] => Some st | o :: os => st ← pool_step fuel st o; pool_run fuel st os end.

(** Stores stay inside the object and are word aligned. *)
Definition pool_op_ok (sz : Z) (o : pool_op) : Prop :=
  match o with Store _ k _ => 0 ≤ k < sz | _ => True end.

Definition is_alloc (o : pool_op) : bool := match o with Alloc => true | _ => false end.

Section inv.
Context (sz n : Z) (Hsz : 4 ≤ sz) (Hal : sz mod 4 = 0) (Hn : 0 < n) (Hfit : 12 + n * sz < 1024).

Definition trace_inv (p : pool) (m : M) (F : list ptr) pages (h : held) : Prop :=
  pool_inv sz n p m F pages ∧ NoDup h.*1 ∧ (∀ x, live sz n pages x ↔ x ∈ h.*1) ∧
  (∀ x c k v, (x, c) ∈ h → c !! k = Some v → 0 ≤ k < sz ∧ pg_read m (x + k) = v).

(** Words of a live object may be written without disturbing the allocator. *)
Lemma pool_inv_store p m F pages x k v :
  pool_inv sz n p m F pages → live sz n pages x → 0 ≤ k < sz →
  pool_inv sz n p (pg_write (x + k) v m) F pages.
Proof.
  intros Hinv (pg & es & Hin & Ho & Hoe) Hk. pose proof Hinv as (Hs & Hp & Hi & Hc & Hnd & Hpg & Hrep & Hnf).
  assert (Hpgin : pg ∈ pages.*1) by (by apply (list_elem_of_fmap_2 fst) in Hin).
  destruct (Hpg pg Hpgin) as [HF [Hm Hr]].
  destruct (Hrep pg es Hin) as (Hnb & Hpre & Hnde & Hine).
  pose proof (objs_bounds sz n Hsz Hal Hn Hfit pg x Ho) as Hb.
  assert (Hpo : page_of (x + k) = pg).
  { replace (x + k) with (pg + (x + k - pg)) by lia. apply page_of_ok; [done|lia]. }
  apply list_elem_of_split in Hin as (l1 & l2 & ->).
  eapply (pool_inv_update sz n Hsz Hal Hn Hfit p p m); try done.
  - apply pg_write_inv; [done|]. by rewrite Hpo.
  - split; [|apply rd_ne; lia]. intros a Ha. apply rd_ne. intros ->. by rewrite Hpo in Ha.
  - unfold page_rep. rewrite !rd_ne by lia. split_and!; try done. eapply prefix_frame; [|exact Hpre].
    intros e He. apply rd_ne, not_eq_sym. apply (objs_disjoint sz n Hsz Hal Hn Hfit pg e x (x + k)); [by apply Hine|done|congruence|lia].
Qed.

(** Two live objects do not overlap. *)
Lemma live_disjoint p m F pages x y :
  pool_inv sz n p m F pages → live sz n pages x → live sz n pages y → x ≠ y → x + sz ≤ y ∨ y + sz ≤ x.
Proof.
  intros (_ & _ & _ & _ & _ & Hpg & _) (pg & es & Hin & Hx & _) (qg & fs & Hin' & Hy & _) Hne.
  apply (list_elem_of_fmap_2 fst) in Hin, Hin'. simpl in *. apply Hpg in Hin as [_ [Hm _]]. apply Hpg in Hin' as [_ [Hm' _]].
  pose proof (objs_bounds sz n Hsz Hal Hn Hfit pg x Hx). pose proof (objs_bounds sz n Hsz Hal Hn Hfit qg y Hy).
  destruct (decide (pg = qg)) as [->|Hpq].
  - apply (objs_iff sz n Hsz Hal Hn Hfit) in Hx as (i & Hi & ->), Hy as (j & Hj & ->). assert (i ≠ j) by congruence. nia.
  - pose proof (Z.div_mod pg 1024). pose proof (Z.div_mod qg 1024). lia.
Qed.

Lemma trace_step fuel p m F pages h o :
  trace_inv p m F pages h → pool_op_ok sz o → (length pages < fuel)%nat →
  (is_alloc o = true → F ≠ []) →
  ∃ p' m' F' pages' h', pool_step fuel (p, m, h) o = Some (p', m', h') ∧ trace_inv p' m' F' pages' h' ∧
    (length F ≤ length F' + if is_alloc o then 1 else 0)%nat ∧
    (length pages' ≤ length pages + if is_alloc o then 1 else 0)%nat.
Proof.
  intros (Hinv & Hnd & Hl & Hc) Ho Hf HF. destruct o as [|i|i k v]; simpl in Ho |- *.
  - destruct (pool_alloc_spec sz n Hsz Hal Hn Hfit fuel p m F pages Hinv Hf) as
      (x & p' & m' & F' & pages' & -> & Hinv' & (Hx & Hnl & Hl' & Hfr) & HFF & _); [by right; apply HF|].
    assert (Hlen : (length F ≤ length F' + 1)%nat ∧ (length pages' ≤ length pages + 1)%nat).
    { rewrite <- !(length_fmap fst pages), <- (length_fmap fst pages').
      destruct HFF as [[-> ->]|(pg & -> & ->)]; simpl; lia. }
    simpl. exists p', m', F', pages', ((x, ∅) :: h). split; [done|]. split; [|lia]. split_and!; [exact Hinv'|..].
    + simpl. constructor; [by rewrite <- Hl|done].
    + intros y. simpl. rewrite Hl', Hl. set_solver.
    + intros y c k w [Hy|Hy]%elem_of_cons Hk; simplify_eq.
      destruct (Hc y c k w Hy Hk) as [Hr <-]. split; [done|]. apply (Hfr y); [|lia].
      apply Hl. by apply (list_elem_of_fmap_2 fst) in Hy.
  - destruct (h !! i) as [[x c]|] eqn:Hi; simpl.
    + pose proof (delete_Permutation _ _ _ Hi) as Hperm. remember (delete i h) as h' eqn:Hdel. clear Hdel.
      assert (Hx : live sz n pages x) by (apply Hl; rewrite Hperm; set_solver).
      destruct (pool_free_spec sz n Hsz Hal Hn Hfit fuel p m F pages x Hinv) as
        (m' & pages' & -> & Hinv' & (Hl' & Hfr) & Hlen & _); [lia|done|].
      apply (f_equal length) in Hlen. rewrite !length_fmap in Hlen.
      rewrite Hperm in Hnd. simpl in Hnd. apply NoDup_cons in Hnd as [Hnx Hnd].
      simpl. exists p, m', F, pages', h'. split; [done|]. split; [|lia]. split_and!; [done..| |].
      * intros y. rewrite Hl', Hl, Hperm. simpl. set_solver.
      * intros y d k w Hy Hk. assert (Hy' : (y, d) ∈ h) by (rewrite Hperm; set_solver).
        destruct (Hc y d k w Hy' Hk) as [Hr <-]. split; [done|]. apply (Hfr y); [|..|lia].
        -- apply Hl. by apply (list_elem_of_fmap_2 fst) in Hy'.
        -- intros ->. apply Hnx. by apply (list_elem_of_fmap_2 fst) in Hy.
    + exists p, m, F, pages, h. split; [done|]. split; [by split_and!|lia].
  - destruct (h !! i) as [[x c]|] eqn:Hi; simpl.
    + assert (Hxin : x ∈ h.*1) by (apply list_elem_of_lookup; exists i; by rewrite list_lookup_fmap, Hi).
      exists p, (pg_write (x + k) v m), F, pages, (<[i := (x, <[k := v]> c)]> h). split; [done|]. split; [|lia].
      assert (Heq : (<[i := (x, <[k := v]> c)]> h).*1 = h.*1).
      { rewrite list_fmap_insert. apply list_insert_id. by rewrite list_lookup_fmap, Hi. }
      split_and!; rewrite ?Heq; [apply pool_inv_store; [done|by apply Hl|done]|done..|].
      intros y d k' w Hy Hk'. apply list_elem_of_lookup in Hy as [j Hj].
      destruct (decide (i = j)) as [<-|Hij].
      * rewrite list_lookup_insert_eq in Hj by (by eapply lookup_lt_Some). simplify_eq.
        destruct (decide (k = k')) as [<-|Hkk].
        -- rewrite lookup_insert_eq in Hk'. simplify_eq. split; [done|apply rd_eq].
        -- rewrite lookup_insert_ne in Hk' by done. destruct (Hc y c k' w) as [Hr Hw];
             [by eapply list_elem_of_lookup_2|done|]. split; [done|]. rewrite rd_ne by lia. done.
      * rewrite list_lookup_insert_ne in Hj by done.
        destruct (Hc y d k' w) as [Hr Hw]; [by eapply list_elem_of_lookup_2|done|]. split; [done|].
        assert (Hxy : x ≠ y).
        { intros ->. apply Hij. eapply NoDup_lookup; [exact Hnd|..]; rewrite list_lookup_fmap; [by rewrite Hi|by rewrite Hj]. }
        assert (Hly : y ∈ h.*1) by (apply list_elem_of_lookup; exists j; by rewrite list_lookup_fmap, Hj).
        destruct (live_disjoint p m F pages x y) as [Hd|Hd]; [done|by apply Hl|by apply Hl|done|..]; rewrite rd_ne by lia; done.
    + exists p, m, F, pages, h. split; [done|]. split; [by split_and!|lia].
Qed.

Lemma trace_run fuel os p m F pages h :
  trace_inv p m F pages h → Forall (pool_op_ok sz) os → (length pages + length os < fuel)%nat →
  (length (filter is_alloc os) ≤ length F)%nat →
  ∃ p' m' F' pages' h', pool_run fuel (p, m, h) os = Some (p', m', h') ∧ trace_inv p' m' F' pages' h'.
Proof.
  revert p m F pages h. induction os as [|o os IH]; intros p m F pages h Hinv Hos Hf HF.
  - by exists p, m, F, pages, h.
  - apply Forall_cons in Hos as [Ho Hos]. cbn [pool_run]. simpl in Hf.
    destruct (trace_step fuel p m F pages h o Hinv Ho) as (p1 & m1 & F1 & pg1 & h1 & -> & Hinv1 & HF1 & Hp1); [lia| |].
    { intros Ha ->. rewrite filter_cons_True in HF by (by rewrite Ha). simpl in HF. lia. }
    cbn [mbind option_bind]. apply IH with F1 pg1; [done..| |].
    + destruct (is_alloc o); lia.
    + rewrite filter_cons in HF. destruct (is_alloc o) eqn:Ha; case_decide as Hd; simpl in *; try done; lia.
Qed.
End inv.
End trace.

(** ** Properties *)


(** Two free pages, the first linked to the second. *)
Definition demo_pmem : pmem :=
  mk_pmem (λ a, if a =? 0x88000000 then 0x88000400 else 0) 0x88000000 2.

Lemma demo_pmem_rep : pm_rep demo_pmem [0x88000000; 0x88000400].
Proof.
  split_and!; [by repeat split|by apply (bool_decide_eq_true_1 (NoDup _))| |done].
  repeat constructor; done.
Qed.

