(* ===== verification/Pid.v ===== *)
(** * Process identifiers (src/sys/process.c)

    PIDs are handed out in increasing order from [_pid_next], wrapping around
    [CONFIG_PID_MAX], and recorded in a bitfield.  The search loop of
    [process_get_pid] has no bound in the code; it is modelled with fuel and
    proved to end within [CONFIG_PID_MAX] iterations whenever a PID is free. *)

From S2P Require Import Prelude Bitfield.

(** ** Model *)

(** src/config.h: CONFIG_PID_MAX *)
Definition CONFIG_PID_MAX : Z := 1024.
(** src/config.h: CONFIG_PROC_MAX *)
Definition CONFIG_PROC_MAX : Z := 100.

(** src/sys/process.c:48-51: _pid_next *)
Record pids := mk_pids { pid_next : Z; pid_used : list Z }.

(** src/sys/process.c: process_init *)
Definition process_init (st : pids) : pids :=
  let used := bitfield_all_clear (pid_used st) CONFIG_PID_MAX in
  let used := bitfield_set used 0 in
  mk_pids 1 used.

(** The search loop; [None] when [fuel] iterations do not find a free PID. *)
(** src/sys/process.c:716-717: process_get_pid *)
Fixpoint find_pid (fuel : nat) (used : list Z) (ret : Z) : option Z :=
  if bitfield_get used ret then
    match fuel with
    | O => None
    | S fuel => find_pid fuel used (Z.rem (ret + 1) CONFIG_PID_MAX)
    end
  else Some ret.

(** src/sys/process.c: process_get_pid *)
Definition process_get_pid (fuel : nat) (st : pids) : option (Z * pids) :=
  ret ← find_pid fuel (pid_used st) (pid_next st);
  Some (ret, mk_pids (Z.rem (ret + 1) CONFIG_PID_MAX) (bitfield_set (pid_used st) ret)).

(** src/sys/process.c: process_release_pid *)
Definition process_release_pid (pid : Z) (st : pids) : pids :=
  if (0 <=? pid) && (pid <? CONFIG_PID_MAX) then
    mk_pids (pid_next st) (bitfield_clear (pid_used st) pid)
  else st.

(** ** Invariant *)

Definition pids_wf (st : pids) : Prop :=
  0 ≤ pid_next st < 1024 ∧ bitfield_wf 1024 (pid_used st).

Definition is_used (st : pids) (pid : Z) : bool := bitfield_get (pid_used st) pid.

(** ** Lemmas *)

Lemma rem_1024 x : 0 ≤ x → Z.rem x CONFIG_PID_MAX = x mod 1024.
Proof. intros Hx. unfold CONFIG_PID_MAX. by rewrite Z.rem_mod_nonneg by lia. Qed.

Lemma mod_succ a k : (((a + k) mod 1024) + 1) mod 1024 = (a + (k + 1)) mod 1024.
Proof. rewrite Zplus_mod_idemp_l. f_equal. lia. Qed.

(** The loop stops on the first free PID, counting cyclically from [a]. *)
Lemma find_pid_spec used fuel a k d :
  (∀ i, k ≤ i < d → bitfield_get used ((a + i) mod 1024) = true) →
  bitfield_get used ((a + d) mod 1024) = false → 0 ≤ k ≤ d → d - k ≤ Z.of_nat fuel →
  find_pid fuel used ((a + k) mod 1024) = Some ((a + d) mod 1024).
Proof.
  revert k. induction fuel as [|fuel IH]; intros k Hu Hd Hk Hf.
  - replace d with k in * by lia. simpl. by rewrite Hd.
  - simpl. destruct (decide (k = d)) as [->|Hne]; [by rewrite Hd|].
    rewrite Hu by lia. rewrite rem_1024, mod_succ.
    + apply IH; [|done|lia..]. intros i Hi. apply Hu. lia.
    + pose proof (Z.mod_pos_bound (a + k) 1024). lia.
Qed.

(** The distance from [a] to the first free PID. *)
Lemma first_free used a p :
  0 ≤ a < 1024 → 0 ≤ p < 1024 → bitfield_get used p = false →
  ∃ d, 0 ≤ d < 1024 ∧ bitfield_get used ((a + d) mod 1024) = false ∧
    ∀ i, 0 ≤ i < d → bitfield_get used ((a + i) mod 1024) = true.
Proof.
  intros Ha Hp Hfree.
  set (l := (λ i, bitfield_get used ((a + Z.of_nat i) mod 1024)) <$> seq 0 1024).
  assert (Hlk : ∀ i, (i < 1024)%nat → l !! i = Some (bitfield_get used ((a + Z.of_nat i) mod 1024))).
  { intros i Hi. unfold l. rewrite list_lookup_fmap, lookup_seq_lt by done. done. }
  assert (Hlen : length l = 1024%nat) by (unfold l; by rewrite length_fmap, length_seq).
  assert (Hlt : (scan negb l < length l)%nat).
  { apply scan_lt_iff. exists false. split; [|done]. apply list_elem_of_lookup.
    exists (Z.to_nat ((p - a) mod 1024)). pose proof (Z.mod_pos_bound (p - a) 1024).
    rewrite Hlk by lia. rewrite Z2Nat.id by lia. rewrite Zplus_mod_idemp_r.
    replace (a + (p - a)) with p by lia. by rewrite Z.mod_small, Hfree. }
  exists (Z.of_nat (scan negb l)). split; [lia|]. split.
  - destruct (scan_stop negb l Hlt) as (b & Hb & Hs). rewrite Hlk in Hb by lia.
    simplify_eq. by apply negb_true_iff in Hs.
  - intros i Hi. pose proof (scan_before negb l (Z.to_nat i)) as Hbef.
    rewrite Hlk in Hbef by lia. rewrite Z2Nat.id in Hbef by lia.
    specialize (Hbef _ ltac:(lia) eq_refl). by apply negb_false_iff in Hbef.
Qed.

Lemma get_pid_spec st p :
  pids_wf st → 0 ≤ p < 1024 → is_used st p = false →
  ∃ ret st', process_get_pid 1024 st = Some (ret, st') ∧ pids_wf st' ∧ 0 ≤ ret < 1024 ∧
    is_used st ret = false ∧ pid_next st' = (ret + 1) mod 1024 ∧
    (∀ q, 0 ≤ q < 1024 → is_used st' q = (ret =? q) || is_used st q) ∧
    (∀ i, 0 ≤ i < (ret - pid_next st) mod 1024 → is_used st ((pid_next st + i) mod 1024) = true).
Proof.
  intros [Hn Hwf] Hp Hfree.
  destruct (first_free (pid_used st) (pid_next st) p Hn Hp Hfree) as (d & Hd & Hfd & Hbef).
  set (ret := (pid_next st + d) mod 1024).
  assert (Hret : 0 ≤ ret < 1024) by (apply Z.mod_pos_bound; lia).
  pose proof (find_pid_spec (pid_used st) 1024 (pid_next st) 0 d Hbef Hfd) as Hf.
  rewrite Z.add_0_r, Z.mod_small in Hf by lia.
  unfold process_get_pid. rewrite Hf by lia. fold ret. simpl. exists ret. eexists. split; [done|].
  rewrite rem_1024 by lia. split_and!; simpl; try lia.
  - split; simpl; [apply Z.mod_pos_bound; lia|]. by apply bitfield_set_wf.
  - done.
  - intros q Hq. unfold is_used. simpl. by rewrite (bitfield_get_set 1024) by (done || lia).
  - intros i Hi. apply Hbef. revert Hi. unfold ret.
    replace ((pid_next st + d) mod 1024 - pid_next st) with ((pid_next st + d) mod 1024 + (- pid_next st)) by lia.
    rewrite Zplus_mod_idemp_l. replace (pid_next st + d + - pid_next st) with d by lia.
    rewrite Z.mod_small by lia. done.
Qed.

Lemma release_pid_spec st pid :
  pids_wf st → 0 ≤ pid < 1024 →
  pids_wf (process_release_pid pid st) ∧
  ∀ q, 0 ≤ q < 1024 → is_used (process_release_pid pid st) q = negb (pid =? q) && is_used st q.
Proof.
  intros [Hn Hwf] Hp. unfold process_release_pid, CONFIG_PID_MAX.
  destruct (Z.leb_spec 0 pid); [|lia]. destruct (Z.ltb_spec pid 1024); [|lia]. simpl.
  split; [split; [done|by apply bitfield_clear_wf]|]. intros q Hq. unfold is_used. simpl.
  by rewrite (bitfield_get_clear 1024) by (done || lia).
Qed.

Lemma process_init_spec st :
  bitfield_wf 1024 (pid_used st) →
  pids_wf (process_init st) ∧ ∀ q, 0 ≤ q < 1024 → is_used (process_init st) q = (0 =? q).
Proof.
  intros Hwf. unfold process_init, CONFIG_PID_MAX. cbn zeta. rewrite bitfield_all_clear_spec by (done || lia).
  pose proof (bitfield_zero_wf 1024) as Hz. split.
  - split; simpl pid_next; [lia|]. by apply bitfield_set_wf.
  - intros q Hq. unfold is_used. cbn [pid_used]. rewrite (bitfield_get_set 1024) by (done || lia).
    by rewrite bitfield_get_zero, orb_false_r.
Qed.

(** Fewer than 1023 processes leave a PID other than 0 free. *)
Lemma free_pid_exists (held : list Z) :
  (length held < 1023)%nat → ∃ p, 0 < p < 1024 ∧ p ∉ held.
Proof.
  intros Hl. destruct (decide (Forall (λ p, p ∈ held) (seqZ 1 1023))) as [Hall|Hex].
  - exfalso. assert (Hsub : seqZ 1 1023 ⊆ held) by (intros x Hx; rewrite Forall_forall in Hall; auto).
    pose proof (NoDup_seqZ 1 1023) as Hnd. apply (NoDup_submseteq _ held) in Hnd; [|done].
    apply submseteq_length in Hnd. rewrite length_seqZ in Hnd. lia.
  - apply not_Forall_Exists in Hex; [|apply _]. apply Exists_exists in Hex as (p & Hp & Hn).
    apply elem_of_seqZ in Hp. exists p. split; [lia|done].
Qed.

(** ** Traces *)

(** Process creation takes a PID unless [CONFIG_PROC_MAX] processes exist
    (the guard of [process_alloc]); process destruction releases one. *)
Inductive pid_op := GetPid | ReleasePid (i : nat).

Definition pid_step (st : pids * list Z) (o : pid_op) : option (pids * list Z) :=
  let '(s, held) := st in
  match o with
  | GetPid =>
      if Z.of_nat (length held) <? CONFIG_PROC_MAX then
        '(pid, s) ← process_get_pid 1024 s; Some (s, pid :: held)
      else Some (s, held)
  | ReleasePid i =>
      match held !! i with
      | Some pid => Some (process_release_pid pid s, delete i held)
      | None => Some (s, held)
      end
  end.

Fixpoint pid_run (st : pids * list Z) (os : list pid_op) : option (pids * list Z) :=
  match os with [] => Some st | o :: os => st ← pid_step st o; pid_run st os end.

(** The PIDs in use are exactly those held, and PID 0 of the idle task. *)
Definition pid_inv (st : pids) (held : list Z) : Prop :=
  pids_wf st ∧ NoDup held ∧ (length held ≤ 100)%nat ∧ (∀ p, p ∈ held → 0 < p < 1024) ∧
  ∀ p, 0 ≤ p < 1024 → is_used st p = bool_decide (p = 0 ∨ p ∈ held).

Lemma pid_step_inv st held o :
  pid_inv st held → ∃ st' held', pid_step (st, held) o = Some (st', held') ∧ pid_inv st' held'.
Proof.
  intros (Hwf & Hnd & Hlen & Hr & Hu). destruct o as [|i]; simpl.
  - unfold CONFIG_PROC_MAX. destruct (Z.ltb_spec (Z.of_nat (length held)) 100) as [Hlt|Hge];
      [|by exists st, held; split_and!].
    destruct (free_pid_exists held) as (p & Hp & Hpn); [lia|].
    destruct (get_pid_spec st p) as (ret & st' & -> & Hwf' & Hret & Hfr & _ & Hu' & _); [done|lia| |].
    { rewrite Hu by lia. apply bool_decide_false. intros [|]; [lia|done]. }
    simpl. rewrite Hu in Hfr by done. apply bool_decide_eq_false in Hfr.
    exists st', (ret :: held). split; [done|]. split_and!; [done|..].
    + constructor; [tauto|done].
    + simpl. lia.
    + intros q [->|Hq]%elem_of_cons; [|auto]. split; [|lia]. destruct (decide (ret = 0)); [tauto|lia].
    + intros q Hq. rewrite Hu', Hu by done. destruct (Z.eqb_spec ret q) as [->|Hne]; simpl.
      * symmetry. apply bool_decide_true. right. set_solver.
      * apply bool_decide_ext. set_solver.
  - destruct (held !! i) as [pid|] eqn:Hi; [|by exists st, held; split_and!].
    pose proof (delete_Permutation _ _ _ Hi) as Hperm. remember (delete i held) as held' eqn:Hd. clear Hd.
    pose proof Hnd as Hnd'. rewrite Hperm in Hnd'. apply NoDup_cons in Hnd' as [Hpn Hnd'].
    assert (Hpid : 0 < pid < 1024) by (apply Hr; rewrite Hperm; set_solver).
    destruct (release_pid_spec st pid Hwf) as [Hwf' Hu']; [lia|].
    exists (process_release_pid pid st), held'. split; [done|]. split_and!; try done.
    + rewrite Hperm in Hlen. simpl in Hlen. lia.
    + intros q Hq. apply Hr. rewrite Hperm. set_solver.
    + intros q Hq. rewrite Hu', Hu by done. destruct (Z.eqb_spec pid q) as [->|Hne]; simpl.
      * symmetry. apply bool_decide_false. intros [|]; [lia|done].
      * apply bool_decide_ext. rewrite Hperm. set_solver.
Qed.

Lemma process_init_inv st0 : bitfield_wf 1024 (pid_used st0) → pid_inv (process_init st0) [].
Proof.
  intros Hwf. destruct (process_init_spec st0 Hwf) as [Hwf0 Hu0].
  split_and!; [done|constructor|simpl; lia|set_solver|]. intros p Hp. rewrite Hu0 by done.
  destruct (Z.eqb_spec 0 p) as [<-|]; symmetry; [by apply bool_decide_true; left|].
  apply bool_decide_false. set_solver.
Qed.

(** ** Properties *)

(** C21: after [process_init], whatever processes are created and destroyed,
    [process_get_pid] always returns (within [CONFIG_PID_MAX] iterations), and
    the PIDs of the existing processes are distinct, positive and below
    [CONFIG_PID_MAX]; the bitfield marks exactly these and PID 0. *)
Theorem pids_unique st0 os :
  bitfield_wf 1024 (pid_used st0) →
  ∃ st held, pid_run (process_init st0, []) os = Some (st, held) ∧ NoDup held ∧
    (∀ p, p ∈ held → 0 < p < CONFIG_PID_MAX) ∧
    ∀ p, 0 ≤ p < CONFIG_PID_MAX → is_used st p = bool_decide (p = 0 ∨ p ∈ held).
Proof.
  intros Hwf. pose proof (process_init_inv st0 Hwf) as Hinv.
  revert Hinv. generalize (process_init st0), (@nil Z). clear st0 Hwf.
  induction os as [|o os IH]; intros st held Hinv.
  - exists st, held. destruct Hinv as (_ & ? & _ & ? & ?). by split_and!.
  - destruct (pid_step_inv st held o Hinv) as (st' & held' & Hst & Hinv').
    cbn [pid_run]. rewrite Hst. cbn [mbind option_bind]. by apply IH.
Qed.

Lemma pids_unique_witness :
  ∃ st held, pid_run (process_init (mk_pids 0 (replicate 32 5)), []) [GetPid; GetPid; ReleasePid 0; GetPid] =
    Some (st, held) ∧ NoDup held.
Proof.
  destruct (pids_unique (mk_pids 0 (replicate 32 5)) [GetPid; GetPid; ReleasePid 0; GetPid]) as (st & held & H & Hn & _).
  - split; [done|]. apply Forall_replicate. lia.
  - exists st, held. by split.
Defined.

(** [process_get_pid] returns the first PID that is free, counting from
    [_pid_next] and wrapping around, marks it and nothing else as used, and
    makes the PID after it the next candidate. *)
Theorem process_get_pid_first_free st p :
  pids_wf st → 0 ≤ p < 1024 → is_used st p = false →
  ∃ ret st', process_get_pid 1024 st = Some (ret, st') ∧ is_used st ret = false ∧
    (∀ i, 0 ≤ i < (ret - pid_next st) mod 1024 → is_used st ((pid_next st + i) mod 1024) = true) ∧
    (∀ q, 0 ≤ q < 1024 → is_used st' q = (ret =? q) || is_used st q) ∧
    pid_next st' = (ret + 1) mod 1024.
Proof.
  intros Hwf Hp Hf. destruct (get_pid_spec st p Hwf Hp Hf) as (ret & st' & H1 & _ & _ & H2 & H3 & H4 & H5).
  by exists ret, st'.
Qed.

Lemma process_get_pid_first_free_witness :
  ∃ st', process_get_pid 1024 (process_init (mk_pids 9 (replicate 32 5))) = Some (1, st').
Proof.
  destruct (process_get_pid_first_free (process_init (mk_pids 9 (replicate 32 5))) 7) as (ret & st' & H & _).
  - apply process_init_spec. split; [done|]. apply Forall_replicate. lia.
  - lia.
  - reflexivity.
  - exists st'. rewrite H. revert H. vm_compute. by intros [= <- _].
Defined.
