(* ===== verification/Mmu.v ===== *)
(** * Address spaces (src/arch/sh/mmu.c, src/arch/sh/mmu.h)

    Each address space gets an ASID when it is first switched to.  TLB entries
    are tagged with the ASID that was current when they were loaded, so the safety
    of address-space switching is a statement about stale entries: no address
    space may run under an ASID that still tags entries of another one.  An ASID
    is FREE (no entry carries it), USED, or DIRTY (released, entries may remain). *)

From S2P Require Import Prelude.

(** ** Model *)

(** src/arch/sh/mmu.c:33-33: ASID_MAX *)
Definition ASID_MAX : Z := 100.
(** src/arch/sh/mmu.c:36-36: ASID_FREE *)
Definition ASID_FREE : Z := 0.
(** src/arch/sh/mmu.c:37-37: ASID_USED *)
Definition ASID_USED : Z := 1.
(** src/arch/sh/mmu.c:38-38: ASID_DIRTY *)
Definition ASID_DIRTY : Z := 2.
(** src/arch/sh/mmu.h:49-49: ASID_INVALID *)
Definition ASID_INVALID : Z := 0xFE.

(** Flags of PTEL. *)
(** src/arch/sh/mmu.h:28-28: TLB_VALID *)
Definition TLB_VALID : Z := 256.
(** src/arch/sh/mmu.h:31-31: TLB_NOTSHARED *)
Definition TLB_NOTSHARED : Z := 0.
(** src/arch/sh/mmu.h:41-41: TLB_PROT_U_RW *)
Definition TLB_PROT_U_RW : Z := Z.shiftl 3 5.
(** src/arch/sh/mmu.h:43-43: TLB_DIRTY *)
Definition TLB_DIRTY : Z := 4.
(** src/arch/sh/mmu.h:45-45: TLB_CACHEABLE *)
Definition TLB_CACHEABLE : Z := 8.

(** An entry of the TLB: its tag, the virtual page, the word of PTEL (physical page
    and flags), and the address space whose page tables it was loaded from. *)
Record tlb_entry := mk_entry { e_asid : Z; e_vpn : Z; e_ptel : Z; e_owner : nat }.

(** The usage table, the hardware (current ASID of PTEH and TLB contents). *)
(** src/arch/sh/mmu.c:39-39: _asid_usage *)
Record mmu := mk_mmu { asid_usage : list Z; cur_asid : Z; tlb : list tlb_entry }.

(** src/arch/sh/mmu.h: mmu_tlbflush *)
Definition mmu_tlbflush (s : mmu) : mmu := mk_mmu (asid_usage s) (cur_asid s) [].

(** src/arch/sh/mmu.h: mmu_setasid *)
Definition mmu_setasid (asid : Z) (s : mmu) : mmu := mk_mmu (asid_usage s) (u8 asid) (tlb s).

(** [ldtlb] loads one entry tagged with the current ASID; which old entries the
    hardware replaces is its business: [keep] selects those that stay. *)
(** src/arch/sh/mmu.h: mmu_tlb_fillload *)
Definition mmu_tlb_fillload (owner : nat) (vpn ppn flags : Z) (keep : tlb_entry → bool) (s : mmu) : mmu :=
  mk_mmu (asid_usage s) (cur_asid s)
    (mk_entry (cur_asid s) vpn (Z.lor (u32 (Z.shiftl ppn 10)) (u16 flags)) owner :: filter keep (tlb s)).

(** src/arch/sh/mmu.c: mmu_init *)
Definition mmu_init (s : mmu) : mmu :=
  let s := mmu_tlbflush s in
  let s := mmu_setasid 0xFF s in
  mk_mmu (foldl (λ u i, <[i := ASID_FREE]> u) (asid_usage s) (seq 0 (Z.to_nat ASID_MAX))) (cur_asid s) (tlb s).

(** src/arch/sh/mmu.c: arch_adrsp_init *)
Definition arch_adrsp_init : Z := ASID_INVALID.

(** The loop that frees the dirty ASIDs; the second component is [i]. *)
(** src/arch/sh/mmu.c:83-88: arch_adrsp_switch_to *)
Definition clean_dirty (usage : list Z) (i : Z) : list Z * Z :=
  foldl (λ '(u, i) j, if aget u (Z.of_nat j) =? ASID_DIRTY
                      then (aset u (Z.of_nat j) ASID_FREE, Z.of_nat j) else (u, i))
        (usage, i) (seq 0 (Z.to_nat ASID_MAX)).

(** Returns the status, the new [adrsp->asid] and the state. *)
(** src/arch/sh/mmu.c: arch_adrsp_switch_to *)
Definition arch_adrsp_switch_to (asid : Z) (s : mmu) : Z * Z * mmu :=
  if asid =? ASID_INVALID then
    let i := Z.of_nat (scan (λ u, u =? ASID_FREE) (take (Z.to_nat ASID_MAX) (asid_usage s))) in
    if ASID_MAX <=? i then
      let '(usage, i) := clean_dirty (asid_usage s) i in
      if ASID_MAX <=? i then (-1, asid, mk_mmu usage (cur_asid s) (tlb s))
      else
        let s := mmu_tlbflush (mk_mmu usage (cur_asid s) (tlb s)) in
        let s := mk_mmu (aset (asid_usage s) i ASID_USED) (cur_asid s) (tlb s) in
        (0, u8 i, mmu_setasid (u8 i) s)
    else
      let s := mk_mmu (aset (asid_usage s) i ASID_USED) (cur_asid s) (tlb s) in
      (0, u8 i, mmu_setasid (u8 i) s)
  else (0, asid, mmu_setasid asid s).

(** src/arch/sh/mmu.c: arch_adrsp_release *)
Definition arch_adrsp_release (asid : Z) (s : mmu) : Z * Z * mmu :=
  if ASID_MAX <=? asid then (-1, ASID_INVALID, s)
  else (0, ASID_INVALID, mk_mmu (aset (asid_usage s) asid ASID_DIRTY) (cur_asid s) (tlb s)).

(** ** Address spaces in use *)

(** The kernel's address spaces, indexed by creation, and the one that runs
    (none for the idle task and before the first switch). *)
Record spaces := mk_spaces { sp_mmu : mmu; sp_asid : list Z; sp_running : option nat }.

Inductive sp_op :=
| Create                           (* process_alloc *)
| Switch (k : nat)                 (* process_contextjmp *)
| SwitchIdle                       (* process_contextjmp to the idle task *)
| Drop (k : nat)                   (* process_terminate, execve *)
| Miss (vpn ppn flags : Z) (keep : tlb_entry → bool).  (* TLB miss of the running space *)

(** The status of [arch_adrsp_switch_to] is ignored, as in [process_contextjmp]. *)
Definition sp_step (s : spaces) (o : sp_op) : spaces :=
  match o with
  | Create => mk_spaces (sp_mmu s) (sp_asid s ++ [arch_adrsp_init]) (sp_running s)
  | Switch k =>
      match sp_asid s !! k with
      | Some a =>
          let '(_, a, m) := arch_adrsp_switch_to a (sp_mmu s) in
          mk_spaces m (<[k := a]> (sp_asid s)) (Some k)
      | None => s
      end
  | SwitchIdle =>
      let '(_, _, m) := arch_adrsp_switch_to 0xFF (sp_mmu s) in
      mk_spaces m (sp_asid s) None
  | Drop k =>
      match sp_asid s !! k with
      | Some a =>
          let '(_, a, m) := arch_adrsp_release a (sp_mmu s) in
          mk_spaces m (<[k := a]> (sp_asid s)) (sp_running s)
      | None => s
      end
  | Miss vpn ppn flags keep =>
      match sp_running s with
      | Some k => mk_spaces (mmu_tlb_fillload k vpn ppn flags keep (sp_mmu s)) (sp_asid s) (sp_running s)
      | None => s
      end
  end.

Definition sp_init (s : mmu) : spaces := mk_spaces (mmu_init s) [] None.

(** The spaces that hold an ASID. *)
Definition holders (s : spaces) : list Z := filter (λ a, a ≠ ASID_INVALID) (sp_asid s).

(** A space without an ASID is switched to while fewer than [ASID_MAX] others
    hold one; [process_alloc] allows [CONFIG_PROC_MAX] = 100 processes. *)
Definition sp_ok (s : spaces) (o : sp_op) : bool :=
  match o with
  | Switch k => bool_decide (sp_asid s !! k = Some ASID_INVALID → length (holders s) < 100)%nat
  | _ => true
  end.

Fixpoint sp_run (s : spaces) (os : list sp_op) : option spaces :=
  match os with
  | [] => Some s
  | o :: os => if sp_ok s o then sp_run (sp_step s o) os else None
  end.

(** ** Invariant *)

Record sp_inv (s : spaces) : Prop := {
  inv_len : length (asid_usage (sp_mmu s)) = 100%nat;
  inv_val : Forall (λ u, u = ASID_FREE ∨ u = ASID_USED ∨ u = ASID_DIRTY) (asid_usage (sp_mmu s));
  (* each space holds no ASID, or a USED one *)
  inv_held k a : sp_asid s !! k = Some a → a ≠ ASID_INVALID →
    0 ≤ a < 100 ∧ aget (asid_usage (sp_mmu s)) a = ASID_USED;
  inv_used a : 0 ≤ a < 100 → aget (asid_usage (sp_mmu s)) a = ASID_USED → a ∈ sp_asid s;
  (* no ASID is held twice *)
  inv_uniq k k' a : sp_asid s !! k = Some a → sp_asid s !! k' = Some a → a ≠ ASID_INVALID → k = k';
  (* a FREE ASID tags no entry, a held one only entries of its holder *)
  inv_tlb e : e ∈ tlb (sp_mmu s) →
    0 ≤ e_asid e < 100 ∧ aget (asid_usage (sp_mmu s)) (e_asid e) ≠ ASID_FREE;
  inv_owner e k : e ∈ tlb (sp_mmu s) → sp_asid s !! k = Some (e_asid e) → e_owner e = k;
  (* the current ASID is that of the running space, or one it released *)
  inv_cur k : sp_running s = Some k →
    0 ≤ cur_asid (sp_mmu s) < 100 ∧ aget (asid_usage (sp_mmu s)) (cur_asid (sp_mmu s)) ≠ ASID_FREE ∧
    (∀ k', sp_asid s !! k' = Some (cur_asid (sp_mmu s)) → k' = k) ∧
    ∀ a, sp_asid s !! k = Some a → a ≠ ASID_INVALID → a = cur_asid (sp_mmu s)
}.

(** ** Lemmas *)

Lemma clean_dirty_prefix u i n :
  (n ≤ length u)%nat →
  let '(u', i') := foldl (λ '(u, i) j, if aget u (Z.of_nat j) =? ASID_DIRTY
                      then (aset u (Z.of_nat j) ASID_FREE, Z.of_nat j) else (u, i)) (u, i) (seq 0 n) in
  length u' = length u ∧
  (∀ a, 0 ≤ a → aget u' a = if (a <? Z.of_nat n) && (aget u a =? ASID_DIRTY) then ASID_FREE else aget u a) ∧
  ((i' = i ∧ ∀ a, 0 ≤ a < Z.of_nat n → aget u a ≠ ASID_DIRTY) ∨ (0 ≤ i' < Z.of_nat n ∧ aget u i' = ASID_DIRTY)).
Proof.
  induction n as [|n IH]; intros Hn.
  - simpl. split_and!; [done| |left; split; [done|lia]]. intros a Ha. change (a <? Z.of_nat 0) with (a <? 0); destruct (Z.ltb_spec a 0); [lia|done].
  - rewrite seq_S, foldl_app. specialize (IH ltac:(lia)).
    destruct (foldl _ (u, i) (seq 0 n)) as [u1 i1] eqn:Hf. destruct IH as (Hl & Hg & Hi). simpl.
    assert (Hgn : aget u1 (Z.of_nat n) = aget u (Z.of_nat n)).
    { rewrite Hg by lia. destruct (Z.ltb_spec (Z.of_nat n) (Z.of_nat n)); [lia|done]. }
    rewrite Hgn. destruct (Z.eqb_spec (aget u (Z.of_nat n)) ASID_DIRTY) as [Hd|Hd].
    + split_and!.
      * by rewrite aset_length.
      * intros a Ha. destruct (decide (a = Z.of_nat n)) as [->|Hne].
        -- rewrite aget_aset_eq by lia. rewrite Hd. destruct (Z.ltb_spec (Z.of_nat n) (Z.of_nat (S n))); [done|lia].
        -- rewrite aget_aset_ne, Hg by lia.
           destruct (Z.ltb_spec a (Z.of_nat n)), (Z.ltb_spec a (Z.of_nat (S n))); try lia; done.
      * right. split; [lia|done].
    + split_and!; [done|..].
      * intros a Ha. rewrite Hg by done. destruct (decide (a = Z.of_nat n)) as [->|Hne].
        -- destruct (Z.eqb_spec (aget u (Z.of_nat n)) ASID_DIRTY); [done|]. by rewrite !andb_false_r.
        -- destruct (Z.ltb_spec a (Z.of_nat n)), (Z.ltb_spec a (Z.of_nat (S n))); try lia; done.
      * destruct Hi as [[-> Hi]|[Hi Hi']]; [left|right; split; [lia|done]].
        split; [done|]. intros a Ha. destruct (decide (a = Z.of_nat n)) as [->|]; [done|]. apply Hi. lia.
Qed.

Lemma aget_lt u a : 0 ≤ a < Z.of_nat (length u) → u !! Z.to_nat a = Some (aget u a).
Proof. intros Ha. unfold aget. rewrite nth_lookup. destruct (lookup_lt_is_Some_2 u (Z.to_nat a)) as [x ->]; [lia|done]. Qed.

(** Switching to a space without an ASID, when some ASID is not USED: it gets an
    ASID that is FREE, or one that was DIRTY with the TLB flushed. *)
Lemma switch_invalid s a :
  length (asid_usage s) = 100%nat → 0 ≤ a < 100 → aget (asid_usage s) a ≠ ASID_USED →
  Forall (λ u, u = ASID_FREE ∨ u = ASID_USED ∨ u = ASID_DIRTY) (asid_usage s) →
  ∃ i m', arch_adrsp_switch_to ASID_INVALID s = (0, i, m') ∧ 0 ≤ i < 100 ∧ cur_asid m' = i ∧
    length (asid_usage m') = 100%nat ∧
    aget (asid_usage s) i ≠ ASID_USED ∧ aget (asid_usage m') i = ASID_USED ∧
    (∀ j, 0 ≤ j → j ≠ i → aget (asid_usage m') j = aget (asid_usage s) j ∨
       (aget (asid_usage s) j = ASID_DIRTY ∧ aget (asid_usage m') j = ASID_FREE ∧ tlb m' = [])) ∧
    ((tlb m' = tlb s ∧ aget (asid_usage s) i = ASID_FREE) ∨ tlb m' = []).
Proof.
  intros Hl Ha Hna Hval. unfold arch_adrsp_switch_to. rewrite Z.eqb_refl. cbn zeta.
  change (Z.to_nat ASID_MAX) with 100%nat. rewrite take_ge by lia.
  set (f := λ u, u =? ASID_FREE). pose proof (scan_le f (asid_usage s)) as Hle.
  unfold ASID_MAX. destruct (Z.leb_spec 100 (Z.of_nat (scan f (asid_usage s)))) as [Hfull|Hroom].
  - assert (Hnf : ∀ b, 0 ≤ b < 100 → aget (asid_usage s) b ≠ ASID_FREE).
    { assert (Hend : scan f (asid_usage s) = length (asid_usage s)) by lia. apply scan_end in Hend.
      rewrite Forall_lookup in Hend. intros b Hb. specialize (Hend (Z.to_nat b) _ (aget_lt (asid_usage s) b ltac:(lia))).
      unfold f in Hend. apply Z.eqb_neq in Hend. done. }
    pose proof (clean_dirty_prefix (asid_usage s) (Z.of_nat (scan f (asid_usage s))) 100 ltac:(lia)) as Hc.
    unfold clean_dirty. change (Z.to_nat ASID_MAX) with 100%nat.
    destruct (foldl _ _ _) as [u' i'] eqn:Hfold. destruct Hc as (Hl' & Hg & Hi).
    destruct Hi as [[-> Hnd]|[Hi Hdi]].
    { exfalso. rewrite Forall_lookup in Hval. pose proof (Hval (Z.to_nat a) _ (aget_lt (asid_usage s) a ltac:(lia))) as Hv.
      specialize (Hnf a Ha). specialize (Hnd a Ha). naive_solver. }
    destruct (Z.leb_spec 100 i'); [lia|]. rewrite u8_small by lia.
    eexists _, _. split; [done|]. unfold mmu_setasid, mmu_tlbflush. cbn [asid_usage cur_asid tlb].
    rewrite u8_small by lia. rewrite aset_length, aget_aset_eq by lia. split_and!; try done; try lia.
    + by rewrite Hdi.
    + intros j Hj Hji. rewrite aget_aset_ne, Hg by lia.
      destruct (Z.eqb_spec (aget (asid_usage s) j) ASID_DIRTY); [|rewrite andb_false_r; by left].
      rewrite andb_true_r. destruct (Z.ltb_spec j (Z.of_nat 100)); [by right|by left].
    + by right.
  - set (i := Z.of_nat (scan f (asid_usage s))) in *.
    destruct (scan_stop f (asid_usage s)) as (x & Hx & Hfx); [lia|].
    unfold f in Hfx. apply Z.eqb_eq in Hfx. subst x.
    assert (Hi : aget (asid_usage s) i = ASID_FREE) by (apply aget_lookup; unfold i; by rewrite Nat2Z.id).
    rewrite u8_small by lia. eexists _, _. split; [done|]. unfold mmu_setasid. cbn [asid_usage cur_asid tlb].
    rewrite u8_small by lia. rewrite aset_length, aget_aset_eq by lia. split_and!; try done; try lia.
    + by rewrite Hi.
    + intros j Hj Hji. left. rewrite aget_aset_ne by lia. done.
    + by left.
Qed.

(** If fewer than 100 spaces hold an ASID, some ASID is not USED. *)
Lemma not_all_used s :
  sp_inv s → (length (holders s) < 100)%nat →
  ∃ a, 0 ≤ a < 100 ∧ aget (asid_usage (sp_mmu s)) a ≠ ASID_USED.
Proof.
  intros Hinv Hlt.
  destruct (decide (Forall (λ a, aget (asid_usage (sp_mmu s)) a = ASID_USED) (seqZ 0 100))) as [Hall|Hex].
  - exfalso. rewrite Forall_forall in Hall.
    assert (Hsub : seqZ 0 100 ⊆ holders s).
    { intros a Ha. assert (0 ≤ a < 100) by (apply elem_of_seqZ in Ha; lia). unfold holders.
      apply list_elem_of_filter. split; [unfold ASID_INVALID; lia|]. apply (inv_used s Hinv); [done|]. by apply Hall. }
    apply (NoDup_submseteq _ _ (NoDup_seqZ 0 100)) in Hsub.
    apply submseteq_length in Hsub. rewrite length_seqZ in Hsub. lia.
  - apply not_Forall_Exists in Hex; [|apply _]. apply Exists_exists in Hex as (a & Ha & Hn).
    apply elem_of_seqZ in Ha. exists a. split; [lia|done].
Qed.

Lemma insert_lookup_cases {A} (l : list A) k x j y :
  <[k := x]> l !! j = Some y → (j = k ∧ y = x) ∨ (j ≠ k ∧ l !! j = Some y).
Proof.
  destruct (decide (j = k)) as [->|Hne].
  - intros H. left. split; [done|]. assert (k < length l)%nat.
    { apply lookup_lt_Some in H. by rewrite length_insert in H. }
    rewrite list_lookup_insert_eq in H by done. by simplify_eq.
  - rewrite list_lookup_insert_ne by done. auto.
Qed.

Lemma invalid_range a : 0 ≤ a < 100 → a ≠ ASID_INVALID.
Proof. unfold ASID_INVALID. lia. Qed.

Lemma switch_new_inv s k :
  sp_inv s → sp_asid s !! k = Some ASID_INVALID → (length (holders s) < 100)%nat →
  sp_inv (sp_step s (Switch k)).
Proof.
  intros Hinv Hk Hlt. destruct (not_all_used s Hinv Hlt) as (a & Ha & Hna).
  destruct (switch_invalid (sp_mmu s) a) as (i & m' & Hsw & Hi & Hc & Hl & Hio & Hin & Hj & Ht);
    [apply Hinv|done..|apply Hinv|]. simpl. rewrite Hk, Hsw.
  assert (Hkl : (k < length (sp_asid s))%nat) by (by eapply lookup_lt_Some).
  assert (Hnh : i ∉ sp_asid s).
  { intros [j Hji]%list_elem_of_lookup. destruct (inv_held s Hinv j i Hji) as [_ Hu]; [by apply invalid_range|done]. }
  split; cbn [sp_mmu sp_asid sp_running].
  - done.
  - apply Forall_lookup. intros n x Hx. pose proof (lookup_lt_Some _ _ _ Hx) as Hn.
    assert (x = aget (asid_usage m') (Z.of_nat n)) as ->
      by (symmetry; apply aget_lookup; by rewrite Nat2Z.id).
    destruct (decide (Z.of_nat n = i)) as [->|Hne]; [rewrite Hin; auto|].
    destruct (Hj (Z.of_nat n)) as [->|(_ & -> & _)]; [lia|done| |by left].
    pose proof (inv_val s Hinv) as Hv. rewrite Forall_lookup in Hv.
    eapply Hv, aget_lt. rewrite (inv_len s Hinv). lia.
  - intros k' b [[-> ->]|[Hne Hb]]%insert_lookup_cases Hbi; [done|].
    destruct (inv_held s Hinv k' b Hb Hbi) as [Hr Hu]. split; [done|].
    assert (b ≠ i) by (intros ->; apply Hnh, list_elem_of_lookup; eauto).
    destruct (Hj b) as [->|(Hd & _)]; [lia|done|done|]. by rewrite Hd in Hu.
  - intros b Hb Hu. apply list_elem_of_lookup. destruct (decide (b = i)) as [->|Hne].
    + exists k. by apply list_lookup_insert_eq.
    + assert (Hu' : aget (asid_usage (sp_mmu s)) b = ASID_USED).
      { destruct (Hj b) as [<-|(_ & Hf & _)]; [lia|done|done|]. by rewrite Hf in Hu. }
      apply (inv_used s Hinv) in Hu'; [|done]. apply list_elem_of_lookup in Hu' as [j Hjj].
      exists j. rewrite list_lookup_insert_ne; [done|]. intros <-. rewrite Hk in Hjj. simplify_eq.
      by apply (invalid_range ASID_INVALID).
  - intros j j' b [[-> ->]|[Hne Hb]]%insert_lookup_cases [[-> ?]|[Hne' Hb']]%insert_lookup_cases Hbi; try done; subst.
    + exfalso. apply Hnh, list_elem_of_lookup. eauto.
    + exfalso. apply Hnh, list_elem_of_lookup. eauto.
    + by apply (inv_uniq s Hinv j j' b).
  - intros e He. destruct Ht as [[Ht Hfree]|Ht]; [|rewrite Ht in He; set_solver]. rewrite Ht in He.
    destruct (inv_tlb s Hinv e He) as [Hr Hu]. split; [done|]. destruct (decide (e_asid e = i)) as [->|Hne]; [by rewrite Hin|].
    destruct (Hj (e_asid e)) as [->|(_ & _ & Hn)]; [lia|done|done|]. rewrite Ht in Hn. rewrite Hn in He. set_solver.
  - intros e j He [[-> Hei]|[Hne Hb]]%insert_lookup_cases; (destruct Ht as [[Ht Hfree]|Ht]; [|rewrite Ht in He; set_solver]); rewrite Ht in He.
    + exfalso. destruct (inv_tlb s Hinv e He) as [_ Hu]. by rewrite Hei in Hu.
    + by apply (inv_owner s Hinv e j).
  - intros j [= <-]. rewrite Hc, Hin. split; [lia|]. split; [done|]. split.
    + intros k' [[-> _]|[_ Hb]]%insert_lookup_cases; [done|]. exfalso. apply Hnh, list_elem_of_lookup. eauto.
    + intros b. rewrite list_lookup_insert_eq by done. by intros [= ->].
Qed.

Lemma switch_held_inv s k a :
  sp_inv s → sp_asid s !! k = Some a → a ≠ ASID_INVALID → sp_inv (sp_step s (Switch k)).
Proof.
  intros Hinv Hk Hna. simpl. rewrite Hk. unfold arch_adrsp_switch_to.
  destruct (Z.eqb_spec a ASID_INVALID); [done|]. destruct (inv_held s Hinv k a Hk Hna) as [Hr Hu].
  rewrite list_insert_id by done. destruct Hinv. split; simpl; try done.
  intros j [= <-]. rewrite u8_small by lia. rewrite Hu. split; [lia|]. split; [done|]. split; [eauto|].
  intros b Hb. by simplify_eq.
Qed.

Lemma drop_inv s k : sp_inv s → sp_inv (sp_step s (Drop k)).
Proof.
  intros Hinv. simpl. destruct (sp_asid s !! k) as [a|] eqn:Hk; [|done]. unfold arch_adrsp_release, ASID_MAX.
  assert (Hkl : (k < length (sp_asid s))%nat) by (by eapply lookup_lt_Some).
  destruct (Z.leb_spec 100 a) as [Hge|Hlt].
  - assert (a = ASID_INVALID) as ->.
    { destruct (decide (a = ASID_INVALID)); [done|]. destruct (inv_held s Hinv k a); [done..|lia]. }
    rewrite list_insert_id by done. by destruct s.
  - assert (Hna : a ≠ ASID_INVALID) by (unfold ASID_INVALID; lia).
    destruct (inv_held s Hinv k a Hk Hna) as [Hr Hu]. pose proof (inv_len s Hinv) as Hl.
    assert (Hset : ∀ b, 0 ≤ b < 100 → aget (aset (asid_usage (sp_mmu s)) a ASID_DIRTY) b =
      if b =? a then ASID_DIRTY else aget (asid_usage (sp_mmu s)) b).
    { intros b Hb. destruct (Z.eqb_spec b a) as [->|]; [apply aget_aset_eq|apply aget_aset_ne]; lia. }
    split; cbn [sp_mmu sp_asid sp_running asid_usage tlb cur_asid].
    + by rewrite aset_length.
    + apply Forall_insert; [apply Hinv|auto].
    + intros j b [[-> ->]|[Hne Hb]]%insert_lookup_cases Hbi; [done|].
      destruct (inv_held s Hinv j b Hb Hbi) as [Hbr Hbu]. rewrite Hset by done. split; [done|].
      destruct (Z.eqb_spec b a) as [->|]; [|done]. exfalso. by apply Hne, (inv_uniq s Hinv j k a).
    + intros b Hb. rewrite Hset by done. destruct (Z.eqb_spec b a) as [|Hne]; [done|]. intros Hbu.
      apply (inv_used s Hinv b Hb) in Hbu. apply list_elem_of_lookup in Hbu as [j Hj].
      apply list_elem_of_lookup. exists j. rewrite list_lookup_insert_ne; [done|]. intros <-. by simplify_eq.
    + intros j j' b [[-> ->]|[Hne Hb]]%insert_lookup_cases [[-> ?]|[Hne' Hb']]%insert_lookup_cases Hbi; try done.
      by apply (inv_uniq s Hinv j j' b).
    + intros e He. destruct (inv_tlb s Hinv e He) as [Her Heu]. rewrite Hset by done. by case_match.
    + intros e j He [[-> Hei]|[Hne Hb]]%insert_lookup_cases.
      * destruct (inv_tlb s Hinv e He) as [Her _]. by apply invalid_range in Her.
      * by apply (inv_owner s Hinv e j).
    + intros j Hj. destruct (inv_cur s Hinv j Hj) as (Hcr & Hcu & Hk' & Hown). rewrite Hset by done.
      split; [lia|]. split; [by case_match|]. split.
      * intros k' [[-> Hci]|[Hne Hb]]%insert_lookup_cases; [|by apply Hk']. by apply invalid_range in Hcr.
      * intros b [[-> ->]|[Hne Hb]]%insert_lookup_cases Hbi; [done|by apply Hown].
Qed.

Lemma miss_inv s vpn ppn flags keep : sp_inv s → sp_inv (sp_step s (Miss vpn ppn flags keep)).
Proof.
  intros Hinv. simpl. destruct (sp_running s) as [k|] eqn:Hrun; [|done].
  destruct (inv_cur s Hinv k Hrun) as (Hcr & Hcu & Hk' & _).
  unfold mmu_tlb_fillload. generalize (Z.lor (u32 (Z.shiftl ppn 10)) (u16 flags)). intros ptel.
  assert (Hcase : ∀ e, e ∈ mk_entry (cur_asid (sp_mmu s)) vpn ptel k :: filter keep (tlb (sp_mmu s)) →
    e = mk_entry (cur_asid (sp_mmu s)) vpn ptel k ∨ e ∈ tlb (sp_mmu s)).
  { intros e [->|He]%elem_of_cons; [by left|right]. apply list_elem_of_filter in He. tauto. }
  destruct Hinv as [I1 I2 I3 I4 I5 I6 I7 I8].
  split; cbn [sp_mmu sp_asid sp_running asid_usage tlb cur_asid]; try done.
  - intros e [->|He]%Hcase; [done|auto].
  - intros e j [->|He]%Hcase; simpl; [intros Hj; symmetry; by apply Hk'|by apply I7].
  - intros j Hj. apply I8. by rewrite Hrun.
Qed.

Lemma create_inv s : sp_inv s → sp_inv (sp_step s Create).
Proof.
  intros Hinv. simpl. unfold arch_adrsp_init.
  assert (Hlk : ∀ k a, (sp_asid s ++ [ASID_INVALID]) !! k = Some a → a = ASID_INVALID ∨ sp_asid s !! k = Some a).
  { intros k a Hk. apply lookup_app_Some in Hk as [Hk|[_ Hk]]; [by right|left].
    apply list_lookup_singleton_Some in Hk. naive_solver. }
  destruct Hinv as [I1 I2 I3 I4 I5 I6 I7 I8].
  split; cbn [sp_mmu sp_asid sp_running]; try done.
  - intros k a [->|Hk]%Hlk Hna; [done|eauto].
  - intros a Ha Hu. apply elem_of_app. left. auto.
  - intros k k' a [->|Hk]%Hlk [?|Hk']%Hlk Hna; try done. eauto.
  - intros e k He [Hei|Hk]%Hlk; [|by apply I7]. destruct (I6 e He) as [Hr _]. by apply invalid_range in Hr.
  - intros k Hk. destruct (I8 k Hk) as (Hr & Hu & Hk' & Hown). split; [lia|]. split; [done|]. split.
    + intros k' [Hci|Hkk]%Hlk; [by apply invalid_range in Hr|auto].
    + intros a [->|Ha]%Hlk Hna; [done|by apply Hown].
Qed.

Lemma sp_step_inv s o : sp_inv s → sp_ok s o = true → sp_inv (sp_step s o).
Proof.
  intros Hinv Hok. destruct o as [|k| |k|vpn ppn keep].
  - by apply create_inv.
  - apply bool_decide_eq_true in Hok. destruct (sp_asid s !! k) as [a|] eqn:Hk.
    + destruct (decide (a = ASID_INVALID)) as [->|Hna]; [apply switch_new_inv; auto|by eapply switch_held_inv].
    + simpl. by rewrite Hk.
  - destruct Hinv. split; simpl; done.
  - by apply drop_inv.
  - by apply miss_inv.
Qed.

Lemma sp_init_inv m : length (asid_usage m) = 100%nat → sp_inv (sp_init m).
Proof.
  intros Hl. unfold sp_init, mmu_init. cbn zeta. simpl asid_usage. change (Z.to_nat ASID_MAX) with 100%nat.
  rewrite foldl_insert_const by lia. rewrite drop_ge, app_nil_r by lia.
  split; cbn [sp_mmu sp_asid sp_running asid_usage tlb mmu_setasid mmu_tlbflush]; try done; try set_solver.
  - apply Forall_replicate. auto.
  - intros a Ha Hu. exfalso. unfold aget in Hu. rewrite nth_lookup, lookup_replicate_2 in Hu by lia. done.
Qed.

(** ** Properties *)

(** C10: after [mmu_init], for every interleaving of creations, switches,
    releases and TLB misses with at most [ASID_MAX] spaces holding an ASID, each entry of
    the TLB tagged with the ASID of an address space was loaded by that same
    address space, and no two address spaces hold the same ASID: a process never
    translates through another's pages. *)
Theorem tlb_isolation m os s :
  length (asid_usage m) = 100%nat → sp_run (sp_init m) os = Some s →
  (∀ e k, e ∈ tlb (sp_mmu s) → sp_asid s !! k = Some (e_asid e) → e_owner e = k) ∧
  (∀ k k' a, sp_asid s !! k = Some a → sp_asid s !! k' = Some a → a ≠ ASID_INVALID → k = k') ∧
  (∀ k a, sp_running s = Some k → sp_asid s !! k = Some a → a ≠ ASID_INVALID → a = cur_asid (sp_mmu s)).
Proof.
  intros Hl Hrun. assert (Hinv : sp_inv s).
  { revert Hrun. apply (sp_init_inv m) in Hl. revert Hl. generalize (sp_init m). clear m.
    induction os as [|o os IH]; intros s0 Hinv; simpl; [by intros [= <-]|].
    destruct (sp_ok s0 o) eqn:Hok; [|done]. apply IH. by apply sp_step_inv. }
  split_and!; [apply Hinv|apply Hinv|]. intros k a Hk. by apply (inv_cur s Hinv k Hk).
Qed.

Lemma tlb_isolation_witness :
  ∃ s, sp_run (sp_init (mk_mmu (replicate 100 7) 3 [mk_entry 0 1 2 9])) 
    [Create; Switch 0; Miss 5 6 0x164 (λ _, true); Create; Drop 0; Switch 1; Miss 5 7 0x164 (λ _, true); Switch 0] = Some s ∧
    ∀ e k, e ∈ tlb (sp_mmu s) → sp_asid s !! k = Some (e_asid e) → e_owner e = k.
Proof.
  eexists. split; [vm_compute; reflexivity|].
  apply (tlb_isolation (mk_mmu (replicate 100 7) 3 [mk_entry 0 1 2 9])
    [Create; Switch 0; Miss 5 6 0x164 (λ _, true); Create; Drop 0; Switch 1; Miss 5 7 0x164 (λ _, true); Switch 0]).
  - reflexivity.
  - vm_compute. reflexivity.
Defined.

(** [arch_adrsp_switch_to] gives an ASID to a space that has none whenever
    some ASID is not in use; it never takes an ASID in use, and it takes a DIRTY
    one only after flushing the TLB. *)
Theorem adrsp_switch_to_assigns s a :
  length (asid_usage s) = 100%nat → 0 ≤ a < 100 → aget (asid_usage s) a ≠ ASID_USED →
  Forall (λ u, u = ASID_FREE ∨ u = ASID_USED ∨ u = ASID_DIRTY) (asid_usage s) →
  ∃ i s', arch_adrsp_switch_to ASID_INVALID s = (0, i, s') ∧ 0 ≤ i < 100 ∧ cur_asid s' = i ∧
    aget (asid_usage s) i ≠ ASID_USED ∧ aget (asid_usage s') i = ASID_USED ∧
    (aget (asid_usage s) i = ASID_DIRTY → tlb s' = []) ∧
    ∀ j, 0 ≤ j < 100 → aget (asid_usage s) j = ASID_USED → aget (asid_usage s') j = ASID_USED.
Proof.
  intros Hl Ha Hna Hv. destruct (switch_invalid s a Hl Ha Hna Hv) as (i & m' & Hsw & Hi & Hc & Hl' & Hio & Hin & Hj & Ht).
  exists i, m'. split_and!; try done; try lia.
  - intros Hd. destruct Ht as [[_ Hf]|Ht]; [|done]. by rewrite Hd in Hf.
  - intros j Hjr Hu. assert (j ≠ i) by (intros ->; done). destruct (Hj j) as [->|(Hd & _)]; [lia|done..|].
    by rewrite Hd in Hu.
Qed.

Lemma adrsp_switch_to_assigns_witness :
  ∃ i s', arch_adrsp_switch_to ASID_INVALID (mk_mmu (replicate 60 1 ++ replicate 40 2) 3 [mk_entry 70 1 2 0]) = (0, i, s') ∧
    tlb s' = [].
Proof.
  destruct (adrsp_switch_to_assigns (mk_mmu (replicate 60 1 ++ replicate 40 2) 3 [mk_entry 70 1 2 0]) 60)
    as (i & s' & H & _).
  - reflexivity.
  - lia.
  - vm_compute. discriminate.
  - apply Forall_app. split; apply Forall_replicate; auto.
  - exists i, s'. split; [exact H|]. revert H. vm_compute. by intros [= _ <-].
Defined.
