(* ===== verification/PageDir.v ===== *)
(** * Page directories (src/sys/memory.c, src/sys/memory.h)

    The pages of a process are described by directories of 32 pages each, kept
    in a list ordered by directory number.  The directories come from a pool and
    the pages from the page allocator; both are used through their models.  The
    list of directories is represented by the sequence of its nodes. *)

From S2P Require Import Prelude PhysMem PoolAlloc.

(** ** Data *)

(** src/sys/memory.h:33-33: MEM_DIRECTORY_ORDER *)
Definition MEM_DIRECTORY_ORDER : Z := 5.
(** src/sys/memory.h:34-34: MEM_DIRECTORY_PAGES *)
Definition MEM_DIRECTORY_PAGES : Z := Z.shiftl 1 MEM_DIRECTORY_ORDER.
(** src/sys/memory.h:45-45: MEM_PAGE_PRIVATE *)
Definition MEM_PAGE_PRIVATE : Z := 1.
(** src/sys/memory.h:46-46: MEM_PAGE_VALID *)
Definition MEM_PAGE_VALID : Z := 2.
(** src/sys/memory.h:48-48: MEM_PAGE_CACHED *)
Definition MEM_PAGE_CACHED : Z := 4.
(** src/sys/memory.h:49-49: MEM_PAGE_DIRTY *)
Definition MEM_PAGE_DIRTY : Z := 8.

(** The private view of the union: a page number and flags. *)
(** src/sys/memory.h:51-61: pm_page *)
Record pm_page := mk_page { ppn : Z; pflags : Z }.

(** [pd_self] is the address of the structure. *)
(** src/sys/memory.h:88-94: page_dir *)
Record page_dir := mk_dir { pd_self : ptr; dir_id : Z; pages : list pm_page }.

(** src/sys/memory.h: MEM_PAGE_ADDRESS *)
Definition MEM_PAGE_ADDRESS (dir index : Z) : ptr :=
  u32 (Z.shiftl (u32 (Z.shiftl dir MEM_DIRECTORY_ORDER) + index) PM_PAGE_ORDER).
(** src/sys/memory.h: MEM_ADDRESS_DIRECTORY *)
Definition MEM_ADDRESS_DIRECTORY (addr : ptr) : Z := Z.shiftr addr (PM_PAGE_ORDER + MEM_DIRECTORY_ORDER).
(** src/sys/memory.h: MEM_ADDRESS_INDEX *)
Definition MEM_ADDRESS_INDEX (addr : ptr) : Z := Z.land (Z.shiftr addr PM_PAGE_ORDER) (MEM_DIRECTORY_PAGES - 1).
(** src/sys/memory.h: MEM_PAGE_BEGINING *)
Definition MEM_PAGE_BEGINING (addr : ptr) : ptr := Z.land addr (u32 (Z.lnot (PM_PAGE_BYTES - 1))).

(** ** Operations *)

(** Returns the page descriptor, [None] for the NULL result. *)
(** src/sys/memory.c: mem_find_page *)
Fixpoint mem_find_page (dir_list : list page_dir) (addr : ptr) : option pm_page :=
  match dir_list with
  | [] => None
  | cur :: next =>
      if dir_id cur <? MEM_ADDRESS_DIRECTORY addr then mem_find_page next addr
      else if dir_id cur =? MEM_ADDRESS_DIRECTORY addr then pages cur !! Z.to_nat (MEM_ADDRESS_INDEX addr)
      else None
  end.

(** [cur->pages[MEM_ADDRESS_INDEX(addr)] = *page] *)
(** src/sys/memory.c:93-93: mem_insert_page *)
Definition dir_set (cur : page_dir) (page : pm_page) (addr : ptr) : page_dir :=
  mk_dir (pd_self cur) (dir_id cur) (aset (pages cur) (MEM_ADDRESS_INDEX addr) page).

Section ops.
Context {M : Type} `{!PageMem M}.

(** The pool of directories and the memory it lives in. *)
Record vmem := mk_vmem { v_pool : pool; v_mem : M }.

(** The page descriptors of a new directory: the flags are set, the page numbers
    are what the memory of the object holds. *)
(** src/sys/memory.c:61-63: mem_insert_page *)
Definition new_dir (self : ptr) (id : Z) (m : M) : page_dir :=
  mk_dir self id ((λ i, mk_page (Z.shiftr (pg_read m (self + 12 + 4 * Z.of_nat i)) 10) MEM_PAGE_PRIVATE)
                  <$> seq 0 (Z.to_nat MEM_DIRECTORY_PAGES)).

(** The walk to the insertion point and the insertion.  The first component of the
    result tells whether a directory had to be created; [fresh] is that directory. *)
(** src/sys/memory.c:48-91: mem_insert_page *)
Fixpoint insert_dir (dir_list : list page_dir) (id : Z) (upd : page_dir → page_dir) (fresh : page_dir)
  : list page_dir :=
  match dir_list with
  | [] => [upd fresh]
  | cur :: next =>
      if (dir_id cur <? id) && negb (match next with [] => true | _ => false end) then
        cur :: insert_dir next id upd fresh
      else if dir_id cur =? id then upd cur :: next
      else if id <? dir_id cur then upd fresh :: cur :: next
      else cur :: upd fresh :: next
  end.

(** Whether the walk ends on the directory looked for. *)
(** src/sys/memory.c:48-51: mem_insert_page *)
Fixpoint has_dir (dir_list : list page_dir) (id : Z) : bool :=
  match dir_list with
  | [] => false
  | cur :: next =>
      if (dir_id cur <? id) && negb (match next with [] => true | _ => false end) then has_dir next id
      else dir_id cur =? id
  end.

(** [None]: the kernel hangs for lack of physical pages. *)
(** src/sys/memory.c: mem_insert_page *)
Definition mem_insert_page (fuel : nat) (dir_list : list page_dir) (page : pm_page) (addr : ptr) (v : vmem)
  : option (Z * list page_dir * vmem) :=
  let id := MEM_ADDRESS_DIRECTORY addr in
  if has_dir dir_list id then
    Some (0, insert_dir dir_list id (λ cur, dir_set cur page addr) (mk_dir NULL id []), v)
  else
    '(newdir, p, m) ← pool_alloc fuel (v_pool v) (v_mem v);
    if newdir =? NULL then Some (-1, dir_list, mk_vmem p m)
    else Some (0, insert_dir dir_list id (λ cur, dir_set cur page addr) (new_dir newdir id m), mk_vmem p m).

(** [memcpy(dest, src, 4*n)], word by word. *)
Fixpoint copy_words (n : nat) (dest src : ptr) (m : M) : M :=
  match n with
  | O => m
  | S n => copy_words n (dest + 4) (src + 4) (pg_write dest (pg_read m src) m)
  end.

(** P1 and P2 addresses denote the same physical words; memory is indexed by the
    P1 ones. *)
Definition phys_word (a : ptr) : ptr := P1_SECTION_BASE + SECTION_OFFSET a.

(** src/sys/memory.c: mem_copy_page *)
Definition mem_copy_page (fuel : nat) (orig : pm_page) (dir_list : list page_dir) (addr : ptr) (v : vmem)
  : option (Z * list page_dir * vmem) :=
  if pflags orig &? MEM_PAGE_PRIVATE then
    '(dest, m) ← pg_get (if pflags orig &? MEM_PAGE_CACHED then MEM_PM_CACHED else MEM_PM_UNCACHED) (v_mem v);
    if negb (dest =? NULL) then
      let origaddr := if pflags orig &? MEM_PAGE_CACHED then P1_SECTION_BASE else P2_SECTION_BASE in
      let m := copy_words 256 (phys_word dest) (phys_word (u32 (origaddr + PM_PHYSICAL_ADDR (ppn orig)))) m in
      '(_, dirs, v) ← mem_insert_page fuel dir_list (mk_page (PM_PHYSICAL_PAGE dest) (pflags orig)) addr
                        (mk_vmem (v_pool v) m);
      Some (0, dirs, v)
    else Some (-1, dir_list, mk_vmem (v_pool v) m)
  else Some (-1, dir_list, v).

(** src/sys/memory.c: mem_release_page *)
Definition mem_release_page (page : pm_page) (m : M) : option (pm_page * M) :=
  if (pflags page &? MEM_PAGE_PRIVATE) && (pflags page &? MEM_PAGE_VALID) then
    m ← pg_release (PM_PHYSICAL_ADDR (ppn page)) m;
    Some (mk_page (ppn page) (Z.land (pflags page) (Z.lnot MEM_PAGE_VALID)), m)
  else Some (page, m).

(** The loop over the pages of a directory. *)
(** src/sys/memory.c:150-151: mem_release_dir *)
Fixpoint release_pages (ps : list pm_page) (m : M) : option M :=
  match ps with
  | [] => Some m
  | page :: ps => '(_, m) ← mem_release_page page m; release_pages ps m
  end.

(** src/sys/memory.c: mem_release_dir *)
Definition mem_release_dir (fuel : nat) (dir : page_dir) (v : vmem) : option vmem :=
  m ← release_pages (pages dir) (v_mem v);
  m ← pool_free fuel (v_pool v) (pd_self dir) m;
  Some (mk_vmem (v_pool v) m).
End ops.
Arguments vmem : clear implicits.
Arguments mk_vmem {M} _ _.

(** ** Well-formedness *)

(** Strictly increasing directory numbers, 32 pages each. *)
Fixpoint dirs_wf (ds : list page_dir) : Prop :=
  match ds with
  | [] => True
  | d :: ds => length (pages d) = 32%nat ∧ (∀ d', d' ∈ ds → dir_id d < dir_id d') ∧ dirs_wf ds
  end.

(** ** Lemmas *)

Section addresses.
Context (a : Z) (Ha : 0 ≤ a < 2 ^ 32).

Lemma address_directory : MEM_ADDRESS_DIRECTORY a = a / 32768.
Proof. unfold MEM_ADDRESS_DIRECTORY. by rewrite Z.shiftr_div_pow2. Qed.

Lemma address_index : MEM_ADDRESS_INDEX a = (a / 1024) mod 32.
Proof.
  unfold MEM_ADDRESS_INDEX. change (MEM_DIRECTORY_PAGES - 1) with (Z.ones 5).
  by rewrite Z.land_ones, Z.shiftr_div_pow2.
Qed.

Lemma index_range : 0 ≤ MEM_ADDRESS_INDEX a < 32.
Proof. rewrite address_index. apply Z.mod_pos_bound. lia. Qed.
End addresses.

(** Two addresses with the same directory and index lie in the same page. *)
Lemma same_page a b :
  MEM_ADDRESS_DIRECTORY a = MEM_ADDRESS_DIRECTORY b → MEM_ADDRESS_INDEX a = MEM_ADDRESS_INDEX b →
  a / 1024 = b / 1024.
Proof.
  rewrite !address_directory, !address_index. change 32768 with (1024 * 32).
  rewrite <- !Z.div_div by lia. pose proof (Z.div_mod (a / 1024) 32). pose proof (Z.div_mod (b / 1024) 32). lia.
Qed.

Lemma page_same a b :
  a / 1024 = b / 1024 →
  MEM_ADDRESS_DIRECTORY a = MEM_ADDRESS_DIRECTORY b ∧ MEM_ADDRESS_INDEX a = MEM_ADDRESS_INDEX b.
Proof.
  rewrite !address_directory, !address_index. change 32768 with (1024 * 32).
  rewrite <- !Z.div_div by lia. by intros ->.
Qed.

Lemma find_head_gt ds addr :
  (∀ d, d ∈ ds → MEM_ADDRESS_DIRECTORY addr < dir_id d) → mem_find_page ds addr = None.
Proof.
  destruct ds as [|d ds]; intros H; [done|]. simpl. specialize (H d ltac:(set_solver)).
  destruct (Z.ltb_spec (dir_id d) (MEM_ADDRESS_DIRECTORY addr)); [lia|].
  destruct (Z.eqb_spec (dir_id d) (MEM_ADDRESS_DIRECTORY addr)); [lia|done].
Qed.

(** Finding a page in a directory with the given pages. *)
Lemma find_cons d ds addr :
  mem_find_page (d :: ds) addr =
  if dir_id d <? MEM_ADDRESS_DIRECTORY addr then mem_find_page ds addr
  else if dir_id d =? MEM_ADDRESS_DIRECTORY addr then pages d !! Z.to_nat (MEM_ADDRESS_INDEX addr) else None.
Proof. done. Qed.

Lemma has_dir_true ds id : dirs_wf ds → has_dir ds id = true ↔ ∃ d, d ∈ ds ∧ dir_id d = id.
Proof.
  induction ds as [|d ds IH]; simpl; [set_solver|]. intros (_ & Hlt & Hwf). specialize (IH Hwf).
  destruct (Z.ltb_spec (dir_id d) id) as [Hd|Hd]; destruct ds as [|d' ds']; cbn [negb andb].
  - rewrite Z.eqb_eq. split; [intros; exists d; set_solver|]. intros (x & Hx & ?). assert (x = d) by set_solver. by subst.
  - rewrite IH. split; intros (x & Hx & Hi); exists x; [set_solver|]. apply elem_of_cons in Hx as [->|Hx]; [lia|done].
  - rewrite Z.eqb_eq. split; [intros; exists d; set_solver|]. intros (x & Hx & ?). assert (x = d) by set_solver. by subst.
  - rewrite Z.eqb_eq. split; [intros; exists d; set_solver|]. intros (x & Hx & Hi).
    apply elem_of_cons in Hx as [->|Hx]; [done|]. specialize (Hlt x Hx). lia.
Qed.

Section insert.
Context (addr : Z) (page : pm_page) (fresh : page_dir).
Context (Hfid : dir_id fresh = MEM_ADDRESS_DIRECTORY addr) (Hflen : length (pages fresh) = 32%nat).

Definition inserted (ds : list page_dir) : list page_dir :=
  insert_dir ds (MEM_ADDRESS_DIRECTORY addr) (λ cur, dir_set cur page addr) fresh.

Lemma inserted_ids ds d : d ∈ inserted ds → dir_id d = MEM_ADDRESS_DIRECTORY addr ∨ ∃ d0, d0 ∈ ds ∧ dir_id d = dir_id d0.
Proof.
  unfold inserted. induction ds as [|c ds IH]; simpl.
  - intros ->%list_elem_of_singleton. by left.
  - destruct (_ && _).
    + intros [->|Hd]%elem_of_cons; [right; exists c; set_solver|]. destruct (IH Hd) as [|(d0 & ? & ?)]; [by left|].
      right. exists d0. set_solver.
    + destruct (Z.eqb_spec (dir_id c) (MEM_ADDRESS_DIRECTORY addr)) as [He|He]; [|destruct (_ <? _)];
        intros Hd; repeat (apply elem_of_cons in Hd as [->|Hd]); try (by left); right;
        first [exists c; set_solver | exists d; set_solver].
Qed.

Lemma inserted_wf ds : dirs_wf ds → dirs_wf (inserted ds).
Proof.
  unfold inserted. induction ds as [|c ds IH]; simpl.
  - intros _. rewrite aset_length. split_and!; [done|set_solver|done].
  - intros (Hc & Hlt & Hwf). specialize (IH Hwf).
    destruct (Z.ltb_spec (dir_id c) (MEM_ADDRESS_DIRECTORY addr)) as [Hd|Hd]; destruct ds as [|d ds]; cbn [negb andb].
    + destruct (Z.eqb_spec (dir_id c) (MEM_ADDRESS_DIRECTORY addr)); [lia|].
      destruct (Z.ltb_spec (MEM_ADDRESS_DIRECTORY addr) (dir_id c)); [lia|]. simpl. rewrite aset_length.
      split_and!; try done; [|set_solver]. intros d' ->%list_elem_of_singleton. simpl. lia.
    + split_and!; [done| |done]. intros d' Hd'. destruct (inserted_ids (d :: ds) d' Hd') as [->|(d0 & Hd0 & ->)]; [lia|auto].
    + destruct (Z.eqb_spec (dir_id c) (MEM_ADDRESS_DIRECTORY addr)); [simpl; rewrite aset_length; split; [done|split; [exact Hlt|exact Hwf]]|].
      destruct (Z.ltb_spec (MEM_ADDRESS_DIRECTORY addr) (dir_id c)); [|lia]. simpl. rewrite aset_length.
      split_and!; try done. intros d' ->%list_elem_of_singleton. lia.
    + destruct (Z.eqb_spec (dir_id c) (MEM_ADDRESS_DIRECTORY addr)); [simpl; rewrite aset_length; split; [done|split; [exact Hlt|exact Hwf]]|].
      destruct (Z.ltb_spec (MEM_ADDRESS_DIRECTORY addr) (dir_id c)); [|lia]. simpl. rewrite aset_length.
      simpl in Hwf. split_and!; try done; [|tauto..]. intros d' [->|Hd']%elem_of_cons; [lia|]. specialize (Hlt d' Hd'). lia.
Qed.

(** Looking a page up in the directory the insertion updated. *)
Lemma dir_set_lookup cur addr' :
  length (pages cur) = 32%nat →
  pages (dir_set cur page addr) !! Z.to_nat (MEM_ADDRESS_INDEX addr') =
  if decide (MEM_ADDRESS_INDEX addr = MEM_ADDRESS_INDEX addr') then Some page
  else pages cur !! Z.to_nat (MEM_ADDRESS_INDEX addr').
Proof.
  intros Hl. pose proof (index_range addr). pose proof (index_range addr'). simpl. unfold aset. case_decide as Hi.
  - rewrite Hi. apply list_lookup_insert_eq. lia.
  - apply list_lookup_insert_ne. lia.
Qed.

Lemma find_inserted ds addr' :
  dirs_wf ds →
  mem_find_page (inserted ds) addr' =
  if decide (addr / 1024 = addr' / 1024) then Some page
  else if (MEM_ADDRESS_DIRECTORY addr =? MEM_ADDRESS_DIRECTORY addr') && negb (has_dir ds (MEM_ADDRESS_DIRECTORY addr))
  then pages fresh !! Z.to_nat (MEM_ADDRESS_INDEX addr') else mem_find_page ds addr'.
Proof.
  intros Hwf.
  assert (Hupd : ∀ cur, dir_id cur = MEM_ADDRESS_DIRECTORY addr → length (pages cur) = 32%nat →
    MEM_ADDRESS_DIRECTORY addr = MEM_ADDRESS_DIRECTORY addr' →
    pages (dir_set cur page addr) !! Z.to_nat (MEM_ADDRESS_INDEX addr') =
    if decide (addr / 1024 = addr' / 1024) then Some page else pages cur !! Z.to_nat (MEM_ADDRESS_INDEX addr')).
  { intros cur Hc Hl Hd. rewrite dir_set_lookup by done. destruct (decide (addr / 1024 = addr' / 1024)) as [He|He].
    - apply page_same in He as [_ He]. by rewrite decide_True.
    - rewrite decide_False; [done|]. intros Hi. by apply He, same_page. }
  assert (Hno : MEM_ADDRESS_DIRECTORY addr ≠ MEM_ADDRESS_DIRECTORY addr' → addr / 1024 ≠ addr' / 1024).
  { intros Hn He. by apply Hn, page_same. }
  unfold inserted. induction ds as [|c ds IH].
  - cbn [insert_dir has_dir negb]. rewrite andb_true_r. rewrite find_cons. cbn [dir_id dir_set]. rewrite Hfid.
    destruct (Z.ltb_spec (MEM_ADDRESS_DIRECTORY addr) (MEM_ADDRESS_DIRECTORY addr')) as [Hlt|Hge].
    + rewrite decide_False by (apply Hno; lia). destruct (Z.eqb_spec (MEM_ADDRESS_DIRECTORY addr) (MEM_ADDRESS_DIRECTORY addr')); [lia|done].
    + destruct (Z.eqb_spec (MEM_ADDRESS_DIRECTORY addr) (MEM_ADDRESS_DIRECTORY addr')) as [He|He].
      * by apply Hupd.
      * by rewrite decide_False by auto.
  - destruct Hwf as (Hc & Hlt & Hwf). specialize (IH Hwf). cbn [insert_dir has_dir].
    destruct ((dir_id c <? MEM_ADDRESS_DIRECTORY addr) && _) eqn:Hwalk.
    + apply andb_prop in Hwalk as [Hcl _]. apply Z.ltb_lt in Hcl. rewrite !find_cons, IH.
      destruct (Z.ltb_spec (dir_id c) (MEM_ADDRESS_DIRECTORY addr')) as [|Hge]; [done|].
      rewrite decide_False by (apply Hno; lia).
      destruct (Z.eqb_spec (MEM_ADDRESS_DIRECTORY addr) (MEM_ADDRESS_DIRECTORY addr')); [lia|done].
    + destruct (Z.eqb_spec (dir_id c) (MEM_ADDRESS_DIRECTORY addr)) as [Hce|Hce]; cbn [negb].
      * rewrite andb_false_r, !find_cons. cbn [dir_id dir_set]. rewrite Hce.
        destruct (Z.ltb_spec (MEM_ADDRESS_DIRECTORY addr) (MEM_ADDRESS_DIRECTORY addr')) as [Hl'|Hl'];
          [by rewrite decide_False by (apply Hno; lia)|].
        destruct (Z.eqb_spec (MEM_ADDRESS_DIRECTORY addr) (MEM_ADDRESS_DIRECTORY addr')) as [He|He]; [by apply Hupd|].
        by rewrite decide_False by auto.
      * rewrite andb_true_r. destruct (Z.ltb_spec (MEM_ADDRESS_DIRECTORY addr) (dir_id c)) as [Hgt|Hle]; rewrite !find_cons; cbn [dir_id dir_set]; rewrite Hfid.
        -- destruct (Z.ltb_spec (MEM_ADDRESS_DIRECTORY addr) (MEM_ADDRESS_DIRECTORY addr')) as [Hl'|Hl'].
           ++ rewrite decide_False by (apply Hno; lia).
              destruct (Z.eqb_spec (MEM_ADDRESS_DIRECTORY addr) (MEM_ADDRESS_DIRECTORY addr')); [lia|done].
           ++ destruct (Z.eqb_spec (MEM_ADDRESS_DIRECTORY addr) (MEM_ADDRESS_DIRECTORY addr')) as [He|He]; [by apply Hupd|].
              rewrite decide_False by auto. destruct (Z.ltb_spec (dir_id c) (MEM_ADDRESS_DIRECTORY addr')); [lia|].
              by destruct (Z.eqb_spec (dir_id c) (MEM_ADDRESS_DIRECTORY addr')); [lia|].
        -- assert (ds = []) as ->.
           { apply andb_false_iff in Hwalk as [Hw|Hw]; [apply Z.ltb_ge in Hw; lia|]. by destruct ds. }
           destruct (Z.ltb_spec (dir_id c) (MEM_ADDRESS_DIRECTORY addr')) as [Hl'|Hl'].
           ++ destruct (Z.ltb_spec (MEM_ADDRESS_DIRECTORY addr) (MEM_ADDRESS_DIRECTORY addr')) as [Hl''|Hl''].
              ** rewrite decide_False by (apply Hno; lia).
                 destruct (Z.eqb_spec (MEM_ADDRESS_DIRECTORY addr) (MEM_ADDRESS_DIRECTORY addr')); [lia|done].
              ** destruct (Z.eqb_spec (MEM_ADDRESS_DIRECTORY addr) (MEM_ADDRESS_DIRECTORY addr')) as [He|He]; [by apply Hupd|].
                 by rewrite decide_False by auto.
           ++ rewrite decide_False by (apply Hno; lia).
              destruct (Z.eqb_spec (MEM_ADDRESS_DIRECTORY addr) (MEM_ADDRESS_DIRECTORY addr')); [lia|done].
Qed.
End insert.

Lemma section_offset_mod a : SECTION_OFFSET a = a mod 2 ^ 29.
Proof. unfold SECTION_OFFSET. change 0x1FFFFFFF with (Z.ones 29). by rewrite Z.land_ones. Qed.

Lemma phys_word_alias p k :
  0x80000000 ≤ p < 0xA0000000 → k = 0 ∨ k = 0x20000000 → phys_word (p + k) = p.
Proof.
  intros Hp Hk. unfold phys_word, P1_SECTION_BASE. rewrite section_offset_mod.
  assert ((p + k) mod 2 ^ 29 = p - 0x80000000); [|lia]. symmetry.
  destruct Hk as [->| ->]; [apply Z.mod_unique_pos with 4|apply Z.mod_unique_pos with 5]; lia.
Qed.

Lemma physical_page_alias p k :
  0 ≤ p → k = 0 ∨ k = 0x20000000 → PM_PHYSICAL_PAGE (p + k) = PM_PHYSICAL_PAGE p.
Proof.
  intros Hp Hk. rewrite !physical_page_spec by lia. f_equal. destruct Hk as [->| ->]; [by rewrite Z.add_0_r|].
  change 0x20000000 with (1 * 2 ^ 29). by rewrite Z.mod_add.
Qed.

(** The address at which the code finds the page of a physical page number. *)
Lemma page_addr_of_ppn p base :
  page_ok p → base = P1_SECTION_BASE ∨ base = P2_SECTION_BASE →
  phys_word (u32 (base + PM_PHYSICAL_ADDR (PM_PHYSICAL_PAGE p))) = p.
Proof.
  intros Hp Hb. destruct (physical_page_roundtrip p 0 Hp) as [_ Ha]; [lia|]. rewrite Z.add_0_r in Ha. rewrite Ha.
  destruct Hp as [_ Hr]. unfold P1_SECTION_BASE, P2_SECTION_BASE in Hb.
  rewrite u32_small by (destruct Hb as [->| ->]; lia).
  destruct Hb as [->| ->].
  - replace (0x80000000 + (p - 0x80000000)) with (p + 0) by lia. apply phys_word_alias; [lia|by left].
  - replace (0xA0000000 + (p - 0x80000000)) with (p + 0x20000000) by lia. apply phys_word_alias; [lia|by right].
Qed.

Lemma release_addr_page p : page_ok p → PM_PHYSICAL_PAGE (PM_PHYSICAL_ADDR (PM_PHYSICAL_PAGE p)) = PM_PHYSICAL_PAGE p.
Proof.
  intros Hp. destruct (physical_page_roundtrip p 0 Hp) as [_ Ha]; [lia|]. rewrite Z.add_0_r in Ha. rewrite Ha.
  destruct Hp as [_ Hr]. rewrite !physical_page_spec by lia. f_equal.
  symmetry. rewrite (Z.mod_small (p - 0x80000000)) by lia. symmetry. apply Z.mod_unique_pos with 4; lia.
Qed.

Section vm.
Context {M : Type} `{!PageMem M}.
Implicit Types (m : M) (v : vmem M) (F : list ptr).

Lemma new_dir_len self id m : length (pages (new_dir self id m)) = 32%nat.
Proof. unfold new_dir. simpl. done. Qed.

Lemma new_dir_invalid self id m i page :
  pages (new_dir self id m) !! i = Some page → (pflags page &? MEM_PAGE_VALID) = false.
Proof. unfold new_dir. cbn [pages]. rewrite list_lookup_fmap. destruct (seq _ _ !! i); [|done]. intros [= <-]. done. Qed.

Lemma copy_words_spec n dest src m F :
  pg_inv m F → (∀ i, 0 ≤ i < Z.of_nat n → page_of (dest + 4 * i) ∉ F) →
  (src + 4 * Z.of_nat n ≤ dest ∨ dest + 4 * Z.of_nat n ≤ src) →
  let m' := copy_words n dest src m in
  pg_inv m' F ∧ (∀ i, 0 ≤ i < Z.of_nat n → pg_read m' (dest + 4 * i) = pg_read m (src + 4 * i)) ∧
  (∀ a, (∀ i, 0 ≤ i < Z.of_nat n → a ≠ dest + 4 * i) → pg_read m' a = pg_read m a).
Proof.
  revert dest src m. induction n as [|n IH]; intros dest src m Hi Hp Hd; cbn [copy_words]; cbn zeta.
  - split_and!; [done|lia|done].
  - destruct (IH (dest + 4) (src + 4) (pg_write dest (pg_read m src) m)) as (Hi' & Hc & Hf).
    + apply pg_write_inv; [done|]. specialize (Hp 0). rewrite Z.add_0_r in Hp. apply Hp. lia.
    + intros i Hir. replace (dest + 4 + 4 * i) with (dest + 4 * (i + 1)) by lia. apply Hp. lia.
    + lia.
    + cbn zeta in *. split_and!; [done|..].
      * intros i Hir. destruct (decide (i = 0)) as [->|Hne].
        -- rewrite !Z.add_0_r, Hf by lia. apply rd_eq.
        -- replace (dest + 4 * i) with (dest + 4 + 4 * (i - 1)) by lia. rewrite Hc by lia.
           rewrite rd_ne by lia. f_equal. lia.
      * intros a Ha. rewrite Hf by (intros i Hir; specialize (Ha (i + 1)); lia).
        apply rd_ne. specialize (Ha 0). lia.
Qed.

#[local] Opaque copy_words.

(** When the directory exists, the one prepared for insertion is not used. *)
Lemma insert_dir_has ds id upd f f' :
  has_dir ds id = true → insert_dir ds id upd f = insert_dir ds id upd f'.
Proof.
  induction ds as [|c ds IH]; simpl; [done|]. destruct (_ && _); [intros H; by rewrite IH|].
  intros ->. done.
Qed.

(** A new directory has 32 pages, none of them valid. *)
Definition fresh_ok (addr : Z) (fresh : page_dir) : Prop :=
  dir_id fresh = MEM_ADDRESS_DIRECTORY addr ∧ length (pages fresh) = 32%nat ∧
  ∀ i p, pages fresh !! i = Some p → (pflags p &? MEM_PAGE_VALID) = false.

Lemma new_dir_fresh addr self m : fresh_ok addr (new_dir self (MEM_ADDRESS_DIRECTORY addr) m).
Proof. split_and!; [done..|]. apply new_dir_invalid. Qed.

Lemma mem_insert_shape fuel ds page addr v ds' v' :
  mem_insert_page fuel ds page addr v = Some (0, ds', v') →
  ∃ fresh, fresh_ok addr fresh ∧ ds' = inserted addr page fresh ds.
Proof.
  unfold mem_insert_page. cbn zeta. destruct (has_dir ds _) eqn:Hh.
  - intros [= <- <-]. exists (new_dir NULL (MEM_ADDRESS_DIRECTORY addr) (v_mem v)). split; [apply new_dir_fresh|].
    by apply insert_dir_has.
  - destruct (pool_alloc _ _ _) as [[[o p] m]|]; simpl; [|done]. destruct (o =? NULL); [done|].
    intros [= <- <-]. exists (new_dir o (MEM_ADDRESS_DIRECTORY addr) m). split; [apply new_dir_fresh|done].
Qed.

(** The pool of directories: [sizeof(struct page_dir)] is 140, 7 fit in a page. *)
Abbreviation dir_pool_inv := (pool_inv 140 7).

(** The physical pages and the pool pages after at most one page was taken. *)
Definition took_page (F F' : list ptr) (pgs pgs' : list (ptr * list ptr)) : Prop :=
  (F' = F ∧ pgs'.*1 = pgs.*1) ∨ ∃ pg, F ≡ₚ pg :: F' ∧ pgs'.*1 = pg :: pgs.*1.

Lemma mem_insert_total fuel ds page addr v F pgs :
  dir_pool_inv (v_pool v) (v_mem v) F pgs → (length pgs < fuel)%nat → F ≠ [] →
  ∃ ds' v' F' pgs', mem_insert_page fuel ds page addr v = Some (0, ds', v') ∧
    dir_pool_inv (v_pool v') (v_mem v') F' pgs' ∧ took_page F F' pgs pgs' ∧
    (∀ a, page_of a ∉ pgs'.*1 → pg_read (v_mem v') a = pg_read (v_mem v) a).
Proof.
  intros Hpool Hf HF. unfold mem_insert_page. cbn zeta.
  destruct (has_dir ds (MEM_ADDRESS_DIRECTORY addr)) eqn:Hh.
  - eexists _, v, F, pgs. split_and!; try done. by left.
  - destruct (pool_alloc_spec 140 7 ltac:(lia) ltac:(done) ltac:(lia) ltac:(lia) fuel (v_pool v) (v_mem v) F pgs)
      as (o & p' & m' & F' & pgs' & Ha & Hinv' & (Ho & _) & HF' & Hout); [done..|by right|].
    rewrite Ha. simpl. destruct (Z.eqb_spec o NULL); [done|]. by eexists _, (mk_vmem p' m'), F', pgs'.
Qed.

Lemma copy_flag_alias orig p a :
  a = (if (if pflags orig &? MEM_PAGE_CACHED then MEM_PM_CACHED else MEM_PM_UNCACHED) &? MEM_PM_UNCACHED
       then p + 0x20000000 else p) →
  ∃ k, a = p + k ∧ (k = 0 ∨ k = 0x20000000).
Proof.
  destruct (pflags orig &? MEM_PAGE_CACHED); intros ->; [exists 0|exists 0x20000000]; (split; [|auto]); [|done].
  change (MEM_PM_CACHED &? MEM_PM_UNCACHED) with false. cbn match. lia.
Qed.

Lemma mem_copy_total fuel orig src ds addr v F pgs :
  dir_pool_inv (v_pool v) (v_mem v) F pgs → (length pgs < fuel)%nat → (2 ≤ length F)%nat →
  (pflags orig &? MEM_PAGE_PRIVATE) = true → ppn orig = PM_PHYSICAL_PAGE src → page_ok src →
  src ∉ F → src ∉ pgs.*1 →
  ∃ p F1 ds' v' F' pgs', F ≡ₚ p :: F1 ∧ page_ok p ∧ mem_copy_page fuel orig ds addr v = Some (0, ds', v') ∧
    (∃ v1, mem_insert_page fuel ds (mk_page (PM_PHYSICAL_PAGE p) (pflags orig)) addr v1 = Some (0, ds', v')) ∧
    dir_pool_inv (v_pool v') (v_mem v') F' pgs' ∧ took_page F1 F' pgs pgs' ∧
    (∀ i, 0 ≤ i < 256 → pg_read (v_mem v') (p + 4 * i) = pg_read (v_mem v) (src + 4 * i)) ∧
    (∀ a, page_of a ≠ p → page_of a ∉ pgs'.*1 → pg_read (v_mem v') a = pg_read (v_mem v) a).
Proof.
  intros Hpool Hf HF Hpr Hppn Hsrc HsF Hsp. pose proof Hpool as (Hs & Hn & Hi & Hc & Hnd & Hpg & Hrep & Hnf).
  unfold mem_copy_page. rewrite Hpr.
  set (fl := if pflags orig &? MEM_PAGE_CACHED then MEM_PM_CACHED else MEM_PM_UNCACHED).
  destruct (pg_get_some fl (v_mem v) F Hi) as [[a m1] Hg]; [by destruct F; simpl in *; [lia|]|].
  destruct (pg_get_inv fl (v_mem v) F a m1 Hi Hg) as (p & F1 & Ha & HFF & Hi1 & Hr1).
  apply copy_flag_alias in Ha as (k & -> & Hk).
  destruct (pg_free_ok _ F Hi) as [HndF HokF]. rewrite HFF in HndF, HokF.
  apply Forall_cons in HokF as [Hp _]. apply NoDup_cons in HndF as [HpF1 _]. pose proof Hp as [Hpm Hpr'].
  assert (Hps : p ≠ src) by (intros ->; apply HsF; rewrite HFF; set_solver).
  rewrite Hg. cbn [mbind option_bind]. destruct (Z.eqb_spec (p + k) NULL); [lia|]. cbn [negb].
  rewrite Hppn, (phys_word_alias p k) by (lia || done).
  rewrite (page_addr_of_ppn src) by (done || by destruct (pflags orig &? MEM_PAGE_CACHED); auto).
  pose proof Hsrc as [Hsm Hsr].
  destruct (copy_words_spec 256 p src m1 F1 Hi1) as (Hi2 & Hcp & Hfr).
  { intros i Hir. rewrite page_of_ok by (done || lia). done. }
  { pose proof (Z.div_mod p 1024). pose proof (Z.div_mod src 1024). lia. }
  cbn zeta in Hi2, Hcp, Hfr. remember (copy_words 256 p src m1) as m2 eqn:Hm2. clear Hm2.
  assert (Hout2 : ∀ b, page_of b ≠ p → pg_read m2 b = pg_read (v_mem v) b).
  { intros b Hb. rewrite Hfr, Hr1; [done|]. intros i Hir ->. apply Hb. apply page_of_ok; [done|lia]. }
  assert (Hpgp : p ∉ pgs.*1) by (intros Hin; apply Hpg in Hin as [Hin _]; apply Hin; rewrite HFF; apply list_elem_of_here).
  assert (Hpool2 : dir_pool_inv (v_pool v) m2 F1 pgs).
  { eapply (pool_inv_frame 140 7); try done; try lia.
    - intros q Hq Hin. destruct (Hpg q Hq) as [HqF _]. apply HqF. rewrite HFF. by apply elem_of_cons; right.
    - intros b Hb. apply Hout2. intros Heq. by rewrite Heq in Hb. }
  rewrite physical_page_alias by (done || lia).
  destruct (mem_insert_total fuel ds (mk_page (PM_PHYSICAL_PAGE p) (pflags orig)) addr (mk_vmem (v_pool v) m2) F1 pgs)
    as (ds' & v' & F' & pgs' & Hins & Hpool' & Htook & Hout'); [done..| |].
  { apply (f_equal length) in HFF || apply Permutation_length in HFF. simpl in HFF. destruct F1; simpl in *; [lia|done]. }
  rewrite Hins. cbn [mbind option_bind]. exists p, F1, ds', v', F', pgs'. split_and!; try done; [by eexists|..].
  - intros i Hir. rewrite Hout'.
    + cbn [v_mem]. rewrite Hcp by lia. by rewrite Hr1.
    + rewrite page_of_ok by (done || lia). destruct Htook as [[_ ->]|(pg & HF1 & ->)]; [done|].
      rewrite HF1 in HpF1. set_solver.
  - intros b Hb Hb'. rewrite Hout' by done. cbn [v_mem]. by apply Hout2.
Qed.

(** The physical pages of the valid private entries of a directory. *)
Definition owned_ppns (ps : list pm_page) : list Z :=
  ppn <$> filter (λ p, (pflags p &? MEM_PAGE_PRIVATE) && (pflags p &? MEM_PAGE_VALID)) ps.

Lemma release_pages_spec ps xs m F :
  pg_inv m F → owned_ppns ps = PM_PHYSICAL_PAGE <$> xs → Forall page_ok xs → NoDup (xs ++ F) →
  ∃ m', release_pages ps m = Some m' ∧ pg_inv m' (reverse xs ++ F) ∧
    ∀ a, a ∉ xs → pg_read m' a = pg_read m a.
Proof.
  revert xs m F. induction ps as [|p ps IH]; intros xs m F Hi Hx Hok Hnd; simpl.
  - destruct xs; [|done]. exists m. by split_and!.
  - unfold owned_ppns in Hx. rewrite filter_cons in Hx. unfold mem_release_page.
    destruct ((pflags p &? MEM_PAGE_PRIVATE) && (pflags p &? MEM_PAGE_VALID)) eqn:Hv; simpl in Hx.
    + destruct xs as [|x xs]; [done|]. simpl in Hx. injection Hx as Hpx Hx.
      apply Forall_cons in Hok as [Hxo Hok]. apply NoDup_cons in Hnd as [Hxn Hnd].
      destruct (pg_release_inv m F x (PM_PHYSICAL_ADDR (ppn p)) Hi Hxo) as (m1 & Hrel & Hi1 & Hfr1).
      { set_solver. }
      { rewrite Hpx. by apply release_addr_page. }
      rewrite Hrel. simpl.
      destruct (IH xs m1 (x :: F)) as (m' & Hrun & Hi' & Hfr); [done..| |].
      { apply NoDup_app in Hnd as (Hn1 & Hd & Hn2). apply NoDup_app. split_and!; [done| |constructor; [set_solver|done]].
        intros y Hy [->|Hy']%elem_of_cons; [set_solver|by apply (Hd y)]. }
      exists m'. split; [done|]. split.
      * by rewrite reverse_cons, <- app_assoc.
      * intros a Ha. rewrite Hfr, Hfr1; set_solver.
    + by apply IH.
Qed.
End vm.

(** ** Properties *)

(** The physical page a virtual address is mapped to. *)
Definition translate (ds : list page_dir) (addr : ptr) : option Z :=
  page ← mem_find_page ds addr;
  if pflags page &? MEM_PAGE_VALID then Some (ppn page) else None.

Lemma translate_inserted addr page fresh ds a :
  fresh_ok addr fresh → dirs_wf ds →
  translate (inserted addr page fresh ds) a =
  if decide (addr / 1024 = a / 1024) then (if pflags page &? MEM_PAGE_VALID then Some (ppn page) else None)
  else translate ds a.
Proof.
  intros (Hid & Hlen & Hinv) Hwf. unfold translate. rewrite find_inserted by done. case_decide as Hp; [done|].
  destruct ((MEM_ADDRESS_DIRECTORY addr =? MEM_ADDRESS_DIRECTORY a) && negb (has_dir ds (MEM_ADDRESS_DIRECTORY addr))) eqn:Hd; [|done].
  apply andb_prop in Hd as [Hd Hn]. apply Z.eqb_eq in Hd. apply negb_true_iff in Hn. rewrite Hd in Hn.
  assert (Hnone : mem_find_page ds a = None).
  { clear -Hwf Hn. induction ds as [|c ds IH]; [done|]. destruct Hwf as (_ & Hlt & Hwf). simpl in *.
    destruct (Z.ltb_spec (dir_id c) (MEM_ADDRESS_DIRECTORY a)) as [Hl|Hl].
    - destruct ds; [done|]. by apply IH.
    - simpl in Hn. by rewrite Hn. }
  rewrite Hnone. simpl. destruct (pages fresh !! _) as [p|] eqn:Hp'; simpl; [|done]. by rewrite (Hinv _ _ Hp').
Qed.


(** A directory for the addresses 0x10000000 to 0x10007FFF with one valid page. *)
Definition demo_dir : page_dir :=
  mk_dir 0x8800100C 0x2000 (mk_page 0x20001 3 :: replicate 31 (mk_page 0 1)).


(** [mem_copy_page] succeeds when two physical pages are free: the new page
    was free, it holds a copy of the 1024 bytes of the original, it is mapped at
    the given address with the flags of the original, and no word outside the
    new page and the directory pool is written. *)
Theorem mem_copy_page_correct {M} `{!PageMem M} fuel orig src ds addr (v : vmem M) F pgs :
  pool_inv 140 7 (v_pool v) (v_mem v) F pgs → (length pgs < fuel)%nat → (2 ≤ length F)%nat →
  (pflags orig &? MEM_PAGE_PRIVATE) = true → (pflags orig &? MEM_PAGE_VALID) = true →
  ppn orig = PM_PHYSICAL_PAGE src → page_ok src → src ∉ F → src ∉ pgs.*1 → dirs_wf ds →
  ∃ p ds' v' F' pgs', mem_copy_page fuel orig ds addr v = Some (0, ds', v') ∧
    p ∈ F ∧ p ∉ F' ∧ p ≠ src ∧ translate ds' addr = Some (PM_PHYSICAL_PAGE p) ∧
    (∀ i, 0 ≤ i < 256 → pg_read (v_mem v') (p + 4 * i) = pg_read (v_mem v) (src + 4 * i)) ∧
    (∀ a, page_of a ≠ p → page_of a ∉ pgs'.*1 → pg_read (v_mem v') a = pg_read (v_mem v) a) ∧
    pool_inv 140 7 (v_pool v') (v_mem v') F' pgs' ∧ dirs_wf ds'.
Proof.
  intros Hpool Hf HF Hpr Hv Hppn Hsrc HsF Hsp Hwf.
  destruct (mem_copy_total fuel orig src ds addr v F pgs) as
    (p & F1 & ds' & v' & F' & pgs' & HFF & Hp & Hcopy & (v1 & Hins) & Hpool' & Htook & Hc & Hout); [done..|].
  destruct (mem_insert_shape _ _ _ _ _ _ _ Hins) as (fresh & Hfr & ->).
  assert (Hpi : pg_inv (v_mem v) F) by apply Hpool.
  destruct (pg_free_ok _ _ Hpi) as [HndF _]. rewrite HFF in HndF. apply NoDup_cons in HndF as [HpF1 _].
  assert (HpF : p ∈ F) by (rewrite HFF; apply list_elem_of_here).
  exists p, (inserted addr (mk_page (PM_PHYSICAL_PAGE p) (pflags orig)) fresh ds), v', F', pgs'.
  split; [done|]. split; [done|]. split; [|split; [by intros ->|]].
  { destruct Htook as [[-> _]|(pg & HF1 & _)]; [done|]. rewrite HF1 in HpF1. set_solver. }
  split; [|split_and!; [done..|apply inserted_wf; [apply Hfr..|done]]].
  rewrite translate_inserted by done. rewrite decide_True by done. cbn [pflags ppn]. by rewrite Hv.
Qed.

Lemma demo_pool_inv : pool_inv 140 7 (POOL_INIT 140) demo_pmem [0x88000000; 0x88000400] [].
Proof.
  split_and!; try done; try set_solver; try apply demo_pmem_rep; by (constructor || left).
Qed.

Lemma mem_copy_page_correct_witness :
  ∃ ds' v' p, mem_copy_page 1 (mk_page 0x20002 7) [] 0x10000800 (mk_vmem (POOL_INIT 140) demo_pmem) = Some (0, ds', v') ∧
    translate ds' 0x10000800 = Some (PM_PHYSICAL_PAGE p).
Proof.
  destruct (mem_copy_page_correct 1 (mk_page 0x20002 7) 0x88000800 [] 0x10000800 (mk_vmem (POOL_INIT 140) demo_pmem)
    [0x88000000; 0x88000400] []) as (p & ds' & v' & F' & pgs' & Hc & _ & _ & _ & Ht & _).
  - exact demo_pool_inv.
  - simpl. lia.
  - simpl. lia.
  - reflexivity.
  - reflexivity.
  - reflexivity.
  - split; [reflexivity|lia].
  - set_solver.
  - set_solver.
  - exact I.
  - exists ds', v', p. by split.
Defined.

(** [mem_release_dir] gives back to the page allocator exactly the pages of
    the valid private entries of the directory, each once, and the directory
    object to its pool; every other directory of the pool stays allocated. *)
Theorem mem_release_dir_correct {M} `{!PageMem M} fuel d xs (v : vmem M) F pgs :
  pool_inv 140 7 (v_pool v) (v_mem v) F pgs → (length pgs ≤ fuel)%nat → live 140 7 pgs (pd_self d) →
  owned_ppns (pages d) = PM_PHYSICAL_PAGE <$> xs → Forall page_ok xs → NoDup (xs ++ F) →
  (∀ x, x ∈ xs → x ∉ pgs.*1) →
  ∃ v' pgs', mem_release_dir fuel d v = Some v' ∧
    pool_inv 140 7 (v_pool v') (v_mem v') (reverse xs ++ F) pgs' ∧
    (∀ o, live 140 7 pgs' o ↔ o ≠ pd_self d ∧ live 140 7 pgs o).
Proof.
  intros Hpool Hf Hl Hx Hok Hnd Hxp. pose proof Hpool as (_ & _ & Hi & _ & _ & Hpg & _).
  destruct (release_pages_spec (pages d) xs (v_mem v) F Hi Hx Hok Hnd) as (m1 & Hrel & Hi1 & Hfr).
  assert (Hpool1 : pool_inv 140 7 (v_pool v) m1 (reverse xs ++ F) pgs).
  { eapply (pool_inv_frame 140 7); try done; try lia.
    - intros q Hq. rewrite elem_of_app, elem_of_reverse. intros [Hin|Hin]; [by eapply Hxp|].
      by apply Hpg in Hq as [Hq _].
    - intros a Ha. apply Hfr. intros Hin. rewrite Forall_forall in Hok. destruct (Hok a Hin) as [Ham _].
      rewrite page_of_self in Ha by done. by eapply Hxp. }
  destruct (pool_free_spec 140 7 ltac:(lia) ltac:(done) ltac:(lia) ltac:(lia) fuel (v_pool v) m1 _ pgs (pd_self d) Hpool1 Hf Hl)
    as (m' & pgs' & Hfree & Hpool' & (Hl' & _) & _).
  unfold mem_release_dir. rewrite Hrel. cbn [mbind option_bind]. rewrite Hfree. cbn [mbind option_bind].
  by eexists _, pgs'.
Qed.

Lemma mem_release_dir_correct_witness :
  ∃ v' pgs', mem_release_dir 1 (mk_dir 0x8800100C 0x2000 [mk_page 0x20001 3; mk_page 0x20003 1])
      (mk_vmem (mk_pool 140 7 0x88001000 NULL) (mk_pmem (λ a, if a =? 0x88000000 then 0x88000800 else 0) 0x88000000 2)) = Some v' ∧
    pool_inv 140 7 (v_pool v') (v_mem v') [0x88000400; 0x88000000; 0x88000800] pgs'.
Proof.
  destruct (mem_release_dir_correct 1 (mk_dir 0x8800100C 0x2000 [mk_page 0x20001 3; mk_page 0x20003 1]) [0x88000400]
    (mk_vmem (mk_pool 140 7 0x88001000 NULL) (mk_pmem (λ a, if a =? 0x88000000 then 0x88000800 else 0) 0x88000000 2))
    [0x88000000; 0x88000800] [(0x88001000, [])]) as (v' & pgs' & Hr & Hp & _).
  - split_and!; try done; try (by repeat split); try (by left).
    + split_and!; [by repeat split|by apply (bool_decide_eq_true_1 (NoDup _))|repeat constructor; done|done].
    + by apply (bool_decide_eq_true_1 (NoDup _)).
    + intros pg ->%list_elem_of_singleton. split; [set_solver|by split].
    + intros pg es [= -> ->]%list_elem_of_singleton. split_and!; [done..|constructor|set_solver].
  - simpl. lia.
  - exists 0x88001000, []. split; [set_solver|]. split; [vm_compute; by repeat constructor|set_solver].
  - reflexivity.
  - repeat constructor; done.
  - by apply (bool_decide_eq_true_1 (NoDup _)).
  - intros x ->%list_elem_of_singleton. vm_compute. intros H. apply list_elem_of_singleton in H. done.
  - exists v', pgs'. split; [exact Hr|exact Hp].
Defined.

(** The virtual address computed from the directory and index of an address
    is the beginning of its page, as [MEM_PAGE_BEGINING] computes it. *)
Theorem page_address_roundtrip a :
  0 ≤ a < 2 ^ 32 →
  MEM_PAGE_ADDRESS (MEM_ADDRESS_DIRECTORY a) (MEM_ADDRESS_INDEX a) = MEM_PAGE_BEGINING a ∧
  MEM_PAGE_BEGINING a ≤ a < MEM_PAGE_BEGINING a + PM_PAGE_BYTES.
Proof.
  intros Ha. assert (Hb : MEM_PAGE_BEGINING a = a - a mod 1024).
  { unfold MEM_PAGE_BEGINING. change (u32 (Z.lnot (PM_PAGE_BYTES - 1))) with (u32 (Z.shiftl 0xFFFFFFFF 10)).
    by apply land_page_mask. }
  rewrite Hb, page_bytes. pose proof (Z.mod_pos_bound a 1024). split; [|lia].
  unfold MEM_PAGE_ADDRESS, MEM_DIRECTORY_ORDER, PM_PAGE_ORDER. rewrite address_directory, address_index.
  change 32768 with (1024 * 32). rewrite <- Z.div_div by lia. rewrite !Z.shiftl_mul_pow2 by lia.
  pose proof (Z.div_mod a 1024). pose proof (Z.div_mod (a / 1024) 32).
  pose proof (Z.mod_pos_bound (a / 1024) 32).
  assert (0 ≤ a / 1024 / 32) by (apply Z.div_pos; [apply Z.div_pos; lia|lia]).
  rewrite (u32_small (a / 1024 / 32 * 2 ^ 5)) by lia. rewrite u32_small by lia. lia.
Qed.

Lemma page_address_roundtrip_witness :
  MEM_PAGE_ADDRESS (MEM_ADDRESS_DIRECTORY 0x10000ABC) (MEM_ADDRESS_INDEX 0x10000ABC) = 0x10000800.
Proof. rewrite (proj1 (page_address_roundtrip 0x10000ABC ltac:(lia))). reflexivity. Defined.
