(* ===== verification/KMem.v ===== *)
(** * Kernel memory services

    The kernel keeps one pool per kind of object (processes, open files, cached
    inodes, memory areas, page directories) on top of the page allocator.
    [KMem] states what the components that allocate rely on: objects handed out
    are new, whatever pool they come from, and freeing one leaves the others
    allocated; pages handed out are not in use.  The instance builds the pools
    of the kernel from the pool allocator and the page allocator and discharges
    the laws. *)

From S2P Require Import Prelude PhysMem PoolAlloc.

(** The pools declared with [POOL_INIT] in the kernel. *)
Inductive pool_id := PProc | PFile | PInode | PArea | PDir.

#[global] Instance pool_id_eq_dec : EqDecision pool_id.
Proof. solve_decision. Defined.

(** [sizeof] of the pooled structures on the target. *)
Definition pool_size (i : pool_id) : Z :=
  match i with PProc => 276 | PFile => 24 | PInode => 52 | PArea => 32 | PDir => 140 end.

(** The interface.  [km_inv a L H F]: the objects [L] are allocated, the pages [H]
    are held by clients and the pages [F] are free. *)
Class KMem (A : Type) := {
  km_alloc : pool_id → A → option (ptr * A);
  km_free : pool_id → ptr → A → option A;
  km_get_page : Z → A → option (ptr * A);
  km_put_page : ptr → A → option A;
  km_inv : A → list (pool_id * ptr) → list ptr → list ptr → Prop;
  km_alloc_ok i a L H F : km_inv a L H F → F ≠ [] →
    ∃ p a' F', km_alloc i a = Some (p, a') ∧ p ≠ NULL ∧ (∀ j, (j, p) ∉ L) ∧
      km_inv a' ((i, p) :: L) H F' ∧ (length F ≤ S (length F'))%nat;
  km_free_ok i p a L H F : km_inv a ((i, p) :: L) H F →
    ∃ a', km_free i p a = Some a' ∧ km_inv a' L H F;
  km_inv_perm a L L' H H' F : L ≡ₚ L' → H ≡ₚ H' → km_inv a L H F → km_inv a L' H' F;
  km_get_ok fl a L H F : km_inv a L H F → F ≠ [] →
    ∃ p q a' F', km_get_page fl a = Some (q, a') ∧ q ≠ NULL ∧ PM_PHYSICAL_PAGE q = PM_PHYSICAL_PAGE p ∧
      F ≡ₚ p :: F' ∧ km_inv a' L (p :: H) F';
  km_put_ok p q a L H F : km_inv a L (p :: H) F → PM_PHYSICAL_PAGE q = PM_PHYSICAL_PAGE p →
    ∃ a', km_put_page q a = Some a' ∧ km_inv a' L H (p :: F);
  km_get_range fl a L H F q a' : km_inv a L H F → km_get_page fl a = Some (q, a') → 0x80000000 < q < 0xC0000000;
  km_inv_nodup a L H F : km_inv a L H F → NoDup L ∧ NoDup (H ++ F) ∧ Forall page_ok H ∧ ∀ i p, (i, p) ∈ L → p ≠ NULL;
}.

(** ** The implementation *)

Section impl.
Context {M : Type} `{!PageMem M}.

Record kmem := mk_kmem { km_mem : M; km_pools : pool_id → pool }.

(** No pool has more pages than the P1 section: the bound of the page loops. *)
Definition pool_fuel : nat := Z.to_nat 524288.

Definition set_pool (i : pool_id) (p : pool) (f : pool_id → pool) : pool_id → pool :=
  λ j, if decide (j = i) then p else f j.

Definition kmem_alloc (i : pool_id) (a : kmem) : option (ptr * kmem) :=
  '(o, p, m) ← pool_alloc pool_fuel (km_pools a i) (km_mem a);
  Some (o, mk_kmem m (set_pool i p (km_pools a))).

Definition kmem_free (i : pool_id) (o : ptr) (a : kmem) : option kmem :=
  m ← pool_free pool_fuel (km_pools a i) o (km_mem a);
  Some (mk_kmem m (km_pools a)).

Definition kmem_get_page (fl : Z) (a : kmem) : option (ptr * kmem) :=
  '(p, m) ← pg_get fl (km_mem a); Some (p, mk_kmem m (km_pools a)).

Definition kmem_put_page (q : ptr) (a : kmem) : option kmem :=
  m ← pg_release q (km_mem a); Some (mk_kmem m (km_pools a)).

Abbreviation sz := pool_size.
Definition pool_count (i : pool_id) : Z := 1012 / sz i.

Lemma pool_dims i : 4 ≤ sz i ∧ sz i mod 4 = 0 ∧ 0 < pool_count i ∧ 12 + pool_count i * sz i < 1024.
Proof. destruct i; vm_compute; split_and!; done || discriminate. Qed.

(** The pages of the pools, with their empty objects. *)
Abbreviation pgmap := (pool_id → list (ptr * list ptr)).

Record kmem_rep (a : kmem) (L : list (pool_id * ptr)) (H F : list ptr) (pgs : pgmap) : Prop := {
  rep_pool i : pool_inv (sz i) (pool_count i) (km_pools a i) (km_mem a) F (pgs i);
  rep_live i x : live (sz i) (pool_count i) (pgs i) x ↔ (i, x) ∈ L;
  rep_nodup : NoDup L;
  rep_disj i j p : i ≠ j → p ∈ (pgs i).*1 → p ∉ (pgs j).*1;
  rep_pages : NoDup (H ++ F);
  rep_held : Forall page_ok H;
  rep_held_pool i p : p ∈ H → p ∉ (pgs i).*1
}.

Definition kmem_inv (a : kmem) L H F : Prop := ∃ pgs, kmem_rep a L H F pgs.

(** A pool has at most as many pages as there are. *)
Lemma pages_bounded (xs : list ptr) : NoDup xs → Forall page_ok xs → (length xs < pool_fuel)%nat.
Proof.
  intros Hnd Hok. assert (Hsub : (λ p, p / 1024) <$> xs ⊆ seqZ 2097153 524287).
  { intros q Hq. apply list_elem_of_fmap in Hq as (p & -> & Hp). rewrite Forall_forall in Hok.
    destruct (Hok p Hp) as [Hm Hr]. apply elem_of_seqZ. pose proof (Z.div_mod p 1024). lia. }
  assert (Hnd' : NoDup ((λ p, p / 1024) <$> xs)).
  { clear Hsub. induction Hnd as [|x xs Hx Hnd IH]; [constructor|]. apply Forall_cons in Hok as [[Hm _] Hok]. cbn.
    constructor; [|by apply IH]. intros Hin. apply list_elem_of_fmap in Hin as (y & Hy & Hyin).
    rewrite Forall_forall in Hok. destruct (Hok y Hyin) as [Hmy _].
    apply Hx. replace x with y; [done|]. pose proof (Z.div_mod x 1024). pose proof (Z.div_mod y 1024). lia. }
  apply (NoDup_submseteq _ _ Hnd') in Hsub. apply submseteq_length in Hsub.
  rewrite length_fmap, length_seqZ in Hsub. unfold pool_fuel. lia.
Qed.

Lemma rep_fuel a L H F pgs i : kmem_rep a L H F pgs → (length (pgs i) < pool_fuel)%nat.
Proof.
  intros Hr. destruct (rep_pool _ _ _ _ _ Hr i) as (_ & _ & _ & _ & Hnd & Hpg & _).
  rewrite <- (length_fmap fst). apply pages_bounded; [done|]. apply Forall_forall. intros p Hp. by apply Hpg.
Qed.

(** The other pools do not notice that a pool (or a client) took a page or wrote
    outside their pages. *)
Lemma other_pool a L H F pgs i m' F' :
  kmem_rep a L H F pgs → pg_inv m' F' → (∀ p, p ∈ F' → p ∈ F) →
  (∀ b, page_of b ∈ (pgs i).*1 → pg_read m' b = pg_read (km_mem a) b) →
  pool_inv (sz i) (pool_count i) (km_pools a i) m' F' (pgs i).
Proof.
  intros Hr Hi Hsub Hout. pose proof (rep_pool _ _ _ _ _ Hr i) as Hp. pose proof Hp as (_ & _ & _ & _ & _ & Hpg & _).
  destruct (pool_dims i) as (H1 & H2 & H3 & H4).
  apply (pool_inv_frame (sz i) (pool_count i) H1 H2 H3 H4 (km_pools a i) (km_mem a) m' F F'); try done.
  intros pg Hin HF'. apply Hpg in Hin as [Hin _]. auto.
Qed.

Definition set_pages (i : pool_id) (l : list (ptr * list ptr)) (f : pgmap) : pgmap :=
  λ j, if decide (j = i) then l else f j.

(** A page that is neither free nor of another pool stays out of the pools. *)
Lemma live_page i a L H F pgs x :
  kmem_rep a L H F pgs → (i, x) ∈ L → ∃ pg, pg ∈ (pgs i).*1 ∧ page_of x = pg ∧ page_ok pg.
Proof.
  intros Hr Hx. apply (rep_live _ _ _ _ _ Hr) in Hx as (pg & es & Hin & Ho & _).
  destruct (rep_pool _ _ _ _ _ Hr i) as (_ & _ & _ & _ & _ & Hpg & _).
  apply (list_elem_of_fmap_2 fst) in Hin. simpl in Hin. destruct (Hpg pg Hin) as [_ Hok].
  destruct (pool_dims i) as (H1 & H2 & H3 & H4). exists pg. split_and!; [done| |done].
  destruct Hok as [Hm _]. by eapply (objs_page (sz i) (pool_count i)).
Qed.

Lemma kmem_alloc_ok i a L H F :
  kmem_inv a L H F → F ≠ [] →
  ∃ p a' F', kmem_alloc i a = Some (p, a') ∧ p ≠ NULL ∧ (∀ j, (j, p) ∉ L) ∧
    kmem_inv a' ((i, p) :: L) H F' ∧ (length F ≤ S (length F'))%nat.
Proof.
  intros [pgs Hr] HF. destruct (pool_dims i) as (H1 & H2 & H3 & H4).
  pose proof (rep_pool _ _ _ _ _ Hr i) as Hp. pose proof (rep_fuel _ _ _ _ _ i Hr) as Hf.
  destruct (pool_alloc_spec (sz i) (pool_count i) H1 H2 H3 H4 pool_fuel _ _ F (pgs i) Hp Hf) as
    (o & p' & m' & F' & pgs' & Ha & Hp' & (Ho & Hnl & Hl & _) & Htook & Hout); [by right|].
  unfold kmem_alloc. rewrite Ha. cbn [mbind option_bind]. exists o. eexists _, F'. split; [done|]. split; [done|].
  assert (Hi' : pg_inv m' F') by apply Hp'. assert (Hi : pg_inv (km_mem a) F) by apply Hp.
  assert (HFsub : ∀ q, q ∈ F' → q ∈ F).
  { intros q Hq. destruct Htook as [[-> _]|(pg & HFF & _)]; [done|]. rewrite HFF. by right. }
  (* the pages of pool [i] after the allocation: the old ones and possibly one that was free *)
  assert (Hpgs' : ∀ q, q ∈ pgs'.*1 → q ∈ (pgs i).*1 ∨ q ∈ F).
  { intros q Hq. destruct Htook as [[_ He]|(pg & HFF & He)]; rewrite He in Hq; [by left|].
    apply elem_of_cons in Hq as [->|Hq]; [right; rewrite HFF; apply list_elem_of_here|by left]. }
  assert (Hdis : ∀ j q, j ≠ i → q ∈ pgs'.*1 → q ∉ (pgs j).*1).
  { intros j q Hj Hq Hqj. destruct (Hpgs' q Hq) as [Hqi|HqF]; [by eapply (rep_disj _ _ _ _ _ Hr i j)|].
    destruct (rep_pool _ _ _ _ _ Hr j) as (_ & _ & _ & _ & _ & Hpg & _). by apply Hpg in Hqj as [Hqj _]. }
  assert (Hopg : ∃ pg, pg ∈ pgs'.*1 ∧ page_of o = pg).
  { assert (Hlo : live (sz i) (pool_count i) pgs' o) by (apply Hl; by left).
    destruct Hlo as (pg & es & Hin & Hob & _). apply (list_elem_of_fmap_2 fst) in Hin. simpl in Hin. exists pg.
    split; [done|]. destruct Hp' as (_ & _ & _ & _ & _ & Hpg & _). destruct (Hpg pg Hin) as [_ [Hm _]].
    by eapply (objs_page (sz i) (pool_count i)). }
  assert (Hnew : ∀ j, (j, o) ∉ L).
  { intros j Hj. destruct (decide (j = i)) as [->|Hne]; [by apply (rep_live _ _ _ _ _ Hr) in Hj|].
    destruct (live_page j a L H F pgs o Hr Hj) as (pg & Hpg & Hpo & _). destruct Hopg as (pg' & Hpg' & Hpo').
    apply (Hdis j pg' Hne Hpg'). congruence. }
  split; [done|]. split; [exists (set_pages i pgs' pgs)|].
  - split; cbn [km_mem km_pools]; unfold set_pool, set_pages.
    + intros j. case_decide as Hj; [by subst|]. eapply other_pool; [done..|]. intros b Hb. apply Hout.
      intros Hin. by apply (Hdis j (page_of b) Hj).
    + intros j x. rewrite elem_of_cons. case_decide as Hj.
      * subst j. rewrite Hl, (rep_live _ _ _ _ _ Hr). naive_solver.
      * rewrite (rep_live _ _ _ _ _ Hr). naive_solver.
    + constructor; [done|apply Hr].
    + intros j k q Hjk. do 2 case_decide; subst; try done.
      * intros Hq. apply Hdis; [done|done].
      * intros Hq Hq'. by apply (Hdis j q).
      * by apply (rep_disj _ _ _ _ _ Hr).
    + pose proof (rep_pages _ _ _ _ _ Hr) as Hnd. destruct Htook as [[-> _]|(pg & HFF & _)]; [done|].
      rewrite HFF in Hnd. rewrite <- Permutation_middle in Hnd. by apply NoDup_cons in Hnd as [_ Hnd].
    + apply Hr.
    + intros j q Hq. case_decide as Hj; [|by apply (rep_held_pool _ _ _ _ _ Hr)]. intros Hin.
      destruct (Hpgs' q Hin) as [Hqi|HqF]; [by eapply (rep_held_pool _ _ _ _ _ Hr)|].
      pose proof (rep_pages _ _ _ _ _ Hr) as Hnd. apply NoDup_app in Hnd as (_ & Hd & _). by apply (Hd q).
  - destruct Htook as [[-> _]|(pg & HFF & _)]; [lia|]. rewrite HFF. done.
Qed.

Lemma kmem_free_ok i p a L H F :
  kmem_inv a ((i, p) :: L) H F → ∃ a', kmem_free i p a = Some a' ∧ kmem_inv a' L H F.
Proof.
  intros [pgs Hr]. destruct (pool_dims i) as (H1 & H2 & H3 & H4).
  pose proof (rep_pool _ _ _ _ _ Hr i) as Hp. pose proof (rep_fuel _ _ _ _ _ i Hr) as Hf.
  assert (Hlp : live (sz i) (pool_count i) (pgs i) p) by (apply (rep_live _ _ _ _ _ Hr); apply list_elem_of_here).
  destruct (pool_free_spec (sz i) (pool_count i) H1 H2 H3 H4 pool_fuel _ _ F (pgs i) p Hp) as
    (m' & pgs' & Hfr & Hp' & (Hl & _) & He & Hout); [lia|done|].
  unfold kmem_free. rewrite Hfr. cbn [mbind option_bind]. eexists. split; [done|]. exists (set_pages i pgs' pgs).
  pose proof (rep_nodup _ _ _ _ _ Hr) as HndL. apply NoDup_cons in HndL as [HpL HndL].
  split; cbn [km_mem km_pools]; unfold set_pages.
  - intros j. case_decide as Hj; [by subst|]. eapply other_pool; [done|apply Hp'|done|]. intros b Hb. apply Hout.
    intros Hin. by apply (rep_disj _ _ _ _ _ Hr i j (page_of b)).
  - intros j x. case_decide as Hj.
    + subst j. rewrite Hl, (rep_live _ _ _ _ _ Hr), elem_of_cons. naive_solver.
    + rewrite (rep_live _ _ _ _ _ Hr), elem_of_cons. naive_solver.
  - done.
  - intros j k q Hjk. do 2 case_decide; subst; rewrite ?He; try done; by apply (rep_disj _ _ _ _ _ Hr).
  - apply Hr.
  - apply Hr.
  - intros j q Hq. case_decide; subst; rewrite ?He; by apply (rep_held_pool _ _ _ _ _ Hr).
Qed.

Lemma kmem_get_range fl a L H F q a' : kmem_inv a L H F → kmem_get_page fl a = Some (q, a') → 0x80000000 < q < 0xC0000000.
Proof.
  intros [pgs Hr]. assert (Hi : pg_inv (km_mem a) F) by apply (rep_pool _ _ _ _ _ Hr PProc). unfold kmem_get_page.
  destruct (pg_get fl (km_mem a)) as [[x m']|] eqn:Hg; [|done]. cbn [mbind option_bind]. intros [= <- <-].
  destruct (pg_get_inv fl _ F x m' Hi Hg) as (p & F' & -> & HFF & _). destruct (pg_free_ok _ F Hi) as [_ HokF]. rewrite HFF in HokF.
  apply Forall_cons in HokF as [[_ Hpr] _]. destruct (fl &? MEM_PM_UNCACHED); lia.
Qed.

Lemma kmem_get_ok fl a L H F :
  kmem_inv a L H F → F ≠ [] →
  ∃ p q a' F', kmem_get_page fl a = Some (q, a') ∧ q ≠ NULL ∧ PM_PHYSICAL_PAGE q = PM_PHYSICAL_PAGE p ∧
    F ≡ₚ p :: F' ∧ kmem_inv a' L (p :: H) F'.
Proof.
  intros [pgs Hr] HF. assert (Hi : pg_inv (km_mem a) F) by apply (rep_pool _ _ _ _ _ Hr PProc).
  destruct (pg_get_some fl _ F Hi HF) as [[q m'] Hg].
  destruct (pg_get_inv fl _ F q m' Hi Hg) as (p & F' & Hq & HFF & Hi' & Hrd).
  destruct (pg_free_ok _ F Hi) as [HndF HokF]. rewrite HFF in HokF. apply Forall_cons in HokF as [[Hm Hpr] _].
  unfold kmem_get_page. rewrite Hg. cbn [mbind option_bind]. exists p, q. eexists _, F'. split; [done|].
  assert (Hqk : ∃ k, q = p + k ∧ (k = 0 ∨ k = 0x20000000)).
  { rewrite Hq. destruct (fl &? MEM_PM_UNCACHED); [exists 0x20000000|exists 0]; (split; [lia|auto]). }
  destruct Hqk as (k & Hqk & Hk). split; [lia|]. split.
  { rewrite Hqk, !physical_page_spec by lia. f_equal. destruct Hk as [->| ->]; [by rewrite Z.add_0_r|].
    change 0x20000000 with (1 * 2 ^ 29). by rewrite Z.mod_add. }
  split; [done|]. exists pgs.
  assert (HpF : p ∈ F) by (rewrite HFF; apply list_elem_of_here).
  split; cbn [km_mem km_pools]; try apply Hr.
  - intros i. eapply other_pool; [exact Hr|exact Hi'|intros x Hx; rewrite HFF; by right|]. intros b _. apply Hrd.
  - pose proof (rep_pages _ _ _ _ _ Hr) as Hnd. rewrite HFF, <- Permutation_middle in Hnd. exact Hnd.
  - constructor; [by split|apply Hr].
  - intros i x [->|Hx]%elem_of_cons; [|by apply (rep_held_pool _ _ _ _ _ Hr)].
    intros Hin. destruct (rep_pool _ _ _ _ _ Hr i) as (_ & _ & _ & _ & _ & Hpg & _). by apply Hpg in Hin as [Hin _].
Qed.

Lemma kmem_put_ok p q a L H F :
  kmem_inv a L (p :: H) F → PM_PHYSICAL_PAGE q = PM_PHYSICAL_PAGE p →
  ∃ a', kmem_put_page q a = Some a' ∧ kmem_inv a' L H (p :: F).
Proof.
  intros [pgs Hr] Hq. assert (Hi : pg_inv (km_mem a) F) by apply (rep_pool _ _ _ _ _ Hr PProc).
  pose proof (rep_pages _ _ _ _ _ Hr) as Hnd. simpl in Hnd. apply NoDup_cons in Hnd as [HpHF Hnd].
  pose proof (rep_held _ _ _ _ _ Hr) as Hok. apply Forall_cons in Hok as [Hp Hok].
  destruct (pg_release_inv _ F p q Hi Hp) as (m' & Hrel & Hi' & Hrd); [set_solver|done|].
  unfold kmem_put_page. rewrite Hrel. cbn [mbind option_bind]. eexists. split; [done|]. exists pgs.
  split; cbn [km_mem km_pools]; try apply Hr; try done.
  - intros i. destruct (pool_dims i) as (H1 & H2 & H3 & H4).
    assert (HpP : p ∉ (pgs i).*1) by (apply (rep_held_pool _ _ _ _ _ Hr); apply list_elem_of_here).
    apply (pool_inv_frame (sz i) (pool_count i) H1 H2 H3 H4 (km_pools a i) (km_mem a) m' F (p :: F)); try done; [apply Hr|..].
    + intros pg Hin [->|Hin']%elem_of_cons; [done|].
      destruct (rep_pool _ _ _ _ _ Hr i) as (_ & _ & _ & _ & _ & Hpg & _). by apply Hpg in Hin as [Hin _].
    + intros b Hb. apply Hrd. intros ->. destruct Hp as [Hm _]. by rewrite page_of_self in Hb.
  - rewrite <- Permutation_middle. by constructor.
  - intros i x Hx. apply (rep_held_pool _ _ _ _ _ Hr). by right.
Qed.

Lemma kmem_inv_perm a L L' H H' F :
  L ≡ₚ L' → H ≡ₚ H' → kmem_inv a L H F → kmem_inv a L' H' F.
Proof.
  intros HL HH [pgs Hr]. exists pgs. split; try apply Hr.
  - intros i x. rewrite (rep_live _ _ _ _ _ Hr). by rewrite HL.
  - rewrite <- HL. apply Hr.
  - rewrite <- HH. apply Hr.
  - rewrite <- HH. apply Hr.
  - intros i p. rewrite <- HH. apply (rep_held_pool _ _ _ _ _ Hr).
Qed.

Lemma kmem_inv_nodup a L H F :
  kmem_inv a L H F → NoDup L ∧ NoDup (H ++ F) ∧ Forall page_ok H ∧ ∀ i p, (i, p) ∈ L → p ≠ NULL.
Proof.
  intros [pgs Hr]. split_and!; try apply Hr. intros i p Hp ->.
  destruct (live_page i a L H F pgs _ Hr Hp) as (pg & _ & Hpo & [_ Hpr]). change (page_of 0) with 0 in Hpo. lia.
Qed.

#[global] Instance kmem_KMem : KMem kmem := {|
  km_alloc := kmem_alloc; km_free := kmem_free; km_get_page := kmem_get_page; km_put_page := kmem_put_page;
  km_inv := kmem_inv; km_alloc_ok := kmem_alloc_ok; km_free_ok := kmem_free_ok; km_inv_perm := kmem_inv_perm;
  km_get_ok := kmem_get_ok; km_get_range := kmem_get_range; km_put_ok := kmem_put_ok; km_inv_nodup := kmem_inv_nodup
|}.

(** At boot no object is allocated and every pool is empty. *)
Definition kmem_init (m : M) : kmem := mk_kmem m (λ i, POOL_INIT (pool_size i)).

Lemma kmem_init_inv m F : pg_inv m F → km_inv (kmem_init m) [] [] F.
Proof.
  intros Hi. exists (λ _, []). split; simpl; try set_solver; try (by constructor).
  - intros i. split_and!; try done; try set_solver; by (constructor || left).
  - intros i x. split; [intros (? & ? & ? & _); set_solver|set_solver].
  - by apply pg_free_ok in Hi as [? _].
Qed.
End impl.
Arguments kmem : clear implicits.
Arguments mk_kmem {M} _ _.
