(* ===== verification/Kernel.v ===== *)
(** * Kernel state

    The structures the kernel links together (processes, open files, cached
    inodes, memory areas, pipe pages) are typed heaps indexed by address: a
    pointer field holds an address and an update through it is seen by every
    holder, as in C.  The static variables of the process manager and of the
    scheduler are fields of the same record.  Only data and field updates are
    defined here; each component defines its operations on this state. *)

From S2P Require Import Prelude CyclicFifo PhysMem PoolAlloc KMem Pid Mmu PageDir.

(** ** Structures *)

(** src/interface/fixos/signal.h:64-71: sigaction *)
Record sigaction := mk_sigaction { sa_handler : ptr; sa_mask : Z; sa_flags : Z }.

(** A saved context; [reg] has 16 entries.  The [previous] link is the tail of the
    list of contexts the process holds. *)
(** src/arch/sh/include/arch/process.h:43-59: _context_info *)
Record context := mk_context {
  reg : list Z; gbr : Z; macl : Z; mach : Z; pc : Z; sr : Z; pr : Z
}.

(** The tables of operations a file can have. *)
(** src/fs/file_operations.h:37-87: file_operations *)
Inductive file_op := fop_dir | fop_pipe | fop_smemfs | fop_tty | fop_display | fop_keyboard.

(** The tables of operations an area can have. *)
(** src/sys/mem_area.h:90-120: mem_area_ops *)
Inductive area_op := aop_anon | aop_smemfs.

(** [asid] is the address space; [mem_areas] lists the areas from the head of the list. *)
(** src/sys/process.h:69-130: process *)
Record process := mk_process {
  acnt : list context;
  kernel_stack : ptr;
  pid : Z;
  pgid : Z;
  parent : ptr;
  asid : Z;
  dir_list : list page_dir;
  mem_areas : list ptr;
  files : list ptr;
  fdflags : list Z;
  cwd : ptr;
  sig_blocked : Z;
  sig_pending : Z;
  sig_array : list sigaction;
  state : Z;
  exit_status : Z;
  uticks : Z;
  kticks : Z;
  shared_file : ptr;
  shared_offset : ptr;
  initial_brk : ptr;
  heap_area : ptr;
  load_cursamp : Z;
  load_samples : list Z;
  load_last : Z;
  ctty : ptr
}.

Definition set_acnt (v : list context) (x : process) : process :=
  mk_process v (kernel_stack x) (pid x) (pgid x) (parent x) (asid x) (dir_list x) (mem_areas x) (files x) (fdflags x) (cwd x) (sig_blocked x) (sig_pending x) (sig_array x) (state x) (exit_status x) (uticks x) (kticks x) (shared_file x) (shared_offset x) (initial_brk x) (heap_area x) (load_cursamp x) (load_samples x) (load_last x) (ctty x).
Definition set_kernel_stack (v : ptr) (x : process) : process :=
  mk_process (acnt x) v (pid x) (pgid x) (parent x) (asid x) (dir_list x) (mem_areas x) (files x) (fdflags x) (cwd x) (sig_blocked x) (sig_pending x) (sig_array x) (state x) (exit_status x) (uticks x) (kticks x) (shared_file x) (shared_offset x) (initial_brk x) (heap_area x) (load_cursamp x) (load_samples x) (load_last x) (ctty x).
Definition set_pid (v : Z) (x : process) : process :=
  mk_process (acnt x) (kernel_stack x) v (pgid x) (parent x) (asid x) (dir_list x) (mem_areas x) (files x) (fdflags x) (cwd x) (sig_blocked x) (sig_pending x) (sig_array x) (state x) (exit_status x) (uticks x) (kticks x) (shared_file x) (shared_offset x) (initial_brk x) (heap_area x) (load_cursamp x) (load_samples x) (load_last x) (ctty x).
Definition set_pgid (v : Z) (x : process) : process :=
  mk_process (acnt x) (kernel_stack x) (pid x) v (parent x) (asid x) (dir_list x) (mem_areas x) (files x) (fdflags x) (cwd x) (sig_blocked x) (sig_pending x) (sig_array x) (state x) (exit_status x) (uticks x) (kticks x) (shared_file x) (shared_offset x) (initial_brk x) (heap_area x) (load_cursamp x) (load_samples x) (load_last x) (ctty x).
Definition set_parent (v : ptr) (x : process) : process :=
  mk_process (acnt x) (kernel_stack x) (pid x) (pgid x) v (asid x) (dir_list x) (mem_areas x) (files x) (fdflags x) (cwd x) (sig_blocked x) (sig_pending x) (sig_array x) (state x) (exit_status x) (uticks x) (kticks x) (shared_file x) (shared_offset x) (initial_brk x) (heap_area x) (load_cursamp x) (load_samples x) (load_last x) (ctty x).
Definition set_asid (v : Z) (x : process) : process :=
  mk_process (acnt x) (kernel_stack x) (pid x) (pgid x) (parent x) v (dir_list x) (mem_areas x) (files x) (fdflags x) (cwd x) (sig_blocked x) (sig_pending x) (sig_array x) (state x) (exit_status x) (uticks x) (kticks x) (shared_file x) (shared_offset x) (initial_brk x) (heap_area x) (load_cursamp x) (load_samples x) (load_last x) (ctty x).
Definition set_dir_list (v : list page_dir) (x : process) : process :=
  mk_process (acnt x) (kernel_stack x) (pid x) (pgid x) (parent x) (asid x) v (mem_areas x) (files x) (fdflags x) (cwd x) (sig_blocked x) (sig_pending x) (sig_array x) (state x) (exit_status x) (uticks x) (kticks x) (shared_file x) (shared_offset x) (initial_brk x) (heap_area x) (load_cursamp x) (load_samples x) (load_last x) (ctty x).
Definition set_mem_areas (v : list ptr) (x : process) : process :=
  mk_process (acnt x) (kernel_stack x) (pid x) (pgid x) (parent x) (asid x) (dir_list x) v (files x) (fdflags x) (cwd x) (sig_blocked x) (sig_pending x) (sig_array x) (state x) (exit_status x) (uticks x) (kticks x) (shared_file x) (shared_offset x) (initial_brk x) (heap_area x) (load_cursamp x) (load_samples x) (load_last x) (ctty x).
Definition set_files (v : list ptr) (x : process) : process :=
  mk_process (acnt x) (kernel_stack x) (pid x) (pgid x) (parent x) (asid x) (dir_list x) (mem_areas x) v (fdflags x) (cwd x) (sig_blocked x) (sig_pending x) (sig_array x) (state x) (exit_status x) (uticks x) (kticks x) (shared_file x) (shared_offset x) (initial_brk x) (heap_area x) (load_cursamp x) (load_samples x) (load_last x) (ctty x).
Definition set_fdflags (v : list Z) (x : process) : process :=
  mk_process (acnt x) (kernel_stack x) (pid x) (pgid x) (parent x) (asid x) (dir_list x) (mem_areas x) (files x) v (cwd x) (sig_blocked x) (sig_pending x) (sig_array x) (state x) (exit_status x) (uticks x) (kticks x) (shared_file x) (shared_offset x) (initial_brk x) (heap_area x) (load_cursamp x) (load_samples x) (load_last x) (ctty x).
Definition set_cwd (v : ptr) (x : process) : process :=
  mk_process (acnt x) (kernel_stack x) (pid x) (pgid x) (parent x) (asid x) (dir_list x) (mem_areas x) (files x) (fdflags x) v (sig_blocked x) (sig_pending x) (sig_array x) (state x) (exit_status x) (uticks x) (kticks x) (shared_file x) (shared_offset x) (initial_brk x) (heap_area x) (load_cursamp x) (load_samples x) (load_last x) (ctty x).
Definition set_sig_blocked (v : Z) (x : process) : process :=
  mk_process (acnt x) (kernel_stack x) (pid x) (pgid x) (parent x) (asid x) (dir_list x) (mem_areas x) (files x) (fdflags x) (cwd x) v (sig_pending x) (sig_array x) (state x) (exit_status x) (uticks x) (kticks x) (shared_file x) (shared_offset x) (initial_brk x) (heap_area x) (load_cursamp x) (load_samples x) (load_last x) (ctty x).
Definition set_sig_pending (v : Z) (x : process) : process :=
  mk_process (acnt x) (kernel_stack x) (pid x) (pgid x) (parent x) (asid x) (dir_list x) (mem_areas x) (files x) (fdflags x) (cwd x) (sig_blocked x) v (sig_array x) (state x) (exit_status x) (uticks x) (kticks x) (shared_file x) (shared_offset x) (initial_brk x) (heap_area x) (load_cursamp x) (load_samples x) (load_last x) (ctty x).
Definition set_sig_array (v : list sigaction) (x : process) : process :=
  mk_process (acnt x) (kernel_stack x) (pid x) (pgid x) (parent x) (asid x) (dir_list x) (mem_areas x) (files x) (fdflags x) (cwd x) (sig_blocked x) (sig_pending x) v (state x) (exit_status x) (uticks x) (kticks x) (shared_file x) (shared_offset x) (initial_brk x) (heap_area x) (load_cursamp x) (load_samples x) (load_last x) (ctty x).
Definition set_state (v : Z) (x : process) : process :=
  mk_process (acnt x) (kernel_stack x) (pid x) (pgid x) (parent x) (asid x) (dir_list x) (mem_areas x) (files x) (fdflags x) (cwd x) (sig_blocked x) (sig_pending x) (sig_array x) v (exit_status x) (uticks x) (kticks x) (shared_file x) (shared_offset x) (initial_brk x) (heap_area x) (load_cursamp x) (load_samples x) (load_last x) (ctty x).
Definition set_exit_status (v : Z) (x : process) : process :=
  mk_process (acnt x) (kernel_stack x) (pid x) (pgid x) (parent x) (asid x) (dir_list x) (mem_areas x) (files x) (fdflags x) (cwd x) (sig_blocked x) (sig_pending x) (sig_array x) (state x) v (uticks x) (kticks x) (shared_file x) (shared_offset x) (initial_brk x) (heap_area x) (load_cursamp x) (load_samples x) (load_last x) (ctty x).
Definition set_uticks (v : Z) (x : process) : process :=
  mk_process (acnt x) (kernel_stack x) (pid x) (pgid x) (parent x) (asid x) (dir_list x) (mem_areas x) (files x) (fdflags x) (cwd x) (sig_blocked x) (sig_pending x) (sig_array x) (state x) (exit_status x) v (kticks x) (shared_file x) (shared_offset x) (initial_brk x) (heap_area x) (load_cursamp x) (load_samples x) (load_last x) (ctty x).
Definition set_kticks (v : Z) (x : process) : process :=
  mk_process (acnt x) (kernel_stack x) (pid x) (pgid x) (parent x) (asid x) (dir_list x) (mem_areas x) (files x) (fdflags x) (cwd x) (sig_blocked x) (sig_pending x) (sig_array x) (state x) (exit_status x) (uticks x) v (shared_file x) (shared_offset x) (initial_brk x) (heap_area x) (load_cursamp x) (load_samples x) (load_last x) (ctty x).
Definition set_shared_file (v : ptr) (x : process) : process :=
  mk_process (acnt x) (kernel_stack x) (pid x) (pgid x) (parent x) (asid x) (dir_list x) (mem_areas x) (files x) (fdflags x) (cwd x) (sig_blocked x) (sig_pending x) (sig_array x) (state x) (exit_status x) (uticks x) (kticks x) v (shared_offset x) (initial_brk x) (heap_area x) (load_cursamp x) (load_samples x) (load_last x) (ctty x).
Definition set_shared_offset (v : ptr) (x : process) : process :=
  mk_process (acnt x) (kernel_stack x) (pid x) (pgid x) (parent x) (asid x) (dir_list x) (mem_areas x) (files x) (fdflags x) (cwd x) (sig_blocked x) (sig_pending x) (sig_array x) (state x) (exit_status x) (uticks x) (kticks x) (shared_file x) v (initial_brk x) (heap_area x) (load_cursamp x) (load_samples x) (load_last x) (ctty x).
Definition set_initial_brk (v : ptr) (x : process) : process :=
  mk_process (acnt x) (kernel_stack x) (pid x) (pgid x) (parent x) (asid x) (dir_list x) (mem_areas x) (files x) (fdflags x) (cwd x) (sig_blocked x) (sig_pending x) (sig_array x) (state x) (exit_status x) (uticks x) (kticks x) (shared_file x) (shared_offset x) v (heap_area x) (load_cursamp x) (load_samples x) (load_last x) (ctty x).
Definition set_heap_area (v : ptr) (x : process) : process :=
  mk_process (acnt x) (kernel_stack x) (pid x) (pgid x) (parent x) (asid x) (dir_list x) (mem_areas x) (files x) (fdflags x) (cwd x) (sig_blocked x) (sig_pending x) (sig_array x) (state x) (exit_status x) (uticks x) (kticks x) (shared_file x) (shared_offset x) (initial_brk x) v (load_cursamp x) (load_samples x) (load_last x) (ctty x).
Definition set_load_cursamp (v : Z) (x : process) : process :=
  mk_process (acnt x) (kernel_stack x) (pid x) (pgid x) (parent x) (asid x) (dir_list x) (mem_areas x) (files x) (fdflags x) (cwd x) (sig_blocked x) (sig_pending x) (sig_array x) (state x) (exit_status x) (uticks x) (kticks x) (shared_file x) (shared_offset x) (initial_brk x) (heap_area x) v (load_samples x) (load_last x) (ctty x).
Definition set_load_samples (v : list Z) (x : process) : process :=
  mk_process (acnt x) (kernel_stack x) (pid x) (pgid x) (parent x) (asid x) (dir_list x) (mem_areas x) (files x) (fdflags x) (cwd x) (sig_blocked x) (sig_pending x) (sig_array x) (state x) (exit_status x) (uticks x) (kticks x) (shared_file x) (shared_offset x) (initial_brk x) (heap_area x) (load_cursamp x) v (load_last x) (ctty x).
Definition set_load_last (v : Z) (x : process) : process :=
  mk_process (acnt x) (kernel_stack x) (pid x) (pgid x) (parent x) (asid x) (dir_list x) (mem_areas x) (files x) (fdflags x) (cwd x) (sig_blocked x) (sig_pending x) (sig_array x) (state x) (exit_status x) (uticks x) (kticks x) (shared_file x) (shared_offset x) (initial_brk x) (heap_area x) (load_cursamp x) (load_samples x) v (ctty x).
Definition set_ctty (v : ptr) (x : process) : process :=
  mk_process (acnt x) (kernel_stack x) (pid x) (pgid x) (parent x) (asid x) (dir_list x) (mem_areas x) (files x) (fdflags x) (cwd x) (sig_blocked x) (sig_pending x) (sig_array x) (state x) (exit_status x) (uticks x) (kticks x) (shared_file x) (shared_offset x) (initial_brk x) (heap_area x) (load_cursamp x) (load_samples x) (load_last x) v.

(** src/fs/file.h:29-45: file *)
Record file := mk_file {
  f_pos : Z;
  f_flags : Z;
  f_inode : ptr;
  f_op : file_op;
  f_count : Z;
  f_private : Z
}.

Definition set_f_pos (v : Z) (x : file) : file :=
  mk_file v (f_flags x) (f_inode x) (f_op x) (f_count x) (f_private x).
Definition set_f_flags (v : Z) (x : file) : file :=
  mk_file (f_pos x) v (f_inode x) (f_op x) (f_count x) (f_private x).
Definition set_f_inode (v : ptr) (x : file) : file :=
  mk_file (f_pos x) (f_flags x) v (f_op x) (f_count x) (f_private x).
Definition set_f_op (v : file_op) (x : file) : file :=
  mk_file (f_pos x) (f_flags x) (f_inode x) v (f_count x) (f_private x).
Definition set_f_count (v : Z) (x : file) : file :=
  mk_file (f_pos x) (f_flags x) (f_inode x) (f_op x) v (f_private x).
Definition set_f_private (v : Z) (x : file) : file :=
  mk_file (f_pos x) (f_flags x) (f_inode x) (f_op x) (f_count x) v.

(** With the [next] link of the cache entry that holds the inode; [i_spec] is the union of the device number and of the mount links. *)
(** src/fs/inode.h:52-77: inode *)
Record inode := mk_inode {
  i_name : list Z;
  i_fs : ptr;
  i_node : Z;
  i_parent : Z;
  i_type : Z;
  i_flags : Z;
  i_abstract : ptr;
  i_spec : Z;
  i_count : Z;
  i_next : ptr
}.

Definition set_i_name (v : list Z) (x : inode) : inode :=
  mk_inode v (i_fs x) (i_node x) (i_parent x) (i_type x) (i_flags x) (i_abstract x) (i_spec x) (i_count x) (i_next x).
Definition set_i_fs (v : ptr) (x : inode) : inode :=
  mk_inode (i_name x) v (i_node x) (i_parent x) (i_type x) (i_flags x) (i_abstract x) (i_spec x) (i_count x) (i_next x).
Definition set_i_node (v : Z) (x : inode) : inode :=
  mk_inode (i_name x) (i_fs x) v (i_parent x) (i_type x) (i_flags x) (i_abstract x) (i_spec x) (i_count x) (i_next x).
Definition set_i_parent (v : Z) (x : inode) : inode :=
  mk_inode (i_name x) (i_fs x) (i_node x) v (i_type x) (i_flags x) (i_abstract x) (i_spec x) (i_count x) (i_next x).
Definition set_i_type (v : Z) (x : inode) : inode :=
  mk_inode (i_name x) (i_fs x) (i_node x) (i_parent x) v (i_flags x) (i_abstract x) (i_spec x) (i_count x) (i_next x).
Definition set_i_flags (v : Z) (x : inode) : inode :=
  mk_inode (i_name x) (i_fs x) (i_node x) (i_parent x) (i_type x) v (i_abstract x) (i_spec x) (i_count x) (i_next x).
Definition set_i_abstract (v : ptr) (x : inode) : inode :=
  mk_inode (i_name x) (i_fs x) (i_node x) (i_parent x) (i_type x) (i_flags x) v (i_spec x) (i_count x) (i_next x).
Definition set_i_spec (v : Z) (x : inode) : inode :=
  mk_inode (i_name x) (i_fs x) (i_node x) (i_parent x) (i_type x) (i_flags x) (i_abstract x) v (i_count x) (i_next x).
Definition set_i_count (v : Z) (x : inode) : inode :=
  mk_inode (i_name x) (i_fs x) (i_node x) (i_parent x) (i_type x) (i_flags x) (i_abstract x) (i_spec x) v (i_next x).
Definition set_i_next (v : ptr) (x : inode) : inode :=
  mk_inode (i_name x) (i_fs x) (i_node x) (i_parent x) (i_type x) (i_flags x) (i_abstract x) (i_spec x) (i_count x) v.

(** src/sys/mem_area.h:46-79: mem_area *)
Record mem_area := mk_area {
  ma_flags : Z;
  ma_address : ptr;
  ma_max_size : Z;
  ma_ops : area_op;
  ma_filep : ptr;
  ma_base : Z;
  ma_infile : Z
}.

Definition set_ma_flags (v : Z) (x : mem_area) : mem_area :=
  mk_area v (ma_address x) (ma_max_size x) (ma_ops x) (ma_filep x) (ma_base x) (ma_infile x).
Definition set_ma_address (v : ptr) (x : mem_area) : mem_area :=
  mk_area (ma_flags x) v (ma_max_size x) (ma_ops x) (ma_filep x) (ma_base x) (ma_infile x).
Definition set_ma_max_size (v : Z) (x : mem_area) : mem_area :=
  mk_area (ma_flags x) (ma_address x) v (ma_ops x) (ma_filep x) (ma_base x) (ma_infile x).
Definition set_ma_ops (v : area_op) (x : mem_area) : mem_area :=
  mk_area (ma_flags x) (ma_address x) (ma_max_size x) v (ma_filep x) (ma_base x) (ma_infile x).
Definition set_ma_filep (v : ptr) (x : mem_area) : mem_area :=
  mk_area (ma_flags x) (ma_address x) (ma_max_size x) (ma_ops x) v (ma_base x) (ma_infile x).
Definition set_ma_base (v : Z) (x : mem_area) : mem_area :=
  mk_area (ma_flags x) (ma_address x) (ma_max_size x) (ma_ops x) (ma_filep x) v (ma_infile x).
Definition set_ma_infile (v : Z) (x : mem_area) : mem_area :=
  mk_area (ma_flags x) (ma_address x) (ma_max_size x) (ma_ops x) (ma_filep x) (ma_base x) v.

(** src/fs/pipe.c:32-37: pipe_page *)
Record pipe_page := mk_pipe { pp_fifo : cyclic_fifo; pp_count : Z }.

(** [pn_parent] is the address of the parent node, NULL for the root. *)
(** src/fs/protofs/primitives.h:32-42: _protofs_node *)
Record protofs_node := mk_pnode { pn_name : list Z; pn_parent : ptr; pn_type : Z; pn_mode : Z; pn_dev : Z }.

(** The page of nodes of protofs and its address, [_protofs_page]. *)
(** src/fs/protofs/file_system.c:44-51: _protofs_page *)
Record protofs := mk_protofs { pf_mounted : Z; pf_page : ptr; pf_nodes : list protofs_node }.

(** ** The kernel *)

Record kernel {A : Type} := mk_kernel {
  k_mem : A;
  k_mmu : mmu;
  k_pids : pids;
  k_procs : ptr → process;
  k_files : ptr → file;
  k_inodes : ptr → inode;
  k_areas : ptr → mem_area;
  k_pipes : ptr → pipe_page;
  hash_head : list ptr;
  process_list : list ptr;
  process_number : Z;
  proc_current : ptr;
  tasks : list ptr;
  cur_task : Z;
  cur_quantum_left : Z;
  need_reschedule : Z;
  started : Z;
  preempt_level : Z;
  k_activated : Z;
  k_listener : Z;
  k_protofs : protofs;
  root_fs : ptr;
  mounted_fs : list (ptr * ptr)
}.
Arguments kernel : clear implicits.
Arguments mk_kernel {A}.


Definition set_k_mem {A} (v : A) (x : kernel A) : kernel A :=
  mk_kernel v (k_mmu x) (k_pids x) (k_procs x) (k_files x) (k_inodes x) (k_areas x) (k_pipes x) (hash_head x) (process_list x) (process_number x) (proc_current x) (tasks x) (cur_task x) (cur_quantum_left x) (need_reschedule x) (started x) (preempt_level x) (k_activated x) (k_listener x) (k_protofs x) (root_fs x) (mounted_fs x).
Definition set_k_mmu {A} (v : mmu) (x : kernel A) : kernel A :=
  mk_kernel (k_mem x) v (k_pids x) (k_procs x) (k_files x) (k_inodes x) (k_areas x) (k_pipes x) (hash_head x) (process_list x) (process_number x) (proc_current x) (tasks x) (cur_task x) (cur_quantum_left x) (need_reschedule x) (started x) (preempt_level x) (k_activated x) (k_listener x) (k_protofs x) (root_fs x) (mounted_fs x).
Definition set_k_pids {A} (v : pids) (x : kernel A) : kernel A :=
  mk_kernel (k_mem x) (k_mmu x) v (k_procs x) (k_files x) (k_inodes x) (k_areas x) (k_pipes x) (hash_head x) (process_list x) (process_number x) (proc_current x) (tasks x) (cur_task x) (cur_quantum_left x) (need_reschedule x) (started x) (preempt_level x) (k_activated x) (k_listener x) (k_protofs x) (root_fs x) (mounted_fs x).
Definition set_k_procs {A} (v : ptr → process) (x : kernel A) : kernel A :=
  mk_kernel (k_mem x) (k_mmu x) (k_pids x) v (k_files x) (k_inodes x) (k_areas x) (k_pipes x) (hash_head x) (process_list x) (process_number x) (proc_current x) (tasks x) (cur_task x) (cur_quantum_left x) (need_reschedule x) (started x) (preempt_level x) (k_activated x) (k_listener x) (k_protofs x) (root_fs x) (mounted_fs x).
Definition set_k_files {A} (v : ptr → file) (x : kernel A) : kernel A :=
  mk_kernel (k_mem x) (k_mmu x) (k_pids x) (k_procs x) v (k_inodes x) (k_areas x) (k_pipes x) (hash_head x) (process_list x) (process_number x) (proc_current x) (tasks x) (cur_task x) (cur_quantum_left x) (need_reschedule x) (started x) (preempt_level x) (k_activated x) (k_listener x) (k_protofs x) (root_fs x) (mounted_fs x).
Definition set_k_inodes {A} (v : ptr → inode) (x : kernel A) : kernel A :=
  mk_kernel (k_mem x) (k_mmu x) (k_pids x) (k_procs x) (k_files x) v (k_areas x) (k_pipes x) (hash_head x) (process_list x) (process_number x) (proc_current x) (tasks x) (cur_task x) (cur_quantum_left x) (need_reschedule x) (started x) (preempt_level x) (k_activated x) (k_listener x) (k_protofs x) (root_fs x) (mounted_fs x).
Definition set_k_areas {A} (v : ptr → mem_area) (x : kernel A) : kernel A :=
  mk_kernel (k_mem x) (k_mmu x) (k_pids x) (k_procs x) (k_files x) (k_inodes x) v (k_pipes x) (hash_head x) (process_list x) (process_number x) (proc_current x) (tasks x) (cur_task x) (cur_quantum_left x) (need_reschedule x) (started x) (preempt_level x) (k_activated x) (k_listener x) (k_protofs x) (root_fs x) (mounted_fs x).
Definition set_k_pipes {A} (v : ptr → pipe_page) (x : kernel A) : kernel A :=
  mk_kernel (k_mem x) (k_mmu x) (k_pids x) (k_procs x) (k_files x) (k_inodes x) (k_areas x) v (hash_head x) (process_list x) (process_number x) (proc_current x) (tasks x) (cur_task x) (cur_quantum_left x) (need_reschedule x) (started x) (preempt_level x) (k_activated x) (k_listener x) (k_protofs x) (root_fs x) (mounted_fs x).
Definition set_hash_head {A} (v : list ptr) (x : kernel A) : kernel A :=
  mk_kernel (k_mem x) (k_mmu x) (k_pids x) (k_procs x) (k_files x) (k_inodes x) (k_areas x) (k_pipes x) v (process_list x) (process_number x) (proc_current x) (tasks x) (cur_task x) (cur_quantum_left x) (need_reschedule x) (started x) (preempt_level x) (k_activated x) (k_listener x) (k_protofs x) (root_fs x) (mounted_fs x).
Definition set_process_list {A} (v : list ptr) (x : kernel A) : kernel A :=
  mk_kernel (k_mem x) (k_mmu x) (k_pids x) (k_procs x) (k_files x) (k_inodes x) (k_areas x) (k_pipes x) (hash_head x) v (process_number x) (proc_current x) (tasks x) (cur_task x) (cur_quantum_left x) (need_reschedule x) (started x) (preempt_level x) (k_activated x) (k_listener x) (k_protofs x) (root_fs x) (mounted_fs x).
Definition set_process_number {A} (v : Z) (x : kernel A) : kernel A :=
  mk_kernel (k_mem x) (k_mmu x) (k_pids x) (k_procs x) (k_files x) (k_inodes x) (k_areas x) (k_pipes x) (hash_head x) (process_list x) v (proc_current x) (tasks x) (cur_task x) (cur_quantum_left x) (need_reschedule x) (started x) (preempt_level x) (k_activated x) (k_listener x) (k_protofs x) (root_fs x) (mounted_fs x).
Definition set_proc_current {A} (v : ptr) (x : kernel A) : kernel A :=
  mk_kernel (k_mem x) (k_mmu x) (k_pids x) (k_procs x) (k_files x) (k_inodes x) (k_areas x) (k_pipes x) (hash_head x) (process_list x) (process_number x) v (tasks x) (cur_task x) (cur_quantum_left x) (need_reschedule x) (started x) (preempt_level x) (k_activated x) (k_listener x) (k_protofs x) (root_fs x) (mounted_fs x).
Definition set_tasks {A} (v : list ptr) (x : kernel A) : kernel A :=
  mk_kernel (k_mem x) (k_mmu x) (k_pids x) (k_procs x) (k_files x) (k_inodes x) (k_areas x) (k_pipes x) (hash_head x) (process_list x) (process_number x) (proc_current x) v (cur_task x) (cur_quantum_left x) (need_reschedule x) (started x) (preempt_level x) (k_activated x) (k_listener x) (k_protofs x) (root_fs x) (mounted_fs x).
Definition set_cur_task {A} (v : Z) (x : kernel A) : kernel A :=
  mk_kernel (k_mem x) (k_mmu x) (k_pids x) (k_procs x) (k_files x) (k_inodes x) (k_areas x) (k_pipes x) (hash_head x) (process_list x) (process_number x) (proc_current x) (tasks x) v (cur_quantum_left x) (need_reschedule x) (started x) (preempt_level x) (k_activated x) (k_listener x) (k_protofs x) (root_fs x) (mounted_fs x).
Definition set_cur_quantum_left {A} (v : Z) (x : kernel A) : kernel A :=
  mk_kernel (k_mem x) (k_mmu x) (k_pids x) (k_procs x) (k_files x) (k_inodes x) (k_areas x) (k_pipes x) (hash_head x) (process_list x) (process_number x) (proc_current x) (tasks x) (cur_task x) v (need_reschedule x) (started x) (preempt_level x) (k_activated x) (k_listener x) (k_protofs x) (root_fs x) (mounted_fs x).
Definition set_need_reschedule {A} (v : Z) (x : kernel A) : kernel A :=
  mk_kernel (k_mem x) (k_mmu x) (k_pids x) (k_procs x) (k_files x) (k_inodes x) (k_areas x) (k_pipes x) (hash_head x) (process_list x) (process_number x) (proc_current x) (tasks x) (cur_task x) (cur_quantum_left x) v (started x) (preempt_level x) (k_activated x) (k_listener x) (k_protofs x) (root_fs x) (mounted_fs x).
Definition set_started {A} (v : Z) (x : kernel A) : kernel A :=
  mk_kernel (k_mem x) (k_mmu x) (k_pids x) (k_procs x) (k_files x) (k_inodes x) (k_areas x) (k_pipes x) (hash_head x) (process_list x) (process_number x) (proc_current x) (tasks x) (cur_task x) (cur_quantum_left x) (need_reschedule x) v (preempt_level x) (k_activated x) (k_listener x) (k_protofs x) (root_fs x) (mounted_fs x).
Definition set_preempt_level {A} (v : Z) (x : kernel A) : kernel A :=
  mk_kernel (k_mem x) (k_mmu x) (k_pids x) (k_procs x) (k_files x) (k_inodes x) (k_areas x) (k_pipes x) (hash_head x) (process_list x) (process_number x) (proc_current x) (tasks x) (cur_task x) (cur_quantum_left x) (need_reschedule x) (started x) v (k_activated x) (k_listener x) (k_protofs x) (root_fs x) (mounted_fs x).
Definition set_k_activated {A} (v : Z) (x : kernel A) : kernel A :=
  mk_kernel (k_mem x) (k_mmu x) (k_pids x) (k_procs x) (k_files x) (k_inodes x) (k_areas x) (k_pipes x) (hash_head x) (process_list x) (process_number x) (proc_current x) (tasks x) (cur_task x) (cur_quantum_left x) (need_reschedule x) (started x) (preempt_level x) v (k_listener x) (k_protofs x) (root_fs x) (mounted_fs x).
Definition set_k_listener {A} (v : Z) (x : kernel A) : kernel A :=
  mk_kernel (k_mem x) (k_mmu x) (k_pids x) (k_procs x) (k_files x) (k_inodes x) (k_areas x) (k_pipes x) (hash_head x) (process_list x) (process_number x) (proc_current x) (tasks x) (cur_task x) (cur_quantum_left x) (need_reschedule x) (started x) (preempt_level x) (k_activated x) v (k_protofs x) (root_fs x) (mounted_fs x).
Definition set_k_protofs {A} (v : protofs) (x : kernel A) : kernel A :=
  mk_kernel (k_mem x) (k_mmu x) (k_pids x) (k_procs x) (k_files x) (k_inodes x) (k_areas x) (k_pipes x) (hash_head x) (process_list x) (process_number x) (proc_current x) (tasks x) (cur_task x) (cur_quantum_left x) (need_reschedule x) (started x) (preempt_level x) (k_activated x) (k_listener x) v (root_fs x) (mounted_fs x).
Definition set_root_fs {A} (v : ptr) (x : kernel A) : kernel A :=
  mk_kernel (k_mem x) (k_mmu x) (k_pids x) (k_procs x) (k_files x) (k_inodes x) (k_areas x) (k_pipes x) (hash_head x) (process_list x) (process_number x) (proc_current x) (tasks x) (cur_task x) (cur_quantum_left x) (need_reschedule x) (started x) (preempt_level x) (k_activated x) (k_listener x) (k_protofs x) v (mounted_fs x).
Definition set_mounted_fs {A} (v : list (ptr * ptr)) (x : kernel A) : kernel A :=
  mk_kernel (k_mem x) (k_mmu x) (k_pids x) (k_procs x) (k_files x) (k_inodes x) (k_areas x) (k_pipes x) (hash_head x) (process_list x) (process_number x) (proc_current x) (tasks x) (cur_task x) (cur_quantum_left x) (need_reschedule x) (started x) (preempt_level x) (k_activated x) (k_listener x) (k_protofs x) (root_fs x) v.

(** The address of the static [_proc_idle_task]; it is not word aligned here, so
    no pool object has it. *)
Definition proc_idle_task : ptr := 1.

Section access.
Context {A : Type}.
Implicit Types (k : kernel A).

Definition fset {B} (f : ptr → B) (a : ptr) (v : B) : ptr → B := λ x, if x =? a then v else f x.

(** [proc->field = ...] *)
Definition upd_proc (p : ptr) (g : process → process) k : kernel A :=
  set_k_procs (fset (k_procs k) p (g (k_procs k p))) k.
Definition upd_file (p : ptr) (g : file → file) k : kernel A :=
  set_k_files (fset (k_files k) p (g (k_files k p))) k.
Definition upd_inode (p : ptr) (g : inode → inode) k : kernel A :=
  set_k_inodes (fset (k_inodes k) p (g (k_inodes k p))) k.
Definition upd_area (p : ptr) (g : mem_area → mem_area) k : kernel A :=
  set_k_areas (fset (k_areas k) p (g (k_areas k p))) k.
Definition upd_pipe (p : ptr) (g : pipe_page → pipe_page) k : kernel A :=
  set_k_pipes (fset (k_pipes k) p (g (k_pipes k p))) k.

(** src/sys/process.h: process_get_current *)
Definition process_get_current k : ptr := proc_current k.

Lemma fset_eq {B} (f : ptr → B) a v : fset f a v a = v.
Proof. unfold fset. by rewrite Z.eqb_refl. Qed.

Lemma fset_ne {B} (f : ptr → B) a v x : x ≠ a → fset f a v x = f x.
Proof. intros H. unfold fset. by destruct (Z.eqb_spec x a). Qed.

Lemma upd_proc_eq p g k : k_procs (upd_proc p g k) p = g (k_procs k p).
Proof. apply fset_eq. Qed.

Lemma upd_proc_ne p g k q : q ≠ p → k_procs (upd_proc p g k) q = k_procs k q.
Proof. apply fset_ne. Qed.

Lemma upd_file_eq p g k : k_files (upd_file p g k) p = g (k_files k p).
Proof. apply fset_eq. Qed.

Lemma upd_file_ne p g k q : q ≠ p → k_files (upd_file p g k) q = k_files k q.
Proof. apply fset_ne. Qed.

Lemma upd_area_eq p g k : k_areas (upd_area p g k) p = g (k_areas k p).
Proof. apply fset_eq. Qed.

Lemma upd_area_ne p g k q : q ≠ p → k_areas (upd_area p g k) q = k_areas k q.
Proof. apply fset_ne. Qed.

Lemma upd_inode_eq p g k : k_inodes (upd_inode p g k) p = g (k_inodes k p).
Proof. apply fset_eq. Qed.

Lemma upd_inode_ne p g k q : q ≠ p → k_inodes (upd_inode p g k) q = k_inodes k q.
Proof. apply fset_ne. Qed.
End access.

#[export] Hint Rewrite @fset_eq @upd_proc_eq @upd_file_eq @upd_area_eq @upd_inode_eq : fixos.
#[export] Hint Rewrite @fset_ne using done : fixos.
#[export] Hint Rewrite @upd_proc_ne using done : fixos.

(** ** Constants *)

(** src/interface/fixos/process.h:50-50: PROCESS_STATE_RUNNING *)
Definition PROCESS_STATE_RUNNING : Z := 2.
(** src/interface/fixos/process.h:52-52: PROCESS_STATE_CREATE *)
Definition PROCESS_STATE_CREATE : Z := 3.
(** src/interface/fixos/process.h:54-54: PROCESS_STATE_ZOMBIE *)
Definition PROCESS_STATE_ZOMBIE : Z := 5.
(** src/interface/fixos/process.h:56-56: PROCESS_STATE_STOPPED *)
Definition PROCESS_STATE_STOPPED : Z := 4.
(** src/interface/fixos/process.h:57-57: PROCESS_STATE_INTERRUPTIBLE *)
Definition PROCESS_STATE_INTERRUPTIBLE : Z := 6.
(** src/interface/fixos/process.h:58-58: PROCESS_STATE_UNINTERRUPTIBLE *)
Definition PROCESS_STATE_UNINTERRUPTIBLE : Z := 7.
(** src/sys/process.h:37-37: PROCESS_MAX_FILE *)
Definition PROCESS_MAX_FILE : Z := 12.
(** src/sys/signal.h:35-35: SIGNAL_INDEX_MAX *)
Definition SIGNAL_INDEX_MAX : Z := 10.

(** ** Zero-initialised state *)

Definition zero_process : process :=
  mk_process [] 0 0 0 0 0 [] [] (replicate 12 0) (replicate 12 0) 0 0 0 (replicate 10 (mk_sigaction 0 0 0))
    0 0 0 0 0 0 0 0 0 (replicate 4 0) 0 0.
Definition zero_file : file := mk_file 0 0 0 fop_dir 0 0.
Definition zero_inode : inode := mk_inode (replicate 20 0) 0 0 0 0 0 0 0 0 0.
Definition zero_area : mem_area := mk_area 0 0 0 aop_anon 0 0 0.
Definition zero_pipe : pipe_page := mk_pipe (mk_fifo 0 0 0 []) 0.

(** The static variables before initialisation, over the memory state [a]. *)
Definition zero_kernel {A} (a : A) : kernel A :=
  mk_kernel a (mk_mmu (replicate 100 0) 0xFF []) (mk_pids 0 (replicate 32 0))
    (λ _, zero_process) (λ _, zero_file) (λ _, zero_inode) (λ _, zero_area) (λ _, zero_pipe)
    (replicate 31 0) [] 0 proc_idle_task (replicate 10 0) 0 0 0 0 0 0 0 (mk_protofs 0 0 []) 0 (replicate 6 (0, 0)).
