(* ===== verification/Scheduler.v ===== *)
(** * Scheduler (src/sys/scheduler.c)

    A table of [SCHED_MAX_TASKS] tasks is scanned round-robin from the slot after
    the current one.  The file models the table, the choice of the next task, the
    quantum and preemption counters and the changes of process state; the jump
    into the chosen task is part of the process component.  The theorems show
    which task is chosen, that no runnable task waits more than
    [SCHED_MAX_TASKS] choices, and when a quantum ends. *)

From S2P Require Import Prelude Kernel.

(** ** Model *)

(** src/sys/scheduler.c:27-27: SCHED_MAX_TASKS *)
Definition SCHED_MAX_TASKS : Z := 10.
(** src/sys/scheduler.c:30-30: SCHED_QUANTUM_TICKS *)
Definition SCHED_QUANTUM_TICKS : Z := 4.

Section ops.
Context {A : Type}.
Implicit Types (k : kernel A).

(** src/sys/scheduler.c: sched_init *)
Definition sched_init k : kernel A :=
  let k := set_tasks (foldl (λ t i, <[i := NULL]> t) (tasks k) (seq 0 (Z.to_nat SCHED_MAX_TASKS))) k in
  let k := set_cur_task (-1) k in
  let k := set_cur_quantum_left SCHED_QUANTUM_TICKS k in
  let k := set_need_reschedule 0 k in
  let k := set_preempt_level 0 k in
  set_started 0 k.

(** src/sys/scheduler.c: sched_add_task *)
Definition sched_add_task (task : ptr) k : kernel A :=
  let i := scan (λ t, t =? NULL) (take (Z.to_nat SCHED_MAX_TASKS) (tasks k)) in
  if Z.of_nat i <? SCHED_MAX_TASKS then
    let k := set_tasks (<[i := task]> (tasks k)) k in
    upd_proc task (set_state PROCESS_STATE_RUNNING) k
  else k.

(** The condition on a slot in the loop of [context_saved_next]. *)
(** src/sys/scheduler.c:93-94: context_saved_next *)
Definition runnable k (t : ptr) : bool :=
  negb (t =? NULL) && (state (k_procs k t) =? PROCESS_STATE_RUNNING).

(** The value of [i] after the loop, between 1 and [SCHED_MAX_TASKS]+1. *)
(** src/sys/scheduler.c:93-94: context_saved_next *)
Definition search_next k : Z :=
  1 + Z.of_nat (scan (λ i, runnable k (aget (tasks k) (Z.rem (i + cur_task k) SCHED_MAX_TASKS)))
                     (seqZ 1 SCHED_MAX_TASKS)).

(** [context_saved_next] up to the jump: the state and the process jumped to. *)
(** src/sys/scheduler.c: context_saved_next *)
Definition choose_next k : kernel A * ptr :=
  let i := search_next k in
  let k := set_cur_quantum_left SCHED_QUANTUM_TICKS k in
  let k := set_need_reschedule 0 k in
  if i <=? SCHED_MAX_TASKS then
    let k := set_cur_task (Z.rem (i + cur_task k) SCHED_MAX_TASKS) k in
    (k, aget (tasks k) (cur_task k))
  else (k, proc_idle_task).

(** src/sys/scheduler.c: sched_check *)
Definition sched_check k : kernel A :=
  if negb (started k =? 0) then
    let k := set_cur_quantum_left (cur_quantum_left k - 1) k in
    if cur_quantum_left k <=? 0 then set_need_reschedule 1 k else k
  else k.

(** The condition of [sched_if_needed]. *)
(** src/sys/scheduler.c: sched_if_needed *)
Definition sched_needed k : bool :=
  negb (started k =? 0) && negb (need_reschedule k =? 0) && (preempt_level k <=? 0).

(** src/sys/scheduler.c: sched_preempt_block *)
Definition sched_preempt_block k : kernel A := set_preempt_level (preempt_level k + 1) k.

(** src/sys/scheduler.c: sched_preempt_unblock *)
Definition sched_preempt_unblock k : kernel A :=
  let k := set_preempt_level (preempt_level k - 1) k in
  if preempt_level k <? 0 then set_preempt_level 0 k else k.

(** src/sys/scheduler.c: sched_preempt_level *)
Definition sched_preempt_level k : Z := preempt_level k.

(** src/sys/scheduler.c: sched_wake_up *)
Definition sched_wake_up (proc : ptr) k : kernel A :=
  if (state (k_procs k proc) =? PROCESS_STATE_INTERRUPTIBLE)
     || (state (k_procs k proc) =? PROCESS_STATE_UNINTERRUPTIBLE)
  then upd_proc proc (set_state PROCESS_STATE_RUNNING) k else k.

(** src/sys/scheduler.c: sched_stop_proc *)
Definition sched_stop_proc (proc : ptr) (sig : Z) k : kernel A :=
  let k := upd_proc proc (set_state PROCESS_STATE_STOPPED) k in
  if proc =? proc_current k then set_need_reschedule 1 k else k.

(** src/sys/scheduler.c: sched_cont_proc *)
Definition sched_cont_proc (proc : ptr) k : kernel A :=
  sched_wake_up proc (upd_proc proc (set_state PROCESS_STATE_RUNNING) k).

(** The loop of [sched_find_pid] over the slots. *)
(** src/sys/scheduler.c:220-223: sched_find_pid *)
Fixpoint find_pid_in k (pid' : Z) (slots : list ptr) : ptr :=
  match slots with
  | [] => NULL
  | t :: slots => if negb (t =? NULL) && (pid (k_procs k t) =? pid') then t else find_pid_in k pid' slots
  end.

(** src/sys/scheduler.c: sched_find_pid *)
Definition sched_find_pid (pid' : Z) k : ptr := find_pid_in k pid' (tasks k).

(** src/sys/process.c: process_from_pid *)
Definition process_from_pid (pid' : Z) k : ptr :=
  if pid' =? 0 then proc_idle_task else sched_find_pid pid' k.
End ops.

(** ** Invariant *)

(** The task table has its size and the current slot is in range (-1 before the
    first choice). *)
Definition sched_wf {A} (k : kernel A) : Prop :=
  length (tasks k) = 10%nat ∧ -1 ≤ cur_task k < 10.

(** The task in slot [s]. *)
Abbreviation slot k s := (aget (tasks k) s) (only parsing).

(** ** Lemmas *)

Section lemmas.
Context {A : Type}.
Implicit Types (k : kernel A).

Lemma rem_slot k i : sched_wf k → 1 ≤ i ≤ 10 → Z.rem (i + cur_task k) SCHED_MAX_TASKS = (i + cur_task k) mod 10.
Proof. intros [_ Hc] Hi. unfold SCHED_MAX_TASKS. rewrite Z.rem_mod_nonneg by lia. done. Qed.

(** The loop stops on the first runnable slot after the current one. *)
Lemma search_next_spec k :
  sched_wf k →
  (search_next k = 11 ∧ ∀ s, 0 ≤ s < 10 → runnable k (slot k s) = false) ∨
  (1 ≤ search_next k ≤ 10 ∧ runnable k (slot k ((search_next k + cur_task k) mod 10)) = true ∧
   ∀ i, 1 ≤ i < search_next k → runnable k (slot k ((i + cur_task k) mod 10)) = false).
Proof.
  intros Hwf. unfold search_next.
  set (f := λ i, runnable k (slot k (Z.rem (i + cur_task k) SCHED_MAX_TASKS))).
  set (n := scan f (seqZ 1 SCHED_MAX_TASKS)).
  assert (Hlen : length (seqZ 1 SCHED_MAX_TASKS) = 10%nat) by done.
  assert (Hlk : ∀ j, (j < 10)%nat → seqZ 1 SCHED_MAX_TASKS !! j = Some (1 + Z.of_nat j)).
  { intros j Hj. apply lookup_seqZ. unfold SCHED_MAX_TASKS. lia. }
  assert (Hf : ∀ i, 1 ≤ i ≤ 10 → f i = runnable k (slot k ((i + cur_task k) mod 10))).
  { intros i Hi. unfold f. by rewrite rem_slot. }
  pose proof (scan_le f (seqZ 1 SCHED_MAX_TASKS)) as Hle. rewrite Hlen in Hle. fold n in Hle.
  destruct (decide (n = 10%nat)) as [He|Hne].
  - left. split; [lia|]. intros s Hs. rewrite <- Hlen in He. apply scan_end in He. rewrite Forall_forall in He.
    destruct Hwf as [_ Hc]. set (i := (s - cur_task k - 1) mod 10 + 1).
    assert (Hi : 1 ≤ i ≤ 10) by (pose proof (Z.mod_pos_bound (s - cur_task k - 1) 10); lia).
    specialize (He i). rewrite Hf in He by done.
    assert (Hsi : (i + cur_task k) mod 10 = s).
    { unfold i. replace ((s - cur_task k - 1) mod 10 + 1 + cur_task k)
        with ((s - cur_task k - 1) mod 10 + (1 + cur_task k)) by lia.
      rewrite Zplus_mod_idemp_l. replace (s - cur_task k - 1 + (1 + cur_task k)) with s by lia.
      apply Z.mod_small. lia. }
    rewrite Hsi in He. apply He. apply elem_of_seqZ. unfold SCHED_MAX_TASKS. lia.
  - right. split; [lia|]. split.
    + destruct (scan_stop f (seqZ 1 SCHED_MAX_TASKS)) as (x & Hx & Hfx); [fold n; lia|].
      fold n in Hx. rewrite Hlk in Hx by lia. simplify_eq. by rewrite Hf in Hfx by lia.
    + intros i Hi. rewrite <- Hf by lia.
      apply (scan_before f (seqZ 1 SCHED_MAX_TASKS) (Z.to_nat (i - 1))); [fold n; lia|].
      rewrite Hlk by lia. f_equal. lia.
Qed.

Lemma choose_next_spec k :
  sched_wf k →
  let '(k', t) := choose_next k in
  sched_wf k' ∧ tasks k' = tasks k ∧ k_procs k' = k_procs k ∧
  need_reschedule k' = 0 ∧ cur_quantum_left k' = SCHED_QUANTUM_TICKS ∧
  ((t = proc_idle_task ∧ cur_task k' = cur_task k ∧ ∀ s, 0 ≤ s < 10 → runnable k (slot k s) = false) ∨
   (∃ d, 1 ≤ d ≤ 10 ∧ cur_task k' = (cur_task k + d) mod 10 ∧ t = slot k (cur_task k') ∧ runnable k t = true ∧
      ∀ i, 1 ≤ i < d → runnable k (slot k ((cur_task k + i) mod 10)) = false)).
Proof.
  intros Hwf. unfold choose_next. cbn zeta. pose proof Hwf as [Hl Hc].
  destruct (search_next_spec k Hwf) as [[He Hn]|(Hr & Hrun & Hbef)].
  - rewrite He. simpl. split_and!; try done. left. by split_and!.
  - destruct (Z.leb_spec (search_next k) SCHED_MAX_TASKS) as [_|]; [|unfold SCHED_MAX_TASKS in *; lia].
    simpl. rewrite rem_slot by done. pose proof (Z.mod_pos_bound (search_next k + cur_task k) 10) as Hb.
    split; [split; simpl; [done|lia]|]. split_and!; try done.
    right. exists (search_next k). rewrite (Z.add_comm (cur_task k)). split_and!; try done; try lia.
    intros i Hi. rewrite (Z.add_comm (cur_task k)). by apply Hbef.
Qed.
End lemmas.

(** ** Properties *)

(** The scheduler jumps to the first runnable task found going round the table from
    the slot after the current one, and to the idle task exactly when no task
    is runnable; the quantum is restarted and the pending request cleared. *)
Theorem round_robin_choice {A} (k : kernel A) :
  sched_wf k →
  let '(k', t) := choose_next k in
  need_reschedule k' = 0 ∧ cur_quantum_left k' = SCHED_QUANTUM_TICKS ∧
  ((t = proc_idle_task ∧ ∀ s, 0 ≤ s < 10 → runnable k (aget (tasks k) s) = false) ∨
   (∃ d, 1 ≤ d ≤ 10 ∧ cur_task k' = (cur_task k + d) mod 10 ∧ t = aget (tasks k) (cur_task k') ∧
      runnable k t = true ∧ ∀ i, 1 ≤ i < d → runnable k (aget (tasks k) ((cur_task k + i) mod 10)) = false)).
Proof.
  intros Hwf. pose proof (choose_next_spec k Hwf) as Hs. destruct (choose_next k) as [k' t].
  destruct Hs as (_ & _ & _ & Hn & Hq & [(Ht & _ & Hi)|Hd]); split_and!; try done; [by left|by right].
Qed.

(** Three tasks, of which the second sleeps; slot 0 is current. *)
Definition demo_sched : kernel unit :=
  let k := set_tasks [16; 32; 48; 0; 0; 0; 0; 0; 0; 0] (zero_kernel tt) in
  let k := upd_proc 16 (set_state PROCESS_STATE_RUNNING) k in
  let k := upd_proc 32 (set_state PROCESS_STATE_INTERRUPTIBLE) k in
  set_started 1 (upd_proc 48 (set_state PROCESS_STATE_RUNNING) k).

Lemma demo_sched_wf : sched_wf demo_sched.
Proof. split; [done|simpl; lia]. Qed.

Lemma round_robin_choice_witness : (choose_next demo_sched).2 = 48 ∧ need_reschedule (choose_next demo_sched).1 = 0.
Proof.
  split; [reflexivity|]. pose proof (round_robin_choice demo_sched demo_sched_wf) as H.
  destruct (choose_next demo_sched) as [k' t]. apply H.
Defined.

Section fairness.
Context {A : Type} (ks : nat → kernel A) (s : Z).
Context (Hs : 0 ≤ s < 10) (Hwf : ∀ i, sched_wf (ks i)).
Context (Hrun : ∀ i, runnable (ks i) (slot (ks i) s) = true).
Context (Hnext : ∀ i, cur_task (ks (S i)) = cur_task (choose_next (ks i)).1).

(** The number of slots from the current one to slot [s], between 1 and 10. *)
Let dist (i : nat) : Z := (s - cur_task (ks i) - 1) mod 10 + 1.

Lemma dist_step i :
  cur_task (choose_next (ks i)).1 = s ∨ (1 ≤ dist (S i) < dist i).
Proof.
  pose proof (choose_next_spec (ks i) (Hwf i)) as Hc. pose proof (Hnext i) as Hn.
  destruct (choose_next (ks i)) as [k' t]. cbn [fst] in *.
  destruct Hc as (_ & _ & _ & _ & _ & [(_ & _ & Hnone)|(d & Hd & Hcur & _ & _ & Hbef)]).
  { specialize (Hnone s Hs). by rewrite Hrun in Hnone. }
  destruct (Hwf i) as [_ Hci]. set (c := cur_task (ks i)) in *.
  assert (Hdi : 1 ≤ dist i ≤ 10 ∧ (c + dist i) mod 10 = s).
  { unfold dist. fold c. pose proof (Z.mod_pos_bound (s - c - 1) 10). split; [lia|].
    replace (c + ((s - c - 1) mod 10 + 1)) with ((s - c - 1) mod 10 + (c + 1)) by lia.
    rewrite Zplus_mod_idemp_l. replace (s - c - 1 + (c + 1)) with s by lia. apply Z.mod_small. lia. }
  destruct Hdi as [Hdi Hds].
  assert (Hle : d ≤ dist i).
  { destruct (decide (d ≤ dist i)) as [|Hgt]; [done|]. specialize (Hbef (dist i) ltac:(lia)).
    by rewrite Hds, Hrun in Hbef. }
  destruct (decide (d = dist i)) as [->|Hne]; [left; by rewrite Hcur|right].
  unfold dist at 1 2. rewrite Hn, Hcur. pose proof (Z.mod_pos_bound (s - (c + d) mod 10 - 1) 10).
  split; [lia|]. replace (s - (c + d) mod 10 - 1) with (s - 1 - (c + d) mod 10) by lia. rewrite Zminus_mod_idemp_r.
  assert (Hmod : (s - 1 - (c + d)) mod 10 = dist i - 1 - d).
  { rewrite <- Hds. replace ((c + dist i) mod 10 - 1 - (c + d)) with ((c + dist i) mod 10 + (-1 - (c + d))) by lia.
    rewrite Zplus_mod_idemp_l. replace (c + dist i + (-1 - (c + d))) with (dist i - 1 - d) by lia.
    apply Z.mod_small. lia. }
  rewrite Hmod. lia.
Qed.

Lemma chosen_within n i : dist i ≤ Z.of_nat n → ∃ j, (i ≤ j < i + n)%nat ∧ cur_task (choose_next (ks j)).1 = s.
Proof.
  revert i. induction n as [|n IH]; intros i Hd.
  - unfold dist in Hd. pose proof (Z.mod_pos_bound (s - cur_task (ks i) - 1) 10). lia.
  - destruct (dist_step i) as [Hc|Hlt]; [exists i; split; [lia|done]|].
    destruct (IH (S i)) as (j & Hj & Hc); [lia|]. exists j. split; [lia|done].
Qed.
End fairness.

(** C11: no starvation: while a task stays runnable in its slot, whatever happens to
    the others between two choices, one of any [SCHED_MAX_TASKS] successive
    choices of the scheduler is that task. *)
Theorem round_robin_fair {A} (ks : nat → kernel A) s i :
  0 ≤ s < 10 → (∀ j, sched_wf (ks j)) → (∀ j, runnable (ks j) (aget (tasks (ks j)) s) = true) →
  (∀ j, cur_task (ks (S j)) = cur_task (choose_next (ks j)).1) →
  ∃ j, (i ≤ j < i + 10)%nat ∧ (choose_next (ks j)).2 = aget (tasks (ks j)) s.
Proof.
  intros Hs Hwf Hrun Hnext.
  destruct (chosen_within ks s Hs Hwf Hrun Hnext 10 i) as (j & Hj & Hc).
  { pose proof (Z.mod_pos_bound (s - cur_task (ks i) - 1) 10). lia. }
  exists j. split; [done|]. pose proof (choose_next_spec (ks j) (Hwf j)) as Hsp.
  destruct (choose_next (ks j)) as [k' t]. cbn [fst snd] in *.
  destruct Hsp as (_ & _ & _ & _ & _ & [(_ & _ & Hnone)|(d & _ & _ & -> & _)]); [|by rewrite Hc].
  specialize (Hnone s Hs). by rewrite Hrun in Hnone.
Qed.

Lemma round_robin_fair_witness :
  ∃ j, (5 ≤ j < 15)%nat ∧
    (choose_next (Nat.iter j (λ k, (choose_next k).1) demo_sched)).2 =
    aget (tasks (Nat.iter j (λ k, (choose_next k).1) demo_sched)) 2.
Proof.
  assert (Hinv : ∀ j, let k := Nat.iter j (λ k, (choose_next k).1) demo_sched in
    sched_wf k ∧ tasks k = tasks demo_sched ∧ k_procs k = k_procs demo_sched).
  { induction j as [|j (Hwf & Ht & Hp)]; [split; [apply demo_sched_wf|done]|].
    pose proof (choose_next_spec _ Hwf) as Hs. cbn zeta in *.
    change (Nat.iter (S j) (λ k, (choose_next k).1) demo_sched) with
      (choose_next (Nat.iter j (λ k, (choose_next k).1) demo_sched)).1.
    destruct (choose_next _) as [k' t]. cbn [fst]. destruct Hs as (Hwf' & Ht' & Hp' & _).
    by rewrite Ht', Hp', Ht, Hp. }
  apply (round_robin_fair (λ j, Nat.iter j (λ k, (choose_next k).1) demo_sched) 2 5).
  - lia.
  - intros j. apply Hinv.
  - intros j. destruct (Hinv j) as (_ & Ht & Hp). unfold runnable. rewrite Ht, Hp. reflexivity.
  - intros j. reflexivity.
Defined.

(** Preemption: after a task is chosen the clock ticks leave it running for
    [SCHED_QUANTUM_TICKS] - 1 ticks and request rescheduling at the
    [SCHED_QUANTUM_TICKS]-th, and at every later one. *)
Theorem quantum_expires {A} (k : kernel A) n :
  started k ≠ 0 →
  need_reschedule (Nat.iter n sched_check (choose_next k).1) = if (n <? 4)%nat then 0 else 1.
Proof.
  intros Hst.
  assert (H0 : started (choose_next k).1 = started k ∧ need_reschedule (choose_next k).1 = 0 ∧
    cur_quantum_left (choose_next k).1 = 4) by (unfold choose_next; cbn zeta; by case_match).
  destruct H0 as (H1 & H2 & H3). set (k0 := (choose_next k).1) in *. rewrite <- H1 in Hst. clearbody k0. clear H1 k.
  assert (Hg : ∀ n, let k' := Nat.iter n sched_check k0 in
    started k' = started k0 ∧ cur_quantum_left k' = 4 - Z.of_nat n ∧ need_reschedule k' = if (n <? 4)%nat then 0 else 1).
  { clear n. induction n as [|n (I1 & I2 & I3)]; cbn zeta; [split_and!; [done|simpl; lia|done]|].
    change (Nat.iter (S n) sched_check k0) with (sched_check (Nat.iter n sched_check k0)).
    set (kn := Nat.iter n sched_check k0) in *. unfold sched_check. rewrite I1.
    destruct (Z.eqb_spec (started k0) 0); [done|]. cbn [negb]. cbn zeta. simpl (cur_quantum_left (set_cur_quantum_left _ _)).
    rewrite I2. destruct (Z.leb_spec (4 - Z.of_nat n - 1) 0) as [Hle|Hgt]; simpl; (split_and!; [done|lia|]).
    - destruct (Nat.ltb_spec (S n) 4); [lia|done].
    - rewrite I3. destruct (Nat.ltb_spec n 4), (Nat.ltb_spec (S n) 4); lia. }
  apply Hg.
Qed.

Lemma quantum_expires_witness :
  started demo_sched ≠ 0 ∧ need_reschedule (Nat.iter 4 sched_check (choose_next demo_sched).1) = 1.
Proof. split; [done|]. apply (quantum_expires demo_sched 4). done. Defined.
