(* ===== verification/VfsCache.v ===== *)
(** * Inode cache (src/fs/vfs_cache.c)

    Cached inodes are kept in a hash table keyed by file-system instance and node
    number, with chaining through the entries.  The file models the table on the
    heap of inodes and relates it to the finite map it implements. *)

From S2P Require Import Prelude PhysMem PoolAlloc KMem Kernel.

(** ** Model *)

(** src/fs/vfs_cache.c:24-24: VFS_CACHE_HASHTABLE_SIZE *)
Definition VFS_CACHE_HASHTABLE_SIZE : Z := 31.

(** src/fs/vfs_cache.c: VFS_CACHE_HASH *)
Definition VFS_CACHE_HASH (inst : ptr) (nodeid : Z) : Z :=
  Z.rem (Z.land (Z.lxor (Z.lxor (Z.shiftr inst 16) inst) (Z.lxor (Z.shiftr nodeid 16) nodeid)) 0xFFFF)
        VFS_CACHE_HASHTABLE_SIZE.

Section ops.
Context {A : Type} `{!KMem A}.
Implicit Types (k : kernel A).

(** src/fs/vfs_cache.c: vfs_cache_init *)
Definition vfs_cache_init k : kernel A :=
  set_hash_head (foldl (λ t i, <[i := NULL]> t) (hash_head k) (seq 0 (Z.to_nat VFS_CACHE_HASHTABLE_SIZE))) k.

(** The condition of the search loops: this entry has the key. *)
(** src/fs/vfs_cache.c:57-57: vfs_cache_find *)
Definition has_key k (inst : ptr) (nodeid : Z) (e : ptr) : bool :=
  (i_fs (k_inodes k e) =? inst) && (i_node (k_inodes k e) =? nodeid).

(** src/fs/vfs_cache.c:57-60: vfs_cache_find *)
Fixpoint cache_search (fuel : nat) k (inst : ptr) (nodeid : Z) (cur : ptr) : option ptr :=
  if negb (cur =? NULL) && negb (has_key k inst nodeid cur) then
    match fuel with O => None | S fuel => cache_search fuel k inst nodeid (i_next (k_inodes k cur)) end
  else Some cur.

(** src/fs/vfs_cache.c: vfs_cache_find *)
Definition vfs_cache_find (fuel : nat) (inst : ptr) (nodeid : Z) k : option ptr :=
  cache_search fuel k inst nodeid (aget (hash_head k) (VFS_CACHE_HASH inst nodeid)).

(** src/fs/vfs_cache.c: vfs_cache_alloc *)
Definition vfs_cache_alloc (inst : ptr) (nodeid : Z) k : option (ptr * kernel A) :=
  '(ret, a) ← km_alloc PInode (k_mem k);
  let k := set_k_mem a k in
  if negb (ret =? NULL) then
    let hash := VFS_CACHE_HASH inst nodeid in
    let k := upd_inode ret (set_i_next (aget (hash_head k) hash)) k in
    Some (ret, set_hash_head (aset (hash_head k) hash ret) k)
  else Some (ret, k).

(** The search of [vfs_cache_remove]: the final [prev] and [cur]. *)
(** src/fs/vfs_cache.c:92-96: vfs_cache_remove *)
Fixpoint remove_search (fuel : nat) k (inst : ptr) (nodeid : Z) (prev cur : ptr) : option (ptr * ptr) :=
  if negb (cur =? NULL) && negb (has_key k inst nodeid cur) then
    match fuel with O => None | S fuel => remove_search fuel k inst nodeid cur (i_next (k_inodes k cur)) end
  else Some (prev, cur).

(** src/fs/vfs_cache.c: vfs_cache_remove *)
Definition vfs_cache_remove (fuel : nat) (inst : ptr) (nodeid : Z) k : option (kernel A) :=
  let hash := VFS_CACHE_HASH inst nodeid in
  '(prev, cur) ← remove_search fuel k inst nodeid NULL (aget (hash_head k) hash);
  if negb (cur =? NULL) then
    let k := if negb (prev =? NULL) then upd_inode prev (set_i_next (i_next (k_inodes k cur))) k
             else set_hash_head (aset (hash_head k) hash (i_next (k_inodes k cur))) k in
    a ← km_free PInode cur (k_mem k);
    Some (set_k_mem a k)
  else Some k.
End ops.

(** ** Representation *)

Section rep.
Context {A : Type} `{!KMem A}.
Implicit Types (k : kernel A) (buckets : list (list ptr)).

Definition nexts k : ptr → Z := λ e, i_next (k_inodes k e).

(** Bucket [h] of the table is the list [buckets !! h]; every entry is in the
    bucket of its key and no key occurs twice. *)
Definition cache_rep k buckets : Prop :=
  length (hash_head k) = 31%nat ∧ length buckets = 31%nat ∧
  (∀ h l, buckets !! h = Some l → chain (nexts k) (aget (hash_head k) (Z.of_nat h)) l) ∧
  NoDup (concat buckets) ∧
  (∀ h l e, buckets !! h = Some l → e ∈ l → VFS_CACHE_HASH (i_fs (k_inodes k e)) (i_node (k_inodes k e)) = Z.of_nat h) ∧
  (∀ e e', e ∈ concat buckets → e' ∈ concat buckets → i_fs (k_inodes k e) = i_fs (k_inodes k e') →
     i_node (k_inodes k e) = i_node (k_inodes k e') → e = e').

(** ** Lemmas *)

Lemma cache_hash_range inst node : 0 ≤ VFS_CACHE_HASH inst node < 31.
Proof.
  unfold VFS_CACHE_HASH, VFS_CACHE_HASHTABLE_SIZE. change 0xFFFF with (Z.ones 16). rewrite Z.land_ones by lia.
  set (x := Z.lxor _ _). pose proof (Z.mod_pos_bound x (2 ^ 16)). rewrite Z.rem_mod_nonneg by lia.
  apply Z.mod_pos_bound. lia.
Qed.

Lemma has_key_iff k inst node e :
  has_key k inst node e = true ↔ i_fs (k_inodes k e) = inst ∧ i_node (k_inodes k e) = node.
Proof. unfold has_key. by rewrite andb_true_iff, !Z.eqb_eq. Qed.

(** The search along a chain, by cases on whether an entry has the key. *)
Lemma remove_search_spec fuel k inst node prev cur l :
  chain (nexts k) cur l → (length l ≤ fuel)%nat →
  (Forall (λ e, has_key k inst node e = false) l ∧ ∃ p, remove_search fuel k inst node prev cur = Some (p, NULL)) ∨
  (∃ l1 e l2, l = l1 ++ e :: l2 ∧ Forall (λ e, has_key k inst node e = false) l1 ∧ has_key k inst node e = true ∧
     remove_search fuel k inst node prev cur = Some (default prev (last l1), e)).
Proof.
  revert fuel prev cur. induction l as [|x l IH]; intros fuel prev cur Hc Hf; simpl in Hc.
  - subst cur. left. split; [done|]. exists prev. by destruct fuel.
  - destruct Hc as (-> & Hx & Hc). destruct (has_key k inst node x) eqn:Hk.
    + right. exists [], x, l. split_and!; try done. destruct fuel; simpl; rewrite Hk, andb_false_r; done.
    + destruct fuel as [|fuel]; simpl in Hf; [lia|]. simpl. rewrite Hk.
      destruct (Z.eqb_spec x NULL); [done|]. simpl.
      destruct (IH fuel x _ Hc ltac:(lia)) as [[Hall (p & Hp)]|(l1 & e & l2 & -> & Hall & He & Hp)].
      * left. split; [by constructor|]. by exists p.
      * right. exists (x :: l1), e, l2. split_and!; try done; [by constructor|]. unfold nexts in Hp. rewrite Hp.
        destruct l1 as [|y l1 _] using rev_ind; [done|]. by rewrite app_comm_cons, !last_snoc.
Qed.

Lemma cache_search_remove fuel k inst node prev cur :
  cache_search fuel k inst node cur = snd <$> remove_search fuel k inst node prev cur.
Proof.
  revert prev cur. induction fuel as [|fuel IH]; intros prev cur; simpl; destruct (_ && _); done.
Qed.

Lemma bucket_of k buckets inst node :
  cache_rep k buckets →
  ∃ l, buckets !! Z.to_nat (VFS_CACHE_HASH inst node) = Some l ∧
    chain (nexts k) (aget (hash_head k) (VFS_CACHE_HASH inst node)) l ∧ (length l ≤ length (concat buckets))%nat.
Proof.
  intros (Hl & Hb & Hc & _). pose proof (cache_hash_range inst node) as Hh.
  destruct (lookup_lt_is_Some_2 buckets (Z.to_nat (VFS_CACHE_HASH inst node))) as [l Hlk]; [lia|]. exists l.
  split; [done|]. specialize (Hc _ _ Hlk). rewrite Z2Nat.id in Hc by lia. split; [done|].
  apply list_elem_of_lookup_2 in Hlk. apply list_elem_of_split in Hlk as (b1 & b2 & ->).
  rewrite concat_app. simpl. rewrite !length_app. lia.
Qed.

Lemma elem_concat_lookup buckets h l e : buckets !! h = Some l → e ∈ l → e ∈ concat buckets.
Proof.
  intros Hl He. apply list_elem_of_In, in_concat. exists l.
  split; apply list_elem_of_In; [by eapply list_elem_of_lookup_2|done].
Qed.

(** An entry of the table with a given key is in the bucket of that key. *)
Lemma elem_concat_bucket k buckets e :
  cache_rep k buckets → e ∈ concat buckets →
  ∃ l, buckets !! Z.to_nat (VFS_CACHE_HASH (i_fs (k_inodes k e)) (i_node (k_inodes k e))) = Some l ∧ e ∈ l.
Proof.
  intros (_ & _ & _ & _ & Hh & _) He. apply list_elem_of_In, in_concat in He as (l & Hl & He).
  apply list_elem_of_In in Hl, He. apply list_elem_of_lookup in Hl as [h Hl]. exists l.
  rewrite (Hh h l e Hl He), Nat2Z.id. done.
Qed.

Lemma cache_find_spec fuel k buckets inst node :
  cache_rep k buckets → (length (concat buckets) ≤ fuel)%nat →
  ∃ r, vfs_cache_find fuel inst node k = Some r ∧
    ((r = NULL ∧ ∀ e, e ∈ concat buckets → has_key k inst node e = false) ∨
     (r ∈ concat buckets ∧ r ≠ NULL ∧ has_key k inst node r = true)).
Proof.
  intros Hrep Hf. destruct (bucket_of k buckets inst node Hrep) as (l & Hl & Hc & Hlen).
  unfold vfs_cache_find. rewrite (cache_search_remove _ _ _ _ NULL).
  destruct (remove_search_spec fuel k inst node NULL (aget (hash_head k) (VFS_CACHE_HASH inst node)) l Hc ltac:(lia)) as [[Hall (p & ->)]|(l1 & e & l2 & -> & _ & He & ->)]; simpl.
  - exists NULL. split; [done|]. left. split; [done|]. intros e He.
    destruct (has_key k inst node e) eqn:Hk; [|done]. exfalso.
    destruct (elem_concat_bucket k buckets e Hrep He) as (l' & Hl' & Hel).
    apply has_key_iff in Hk as Hk'. destruct Hk' as [<- <-]. rewrite Hl' in Hl. simplify_eq.
    rewrite Forall_forall in Hall. specialize (Hall e Hel). congruence.
  - exists e. split; [done|]. right. split; [eapply elem_concat_lookup; [exact Hl|apply elem_of_mid]|]. split; [|done].
    assert (Hnz : ∀ x, x ∈ l1 ++ e :: l2 → x ≠ NULL).
    { clear -Hc. revert Hc. generalize (aget (hash_head k) (VFS_CACHE_HASH inst node)) as c. generalize (l1 ++ e :: l2) as l.
      induction l as [|x l IH]; intros c; simpl; [set_solver|]. intros (-> & Hx & Hc) y [->|Hy]%elem_of_cons; [done|eauto]. }
    apply Hnz, elem_of_mid.
Qed.

Lemma chain_unlink_mid (nx : ptr → Z) f l1 p e l2 :
  chain nx f ((l1 ++ [p]) ++ e :: l2) → NoDup ((l1 ++ [p]) ++ e :: l2) →
  chain (fset nx p (nx e)) f ((l1 ++ [p]) ++ l2).
Proof.
  revert f. induction l1 as [|x l1 IH]; intros f; simpl.
  - intros (-> & Hp & _ & He & Hc) [Hpn Hnd]%NoDup_cons. split_and!; [done..|]. rewrite fset_eq.
    eapply chain_frame; [|exact Hc]. intros x Hx. apply fset_ne. intros ->. apply Hpn. by right.
  - intros (-> & Hx & Hc) [Hxn Hnd]%NoDup_cons. split_and!; [done..|]. rewrite fset_ne; [by apply IH|].
    intros ->. apply Hxn. apply elem_of_app. left. apply elem_of_app. right. apply list_elem_of_here.
Qed.

Lemma chain_skip (nx : ptr → Z) f e l2 : chain nx f (e :: l2) → chain nx (nx e) l2.
Proof. simpl. tauto. Qed.

(** The inodes differ from those of [k] in their links only. *)
Definition same_keys k k' : Prop :=
  ∀ e, i_fs (k_inodes k' e) = i_fs (k_inodes k e) ∧ i_node (k_inodes k' e) = i_node (k_inodes k e) ∧
    set_i_next 0 (k_inodes k' e) = set_i_next 0 (k_inodes k e).

Lemma same_keys_has k k' inst node e : same_keys k k' → has_key k' inst node e = has_key k inst node e.
Proof. intros Hs. unfold has_key. by destruct (Hs e) as (-> & -> & _). Qed.

Lemma concat_insert buckets h l l' :
  buckets !! h = Some l → ∃ b1 b2, buckets = b1 ++ l :: b2 ∧ <[h := l']> buckets = b1 ++ l' :: b2 ∧ length b1 = h.
Proof.
  intros Hl. apply list_elem_of_split_length in Hl as (b1 & b2 & -> & ->). exists b1, b2. split_and!; try done.
  rewrite insert_app_r_alt by lia. by rewrite Nat.sub_diag.
Qed.

(** Replacing the bucket [h] of a table by a sublist of it, with its chain. *)
Lemma cache_rep_shrink k k' buckets h l1 e l2 :
  cache_rep k buckets → buckets !! h = Some (l1 ++ e :: l2) → same_keys k k' →
  length (hash_head k') = 31%nat →
  chain (nexts k') (aget (hash_head k') (Z.of_nat h)) (l1 ++ l2) →
  (∀ h' l, h' ≠ h → buckets !! h' = Some l → chain (nexts k') (aget (hash_head k') (Z.of_nat h')) l) →
  cache_rep k' (<[h := l1 ++ l2]> buckets) ∧
  (∀ x, x ∈ concat (<[h := l1 ++ l2]> buckets) ↔ x ∈ concat buckets ∧ x ≠ e).
Proof.
  intros (Hl & Hb & Hc & Hnd & Hh & Hu) Hlk Hs Hl' Hch Hoth.
  destruct (concat_insert buckets h _ (l1 ++ l2) Hlk) as (b1 & b2 & Hbk & Hins & Hlen).
  assert (Hperm : concat buckets ≡ₚ e :: concat (<[h := l1 ++ l2]> buckets)).
  { rewrite Hins, Hbk, !concat_app. simpl. rewrite <- !app_assoc. simpl.
    rewrite (Permutation_middle (concat b1)), <- (Permutation_middle l1). by rewrite <- Permutation_middle. }
  assert (Hnd' := Hnd). rewrite Hperm in Hnd'. apply NoDup_cons in Hnd' as [Hen Hnd'].
  assert (Hiff : ∀ x, x ∈ concat (<[h := l1 ++ l2]> buckets) ↔ x ∈ concat buckets ∧ x ≠ e).
  { intros x. rewrite Hperm, elem_of_cons. split; [intros Hx; split; [by right|]; by intros ->|tauto]. }
  split; [|done]. split_and!; [done|by rewrite length_insert|..].
  - intros h' l Hl''. destruct (decide (h' = h)) as [->|Hne].
    + rewrite list_lookup_insert_eq in Hl'' by (by eapply lookup_lt_Some). by simplify_eq.
    + rewrite list_lookup_insert_ne in Hl'' by done. by apply Hoth.
  - done.
  - intros h' l x Hl'' Hx. destruct (Hs x) as (-> & -> & _). destruct (decide (h' = h)) as [->|Hne].
    + rewrite list_lookup_insert_eq in Hl'' by (by eapply lookup_lt_Some). injection Hl'' as <-.
      apply (Hh h _ x Hlk). rewrite elem_of_app in *. rewrite elem_of_cons. tauto.
    + rewrite list_lookup_insert_ne in Hl'' by done. by apply (Hh h' l).
  - intros x y Hx Hy. destruct (Hs x) as (-> & -> & _), (Hs y) as (-> & -> & _). apply Hiff in Hx as [Hx _]. apply Hiff in Hy as [Hy _].
    by apply Hu.
Qed.

Lemma bucket_disjoint buckets h h' l l' p :
  NoDup (concat buckets) → buckets !! h = Some l → buckets !! h' = Some l' → p ∈ l → p ∈ l' → h = h'.
Proof.
  revert h h'. induction buckets as [|b bs IH]; intros h h' Hnd Hl Hl' Hp Hp'; [done|].
  simpl in Hnd. apply NoDup_app in Hnd as (_ & Hd & Hnd). destruct h as [|h], h' as [|h']; simplify_eq/=.
  - done.
  - exfalso. apply (Hd p Hp). by eapply elem_concat_lookup.
  - exfalso. apply (Hd p Hp'). by eapply elem_concat_lookup.
  - f_equal. by eapply IH.
Qed.

Lemma chain_other k v p buckets h h' l l' :
  NoDup (concat buckets) → buckets !! h = Some l → p ∈ l → h' ≠ h → buckets !! h' = Some l' →
  ∀ f, chain (nexts k) f l' → chain (nexts (upd_inode p (set_i_next v) k)) f l'.
Proof.
  intros Hnd Hl Hp Hne Hl' f. apply chain_frame. intros x Hx. unfold nexts, upd_inode. simpl.
  rewrite fset_ne; [done|]. intros ->. by apply Hne, (bucket_disjoint buckets h' h l' l p).
Qed.

Lemma cache_remove_spec fuel k buckets inst node e L H F :
  cache_rep k buckets → (length (concat buckets) ≤ fuel)%nat → e ∈ concat buckets → has_key k inst node e = true →
  km_inv (k_mem k) ((PInode, e) :: L) H F →
  ∃ k' buckets', vfs_cache_remove fuel inst node k = Some k' ∧ cache_rep k' buckets' ∧ same_keys k k' ∧
    km_inv (k_mem k') L H F ∧ (∀ x, x ∈ concat buckets' ↔ x ∈ concat buckets ∧ x ≠ e).
Proof.
  intros Hrep Hf He Hk Hkm. pose proof Hrep as (Hl & Hb & Hc & Hnd & Hh & Hu).
  destruct (bucket_of k buckets inst node Hrep) as (l & Hlk & Hch & Hlen).
  pose proof (cache_hash_range inst node) as Hhr.
  set (h := Z.to_nat (VFS_CACHE_HASH inst node)) in *.
  assert (Hhz : VFS_CACHE_HASH inst node = Z.of_nat h) by (unfold h; lia).
  destruct (remove_search_spec fuel k inst node NULL (aget (hash_head k) (VFS_CACHE_HASH inst node)) l Hch ltac:(lia))
    as [[Hall _]|(l1 & e' & l2 & Hleq & Hl1 & He' & Hsr)].
  { exfalso. destruct (elem_concat_bucket k buckets e Hrep He) as (l' & Hl' & Hel).
    apply has_key_iff in Hk as Hk'. destruct Hk' as [Hk1 Hk2]. rewrite Hk1, Hk2 in Hl'. fold h in Hl'. rewrite Hlk in Hl'. injection Hl' as <-.
    rewrite Forall_forall in Hall. specialize (Hall e Hel). congruence. }
  subst l.
  assert (e' = e) as ->.
  { apply has_key_iff in Hk as [? ?], He' as [? ?]. apply Hu; [|done|congruence..].
    eapply elem_concat_lookup; [exact Hlk|apply elem_of_mid]. }
  assert (Henz : e ≠ NULL) by (apply (km_inv_nodup _ _ _ _ Hkm) with PInode; apply list_elem_of_here).
  assert (Hlnd : NoDup (l1 ++ e :: l2)).
  { revert Hnd. destruct (concat_insert buckets h _ [] Hlk) as (b1 & b2 & -> & _). rewrite concat_app. simpl.
    rewrite !NoDup_app. tauto. }
  unfold vfs_cache_remove. cbn zeta. rewrite Hsr. cbn [mbind option_bind].
  destruct (Z.eqb_spec e NULL); [done|]. cbn [negb].
  destruct (km_free_ok PInode e (k_mem k) L H F Hkm) as (a' & Hfree & Hkm').
  destruct l1 as [|p l1 _] using rev_ind.
  - cbn [last default]. cbn [negb]. simpl in Hsr. change (NULL =? NULL) with true. cbn [negb].
    change (k_mem (set_hash_head _ k)) with (k_mem k). rewrite Hfree. cbn [mbind option_bind].
    eexists _, (<[h := [] ++ l2]> buckets). split; [done|].
    destruct (cache_rep_shrink k (set_k_mem a' (set_hash_head (aset (hash_head k) (VFS_CACHE_HASH inst node) (i_next (k_inodes k e))) k))
      buckets h [] e l2 Hrep Hlk) as [Hrep' Hiff].
    + by intros x.
    + simpl. by rewrite aset_length.
    + simpl. rewrite Hhz, aget_aset_eq by lia. rewrite Hhz in Hch. by apply chain_skip in Hch.
    + intros h' l' Hne Hl'. simpl. rewrite Hhz, aget_aset_ne by lia. by apply Hc.
    + by split_and!.
  - rewrite last_snoc. cbn [from_option id].
    assert (Hpnz : p ≠ NULL).
    { rewrite Hhz in Hch. clear -Hch. revert Hch. generalize (aget (hash_head k) (Z.of_nat h)) as f.
      induction l1 as [|x l1 IH]; intros f; simpl; [tauto|]. intros (_ & _ & Hch). eauto. }
    destruct (Z.eqb_spec p NULL); [done|]. cbn [negb].
    change (k_mem (upd_inode p (set_i_next (i_next (k_inodes k e))) k)) with (k_mem k). rewrite Hfree. cbn [mbind option_bind].
    eexists _, (<[h := (l1 ++ [p]) ++ l2]> buckets). split; [done|].
    assert (Hsk : same_keys k (set_k_mem a' (upd_inode p (set_i_next (i_next (k_inodes k e))) k))).
    { intros x. unfold upd_inode. simpl. unfold fset. by destruct (Z.eqb_spec x p) as [->|]. }
    destruct (cache_rep_shrink k (set_k_mem a' (upd_inode p (set_i_next (i_next (k_inodes k e))) k))
      buckets h (l1 ++ [p]) e l2 Hrep Hlk Hsk) as [Hrep' Hiff].
    + done.
    + simpl. rewrite Hhz in Hch. pose proof (chain_unlink_mid (nexts k) _ l1 p e l2 Hch Hlnd) as Hch'.
      eapply chain_frame; [|exact Hch']. intros x _. unfold nexts, upd_inode. simpl. unfold fset. by destruct (x =? p).
    + intros h' l' Hne Hl'. simpl.
      apply (chain_other k (i_next (k_inodes k e)) p buckets h h' _ l' Hnd Hlk); [|done..|by apply Hc].
      apply elem_of_app. left. apply elem_of_app. right. apply list_elem_of_here.
    + by split_and!.
Qed.

(** Adding an entry: the allocation links it in the bucket of the key, and the
    file system then fills it ([g]), leaving its link alone. *)
Lemma cache_add_spec k buckets inst node L H F :
  cache_rep k buckets → (∀ e, e ∈ concat buckets → has_key k inst node e = false ∧ (PInode, e) ∈ L) →
  km_inv (k_mem k) L H F → F ≠ [] →
  ∃ ret k1 F', vfs_cache_alloc inst node k = Some (ret, k1) ∧ ret ≠ NULL ∧ ret ∉ concat buckets ∧
    km_inv (k_mem k1) ((PInode, ret) :: L) H F' ∧ (length F ≤ S (length F'))%nat ∧
    ∀ g, (∀ i, i_next (g i) = i_next i ∧ i_fs (g i) = inst ∧ i_node (g i) = node) →
      let k2 := upd_inode ret g k1 in
      ∃ buckets', cache_rep k2 buckets' ∧ (∀ x, x ∈ concat buckets' ↔ x = ret ∨ x ∈ concat buckets) ∧
        has_key k2 inst node ret = true ∧
        (∀ e, e ≠ ret → k_inodes k2 e = k_inodes k e).
Proof.
  intros Hrep Hall Hkm HF. pose proof Hrep as (Hl & Hb & Hc & Hnd & Hh & Hu).
  destruct (km_alloc_ok PInode (k_mem k) L H F Hkm HF) as (ret & a' & F' & Ha & Hrn & Hnew & Hkm' & HlenF).
  unfold vfs_cache_alloc. rewrite Ha. cbn [mbind option_bind]. destruct (Z.eqb_spec ret NULL); [done|]. cbn [negb]. cbn zeta.
  assert (Hrb : ret ∉ concat buckets) by (intros Hin; apply (Hnew PInode), Hall, Hin).
  eexists ret, _, F'. split; [done|]. split; [done|]. split; [done|]. split; [done|]. split; [done|]. intros g Hg.
  pose proof (cache_hash_range inst node) as Hhr. set (h := Z.to_nat (VFS_CACHE_HASH inst node)).
  assert (Hhz : VFS_CACHE_HASH inst node = Z.of_nat h) by (unfold h; lia).
  destruct (lookup_lt_is_Some_2 buckets h) as [l Hlk]; [lia|].
  destruct (concat_insert buckets h l (ret :: l) Hlk) as (b1 & b2 & Hbk & Hins & Hlen).
  assert (Hperm : concat (<[h := ret :: l]> buckets) ≡ₚ ret :: concat buckets).
  { rewrite Hins, Hbk, !concat_app. simpl. by rewrite <- Permutation_middle. }
  set (k1 := set_hash_head _ _). cbn zeta. set (k2 := upd_inode ret g k1).
  assert (Hsame : ∀ e, e ≠ ret → k_inodes k2 e = k_inodes k e).
  { intros e He. unfold k2, k1, upd_inode. simpl. by rewrite !fset_ne. }
  assert (Hret : i_next (k_inodes k2 ret) = aget (hash_head k) (Z.of_nat h) ∧ i_fs (k_inodes k2 ret) = inst ∧ i_node (k_inodes k2 ret) = node).
  { unfold k2, k1, upd_inode. simpl. rewrite !fset_eq. destruct (Hg (set_i_next (aget (hash_head k) (VFS_CACHE_HASH inst node)) (k_inodes k ret))) as (-> & -> & ->).
    rewrite Hhz. done. }
  destruct Hret as (Hrnx & Hrfs & Hrnode).
  assert (Hkey : ∀ e, e ∈ concat buckets → i_fs (k_inodes k e) = inst → i_node (k_inodes k e) = node → False).
  { intros e He H1 H2. destruct (Hall e He) as [Hk _]. rewrite (proj2 (has_key_iff k inst node e)) in Hk; done. }
  exists (<[h := ret :: l]> buckets). split; [|split; [|split; [by apply has_key_iff|done]]].
  - assert (Hhd : hash_head k2 = aset (hash_head k) (Z.of_nat h) ret) by (unfold k2, k1; simpl; by rewrite Hhz).
    split_and!.
    + rewrite Hhd. by rewrite aset_length.
    + by rewrite length_insert.
    + intros h' l' Hl'. rewrite Hhd. destruct (decide (h' = h)) as [->|Hne].
      * rewrite list_lookup_insert_eq in Hl' by (by eapply lookup_lt_Some). injection Hl' as <-.
        rewrite aget_aset_eq by lia. simpl. split_and!; [done..|]. unfold nexts at 2. rewrite Hrnx. eapply chain_frame; [|by apply (Hc h l)]. intros x Hx.
        change (i_next (k_inodes k2 x) = i_next (k_inodes k x)). rewrite Hsame; [done|]. intros ->.
        by apply Hrb, (elem_concat_lookup buckets h l).
      * rewrite list_lookup_insert_ne in Hl' by done. rewrite aget_aset_ne by lia.
        eapply chain_frame; [|by apply (Hc h' l')]. intros x Hx.
        change (i_next (k_inodes k2 x) = i_next (k_inodes k x)). rewrite Hsame; [done|]. intros ->.
        by apply Hrb, (elem_concat_lookup buckets h' l').
    + rewrite Hperm. by constructor.
    + intros h' l' e Hl' He. destruct (decide (e = ret)) as [->|Her].
      * rewrite Hrfs, Hrnode. destruct (decide (h' = h)) as [->|Hne]; [done|].
        rewrite list_lookup_insert_ne in Hl' by done. exfalso. by apply Hrb, (elem_concat_lookup buckets h' l').
      * rewrite Hsame by done. destruct (decide (h' = h)) as [->|Hne].
        -- rewrite list_lookup_insert_eq in Hl' by (by eapply lookup_lt_Some). injection Hl' as <-.
           apply elem_of_cons in He as [|He]; [done|]. by apply (Hh h l).
        -- rewrite list_lookup_insert_ne in Hl' by done. by apply (Hh h' l').
    + intros x y. rewrite Hperm, !elem_of_cons. intros [->|Hx] [->|Hy]; [done|..].
      * assert (y ≠ ret) by (by intros ->). rewrite Hrfs, Hrnode, Hsame by done. intros H1 H2. exfalso. by apply (Hkey y Hy).
      * assert (x ≠ ret) by (by intros ->). rewrite Hrfs, Hrnode, Hsame by done. intros H1 H2. exfalso. by apply (Hkey x Hx).
      * assert (x ≠ ret ∧ y ≠ ret) as [H1 H2] by (split; by intros ->). rewrite !Hsame by done. by apply Hu.
  - intros x. rewrite Hperm. apply elem_of_cons.
Qed.

(** The result of a search is determined by the entries and their keys. *)
Lemma cache_find_unique fuel k buckets inst node e :
  cache_rep k buckets → (length (concat buckets) ≤ fuel)%nat → e ∈ concat buckets → has_key k inst node e = true →
  vfs_cache_find fuel inst node k = Some e.
Proof.
  intros Hrep Hf He Hk. destruct (cache_find_spec fuel k buckets inst node Hrep Hf) as (r & Hr & [[-> Hn]|(Hin & _ & Hrk)]).
  - specialize (Hn e He). congruence.
  - rewrite Hr. f_equal. destruct Hrep as (_ & _ & _ & _ & _ & Hu). apply has_key_iff in Hk as [? ?], Hrk as [? ?].
    apply Hu; [done|done|congruence..].
Qed.

Lemma cache_find_none fuel k buckets inst node :
  cache_rep k buckets → (length (concat buckets) ≤ fuel)%nat →
  (∀ e, e ∈ concat buckets → has_key k inst node e = false) → vfs_cache_find fuel inst node k = Some NULL.
Proof.
  intros Hrep Hf Hn. destruct (cache_find_spec fuel k buckets inst node Hrep Hf) as (r & Hr & [[-> _]|(Hin & _ & Hrk)]); [done|].
  rewrite Hn in Hrk; done.
Qed.
End rep.

(** ** Properties *)

(** The cache is a map: after [vfs_cache_remove] the removed key is not found
    and every other key is found exactly as before; the entry goes back to its
    pool. *)
Theorem vfs_cache_remove_find {A} `{!KMem A} (k : kernel A) buckets inst node e L H F fuel :
  cache_rep k buckets → (length (concat buckets) ≤ fuel)%nat →
  vfs_cache_find fuel inst node k = Some e → e ≠ NULL → km_inv (k_mem k) ((PInode, e) :: L) H F →
  ∃ k', vfs_cache_remove fuel inst node k = Some k' ∧ km_inv (k_mem k') L H F ∧
    vfs_cache_find fuel inst node k' = Some NULL ∧
    ∀ inst' node', (inst', node') ≠ (inst, node) → vfs_cache_find fuel inst' node' k' = vfs_cache_find fuel inst' node' k.
Proof.
  intros Hrep Hf Hfind He Hkm.
  destruct (cache_find_spec fuel k buckets inst node Hrep Hf) as (r & Hr & [[-> _]|(Hin & _ & Hrk)]);
    rewrite Hfind in Hr; injection Hr as Hr; [done|]. rewrite <- Hr in Hin, Hrk. clear Hr r.
  destruct (cache_remove_spec fuel k buckets inst node e L H F Hrep Hf Hin Hrk Hkm) as (k' & bk' & Hrem & Hrep' & Hsk & Hkm' & Hiff).
  assert (Hf' : (length (concat bk') ≤ fuel)%nat).
  { transitivity (length (concat buckets)); [|done]. apply submseteq_length, NoDup_submseteq; [apply Hrep'|].
    intros x Hx. by apply Hiff. }
  exists k'. split; [done|]. split; [done|]. split.
  - apply (cache_find_none fuel k' bk'); [done..|]. intros x Hx. apply Hiff in Hx as [Hx Hxe]. rewrite (same_keys_has k k') by done.
    destruct (has_key k inst node x) eqn:Hk; [|done]. exfalso. apply Hxe. destruct Hrep as (_ & _ & _ & _ & _ & Hu).
    apply has_key_iff in Hk as [? ?], Hrk as [? ?]. apply Hu; [done|done|congruence..].
  - intros inst' node' Hne.
    destruct (cache_find_spec fuel k buckets inst' node' Hrep Hf) as (r & Hr & [[-> Hn]|(Hrin & _ & Hrk')]); rewrite Hr.
    + apply (cache_find_none fuel k' bk'); [done..|]. intros x Hx. apply Hiff in Hx as [Hx _].
      rewrite (same_keys_has k k') by done. by apply Hn.
    + apply (cache_find_unique fuel k' bk'); [done..| |by rewrite (same_keys_has k k')]. apply Hiff. split; [done|].
      intros ->. apply Hne. apply has_key_iff in Hrk as [H1 H2], Hrk' as [H3 H4]. congruence.
Qed.

(** After an entry is allocated for a key that was not cached and filled by
    its file system, searching the key finds it and every other key is found
    exactly as before. *)
Theorem vfs_cache_alloc_find {A} `{!KMem A} (k : kernel A) buckets inst node L H F fuel g :
  cache_rep k buckets → (length (concat buckets) < fuel)%nat →
  (∀ e, e ∈ concat buckets → (PInode, e) ∈ L) → vfs_cache_find fuel inst node k = Some NULL →
  km_inv (k_mem k) L H F → F ≠ [] →
  (∀ i, i_next (g i) = i_next i ∧ i_fs (g i) = inst ∧ i_node (g i) = node) →
  ∃ ret k1, vfs_cache_alloc inst node k = Some (ret, k1) ∧ ret ≠ NULL ∧
    vfs_cache_find fuel inst node (upd_inode ret g k1) = Some ret ∧
    ∀ inst' node', (inst', node') ≠ (inst, node) →
      vfs_cache_find fuel inst' node' (upd_inode ret g k1) = vfs_cache_find fuel inst' node' k.
Proof.
  intros Hrep Hf Hlive Hfind Hkm HF Hg.
  assert (Hnone : ∀ e, e ∈ concat buckets → has_key k inst node e = false).
  { destruct (cache_find_spec fuel k buckets inst node Hrep ltac:(lia)) as (r & Hr & [[_ Hn]|(_ & Hrn & _)]); [done|].
    rewrite Hfind in Hr. by injection Hr as <-. }
  destruct (cache_add_spec k buckets inst node L H F Hrep) as (ret & k1 & F' & Ha & Hrn & Hrb & Hkm' & _ & Hfill); [by split; auto|done..|].
  destruct (Hfill g Hg) as (bk' & Hrep' & Hiff & Hkr & Hsame). cbn zeta in *.
  assert (Hf' : (length (concat bk') ≤ fuel)%nat).
  { transitivity (length (ret :: concat buckets)); [|simpl; lia]. apply submseteq_length, NoDup_submseteq; [apply Hrep'|].
    intros x Hx. apply Hiff in Hx as [->|Hx]; [apply list_elem_of_here|by right]. }
  exists ret, k1. split; [done|]. split; [done|]. split.
  - apply (cache_find_unique fuel _ bk'); [done..| |done]. apply Hiff. by left.
  - intros inst' node' Hne. assert (Hk' : ∀ x, x ≠ ret → has_key (upd_inode ret g k1) inst' node' x = has_key k inst' node' x).
    { intros x Hx. unfold has_key. by rewrite Hsame. }
    destruct (cache_find_spec fuel k buckets inst' node' Hrep ltac:(lia)) as (r & Hr & [[-> Hn]|(Hrin & _ & Hrk')]); rewrite Hr.
    + apply (cache_find_none fuel _ bk'); [done..|]. intros x Hx. apply Hiff in Hx as [->|Hx].
      * apply not_true_iff_false. intros Hk. apply Hne. apply has_key_iff in Hk as [H1 H2], Hkr as [H3 H4]. congruence.
      * rewrite Hk' by (by intros ->). by apply Hn.
    + apply (cache_find_unique fuel _ bk'); [done..| |rewrite Hk'; [done|by intros ->]]. apply Hiff. by right.
Qed.

(** Clearing the table leaves an empty cache. *)
Lemma clear_heads n : ∀ (t : list ptr), (n ≤ length t)%nat → foldl (λ t i, <[i := NULL]> t) t (seq 0 n) = replicate n NULL ++ drop n t.
Proof.
  induction n as [|n IH]; intros t Hn; [done|]. rewrite seq_S, foldl_app, IH by lia. cbn [foldl]. change (0 + n)%nat with n.
  destruct (drop n t) as [|x l] eqn:Hd; [apply (f_equal length) in Hd; rewrite length_drop in Hd; cbn in Hd; lia|].
  rewrite insert_app_r_alt by (by rewrite length_replicate). rewrite length_replicate, Nat.sub_diag. cbn [insert list_insert].
  rewrite replicate_S_end, <- app_assoc. f_equal. cbn [app]. f_equal. change l with (drop 1 (x :: l)). rewrite <- Hd, drop_drop. f_equal. lia.
Qed.

Lemma cache_init_rep {A} `{!KMem A} (k : kernel A) : length (hash_head k) = 31%nat → cache_rep (vfs_cache_init k) (replicate 31 []).
Proof.
  intros Hl. assert (Hz : concat (replicate 31 (@nil ptr)) = []) by done.
  assert (Hh : ∀ h (l : list ptr), replicate 31 [] !! h = Some l → l = []) by (intros h l [-> _]%lookup_replicate; done).
  assert (Hhd : hash_head (vfs_cache_init k) = replicate 31 NULL).
  { unfold vfs_cache_init. cbn [hash_head set_hash_head]. change (Z.to_nat VFS_CACHE_HASHTABLE_SIZE) with 31%nat. rewrite clear_heads by lia.
    rewrite drop_ge by lia. apply app_nil_r. }
  split_and!; rewrite ?Hz, ?Hhd; try done; [|apply NoDup_nil_2| |].
  - intros h l Hl'. pose proof (lookup_lt_Some _ _ _ Hl') as Hlt. apply Hh in Hl' as ->. rewrite length_replicate in Hlt.
    unfold aget. rewrite nth_lookup, lookup_replicate_2 by lia. done.
  - intros h l e Hl' He. apply Hh in Hl' as ->. by apply elem_of_nil in He.
  - intros e e' He. by apply elem_of_nil in He.
Qed.

(** The cache at boot, over two free pages. *)
Definition boot_cache : kernel (kmem pmem) := vfs_cache_init (zero_kernel (kmem_init demo_pmem)).

Lemma boot_cache_rep : cache_rep boot_cache (replicate 31 []).
Proof. by apply cache_init_rep. Qed.

Definition demo_fill (i : inode) : inode := set_i_fs 64 (set_i_node 5 i).

Lemma vfs_cache_alloc_find_witness :
  ∃ ret k1, vfs_cache_alloc 64 5 boot_cache = Some (ret, k1) ∧
    vfs_cache_find 2 64 5 (upd_inode ret demo_fill k1) = Some ret.
Proof.
  destruct (vfs_cache_alloc_find boot_cache (replicate 31 []) 64 5 [] [] [0x88000000; 0x88000400] 2 demo_fill)
    as (ret & k1 & Ha & _ & Hf & _).
  - exact boot_cache_rep.
  - simpl. lia.
  - set_solver.
  - reflexivity.
  - apply kmem_init_inv, demo_pmem_rep.
  - done.
  - done.
  - exists ret, k1. by split.
Defined.

Lemma vfs_cache_remove_find_witness :
  ∃ ret k1 k', vfs_cache_alloc 64 5 boot_cache = Some (ret, k1) ∧
    vfs_cache_remove 2 64 5 (upd_inode ret demo_fill k1) = Some k' ∧ vfs_cache_find 2 64 5 k' = Some NULL.
Proof.
  destruct (cache_add_spec boot_cache (replicate 31 []) 64 5 [] [] [0x88000000; 0x88000400]) as
    (ret & k1 & F' & Ha & Hrn & _ & Hkm & _ & Hfill); [exact boot_cache_rep|set_solver|apply kmem_init_inv, demo_pmem_rep|done|].
  destruct (Hfill demo_fill) as (bk & Hrep & Hiff & Hk & _); [intros i; split_and!; reflexivity|].
  assert (Hlen : (length (concat bk) ≤ 2)%nat).
  { transitivity (length [ret]); [|apply le_S, le_n]. apply submseteq_length, NoDup_submseteq; [apply Hrep|].
    intros x Hx. apply Hiff in Hx as [->|Hx]; [apply list_elem_of_here|]. clear -Hx. change (x ∈ @nil ptr) in Hx. set_solver. }
  destruct (vfs_cache_remove_find (upd_inode ret demo_fill k1) bk 64 5 ret [] [] F' 2) as (k' & Hrem & _ & Hf & _).
  - exact Hrep.
  - exact Hlen.
  - apply (cache_find_unique 2 _ bk); [exact Hrep|exact Hlen|apply Hiff; by left|exact Hk].
  - exact Hrn.
  - exact Hkm.
  - exists ret, k1, k'. split_and!; [exact Ha|exact Hrem|exact Hf].
Defined.
