(* ===== verification/Pipe.v ===== *)
(** * Pipes (src/fs/pipe.c) and file structures (src/fs/vfs_file.h)

    A pipe is two open files that share one page holding a cyclic FIFO.  A read
    or a write that cannot proceed calls [sched_schedule] and tries again later;
    the model makes one try, which either completes or waits, so that any
    interleaving of readers and writers is a sequence of tries. *)

From S2P Require Import Prelude CyclicFifo PhysMem PoolAlloc KMem Pid Mmu PageDir Kernel.

(** src/interface/fixos/fcntl.h:25-25: O_RDONLY *)
Definition O_RDONLY : Z := 1.
(** src/interface/fixos/fcntl.h:26-26: O_WRONLY *)
Definition O_WRONLY : Z := 2.
(** src/interface/fixos/fcntl.h:27-27: O_RDWR *)
Definition O_RDWR : Z := Z.lor O_RDONLY O_WRONLY.

(** [sizeof(page->buffer)]: a page less the FIFO header and the counter. *)
(** src/fs/pipe.c:36-36: pipe_page *)
Definition PIPE_BUFFER : Z := 1024 - 16 - 4.

(** The outcome of one pass of a blocking call: it returned, having copied [out]
    to the caller, or it called [sched_schedule] and will try again. *)
Inductive attempt (S : Type) := Return (ret : Z) (out : list Z) (s : S) | Wait.
Arguments Return {S}.
Arguments Wait {S}.

Section ops.
Context {A : Type} `{!KMem A}.
Implicit Types (k : kernel A).

(** src/fs/vfs_file.h: vfs_file_alloc *)
Definition vfs_file_alloc k : option (ptr * kernel A) :=
  '(f, a) ← km_alloc PFile (k_mem k); Some (f, set_k_mem a k).

(** src/fs/vfs_file.h: vfs_file_free *)
Definition vfs_file_free (filep : ptr) k : option (kernel A) :=
  a ← km_free PFile filep (k_mem k); Some (set_k_mem a k).

(** The fields [pipe_create] gives to one end; [count] keeps its old value. *)
(** src/fs/pipe.c:76-80: pipe_create *)
Definition pipe_end (flags : Z) (page : ptr) (f : file) : file :=
  set_f_op fop_pipe (set_f_private page (set_f_flags flags (set_f_pos 0 (set_f_inode NULL f)))).

(** Returns the code and [files]; [stale] is the previous content of the page. *)
(** src/fs/pipe.c: pipe_create *)
Definition pipe_create (stale : list Z) k : option (Z * (ptr * ptr) * kernel A) :=
  '(i, k) ← vfs_file_alloc k;
  '(o, k) ← vfs_file_alloc k;
  '(page, a) ← km_get_page MEM_PM_CACHED (k_mem k);
  let k := set_k_mem a k in
  if (i =? NULL) || (o =? NULL) || (page =? NULL) then
    k ← (if negb (i =? NULL) then vfs_file_free i k else Some k);
    k ← (if negb (o =? NULL) then vfs_file_free o k else Some k);
    k ← (if negb (page =? NULL) then a ← km_put_page page (k_mem k); Some (set_k_mem a k) else Some k);
    Some (-1, (NULL, NULL), k)
  else
    let k := upd_pipe page (λ _, mk_pipe (mk_fifo PIPE_BUFFER 0 0 stale) 2) k in
    let k := upd_file i (pipe_end O_RDONLY page) k in
    let k := upd_file o (pipe_end O_WRONLY page) k in
    Some (0, (i, o), k).

(** src/fs/pipe.c: pipe_read *)
Definition pipe_read (filep : ptr) (len : Z) k : attempt (kernel A) :=
  let page := f_private (k_files k filep) in
  let fifo := pp_fifo (k_pipes k page) in
  if size fifo <? len then Wait
  else
    let '(out, fifo) := cfifo_pop fifo len in
    Return len out (upd_pipe page (λ p, mk_pipe fifo (pp_count p)) k).

(** src/fs/pipe.c: pipe_write *)
Definition pipe_write (filep : ptr) (source : list Z) (len : Z) k : attempt (kernel A) :=
  let page := f_private (k_files k filep) in
  let fifo := pp_fifo (k_pipes k page) in
  if u32 (max_size fifo - size fifo) <? len then Wait
  else Return len [] (upd_pipe page (λ p, mk_pipe (cfifo_push fifo source len) (pp_count p)) k).

(** src/fs/pipe.c: pipe_release *)
Definition pipe_release (filep : ptr) k : option (Z * kernel A) :=
  let page := f_private (k_files k filep) in
  let k := upd_pipe page (λ p, mk_pipe (pp_fifo p) (s32 (pp_count p - 1))) k in
  if pp_count (k_pipes k page) <=? 0 then
    a ← km_put_page page (k_mem k); Some (0, set_k_mem a k)
  else Some (0, k).
End ops.

(** ** Readers and writers interleaved *)

Inductive pipe_call := PRead (f : ptr) (len : Z) | PWrite (f : ptr) (data : list Z).

Section stream.
Context {A : Type} `{!KMem A}.
Implicit Types (k : kernel A).

(** One try: the bytes that went in, the bytes that came out, whether it completed. *)
Definition pipe_step k (c : pipe_call) : (list Z * list Z * bool) * kernel A :=
  match c with
  | PRead f len =>
      match pipe_read f len k with Return _ out k' => (([], out, true), k') | Wait => (([], [], false), k) end
  | PWrite f data =>
      match pipe_write f data (Z.of_nat (length data)) k with
      | Return _ _ k' => ((data, [], true), k')
      | Wait => (([], [], false), k)
      end
  end.

Fixpoint pipe_run k (cs : list pipe_call) : list (list Z * list Z * bool) * kernel A :=
  match cs with
  | [] => ([], k)
  | c :: cs => let '(e, k1) := pipe_step k c in let '(es, k2) := pipe_run k1 cs in (e :: es, k2)
  end.

Definition call_file (c : pipe_call) : ptr := match c with PRead f _ | PWrite f _ => f end.

Definition call_ok (c : pipe_call) : Prop :=
  match c with PRead _ len => 0 ≤ len < 2 ^ 32 | PWrite _ data => Z.of_nat (length data) < 2 ^ 32 end.

(** The pipe held by page [pg]. *)
Definition pipe_fifo k (pg : ptr) : cyclic_fifo := pp_fifo (k_pipes k pg).
Definition pipe_wf k (pg : ptr) : Prop := fifo_wf (pipe_fifo k pg) ∧ max_size (pipe_fifo k pg) = PIPE_BUFFER.

Lemma pipe_fifo_upd k pg g : pipe_fifo (upd_pipe pg g k) pg = pp_fifo (g (k_pipes k pg)).
Proof. unfold pipe_fifo, upd_pipe. cbn [k_pipes set_k_pipes]. by rewrite fset_eq. Qed.

(** What one try does to the bytes the pipe holds. *)
Lemma pipe_step_spec k pg c :
  pipe_wf k pg → f_private (k_files k (call_file c)) = pg → call_ok c →
  let '(i, o, b, k') := pipe_step k c in
  pipe_wf k' pg ∧ k_files k' = k_files k ∧
  contents (pipe_fifo k pg) ++ i = o ++ contents (pipe_fifo k' pg) ∧
  match c with
  | PRead _ len => b = (len <=? Z.of_nat (length (contents (pipe_fifo k pg)))) ∧ i = [] ∧
      o = if b then take (Z.to_nat len) (contents (pipe_fifo k pg)) else []
  | PWrite _ d => b = (Z.of_nat (length d) + Z.of_nat (length (contents (pipe_fifo k pg))) <=? PIPE_BUFFER) ∧ o = [] ∧
      i = if b then d else []
  end.
Proof.
  intros [Hwf Hmax] Hf Hc. pose proof Hwf as (Hm & Hl & Ht & Hs). pose proof (contents_length _ Hwf) as Hcl.
  destruct c as [f len|f d]; cbn [call_file call_ok] in *; unfold pipe_step, pipe_read, pipe_write; rewrite Hf;
    fold (pipe_fifo k pg).
  - rewrite Hcl. destruct (Z.ltb_spec (size (pipe_fifo k pg)) len) as [Hlt|Hge].
    { rewrite (proj2 (Z.leb_gt _ _)) by lia. split_and!; try done. apply app_nil_r. }
    destruct (cfifo_pop_ok _ len Hwf Hc) as (Ho & Hc' & Hwf' & Hm').
    destruct (cfifo_pop (pipe_fifo k pg) len) as [out fi']. cbn [fst snd] in *.
    rewrite (proj2 (Z.leb_le _ _)) by lia. unfold pipe_wf. rewrite !pipe_fifo_upd. cbn [pp_fifo].
    rewrite Hc', Hm', app_nil_r. subst out. cbn [Spec.pop fst snd].
    split_and!; try done. symmetry. apply take_drop.
  - rewrite Hcl, u32_small by lia. rewrite Hmax in *.
    destruct (Z.ltb_spec (PIPE_BUFFER - size (pipe_fifo k pg)) (Z.of_nat (length d))) as [Hlt|Hge].
    { rewrite (proj2 (Z.leb_gt _ _)) by lia. split_and!; try done. apply app_nil_r. }
    destruct (cfifo_push_ok _ d (Z.of_nat (length d)) Hwf) as (Hc' & Hwf' & Hm'); [lia..|].
    rewrite (proj2 (Z.leb_le _ _)) by lia. unfold pipe_wf. rewrite !pipe_fifo_upd. cbn [pp_fifo].
    rewrite Hc', Hm'. split_and!; try done. unfold Spec.push. rewrite Hmax, take_ge by lia. done.
Qed.

(** C17: whatever the interleaving of readers and writers on a pipe, the bytes that
    come out are the bytes that went in, in order and none lost: what was in the
    pipe followed by what the completed writes put in equals what the completed
    reads took followed by what is left, and the pipe stays well formed. *)
Theorem pipe_stream k pg cs :
  pipe_wf k pg → Forall (λ c, f_private (k_files k (call_file c)) = pg ∧ call_ok c) cs →
  let '(es, k') := pipe_run k cs in
  contents (pipe_fifo k pg) ++ concat ((λ e, e.1.1) <$> es)
    = concat ((λ e, e.1.2) <$> es) ++ contents (pipe_fifo k' pg) ∧
  pipe_wf k' pg.
Proof.
  intros Hwf Hcs. revert k Hwf Hcs. induction cs as [|c cs IH]; intros k Hwf Hcs; [split; [apply app_nil_r|done]|].
  apply Forall_cons in Hcs as [[Hf Hc] Hcs]. pose proof (pipe_step_spec k pg c Hwf Hf Hc) as Hst.
  cbn [pipe_run]. destruct (pipe_step k c) as [[[i o] b] k1]. destruct Hst as (Hwf1 & Hfs & Heq & _).
  specialize (IH k1 Hwf1). rewrite Hfs in IH. specialize (IH Hcs).
  destruct (pipe_run k1 cs) as [es k2]. destruct IH as [IH Hwf2]. cbn [fmap list_fmap concat fst snd].
  split; [|done]. by rewrite app_assoc, Heq, <- !app_assoc, IH.
Qed.

(** A read on a pipe completes exactly when the pipe holds the bytes it asks
    for, and a write exactly when there is room for all of its bytes.  In
    particular a call for more than the 1004 bytes of the buffer never completes. *)
Theorem pipe_call_completes k pg c :
  pipe_wf k pg → f_private (k_files k (call_file c)) = pg → call_ok c →
  (pipe_step k c).1.2 =
    match c with
    | PRead _ len => len <=? Z.of_nat (length (contents (pipe_fifo k pg)))
    | PWrite _ d => Z.of_nat (length d) + Z.of_nat (length (contents (pipe_fifo k pg))) <=? PIPE_BUFFER
    end ∧
  (PIPE_BUFFER < match c with PRead _ len => len | PWrite _ d => Z.of_nat (length d) end →
   (pipe_step k c).1.2 = false).
Proof.
  intros Hwf Hf Hc. pose proof (pipe_step_spec k pg c Hwf Hf Hc) as Hst.
  destruct Hwf as [Hwf Hmax]. pose proof (contents_length _ Hwf) as Hcl. destruct Hwf as (_ & _ & _ & Hs).
  destruct (pipe_step k c) as [[[i o] b] k1]. cbn [fst snd].
  destruct c; destruct Hst as (_ & _ & _ & Hb & _); (split; [done|]); intros Hbig; rewrite Hb; apply Z.leb_gt; lia.
Qed.
End stream.

(** A pipe on page 0x88000000 with a read end at 16 and a write end at 32; the
    FIFO is about to wrap. *)
Definition demo_pipe : kernel (kmem pmem) :=
  upd_pipe 0x88000000 (λ _, mk_pipe (mk_fifo PIPE_BUFFER 1002 0 (replicate 1004 0)) 2)
    (upd_file 16 (pipe_end O_RDONLY 0x88000000)
       (upd_file 32 (pipe_end O_WRONLY 0x88000000) (zero_kernel (kmem_init demo_pmem)))).

Lemma demo_pipe_wf : pipe_wf demo_pipe 0x88000000.
Proof. split; [|done]. unfold fifo_wf. split_and!; done. Qed.

Lemma pipe_stream_witness :
  let cs := [PRead 16 3; PWrite 32 [1; 2]; PWrite 32 [3; 4]; PRead 16 3] in
  concat ((λ e, e.1.2) <$> (pipe_run demo_pipe cs).1) = [1; 2; 3] ∧
  contents (pipe_fifo (pipe_run demo_pipe cs).2 0x88000000) = [4].
Proof.
  pose proof (pipe_stream demo_pipe 0x88000000 [PRead 16 3; PWrite 32 [1; 2]; PWrite 32 [3; 4]; PRead 16 3]
    demo_pipe_wf ltac:(repeat constructor; simpl; lia)) as H.
  cbn zeta. destruct (pipe_run _ _) as [es k'] eqn:Hr. cbn [fst snd].
  assert (Ho : concat ((λ e, e.1.2) <$> es) = [1; 2; 3]) by (change es with (es, k').1; rewrite <- Hr; by vm_compute).
  split; [done|]. destruct H as [H _]. rewrite Ho in H.
  assert (Hi : contents (pipe_fifo demo_pipe 0x88000000) ++ concat ((λ e, e.1.1) <$> es) = [1; 2; 3; 4])
    by (change es with (es, k').1; rewrite <- Hr; by vm_compute).
  rewrite Hi in H. by injection H.
Defined.

Lemma pipe_call_completes_witness :
  (pipe_step demo_pipe (PRead 16 1)).1.2 = false ∧ (pipe_step demo_pipe (PRead 16 2000)).1.2 = false.
Proof.
  split.
  - rewrite (proj1 (pipe_call_completes demo_pipe 0x88000000 (PRead 16 1) demo_pipe_wf eq_refl ltac:(simpl; lia))).
    reflexivity.
  - apply (pipe_call_completes demo_pipe 0x88000000 (PRead 16 2000) demo_pipe_wf eq_refl ltac:(simpl; lia)). done.
Defined.
