(* ===== verification/VfsFile.v ===== *)
(** * Open files and descriptors (src/fs/vfs_file.c, src/sys/files.c)

    An open file is shared by every descriptor and memory area that refers to
    it and is freed when its usage count reaches zero.  The file models closing,
    with the [release] operation of each kind of file, and the system calls that
    create, duplicate and remove descriptors. *)

From S2P Require Import Prelude CyclicFifo PhysMem PoolAlloc KMem Pid Mmu PageDir Kernel Pipe.

(** src/interface/fixos/fcntl.h:31-31: O_CLOEXEC *)
Definition O_CLOEXEC : Z := 1024.
(** src/interface/fixos/fcntl.h:34-34: FD_CLOEXEC *)
Definition FD_CLOEXEC : Z := 1.

Section ops.
Context {A : Type} `{!KMem A}.
Implicit Types (k : kernel A).

(** *** [release] operations *)

(** src/device/display/display.c: display_release *)
Definition display_release (filep : ptr) k : Z * kernel A :=
  if negb (f_private (k_files k filep) =? 0) then (0, set_k_activated 0 k) else (0, k).

(** src/device/keyboard/fx9860/keyboard_device.c: fxkdb_release *)
Definition fxkdb_release (filep : ptr) k : Z * kernel A :=
  (0, set_k_listener (s32 (k_listener k - 1)) k).

(** src/fs/casio_smemfs/file.c: smemfs_release *)
Definition smemfs_release (filep : ptr) k : Z * kernel A := (0, k).

(** No terminal driver has a [release] operation. *)
(** src/device/tty.c: ttydev_release *)
Definition ttydev_release (filep : ptr) k : Z * kernel A := (0, k).

(** [filep->op->release(filep)] when it is not NULL. *)
(** src/fs/vfs_file.c:115-117: vfs_close *)
Definition file_release (filep : ptr) k : option (Z * kernel A) :=
  match f_op (k_files k filep) with
  | fop_dir => Some (0, k)
  | fop_pipe => pipe_release filep k
  | fop_smemfs => Some (smemfs_release filep k)
  | fop_tty => Some (ttydev_release filep k)
  | fop_display => Some (display_release filep k)
  | fop_keyboard => Some (fxkdb_release filep k)
  end.

(** src/fs/vfs_file.c: vfs_close *)
Definition vfs_close (filep : ptr) k : option (Z * kernel A) :=
  '(ret, k) ← file_release filep k;
  let k := upd_file filep (λ f, set_f_count (s32 (f_count f - 1)) f) k in
  if f_count (k_files k filep) <=? 0 then k ← vfs_file_free filep k; Some (ret, k)
  else Some (ret, k).

(** *** Descriptors *)

Definition cur_proc k : process := k_procs k (proc_current k).

(** [fd>=0 && fd<PROCESS_MAX_FILE && proc->files[fd] != NULL] *)
(** src/sys/files.c:216-216: sys_close *)
Definition fd_valid k (fd : Z) : bool :=
  (0 <=? fd) && (fd <? PROCESS_MAX_FILE) && negb (aget (files (cur_proc k)) fd =? NULL).

(** [for(fd=from; fd<PROCESS_MAX_FILE && proc->files[fd] != NULL; fd++)] *)
(** src/sys/files.c:128-129: sys_pipe2 *)
Definition fd_scan k (from : Z) : Z :=
  from + Z.of_nat (scan (Z.eqb NULL) (drop (Z.to_nat from) (files (cur_proc k)))).

(** [proc->files[fd] = f] *)
Definition set_fd (fd : Z) (f : ptr) k : kernel A :=
  upd_proc (proc_current k) (λ p, set_files (aset (files p) fd f) p) k.

(** [proc->fdflags[fd] = v] *)
Definition set_fdflag (fd v : Z) k : kernel A :=
  upd_proc (proc_current k) (λ p, set_fdflags (aset (fdflags p) fd v) p) k.

(** src/sys/files.c: sys_close *)
Definition sys_close (fd : Z) k : option (Z * kernel A) :=
  if fd_valid k fd then
    '(ret, k) ← vfs_close (aget (files (cur_proc k)) fd) k;
    Some (ret, set_fd fd NULL k)
  else Some (- EBADF, k).

(** src/sys/files.c: sys_dup *)
Definition sys_dup (oldfd : Z) k : Z * kernel A :=
  let fd := fd_scan k 0 in
  if PROCESS_MAX_FILE <=? fd then (- EMFILE, k)
  else if (oldfd <? 0) || (PROCESS_MAX_FILE <=? oldfd) then (- EBADF, k)
  else
    let k := set_fdflag fd 0 k in
    let k := set_fd fd (aget (files (cur_proc k)) oldfd) k in
    (fd, k).

(** src/sys/files.c: sys_dup2 *)
Definition sys_dup2 (oldfd newfd : Z) k : option (Z * kernel A) :=
  if (oldfd <? 0) || (PROCESS_MAX_FILE <=? oldfd) || (newfd <? 0) || (PROCESS_MAX_FILE <=? newfd) then
    Some (- EBADF, k)
  else if aget (files (cur_proc k)) oldfd =? NULL then Some (- EBADF, k)
  else if negb (oldfd =? newfd) then
    k ← (if negb (aget (files (cur_proc k)) newfd =? NULL) then
           '(_, k) ← vfs_close (aget (files (cur_proc k)) newfd) k; Some k
         else Some k);
    let k := set_fdflag newfd 0 k in
    let k := set_fd newfd (aget (files (cur_proc k)) oldfd) k in
    Some (newfd, k)
  else Some (newfd, k).

(** Returns the code and [pipefd]; [stale] is the previous content of the pipe's page. *)
(** src/sys/files.c: sys_pipe2 *)
Definition sys_pipe2 (stale : list Z) k : option (Z * (Z * Z) * kernel A) :=
  let fdin := fd_scan k 0 in
  let fdout := fd_scan k (fdin + 1) in
  if (fdin <? PROCESS_MAX_FILE) && (fdout <? PROCESS_MAX_FILE) then
    '(ret, (fin, fout), k) ← pipe_create stale k;
    if ret =? 0 then
      let k := set_fd fdin fin k in
      let k := set_fd fdout fout k in
      Some (0, (fdin, fdout), k)
    else Some (-1, (-1, -1), k)
  else Some (-1, (-1, -1), k).

(** src/fs/vfs_directory.c: vfs_dir_lseek *)
Definition vfs_dir_lseek (filep : ptr) (offset whence : Z) k : Z * kernel A :=
  if (whence =? 1) && (0 <=? offset) then
    let k := upd_file filep (set_f_pos offset) k in (f_pos (k_files k filep), k)
  else if (whence =? 2) && (offset =? 0) then (s32 (f_pos (k_files k filep)), k)
  else (- EINVAL, k).
End ops.

(** ** References to files *)

Section refs.
Context {A : Type} `{!KMem A}.
Implicit Types (k : kernel A).

(** The files mapped by a list of areas. *)
Definition area_files k (l : list ptr) : list ptr :=
  flat_map (λ a, match ma_ops (k_areas k a) with aop_smemfs => [ma_filep (k_areas k a)] | aop_anon => [] end) l.

(** Every place that refers to a file: the descriptors and the areas of a process. *)
Definition proc_refs k (p : ptr) : list ptr := files (k_procs k p) ++ area_files k (mem_areas (k_procs k p)).
Definition all_refs k : list ptr := flat_map (proc_refs k) (process_list k).

(** How many places refer to [f]. *)
Definition refs k (f : ptr) : nat := count_occ Z.eq_dec (all_refs k) f.

(** Every file something refers to is allocated and its count is the number of references. *)
Definition refs_ok k (L : list (pool_id * ptr)) : Prop :=
  ∀ f, f ≠ NULL → f ∈ all_refs k → f_count (k_files k f) = Z.of_nat (refs k f) ∧ (PFile, f) ∈ L.

Definition procs_ok k : Prop :=
  NoDup (process_list k) ∧ proc_current k ∈ process_list k ∧
  (∀ p, p ∈ process_list k → length (files (k_procs k p)) = 12%nat) ∧
  (Z.of_nat (length (all_refs k)) < 2 ^ 31).

(** What closing a file leaves alone. *)
Definition same_procs k k' : Prop :=
  k_procs k' = k_procs k ∧ k_areas k' = k_areas k ∧ process_list k' = process_list k ∧ proc_current k' = proc_current k.

(** The pipe page a file releases is a page in use. *)
Definition release_ok k (f : ptr) (H : list ptr) : Prop :=
  f_op (k_files k f) = fop_pipe → ∃ p, p ∈ H ∧ PM_PHYSICAL_PAGE (f_private (k_files k f)) = PM_PHYSICAL_PAGE p.

(** *** Lemmas *)

Lemma same_procs_refs k k' : same_procs k k' → all_refs k' = all_refs k.
Proof. intros (Hp & Ha & Hl & _). unfold all_refs, proc_refs, area_files. by rewrite Hp, Ha, Hl. Qed.

Lemma elem_of_refs k f : f ∈ all_refs k ↔ (0 < refs k f)%nat.
Proof. unfold refs. rewrite list_elem_of_In. apply count_occ_In. Qed.

Lemma refs_bound k f : (refs k f ≤ length (all_refs k))%nat.
Proof. apply count_occ_bound. Qed.

(** Changing one descriptor replaces one reference. *)
Lemma flat_map_upd {B C} `{EqDecision B} (g g' : B → list C) p l :
  NoDup l → p ∈ l → (∀ q, q ≠ p → g' q = g q) →
  ∃ rest, flat_map g l ≡ₚ g p ++ rest ∧ flat_map g' l ≡ₚ g' p ++ rest.
Proof.
  intros Hnd Hp Hg. apply list_elem_of_split in Hp as (l1 & l2 & ->).
  exists (flat_map g l1 ++ flat_map g l2). apply NoDup_app in Hnd as (_ & Hd & Hnd). apply NoDup_cons in Hnd as [Hp2 _].
  assert (Heq : ∀ l, p ∉ l → flat_map g' l = flat_map g l).
  { clear -Hg. induction l as [|x l IH]; intros Hx; [done|]. simpl. rewrite Hg, IH by set_solver. done. }
  rewrite !flat_map_app. simpl. rewrite (Heq l1), (Heq l2); [split; solve_Permutation|done|].
  intros Hin. apply (Hd p Hin), list_elem_of_here.
Qed.

Lemma refs_set_fd k fd :
  procs_ok k → 0 ≤ fd < 12 →
  ∃ rest, all_refs k ≡ₚ aget (files (cur_proc k)) fd :: rest ∧ ∀ f, all_refs (set_fd fd f k) ≡ₚ f :: rest.
Proof.
  intros (Hnd & Hcur & Hlen & _) Hfd.
  assert (Hl : length (files (cur_proc k)) = 12%nat) by by apply Hlen.
  set (rest0 := take (Z.to_nat fd) (files (cur_proc k)) ++ drop (S (Z.to_nat fd)) (files (cur_proc k)) ++
    area_files k (mem_areas (cur_proc k))).
  destruct (lookup_lt_is_Some_2 (files (cur_proc k)) (Z.to_nat fd)) as [old Hold]; [lia|].
  assert (Hnew : ∀ f, proc_refs (set_fd fd f k) (proc_current k) ≡ₚ f :: rest0).
  { intros f. unfold proc_refs, set_fd. rewrite upd_proc_eq. cbn [files mem_areas set_files].
    change (k_procs k (proc_current k)) with (cur_proc k). unfold aset, rest0.
    rewrite insert_take_drop by lia. rewrite <- app_assoc. simpl. rewrite <- Permutation_middle. done. }
  assert (Hsame : ∀ f q, q ≠ proc_current k → proc_refs (set_fd fd f k) q = proc_refs k q).
  { intros f q Hq. unfold proc_refs, set_fd. by rewrite upd_proc_ne. }
  destruct (flat_map_upd (proc_refs k) (proc_refs k) (proc_current k) (process_list k) Hnd Hcur) as (rest & Hr & _); [done|].
  exists (rest0 ++ rest). split.
  - unfold all_refs. rewrite Hr. unfold proc_refs at 1. change (k_procs k (proc_current k)) with (cur_proc k).
    rewrite (aget_lookup _ _ old Hold). rewrite <- (take_drop_middle _ _ _ Hold) at 1. unfold rest0. solve_Permutation.
  - intros f. unfold all_refs at 1. change (process_list (set_fd fd f k)) with (process_list k).
    destruct (flat_map_upd (proc_refs k) (proc_refs (set_fd fd f k)) (proc_current k) (process_list k) Hnd Hcur (Hsame f))
      as (rest' & Hr1 & Hr2). rewrite Hr2, Hnew. rewrite Hr in Hr1. apply Permutation_app_inv_l in Hr1. rewrite Hr1. solve_Permutation.
Qed.

Lemma file_release_spec k f L H F :
  km_inv (k_mem k) L H F → release_ok k f H →
  ∃ ret k' H' F', file_release f k = Some (ret, k') ∧ km_inv (k_mem k') L H' F' ∧ same_procs k k' ∧ k_files k' = k_files k.
Proof.
  intros Hkm Hrel. unfold file_release. destruct (f_op (k_files k f)) eqn:Hop; try by eexists _, _, H, F; split_and!.
  - destruct (Hrel Hop) as (p & Hp & Hph). unfold pipe_release. cbn zeta.
    destruct (_ <=? 0); [|by eexists _, _, H, F; split_and!].
    apply list_elem_of_split in Hp as (h1 & h2 & ->).
    destruct (km_put_ok p (f_private (k_files k f)) (k_mem k) L (h1 ++ h2) F) as (a & Ha & Hinv); [|done|].
    { eapply km_inv_perm; [done| |exact Hkm]. by rewrite Permutation_middle. }
    change (k_mem (upd_pipe _ _ k)) with (k_mem k). rewrite Ha. cbn [mbind option_bind].
    by eexists _, _, _, _; split_and!.
  - unfold display_release. destruct (negb _); by eexists _, _, H, F; split_and!.
Qed.

(** The scan for a free descriptor. *)
Lemma fd_scan_spec k from :
  length (files (cur_proc k)) = 12%nat → 0 ≤ from →
  from ≤ fd_scan k from ∧ (∀ fd, from ≤ fd < fd_scan k from → aget (files (cur_proc k)) fd ≠ NULL) ∧
  (fd_scan k from < 12 → aget (files (cur_proc k)) (fd_scan k from) = NULL).
Proof.
  intros Hl Hfrom. unfold fd_scan. set (l := drop _ _). split_and!; [lia| |].
  - intros fd Hfd. destruct (lookup_lt_is_Some_2 l (Z.to_nat (fd - from))) as [x Hx].
    { pose proof (scan_le (Z.eqb NULL) l). lia. }
    pose proof (scan_before (Z.eqb NULL) l (Z.to_nat (fd - from)) x ltac:(lia) Hx) as Hn. breflect. unfold l in Hx. rewrite lookup_drop in Hx.
    rewrite (aget_lookup _ fd x); [congruence|]. rewrite <- Hx. f_equal. lia.
  - intros Hlt. destruct (scan_stop (Z.eqb NULL) l) as (x & Hx & Hs); [subst l; rewrite length_drop, Hl; lia|]. breflect.
    subst x. revert Hx. generalize (scan (Z.eqb NULL) l). intros n Hx. unfold l in Hx. rewrite lookup_drop in Hx. apply aget_lookup. rewrite <- Hx. f_equal. lia.
Qed.

(** [vfs_close] frees the file exactly when its count drops to zero. *)
Lemma vfs_close_spec k f L H F n :
  km_inv (k_mem k) L H F → release_ok k f H → (PFile, f) ∈ L →
  f_count (k_files k f) = Z.of_nat (S n) → Z.of_nat (S n) < 2 ^ 31 →
  ∃ ret k' L' H' F', vfs_close f k = Some (ret, k') ∧ km_inv (k_mem k') L' H' F' ∧ same_procs k k' ∧
    k_files k' = fset (k_files k) f (set_f_count (Z.of_nat n) (k_files k f)) ∧
    (if decide (n = O) then L ≡ₚ (PFile, f) :: L' else L' = L).
Proof.
  intros Hkm Hrel HL Hc Hn. destruct (file_release_spec k f L H F Hkm Hrel) as (ret & k1 & H' & F' & Hr & Hkm1 & Hs & Hf).
  unfold vfs_close. rewrite Hr. cbn [mbind option_bind]. cbn zeta. unfold upd_file. cbn [k_files set_k_files]. rewrite fset_eq, Hf, Hc.
  cbn [f_count set_f_count]. replace (Z.of_nat (S n) - 1) with (Z.of_nat n) by lia. rewrite s32_small by lia.
  case_decide as Hn0.
  - subst n. simpl. apply list_elem_of_split in HL as (L1 & L2 & ->).
    destruct (km_free_ok PFile f (k_mem k1) (L1 ++ L2) H' F') as (a & Ha & Hinv).
    { eapply km_inv_perm; [|done|exact Hkm1]. by rewrite Permutation_middle. }
    unfold vfs_file_free. cbn [k_mem set_k_files]. rewrite Ha. cbn [mbind option_bind].
    eexists _, _, (L1 ++ L2), H', F'. split_and!; try done. by rewrite Permutation_middle.
  - rewrite (proj2 (Z.leb_gt _ _)) by lia. by eexists _, _, L, H', F'; split_and!.
Qed.


(** [sys_dup] returns the lowest free descriptor, makes it refer to the file of
    the old one with its flags cleared, and touches no other descriptor; it fails
    with [EMFILE] exactly when all descriptors are in use. *)
Theorem sys_dup_lowest k oldfd :
  length (files (cur_proc k)) = 12%nat → length (fdflags (cur_proc k)) = 12%nat → 0 ≤ oldfd < 12 →
  let '(fd, k') := sys_dup oldfd k in
  (fd = - EMFILE ∧ k' = k ∧ ∀ i, 0 ≤ i < 12 → aget (files (cur_proc k)) i ≠ NULL) ∨
  (0 ≤ fd < 12 ∧ aget (files (cur_proc k)) fd = NULL ∧ (∀ i, 0 ≤ i < fd → aget (files (cur_proc k)) i ≠ NULL) ∧
   (oldfd ≠ fd → aget (files (cur_proc k')) fd = aget (files (cur_proc k)) oldfd) ∧ aget (fdflags (cur_proc k')) fd = 0 ∧
   ∀ i, 0 ≤ i < 12 → i ≠ fd → aget (files (cur_proc k')) i = aget (files (cur_proc k)) i).
Proof.
  intros Hl Hlf Ho. pose proof (fd_scan_spec k 0 Hl) as (Hge & Hbefore & Hat); [lia|]. unfold sys_dup, PROCESS_MAX_FILE.
  destruct (Z.leb_spec 12 (fd_scan k 0)) as [Hfull|Hfree].
  { left. split_and!; [done..|]. intros i Hi. apply Hbefore. lia. }
  destruct (Z.ltb_spec oldfd 0); [lia|]. destruct (Z.leb_spec 12 oldfd); [lia|]. cbn [orb]. right.
  unfold cur_proc, set_fd, set_fdflag. cbn zeta. cbn [proc_current upd_proc set_k_procs]. rewrite !upd_proc_eq.
  cbn [files fdflags set_files set_fdflags]. fold (cur_proc k).
  split_and!; [lia|lia|by apply Hat|intros i Hi; apply Hbefore; lia|..].
  - intros _. apply aget_aset_eq. lia.
  - apply aget_aset_eq. lia.
  - intros i Hi Hne. apply aget_aset_ne; lia.
Qed.

(** Duplicating a descriptor does not count the new reference: after [sys_dup]
    of the only descriptor of a file, closing the original frees the file structure
    while the duplicate still refers to it. *)
Theorem sys_dup_close_dangling k fd L H F :
  procs_ok k → refs_ok k L → km_inv (k_mem k) L H F → fd_valid k fd = true →
  release_ok k (aget (files (cur_proc k)) fd) H → fd_scan k 0 < 12 →
  let f := aget (files (cur_proc k)) fd in
  refs k f = 1%nat →
  let '(fd', k1) := sys_dup fd k in
  ∃ ret k2 L' H' F', sys_close fd k1 = Some (ret, k2) ∧ km_inv (k_mem k2) L' H' F' ∧ L ≡ₚ (PFile, f) :: L' ∧
    aget (files (cur_proc k2)) fd' = f ∧ (PFile, f) ∉ L'.
Proof.
  intros Hok Hrefs Hkm Hfd Hrel Hscan f Hone. pose proof Hok as (Hnd & Hcur & Hlen & Hbig).
  assert (Hl : length (files (cur_proc k)) = 12%nat) by by apply Hlen.
  destruct (fd_scan_spec k 0 Hl) as (Hge & _ & Hat); [lia|]. specialize (Hat Hscan).
  unfold fd_valid, PROCESS_MAX_FILE in Hfd. breflect. fold f in Hrel. unfold sys_dup, PROCESS_MAX_FILE.
  destruct (Z.leb_spec 12 (fd_scan k 0)); [lia|]. destruct (Z.ltb_spec fd 0); [lia|]. destruct (Z.leb_spec 12 fd); [lia|].
  cbn [orb]. cbn zeta. set (fd' := fd_scan k 0) in *. set (k1 := set_fd fd' _ _).
  assert (Hne : fd ≠ fd') by (intros Heq; rewrite Heq in *; done).
  assert (Hp1 : cur_proc k1 = set_files (aset (files (cur_proc k)) fd' f) (set_fdflags (aset (fdflags (cur_proc k)) fd' 0) (cur_proc k))).
  { unfold k1, cur_proc, set_fd, set_fdflag. cbn [proc_current upd_proc set_k_procs]. by rewrite !upd_proc_eq. }
  assert (Hf1 : aget (files (cur_proc k1)) fd = f) by (rewrite Hp1; cbn [files set_files]; apply aget_aset_ne; lia).
  assert (Hfd1 : fd_valid k1 fd = true).
  { unfold fd_valid, PROCESS_MAX_FILE. rewrite Hf1.
    rewrite (proj2 (Z.leb_le 0 fd)), (proj2 (Z.ltb_lt fd 12)), (proj2 (Z.eqb_neq f NULL)) by (done || lia). done. }
  assert (Hfin : f ∈ all_refs k) by (apply elem_of_refs; lia). destruct (Hrefs f ltac:(done) Hfin) as [Hcnt HL].
  destruct (vfs_close_spec k1 f L H F 0) as (ret & k2 & L' & H' & F' & Hc & Hkm' & (Hsp & _ & _ & Hsc) & _ & HL');
    [exact Hkm|exact Hrel|exact HL|change (k_files k1) with (k_files k); by rewrite Hcnt, Hone|lia|].
  unfold sys_close. rewrite Hfd1, Hf1, Hc. cbn [mbind option_bind].
  exists ret, (set_fd fd NULL k2), L', H', F'. rewrite decide_True in HL' by done.
  split_and!; [done|exact Hkm'|exact HL'| |].
  - unfold cur_proc at 1, set_fd. change (proc_current (upd_proc _ _ k2)) with (proc_current k2). rewrite upd_proc_eq. cbn [files set_files].
    rewrite Hsp, Hsc. change (k_procs k1 (proc_current k1)) with (cur_proc k1). rewrite aget_aset_ne by lia. rewrite Hp1. cbn [files set_files].
    apply aget_aset_eq. lia.
  - destruct (km_inv_nodup _ _ _ _ Hkm) as [HndL _]. rewrite HL' in HndL. by apply NoDup_cons in HndL as [? _].
Qed.

Lemma vfs_file_alloc_spec k L H F :
  km_inv (k_mem k) L H F → F ≠ [] →
  ∃ f a F', vfs_file_alloc k = Some (f, set_k_mem a k) ∧ f ≠ NULL ∧ (∀ j, (j, f) ∉ L) ∧
    km_inv a ((PFile, f) :: L) H F' ∧ (length F ≤ S (length F'))%nat.
Proof.
  intros Hkm HF. destruct (km_alloc_ok PFile _ _ _ _ Hkm HF) as (f & a & F' & Ha & Hn & HL & Hkm' & Hlen).
  exists f, a, F'. unfold vfs_file_alloc. rewrite Ha. by split_and!.
Qed.

Lemma sys_pipe2_spec stale k L H F :
  km_inv (k_mem k) L H F → (3 ≤ length F)%nat → length (files (cur_proc k)) = 12%nat → length stale = 1004%nat →
  fd_scan k (fd_scan k 0 + 1) < 12 →
  ∃ fdi fdo fi fo pg k' F' p, sys_pipe2 stale k = Some (0, (fdi, fdo), k') ∧
    0 ≤ fdi < fdo ∧ fdo < 12 ∧ aget (files (cur_proc k)) fdi = NULL ∧ aget (files (cur_proc k)) fdo = NULL ∧
    (∀ fd, 0 ≤ fd < fdo → fd ≠ fdi → aget (files (cur_proc k)) fd ≠ NULL) ∧
    files (cur_proc k') = aset (aset (files (cur_proc k)) fdi fi) fdo fo ∧
    fi ≠ fo ∧ fi ≠ NULL ∧ fo ≠ NULL ∧ (PFile, fi) ∉ L ∧ (PFile, fo) ∉ L ∧
    km_inv (k_mem k') ((PFile, fo) :: (PFile, fi) :: L) (p :: H) F' ∧ p ∉ H ∧ PM_PHYSICAL_PAGE pg = PM_PHYSICAL_PAGE p ∧
    f_op (k_files k' fi) = fop_pipe ∧ f_op (k_files k' fo) = fop_pipe ∧ proc_current k' = proc_current k ∧
    f_private (k_files k' fi) = pg ∧ f_private (k_files k' fo) = pg ∧
    f_flags (k_files k' fi) = O_RDONLY ∧ f_flags (k_files k' fo) = O_WRONLY ∧
    pipe_wf k' pg ∧ contents (pipe_fifo k' pg) = [].
Proof.
  intros Hkm HF Hl Hst Hscan. destruct (fd_scan_spec k 0 Hl) as (Hi0 & Hib & Hia); [lia|].
  destruct (fd_scan_spec k (fd_scan k 0 + 1) Hl) as (Ho0 & Hob & Hoa); [lia|].
  unfold sys_pipe2, PROCESS_MAX_FILE. cbn zeta. set (fdi := fd_scan k 0) in *. set (fdo := fd_scan k (fdi + 1)) in *.
  rewrite (proj2 (Z.ltb_lt fdi 12)), (proj2 (Z.ltb_lt fdo 12)) by lia. cbn [andb].
  destruct (vfs_file_alloc_spec k L H F Hkm) as (fi & a1 & F1 & Ha1 & Hn1 & HL1 & Hkm1 & Hlen1); [by destruct F; simpl in *; [lia|]|].
  destruct (vfs_file_alloc_spec (set_k_mem a1 k) ((PFile, fi) :: L) H F1 Hkm1) as (fo & a2 & F2 & Ha2 & Hn2 & HL2 & Hkm2 & Hlen2);
    [by destruct F1; simpl in *; [lia|]|].
  destruct (km_get_ok MEM_PM_CACHED a2 _ H F2 Hkm2) as (p & pg & a3 & F3 & Ha3 & Hn3 & Hph & HF3 & Hkm3); [by destruct F2; simpl in *; [lia|]|].
  unfold pipe_create. rewrite Ha1. cbn [mbind option_bind]. rewrite Ha2. cbn [mbind option_bind k_mem set_k_mem]. rewrite Ha3. cbn [mbind option_bind].
  rewrite (proj2 (Z.eqb_neq fi NULL)), (proj2 (Z.eqb_neq fo NULL)), (proj2 (Z.eqb_neq pg NULL)) by done. cbn [orb]. cbn zeta.
  assert (Hne : fi ≠ fo) by (intros ->; apply (HL2 PFile), list_elem_of_here).
  exists fdi, fdo, fi, fo, pg. eexists _, F3, p. split; [reflexivity|].
  assert (Hc : ∀ g, cur_proc (set_fd fdo fo (set_fd fdi fi (g : kernel A))) =
    set_files (aset (aset (files (cur_proc g)) fdi fi) fdo fo) (cur_proc g)).
  { intros g. unfold cur_proc, set_fd. cbn [proc_current upd_proc set_k_procs]. by rewrite !upd_proc_eq. }
  destruct (km_inv_nodup _ _ _ _ Hkm3) as (_ & HndH & _). simpl in HndH. apply NoDup_cons in HndH as [HpH _].
  rewrite Hc. unfold pipe_wf, pipe_fifo, set_fd, upd_proc, upd_file, upd_pipe.
  cbn [k_files k_pipes k_mem set_k_procs set_k_files set_k_pipes set_k_mem]. rewrite !fset_eq, (fset_ne _ fo _ fi) by done. rewrite !fset_eq.
  split_and!; try done; try lia; try (by apply Hia; lia); try (by apply Hoa; lia).
  - intros fd Hfd Hne'. destruct (decide (fd < fdi)); [apply Hib; lia|apply Hob; lia].
  - intros Hin. apply (HL2 PFile). by right.
  - set_solver.
Qed.

(** With two free descriptors and memory for the structures, [sys_pipe2]
    succeeds: it stores in the two lowest free descriptors two new files, distinct
    and not allocated before, that share one empty, well-formed pipe held by a page
    that was not in use; the first can only be read and the second only written. *)
Theorem sys_pipe2_correct stale k L H F :
  km_inv (k_mem k) L H F → (3 ≤ length F)%nat → length (files (cur_proc k)) = 12%nat → length stale = 1004%nat →
  fd_scan k (fd_scan k 0 + 1) < 12 →
  ∃ fdi fdo fi fo pg k' F' p, sys_pipe2 stale k = Some (0, (fdi, fdo), k') ∧
    0 ≤ fdi < fdo ∧ fdo < 12 ∧ aget (files (cur_proc k)) fdi = NULL ∧ aget (files (cur_proc k)) fdo = NULL ∧
    (∀ fd, 0 ≤ fd < fdo → fd ≠ fdi → aget (files (cur_proc k)) fd ≠ NULL) ∧
    files (cur_proc k') = aset (aset (files (cur_proc k)) fdi fi) fdo fo ∧
    fi ≠ fo ∧ (PFile, fi) ∉ L ∧ (PFile, fo) ∉ L ∧
    km_inv (k_mem k') ((PFile, fo) :: (PFile, fi) :: L) (p :: H) F' ∧ p ∉ H ∧ PM_PHYSICAL_PAGE pg = PM_PHYSICAL_PAGE p ∧
    f_private (k_files k' fi) = pg ∧ f_private (k_files k' fo) = pg ∧
    f_flags (k_files k' fi) = O_RDONLY ∧ f_flags (k_files k' fo) = O_WRONLY ∧
    pipe_wf k' pg ∧ contents (pipe_fifo k' pg) = [].
Proof.
  intros Hkm HF Hl Hst Hscan. destruct (sys_pipe2_spec stale k L H F Hkm HF Hl Hst Hscan) as
    (fdi & fdo & fi & fo & pg & k' & F' & p & H1 & H2 & H3 & H4 & H5 & H6 & H7 & H8 & _ & _ & H9 & H10 & H11 & H12 & H13 & _ & _ & _ & H14).
  exists fdi, fdo, fi, fo, pg, k', F', p. split_and!; done || lia || apply H14.
Qed.
End refs.

(** ** Witnesses *)

(** A process at 48, the current one, with the terminal file [f] as descriptor 0. *)
Definition demo_fds {A} (f : ptr) (a : A) : kernel A :=
  upd_file f (λ _, mk_file 0 O_RDWR 0 fop_tty 1 0)
    (upd_proc 48 (set_files (f :: replicate 11 0)) (set_proc_current 48 (set_process_list [48] (zero_kernel a)))).

Section demo.
Context (f : ptr) (Hf : f ≠ NULL) (a : kmem pmem).

Lemma demo_fds_refs : all_refs (demo_fds f a) = f :: replicate 11 0.
Proof. reflexivity. Qed.

Lemma demo_fds_count : refs (demo_fds f a) f = 1%nat.
Proof.
  unfold refs. rewrite demo_fds_refs, count_occ_cons_eq by done. f_equal. apply count_occ_not_In.
  intros Hin. apply list_elem_of_In, elem_of_replicate in Hin as [-> _]. done.
Qed.

Lemma demo_fds_procs : procs_ok (demo_fds f a).
Proof.
  split_and!; [apply NoDup_singleton|apply list_elem_of_here| |by rewrite demo_fds_refs].
  by intros p ->%list_elem_of_singleton.
Qed.

Lemma demo_fds_refs_ok L : (PFile, f) ∈ L → refs_ok (demo_fds f a) L.
Proof.
  intros HL g Hg Hin. rewrite demo_fds_refs in Hin. apply elem_of_cons in Hin as [->|Hin].
  - rewrite demo_fds_count. unfold demo_fds, upd_file. cbn [k_files set_k_files]. rewrite fset_eq. by split.
  - by apply elem_of_replicate in Hin as [-> _].
Qed.

Lemma demo_fds_valid : fd_valid (demo_fds f a) 0 = true.
Proof. unfold fd_valid. change (aget _ _) with f. by rewrite (proj2 (Z.eqb_neq f 0)). Qed.

Lemma demo_fds_release H : release_ok (demo_fds f a) f H.
Proof. unfold release_ok, demo_fds, upd_file. cbn [k_files set_k_files]. by rewrite fset_eq. Qed.

Lemma demo_fds_scan : fd_scan (demo_fds f a) 0 = 1.
Proof.
  unfold fd_scan. change (drop _ _) with (f :: replicate 11 0). cbn [scan].
  rewrite (proj2 (Z.eqb_neq 0 f)) by done. reflexivity.
Qed.
End demo.

(** A file allocated in the memory of the example. *)
Lemma demo_file_alloc :
  ∃ (f : ptr) (a : kmem pmem) F, f ≠ NULL ∧ km_inv a [(PFile, f)] [] F.
Proof.
  destruct (km_alloc_ok PFile (kmem_init demo_pmem) [] [] [0x88000000; 0x88000400]) as (f & a & F & _ & Hn & _ & Hinv & _);
    [apply kmem_init_inv, demo_pmem_rep|done|]. by exists f, a, F.
Qed.


Lemma sys_dup_lowest_witness : (sys_dup 0 (demo_fds 16 (kmem_init demo_pmem))).1 = 1.
Proof.
  pose proof (sys_dup_lowest (demo_fds 16 (kmem_init demo_pmem)) 0 eq_refl eq_refl ltac:(lia)) as H.
  destruct (sys_dup _ _) as [fd k'] eqn:Hd. destruct H as [(-> & _ & Hall)|(Hr & Hfree & Hlow & _)].
  - by destruct (Hall 5 ltac:(lia)).
  - simpl. destruct (decide (fd = 0)) as [->|]; [done|]. destruct (decide (1 < fd)) as [Hlt|]; [|lia].
    by destruct (Hlow 1 ltac:(lia)).
Defined.

Lemma sys_dup_close_dangling_witness :
  ∃ (f : ptr) (a : kmem pmem) ret k2 (L' : list (pool_id * ptr)), f ≠ NULL ∧ sys_close 0 (sys_dup 0 (demo_fds f a)).2 = Some (ret, k2) ∧
    aget (files (cur_proc k2)) 1 = f ∧ (PFile, f) ∉ L'.
Proof.
  destruct demo_file_alloc as (f & a & F & Hn & Hinv).
  pose proof (sys_dup_close_dangling (demo_fds f a) 0 [(PFile, f)] [] F (demo_fds_procs f a)
    (demo_fds_refs_ok f Hn a [(PFile, f)] (list_elem_of_here _ _)) Hinv (demo_fds_valid f Hn a) (demo_fds_release f a []))
    as H. specialize (H ltac:(rewrite demo_fds_scan; [lia|done])). specialize (H (demo_fds_count f Hn a)).
  destruct (sys_dup 0 (demo_fds f a)) as [fd' k1] eqn:Hd. destruct H as (ret & k2 & L' & _ & _ & Hc & _ & _ & Hf & HL).
  exists f, a, ret, k2, L'. split; [done|]. rewrite Hd. split; [exact Hc|]. split; [|exact HL].
  replace 1 with fd'; [exact Hf|]. unfold sys_dup in Hd. rewrite demo_fds_scan in Hd by done. by injection Hd.
Defined.

(** Three free pages. *)
Definition demo_pmem3 : pmem :=
  mk_pmem (λ a, if a =? 0x88000000 then 0x88000400 else if a =? 0x88000400 then 0x88000800 else 0) 0x88000000 3.

Lemma demo_pmem3_rep : pm_rep demo_pmem3 [0x88000000; 0x88000400; 0x88000800].
Proof.
  split_and!; [by repeat split|by apply (bool_decide_eq_true_1 (NoDup _))| |done].
  repeat constructor; done.
Qed.

Lemma sys_pipe2_correct_witness :
  ∃ k' pg, sys_pipe2 (replicate 1004 0) (demo_fds 16 (kmem_init demo_pmem3)) = Some (0, (1, 2), k') ∧
    pipe_wf k' pg ∧ f_private (k_files k' (aget (files (cur_proc k')) 1)) = pg.
Proof.
  assert (Hs : fd_scan (demo_fds 16 (kmem_init demo_pmem3)) 0 = 1) by reflexivity.
  destruct (sys_pipe2_correct (replicate 1004 0) (demo_fds 16 (kmem_init demo_pmem3)) [] [] [0x88000000; 0x88000400; 0x88000800])
    as (fdi & fdo & fi & fo & pg & k' & F' & p & Hp & Hr & Hr' & Hni & Hno & Hlow & Hfs & _ & _ & _ & _ & _ & _ & Hpi & _ & _ & _ & Hwf & _).
  - apply kmem_init_inv, demo_pmem3_rep.
  - simpl. lia.
  - reflexivity.
  - reflexivity.
  - rewrite Hs. reflexivity.
  - assert (fdi = 1 ∧ fdo = 2) as [-> ->].
    { assert (fdi ≠ 0) by (intros ->; discriminate). destruct (decide (1 < fdi)); [by destruct (Hlow 1 ltac:(lia) ltac:(lia))|].
      assert (fdi = 1) by lia. subst fdi. destruct (decide (2 < fdo)); [by destruct (Hlow 2 ltac:(lia) ltac:(lia))|]. lia. }
    exists k', pg. split; [exact Hp|]. split; [exact Hwf|]. rewrite Hfs.
    rewrite aget_aset_ne by lia. rewrite aget_aset_eq by (simpl; lia). exact Hpi.
Defined.
