(* ===== verification/MemArea.v ===== *)
(** * Memory areas (src/sys/mem_area.c, src/sys/mem_area.h) and the heap

    The address space of a process is a list of areas; a page of an area is
    allocated when it is first used.  The file models the list operations, page
    faults, resizing, cloning and release, and [sys_sbrk], which resizes the
    heap area. *)

From S2P Require Import Prelude CyclicFifo PhysMem PoolAlloc KMem Pid Mmu PageDir Kernel Pipe VfsFile.

(** src/sys/mem_area.h:32-32: MEM_AREA_TYPE_FILE *)
Definition MEM_AREA_TYPE_FILE : Z := 1.
(** src/sys/mem_area.h:33-33: MEM_AREA_TYPE_ANON *)
Definition MEM_AREA_TYPE_ANON : Z := 2.
(** src/sys/mem_area.h:36-36: MEM_AREA_PROT_R *)
Definition MEM_AREA_PROT_R : Z := 8.
(** src/sys/mem_area.h:37-37: MEM_AREA_PROT_W *)
Definition MEM_AREA_PROT_W : Z := 16.
(** src/sys/mem_area.h:38-38: MEM_AREA_PROT_X *)
Definition MEM_AREA_PROT_X : Z := 32.
(** src/sys/mem_area.h:42-42: MEM_AREA_PARTIAL *)
Definition MEM_AREA_PARTIAL : Z := 64.

Section ops.
Context {A : Type} `{!KMem A}.
Implicit Types (k : kernel A).

(** src/sys/mem_area.c: mem_area_alloc *)
Definition mem_area_alloc k : option (ptr * kernel A) :=
  '(ret, a) ← km_alloc PArea (k_mem k);
  let k := set_k_mem a k in
  if negb (ret =? NULL) then
    Some (ret, upd_area ret (λ x, set_ma_max_size 0 (set_ma_address NULL (set_ma_flags 0 x))) k)
  else Some (ret, k).

(** src/sys/mem_area.c: mem_area_free *)
Definition mem_area_free (area : ptr) k : option (kernel A) :=
  a ← km_free PArea area (k_mem k); Some (set_k_mem a k).

(** src/sys/mem_area.c: mem_area_make_anon *)
Definition mem_area_make_anon (vmaddr : ptr) (size : Z) k : option (ptr * kernel A) :=
  '(area, k) ← mem_area_alloc k;
  if negb (area =? NULL) then
    let flags := Z.lor (Z.lor (Z.lor MEM_AREA_TYPE_ANON MEM_AREA_PROT_R) MEM_AREA_PROT_W) MEM_AREA_PROT_X in
    Some (area, upd_area area (λ x, set_ma_ops aop_anon (set_ma_max_size size (set_ma_address vmaddr (set_ma_flags flags x)))) k)
  else Some (area, k).

(** The test of [mem_area_find]: the address is inside the area. *)
(** src/sys/mem_area.c:92-92: mem_area_find *)
Definition area_has k (address : ptr) (area : ptr) : bool :=
  (ma_address (k_areas k area) <=? address) &&
  (address <? u32 (ma_address (k_areas k area) + ma_max_size (k_areas k area))).

(** src/sys/mem_area.c: mem_area_find *)
Definition mem_area_find k (proc : ptr) (address : ptr) : ptr :=
  nth (scan (area_has k address) (mem_areas (k_procs k proc))) (mem_areas (k_procs k proc)) NULL.

(** The test of [mem_area_check_range]: the area intersects the range. *)
(** src/sys/mem_area.c:112-113: mem_area_check_range *)
Definition area_meets k (addr_begin : ptr) (size : Z) (area : ptr) : bool :=
  (ma_address (k_areas k area) <? u32 (addr_begin + size)) &&
  (addr_begin <? u32 (ma_address (k_areas k area) + ma_max_size (k_areas k area))).

(** src/sys/mem_area.c: mem_area_check_range *)
Definition mem_area_check_range k (proc : ptr) (addr_begin : ptr) (size : Z) : bool :=
  existsb (area_meets k addr_begin size) (mem_areas (k_procs k proc)).

(** src/sys/mem_area.c: mem_area_insert *)
Definition mem_area_insert (proc area : ptr) k : Z * kernel A :=
  if negb (mem_area_check_range k proc (ma_address (k_areas k area)) (ma_max_size (k_areas k area))) then
    (0, upd_proc proc (λ p, set_mem_areas (area :: mem_areas p) p) k)
  else (-1, k).

(** Returns [readsize] and the page; [dest] is the content of the page. *)
(** src/sys/mem_area.c: mem_area_fill_partial_page *)
Definition mem_area_fill_partial_page (area : mem_area) (offset : Z) (dest : list Z) : Z * list Z :=
  let readsize := PM_PAGE_BYTES in
  if (ma_flags area &? MEM_AREA_TYPE_FILE) && (ma_flags area &? MEM_AREA_PARTIAL) then
    if ma_infile area <? u32 (offset + readsize) then
      let '(readsize, zeroed_size) :=
        if offset <? ma_infile area then
          (u32 (ma_infile area - offset), u32 (u32 (offset + PM_PAGE_BYTES) - ma_infile area))
        else (0, readsize) in
      (readsize, memcpy_to dest (Z.to_nat readsize) (replicate (Z.to_nat zeroed_size) 0))
    else (readsize, dest)
  else (readsize, dest).

(** src/sys/mem_area.c: anon_area_pagefault *)
Definition anon_area_pagefault (area : ptr) (addr_fault : ptr) k : option (pm_page * kernel A) :=
  let offset := u32 (addr_fault - ma_address (k_areas k area)) in
  if offset <? ma_max_size (k_areas k area) then
    '(pmaddr, a) ← km_get_page MEM_PM_UNCACHED (k_mem k);
    let k := set_k_mem a k in
    if negb (pmaddr =? NULL) then
      Some (mk_page (PM_PHYSICAL_PAGE pmaddr) (Z.lor MEM_PAGE_PRIVATE MEM_PAGE_VALID), k)
    else Some (mk_page 0 MEM_PAGE_PRIVATE, k)
  else Some (mk_page 0 MEM_PAGE_PRIVATE, k).

(** src/sys/mem_area.c: anon_area_resize *)
Definition anon_area_resize (area : ptr) (new_size : Z) k : Z * kernel A :=
  (0, upd_area area (set_ma_max_size new_size) k).

(** src/fs/casio_smemfs/file.c: smemfs_map_area *)
Definition smemfs_map_area (filep area : ptr) k : Z * kernel A :=
  let k := upd_area area (λ a, set_ma_filep filep (set_ma_ops aop_smemfs a)) k in
  (0, upd_file filep (λ f, set_f_count (s32 (f_count f + 1)) f) k).

(** src/fs/casio_smemfs/file.c: smemfs_area_release *)
Definition smemfs_area_release (area : ptr) k : option (kernel A) :=
  '(_, k) ← vfs_close (ma_filep (k_areas k area)) k; Some k.

(** src/fs/casio_smemfs/file.c: smemfs_area_duplicate *)
Definition smemfs_area_duplicate (orig copy : ptr) k : Z * kernel A :=
  (0, upd_file (ma_filep (k_areas k copy)) (λ f, set_f_count (s32 (f_count f + 1)) f) k).

(** src/sys/mem_area.h: mem_area_release *)
Definition mem_area_release (area : ptr) k : option (kernel A) :=
  k ← match ma_ops (k_areas k area) with
      | aop_smemfs => smemfs_area_release area k
      | aop_anon => Some k
      end;
  mem_area_free area k.

(** src/sys/mem_area.h: mem_area_clone *)
Definition mem_area_clone (area : ptr) k : option (ptr * kernel A) :=
  '(ret, k) ← mem_area_alloc k;
  if negb (ret =? NULL) then
    let k := upd_area ret (λ _, k_areas k area) k in
    match ma_ops (k_areas k area) with
    | aop_smemfs => Some (ret, (smemfs_area_duplicate area ret k).2)
    | aop_anon => Some (ret, k)
    end
  else Some (ret, k).

(** The file operations that can map an area: [smemfs] only. *)
(** src/fs/vfs_file.c: vfs_map_area *)
Definition vfs_map_area (filep : ptr) (size offset : Z) (address : ptr) (flags infile_size : Z) (proc : ptr) k
  : option (Z * kernel A) :=
  match f_op (k_files k filep) with
  | fop_smemfs =>
      '(area, k) ← mem_area_alloc k;
      if area =? NULL then Some (- ENOMEM, k)
      else
        let k := upd_area area (λ a, set_ma_filep filep (set_ma_infile (if flags &? MEM_AREA_PARTIAL then infile_size else size)
                   (set_ma_base offset (set_ma_flags (Z.lor flags MEM_AREA_TYPE_FILE) (set_ma_max_size size (set_ma_address address a)))))) k in
        let '(ret, k) := smemfs_map_area filep area k in
        if ret =? 0 then Some (mem_area_insert proc area k)
        else k ← mem_area_free area k; Some (ret, k)
  | _ => Some (- EINVAL, k)
  end.
End ops.

(** ** Resizing releases pages of the process *)

Section resize.
Context {M : Type} `{!PageMem M}.
Implicit Types (k : kernel (kmem M)).

(** [page = mem_find_page(...); if(page != NULL) mem_release_page(page);] on the
    directories: the descriptor is updated in place. *)
(** src/sys/mem_area.c:156-159: mem_area_resize *)
Fixpoint release_at (dirs : list page_dir) (addr : ptr) (m : M) : option (list page_dir * M) :=
  match dirs with
  | [] => Some ([], m)
  | cur :: next =>
      if dir_id cur <? MEM_ADDRESS_DIRECTORY addr then
        '(next, m) ← release_at next addr m; Some (cur :: next, m)
      else if dir_id cur =? MEM_ADDRESS_DIRECTORY addr then
        match pages cur !! Z.to_nat (MEM_ADDRESS_INDEX addr) with
        | Some page => '(page, m) ← mem_release_page page m; Some (dir_set cur page addr :: next, m)
        | None => Some (dirs, m)
        end
      else Some (dirs, m)
  end.

(** The loop over the pages to release. *)
(** src/sys/mem_area.c:153-160: mem_area_resize *)
Fixpoint release_range (n : nat) (new_last_page old_last_page : ptr) (dirs : list page_dir) (m : M)
  : option (list page_dir * M) :=
  match n with
  | O => Some (dirs, m)
  | S n =>
      if new_last_page <? old_last_page then
        '(dirs, m) ← release_at dirs new_last_page m;
        release_range n (new_last_page + 1024) old_last_page dirs m
      else Some (dirs, m)
  end.

(** [4194304] pages cover the address space. *)
(** src/sys/mem_area.c: mem_area_resize *)
Definition mem_area_resize (area : ptr) (new_size : Z) (proc : ptr) k : option (Z * kernel (kmem M)) :=
  let old_size := ma_max_size (k_areas k area) in
  let '(ret, k) :=
    match ma_ops (k_areas k area) with
    | aop_anon => anon_area_resize area new_size k
    | aop_smemfs => (0, upd_area area (set_ma_max_size new_size) k)
    end in
  let new_size := ma_max_size (k_areas k area) in
  if (ret =? 0) && (new_size <? old_size) then
    let old_last_page := MEM_PAGE_BEGINING (u32 (ma_address (k_areas k area) + old_size)) in
    let new_last_page := MEM_PAGE_BEGINING (u32 (ma_address (k_areas k area) + new_size)) in
    '(dirs, m) ← release_range (Z.to_nat 4194304) new_last_page old_last_page (dir_list (k_procs k proc)) (km_mem (k_mem k));
    Some (ret, upd_proc proc (set_dir_list dirs) (set_k_mem (mk_kmem m (km_pools (k_mem k))) k))
  else Some (ret, k).

(** src/sys/process.c: sys_sbrk *)
Definition sys_sbrk (incr : Z) k : option (Z * kernel (kmem M)) :=
  let cur := proc_current k in
  let heap := heap_area (k_procs k cur) in
  '(heap, k) ←
    (if (heap =? NULL) && negb (initial_brk (k_procs k cur) =? NULL) then
       let brk := initial_brk (k_procs k cur) in
       let brk_align := brk mod PM_PAGE_BYTES in
       let real_brk := if brk_align =? 0 then brk else u32 (brk + (PM_PAGE_BYTES - brk_align)) in
       '(heap, k) ← mem_area_make_anon real_brk 0 k;
       let k := (mem_area_insert cur heap k).2 in
       Some (heap, upd_proc cur (set_heap_area heap) k)
     else Some (heap, k));
  if negb (heap =? NULL) then
    let ret := ma_address (k_areas k heap) in
    let max := ma_max_size (k_areas k heap) in
    let new_size := if (incr <? 0) && (max <? u32 (- incr)) then 0 else u32 (max + incr) in
    '(_, k) ← mem_area_resize heap new_size cur k;
    Some (ret, k)
  else Some (u32 (-1), k).
End resize.

(** ** Lists of areas *)

Section areas.
Context {A : Type} `{!KMem A}.
Implicit Types (k : kernel A).

Definition area_begin k (a : ptr) : Z := ma_address (k_areas k a).
Definition area_end k (a : ptr) : Z := ma_address (k_areas k a) + ma_max_size (k_areas k a).

(** The areas do not wrap around the end of the address space. *)
Definition area_ok k (a : ptr) : Prop :=
  a ≠ NULL ∧ 0 ≤ area_begin k a ∧ area_begin k a ≤ area_end k a < 2 ^ 32.

(** No two areas of the list share an address. *)
Fixpoint areas_disjoint k (l : list ptr) : Prop :=
  match l with
  | [] => True
  | a :: l =>
      (∀ b, b ∈ l → ∀ x, ¬ (area_begin k a ≤ x < area_end k a ∧ area_begin k b ≤ x < area_end k b)) ∧
      areas_disjoint k l
  end.

Lemma areas_disjoint_ext k k' l : k_areas k' = k_areas k → areas_disjoint k l → areas_disjoint k' l.
Proof.
  intros Heq. induction l as [|a l IH]; [done|]. intros [H Hl]. split; [|by apply IH].
  intros b Hb x. unfold area_begin, area_end. rewrite Heq. by apply H.
Qed.

Lemma area_has_iff k x a : area_ok k a → area_has k x a = true ↔ area_begin k a ≤ x < area_end k a.
Proof.
  intros (_ & H1 & H2). unfold area_has. fold (area_end k a) (area_begin k a).
  rewrite u32_small by lia. rewrite andb_true_iff, Z.leb_le, Z.ltb_lt. done.
Qed.

Lemma area_meets_iff k b sz a :
  area_ok k a → 0 ≤ b ≤ b + sz → b + sz < 2 ^ 32 →
  area_meets k b sz a = true ↔ area_begin k a < b + sz ∧ b < area_end k a.
Proof.
  intros (_ & H1 & H2) Hb Hs. unfold area_meets. fold (area_end k a) (area_begin k a).
  rewrite !u32_small by lia. by rewrite andb_true_iff, !Z.ltb_lt.
Qed.


(** [mem_area_find] returns an area of the process that contains the address
    when there is one, and NULL otherwise. *)
Theorem mem_area_find_correct k p x :
  Forall (area_ok k) (mem_areas (k_procs k p)) → areas_disjoint k (mem_areas (k_procs k p)) →
  (mem_area_find k p x = NULL ↔ ∀ b, b ∈ mem_areas (k_procs k p) → ¬ area_begin k b ≤ x < area_end k b) ∧
  (∀ b, b ∈ mem_areas (k_procs k p) → area_begin k b ≤ x < area_end k b → mem_area_find k p x = b).
Proof.
  intros Hok Hdis. unfold mem_area_find. induction (mem_areas (k_procs k p)) as [|a l IH]; [split; [simpl; set_solver|set_solver]|].
  apply Forall_cons in Hok as [Ha Hok]. destruct Hdis as [Hd Hdis]. specialize (IH Hok Hdis) as [IH1 IH2].
  cbn [scan]. destruct (area_has k x a) eqn:Hx.
  - apply (area_has_iff k x a Ha) in Hx. cbn [nth]. split.
    + split; [by destruct Ha|]. intros H. by destruct (H a (list_elem_of_here _ _)).
    + intros b [->|Hb]%elem_of_cons Hbx; [done|]. by destruct (Hd b Hb x).
  - assert (Hx' : ¬ area_begin k a ≤ x < area_end k a) by (rewrite <- area_has_iff; [congruence|done]).
    cbn [nth]. split.
    + rewrite IH1. split; [intros H b [->|Hb]%elem_of_cons; [done|by apply H]|]. intros H b Hb. apply H. by right.
    + intros b [->|Hb]%elem_of_cons Hbx; [done|by apply IH2].
Qed.
End areas.

Lemma fill_partial_spec area offset dest :
  (ma_flags area &? MEM_AREA_TYPE_FILE) = true → (ma_flags area &? MEM_AREA_PARTIAL) = true →
  0 ≤ offset → offset + 1024 < 2 ^ 32 → 0 ≤ ma_infile area < 2 ^ 32 → length dest = 1024%nat →
  let '(n, page) := mem_area_fill_partial_page area offset dest in
  n = Z.max 0 (Z.min 1024 (ma_infile area - offset)) ∧ length page = 1024%nat ∧
  (∀ i, (i < Z.to_nat n)%nat → page !! i = dest !! i) ∧
  (∀ i, (Z.to_nat n ≤ i < 1024)%nat → page !! i = Some 0).
Proof.
  intros Hf Hp Ho Ho' Hi Hd. unfold mem_area_fill_partial_page. rewrite Hf, Hp, !page_bytes. cbn [andb].
  rewrite (u32_small (offset + 1024)) by lia.
  destruct (Z.ltb_spec (ma_infile area) (offset + 1024)) as [Hlt|Hge].
  2: { split_and!; [lia|done|done|lia]. }
  assert (Hgen : ∀ n z, 0 ≤ n ≤ 1024 → z = 1024 - n →
    length (memcpy_to dest (Z.to_nat n) (replicate (Z.to_nat z) 0)) = 1024%nat ∧
    (∀ i, (i < Z.to_nat n)%nat → memcpy_to dest (Z.to_nat n) (replicate (Z.to_nat z) 0) !! i = dest !! i) ∧
    (∀ i, (Z.to_nat n ≤ i < 1024)%nat → memcpy_to dest (Z.to_nat n) (replicate (Z.to_nat z) 0) !! i = Some 0)).
  { intros n z Hn ->. rewrite memcpy_to_length. split; [done|]. rewrite memcpy_to_spec by (rewrite length_replicate; lia). split.
    - intros i Hi'. rewrite lookup_app_l by (rewrite length_take; lia). apply lookup_take_lt. lia.
    - intros i Hi'. rewrite lookup_app_r by (rewrite length_take; lia). rewrite lookup_app_l by (rewrite length_take, length_replicate; lia).
      apply lookup_replicate. split; [done|]. rewrite length_take. lia. }
  destruct (Z.ltb_spec offset (ma_infile area)) as [Hlo|Hlo].
  - rewrite !u32_small by lia. split; [lia|]. apply Hgen; lia.
  - split; [lia|]. apply (Hgen 0 1024); lia.
Qed.

(** [mem_area_fill_partial_page] splits the page at the end of the data of the
    file: the bytes to read from the file are those below [infile_size], clamped to
    the page, and every byte of the page from there on is zeroed. *)
Theorem fill_partial_page_correct area offset dest :
  (ma_flags area &? MEM_AREA_TYPE_FILE) = true → (ma_flags area &? MEM_AREA_PARTIAL) = true →
  0 ≤ offset → offset + 1024 < 2 ^ 32 → 0 ≤ ma_infile area < 2 ^ 32 → length dest = 1024%nat →
  let '(n, page) := mem_area_fill_partial_page area offset dest in
  n = Z.max 0 (Z.min 1024 (ma_infile area - offset)) ∧ length page = 1024%nat ∧
  (∀ i, (i < Z.to_nat n)%nat → page !! i = dest !! i) ∧
  (∀ i, (Z.to_nat n ≤ i < 1024)%nat → page !! i = Some 0).
Proof. apply fill_partial_spec. Qed.

(** ** Shrinking an area *)

Section shrink.
Context {M : Type} `{!PageMem M}.
Implicit Types (m : M) (dirs : list page_dir).

(** The physical pages the directories own. *)
Definition owned_all dirs : list Z := flat_map (λ d, owned_ppns (pages d)) dirs.

(** The directories own the pages [xs], each once, and the pages [F] are free. *)
Record mem_own dirs (xs F : list ptr) m : Prop := {
  own_wf : dirs_wf dirs;
  own_private : ∀ d p, d ∈ dirs → p ∈ pages d → (pflags p &? MEM_PAGE_VALID) = true → (pflags p &? MEM_PAGE_PRIVATE) = true;
  own_inv : pg_inv m F;
  own_ppns : owned_all dirs ≡ₚ PM_PHYSICAL_PAGE <$> xs;
  own_pages : Forall page_ok xs;
  own_nodup : NoDup (xs ++ F)
}.

Lemma release_at_shape dirs addr m :
  (mem_find_page dirs addr = None ∧ release_at dirs addr m = Some (dirs, m)) ∨
  ∃ d1 cur d2 page, dirs = d1 ++ cur :: d2 ∧ dir_id cur = MEM_ADDRESS_DIRECTORY addr ∧
    pages cur !! Z.to_nat (MEM_ADDRESS_INDEX addr) = Some page ∧ mem_find_page dirs addr = Some page ∧
    release_at dirs addr m = ('(page, m) ← mem_release_page page m; Some (d1 ++ dir_set cur page addr :: d2, m)).
Proof.
  induction dirs as [|c dirs IH]; [by left|]. cbn [release_at mem_find_page].
  destruct (Z.ltb_spec (dir_id c) (MEM_ADDRESS_DIRECTORY addr)).
  - destruct IH as [[Hf Hr]|(d1 & cur & d2 & page & -> & Hid & Hp & Hf & Hr)].
    + left. split; [done|]. rewrite Hr. done.
    + right. exists (c :: d1), cur, d2, page. split_and!; try done. rewrite Hr.
      destruct (mem_release_page page m) as [[page' m']|]; done.
  - destruct (Z.eqb_spec (dir_id c) (MEM_ADDRESS_DIRECTORY addr)); [|by left].
    destruct (pages c !! _) as [page|] eqn:Hp; [|by left]. right. by exists [], c, dirs, page.
Qed.

Lemma dirs_wf_mid d1 c d2 : dirs_wf (d1 ++ c :: d2) → length (pages c) = 32%nat ∧ ∀ d, d ∈ d1 → dir_id d < dir_id c.
Proof.
  induction d1 as [|x d1 IH]; simpl; intros (H1 & H2 & H3); [split; [done|set_solver]|].
  destruct (IH H3) as [H4 H5]. split; [done|]. intros d [->|Hd]%elem_of_cons; [apply H2, elem_of_mid|auto].
Qed.

Lemma dirs_wf_upd d1 c c' d2 :
  dir_id c' = dir_id c → length (pages c') = length (pages c) → dirs_wf (d1 ++ c :: d2) → dirs_wf (d1 ++ c' :: d2).
Proof.
  intros Hid Hl. induction d1 as [|x d1 IH]; simpl.
  - rewrite Hl, Hid. done.
  - intros (H1 & H2 & H3). split_and!; [done| |auto]. intros d Hd.
    apply elem_of_app in Hd as [Hd|[->|Hd]%elem_of_cons]; [apply H2; set_solver| |apply H2; set_solver].
    rewrite Hid. apply H2, elem_of_mid.
Qed.

Lemma find_upd d1 cur d2 page addr a :
  dirs_wf (d1 ++ cur :: d2) → dir_id cur = MEM_ADDRESS_DIRECTORY addr →
  mem_find_page (d1 ++ dir_set cur page addr :: d2) a =
  if decide (addr / 1024 = a / 1024) then Some page else mem_find_page (d1 ++ cur :: d2) a.
Proof.
  intros Hwf Hid. destruct (dirs_wf_mid _ _ _ Hwf) as [Hlen Hlt].
  induction d1 as [|c d1 IH].
  - rewrite !app_nil_l, !find_cons. cbn [dir_id dir_set]. rewrite Hid.
    destruct (Z.ltb_spec (MEM_ADDRESS_DIRECTORY addr) (MEM_ADDRESS_DIRECTORY a)) as [Hl|Hl].
    { rewrite decide_False; [done|]. intros He%page_same. lia. }
    destruct (Z.eqb_spec (MEM_ADDRESS_DIRECTORY addr) (MEM_ADDRESS_DIRECTORY a)) as [He|He].
    + rewrite (dir_set_lookup addr page cur) by done. case_decide as Hi; case_decide as Hd; try done.
      * destruct Hd. by apply same_page.
      * destruct Hi. by apply page_same in Hd as [_ Hd].
    + rewrite decide_False; [done|]. intros [Hp _]%page_same. by apply He.
  - simpl in Hwf. destruct Hwf as (_ & _ & Hwf). rewrite <- !app_comm_cons, !find_cons, IH; [|done|intros d Hd; apply Hlt; by right].
    specialize (Hlt c (list_elem_of_here _ _)). rewrite Hid in Hlt. destruct (Z.ltb_spec (dir_id c) (MEM_ADDRESS_DIRECTORY a)); [done|].
    rewrite decide_False; [done|]. intros Hp%page_same. lia.
Qed.

(** Clearing the valid bit of an entry removes its page from the owned ones. *)
Lemma owned_upd d1 cur d2 page addr flags :
  0 ≤ MEM_ADDRESS_INDEX addr → pages cur !! Z.to_nat (MEM_ADDRESS_INDEX addr) = Some page →
  (pflags page &? MEM_PAGE_PRIVATE) && (pflags page &? MEM_PAGE_VALID) = true → (flags &? MEM_PAGE_VALID) = false →
  owned_all (d1 ++ cur :: d2) ≡ₚ ppn page :: owned_all (d1 ++ dir_set cur (mk_page (ppn page) flags) addr :: d2).
Proof.
  intros Hi Hp Hv Hfl. unfold owned_all. rewrite !flat_map_app. simpl.
  assert (Hc : owned_ppns (pages cur) ≡ₚ ppn page :: owned_ppns (aset (pages cur) (MEM_ADDRESS_INDEX addr) (mk_page (ppn page) flags))).
  { unfold owned_ppns, aset. rewrite insert_take_drop by (by eapply lookup_lt_Some).
    rewrite <- (take_drop_middle _ _ _ Hp) at 1. rewrite !filter_app, !filter_cons. rewrite Hv. cbn [pflags].
    rewrite Hfl, andb_false_r. simpl. rewrite !fmap_app. simpl. by rewrite <- Permutation_middle. }
  rewrite Hc. simpl. by rewrite <- Permutation_middle.
Qed.

Lemma valid_cleared fl : (Z.land fl (Z.lnot MEM_PAGE_VALID) &? MEM_PAGE_VALID) = false.
Proof.
  change MEM_PAGE_VALID with (2 ^ 1). rewrite flag_set_bit by lia. rewrite Z.land_spec, Z.lnot_spec by lia.
  change (2 ^ 1) with 2. by rewrite andb_false_r.
Qed.

Lemma release_at_spec dirs addr m F xs :
  mem_own dirs xs F m →
  ∃ dirs' m' xs' F', release_at dirs addr m = Some (dirs', m') ∧ mem_own dirs' xs' F' m' ∧ xs ++ F ≡ₚ xs' ++ F' ∧
    ∀ a, translate dirs' a = if decide (addr / 1024 = a / 1024) then None else translate dirs a.
Proof.
  intros [Hwf Hpriv Hi Hx Hok Hnd].
  assert (Hsame : translate dirs addr = None → ∀ a, translate dirs a = if decide (addr / 1024 = a / 1024) then None else translate dirs a).
  { intros Hn a. case_decide as Hd; [|done]. rewrite <- Hn. unfold translate.
    assert (Hff : mem_find_page dirs a = mem_find_page dirs addr); [|by rewrite Hff].
    apply page_same in Hd as [Hd1 Hd2]. clear -Hd1 Hd2. induction dirs as [|c dirs IH]; [done|]. simpl. by rewrite Hd1, Hd2, IH. }
  destruct (release_at_shape dirs addr m) as [[Hf Hr]|(d1 & cur & d2 & page & -> & Hid & Hp & Hf & Hr)].
  { exists dirs, m, xs, F. split_and!; [done|by split|done|]. apply Hsame. unfold translate. by rewrite Hf. }
  rewrite Hr. unfold mem_release_page. destruct ((pflags page &? MEM_PAGE_PRIVATE) && (pflags page &? MEM_PAGE_VALID)) eqn:Hv.
  - pose proof (owned_upd d1 cur d2 page addr (Z.land (pflags page) (Z.lnot MEM_PAGE_VALID)) (proj1 (index_range addr)) Hp Hv (valid_cleared _)) as Ho.
    rewrite Hx in Ho. symmetry in Ho. destruct (Permutation_map_inv _ _ Ho) as (ys & Hys & Hyp). destruct ys as [|y ys]; [done|]. simpl in Hys. injection Hys as Hy Hys.
    rewrite Hyp in Hok, Hnd. apply Forall_cons in Hok as [Hyok Hok]. simpl in Hnd. apply NoDup_cons in Hnd as [Hyn Hnd].
    destruct (pg_release_inv m F y (PM_PHYSICAL_ADDR (ppn page)) Hi Hyok) as (m' & Hrel & Hi' & _); [set_solver|rewrite Hy; by apply release_addr_page|].
    rewrite Hrel. cbn [mbind option_bind].
    eexists _, m', ys, (y :: F). split; [done|].
    assert (Hwf' : dirs_wf (d1 ++ dir_set cur (mk_page (ppn page) (Z.land (pflags page) (Z.lnot MEM_PAGE_VALID))) addr :: d2)).
    { eapply dirs_wf_upd; [..|exact Hwf]; [done|]. cbn. apply aset_length. }
    split; [split; [exact Hwf'| |exact Hi'|by rewrite Hys|exact Hok|]|split].
    + intros d p Hd Hpd Hpv. apply elem_of_app in Hd as [Hd|[->|Hd]%elem_of_cons]; [eapply Hpriv; [|done..]; set_solver| |eapply Hpriv; [|done..]; set_solver].
      cbn [pages dir_set] in Hpd. apply list_elem_of_lookup in Hpd as (j & Hj). unfold aset in Hj. apply list_lookup_insert_Some in Hj as [(_ & <- & _)|(_ & Hj)].
      * cbn [pflags] in Hpv. by rewrite valid_cleared in Hpv.
      * eapply (Hpriv cur); [apply elem_of_mid|by eapply list_elem_of_lookup_2|done].
    + rewrite <- Permutation_middle. by constructor.
    + rewrite Hyp. simpl. by rewrite <- Permutation_middle.
    + intros a. unfold translate. rewrite find_upd by done. case_decide; [|done]. simpl. by rewrite valid_cleared.
  - cbn [mbind option_bind]. exists (d1 ++ dir_set cur page addr :: d2), m, xs, F.
    assert (Hds : dir_set cur page addr = cur).
    { destruct cur as [self id ps]. unfold dir_set, aset. cbn in *. f_equal. by apply list_insert_id. }
    rewrite Hds. split_and!; [done|by split|done|]. apply Hsame. unfold translate. rewrite Hf. simpl.
    destruct (pflags page &? MEM_PAGE_VALID) eqn:Hval; [|done].
    rewrite (Hpriv cur page) in Hv; [done|apply elem_of_mid|by eapply list_elem_of_lookup_2|done].
Qed.

Lemma release_range_spec n a b dirs m F xs :
  mem_own dirs xs F m → a mod 1024 = 0 → b mod 1024 = 0 → b - a ≤ 1024 * Z.of_nat n →
  ∃ dirs' m' xs' F', release_range n a b dirs m = Some (dirs', m') ∧ mem_own dirs' xs' F' m' ∧ xs ++ F ≡ₚ xs' ++ F' ∧
    ∀ x, translate dirs' x = if decide (a ≤ x < b) then None else translate dirs x.
Proof.
  revert a dirs m F xs. induction n as [|n IH]; intros a dirs m F xs Hown Ha Hb Hn; cbn [release_range].
  { exists dirs, m, xs, F. split_and!; try done. intros x. by rewrite decide_False by lia. }
  destruct (Z.ltb_spec a b) as [Hlt|Hge].
  - destruct (release_at_spec dirs a m F xs Hown) as (d1 & m1 & xs1 & F1 & -> & Hown1 & Hp1 & Ht1). cbn [mbind option_bind].
    destruct (IH (a + 1024) d1 m1 F1 xs1 Hown1) as (d2 & m2 & xs2 & F2 & -> & Hown2 & Hp2 & Ht2);
      [replace (a + 1024) with (a + 1 * 1024) by lia; by rewrite Z.mod_add|done|lia|].
    exists d2, m2, xs2, F2. split_and!; [done..|by rewrite Hp1|]. intros x. rewrite Ht2, Ht1.
    destruct (decide (a + 1024 ≤ x < b)); [by rewrite decide_True by lia|].
    pose proof (Z.div_mod a 1024). pose proof (Z.div_mod b 1024). pose proof (Z.div_mod x 1024). pose proof (Z.mod_pos_bound x 1024).
    destruct (decide (a / 1024 = x / 1024)); [rewrite decide_True by lia|rewrite decide_False by lia]; done.
  - exists dirs, m, xs, F. split_and!; try done. intros x. by rewrite decide_False by lia.
Qed.

Lemma page_aligned y : (y - y mod 1024) mod 1024 = 0.
Proof.
  pose proof (Z.div_mod y 1024). replace (y - y mod 1024) with (y / 1024 * 1024) by lia. by apply Z.mod_mul.
Qed.

Lemma page_begining a : 0 ≤ a < 2 ^ 32 → MEM_PAGE_BEGINING a = a - a mod 1024.
Proof. intros Ha. unfold MEM_PAGE_BEGINING. by apply land_page_mask. Qed.

Lemma resize_shrink_spec (k : kernel (kmem M)) area new_size p xs F :
  area_ok k area → 0 ≤ new_size < ma_max_size (k_areas k area) →
  mem_own (dir_list (k_procs k p)) xs F (km_mem (k_mem k)) →
  let first := area_begin k area + new_size - (area_begin k area + new_size) mod 1024 in
  let last := area_end k area - area_end k area mod 1024 in
  ∃ k' xs' F', mem_area_resize area new_size p k = Some (0, k') ∧ ma_max_size (k_areas k' area) = new_size ∧
    ma_address (k_areas k' area) = ma_address (k_areas k area) ∧
    mem_own (dir_list (k_procs k' p)) xs' F' (km_mem (k_mem k')) ∧ xs ++ F ≡ₚ xs' ++ F' ∧
    ∀ x, translate (dir_list (k_procs k' p)) x =
      if decide (first ≤ x < last) then None else translate (dir_list (k_procs k p)) x.
Proof.
  intros (_ & H1 & H2) Hn Hown first last. unfold mem_area_resize.
  assert (Hup : (match ma_ops (k_areas k area) with aop_anon => anon_area_resize area new_size k | aop_smemfs => (0, upd_area area (set_ma_max_size new_size) k) end)
    = (0, upd_area area (set_ma_max_size new_size) k)) by (by destruct (ma_ops (k_areas k area))).
  rewrite Hup. clear Hup. cbn zeta. rewrite !upd_area_eq. cbn [ma_max_size ma_address set_ma_max_size].
  rewrite (proj2 (Z.ltb_lt _ _)) by lia. cbn [Z.eqb andb]. fold (area_begin k area) (area_end k area).
  unfold area_begin, area_end in *. rewrite !u32_small by lia. rewrite !page_begining by lia.
  destruct (release_range_spec (Z.to_nat 4194304) first last (dir_list (k_procs k p)) (km_mem (k_mem k)) F xs Hown)
    as (d' & m' & xs' & F' & Hr & Hown' & Hp' & Ht').
  { apply page_aligned. }
  { apply page_aligned. }
  { unfold first, last. pose proof (Z.mod_pos_bound (ma_address (k_areas k area) + new_size) 1024).
    pose proof (Z.mod_pos_bound (ma_address (k_areas k area) + ma_max_size (k_areas k area)) 1024).
    pose proof (Z.mod_le (ma_address (k_areas k area) + new_size) 1024). lia. }
  change (k_procs (upd_area _ _ k)) with (k_procs k). change (k_mem (upd_area _ _ k)) with (k_mem k).
  unfold first, last in Hr. rewrite Hr. cbn [mbind option_bind]. eexists _, xs', F'. split; [done|].
  rewrite upd_proc_eq. cbn [dir_list set_dir_list k_mem k_areas upd_proc set_k_procs set_k_mem km_mem].
  rewrite upd_area_eq. by split_and!.
Qed.

(** Shrinking an area succeeds and sets its size; the pages unmapped, and given
    back to the page allocator, are exactly those from the page that contains the
    new end of the area up to, and not including, the page that contains the old
    end; every other address of the process keeps its translation. *)
Theorem mem_area_shrink_correct (k : kernel (kmem M)) area new_size p xs F :
  area_ok k area → 0 ≤ new_size < ma_max_size (k_areas k area) →
  mem_own (dir_list (k_procs k p)) xs F (km_mem (k_mem k)) →
  let first := area_begin k area + new_size - (area_begin k area + new_size) mod 1024 in
  let last := area_end k area - area_end k area mod 1024 in
  ∃ k' xs' F', mem_area_resize area new_size p k = Some (0, k') ∧ ma_max_size (k_areas k' area) = new_size ∧
    mem_own (dir_list (k_procs k' p)) xs' F' (km_mem (k_mem k')) ∧ xs ++ F ≡ₚ xs' ++ F' ∧
    ∀ x, translate (dir_list (k_procs k' p)) x =
      if decide (first ≤ x < last) then None else translate (dir_list (k_procs k p)) x.
Proof.
  intros Ha Hn Hown first last.
  destruct (resize_shrink_spec k area new_size p xs F Ha Hn Hown) as (k' & xs' & F' & H1 & H2 & _ & H3).
  by exists k', xs', F'.
Qed.

(** Shrinking an area to a size that does not end on a page boundary, past a
    page, unmaps the last byte that is still in the area: its page is released. *)
Theorem mem_area_shrink_drops_live_byte (k : kernel (kmem M)) area new_size p xs F :
  area_ok k area → 0 < new_size < ma_max_size (k_areas k area) →
  mem_own (dir_list (k_procs k p)) xs F (km_mem (k_mem k)) →
  (area_begin k area + new_size) mod 1024 ≠ 0 →
  (area_begin k area + new_size) / 1024 < area_end k area / 1024 →
  ∃ k', mem_area_resize area new_size p k = Some (0, k') ∧
    area_begin k' area ≤ area_begin k area + new_size - 1 < area_end k' area ∧
    translate (dir_list (k_procs k' p)) (area_begin k area + new_size - 1) = None.
Proof.
  intros Ha Hn Hown Hmod Hpg.
  destruct (resize_shrink_spec k area new_size p xs F Ha ltac:(lia) Hown) as (k' & xs' & F' & Hr & Hmax & Haddr & _ & _ & Ht).
  exists k'. split; [done|]. unfold area_begin, area_end in *. rewrite Hmax, Haddr. split; [lia|]. rewrite Ht. apply decide_True.
  pose proof (Z.div_mod (ma_address (k_areas k area) + new_size) 1024).
  pose proof (Z.div_mod (ma_address (k_areas k area) + ma_max_size (k_areas k area)) 1024).
  pose proof (Z.mod_pos_bound (ma_address (k_areas k area) + new_size) 1024).
  pose proof (Z.mod_pos_bound (ma_address (k_areas k area) + ma_max_size (k_areas k area)) 1024). lia.
Qed.
End shrink.

(** ** Witnesses *)

(** Process 48 with one anonymous area of two pages at 0x10000000, of which the
    first is present. *)
Definition demo_mem : pmem := mk_pmem (λ a, if a =? 0x88000000 then 0x88000800 else 0) 0x88000000 2.

Definition demo_areas : kernel (kmem pmem) :=
  upd_area 96 (λ _, mk_area 58 0x10000000 2048 aop_anon 0 0 0)
    (upd_area 128 (λ _, mk_area 58 0x10000800 1024 aop_anon 0 0 0)
      (upd_proc 48 (λ p, set_mem_areas [96] (set_dir_list [demo_dir] p)) (set_proc_current 48 (zero_kernel (kmem_init demo_mem))))).

Lemma demo_mem_own : mem_own [demo_dir] [0x88000400] [0x88000000; 0x88000800] demo_mem.
Proof.
  split.
  - split; [done|]. split; [set_solver|done].
  - intros d p ->%list_elem_of_singleton [->|Hp]%elem_of_cons; [done|].
    apply elem_of_replicate in Hp as [-> _]. done.
  - split_and!; [by repeat split|by apply (bool_decide_eq_true_1 (NoDup _))|repeat constructor; done|done].
  - done.
  - by repeat constructor.
  - by apply (bool_decide_eq_true_1 (NoDup _)).
Qed.

Lemma demo_area_ok a : a = 96 ∨ a = 128 → area_ok demo_areas a.
Proof. intros [->| ->]; split_and!; done. Qed.


Lemma mem_area_find_correct_witness :
  mem_area_find demo_areas 48 0x100007FF = 96 ∧ mem_area_find demo_areas 48 0x10000800 = NULL.
Proof.
  assert (Hok : Forall (area_ok demo_areas) (mem_areas (k_procs demo_areas 48))) by (by apply Forall_singleton, demo_area_ok; left).
  assert (Hd : areas_disjoint demo_areas (mem_areas (k_procs demo_areas 48))) by (split; [set_solver|done]).
  split.
  - apply (proj2 (mem_area_find_correct demo_areas 48 0x100007FF Hok Hd)); [set_solver|]. split; done.
  - apply (proj1 (mem_area_find_correct demo_areas 48 0x10000800 Hok Hd)).
    intros b ->%list_elem_of_singleton. unfold area_begin, area_end. cbn. lia.
Defined.

Lemma fill_partial_page_correct_witness :
  (mem_area_fill_partial_page (mk_area 65 0 4096 aop_smemfs 0 0 1500) 1024 (replicate 1024 7)).1 = 476.
Proof.
  pose proof (fill_partial_page_correct (mk_area 65 0 4096 aop_smemfs 0 0 1500) 1024 (replicate 1024 7)
    eq_refl eq_refl ltac:(lia) ltac:(lia) ltac:(simpl; lia) ltac:(by rewrite length_replicate)) as H.
  destruct (mem_area_fill_partial_page _ _ _) as [n page]. destruct H as (-> & _). reflexivity.
Defined.

Lemma mem_area_shrink_correct_witness :
  ∃ k', mem_area_resize 96 0 48 demo_areas = Some (0, k') ∧ translate (dir_list (k_procs k' 48)) 0x10000004 = None.
Proof.
  destruct (mem_area_shrink_correct demo_areas 96 0 48 [0x88000400] [0x88000000; 0x88000800]) as (k' & xs & F & Hr & _ & _ & _ & Ht).
  - apply demo_area_ok. auto.
  - cbn. lia.
  - exact demo_mem_own.
  - exists k'. split; [exact Hr|]. rewrite Ht. apply decide_True. vm_compute. split; congruence.
Defined.

Lemma mem_area_shrink_drops_live_byte_witness :
  ∃ k', mem_area_resize 96 100 48 demo_areas = Some (0, k') ∧
    translate (dir_list (k_procs demo_areas 48)) 0x10000063 = Some 0x20001 ∧
    translate (dir_list (k_procs k' 48)) 0x10000063 = None.
Proof.
  destruct (mem_area_shrink_drops_live_byte demo_areas 96 100 48 [0x88000400] [0x88000000; 0x88000800]) as (k' & Hr & _ & Ht).
  - apply demo_area_ok. auto.
  - cbn. lia.
  - exact demo_mem_own.
  - by vm_compute.
  - by vm_compute.
  - exists k'. split; [exact Hr|]. split; [reflexivity|exact Ht].
Defined.

(** The result of [sbrk] is the beginning of the heap whatever its size: two calls in a
    row give the same address, and the second one does not give the memory it added. *)
Lemma sys_sbrk_beginning {M} `{!PageMem M} incr (k k' : kernel (kmem M)) ret : heap_area (k_procs k (proc_current k)) ≠ NULL →
  sys_sbrk incr k = Some (ret, k') → ret = ma_address (k_areas k (heap_area (k_procs k (proc_current k)))).
Proof.
  intros Hh. unfold sys_sbrk. rewrite (proj2 (Z.eqb_neq _ _) Hh). cbn [andb mbind option_bind]. rewrite (proj2 (Z.eqb_neq _ _) Hh). cbn [negb].
  intros H. destruct (mem_area_resize _ _ _ k) as [[r k1]|]; cbn [mbind option_bind] in H; congruence.
Qed.

Example sbrk_same_address :
  let k := upd_proc 48 (set_heap_area 96) demo_areas in
  ∃ k1 k2, sys_sbrk 4 k = Some (0x10000000, k1) ∧ sys_sbrk 4 k1 = Some (0x10000000, k2) ∧
    ma_max_size (k_areas k2 96) = ma_max_size (k_areas k 96) + 8.
Proof. cbn zeta. eexists _, _. split; [vm_compute; reflexivity|]. split; vm_compute; reflexivity. Qed.
