(* ===== verification/Signal.v ===== *)
(** * Signals (src/sys/signal.c, src/arch/sh/signal.c)

    A raised signal is added to the pending set of a process and delivered when
    the process is about to run in user mode.  Delivery terminates or stops the
    process, ignores the signal, or saves the interrupted context on the user
    stack and makes the process run its handler; [sys_sigreturn] restores that
    context.  The memory of the user stack is a map from word addresses. *)

From S2P Require Import Prelude CyclicFifo PhysMem PoolAlloc KMem Pid Mmu PageDir Kernel Scheduler.

(** ** Constants and tables *)

(** src/interface/fixos/signal.h:35-35: SIGKILL *)
Definition SIGKILL : Z := 9.
(** src/interface/fixos/signal.h:39-39: SIGCONT *)
Definition SIGCONT : Z := 18.
(** src/interface/fixos/signal.h:40-40: SIGSTOP *)
Definition SIGSTOP : Z := 19.
(** src/interface/fixos/signal.h:53-53: SIGNAL_MAX *)
Definition SIGNAL_MAX : Z := 32.
(** src/interface/fixos/signal.h:75-75: SIG_DFL *)
Definition SIG_DFL : ptr := 0.
(** src/interface/fixos/signal.h:77-77: SIG_IGN *)
Definition SIG_IGN : ptr := u32 (-3).
(** src/interface/fixos/signal.h:86-86: SA_SIGINFO *)
Definition SA_SIGINFO : Z := 2.
(** src/interface/fixos/signal.h:94-94: SIG_BLOCK *)
Definition SIG_BLOCK : Z := 1.
(** src/interface/fixos/signal.h:95-95: SIG_UNBLOCK *)
Definition SIG_UNBLOCK : Z := 2.
(** src/interface/fixos/signal.h:96-96: SIG_SETMASK *)
Definition SIG_SETMASK : Z := 3.
(** src/sys/signal.c:28-28: _SIGUNDEF *)
Definition SIGUNDEF : Z := 0xFF.
(** src/sys/signal.c:42-42: SIGDFL_IGN *)
Definition SIGDFL_IGN : Z := 0.
(** src/sys/signal.c:43-43: SIGDFL_STOP *)
Definition SIGDFL_STOP : Z := 1.
(** src/sys/signal.c:44-44: SIGDFL_TERM *)
Definition SIGDFL_TERM : Z := 2.
(** src/sys/signal.c:45-45: SIGDFL_CONT *)
Definition SIGDFL_CONT : Z := 3.

(** src/sys/signal.c:62-96: _trans_number2index *)
Definition trans_number2index : list Z :=
  [255; 255; 0; 1; 2; 255; 255; 255; 255; 3; 255; 4; 255; 255; 5; 255; 255; 6; 7; 8] ++ replicate 12 255.

(** src/sys/signal.c:99-110: _trans_index2default *)
Definition trans_index2default : list Z := [2; 2; 2; 2; 2; 2; 0; 3; 1; 0].

(** src/interface/fixos/process.h:33-33: _WSTATUS_TERMSIG *)
Definition WSTATUS_TERMSIG (signum : Z) : Z := Z.lor (Z.land signum 0xFF) 0x100.

(** src/interface/fixos/sigset.h: sigaddset *)
Definition sigaddset (set sig : Z) : Z := Z.lor set (u32 (Z.shiftl 1 sig)).
(** src/interface/fixos/sigset.h: sigdelset *)
Definition sigdelset (set sig : Z) : Z := Z.land set (Z.lnot (u32 (Z.shiftl 1 sig))).
(** src/interface/fixos/sigset.h: sigismember *)
Definition sigismember (set sig : Z) : bool := set &? u32 (Z.shiftl 1 sig).

(** src/sys/signal.h:38-38: signal_pending *)
Definition signal_pending (p : process) : Z := Z.land (sig_pending p) (Z.lnot (sig_blocked p)).

(** The mask meant to keep SIGKILL and SIGSTOP deliverable, as the code writes it. *)
(** src/sys/signal.c:156-156: try_deliver_one *)
Definition unblockable : Z := Z.lnot (Z.lor SIGKILL SIGSTOP).

(** ** Contexts on the user stack *)

(** Words of user memory, by address. *)
Abbreviation umem := (ptr → Z).

Definition uwrite (a v : Z) (u : umem) : umem := λ x, if x =? a then v else u x.

(** Store consecutive words. *)
Fixpoint uwrites (a : ptr) (ws : list Z) (u : umem) : umem :=
  match ws with [] => u | w :: ws => uwrites (a + 4) ws (uwrite a w u) end.

Definition ureads (a : ptr) (n : nat) (u : umem) : list Z := (λ i, u (a + 4 * Z.of_nat i)) <$> seq 0 n.

(** The 22 words of a saved context before its link. *)
(** src/arch/sh/include/arch/process.h:43-59: _context_info *)
Definition context_words (c : context) : list Z := reg c ++ [gbr c; macl c; mach c; pc c; sr c; pr c].

(** The context in 22 words. *)
(** src/arch/sh/signal.c:98-98: arch_signal_restore_sigcontext *)
Definition words_context (ws : list Z) : context :=
  mk_context (take 16 ws) (nth 16 ws 0) (nth 17 ws 0) (nth 18 ws 0) (nth 19 ws 0) (nth 20 ws 0) (nth 21 ws 0).

(** The context with some registers changed. *)
Definition set_regs (c : context) (r : list Z) (pc' sr' pr' : Z) : context :=
  mk_context r (gbr c) (macl c) (mach c) pc' sr' pr'.

(** [struct sigcontext]: 92 bytes of context and the mask. *)
(** src/arch/sh/signal.c:33-36: sigcontext *)
Definition SIGCONTEXT_SIZE : Z := 96.

(** [trampoline] is the word at [sig_trampoline_begin]; [cnt] the interrupted
    context and [prev] the word of its link.  Returns the context that runs the
    handler. *)
(** src/arch/sh/signal.c: arch_signal_prepare_sigcontext *)
Definition arch_signal_prepare_sigcontext (trampoline : Z) (cnt : context) (prev blocked : Z) (action : sigaction)
  (sig : Z) (u : umem) : context * umem :=
  let r15 := nth 15 (reg cnt) 0 in
  let ustack := u32 (r15 - r15 mod 4) in
  let ucontext := u32 (ustack - SIGCONTEXT_SIZE) in
  let u := uwrites ucontext (context_words cnt ++ [prev; blocked]) u in
  let ustack := u32 (ucontext - 4) in
  let u := uwrite ustack trampoline u in
  let r := <[15%nat := ustack]> (<[4%nat := sig]> (reg cnt)) in
  let r := if sa_flags action &? SA_SIGINFO then <[6%nat := 0]> (<[5%nat := 0]> r) else r in
  (set_regs cnt r (sa_handler action) 0 ustack, u).

(** Returns the restored context and mask. *)
(** src/arch/sh/signal.c: arch_signal_restore_sigcontext *)
Definition arch_signal_restore_sigcontext (cnt : context) (u : umem) : context * Z :=
  let scnt := u32 (nth 15 (reg cnt) 0 + 4) in
  (words_context (ureads scnt 22 u), u (scnt + 92)).

(** ** Operations *)

(** What delivering a signal ends in: the loop goes on, the process is to be
    terminated with a status, or the kernel is about to jump to the context of the
    handler.  Signals are delivered to a process that was in user mode, whose
    context has a NULL link. *)
Inductive delivery (A : Type) :=
| Continues (k : kernel A) (u : umem)
| Terminates (status : Z) (k : kernel A)
| Jumps (k : kernel A) (u : umem).
Arguments Continues {A}.
Arguments Terminates {A}.
Arguments Jumps {A}.

Section ops.
Context {A : Type}.
Implicit Types (k : kernel A).

(** src/sys/signal.c: try_deliver_one *)
Definition try_deliver_one (trampoline : Z) (proc : ptr) (sig : Z) k (u : umem) : delivery A :=
  let k := upd_proc proc (λ p, set_sig_pending (sigdelset (sig_pending p) sig) p) k in
  let sigindex := aget trans_number2index sig in
  if sigindex =? SIGUNDEF then Continues k u
  else
    let action := nth (Z.to_nat sigindex) (sig_array (k_procs k proc)) (mk_sigaction 0 0 0) in
    let dfl := aget trans_index2default sigindex in
    if (sa_handler action =? SIG_IGN) || ((sa_handler action =? SIG_DFL) && (dfl =? SIGDFL_IGN)) then Continues k u
    else if sa_handler action =? SIG_DFL then
      if dfl =? SIGDFL_TERM then Terminates (WSTATUS_TERMSIG sig) k
      else if dfl =? SIGDFL_STOP then Continues (sched_stop_proc proc sig k) u
      else Continues k u
    else
      match acnt (k_procs k proc) with
      | [] => Continues k u
      | cnt :: prev =>
          let '(cnt', u) := arch_signal_prepare_sigcontext trampoline cnt 0 (sig_blocked (k_procs k proc)) action sig u in
          let k := upd_proc proc (λ p, set_acnt (cnt' :: prev) p) k in
          let k := upd_proc proc (λ p, set_sig_blocked (Z.lor (sig_blocked p) (Z.land (sa_mask action) unblockable)) p) k in
          Jumps k u
      end.

(** src/sys/signal.c: signal_raise *)
Definition signal_raise (proc : ptr) (sig : Z) k : kernel A :=
  let k := sched_preempt_block k in
  let k := upd_proc proc (λ p, set_sig_pending (sigaddset (sig_pending p) sig) p) k in
  let k := if negb (signal_pending (k_procs k proc) =? 0) && (state (k_procs k proc) =? PROCESS_STATE_INTERRUPTIBLE)
           then sched_wake_up proc k else k in
  let k := if (sig =? SIGCONT) && (state (k_procs k proc) =? PROCESS_STATE_STOPPED)
           then sched_cont_proc proc k else k in
  sched_preempt_unblock k.

(** src/sys/signal.c: signal_pgid_raise *)
Definition signal_pgid_raise (pgid' sig : Z) k : kernel A :=
  foldl (λ k dest, if pgid (k_procs k dest) =? pgid' then signal_raise dest sig k else k) k (process_list k).

(** The loop over the signal numbers. *)
(** src/sys/signal.c:209-214: signal_deliver_pending *)
Fixpoint deliver_loop (trampoline : Z) (proc : ptr) (todeliver : Z) (sigs : list Z) k (u : umem) : delivery A :=
  match sigs with
  | [] => Continues k u
  | cursig :: sigs =>
      if sigismember todeliver cursig then
        match try_deliver_one trampoline proc cursig k u with
        | Continues k u => deliver_loop trampoline proc todeliver sigs k u
        | d => d
        end
      else deliver_loop trampoline proc todeliver sigs k u
  end.

(** src/sys/signal.c: signal_deliver_pending *)
Definition signal_deliver_pending (trampoline : Z) k (u : umem) : delivery A :=
  let proc := proc_current k in
  let todeliver := signal_pending (k_procs k proc) in
  if negb (todeliver =? 0) then deliver_loop trampoline proc todeliver (seqZ 0 SIGNAL_MAX) k u
  else Continues k u.

(** Returns the code and what is stored through [oact], when something is. *)
(** src/sys/signal.c: sys_sigaction *)
Definition sys_sigaction (sig : Z) (act : option sigaction) k : Z * option sigaction * kernel A :=
  if (0 <=? sig) && (sig <? SIGNAL_MAX) then
    let index := aget trans_number2index sig in
    if negb (index =? SIGUNDEF) then
      let cur := proc_current k in
      let old := nth (Z.to_nat index) (sig_array (k_procs k cur)) (mk_sigaction 0 0 0) in
      match act with
      | Some act =>
          if (sig =? SIGKILL) || (sig =? SIGSTOP) then (-1, Some old, k)
          else (0, Some old, upd_proc cur (λ p, set_sig_array (aset (sig_array p) index act) p) k)
      | None => (0, Some old, k)
      end
    else (-1, None, k)
  else (-1, None, k).

(** src/sys/signal.c: sys_kill *)
Definition sys_kill (pid' sig : Z) k : Z * kernel A :=
  if (0 <=? sig) && (sig <? SIGNAL_MAX) && negb (aget trans_number2index sig =? SIGUNDEF) then
    if 0 <? pid' then
      let dest := process_from_pid pid' k in
      if negb (dest =? NULL) then (0, signal_raise dest sig k) else (- EPERM, k)
    else
      let pgid' := if pid' =? 0 then pgid (k_procs k (proc_current k)) else - pid' in
      (0, signal_pgid_raise pgid' sig k)
  else (- EINVAL, k).

(** Returns the code and the old mask. *)
(** src/sys/signal.c: sys_sigprocmask *)
Definition sys_sigprocmask (how : Z) (set : option Z) k : Z * Z * kernel A :=
  let cur := proc_current k in
  let old := sig_blocked (k_procs k cur) in
  match set with
  | Some set =>
      let k := if how =? SIG_SETMASK then upd_proc cur (set_sig_blocked (u32 (Z.land set unblockable))) k
               else if how =? SIG_BLOCK then
                 upd_proc cur (λ p, set_sig_blocked (Z.lor (sig_blocked p) (u32 (Z.land set unblockable))) p) k
               else if how =? SIG_UNBLOCK then
                 upd_proc cur (λ p, set_sig_blocked (Z.land (sig_blocked p) (Z.lnot set)) p) k
               else k in
      (0, old, k)
  | None => (0, old, k)
  end.

(** [sys_sigreturn] up to the jump to the process. *)
(** src/sys/signal.c: sys_sigreturn *)
Definition sys_sigreturn k (u : umem) : kernel A :=
  let cur := proc_current k in
  let k := sched_preempt_block k in
  let k :=
    match acnt (k_procs k cur) with
    | [] => k
    | cnt :: _ =>
        let '(cnt', mask) := arch_signal_restore_sigcontext cnt u in
        upd_proc cur (λ p, set_sig_blocked mask (set_acnt [cnt'] p)) k
    end in
  sched_preempt_unblock k.
End ops.

(** ** Lemmas *)

Lemma testbit_shift1 i j : 0 ≤ i < 32 → Z.testbit (u32 (Z.shiftl 1 i)) j = (i =? j).
Proof.
  intros Hi. rewrite Z.shiftl_1_l. unfold u32. change 4294967296 with (2 ^ 32).
  rewrite Z.mod_small by (split; [apply Z.pow_nonneg; lia|apply Z.pow_lt_mono_r; lia]).
  apply testbit_pow2. lia.
Qed.

Lemma sigismember_spec set sig : 0 ≤ sig < 32 → sigismember set sig = Z.testbit set sig.
Proof.
  intros Hs. unfold sigismember. replace (u32 (Z.shiftl 1 sig)) with (2 ^ sig); [by rewrite flag_set_bit by lia|].
  rewrite Z.shiftl_1_l. symmetry. apply Z.mod_small. change 4294967296 with (2 ^ 32).
  split; [apply Z.pow_nonneg; lia|apply Z.pow_lt_mono_r; lia].
Qed.

Lemma testbit_sigaddset set sig j : 0 ≤ sig < 32 → Z.testbit (sigaddset set sig) j = Z.testbit set j || (sig =? j).
Proof. intros Hs. unfold sigaddset. by rewrite Z.lor_spec, testbit_shift1. Qed.

Lemma testbit_sigdelset set sig j :
  0 ≤ sig < 32 → 0 ≤ j → Z.testbit (sigdelset set sig) j = Z.testbit set j && negb (sig =? j).
Proof. intros Hs Hj. unfold sigdelset. by rewrite Z.land_spec, Z.lnot_spec, testbit_shift1. Qed.

Lemma uwrites_out ws : ∀ a u x, x < a ∨ a + 4 * Z.of_nat (length ws) ≤ x → uwrites a ws u x = u x.
Proof.
  induction ws as [|w ws IH]; intros a u x Hx; [done|]. cbn [uwrites length] in *.
  rewrite IH by lia. unfold uwrite. destruct (Z.eqb_spec x a); [lia|done].
Qed.

Lemma ureads_ext a n u u' : (∀ x, a ≤ x < a + 4 * Z.of_nat n → u x = u' x) → ureads a n u = ureads a n u'.
Proof.
  intros H. unfold ureads. apply list_fmap_ext. intros i x Hi. apply H. apply lookup_seq in Hi as [-> Hi]. lia.
Qed.

Lemma ureads_uwrites ws : ∀ a u, ureads a (length ws) (uwrites a ws u) = ws.
Proof.
  induction ws as [|w ws IH]; intros a u; [done|]. cbn [length uwrites]. unfold ureads. cbn [seq fmap list_fmap]. f_equal.
  - rewrite Z.mul_0_r, Z.add_0_r, uwrites_out by lia. unfold uwrite. by rewrite Z.eqb_refl.
  - rewrite <- (IH (a + 4) (uwrite a w u)) at 2. unfold ureads. rewrite <- fmap_S_seq, <- list_fmap_compose.
    apply list_fmap_ext. intros i x _. cbn. f_equal. lia.
Qed.

Lemma words_context_words c l : length (reg c) = 16%nat → words_context (context_words c ++ l) = c.
Proof.
  intros Hr. destruct c as [r g ml mh p s q]. cbn in Hr. unfold words_context, context_words. cbn [reg gbr macl mach pc sr pr].
  do 17 (destruct r as [|? r]; try discriminate). reflexivity.
Qed.

(** C15: saving the interrupted context on the user stack for a handler and restoring
    it gives back the registers and the signal mask: whatever the handler did, if
    the stack pointer is back where the handler started and the saved words are
    intact, [sys_sigreturn] resumes the interrupted context.  The handler is entered
    with the signal number in r4 and returns to the trampoline. *)
Theorem sigcontext_roundtrip tramp cnt prev blocked action sig u cnt' u' ret u2 :
  length (reg cnt) = 16%nat → 100 ≤ nth 15 (reg cnt) 0 < 2 ^ 32 →
  arch_signal_prepare_sigcontext tramp cnt prev blocked action sig u = (cnt', u') →
  nth 15 (reg ret) 0 = nth 15 (reg cnt') 0 →
  (∀ x, nth 15 (reg cnt') 0 < x → u2 x = u' x) →
  arch_signal_restore_sigcontext ret u2 = (cnt, blocked) ∧
  pc cnt' = sa_handler action ∧ nth 4 (reg cnt') 0 = sig ∧ u' (pr cnt') = tramp ∧
  nth 15 (reg cnt') 0 < nth 15 (reg cnt) 0.
Proof.
  intros Hlen Hr15 Hprep Hsp Hu2. unfold arch_signal_prepare_sigcontext in Hprep. set (r15 := nth 15 (reg cnt) 0) in *.
  pose proof (Z.mod_pos_bound r15 4). pose proof (Z.div_mod r15 4). set (st := r15 - r15 mod 4) in *.
  rewrite (u32_small st) in Hprep by lia. unfold SIGCONTEXT_SIZE in Hprep. rewrite (u32_small (st - 96)) in Hprep by lia.
  rewrite (u32_small (st - 96 - 4)) in Hprep by lia. injection Hprep as <- <-. cbn [reg pc pr set_regs] in *.
  set (ws := context_words cnt ++ [prev; blocked]) in *.
  assert (Hws : length ws = 24%nat) by (unfold ws, context_words; rewrite !length_app, Hlen; done).
  assert (H15 : ∀ r : list Z, length r = 16%nat → nth 15 (if sa_flags action &? SA_SIGINFO then <[6%nat:=0]> (<[5%nat:=0]> (<[15%nat:=st - 96 - 4]> r))
                                       else <[15%nat:=st - 96 - 4]> r) 0 = st - 96 - 4).
  { intros r Hrl. do 17 (destruct r as [|? r]; try discriminate). by destruct (_ &? _). }
  rewrite H15 in * by (by rewrite length_insert).
  assert (Huv : ∀ x, st - 96 ≤ x → uwrite (st - 96 - 4) tramp (uwrites (st - 96) ws u) x = uwrites (st - 96) ws u x).
  { intros x Hx. unfold uwrite. destruct (Z.eqb_spec x (st - 96 - 4)); [lia|done]. }
  split_and!; [|done| |by unfold uwrite; rewrite Z.eqb_refl|lia].
  - unfold arch_signal_restore_sigcontext. rewrite Hsp, u32_small by lia. replace (st - 96 - 4 + 4) with (st - 96) by lia.
    assert (Hall : ureads (st - 96) 24 u2 = ws).
    { rewrite <- Hws. rewrite <- (ureads_uwrites ws (st - 96) u) at 2. apply ureads_ext.
      intros x Hx. rewrite Hu2 by lia. apply Huv. lia. }
    f_equal.
    + transitivity (words_context ws); [|by apply words_context_words]. rewrite <- Hall. reflexivity.
    + transitivity (nth 23 (ureads (st - 96) 24 u2) 0); [by cbn|]. rewrite Hall. unfold ws, context_words.
      rewrite <- app_assoc, app_nth2 by lia. by rewrite Hlen.
  - clear -Hlen. destruct cnt as [r ? ? ? ? ? ?]. cbn [reg] in *. do 17 (destruct r as [|? r]; try discriminate). by destruct (_ &? _).
Qed.

(** *** Delivery *)

(** What a signal does to a process, from its action and the default one. *)
Inductive disposition := Ignored | Stops | Kills | Handled (a : sigaction).

Definition disposition_of (p : process) (sig : Z) : disposition :=
  let i := aget trans_number2index sig in
  let a := nth (Z.to_nat i) (sig_array p) (mk_sigaction 0 0 0) in
  if i =? SIGUNDEF then Ignored
  else if sa_handler a =? SIG_IGN then Ignored
  else if sa_handler a =? SIG_DFL then
    (if aget trans_index2default i =? SIGDFL_TERM then Kills
     else if aget trans_index2default i =? SIGDFL_STOP then Stops else Ignored)
  else Handled a.

(** The signal goes no further than being removed, or stops the process. *)
Definition passes (p : process) (sig : Z) : Prop := disposition_of p sig = Ignored ∨ disposition_of p sig = Stops.

Section deliver.
Context {A : Type}.
Implicit Types (k : kernel A).

Lemma upd_proc_other (g : process → process) p k q : k_procs (upd_proc p g k) q = if q =? p then g (k_procs k p) else k_procs k q.
Proof. done. Qed.

Lemma stop_proc_procs p sig k q :
  k_procs (sched_stop_proc p sig k) q = if q =? p then set_state PROCESS_STATE_STOPPED (k_procs k p) else k_procs k q.
Proof. unfold sched_stop_proc. by destruct (_ =? _). Qed.

(** One signal, by its disposition. *)
Lemma try_deliver_one_spec tramp p sig k u :
  acnt (k_procs k p) ≠ [] →
  match try_deliver_one tramp p sig k u with
  | Continues k' u' => passes (k_procs k p) sig ∧ u' = u ∧ sig_array (k_procs k' p) = sig_array (k_procs k p) ∧
      acnt (k_procs k' p) = acnt (k_procs k p) ∧ sig_pending (k_procs k' p) = sigdelset (sig_pending (k_procs k p)) sig
  | Terminates st k' => disposition_of (k_procs k p) sig = Kills ∧ st = WSTATUS_TERMSIG sig
  | Jumps k' u' => ∃ a c c', disposition_of (k_procs k p) sig = Handled a ∧
      head (acnt (k_procs k p)) = Some c ∧ head (acnt (k_procs k' p)) = Some c' ∧
      arch_signal_prepare_sigcontext tramp c 0 (sig_blocked (k_procs k p)) a sig u = (c', u') ∧
      sig_pending (k_procs k' p) = sigdelset (sig_pending (k_procs k p)) sig
  end.
Proof.
  intros Hac. unfold try_deliver_one, passes, disposition_of. cbn zeta. rewrite !upd_proc_eq. cbn [sig_array set_sig_pending acnt sig_blocked].
  set (a := nth _ _ _). destruct (_ =? SIGUNDEF) eqn:Hu; [rewrite upd_proc_eq; by split_and!; [left|..]|].
  destruct (sa_handler a =? SIG_IGN) eqn:Hi; cbn [orb]; [rewrite upd_proc_eq; by split_and!; [left|..]|].
  destruct (sa_handler a =? SIG_DFL) eqn:Hd; cbn [andb].
  - destruct (aget trans_index2default _ =? SIGDFL_IGN) eqn:Hg.
    { rewrite upd_proc_eq. split_and!; try done. left. breflect. by rewrite Hg. }
    destruct (_ =? SIGDFL_TERM) eqn:Ht; [done|]. destruct (_ =? SIGDFL_STOP) eqn:Hs.
    + rewrite stop_proc_procs, Z.eqb_refl, upd_proc_eq. by split_and!; [right|..].
    + rewrite upd_proc_eq. by split_and!; [left|..].
  - destruct (acnt (k_procs k p)) as [|c prev] eqn:Hc; [done|].
    destruct (arch_signal_prepare_sigcontext _ _ _ _ _ _ _) as [c' u'] eqn:Hp. rewrite !upd_proc_eq. cbn. by exists a, c, c'.
Qed.

(** The signals of [sigs] that are in the set are gone from the pending ones. *)
Definition removed (old new todeliver : Z) (sigs : list Z) : Prop :=
  ∀ j, 0 ≤ j → Z.testbit new j = Z.testbit old j && negb (bool_decide (j ∈ sigs) && sigismember todeliver j).

Lemma removed_cons old mid new t s l :
  0 ≤ s < 32 → sigismember t s = true → mid = sigdelset old s → removed mid new t l → removed old new t (s :: l).
Proof.
  intros Hs Hm -> Hr j Hj. rewrite Hr, testbit_sigdelset, <- andb_assoc by done. f_equal.
  destruct (Z.eqb_spec s j) as [->|Hne].
  - rewrite (bool_decide_eq_true_2 (j ∈ j :: l)), Hm; [done|apply list_elem_of_here].
  - cbn [negb andb]. f_equal. f_equal. apply bool_decide_ext. rewrite elem_of_cons. naive_solver.
Qed.

Lemma removed_skip old new t s l : sigismember t s = false → removed old new t l → removed old new t (s :: l).
Proof.
  intros Hm Hr j Hj. rewrite Hr by done. f_equal. f_equal. destruct (Z.eqb_spec s j) as [->|Hne].
  - by rewrite Hm, !andb_false_r.
  - f_equal. apply bool_decide_ext. rewrite elem_of_cons. naive_solver.
Qed.

Lemma removed_nil old t : removed old old t [].
Proof. intros j _. rewrite bool_decide_eq_false_2 by set_solver. by rewrite andb_true_r. Qed.

Lemma disposition_array p q sig : sig_array p = sig_array q → disposition_of p sig = disposition_of q sig.
Proof. unfold disposition_of. by intros ->. Qed.

Lemma deliver_loop_spec tramp p t sigs : ∀ k u,
  acnt (k_procs k p) ≠ [] → Forall (λ s, 0 ≤ s < 32) sigs →
  let P := k_procs k p in
  match deliver_loop tramp p t sigs k u with
  | Continues k' u' => u' = u ∧ (∀ s, s ∈ sigs → sigismember t s = true → passes P s) ∧
      removed (sig_pending P) (sig_pending (k_procs k' p)) t sigs
  | Terminates st k' => ∃ l1 s l2, sigs = l1 ++ s :: l2 ∧ sigismember t s = true ∧
      (∀ x, x ∈ l1 → sigismember t x = true → passes P x) ∧ disposition_of P s = Kills ∧ st = WSTATUS_TERMSIG s
  | Jumps k' u' => ∃ l1 s l2 a c', sigs = l1 ++ s :: l2 ∧ sigismember t s = true ∧
      (∀ x, x ∈ l1 → sigismember t x = true → passes P x) ∧ disposition_of P s = Handled a ∧
      head (acnt (k_procs k' p)) = Some c' ∧ pc c' = sa_handler a ∧
      removed (sig_pending P) (sig_pending (k_procs k' p)) t (l1 ++ [s])
  end.
Proof.
  induction sigs as [|s sigs IH]; intros k u Hac Hs P; [split_and!; [done|set_solver|apply removed_nil]|].
  apply Forall_cons in Hs as [Hs Hss]. cbn [deliver_loop]. destruct (sigismember t s) eqn:Hm.
  - pose proof (try_deliver_one_spec tramp p s k u Hac) as H1. fold P in H1. destruct (try_deliver_one tramp p s k u) as [k1 u1|st k1|k1 u1].
    + destruct H1 as (Hpass & -> & Harr & Hacn & Hpend). specialize (IH k1 u ltac:(by rewrite Hacn) Hss). cbn zeta in IH.
      assert (Hp' : ∀ x, passes (k_procs k1 p) x ↔ passes P x) by (intros x; unfold passes; by rewrite (disposition_array _ P x Harr)).
      destruct (deliver_loop tramp p t sigs k1 u) as [k2 u2|st k2|k2 u2].
      * destruct IH as (-> & Hall & Hrem). split_and!; [done| |by eapply removed_cons].
        intros x [->|Hx]%elem_of_cons Hxm; [done|]. by apply Hp', Hall.
      * destruct IH as (l1 & s' & l2 & -> & Hm' & Hall & Hk & ->). exists (s :: l1), s', l2. split_and!; try done.
        -- intros x [->|Hx]%elem_of_cons Hxm; [done|]. by apply Hp', Hall.
        -- by rewrite <- (disposition_array _ P s' Harr).
      * destruct IH as (l1 & s' & l2 & a & c' & -> & Hm' & Hall & Hk & Hc & Hpc & Hrem). exists (s :: l1), s', l2, a, c'. split_and!; try done.
        -- intros x [->|Hx]%elem_of_cons Hxm; [done|]. by apply Hp', Hall.
        -- by rewrite <- (disposition_array _ P s' Harr).
        -- simpl. by eapply removed_cons.
    + destruct H1 as [Hk ->]. exists [], s, sigs. split_and!; try done. set_solver.
    + destruct H1 as (a & c & c' & Hk & _ & Hc & Hprep & Hpend). exists [], s, sigs, a, c'. split_and!; try done; [set_solver| |].
      * unfold arch_signal_prepare_sigcontext in Hprep. by injection Hprep as <- _.
      * simpl. eapply removed_cons; [done..|exact Hpend|apply removed_nil].
  - specialize (IH k u Hac Hss). cbn zeta in IH. fold P in IH. destruct (deliver_loop tramp p t sigs k u) as [k2 u2|st k2|k2 u2].
    + destruct IH as (-> & Hall & Hrem). split_and!; [done| |by apply removed_skip].
      intros x [->|Hx]%elem_of_cons Hxm; [congruence|auto].
    + destruct IH as (l1 & s' & l2 & -> & Hm' & Hall & Hk & ->). exists (s :: l1), s', l2. split_and!; try done.
      intros x [->|Hx]%elem_of_cons Hxm; [congruence|auto].
    + destruct IH as (l1 & s' & l2 & a & c' & -> & Hm' & Hall & Hk & Hc & Hpc & Hrem). exists (s :: l1), s', l2, a, c'. split_and!; try done.
      * intros x [->|Hx]%elem_of_cons Hxm; [congruence|auto].
      * simpl. by apply removed_skip.
Qed.

(** The numbers before [s] in the range are those below it. *)
Lemma seqZ_split n l1 s l2 x : seqZ 0 n = l1 ++ s :: l2 → x ∈ l1 ↔ 0 ≤ x < s.
Proof.
  intros Heq. assert (Hl : ∀ i y, l1 !! i = Some y → y = Z.of_nat i ∧ (i < length l1)%nat).
  { intros i y Hi. split; [|by eapply lookup_lt_Some]. assert (H : seqZ 0 n !! i = Some y) by (rewrite Heq; by apply lookup_app_l_Some).
    apply lookup_seqZ in H as [-> _]. lia. }
  assert (Hs : s = Z.of_nat (length l1)).
  { assert (H : seqZ 0 n !! length l1 = Some s) by (rewrite Heq; by apply list_lookup_middle). apply lookup_seqZ in H as [-> _]. lia. }
  rewrite list_elem_of_lookup. split.
  - intros (i & Hi). apply Hl in Hi as [-> Hi]. lia.
  - intros Hx. destruct (lookup_lt_is_Some_2 l1 (Z.to_nat x)) as [y Hy]; [lia|]. exists (Z.to_nat x). destruct (Hl _ _ Hy) as [-> _].
    rewrite Hy. f_equal. lia.
Qed.

(** C14: delivery handles the pending signals that are not blocked from the lowest
    number up.  If it returns, all of them were ignored or stop the process, and all
    are removed from the pending set.  Otherwise the process is terminated by, or
    made to run the handler of, the lowest one that is not ignored and does not stop
    it; the pending signals above that one, and the blocked ones, stay pending. *)
Theorem signal_deliver_lowest tramp k u :
  let p := proc_current k in
  let P := k_procs k p in
  acnt P ≠ [] →
  let ready j := Z.testbit (sig_pending P) j && negb (Z.testbit (sig_blocked P) j) in
  match signal_deliver_pending tramp k u with
  | Continues k' u' => u' = u ∧ (∀ s, 0 ≤ s < 32 → ready s = true → passes P s) ∧
      ∀ j, 0 ≤ j < 32 → Z.testbit (sig_pending (k_procs k' p)) j = Z.testbit (sig_pending P) j && negb (ready j)
  | Terminates st k' => ∃ s, 0 ≤ s < 32 ∧ ready s = true ∧ (∀ x, 0 ≤ x < s → ready x = true → passes P x) ∧
      disposition_of P s = Kills ∧ st = WSTATUS_TERMSIG s
  | Jumps k' u' => ∃ s a c', 0 ≤ s < 32 ∧ ready s = true ∧ (∀ x, 0 ≤ x < s → ready x = true → passes P x) ∧
      disposition_of P s = Handled a ∧ head (acnt (k_procs k' p)) = Some c' ∧ pc c' = sa_handler a ∧
      ∀ j, 0 ≤ j < 32 → Z.testbit (sig_pending (k_procs k' p)) j = Z.testbit (sig_pending P) j && negb ((j <=? s) && ready j)
  end.
Proof.
  intros p P Hac ready. unfold signal_deliver_pending. fold p. fold P. cbn zeta.
  assert (Hrd : ∀ j, 0 ≤ j < 32 → sigismember (signal_pending P) j = ready j).
  { intros j Hj. rewrite sigismember_spec by done. unfold signal_pending, ready. rewrite Z.land_spec, Z.lnot_spec by lia. done. }
  destruct (Z.eqb_spec (signal_pending P) 0) as [Hz|Hnz]; cbn [negb].
  - assert (Hno : ∀ j, 0 ≤ j < 32 → ready j = false).
    { intros j Hj. rewrite <- Hrd by done. rewrite sigismember_spec, Hz by done. apply Z.testbit_0_l. }
    split_and!; [done|intros s Hs Hr; by rewrite Hno in Hr|]. intros j Hj. by rewrite Hno, andb_true_r.
  - pose proof (deliver_loop_spec tramp p (signal_pending P) (seqZ 0 SIGNAL_MAX) k u Hac) as H. fold P in H. cbn zeta in H.
    assert (Hall : Forall (λ s, 0 ≤ s < 32) (seqZ 0 SIGNAL_MAX)).
    { apply Forall_forall. intros x Hx%elem_of_seqZ. unfold SIGNAL_MAX in Hx. lia. }
    specialize (H Hall). destruct (deliver_loop _ _ _ _ _ _) as [k' u'|st k'|k' u'].
    + destruct H as (-> & Hp & Hrem). split_and!; [done| |].
      * intros s Hs Hr. apply Hp; [apply elem_of_seqZ; unfold SIGNAL_MAX; lia|by rewrite Hrd].
      * intros j Hj. rewrite Hrem by lia. rewrite Hrd by done. rewrite bool_decide_eq_true_2; [done|].
        apply elem_of_seqZ. unfold SIGNAL_MAX. lia.
    + destruct H as (l1 & s & l2 & Heq & Hm & Hp & Hk & ->). exists s.
      assert (Hs : 0 ≤ s < 32) by (rewrite Forall_forall in Hall; apply Hall; rewrite Heq; apply elem_of_mid).
      split_and!; try done; try lia; [rewrite <- Hrd by done; exact Hm|]. intros x Hx Hr. apply Hp; [by apply (seqZ_split _ _ _ _ x Heq)|rewrite Hrd; [done|lia]].
    + destruct H as (l1 & s & l2 & a & c' & Heq & Hm & Hp & Hk & Hc & Hpc & Hrem). exists s, a, c'.
      assert (Hs : 0 ≤ s < 32) by (rewrite Forall_forall in Hall; apply Hall; rewrite Heq; apply elem_of_mid).
      split_and!; try done; try lia; [rewrite <- Hrd by done; exact Hm| |].
      * intros x Hx Hr. apply Hp; [by apply (seqZ_split _ _ _ _ x Heq)|rewrite Hrd; [done|lia]].
      * intros j Hj. rewrite Hrem, Hrd by lia. do 3 f_equal.
        destruct (Z.leb_spec j s); [apply bool_decide_eq_true_2|apply bool_decide_eq_false_2];
          rewrite elem_of_app, list_elem_of_singleton, (seqZ_split _ _ _ _ j Heq); lia.
Qed.
End deliver.

(** *** Raising *)

(** What raising a signal does to a process: the signal is pending, and the process
    runs again if it was sleeping interruptibly and a signal can be delivered, or
    if it was stopped and is continued. *)
Definition raised (sig : Z) (p : process) : process :=
  let p := set_sig_pending (sigaddset (sig_pending p) sig) p in
  if ((state p =? PROCESS_STATE_INTERRUPTIBLE) && negb (signal_pending p =? 0))
     || ((state p =? PROCESS_STATE_STOPPED) && (sig =? SIGCONT))
  then set_state PROCESS_STATE_RUNNING p else p.

Section raise.
Context {A : Type}.
Implicit Types (k : kernel A).

Lemma wake_up_procs p k q :
  k_procs (sched_wake_up p k) q =
  if q =? p then
    (if (state (k_procs k p) =? PROCESS_STATE_INTERRUPTIBLE) || (state (k_procs k p) =? PROCESS_STATE_UNINTERRUPTIBLE)
     then set_state PROCESS_STATE_RUNNING (k_procs k p) else k_procs k p)
  else k_procs k q.
Proof. unfold sched_wake_up. destruct (_ || _); [done|]. by destruct (Z.eqb_spec q p) as [->|]. Qed.

Lemma cont_procs p k q :
  k_procs (sched_cont_proc p k) q = if q =? p then set_state PROCESS_STATE_RUNNING (k_procs k p) else k_procs k q.
Proof.
  unfold sched_cont_proc. rewrite wake_up_procs, upd_proc_eq. cbn [state set_state]. rewrite upd_proc_other.
  by destruct (q =? p).
Qed.

(** Raising changes the process it is for and nothing else. *)
Lemma signal_raise_procs p sig k q :
  k_procs (signal_raise p sig k) q = if q =? p then raised sig (k_procs k p) else k_procs k q.
Proof.
  unfold signal_raise. cbn zeta. set (k1 := upd_proc p _ _).
  assert (Hlev : ∀ k2 : kernel A, k_procs (sched_preempt_unblock k2) = k_procs k2)
    by (intros k2; unfold sched_preempt_unblock; cbn zeta; by destruct (_ <? 0)).
  rewrite Hlev. set (P := set_sig_pending (sigaddset (sig_pending (k_procs k p)) sig) (k_procs k p)).
  assert (H1 : ∀ x, k_procs k1 x = if x =? p then P else k_procs k x) by (intros x; unfold k1; rewrite upd_proc_other; done).
  assert (Hp1 : k_procs k1 p = P) by (rewrite H1, Z.eqb_refl; done). rewrite Hp1. set (b := negb _ && _). set (k2 := if b then _ else _).
  assert (H2 : ∀ x, k_procs k2 x = if x =? p then (if b then set_state PROCESS_STATE_RUNNING P else P) else k_procs k x).
  { intros x. unfold k2. destruct b eqn:Hb; [|apply H1]. rewrite wake_up_procs, Hp1, H1. unfold b in Hb. breflect.
    rewrite (proj2 (Z.eqb_eq (state P) PROCESS_STATE_INTERRUPTIBLE)) by done. by destruct (x =? p). }
  assert (Hp2 : k_procs k2 p = if b then set_state PROCESS_STATE_RUNNING P else P) by (rewrite H2, Z.eqb_refl; done).
  rewrite Hp2. unfold raised. cbn zeta. fold P. rewrite (andb_comm (state P =? PROCESS_STATE_INTERRUPTIBLE)). fold b.
  rewrite (andb_comm (sig =? SIGCONT)). destruct b.
  - cbn [state set_state Z.eqb PROCESS_STATE_RUNNING PROCESS_STATE_STOPPED andb orb]. apply H2.
  - cbn [orb]. destruct (_ && _); [|apply H2]. rewrite cont_procs, Hp2, H2. by destruct (q =? p).
Qed.

Lemma signal_raise_list p sig k : process_list (signal_raise p sig k) = process_list k.
Proof.
  unfold signal_raise, sched_preempt_unblock, sched_cont_proc, sched_wake_up. cbn zeta.
  repeat match goal with |- context [if ?b then _ else _] => destruct b end; done.
Qed.

Lemma raised_pgid sig p : pgid (raised sig p) = pgid p.
Proof. unfold raised. by destruct (_ || _). Qed.

Lemma pgid_raise_loop g sig l : NoDup l → ∀ k q,
  k_procs (foldl (λ k dest, if pgid (k_procs k dest) =? g then signal_raise dest sig k else k) k l) q =
  if bool_decide (q ∈ l) && (pgid (k_procs k q) =? g) then raised sig (k_procs k q) else k_procs k q.
Proof.
  induction 1 as [|x l Hx Hnd IH]; intros k q; [by rewrite bool_decide_eq_false_2 by set_solver|].
  cbn [foldl]. rewrite IH. destruct (Z.eqb_spec (pgid (k_procs k x)) g) as [Hg|Hg].
  - rewrite signal_raise_procs. destruct (Z.eqb_spec q x) as [->|Hne].
    + rewrite bool_decide_eq_false_2, bool_decide_eq_true_2 by set_solver. by rewrite Hg, Z.eqb_refl.
    + by rewrite (bool_decide_ext (q ∈ x :: l) (q ∈ l)) by set_solver.
  - destruct (decide (q = x)) as [->|Hne].
    + rewrite bool_decide_eq_false_2 by done. cbn [andb]. by rewrite (proj2 (Z.eqb_neq _ _) Hg), andb_false_r.
    + by rewrite (bool_decide_ext (q ∈ x :: l) (q ∈ l)) by set_solver.
Qed.

(** [sys_kill] rejects signals that do not exist and processes that do not
    exist; with a positive pid it raises the signal on that process only, and
    otherwise on exactly the processes of the group.  A raised signal becomes
    pending, wakes an interruptible sleeper that does not block it, and SIGCONT
    makes a stopped process run again. *)
Theorem sys_kill_correct k pid' sig :
  NoDup (process_list k) →
  let '(ret, k') := sys_kill pid' sig k in
  let exists_sig := (0 <=? sig) && (sig <? 32) && negb (aget trans_number2index sig =? SIGUNDEF) in
  if negb exists_sig then ret = - EINVAL ∧ k' = k
  else if 0 <? pid' then
    if process_from_pid pid' k =? NULL then ret = - EPERM ∧ k' = k
    else ret = 0 ∧ ∀ q, k_procs k' q = if q =? process_from_pid pid' k then raised sig (k_procs k q) else k_procs k q
  else
    let g := if pid' =? 0 then pgid (k_procs k (proc_current k)) else - pid' in
    ret = 0 ∧ ∀ q, k_procs k' q =
      if bool_decide (q ∈ process_list k) && (pgid (k_procs k q) =? g) then raised sig (k_procs k q) else k_procs k q.
Proof.
  intros Hnd. unfold sys_kill, SIGNAL_MAX. destruct (_ && _ && _); cbn [negb]; [|done].
  destruct (0 <? pid').
  - destruct (Z.eqb_spec (process_from_pid pid' k) NULL); cbn [negb]; [done|]. split; [done|]. intros q.
    rewrite signal_raise_procs. by destruct (Z.eqb_spec q (process_from_pid pid' k)) as [->|].
  - split; [done|]. intros q. unfold signal_pgid_raise. by apply pgid_raise_loop.
Qed.

(** The mask that should keep SIGKILL deliverable is built from signal numbers and
    not from bits: a process can block SIGKILL and SIGSTOP, after which a raised
    SIGKILL is not among the signals to deliver. *)
Theorem sigkill_can_be_blocked k :
  let k1 := (sys_sigprocmask SIG_BLOCK (Some (u32 (Z.shiftl 1 SIGKILL))) k).2 in
  let k2 := signal_raise (proc_current k) SIGKILL k1 in
  let P := k_procs k2 (proc_current k) in
  Z.testbit (sig_pending P) SIGKILL = true ∧ Z.testbit (signal_pending P) SIGKILL = false.
Proof.
  cbn zeta. rewrite signal_raise_procs, Z.eqb_refl. 
  change (sys_sigprocmask SIG_BLOCK (Some (u32 (Z.shiftl 1 SIGKILL))) k).2 with
    (upd_proc (proc_current k) (λ p, set_sig_blocked (Z.lor (sig_blocked p) (u32 (Z.land (u32 (Z.shiftl 1 SIGKILL)) unblockable))) p) k).
  rewrite upd_proc_eq. set (P := set_sig_blocked _ _).
  assert (Hp : ∀ Q, sig_pending (raised SIGKILL Q) = sigaddset (sig_pending Q) SIGKILL) by (intros Q; unfold raised; by destruct (_ || _)).
  assert (Hb : sig_blocked (raised SIGKILL P) = sig_blocked P) by (unfold raised; by destruct (_ || _)).
  unfold signal_pending. rewrite Hp, Hb, Z.land_spec, Z.lnot_spec, testbit_sigaddset by (unfold SIGKILL; lia).
  rewrite Z.eqb_refl, orb_true_r. split; [done|]. cbn [andb]. apply negb_false_iff. unfold P. cbn [sig_blocked set_sig_blocked].
  rewrite Z.lor_spec. apply orb_true_iff. right. reflexivity.
Qed.

(** [sys_sigaction] replaces the action of an implemented signal other than
    SIGKILL and SIGSTOP and of no other signal, reports the previous action, and
    fails without effect otherwise. *)
Theorem sys_sigaction_correct k sig act :
  length (sig_array (k_procs k (proc_current k))) = 10%nat →
  let action k' s := nth (Z.to_nat (aget trans_number2index s)) (sig_array (k_procs k' (proc_current k))) (mk_sigaction 0 0 0) in
  let '(ret, old, k') := sys_sigaction sig (Some act) k in
  let valid s := (0 <=? s) && (s <? 32) && negb (aget trans_number2index s =? SIGUNDEF) in
  if valid sig && negb (sig =? SIGKILL) && negb (sig =? SIGSTOP) then
    ret = 0 ∧ old = Some (action k sig) ∧ action k' sig = act ∧
    ∀ s, valid s = true → s ≠ sig → action k' s = action k s
  else ret = -1 ∧ k' = k.
Proof.
  intros Hlen. cbn zeta. unfold sys_sigaction, SIGNAL_MAX. destruct ((0 <=? sig) && (sig <? 32)) eqn:Hr; cbn [andb]; [|done].
  destruct (aget trans_number2index sig =? SIGUNDEF) eqn:Hu; cbn [negb andb]; [done|].
  rewrite <- negb_orb. destruct ((sig =? SIGKILL) || (sig =? SIGSTOP)) eqn:Hk; cbn [negb]; [done|].
  rewrite upd_proc_eq. cbn [sig_array set_sig_array].
  assert (Hidx : ∀ s, 0 ≤ s < 32 → aget trans_number2index s ≠ SIGUNDEF → 0 ≤ aget trans_number2index s < 10 ∧
    ∀ s', 0 ≤ s' < 32 → aget trans_number2index s' = aget trans_number2index s → s' = s).
  { assert (Hdec : forallb (λ s, (aget trans_number2index s =? SIGUNDEF) || ((0 <=? aget trans_number2index s) && (aget trans_number2index s <? 10) &&
      forallb (λ s', negb (aget trans_number2index s' =? aget trans_number2index s) || (s' =? s)) (seqZ 0 32))) (seqZ 0 32) = true) by reflexivity.
    rewrite forallb_forall in Hdec. intros s Hs Hn. specialize (Hdec s). rewrite <- list_elem_of_In, elem_of_seqZ in Hdec. specialize (Hdec ltac:(lia)).
    rewrite (proj2 (Z.eqb_neq _ _) Hn) in Hdec. cbn [orb] in Hdec. breflect. split; [lia|]. intros s' Hs' He.
    match goal with H : forallb _ _ = true |- _ => rewrite forallb_forall in H; specialize (H s'); rewrite <- list_elem_of_In, elem_of_seqZ in H; specialize (H ltac:(lia)) end.
    rewrite He, Z.eqb_refl in *. cbn [negb orb] in *. by breflect. }
  breflect. destruct (Hidx sig ltac:(lia) Hu) as [Hi _]. split_and!; [done..| |].
  - unfold aset. apply nth_lookup_Some. apply list_lookup_insert_eq. lia.
  - intros s Hv Hne. breflect. destruct (Hidx s ltac:(lia) ltac:(done)) as [Hi' Huniq]. unfold aset. rewrite !nth_lookup, list_lookup_insert_ne; [done|].
    intros He. apply Hne. symmetry. apply Huniq; lia.
Qed.
End raise.

(** ** Witnesses *)

Definition demo_ctx : context := mk_context (replicate 15 7 ++ [0x3FFFFF02]) 1 2 3 0x10000000 0 0x10000010.

(** Process 48, the current one, in user mode, with SIGINT handled, SIGCHLD (ignored)
    and SIGALRM (fatal) also pending. *)
Definition demo_sig : kernel (kmem pmem) :=
  upd_proc 48 (λ p, set_acnt [demo_ctx] (set_sig_pending (Z.lor (Z.lor (2 ^ 2) (2 ^ 14)) (2 ^ 17))
                      (set_sig_array (mk_sigaction 0x10000100 0 0 :: replicate 9 (mk_sigaction 0 0 0)) (set_pid 5 (set_pgid 3 p)))))
    (set_process_list [48] (set_proc_current 48 (zero_kernel (kmem_init demo_pmem)))).

Lemma sigcontext_roundtrip_witness :
  let '(cnt', u') := arch_signal_prepare_sigcontext 99 demo_ctx 0 5 (mk_sigaction 0x10000100 0 0) 2 (λ _, 0) in
  arch_signal_restore_sigcontext cnt' u' = (demo_ctx, 5).
Proof.
  destruct (arch_signal_prepare_sigcontext 99 demo_ctx 0 5 (mk_sigaction 0x10000100 0 0) 2 (λ _, 0)) as [cnt' u'] eqn:Hp.
  apply (sigcontext_roundtrip 99 demo_ctx 0 5 (mk_sigaction 0x10000100 0 0) 2 (λ _, 0) cnt' u' cnt' u').
  - reflexivity.
  - vm_compute. split; congruence.
  - exact Hp.
  - reflexivity.
  - reflexivity.
Defined.

Lemma signal_deliver_lowest_witness :
  match signal_deliver_pending 99 demo_sig (λ _, 0) with
  | Jumps k' _ => ∃ c, head (acnt (k_procs k' 48)) = Some c ∧ pc c = 0x10000100
  | _ => False
  end.
Proof.
  pose proof (signal_deliver_lowest 99 demo_sig (λ _, 0) ltac:(discriminate)) as H. cbn zeta in H.
  destruct (signal_deliver_pending _ _ _) as [k' u'|st k'|k' u'] eqn:Hd; [by vm_compute in Hd..|].
  destruct H as (s & a & c & Hs & Hr & Hlow & Hdisp & Hc & Hpc & _). exists c. split; [exact Hc|]. rewrite Hpc.
  assert (s = 2) as ->; [|by injection Hdisp as <-].
  destruct (decide (2 < s)) as [Hlt|].
  - destruct (Hlow 2 ltac:(lia) eq_refl) as [Hf|Hf]; discriminate.
  - assert (s = 0 ∨ s = 1 ∨ s = 2) as [->|[->| ->]] by lia; [discriminate Hr..|done].
Defined.

Lemma sys_kill_correct_witness :
  let '(ret, k') := sys_kill (-3) 11 demo_sig in
  ret = 0 ∧ Z.testbit (sig_pending (k_procs k' 48)) 11 = true.
Proof.
  pose proof (sys_kill_correct demo_sig (-3) 11 ltac:(apply NoDup_singleton)) as H.
  destruct (sys_kill (-3) 11 demo_sig) as [ret k']. destruct H as [-> Hq]. split; [done|]. rewrite Hq. reflexivity.
Defined.

Lemma sys_sigaction_correct_witness :
  let '(ret, old, k') := sys_sigaction 11 (Some (mk_sigaction 0x10000200 0 0)) demo_sig in
  ret = 0 ∧ nth 4 (sig_array (k_procs k' 48)) (mk_sigaction 0 0 0) = mk_sigaction 0x10000200 0 0.
Proof.
  pose proof (sys_sigaction_correct demo_sig 11 (mk_sigaction 0x10000200 0 0) eq_refl) as H. cbn zeta in H.
  destruct (sys_sigaction 11 _ demo_sig) as [[ret old] k']. destruct H as (-> & _ & Ha & _). split; [done|exact Ha].
Defined.
