(* ===== verification/Vfs.v ===== *)
(** * Virtual file system (src/fs/vfs.c, src/fs/vfs_op.c, src/fs/vfs_directory.c)

    Inodes are cached with a usage count: [vfs_get_inode] takes a reference and
    [vfs_release_inode] gives it back and removes the inode from the cache with
    the last one.  Path resolution walks the names of a path, holding a
    reference on the current directory only.  The operations of a file system
    are the record [file_system] of functions, as in the code. *)

From S2P Require Import Prelude CyclicFifo PhysMem PoolAlloc KMem Pid Mmu PageDir Kernel Pipe VfsFile VfsCache.

(** src/fs/inode.h:29-29: INODE_TYPE_PARENT *)
Definition INODE_TYPE_PARENT : Z := 1.
(** src/fs/inode.h:31-31: INODE_TYPE_DEV *)
Definition INODE_TYPE_DEV : Z := 2.
(** src/fs/inode.h:35-35: INODE_TYPE_ROOT *)
Definition INODE_TYPE_ROOT : Z := 4.
(** src/fs/inode.h:37-37: INODE_TYPE_MOUNTPOINT *)
Definition INODE_TYPE_MOUNTPOINT : Z := 8.
(** src/fs/inode.h:46-46: INODE_MAX_NAME *)
Definition INODE_MAX_NAME : Z := 20.

(** The operations of a file system that the virtual file system calls; each
    returns an inode or NULL. *)
(** src/fs/file_system.h:53-94: file_system *)
Record file_system {A : Type} := mk_fs {
  fs_get_root_node : ptr → kernel A → option (ptr * kernel A);
  fs_first_child : ptr → kernel A → option (ptr * kernel A);
  fs_next_sibling : ptr → kernel A → option (ptr * kernel A);
  fs_find_sub_node : ptr → list Z → kernel A → option (ptr * kernel A);
  fs_get_inode : ptr → Z → kernel A → option (ptr * kernel A);
  fs_create_node : ptr → list Z → Z → Z → Z → kernel A → option (ptr * kernel A);
  fs_open : option (ptr → ptr → kernel A → option (Z * kernel A))
}.
Arguments file_system : clear implicits.

(** src/fs/vfs.h:56-56: VFS_MAX_FS *)
Definition VFS_MAX_FS : Z := 4.
(** src/fs/vfs.h:58-58: VFS_MAX_MOUNT *)
Definition VFS_MAX_MOUNT : Z := 6.
(** src/fs/vfs.h:52-52: VFS_MOUNT_ROOT *)
Definition VFS_MOUNT_ROOT : Z := 1.
(** src/fs/vfs.h:61-61: VFS_REGISTER_STATIC *)
Definition VFS_REGISTER_STATIC : Z := 1.

(** src/interface/fixos/dirent.h:32-32: DIRENT_BASE_SIZE *)
Definition DIRENT_BASE_SIZE : Z := 9.
Definition DT_UNKNOWN : Z := 0.

(** src/interface/fixos/dirent.h: fixos_dirent *)
Record dirent := mk_dirent { d_ino : Z; d_off : Z; d_type : Z; d_name : list Z }.

Section ops.
Context {A : Type} `{!KMem A}.
Implicit Types (k : kernel A).

(** [fuel] bounds the length of a bucket of the inode cache. *)
Context (fuel : nat).

(** src/fs/vfs.c: vfs_alloc_inode *)
Definition vfs_alloc_inode (inst : ptr) (node : Z) k : option (ptr * kernel A) :=
  '(ret, k) ← vfs_cache_alloc inst node k;
  if negb (ret =? NULL) then Some (ret, upd_inode ret (set_i_count 0) k) else Some (ret, k).

(** src/fs/vfs.c: vfs_release_inode *)
Definition vfs_release_inode (inode : ptr) k : option (kernel A) :=
  if 0 <? i_count (k_inodes k inode) then
    if (i_count (k_inodes k inode) =? 1)
       && (i_type (k_inodes k inode) &? Z.lor INODE_TYPE_ROOT INODE_TYPE_MOUNTPOINT)
    then Some k
    else
      let k := upd_inode inode (λ i, set_i_count (u16 (i_count i - 1)) i) k in
      if i_count (k_inodes k inode) =? 0 then
        vfs_cache_remove fuel (i_fs (k_inodes k inode)) (i_node (k_inodes k inode)) k
      else Some k
  else Some k.

(** [get_inode inst] is [inst->fs->get_inode]. *)
(** src/fs/vfs.c: vfs_get_inode *)
Definition vfs_get_inode (get_inode : ptr → ptr → Z → kernel A → option (ptr * kernel A)) (inst : ptr) (nodeid : Z) k
  : option (ptr * kernel A) :=
  cached ← vfs_cache_find fuel inst nodeid k;
  '(ret, k) ← (if cached =? NULL then get_inode inst inst nodeid k else Some (cached, k));
  if negb (ret =? NULL) then Some (ret, upd_inode ret (λ i, set_i_count (u16 (i_count i + 1)) i) k)
  else Some (ret, k).

(** [fs inst] is [inst->fs]. *)
Context (fs : ptr → file_system A).

(** src/fs/vfs.c: vfs_first_child *)
Definition vfs_first_child (target : ptr) k : option (ptr * kernel A) :=
  if i_type (k_inodes k target) &? INODE_TYPE_PARENT then
    let real := if i_type (k_inodes k target) &? INODE_TYPE_MOUNTPOINT then i_spec (k_inodes k target) else target in
    fs_first_child (fs (i_fs (k_inodes k real))) real k
  else Some (NULL, k).

(** src/fs/vfs.c: vfs_next_sibling *)
Definition vfs_next_sibling (target : ptr) k : option (ptr * kernel A) :=
  if negb (i_type (k_inodes k target) &? INODE_TYPE_ROOT) then
    fs_next_sibling (fs (i_fs (k_inodes k target))) target k
  else Some (NULL, k).

(** src/fs/vfs.c: vfs_resolve_mount *)
Definition vfs_resolve_mount (inode : ptr) k : ptr :=
  if i_type (k_inodes k inode) &? INODE_TYPE_MOUNTPOINT then i_spec (k_inodes k inode)
  else if i_type (k_inodes k inode) &? INODE_TYPE_ROOT then i_spec (k_inodes k inode)
  else NULL.

(** [name] is the string without its NUL; 46 is the dot. *)
(** src/fs/vfs.c: vfs_walk_entry *)
Definition vfs_walk_entry (parent : ptr) (name : list Z) k : option (ptr * kernel A) :=
  if bool_decide (name = [46]) then
    Some (parent, upd_inode parent (λ i, set_i_count (u16 (i_count i + 1)) i) k)
  else if bool_decide (name = [46; 46]) then
    let real := if i_type (k_inodes k parent) &? INODE_TYPE_ROOT then i_spec (k_inodes k parent) else parent in
    if negb (real =? NULL) then
      vfs_get_inode (λ inst, fs_get_inode (fs inst)) (i_fs (k_inodes k real)) (i_parent (k_inodes k real)) k
    else Some (NULL, k)
  else
    let real := if i_type (k_inodes k parent) &? INODE_TYPE_MOUNTPOINT then i_spec (k_inodes k parent) else parent in
    fs_find_sub_node (fs (i_fs (k_inodes k real))) real name k.

(** The copy of the next name of the path: the name and what follows it, from the
    separator (47) or the end of the string. *)
(** src/fs/vfs.c:262-269: vfs_resolve *)
Fixpoint next_name (path : list Z) : list Z * list Z :=
  match path with
  | [] => ([], [])
  | c :: rest => if c =? 47 then ([], path) else let '(n, r) := next_name rest in (c :: n, r)
  end.

(** The loop of [vfs_resolve], [path] being the part of the path not read yet.  A
    name that does not fit [tmpname] has no defined outcome. *)
(** src/fs/vfs.c:256-284: vfs_resolve *)
Fixpoint resolve_loop (n : nat) (current : ptr) (path : list Z) k : option (ptr * kernel A) :=
  match n with
  | O => None
  | S n =>
      let '(name, rest) := next_name path in
      if INODE_MAX_NAME <=? Z.of_nat (length name) then None
      else
        '(current, k) ← (if 0 <? Z.of_nat (length name) then
                           '(swap, k) ← vfs_walk_entry current name k;
                           k ← vfs_release_inode current k;
                           Some (swap, k)
                         else Some (current, k));
        match rest with
        | [] => Some (current, k)
        | _ :: rest => if current =? NULL then Some (NULL, k) else resolve_loop n current rest k
        end
  end.

(** src/fs/vfs.c: vfs_resolve *)
Definition vfs_resolve (path : list Z) k : option (ptr * kernel A) :=
  if negb (root_fs k =? NULL) then
    let absolute := match path with c :: _ => c =? 47 | [] => false end in
    if absolute || (cwd (k_procs k (proc_current k)) =? NULL) then
      '(current, k) ← fs_get_root_node (fs (root_fs k)) (root_fs k) k;
      let path := if absolute then drop 1 path else path in
      resolve_loop (S (length path)) current path k
    else resolve_loop (S (length path)) (cwd (k_procs k (proc_current k))) path k
  else Some (NULL, k).

(** src/fs/vfs_op.c: vfs_create *)
Definition vfs_create (path name : list Z) (type_flags mode_flags special : Z) k : option (Z * kernel A) :=
  '(target, k) ← vfs_resolve path k;
  if negb (target =? NULL) then
    '(newnode, k) ← fs_create_node (fs (i_fs (k_inodes k target))) target name type_flags mode_flags special k;
    k ← (if negb (newnode =? NULL) then vfs_release_inode newnode k else Some k);
    k ← vfs_release_inode target k;
    Some (if newnode =? NULL then -1 else 0, k)
  else Some (-1, k).

(** src/fs/vfs_directory.c: vfs_dir_open *)
Definition vfs_dir_open (inode filep : ptr) k : Z * kernel A :=
  if i_type (k_inodes k inode) &? INODE_TYPE_PARENT then
    (0, upd_file filep (λ f, set_f_op fop_dir (set_f_pos 0 f)) k)
  else (- ENOTDIR, k).

(** src/fs/vfs_file.c: vfs_open *)
Definition vfs_open (inode : ptr) (flags : Z) k : option (ptr * kernel A) :=
  if negb (flags &? O_RDWR) || ((flags &? O_WRONLY) && (i_type (k_inodes k inode) &? INODE_TYPE_PARENT)) then Some (NULL, k)
  else
    '(filep, k) ← vfs_file_alloc k;
    if negb (filep =? NULL) then
      let k := upd_file filep (λ f, set_f_count 1 (set_f_pos 0 (set_f_inode inode (set_f_flags flags f)))) k in
      '(done, k) ←
        (if i_type (k_inodes k inode) &? INODE_TYPE_PARENT then
           let '(r, k) := vfs_dir_open inode filep k in Some (r =? 0, k)
         else if negb (i_fs (k_inodes k inode) =? NULL) then
           match fs_open (fs (i_fs (k_inodes k inode))) with
           | Some op => '(r, k) ← op inode filep k; Some (r =? 0, k)
           | None => Some (false, k)
           end
         else Some (false, k));
      if negb done then k ← vfs_file_free filep k; Some (NULL, k)
      else Some (filep, k)
    else Some (filep, k).

(** src/sys/files.c: sys_open *)
Definition sys_open (name : list Z) (flags : Z) k : option (Z * kernel A) :=
  let fd := fd_scan k 0 in
  if fd <? PROCESS_MAX_FILE then
    '(inode, k) ← vfs_resolve name k;
    if negb (inode =? NULL) then
      let '(flags, k) := if flags &? O_CLOEXEC then (Z.land flags (Z.lnot O_CLOEXEC), set_fdflag fd FD_CLOEXEC k)
                         else (flags, set_fdflag fd 0 k) in
      '(f, k) ← vfs_open inode flags k;
      let k := set_fd fd f k in
      Some (if negb (aget (files (cur_proc k)) fd =? NULL) then fd else -1, k)
    else Some (-1, k)
  else Some (-1, k).

(** src/sys/process.c: sys_chdir *)
Definition sys_chdir (path : list Z) k : option (Z * kernel A) :=
  let cur := proc_current k in
  '(inode, k) ← vfs_resolve path k;
  if negb (inode =? NULL) then
    if i_type (k_inodes k inode) &? INODE_TYPE_PARENT then
      k ← (if negb (cwd (k_procs k cur) =? NULL) then vfs_release_inode (cwd (k_procs k cur)) k else Some k);
      Some (0, upd_proc cur (set_cwd inode) k)
    else Some (- ENOTDIR, k)
  else Some (- ENOENT, k).

(** src/sys/process.c: sys_fchdir *)
Definition sys_fchdir (fd : Z) k : option (Z * kernel A) :=
  let cur := proc_current k in
  if fd_valid k fd then
    let inode := f_inode (k_files k (aget (files (cur_proc k)) fd)) in
    if negb (inode =? NULL) then
      if i_type (k_inodes k inode) &? INODE_TYPE_PARENT then
        k ← (if negb (cwd (k_procs k cur) =? NULL) then vfs_release_inode (cwd (k_procs k cur)) k else Some k);
        let k := upd_inode inode (λ i, set_i_count (u16 (i_count i + 1)) i) k in
        Some (0, upd_proc cur (set_cwd inode) k)
      else Some (- ENOTDIR, k)
    else Some (- ENOENT, k)
  else Some (- EBADF, k).

(** A file system as it is registered: its name and its [mount]. *)
(** src/fs/file_system.h:54-60: file_system *)
Record registered_fs := mk_registered { rf_name : list Z; rf_mount : Z → kernel A → option (ptr * kernel A) }.

(** The list of file systems is [vfs_fslist]; the loop on the mount points stops at
    [VFS_MOUNT_ROOT]. *)
(** src/fs/vfs.c: vfs_init *)
Definition vfs_init (fslist : list (option registered_fs)) k : list (option registered_fs) * kernel A :=
  let k := vfs_cache_init k in
  let k := set_mounted_fs (foldl (λ m i, aset m i (NULL, NULL)) (mounted_fs k) (seqZ 0 VFS_MOUNT_ROOT)) k in
  ((λ _, None) <$> fslist, k).

(** src/fs/vfs.c: vfs_register_fs *)
Definition vfs_register_fs (f : registered_fs) (flags : Z) (fslist : list (option registered_fs)) : list (option registered_fs) :=
  if flags &? VFS_REGISTER_STATIC then
    let i := scan (λ e, match e with None => true | Some _ => false end) fslist in
    <[i := Some f]> fslist
  else fslist.

(** The file system of a name. *)
(** src/fs/vfs.c:161-168: vfs_mount *)
Fixpoint find_fs (fsname : list Z) (fslist : list (option registered_fs)) : option registered_fs :=
  match fslist with
  | [] => None
  | Some f :: l => if bool_decide (fsname = rf_name f) then Some f else find_fs fsname l
  | None :: l => find_fs fsname l
  end.

(** src/fs/vfs.c: vfs_mount *)
Definition vfs_mount (fslist : list (option registered_fs)) (fsname path : list Z) (flags : Z) k : option (Z * kernel A) :=
  match find_fs fsname fslist with
  | None => Some (-1, k)
  | Some f =>
      if flags &? VFS_MOUNT_ROOT then
        if root_fs k =? NULL then
          '(inst, k) ← rf_mount f 0 k;
          let k := set_root_fs inst k in
          if negb (root_fs k =? NULL) then
            '(root_inode, k) ← fs_get_root_node (fs (root_fs k)) (root_fs k) k;
            if negb (root_inode =? NULL) then
              let k := upd_inode root_inode (set_i_type (Z.lor INODE_TYPE_ROOT INODE_TYPE_PARENT)) k in
              Some (0, upd_inode root_inode (set_i_spec NULL) k)
            else Some (-1, k)
          else Some (-1, k)
        else Some (-1, k)
      else
        let i := Z.of_nat (scan (λ m, m.1 =? NULL) (mounted_fs k)) in
        if i <? VFS_MAX_MOUNT then
          '(mnt_inode, k) ← vfs_resolve path k;
          if negb (mnt_inode =? NULL) && (i_type (k_inodes k mnt_inode) &? INODE_TYPE_PARENT) then
            '(inst, k) ← rf_mount f 0 k;
            let k := set_mounted_fs (aset (mounted_fs k) i (inst, (nth (Z.to_nat i) (mounted_fs k) (NULL, NULL)).2)) k in
            if negb (inst =? NULL) then
              '(root_inode, k) ← fs_get_root_node (fs inst) inst k;
              if negb (root_inode =? NULL) then
                let k := upd_inode root_inode (set_i_spec mnt_inode) k in
                let k := upd_inode root_inode (set_i_type (Z.lor INODE_TYPE_ROOT INODE_TYPE_PARENT)) k in
                let k := set_mounted_fs (aset (mounted_fs k) i (inst, mnt_inode)) k in
                let k := upd_inode mnt_inode (λ n, set_i_type (Z.lor (i_type n) INODE_TYPE_MOUNTPOINT) n) k in
                Some (0, upd_inode mnt_inode (set_i_spec root_inode) k)
              else Some (-1, k)
            else Some (-1, k)
          else Some (-1, k)
        else Some (-1, k)
  end.

(** *** Reading directories *)

(** The loop that skips [n] entries from [cur]. *)
(** src/fs/vfs_directory.c:66-70: vfs_dir_getdents *)
Fixpoint skip_entries (n : nat) (cur : ptr) k : option (ptr * kernel A) :=
  match n with
  | O => Some (cur, k)
  | S n =>
      if negb (cur =? NULL) then
        '(nxt, k) ← vfs_next_sibling cur k;
        k ← vfs_release_inode cur k;
        skip_entries n nxt k
      else Some (cur, k)
  end.

(** The size of an entry with a name of [namelen] bytes. *)
(** src/fs/vfs_directory.c:88-90: vfs_dir_getdents *)
Definition dirent_len (namelen : Z) : Z :=
  let dirlen := DIRENT_BASE_SIZE + namelen + 1 in
  if negb (dirlen mod 4 =? 0) then dirlen + (4 - dirlen mod 4) else dirlen.

(** The loop that copies the entries: the final [cur], [curlen] and the entries
    written to [buf].  [n] bounds the number of entries of the directory. *)
(** src/fs/vfs_directory.c:79-108: vfs_dir_getdents *)
Fixpoint copy_entries (n : nat) (filep cur : ptr) (curlen len : Z) k : option (ptr * Z * list dirent * kernel A) :=
  if negb (cur =? NULL) then
    match n with
    | O => None
    | S n =>
        let name := c_str (i_name (k_inodes k cur)) in
        let dirlen := dirent_len (Z.of_nat (length name)) in
        if len <=? u32 (curlen + dirlen) then Some (cur, curlen, [], k)
        else
          let d := mk_dirent (i_node (k_inodes k cur)) dirlen DT_UNKNOWN name in
          let k := upd_file filep (λ f, set_f_pos (s32 (f_pos f + 1)) f) k in
          '(nxt, k) ← vfs_next_sibling cur k;
          k ← vfs_release_inode cur k;
          '(cur, curlen, ds, k) ← copy_entries n filep nxt (u32 (curlen + dirlen)) len k;
          Some (cur, curlen, d :: ds, k)
    end
  else Some (cur, curlen, [], k).

(** src/fs/vfs_directory.c: vfs_dir_getdents *)
Definition vfs_dir_getdents (n : nat) (filep : ptr) (len : Z) k : option (Z * list dirent * kernel A) :=
  let inode := f_inode (k_files k filep) in
  if negb (inode =? NULL) && (i_type (k_inodes k inode) &? INODE_TYPE_PARENT) then
    '(cur, k) ← vfs_first_child inode k;
    '(cur, k) ← skip_entries (Z.to_nat (f_pos (k_files k filep))) cur k;
    if negb (cur =? NULL) then
      '(cur, curlen, ds, k) ← copy_entries n filep cur 0 len k;
      k ← (if negb (cur =? NULL) then vfs_release_inode cur k else Some k);
      Some (if 0 <? curlen then s32 curlen else - EINVAL, ds, k)
    else Some (- EINVAL, [], k)
  else Some (- EINVAL, [], k).

(** src/sys/files.c: sys_getdents *)
Definition sys_getdents (n : nat) (fd len : Z) k : option (Z * list dirent * kernel A) :=
  if fd_valid k fd then vfs_dir_getdents n (aget (files (cur_proc k)) fd) len k
  else Some (- EBADF, [], k).
End ops.
Arguments registered_fs : clear implicits.
