(* ===== verification/Protofs.v ===== *)
(** * Protofs (src/fs/protofs/file_system.c)

    The root file system: a page of nodes, each with a name and the address of
    its parent node.  Its operations are given to the virtual file system as a
    [file_system]; the theorem of the file is that resolving an absolute path
    through the inode cache is walking the tree the nodes describe, with the
    reference counts balanced. *)

From S2P Require Import Prelude CyclicFifo PhysMem PoolAlloc KMem Pid Mmu PageDir Kernel Pipe VfsFile VfsCache Vfs.

(** src/fs/protofs/primitives.h:25-25: PROTOFS_TYPE_EMPTY *)
Definition PROTOFS_TYPE_EMPTY : Z := 16384.
(** src/fs/protofs/primitives.h:28-28: PROTOFS_ROOT_NODE *)
Definition PROTOFS_ROOT_NODE : Z := 0xFFFFFFFF.
(** [sizeof(protofs_node_t)] *)
Definition PROTOFS_NODE_SIZE : Z := 28.
(** src/fs/protofs/primitives.h:46-46: PROTOFS_PER_PAGE *)
Definition PROTOFS_PER_PAGE : Z := PM_PAGE_BYTES / PROTOFS_NODE_SIZE.

(** src/fs/protofs/primitives.h:48-48: PROTOFS_NODE_NB *)
Definition PROTOFS_NODE_NB (page addr : ptr) : Z := u32 (addr - page) / PROTOFS_NODE_SIZE.
(** src/fs/protofs/primitives.h:50-50: PROTOFS_NODE_ADDR *)
Definition PROTOFS_NODE_ADDR (page : ptr) (nb : Z) : ptr :=
  if nb =? PROTOFS_ROOT_NODE then 0 else u32 (nb * PROTOFS_NODE_SIZE + page).

Definition zero_pnode : protofs_node := mk_pnode [] 0 0 0 0.

(** [strcpy(dest, s)]: the string and its NUL over the beginning of the array. *)
Definition strcpy (dest s : list Z) : list Z := memcpy_to dest 0 (s ++ [0]).

Lemma c_str_no_nul s : Forall (λ c, c ≠ 0) (c_str s).
Proof. induction s as [|c s IH]; [constructor|]. simpl. destruct (Z.eqb_spec c 0); [constructor|by constructor]. Qed.

Lemma strcpy_c_str b s : Forall (λ c, c ≠ 0) s → (length s < length b)%nat → c_str (strcpy b s) = s.
Proof.
  intros Hs Hl. unfold strcpy. rewrite memcpy_to_spec by (rewrite length_app; simpl; lia). simpl.
  rewrite <- app_assoc. by apply c_str_app_nul.
Qed.

Section ops.
Context {A : Type} `{!KMem A}.
Context (fuel : nat).
Implicit Types (k : kernel A).

Definition pf_node k (i : Z) : protofs_node := nth (Z.to_nat i) (pf_nodes (k_protofs k)) zero_pnode.

(** [node] is NULL, here [None], for the root; [nb] is its index in the page. *)
(** src/fs/protofs/file_system.c: protofs_fill_inode *)
Definition protofs_fill_inode (page : ptr) (inst : ptr) (nb : Z) (node : option protofs_node) (ret : inode) : inode :=
  let ret := set_i_fs inst ret in
  match node with
  | None =>
      set_i_fs inst (set_i_flags 7 (set_i_node PROTOFS_ROOT_NODE (set_i_name (memcpy_to (i_name ret) 0 [0])
        (set_i_abstract NULL (set_i_type (Z.lor INODE_TYPE_ROOT INODE_TYPE_PARENT) ret)))))
  | Some n =>
      let ret := set_i_type (Z.land (pn_type n) (Z.lnot PROTOFS_TYPE_EMPTY)) ret in
      let ret := if pn_type n &? INODE_TYPE_DEV then set_i_spec (pn_dev n) ret else set_i_abstract NULL ret in
      let ret := set_i_name (strcpy (i_name ret) (c_str (pn_name n))) ret in
      let ret := set_i_node (PROTOFS_NODE_NB page (u32 (nb * PROTOFS_NODE_SIZE + page))) ret in
      let ret := set_i_parent (if pn_parent n =? NULL then PROTOFS_ROOT_NODE else PROTOFS_NODE_NB page (pn_parent n)) ret in
      set_i_flags (pn_mode n) ret
  end.

(** src/fs/protofs/file_system.c: protofs_get_inode *)
Definition protofs_get_inode (inst : ptr) (node : Z) k : option (ptr * kernel A) :=
  if (node =? PROTOFS_ROOT_NODE) || (node <? PROTOFS_PER_PAGE) then
    '(ret, k) ← vfs_alloc_inode inst node k;
    let n := if node =? PROTOFS_ROOT_NODE then None else Some (pf_node k node) in
    Some (ret, upd_inode ret (protofs_fill_inode (pf_page (k_protofs k)) inst node n) k)
  else Some (NULL, k).

(** [vfs_get_inode(inst, node)] for an instance of protofs. *)
Definition proto_get (inst : ptr) (node : Z) k : option (ptr * kernel A) :=
  vfs_get_inode fuel (λ _, protofs_get_inode) inst node k.

(** src/fs/protofs/file_system.c: protofs_get_root_node *)
Definition protofs_get_root_node (inst : ptr) k : option (ptr * kernel A) := proto_get inst PROTOFS_ROOT_NODE k.

(** The address the children of a node have as parent. *)
(** src/fs/protofs/file_system.c:149-152: protofs_find_sub_node *)
Definition parent_addr k (node : Z) : ptr :=
  if node =? PROTOFS_ROOT_NODE then NULL else PROTOFS_NODE_ADDR (pf_page (k_protofs k)) node.

(** The conditions of the searches. *)
(** src/fs/protofs/file_system.c:105-106: protofs_first_child *)
Definition is_child (parent : ptr) (n : protofs_node) : bool :=
  negb (pn_type n &? PROTOFS_TYPE_EMPTY) && (pn_parent n =? parent).
(** src/fs/protofs/file_system.c:155-157: protofs_find_sub_node *)
Definition is_named (parent : ptr) (name : list Z) (n : protofs_node) : bool :=
  is_child parent n && bool_decide (c_str (pn_name n) = name).

(** src/fs/protofs/file_system.c: protofs_first_child *)
Definition protofs_first_child (target : ptr) k : option (ptr * kernel A) :=
  if i_type (k_inodes k target) &? INODE_TYPE_PARENT then
    let i := Z.of_nat (scan (is_child (parent_addr k (i_node (k_inodes k target)))) (pf_nodes (k_protofs k))) in
    if i <? PROTOFS_PER_PAGE then proto_get (i_fs (k_inodes k target)) i k else Some (NULL, k)
  else Some (NULL, k).

(** src/fs/protofs/file_system.c: protofs_next_sibling *)
Definition protofs_next_sibling (target : ptr) k : option (ptr * kernel A) :=
  let i := k_inodes k target in
  if negb (i_node i =? PROTOFS_ROOT_NODE) then
    let from := i_node i + 1 in
    let j := from + Z.of_nat (scan (is_child (parent_addr k (i_parent i))) (drop (Z.to_nat from) (pf_nodes (k_protofs k)))) in
    if j <? PROTOFS_PER_PAGE then proto_get (i_fs i) j k else Some (NULL, k)
  else Some (NULL, k).

(** src/fs/protofs/file_system.c: protofs_find_sub_node *)
Definition protofs_find_sub_node (target : ptr) (name : list Z) k : option (ptr * kernel A) :=
  if i_type (k_inodes k target) &? INODE_TYPE_PARENT then
    let i := Z.of_nat (scan (is_named (parent_addr k (i_node (k_inodes k target))) name) (pf_nodes (k_protofs k))) in
    if i <? PROTOFS_PER_PAGE then proto_get (i_fs (k_inodes k target)) i k else Some (NULL, k)
  else Some (NULL, k).

(** A name longer than the array of the node has no defined outcome. *)
(** src/fs/protofs/file_system.c: protofs_create_node *)
Definition protofs_create_node (parent : ptr) (name : list Z) (type_flags mode_flags special : Z) k : option (ptr * kernel A) :=
  let cur := Z.of_nat (scan (λ n, pn_type n &? PROTOFS_TYPE_EMPTY) (pf_nodes (k_protofs k))) in
  if cur <? PROTOFS_PER_PAGE then
    let n := pf_node k cur in
    if (length (pn_name n) <=? length name)%nat then None
    else
    let pnode := i_node (k_inodes k parent) in
    let n := mk_pnode (strcpy (pn_name n) name) (parent_addr k pnode) type_flags mode_flags
               (if type_flags &? INODE_TYPE_DEV then special else pn_dev n) in
    let k := set_k_protofs (mk_protofs (pf_mounted (k_protofs k)) (pf_page (k_protofs k)) (aset (pf_nodes (k_protofs k)) cur n)) k in
    proto_get (i_fs (k_inodes k parent)) cur k
  else Some (NULL, k).

(** [inst] is the address of [_protofs_inst]; [stale] is the content of the page. *)
(** src/fs/protofs/file_system.c: protofs_mount *)
Definition protofs_mount (inst : ptr) (stale : list protofs_node) k : option (ptr * kernel A) :=
  if pf_mounted (k_protofs k) =? 0 then
    '(page, a) ← km_get_page MEM_PM_CACHED (k_mem k);
    let nodes := (λ n, mk_pnode (pn_name n) (pn_parent n) PROTOFS_TYPE_EMPTY (pn_mode n) (pn_dev n)) <$> stale in
    Some (inst, set_k_protofs (mk_protofs 1 page nodes) (set_k_mem a k))
  else Some (NULL, k).

(** [open_dev] is [vfs_open_dev]. *)
(** src/fs/protofs/file_system.c: protofs_open *)
Definition protofs_open (open_dev : ptr → ptr → kernel A → option (Z * kernel A)) (inode filep : ptr) k : option (Z * kernel A) :=
  if i_type (k_inodes k inode) &? INODE_TYPE_DEV then open_dev inode filep k
  else if i_type (k_inodes k inode) &? INODE_TYPE_PARENT then Some (0, k)
  else Some (- EINVAL, k).

(** src/fs/protofs/file_system.c:28-41: protofs_file_system *)
Definition protofs_file_system (open_dev : ptr → ptr → kernel A → option (Z * kernel A)) : file_system A :=
  mk_fs _ protofs_get_root_node protofs_first_child protofs_next_sibling protofs_find_sub_node protofs_get_inode
    protofs_create_node (Some (protofs_open open_dev)).
End ops.

(** ** The tree *)

Section tree.
Context (pf : protofs).

Definition root_node : Z := PROTOFS_ROOT_NODE.

Definition node_at (i : Z) : option protofs_node :=
  if 0 <=? i then n ← pf_nodes pf !! Z.to_nat i; if pn_type n &? PROTOFS_TYPE_EMPTY then None else Some n else None.

(** A node of the tree: the root or a node in use. *)
Definition is_node (i : Z) : Prop := i = root_node ∨ is_Some (node_at i).

Definition addr_of (i : Z) : ptr := if i =? root_node then NULL else PROTOFS_NODE_ADDR (pf_page pf) i.

Definition is_dir (i : Z) : bool :=
  if i =? root_node then true else match node_at i with Some n => pn_type n &? INODE_TYPE_PARENT | None => false end.

Definition tree_parent (i : Z) : option Z :=
  if i =? root_node then None
  else n ← node_at i; Some (if pn_parent n =? NULL then root_node else PROTOFS_NODE_NB (pf_page pf) (pn_parent n)).

Definition tree_child (i : Z) (name : list Z) : option Z :=
  if is_dir i then
    let j := Z.of_nat (scan (is_named (addr_of i) name) (pf_nodes pf)) in
    if j <? PROTOFS_PER_PAGE then Some j else None
  else None.

(** One component of a path. *)
Definition tree_step (i : Z) (name : list Z) : option Z :=
  if bool_decide (name = [46]) then Some i
  else if bool_decide (name = [46; 46]) then tree_parent i
  else tree_child i name.

(** The node a sequence of components leads to. *)
Fixpoint tree_walk (i : Z) (names : list (list Z)) : option Z :=
  match names with [] => Some i | n :: names => j ← tree_step i n; tree_walk j names end.

(** The page holds 36 nodes; parents are nodes in use; no node has the flags of a
    mounted file system; the names fit in an inode. *)
Definition tree_wf : Prop :=
  length (pf_nodes pf) = 36%nat ∧
  ∀ i n, node_at i = Some n →
    (pn_parent n = NULL ∨ ∃ j, is_Some (node_at j) ∧ pn_parent n = u32 (j * PROTOFS_NODE_SIZE + pf_page pf)) ∧
    (Z.land (pn_type n) (Z.lnot PROTOFS_TYPE_EMPTY) &? Z.lor INODE_TYPE_ROOT INODE_TYPE_MOUNTPOINT) = false ∧
    (length (c_str (pn_name n)) < 20)%nat.

Lemma node_at_range i n : tree_wf → node_at i = Some n → 0 ≤ i < 36 ∧ pf_nodes pf !! Z.to_nat i = Some n ∧ (pn_type n &? PROTOFS_TYPE_EMPTY) = false.
Proof.
  intros [Hl _]. unfold node_at. destruct (Z.leb_spec 0 i); [|done]. destruct (pf_nodes pf !! Z.to_nat i) as [x|] eqn:Hx; [|done].
  simpl. destruct (pn_type x &? PROTOFS_TYPE_EMPTY) eqn:He; [done|]. intros [= ->]. apply lookup_lt_Some in Hx as Hlt. split; [lia|done].
Qed.

Lemma node_nb_addr j : 0 ≤ j < 36 → PROTOFS_NODE_NB (pf_page pf) (u32 (j * PROTOFS_NODE_SIZE + pf_page pf)) = j.
Proof.
  intros Hj. unfold PROTOFS_NODE_NB, PROTOFS_NODE_SIZE, u32.
  rewrite Zminus_mod_idemp_l. replace (j * 28 + pf_page pf - pf_page pf) with (j * 28) by lia.
  rewrite Z.mod_small by lia. by apply Z.div_mul.
Qed.

Lemma tree_parent_node i j : tree_wf → tree_parent i = Some j → is_node j.
Proof.
  intros Hwf. unfold tree_parent. destruct (_ =? _); [done|]. destruct (node_at i) as [n|] eqn:Hn; [|done]. simpl.
  destruct Hwf as [Hl Hw]. destruct (proj1 (Hw i n Hn)) as [->|(j' & Hj' & ->)].
  - intros [= <-]. by left.
  - destruct Hj' as [x Hx]. destruct (node_at_range j' x (conj Hl Hw) Hx) as [Hr _]. destruct (Z.eqb_spec (u32 (j' * PROTOFS_NODE_SIZE + pf_page pf)) NULL).
    + intros [= <-]. by left.
    + rewrite node_nb_addr by done. intros [= <-]. right. by exists x.
Qed.

Lemma tree_child_node i name j : tree_wf → tree_child i name = Some j → is_node j ∧ 0 ≤ j < 36.
Proof.
  intros Hwf. pose proof Hwf as [Hl _]. unfold tree_child. destruct (is_dir i); [|done]. change PROTOFS_PER_PAGE with 36.
  destruct (Z.ltb_spec (Z.of_nat (scan (is_named (addr_of i) name) (pf_nodes pf))) 36) as [Hlt|]; [|done]. intros [= <-].
  destruct (scan_stop (is_named (addr_of i) name) (pf_nodes pf)) as (n & Hn & Hs); [lia|].
  unfold is_named, is_child in Hs. breflect. split; [|lia]. right. exists n. unfold node_at.
  rewrite (proj2 (Z.leb_le 0 _)) by lia. rewrite Nat2Z.id, Hn. simpl. by match goal with H : (pn_type n &? _) = false |- _ => rewrite H end.
Qed.
End tree.

(** ** Paths *)

(** The parts of a path between the slashes. *)
Fixpoint split_path (path : list Z) : list (list Z) :=
  match path with
  | [] => [[]]
  | c :: rest =>
      if c =? 47 then [] :: split_path rest
      else match split_path rest with n :: ns => (c :: n) :: ns | [] => [[c]] end
  end.

(** The names of a path: empty parts do not count. *)
Definition path_names (path : list Z) : list (list Z) := filter (λ s, s ≠ []) (split_path path).

Lemma next_name_split path nm rest :
  next_name path = (nm, rest) →
  split_path path = nm :: match rest with [] => [] | _ :: r => split_path r end ∧
  match rest with [] => True | _ :: r => (length r < length path)%nat end.
Proof.
  revert nm rest. induction path as [|c path IH]; intros nm rest; simpl; [by intros [= <- <-]|].
  destruct (c =? 47); [intros [= <- <-]; simpl; split; [done|lia]|].
  destruct (next_name path) as [n r] eqn:Hn. intros [= <- <-]. destruct (IH n r eq_refl) as [-> Hl]. split; [done|].
  destruct r; simpl in *; [done|lia].
Qed.

(** ** Cached inodes *)

Section cache.
Context {A : Type} `{!KMem A}.
Context (fuel : nat) (Hfuel : (37 ≤ fuel)%nat) (inst : ptr) (open_dev : ptr → ptr → kernel A → option (Z * kernel A)).
Implicit Types (k : kernel A) (bk : list (list ptr)).

(** A cached inode shows its node. *)
Definition coherent (pf : protofs) (i : inode) : Prop :=
  i_fs i = inst ∧ is_node pf (i_node i) ∧ 0 < i_count i < 65536 ∧
  (i_node i = root_node → i_type i = Z.lor INODE_TYPE_ROOT INODE_TYPE_PARENT ∧ i_spec i = NULL) ∧
  (∀ n, i_node i ≠ root_node → node_at pf (i_node i) = Some n →
     i_type i = Z.land (pn_type n) (Z.lnot PROTOFS_TYPE_EMPTY) ∧ tree_parent pf (i_node i) = Some (i_parent i) ∧
     c_str (i_name i) = c_str (pn_name n) ∧ i_flags i = pn_mode n ∧ ((pn_type n &? INODE_TYPE_DEV) = true → i_spec i = pn_dev n)).

(** The cache holds inodes of the file system, the root among them. *)
Record vfs_ok k L H F bk : Prop := {
  vo_cache : cache_rep k bk;
  vo_live e : e ∈ concat bk → (PInode, e) ∈ L;
  vo_mem : km_inv (k_mem k) L H F;
  vo_tree : tree_wf (k_protofs k);
  vo_coh e : e ∈ concat bk → coherent (k_protofs k) (k_inodes k e);
  vo_root : ∃ e, e ∈ concat bk ∧ i_node (k_inodes k e) = root_node;
  vo_names e : length (i_name (k_inodes k e)) = 20%nat
}.

(** The number of references on a node. *)
Definition node_refs k (n : Z) : Z :=
  match vfs_cache_find fuel inst n k with
  | Some e => if e =? NULL then 0 else i_count (k_inodes k e)
  | None => 0
  end.

(** [e] is the cached inode of node [n]. *)
Definition inode_of k bk (e : ptr) (n : Z) : Prop := e ∈ concat bk ∧ i_node (k_inodes k e) = n.

Lemma cache_bound k L H F bk : vfs_ok k L H F bk → (length (concat bk) ≤ fuel)%nat.
Proof.
  intros [Hc _ _ Ht Hcoh _ _]. transitivity 37%nat; [|exact Hfuel].
  assert (Hnd : NoDup ((λ e, i_node (k_inodes k e)) <$> concat bk)).
  { destruct Hc as (_ & _ & _ & Hnd & _ & Hu).
    assert (Hinj : ∀ x y, x ∈ concat bk → y ∈ concat bk → i_node (k_inodes k x) = i_node (k_inodes k y) → x = y).
    { intros x y Hx Hy Hxy. apply Hu; try done. destruct (Hcoh x Hx) as [-> _], (Hcoh y Hy) as [-> _]. done. }
    clear -Hnd Hinj. induction Hnd as [|x l Hx Hnd IH]; [constructor|]. simpl. constructor.
    - rewrite list_elem_of_fmap. intros (y & Hxy & Hy). apply Hx. rewrite (Hinj x y); [done|by left|by right|done].
    - apply IH. intros a b Ha Hb. apply Hinj; by right. }
  assert (Hsub : ((λ e, i_node (k_inodes k e)) <$> concat bk) ⊆ root_node :: seqZ 0 36).
  { intros n Hn. apply list_elem_of_fmap in Hn as (e & -> & He). destruct (Hcoh e He) as (_ & [->|[x Hx]] & _); [by left|].
    right. apply elem_of_seqZ. by apply (node_at_range _ _ _ Ht) in Hx as [? _]. }
  apply (NoDup_submseteq _ _ Hnd) in Hsub. apply submseteq_length in Hsub. rewrite length_fmap in Hsub. exact Hsub.
Qed.

Lemma inode_of_key k L H F bk e n : vfs_ok k L H F bk → inode_of k bk e n → has_key k inst n e = true.
Proof. intros Hok [He <-]. apply has_key_iff. split; [|done]. by apply (vo_coh _ _ _ _ _ Hok e He). Qed.

Lemma find_inode k L H F bk e n : vfs_ok k L H F bk → inode_of k bk e n → vfs_cache_find fuel inst n k = Some e.
Proof.
  intros Hok He. apply (cache_find_unique fuel k bk); [apply Hok|by eapply cache_bound|apply He|by eapply inode_of_key].
Qed.

Lemma inode_nonnull k L H F bk e : vfs_ok k L H F bk → e ∈ concat bk → e ≠ NULL.
Proof. intros Hok He. eapply km_inv_nodup; [apply Hok|]. by eapply vo_live. Qed.

Lemma refs_inode k L H F bk e n : vfs_ok k L H F bk → inode_of k bk e n → node_refs k n = i_count (k_inodes k e).
Proof.
  intros Hok He. unfold node_refs. rewrite (find_inode _ _ _ _ _ _ _ Hok He).
  destruct (Z.eqb_spec e NULL); [|done]. by destruct (inode_nonnull _ _ _ _ _ e Hok (proj1 He)).
Qed.

Lemma refs_absent k L H F bk n : vfs_ok k L H F bk → (∀ e, ¬ inode_of k bk e n) → vfs_cache_find fuel inst n k = Some NULL ∧ node_refs k n = 0.
Proof.
  intros Hok Hn. assert (Hf : vfs_cache_find fuel inst n k = Some NULL); [|by unfold node_refs; rewrite Hf].
  apply (cache_find_none fuel k bk); [apply Hok|by eapply cache_bound|]. intros e He. apply not_true_iff_false. intros Hk.
  apply has_key_iff in Hk as [_ Hk]. by apply (Hn e).
Qed.

(** Either a node is cached or it has no reference. *)
Lemma inode_dec k L H F bk n : vfs_ok k L H F bk →
  (∃ e, inode_of k bk e n) ∨ ((∀ e, ¬ inode_of k bk e n) ∧ vfs_cache_find fuel inst n k = Some NULL ∧ node_refs k n = 0).
Proof.
  intros Hok. destruct (cache_find_spec fuel k bk inst n) as (r & Hr & [[-> Hn]|(Hin & _ & Hk)]);
    [apply Hok|by eapply cache_bound|right|left].
  - assert (Hno : ∀ e, ¬ inode_of k bk e n).
    { intros e He. pose proof (inode_of_key _ _ _ _ _ _ _ Hok He) as Hk. rewrite (Hn e (proj1 He)) in Hk. done. }
    split; [done|]. by eapply refs_absent.
  - exists r. split; [done|]. by apply has_key_iff in Hk as [_ ?].
Qed.

Lemma cache_rep_ext k k' bk :
  hash_head k' = hash_head k →
  (∀ e, i_next (k_inodes k' e) = i_next (k_inodes k e) ∧ i_fs (k_inodes k' e) = i_fs (k_inodes k e) ∧ i_node (k_inodes k' e) = i_node (k_inodes k e)) →
  cache_rep k bk → cache_rep k' bk.
Proof.
  intros Hh Hi (Hl & Hb & Hc & Hnd & Hk & Hu). split_and!; try done.
  - by rewrite Hh.
  - intros h l Hlk. rewrite Hh. eapply chain_frame; [|by apply Hc]. intros x _. unfold nexts. by destruct (Hi x) as [-> _].
  - intros h l e Hlk He. destruct (Hi e) as (_ & -> & ->). by apply (Hk h l).
  - intros e e' He He'. destruct (Hi e) as (_ & -> & ->), (Hi e') as (_ & -> & ->). by apply Hu.
Qed.

(** Changing the count of one cached inode. *)
Lemma set_count_ok k L H F bk e c :
  vfs_ok k L H F bk → e ∈ concat bk → 0 < c < 65536 →
  let k' := upd_inode e (set_i_count c) k in
  vfs_ok k' L H F bk ∧ (∀ x n, inode_of k' bk x n ↔ inode_of k bk x n) ∧
  ∀ m, node_refs k' m = if decide (m = i_node (k_inodes k e)) then c else node_refs k m.
Proof.
  intros Hok He Hc k'. pose proof Hok as [Hrep Hlive Hmem Ht Hcoh Hroot Hnames].
  assert (Hi : ∀ x, k_inodes k' x = if decide (x = e) then set_i_count c (k_inodes k e) else k_inodes k x).
  { intros x. unfold k'. case_decide as Hx; [subst; by rewrite upd_inode_eq|by rewrite upd_inode_ne]. }
  assert (Hin : ∀ x n, inode_of k' bk x n ↔ inode_of k bk x n).
  { intros x n. unfold inode_of. rewrite Hi. case_decide; subst; done. }
  assert (Hok' : vfs_ok k' L H F bk).
  { split; try done.
    - apply (cache_rep_ext k); [done| |done]. intros x. rewrite Hi. case_decide; subst; done.
    - intros x Hx. rewrite Hi. destruct (Hcoh x Hx) as (H1 & H2 & H3 & H4 & H5). case_decide; [subst x|]; split_and!; (done || (cbn; lia)).
    - destruct Hroot as (r & Hr & Hrn). exists r. split; [done|]. rewrite Hi. case_decide; subst; done.
    - intros x. rewrite Hi. case_decide; [apply Hnames|done]. }
  split; [done|]. split; [done|]. intros m.
  destruct (inode_dec k L H F bk m Hok) as [(x & Hx)|(Hno & _ & Hz)].
  - rewrite (refs_inode k' L H F bk x m Hok') by by apply Hin. rewrite (refs_inode k L H F bk x m Hok Hx), Hi.
    case_decide as Hxe.
    + subst x. destruct Hx as [_ <-]. by rewrite decide_True.
    + rewrite decide_False; [done|]. intros ->. apply Hxe. pose proof (find_inode _ _ _ _ _ _ _ Hok Hx) as H1.
      pose proof (find_inode k L H F bk e _ Hok (conj He eq_refl)) as H2. rewrite H1 in H2. by injection H2.
  - rewrite decide_False by (intros ->; by apply (Hno e)). rewrite Hz.
    apply (refs_absent k' L H F bk m Hok'). intros x Hx. by apply (Hno x), Hin.
Qed.

Lemma upd_count_eq k e c g : g (k_inodes k e) = set_i_count c (k_inodes k e) → upd_inode e g k = upd_inode e (set_i_count c) k.
Proof. intros Hg. unfold upd_inode. by rewrite Hg. Qed.

Lemma cache_alloc_frame k n node r k1 :
  vfs_cache_alloc n node k = Some (r, k1) → k_protofs k1 = k_protofs k ∧ root_fs k1 = root_fs k.
Proof.
  unfold vfs_cache_alloc. destruct (km_alloc PInode (k_mem k)) as [[x a]|]; [|done]. cbn [mbind option_bind].
  destruct (negb _); by intros [= <- <-].
Qed.

Lemma cache_alloc_name k n node r k1 e :
  vfs_cache_alloc n node k = Some (r, k1) → i_name (k_inodes k1 e) = i_name (k_inodes k e).
Proof.
  unfold vfs_cache_alloc. destruct (km_alloc PInode (k_mem k)) as [[x a]|]; [|done]. cbn [mbind option_bind].
  destruct (negb _); intros [= <- <-]; [|done]. destruct (decide (e = x)) as [->|He].
  - change (i_name (k_inodes (upd_inode x (set_i_next (aget (hash_head k) (VFS_CACHE_HASH n node))) (set_k_mem a k)) x) = i_name (k_inodes k x)).
    by rewrite upd_inode_eq.
  - change (i_name (k_inodes (upd_inode x (set_i_next (aget (hash_head k) (VFS_CACHE_HASH n node))) (set_k_mem a k)) e) = i_name (k_inodes k e)).
    by rewrite upd_inode_ne.
Qed.

(** The inode made for a node that is not cached. *)
Lemma fill_coherent k n i :
  tree_wf (k_protofs k) → n ≠ root_node → is_node (k_protofs k) n → length (i_name i) = 20%nat →
  let j := set_i_count 1 (protofs_fill_inode (pf_page (k_protofs k)) inst n (Some (pf_node k n)) i) in
  coherent (k_protofs k) j ∧ i_node j = n ∧ length (i_name j) = 20%nat.
Proof.
  intros Ht Hr [?|[x Hx]] Hnl j; [done|]. destruct (node_at_range _ _ _ Ht Hx) as (Hn & Hl & He).
  assert (Hpn : pf_node k n = x) by (unfold pf_node; by apply nth_lookup_Some). unfold j. rewrite Hpn.
  assert (Hnode : i_node (protofs_fill_inode (pf_page (k_protofs k)) inst n (Some x) i) = n).
  { unfold protofs_fill_inode. destruct (pn_type x &? INODE_TYPE_DEV); by apply node_nb_addr. }
  assert (Hname : ∃ b, i_name (protofs_fill_inode (pf_page (k_protofs k)) inst n (Some x) i) = strcpy b (c_str (pn_name x)) ∧ length b = 20%nat).
  { exists (i_name i). split; [|done]. unfold protofs_fill_inode. by destruct (pn_type x &? INODE_TYPE_DEV). }
  destruct Hname as (b & Hname & Hb). destruct Ht as [Hlen Hw]. destruct (Hw n x Hx) as (_ & _ & Hshort).
  split; [|split; [exact Hnode|cbn [i_name set_i_count]; rewrite Hname; unfold strcpy; by rewrite memcpy_to_length]].
  unfold coherent. cbn [i_fs i_node i_count i_type i_spec i_parent set_i_count]. rewrite Hnode. split_and!; try done.
  - unfold protofs_fill_inode. by destruct (pn_type x &? INODE_TYPE_DEV).
  - right. by exists x.
  - intros y _ Hy. rewrite Hx in Hy. injection Hy as <-. unfold tree_parent. rewrite (proj2 (Z.eqb_neq n root_node) Hr), Hx.
    cbn [mbind option_bind]. split; [unfold protofs_fill_inode; by destruct (pn_type x &? INODE_TYPE_DEV)|].
    split; [unfold protofs_fill_inode; by destruct (pn_type x &? INODE_TYPE_DEV)|]. split.
    + cbn [i_name set_i_count]. rewrite Hname. apply strcpy_c_str; [apply c_str_no_nul|lia].
    + unfold protofs_fill_inode. by destruct (pn_type x &? INODE_TYPE_DEV).
Qed.

Lemma fill_next inst' page n nd i : i_next (protofs_fill_inode page inst' n nd i) = i_next i ∧ i_fs (protofs_fill_inode page inst' n nd i) = inst'.
Proof. unfold protofs_fill_inode. destruct nd as [x|]; [|done]. by destruct (pn_type x &? INODE_TYPE_DEV). Qed.

Lemma fill_node page n x i : 0 ≤ n < 36 → i_node (protofs_fill_inode page inst n (Some x) i) = n.
Proof.
  intros Hn. unfold protofs_fill_inode. destruct (pn_type x &? INODE_TYPE_DEV); cbn [i_node set_i_flags set_i_parent set_i_node];
    exact (node_nb_addr (mk_protofs 0 page []) n Hn).
Qed.

(** The references when [ret], with one reference on [n], is added to the cache. *)
Lemma refs_added k k3 L L3 H F F3 bk bk3 ret n : vfs_ok k L H F bk → vfs_ok k3 L3 H F3 bk3 →
  (∀ e, e ∈ concat bk3 ↔ e = ret ∨ e ∈ concat bk) → ret ∉ concat bk → (∀ e, ¬ inode_of k bk e n) → i_node (k_inodes k3 ret) = n →
  i_count (k_inodes k3 ret) = 1 → (∀ x, x ∈ concat bk → k_inodes k3 x = k_inodes k x) →
  ∀ m, node_refs k3 m = node_refs k m + if decide (m = n) then 1 else 0.
Proof.
  intros Hok Hok3 Hiff Hrb Hno Hrn Hrc Hsame m. destruct (inode_dec k L H F bk m Hok) as [(x & Hx)|(Hno' & _ & Hz')].
  - rewrite (refs_inode k _ _ _ _ x m Hok Hx), (refs_inode k3 _ _ _ _ x m Hok3), Hsame; [|apply Hx|].
    + rewrite decide_False; [lia|]. intros ->. by apply (Hno x).
    + destruct Hx as [Hx Hm]. split; [apply Hiff; by right|]. by rewrite Hsame.
  - rewrite Hz'. case_decide as Hm.
    + subst m. rewrite (refs_inode k3 _ _ _ _ ret n Hok3); [lia|]. split; [apply Hiff; by left|done].
    + apply (refs_absent k3 _ _ _ _ m Hok3). intros x [Hx Hxm]. apply Hiff in Hx as [->|Hx]; [congruence|]. rewrite Hsame in Hxm by done. by apply (Hno' x).
Qed.

(** An inode of the cache gets a reference more. *)
Lemma get_cached k L H F bk n e :
  vfs_ok k L H F bk → inode_of k bk e n → node_refs k n < 65535 →
  ∃ e k' L' F' bk', proto_get fuel inst n k = Some (e, k') ∧ e ≠ NULL ∧ vfs_ok k' L' H F' bk' ∧ inode_of k' bk' e n ∧
    (∀ x m, inode_of k bk x m → inode_of k' bk' x m) ∧
    (∀ m, node_refs k' m = node_refs k m + if decide (m = n) then 1 else 0) ∧
    k_protofs k' = k_protofs k ∧ (length F ≤ S (length F'))%nat.
Proof.
  intros Hok He Hc. unfold proto_get, vfs_get_inode.
  rewrite (find_inode _ _ _ _ _ _ _ Hok He). pose proof (inode_nonnull _ _ _ _ _ e Hok (proj1 He)) as Hen.
  cbn [mbind option_bind]. rewrite (proj2 (Z.eqb_neq e NULL) Hen). cbn [mbind option_bind]. rewrite (proj2 (Z.eqb_neq e NULL) Hen). cbn [negb].
  pose proof (refs_inode _ _ _ _ _ _ _ Hok He) as Hr. destruct (vo_coh _ _ _ _ _ Hok e (proj1 He)) as (_ & _ & Hcnt & _).
  rewrite (upd_count_eq k e (i_count (k_inodes k e) + 1)) by (rewrite u16_small by lia; done).
  destruct (set_count_ok k L H F bk e (i_count (k_inodes k e) + 1) Hok (proj1 He) ltac:(lia)) as (Hok' & Hin & Href).
  eexists e, _, L, F, bk. split_and!; [done|done|exact Hok'|by apply Hin|intros x m Hx; by apply Hin| |done|lia].
  intros m. rewrite Href. destruct He as [_ <-]. case_decide as Hm; [subst m; rewrite Hr; done|lia].
Qed.

(** A node that is not in the cache gets an inode. *)
Lemma get_absent k L H F bk n :
  vfs_ok k L H F bk → is_node (k_protofs k) n → F ≠ [] → (∀ e, ¬ inode_of k bk e n) → vfs_cache_find fuel inst n k = Some NULL → node_refs k n = 0 →
  ∃ e k' L' F' bk', proto_get fuel inst n k = Some (e, k') ∧ e ≠ NULL ∧ vfs_ok k' L' H F' bk' ∧ inode_of k' bk' e n ∧
    (∀ x m, inode_of k bk x m → inode_of k' bk' x m) ∧
    (∀ m, node_refs k' m = node_refs k m + if decide (m = n) then 1 else 0) ∧
    k_protofs k' = k_protofs k ∧ (length F ≤ S (length F'))%nat.
Proof.
  intros Hok Hn HF Hno Hf Hz. unfold proto_get, vfs_get_inode.
  rewrite Hf. cbn [mbind option_bind]. change (NULL =? NULL) with true. cbn [mbind option_bind].
  assert (Hnr : n ≠ root_node) by (intros ->; destruct (vo_root _ _ _ _ _ Hok) as (r & Hr & Hrn); by apply (Hno r)).
  assert (Hrange : 0 ≤ n < 36) by (destruct Hn as [?|[x Hx]]; [done|by apply (node_at_range _ _ _ (vo_tree _ _ _ _ _ Hok)) in Hx as [? _]]).
  unfold protofs_get_inode. rewrite (proj2 (Z.eqb_neq n PROTOFS_ROOT_NODE) Hnr). change PROTOFS_PER_PAGE with 36.
  rewrite (proj2 (Z.ltb_lt n 36)) by lia. cbn [orb].
  destruct (cache_add_spec k bk inst n L H F) as (ret & k1 & F' & Ha & Hrn & Hrb & Hmem & HlenF & Hfill); [apply Hok| |apply Hok|done|].
  { intros e He. split; [|by eapply vo_live]. apply not_true_iff_false. intros Hk. apply has_key_iff in Hk as [_ Hk]. by apply (Hno e). }
  unfold vfs_alloc_inode. rewrite Ha. cbn [mbind option_bind]. rewrite (proj2 (Z.eqb_neq ret NULL) Hrn). cbn [negb mbind option_bind].
  rewrite (proj2 (Z.eqb_neq ret NULL) Hrn). cbn [negb].
  assert (Hpf : k_protofs k1 = k_protofs k).
  { by apply (cache_alloc_frame _ _ _ _ _ Ha). }
  set (fill := protofs_fill_inode (pf_page (k_protofs k)) inst n (Some (pf_node k n))).
  destruct (Hfill (λ i, set_i_count 1 (fill (set_i_count 0 i)))) as (bk' & Hrep & Hiff & Hkey & Hsame).
  { intros i. destruct (fill_next inst (pf_page (k_protofs k)) n (Some (pf_node k n)) (set_i_count 0 i)) as [Hnx Hfs].
    split_and!; [exact Hnx|exact Hfs|by apply fill_node]. }
  cbn zeta in *. set (k2 := upd_inode ret _ k1) in *.
  assert (Hret2 : k_inodes k2 ret = set_i_count 1 (fill (set_i_count 0 (k_inodes k1 ret)))) by (unfold k2; by rewrite upd_inode_eq).
  match goal with |- context [Some (ret, ?kk)] => set (k3 := kk) end.
  assert (H3 : ∀ e, k_inodes k3 e = k_inodes k2 e).
  { intros e. unfold k3. change (k_protofs (upd_inode ret (set_i_count 0) k1)) with (k_protofs k1). rewrite Hpf.
    change (pf_node (upd_inode ret (set_i_count 0) k1) n) with (pf_node k1 n).
    assert (Hpn : pf_node k1 n = pf_node k n) by (unfold pf_node; by rewrite Hpf). rewrite Hpn. fold fill.
    destruct (decide (e = ret)) as [->|He].
    - rewrite Hret2, !upd_inode_eq. assert (i_count (fill (set_i_count 0 (k_inodes k1 ret))) = 0) as ->; [|done].
      unfold fill, protofs_fill_inode. by destruct (pn_type (pf_node k n) &? INODE_TYPE_DEV).
    - rewrite !upd_inode_ne by done. symmetry. by apply upd_inode_ne. }
  assert (Hcoh3 : coherent (k_protofs k) (k_inodes k3 ret) ∧ i_node (k_inodes k3 ret) = n ∧ length (i_name (k_inodes k3 ret)) = 20%nat).
  { rewrite H3, Hret2. apply (fill_coherent k n (set_i_count 0 (k_inodes k1 ret)) (vo_tree _ _ _ _ _ Hok) Hnr Hn).
    cbn [i_name set_i_count]. rewrite (cache_alloc_name _ _ _ _ _ ret Ha). apply (vo_names _ _ _ _ _ Hok). }
  assert (Hin3 : ∀ x m, inode_of k bk x m → inode_of k3 bk' x m).
  { intros x m [Hx Hm]. assert (Hxr : x ≠ ret) by (by intros ->). split; [apply Hiff; by right|]. rewrite H3, Hsame; done. }
  assert (Hok3 : vfs_ok k3 ((PInode, ret) :: L) H F' bk').
  { split.
    - apply (cache_rep_ext k2); [done|intros e; by rewrite H3|exact Hrep].
    - intros e He. apply Hiff in He as [->|He]; [by left|right; by eapply vo_live].
    - exact Hmem.
    - change (k_protofs k3) with (k_protofs k1). rewrite Hpf. apply Hok.
    - intros e He. change (k_protofs k3) with (k_protofs k1). rewrite Hpf. apply Hiff in He as [->|He]; [apply Hcoh3|].
      rewrite H3, Hsame by (by intros ->). by apply (vo_coh _ _ _ _ _ Hok).
    - destruct (vo_root _ _ _ _ _ Hok) as (r & Hr & Hrn'). exists r. by apply Hin3.
    - intros e. destruct (decide (e = ret)) as [->|He]; [apply Hcoh3|]. rewrite H3, Hsame by done. apply (vo_names _ _ _ _ _ Hok). }
  exists ret, k3, ((PInode, ret) :: L), F', bk'. split_and!; [done|done|exact Hok3|split; [apply Hiff; by left|apply Hcoh3]|exact Hin3| | |].
  + apply (refs_added k k3 L ((PInode, ret) :: L) H F F' bk bk' ret n Hok Hok3 Hiff Hrb Hno (proj1 (proj2 Hcoh3))); [by rewrite H3, Hret2|].
    intros x Hx. by rewrite H3, Hsame by (by intros ->).
  + exact Hpf.
  + exact HlenF.
Qed.

Lemma get_spec k L H F bk n :
  vfs_ok k L H F bk → is_node (k_protofs k) n → F ≠ [] → node_refs k n < 65535 →
  ∃ e k' L' F' bk', proto_get fuel inst n k = Some (e, k') ∧ e ≠ NULL ∧ vfs_ok k' L' H F' bk' ∧ inode_of k' bk' e n ∧
    (∀ x m, inode_of k bk x m → inode_of k' bk' x m) ∧
    (∀ m, node_refs k' m = node_refs k m + if decide (m = n) then 1 else 0) ∧
    k_protofs k' = k_protofs k ∧ (length F ≤ S (length F'))%nat.
Proof.
  intros Hok Hn HF Hc. destruct (inode_dec k L H F bk n Hok) as [(e & He)|(Hno & Hf & Hz)]; [by apply (get_cached k L H F bk n e)|by apply (get_absent k L H F bk n)].
Qed.

Lemma cache_remove_protofs k k' n node : vfs_cache_remove fuel n node k = Some k' → k_protofs k' = k_protofs k.
Proof.
  unfold vfs_cache_remove. cbn zeta. destruct (remove_search _ _ _ _ _ _) as [[prev cur]|]; [|done]. cbn [mbind option_bind].
  destruct (negb (cur =? NULL)); [|by intros [= <-]].
  destruct (km_free PInode cur _) as [a|]; [|done]. cbn [mbind option_bind]. destruct (negb (prev =? NULL)); by intros [= <-].
Qed.

Lemma node_type k L H F bk e n :
  vfs_ok k L H F bk → inode_of k bk e n →
  (i_type (k_inodes k e) &? Z.lor INODE_TYPE_ROOT INODE_TYPE_MOUNTPOINT) = (n =? root_node) ∧
  (i_type (k_inodes k e) &? INODE_TYPE_ROOT) = (n =? root_node) ∧
  (i_type (k_inodes k e) &? INODE_TYPE_MOUNTPOINT) = false ∧
  (i_type (k_inodes k e) &? INODE_TYPE_PARENT) = is_dir (k_protofs k) n.
Proof.
  intros Hok [He Hn]. destruct (vo_coh _ _ _ _ _ Hok e He) as (_ & Hnode & _ & Hroot & Hother). rewrite Hn in *.
  unfold is_dir. destruct (Z.eqb_spec n root_node) as [Hr|Hr].
  - destruct (Hroot Hr) as [-> _]. done.
  - destruct Hnode as [?|[x Hx]]; [done|]. rewrite Hx. destruct (Hother x Hr Hx) as [-> _].
    destruct (vo_tree _ _ _ _ _ Hok) as [_ Hw]. destruct (Hw n x Hx) as (_ & Hf & _). set (t := Z.land (pn_type x) _) in *.
    assert (Hor : ∀ a b, (t &? Z.lor a b) = false → (t &? a) = false ∧ (t &? b) = false).
    { intros a b. unfold flag_set. rewrite !negb_false_iff, !Z.eqb_eq, Z.land_lor_distr_r. apply Z.lor_eq_0_iff. }
    destruct (Hor _ _ Hf) as [H1 H2]. split_and!; try done.
    change INODE_TYPE_PARENT with (2 ^ 0). rewrite !flag_set_bit by lia. unfold t. rewrite Z.land_spec, Z.lnot_spec by lia.
    by rewrite andb_true_r.
Qed.

(** Giving a reference back.  The root keeps the reference taken when mounting. *)
Lemma release_spec k L H F bk e n :
  vfs_ok k L H F bk → inode_of k bk e n → (n = root_node → 2 ≤ node_refs k n) →
  ∃ k' L' bk', vfs_release_inode fuel e k = Some k' ∧ vfs_ok k' L' H F bk' ∧ k_protofs k' = k_protofs k ∧
    (∀ x m, inode_of k bk x m → m ≠ n ∨ 2 ≤ node_refs k n → inode_of k' bk' x m) ∧
    (∀ m, node_refs k' m = node_refs k m - if decide (m = n) then 1 else 0).
Proof.
  intros Hok He Hroot. pose proof (refs_inode _ _ _ _ _ _ _ Hok He) as Hr. destruct (vo_coh _ _ _ _ _ Hok e (proj1 He)) as (Hfs & _ & Hcnt & _).
  destruct (node_type _ _ _ _ _ _ _ Hok He) as (Hty & _). unfold vfs_release_inode. rewrite (proj2 (Z.ltb_lt 0 _)) by lia. rewrite Hty.
  assert (Hg : (i_count (k_inodes k e) =? 1) && (n =? root_node) = false).
  { apply andb_false_iff. destruct (Z.eqb_spec n root_node) as [Hn|]; [left|by right]. apply Z.eqb_neq. specialize (Hroot Hn). lia. }
  rewrite Hg. cbn zeta.
  rewrite (upd_count_eq k e (i_count (k_inodes k e) - 1)) by (rewrite u16_small by lia; done). rewrite upd_inode_eq. cbn [i_count i_fs i_node set_i_count].
  destruct (Z.eqb_spec (i_count (k_inodes k e) - 1) 0) as [Hc|Hc].
  - pose proof (vo_live _ _ _ _ _ Hok e (proj1 He)) as HL. apply list_elem_of_split in HL as (L1 & L2 & HL).
    set (k1 := upd_inode e (set_i_count (i_count (k_inodes k e) - 1)) k).
    assert (Hi1 : ∀ x, x ≠ e → k_inodes k1 x = k_inodes k x) by (intros x Hx; by apply upd_inode_ne).
    assert (Hrep1 : cache_rep k1 bk).
    { apply (cache_rep_ext k); [done| |apply Hok]. intros x. destruct (decide (x = e)) as [->|Hx]; [by unfold k1; rewrite upd_inode_eq|by rewrite Hi1]. }
    destruct He as [He Hn].
    destruct (cache_remove_spec fuel k1 bk (i_fs (k_inodes k e)) (i_node (k_inodes k e)) e (L1 ++ L2) H F) as (k2 & bk2 & Hrem & Hrep2 & Hsk & Hmem2 & Hiff);
      [done|by eapply cache_bound|done| | |].
    { apply has_key_iff. unfold k1. by rewrite upd_inode_eq. }
    { eapply km_inv_perm; [|done|apply (vo_mem _ _ _ _ _ Hok)]. rewrite HL. by rewrite Permutation_middle. }
    rewrite Hrem. pose proof (cache_remove_protofs _ _ _ _ Hrem) as Hpf2. change (k_protofs k1) with (k_protofs k) in Hpf2.
    assert (Hnr : n ≠ root_node) by (intros Hn'; specialize (Hroot Hn'); lia).
    assert (Hi2 : ∀ x, x ≠ e → ∃ nx, k_inodes k2 x = set_i_next nx (k_inodes k x)).
    { intros x Hx. destruct (Hsk x) as (_ & _ & Hx2). exists (i_next (k_inodes k2 x)). rewrite Hi1 in Hx2 by done.
      destruct (k_inodes k2 x), (k_inodes k x). cbn in *. by injection Hx2 as -> -> -> -> -> -> -> -> ->. }
    assert (Hin2 : ∀ x m, x ≠ e → inode_of k bk x m → inode_of k2 bk2 x m).
    { intros x m Hx [Hxb Hxm]. split; [by apply Hiff|]. destruct (Hi2 x Hx) as [nx ->]. done. }
    assert (Huniq : ∀ x, inode_of k bk x n → x = e).
    { intros x Hx. pose proof (find_inode _ _ _ _ _ _ _ Hok Hx) as H1. pose proof (find_inode _ _ _ _ _ _ _ Hok (conj He Hn)) as H2. congruence. }
    assert (Hok2 : vfs_ok k2 (L1 ++ L2) H F bk2).
    { split; [done| |done|rewrite Hpf2; apply Hok| | |].
      - intros x Hx. apply Hiff in Hx as [Hx Hxe]. apply (vo_live _ _ _ _ _ Hok) in Hx. rewrite HL in Hx. set_solver.
      - intros x Hx. apply Hiff in Hx as [Hx Hxe]. rewrite Hpf2. destruct (Hi2 x Hxe) as [nx ->]. by apply (vo_coh _ _ _ _ _ Hok).
      - destruct (vo_root _ _ _ _ _ Hok) as (r & Hrb & Hrn). exists r. apply Hin2; [|by split]. intros ->. congruence.
      - intros x. destruct (Hsk x) as (_ & _ & Hx). apply (f_equal i_name) in Hx. cbn [i_name set_i_next] in Hx. rewrite Hx.
        destruct (decide (x = e)) as [->|Hxe]; [unfold k1; rewrite upd_inode_eq|rewrite Hi1 by done]; apply (vo_names _ _ _ _ _ Hok). }
    exists k2, (L1 ++ L2), bk2. split_and!; [done|done|done| |].
    + intros x m Hx Hor. apply Hin2; [|done]. intros ->. destruct Hor as [Hm|Hm]; [|lia]. apply Hm. destruct Hx as [_ <-]. done.
    + intros m. destruct (decide (m = n)) as [->|Hm].
      * rewrite Hr. replace (i_count (k_inodes k e) - 1) with 0 by lia. apply (refs_absent k2 _ _ _ _ n Hok2).
        intros x [Hxb Hxm]. apply Hiff in Hxb as [Hxb Hxe]. apply Hxe, Huniq. split; [done|]. destruct (Hi2 x Hxe) as [nx Hnx]. by rewrite Hnx in Hxm.
      * rewrite Z.sub_0_r. destruct (inode_dec k L H F bk m Hok) as [(x & Hx)|(Hno & _ & Hz)].
        -- assert (Hxe : x ≠ e) by (intros ->; apply Hm; destruct Hx as [_ <-]; done).
           rewrite (refs_inode k2 _ _ _ _ x m Hok2) by (by apply Hin2). rewrite (refs_inode k _ _ _ _ x m Hok Hx).
           destruct (Hi2 x Hxe) as [nx ->]. done.
        -- rewrite Hz. apply (refs_absent k2 _ _ _ _ m Hok2). intros x [Hxb Hxm]. apply Hiff in Hxb as [Hxb Hxe]. apply (Hno x).
           split; [done|]. destruct (Hi2 x Hxe) as [nx Hnx]. by rewrite Hnx in Hxm.
  - destruct (set_count_ok k L H F bk e (i_count (k_inodes k e) - 1) Hok (proj1 He) ltac:(lia)) as (Hok' & Hin & Href).
    eexists _, L, bk. split_and!; [done|exact Hok'|done|intros x m Hx _; by apply Hin|].
    intros m. rewrite Href. destruct He as [_ <-]. case_decide as Hm; [subst m; lia|lia].
Qed.

(** *** The field of the root file system *)

Lemma get_root_fs k n e k' : proto_get fuel inst n k = Some (e, k') → root_fs k' = root_fs k.
Proof.
  unfold proto_get, vfs_get_inode. destruct (vfs_cache_find _ _ _ _) as [c|]; [|done]. cbn [mbind option_bind]. destruct (c =? NULL).
  - unfold protofs_get_inode. destruct (_ || _); [|by intros [= <- <-]]. unfold vfs_alloc_inode.
    destruct (vfs_cache_alloc inst n k) as [[r k1]|] eqn:Ha; [|done]. cbn [mbind option_bind]. apply cache_alloc_frame in Ha as [_ Ha].
    destruct (negb (r =? NULL)) eqn:Hr; cbn [mbind option_bind]; rewrite Hr; by intros [= <- <-].
  - cbn [mbind option_bind]. destruct (negb (c =? NULL)); by intros [= <- <-].
Qed.

Lemma release_root_fs k e k' : vfs_release_inode fuel e k = Some k' → root_fs k' = root_fs k.
Proof.
  unfold vfs_release_inode. destruct (0 <? _); [|by intros [= <-]]. destruct (_ && _); [by intros [= <-]|]. cbn zeta.
  destruct (_ =? 0); [|by intros [= <-]]. unfold vfs_cache_remove. cbn zeta.
  destruct (remove_search _ _ _ _ _ _) as [[prev cur]|]; [|done]. cbn [mbind option_bind]. destruct (negb (cur =? NULL)); [|by intros [= <-]].
  destruct (km_free PInode cur _) as [a|]; [|done]. cbn [mbind option_bind]. by destruct (negb (prev =? NULL)); intros [= <-].
Qed.

(** *** Path resolution *)

(** The file systems by their instances; this one is protofs. *)
Context (tbl : ptr → file_system A) (Htbl : tbl inst = protofs_file_system fuel open_dev).

Lemma get_tbl n k : vfs_get_inode fuel (λ i, fs_get_inode (tbl i)) inst n k = proto_get fuel inst n k.
Proof. unfold proto_get, vfs_get_inode. by rewrite Htbl. Qed.

Lemma walk_root_fs k L H F bk e n name r k' : vfs_ok k L H F bk → inode_of k bk e n → vfs_walk_entry fuel tbl e name k = Some (r, k') →
  root_fs k' = root_fs k.
Proof.
  intros Hok He. destruct (vo_coh _ _ _ _ _ Hok e (proj1 He)) as (Hfs & _ & _ & Hroot & _). destruct (node_type _ _ _ _ _ _ _ Hok He) as (_ & Htr & Htm & _).
  unfold vfs_walk_entry. case_bool_decide; [by intros [= _ <-]|]. case_bool_decide.
  - rewrite Htr. destruct (Z.eqb_spec n root_node) as [Hn|].
    + assert (i_spec (k_inodes k e) = NULL) as -> by (apply Hroot; by destruct He as [_ ->]). by intros [= <- <-].
    + destruct (negb _); [|by intros [= <- <-]]. rewrite Hfs, get_tbl. apply get_root_fs.
  - rewrite Htm, Hfs, Htbl. cbn [protofs_file_system fs_find_sub_node]. unfold protofs_find_sub_node. destruct (i_type (k_inodes k e) &? INODE_TYPE_PARENT); [|by intros [= <- <-]].
    cbn zeta. destruct (_ <? _); [rewrite Hfs; apply get_root_fs|by intros [= <- <-]].
Qed.

(** One name: the entry found is the child, parent or directory the tree gives. *)
Lemma walk_spec k L H F bk e n name :
  vfs_ok k L H F bk → inode_of k bk e n → F ≠ [] → (∀ m, node_refs k m < 65535) →
  match tree_step (k_protofs k) n name with
  | Some j => ∃ e' k' L' F' bk', vfs_walk_entry fuel tbl e name k = Some (e', k') ∧ e' ≠ NULL ∧ vfs_ok k' L' H F' bk' ∧
      inode_of k' bk' e' j ∧ (∀ x m, inode_of k bk x m → inode_of k' bk' x m) ∧
      (∀ m, node_refs k' m = node_refs k m + if decide (m = j) then 1 else 0) ∧
      k_protofs k' = k_protofs k ∧ (length F ≤ S (length F'))%nat
  | None => vfs_walk_entry fuel tbl e name k = Some (NULL, k)
  end.
Proof.
  intros Hok He HF Hmax. pose proof (vo_tree _ _ _ _ _ Hok) as Ht. pose proof He as [Heb Hen].
  destruct (vo_coh _ _ _ _ _ Hok e Heb) as (Hfs & Hnode & Hcnt & Hroot & Hother). rewrite Hen in *.
  destruct (node_type _ _ _ _ _ _ _ Hok He) as (_ & Htr & Htm & Htp). unfold tree_step, vfs_walk_entry. case_bool_decide as Hdot.
  - pose proof (refs_inode _ _ _ _ _ _ _ Hok He) as Hr. pose proof (Hmax n).
    rewrite (upd_count_eq k e (i_count (k_inodes k e) + 1)) by (rewrite u16_small by lia; done).
    destruct (set_count_ok k L H F bk e (i_count (k_inodes k e) + 1) Hok Heb ltac:(lia)) as (Hok' & Hin & Href).
    eexists e, _, L, F, bk. split_and!; [done|by eapply inode_nonnull|exact Hok'|by apply Hin|intros x m Hx; by apply Hin| |done|lia].
    intros m. rewrite Href, Hen. case_decide as Hm; [subst m; lia|lia].
  - case_bool_decide as Hdd.
    + rewrite Htr. unfold tree_parent. destruct (Z.eqb_spec n root_node) as [Hnr|Hnr].
      * destruct (Hroot Hnr) as [_ ->]. done.
      * rewrite (proj2 (Z.eqb_neq e NULL) (inode_nonnull _ _ _ _ _ _ Hok Heb)). cbn [negb].
        destruct Hnode as [?|[x Hx]]; [done|]. destruct (Hother x Hnr Hx) as (_ & Hp & _). pose proof Hp as Hp'. unfold tree_parent in Hp.
        rewrite (proj2 (Z.eqb_neq n root_node) Hnr) in Hp. rewrite Hp, Hfs, get_tbl.
        destruct (get_spec k L H F bk (i_parent (k_inodes k e)) Hok) as (e' & k' & L' & F' & bk' & Hg & Hrest); [|done|done|].
        { by eapply tree_parent_node. }
        exists e', k', L', F', bk'. split; [exact Hg|done].
    + rewrite Htm, Hfs, Htbl. cbn [protofs_file_system fs_find_sub_node]. unfold protofs_find_sub_node. rewrite Htp. unfold tree_child.
      destruct (is_dir (k_protofs k) n) eqn:Hd; [|done]. cbn zeta. rewrite Hen. unfold parent_addr, addr_of, root_node.
      destruct (Z.of_nat _ <? PROTOFS_PER_PAGE) eqn:Hlt; [|done]. rewrite Hfs.
      set (j := Z.of_nat _) in *.
      assert (Hj : tree_child (k_protofs k) n name = Some j) by (unfold tree_child; rewrite Hd; unfold addr_of, root_node; fold j; by rewrite Hlt).
      destruct (tree_child_node _ _ _ _ Ht Hj) as [Hjn _].
      destruct (get_spec k L H F bk j Hok Hjn HF (Hmax j)) as (e' & k' & L' & F' & bk' & Hg & Hrest).
      exists e', k', L', F', bk'. split; [exact Hg|done].
Qed.

Lemma resolve_loop_spec fu : ∀ path k L H F bk e n (base : Z → Z),
  (length path < fu)%nat → Forall (λ s, (length s < 20)%nat) (split_path path) → (length (path_names path) ≤ length F)%nat →
  vfs_ok k L H F bk → inode_of k bk e n →
  (∀ m, node_refs k m = base m + if decide (m = n) then 1 else 0) → (∀ m, 0 ≤ base m < 65533) → 1 ≤ base root_node →
  ∃ r k' L' F' bk', resolve_loop fuel tbl fu e path k = Some (r, k') ∧ vfs_ok k' L' H F' bk' ∧ k_protofs k' = k_protofs k ∧
    root_fs k' = root_fs k ∧ (length F ≤ length (path_names path) + length F')%nat ∧
    match tree_walk (k_protofs k) n (path_names path) with
    | Some j => r ≠ NULL ∧ inode_of k' bk' r j ∧ ∀ m, node_refs k' m = base m + if decide (m = j) then 1 else 0
    | None => r = NULL ∧ ∀ m, node_refs k' m = base m
    end.
Proof.
  induction fu as [|fu IH]; intros path k L H F bk e n base Hfu Hsh HF Hok He Href Hb Hroot; [lia|].
  cbn [resolve_loop]. destruct (next_name path) as [nm rest] eqn:Hnn. destruct (next_name_split _ _ _ Hnn) as [Hsp Hlen].
  unfold path_names in HF |- *. rewrite Hsp in *. apply Forall_cons in Hsh as [Hnm Hsh]. change INODE_MAX_NAME with 20.
  rewrite (proj2 (Z.leb_gt _ _)) by lia. pose proof (vo_tree _ _ _ _ _ Hok) as Ht.
  destruct nm as [|c nm].
  - rewrite filter_cons_False in HF |- * by (intros Hn; done). change (0 <? Z.of_nat (length [])) with false. cbn [mbind option_bind].
    destruct rest as [|s rest].
    + exists e, k, L, F, bk. split_and!; [done|done|done|done|cbn; lia|]. cbn. split_and!; [by eapply inode_nonnull; [|apply He]|done|done].
    + rewrite (proj2 (Z.eqb_neq e NULL) (inode_nonnull _ _ _ _ _ _ Hok (proj1 He))).
      apply (IH rest k L H F bk e n base); try done. lia.
  - rewrite filter_cons_True in HF |- * by done. set (name := c :: nm) in *.
    assert (0 <? Z.of_nat (length name) = true) as -> by (apply Z.ltb_lt; simpl; lia).
    cbn [length] in HF. assert (HFn : F ≠ []) by (intros ->; simpl in HF; lia).
    pose proof (walk_spec k L H F bk e n name Hok He HFn) as Hw.
    specialize (Hw ltac:(intros m; rewrite Href; specialize (Hb m); case_decide; lia)). cbn [tree_walk].
    destruct (tree_step (k_protofs k) n name) as [j|].
    + destruct Hw as (e1 & k1 & L1 & F1 & bk1 & Hwalk & He1n & Hok1 & He1 & Hkeep & Href1 & Hpf1 & HlF). rewrite Hwalk. cbn [mbind option_bind].
      destruct (release_spec k1 L1 H F1 bk1 e n Hok1 (Hkeep _ _ He)) as (k2 & L2 & bk2 & Hrel & Hok2 & Hpf2 & Hkeep2 & Href2).
      { intros ->. rewrite Href1, Href. rewrite decide_True by done. case_decide; lia. }
      rewrite Hrel. cbn [mbind option_bind].
      assert (Hrf2 : root_fs k2 = root_fs k) by (rewrite (release_root_fs _ _ _ Hrel); by eapply walk_root_fs).
      assert (He2 : inode_of k2 bk2 e1 j).
      { apply Hkeep2; [done|]. destruct (decide (j = n)) as [->|]; [|by left]. right. rewrite Href1, Href, !decide_True by done. specialize (Hb n). lia. }
      assert (Href' : ∀ m, node_refs k2 m = base m + if decide (m = j) then 1 else 0).
      { intros m. rewrite Href2, Href1, Href. destruct (decide (m = n)), (decide (m = j)); lia. }
      destruct rest as [|s rest].
      * exists e1, k2, L2, F1, bk2. split_and!; [done|done|by rewrite Hpf2|exact Hrf2|cbn; lia|]. cbn. by split_and!.
      * rewrite (proj2 (Z.eqb_neq e1 NULL) He1n).
        destruct (IH rest k2 L2 H F1 bk2 e1 j base) as (r & k' & L' & F' & bk' & Hr & Hok' & Hpf' & Hrf' & HlF' & Hres); try done; [lia|unfold path_names; lia|].
        unfold path_names in HlF', Hres. exists r, k', L', F', bk'. split_and!; [done|done|by rewrite Hpf', Hpf2|congruence|cbn [length]; lia|]. by rewrite Hpf2, Hpf1 in Hres.
    + rewrite Hw. cbn [mbind option_bind].
      destruct (release_spec k L H F bk e n Hok He) as (k2 & L2 & bk2 & Hrel & Hok2 & Hpf2 & _ & Href2).
      { intros ->. rewrite Href, decide_True by done. lia. }
      rewrite Hrel. cbn [mbind option_bind].
      assert (Href' : ∀ m, node_refs k2 m = base m) by (intros m; rewrite Href2, Href; case_decide; lia).
      cbn [mbind option_bind]. destruct rest as [|s rest]; exists NULL, k2, L2, F, bk2; (split_and!; [done|done|done|exact (release_root_fs _ _ _ Hrel)|lia|done..]).
Qed.

(** An absolute path, with the inode of the node and the pages that are left. *)
Lemma resolve_absolute path k L H F bk :
  vfs_ok k L H F bk → root_fs k = inst → inst ≠ NULL →
  Forall (λ s, (length s < 20)%nat) (split_path path) → (S (length (path_names path)) ≤ length F)%nat →
  (∀ m, 0 ≤ node_refs k m < 65533) → 1 ≤ node_refs k root_node →
  ∃ r k' L' F' bk', vfs_resolve fuel tbl (47 :: path) k = Some (r, k') ∧ vfs_ok k' L' H F' bk' ∧ k_protofs k' = k_protofs k ∧
    root_fs k' = root_fs k ∧ (length F ≤ S (length (path_names path)) + length F')%nat ∧
    match tree_walk (k_protofs k) root_node (path_names path) with
    | Some j => r ≠ NULL ∧ inode_of k' bk' r j ∧ ∀ m, node_refs k' m = node_refs k m + if decide (m = j) then 1 else 0
    | None => r = NULL ∧ ∀ m, node_refs k' m = node_refs k m
    end.
Proof.
  intros Hok Hrf Hin Hsh HF Hb Hroot. unfold vfs_resolve. rewrite Hrf, (proj2 (Z.eqb_neq inst NULL) Hin). cbn [negb].
  change (47 =? 47) with true. cbn [orb drop].
  assert (HFn : F ≠ []) by (intros ->; simpl in HF; lia).
  destruct (get_spec k L H F bk root_node Hok (or_introl eq_refl) HFn) as (e & k1 & L1 & F1 & bk1 & Hg & Hen & Hok1 & He & _ & Href & Hpf & HlF);
    [specialize (Hb root_node); lia|].
  rewrite Htbl. change (fs_get_root_node (protofs_file_system fuel open_dev) inst k) with (proto_get fuel inst root_node k). rewrite Hg. cbn [mbind option_bind].
  destruct (resolve_loop_spec (S (length path)) path k1 L1 H F1 bk1 e root_node (node_refs k)) as (r & k' & L' & F' & bk' & Hr & Hok' & Hpf' & Hrf' & HlF' & Hres);
    [lia|done|lia|done|done|done|done|done|].
  exists r, k', L', F', bk'. split; [exact Hr|]. split; [done|]. split; [by rewrite Hpf'|]. split; [by rewrite Hrf', (get_root_fs _ _ _ _ Hg)|]. split; [lia|]. by rewrite Hpf in Hres.
Qed.

(** C1: resolving an absolute path through the inode cache is walking the tree of
    nodes: it returns an inode of the node the walk ends on, with exactly one new
    reference, on that node, or NULL with the references as they were when the walk
    fails.  The cache stays coherent with the tree. *)
Theorem vfs_resolve_protofs path k L H F bk :
  vfs_ok k L H F bk → root_fs k = inst → inst ≠ NULL →
  Forall (λ s, (length s < 20)%nat) (split_path path) → (S (length (path_names path)) ≤ length F)%nat →
  (∀ m, 0 ≤ node_refs k m < 65533) → 1 ≤ node_refs k root_node →
  ∃ r k' L' F' bk', vfs_resolve fuel tbl (47 :: path) k = Some (r, k') ∧ vfs_ok k' L' H F' bk' ∧
    match tree_walk (k_protofs k) root_node (path_names path) with
    | Some j => r ≠ NULL ∧ i_node (k_inodes k' r) = j ∧ ∀ m, node_refs k' m = node_refs k m + if decide (m = j) then 1 else 0
    | None => r = NULL ∧ ∀ m, node_refs k' m = node_refs k m
    end.
Proof.
  intros Hok Hrf Hin Hsh HF Hb Hroot.
  destruct (resolve_absolute path k L H F bk Hok Hrf Hin Hsh HF Hb Hroot) as (r & k' & L' & F' & bk' & Hr & Hok' & _ & _ & _ & Hres).
  exists r, k', L', F', bk'. split; [exact Hr|]. split; [done|].
  destruct (tree_walk _ _ _) as [j|]; [|done]. destruct Hres as (H1 & [_ H2] & H3). by split_and!.
Qed.

(** *** Directories *)

(** The nodes with the parent address [a], from index [i] on, in order. *)
Definition kids (pf : protofs) (a : ptr) (i : Z) : list Z :=
  filter (λ j, (if pf_nodes pf !! Z.to_nat j is Some x then is_child a x else false) = true) (seqZ i (36 - i)).

Definition tree_kids (pf : protofs) (n : Z) : list Z := kids pf (addr_of pf n) 0.

(** What the search loops of the file system find next. *)
Lemma kids_next pf a i :
  length (pf_nodes pf) = 36%nat → 0 ≤ i ≤ 36 →
  let j := i + Z.of_nat (scan (is_child a) (drop (Z.to_nat i) (pf_nodes pf))) in
  0 ≤ j ≤ 36 ∧ kids pf a i = if j <? 36 then j :: kids pf a (j + 1) else [].
Proof.
  intros Hl. remember (Z.to_nat (36 - i)) as d eqn:Hd. revert i Hd. induction d as [|d IH]; intros i Hd Hi j.
  - assert (i = 36) by lia. subst i. unfold j. rewrite drop_ge by (rewrite Hl; lia). simpl. split; [lia|]. done.
  - destruct (lookup_lt_is_Some_2 (pf_nodes pf) (Z.to_nat i)) as [x Hx]; [lia|].
    specialize (IH (i + 1) ltac:(lia) ltac:(lia)). cbn zeta in IH. unfold j.
    erewrite drop_S by exact Hx. cbn [scan]. replace (Z.to_nat (i + 1)) with (S (Z.to_nat i)) in IH by lia.
    unfold kids at 1. rewrite seqZ_cons by lia. rewrite filter_cons, Hx. destruct (is_child a x) eqn:Hc.
    + rewrite decide_True by done. rewrite Z.add_0_r, (proj2 (Z.ltb_lt i 36)) by lia. split; [lia|].
      unfold kids. f_equal. by replace (Z.succ i) with (i + 1) by lia; replace (Z.pred (36 - i)) with (36 - (i + 1)) by lia.
    + rewrite decide_False by done. replace (Z.succ i) with (i + 1) by lia. replace (Z.pred (36 - i)) with (36 - (i + 1)) by lia.
      fold (kids pf a (i + 1)). destruct IH as [IH1 IH2]. set (s := scan _ _) in *.
      replace (i + Z.of_nat (S s)) with (i + 1 + Z.of_nat s) by lia. split; [lia|exact IH2].
Qed.

Lemma kids_node pf a i j : length (pf_nodes pf) = 36%nat → 0 ≤ i → j ∈ kids pf a i →
  i ≤ j < 36 ∧ ∃ x, node_at pf j = Some x ∧ pn_parent x = a.
Proof.
  intros Hl Hi Hj. apply list_elem_of_filter in Hj as [Hc Hj]. apply elem_of_seqZ in Hj. split; [lia|].
  unfold node_at. rewrite (proj2 (Z.leb_le 0 j)) by lia. destruct (pf_nodes pf !! Z.to_nat j) as [x|]; [|done].
  unfold is_child in Hc. breflect. exists x. split; [|done]. cbn. by match goal with H : (pn_type x &? _) = false |- _ => rewrite H end.
Qed.

(** The address the siblings of a node have as parent. *)
Lemma sibling_addr k n x : tree_wf (k_protofs k) → n ≠ root_node → node_at (k_protofs k) n = Some x →
  ∀ q, tree_parent (k_protofs k) n = Some q → parent_addr k q = pn_parent x.
Proof.
  intros Ht Hn Hx q. pose proof Ht as [Hl Hw]. unfold tree_parent. rewrite (proj2 (Z.eqb_neq n root_node) Hn), Hx. cbn [mbind option_bind].
  destruct (proj1 (Hw n x Hx)) as [->|(j & [y Hy] & ->)]; [by intros [= <-]|].
  destruct (node_at_range _ _ _ Ht Hy) as [Hr _]. destruct (Z.eqb_spec (u32 (j * PROTOFS_NODE_SIZE + pf_page (k_protofs k))) NULL) as [H0|H0].
  - rewrite H0. by intros [= <-].
  - rewrite node_nb_addr by done. intros [= <-]. unfold parent_addr, PROTOFS_NODE_ADDR, PROTOFS_ROOT_NODE.
    by rewrite (proj2 (Z.eqb_neq j 0xFFFFFFFF)) by lia.
Qed.

Lemma get_frame k n e k' : proto_get fuel inst n k = Some (e, k') → k_files k' = k_files k.
Proof.
  unfold proto_get, vfs_get_inode. destruct (vfs_cache_find fuel inst n k) as [c|]; [|done]. cbn [mbind option_bind].
  assert (Hg : ∀ r k1, protofs_get_inode inst n k = Some (r, k1) → k_files k1 = k_files k).
  { intros r k1. unfold protofs_get_inode. destruct (_ || _); [|by intros [= <- <-]]. unfold vfs_alloc_inode, vfs_cache_alloc.
    destruct (km_alloc PInode (k_mem k)) as [[x a]|]; [|done]. cbn [mbind option_bind]. destruct (negb (x =? NULL)) eqn:Hx; cbn [mbind option_bind]; rewrite ?Hx; by intros [= <- <-]. }
  destruct (c =? NULL).
  - destruct (protofs_get_inode inst n k) as [[r k1]|]; [|done]. cbn [mbind option_bind]. specialize (Hg r k1 eq_refl).
    destruct (negb _); intros [= <- <-]; exact Hg.
  - cbn [mbind option_bind]. by destruct (negb _); intros [= <- <-].
Qed.

Lemma release_frame k e k' : vfs_release_inode fuel e k = Some k' → k_files k' = k_files k.
Proof.
  unfold vfs_release_inode. destruct (0 <? _); [|by intros [= <-]]. destruct (_ && _); [by intros [= <-]|]. cbn zeta.
  destruct (_ =? 0); [|by intros [= <-]]. unfold vfs_cache_remove. cbn zeta.
  destruct (remove_search _ _ _ _ _ _) as [[prev cur]|]; [|done]. cbn [mbind option_bind]. destruct (negb (cur =? NULL)); [|by intros [= <-]].
  destruct (km_free PInode cur _) as [a|]; [|done]. cbn [mbind option_bind]. by destruct (negb (prev =? NULL)); intros [= <-].
Qed.

(** The enumeration is on the first of the nodes [ks], holding one reference on it;
    the other references are [base]. *)
Definition at_kids (base : Z → Z) k bk (cur : ptr) (ks : list Z) : Prop :=
  match ks with
  | [] => cur = NULL ∧ ∀ m, node_refs k m = base m
  | j :: _ => cur ≠ NULL ∧ inode_of k bk cur j ∧ ∀ m, node_refs k m = base m + if decide (m = j) then 1 else 0
  end.

(** The next step of an enumeration from an index, by [vfs_get_inode] on what is found. *)
Lemma enum_get k L H F bk a i base :
  vfs_ok k L H F bk → F ≠ [] → 0 ≤ i ≤ 36 → (∀ m, node_refs k m = base m) → (∀ m, base m < 65535) →
  let j := i + Z.of_nat (scan (is_child a) (drop (Z.to_nat i) (pf_nodes (k_protofs k)))) in
  ∃ e k' L' F' bk', (if j <? PROTOFS_PER_PAGE then proto_get fuel inst j k else Some (NULL, k)) = Some (e, k') ∧
    vfs_ok k' L' H F' bk' ∧ at_kids base k' bk' e (kids (k_protofs k) a i) ∧ (∀ x m, inode_of k bk x m → inode_of k' bk' x m) ∧
    k_protofs k' = k_protofs k ∧ k_files k' = k_files k ∧ (length F ≤ S (length F'))%nat.
Proof.
  intros Hok HF Hi Href Hb j. pose proof (vo_tree _ _ _ _ _ Hok) as [Hl _].
  destruct (kids_next (k_protofs k) a i Hl Hi) as [Hj Hk]. fold j in Hj, Hk. change PROTOFS_PER_PAGE with 36. rewrite Hk.
  destruct (Z.ltb_spec j 36) as [Hlt|Hge].
  - assert (Hin : j ∈ kids (k_protofs k) a i) by (rewrite Hk; apply list_elem_of_here).
    destruct (kids_node _ _ _ _ Hl (proj1 Hi) Hin) as (_ & x & Hx & _).
    destruct (get_spec k L H F bk j Hok) as (e & k' & L' & F' & bk' & Hg & Hen & Hok' & He & Hkeep & Href' & Hpf & HlF); [right; by exists x|done|by rewrite Href|].
    exists e, k', L', F', bk'. split; [exact Hg|]. split; [exact Hok'|]. split; [|split_and!; [done|done|by eapply get_frame|done]].
    cbn [at_kids]. split; [done|]. split; [done|]. intros m. by rewrite Href', Href.
  - exists NULL, k, L, F, bk. split; [done|]. split; [done|]. split; [by split|]. split_and!; try done. lia.
Qed.

(** One step of the enumeration: the next sibling is taken, then the current entry released. *)
Lemma sibling_step k L H F bk cur j a base :
  vfs_ok k L H F bk → F ≠ [] → (∀ m, 0 ≤ base m < 65533) → 0 ≤ j < 36 →
  (∃ x, node_at (k_protofs k) j = Some x ∧ pn_parent x = a) →
  cur ≠ NULL → inode_of k bk cur j → (∀ m, node_refs k m = base m + if decide (m = j) then 1 else 0) →
  ∃ e k1 k' L' F' bk', vfs_next_sibling tbl cur k = Some (e, k1) ∧ vfs_release_inode fuel cur k1 = Some k' ∧
    vfs_ok k' L' H F' bk' ∧ at_kids base k' bk' e (kids (k_protofs k) a (j + 1)) ∧
    k_protofs k' = k_protofs k ∧ k_files k' = k_files k ∧ (length F ≤ S (length F'))%nat.
Proof.
  intros Hok HF Hb Hj (x & Hx & Hpa) Hn Hcur Href. pose proof (vo_tree _ _ _ _ _ Hok) as Ht.
  assert (Hjr : j ≠ root_node) by (unfold root_node, PROTOFS_ROOT_NODE; lia).
  destruct (vo_coh _ _ _ _ _ Hok cur (proj1 Hcur)) as (Hfs & _ & _ & _ & Hother). destruct (node_type _ _ _ _ _ _ _ Hok Hcur) as (_ & Htr & _).
  rewrite (proj2 (Z.eqb_neq j root_node) Hjr) in Htr. pose proof Hcur as [_ Hcn]. rewrite Hcn in *. destruct (Hother x Hjr Hx) as (_ & Hpar & _).
  unfold vfs_next_sibling. rewrite Htr, Hfs, Htbl. cbn [negb protofs_file_system fs_next_sibling]. unfold protofs_next_sibling.
  change (i_node (k_inodes k cur) =? PROTOFS_ROOT_NODE) with (i_node (k_inodes k cur) =? root_node). rewrite Hcn, (proj2 (Z.eqb_neq j root_node) Hjr).
  cbn [negb]. cbn zeta. rewrite Hfs, (sibling_addr k j x Ht Hjr Hx _ Hpar), Hpa.
  destruct (enum_get k L H F bk a (j + 1) (node_refs k) Hok HF ltac:(lia)) as (e & k1 & L1 & F1 & bk1 & Hg & Hok1 & Hat & Hkeep & Hpf1 & Hf1 & HlF); [done| |].
  { intros m. rewrite Href. specialize (Hb m). case_decide; lia. }
  cbn zeta in Hg. rewrite Hg. exists e, k1. pose proof (Hkeep _ _ Hcur) as Hcur1.
  destruct (release_spec k1 L1 H F1 bk1 cur j Hok1 Hcur1) as (k2 & L2 & bk2 & Hrel & Hok2 & Hpf2 & Hkeep2 & Href2); [done|].
  exists k2, L2, F1, bk2. split; [done|]. split; [done|]. split; [done|].
  split; [|split_and!; [congruence|rewrite (release_frame _ _ _ Hrel); done|done]].
  destruct (kids (k_protofs k) a (j + 1)) as [|j' ks'] eqn:Hks; cbn [at_kids] in Hat |- *.
  - destruct Hat as [-> Hr]. split; [done|]. intros m. rewrite Href2, Hr, Href. case_decide; lia.
  - destruct Hat as (He & Hin & Hr). split; [done|].
    assert (Hlt : j + 1 ≤ j') by (eapply kids_node; [apply Ht|lia|rewrite Hks; apply list_elem_of_here]).
    split; [apply Hkeep2; [done|left; lia]|]. intros m. rewrite Href2, Hr, Href. destruct (decide (m = j)), (decide (m = j')); lia.
Qed.

Lemma kids_tail pf a i j ks : length (pf_nodes pf) = 36%nat → 0 ≤ i ≤ 36 → kids pf a i = j :: ks →
  ks = kids pf a (j + 1) ∧ 0 ≤ j < 36 ∧ ∃ x, node_at pf j = Some x ∧ pn_parent x = a.
Proof.
  intros Hl Hi Hk. assert (Hj : j ∈ kids pf a i) by (rewrite Hk; apply list_elem_of_here).
  destruct (kids_node _ _ _ _ Hl (proj1 Hi) Hj) as [Hr Hx]. destruct (kids_next pf a i Hl Hi) as [_ Hn]. cbn zeta in Hn.
  rewrite Hn in Hk. destruct (_ <? 36); [|done]. injection Hk as H1 H2. rewrite <- H2, H1. split; [done|]. split; [lia|done].
Qed.

(** The enumeration state of the loops: what they need and keep. *)
Definition enum_ok (pf : protofs) (fs : ptr → file) (base : Z → Z) (a : ptr) H k L F bk cur (i : Z) : Prop :=
  vfs_ok k L H F bk ∧ k_protofs k = pf ∧ k_files k = fs ∧ 0 ≤ i ≤ 36 ∧
  (length (kids pf a i) ≤ length F)%nat ∧ at_kids base k bk cur (kids pf a i).

(** Open files do not matter to the cache. *)
(** The invariant and the references depend on the cache and the nodes only. *)
Lemma node_refs_frame k k' m : (∀ e, k_inodes k' e = k_inodes k e) → hash_head k' = hash_head k → node_refs k' m = node_refs k m.
Proof.
  intros Hi Hh. assert (Hs : ∀ fu cur, cache_search fu k' inst m cur = cache_search fu k inst m cur).
  { induction fu as [|fu IH]; intros cur; cbn [cache_search]; unfold has_key; rewrite Hi; [done|]. destruct (_ && _); [apply IH|done]. }
  unfold node_refs, vfs_cache_find. rewrite Hs, Hh. destruct (cache_search _ _ _ _ _) as [e|]; [|done]. by rewrite Hi.
Qed.

Lemma vfs_ok_frame k k' L H F bk : (∀ e, k_inodes k' e = k_inodes k e) → hash_head k' = hash_head k → k_mem k' = k_mem k → k_protofs k' = k_protofs k →
  vfs_ok k L H F bk → vfs_ok k' L H F bk.
Proof.
  intros Hi Hh Hm Hp [Hrep Hlive Hmem Ht Hcoh (r & Hr & Hrn) Hnames]. split; rewrite ?Hm, ?Hp; try done.
  - apply (cache_rep_ext k); [done|intros e; by rewrite Hi|done].
  - intros e He. rewrite Hi. by apply Hcoh.
  - exists r. by rewrite Hi.
  - intros e. by rewrite Hi.
Qed.

Lemma node_refs_files fs' k m : node_refs (set_k_files fs' k) m = node_refs k m.
Proof. by apply node_refs_frame. Qed.

(** One iteration of either loop, from a state that differs in the open files only. *)
Lemma enum_step pf fs fs' base a H k L F bk cur i j ks :
  (∀ m, 0 ≤ base m < 65533) → enum_ok pf fs base a H k L F bk cur i → kids pf a i = j :: ks →
  ∃ e k1 k' L' F' bk', vfs_next_sibling tbl cur (set_k_files fs' k) = Some (e, k1) ∧ vfs_release_inode fuel cur k1 = Some k' ∧
    enum_ok pf fs' base a H k' L' F' bk' e (j + 1) ∧ ks = kids pf a (j + 1).
Proof.
  intros Hb (Hok & Hpf & Hf & Hi & Hlen & Hat) Hk. rewrite Hk in Hat, Hlen. destruct Hat as (Hn & Hin & Href). pose proof (vo_tree _ _ _ _ _ Hok) as [Hl _].
  rewrite Hpf in Hl. destruct (kids_tail pf a i j ks Hl Hi Hk) as (-> & Hj & Hx).
  assert (Hok' : vfs_ok (set_k_files fs' k) L H F bk) by (destruct Hok; split; done).
  destruct (sibling_step (set_k_files fs' k) L H F bk cur j a base Hok') as (e & k1 & k' & L' & F' & bk' & Hs & Hr & Hok2 & Hat2 & Hpf2 & Hf2 & HlF);
    [|done|done|by change (k_protofs (set_k_files fs' k)) with (k_protofs k); rewrite Hpf; exact Hx|exact Hn|exact Hin|intros m; rewrite node_refs_files; apply Href|].
  { intros ->. simpl in Hlen. lia. }
  change (k_protofs (set_k_files fs' k)) with (k_protofs k) in Hat2, Hpf2. rewrite Hpf in Hat2, Hpf2.
  exists e, k1, k', L', F', bk'. split; [done|]. split; [done|]. split; [|done]. split_and!; try done; [lia..|]. simpl in Hlen. lia.
Qed.

Lemma skip_spec pf fs base a H n : ∀ k L F bk cur i,
  (∀ m, 0 ≤ base m < 65533) → enum_ok pf fs base a H k L F bk cur i →
  ∃ cur' k' L' F' bk' i', skip_entries fuel tbl n cur k = Some (cur', k') ∧
    enum_ok pf fs base a H k' L' F' bk' cur' i' ∧ kids pf a i' = drop n (kids pf a i).
Proof.
  induction n as [|n IH]; intros k L F bk cur i Hb He; cbn [skip_entries]; [by exists cur, k, L, F, bk, i|].
  destruct (kids pf a i) as [|j ks] eqn:Hk.
  - pose proof He as (_ & _ & _ & _ & _ & Hat). rewrite Hk in Hat. destruct Hat as [-> _]. by exists NULL, k, L, F, bk, i.
  - pose proof He as (_ & _ & Hfs & _ & _ & Hat). rewrite Hk in Hat. destruct Hat as (Hn & _). rewrite (proj2 (Z.eqb_neq cur NULL) Hn). cbn [negb].
    destruct (enum_step pf fs fs base a H k L F bk cur i j ks Hb He Hk) as (e & k1 & k' & L' & F' & bk' & Hs & Hr & He' & ->).
    replace (set_k_files fs k) with k in Hs by (rewrite <- Hfs; by destruct k). rewrite Hs. cbn [mbind option_bind]. rewrite Hr. cbn [mbind option_bind].
    apply (IH k' L' F' bk' e (j + 1) Hb He').
Qed.

(** The entries that fit in what is left of the buffer, and the bytes then used. *)
Definition node_name (pf : protofs) (j : Z) : list Z := match node_at pf j with Some x => c_str (pn_name x) | None => [] end.

Fixpoint fit (pf : protofs) (len used : Z) (ks : list Z) : list Z * Z :=
  match ks with
  | [] => ([], used)
  | j :: ks =>
      let used' := used + dirent_len (Z.of_nat (length (node_name pf j))) in
      if len <=? used' then ([], used) else let '(js, u) := fit pf len used' ks in (j :: js, u)
  end.

Definition node_dirent (pf : protofs) (j : Z) : dirent :=
  mk_dirent j (dirent_len (Z.of_nat (length (node_name pf j)))) DT_UNKNOWN (node_name pf j).

Lemma dirent_len_bound n : 0 ≤ n < 20 → 0 < dirent_len n ≤ 32.
Proof.
  intros Hn. unfold dirent_len, DIRENT_BASE_SIZE. pose proof (Z.mod_pos_bound (9 + n + 1) 4 ltac:(lia)) as Hm.
  pose proof (Z.div_mod (9 + n + 1) 4 ltac:(lia)). destruct (Z.eqb_spec ((9 + n + 1) mod 4) 0); cbn [negb]; lia.
Qed.

Lemma copy_spec pf base a H filep len n : ∀ k L F bk cur i used fs,
  (∀ m, 0 ≤ base m < 65533) → enum_ok pf fs base a H k L F bk cur i → (length (kids pf a i) ≤ n)%nat →
  0 ≤ used → used + 32 * Z.of_nat (length (kids pf a i)) < 2 ^ 31 →
  - 2 ^ 31 ≤ f_pos (fs filep) → f_pos (fs filep) + Z.of_nat (length (kids pf a i)) < 2 ^ 31 →
  let '(js, u) := fit pf len used (kids pf a i) in
  ∃ cur' k' L' F' bk' i' fs', copy_entries fuel tbl n filep cur used len k = Some (cur', u, node_dirent pf <$> js, k') ∧
    enum_ok pf fs' base a H k' L' F' bk' cur' i' ∧ f_pos (fs' filep) = f_pos (fs filep) + Z.of_nat (length js).
Proof.
  induction n as [|n IH]; intros k L F bk cur i used fs Hb He Hn Hu Hub Hpl Hpb; destruct (kids pf a i) as [|j ks] eqn:Hk.
  1,3: pose proof He as (_ & _ & _ & _ & _ & Hat); rewrite Hk in Hat; destruct Hat as [-> _]; cbn [fit copy_entries];
    exists NULL, k, L, F, bk, i, fs; split_and!; [done|done|simpl; lia].
  { simpl in Hn. lia. }
  pose proof He as (Hok & Hpf & Hfs & Hi & _ & Hat). rewrite Hk in Hat. destruct Hat as (Hcn & Hin & _). pose proof (vo_tree _ _ _ _ _ Hok) as Ht.
  rewrite Hpf in Ht. destruct (kids_tail pf a i j ks (proj1 Ht) Hi Hk) as (_ & Hj & x & Hx & _).
  destruct (vo_coh _ _ _ _ _ Hok cur (proj1 Hin)) as (_ & _ & _ & _ & Hother). pose proof Hin as [_ Hcj]. rewrite Hcj, Hpf in Hother.
  destruct (Hother x ltac:(unfold root_node, PROTOFS_ROOT_NODE; lia) Hx) as (_ & _ & Hname & _).
  assert (Hnm : c_str (i_name (k_inodes k cur)) = node_name pf j) by (unfold node_name; by rewrite Hx).
  assert (Hsh : (length (node_name pf j) < 20)%nat) by (unfold node_name; rewrite Hx; apply (proj2 Ht j x Hx)).
  pose proof (dirent_len_bound (Z.of_nat (length (node_name pf j))) ltac:(lia)) as Hdl. set (dl := dirent_len _) in *. simpl in Hn, Hub, Hpb.
  cbn [fit copy_entries]. rewrite (proj2 (Z.eqb_neq cur NULL) Hcn), Hnm. cbn [negb]. cbn zeta. fold dl. rewrite u32_small by lia.
  destruct (Z.leb_spec len (used + dl)) as [Hle|Hlt]; [exists cur, k, L, F, bk, i, fs; split_and!; [done|done|simpl; lia]|].
  assert (Hk1 : upd_file filep (λ f, set_f_pos (s32 (f_pos f + 1)) f) k = set_k_files (k_files (upd_file filep (λ f, set_f_pos (s32 (f_pos f + 1)) f) k)) k) by (by destruct k).
  set (fs2 := k_files (upd_file filep (λ f, set_f_pos (s32 (f_pos f + 1)) f) k)) in *. rewrite Hk1.
  assert (Hp2 : f_pos (fs2 filep) = f_pos (fs filep) + 1) by (unfold fs2; rewrite upd_file_eq; cbn [f_pos set_f_pos]; rewrite Hfs, s32_small by lia; done).
  destruct (enum_step pf fs fs2 base a H k L F bk cur i j ks Hb He Hk) as (e & k1 & k' & L' & F' & bk' & Hs & Hr & He' & Hks).
  rewrite Hs. cbn [mbind option_bind]. rewrite Hr. cbn [mbind option_bind].
  specialize (IH k' L' F' bk' e (j + 1) (used + dl) fs2 Hb He'). rewrite <- Hks in IH. specialize (IH ltac:(lia) ltac:(lia) ltac:(lia) ltac:(lia) ltac:(lia)).
  destruct (fit pf len (used + dl) ks) as [js u]. destruct IH as (cur' & k2 & L2 & F2 & bk2 & i' & fs' & Hc & He2 & Hp). rewrite Hc. cbn [mbind option_bind].
  exists cur', k2, L2, F2, bk2, i', fs'. split; [|split; [done|simpl; lia]]. rewrite Hcj. done.
Qed.

Lemma fit_used pf len ks : tree_wf pf → ∀ used, 0 ≤ used →
  let '(js, u) := fit pf len used ks in used ≤ u ≤ used + 32 * Z.of_nat (length ks) ∧ (u = used ↔ js = []).
Proof.
  intros Ht. induction ks as [|j ks IH]; intros used Hu; cbn [fit]; [split; [simpl; lia|done]|].
  assert (Hsh : (length (node_name pf j) < 20)%nat).
  { unfold node_name. destruct (node_at pf j) as [x|] eqn:Hx; [apply (proj2 Ht j x Hx)|simpl; lia]. }
  pose proof (dirent_len_bound (Z.of_nat (length (node_name pf j))) ltac:(lia)) as Hdl. set (dl := dirent_len _) in *. cbn zeta.
  destruct (len <=? used + dl); [split; [simpl; lia|done]|]. specialize (IH (used + dl) ltac:(lia)).
  destruct (fit pf len (used + dl) ks) as [js u]. destruct IH as [IH _]. simpl. split; [lia|]. split; [lia|done].
Qed.

Lemma fit_zero pf len ks : tree_wf pf →
  let '(js, u) := fit pf len 0 ks in
  (length ks ≤ 36)%nat → (if 0 <? u then s32 u else - EINVAL) = if bool_decide (js = []) then - EINVAL else u.
Proof.
  intros Ht. pose proof (fit_used pf len ks Ht 0 ltac:(lia)) as H0. destruct (fit pf len 0 ks) as [js u]. destruct H0 as [Hr Hiff]. intros Hl.
  destruct (Z.ltb_spec 0 u); case_bool_decide as Hj.
  - apply Hiff in Hj. lia.
  - apply s32_small. lia.
  - done.
  - destruct Hj. apply Hiff. lia.
Qed.

End cache.

(** ** Witness *)

(** Only protofs. *)
Definition proto_table {A} `{!KMem A} (fuel : nat) (open_dev : ptr → ptr → kernel A → option (Z * kernel A)) : ptr → file_system A :=
  λ _, protofs_file_system fuel open_dev.

(** A tree with the directory "dev" and in it the device "tty". *)
Definition demo_pf : protofs :=
  mk_protofs 1 0x88001000
    (mk_pnode [100; 101; 118; 0] NULL 1 7 0 :: mk_pnode [116; 116; 121; 0] 0x88001000 2 7 0x10001 ::
     replicate 34 (mk_pnode [] 0 PROTOFS_TYPE_EMPTY 0 0)).

Definition demo_pmem5 : pmem :=
  mk_pmem (λ a, if (0x88000000 <=? a) && (a <? 0x88001000) && (a mod 1024 =? 0) then a + 1024 else 0) 0x88000000 5.

Lemma demo_pmem5_rep : pm_rep demo_pmem5 [0x88000000; 0x88000400; 0x88000800; 0x88000C00; 0x88001000].
Proof.
  split_and!; [by repeat split|by apply (bool_decide_eq_true_1 (NoDup _))| |done].
  repeat constructor; done.
Qed.

Definition demo_boot : kernel (kmem pmem) :=
  set_root_fs 64 (set_k_protofs demo_pf (vfs_cache_init (zero_kernel (kmem_init demo_pmem5)))).

Lemma demo_boot_rep : cache_rep demo_boot (replicate 31 []).
Proof. apply (cache_rep_ext boot_cache); [reflexivity|intros e; split_and!; reflexivity|exact boot_cache_rep]. Qed.

Definition demo_root_fill (i : inode) : inode :=
  set_i_count 1 (set_i_spec NULL (protofs_fill_inode 0x88001000 64 0 None i)).

Lemma demo_node_at i n : node_at demo_pf i = Some n →
  (i = 0 ∧ n = mk_pnode [100; 101; 118; 0] NULL 1 7 0) ∨ (i = 1 ∧ n = mk_pnode [116; 116; 121; 0] 0x88001000 2 7 0x10001).
Proof.
  unfold node_at. destruct (Z.leb_spec 0 i); [|done]. destruct (Z.to_nat i) as [|[|j]] eqn:Hi; cbn [pf_nodes demo_pf lookup list_lookup].
  - intros [= <-]. left. split; [lia|done].
  - intros [= <-]. right. split; [lia|done].
  - destruct (replicate 34 _ !! j) as [x|] eqn:Hx; [|done]. apply lookup_replicate in Hx as [-> _]. done.
Qed.

Lemma demo_tree_wf : tree_wf demo_pf.
Proof.
  split; [done|]. intros i n Hn. destruct (demo_node_at i n Hn) as [[-> ->]|[-> ->]]; (split; [|split; [done|simpl; lia]]).
  - by left.
  - right. exists 0. by split; [eexists|].
Qed.

(** The root mounted and cached, with a reference. *)
Lemma demo_root_ok :
  ∃ (k2 : kernel (kmem pmem)) L F bk, vfs_ok 64 k2 L [] F bk ∧ k_protofs k2 = demo_pf ∧ root_fs k2 = 64 ∧ (4 ≤ length F)%nat ∧
    ∀ m, node_refs 37 64 k2 m = if decide (m = root_node) then 1 else 0.
Proof.
  destruct (cache_add_spec demo_boot (replicate 31 []) 64 root_node [] [] [0x88000000; 0x88000400; 0x88000800; 0x88000C00; 0x88001000]) as
    (ret & k1 & F' & Ha & Hrn & _ & Hkm & HlF & Hfill); [exact demo_boot_rep|set_solver|apply kmem_init_inv, demo_pmem5_rep|done|].
  destruct (Hfill demo_root_fill) as (bk & Hrep & Hiff & Hk & _); [intros i; split_and!; reflexivity|]. cbn zeta in *.
  set (k2 := upd_inode ret demo_root_fill k1) in *.
  assert (Hiff' : ∀ x, x ∈ concat bk → x = ret).
  { intros x Hx. apply Hiff in Hx as [->|Hx]; [done|]. change (x ∈ @nil ptr) in Hx. clear -Hx. set_solver. }
  assert (Hk1 : k_protofs k1 = demo_pf ∧ root_fs k1 = 64).
  { exact (cache_alloc_frame _ _ _ _ _ Ha). }
  destruct Hk1 as [Hpf Hrf].
  assert (Hin : k_inodes k2 ret = demo_root_fill (k_inodes k1 ret)) by apply upd_inode_eq.
  assert (Hok : vfs_ok 64 k2 [(PInode, ret)] [] F' bk).
  { split; [exact Hrep| |exact Hkm| | | |].
    - intros e He. rewrite (Hiff' e He). apply list_elem_of_here.
    - change (k_protofs k2) with (k_protofs k1). rewrite Hpf. exact demo_tree_wf.
    - intros e He. rewrite (Hiff' e He), Hin. split; [reflexivity|]. split; [left; reflexivity|]. split; [cbn; lia|].
      split; [intros _; split; reflexivity|]. intros n Hn. by destruct Hn.
    - exists ret. split; [apply Hiff; by left|]. by rewrite Hin.
    - intros e. destruct (decide (e = ret)) as [->|He].
      + rewrite Hin. unfold demo_root_fill. cbn [i_name set_i_count set_i_spec protofs_fill_inode set_i_fs set_i_flags set_i_node set_i_name set_i_abstract set_i_type].
        rewrite memcpy_to_length, (cache_alloc_name _ _ _ _ _ ret Ha). reflexivity.
      + unfold k2. rewrite upd_inode_ne by done. rewrite (cache_alloc_name _ _ _ _ _ e Ha). reflexivity. }
  assert (Hroot : inode_of k2 bk ret root_node) by (split; [apply Hiff; by left|by rewrite Hin]).
  assert (Href : ∀ m, node_refs 37 64 k2 m = if decide (m = root_node) then 1 else 0).
  { intros m. case_decide as Hm.
    - subst m. rewrite (refs_inode 37 ltac:(lia) 64 k2 _ _ _ _ ret root_node Hok Hroot). by rewrite Hin.
    - apply (refs_absent 37 ltac:(lia) 64 k2 _ _ _ _ m Hok). intros e [He He']. rewrite (Hiff' e He), Hin in He'. by apply Hm. }
  exists k2, [(PInode, ret)], F', bk. split; [exact Hok|]. split; [exact Hpf|]. split; [exact Hrf|]. split; [simpl in HlF; lia|exact Href].
Qed.

Lemma vfs_resolve_protofs_witness :
  ∃ (k : kernel (kmem pmem)) r k', vfs_resolve 37 (proto_table 37 (λ _ _ k, Some (0, k))) [47; 100; 101; 118; 47; 116; 116; 121] k = Some (r, k') ∧
    r ≠ NULL ∧ i_node (k_inodes k' r) = 1.
Proof.
  destruct demo_root_ok as (k2 & L & F & bk & Hok & Hpf & Hrf & HlF & Href).
  destruct (vfs_resolve_protofs 37 ltac:(lia) 64 (λ _ _ k, Some (0, k)) (proto_table 37 (λ _ _ k, Some (0, k))) eq_refl [100; 101; 118; 47; 116; 116; 121] k2 L [] F bk)
    as (r & k' & L' & F'' & bk' & Hr & _ & Hres).
  - exact Hok.
  - exact Hrf.
  - done.
  - repeat constructor; simpl; lia.
  - change (length (path_names [100; 101; 118; 47; 116; 116; 121])) with 2%nat. lia.
  - intros m. rewrite Href. case_decide; lia.
  - rewrite Href, decide_True by done. lia.
  - exists k2, r, k'. split; [exact Hr|]. rewrite Hpf in Hres.
    change (tree_walk demo_pf root_node (path_names [100; 101; 118; 47; 116; 116; 121])) with (Some 1) in Hres.
    destruct Hres as (H1 & H2 & _). split; [exact H1|exact H2].
Defined.

