(* ===== verification/ProtofsTree.v ===== *)
(** * Changing the root file system (src/fs/protofs/file_system.c, src/fs/vfs_op.c, src/fs/vfs.c)

    Protofs gives the meaning of the page of nodes as a tree.  Here are the calls that
    make the tree: mounting, which starts it, and creating a node.  A new node is found
    at its path, every path that had a node still has the same one, and no other path
    gets one; the cache of inodes stays coherent and the references are as before. *)

From S2P Require Import Prelude CyclicFifo PhysMem PoolAlloc KMem Pid Mmu PageDir Kernel Pipe VfsFile VfsCache Vfs Protofs.

(** ** Scans of an array with one element changed *)

Lemma scan_insert_false {A} (f : A → bool) l i x y : l !! i = Some y → f y = false → f x = false → scan f (<[i := x]> l) = scan f l.
Proof.
  revert i. induction l as [|z l IH]; intros [|i] Hl Hy Hx; try done; cbn [lookup list_lookup] in Hl; cbn [insert list_insert scan].
  - injection Hl as ->. by rewrite Hx, Hy.
  - destruct (f z); [done|]. by rewrite IH.
Qed.

Lemma scan_insert_true {A} (f : A → bool) l i x : scan f l = length l → (i < length l)%nat → f x = true → scan f (<[i := x]> l) = i.
Proof.
  revert i. induction l as [|z l IH]; intros [|i] Hs Hi Hx; cbn [length] in Hi; try lia; cbn [insert list_insert scan]; [by rewrite Hx|].
  cbn [scan] in Hs. destruct (f z); [done|]. f_equal. apply IH; [by injection Hs|lia|done].
Qed.

(** ** The tree with one more node *)

(** A node in use under node [p]. *)
Definition fresh_node (pf : protofs) (p : Z) (n : protofs_node) : Prop :=
  pn_parent n = addr_of pf p ∧ (pn_type n &? PROTOFS_TYPE_EMPTY) = false ∧
  (Z.land (pn_type n) (Z.lnot PROTOFS_TYPE_EMPTY) &? Z.lor INODE_TYPE_ROOT INODE_TYPE_MOUNTPOINT) = false ∧
  (length (c_str (pn_name n)) < 20)%nat.

Definition put_node (pf : protofs) (c : Z) (n : protofs_node) : protofs :=
  mk_protofs (pf_mounted pf) (pf_page pf) (aset (pf_nodes pf) c n).

(** The first node that is not in use. *)
Definition free_slot (pf : protofs) : Z := Z.of_nat (scan (λ n, pn_type n &? PROTOFS_TYPE_EMPTY) (pf_nodes pf)).

(** The page is memory: its address and those of its nodes are not NULL. *)
Definition page_sound (pf : protofs) : Prop := 0 < pf_page pf ∧ pf_page pf + 1024 ≤ 4294967296.

Section put.
Context (pf : protofs) (Hwf : tree_wf pf) (Hpg : page_sound pf).

Lemma free_slot_empty : free_slot pf < 36 → ∃ old, pf_nodes pf !! Z.to_nat (free_slot pf) = Some old ∧ (pn_type old &? PROTOFS_TYPE_EMPTY) = true ∧
  0 ≤ free_slot pf ∧ node_at pf (free_slot pf) = None.
Proof.
  intros Hc. destruct Hwf as [Hl _]. unfold free_slot in *.
  destruct (scan_stop (λ n, pn_type n &? PROTOFS_TYPE_EMPTY) (pf_nodes pf)) as (old & Ho & He); [lia|]. exists old.
  rewrite Nat2Z.id. split_and!; [done|done|lia|]. unfold node_at. rewrite (proj2 (Z.leb_le _ _)), Nat2Z.id, Ho by lia. cbn [mbind option_bind]. by rewrite He.
Qed.

Lemma node_addr_inj i j : is_node pf i → is_node pf j → addr_of pf i = addr_of pf j → i = j.
Proof.
  destruct Hpg as [Hp1 Hp2]. assert (Haddr : ∀ x, is_Some (node_at pf x) → 0 ≤ x < 36 ∧ addr_of pf x = x * 28 + pf_page pf ∧ x ≠ root_node).
  { intros x [n Hx]. destruct (node_at_range _ _ _ Hwf Hx) as (Hr & _ & _). unfold addr_of, PROTOFS_NODE_ADDR, PROTOFS_NODE_SIZE, root_node, PROTOFS_ROOT_NODE.
    rewrite (proj2 (Z.eqb_neq _ _)), u32_small by lia. split_and!; lia. }
  intros [->|Hi] [->|Hj]; [done|..].
  - destruct (Haddr j Hj) as (? & -> & _). change (addr_of pf root_node) with 0. lia.
  - destruct (Haddr i Hi) as (? & -> & _). change (addr_of pf root_node) with 0. lia.
  - destruct (Haddr i Hi) as (? & -> & _), (Haddr j Hj) as (? & -> & _). lia.
Qed.

Context (p c : Z) (n : protofs_node) (Hc : c = free_slot pf) (Hcr : c < 36) (Hp : is_node pf p) (Hn : fresh_node pf p n).

Lemma slot_range : 0 ≤ c < 36 ∧ node_at pf c = None ∧ c ≠ root_node ∧ p ≠ c.
Proof.
  subst c. destruct (free_slot_empty Hcr) as (old & _ & _ & H0 & Hna). assert (Hne : free_slot pf ≠ root_node) by (unfold root_node, PROTOFS_ROOT_NODE; lia).
  split_and!; [done|lia|done|done|]. intros ->. destruct Hp as [?|[x Hx]]; [done|congruence].
Qed.

Lemma node_at_put i : node_at (put_node pf c n) i = if decide (i = c) then Some n else node_at pf i.
Proof.
  destruct slot_range as (Hr & Hna & _ & _). destruct Hn as (_ & He & _). unfold node_at, put_node, aset. cbn [pf_nodes].
  destruct (decide (i = c)) as [->|Hi].
  - rewrite (proj2 (Z.leb_le 0 c)) by lia. rewrite list_lookup_insert_eq by (rewrite (proj1 Hwf); lia). cbn [mbind option_bind]. by rewrite He.
  - destruct (Z.leb_spec 0 i); [|done]. by rewrite list_lookup_insert_ne by lia.
Qed.

Lemma node_put i : is_node pf i → is_node (put_node pf c n) i ∧ i ≠ c.
Proof.
  destruct slot_range as (_ & Hna & Hcn & _). intros [->|[x Hx]]; [split; [by left|done]|].
  assert (i ≠ c) by (intros ->; congruence). split; [|done]. right. exists x. by rewrite node_at_put, decide_False.
Qed.

Lemma put_wf : tree_wf (put_node pf c n).
Proof.
  destruct slot_range as (Hr & Hna & Hcn & Hpc). pose proof Hwf as [Hl Hw]. split; [cbn [pf_nodes put_node]; unfold aset; by rewrite length_insert|].
  intros i x. rewrite node_at_put. case_decide as Hi.
  - intros [= <-]. destruct Hn as (Hpar & _ & Hf & Hlen). split_and!; [|done|done].
    destruct Hp as [->|[y Hy]]; [by left|]. right. exists p. split; [exists y; by rewrite node_at_put, decide_False|].
    rewrite Hpar. unfold addr_of. destruct (node_at_range _ _ _ Hwf Hy) as (Hpr & _). unfold root_node, PROTOFS_NODE_ADDR, PROTOFS_ROOT_NODE.
    rewrite (proj2 (Z.eqb_neq _ _)) by lia. done.
  - intros Hx. destruct (Hw i x Hx) as ([Hpar|(j & [y Hy] & Hpar)] & Hf & Hlen); (split_and!; [|done|done]); [by left|].
    right. exists j. split; [|done]. exists y. rewrite node_at_put, decide_False; [done|]. intros ->. congruence.
Qed.

Lemma is_dir_put i : i ≠ c → is_dir (put_node pf c n) i = is_dir pf i.
Proof. intros Hi. unfold is_dir. by rewrite node_at_put, decide_False. Qed.

Lemma tree_parent_put i : i ≠ c → tree_parent (put_node pf c n) i = tree_parent pf i.
Proof. intros Hi. unfold tree_parent. by rewrite node_at_put, decide_False. Qed.

Lemma addr_of_put i : addr_of (put_node pf c n) i = addr_of pf i.
Proof. done. Qed.

(** The new node is a child of [p], of its name. *)
Lemma child_put i name : is_node pf i → ¬ (i = p ∧ name = c_str (pn_name n)) → tree_child (put_node pf c n) i name = tree_child pf i name.
Proof.
  intros Hi Hne. destruct (node_put i Hi) as [_ Hic]. unfold tree_child. rewrite is_dir_put, addr_of_put by done. destruct (is_dir pf i); [|done].
  destruct (free_slot_empty ltac:(lia)) as (old & Ho & He & _). rewrite <- Hc in Ho. cbn [pf_nodes put_node]. unfold aset.
  rewrite (scan_insert_false _ _ _ n old Ho); [done|unfold is_named, is_child; by rewrite He|].
  unfold is_named, is_child. destruct Hn as (Hpar & -> & _). cbn [negb andb]. rewrite Hpar. apply andb_false_iff.
  destruct (Z.eqb_spec (addr_of pf p) (addr_of pf i)) as [Ha|]; [right|by left]. apply node_addr_inj in Ha; [|done|done].
  apply bool_decide_eq_false. intros Hnm. by apply Hne.
Qed.

Lemma child_new : is_dir pf p = true → tree_child pf p (c_str (pn_name n)) = None → tree_child (put_node pf c n) p (c_str (pn_name n)) = Some c.
Proof.
  intros Hd Hno. destruct slot_range as (Hr & _ & _ & Hpc). unfold tree_child in Hno |- *. rewrite is_dir_put, addr_of_put by done. rewrite Hd in Hno |- *.
  pose proof (proj1 Hwf) as Hl. change PROTOFS_PER_PAGE with 36 in *. cbn zeta in *. cbn [pf_nodes put_node].
  set (f := is_named (addr_of pf p) (c_str (pn_name n))) in *. pose proof (scan_le f (pf_nodes pf)).
  destruct (Z.ltb_spec (Z.of_nat (scan f (pf_nodes pf))) 36); [done|]. unfold aset. rewrite scan_insert_true; [|lia|lia|].
  - rewrite Z2Nat.id, (proj2 (Z.ltb_lt c 36)) by lia. done.
  - unfold f, is_named, is_child. destruct Hn as (-> & -> & _). by rewrite Z.eqb_refl, bool_decide_eq_true_2.
Qed.

(** It has no child. *)
Lemma child_of_new name : tree_child (put_node pf c n) c name = None.
Proof.
  destruct slot_range as (Hr & Hna & Hcn & Hpc). destruct (tree_child _ _ _) as [j|] eqn:Hj; [|done]. exfalso.
  unfold tree_child in Hj. destruct (is_dir _ c); [|done]. cbn zeta in Hj. change PROTOFS_PER_PAGE with 36 in Hj.
  set (f := is_named _ name) in Hj. destruct (Z.ltb_spec (Z.of_nat (scan f (pf_nodes (put_node pf c n)))) 36); [|done].
  pose proof put_wf as [Hl Hw]. destruct (scan_stop f (pf_nodes (put_node pf c n))) as (x & Hx & Hs); [lia|].
  unfold f, is_named, is_child in Hs. apply andb_true_iff in Hs as [Hs _]. apply andb_true_iff in Hs as [He Ha]. apply negb_true_iff in He. apply Z.eqb_eq in Ha.
  rewrite addr_of_put in Ha. set (i := Z.of_nat (scan f _)) in *.
  assert (Hni : node_at (put_node pf c n) i = Some x).
  { unfold node_at. rewrite (proj2 (Z.leb_le 0 i)) by lia. unfold i. rewrite Nat2Z.id, Hx. cbn [mbind option_bind]. by rewrite He. }
  assert (Hac : addr_of pf c = c * 28 + pf_page pf).
  { unfold addr_of, PROTOFS_NODE_ADDR, PROTOFS_NODE_SIZE, root_node, PROTOFS_ROOT_NODE. destruct Hpg. rewrite (proj2 (Z.eqb_neq _ _)), u32_small by lia. done. }
  rewrite node_at_put in Hni. case_decide as Hic.
  - injection Hni as <-. destruct Hn as (Hpar & _). rewrite Hpar in Ha. destruct Hp as [->|[y Hy]]; [change (addr_of pf root_node) with 0 in Ha; destruct Hpg; lia|].
    destruct (node_at_range _ _ _ Hwf Hy) as (Hpr & _). unfold addr_of, PROTOFS_NODE_ADDR, PROTOFS_NODE_SIZE, root_node, PROTOFS_ROOT_NODE in Ha. destruct Hpg.
    rewrite !(proj2 (Z.eqb_neq _ _)), !u32_small in Ha by lia. lia.
  - destruct Hwf as [_ Hw0]. destruct (Hw0 i x Hni) as ([Hpar|(j' & [y Hy] & Hpar)] & _); rewrite Hpar in Ha; destruct Hpg; [lia|].
    destruct (node_at_range _ _ _ Hwf Hy) as (Hjr & _). unfold PROTOFS_NODE_SIZE in Ha. rewrite u32_small in Ha by lia.
    assert (j' = c) as -> by lia. congruence.
Qed.

(** ** Paths in the new tree *)

(** A name that is neither the directory itself nor its parent. *)
Definition plain_name (name : list Z) : Prop := name ≠ [46] ∧ name ≠ [46; 46].

Lemma step_plain pf' i name : plain_name name → tree_step pf' i name = tree_child pf' i name.
Proof. intros [H1 H2]. unfold tree_step. by rewrite !bool_decide_eq_false_2. Qed.

Lemma step_node i name j : is_node pf i → tree_step pf i name = Some j → is_node pf j.
Proof.
  intros Hi. unfold tree_step. case_bool_decide; [by intros [= <-]|]. case_bool_decide; [by apply tree_parent_node|].
  intros Hj. by apply (tree_child_node _ _ _ _ Hwf) in Hj as [? _].
Qed.

Context (Hplain : plain_name (c_str (pn_name n))) (Hdir : is_dir pf p = true) (Hno : tree_child pf p (c_str (pn_name n)) = None).

Lemma step_keep i name j : is_node pf i → tree_step pf i name = Some j → tree_step (put_node pf c n) i name = Some j.
Proof.
  intros Hi. destruct (node_put i Hi) as [_ Hic]. unfold tree_step. case_bool_decide; [done|]. case_bool_decide; [by rewrite tree_parent_put|].
  intros Hj. rewrite child_put; [done|done|]. intros [-> ->]. congruence.
Qed.

Lemma walk_keep names : ∀ i j, is_node pf i → tree_walk pf i names = Some j → tree_walk (put_node pf c n) i names = Some j.
Proof.
  induction names as [|nm names IH]; intros i j Hi; [done|]. cbn [tree_walk]. destruct (tree_step pf i nm) as [x|] eqn:Hx; [|done]. cbn [mbind option_bind].
  rewrite (step_keep i nm x Hi Hx). apply IH. by eapply step_node.
Qed.

Lemma tree_walk_app pf' l1 l2 : ∀ i, tree_walk pf' i (l1 ++ l2) = (j ← tree_walk pf' i l1; tree_walk pf' j l2).
Proof. induction l1 as [|nm l1 IH]; intros i; [done|]. cbn [app tree_walk]. destruct (tree_step pf' i nm); [apply IH|done]. Qed.

Lemma walk_new i names : is_node pf i → tree_walk pf i names = Some p → tree_walk (put_node pf c n) i (names ++ [c_str (pn_name n)]) = Some c.
Proof.
  intros Hi Hw. rewrite tree_walk_app, (walk_keep _ _ _ Hi Hw). cbn [mbind option_bind tree_walk]. rewrite step_plain by done. by rewrite child_new.
Qed.

Lemma walk_only names : ∀ i j, Forall plain_name names → is_node pf i → tree_walk (put_node pf c n) i names = Some j →
  tree_walk pf i names = Some j ∨ j = c ∧ ∃ names', names = names' ++ [c_str (pn_name n)] ∧ tree_walk pf i names' = Some p.
Proof.
  induction names as [|nm names IH]; intros i j Hpl Hi; [by left|]. apply Forall_cons in Hpl as [Hnm Hpl]. cbn [tree_walk]. rewrite !step_plain by done.
  destruct (decide (i = p ∧ nm = c_str (pn_name n))) as [[-> ->]|Hne].
  - rewrite child_new by done. cbn [mbind option_bind]. destruct names as [|nm' names]; cbn [tree_walk].
    + intros [= <-]. right. split; [done|]. by exists [].
    + apply Forall_cons in Hpl as [Hnm' _]. rewrite step_plain, child_of_new by done. done.
  - rewrite child_put by done. destruct (tree_child pf i nm) as [x|] eqn:Hx; [|done]. cbn [mbind option_bind]. intros Hw.
    destruct (IH x j Hpl) as [Hold|(-> & names' & -> & Hw')]; [by apply (tree_child_node _ _ _ _ Hwf) in Hx as [? _]|done|by left|].
    right. split; [done|]. exists (nm :: names'). split; [done|]. cbn [tree_walk]. rewrite step_plain by done. by rewrite Hx.
Qed.
End put.

(** The paths of a tree after node [c] was added as [name] under node [p]. *)
Record added (pf pf' : protofs) (p : Z) (name : list Z) (c : Z) : Prop := {
  ad_keep names j : tree_walk pf root_node names = Some j → tree_walk pf' root_node names = Some j;
  ad_new names : tree_walk pf root_node names = Some p → tree_walk pf' root_node (names ++ [name]) = Some c;
  ad_only names j : Forall plain_name names → tree_walk pf' root_node names = Some j →
    tree_walk pf root_node names = Some j ∨ j = c ∧ ∃ names', names = names' ++ [name] ∧ tree_walk pf root_node names' = Some p
}.

Lemma put_added pf p c n : tree_wf pf → page_sound pf → c = free_slot pf → c < 36 → is_node pf p → fresh_node pf p n → plain_name (c_str (pn_name n)) →
  is_dir pf p = true → tree_child pf p (c_str (pn_name n)) = None → added pf (put_node pf c n) p (c_str (pn_name n)) c.
Proof.
  intros. split; intros.
  - eapply walk_keep; try done. by left.
  - eapply walk_new; try done. by left.
  - eapply walk_only; try done. by left.
Qed.

(** ** Creating a node *)

(** src/fs/protofs/primitives.h:22-22: PROTOFS_MAX_NAME *)
Definition PROTOFS_MAX_NAME : nat := 16.

(** The node that is stored. *)
Definition new_node (pf : protofs) (p : Z) (name : list Z) (type_flags mode_flags special : Z) : protofs_node :=
  let old := nth (Z.to_nat (free_slot pf)) (pf_nodes pf) zero_pnode in
  mk_pnode (strcpy (pn_name old) name) (addr_of pf p) type_flags mode_flags (if type_flags &? INODE_TYPE_DEV then special else pn_dev old).

(** The flags of a node that can be created. *)
Definition type_ok (type_flags : Z) : Prop :=
  (type_flags &? PROTOFS_TYPE_EMPTY) = false ∧ (Z.land type_flags (Z.lnot PROTOFS_TYPE_EMPTY) &? Z.lor INODE_TYPE_ROOT INODE_TYPE_MOUNTPOINT) = false.

Definition names_sized (pf : protofs) : Prop := Forall (λ n, length (pn_name n) = PROTOFS_MAX_NAME) (pf_nodes pf).

Lemma new_node_fresh pf p name ty mode sp : tree_wf pf → free_slot pf < 36 → names_sized pf → type_ok ty → Forall (λ c, c ≠ 0) name → (length name < PROTOFS_MAX_NAME)%nat →
  fresh_node pf p (new_node pf p name ty mode sp) ∧ c_str (pn_name (new_node pf p name ty mode sp)) = name ∧
  names_sized (put_node pf (free_slot pf) (new_node pf p name ty mode sp)).
Proof.
  intros Hwf Hc Hsz [He Hf] Hnn Hlen. destruct (free_slot_empty pf Hwf Hc) as (old & Ho & _). unfold new_node. rewrite (nth_lookup_Some _ _ _ _ Ho).
  assert (Hol : length (pn_name old) = PROTOFS_MAX_NAME) by (eapply Forall_lookup_1 in Ho; [|exact Hsz]; done).
  assert (Hnm : c_str (strcpy (pn_name old) name) = name) by (apply strcpy_c_str; [done|lia]).
  split_and!; [split_and!; cbn [pn_parent pn_type pn_name]; [done|done|done|rewrite Hnm; unfold PROTOFS_MAX_NAME in *; lia]|done|].
  unfold names_sized, put_node, aset. cbn [pf_nodes]. apply Forall_insert; [done|]. cbn [pn_name]. unfold strcpy. by rewrite memcpy_to_length.
Qed.

Section create.
Context {A : Type} `{!KMem A}.
Context (fuel : nat) (Hfuel : (37 ≤ fuel)%nat) (inst : ptr) (open_dev : ptr → ptr → kernel A → option (Z * kernel A)).
Implicit Types (k : kernel A) (bk : list (list ptr)).
Notation vfs_ok := (vfs_ok inst).
Notation node_refs := (node_refs fuel inst).

(** Storing a node keeps the cached inodes coherent. *)
Lemma put_coherent pf p c n i : tree_wf pf → page_sound pf → c = free_slot pf → c < 36 → is_node pf p → fresh_node pf p n →
  coherent inst pf i → coherent inst (put_node pf c n) i.
Proof.
  intros Hwf Hpg Hc Hcr Hp Hn (H1 & H2 & H3 & H4 & H5). destruct (node_put pf Hwf p c n Hc Hcr Hp Hn _ H2) as [Hi Hic].
  split_and!; try done; [by apply H3..|]. intros x Hr. rewrite (node_at_put pf Hwf p c n Hc Hcr Hp Hn), decide_False by done. intros Hx.
  rewrite (tree_parent_put pf Hwf p c n Hc Hcr Hp Hn) by done. by apply H5.
Qed.

Lemma put_ok k L H F bk p n c : vfs_ok k L H F bk → page_sound (k_protofs k) → c = free_slot (k_protofs k) → c < 36 → is_node (k_protofs k) p →
  fresh_node (k_protofs k) p n → vfs_ok (set_k_protofs (put_node (k_protofs k) c n) k) L H F bk.
Proof.
  intros [Hrep Hlive Hmem Ht Hcoh Hroot Hnames] Hpg Hc Hcr Hp Hn. split; try done.
  - by apply (put_wf _ Ht p).
  - intros e He. by apply (put_coherent _ p), Hcoh.
Qed.

Lemma create_spec k L H F bk p e name ty mode sp :
  let pf := k_protofs k in let n := new_node pf p name ty mode sp in
  vfs_ok k L H F bk → inode_of k bk e p → page_sound pf → names_sized pf → free_slot pf < 36 → type_ok ty →
  Forall (λ c, c ≠ 0) name → (length name < PROTOFS_MAX_NAME)%nat → F ≠ [] →
  ∃ r k' L' F' bk', protofs_create_node fuel e name ty mode sp k = Some (r, k') ∧ r ≠ NULL ∧ vfs_ok k' L' H F' bk' ∧
    k_protofs k' = put_node pf (free_slot pf) n ∧ inode_of k' bk' r (free_slot pf) ∧
    (∀ x m, inode_of k bk x m → inode_of k' bk' x m) ∧
    (∀ m, node_refs k' m = node_refs k m + if decide (m = free_slot pf) then 1 else 0) ∧ node_refs k (free_slot pf) = 0 ∧ (length F ≤ S (length F'))%nat.
Proof.
  intros pf n Hok He Hpg Hsz Hc Hty Hnn Hlen HF. pose proof (vo_tree _ _ _ _ _ _ Hok) as Ht. fold pf in Ht.
  destruct (vo_coh _ _ _ _ _ _ Hok e (proj1 He)) as (Hfs & Hp & _). destruct He as [Heb Hep]. rewrite Hep in Hp. fold pf in Hp.
  destruct (new_node_fresh pf p name ty mode sp Ht Hc Hsz Hty Hnn Hlen) as (Hfr & _ & _). fold n in Hfr.
  destruct (slot_range pf Ht p (free_slot pf) n eq_refl Hc Hp Hfr) as (Hr & Hna & Hcn & Hpc).
  pose proof (put_ok k L H F bk p n (free_slot pf) Hok Hpg eq_refl Hc Hp Hfr) as Hok1. set (k1 := set_k_protofs _ k) in Hok1.
  assert (Hz : node_refs k (free_slot pf) = 0).
  { apply (refs_absent fuel Hfuel inst k L H F bk _ Hok). intros x [Hx Hxn]. destruct (vo_coh _ _ _ _ _ _ Hok x Hx) as (_ & Hno & _).
    rewrite Hxn in Hno. fold pf in Hno. destruct Hno as [?|[y Hy]]; [done|congruence]. }
  assert (Hz1 : ∀ m, node_refs k1 m = node_refs k m) by (intros m; by apply node_refs_frame).
  assert (Hnode1 : is_node (k_protofs k1) (free_slot pf)) by (right; exists n; change (k_protofs k1) with (put_node pf (free_slot pf) n);
    by rewrite (node_at_put pf Ht p (free_slot pf) n eq_refl Hc Hp Hfr), decide_True).
  destruct (get_spec fuel Hfuel inst k1 L H F bk (free_slot pf) Hok1 Hnode1 HF ltac:(rewrite Hz1, Hz; lia)) as
    (r & k' & L' & F' & bk' & Hg & Hrn & Hok' & Hin & Hkeep & Href & Hpf' & HlF).
  exists r, k', L', F', bk'. split_and!; try done; [|intros m; by rewrite Href, Hz1].
  unfold protofs_create_node. fold pf. fold (free_slot pf). cbn zeta. change PROTOFS_PER_PAGE with 36. rewrite (proj2 (Z.ltb_lt _ _) Hc).
  destruct (free_slot_empty pf Ht Hc) as (old & Ho & _). unfold pf_node. fold pf.
  assert (Hol : length (pn_name (nth (Z.to_nat (free_slot pf)) (pf_nodes pf) zero_pnode)) = PROTOFS_MAX_NAME).
  { rewrite (nth_lookup_Some _ _ _ _ Ho). by eapply Forall_lookup_1 in Ho; [|exact Hsz]. }
  rewrite Hol, (proj2 (Nat.leb_gt _ _)) by lia. rewrite Hep.
  match goal with |- proto_get _ ?x _ _ = _ => change x with (i_fs (k_inodes k e)) end. rewrite Hfs. exact Hg.
Qed.

End create.

Lemma create_node_root_fs {A} `{!KMem A} fuel (k : kernel A) e name ty mode sp r k' : protofs_create_node fuel e name ty mode sp k = Some (r, k') → root_fs k' = root_fs k.
Proof.
  unfold protofs_create_node. cbn zeta. destruct (_ <? _); [|by intros [= _ <-]]. destruct (_ <=? _)%nat; [done|]. intros Hg. exact (get_root_fs fuel _ _ _ r k' Hg).
Qed.

(** ** The tree as a table of paths *)

(** What a node is created with: its type, its mode and, for a device, its number. *)
Record node_props := mk_props { np_type : Z; np_mode : Z; np_dev : Z }.

Definition node_shows (n : protofs_node) (e : node_props) : Prop :=
  pn_type n = np_type e ∧ pn_mode n = np_mode e ∧ ((np_type e &? INODE_TYPE_DEV) = true → pn_dev n = np_dev e).

(** The same seen from the inode. *)
Definition inode_shows (i : inode) (e : node_props) : Prop :=
  i_type i = np_type e ∧ i_flags i = np_mode e ∧ ((np_type e &? INODE_TYPE_DEV) = true → i_spec i = np_dev e).

Lemma new_node_shows pf p name ty mode sp : node_shows (new_node pf p name ty mode sp) (mk_props ty mode sp).
Proof. split_and!; [done|done|]. cbn [new_node pn_dev np_type np_dev]. by intros ->. Qed.

Lemma type_ok_clear ty : type_ok ty → Z.land ty (Z.lnot PROTOFS_TYPE_EMPTY) = ty.
Proof.
  intros [He _]. unfold flag_set in He. apply negb_false_iff, Z.eqb_eq in He.
  rewrite <- Z.ldiff_land. apply Z.bits_inj'. intros i Hi. rewrite Z.ldiff_spec.
  apply (f_equal (λ x, Z.testbit x i)) in He. rewrite Z.land_spec, Z.bits_0 in He. destruct (Z.testbit ty i); [|done]. by rewrite andb_true_l in He |- *; rewrite He.
Qed.

Lemma coherent_shows inst pf i n e : coherent inst pf i → i_node i ≠ root_node → node_at pf (i_node i) = Some n → node_shows n e → type_ok (np_type e) → inode_shows i e.
Proof.
  intros (_ & _ & _ & _ & Hn) Hr Hat (Hty & Hmode & Hdev) Hok. destruct (Hn n Hr Hat) as (H1 & _ & _ & H2 & H3). rewrite Hty in H1, H3. unfold inode_shows.
  rewrite H1, H2. split_and!; [by apply type_ok_clear|done|]. intros Hd. by rewrite H3, Hdev.
Qed.

(** The root as an entry. *)
Definition root_props : node_props := mk_props INODE_TYPE_PARENT 7 0.

(** The paths of a tree, without dots, with the node and the properties of each; the
    nodes in use are the first ones of the page. *)
Record shows (pf : protofs) (T : list (list (list Z) * Z * node_props)) : Prop := {
  sh_walk q j : Forall plain_name q → tree_walk pf root_node q = Some j ↔ ∃ ty, (q, j, ty) ∈ T;
  sh_dir q j ty : (q, j, ty) ∈ T → is_dir pf j = (np_type ty &? INODE_TYPE_PARENT);
  sh_node q j ty : (q, j, ty) ∈ T → j ≠ root_node → type_ok (np_type ty) ∧ ∃ n, node_at pf j = Some n ∧ node_shows n ty;
  sh_one q q' j ty ty' : (q, j, ty) ∈ T → (q', j, ty') ∈ T → q = q';
  sh_entry q j ty : (q, j, ty) ∈ T → Forall plain_name q ∧ (j = root_node ∨ 0 ≤ j < Z.of_nat (length T) - 1);
  sh_used j : 0 ≤ j < 36 → node_at pf j = None ↔ Z.of_nat (length T) - 1 ≤ j
}.

Lemma shows_empty pf : tree_wf pf → (∀ i, node_at pf i = None) → shows pf [([], root_node, root_props)].
Proof.
  intros Hwf Hn. split.
  - intros q j Hq. destruct q as [|nm q].
    + cbn [tree_walk]. split; [intros [= <-]; exists root_props; set_solver|intros (ty & Hin); f_equal; set_solver].
    + apply Forall_cons in Hq as [Hnm _]. cbn [tree_walk]. rewrite step_plain by done. split; [|intros (ty & Hin); set_solver].
      destruct (tree_child pf root_node nm) as [x|] eqn:Hx; [|done]. apply (tree_child_node _ _ _ _ Hwf) in Hx as [[->|[y Hy]] Hr]; [|congruence].
      unfold root_node, PROTOFS_ROOT_NODE in Hr. lia.
  - intros q j ty Hin. apply list_elem_of_singleton in Hin as [= -> -> ->]. done.
  - intros q j ty Hin Hj. apply list_elem_of_singleton in Hin as [= -> -> ->]. done.
  - intros q q' j ty ty' Hin Hin'. apply list_elem_of_singleton in Hin as [= -> -> ->], Hin' as [= -> ->]. done.
  - intros q j ty Hin. apply list_elem_of_singleton in Hin as [= -> -> ->]. split; [done|by left].
  - intros j Hj. rewrite Hn. cbn [length]. split; [lia|done].
Qed.

Lemma shows_slot pf T : tree_wf pf → shows pf T → (0 < length T ≤ 36)%nat → free_slot pf = Z.of_nat (length T) - 1.
Proof.
  intros Hwf Hsh Hl. pose proof (proj1 Hwf) as Hlen. assert (Hc : free_slot pf < 36).
  { unfold free_slot. assert (scan (λ n, pn_type n &? PROTOFS_TYPE_EMPTY) (pf_nodes pf) < length (pf_nodes pf))%nat; [|lia]. apply scan_lt_iff.
    destruct (lookup_lt_is_Some_2 (pf_nodes pf) (length T - 1)) as [n Hn]; [lia|]. exists n. split; [by eapply list_elem_of_lookup_2|].
    pose proof (proj2 (sh_used _ _ Hsh (Z.of_nat (length T) - 1) ltac:(lia)) ltac:(lia)) as Hna. unfold node_at in Hna.
    rewrite (proj2 (Z.leb_le _ _)) in Hna by lia. replace (Z.to_nat (Z.of_nat (length T) - 1)) with (length T - 1)%nat in Hna by lia. rewrite Hn in Hna.
    cbn [mbind option_bind] in Hna. by destruct (pn_type n &? PROTOFS_TYPE_EMPTY). }
  destruct (free_slot_empty pf Hwf Hc) as (old & Ho & He & H0 & Hna). apply (sh_used _ _ Hsh) in Hna; [|lia].
  destruct (decide (free_slot pf = Z.of_nat (length T) - 1)) as [|Hne]; [done|]. exfalso. unfold free_slot in *.
  destruct (lookup_lt_is_Some_2 (pf_nodes pf) (length T - 1)) as [n Hn]; [lia|].
  pose proof (scan_before (λ n, pn_type n &? PROTOFS_TYPE_EMPTY) (pf_nodes pf) (length T - 1) n ltac:(lia) Hn) as Hused.
  pose proof (proj2 (sh_used _ _ Hsh (Z.of_nat (length T) - 1) ltac:(lia)) ltac:(lia)) as Hna'. unfold node_at in Hna'.
  rewrite (proj2 (Z.leb_le _ _)) in Hna' by lia. replace (Z.to_nat (Z.of_nat (length T) - 1)) with (length T - 1)%nat in Hna' by lia. rewrite Hn in Hna'.
  cbn [mbind option_bind] in Hna'. cbn beta in Hused. by rewrite Hused in Hna'.
Qed.

(** An entry without its node is free for a new one. *)
Lemma shows_no_child pf T q p pty name : shows pf T → (q, p, pty) ∈ T → plain_name name → (∀ j ty, (q ++ [name], j, ty) ∉ T) → tree_child pf p name = None.
Proof.
  intros Hsh Hp Hpl Hno. destruct (tree_child pf p name) as [j|] eqn:Hj; [|done]. exfalso. destruct (sh_entry _ _ Hsh _ _ _ Hp) as [Hq _].
  assert (Hw : tree_walk pf root_node (q ++ [name]) = Some j).
  { rewrite tree_walk_app, (proj2 (sh_walk _ _ Hsh q p Hq) ltac:(by exists pty)). cbn [mbind option_bind tree_walk]. rewrite step_plain by done. by rewrite Hj. }
  apply (sh_walk _ _ Hsh) in Hw as [ty Hw]; [by apply (Hno j ty)|]. apply Forall_app. split; [done|by apply Forall_singleton].
Qed.

Lemma shows_put pf T q p pty n e : let c := Z.of_nat (length T) - 1 in
  tree_wf pf → page_sound pf → shows pf T → (q, p, pty) ∈ T → (np_type pty &? INODE_TYPE_PARENT) = true → (0 < length T ≤ 36)%nat →
  fresh_node pf p n → node_shows n e → type_ok (np_type e) → plain_name (c_str (pn_name n)) → (∀ j ty, (q ++ [c_str (pn_name n)], j, ty) ∉ T) →
  shows (put_node pf c n) ((q ++ [c_str (pn_name n)], c, e) :: T).
Proof.
  intros c Hwf Hpg Hsh Hp Hdir Hl Hfr Hsn Hte Hpl Hno. assert (Hc : c = free_slot pf) by (unfold c; by rewrite (shows_slot pf T)).
  assert (Hcr : c < 36) by (unfold c; lia). destruct (sh_entry _ _ Hsh _ _ _ Hp) as [Hq _]. pose proof (sh_dir _ _ Hsh _ _ _ Hp) as Hd. rewrite Hdir in Hd.
  assert (Hwp : tree_walk pf root_node q = Some p) by (apply (sh_walk _ _ Hsh); [done|by exists pty]).
  assert (Hnode : is_node pf p) by (destruct (Z.eqb_spec p root_node) as [->|Hne]; [by left|]; right; unfold is_dir in Hd;
    rewrite (proj2 (Z.eqb_neq _ _) Hne) in Hd; destruct (node_at pf p); [by eexists|done]).
  destruct (put_added pf p c n Hwf Hpg Hc Hcr Hnode Hfr Hpl Hd (shows_no_child pf T q p pty _ Hsh Hp Hpl Hno)) as [Hkeep Hnew Honly].
  destruct (slot_range pf Hwf p c n Hc Hcr Hnode Hfr) as (Hr & _ & Hcn & _).
  assert (Hold : ∀ q' j ty, (q', j, ty) ∈ T → j ≠ c) by (intros q' j ty Hin; destruct (sh_entry _ _ Hsh _ _ _ Hin) as [_ [->|?]]; [done|unfold c; lia]).
  split.
  - intros q' j Hq'. split.
    + intros Hw. destruct (Honly q' j Hq' Hw) as [Hw'|(-> & q'' & -> & Hw')].
      * apply (sh_walk _ _ Hsh) in Hw' as [ty Hty]; [|done]. exists ty. by right.
      * apply Forall_app in Hq' as [Hq'' _]. apply (sh_walk _ _ Hsh) in Hw' as [ty Hty]; [|done]. rewrite (sh_one _ _ Hsh _ _ _ _ _ Hty Hp).
        exists e. by left.
    + intros (ty & [[= -> -> ->]|Hin]%elem_of_cons); [by apply Hnew|]. apply Hkeep, (sh_walk _ _ Hsh); [done|by exists ty].
  - intros q' j ty [[= -> -> ->]|Hin]%elem_of_cons.
    + unfold is_dir. rewrite (proj2 (Z.eqb_neq _ _) Hcn). rewrite (node_at_put pf Hwf p c n Hc Hcr Hnode Hfr), decide_True by done. by rewrite (proj1 Hsn).
    + rewrite (is_dir_put pf Hwf p c n Hc Hcr Hnode Hfr) by (by eapply Hold). by eapply sh_dir.
  - intros q' j ty [[= -> -> ->]|Hin]%elem_of_cons Hj; rewrite (node_at_put pf Hwf p c n Hc Hcr Hnode Hfr).
    + rewrite decide_True by done. split; [done|by exists n].
    + rewrite decide_False by (by eapply Hold). by eapply sh_node.
  - intros q1 q2 j ty1 ty2 [[= -> -> ->]|H1]%elem_of_cons [[= -> ->]|H2]%elem_of_cons; [done| | |by eapply sh_one].
    + by destruct (Hold _ _ _ H2).
    + by destruct (Hold _ _ _ H1).
  - intros q' j ty [[= -> -> ->]|Hin]%elem_of_cons; cbn [length].
    + split; [apply Forall_app; split; [done|by apply Forall_singleton]|]. right. unfold c. lia.
    + destruct (sh_entry _ _ Hsh _ _ _ Hin) as [H1 [H2|H2]]; (split; [done|]); [by left|right; lia].
  - intros j Hj. rewrite (node_at_put pf Hwf p c n Hc Hcr Hnode Hfr). cbn [length]. case_decide as Hjc.
    + split; [done|]. unfold c in Hjc. lia.
    + rewrite (sh_used _ _ Hsh) by done. unfold c in Hjc. lia.
Qed.

(** ** Paths as text *)

Lemma split_path_app path rest : split_path (path ++ 47 :: rest) = split_path path ++ split_path rest.
Proof.
  induction path as [|c path IH]; [done|]. cbn [app split_path]. rewrite IH. destruct (c =? 47); [done|].
  destruct (split_path path) as [|x xs] eqn:E; [|done]. by destruct path as [|d path]; cbn [split_path] in E; [done|]; destruct (d =? 47); [done|]; destruct (split_path path).
Qed.

Lemma split_path_name name : 47 ∉ name → split_path name = [name].
Proof.
  induction name as [|c name IH]; [done|]. intros Hn. cbn [split_path]. rewrite IH by set_solver.
  destruct (Z.eqb_spec c 47) as [->|]; [set_solver|done].
Qed.

Lemma path_names_snoc path name : 47 ∉ name → name ≠ [] → path_names (path ++ 47 :: name) = path_names path ++ [name].
Proof.
  intros Hn Hne. unfold path_names. rewrite split_path_app, (split_path_name name Hn), filter_app. f_equal. by rewrite filter_cons_True.
Qed.

(** ** The calls *)

Section calls.
Context {A : Type} `{!KMem A}.
Context (fuel : nat) (Hfuel : (37 ≤ fuel)%nat) (inst : ptr) (Hinst : inst ≠ NULL) (open_dev : ptr → ptr → kernel A → option (Z * kernel A)).
Context (tbl : ptr → file_system A) (Htbl : tbl inst = protofs_file_system fuel open_dev).
Implicit Types (k : kernel A) (bk : list (list ptr)).
Notation vfs_ok := (vfs_ok inst).
Notation node_refs := (node_refs fuel inst).

(** The root file system is mounted and its tree coherent with the cache; [F] are the
    free pages. *)
Record rooted k L H F bk : Prop := {
  ro_vfs : vfs_ok k L H F bk;
  ro_fs : root_fs k = inst;
  ro_page : page_sound (k_protofs k);
  ro_names : names_sized (k_protofs k);
  ro_refs m : 0 ≤ node_refs k m < 65533;
  ro_root : 1 ≤ node_refs k root_node
}.

Lemma vfs_create_spec path name ty mode sp k L H F bk p :
  let pf := k_protofs k in let c := free_slot pf in
  rooted k L H F bk → Forall (λ s, (length s < 20)%nat) (split_path path) → (2 + length (path_names path) ≤ length F)%nat →
  tree_walk pf root_node (path_names path) = Some p → c < 36 → type_ok ty → Forall (λ c, c ≠ 0) name → (length name < PROTOFS_MAX_NAME)%nat →
  ∃ k' L' F' bk', vfs_create fuel tbl (47 :: path) name ty mode sp k = Some (0, k') ∧ rooted k' L' H F' bk' ∧
    k_protofs k' = put_node pf c (new_node pf p name ty mode sp) ∧ (∀ m, node_refs k' m = node_refs k m) ∧
    (length F ≤ 2 + length (path_names path) + length F')%nat.
Proof.
  intros pf c [Hok Hrf Hpg Hsz Hrefs Hroot] Hsh HF Hw Hc Hty Hnn Hlen. pose proof (vo_tree _ _ _ _ _ _ Hok) as Ht.
  destruct (resolve_absolute fuel Hfuel inst open_dev tbl Htbl path k L H F bk Hok Hrf Hinst Hsh ltac:(lia) Hrefs Hroot) as
    (e & k1 & L1 & F1 & bk1 & Hres & Hok1 & Hpf1 & Hrf1 & HlF1 & Hcase). fold pf in Hcase. rewrite Hw in Hcase. destruct Hcase as (Hen & He & Href1).
  assert (HF1 : F1 ≠ []) by (intros ->; cbn [length] in HlF1; lia).
  destruct (create_spec fuel Hfuel inst k1 L1 H F1 bk1 p e name ty mode sp Hok1 He) as
    (r & k2 & L2 & F2 & bk2 & Hcr & Hrn & Hok2 & Hpf2 & Hr & Hkeep2 & Href2 & Hz2 & HlF2); [by rewrite Hpf1|by rewrite Hpf1|by rewrite Hpf1|done..|].
  rewrite Hpf1 in Hpf2, Hr, Href2, Hz2. fold pf in Hpf2, Hr, Href2, Hz2. fold c in Hpf2, Hr, Href2, Hz2.
  assert (Hcn : c ≠ root_node) by (unfold root_node, PROTOFS_ROOT_NODE; lia).
  assert (Hpc : p ≠ c). { intros ->. rewrite Href1, decide_True in Hz2 by done. specialize (Hrefs c). lia. }
  destruct (release_spec fuel Hfuel inst open_dev k2 L2 H F2 bk2 r c Hok2 Hr ltac:(done)) as (k3 & L3 & bk3 & Hrel3 & Hok3 & Hpf3 & Hkeep3 & Href3).
  assert (He3 : inode_of k3 bk3 e p) by (apply Hkeep3; [by apply Hkeep2|by left]).
  assert (Hr3 : ∀ m, node_refs k3 m = node_refs k m + if decide (m = p) then 1 else 0).
  { intros m. rewrite Href3, Href2, Href1. repeat case_decide; subst; lia. }
  destruct (release_spec fuel Hfuel inst open_dev k3 L3 H F2 bk3 e p Hok3 He3) as (k4 & L4 & bk4 & Hrel4 & Hok4 & Hpf4 & _ & Href4);
    [intros ->; rewrite Hr3, decide_True by done; lia|].
  assert (Hrefs4 : ∀ m, node_refs k4 m = node_refs k m) by (intros m; rewrite Href4, Hr3; case_decide; lia).
  destruct (vo_coh _ _ _ _ _ _ Hok1 e (proj1 He)) as (Hfs & Hp & _). destruct He as [Heb Hep]. rewrite Hep, Hpf1 in Hp. fold pf in Hp.
  destruct (new_node_fresh pf p name ty mode sp Ht Hc Hsz Hty Hnn Hlen) as (_ & _ & Hsz').
  exists k4, L4, F2, bk4. split_and!; [| |by rewrite Hpf4, Hpf3|exact Hrefs4|lia].
  - unfold vfs_create. rewrite Hres. cbn [mbind option_bind]. rewrite (proj2 (Z.eqb_neq e NULL) Hen). cbn [negb].
    rewrite Hfs, Htbl. cbn [protofs_file_system fs_create_node]. rewrite Hcr. cbn [mbind option_bind].
    rewrite (proj2 (Z.eqb_neq r NULL) Hrn). cbn [negb]. rewrite Hrel3. cbn [mbind option_bind]. rewrite Hrel4. done.
  - split; [done| |rewrite Hpf4, Hpf3, Hpf2; exact Hpg|rewrite Hpf4, Hpf3, Hpf2; exact Hsz'|intros m; rewrite Hrefs4; apply Hrefs|by rewrite Hrefs4].
    by rewrite (release_root_fs _ _ _ _ Hrel4), (release_root_fs _ _ _ _ Hrel3), (create_node_root_fs _ _ _ _ _ _ _ _ _ Hcr), Hrf1.
Qed.

(** *** Mounting *)

(** The root inode after [vfs_mount]: what the file system stores and what [vfs_mount] does. *)
Definition root_fill (page : ptr) (i : inode) : inode :=
  set_i_spec NULL (set_i_type (Z.lor INODE_TYPE_ROOT INODE_TYPE_PARENT)
    (set_i_count 1 (protofs_fill_inode page inst root_node None (set_i_count 0 i)))).

Lemma empty_tree m page (stale : list protofs_node) :
  let pf := mk_protofs m page ((λ n, mk_pnode (pn_name n) (pn_parent n) PROTOFS_TYPE_EMPTY (pn_mode n) (pn_dev n)) <$> stale) in
  (∀ i, node_at pf i = None) ∧ (length stale = 36%nat → tree_wf pf) ∧ (Forall (λ n, length (pn_name n) = PROTOFS_MAX_NAME) stale → names_sized pf).
Proof.
  intros pf. assert (Hn : ∀ i, node_at pf i = None).
  { intros i. unfold node_at, pf. cbn [pf_nodes]. destruct (0 <=? i); [|done]. rewrite list_lookup_fmap. by destruct (stale !! Z.to_nat i). }
  split_and!; [done| |].
  - intros Hl. split; [unfold pf; cbn [pf_nodes]; by rewrite length_fmap|]. intros i n Hx. congruence.
  - intros Hs. unfold names_sized, pf. cbn [pf_nodes]. apply Forall_fmap. eapply Forall_impl; [exact Hs|done].
Qed.

(** Getting the inode of the root, when nothing is cached. *)
Lemma first_root k L H F : cache_rep k (replicate 31 []) → km_inv (k_mem k) L H F → F ≠ [] → tree_wf (k_protofs k) →
  (∀ e, length (i_name (k_inodes k e)) = 20%nat) →
  ∃ r k1 F', proto_get fuel inst root_node k = Some (r, k1) ∧ r ≠ NULL ∧ root_fs k1 = root_fs k ∧ k_protofs k1 = k_protofs k ∧ (length F ≤ S (length F'))%nat ∧
    let k2 := upd_inode r (set_i_spec NULL) (upd_inode r (set_i_type (Z.lor INODE_TYPE_ROOT INODE_TYPE_PARENT)) k1) in
    ∃ bk, vfs_ok k2 ((PInode, r) :: L) H F' bk ∧ ∀ m, node_refs k2 m = if decide (m = root_node) then 1 else 0.
Proof.
  intros Hrep Hkm HF Ht Hnames. assert (Hnil : concat (replicate 31 (@nil ptr)) = []) by done.
  destruct (cache_add_spec k (replicate 31 []) inst root_node L H F Hrep) as (r & k1 & F' & Ha & Hrn & _ & Hkm1 & HlF & Hfill);
    [rewrite Hnil; set_solver|done|done|].
  destruct (Hfill (root_fill (pf_page (k_protofs k)))) as (bk & Hrep2 & Hiff & Hkey & Hsame); [intros i; split_and!; reflexivity|]. cbn zeta in *.
  set (k2 := upd_inode r (root_fill (pf_page (k_protofs k))) k1) in *. destruct (cache_alloc_frame _ _ _ _ _ Ha) as [Hpf1 Hrf1].
  assert (Hfind : vfs_cache_find fuel inst root_node k = Some NULL) by (apply (cache_find_none fuel k (replicate 31 [])); [done|rewrite Hnil; cbn; lia|rewrite Hnil; set_solver]).
  assert (Honly : ∀ x, x ∈ concat bk ↔ x = r) by (intros x; rewrite Hiff, Hnil; set_solver).
  assert (Hin2 : k_inodes k2 r = root_fill (pf_page (k_protofs k)) (k_inodes k1 r)) by apply upd_inode_eq.
  assert (Hok2 : vfs_ok k2 ((PInode, r) :: L) H F' bk).
  { split; [exact Hrep2| |exact Hkm1| | | |].
    - intros e ->%Honly. apply list_elem_of_here.
    - change (k_protofs k2) with (k_protofs k1). by rewrite Hpf1.
    - intros e ->%Honly. rewrite Hin2. split; [reflexivity|]. split; [left; reflexivity|]. split; [cbn; lia|].
      split; [intros _; split; reflexivity|]. intros n Hn. by destruct Hn.
    - exists r. split; [by apply Honly|by rewrite Hin2].
    - intros e. destruct (decide (e = r)) as [->|He]; [|rewrite Hsame by done; apply Hnames]. rewrite Hin2. unfold root_fill.
      cbn [i_name set_i_count set_i_spec protofs_fill_inode set_i_fs set_i_flags set_i_node set_i_name set_i_abstract set_i_type].
      rewrite memcpy_to_length, (cache_alloc_name _ _ _ _ _ r Ha). apply Hnames. }
  eexists r, _, F'. split; [|split; [done|]].
  { unfold proto_get, vfs_get_inode. rewrite Hfind. cbn [mbind option_bind]. change (NULL =? NULL) with true. cbn match.
    unfold protofs_get_inode. change (root_node =? PROTOFS_ROOT_NODE) with true. cbn [orb]. unfold vfs_alloc_inode. rewrite Ha. cbn [mbind option_bind].
    rewrite (proj2 (Z.eqb_neq r NULL) Hrn). cbn [negb mbind option_bind]. rewrite (proj2 (Z.eqb_neq r NULL) Hrn). cbn [negb]. reflexivity. }
  split; [exact Hrf1|]. split; [exact Hpf1|]. split; [exact HlF|]. cbn zeta. match goal with |- context [vfs_ok ?x] => set (k3 := x) end.
  assert (H3 : ∀ e, k_inodes k3 e = k_inodes k2 e).
  { intros e. unfold k3, k2. destruct (decide (e = r)) as [->|He]; [|by rewrite !upd_inode_ne].
    rewrite !upd_inode_eq. change (k_protofs (upd_inode r (set_i_count 0) k1)) with (k_protofs k1). by rewrite Hpf1. }
  exists bk. split; [by apply (vfs_ok_frame inst k2)|]. intros m. rewrite (node_refs_frame fuel inst k2 k3) by done. case_decide as Hm.
  - subst m. rewrite (refs_inode fuel Hfuel inst k2 _ _ _ _ r root_node Hok2) by (split; [by apply Honly|by rewrite Hin2]). by rewrite Hin2.
  - apply (refs_absent fuel Hfuel inst k2 _ _ _ _ m Hok2). intros e [->%Honly He']. rewrite Hin2 in He'. by apply Hm.
Qed.

Lemma mount_root fslist f stale k L H F :
  find_fs (text "protofs") fslist = Some f → rf_mount f 0 k = protofs_mount inst stale k → root_fs k = NULL → pf_mounted (k_protofs k) = 0 →
  cache_rep k (replicate 31 []) → km_inv (k_mem k) L H F → (2 ≤ length F)%nat →
  length stale = 36%nat → Forall (λ n, length (pn_name n) = PROTOFS_MAX_NAME) stale → (∀ e, length (i_name (k_inodes k e)) = 20%nat) →
  ∃ k' L' H' F' bk, vfs_mount fuel tbl fslist (text "protofs") [] VFS_MOUNT_ROOT k = Some (0, k') ∧ rooted k' L' H' F' bk ∧
    (∀ i, node_at (k_protofs k') i = None) ∧ (length F ≤ 2 + length F')%nat.
Proof.
  intros Hfind Hmount Hrf Hpm Hrep Hkm HF Hl Hst Hnames. unfold vfs_mount. rewrite Hfind. change (VFS_MOUNT_ROOT &? VFS_MOUNT_ROOT) with true.
  rewrite Hrf. change (NULL =? NULL) with true. cbn match. rewrite Hmount. unfold protofs_mount. rewrite Hpm. change (0 =? 0) with true. cbn match.
  destruct (km_get_ok MEM_PM_CACHED (k_mem k) L H F Hkm) as (p & q & a & F1 & Hg & Hqn & _ & HFF & Hkm1); [by intros ->; cbn in HF; lia|].
  pose proof (km_get_range MEM_PM_CACHED (k_mem k) L H F q a Hkm Hg) as Hq. rewrite Hg. cbn [mbind option_bind].
  set (pf := mk_protofs 1 q _). destruct (empty_tree 1 q stale) as (Hempty & Htw & Hns). fold pf in Hempty, Htw, Hns.
  set (k1 := set_root_fs inst (set_k_protofs pf (set_k_mem a k))). rewrite Permutation_cons_append in HFF.
  assert (HlF1 : length F = S (length F1)) by (rewrite HFF, length_app; cbn; lia).
  destruct (first_root k1 L (p :: H) F1) as (r & k2 & F2 & Hget & Hrn & Hrf2 & Hpf2 & HlF2 & bk & Hok & Hrefs);
    [by apply (cache_rep_ext k)|exact Hkm1|by intros ->; cbn in HlF1; lia|exact (Htw Hl)|exact Hnames|].
  change (root_fs k1) with inst in *. rewrite (proj2 (Z.eqb_neq inst NULL) Hinst). cbn [negb]. rewrite Htbl.
  change (fs_get_root_node (protofs_file_system fuel open_dev) inst k1) with (proto_get fuel inst root_node k1). rewrite Hget. cbn [mbind option_bind].
  rewrite (proj2 (Z.eqb_neq r NULL) Hrn). cbn [negb]. eexists _, _, (p :: H), F2, bk. split; [reflexivity|].
  change (k_protofs (upd_inode r (set_i_spec NULL) (upd_inode r (set_i_type (Z.lor INODE_TYPE_ROOT INODE_TYPE_PARENT)) k2))) with (k_protofs k2).
  split_and!; [|by rewrite Hpf2|lia].
  split; [exact Hok|exact Hrf2| | |intros m; rewrite Hrefs; case_decide; lia|rewrite Hrefs, decide_True by done; lia].
  - change (page_sound (k_protofs k2)). rewrite Hpf2. change (0 < q ∧ q + 1024 ≤ 4294967296). lia.
  - change (names_sized (k_protofs k2)). rewrite Hpf2. exact (Hns Hst).
Qed.

(** C6: creating a node under a directory that has none of that name succeeds, and the
    path of the new node then resolves to it, with the type, the mode and the device
    number it was given.  The tree has
    this path more and is otherwise the same: every path that led to a node still leads
    to the same one, and a path without dots that leads to a node did so before or is
    that of the new node.  No reference is left on any inode. *)
Theorem vfs_create_resolves path name ty mode sp k L H F bk p :
  let pf := k_protofs k in let c := free_slot pf in
  rooted k L H F bk → Forall (λ s, (length s < 20)%nat) (split_path path) → (6 + 2 * length (path_names path) ≤ length F)%nat →
  tree_walk pf root_node (path_names path) = Some p → is_dir pf p = true → tree_child pf p name = None → c < 36 →
  type_ok ty → Forall (λ c, c ≠ 0) name → (0 < length name < PROTOFS_MAX_NAME)%nat → plain_name name → 47 ∉ name →
  ∃ k' L' F' bk', vfs_create fuel tbl (47 :: path) name ty mode sp k = Some (0, k') ∧ rooted k' L' H F' bk' ∧
    added pf (k_protofs k') p name c ∧ (∀ m, node_refs k' m = node_refs k m) ∧
    ∃ r k'', vfs_resolve fuel tbl (47 :: path ++ 47 :: name) k' = Some (r, k'') ∧ r ≠ NULL ∧
      i_node (k_inodes k'' r) = c ∧ inode_shows (k_inodes k'' r) (mk_props ty mode sp).
Proof.
  intros pf c Hro Hsh HF Hw Hd Hno Hc Hty Hnn Hlen Hpl Hslash.
  destruct (vfs_create_spec path name ty mode sp k L H F bk p Hro Hsh ltac:(lia) Hw Hc Hty Hnn ltac:(lia)) as (k' & L' & F' & bk' & Hcr & Hro' & Hpf' & Hrefs & HlF).
  fold pf c in Hpf'. pose proof (vo_tree _ _ _ _ _ _ (ro_vfs _ _ _ _ _ Hro)) as Ht. fold pf in Ht.
  destruct (new_node_fresh pf p name ty mode sp Ht Hc (ro_names _ _ _ _ _ Hro) Hty Hnn ltac:(lia)) as (Hfr & Hnm & _).
  assert (Hp : is_node pf p) by (destruct (Z.eqb_spec p root_node) as [->|Hne]; [by left|]; right; unfold is_dir in Hd;
    rewrite (proj2 (Z.eqb_neq _ _) Hne) in Hd; destruct (node_at pf p); [by eexists|done]).
  pose proof (put_added pf p c (new_node pf p name ty mode sp) Ht (ro_page _ _ _ _ _ Hro) eq_refl Hc Hp Hfr) as Hadd. rewrite Hnm in Hadd.
  specialize (Hadd Hpl Hd Hno). exists k', L', F', bk'. split_and!; [done|done|by rewrite Hpf'|done|].
  assert (Hne : name ≠ []) by (intros ->; cbn in Hlen; lia). pose proof Hro' as [Hok' Hrf' _ _ Hr1 Hr2].
  destruct (resolve_absolute fuel Hfuel inst open_dev tbl Htbl (path ++ 47 :: name) k' L' H F' bk' Hok' Hrf' Hinst) as
    (r & k'' & L'' & F'' & bk'' & Hres & Hok'' & Hpf'' & _ & _ & Hcase); [| |done|done|].
  { rewrite split_path_app, (split_path_name name Hslash). apply Forall_app. split; [done|]. apply Forall_singleton. unfold PROTOFS_MAX_NAME in *. lia. }
  { rewrite path_names_snoc, length_app by done. cbn [length]. lia. }
  rewrite path_names_snoc, Hpf' in Hcase by done. rewrite (ad_new _ _ _ _ _ Hadd _ Hw) in Hcase. destruct Hcase as (Hrn & [Hrb Hri] & _).
  exists r, k''. split_and!; [done|done|done|].
  apply (coherent_shows inst (k_protofs k'') _ (new_node pf p name ty mode sp)); [by apply Hok''| | |by apply new_node_shows|done].
  - rewrite Hri. unfold root_node, PROTOFS_ROOT_NODE. lia.
  - by rewrite Hri, Hpf'', Hpf', (node_at_put pf Ht p c _ eq_refl Hc Hp Hfr), decide_True.
Qed.

(** Without a free node or without the directory nothing is created. *)
Lemma vfs_create_fails path name ty mode sp k L H F bk :
  rooted k L H F bk → Forall (λ s, (length s < 20)%nat) (split_path path) → (S (length (path_names path)) ≤ length F)%nat →
  tree_walk (k_protofs k) root_node (path_names path) = None ∨ free_slot (k_protofs k) = 36 →
  ∃ k', vfs_create fuel tbl (47 :: path) name ty mode sp k = Some (-1, k') ∧ k_protofs k' = k_protofs k ∧ ∀ m, node_refs k' m = node_refs k m.
Proof.
  intros [Hok Hrf Hpg Hsz Hrefs Hroot] Hsh HF Hcause.
  destruct (resolve_absolute fuel Hfuel inst open_dev tbl Htbl path k L H F bk Hok Hrf Hinst Hsh HF Hrefs Hroot) as
    (e & k1 & L1 & F1 & bk1 & Hres & Hok1 & Hpf1 & _ & _ & Hcase). unfold vfs_create. rewrite Hres. cbn [mbind option_bind].
  destruct (tree_walk (k_protofs k) root_node (path_names path)) as [p|]; [|destruct Hcase as [-> Hr]; exists k1; split_and!; [done|done|exact Hr]].
  destruct Hcause as [?|Hfull]; [done|]. destruct Hcase as (Hen & He & Hr). rewrite (proj2 (Z.eqb_neq e NULL) Hen). cbn [negb].
  destruct (vo_coh _ _ _ _ _ _ Hok1 e (proj1 He)) as (Hfs & _). rewrite Hfs, Htbl. cbn [protofs_file_system fs_create_node]. unfold protofs_create_node.
  fold (free_slot (k_protofs k1)). rewrite Hpf1, Hfull. change (36 <? PROTOFS_PER_PAGE) with false. cbn [mbind option_bind]. change (NULL =? NULL) with true. cbn [negb mbind option_bind].
  destruct (release_spec fuel Hfuel inst open_dev k1 L1 H F1 bk1 e p Hok1 He) as (k2 & L2 & bk2 & Hrel & _ & Hpf2 & _ & Href2);
    [intros ->; rewrite Hr, decide_True by done; lia|].
  rewrite Hrel. exists k2. split_and!; [done|by rewrite Hpf2|]. intros m. rewrite Href2, Hr. case_decide; lia.
Qed.

(** Creating a node adds an entry to the table of paths. *)
Lemma create_shows path name ty mode sp k L H F bk T p pty :
  rooted k L H F bk → shows (k_protofs k) T → (path_names path, p, pty) ∈ T → (np_type pty &? INODE_TYPE_PARENT) = true →
  Forall (λ s, (length s < 20)%nat) (split_path path) → (2 + length (path_names path) ≤ length F)%nat → (0 < length T ≤ 36)%nat →
  type_ok ty → Forall (λ c, c ≠ 0) name → (length name < PROTOFS_MAX_NAME)%nat → plain_name name → (∀ j ty, (path_names path ++ [name], j, ty) ∉ T) →
  ∃ k' L' F' bk', vfs_create fuel tbl (47 :: path) name ty mode sp k = Some (0, k') ∧ rooted k' L' H F' bk' ∧
    shows (k_protofs k') ((path_names path ++ [name], Z.of_nat (length T) - 1, mk_props ty mode sp) :: T) ∧ (length F ≤ 2 + length (path_names path) + length F')%nat.
Proof.
  intros Hro Hsh Hp Hd Hs HF HT Hty Hnn Hlen Hpl Hno. pose proof (vo_tree _ _ _ _ _ _ (ro_vfs _ _ _ _ _ Hro)) as Ht.
  destruct (sh_entry _ _ Hsh _ _ _ Hp) as [Hq _]. pose proof (shows_slot _ _ Ht Hsh HT) as Hc.
  assert (Hw : tree_walk (k_protofs k) root_node (path_names path) = Some p) by (apply (sh_walk _ _ Hsh); [done|by exists pty]).
  destruct (vfs_create_spec path name ty mode sp k L H F bk p Hro Hs HF Hw ltac:(lia) Hty Hnn Hlen) as (k' & L' & F' & bk' & Hcr & Hro' & Hpf' & _ & HlF).
  destruct (new_node_fresh (k_protofs k) p name ty mode sp Ht ltac:(lia) (ro_names _ _ _ _ _ Hro) Hty Hnn Hlen) as (Hfr & Hnm & _).
  exists k', L', F', bk'. split_and!; [done|done| |done]. rewrite Hpf', Hc.
  pose proof (shows_put (k_protofs k) T (path_names path) p pty (new_node (k_protofs k) p name ty mode sp) (mk_props ty mode sp)
    Ht (ro_page _ _ _ _ _ Hro) Hsh Hp Hd HT Hfr (new_node_shows _ _ _ _ _ _) Hty) as Hsp.
  rewrite Hnm in Hsp. exact (Hsp Hpl Hno).
Qed.
End calls.

(** ** Witness *)

Definition demo_pages : list ptr := (λ i, 0x88000000 + 1024 * i) <$> seqZ 0 40.
Definition demo_pmem40 : pmem :=
  mk_pmem (λ a, if (0x88000000 <=? a) && (a <? 0x88000000 + 1024 * 39) && (a mod 1024 =? 0) then a + 1024 else 0) 0x88000000 40.

Lemma demo_pmem40_rep : pm_rep demo_pmem40 demo_pages.
Proof.
  split_and!; [by repeat split|by apply (bool_decide_eq_true_1 (NoDup _))| |done].
  apply (bool_decide_unpack (Forall (λ p, p mod 1024 = 0 ∧ 0x80000000 < p < 0xA0000000) demo_pages)). vm_compute. exact I.
Qed.

Definition demo_stale : list protofs_node := replicate 36 (mk_pnode (replicate 16 0) 0 0 0 0).
Definition demo_fresh : kernel (kmem pmem) := vfs_cache_init (zero_kernel (kmem_init demo_pmem40)).

Lemma demo_fresh_rep : cache_rep demo_fresh (replicate 31 []).
Proof. apply (cache_rep_ext boot_cache); [reflexivity|intros e; split_and!; reflexivity|exact boot_cache_rep]. Qed.

Definition demo_fslist : list (option (registered_fs (kmem pmem))) := [Some (mk_registered (text "protofs") (λ _, protofs_mount 64 demo_stale))].

(** The root file system mounted on forty free pages. *)
Lemma demo_mounted : ∃ k' L' H' F' bk,
  vfs_mount 37 (proto_table 37 (λ _ _ k, Some (0, k))) demo_fslist (text "protofs") [] VFS_MOUNT_ROOT demo_fresh = Some (0, k') ∧
  rooted 37 64 k' L' H' F' bk ∧ (∀ i, node_at (k_protofs k') i = None) ∧ (38 ≤ length F')%nat.
Proof.
  destruct (mount_root 37 ltac:(lia) 64 ltac:(done) (λ _ _ k, Some (0, k)) (proto_table 37 (λ _ _ k, Some (0, k))) eq_refl demo_fslist
    (mk_registered (text "protofs") (λ _, protofs_mount 64 demo_stale)) demo_stale demo_fresh [] [] demo_pages) as (k' & L' & H' & F' & bk & Hm & Hro & He & HlF);
    [reflexivity|reflexivity|reflexivity|reflexivity|exact demo_fresh_rep|apply kmem_init_inv, demo_pmem40_rep|vm_compute; lia|reflexivity| |intros e; reflexivity|].
  - apply Forall_replicate. reflexivity.
  - exists k', L', H', F', bk. split_and!; [done|done|done|]. change (length demo_pages) with 40%nat in HlF. lia.
Qed.

(** A directory "usr" in the root. *)
Lemma vfs_create_resolves_witness : ∃ (k k' : kernel (kmem pmem)) r k'',
  vfs_create 37 (proto_table 37 (λ _ _ k, Some (0, k))) (text "/") (text "usr") INODE_TYPE_PARENT 7 0 k = Some (0, k') ∧
  vfs_resolve 37 (proto_table 37 (λ _ _ k, Some (0, k))) (text "//usr") k' = Some (r, k'') ∧ r ≠ NULL ∧ i_type (k_inodes k'' r) = INODE_TYPE_PARENT.
Proof.
  destruct demo_mounted as (k & L & H & F & bk & _ & Hro & He & HlF). pose proof (vo_tree _ _ _ _ _ _ (ro_vfs _ _ _ _ _ _ _ Hro)) as Ht.
  pose proof (shows_empty _ Ht He) as Hsh. pose proof (shows_slot _ _ Ht Hsh ltac:(cbn; lia)) as Hc. change (free_slot (k_protofs k) = 0) in Hc.
  assert (Hin : ([], root_node, root_props) ∈ [(@nil (list Z), root_node, root_props)]) by apply list_elem_of_here.
  destruct (vfs_create_resolves 37 ltac:(lia) 64 ltac:(done) (λ _ _ k, Some (0, k)) (proto_table 37 (λ _ _ k, Some (0, k))) eq_refl
    [] (text "usr") INODE_TYPE_PARENT 7 0 k L H F bk root_node) as (k' & _ & _ & _ & Hcr & _ & _ & _ & r & k'' & Hres & Hrn & _ & Hty).
  - exact Hro.
  - apply Forall_singleton. cbn. lia.
  - change (6 <= length F)%nat. lia.
  - reflexivity.
  - reflexivity.
  - apply (shows_no_child _ _ [] root_node root_props _ Hsh Hin); [done|]. intros j ty Hj. apply list_elem_of_singleton in Hj. discriminate Hj.
  - rewrite Hc. lia.
  - split; reflexivity.
  - by_computation.
  - unfold PROTOFS_MAX_NAME. cbn. lia.
  - done.
  - by_computation.
  - exists k, k', r, k''. split; [exact Hcr|]. split; [exact Hres|]. split; [exact Hrn|exact (proj1 Hty)].
Defined.
