(* ===== verification/Process.v ===== *)
(** * Processes (src/sys/process.c, and sys_wait of src/sys/scheduler.c)

    Creation and destruction of process structures, [fork], [exit], [wait],
    process groups, and the switch to a process.  A function that ends in a jump
    or in a loop of [sched_schedule] is modelled up to that point.  [None] is a
    kernel that hangs for lack of memory. *)

From S2P Require Import Prelude Bitfield CyclicFifo PhysMem PoolAlloc KMem Pid Mmu PageDir Kernel Scheduler VfsCache Pipe VfsFile MemArea Signal Vfs.

(** src/interface/fixos/process.h:29-29: _WSTATUS_EXITS *)
Definition WSTATUS_EXITS (retval : Z) : Z := Z.land retval 0xFF.

(** *** Process structures *)

Section table.
Context {A : Type} `{!KMem A}.
Implicit Types (k : kernel A).

(** The fields set by [process_alloc]; the others keep what the object held. *)
(** src/sys/process.c:116-150: process_alloc *)
Definition fresh_process (new_pid : Z) (p : process) : process :=
  mk_process (acnt p) (kernel_stack p) new_pid 1 NULL arch_adrsp_init [] []
    (replicate 12 NULL) (replicate 12 0) NULL 0 0
    ((λ a, mk_sigaction SIG_DFL (sa_mask a) 0) <$> sig_array p)
    PROCESS_STATE_CREATE (exit_status p) 0 0 NULL (shared_offset p) NULL NULL
    (load_cursamp p) (load_samples p) (load_last p) NULL.

(** src/sys/process.c: process_alloc *)
Definition process_alloc k : option (ptr * kernel A) :=
  if process_number k <? CONFIG_PROC_MAX then
    '(proc, a) ← km_alloc PProc (k_mem k);
    let k := set_k_mem a k in
    if negb (proc =? NULL) then
      '(new_pid, ps) ← process_get_pid 1024 (k_pids k);
      let k := set_k_pids ps k in
      let k := upd_proc proc (fresh_process new_pid) k in
      let k := set_process_list (proc :: process_list k) k in
      let k := set_process_number (s32 (process_number k + 1)) k in
      Some (proc, k)
    else Some (proc, k)
  else Some (NULL, k).

(** src/sys/process.c: process_free *)
Definition process_free (proc : ptr) k : option (kernel A) :=
  let k := set_process_list (filter (λ p, p ≠ proc) (process_list k)) k in
  let k := set_k_pids (process_release_pid (pid (k_procs k proc)) (k_pids k)) k in
  let k := set_process_number (s32 (process_number k - 1)) k in
  a ← km_free PProc proc (k_mem k);
  Some (set_k_mem a k).

(** src/sys/process.c: sys_getpid *)
Definition sys_getpid k : Z := pid (k_procs k (process_get_current k)).

(** src/sys/process.h: process_get_ppid *)
Definition process_get_ppid k : Z :=
  let par := parent (k_procs k (proc_current k)) in
  if par =? NULL then 0 else pid (k_procs k par).

(** src/sys/process.c: sys_getppid *)
Definition sys_getppid k : Z := process_get_ppid k.

(** The loop of [process_is_descendant]: the final [cur]. *)
(** src/sys/process.c:825-825: process_is_descendant *)
Fixpoint climb (fuel : nat) k (other cur : ptr) : option ptr :=
  if negb (cur =? NULL) && negb (parent (k_procs k cur) =? other) then
    match fuel with O => None | S fuel => climb fuel k other (parent (k_procs k cur)) end
  else Some cur.

(** src/sys/process.c: process_is_descendant *)
Definition process_is_descendant (fuel : nat) (proc : ptr) (otherpid : Z) k : option bool :=
  let other := process_from_pid otherpid k in
  if negb (other =? NULL) then
    cur ← climb fuel k other proc;
    Some (negb (cur =? NULL) && (pid (k_procs k (parent (k_procs k cur))) =? otherpid))
  else Some false.

(** src/sys/process.c: sys_setpgid *)
Definition sys_setpgid (fuel : nat) (pid' pgid' : Z) k : option (Z * kernel A) :=
  if 0 <=? pgid' then
    let cpid := pid (k_procs k (proc_current k)) in
    let pid' := if pid' =? 0 then cpid else pid' in
    let pgid' := if pgid' =? 0 then pid' else pgid' in
    let dest := if pid' =? cpid then proc_current k else process_from_pid pid' k in
    desc ← (if dest =? proc_current k then Some true else process_is_descendant fuel dest cpid k);
    if (desc : bool) then Some (0, upd_proc dest (set_pgid pgid') k) else Some (- ESRCH, k)
  else Some (- EINVAL, k).

(** src/sys/process.c: sys_getpgid *)
Definition sys_getpgid (pid' : Z) k : Z :=
  if 0 <=? pid' then
    let cur := if pid' =? 0 then process_get_current k else process_from_pid pid' k in
    if negb (cur =? NULL) then pgid (k_procs k cur) else - ESRCH
  else - ESRCH.

(** src/arch/sh/process.c: arch_process_mode *)
Definition arch_process_mode k (proc : ptr) : Z :=
  match acnt (k_procs k proc) with
  | [] => -1
  | c :: _ => if sr c &? 2 ^ 30 then 0 else 1
  end.

(** Up to the jump to the context of the process. *)
(** src/sys/process.c: process_contextjmp *)
Definition process_contextjmp (trampoline : Z) (proc : ptr) k (u : umem) : delivery A :=
  let k := set_proc_current proc k in
  let '(_, asid', m) := arch_adrsp_switch_to (asid (k_procs k proc)) (k_mmu k) in
  let k := upd_proc proc (set_asid asid') (set_k_mmu m k) in
  let k := upd_proc proc (set_state PROCESS_STATE_RUNNING) k in
  if arch_process_mode k proc =? 1 then signal_deliver_pending trampoline k u else Continues k u.

(** One pass of the loop of [sys_wait] over a slot; the state is [ret], [*status],
    [child_found] and the kernel. *)
(** src/sys/scheduler.c:242-257: sys_wait *)
Definition wait_slot (proc : ptr) (st : Z * Z * bool * kernel A) (i : Z) : option (Z * Z * bool * kernel A) :=
  let '(ret, status, found, k) := st in
  let t := aget (tasks k) i in
  if negb (t =? NULL) && (parent (k_procs k t) =? proc) then
    if state (k_procs k t) =? PROCESS_STATE_ZOMBIE then
      let ret := pid (k_procs k t) in
      let status := exit_status (k_procs k t) in
      a ← km_put_page (kernel_stack (k_procs k t) - 1) (k_mem k);
      k ← process_free t (set_k_mem a k);
      Some (ret, status, true, set_tasks (aset (tasks k) i NULL) k)
    else Some (ret, status, true, k)
  else Some st.

Fixpoint wait_slots (proc : ptr) (st : Z * Z * bool * kernel A) (slots : list Z) : option (Z * Z * bool * kernel A) :=
  match slots with [] => Some st | i :: slots => st ← wait_slot proc st i; wait_slots proc st slots end.

(** One pass of [sys_wait]: the result, 0 when it calls [sched_schedule] and tries
    again, the status stored, and the kernel. *)
(** src/sys/scheduler.c: sys_wait *)
Definition sys_wait_pass (status : Z) k : option (Z * Z * kernel A) :=
  let k := sched_preempt_block k in
  '(ret, status, found, k) ← wait_slots (process_get_current k) (0, status, false, k) (seqZ 0 SCHED_MAX_TASKS);
  let ret := if (found : bool) then ret else -1 in
  Some (ret, status, sched_preempt_unblock k).
End table.

(** *** Termination and fork, which use the pages of the process *)

Section pages.
Context {M : Type} `{!PageMem M}.
Context (fuel : nat).
Implicit Types (k : kernel (kmem M)).

(** [for(i=0; i<PROCESS_MAX_FILE; i++) if(files[i] != NULL) ...] *)
(** src/sys/process.c:201-206: process_terminate *)
Fixpoint close_files (proc : ptr) (fds : list Z) k : option (kernel (kmem M)) :=
  match fds with
  | [] => Some k
  | i :: fds =>
      if negb (aget (files (k_procs k proc)) i =? NULL) then
        '(_, k) ← vfs_close (aget (files (k_procs k proc)) i) k;
        close_files proc fds (upd_proc proc (λ p, set_files (aset (files p) i NULL) p) k)
      else close_files proc fds k
  end.

(** src/sys/process.c:221-227: process_terminate *)
Fixpoint release_areas (areas : list ptr) k : option (kernel (kmem M)) :=
  match areas with [] => Some k | a :: areas => k ← mem_area_release a k; release_areas areas k end.

Definition vmem_of (a : kmem M) : vmem M := mk_vmem (km_pools a PDir) (km_mem a).
Definition with_vmem (v : vmem M) (a : kmem M) : kmem M := mk_kmem (v_mem v) (set_pool PDir (v_pool v) (km_pools a)).

(** src/sys/process.c:233-236: process_terminate *)
Fixpoint release_dirs (dirs : list page_dir) (a : kmem M) : option (kmem M) :=
  match dirs with
  | [] => Some a
  | d :: dirs => v ← mem_release_dir pool_fuel d (vmem_of a); release_dirs dirs (with_vmem v a)
  end.

(** Up to the loop of [sched_schedule]. *)
(** src/sys/process.c: process_terminate *)
Definition process_terminate (proc : ptr) (status : Z) k : option (kernel (kmem M)) :=
  k ← close_files proc (seqZ 0 PROCESS_MAX_FILE) k;
  k ← (if negb (cwd (k_procs k proc) =? NULL) then vfs_release_inode fuel (cwd (k_procs k proc)) k else Some k);
  let k := upd_proc proc (set_cwd NULL) k in
  k ← release_areas (mem_areas (k_procs k proc)) k;
  let k := upd_proc proc (set_mem_areas []) k in
  let '(_, asid', m) := arch_adrsp_release (asid (k_procs k proc)) (k_mmu k) in
  let k := upd_proc proc (set_asid asid') (set_k_mmu m k) in
  a ← release_dirs (dir_list (k_procs k proc)) (k_mem k);
  let k := upd_proc proc (set_dir_list []) (set_k_mem a k) in
  Some (upd_proc proc (λ p, set_state PROCESS_STATE_ZOMBIE (set_exit_status status p)) k).

(** src/sys/process.c: sys_exit *)
Definition sys_exit (status : Z) k : option (kernel (kmem M)) :=
  process_terminate (process_get_current k) (WSTATUS_EXITS status) k.

(** The loop over the descriptors in [sys_fork]. *)
(** src/sys/process.c:284-290: sys_fork *)
Fixpoint fork_files (cur newproc : ptr) (fds : list Z) k : kernel (kmem M) :=
  match fds with
  | [] => k
  | i :: fds =>
      let f := aget (files (k_procs k cur)) i in
      let k := upd_proc newproc (λ p, set_fdflags (aset (fdflags p) i (aget (fdflags (k_procs k cur)) i))
                                        (set_files (aset (files p) i f) p)) k in
      let k := if negb (f =? NULL) then upd_file f (λ x, set_f_count (s32 (f_count x + 1)) x) k else k in
      fork_files cur newproc fds k
  end.

(** src/sys/process.c:302-314: sys_fork *)
Fixpoint fork_areas (cur newproc : ptr) (areas : list ptr) k : option (kernel (kmem M)) :=
  match areas with
  | [] => Some k
  | old_area :: areas =>
      '(new_area, k) ← mem_area_clone old_area k;
      let k := (mem_area_insert newproc new_area k).2 in
      let k := if old_area =? heap_area (k_procs k cur) then upd_proc newproc (set_heap_area new_area) k else k in
      fork_areas cur newproc areas k
  end.

(** The copy of the pages of one directory, from index [i]. *)
(** src/sys/process.c:320-328: sys_fork *)
Fixpoint fork_pages (dir : Z) (i : Z) (ps : list pm_page) (dirs : list page_dir) (a : kmem M) : option (list page_dir * kmem M) :=
  match ps with
  | [] => Some (dirs, a)
  | page :: ps =>
      if (pflags page &? MEM_PAGE_PRIVATE) && (pflags page &? MEM_PAGE_VALID) then
        '(_, dirs, v) ← mem_copy_page pool_fuel page dirs (MEM_PAGE_ADDRESS dir i) (vmem_of a);
        fork_pages dir (i + 1) ps dirs (with_vmem v a)
      else fork_pages dir (i + 1) ps dirs a
  end.

(** src/sys/process.c:318-329: sys_fork *)
Fixpoint fork_dirs (ds : list page_dir) (dirs : list page_dir) (a : kmem M) : option (list page_dir * kmem M) :=
  match ds with
  | [] => Some (dirs, a)
  | d :: ds => '(dirs, a) ← fork_pages (dir_id d) 0 (pages d) dirs a; fork_dirs ds dirs a
  end.

(** The child resumes from a copy of the kernel stack of its parent, so its saved
    context is the one of the parent with r0 set to 0. *)
(** src/sys/process.c: sys_fork *)
Definition sys_fork k : option (Z * kernel (kmem M)) :=
  let cur := process_get_current k in
  match acnt (k_procs k cur) with
  | [c] =>
      '(newproc, k) ← process_alloc k;
      let k := upd_proc newproc (set_pgid (pgid (k_procs k cur))) k in
      let k := upd_proc newproc (set_parent cur) k in
      let k := fork_files cur newproc (seqZ 0 PROCESS_MAX_FILE) k in
      let k := if negb (cwd (k_procs k cur) =? NULL)
               then upd_inode (cwd (k_procs k cur)) (λ i, set_i_count (u16 (i_count i + 1)) i) k else k in
      let k := upd_proc newproc (set_cwd (cwd (k_procs k cur))) k in
      let k := upd_proc newproc (set_ctty (ctty (k_procs k cur))) k in
      let k := upd_proc newproc (set_heap_area NULL) k in
      k ← fork_areas cur newproc (mem_areas (k_procs k cur)) k;
      '(dirs, a) ← fork_dirs (dir_list (k_procs k cur)) (dir_list (k_procs k newproc)) (k_mem k);
      let k := upd_proc newproc (set_dir_list dirs) (set_k_mem a k) in
      let k := upd_proc newproc (set_initial_brk (initial_brk (k_procs k cur))) k in
      let k := upd_proc newproc (set_sig_pending 0) k in
      let k := upd_proc newproc (set_sig_blocked (sig_blocked (k_procs k cur))) k in
      let k := upd_proc newproc (set_sig_array (sig_array (k_procs k cur))) k in
      '(kstack, a) ← km_get_page MEM_PM_CACHED (k_mem k);
      let k := set_k_mem a k in
      let k := upd_proc newproc (set_kernel_stack (u32 (kstack + PM_PAGE_BYTES))) k in
      let k := upd_proc newproc (set_acnt [set_regs c (<[0%nat := 0]> (reg c)) (pc c) (sr c) (pr c)]) k in
      let k := sched_add_task newproc k in
      Some (pid (k_procs k newproc), k)
  | _ => Some (-1, k)
  end.
End pages.

(** ** The process table *)

Section table_inv.
Context {A : Type} `{!KMem A}.
Implicit Types (k : kernel A).

Definition pids_of k : list Z := (λ p, pid (k_procs k p)) <$> process_list k.

(** The listed processes are allocated and counted, and hold exactly the used PIDs. *)
Record table_ok k L H F : Prop := {
  to_nodup : NoDup (process_list k);
  to_number : process_number k = Z.of_nat (length (process_list k));
  to_live p : p ∈ process_list k → (PProc, p) ∈ L;
  to_mem : km_inv (k_mem k) L H F;
  to_pids : pid_inv (k_pids k) (pids_of k)
}.

Lemma pid_inv_perm st held held' : held ≡ₚ held' → pid_inv st held → pid_inv st held'.
Proof.
  intros Hp (H1 & H2 & H3 & H4 & H5). split_and!; [apply H1|by rewrite <- Hp|by rewrite <- Hp| |].
  - intros p Hin. apply H4. by rewrite Hp.
  - intros p Hr. rewrite H5 by done. apply bool_decide_ext. by rewrite Hp.
Qed.

Lemma pids_of_ext k k' : process_list k' = process_list k → (∀ p, p ∈ process_list k → pid (k_procs k' p) = pid (k_procs k p)) → pids_of k' = pids_of k.
Proof.
  intros Hl Hp. unfold pids_of. rewrite Hl. apply list_fmap_ext. intros i p Hi. apply Hp. by eapply list_elem_of_lookup_2.
Qed.

Lemma process_alloc_spec k L H F :
  table_ok k L H F → F ≠ [] → (length (process_list k) < 100)%nat →
  ∃ p k' F', process_alloc k = Some (p, k') ∧ p ≠ NULL ∧ p ∉ process_list k ∧
    process_list k' = p :: process_list k ∧ table_ok k' ((PProc, p) :: L) H F' ∧ (length F ≤ S (length F'))%nat ∧
    (∀ q, q ∈ process_list k → pid (k_procs k q) ≠ pid (k_procs k' p)) ∧
    (∀ q, q ≠ p → k_procs k' q = k_procs k q) ∧
    files (k_procs k' p) = replicate 12 NULL ∧ mem_areas (k_procs k' p) = [] ∧ dir_list (k_procs k' p) = [] ∧
    Forall (λ a, sa_handler a = SIG_DFL) (sig_array (k_procs k' p)) ∧ sig_pending (k_procs k' p) = 0.
Proof.
  intros [Hnd Hnum Hlive Hmem Hpids] HF Hlt. unfold process_alloc, CONFIG_PROC_MAX. rewrite (proj2 (Z.ltb_lt _ _)) by lia.
  destruct (km_alloc_ok PProc (k_mem k) L H F Hmem HF) as (p & a & F' & Ha & Hn & HL & Hmem' & HlF). rewrite Ha. cbn [mbind option_bind].
  rewrite (proj2 (Z.eqb_neq p NULL) Hn). cbn [negb].
  destruct (pid_step_inv (k_pids k) (pids_of k) GetPid Hpids) as (ps & held & Hst & Hinv). unfold pid_step in Hst.
  assert (Hlp : length (pids_of k) = length (process_list k)) by apply length_fmap.
  rewrite (proj2 (Z.ltb_lt _ _)) in Hst by (unfold CONFIG_PROC_MAX; lia).
  change (k_pids (set_k_mem a k)) with (k_pids k). destruct (process_get_pid 1024 (k_pids k)) as [[np ps']|]; [|done].
  cbn [mbind option_bind] in Hst |- *. injection Hst as -> <-.
  assert (Hpn : p ∉ process_list k) by (intros Hin; by apply (HL PProc), Hlive).
  eexists p, _, F'. split; [reflexivity|]. split; [done|]. split; [done|]. split; [done|].
  match goal with |- table_ok ?kk _ _ _ ∧ _ => set (k' := kk) end.
  assert (Hp' : k_procs k' p = fresh_process np (k_procs k p)) by (unfold k'; cbn; by rewrite fset_eq).
  assert (Hq' : ∀ q, q ≠ p → k_procs k' q = k_procs k q) by (intros q Hq; unfold k'; cbn; by rewrite fset_ne).
  assert (Hpo : pids_of k' = np :: pids_of k).
  { unfold pids_of. change (process_list k') with (p :: process_list k). cbn [fmap list_fmap]. rewrite Hp'. cbn [pid fresh_process]. f_equal.
    apply list_fmap_ext. intros i q Hi. rewrite Hq'; [done|]. intros ->. by apply list_elem_of_lookup_2 in Hi. }
  rewrite Hp'. split_and!; try done.
  - split.
    + by constructor.
    + change (process_number k') with (s32 (process_number k + 1)). rewrite Hnum, s32_small by lia.
      change (process_list k') with (p :: process_list k). simpl. lia.
    + change (process_list k') with (p :: process_list k). intros q [->|Hq]%elem_of_cons; [by left|right; auto].
    + exact Hmem'.
    + rewrite Hpo. exact Hinv.
  - intros q Hq. cbn [pid fresh_process]. intros He. destruct Hinv as (_ & Hndp & _). apply NoDup_cons in Hndp as [Hnp _]. apply Hnp.
    rewrite <- He. unfold pids_of. apply list_elem_of_fmap. by exists q.
  - apply Forall_fmap, Forall_forall. done.
Qed.

(** While fewer than 100 processes exist, [process_alloc] returns a structure that
    no process uses, with a PID that no process has, no descriptor, no area, no page
    and the default signal actions; the table stays consistent: its structures are
    allocated, its PIDs are distinct and are exactly those marked used, and the
    process count is right. *)
Theorem process_alloc_correct k L H F :
  table_ok k L H F → F ≠ [] → (length (process_list k) < 100)%nat →
  ∃ p k' F', process_alloc k = Some (p, k') ∧ p ≠ NULL ∧ p ∉ process_list k ∧
    process_list k' = p :: process_list k ∧ table_ok k' ((PProc, p) :: L) H F' ∧ (length F ≤ S (length F'))%nat ∧
    (∀ q, q ∈ process_list k → pid (k_procs k q) ≠ pid (k_procs k' p)) ∧
    (∀ q, q ≠ p → k_procs k' q = k_procs k q) ∧
    files (k_procs k' p) = replicate 12 NULL ∧ mem_areas (k_procs k' p) = [] ∧ dir_list (k_procs k' p) = [] ∧
    Forall (λ a, sa_handler a = SIG_DFL) (sig_array (k_procs k' p)) ∧ sig_pending (k_procs k' p) = 0.
Proof. apply process_alloc_spec. Qed.

Lemma process_free_spec k L H F p :
  table_ok k ((PProc, p) :: L) H F → p ∈ process_list k →
  ∃ k', process_free p k = Some k' ∧ table_ok k' L H F ∧ k_procs k' = k_procs k ∧
    (∀ q, q ∈ process_list k' ↔ q ∈ process_list k ∧ q ≠ p) ∧
    is_used (k_pids k') (pid (k_procs k p)) = false.
Proof.
  intros [Hnd Hnum Hlive Hmem Hpids] Hp. unfold process_free. cbn zeta.
  destruct (km_free_ok PProc p (k_mem k) L H F Hmem) as (a & Ha & Hmem').
  change (k_mem (set_process_number _ _)) with (k_mem k). rewrite Ha. cbn [mbind option_bind].
  apply list_elem_of_split in Hp as (l1 & l2 & Hl). pose proof Hnd as Hnd'. rewrite Hl in Hnd'.
  apply NoDup_app in Hnd' as (Hnd1 & Hd & Hnd2). apply NoDup_cons in Hnd2 as [Hp2 Hnd2].
  assert (Hfil : filter (λ x, x ≠ p) (process_list k) = l1 ++ l2).
  { rewrite Hl, filter_app, filter_cons_False by (intros Hx; done).
    assert (Hid : ∀ l : list ptr, p ∉ l → filter (λ x, x ≠ p) l = l).
    { clear. induction l as [|x l IH]; intros Hx; [done|]. rewrite filter_cons_True by set_solver. f_equal. apply IH. set_solver. }
    rewrite !Hid; [done..|]. intros Hin. apply (Hd p Hin), list_elem_of_here. }
  assert (Hpids1 : pid_inv (k_pids k) (pid (k_procs k p) :: ((λ q, pid (k_procs k q)) <$> (l1 ++ l2)))).
  { eapply pid_inv_perm; [|exact Hpids]. unfold pids_of. rewrite Hl, !fmap_app. simpl. by rewrite <- Permutation_middle. }
  destruct (pid_step_inv (k_pids k) _ (ReleasePid 0) Hpids1) as (ps & held & Hst & Hinv). cbn in Hst. injection Hst as <- <-.
  eexists. split; [reflexivity|]. match goal with |- table_ok ?kk _ _ _ ∧ _ => set (k' := kk) end.
  assert (Hl' : process_list k' = l1 ++ l2) by (unfold k'; cbn; exact Hfil).
  assert (HpL : (PProc, p) ∉ L) by (destruct (km_inv_nodup _ _ _ _ Hmem) as [HndL _]; by apply NoDup_cons in HndL as [? _]).
  split_and!; [split|done| |].
  - rewrite Hl'. apply NoDup_app. split_and!; [done| |done]. intros x Hx Hx2. apply (Hd x Hx). by right.
  - rewrite Hl'. change (process_number k') with (s32 (process_number k - 1)). rewrite Hnum, Hl. destruct Hpids as (_ & _ & Hlen & _).
    unfold pids_of in Hlen. rewrite length_fmap, Hl in Hlen. rewrite !length_app in *. simpl in *. rewrite s32_small; lia.
  - intros q. rewrite Hl'. intros Hq. assert (Hq' : q ∈ process_list k) by (rewrite Hl; set_solver). apply Hlive in Hq'.
    apply elem_of_cons in Hq' as [[= ->]|?]; [|done]. exfalso. apply elem_of_app in Hq as [Hq|Hq]; [|done]. apply (Hd p Hq), list_elem_of_here.
  - exact Hmem'.
  - unfold pids_of. rewrite Hl'. exact Hinv.
  - intros q. rewrite Hl', Hl, !elem_of_app, elem_of_cons. split.
    + intros Hq. split; [naive_solver|]. intros ->. destruct Hq as [Hq|Hq]; [|done]. apply (Hd p Hq), list_elem_of_here.
    + naive_solver.
  - destruct Hpids1 as (_ & Hnd1' & _ & Hr & _). apply NoDup_cons in Hnd1' as [Hn1 _]. specialize (Hr (pid (k_procs k p)) (list_elem_of_here _ _)).
    destruct Hinv as (_ & _ & _ & _ & Hu). change (k_pids k') with (process_release_pid (pid (k_procs k p)) (k_pids k)).
    rewrite Hu by lia. apply bool_decide_false. intros [?|?]; [lia|done].
Qed.

(** [process_free] takes one process out of the table, frees its structure and
    its PID, and nothing else: the table stays consistent and the other processes
    are untouched. *)
Theorem process_free_correct k L H F p :
  table_ok k ((PProc, p) :: L) H F → p ∈ process_list k →
  ∃ k', process_free p k = Some k' ∧ table_ok k' L H F ∧ k_procs k' = k_procs k ∧
    (∀ q, q ∈ process_list k' ↔ q ∈ process_list k ∧ q ≠ p) ∧
    is_used (k_pids k') (pid (k_procs k p)) = false.
Proof. apply process_free_spec. Qed.

(** Changes that keep the PIDs and the memory keep the table. *)
Lemma table_ok_upd k L H F p f :
  (∀ x, pid (f x) = pid x) → table_ok k L H F → table_ok (upd_proc p f k) L H F.
Proof.
  intros Hf [H1 H2 H3 H4 H5]. split; try done. rewrite (pids_of_ext k); [done..|]. intros q _.
  destruct (decide (q = p)) as [->|Hq]; [by rewrite upd_proc_eq, Hf|by rewrite upd_proc_ne].
Qed.

Lemma table_boot a H F : km_inv a [] H F → table_ok (set_k_pids (process_init (mk_pids 0 (replicate 32 0))) (zero_kernel a)) [] H F.
Proof.
  intros Hm. split; [constructor|done|intros p Hp; by apply elem_of_nil in Hp|exact Hm|].
  apply process_init_inv. split; [done|]. apply Forall_replicate. lia.
Qed.
End table_inv.

(** The kernel at boot, before the first process, with five free pages. *)
Definition boot_kernel (a : kmem pmem) : kernel (kmem pmem) :=
  set_k_pids (process_init (mk_pids 0 (replicate 32 0))) (zero_kernel a).

Lemma boot_table : table_ok (boot_kernel (kmem_init demo_pmem3)) [] [] [0x88000000; 0x88000400; 0x88000800].
Proof. apply table_boot, kmem_init_inv, demo_pmem3_rep. Qed.

Lemma process_alloc_correct_witness :
  ∃ p k', process_alloc (boot_kernel (kmem_init demo_pmem3)) = Some (p, k') ∧ p ≠ NULL ∧ process_list k' = [p].
Proof.
  destruct (process_alloc_correct _ _ _ _ boot_table) as (p & k' & F' & Ha & Hn & _ & Hl & _); [done|simpl; lia|].
  exists p, k'. split; [exact Ha|]. split; [exact Hn|exact Hl].
Defined.

Lemma process_free_correct_witness :
  ∃ p k' k'', process_alloc (boot_kernel (kmem_init demo_pmem3)) = Some (p, k') ∧
    process_free p k' = Some k'' ∧ p ∉ process_list k''.
Proof.
  destruct (process_alloc_spec _ _ _ _ boot_table) as (p & k' & F' & Ha & Hn & _ & Hl & Hok & _); [done|simpl; lia|].
  destruct (process_free_correct k' [] [] F' p) as (k'' & Hf & _ & _ & Hiff & _).
  - exact Hok.
  - rewrite Hl. apply list_elem_of_here.
  - exists p, k', k''. split; [exact Ha|]. split; [exact Hf|]. intros Hin. apply Hiff in Hin as [_ Hne]. by apply Hne.
Defined.

(** ** Ancestors *)

Section ancestors.
Context {A : Type} `{!KMem A}.
Implicit Types (k : kernel A).

Definition parents k : ptr → Z := λ p, parent (k_procs k p).

Lemma climb_spec fuel k other cur l :
  other ≠ NULL → chain (parents k) cur l → (length l ≤ fuel)%nat →
  ∃ c, climb fuel k other cur = Some c ∧
    ((c = NULL ∧ other ∉ drop 1 l) ∨ (c ≠ NULL ∧ parents k c = other ∧ other ∈ drop 1 l)).
Proof.
  intros Ho. revert fuel cur. induction l as [|x l IH]; intros fuel cur Hc Hf; simpl in Hc.
  - subst cur. exists NULL. split; [by destruct fuel|]. left. split; [done|set_solver].
  - destruct Hc as (-> & Hx & Hc). destruct (Z.eqb_spec (parents k x) other) as [Hp|Hp].
    + exists x. split.
      { unfold parents in Hp. destruct fuel; simpl; rewrite Hp, Z.eqb_refl, andb_false_r; done. }
      right. split_and!; [done..|]. simpl. rewrite drop_0. destruct l as [|y l]; simpl in Hc; [congruence|]. destruct Hc as (Hy & _).
      rewrite Hp in Hy. subst y. apply list_elem_of_here.
    + destruct fuel as [|fuel]; simpl in Hf; [lia|]. cbn [climb]. unfold parents in Hp.
      rewrite (proj2 (Z.eqb_neq x NULL) Hx), (proj2 (Z.eqb_neq _ _) Hp). cbn [negb andb].
      destruct (IH fuel _ Hc ltac:(lia)) as (c & Hcl & Hres). exists c. split; [done|]. simpl. rewrite drop_0.
      destruct l as [|y l]; [destruct Hres as [[-> Hn]|(_ & _ & Hin)]; [by left|simpl in Hin; set_solver]|].
      simpl in Hc. destruct Hc as (Hy & _). simpl in Hres. rewrite drop_0 in Hres. unfold parents in *.
      destruct Hres as [[-> Hn]|(Hcn & Hpc & Hin)]; [left|right].
      * split; [done|]. rewrite elem_of_cons. intros [->|?]; [|done]. by apply Hp.
      * split_and!; [done..|]. by right.
Qed.

(** [process_is_descendant] decides whether the process with the given PID is a
    proper ancestor: with the chain of parents of [proc] finite, it terminates and
    answers 1 exactly when that process is on the chain above [proc]. *)
Theorem process_is_descendant_correct fuel k proc otherpid l :
  process_from_pid otherpid k ≠ NULL → pid (k_procs k (process_from_pid otherpid k)) = otherpid →
  chain (parents k) proc l → (length l ≤ fuel)%nat →
  process_is_descendant fuel proc otherpid k = Some (bool_decide (process_from_pid otherpid k ∈ drop 1 l)).
Proof.
  intros Ho Hpid Hc Hf. unfold process_is_descendant. rewrite (proj2 (Z.eqb_neq _ NULL) Ho). cbn [negb].
  destruct (climb_spec fuel k _ proc l Ho Hc Hf) as (c & -> & [[-> Hn]|(Hcn & Hp & Hin)]); cbn [mbind option_bind].
  - by rewrite bool_decide_eq_false_2.
  - rewrite (proj2 (Z.eqb_neq c NULL) Hcn). unfold parents in Hp. rewrite Hp, Hpid, Z.eqb_refl. by rewrite bool_decide_eq_true_2.
Qed.
End ancestors.

(** 32 is the child of 16, which has PID 7. *)
Definition demo_family : kernel unit :=
  upd_proc 16 (set_pid 7) (upd_proc 32 (set_parent 16) (set_tasks [32; 16; 0; 0; 0; 0; 0; 0; 0; 0] (zero_kernel tt))).

Lemma process_is_descendant_correct_witness : process_is_descendant 100 32 7 demo_family = Some true.
Proof.
  rewrite (process_is_descendant_correct 100 demo_family 32 7 [32; 16]); [|by vm_compute|by vm_compute|by vm_compute|simpl; lia].
  reflexivity.
Defined.

(** ** Waiting for children *)

Section wait.
Context {A : Type} `{!KMem A}.
Implicit Types (k : kernel A).

Definition child_of k (proc t : ptr) : bool := negb (t =? NULL) && (parent (k_procs k t) =? proc).
Definition zombie_of k (proc t : ptr) : bool := child_of k proc t && (state (k_procs k t) =? PROCESS_STATE_ZOMBIE).

(** The zombie children in a list of slots, in order. *)
Definition zombies k (proc : ptr) (slots : list Z) : list ptr :=
  filter (λ t, zombie_of k proc t = true) ((aget (tasks k)) <$> slots).

(** The page under the top of the kernel stack of each process. *)
Definition stack_pages k (zs xs : list ptr) : Prop :=
  Forall2 (λ z x, PM_PHYSICAL_PAGE (kernel_stack (k_procs k z) - 1) = PM_PHYSICAL_PAGE x) zs xs.

Definition clear_slots k (proc : ptr) (ts : list ptr) (slots : list Z) : list ptr :=
  foldl (λ ts i, if zombie_of k proc (aget (tasks k) i) then aset ts i NULL else ts) ts slots.

Lemma zombie_of_ext k k' proc t : k_procs k' = k_procs k → zombie_of k' proc t = zombie_of k proc t.
Proof. intros Hp. unfold zombie_of, child_of. by rewrite Hp. Qed.

Lemma zombies_ext k k' proc slots :
  k_procs k' = k_procs k → (∀ i, i ∈ slots → aget (tasks k') i = aget (tasks k) i) → zombies k' proc slots = zombies k proc slots.
Proof.
  intros Hp Ht. unfold zombies. induction slots as [|i slots IH]; [done|]. cbn [fmap list_fmap]. rewrite !filter_cons.
  rewrite (Ht i (list_elem_of_here _ _)), (zombie_of_ext k k') by done. rewrite IH; [done|]. intros j Hj. apply Ht. by right.
Qed.

Lemma clear_slots_ext k k' proc ts slots :
  k_procs k' = k_procs k → (∀ i, i ∈ slots → aget (tasks k') i = aget (tasks k) i) → clear_slots k' proc ts slots = clear_slots k proc ts slots.
Proof.
  intros Hp. unfold clear_slots. revert ts. induction slots as [|i slots IH]; intros ts Ht; [done|]. cbn [foldl].
  rewrite (Ht i (list_elem_of_here _ _)), (zombie_of_ext k k') by done. apply IH. intros j Hj. apply Ht. by right.
Qed.

(** Reaping one zombie. *)
Lemma reap_spec k t x L H F :
  table_ok k ((PProc, t) :: L) (x :: H) F → t ∈ process_list k →
  PM_PHYSICAL_PAGE (kernel_stack (k_procs k t) - 1) = PM_PHYSICAL_PAGE x →
  ∃ a k', km_put_page (kernel_stack (k_procs k t) - 1) (k_mem k) = Some a ∧ process_free t (set_k_mem a k) = Some k' ∧
    table_ok k' L H (x :: F) ∧ k_procs k' = k_procs k ∧ tasks k' = tasks k ∧
    (∀ q, q ∈ process_list k' ↔ q ∈ process_list k ∧ q ≠ t).
Proof.
  intros [Hnd Hnum Hlive Hmem Hpids] Ht Hx. destruct (km_put_ok x _ (k_mem k) _ H F Hmem Hx) as (a & Ha & Hmem').
  assert (Hok : table_ok (set_k_mem a k) ((PProc, t) :: L) H (x :: F)) by (split; done).
  destruct (process_free_spec (set_k_mem a k) L H (x :: F) t Hok Ht) as (k' & Hk & Hok' & Hp & Hiff & _).
  exists a, k'. split_and!; try done. unfold process_free in Hk. cbn zeta in Hk.
  destruct (km_free PProc t _) as [a'|]; [|done]. cbn [mbind option_bind] in Hk. by injection Hk as <-.
Qed.

Lemma wait_slots_spec proc slots : ∀ k ret status found L H F xs,
  NoDup slots → Forall (λ i, 0 ≤ i < 10) slots → length (tasks k) = 10%nat →
  let zs := zombies k proc slots in
  table_ok k (((λ z, (PProc, z)) <$> zs) ++ L) (xs ++ H) F → NoDup zs → stack_pages k zs xs →
  (∀ z, z ∈ zs → z ∈ process_list k) →
  ∃ k', wait_slots proc (ret, status, found, k) slots =
      Some (match last zs with Some z => pid (k_procs k z) | None => ret end,
            match last zs with Some z => exit_status (k_procs k z) | None => status end,
            found || existsb (λ i, child_of k proc (aget (tasks k) i)) slots, k') ∧
    table_ok k' L H (reverse xs ++ F) ∧ k_procs k' = k_procs k ∧ tasks k' = clear_slots k proc (tasks k) slots ∧
    (∀ q, q ∈ process_list k' ↔ q ∈ process_list k ∧ q ∉ zs).
Proof.
  induction slots as [|i slots IH]; intros k ret status found L H F xs Hnds Hr Ht zs Hok Hndz Hst Hin.
  { apply Forall2_nil_inv_l in Hst as ->. exists k. rewrite orb_false_r. split_and!; try done. set_solver. }
  apply NoDup_cons in Hnds as [Hi Hnds]. apply Forall_cons in Hr as [Hri Hr]. cbn [wait_slots wait_slot existsb].
  set (t := aget (tasks k) i). fold (child_of k proc t).
  destruct (child_of k proc t) eqn:Hc; [destruct (state (k_procs k t) =? PROCESS_STATE_ZOMBIE) eqn:Hz|].
  - assert (Hzt : zombie_of k proc t = true) by (unfold zombie_of; by rewrite Hc, Hz).
    assert (Hzs : zs = t :: zombies k proc slots) by (unfold zs, zombies; cbn [fmap list_fmap]; by rewrite filter_cons_True).
    rewrite Hzs in *. clear zs Hzs. apply Forall2_cons_inv_l in Hst as (x & xs' & Hx & Hst & ->). apply NoDup_cons in Hndz as [Htz Hndz].
    cbn [fmap list_fmap app] in Hok.
    destruct (reap_spec k t x _ _ _ Hok (Hin t (list_elem_of_here _ _)) Hx) as (a & k1 & Ha & Hfree & Hok1 & Hp1 & Ht1 & Hiff1).
    rewrite Ha. cbn [mbind option_bind]. rewrite Hfree. cbn [mbind option_bind].
    set (k2 := set_tasks (aset (tasks k1) i NULL) k1).
    assert (Hother : ∀ j, j ∈ slots → aget (tasks k2) j = aget (tasks k) j).
    { intros j Hj. unfold k2. cbn [tasks set_tasks]. rewrite Ht1. rewrite Forall_forall in Hr. specialize (Hr j Hj).
      apply aget_aset_ne; [lia..|]. by intros ->. }
    assert (Hz2 : zombies k2 proc slots = zombies k proc slots) by (apply zombies_ext; [exact Hp1|exact Hother]).
    destruct (IH k2 (pid (k_procs k t)) (exit_status (k_procs k t)) true L H (x :: F) xs') as (k' & Hw & Hok' & Hp' & Ht' & Hiff'); try done.
    + unfold k2. cbn [tasks set_tasks]. by rewrite aset_length, Ht1.
    + rewrite Hz2. destruct Hok1 as [? ? ? ? ?]. split; done.
    + by rewrite Hz2.
    + rewrite Hz2. unfold stack_pages. change (k_procs k2) with (k_procs k1). by rewrite Hp1.
    + rewrite Hz2. intros z Hz'. apply Hiff1. split; [apply Hin; by right|]. by intros ->.
    + exists k'. change (k_procs k2) with (k_procs k1) in *. rewrite Hp1, Hz2 in *. split_and!; [|by rewrite reverse_cons, <- app_assoc|done| |].
      * rewrite Hw. cbn [last]. destruct (zombies k proc slots) as [|z zs'] eqn:Hzz; [by rewrite !orb_true_r|].
        rewrite !orb_true_r, last_cons_cons. destruct (last (z :: zs')) eqn:Hl; [done|]. by apply last_None in Hl.
      * rewrite Ht'. rewrite (clear_slots_ext k k2) by (exact Hp1 || exact Hother). unfold clear_slots at 2. cbn [foldl]. fold t. rewrite Hzt.
        unfold k2. cbn [tasks set_tasks]. by rewrite Ht1.
      * intros q. rewrite Hiff'. change (process_list k2) with (process_list k1). rewrite (Hiff1 q), elem_of_cons. naive_solver.
  - assert (Hzt : zombie_of k proc t = false) by (unfold zombie_of; by rewrite Hz, andb_false_r).
    assert (Hzs : zs = zombies k proc slots) by (unfold zs, zombies; cbn [fmap list_fmap]; rewrite filter_cons_False; [done|]; fold t; by rewrite Hzt).
    rewrite Hzs in *. cbn [mbind option_bind].
    destruct (IH k ret status true L H F xs) as (k' & Hw & Hok' & Hp' & Ht' & Hiff'); try done.
    exists k'. split_and!; try done; [by rewrite Hw, orb_true_r|]. rewrite Ht'. unfold clear_slots at 2. cbn [foldl]. fold t. by rewrite Hzt.
  - assert (Hzt : zombie_of k proc t = false) by (unfold zombie_of; by rewrite Hc).
    assert (Hzs : zs = zombies k proc slots) by (unfold zs, zombies; cbn [fmap list_fmap]; rewrite filter_cons_False; [done|]; fold t; by rewrite Hzt).
    rewrite Hzs in *. cbn [mbind option_bind].
    destruct (IH k ret status found L H F xs) as (k' & Hw & Hok' & Hp' & Ht' & Hiff'); try done.
    exists k'. split_and!; try done. rewrite Ht'. unfold clear_slots at 2. cbn [foldl]. fold t. by rewrite Hzt.
Qed.

(** C20: one pass of [sys_wait] fails with -1 exactly when the caller has no child in
    the task table, and waits (0) when it has children but no zombie among them.
    Otherwise every zombie child is reaped at once: its stack page, its structure
    and its PID are freed and its slot emptied, but only the PID and the status of
    the last one are reported. *)
Theorem sys_wait_pass_correct k status L H F xs :
  let proc := proc_current k in
  let zs := zombies k proc (seqZ 0 10) in
  length (tasks k) = 10%nat → table_ok k (((λ z, (PProc, z)) <$> zs) ++ L) (xs ++ H) F → NoDup zs → stack_pages k zs xs →
  (∀ z, z ∈ zs → z ∈ process_list k) →
  ∃ k', sys_wait_pass status k =
      Some (match last zs with
            | Some z => pid (k_procs k z)
            | None => if existsb (λ i, child_of k proc (aget (tasks k) i)) (seqZ 0 10) then 0 else -1
            end,
            match last zs with Some z => exit_status (k_procs k z) | None => status end, k') ∧
    table_ok k' L H (reverse xs ++ F) ∧ k_procs k' = k_procs k ∧ tasks k' = clear_slots k proc (tasks k) (seqZ 0 10) ∧
    (∀ q, q ∈ process_list k' ↔ q ∈ process_list k ∧ q ∉ zs).
Proof.
  intros proc zs Ht Hok Hndz Hst Hin. unfold sys_wait_pass. cbn zeta. set (k1 := sched_preempt_block k).
  assert (Hok1 : table_ok k1 (((λ z, (PProc, z)) <$> zs) ++ L) (xs ++ H) F) by (destruct Hok; split; done).
  destruct (wait_slots_spec proc (seqZ 0 10) k1 0 status false L H F xs) as (k' & Hw & Hok' & Hp' & Ht' & Hiff'); try done.
  { apply NoDup_seqZ. }
  { apply Forall_forall. intros x Hx%elem_of_seqZ. lia. }
  change (process_get_current k1) with proc. change SCHED_MAX_TASKS with 10. rewrite Hw. cbn [mbind option_bind].
  change (zombies k1 proc (seqZ 0 10)) with zs. change (k_procs k1) with (k_procs k) in *. change (tasks k1) with (tasks k) in *.
  assert (Hun : ∀ x : kernel A, k_procs (sched_preempt_unblock x) = k_procs x ∧ tasks (sched_preempt_unblock x) = tasks x ∧
    process_list (sched_preempt_unblock x) = process_list x ∧ k_mem (sched_preempt_unblock x) = k_mem x ∧ k_pids (sched_preempt_unblock x) = k_pids x ∧
    process_number (sched_preempt_unblock x) = process_number x) by (intros x; unfold sched_preempt_unblock; cbn zeta; by destruct (_ <? 0)).
  destruct (Hun k') as (U1 & U2 & U3 & U4 & U5 & U6). exists (sched_preempt_unblock k'). split; [|split_and!].
  - change (child_of k1 proc) with (child_of k proc). f_equal. f_equal. f_equal. cbn [orb]. destruct (last zs) as [z|] eqn:Hl.
    + replace (existsb _ _) with true; [done|]. symmetry. apply existsb_exists.
      assert (Hz : z ∈ zs) by (by apply last_Some_elem_of). unfold zs, zombies in Hz. apply list_elem_of_filter in Hz as [Hz Hm].
      apply list_elem_of_fmap in Hm as (i & -> & Hi). exists i. rewrite <- list_elem_of_In. split; [done|].
      unfold zombie_of in Hz. by apply andb_prop in Hz as [? _].
    + done.
  - destruct Hok' as [H1 H2 H3 H4 H5]. split; rewrite ?U3, ?U4, ?U5, ?U6; try done. unfold pids_of. by rewrite U1, U3.
  - by rewrite U1.
  - rewrite U2. exact Ht'.
  - intros q. rewrite U3. apply Hiff'.
Qed.
End wait.

Section demo_wait.
Context (p x s : ptr) (k : kernel (kmem pmem)).

(** The process [p] as a zombie child of 16, alone in the task table. *)
Definition demo_zombie : kernel (kmem pmem) :=
  set_proc_current 16 (set_tasks (p :: replicate 9 0)
    (upd_proc p (λ q, set_kernel_stack (s + 1) (set_parent 16 (set_state PROCESS_STATE_ZOMBIE q))) k)).

Lemma demo_zombie_list : p ≠ NULL → zombies demo_zombie 16 (seqZ 0 10) = [p].
Proof.
  intros Hp. unfold zombies. change (_ <$> seqZ 0 10) with (p :: replicate 9 0). rewrite filter_cons_True.
  - done.
  - unfold zombie_of, child_of. change (k_procs demo_zombie p) with (k_procs (upd_proc p (λ q, set_kernel_stack (s + 1) (set_parent 16 (set_state PROCESS_STATE_ZOMBIE q))) k) p).
    rewrite upd_proc_eq. cbn. by rewrite (proj2 (Z.eqb_neq p NULL) Hp).
Qed.

Lemma demo_zombie_stack : kernel_stack (k_procs demo_zombie p) = s + 1.
Proof.
  change (k_procs demo_zombie p) with (k_procs (upd_proc p (λ q, set_kernel_stack (s + 1) (set_parent 16 (set_state PROCESS_STATE_ZOMBIE q))) k) p).
  by rewrite upd_proc_eq.
Qed.
End demo_wait.

Lemma sys_wait_pass_correct_witness :
  ∃ (p : ptr) (k k' : kernel (kmem pmem)), p ∈ process_list k ∧
    sys_wait_pass 0 k = Some (pid (k_procs k p), exit_status (k_procs k p), k') ∧ p ∉ process_list k'.
Proof.
  destruct (process_alloc_spec _ _ _ _ boot_table) as (p & k & F & _ & Hn & _ & Hl & Hok & HlF & _); [done|simpl; lia|].
  destruct (km_get_ok MEM_PM_CACHED (k_mem k) _ _ F (to_mem _ _ _ _ Hok)) as (x & s & a & F' & _ & _ & Hx & _ & Hinv).
  { intros ->. simpl in HlF. lia. }
  set (k0 := demo_zombie p s (set_k_mem a k)).
  assert (Hz : zombies k0 (proc_current k0) (seqZ 0 10) = [p]) by (by apply demo_zombie_list).
  destruct (sys_wait_pass_correct k0 0 [] [] F' [x]) as (k' & Hw & _ & _ & _ & Hiff); rewrite ?Hz in *.
  - reflexivity.
  - destruct Hok as [H1 H2 H3 H4 H5].
    assert (Hok0 : table_ok (set_k_mem a k) [(PProc, p)] [x] F') by (split; done).
    apply (table_ok_upd _ _ _ _ p (λ q, set_kernel_stack (s + 1) (set_parent 16 (set_state PROCESS_STATE_ZOMBIE q)))) in Hok0; [|done].
    destruct Hok0 as [G1 G2 G3 G4 G5]. split; done.
  - apply NoDup_singleton.
  - constructor; [|constructor]. unfold k0. rewrite demo_zombie_stack. by replace (s + 1 - 1) with s by lia.
  - intros z ->%list_elem_of_singleton. change (process_list k0) with (process_list k). rewrite Hl. apply list_elem_of_here.
  - exists p, k0, k'. split; [change (process_list k0) with (process_list k); rewrite Hl; apply list_elem_of_here|].
    split; [exact Hw|]. intros Hin. apply Hiff in Hin as [_ Hni]. by apply Hni, list_elem_of_here.
Defined.
