(* ===== verification/Sync.v ===== *)
(** * Wait queues and mutexes (src/sys/waitqueue.c, src/sys/mutex.c)

    A wait queue is the list of the sleeping processes, in the order they went to
    sleep; the linked list that stores it is the one of CLists.  The critical
    sections of a mutex run with the interrupts disabled, so one iteration of
    [mutex_lock] is one atomic step. *)

From S2P Require Import Prelude PhysMem PoolAlloc KMem Pid Mmu PageDir Kernel Scheduler Signal.

(** src/sys/waitqueue.h: wait_queue *)
Record wait_queue := mk_wqueue { towake : list ptr }.

(** src/sys/waitqueue.h:42-43: INIT_WAIT_QUEUE *)
Definition INIT_WAIT_QUEUE : wait_queue := mk_wqueue [].

Section wqueue.
Context {A : Type}.
Implicit Types (k : kernel A) (q : wait_queue).

(** Up to the call of [sched_schedule]. *)
(** src/sys/waitqueue.c: wqueue_wait_event *)
Definition wqueue_wait_event q k : wait_queue * kernel A :=
  let proc := proc_current k in
  let q := mk_wqueue (towake q ++ [proc]) in
  (q, upd_proc proc (set_state PROCESS_STATE_UNINTERRUPTIBLE) k).

(** src/sys/waitqueue.c: wqueue_wakeup *)
Definition wqueue_wakeup q k : wait_queue * kernel A :=
  let k := foldl (λ k proc, sched_wake_up proc k) k (towake q) in
  (INIT_WAIT_QUEUE, k).
End wqueue.

(** ** Mutexes *)

(** src/sys/mutex.h: mutex *)
Record mutex := mk_mutex { locked : Z }.

(** src/sys/mutex.c: mutex_init_unlocked *)
Definition mutex_init_unlocked (m : mutex) : mutex := mk_mutex 0.

(** src/sys/mutex.c: mutex_trylock *)
Definition mutex_trylock (m : mutex) : Z * mutex :=
  let ret := locked m in
  if ret =? 0 then (ret, mk_mutex 1) else (ret, m).

(** One iteration of the loop: whether the mutex was taken; the task yields otherwise. *)
(** src/sys/mutex.c: mutex_lock *)
Definition mutex_lock_pass (m : mutex) : bool * mutex :=
  if locked m =? 0 then (true, mk_mutex 1) else (false, m).

(** src/sys/mutex.c: mutex_unlock *)
Definition mutex_unlock (m : mutex) : mutex := mk_mutex 0.

(** ** Mutual exclusion *)

(** The mutex and the tasks that took it and have not released it. *)
Inductive mutex_step : mutex * list ptr → mutex * list ptr → Prop :=
  | step_try t m m' hs : mutex_trylock m = (0, m') → mutex_step (m, hs) (m', t :: hs)
  | step_try_fail m m' r hs : mutex_trylock m = (r, m') → r ≠ 0 → mutex_step (m, hs) (m', hs)
  | step_lock t m m' hs : mutex_lock_pass m = (true, m') → mutex_step (m, hs) (m', t :: hs)
  | step_lock_wait m m' hs : mutex_lock_pass m = (false, m') → mutex_step (m, hs) (m', hs)
  | step_unlock t m hs hs' : hs ≡ₚ t :: hs' → mutex_step (m, hs) (mutex_unlock m, hs').

(** Whatever the tasks do, at most one holds the mutex, and it is marked locked
    exactly while one does. *)
Lemma mutex_exclusion m s :
  rtc mutex_step (mutex_init_unlocked m, []) s →
  (locked s.1 = 0 ∧ s.2 = []) ∨ (locked s.1 = 1 ∧ ∃ t, s.2 = [t]).
Proof.
  assert (H : ∀ s s', mutex_step s s' → (locked s.1 = 0 ∧ s.2 = []) ∨ (locked s.1 = 1 ∧ ∃ t, s.2 = [t]) →
    (locked s'.1 = 0 ∧ s'.2 = []) ∨ (locked s'.1 = 1 ∧ ∃ t, s'.2 = [t])).
  { intros s1 s2 Hs Hi. destruct Hs as [t m1 m' hs E|m1 m' r hs E Hr|t m1 m' hs E|m1 m' hs E|t m1 hs hs' E];
      unfold mutex_trylock, mutex_lock_pass in E; cbn [fst snd] in *.
    - destruct (Z.eqb_spec (locked m1) 0) as [H0|H0]; [|congruence]. injection E as H1 <-.
      right. split; [done|]. exists t. destruct Hi as [[_ ->]|[? _]]; [done|lia].
    - destruct (Z.eqb_spec (locked m1) 0); [congruence|]. by injection E as _ <-.
    - destruct (Z.eqb_spec (locked m1) 0) as [H0|H0]; [|congruence]. injection E as <-.
      right. split; [done|]. exists t. destruct Hi as [[_ ->]|[? _]]; [done|lia].
    - destruct (Z.eqb_spec (locked m1) 0); [congruence|]. by injection E as <-.
    - left. split; [done|]. destruct Hi as [[_ ->]|[_ [x ->]]]; [by apply Permutation_nil_cons in E|].
      apply Permutation_length in E. simpl in E. by destruct hs'. }
  intros Hr. remember (mutex_init_unlocked m, []) as s0 eqn:Hs0.
  assert (Hi : (locked s0.1 = 0 ∧ s0.2 = []) ∨ (locked s0.1 = 1 ∧ ∃ t, s0.2 = [t])) by (subst; by left).
  clear Hs0. induction Hr as [|s0 s1 s2 H1 _ IH]; [done|]. by apply IH, (H s0).
Qed.

(** ** Waking *)

Section wake.
Context {A : Type}.
Implicit Types (k : kernel A).

Lemma wake_all_procs l k p :
  k_procs (foldl (λ k proc, sched_wake_up proc k) k l) p =
  if bool_decide (p ∈ l) && ((state (k_procs k p) =? PROCESS_STATE_INTERRUPTIBLE) || (state (k_procs k p) =? PROCESS_STATE_UNINTERRUPTIBLE))
  then set_state PROCESS_STATE_RUNNING (k_procs k p) else k_procs k p.
Proof.
  revert k. induction l as [|x l IH]; intros k; [by rewrite bool_decide_eq_false_2 by set_solver|].
  cbn [foldl]. rewrite IH, wake_up_procs. destruct (Z.eqb_spec p x) as [->|Hne].
  - rewrite (bool_decide_eq_true_2 (x ∈ x :: l)) by set_solver. cbn [andb].
    destruct ((state (k_procs k x) =? PROCESS_STATE_INTERRUPTIBLE) || (state (k_procs k x) =? PROCESS_STATE_UNINTERRUPTIBLE)) eqn:Hs;
      [cbn; by rewrite andb_false_r|by rewrite Hs, andb_false_r].
  - by rewrite (bool_decide_ext (p ∈ x :: l) (p ∈ l)) by set_solver.
Qed.

(** Everyone who sleeps on the queue runs again. *)
Lemma wakeup_runs q k p :
  p ∈ towake q → state (k_procs k p) = PROCESS_STATE_UNINTERRUPTIBLE →
  state (k_procs (wqueue_wakeup q k).2 p) = PROCESS_STATE_RUNNING.
Proof.
  intros Hp Hs. cbn [wqueue_wakeup snd]. rewrite wake_all_procs, Hs, bool_decide_eq_true_2 by done. done.
Qed.
End wake.
