(* ===== verification/Tty.v ===== *)
(** * Terminals (src/sys/tty.c, src/sys/tty.h, src/device/tty.c)

    The line discipline: characters typed are edited in the line buffer, echoed,
    turned into signals for the foreground group, and passed by whole lines (or,
    without ICANON, by groups of VMIN characters) to the input FIFO from which
    processes read.  The driver of the terminal is a record of operations on a
    driver state [D]; the theorems hold for any driver. *)

From S2P Require Import Prelude CyclicFifo PhysMem PoolAlloc KMem Pid Mmu PageDir Kernel Scheduler Pipe VfsFile Signal Sync.

(** src/sys/tty.h:37-37: TTY_INPUT_BUFFER *)
Definition TTY_INPUT_BUFFER : Z := 256.
(** src/sys/tty.h:38-38: TTY_LINE_BUFFER *)
Definition TTY_LINE_BUFFER : Z := 128.

(** src/interface/fixos/tty.h:45-45: VEOF *)
Definition VEOF : Z := 0.
(** src/interface/fixos/tty.h:46-46: VEOL *)
Definition VEOL : Z := 1.
(** src/interface/fixos/tty.h:47-47: VERASE *)
Definition VERASE : Z := 2.
(** src/interface/fixos/tty.h:48-48: VINTR *)
Definition VINTR : Z := 3.
(** src/interface/fixos/tty.h:49-49: VKILL *)
Definition VKILL : Z := 4.
(** src/interface/fixos/tty.h:50-50: VMIN *)
Definition VMIN : Z := 5.
(** src/interface/fixos/tty.h:51-51: VQUIT *)
Definition VQUIT : Z := 6.
(** src/interface/fixos/tty.h:54-54: VSUSP *)
Definition VSUSP : Z := 9.

(** src/interface/fixos/tty.h:71-71: ECHO *)
Definition ECHO : Z := Z.shiftl 1 0.
(** src/interface/fixos/tty.h:72-72: ECHOE *)
Definition ECHOE : Z := Z.shiftl 1 1.
(** src/interface/fixos/tty.h:73-73: ECHOK *)
Definition ECHOK : Z := Z.shiftl 1 2.
(** src/interface/fixos/tty.h:74-74: ECHONL *)
Definition ECHONL : Z := Z.shiftl 1 3.
(** src/interface/fixos/tty.h:75-75: ICANON *)
Definition ICANON : Z := Z.shiftl 1 4.
(** src/interface/fixos/tty.h:77-77: ISIG *)
Definition ISIG : Z := Z.shiftl 1 6.
(** src/interface/fixos/tty.h:81-81: ECHOCTL *)
Definition ECHOCTL : Z := Z.shiftl 1 9.

(** src/interface/fixos/signal.h:32-32: SIGINT *)
Definition SIGINT : Z := 2.

(** src/interface/fixos/tty.h: termios *)
Record termios := mk_termios { c_iflag : Z; c_oflag : Z; c_cflag : Z; c_lflag : Z; c_cc : list Z }.

(** src/interface/fixos/tty.h: winsize *)
Record winsize := mk_winsize { ws_row : Z; ws_col : Z }.

(** src/utils/types.h:82-83: ASCII_CTRL *)
Definition ASCII_CTRL (c : Z) : Z := if c =? 63 then 0x7f else c - 64.

(** src/utils/types.h:87-90: ASCII_IS_CTRL *)
Definition ASCII_IS_CTRL (c : Z) : bool :=
  ((u8 c <? 0x20) && negb (c =? 10) && negb (c =? 9)) || (c =? 0x7f).

(** The characters are those of "DCU\Z"; c_iflag is ICRNL | IGNBRK | IGNPAR and
    c_cflag is CLOCAL | CS8 | B9600. *)
(** src/sys/tty.c:21-40: _tty_default_termios *)
Definition tty_default_termios : termios :=
  mk_termios (2 + 4 + 16) 0 (2 ^ 8 + Z.shiftl 3 9 + 0x0D)
    (Z.lor ICANON (Z.lor ECHO (Z.lor ECHOE (Z.lor ECHOK (Z.lor ECHONL (Z.lor ISIG ECHOCTL))))))
    [ASCII_CTRL 68; 0; 8; ASCII_CTRL 67; ASCII_CTRL 85; 1; ASCII_CTRL 92; 0; 0; ASCII_CTRL 90; 0].

(** The buffer [fifo_buf] is the buffer of [fifo]; a character is stored as a byte. *)
(** src/sys/tty.h: tty *)
Record tty := mk_tty {
  controler : Z;
  fpgid : Z;
  ios : termios;
  fifo : cyclic_fifo;
  line_buf : list Z;
  line_pos : Z;
  wqueue : wait_queue
}.

Definition set_controler (v : Z) (t : tty) : tty := mk_tty v (fpgid t) (ios t) (fifo t) (line_buf t) (line_pos t) (wqueue t).
Definition set_fpgid (v : Z) (t : tty) : tty := mk_tty (controler t) v (ios t) (fifo t) (line_buf t) (line_pos t) (wqueue t).
Definition set_ios (v : termios) (t : tty) : tty := mk_tty (controler t) (fpgid t) v (fifo t) (line_buf t) (line_pos t) (wqueue t).
Definition set_fifo (v : cyclic_fifo) (t : tty) : tty := mk_tty (controler t) (fpgid t) (ios t) v (line_buf t) (line_pos t) (wqueue t).
Definition set_line (b : list Z) (n : Z) (t : tty) : tty := mk_tty (controler t) (fpgid t) (ios t) (fifo t) b n (wqueue t).
Definition set_wqueue (v : wait_queue) (t : tty) : tty := mk_tty (controler t) (fpgid t) (ios t) (fifo t) (line_buf t) (line_pos t) v.

(** A NULL operation is [None]. *)
(** src/sys/tty.h: tty_ops *)
Record tty_ops (D : Type) := mk_tty_ops {
  op_is_ready : option (D → Z);
  op_tty_write : option (list Z → D → Z * D);
  op_putchar : Z → D → Z * D;
  op_ioctl : option (Z → Z → D → Z * D);
  op_setwinsize : option (winsize → D → Z * D);
  op_getwinsize : option (D → Z * winsize * D);
  op_set_termios : option (termios → termios → D → Z * termios * D);
  op_force_flush : option (D → Z * D);
  op_open : option (D → Z * D);
  op_release : option (D → D)
}.
Arguments mk_tty_ops {D}.
Arguments op_is_ready {D}. Arguments op_tty_write {D}. Arguments op_putchar {D}. Arguments op_ioctl {D}.
Arguments op_setwinsize {D}. Arguments op_getwinsize {D}. Arguments op_set_termios {D}.
Arguments op_force_flush {D}. Arguments op_open {D}. Arguments op_release {D}.

(** [stale] is what the input buffer held. *)
(** src/sys/tty.c: tty_default_init *)
Definition tty_default_init (stale : list Z) (t : tty) : tty :=
  mk_tty 0 0 tty_default_termios (mk_fifo TTY_INPUT_BUFFER 0 0 stale) (line_buf t) 0 INIT_WAIT_QUEUE.

Section ops.
Context {A D : Type} (ops : tty_ops D).
Implicit Types (k : kernel A) (t : tty) (d : D).

Definition cc t (i : Z) : Z := aget (c_cc (ios t)) i.
Definition lflag t (m : Z) : bool := c_lflag (ios t) &? m.

(** Driver writes through [ops->tty_write], which the echo calls without a test. *)
Definition drv_write (data : list Z) d : D :=
  match op_tty_write ops with Some w => (w data d).2 | None => d end.

(** src/sys/tty.h: tty_is_ready *)
Definition tty_is_ready d : Z := match op_is_ready ops with None => 1 | Some f => f d end.

(** src/sys/tty.h: tty_write *)
Definition tty_write (data : list Z) d : Z * D := match op_tty_write ops with None => (- EIO, d) | Some w => w data d end.

(** src/sys/tty.h: tty_getwinsize *)
Definition tty_getwinsize d : Z * winsize * D :=
  match op_getwinsize ops with None => (0, mk_winsize 24 80, d) | Some f => f d end.

(** src/sys/tty.h: tty_setwinsize *)
Definition tty_setwinsize (w : winsize) d : Z * D :=
  match op_setwinsize ops with None => (- EINVAL, d) | Some f => f w d end.

(** [self] is the address of the terminal. *)
(** src/sys/tty.h: tty_setctty *)
Definition tty_setctty (self : ptr) t k : Z * tty * kernel A :=
  let cur := proc_current k in
  if negb (ctty (k_procs k cur) =? NULL) then (- EINVAL, t, k)
  else
    let k := upd_proc cur (set_ctty self) k in
    let t := if controler t =? 0 then set_controler (pid (k_procs k cur)) t else t in
    (0, t, k).

(** src/sys/tty.h: tty_noctty *)
Definition tty_noctty (self : ptr) t k : Z * tty * kernel A :=
  let cur := proc_current k in
  if negb (ctty (k_procs k cur) =? self) then (- EINVAL, t, k)
  else
    let t := if pid (k_procs k cur) =? controler t then set_fpgid 0 (set_controler 0 t) else t in
    (0, t, upd_proc cur (set_ctty NULL) k).

(** A NULL pointer is [None]; the getters return what is stored through the pointer. *)
(** src/sys/tty.h: tty_setpgrp *)
Definition tty_setpgrp (p : option Z) t : Z * tty :=
  match p with None => (- EINVAL, t) | Some pid' => (0, set_fpgid pid' t) end.

(** src/sys/tty.h: tty_getpgrp *)
Definition tty_getpgrp (p : option Z) t : Z * option Z :=
  match p with None => (- EINVAL, None) | Some _ => (0, Some (fpgid t)) end.

(** src/sys/tty.h: tty_getsid *)
Definition tty_getsid (p : option Z) t : Z * option Z :=
  match p with None => (- EINVAL, None) | Some _ => (0, Some (controler t)) end.

(** src/sys/tty.h: tty_set_termios *)
Definition tty_set_termios (v : termios) t d : Z * tty * D :=
  match op_set_termios ops with
  | Some f => let '(r, v', d) := f v (ios t) d in (r, set_ios v' t, d)
  | None => (0, set_ios v t, d)
  end.

(** src/sys/tty.h: tty_force_flush *)
Definition tty_force_flush d : Z * D := match op_force_flush ops with Some f => f d | None => (- EIO, d) end.

(** src/sys/tty.h: tty_open *)
Definition tty_open d : Z * D := match op_open ops with Some f => f d | None => (0, d) end.

(** src/sys/tty.h: tty_release *)
Definition tty_release d : D := match op_release ops with Some f => f d | None => d end.

(** A command with the value its argument points to. *)
(** src/interface/fixos/tty.h:147-185: TTYCTL *)
Inductive tty_cmd :=
  | TIOCGWINSZ | TIOCSWINSZ (w : winsize) | TIOCSCTTY (arg : Z) | TIOCNOTTY
  | TIOCGPGRP (p : option Z) | TIOCSPGRP (p : option Z) | TIOCGSID (p : option Z)
  | TCGETS | TCSETS (v : termios) | OtherCmd (cmd data : Z).

(** What a command stores through its argument. *)
Inductive tty_out := OutNone | OutWinsize (w : winsize) | OutPid (p : option Z) | OutTermios (v : termios).

(** src/sys/tty.c: tty_ioctl *)
Definition tty_ioctl (self : ptr) (cmd : tty_cmd) t d k : Z * tty_out * tty * D * kernel A :=
  match cmd with
  | TIOCGWINSZ => let '(r, w, d) := tty_getwinsize d in (r, OutWinsize w, t, d, k)
  | TIOCSWINSZ w => let '(r, d) := tty_setwinsize w d in (r, OutNone, t, d, k)
  | TIOCSCTTY arg => let '(r, t, k) := tty_setctty self t k in (r, OutNone, t, d, k)
  | TIOCNOTTY => let '(r, t, k) := tty_noctty self t k in (r, OutNone, t, d, k)
  | TIOCGPGRP p => let '(r, o) := tty_getpgrp p t in (r, OutPid o, t, d, k)
  | TIOCSPGRP p => let '(r, t) := tty_setpgrp p t in (r, OutNone, t, d, k)
  | TIOCGSID p => let '(r, o) := tty_getsid p t in (r, OutPid o, t, d, k)
  | TCGETS => (0, OutTermios (ios t), t, d, k)
  | TCSETS v => let '(r, t, d) := tty_set_termios v t d in (r, OutNone, t, d, k)
  | OtherCmd c data =>
      match op_ioctl ops with
      | Some f => let '(r, d) := f c data d in (r, OutNone, t, d, k)
      | None => (- EINVAL, OutNone, t, d, k)
      end
  end.

(** src/sys/tty.c: tty_echo_char *)
Definition tty_echo_char t (c : Z) d : D :=
  if lflag t ECHOCTL && ASCII_IS_CTRL c then
    let d := (op_putchar ops 94 d).2 in
    let c := if c <? 0x20 then s8 (c + 0x40) else s8 (c - 0x40) in
    (op_putchar ops c d).2
  else (op_putchar ops c d).2.

(** src/sys/tty.c: tty_echo_erase *)
Definition tty_echo_erase t (c : Z) d : D :=
  let d := drv_write [8; 32; 8] d in
  if lflag t ECHOCTL && ASCII_IS_CTRL c then drv_write [8; 32; 8] d else d.

(** The loop of VKILL over the [n] characters of the line. *)
(** src/sys/tty.c:171-174: tty_input_char *)
Fixpoint kill_line (n : nat) t d : tty * D :=
  match n with
  | O => (t, d)
  | S n =>
      let t := set_line (line_buf t) (line_pos t - 1) t in
      kill_line n t (tty_echo_erase t (s8 (aget (line_buf t) (line_pos t))) d)
  end.

(** The signals, whether the character is discarded. *)
(** src/sys/tty.c:127-150: tty_input_char *)
Definition input_signal (c : Z) t d k : bool * D * kernel A :=
  if lflag t ISIG then
    if c =? cc t VINTR then
      (true, tty_echo_char t c d, if negb (fpgid t =? 0) then signal_pgid_raise (fpgid t) SIGINT k else k)
    else if c =? cc t VQUIT then (true, tty_echo_char t c d, k)
    else if c =? cc t VSUSP then
      (true, tty_echo_char t c d, if negb (fpgid t =? 0) then signal_pgid_raise (fpgid t) SIGSTOP k else k)
    else (false, d, k)
  else (false, d, k).

(** The canonical processing: whether the character is discarded, and the character. *)
(** src/sys/tty.c:152-188: tty_input_char *)
Definition input_canon (discard : bool) (c : Z) t d : bool * Z * tty * D :=
  if lflag t ICANON then
    if c =? cc t VERASE then
      if 0 <? line_pos t then
        let t := set_line (line_buf t) (line_pos t - 1) t in
        (true, c, t, if lflag t ECHOE then tty_echo_erase t (s8 (aget (line_buf t) (line_pos t))) d else d)
      else (true, c, t, d)
    else if c =? cc t VKILL then
      if lflag t ECHOK then let '(t, d) := kill_line (Z.to_nat (line_pos t)) t d in (true, c, t, d)
      else (true, c, t, d)
    else if c =? cc t VEOF then (true, c, t, d)
    else if (c =? 10) || (c =? cc t VEOL) || (c =? 13) then (discard, 10, t, d)
    else (discard, c, t, d)
  else (discard, c, t, d).

(** The character joins the line buffer, which is passed to the FIFO when complete. *)
(** src/sys/tty.c:191-225: tty_input_char *)
Definition input_add (c : Z) t d k : tty * D * kernel A :=
  if line_pos t + 1 <? TTY_LINE_BUFFER then
    let t := set_line (aset (line_buf t) (line_pos t) (u8 c)) (line_pos t + 1) t in
    let d := if lflag t ECHO then tty_echo_char t c d else d in
    let '(flush_line, d) :=
      if lflag t ICANON then
        if c =? 10 then (true, if negb (lflag t ECHO) && lflag t ECHONL then tty_echo_char t c d else d)
        else (false, d)
      else (cc t VMIN <=? line_pos t, d) in
    if (flush_line : bool) then
      let t := set_fifo (cfifo_push (fifo t) (line_buf t) (line_pos t)) t in
      let t := set_line (line_buf t) 0 t in
      let '(q, k) := wqueue_wakeup (wqueue t) k in
      (set_wqueue q t, d, k)
    else (t, d, k)
  else (t, d, k).

(** src/sys/tty.c: tty_input_char *)
Definition tty_input_char (c : Z) t d k : Z * tty * D * kernel A :=
  if negb (c =? 0) then
    let '(discard, d, k) := input_signal c t d k in
    let '(discard, c, t, d) := input_canon discard c t d in
    if negb discard then let '(t, d, k) := input_add c t d k in (0, t, d, k) else (0, t, d, k)
  else (0, t, d, k).

(** One evaluation of the condition of [tty_read]: either bytes are read, or the
    process goes to sleep on the queue of the terminal. *)
(** src/sys/tty.c: tty_read *)
Definition tty_read (len : Z) t k : (Z * list Z * tty * kernel A) + (tty * kernel A) :=
  let readlen := size (fifo t) in
  if 0 <? readlen then
    let readlen := if len <? u32 (readlen + 0) then u32 (len - 0) else readlen in
    let '(out, f) := cfifo_pop (fifo t) readlen in
    inl (readlen, out, set_fifo f t, k)
  else
    let '(q, k) := wqueue_wait_event (wqueue t) k in
    inr (set_wqueue q t, k).
End ops.

(** ** Specification: a line editor in front of a bounded queue *)

(** The line being edited and the bytes that can be read. *)
Definition tty_view : Type := list Z * list Z.

(** What a character does, for the settings [v]. *)
Definition edit (v : termios) (c : Z) (s : tty_view) : tty_view :=
  let '(l, q) := s in
  let cc i := aget (c_cc v) i in
  let canon := c_lflag v &? ICANON in
  let isig := (c_lflag v &? ISIG) && ((c =? cc VINTR) || (c =? cc VQUIT) || (c =? cc VSUSP)) in
  if c =? 0 then s
  else if canon && (c =? cc VERASE) then (take (pred (length l)) l, q)
  else if canon && (c =? cc VKILL) then (if c_lflag v &? ECHOK then [] else l, q)
  else if isig || (canon && (c =? cc VEOF)) then s
  else if Z.of_nat (length l) + 1 <? 128 then
    let c := if canon && ((c =? 10) || (c =? cc VEOL) || (c =? 13)) then 10 else c in
    let l := l ++ [u8 c] in
    if (if canon then c =? 10 else cc VMIN <=? Z.of_nat (length l))
    then ([], CyclicFifo.Spec.push TTY_INPUT_BUFFER q l (Z.of_nat (length l))) else (l, q)
  else s.

(** Characters typed and reads by processes, in the order they happen. *)
Inductive tty_event := Typed (c : Z) | ReadBy (p : ptr) (len : Z).

Definition spec_event (v : termios) (s : tty_view) (e : tty_event) : tty_view * list Z :=
  match e with
  | Typed c => (edit v c s, [])
  | ReadBy p len => let '(out, q) := CyclicFifo.Spec.pop s.2 len in ((s.1, q), out)
  end.

Section run.
Context {A D : Type} (ops : tty_ops D).

Definition tty_state : Type := tty * D * kernel A.

Definition tty_event_step (s : tty_state) (e : tty_event) : tty_state * list Z :=
  let '(t, d, k) := s in
  match e with
  | Typed c => let '(_, t, d, k) := tty_input_char ops c t d k in ((t, d, k), [])
  | ReadBy p len =>
      match tty_read len t (set_proc_current p k) with
      | inl (_, out, t, k) => ((t, d, k), out)
      | inr (t, k) => ((t, d, k), [])
      end
  end.
End run.

(** ** Invariant *)

Definition tty_line (t : tty) : list Z := take (Z.to_nat (line_pos t)) (line_buf t).
Definition view (t : tty) : tty_view := (tty_line t, contents (fifo t)).

(** The buffers have their sizes, and nobody sleeps on the terminal while there is
    something to read. *)
Definition tty_wf (t : tty) : Prop :=
  length (line_buf t) = 128%nat ∧ 0 ≤ line_pos t < 128 ∧ fifo_wf (fifo t) ∧ max_size (fifo t) = TTY_INPUT_BUFFER ∧
  (0 < size (fifo t) → towake (wqueue t) = []).

(** Who sleeps uninterruptibly is on the queue of the terminal. *)
Definition sleepers_queued {A} (t : tty) (k : kernel A) : Prop :=
  ∀ p, state (k_procs k p) = PROCESS_STATE_UNINTERRUPTIBLE → p ∈ towake (wqueue t).

Definition event_ok (e : tty_event) : Prop :=
  match e with Typed c => -128 ≤ c < 128 | ReadBy _ len => 0 ≤ len < 2 ^ 32 end.

(** ** Lemmas *)

Lemma tty_line_length t : length (line_buf t) = 128%nat → 0 ≤ line_pos t < 128 → Z.of_nat (length (tty_line t)) = line_pos t.
Proof. intros Hl Hp. unfold tty_line. rewrite length_take. lia. Qed.

Section lemmas.
Context {A D : Type} (ops : tty_ops D).
Implicit Types (k : kernel A) (t : tty) (d : D).

Lemma kill_line_spec n t d :
  line_pos t = Z.of_nat n → (kill_line ops n t d).1 = set_line (line_buf t) 0 t.
Proof.
  revert t d. induction n as [|n IH]; intros t d Hp; cbn [kill_line].
  - destruct t. cbn in *. by rewrite Hp.
  - rewrite IH by (cbn; lia). done.
Qed.

Lemma erase_line t : length (line_buf t) = 128%nat → 0 < line_pos t < 128 →
  tty_line (set_line (line_buf t) (line_pos t - 1) t) = take (pred (length (tty_line t))) (tty_line t).
Proof.
  intros Hl Hp. unfold tty_line. cbn [line_pos line_buf set_line]. rewrite length_take, Hl, take_take. f_equal. lia.
Qed.

Lemma append_line t c : length (line_buf t) = 128%nat → 0 ≤ line_pos t < 128 →
  tty_line (set_line (aset (line_buf t) (line_pos t) c) (line_pos t + 1) t) = tty_line t ++ [c].
Proof.
  intros Hl Hp. unfold tty_line, aset. cbn [line_pos line_buf set_line].
  replace (Z.to_nat (line_pos t + 1)) with (S (Z.to_nat (line_pos t))) by lia.
  erewrite take_S_r; [|apply list_lookup_insert_eq; lia]. by rewrite take_insert_ge by lia.
Qed.

Lemma raise_sleepers p sig k q :
  state (k_procs (signal_raise p sig k) q) = PROCESS_STATE_UNINTERRUPTIBLE → state (k_procs k q) = PROCESS_STATE_UNINTERRUPTIBLE.
Proof.
  rewrite signal_raise_procs. destruct (Z.eqb_spec q p) as [->|]; [|done]. unfold raised. cbn zeta. by destruct (_ || _).
Qed.

Lemma pgid_raise_sleepers g sig k q :
  state (k_procs (signal_pgid_raise g sig k) q) = PROCESS_STATE_UNINTERRUPTIBLE → state (k_procs k q) = PROCESS_STATE_UNINTERRUPTIBLE.
Proof.
  unfold signal_pgid_raise. generalize (process_list k). intros l. revert k. induction l as [|x l IH]; intros k; [done|].
  cbn [foldl]. intros Hs%IH. destruct (_ =? g); [|done]. by eapply raise_sleepers.
Qed.

(** The signal part changes neither the terminal nor who sleeps. *)
Lemma input_signal_spec c t d k :
  let '(discard, d', k') := input_signal ops c t d k in
  discard = lflag t ISIG && ((c =? cc t VINTR) || (c =? cc t VQUIT) || (c =? cc t VSUSP)) ∧
  (sleepers_queued t k → sleepers_queued t k').
Proof.
  assert (Hr : ∀ sig, sleepers_queued t k → sleepers_queued t (if negb (fpgid t =? 0) then signal_pgid_raise (fpgid t) sig k else k)).
  { intros sig Hq. destruct (negb _); [|done]. intros q Hs%pgid_raise_sleepers. by apply Hq. }
  unfold input_signal. destruct (lflag t ISIG); [|done]. cbn [andb].
  destruct (c =? cc t VINTR); [by split; [|apply Hr]|]. destruct (c =? cc t VQUIT); [done|].
  destruct (c =? cc t VSUSP); [by split; [|apply Hr]|done].
Qed.

(** Adding a character. *)
Lemma input_add_spec c t d k :
  tty_wf t → sleepers_queued t k → 
  let '(t', d', k') := input_add ops c t d k in
  tty_wf t' ∧ sleepers_queued t' k' ∧ ios t' = ios t ∧
  view t' =
    (if line_pos t + 1 <? 128 then
       let l := tty_line t ++ [u8 c] in
       if (if lflag t ICANON then c =? 10 else cc t VMIN <=? Z.of_nat (length l))
       then ([], CyclicFifo.Spec.push TTY_INPUT_BUFFER (contents (fifo t)) l (Z.of_nat (length l))) else (l, contents (fifo t))
     else view t).
Proof.
  intros (Hl & Hp & Hf & Hm & Hq) Hs. unfold input_add, TTY_LINE_BUFFER.
  destruct (Z.ltb_spec (line_pos t + 1) 128) as [Hlt|Hge]; [|done].
  set (t1 := set_line _ _ t). assert (Hl1 : tty_line t1 = tty_line t ++ [u8 c]) by (by apply append_line).
  assert (Hn : Z.of_nat (length (tty_line t ++ [u8 c])) = line_pos t1).
  { rewrite length_app, Nat2Z.inj_add, tty_line_length by done. cbn. lia. }
  cbn zeta. rewrite Hn. change (lflag t1 ICANON) with (lflag t ICANON). change (cc t1 VMIN) with (cc t VMIN).
  set (fl := if lflag t ICANON then c =? 10 else cc t VMIN <=? line_pos t1).
  match goal with |- context [let '(_, _) := ?x in _] => assert (Hx : x.1 = fl); [|destruct x as [b d']; cbn [fst] in Hx; subst b] end.
  { unfold fl. by destruct (lflag t ICANON); [destruct (c =? 10)|]. }
  destruct fl.
  - unfold wqueue_wakeup.
    destruct (cfifo_push_ok (fifo t) (line_buf t1) (line_pos t1)) as (Hc & Hwf & Hmax); [done|cbn; lia|cbn; rewrite aset_length; lia|].
    split; [|split; [|split; [done|]]].
    + split_and!; cbn [line_buf line_pos fifo wqueue set_wqueue set_line set_fifo t1]; try done; try lia; first [by rewrite aset_length | exact (eq_trans Hmax Hm)].
    + intros q. rewrite wake_all_procs. cbn [wqueue set_wqueue set_line set_fifo t1].
      destruct (_ && _) eqn:Hb; [done|]. intros Hst. rewrite Hst in Hb. cbn in Hb. rewrite andb_true_r in Hb.
      apply bool_decide_eq_false in Hb. by destruct Hb; apply Hs.
    + unfold view. f_equal. cbn [fifo set_wqueue set_line set_fifo]. change (fifo t1) with (fifo t). rewrite Hc, Hm, <- Hl1.
      unfold Spec.push, tty_line. f_equal. rewrite take_take. f_equal.
      assert (0 ≤ line_pos t1) by (cbn; lia). lia.
  - split; [|split; [done|split; [done|unfold view; by rewrite Hl1]]].
    split_and!; cbn [line_buf line_pos fifo wqueue set_line t1]; try done; try lia. by rewrite aset_length.
Qed.
End lemmas.

Section steps.
Context {A D : Type} (ops : tty_ops D).
Implicit Types (k : kernel A) (t : tty) (d : D).

Lemma view_wf_line t n : tty_wf t → 0 ≤ n < 128 → tty_wf (set_line (line_buf t) n t).
Proof. intros (Hl & _ & Hf & Hm & Hq) Hn. split_and!; done || apply Hn. Qed.

(** The canonical part, with the characters that are passed on. *)
Lemma input_canon_spec b c t d :
  tty_wf t → 
  let '(discard, c', t', d') := input_canon ops b c t d in
  let canon := lflag t ICANON in
  tty_wf t' ∧ ios t' = ios t ∧ wqueue t' = wqueue t ∧
  (canon && (c =? cc t VERASE) = true → discard = true ∧ view t' = (take (pred (length (tty_line t))) (tty_line t), contents (fifo t))) ∧
  (canon && (c =? cc t VERASE) = false → canon && (c =? cc t VKILL) = true →
     discard = true ∧ view t' = (if lflag t ECHOK then [] else tty_line t, contents (fifo t))) ∧
  (canon && (c =? cc t VERASE) = false → canon && (c =? cc t VKILL) = false →
     discard = b || (canon && (c =? cc t VEOF)) ∧ t' = t ∧
     (discard = false → c' = if canon && ((c =? 10) || (c =? cc t VEOL) || (c =? 13)) then 10 else c)).
Proof.
  intros Hwf. pose proof Hwf as (Hl & Hp & _). unfold input_canon. cbn zeta.
  destruct (lflag t ICANON); cbn [andb]; [|by rewrite orb_false_r; split_and!].
  destruct (c =? cc t VERASE) eqn:He; [destruct (Z.ltb_spec 0 (line_pos t))|].
  - split; [apply view_wf_line; [done|lia]|]. split_and!; try done. intros _. split; [done|]. unfold view. f_equal. apply erase_line; [done|lia].
  - split_and!; try done. intros _. split; [done|]. unfold view. f_equal. unfold tty_line. by replace (line_pos t) with 0 by lia.
  - destruct (c =? cc t VKILL) eqn:Hk; [destruct (lflag t ECHOK)|].
    + pose proof (kill_line_spec ops (Z.to_nat (line_pos t)) t d ltac:(lia)) as Hkl. destruct (kill_line _ _ _ _) as [t' d'].
      cbn [fst] in Hkl. subst t'. split; [apply view_wf_line; [done|lia]|]. by split_and!.
    + by split_and!.
    + destruct (c =? cc t VEOF); [by rewrite orb_true_r; split_and!|]. rewrite orb_false_r. destruct (_ || _); by split_and!.
Qed.

Lemma input_char_spec c t d k :
  tty_wf t → sleepers_queued t k →
  let '(r, t', d', k') := tty_input_char ops c t d k in
  r = 0 ∧ tty_wf t' ∧ sleepers_queued t' k' ∧ ios t' = ios t ∧ view t' = edit (ios t) c (view t).
Proof.
  intros Hwf Hs. unfold tty_input_char, edit. unfold view at 2. cbn zeta. destruct (c =? 0); cbn [negb]; [done|].
  fold (cc t VINTR) (cc t VQUIT) (cc t VSUSP) (cc t VERASE) (cc t VKILL) (cc t VEOF) (cc t VEOL) (cc t VMIN).
  fold (lflag t ICANON) (lflag t ISIG) (lflag t ECHOK).
  pose proof (input_signal_spec ops c t d k) as H1. destruct (input_signal ops c t d k) as [[b d1] k1]. destruct H1 as [Hb Hs1].
  specialize (Hs1 Hs). rewrite <- Hb. clear Hb Hs k.
  pose proof (input_canon_spec b c t d1 Hwf) as H2. destruct (input_canon ops b c t d1) as [[[b' c'] t1] d2]. cbn zeta in H2.
  destruct H2 as (Hwf1 & Hios & Hq & Her & Hki & Hot). assert (Hs2 : sleepers_queued t1 k1) by (unfold sleepers_queued; by rewrite Hq).
  destruct (lflag t ICANON && (c =? cc t VERASE)); [by destruct (Her eq_refl) as [-> Hv]; cbn [negb]; split_and!|]. clear Her.
  destruct (lflag t ICANON && (c =? cc t VKILL)); [by destruct (Hki eq_refl eq_refl) as [-> Hv]; cbn [negb]; split_and!|]. clear Hki.
  destruct (Hot eq_refl eq_refl) as (Hb' & -> & Hc). rewrite <- Hb'. destruct b'; cbn [negb]; [done|]. specialize (Hc eq_refl).
  rewrite tty_line_length by apply Hwf. rewrite <- Hc.
  pose proof (input_add_spec ops c' t d2 k1 Hwf Hs2) as H3. destruct (input_add ops c' t d2 k1) as [[t2 d3] k2].
  destruct H3 as (? & ? & ? & ->). split_and!; done.
Qed.

Lemma tty_read_spec p len t k :
  tty_wf t → sleepers_queued t k → 0 ≤ len < 2 ^ 32 →
  match tty_read len t (set_proc_current p k) with
  | inl (n, out, t', k') => tty_wf t' ∧ sleepers_queued t' k' ∧ ios t' = ios t ∧
      n = Z.of_nat (length out) ∧ out = take (Z.to_nat len) (contents (fifo t)) ∧ view t' = (tty_line t, drop (Z.to_nat len) (contents (fifo t)))
  | inr (t', k') => tty_wf t' ∧ sleepers_queued t' k' ∧ ios t' = ios t ∧ contents (fifo t) = [] ∧ view t' = view t
  end.
Proof.
  intros Hwf Hs Hlen. pose proof Hwf as (Hl & Hp & Hf & Hm & Hq). pose proof Hf as (_ & _ & _ & Hsz). unfold TTY_INPUT_BUFFER in Hm.
  pose proof (contents_length _ Hf) as Hcl. unfold tty_read. destruct (Z.ltb_spec 0 (size (fifo t))) as [Hpos|Hz].
  - rewrite Z.add_0_r, Z.sub_0_r, (u32_small (size (fifo t))), (u32_small len) by lia. rewrite if_lt_min.
    destruct (cfifo_pop_ok (fifo t) (Z.min len (size (fifo t))) Hf) as (Ho & Hc & Hwf' & Hmax); [lia|].
    destruct (cfifo_pop _ _) as [out f] eqn:Hpop. cbn [fst snd Spec.pop] in *.
    assert (Htk : out = take (Z.to_nat len) (contents (fifo t))).
    { rewrite Ho. destruct (decide (len ≤ size (fifo t))); [f_equal; lia|]. rewrite !take_ge by lia. done. }
    split; [|split; [done|split; [done|split_and!; [|done|]]]].
    + split_and!; try done; [apply Hp..|exact (eq_trans Hmax Hm)|]. intros _. by apply Hq.
    + rewrite Ho, length_take, Hcl. lia.
    + unfold view. f_equal. cbn [fifo set_fifo]. rewrite Hc. destruct (decide (len ≤ size (fifo t))); [f_equal; lia|]. rewrite !drop_ge by lia. done.
  - assert (Hc : contents (fifo t) = []) by (apply nil_length_inv; lia).
    cbn [wqueue_wait_event]. split; [|split; [|done]].
    + split_and!; try done; [apply Hp..|]. cbn. lia.
    + intros q. cbn [wqueue set_wqueue towake]. rewrite elem_of_app, list_elem_of_singleton.
      cbn [proc_current set_proc_current]. destruct (decide (q = p)) as [->|Hne]; [by right|].
      rewrite upd_proc_ne by done. intros Hst. left. by apply Hs.
Qed.

(** The terminal and the specification see the same line and the same input. *)
Definition tty_rel (v : termios) (s : @tty_state A D) (s' : tty_view) : Prop :=
  tty_wf s.1.1 ∧ sleepers_queued s.1.1 s.2 ∧ ios s.1.1 = v ∧ view s.1.1 = s'.

Lemma tty_event_sim v s s' e :
  tty_rel v s s' → event_ok e →
  (tty_event_step ops s e).2 = (spec_event v s' e).2 ∧ tty_rel v (tty_event_step ops s e).1 (spec_event v s' e).1.
Proof.
  destruct s as [[t d] k]. intros (Hwf & Hs & Hi & <-) He. cbn [fst snd] in *. destruct e as [c|p len]; cbn [tty_event_step spec_event].
  - pose proof (input_char_spec c t d k Hwf Hs) as H1. destruct (tty_input_char ops c t d k) as [[[r t1] d1] k1].
    destruct H1 as (_ & Hwf1 & Hs1 & Hi1 & Hv1). rewrite Hi in Hi1, Hv1. split; [done|by split_and!].
  - pose proof (tty_read_spec p len t k Hwf Hs He) as H1. unfold Spec.pop. cbn [fst snd view].
    destruct (tty_read _ _ _) as [[[[n out] t1] k1]|[t1 k1]].
    + destruct H1 as (Hwf1 & Hs1 & Hi1 & _ & -> & Hv1). rewrite Hi in Hi1. split; [done|by split_and!].
    + destruct H1 as (Hwf1 & Hs1 & Hi1 & Hc & Hv1). rewrite Hi in Hi1. unfold view in *. rewrite Hc, take_nil, drop_nil in *.
      split; [done|by split_and!].
Qed.

End steps.

(** A driver that collects what is written. *)
Definition demo_driver : tty_ops (list Z) :=
  mk_tty_ops None (Some (λ data d, (Z.of_nat (length data), d ++ data))) (λ c d, (0, d ++ [c])) None None None None None None None.

Definition demo_tty : tty := tty_default_init (replicate 256 0) (mk_tty 0 0 tty_default_termios (mk_fifo 0 0 0 []) (replicate 128 0) 0 INIT_WAIT_QUEUE).


(** *** What the input keeps of the driver *)

Section driver.
Context {A D : Type} (ops : tty_ops D) (P : D → Prop).
Context (Hput : ∀ c d, P d → P (op_putchar ops c d).2) (Hwrite : ∀ data d, P d → P (drv_write ops data d)).
Implicit Types (k : kernel A) (t : tty) (d : D).

Lemma echo_char_keeps t c d : P d → P (tty_echo_char ops t c d).
Proof. intros Hd. unfold tty_echo_char. case_match; auto. Qed.

Lemma echo_erase_keeps t c d : P d → P (tty_echo_erase ops t c d).
Proof. intros Hd. unfold tty_echo_erase. case_match; auto. Qed.

Lemma kill_line_keeps n t d : P d → P (kill_line ops n t d).2.
Proof. revert t d. induction n; intros t d Hd; [done|]. apply IHn, echo_erase_keeps, Hd. Qed.

Lemma input_char_keeps c t d k : P d → P (tty_input_char ops c t d k).1.2.
Proof.
  intros Hd. unfold tty_input_char. case_match; [|done].
  assert (H1 : P (input_signal ops c t d k).1.2) by (unfold input_signal; repeat case_match; cbn; auto using echo_char_keeps).
  destruct (input_signal ops c t d k) as [[b d1] k1]. cbn in H1.
  assert (H2 : P (input_canon ops b c t d1).2).
  { unfold input_canon. repeat case_match; cbn; auto using echo_erase_keeps.
    match goal with E : kill_line _ _ _ _ = _ |- _ => pose proof (kill_line_keeps (Z.to_nat (line_pos t)) t d1 H1) as Hk; by rewrite E in Hk end. }
  destruct (input_canon ops b c t d1) as [[[b2 c2] t2] d2]. cbn in H2. case_match; [|done].
  assert (H3 : P (input_add ops c2 t2 d2 k1).1.2).
  { unfold input_add. repeat case_match; simplify_eq; cbn; auto using echo_char_keeps. }
  by destruct (input_add ops c2 t2 d2 k1) as [[t3 d3] k3].
Qed.
End driver.

(** *** Signals from the terminal *)

Section interrupt.
Context {A D : Type} (ops : tty_ops D).
Implicit Types (k : kernel A) (t : tty) (d : D).

(** The signal a character sends to the foreground group. *)
Definition char_signal t (c : Z) : option Z :=
  if negb (c =? 0) && lflag t ISIG && negb (fpgid t =? 0) then
    if c =? cc t VINTR then Some SIGINT
    else if c =? cc t VQUIT then None
    else if c =? cc t VSUSP then Some SIGSTOP else None
  else None.

Lemma char_signal_kernel t c d k sig :
  char_signal t c = Some sig → (tty_input_char ops c t d k).2 = signal_pgid_raise (fpgid t) sig k.
Proof.
  unfold char_signal, tty_input_char, input_signal. destruct (c =? 0); [done|]. cbn [negb andb].
  destruct (lflag t ISIG); [|done]. destruct (fpgid t =? 0); [done|]. cbn [negb andb].
  assert (Hd : ∀ d' k', (let '(discard, c', t', d'') := input_canon ops true c t d' in
    if negb discard then let '(t'', d''', k'') := input_add ops c' t' d'' k' in (0, t'', d''', k'') else (0, t', d'', k')).2 = k').
  { intros d' k'. pose proof (input_canon ops true c t d') as _. unfold input_canon.
    destruct (lflag t ICANON); [|done]. destruct (c =? cc t VERASE); [by destruct (0 <? _)|].
    destruct (c =? cc t VKILL); [destruct (lflag t ECHOK); [by destruct (kill_line _ _ _ _)|done]|].
    destruct (c =? cc t VEOF); [done|]. by destruct (_ || _). }
  destruct (c =? cc t VINTR); [by intros [= <-]; apply Hd|]. destruct (c =? cc t VQUIT); [done|].
  destruct (c =? cc t VSUSP); [by intros [= <-]; apply Hd|done].
Qed.

(** The interrupt and suspend characters raise SIGINT and SIGSTOP on exactly the
    processes of the foreground group of the terminal; no other process changes. *)
Theorem tty_signals_foreground t d k c sig :
  char_signal t c = Some sig → NoDup (process_list k) →
  let k' := (tty_input_char ops c t d k).2 in
  ∀ q, k_procs k' q =
    if bool_decide (q ∈ process_list k) && (pgid (k_procs k q) =? fpgid t) then raised sig (k_procs k q) else k_procs k q.
Proof.
  intros Hc Hnd k' q. unfold k'. rewrite (char_signal_kernel t c d k sig Hc). by apply pgid_raise_loop.
Qed.
End interrupt.

(** Control-C with the group 5 in the foreground and one process of the group. *)
Lemma tty_signals_foreground_witness :
  let k := set_process_list [16] (upd_proc 16 (set_pgid 5) (zero_kernel tt)) in
  sig_pending (k_procs (tty_input_char demo_driver 3 (set_fpgid 5 demo_tty) [] k).2 16) = 4.
Proof.
  intros k. rewrite (tty_signals_foreground demo_driver (set_fpgid 5 demo_tty) [] k 3 SIGINT eq_refl (NoDup_singleton 16)).
  rewrite bool_decide_eq_true_2 by apply list_elem_of_here. reflexivity.
Defined.
