(* ===== verification/Time.v ===== *)
(** * Time (src/sys/time.c, src/sys/stimer.c, src/sys/cpu_load.h, src/arch/sh/rtc.c)

    The clock interrupt advances the monotonic clock, charges the tick to the
    current process, runs the expired software timers and lets the scheduler
    check the quantum.  The calendar registers of the RTC give the time since
    the epoch.  A timer callback may add timers, as the periodic ones do. *)

From S2P Require Import Prelude PhysMem PoolAlloc KMem Pid Mmu PageDir Kernel Scheduler Pipe VfsFile MemArea Signal Process.

(** src/arch/sh/include/arch/time.h:23-23: TICK_HZ *)
Definition TICK_HZ : Z := 256.

(** src/sys/time.h:34-35: TICKS_MSEC_NOTNULL *)
Definition TICKS_MSEC_NOTNULL (msec : Z) : Z := if msec * TICK_HZ ÷ 1000 <=? 0 then 1 else msec * TICK_HZ ÷ 1000.

(** src/interface/fixos/time.h: timespec *)
Record timespec := mk_timespec { tv_sec : Z; tv_nsec : Z }.

(** src/sys/time.h: time_add_hr *)
Definition time_add_hr (t1 t2 : timespec) : timespec :=
  let sec := u32 (tv_sec t1 + tv_sec t2) in
  let nsec := s32 (tv_nsec t1 + tv_nsec t2) in
  if 1000 * 1000 * 1000 <=? nsec then mk_timespec (u32 (sec + 1)) (nsec - 1000 * 1000 * 1000) else mk_timespec sec nsec.

(** src/sys/time.c:45-48: g_arch_tick_time *)
Definition g_arch_tick_time : timespec := mk_timespec 0 3906250.

(** ** Software timers *)

(** src/sys/stimer.c:32-32: STIMER_MAX_JOBS *)
Definition STIMER_MAX_JOBS : Z := 10.

(** A free job has a NULL [func]. *)
(** src/sys/stimer.c: stimer_job *)
Record stimer_job := mk_job { func : ptr; data : ptr; remaining_ticks : Z }.

Definition job0 : stimer_job := mk_job NULL NULL 0.
Definition jget (js : list stimer_job) (i : Z) : stimer_job := nth (Z.to_nat i) js job0.

(** src/sys/stimer.c: stimer_init *)
Definition stimer_init (js : list stimer_job) : list stimer_job :=
  (λ j, mk_job NULL (data j) (remaining_ticks j)) <$> js.

(** Returns the slot of the job, or -1 for NULL. *)
(** src/sys/stimer.c: stimer_add *)
Definition stimer_add (f d : ptr) (duration : Z) (js : list stimer_job) : Z * list stimer_job :=
  let i := Z.of_nat (scan (λ j, func j =? NULL) js) in
  if i <? STIMER_MAX_JOBS then (i, aset js i (mk_job f d duration)) else (-1, js).

(** src/sys/stimer.c: stimer_remove *)
Definition stimer_remove (i : option Z) (js : list stimer_job) : Z * list stimer_job :=
  match i with
  | Some i => (0, aset js i (mk_job NULL (data (jget js i)) (remaining_ticks (jget js i))))
  | None => (1, js)
  end.

Section tick.
Context {S : Type}.

(** [call f d] is the call [f(d)]: it can change the timers and the rest of the state. *)
Context (call : ptr → ptr → list stimer_job * S → list stimer_job * S).

(** The visit of one slot, with the calls made. *)
(** src/sys/stimer.c:85-91: stimer_do_tick *)
Definition tick_slot (st : list stimer_job * S * list (Z * ptr * ptr)) (i : Z) : list stimer_job * S * list (Z * ptr * ptr) :=
  let '(js, s, log) := st in
  let j := jget js i in
  if negb (func j =? NULL) then
    let j := mk_job (func j) (data j) (u32 (remaining_ticks j - 1)) in
    let js := aset js i j in
    if remaining_ticks j <=? 0 then
      let '(js, s) := call (func j) (data j) (js, s) in
      (aset js i (mk_job NULL (data (jget js i)) (remaining_ticks (jget js i))), s, log ++ [(i, func j, data j)])
    else (js, s, log)
  else st.

(** src/sys/stimer.c: stimer_do_tick *)
Definition stimer_do_tick (js : list stimer_job) (s : S) : list stimer_job * S * list (Z * ptr * ptr) :=
  foldl tick_slot (js, s, []) (seqZ 0 STIMER_MAX_JOBS).
End tick.

(** ** CPU load *)

(** src/sys/process.h:55-55: PROC_LOAD_SAMPLES *)
Definition PROC_LOAD_SAMPLES : Z := 4.
(** src/sys/process.h:56-56: PROC_LOAD_SAMPMAX *)
Definition PROC_LOAD_SAMPMAX : Z := 64.

(** src/sys/cpu_load.h: load_proc_update *)
Definition load_proc_update (cur_ticks : Z) (p : process) : process :=
  let deltasample := u32 (cur_ticks / PROC_LOAD_SAMPMAX - load_last p / PROC_LOAD_SAMPMAX) in
  let first := (load_last p / PROC_LOAD_SAMPMAX) mod PROC_LOAD_SAMPLES in
  let p :=
    if deltasample =? 0 then p
    else if deltasample =? 1 then
      set_load_cursamp 0 (set_load_samples (aset (load_samples p) first (load_cursamp p)) p)
    else
      let nb := if PROC_LOAD_SAMPLES <? deltasample then PROC_LOAD_SAMPLES else deltasample in
      let samples := foldl (λ l i, aset l ((first + i) mod PROC_LOAD_SAMPLES) 0) (load_samples p) (seqZ 1 (nb - 1)) in
      set_load_cursamp 0 (set_load_samples (aset samples first (load_cursamp p)) p) in
  set_load_last cur_ticks p.

(** src/sys/cpu_load.h: load_proc_addtick *)
Definition load_proc_addtick (ticks : Z) (p : process) : process :=
  let p := load_proc_update ticks p in set_load_cursamp (u8 (load_cursamp p + 1)) p.

(** src/sys/cpu_load.h: load_proc_average *)
Definition load_proc_average (ticks : Z) (p : process) : Z * process :=
  let p := load_proc_update ticks p in
  (foldl Z.add 0 (load_samples p) * 100 * 100 ÷ (PROC_LOAD_SAMPMAX * PROC_LOAD_SAMPLES), p).

(** ** The real time clock *)

(** The decimal digits of the calendar registers. *)
(** src/arch/sh/rtc.c:67-86: RTC *)
Record rtc_regs := mk_rtc {
  Y1000 : Z; Y100 : Z; Y10 : Z; Y1 : Z; Mo10 : Z; Mo1 : Z; D10 : Z; D1 : Z;
  H10 : Z; H1 : Z; Mi10 : Z; Mi1 : Z; S10 : Z; S1 : Z
}.

(** src/arch/sh/rtc.c:60-62: mdays_elapsed *)
Definition mdays_elapsed : list Z := [0; 31; 59; 90; 120; 151; 181; 212; 243; 273; 304; 334].
(** src/arch/sh/rtc.c:63-65: mdays_elapsed_leap *)
Definition mdays_elapsed_leap : list Z := [0; 31; 60; 91; 121; 152; 182; 213; 244; 274; 305; 335].

(** The sums in [int] and in [time_t] are modulo 2^32. *)
(** src/arch/sh/rtc.c: arch_time_get_hw *)
Definition arch_time_get_hw (r : rtc_regs) : timespec :=
  let tmp := Y1000 r * 1000 + Y100 r * 100 + Y10 r * 10 + Y1 r in
  let isleap := ((Z.rem tmp 4 =? 0) && negb (Z.rem tmp 100 =? 0)) || (Z.rem tmp 400 =? 0) in
  let tmp := tmp - 1900 in
  let ret := u32 ((tmp - 70) * (3600 * 24 * 365) + (tmp - 69) ÷ 4 * (3600 * 24)
                  - (tmp - 1) ÷ 100 * (3600 * 24) + (tmp + 299) ÷ 400 * (3600 * 24)) in
  let tmp := Mo10 r * 10 + Mo1 r in
  let tmp := if tmp <? 1 then 0 else if 12 <? tmp then 11 else tmp - 1 in
  let ret := u32 (ret + aget (if (isleap : bool) then mdays_elapsed_leap else mdays_elapsed) tmp * (3600 * 24)) in
  let tmp := D10 r * 10 + D1 r in
  let ret := u32 (ret + (tmp - 1) * (3600 * 24)) in
  let ret := u32 (ret + (((H10 r * 10 + H1 r) * 60 + Mi10 r * 10 + Mi1 r) * 60 + S10 r * 10 + S1 r)) in
  mk_timespec ret 0.

(** ** The clock *)

(** src/sys/time.c:30-37: _monotonic_ticks *)
Record clock := mk_clock { monotonic_ticks : Z; monotonic_time : timespec; init_epoch_time : timespec }.

(** src/sys/time.c: time_init *)
Definition time_init (r : rtc_regs) (c : clock) : clock := mk_clock 0 (mk_timespec 0 0) (arch_time_get_hw r).

(** src/sys/time.c: time_monotonic_ticks *)
Definition time_monotonic_ticks (c : clock) : Z := monotonic_ticks c.

(** src/sys/time.c: time_monotonic_time *)
Definition time_monotonic_time (c : clock) : timespec := mk_timespec (tv_sec (monotonic_time c)) (tv_nsec (monotonic_time c)).

(** src/sys/time.c: time_real_time *)
Definition time_real_time (c : clock) : timespec := time_add_hr (monotonic_time c) (init_epoch_time c).

(** src/sys/time.c: sys_gettimeofday *)
Definition sys_gettimeofday (c : clock) : Z * timespec :=
  let t := time_real_time c in (0, mk_timespec (tv_sec t) (tv_nsec t)).

Section clock.
Context {A R : Type}.
Implicit Types (k : kernel A).

(** Timers act on the kernel and on the state [R] of the drivers. *)
Context (call : ptr → ptr → list stimer_job * (kernel A * R) → list stimer_job * (kernel A * R)).

(** src/sys/time.c: time_do_tick *)
Definition time_do_tick (c : clock) (js : list stimer_job) k (r : R)
  : clock * list stimer_job * kernel A * R * list (Z * ptr * ptr) :=
  let c := mk_clock (u32 (monotonic_ticks c + 1)) (time_add_hr (monotonic_time c) g_arch_tick_time) (init_epoch_time c) in
  let cur := proc_current k in
  let k :=
    if negb (cur =? NULL) then
      let k := if arch_process_mode k cur =? 1
               then upd_proc cur (λ p, set_uticks (u32 (uticks p + 1)) p) k
               else upd_proc cur (λ p, set_kticks (u32 (kticks p + 1)) p) k in
      upd_proc cur (load_proc_addtick (time_monotonic_ticks c)) k
    else k in
  let '(js, (k, r), log) := stimer_do_tick call js (k, r) in
  (c, js, sched_check k, r, log).

(** The times of the current process, and the result. *)
(** src/sys/time.c: sys_times *)
Definition sys_times (c : clock) k : Z * (Z * Z * Z * Z) :=
  let cur := k_procs k (proc_current k) in
  (monotonic_ticks c, (uticks cur, kticks cur, 0, 0)).

(** src/sys/scheduler.c: nanosleep_timeout *)
Definition nanosleep_timeout (data : ptr) k : kernel A := sched_wake_up data k.

(** Up to the call of [sched_schedule]; [timeout] is the address of
    [nanosleep_timeout].  NULL is [None]. *)
(** src/sys/scheduler.c: sys_nanosleep *)
Definition sys_nanosleep (timeout : ptr) (req : option timespec) (js : list stimer_job) k : Z * list stimer_job * kernel A :=
  match req with
  | Some t =>
      let ticks := u32 (tv_sec t * TICK_HZ + tv_nsec t ÷ (1000 * 1000 * 1000 ÷ TICK_HZ)) in
      let cur := proc_current k in
      let k := sched_preempt_block k in
      let js := (stimer_add timeout cur ticks js).2 in
      let k := upd_proc cur (set_state PROCESS_STATE_UNINTERRUPTIBLE) k in
      (0, js, sched_preempt_unblock k)
  | None => (-1, js, k)
  end.
End clock.

(** ** Timers expire on time *)

Section exact.
Context {T : Type} (call : ptr → ptr → list stimer_job * T → list stimer_job * T).

(** Callbacks only add timers: the slots in use are as they were. *)
Definition only_adds : Prop :=
  ∀ f d js s, let '(js', _) := call f d (js, s) in
    length js' = length js ∧ ∀ i, func (jget js i) ≠ NULL → jget js' i = jget js i.

Lemma jget_aset_eq js i j : (0 ≤ i < Z.of_nat (length js)) → jget (aset js i j) i = j.
Proof. intros Hi. unfold jget, aset. apply nth_lookup_Some, list_lookup_insert_eq. lia. Qed.

Lemma jget_aset_ne js i i' j : 0 ≤ i → 0 ≤ i' → i ≠ i' → jget (aset js i' j) i = jget js i.
Proof.
  intros Hi Hi' Hne. unfold jget, aset. rewrite !nth_lookup. by rewrite list_lookup_insert_ne by lia.
Qed.

(** The calls a tick made for a slot. *)
Definition fired (i : Z) (log : list (Z * ptr * ptr)) : list (Z * ptr * ptr) := filter (λ e, e.1.1 = i) log.

(** The visit of a slot leaves the other slots in use alone. *)
Lemma tick_slot_other js s log i i' :
  only_adds → 0 ≤ i → 0 ≤ i' → i ≠ i' →
  let '(js', s', log') := tick_slot call (js, s, log) i' in
  length js' = length js ∧ (func (jget js i) ≠ NULL → jget js' i = jget js i) ∧ fired i log' = fired i log.
Proof.
  intros Hc Hi Hi' Hne. unfold tick_slot. destruct (negb _); [|done].
  cbn zeta. set (j := mk_job _ _ _). assert (H1 : jget (aset js i' j) i = jget js i) by (by apply jget_aset_ne).
  destruct (_ <=? 0).
  - pose proof (Hc (func j) (data j) (aset js i' j) s) as Hc'. destruct (call _ _ _) as [js1 s1]. destruct Hc' as [Hl Hk].
    rewrite aset_length, Hl, aset_length. split; [done|]. split.
    + intros Hf. rewrite jget_aset_ne by done. rewrite Hk; [done|by rewrite H1].
    + unfold fired. rewrite filter_app, filter_cons_False by (cbn; lia). by rewrite filter_nil, app_nil_r.
  - rewrite aset_length. by split_and!.
Qed.

Lemma tick_slots_other sl : ∀ js s log i,
  only_adds → 0 ≤ i → Forall (λ i', 0 ≤ i' ∧ i ≠ i') sl →
  let '(js', s', log') := foldl (tick_slot call) (js, s, log) sl in
  length js' = length js ∧ (func (jget js i) ≠ NULL → jget js' i = jget js i) ∧ fired i log' = fired i log.
Proof.
  induction sl as [|i' sl IH]; intros js s log i Hc Hi His; cbn [foldl]; [done|]. apply Forall_cons in His as [[Hi' Hne] His].
  pose proof (tick_slot_other js s log i i' Hc Hi Hi' Hne) as H1. destruct (tick_slot call (js, s, log) i') as [[js1 s1] log1].
  destruct H1 as (Hl1 & Hj1 & Hf1). specialize (IH js1 s1 log1 i Hc Hi His).
  destruct (foldl _ _ sl) as [[js2 s2] log2]. destruct IH as (Hl2 & Hj2 & Hf2). split_and!; [congruence| |congruence].
  intros Hf. specialize (Hj1 Hf). rewrite Hj1 in Hj2. by apply Hj2.
Qed.

(** What one tick does to a running timer. *)
Lemma tick_running js s i f d r :
  only_adds → length js = 10%nat → 0 ≤ i < 10 → jget js i = mk_job f d r → f ≠ NULL → 1 ≤ r < 2 ^ 32 →
  let '(js', s', log) := stimer_do_tick call js s in
  length js' = 10%nat ∧ fired i log = (if decide (r = 1) then [(i, f, d)] else []) ∧
  (r ≠ 1 → jget js' i = mk_job f d (r - 1)).
Proof.
  intros Hc Hl Hi Hj Hf Hr. unfold stimer_do_tick. change STIMER_MAX_JOBS with 10.
  replace (seqZ 0 10) with (seqZ 0 i ++ i :: seqZ (i + 1) (9 - i)).
  2:{ replace 10 with (i + (10 - i)) by lia. rewrite seqZ_app by lia. rewrite (seqZ_cons (0 + i)) by lia. f_equal. f_equal. f_equal; lia. }
  rewrite foldl_app. cbn [foldl].
  pose proof (tick_slots_other (seqZ 0 i) js s [] i Hc (proj1 Hi)) as H1. rewrite Hj in H1.
  destruct (foldl _ (js, s, []) (seqZ 0 i)) as [[js1 s1] log1].
  destruct H1 as (Hl1 & Hj1 & Hf1); [apply Forall_forall; intros x Hx%elem_of_seqZ; lia|]. specialize (Hj1 Hf).
  cbn [fired filter list_filter] in Hf1. unfold tick_slot at 2. rewrite Hj1. cbn [func data remaining_ticks].
  rewrite (proj2 (Z.eqb_neq f NULL) Hf). cbn [negb]. cbn zeta. rewrite u32_small by lia. cbn [func data remaining_ticks].
  assert (Hrest : Forall (λ i', 0 ≤ i' ∧ i ≠ i') (seqZ (i + 1) (9 - i))) by (apply Forall_forall; intros x Hx%elem_of_seqZ; lia).
  destruct (Z.leb_spec (r - 1) 0) as [Hz|Hp].
  - pose proof (Hc f d (aset js1 i (mk_job f d (r - 1))) s1) as Hc'. destruct (call _ _ _) as [js2 s2]. destruct Hc' as [Hl2 _].
    rewrite aset_length in Hl2. match goal with |- context [foldl _ (?a, ?b, ?c) _] => pose proof (tick_slots_other (seqZ (i + 1) (9 - i)) a b c i Hc (proj1 Hi) Hrest) as H3 end.
    destruct (foldl _ _ _) as [[js3 s3] log3]. destruct H3 as (Hl3 & _ & Hf3). rewrite aset_length in Hl3.
    assert (Hr1 : r = 1) by lia. rewrite decide_True by done. split_and!; [lia| |done].
    rewrite Hf3. unfold fired in *. rewrite filter_app. rewrite Hf1. by rewrite filter_cons_True.
  - match goal with |- context [foldl _ (?a, ?b, ?c) _] => pose proof (tick_slots_other (seqZ (i + 1) (9 - i)) a b c i Hc (proj1 Hi) Hrest) as H3 end.
    destruct (foldl _ _ _) as [[js3 s3] log3]. rewrite jget_aset_eq in H3 by lia. destruct H3 as (Hl3 & Hj3 & Hf3). rewrite aset_length in Hl3.
    rewrite decide_False by lia. split_and!; [lia|by rewrite Hf3|]. intros _. by apply Hj3.
Qed.

(** The logs of successive ticks. *)
Fixpoint ticks (n : nat) (js : list stimer_job) (s : T) : list stimer_job * T * list (list (Z * ptr * ptr)) :=
  match n with
  | O => (js, s, [])
  | S n => let '(js, s, log) := stimer_do_tick call js s in let '(js, s, logs) := ticks n js s in (js, s, log :: logs)
  end.

End exact.

(** Adding a timer leaves the timers in use alone: the callbacks of the kernel, which
    wake a process or set themselves again, only add timers. *)
Lemma stimer_add_keeps f d n js :
  length (stimer_add f d n js).2 = length js ∧ ∀ i, func (jget js i) ≠ NULL → jget (stimer_add f d n js).2 i = jget js i.
Proof.
  unfold stimer_add. destruct (_ <? _); [|done]. cbn [snd]. rewrite aset_length. split; [done|]. intros i Hf.
  set (sl := scan (λ j, func j =? NULL) js). unfold jget, aset. rewrite !nth_lookup, Nat2Z.id.
  destruct (decide (Z.to_nat i = sl)) as [He|He]; [|by rewrite list_lookup_insert_ne].
  unfold jget in Hf. rewrite nth_lookup, He in Hf. destruct (js !! sl) as [x|] eqn:Hx; [|done]. cbn in Hf.
  destruct (scan_stop (λ j, func j =? NULL) js) as (y & Hy & Hn).
  { apply lookup_lt_Some in Hx. exact Hx. }
  fold sl in Hy. rewrite Hx in Hy. injection Hy as <-. by apply Z.eqb_eq in Hn.
Qed.

(** A periodic callback, as those of the keyboard and of the cursor. *)
Definition periodic (f d : ptr) (st : list stimer_job * unit) : list stimer_job * unit := ((stimer_add f d 7 st.1).2, st.2).

Lemma periodic_only_adds : only_adds periodic.
Proof. intros f d js s. apply stimer_add_keeps. Qed.


(** A callback that sets itself again in a slot not visited yet loses the current tick:
    the timer set for 7 ticks makes its call after 6. *)
Example periodic_early :
  let '(js, _, _) := stimer_do_tick periodic (mk_job 16 0 1 :: replicate 9 job0) tt in jget js 1 = mk_job 16 0 6.
Proof. reflexivity. Qed.

(** ** The monotonic clock *)

(** Nanoseconds of a time. *)
Definition nanoseconds (t : timespec) : Z := tv_sec t * 1000000000 + tv_nsec t.

Section monotonic.
Context {A R : Type} (call : ptr → ptr → list stimer_job * (kernel A * R) → list stimer_job * (kernel A * R)).

Definition tick_state : Type := clock * list stimer_job * kernel A * R.
Definition one_tick (st : tick_state) : tick_state :=
  let '(c, js, k, r) := st in let '(c, js, k, r, _) := time_do_tick call c js k r in (c, js, k, r).

Lemma add_hr_nano t1 t2 :
  0 ≤ tv_nsec t1 < 1000000000 → 0 ≤ tv_nsec t2 < 1000000000 → 0 ≤ tv_sec t1 → 0 ≤ tv_sec t2 → tv_sec t1 + tv_sec t2 + 1 < 2 ^ 32 →
  nanoseconds (time_add_hr t1 t2) = nanoseconds t1 + nanoseconds t2 ∧ 0 ≤ tv_nsec (time_add_hr t1 t2) < 1000000000 ∧
  tv_sec t1 + tv_sec t2 ≤ tv_sec (time_add_hr t1 t2) ≤ tv_sec t1 + tv_sec t2 + 1.
Proof.
  intros H1 H2 H3 H4 H5. unfold time_add_hr, nanoseconds. cbn zeta. rewrite (u32_small (tv_sec t1 + tv_sec t2)), s32_small by lia.
  destruct (Z.leb_spec (1000 * 1000 * 1000) (tv_nsec t1 + tv_nsec t2)); cbn [tv_sec tv_nsec]; [rewrite u32_small by lia|]; lia.
Qed.

(** The part of a tick that concerns the clock. *)
Definition clock_tick (c : clock) : clock :=
  mk_clock (u32 (monotonic_ticks c + 1)) (time_add_hr (monotonic_time c) g_arch_tick_time) (init_epoch_time c).

Lemma one_tick_clock st : (one_tick st).1.1.1 = clock_tick st.1.1.1.
Proof.
  destruct st as [[[c js] k] r]. unfold one_tick, time_do_tick. cbn zeta.
  match goal with |- context [stimer_do_tick ?a ?b ?x] => destruct (stimer_do_tick a b x) as [[js2 [k2 r2]] log] end. done.
Qed.

Lemma iter_clock n st : (Nat.iter n one_tick st).1.1.1 = Nat.iter n clock_tick st.1.1.1.
Proof. induction n as [|n IH]; [done|]. by rewrite !Nat.iter_succ, one_tick_clock, IH. Qed.

Lemma clock_ticks_inv n c :
  monotonic_ticks c = 0 → monotonic_time c = mk_timespec 0 0 → Z.of_nat n < 2 ^ 32 →
  let c' := Nat.iter n clock_tick c in
  monotonic_ticks c' = Z.of_nat n ∧ nanoseconds (monotonic_time c') = Z.of_nat n * 3906250 ∧ 0 ≤ tv_sec (monotonic_time c') ∧
  0 ≤ tv_nsec (monotonic_time c') < 1000000000 ∧ init_epoch_time c' = init_epoch_time c.
Proof.
  intros H1 H2. induction n as [|n IH]; intros Hn.
  - cbn [Nat.iter nat_rect]. rewrite H1, H2. unfold nanoseconds. cbn [tv_sec tv_nsec]. split_and!; try done; lia.
  - destruct (IH ltac:(lia)) as (I1 & I2 & I3 & I4 & I5). rewrite Nat.iter_succ. set (c1 := Nat.iter n clock_tick c) in *. clearbody c1. cbn zeta.
    unfold clock_tick. cbn [monotonic_ticks monotonic_time init_epoch_time]. unfold nanoseconds in I2.
    destruct (add_hr_nano (monotonic_time c1) g_arch_tick_time) as (Ha & Hb & Hc); cbn [g_arch_tick_time tv_sec tv_nsec]; [lia..|].
    rewrite Ha. unfold nanoseconds. cbn [g_arch_tick_time tv_sec tv_nsec] in *. rewrite I1, u32_small by lia. split_and!; try done; lia.
Qed.

(** After [time_init] and [n] clock ticks the tick counter is [n] and the monotonic
    time is [n] periods of 1/256 s, whatever the timers and the processes do; the real
    time is that much after the time read at boot. *)
Theorem clock_counts_ticks regs c js k r n :
  Z.of_nat n < 2 ^ 32 → tv_sec (arch_time_get_hw regs) + Z.of_nat n / 256 + 2 < 2 ^ 32 →
  let c' := (Nat.iter n one_tick (time_init regs c, js, k, r)).1.1.1 in
  time_monotonic_ticks c' = Z.of_nat n ∧ nanoseconds (time_monotonic_time c') = Z.of_nat n * 3906250 ∧
  nanoseconds (sys_gettimeofday c').2 = nanoseconds (arch_time_get_hw regs) + Z.of_nat n * 3906250.
Proof.
  intros Hn Hs. cbn zeta. rewrite iter_clock. cbn [fst].
  destruct (clock_ticks_inv n (time_init regs c) eq_refl eq_refl Hn) as (I1 & I2 & I3 & I4 & I5). set (c1 := Nat.iter n clock_tick (time_init regs c)) in *. clearbody c1.
  change (init_epoch_time (time_init regs c)) with (arch_time_get_hw regs) in I5.
  assert (Hh : 0 ≤ tv_sec (arch_time_get_hw regs) ∧ tv_nsec (arch_time_get_hw regs) = 0) by (split; [apply u32_range|reflexivity]).
  split; [exact I1|]. split; [exact I2|]. unfold sys_gettimeofday, time_real_time. rewrite I5. set (t := arch_time_get_hw regs) in *. clearbody t.
  destruct (add_hr_nano (monotonic_time c1) t) as (Ha & _); [lia..| |].
  - unfold nanoseconds in I2. pose proof (Z.div_mod (Z.of_nat n) 256 ltac:(lia)). pose proof (Z.mod_pos_bound (Z.of_nat n) 256). lia.
  - unfold nanoseconds in *. cbn [snd tv_sec tv_nsec]. lia.
Qed.
End monotonic.

Definition demo_rtc : rtc_regs := mk_rtc 2 0 1 6 0 2 2 9 1 2 3 4 5 6.

Lemma clock_counts_ticks_witness :
  let c := mk_clock 0 (mk_timespec 0 0) (mk_timespec 0 0) in
  nanoseconds (time_monotonic_time (Nat.iter 4 (one_tick (λ _ _ st, st)) (time_init demo_rtc c, replicate 10 job0, zero_kernel tt, tt)).1.1.1) = 15625000.
Proof.
  intros c. destruct (clock_counts_ticks (λ _ _ st, st) demo_rtc c (replicate 10 job0) (zero_kernel tt) tt 4) as (_ & H & _);
    [lia|vm_compute; reflexivity|]. rewrite H. reflexivity.
Defined.

(** ** The calendar *)

(** The Gregorian calendar, by summing the lengths of the years and of the months. *)
Definition is_leap (y : Z) : bool := ((y mod 4 =? 0) && negb (y mod 100 =? 0)) || (y mod 400 =? 0).
Definition year_days (y : Z) : Z := if is_leap y then 366 else 365.
Definition month_days (y m : Z) : Z :=
  if m =? 2 then (if is_leap y then 29 else 28) else if (m =? 4) || (m =? 6) || (m =? 9) || (m =? 11) then 30 else 31.

Fixpoint sum_days (f : Z → Z) (from : Z) (n : nat) : Z :=
  match n with O => 0 | S n => sum_days f from n + f (from + Z.of_nat n) end.

(** Seconds since the beginning of 1970. *)
Definition epoch_seconds (y mo d h mi sec : Z) : Z :=
  (sum_days year_days 1970 (Z.to_nat (y - 1970)) + sum_days (month_days y) 1 (Z.to_nat (mo - 1)) + (d - 1)) * 86400 + h * 3600 + mi * 60 + sec.

(** The closed formula of the code for the days before a year. *)
Lemma years_formula n :
  sum_days year_days 1970 n =
  Z.of_nat n * 365 + (Z.of_nat n + 1) / 4 - (Z.of_nat n + 69) / 100 + (Z.of_nat n + 369) / 400.
Proof.
  induction n as [|n IH]; [done|]. cbn [sum_days]. rewrite IH. unfold year_days, is_leap. set (y := Z.of_nat n).
  assert (0 ≤ y) by lia. replace (Z.of_nat (S n)) with (y + 1) by lia. clearbody y. clear IH.
  destruct (Z.eqb_spec ((1970 + y) mod 4) 0), (Z.eqb_spec ((1970 + y) mod 100) 0), (Z.eqb_spec ((1970 + y) mod 400) 0); cbn [negb andb orb];
    Z.to_euclidean_division_equations; lia.
Qed.

Lemma months_formula y m : 1 ≤ m ≤ 12 →
  sum_days (month_days y) 1 (Z.to_nat (m - 1)) = aget (if is_leap y then mdays_elapsed_leap else mdays_elapsed) (m - 1).
Proof.
  intros Hm. assert (Hc : m ∈ seqZ 1 12) by (apply elem_of_seqZ; lia). change (seqZ 1 12) with [1; 2; 3; 4; 5; 6; 7; 8; 9; 10; 11; 12] in Hc.
  repeat (apply elem_of_cons in Hc as [->|Hc]; [unfold month_days; by destruct (is_leap y)|]). by apply elem_of_nil in Hc.
Qed.

Lemma month_days_le y m : month_days y m ≤ 31.
Proof. unfold month_days. destruct (m =? 2); [destruct (is_leap y)|destruct (_ || _)]; lia. Qed.

Lemma months_bound (b : bool) m : 1 ≤ m ≤ 12 → 0 ≤ aget (if b then mdays_elapsed_leap else mdays_elapsed) (m - 1) ≤ 335.
Proof.
  intros Hm. assert (Hc : m ∈ seqZ 1 12) by (apply elem_of_seqZ; lia). change (seqZ 1 12) with [1; 2; 3; 4; 5; 6; 7; 8; 9; 10; 11; 12] in Hc.
  repeat (apply elem_of_cons in Hc as [->|Hc]; [destruct b; vm_compute; split; discriminate|]). by apply elem_of_nil in Hc.
Qed.

Definition year_of (r : rtc_regs) : Z := Y1000 r * 1000 + Y100 r * 100 + Y10 r * 10 + Y1 r.

(** From the calendar registers to the time since the epoch: for every date from
    1970 to 2105 the code computes the seconds of the Gregorian calendar, leap years
    included. *)
Theorem rtc_time_correct r :
  let y := year_of r in let mo := Mo10 r * 10 + Mo1 r in let d := D10 r * 10 + D1 r in
  let h := H10 r * 10 + H1 r in let mi := Mi10 r * 10 + Mi1 r in let sec := S10 r * 10 + S1 r in
  1970 ≤ y < 2106 → 1 ≤ mo ≤ 12 → 1 ≤ d ≤ month_days y mo → 0 ≤ h < 24 → 0 ≤ mi < 60 → 0 ≤ sec < 60 →
  arch_time_get_hw r = mk_timespec (epoch_seconds y mo d h mi sec) 0.
Proof.
  intros y mo d h mi sec Hy Hmo Hd Hh Hmi Hsec. unfold arch_time_get_hw, epoch_seconds. fold (year_of r). cbn zeta. fold y mo d. f_equal.
  rewrite (Z.rem_mod_nonneg y 4), (Z.rem_mod_nonneg y 100), (Z.rem_mod_nonneg y 400) by lia. fold (is_leap y).
  rewrite (proj2 (Z.ltb_ge mo 1)), (proj2 (Z.ltb_ge 12 mo)) by lia. rewrite years_formula, months_formula by lia.
  rewrite !Z.quot_div_nonneg by lia. replace (Z.of_nat (Z.to_nat (y - 1970))) with (y - 1970) by lia.
  set (md := aget _ _). assert (Hmd : 0 ≤ md ≤ 335) by (by apply months_bound).
  pose proof (month_days_le y mo) as Hdd.
  replace (((H10 r * 10 + H1 r) * 60 + Mi10 r * 10 + Mi1 r) * 60 + S10 r * 10 + S1 r) with (h * 3600 + mi * 60 + sec) by (unfold h, mi, sec; lia).
  replace (y - 1900 - 69) with (y - 1969) by lia. replace (y - 1900 - 1) with (y - 1901) by lia. replace (y - 1900 + 299) with (y - 1601) by lia.
  replace (y - 1970 + 1) with (y - 1969) by lia. replace (y - 1970 + 69) with (y - 1901) by lia. replace (y - 1970 + 369) with (y - 1601) by lia.
  set (mx := month_days y mo) in *. clearbody mx. clearbody y mo d h mi sec md. set (a := (y - 1969) / 4). set (b := (y - 1901) / 100). set (c := (y - 1601) / 400).
  assert (0 ≤ a ≤ 34 ∧ 0 ≤ b ≤ a ∧ b ≤ 2 ∧ 0 ≤ c ≤ 1) by (unfold a, b, c; Z.to_euclidean_division_equations; lia). clearbody a b c.
  repeat match goal with |- context [u32 ?e] => lazymatch e with context [u32 _] => fail | _ => rewrite (u32_small e) by lia end end. lia.
Qed.

(** 29 February 2016, 12:34:56. *)
Lemma rtc_time_correct_witness : arch_time_get_hw demo_rtc = mk_timespec 1456749296 0.
Proof. rewrite (rtc_time_correct demo_rtc) by (vm_compute; split; (discriminate || reflexivity)). vm_compute. reflexivity. Defined.
