(* ===== verification/Keyboard.v ===== *)
(** * Keyboard (src/device/keyboard/fx9860)

    Three layers: the matrix of keys, scanned line by line and compared with the
    previous scan; the high-level keyboard, which keeps the modifiers and turns
    keys into characters; and the device that queues the raw events for a process.
    The value read from the port for a line of the matrix is an input of the
    model.  The matrix is scanned by a software timer that sets itself again. *)

From S2P Require Import Prelude CyclicFifo PhysMem PoolAlloc KMem Pid Mmu PageDir Kernel Scheduler Pipe VfsFile Signal Sync Tty Time.

(** src/interface/fixos/fxkeyboard.h:40-40: K_F1 *)
Definition K_F1 : Z := 0x69.
(** src/interface/fixos/fxkeyboard.h:41-41: K_F2 *)
Definition K_F2 : Z := 0x59.
(** src/interface/fixos/fxkeyboard.h:42-42: K_F3 *)
Definition K_F3 : Z := 0x49.
(** src/interface/fixos/fxkeyboard.h:43-43: K_F4 *)
Definition K_F4 : Z := 0x39.
(** src/interface/fixos/fxkeyboard.h:44-44: K_F5 *)
Definition K_F5 : Z := 0x29.
(** src/interface/fixos/fxkeyboard.h:45-45: K_F6 *)
Definition K_F6 : Z := 0x19.
(** src/interface/fixos/fxkeyboard.h:47-47: K_SHIFT *)
Definition K_SHIFT : Z := 0x68.
(** src/interface/fixos/fxkeyboard.h:48-48: K_OPTN *)
Definition K_OPTN : Z := 0x58.
(** src/interface/fixos/fxkeyboard.h:49-49: K_VARS *)
Definition K_VARS : Z := 0x48.
(** src/interface/fixos/fxkeyboard.h:50-50: K_MENU *)
Definition K_MENU : Z := 0x38.
(** src/interface/fixos/fxkeyboard.h:51-51: K_LEFT *)
Definition K_LEFT : Z := 0x28.
(** src/interface/fixos/fxkeyboard.h:52-52: K_UP *)
Definition K_UP : Z := 0x18.
(** src/interface/fixos/fxkeyboard.h:54-54: K_ALPHA *)
Definition K_ALPHA : Z := 0x67.
(** src/interface/fixos/fxkeyboard.h:55-55: K_SQR *)
Definition K_SQR : Z := 0x57.
(** src/interface/fixos/fxkeyboard.h:56-56: K_EXPO *)
Definition K_EXPO : Z := 0x47.
(** src/interface/fixos/fxkeyboard.h:57-57: K_EXIT *)
Definition K_EXIT : Z := 0x37.
(** src/interface/fixos/fxkeyboard.h:58-58: K_DOWN *)
Definition K_DOWN : Z := 0x27.
(** src/interface/fixos/fxkeyboard.h:59-59: K_RIGHT *)
Definition K_RIGHT : Z := 0x17.
(** src/interface/fixos/fxkeyboard.h:61-61: K_THETA *)
Definition K_THETA : Z := 0x66.
(** src/interface/fixos/fxkeyboard.h:62-62: K_LOG *)
Definition K_LOG : Z := 0x56.
(** src/interface/fixos/fxkeyboard.h:63-63: K_LN *)
Definition K_LN : Z := 0x46.
(** src/interface/fixos/fxkeyboard.h:64-64: K_SIN *)
Definition K_SIN : Z := 0x36.
(** src/interface/fixos/fxkeyboard.h:65-65: K_COS *)
Definition K_COS : Z := 0x26.
(** src/interface/fixos/fxkeyboard.h:66-66: K_TAN *)
Definition K_TAN : Z := 0x16.
(** src/interface/fixos/fxkeyboard.h:68-68: K_FRAC *)
Definition K_FRAC : Z := 0x65.
(** src/interface/fixos/fxkeyboard.h:69-69: K_FD *)
Definition K_FD : Z := 0x55.
(** src/interface/fixos/fxkeyboard.h:70-70: K_LPAR *)
Definition K_LPAR : Z := 0x45.
(** src/interface/fixos/fxkeyboard.h:71-71: K_RPAR *)
Definition K_RPAR : Z := 0x35.
(** src/interface/fixos/fxkeyboard.h:72-72: K_COMMA *)
Definition K_COMMA : Z := 0x25.
(** src/interface/fixos/fxkeyboard.h:73-73: K_STORE *)
Definition K_STORE : Z := 0x15.
(** src/interface/fixos/fxkeyboard.h:75-75: K_7 *)
Definition K_7 : Z := 0x64.
(** src/interface/fixos/fxkeyboard.h:76-76: K_8 *)
Definition K_8 : Z := 0x54.
(** src/interface/fixos/fxkeyboard.h:77-77: K_9 *)
Definition K_9 : Z := 0x44.
(** src/interface/fixos/fxkeyboard.h:78-78: K_DEL *)
Definition K_DEL : Z := 0x34.
(** src/interface/fixos/fxkeyboard.h:80-80: K_4 *)
Definition K_4 : Z := 0x63.
(** src/interface/fixos/fxkeyboard.h:81-81: K_5 *)
Definition K_5 : Z := 0x53.
(** src/interface/fixos/fxkeyboard.h:82-82: K_6 *)
Definition K_6 : Z := 0x43.
(** src/interface/fixos/fxkeyboard.h:83-83: K_MULT *)
Definition K_MULT : Z := 0x33.
(** src/interface/fixos/fxkeyboard.h:84-84: K_DIV *)
Definition K_DIV : Z := 0x23.
(** src/interface/fixos/fxkeyboard.h:86-86: K_1 *)
Definition K_1 : Z := 0x62.
(** src/interface/fixos/fxkeyboard.h:87-87: K_2 *)
Definition K_2 : Z := 0x52.
(** src/interface/fixos/fxkeyboard.h:88-88: K_3 *)
Definition K_3 : Z := 0x42.
(** src/interface/fixos/fxkeyboard.h:89-89: K_PLUS *)
Definition K_PLUS : Z := 0x32.
(** src/interface/fixos/fxkeyboard.h:90-90: K_MINUS *)
Definition K_MINUS : Z := 0x22.
(** src/interface/fixos/fxkeyboard.h:92-92: K_0 *)
Definition K_0 : Z := 0x61.
(** src/interface/fixos/fxkeyboard.h:93-93: K_DOT *)
Definition K_DOT : Z := 0x51.
(** src/interface/fixos/fxkeyboard.h:94-94: K_EXP *)
Definition K_EXP : Z := 0x41.
(** src/interface/fixos/fxkeyboard.h:95-95: K_NEG *)
Definition K_NEG : Z := 0x31.
(** src/interface/fixos/fxkeyboard.h:96-96: K_EXE *)
Definition K_EXE : Z := 0x21.
(** src/interface/fixos/fxkeyboard.h:98-98: K_AC *)
Definition K_AC : Z := 0x00.

(** src/interface/fixos/fxkeyboard.h:35-35: K_EVENT_PRESSED *)
Definition K_EVENT_PRESSED : Z := 1.
(** src/interface/fixos/fxkeyboard.h:36-36: K_EVENT_RELEASED *)
Definition K_EVENT_RELEASED : Z := 2.

(** src/device/keyboard/fx9860/key_codes.h:32-32: KEY_F1 *)
Definition KEY_F1 : Z := 0x101.
(** src/device/keyboard/fx9860/key_codes.h:33-33: KEY_F2 *)
Definition KEY_F2 : Z := 0x102.
(** src/device/keyboard/fx9860/key_codes.h:37-37: KEY_F6 *)
Definition KEY_F6 : Z := 0x106.
(** src/device/keyboard/fx9860/key_codes.h:46-46: KEY_ *)
Definition KEY_none : Z := 0x1000.

(** The keys with ALPHA. *)
(** src/device/keyboard/fx9860/keyboard.c:65-125: kdb_convert_keymatrix_code *)
Definition alpha_table : list (Z * Z) :=
  [(K_F1, KEY_F1); (K_F2, KEY_F2); (K_F3, KEY_none); (K_F4, KEY_none); (K_F5, KEY_none);
   (K_F6, KEY_none); (K_SHIFT, KEY_none); (K_OPTN, ASCII_CTRL 90); (K_VARS, KEY_none); (K_MENU, KEY_none);
   (K_LEFT, KEY_none); (K_UP, KEY_none); (K_ALPHA, KEY_none); (K_SQR, KEY_none); (K_EXPO, KEY_none);
   (K_EXIT, ASCII_CTRL 67); (K_DOWN, KEY_none); (K_RIGHT, KEY_none); (K_THETA, 65); (K_LOG, 66);
   (K_LN, 67); (K_SIN, 68); (K_COS, 69); (K_TAN, 70); (K_FRAC, 71);
   (K_FD, 72); (K_LPAR, 73); (K_RPAR, 74); (K_COMMA, 75); (K_STORE, 76);
   (K_7, 77); (K_8, 78); (K_9, 79); (K_DEL, 8); (K_4, 80);
   (K_5, 81); (K_6, 82); (K_MULT, 83); (K_DIV, 84); (K_1, 85);
   (K_2, 86); (K_3, 87); (K_PLUS, 88); (K_MINUS, 89); (K_0, 90);
   (K_DOT, 32); (K_EXP, 34); (K_NEG, KEY_none); (K_EXE, 10); (K_AC, ASCII_CTRL 85)].

(** The keys with SHIFT. *)
(** src/device/keyboard/fx9860/keyboard.c:128-188: kdb_convert_keymatrix_code *)
Definition shift_table : list (Z * Z) :=
  [(K_F1, KEY_F1); (K_F2, KEY_F2); (K_F3, KEY_none); (K_F4, KEY_none); (K_F5, KEY_none);
   (K_F6, KEY_none); (K_SHIFT, KEY_none); (K_OPTN, ASCII_CTRL 90); (K_VARS, KEY_none); (K_MENU, KEY_none);
   (K_LEFT, KEY_none); (K_UP, KEY_none); (K_ALPHA, KEY_none); (K_SQR, KEY_none); (K_EXPO, KEY_none);
   (K_EXIT, ASCII_CTRL 67); (K_DOWN, KEY_none); (K_RIGHT, KEY_none); (K_THETA, KEY_none); (K_LOG, KEY_none);
   (K_LN, KEY_none); (K_SIN, KEY_none); (K_COS, KEY_none); (K_TAN, KEY_none); (K_FRAC, KEY_none);
   (K_FD, KEY_none); (K_LPAR, KEY_none); (K_RPAR, KEY_none); (K_COMMA, KEY_none); (K_STORE, KEY_none);
   (K_7, KEY_none); (K_8, KEY_none); (K_9, KEY_none); (K_DEL, 8); (K_4, KEY_none);
   (K_5, KEY_none); (K_6, KEY_none); (K_MULT, 123); (K_DIV, 125); (K_1, KEY_none);
   (K_2, KEY_none); (K_3, KEY_none); (K_PLUS, 91); (K_MINUS, 93); (K_0, KEY_none);
   (K_DOT, KEY_none); (K_EXP, KEY_none); (K_NEG, KEY_none); (K_EXE, 10); (K_AC, ASCII_CTRL 85)].

(** The keys without modifier. *)
(** src/device/keyboard/fx9860/keyboard.c:191-251: kdb_convert_keymatrix_code *)
Definition normal_table : list (Z * Z) :=
  [(K_F1, KEY_F1); (K_F2, KEY_F2); (K_F3, KEY_none); (K_F4, KEY_none); (K_F5, KEY_none);
   (K_F6, KEY_none); (K_SHIFT, KEY_none); (K_OPTN, ASCII_CTRL 90); (K_VARS, ASCII_CTRL 65); (K_MENU, ASCII_CTRL 91);
   (K_LEFT, KEY_none); (K_UP, KEY_none); (K_ALPHA, KEY_none); (K_SQR, KEY_none); (K_EXPO, 94);
   (K_EXIT, ASCII_CTRL 67); (K_DOWN, KEY_none); (K_RIGHT, KEY_none); (K_THETA, KEY_none); (K_LOG, KEY_none);
   (K_LN, KEY_none); (K_SIN, KEY_none); (K_COS, KEY_none); (K_TAN, KEY_none); (K_FRAC, KEY_none);
   (K_FD, KEY_none); (K_LPAR, 40); (K_RPAR, 41); (K_COMMA, 44); (K_STORE, KEY_none);
   (K_7, 55); (K_8, 56); (K_9, 57); (K_DEL, 8); (K_4, 52);
   (K_5, 53); (K_6, 54); (K_MULT, 42); (K_DIV, 47); (K_1, 49);
   (K_2, 50); (K_3, 51); (K_PLUS, 43); (K_MINUS, 45); (K_0, 48);
   (K_DOT, 46); (K_EXP, KEY_none); (K_NEG, 95); (K_EXE, 10); (K_AC, ASCII_CTRL 85)].


(** src/device/keyboard/fx9860/keyboard.c:39-39: KBD_STATE_SHIFT *)
Definition KBD_STATE_SHIFT : Z := 1.
(** src/device/keyboard/fx9860/keyboard.c:40-40: KBD_STATE_ALPHA *)
Definition KBD_STATE_ALPHA : Z := 2.
(** src/device/keyboard/fx9860/keyboard.c:41-41: KBD_STATE_ALPHALOCK *)
Definition KBD_STATE_ALPHALOCK : Z := Z.lor 4 KBD_STATE_ALPHA.
(** src/device/keyboard/fx9860/keyboard.c:30-30: KBD_MAX_KEYS *)
Definition KBD_MAX_KEYS : Z := 6.

(** ** The high-level keyboard *)

(** [handler] tells whether a key stroke handler is set. *)
(** src/device/keyboard/fx9860/keyboard.c:27-44: kbd_keypressed *)
Record kbd := mk_kbd { kbd_keys : list Z; kbd_status : Z; kbd_handler : bool }.

(** What a key press makes the rest of the system do. *)
Inductive kbd_action := SetActive (term : Z) | KeyStroke (c : Z).

(** src/device/keyboard/fx9860/keyboard.c: kbd_init *)
Definition kbd_init (b : kbd) : kbd := mk_kbd ((λ _, -1) <$> kbd_keys b) (kbd_status b) (kbd_handler b).

Fixpoint switch_case (code : Z) (t : list (Z * Z)) : Z :=
  match t with [] => -1 | (c, v) :: t => if code =? c then v else switch_case code t end.

(** src/device/keyboard/fx9860/keyboard.c: kdb_convert_keymatrix_code *)
Definition kdb_convert_keymatrix_code (status matrixcode : Z) : Z :=
  if status &? KBD_STATE_ALPHA then switch_case matrixcode alpha_table
  else if status &? KBD_STATE_SHIFT then switch_case matrixcode shift_table
  else switch_case matrixcode normal_table.

(** The search of a free entry, which stops at the code itself: [kfree]. *)
(** src/device/keyboard/fx9860/keyboard.c:287-294: kbd_kpressed_handler *)
Fixpoint find_kfree (code : Z) (i : Z) (kfree : option Z) (keys : list Z) : option Z :=
  match keys with
  | [] => kfree
  | c :: keys =>
      if c =? code then kfree
      else find_kfree code (i + 1) (match kfree with None => if c =? -1 then Some i else None | Some _ => kfree end) keys
  end.

(** src/device/keyboard/fx9860/keyboard.c: kbd_kpressed_handler *)
Definition kbd_kpressed_handler (code : Z) (b : kbd) : kbd * list kbd_action :=
  let st := kbd_status b in
  if (code =? K_SHIFT) || (code =? K_ALPHA) then
    let st :=
      if code =? K_SHIFT then
        if st &? KBD_STATE_SHIFT then Z.land st (Z.lnot KBD_STATE_SHIFT) else Z.lor st KBD_STATE_SHIFT
      else if st &? KBD_STATE_ALPHA then Z.land st (Z.lnot KBD_STATE_ALPHALOCK)
      else if st &? KBD_STATE_SHIFT then Z.lor st KBD_STATE_ALPHALOCK else Z.lor st KBD_STATE_ALPHA in
    (mk_kbd (kbd_keys b) st (kbd_handler b), [])
  else
    let keys := match find_kfree code 0 None (kbd_keys b) with Some i => aset (kbd_keys b) i code | None => kbd_keys b end in
    let converted := kdb_convert_keymatrix_code st code in
    let acts :=
      if (KEY_F1 <=? converted) && (converted <=? KEY_F6) then [SetActive (converted - KEY_F1)]
      else if kbd_handler b then [KeyStroke converted] else [] in
    let st :=
      if Z.land st KBD_STATE_ALPHALOCK =? KBD_STATE_ALPHALOCK then Z.land st (Z.lnot KBD_STATE_SHIFT)
      else Z.land st (Z.lnot (Z.lor KBD_STATE_ALPHA KBD_STATE_SHIFT)) in
    (mk_kbd keys st (kbd_handler b), acts).

(** src/device/keyboard/fx9860/keyboard.c: kbd_kreleased_handler *)
Definition kbd_kreleased_handler (code : Z) (b : kbd) : kbd :=
  mk_kbd ((λ c, if c =? code then -1 else c) <$> kbd_keys b) (kbd_status b) (kbd_handler b).

(** src/device/keyboard/fx9860/keyboard.c: kbd_set_kstroke_handler *)
Definition kbd_set_kstroke_handler (h : bool) (b : kbd) : kbd := mk_kbd (kbd_keys b) (kbd_status b) h.

(** ** The event device *)

(** src/interface/fixos/fxkeyboard.h: fxkey_event *)
Record fxkey_event := mk_event { ev_key : Z; ev_event : Z }.

(** src/device/keyboard/fx9860/keyboard_device.h:31-31: FXKDB_MAX_KEYS *)
Definition FXKDB_MAX_KEYS : Z := 20.
(** src/device/keyboard/fx9860/keyboard_device.h:27-27: FXKDB_DIRECT_MINOR *)
Definition FXKDB_DIRECT_MINOR : Z := 0.
Definition EVENT_SIZE : Z := 2.
(** src/interface/fixos/fcntl.h:29-29: O_NONBLOCK *)
Definition O_NONBLOCK : Z := 4.

(** The two bytes of an event. *)
Definition event_bytes (e : fxkey_event) : list Z := [ev_key e; ev_event e].

Section device.
Context {A : Type}.
Implicit Types (k : kernel A).

(** src/device/keyboard/fx9860/keyboard_device.c: fxkdb_init *)
Definition fxkdb_init k : kernel A := set_k_listener 0 k.

(** src/device/keyboard/fx9860/keyboard_device.c: fxkdb_insert_event *)
Definition fxkdb_insert_event (e : fxkey_event) (f : cyclic_fifo) k : Z * cyclic_fifo :=
  if (0 <? k_listener k) && (u32 (size f + EVENT_SIZE) <=? max_size f) then (0, cfifo_push f (event_bytes e) EVENT_SIZE) else (-1, f).

(** src/device/keyboard/fx9860/keyboard_device.c: fxkdb_open *)
Definition fxkdb_open (minor : Z) (filep : ptr) k : Z * kernel A :=
  if minor =? FXKDB_DIRECT_MINOR then
    (0, set_k_listener (s32 (k_listener k + 1)) (upd_file filep (set_f_op fop_keyboard) k))
  else (- ENXIO, k).
End device.

(** One iteration of the loop of [fxkdb_read]: [curlen], the memory at [dest] and the FIFO. *)
(** src/device/keyboard/fx9860/keyboard_device.c:92-100: fxkdb_read *)
Definition read_pass (len : Z) (st : Z * list Z * cyclic_fifo) : Z * list Z * cyclic_fifo :=
  let '(curlen, dest, f) := st in
  let readlen := size f in
  if 0 <? readlen then
    let readlen := if len <? u32 (readlen + curlen) then u32 (len - curlen) else readlen in
    let readlen := readlen - readlen mod EVENT_SIZE in
    let '(out, f) := cfifo_pop f readlen in
    (s32 (curlen + readlen), memcpy_to dest 0 out, f)
  else st.

(** A call of [fxkdb_read]; between two iterations interrupts insert the events of
    the next element of [arrivals], and when none is left the call is still waiting. *)
(** src/device/keyboard/fx9860/keyboard_device.c: fxkdb_read *)
Fixpoint fxkdb_loop (nonblock : bool) (len : Z) (arrivals : list (list fxkey_event)) (st : Z * list Z * cyclic_fifo)
  : option (Z * list Z * cyclic_fifo) :=
  let '(curlen, dest, f) := read_pass len st in
  if (curlen <? len) && negb nonblock then
    match arrivals with
    | [] => None
    | es :: arrivals =>
        fxkdb_loop nonblock len arrivals (curlen, dest, foldl (λ f e, if u32 (size f + EVENT_SIZE) <=? max_size f then cfifo_push f (event_bytes e) EVENT_SIZE else f) f es)
    end
  else Some (if nonblock && (curlen =? 0) then - EAGAIN else curlen, dest, f).

(** src/device/keyboard/fx9860/keyboard_device.c: fxkdb_read *)
Definition fxkdb_read (flags len : Z) (arrivals : list (list fxkey_event)) (dest : list Z) (f : cyclic_fifo)
  : option (Z * list Z * cyclic_fifo) :=
  if len mod EVENT_SIZE =? 0 then fxkdb_loop (flags &? O_NONBLOCK) len arrivals (0, dest, f)
  else Some (- EINVAL, dest, f).

(** ** The matrix *)

(** src/device/keyboard/fx9860/keymatrix.c: hwkbd_init *)
Definition hwkbd_init (status : list Z) : list Z := (λ _, 0xFF) <$> status.

(** The events of one line whose columns read [cols] and were [old]. *)
(** src/device/keyboard/fx9860/keymatrix.c:102-128: hwkbd_update_status *)
Definition line_events (curline cols old : Z) : list fxkey_event :=
  let xored := Z.lxor cols old in
  if negb (xored =? 0) then
    (λ curcol, mk_event (Z.lor (Z.shiftl curcol 4) curline)
                 (if cols &? Z.shiftl 1 curcol then K_EVENT_RELEASED else K_EVENT_PRESSED))
      <$> filter (λ curcol, (xored &? Z.shiftl 1 curcol) = true) (seqZ 0 7)
  else [].

(** [port line] is the byte read on port A for a line. *)
(** src/device/keyboard/fx9860/keymatrix.c: hwkbd_update_status *)
Definition hwkbd_update_status (port : Z → Z) (status : list Z) : list Z * list fxkey_event :=
  foldl (λ '(status, evs) curline,
    let cols := port curline in
    (aset status curline cols, evs ++ line_events curline cols (aget status curline))) (status, []) (seqZ 0 10).

(** src/device/keyboard/fx9860/keymatrix.c: hwkbd_keydown *)
Definition hwkbd_keydown (status : list Z) (code : Z) : bool :=
  let line := Z.land code 0x0F in
  if line <? 10 then negb (aget status line &? Z.shiftl 1 (Z.shiftr code 4)) else false.

(** src/device/keyboard/fx9860/keymatrix.c: hwkbd_real_keydown *)
Definition hwkbd_real_keydown (port : Z → Z) (code : Z) : bool :=
  negb (port (Z.land code 0x0F) &? Z.shiftl 1 (Z.shiftr code 4)).

(** The handlers an event calls. *)
(** src/device/keyboard/fx9860/keymatrix.c:111-126: hwkbd_update_status *)
Definition dispatch_event {A} (k : kernel A) (st : kbd * cyclic_fifo * list kbd_action) (e : fxkey_event) : kbd * cyclic_fifo * list kbd_action :=
  let '(b, f, acts) := st in
  let '(b, acts) :=
    if ev_event e =? K_EVENT_RELEASED then (kbd_kreleased_handler (ev_key e) b, acts)
    else let '(b, a) := kbd_kpressed_handler (ev_key e) b in (b, acts ++ a) in
  (b, (fxkdb_insert_event e f k).2, acts).

(** ** The scan reports the changes *)

(** The code of the key at a column and a line. *)
Definition key_code (col line : Z) : Z := Z.lor (Z.shiftl col 4) line.

Lemma key_code_parts col line : 0 ≤ col < 7 → 0 ≤ line < 10 →
  Z.land (key_code col line) 0x0F = line ∧ Z.shiftr (key_code col line) 4 = col.
Proof.
  intros Hc Hl.
  assert (Hall : Forall (λ c, Forall (λ l, Z.land (key_code c l) 0x0F = l ∧ Z.shiftr (key_code c l) 4 = c) (seqZ 0 10)) (seqZ 0 7)).
  { vm_compute. repeat constructor. }
  rewrite Forall_forall in Hall. specialize (Hall col ltac:(apply elem_of_seqZ; lia)). rewrite Forall_forall in Hall.
  apply Hall, elem_of_seqZ. lia.
Qed.

Lemma flag_col x c : 0 ≤ c → (x &? Z.shiftl 1 c) = Z.testbit x c.
Proof. intros Hc. rewrite Z.shiftl_1_l. by apply flag_set_bit. Qed.

(** A scan compares each line with the previous one. *)
Lemma update_status_spec port n : (n ≤ 10)%nat → ∀ status, length status = 10%nat →
  let st := foldl (λ '(status, evs) curline,
    let cols := port curline in
    (aset status curline cols, evs ++ line_events curline cols (aget status curline))) (status, []) (seqZ 0 (Z.of_nat n)) in
  length st.1 = 10%nat ∧ (∀ l, 0 ≤ l < 10 → aget st.1 l = if l <? Z.of_nat n then port l else aget status l) ∧
  st.2 = concat ((λ l, line_events l (port l) (aget status l)) <$> seqZ 0 (Z.of_nat n)).
Proof.
  intros Hn status Hl. induction n as [|n IH]; [split_and!; try done; intros l Hr; by rewrite (proj2 (Z.ltb_ge l (Z.of_nat 0))) by lia|].
  specialize (IH ltac:(lia)). replace (Z.of_nat (S n)) with (Z.of_nat n + 1) by lia. rewrite seqZ_app by lia.
  change (seqZ (0 + Z.of_nat n) 1) with [Z.of_nat n]. rewrite foldl_app, fmap_app, concat_app. cbn zeta in IH |- *.
  destruct (foldl _ (status, []) (seqZ 0 (Z.of_nat n))) as [st evs]. cbn [fst snd] in IH. destruct IH as (I1 & I2 & ->). cbn [foldl fst snd].
  rewrite aset_length. split; [done|]. split.
  - intros l Hr. destruct (decide (l = Z.of_nat n)) as [->|Hne].
    + rewrite aget_aset_eq by lia. by rewrite (proj2 (Z.ltb_lt _ _)) by lia.
    + rewrite aget_aset_ne by lia. rewrite I2 by done. destruct (Z.ltb_spec l (Z.of_nat n)), (Z.ltb_spec l (Z.of_nat n + 1)); try done; lia.
  - rewrite (I2 (Z.of_nat n)), (proj2 (Z.ltb_ge _ _)) by lia. cbn [fmap list_fmap concat]. by rewrite app_nil_r.
Qed.

Lemma line_events_spec e line cols old : 0 ≤ line < 10 →
  e ∈ line_events line cols old ↔
  ∃ col, 0 ≤ col < 7 ∧ Z.testbit cols col ≠ Z.testbit old col ∧
    e = mk_event (key_code col line) (if Z.testbit cols col then K_EVENT_RELEASED else K_EVENT_PRESSED).
Proof.
  intros Hl. assert (Hbit : ∀ c, 0 ≤ c → (Z.lxor cols old &? Z.shiftl 1 c) = true ↔ Z.testbit cols c ≠ Z.testbit old c).
  { intros c Hc. rewrite flag_col, Z.lxor_spec by done. by destruct (Z.testbit cols c), (Z.testbit old c). }
  unfold line_events. destruct (Z.eqb_spec (Z.lxor cols old) 0) as [H0|H0]; cbn [negb].
  - split; [by intros ?%elem_of_nil|]. intros (c & Hc & Hne & _). apply Hbit in Hne; [|lia]. by rewrite H0 in Hne.
  - rewrite list_elem_of_fmap. split.
    + intros (c & -> & Hin). apply list_elem_of_filter in Hin as [Hx Hs]. apply elem_of_seqZ in Hs. exists c. split; [lia|].
      split; [apply Hbit; [lia|done]|]. by rewrite flag_col by lia.
    + intros (c & Hc & Hne & ->). exists c. rewrite flag_col by lia. split; [done|]. apply list_elem_of_filter.
      split; [apply Hbit; [lia|done]|apply elem_of_seqZ; lia].
Qed.

(** A scan of the matrix reports exactly the keys that changed since the previous
    scan, a press for a key that went down and a release for one that went up, and the
    saved state is then the state of the keys. *)
Theorem hwkbd_update_reports port status :
  length status = 10%nat →
  let '(status', evs) := hwkbd_update_status port status in
  length status' = 10%nat ∧
  ∀ col line, 0 ≤ col < 7 → 0 ≤ line < 10 →
    let key := key_code col line in
    hwkbd_keydown status' key = hwkbd_real_keydown port key ∧
    (mk_event key K_EVENT_PRESSED ∈ evs ↔ hwkbd_keydown status key = false ∧ hwkbd_keydown status' key = true) ∧
    (mk_event key K_EVENT_RELEASED ∈ evs ↔ hwkbd_keydown status key = true ∧ hwkbd_keydown status' key = false).
Proof.
  intros Hl. pose proof (update_status_spec port 10 ltac:(lia) status Hl) as H. unfold hwkbd_update_status. cbn zeta in H.
  change (Z.of_nat 10) with 10 in H. destruct (foldl _ _ _) as [st evs]. cbn [fst snd] in H. destruct H as (H1 & H2 & ->). split; [done|].
  intros col line Hc Hr. set (key := key_code col line). destruct (key_code_parts col line Hc Hr) as [Hk1 Hk2]. fold key in Hk1, Hk2.
  assert (Hd : ∀ s, hwkbd_keydown s key = negb (Z.testbit (aget s line) col)).
  { intros s. unfold hwkbd_keydown. rewrite Hk1, Hk2, flag_col by lia. by rewrite (proj2 (Z.ltb_lt line 10)) by lia. }
  assert (Hport : aget st line = port line) by (rewrite H2 by done; by rewrite (proj2 (Z.ltb_lt line 10)) by lia).
  assert (Hin : ∀ ev, mk_event key ev ∈ concat ((λ l, line_events l (port l) (aget status l)) <$> seqZ 0 10) ↔
    Z.testbit (port line) col ≠ Z.testbit (aget status line) col ∧ ev = if Z.testbit (port line) col then K_EVENT_RELEASED else K_EVENT_PRESSED).
  { intros ev. rewrite list_elem_of_In, in_concat. split.
    - intros (l & Hl' & Hev). rewrite <- list_elem_of_In in Hl'. rewrite <- list_elem_of_In in Hev. apply list_elem_of_fmap in Hl' as (line' & -> & Hs). apply elem_of_seqZ in Hs.
      apply line_events_spec in Hev as (c & Hc' & Hne & [= Hkey ->]); [|lia].
      destruct (key_code_parts c line' Hc' ltac:(lia)) as [Hk3 Hk4]. rewrite <- Hkey in Hk3, Hk4. assert (Hll : line' = line) by congruence. assert (Hcc : c = col) by congruence. rewrite Hll, Hcc in *. done.
    - intros [Hne ->]. exists (line_events line (port line) (aget status line)). rewrite <- !list_elem_of_In.
      split; [|apply line_events_spec; [lia|by exists col]]. apply list_elem_of_fmap. exists line. split; [done|apply elem_of_seqZ; lia]. }
  rewrite !Hin, !Hd, Hport. unfold hwkbd_real_keydown. rewrite Hk1, Hk2, flag_col by lia.
  split; [done|]. destruct (Z.testbit (port line) col), (Z.testbit (aget status line) col); cbn [negb]; unfold K_EVENT_RELEASED, K_EVENT_PRESSED;
    (split; split; [intros [??]|intros [??]|intros [??]|intros [??]]); done.
Qed.

Lemma hwkbd_update_reports_witness :
  mk_event (key_code 3 2) K_EVENT_PRESSED ∈ (hwkbd_update_status (λ l, if l =? 2 then 0xF7 else 0xFF) (replicate 10 0xFF)).2.
Proof.
  pose proof (hwkbd_update_reports (λ l, if l =? 2 then 0xF7 else 0xFF) (replicate 10 0xFF) eq_refl) as H.
  destruct (hwkbd_update_status _ _) as [st evs] eqn:Hs. destruct H as [_ H]. destruct (H 3 2 ltac:(lia) ltac:(lia)) as (H1 & H2 & _).
  apply H2. split; [reflexivity|]. rewrite H1. reflexivity.
Defined.

(** A blocking read that is completed in two parts stores both at the beginning of the
    buffer: the first event is lost. *)
Example fxkdb_read_overwrites :
  let f := mk_fifo 40 0 0 (replicate 40 0) in
  fxkdb_read 0 4 [[mk_event 0x11 1]; [mk_event 0x22 2]] [0; 0; 0; 0] f =
  Some (4, [0x22; 2; 0; 0], mk_fifo 40 4 0 ([0x11; 1; 0x22; 2] ++ replicate 36 0)).
Proof. reflexivity. Qed.

(** ** The periodic scan *)

(** src/arch/sh/include/arch/time.h:23-23: TICK_HZ *)
Definition TICK_HZ : Z := 256.

(** src/sys/time.h:34-35: TICKS_MSEC_NOTNULL *)
Definition TICKS_MSEC_NOTNULL (msec : Z) : Z :=
  if Z.quot (msec * TICK_HZ) 1000 <=? 0 then 1 else Z.quot (msec * TICK_HZ) 1000.

Section periodic.
(** [self] is the address of the callback, [scan_keys] the scan with its effects. *)
Context {S : Type} (self : ptr) (scan_keys : S → S).

(** src/device/keyboard/fx9860/keymatrix.c: periodic_keycheck_timer *)
Definition periodic_keycheck_timer (st : list stimer_job * S) : list stimer_job * S :=
  let s := scan_keys st.2 in
  ((stimer_add self NULL (TICKS_MSEC_NOTNULL 30) st.1).2, s).

(** src/device/keyboard/fx9860/keymatrix.c: hwkbd_start_periodic_update *)
Definition hwkbd_start_periodic_update (st : list stimer_job * S) : list stimer_job * S := periodic_keycheck_timer st.

End periodic.

(** The only timer, in the first or in the second slot. *)
Definition first_slot (self r : Z) : list stimer_job := mk_job self NULL r :: replicate 9 job0.
Definition second_slot (self r : Z) : list stimer_job := job0 :: mk_job self NULL r :: replicate 8 job0.

Section polling.
Context {T : Type} (q : positive) (scan_keys : T → T).
Context (call : ptr → ptr → list stimer_job * T → list stimer_job * T).
Context (Hcall : ∀ st, call (Zpos q) NULL st = periodic_keycheck_timer (Zpos q) scan_keys st).

Lemma slot_waits r r' s : r' = r - 1 → 2 ≤ r ≤ 7 →
  stimer_do_tick call (first_slot (Zpos q) r) s = (first_slot (Zpos q) r', s, []) ∧
  stimer_do_tick call (second_slot (Zpos q) r) s = (second_slot (Zpos q) r', s, []).
Proof. intros -> Hr. assert (r = 2 ∨ r = 3 ∨ r = 4 ∨ r = 5 ∨ r = 6 ∨ r = 7) as [->|[->|[->|[->|[->| ->]]]]] by lia; done. Qed.

Lemma first_fires s : stimer_do_tick call (first_slot (Zpos q) 1) s = (second_slot (Zpos q) 6, scan_keys s, [(0, Zpos q, NULL)]).
Proof.
  unfold stimer_do_tick. change (seqZ 0 STIMER_MAX_JOBS) with [0; 1; 2; 3; 4; 5; 6; 7; 8; 9]. cbn [foldl].
  unfold tick_slot at 10. cbn. rewrite Hcall. reflexivity.
Qed.
Lemma second_fires s : stimer_do_tick call (second_slot (Zpos q) 1) s = (first_slot (Zpos q) 7, scan_keys s, [(1, Zpos q, NULL)]).
Proof.
  unfold stimer_do_tick. change (seqZ 0 STIMER_MAX_JOBS) with [0; 1; 2; 3; 4; 5; 6; 7; 8; 9]. cbn [foldl].
  change (tick_slot call (second_slot (Zpos q) 1, s, []) 0) with (second_slot (Zpos q) 1, s, @nil (Z * Z * Z)).
  unfold tick_slot at 9. cbn. rewrite Hcall. reflexivity.
Qed.

Lemma ticks_one n js s js1 s1 l : stimer_do_tick call js s = (js1, s1, l) → (ticks call (S n) js s).1 = (ticks call n js1 s1).1.
Proof. intros E. cbn [ticks]. rewrite E. by destruct (ticks call n js1 s1) as [[??]?]. Qed.

Lemma ticks_app m n js s js1 s1 : (ticks call m js s).1 = (js1, s1) → (ticks call (m + n) js s).1 = (ticks call n js1 s1).1.
Proof.
  revert js s. induction m as [|m IH]; intros js s E; [cbn in E; by simplify_eq|]. cbn [Nat.add].
  destruct (stimer_do_tick call js s) as [[js2 s2] l] eqn:E2. rewrite (ticks_one m _ _ _ _ _ E2) in E. rewrite (ticks_one (m + n) _ _ _ _ _ E2). by apply IH.
Qed.

Lemma slots_wait n s : (n ≤ 6)%nat →
  (ticks call n (first_slot (Zpos q) (Z.of_nat n + 1)) s).1 = (first_slot (Zpos q) 1, s) ∧
  (ticks call n (second_slot (Zpos q) (Z.of_nat n + 1)) s).1 = (second_slot (Zpos q) 1, s).
Proof.
  induction n as [|n IH]; intros Hn; [done|]. cbn [ticks].
  destruct (slot_waits (Z.of_nat (S n) + 1) (Z.of_nat n + 1) s ltac:(lia) ltac:(lia)) as [-> ->]. specialize (IH ltac:(lia)).
  destruct (ticks call n (first_slot _ _) s) as [[??]?], (ticks call n (second_slot _ _) s) as [[??]?]. exact IH.
Qed.

(** Thirteen ticks: a scan after seven of them, and one after six more. *)
Lemma one_round s : (ticks call 13 (first_slot (Zpos q) 7) s).1 = (first_slot (Zpos q) 7, scan_keys (scan_keys s)).
Proof.
  destruct (slots_wait 6 s ltac:(lia)) as [W1 _]. destruct (slots_wait 5 (scan_keys s) ltac:(lia)) as [_ W2].
  change (Z.of_nat 6 + 1) with 7 in W1. change (Z.of_nat 5 + 1) with 6 in W2.
  change 13%nat with (6 + S (5 + 1))%nat.
  rewrite (ticks_app 6 _ _ _ _ _ W1), (ticks_one _ _ _ _ _ _ (first_fires s)), (ticks_app 5 1 _ _ _ _ W2),
    (ticks_one _ _ _ _ _ _ (second_fires (scan_keys s))). done.
Qed.
End polling.

(** From the start of the periodic scan with no other timer, the keys are scanned twice
    every thirteen ticks for ever: the timer sets itself again in the next free slot,
    which is visited in the same tick every other time. *)
Theorem keyboard_polled {T} self (scan_keys : T → T) call n s :
  (∀ st, call self NULL st = periodic_keycheck_timer self scan_keys st) → 0 < self →
  let '(js, s0) := hwkbd_start_periodic_update self scan_keys (stimer_init (replicate 10 job0), s) in
  (ticks call (13 * n) js s0).1 = (first_slot self 7, Nat.iter (2 * n + 1) scan_keys s).
Proof.
  intros Hcall Hs. destruct self as [|q|q]; [lia| |lia].
  change (hwkbd_start_periodic_update _ _ _) with (first_slot (Zpos q) 7, scan_keys s).
  rewrite Nat.iter_add. change (Nat.iter 1 scan_keys s) with (scan_keys s).
  generalize (scan_keys s) as s0. clear s. induction n as [|n IH]; intros s; [done|].
  replace (13 * S n)%nat with (13 + 13 * n)%nat by lia.
  rewrite (ticks_app call 13 (13 * n) _ _ _ _ (one_round q scan_keys call Hcall s)), IH. f_equal.
  replace (2 * S n)%nat with (2 * n + 2)%nat by lia. by rewrite Nat.iter_add.
Qed.

Lemma keyboard_polled_witness :
  (ticks (λ _ _, periodic_keycheck_timer 16 (λ n, n + 1)) 13 (first_slot 16 7) 1).1 = (first_slot 16 7, 3).
Proof. exact (keyboard_polled 16 (λ n, n + 1) (λ _ _, periodic_keycheck_timer 16 (λ n, n + 1)) 1 0 (λ _, eq_refl) eq_refl). Defined.

(** When the other timers are all in use the scan does not find a slot while its own is
    still taken, and the keyboard is never scanned again. *)
Example keyboard_scan_stops :
  let call := λ f d st, if f =? 16 then periodic_keycheck_timer 16 (λ n, n + 1) st else st in
  let others := mk_job 32 0 1000 in
  (ticks call 200 (mk_job 16 0 7 :: replicate 9 others) 0).1.2 = 1.
Proof. vm_compute. reflexivity. Qed.
