(* ===== verification/Device.v ===== *)
(** * Devices (src/device/device_registering.c, src/device/tty.c)

    A device is registered under a major number and found by it when an inode of
    the device is opened; the terminals are the minors of one device.  The
    theorem shows that the table behaves as a finite map of ten entries. *)

From S2P Require Import Prelude.

(** src/device/device_registering.h:31-31: DEVICE_REGISTER_MAX *)
Definition DEVICE_REGISTER_MAX : Z := 10.
(** src/device/tty.h:33-33: TTYDEV_MINOR_MAX *)
Definition TTYDEV_MINOR_MAX : Z := 10.

(** src/device/device_registering.c: device_entry *)
Record device_entry := mk_entry { dev : ptr; de_major : Z }.

(** src/device/device_registering.c: dev_init *)
Definition dev_init (devs : list device_entry) : list device_entry :=
  (λ e, mk_entry NULL (de_major e)) <$> devs.

(** src/device/device_registering.c: dev_register_device *)
Definition dev_register_device (d : ptr) (major_id : Z) (devs : list device_entry) : Z * list device_entry :=
  let i := Z.of_nat (scan (λ e, dev e =? NULL) devs) in
  if i <? DEVICE_REGISTER_MAX then (0, aset devs i (mk_entry d major_id)) else (-1, devs).

(** src/device/device_registering.c: dev_device_from_major *)
Fixpoint dev_device_from_major (major_id : Z) (devs : list device_entry) : ptr :=
  match devs with
  | [] => NULL
  | e :: devs =>
      if negb (dev e =? NULL) && (de_major e =? major_id) then dev e else dev_device_from_major major_id devs
  end.

(** src/device/device_registering.c: dev_unregister_device *)
Definition dev_unregister_device (major_id : Z) (devs : list device_entry) : list device_entry :=
  (λ e, if de_major e =? major_id then mk_entry NULL (de_major e) else e) <$> devs.

(** src/device/tty.c: ttydev_get_minor *)
Definition ttydev_get_minor (minor : Z) (minors : list ptr) : ptr :=
  if minor <? TTYDEV_MINOR_MAX then aget minors minor else NULL.

(** src/device/tty.c: ttydev_set_minor *)
Definition ttydev_set_minor (minor : Z) (t : ptr) (minors : list ptr) : Z * list ptr :=
  if minor <? TTYDEV_MINOR_MAX then (0, aset minors minor t) else (-1, minors).

(** ** The table as a map *)

(** Operations on the table, with what they return. *)
Inductive dev_op := Register (d : ptr) (major_id : Z) | Unregister (major_id : Z) | Lookup (major_id : Z).

Definition dev_step (devs : list device_entry) (o : dev_op) : list device_entry * Z :=
  match o with
  | Register d m => let '(r, devs) := dev_register_device d m devs in (devs, r)
  | Unregister m => (dev_unregister_device m devs, 0)
  | Lookup m => (devs, dev_device_from_major m devs)
  end.

(** The specification: at most ten devices, the majors being distinct. *)
Definition map_step (m : gmap Z ptr) (o : dev_op) : gmap Z ptr * Z :=
  match o with
  | Register d j => if (Z.of_nat (size m) <? DEVICE_REGISTER_MAX) then (<[j := d]> m, 0) else (m, -1)
  | Unregister j => (delete j m, 0)
  | Lookup j => (m, default NULL (m !! j))
  end.

(** A device is not NULL and its major is not in use when it is registered. *)
Fixpoint ops_ok (m : gmap Z ptr) (ops : list dev_op) : Prop :=
  match ops with
  | [] => True
  | o :: ops => match o with Register d j => d ≠ NULL ∧ m !! j = None | _ => True end ∧ ops_ok (map_step m o).1 ops
  end.

(** The used entries, as a map; there are as many as elements of the map. *)
Definition entries (devs : list device_entry) : list (Z * ptr) :=
  (λ e, (de_major e, dev e)) <$> filter (λ e, dev e ≠ NULL) devs.

Definition dev_rep (devs : list device_entry) (m : gmap Z ptr) : Prop :=
  length devs = Z.to_nat DEVICE_REGISTER_MAX ∧ NoDup (entries devs).*1 ∧ list_to_map (entries devs) = m.

Lemma entries_cons e devs : entries (e :: devs) = if decide (dev e ≠ NULL) then (de_major e, dev e) :: entries devs else entries devs.
Proof. unfold entries. rewrite filter_cons. by case_decide. Qed.

Lemma entries_app l k : entries (l ++ k) = entries l ++ entries k.
Proof. unfold entries. by rewrite filter_app, fmap_app. Qed.

Lemma from_major_lookup devs j :
  NoDup (entries devs).*1 → dev_device_from_major j devs = default NULL ((list_to_map (entries devs) : gmap Z ptr) !! j).
Proof.
  induction devs as [|e devs IH]; [done|]. rewrite entries_cons. cbn [dev_device_from_major].
  case_decide as He; destruct (Z.eqb_spec (dev e) NULL); try lia; cbn [negb andb].
  - cbn [fmap list_fmap fst list_to_map foldr]. intros [Hni Hnd]%NoDup_cons.
    destruct (Z.eqb_spec (de_major e) j) as [->|Hj].
    + cbn. by rewrite lookup_insert_eq.
    + cbn. rewrite lookup_insert_ne by done. by apply IH.
  - apply IH.
Qed.

Lemma unregister_entries devs j : entries (dev_unregister_device j devs) = filter (λ p, p.1 ≠ j) (entries devs).
Proof.
  induction devs as [|e devs IH]; [done|]. cbn [dev_unregister_device fmap list_fmap]. fold (dev_unregister_device j devs).
  rewrite !entries_cons, IH. destruct (Z.eqb_spec (de_major e) j) as [He|Hne]; cbn [dev de_major].
  - rewrite decide_False by (intros H; by apply H). case_decide; [|done]. rewrite filter_cons. by rewrite decide_False by (cbn; auto).
  - case_decide; [|done]. rewrite filter_cons. by rewrite decide_True.
Qed.

Lemma list_to_map_filter_key (l : list (Z * ptr)) j :
  list_to_map (filter (λ p, p.1 ≠ j) l) = delete j (list_to_map l : gmap Z ptr).
Proof.
  induction l as [|[i x] l IH]; [symmetry; apply delete_empty|]. rewrite filter_cons. cbn [fst]. case_decide as Hi.
  - cbn [list_to_map foldr fst snd]. rewrite delete_insert_ne by done. fold (list_to_map (M := gmap Z ptr)). by rewrite <- IH.
  - assert (i = j) as -> by lia. cbn [list_to_map foldr fst snd]. by rewrite delete_insert_eq.
Qed.

(** A free entry is the first one the scan meets. *)
Lemma register_entries devs d j :
  length devs = 10%nat → d ≠ NULL → (length (entries devs) < 10)%nat →
  ∃ devs', dev_register_device d j devs = (0, devs') ∧ length devs' = 10%nat ∧ entries devs' ≡ₚ (j, d) :: entries devs.
Proof.
  intros Hlen Hd Hfree. unfold dev_register_device. set (i := scan _ devs).
  assert (Hi : (i < length devs)%nat).
  { apply scan_lt_iff. rewrite <- Hlen in Hfree. clear i Hlen. induction devs as [|e devs IH]; [cbn in Hfree; lia|].
    rewrite entries_cons in Hfree. case_decide as He.
    - destruct IH as (x & Hx & Hs); [cbn in Hfree; lia|]. exists x. split; [by apply list_elem_of_further|done].
    - exists e. split; [apply list_elem_of_here|]. apply Z.eqb_eq. lia. }
  destruct (scan_stop _ _ Hi) as (e & He & Hn). apply Z.eqb_eq in Hn. fold i in He.
  rewrite (proj2 (Z.ltb_lt _ _)) by (unfold DEVICE_REGISTER_MAX; lia). eexists. split; [done|].
  unfold aset. rewrite Nat2Z.id. split; [by rewrite length_insert|].
  rewrite insert_take_drop by done. rewrite <- (take_drop_middle devs i e He) at 3.
  rewrite !entries_app, !entries_cons. cbn [dev de_major]. rewrite decide_True, decide_False by (try done; intros H; by apply H).
  by rewrite Permutation_middle.
Qed.

Lemma dev_step_rep devs m o :
  dev_rep devs m → match o with Register d j => d ≠ NULL ∧ m !! j = None | _ => True end →
  (dev_step devs o).2 = (map_step m o).2 ∧ dev_rep (dev_step devs o).1 (map_step m o).1.
Proof.
  intros (Hlen & Hnd & Hm). change (Z.to_nat DEVICE_REGISTER_MAX) with 10%nat in Hlen.
  assert (Hsize : size m = length (entries devs)).
  { rewrite <- Hm. by rewrite map_size_list_to_map. }
  destruct o as [d j|j|j]; cbn [dev_step map_step].
  - intros [Hd Hj]. destruct (decide (length (entries devs) < 10)%nat) as [Hlt|Hge].
    + destruct (register_entries devs d j Hlen Hd Hlt) as (devs' & -> & Hlen' & Hperm).
      rewrite (proj2 (Z.ltb_lt _ _)) by (unfold DEVICE_REGISTER_MAX; lia). split; [done|].
      assert (Hnd' : NoDup (entries devs').*1).
      { rewrite Hperm. cbn. apply NoDup_cons. split; [|done]. rewrite <- Hm in Hj. by apply not_elem_of_list_to_map. }
      split; [done|]. split; [done|]. cbn [fst]. rewrite (list_to_map_proper _ _ Hnd' Hperm). cbn. by rewrite Hm.
    + rewrite (proj2 (Z.ltb_ge _ _)) by (unfold DEVICE_REGISTER_MAX; lia). unfold dev_register_device.
      rewrite (proj2 (scan_end _ _)); [rewrite Hlen; done|].
      apply Forall_forall. intros e He. apply Z.eqb_neq. intros Hz. apply Hge.
      unfold entries. rewrite length_fmap, <- Hlen. apply length_filter_lt with e; [done|]. intros Hne. by apply Hne.
  - intros _. split; [done|]. cbn [fst]. split; [unfold dev_unregister_device; by rewrite length_fmap|]. rewrite unregister_entries. split.
    + eapply sublist_NoDup; [exact Hnd|]. apply fmap_sublist, sublist_filter.
    + by rewrite list_to_map_filter_key, Hm.
  - intros _. split; [|done]. cbn. rewrite from_major_lookup by done. by rewrite Hm.
Qed.

Lemma dev_run_rep ops : ∀ devs m, dev_rep devs m → ops_ok m ops → (run dev_step devs ops).2 = (run map_step m ops).2.
Proof.
  induction ops as [|o ops IH]; intros devs m Hrep Hok; [done|]. destruct Hok as [Ho Hok].
  destruct (dev_step_rep devs m o Hrep Ho) as [Heq Hrep']. cbn [run].
  destruct (dev_step devs o) as [devs1 r1], (map_step m o) as [m1 r1']. cbn [fst snd] in *.
  pose proof (IH _ _ Hrep' Hok). destruct (run dev_step devs1 ops), (run map_step m1 ops). cbn [snd] in *. congruence.
Qed.

Lemma dev_init_rep devs : length devs = 10%nat → dev_rep (dev_init devs) ∅.
Proof.
  intros Hlen. assert (He : entries (dev_init devs) = []).
  { clear Hlen. induction devs as [|e devs IH]; [done|]. cbn [dev_init fmap list_fmap]. rewrite entries_cons. cbn [dev].
    rewrite decide_False by (intros H; by apply H). exact IH. }
  unfold dev_rep. rewrite He. split; [unfold dev_init; by rewrite length_fmap|]. split; [constructor|done].
Qed.

(** After initialisation, registering devices under unused majors,
    unregistering and looking up return what a map of at most ten devices
    returns, whatever the table held before. *)
Theorem device_table_map devs ops :
  length devs = 10%nat → ops_ok ∅ ops → (run dev_step (dev_init devs) ops).2 = (run map_step ∅ ops).2.
Proof. intros Hlen Hok. apply dev_run_rep; [by apply dev_init_rep|done]. Qed.

Lemma device_table_map_witness :
  (run dev_step (dev_init (replicate 10 (mk_entry 7 3))) [Lookup 3; Register 100 3; Register 200 4; Lookup 3; Unregister 3; Lookup 3; Lookup 4]).2
  = [0; 0; 0; 100; 0; 0; 200].
Proof.
  rewrite (device_table_map (replicate 10 (mk_entry 7 3))); [vm_compute; reflexivity|reflexivity|].
  cbn. split_and!; done.
Defined.
