(* ===== verification/TextDisplay.v ===== *)
(** * Monochrome display and text display
    (src/device/display/T6K11/T6K11.c, src/device/terminal/text_display.h,
    src/device/terminal/fx9860/)

    A VRAM is an array of 1024 bytes, 16 per line of 128 pixels.  Characters are
    4x6 bitmaps drawn in it, which gives 32 columns and 10 rows; the virtual
    terminals use this through the [text_display] interface.  The theorems show
    that drawing a character or scrolling changes exactly the cells it should,
    and what the drawing of the cursor does to the character under it. *)

From S2P Require Import Prelude PhysMem.

(** ** Model *)

(** *** Bitmaps in the VRAM *)

(** src/device/display/T6K11/T6K11.c: disp_mono_width *)
Definition disp_mono_width : Z := 128.
(** src/device/display/T6K11/T6K11.c: disp_mono_height *)
Definition disp_mono_height : Z := 64.

(** src/device/display/T6K11/T6K11.c: disp_mono_get_pixel *)
Definition disp_mono_get_pixel (x y : Z) (vram : list Z) : Z :=
  if s8 (aget vram (y * 16 + x ÷ 8)) &? Z.shiftl 1 (Z.rem x 8) then 1 else 0.

(** [for(i=0; i<h; i++) { ...; start += 16; }]: [line i start vram] is the body. *)
Definition each_line (h start : Z) (line : Z → Z → list Z → list Z) (vram : list Z) : list Z :=
  foldl (λ v i, line i (start + 16 * i) v) vram (seqZ 0 h).

(** [vram[i] = (vram[i] & ~mask) | (b & keep)], stored in a byte. *)
Definition blend (i mask keep b : Z) (vram : list Z) : list Z :=
  aset vram i (u8 (Z.lor (Z.land (aget vram i) (Z.lnot mask)) (Z.land b keep))).

(** One byte per line in the destination, under a mask. *)
(** src/device/display/T6K11/T6K11.c:59-65: disp_mono_draw_bitmap *)
Definition draw_one_byte (start shift : Z) (bitmap : list Z) (w h : Z) (vram : list Z) : list Z :=
  let end_pad := 8 - (shift + w) in
  let mask := u8 (Z.land (Z.shiftl 0xFF end_pad) (Z.shiftr 0xFF shift)) in
  each_line h start (λ i start v, blend start mask mask (Z.shiftr (aget bitmap i) shift) v) vram.

(** One byte per line in the source, two in the destination. *)
(** src/device/display/T6K11/T6K11.c:70-79: disp_mono_draw_bitmap *)
Definition draw_two_bytes (x start shift : Z) (bitmap : list Z) (w h : Z) (vram : list Z) : list Z :=
  let end_pad := 8 - Z.rem (shift + w) 8 in
  let l_mask := u8 (Z.shiftr 0xFF shift) in
  let r_mask := u8 (Z.shiftl 0xFF end_pad) in
  let end_shift := Z.rem (x + w) 8 in
  each_line h start (λ i start v,
    let v := blend start l_mask (Z.lnot l_mask) (Z.shiftr (aget bitmap i) shift) v in
    blend (start + 1) r_mask (Z.lnot r_mask) (Z.shiftl (aget bitmap i) end_shift) v) vram.

(** More than one byte per line in the source. *)
(** src/device/display/T6K11/T6K11.c:85-136: disp_mono_draw_bitmap *)
Definition draw_many_bytes (x start shift : Z) (bitmap : list Z) (w h : Z) (vram : list Z) : list Z :=
  let end_pad := 8 - Z.rem (shift + w) 8 in
  let l_mask := u8 (Z.shiftr 0xFF shift) in
  let r_mask := u8 (Z.shiftl 0xFF end_pad) in
  let end_shift := Z.rem (x + w) 8 in
  let line_len := (w - 1) ÷ 8 + 1 in
  if shift =? 0 then
    let nb_full := w ÷ 8 in
    each_line h start (λ i start v,
      let bitmap_pos := line_len * i in
      let v := foldl (λ v offset, aset v (start + offset) (aget bitmap (bitmap_pos + offset))) v (seqZ 0 nb_full) in
      if negb (end_shift =? 0) then
        blend (start + nb_full) r_mask (Z.lnot r_mask) (Z.shiftl (aget bitmap (bitmap_pos + nb_full)) end_shift) v
      else v) vram
  else
    let nb_full := (w - shift) ÷ 8 in
    each_line h start (λ i start v,
      let bitmap_pos := line_len * i in
      let v := blend start l_mask (Z.lnot l_mask) (Z.shiftr (aget bitmap bitmap_pos) shift) v in
      let v := foldl (λ v offset,
          aset v (start + offset) (u8 (Z.lor (Z.shiftl (aget bitmap (bitmap_pos + offset - 1)) (8 - shift))
                                             (Z.shiftr (aget bitmap (bitmap_pos + offset)) shift))))
        v (seqZ 1 nb_full) in
      if negb (end_shift =? 0) then
        blend (start + (nb_full + 1)) r_mask (Z.lnot r_mask)
              (Z.shiftl (aget bitmap (bitmap_pos + line_len - 1)) end_shift) v
      else v) vram.

(** src/device/display/T6K11/T6K11.c: disp_mono_draw_bitmap *)
Definition disp_mono_draw_bitmap (x y : Z) (bitmap : list Z) (w h : Z) (vram : list Z) : list Z :=
  if (0 <=? x) && (0 <=? y) && (x + w <=? 128) && (y + h <=? 64) then
    let start := y * 16 + x ÷ 8 in
    let shift := Z.rem x 8 in
    if (w =? 8) && (shift =? 0) then each_line h start (λ i start v, aset v start (aget bitmap i)) vram
    else if (w <? 8) && (shift + w <=? 8) then draw_one_byte start shift bitmap w h vram
    else if w <=? 8 then draw_two_bytes x start shift bitmap w h vram
    else draw_many_bytes x start shift bitmap w h vram
  else vram.

(** *** Characters *)

(** src/device/terminal/fx9860/print_primitives.h:22-22: FX9860_TERM_WIDTH *)
Definition FX9860_TERM_WIDTH : Z := 32.
(** src/device/terminal/fx9860/print_primitives.h:23-23: FX9860_TERM_HEIGHT *)
Definition FX9860_TERM_HEIGHT : Z := 10.
(** src/device/terminal/fx9860/print_primitives.h:26-26: FX9860_TERM_CURSOR_CHAR *)
Definition FX9860_TERM_CURSOR_CHAR : Z := s8 177.
(** src/device/display/generic_mono.h:33-33: DISPLAY_COLOR_WHITE *)
Definition DISPLAY_COLOR_WHITE : Z := 0.
(** src/device/display/generic_mono.h:34-34: DISPLAY_COLOR_BLACK *)
Definition DISPLAY_COLOR_BLACK : Z := 1.
(** src/device/terminal/generic_early_term.h:39-39: EARLYTERM_COLOR_WHITE *)
Definition EARLYTERM_COLOR_WHITE : Z := 0.
(** src/device/terminal/generic_early_term.h:40-40: EARLYTERM_COLOR_BLACK *)
Definition EARLYTERM_COLOR_BLACK : Z := 1.

(** src/device/terminal/fx9860/print_primitives.c:27-157: _font_3x5 *)
Definition font_3x5 : list (list Z) :=
  [
    [0; 224; 160; 224; 0]; [0; 224; 160; 224; 0]; [0; 224; 160; 224; 0]; [0; 224; 160; 224; 0]; [0; 224; 160; 224; 0];
    [0; 224; 160; 224; 0]; [0; 224; 160; 224; 0]; [0; 224; 160; 224; 0]; [0; 224; 160; 224; 0]; [0; 224; 160; 224; 0];
    [0; 224; 160; 224; 0]; [0; 224; 160; 224; 0]; [0; 0; 32; 96; 224]; [0; 224; 160; 224; 0]; [0; 224; 160; 224; 0];
    [0; 224; 160; 224; 0]; [0; 224; 160; 224; 0]; [0; 224; 160; 224; 0]; [0; 224; 160; 224; 0]; [0; 224; 160; 224; 0];
    [0; 224; 160; 224; 0]; [0; 224; 160; 224; 0]; [0; 224; 160; 224; 0]; [0; 224; 160; 224; 0]; [0; 224; 160; 224; 0];
    [0; 224; 160; 224; 0]; [0; 224; 160; 224; 0]; [0; 224; 160; 224; 0]; [0; 224; 160; 224; 0]; [0; 224; 160; 224; 0];
    [0; 224; 160; 224; 0]; [0; 224; 160; 224; 0]; [0; 0; 0; 0; 0]; [64; 64; 64; 0; 64]; [160; 160; 0; 0; 0];
    [96; 224; 160; 224; 192]; [224; 192; 224; 96; 224]; [160; 32; 64; 128; 160]; [64; 160; 64; 160; 64];
    [96; 32; 64; 0; 0]; [32; 64; 64; 64; 32]; [128; 64; 64; 64; 128]; [0; 160; 64; 160; 0]; [0; 64; 224; 64; 0];
    [0; 0; 96; 32; 64]; [0; 0; 224; 0; 0]; [0; 0; 0; 192; 192]; [32; 64; 64; 128; 128]; [224; 160; 160; 160; 224];
    [64; 192; 64; 64; 224]; [224; 32; 224; 128; 224]; [224; 32; 224; 32; 224]; [160; 160; 224; 32; 32];
    [224; 128; 224; 32; 224]; [224; 128; 224; 160; 224]; [224; 32; 32; 32; 32]; [224; 160; 224; 160; 224];
    [224; 160; 224; 32; 224]; [192; 192; 0; 192; 192]; [192; 192; 0; 64; 128]; [32; 64; 128; 64; 32];
    [0; 224; 0; 224; 0]; [128; 64; 32; 64; 128]; [192; 32; 64; 0; 64]; [192; 32; 96; 160; 64];
    [64; 160; 224; 160; 160]; [192; 160; 192; 160; 192]; [96; 128; 128; 128; 96]; [192; 160; 160; 160; 192];
    [224; 128; 224; 128; 224]; [224; 128; 224; 128; 128]; [96; 128; 160; 160; 96]; [160; 160; 224; 160; 160];
    [224; 64; 64; 64; 224]; [32; 32; 32; 160; 64]; [160; 160; 192; 160; 160]; [128; 128; 128; 128; 224];
    [160; 224; 160; 160; 160]; [192; 160; 160; 160; 160]; [64; 160; 160; 160; 64]; [192; 160; 192; 128; 128];
    [64; 160; 160; 64; 32]; [192; 160; 192; 160; 160]; [96; 128; 64; 32; 192]; [224; 64; 64; 64; 64];
    [160; 160; 160; 160; 224]; [160; 160; 160; 160; 64]; [160; 160; 160; 224; 64]; [160; 160; 64; 160; 160];
    [160; 160; 64; 64; 64]; [224; 32; 64; 128; 224]; [96; 64; 64; 64; 96]; [128; 128; 64; 64; 32];
    [96; 32; 32; 32; 96]; [64; 160; 0; 0; 0]; [0; 0; 0; 0; 224]; [192; 128; 64; 0; 0]; [64; 32; 96; 160; 96];
    [128; 224; 160; 160; 192]; [0; 96; 128; 128; 96]; [32; 224; 160; 160; 96]; [64; 160; 224; 128; 224];
    [32; 64; 224; 64; 64]; [96; 160; 96; 32; 192]; [128; 192; 160; 160; 160]; [64; 0; 64; 64; 64];
    [32; 0; 32; 160; 64]; [128; 128; 160; 192; 160]; [192; 64; 64; 64; 224]; [0; 96; 160; 160; 160];
    [0; 64; 160; 160; 160]; [0; 64; 160; 160; 64]; [0; 192; 160; 192; 128]; [0; 96; 160; 96; 32];
    [0; 160; 192; 128; 128]; [0; 96; 128; 32; 192]; [64; 96; 64; 64; 32]; [0; 160; 160; 160; 96];
    [0; 160; 160; 160; 64]; [0; 160; 160; 224; 224]; [0; 160; 64; 160; 160]; [0; 160; 160; 64; 128];
    [0; 224; 32; 128; 224]; [96; 64; 192; 64; 96]; [64; 64; 64; 64; 64]; [192; 64; 96; 64; 192]; [0; 192; 96; 0; 0];
    [0; 224; 160; 224; 0]; [160; 64; 160; 64; 160]
  ].

(** src/device/terminal/fx9860/print_primitives.c: term_prim_mask_color *)
Definition term_prim_mask_color (color : Z) : Z :=
  if color =? EARLYTERM_COLOR_BLACK then 0xFFFFFFFF else 0.

(** The bitmap of a character, its last line and the colours applied; the masks
    are the same in the four bytes of a word. *)
(** src/device/terminal/fx9860/print_primitives.c:176-199: term_prim_write_character *)
Definition char_bmp (front_c back_c c : Z) : list Z :=
  let backcolor := term_prim_mask_color back_c in
  let frontcolor := term_prim_mask_color front_c in
  let raw_char := nth (Z.to_nat (if 0 <=? c then c else 128)) font_3x5 [] in
  (λ b, u8 (Z.lor (Z.land frontcolor b) (Z.land backcolor (Z.lnot b)))) <$> raw_char ++ [0x00].

(** src/device/terminal/fx9860/print_primitives.c: term_prim_write_character *)
Definition term_prim_write_character (posx posy front_c back_c c : Z) (vram : list Z) : list Z :=
  let x := s32 (posx * 4) in
  let y := s32 (posy * 6) in
  if ((0 <=? c) || (c =? FX9860_TERM_CURSOR_CHAR)) && (-3 <? x) && (x <? 128) && (-5 <? y) && (y <? 64) then
    disp_mono_draw_bitmap x y (char_bmp front_c back_c c) 4 6 vram
  else vram.

(** The lines stored in [_stored_char]. *)
(** src/device/terminal/fx9860/print_primitives.c: term_prim_store_character *)
Definition term_prim_store_character (posx posy : Z) (vram : list Z) : list Z :=
  let x := s32 (posx * 4) in
  let y := s32 (posy * 6) in
  (λ j, u8 (foldl (λ curline i, Z.lor curline (Z.shiftl (disp_mono_get_pixel (x + i) (y + j) vram) i)) 0x00 (seqZ 0 4)))
    <$> seqZ 0 6.

(** src/device/terminal/fx9860/print_primitives.c: term_prim_restore_character *)
Definition term_prim_restore_character (stored_char : list Z) (posx posy : Z) (vram : list Z) : list Z :=
  let x := s32 (posx * 4) in
  let y := s32 (posy * 6) in
  disp_mono_draw_bitmap x y stored_char 4 6 vram.

(** The four bytes of a word. *)
Definition word_bytes (w : Z) : list Z :=
  [u8 (Z.shiftr w 24); u8 (Z.shiftr w 16); u8 (Z.shiftr w 8); u8 w].

(** src/device/terminal/fx9860/print_primitives.c: term_prim_scroll_up *)
Definition term_prim_scroll_up (vram : list Z) (back_c : Z) : list Z :=
  let backcolor := term_prim_mask_color back_c in
  let vram := foldl (λ v i, memcpy_to v (4 * i) (memcpy_from v (4 * (i + 4 * 6)) 4)) vram (seq 0 (4 * (64 - 10))) in
  foldl (λ v i, memcpy_to v (4 * i) (word_bytes backcolor)) vram (seq (4 * (64 - 10)) (4 * 6)).

(** *** The text display interface *)

(** src/device/terminal/text_display.h: text_cursor *)
Inductive text_cursor := TEXT_CURSOR_DISABLE | TEXT_CURSOR_NORMAL.

#[export] Instance text_cursor_eq_dec : EqDecision text_cursor.
Proof. solve_decision. Defined.

(** src/device/terminal/text_display.h: text_color *)
Inductive text_color :=
  | TEXT_COLOR_BLACK | TEXT_COLOR_RED | TEXT_COLOR_GREEN | TEXT_COLOR_YELLOW
  | TEXT_COLOR_BLUE | TEXT_COLOR_MAGENTA | TEXT_COLOR_CYAN | TEXT_COLOR_WHITE.

(** [D] is [struct tdisp_data] and [G] what the instances share. *)
(** src/device/terminal/text_display.h: text_display *)
Record text_display (D G : Type) := mk_text_display {
  cwidth : Z;
  cheight : Z;
  td_init_disp : D → pmem → option (D * pmem);
  td_print_char : D → Z → Z → Z → D;
  td_scroll : D → D;
  td_set_color : D → text_color → text_color → D;
  td_set_active : D → Z → G → D * G;
  td_flush : D → G → D * G;
  td_set_cursor_pos : D → Z → Z → D;
  td_set_cursor : D → text_cursor → D;
  td_clear : D → D
}.
Arguments mk_text_display {D G}. Arguments cwidth {D G}. Arguments cheight {D G}. Arguments td_init_disp {D G}.
Arguments td_print_char {D G}. Arguments td_scroll {D G}. Arguments td_set_color {D G}. Arguments td_set_active {D G}.
Arguments td_flush {D G}. Arguments td_set_cursor_pos {D G}. Arguments td_set_cursor {D G}. Arguments td_clear {D G}.

(** *** The display of the fx9860 *)

(** [vram] is the page and [vmem] its content; no other display has the page. *)
(** src/device/terminal/fx9860/text_display.h: tdisp_data *)
Record tdisp_data := mk_tdisp {
  front : Z; back : Z; cursx : Z; cursy : Z; cursor : text_cursor; vram : ptr; vmem : list Z
}.

Definition set_vmem (v : list Z) (d : tdisp_data) : tdisp_data :=
  mk_tdisp (front d) (back d) (cursx d) (cursy d) (cursor d) (vram d) v.
Definition set_colors (f b : Z) (d : tdisp_data) : tdisp_data :=
  mk_tdisp f b (cursx d) (cursy d) (cursor d) (vram d) (vmem d).

(** The saved character and the last image given to [disp_mono_copy_to_dd]. *)
(** src/device/terminal/fx9860/print_primitives.c:169-169: _stored_char *)
Record screen_state := mk_screen { stored_char : list Z; dd : list Z }.

(** src/device/terminal/fx9860/text_display.c: fx9860_tdisp_init_disp *)
Definition fx9860_tdisp_init_disp (d : tdisp_data) (s : pmem) : option (tdisp_data * pmem) :=
  '(page, s) ← arch_pm_get_free_page MEM_PM_CACHED s;
  Some (mk_tdisp 1 0 0 0 TEXT_CURSOR_NORMAL page (replicate 1024 0), s).

(** src/device/terminal/fx9860/text_display.c: fx9860_tdisp_print_char *)
Definition fx9860_tdisp_print_char (d : tdisp_data) (posx posy c : Z) : tdisp_data :=
  set_vmem (term_prim_write_character posx posy (front d) (back d) c (vmem d)) d.

(** src/device/terminal/fx9860/text_display.c: fx9860_tdisp_scroll *)
Definition fx9860_tdisp_scroll (d : tdisp_data) : tdisp_data :=
  set_vmem (term_prim_scroll_up (vmem d) (back d)) d.

(** src/device/terminal/fx9860/text_display.c: fx9860_tdisp_set_color *)
Definition fx9860_tdisp_set_color (d : tdisp_data) (f b : text_color) : tdisp_data :=
  match f with
  | TEXT_COLOR_BLACK | TEXT_COLOR_BLUE | TEXT_COLOR_GREEN | TEXT_COLOR_MAGENTA => set_colors 1 0 d
  | _ => set_colors 0 1 d
  end.

(** src/device/terminal/fx9860/text_display.c: fx9860_tdisp_flush *)
Definition fx9860_tdisp_flush (d : tdisp_data) (g : screen_state) : tdisp_data * screen_state :=
  if negb (bool_decide (cursor d = TEXT_CURSOR_DISABLE)) && (cursx d <? FX9860_TERM_WIDTH)
     && (cursy d <? FX9860_TERM_HEIGHT)
  then
    let stored := term_prim_store_character (cursx d) (cursy d) (vmem d) in
    let v := term_prim_write_character (cursx d) (cursy d) DISPLAY_COLOR_BLACK DISPLAY_COLOR_WHITE
               FX9860_TERM_CURSOR_CHAR (vmem d) in
    (set_vmem (term_prim_restore_character stored (cursx d) (cursy d) v) d, mk_screen stored v)
  else (d, mk_screen (stored_char g) (vmem d)).

(** src/device/terminal/fx9860/text_display.c: fx9860_tdisp_set_active *)
Definition fx9860_tdisp_set_active (d : tdisp_data) (active : Z) (g : screen_state) : tdisp_data * screen_state :=
  if active =? 1 then fx9860_tdisp_flush d g else (d, g).

(** src/device/terminal/fx9860/text_display.c: fx9860_tdisp_set_cursor_pos *)
Definition fx9860_tdisp_set_cursor_pos (d : tdisp_data) (posx posy : Z) : tdisp_data :=
  mk_tdisp (front d) (back d) posx posy (cursor d) (vram d) (vmem d).

(** src/device/terminal/fx9860/text_display.c: fx9860_tdisp_set_cursor *)
Definition fx9860_tdisp_set_cursor (d : tdisp_data) (curs : text_cursor) : tdisp_data :=
  mk_tdisp (front d) (back d) (cursx d) (cursy d) curs (vram d) (vmem d).

(** src/device/terminal/fx9860/text_display.c: fx9860_tdisp_clear *)
Definition fx9860_tdisp_clear (d : tdisp_data) : tdisp_data :=
  set_vmem (replicate 1024 (if negb (back d =? 0) then 0xFF else 0x00)) d.

(** src/device/terminal/fx9860/text_display.c:26-41: fx9860_text_display *)
Definition fx9860_text_display : text_display tdisp_data screen_state :=
  mk_text_display FX9860_TERM_WIDTH FX9860_TERM_HEIGHT fx9860_tdisp_init_disp fx9860_tdisp_print_char
    fx9860_tdisp_scroll fx9860_tdisp_set_color fx9860_tdisp_set_active fx9860_tdisp_flush
    fx9860_tdisp_set_cursor_pos fx9860_tdisp_set_cursor fx9860_tdisp_clear.

(** *** The early terminal

    Used before the virtual terminals, for the messages of the kernel.  [copied]
    is the list of images given to [disp_mono_copy_to_dd], the last one first;
    the loops that wait for the EXE key change nothing. *)

(** src/device/terminal/fx9860/early_term.c:30-44: g_terminal_vram *)
Record early_term := mk_early {
  g_front_c : Z; g_back_c : Z; g_posx : Z; g_posy : Z; line_nb : Z; g_terminal_vram : list Z; copied : list (list Z)
}.

Definition early_at (x y n : Z) (v : list Z) (e : early_term) : early_term :=
  mk_early (g_front_c e) (g_back_c e) x y n v (copied e).

(** src/device/terminal/fx9860/early_term.c:71-71: disp_mono_copy_to_dd *)
Definition early_copy (e : early_term) : early_term :=
  mk_early (g_front_c e) (g_back_c e) (g_posx e) (g_posy e) (line_nb e) (g_terminal_vram e) (g_terminal_vram e :: copied e).

(** "--- PRESS [EXE] TO SKIP ---" *)
(** src/device/terminal/fx9860/early_term.c:67-67: warn_str *)
Definition warn_str : list Z :=
  [45; 45; 45; 32; 80; 82; 69; 83; 83; 32; 91; 69; 88; 69; 93; 32; 84; 79; 32; 83; 75; 73; 80; 32; 45; 45; 45].

(** The pause at the end of a page of text. *)
(** src/device/terminal/fx9860/early_term.c:65-77: earlyterm_write *)
Definition early_pause (e : early_term) : early_term :=
  if FX9860_TERM_HEIGHT - 3 <=? line_nb e then
    let v := foldl (λ v j, term_prim_write_character j 0 EARLYTERM_COLOR_WHITE EARLYTERM_COLOR_BLACK (aget warn_str j) v)
                   (g_terminal_vram e) (seqZ 0 (Z.of_nat (length warn_str))) in
    let e := early_copy (early_at (g_posx e) (g_posy e) (line_nb e) v e) in
    early_at (g_posx e) (g_posy e) 0 (g_terminal_vram e) e
  else e.

(** src/device/terminal/fx9860/early_term.c:46-82: earlyterm_write *)
Definition early_char (e : early_term) (c : Z) : early_term :=
  let e :=
    if c =? 10 then early_at 0 (s32 (g_posy e + 1)) (s32 (line_nb e + 1)) (g_terminal_vram e) e
    else if c =? 13 then early_at 0 (g_posy e) (line_nb e) (g_terminal_vram e) e
    else
      early_at (s32 (g_posx e + 1)) (g_posy e) (line_nb e)
        (term_prim_write_character (u32 (g_posx e)) (u32 (g_posy e)) (g_front_c e) (g_back_c e) c (g_terminal_vram e)) e in
  let e :=
    if FX9860_TERM_WIDTH <=? g_posx e
    then early_at 0 (s32 (g_posy e + 1)) (s32 (line_nb e + 1)) (g_terminal_vram e) e else e in
  if FX9860_TERM_HEIGHT <=? g_posy e then
    let e := early_pause e in
    early_at (g_posx e) (FX9860_TERM_HEIGHT - 1) (line_nb e) (term_prim_scroll_up (g_terminal_vram e) (g_back_c e)) e
  else e.

(** [str] is a NUL-terminated string of [char]. *)
(** src/device/terminal/fx9860/early_term.c: earlyterm_write *)
Definition earlyterm_write (str : list Z) (e : early_term) : early_term :=
  early_copy (foldl early_char e (c_str str)).

(** src/device/terminal/fx9860/early_term.c: earlyterm_set_colors *)
Definition earlyterm_set_colors (front_c back_c : Z) (e : early_term) : early_term :=
  mk_early front_c back_c (g_posx e) (g_posy e) (line_nb e) (g_terminal_vram e) (copied e).

(** src/device/terminal/fx9860/early_term.c: earlyterm_clear *)
Definition earlyterm_clear (e : early_term) : early_term :=
  let back := term_prim_mask_color (g_back_c e) in
  let v := foldl (λ v i, memcpy_to v (4 * i) (word_bytes back)) (g_terminal_vram e) (seq 0 (4 * 64)) in
  early_copy (early_at 0 0 (line_nb e) v e).

(** src/device/terminal/fx9860/early_term.c: earlyterm_set_pos *)
Definition earlyterm_set_pos (posx posy : Z) (e : early_term) : early_term :=
  early_at posx posy (line_nb e) (g_terminal_vram e) e.

(** ** Pixels

    The first pixel of a byte is its highest bit. *)

Definition pixel (v : list Z) (x y : Z) : bool := Z.testbit (aget v (y * 16 + x / 8)) (7 - x mod 8).

(** The 24 pixels of a 4x6 image, line by line. *)
Definition image (f : Z → Z → bool) : list bool := j ← seqZ 0 6; (λ i, f i j) <$> seqZ 0 4.

(** The pixels of a character cell. *)
Definition cell (v : list Z) (cx cy : Z) : list bool := image (λ i j, pixel v (4 * cx + i) (6 * cy + j)).

Definition font_line (c j : Z) : Z := aget (nth (Z.to_nat (if 0 <=? c then c else 128)) font_3x5 []) j.

(** The pixels of a character in given colours. *)
Definition glyph (front_c back_c c : Z) : list bool :=
  image (λ i j, if Z.testbit (font_line c j) (7 - i) then front_c =? 1 else back_c =? 1).

Lemma image_ext f g : (∀ i j, 0 ≤ i < 4 → 0 ≤ j < 6 → f i j = g i j) → image f = image g.
Proof. intros H. unfold image. change (seqZ 0 6) with [0; 1; 2; 3; 4; 5]. change (seqZ 0 4) with [0; 1; 2; 3].
  cbn [mbind list_bind fmap list_fmap app]. rewrite !H by lia. done. Qed.

(** ** Drawing *)

Lemma each_line_length h s f v : (∀ i s v, length (f i s v) = length v) → length (each_line h s f v) = length v.
Proof.
  intros Hf. unfold each_line. generalize (seqZ 0 h). intros l. revert v.
  induction l as [|i l IH]; intros v; [done|]. cbn [foldl]. by rewrite IH.
Qed.

(** A loop over the lines changes one byte per line, from its old value. *)
Lemma each_line_get (h : nat) s (f : Z → Z → Z) v j :
  0 ≤ s → s + 16 * Z.of_nat h < Z.of_nat (length v) + 16 → 0 ≤ j →
  aget (each_line (Z.of_nat h) s (λ i st v, aset v st (f i (aget v st))) v) j =
  if (0 <=? j - s) && ((j - s) mod 16 =? 0) && ((j - s) / 16 <? Z.of_nat h)
  then f ((j - s) / 16) (aget v j) else aget v j.
Proof.
  intros Hs Hlen Hj. induction h as [|h IH].
  - cbn. destruct (_ <=? _) eqn:H1; [|done]. breflect. pose proof (Z.div_pos (j - s) 16).
    rewrite (proj2 (Z.ltb_ge _ _)) by lia. by rewrite andb_false_r.
  - unfold each_line in *. rewrite seqZ_S, foldl_app, Nat2Z.inj_succ by lia. cbn [foldl]. rewrite Z.add_0_l.
    set (w := foldl _ v _) in *.
    assert (Hw : length w = length v).
    { apply (each_line_length (Z.of_nat h) s (λ i st v, aset v st (f i (aget v st)))). intros. apply aset_length. }
    destruct (decide (j = s + 16 * Z.of_nat h)) as [->|Hne].
    + rewrite aget_aset_eq by (rewrite Hw; lia). rewrite IH by lia.
      replace (s + 16 * Z.of_nat h - s) with (Z.of_nat h * 16) by lia. rewrite Z.mod_mul, Z.div_mul by lia.
      rewrite !(proj2 (Z.leb_le _ _)) by lia. cbn [Z.eqb andb].
      rewrite (proj2 (Z.ltb_ge _ _)), (proj2 (Z.ltb_lt _ _)) by lia. done.
    + rewrite aget_aset_ne by lia. rewrite IH by lia.
      destruct (0 <=? j - s) eqn:H1, ((j - s) mod 16 =? 0) eqn:H2; breflect; cbn [andb]; [|done..].
      replace ((j - s) / 16 <? Z.succ (Z.of_nat h)) with ((j - s) / 16 <? Z.of_nat h); [done|].
      pose proof (Z.div_mod (j - s) 16). apply eq_true_iff_eq. rewrite !Z.ltb_lt. lia.
Qed.

Lemma testbit_255 k : Z.testbit 0xFF k = (0 <=? k) && (k <? 8).
Proof. apply (Z.testbit_ones 8 k). lia. Qed.

Lemma u8_testbit x n : 0 ≤ n < 8 → Z.testbit (u8 x) n = Z.testbit x n.
Proof. intros Hn. unfold u8. change 256 with (2 ^ 8). apply Z.mod_pow2_bits_low. lia. Qed.

Lemma mask_testbit shift w n :
  0 ≤ shift → shift + w ≤ 8 → 0 ≤ n < 8 →
  Z.testbit (u8 (Z.land (Z.shiftl 0xFF (8 - (shift + w))) (Z.shiftr 0xFF shift))) n =
  (8 - (shift + w) <=? n) && (n <? 8 - shift).
Proof.
  intros Hs Hw Hn. rewrite u8_testbit, Z.land_spec, Z.shiftl_spec, Z.shiftr_spec, !testbit_255 by lia.
  apply eq_true_iff_eq. rewrite !andb_true_iff, !Z.leb_le, !Z.ltb_lt. lia.
Qed.

Lemma draw_one_byte_pixel x y bm w h v X Y :
  length v = 1024%nat → 0 ≤ x → 0 ≤ y → 0 ≤ w → 0 ≤ h → x mod 8 + w ≤ 8 → x < 128 → y + h ≤ 64 →
  0 ≤ X < 128 → 0 ≤ Y < 64 →
  pixel (draw_one_byte (y * 16 + x / 8) (x mod 8) bm w h v) X Y =
  if (x <=? X) && (X <? x + w) && (y <=? Y) && (Y <? y + h) then Z.testbit (aget bm (Y - y)) (7 - (X - x))
  else pixel v X Y.
Proof.
  intros Hlen Hx Hy Hw Hh Hfit Hx128 Hyh HX HY.
  pose proof (Z.mod_pos_bound x 8). pose proof (Z.mod_pos_bound X 8).
  pose proof (Z.div_mod x 8). pose proof (Z.div_mod X 8).
  set (mask := u8 (Z.land (Z.shiftl 0xFF (8 - (x mod 8 + w))) (Z.shiftr 0xFF (x mod 8)))).
  set (f := λ i b, u8 (Z.lor (Z.land b (Z.lnot mask)) (Z.land (Z.shiftr (aget bm i) (x mod 8)) mask))).
  unfold pixel. change (draw_one_byte _ _ _ _ _ _) with
    (each_line h (y * 16 + x / 8) (λ i st v, aset v st (f i (aget v st))) v).
  rewrite <- (Z2Nat.id h) by lia. rewrite each_line_get by lia. rewrite Z2Nat.id by lia.
  set (d := Y * 16 + X / 8 - (y * 16 + x / 8)).
  destruct (decide (X / 8 = x / 8 ∧ y ≤ Y < y + h)) as [[He Hrow]|Hout].
  - assert (Hd : d = (Y - y) * 16) by (unfold d; lia). rewrite Hd, Z.mod_mul, Z.div_mul by lia.
    rewrite (proj2 (Z.leb_le 0 _)), (proj2 (Z.ltb_lt _ h)) by lia. cbn [Z.eqb andb].
    unfold f. rewrite u8_testbit, Z.lor_spec, !Z.land_spec, Z.lnot_spec, Z.shiftr_spec by lia.
    unfold mask. rewrite mask_testbit by lia.
    rewrite (proj2 (Z.leb_le y Y)), (proj2 (Z.ltb_lt Y _)), !andb_true_r by lia.
    replace (7 - X mod 8 + x mod 8) with (7 - (X - x)) by lia.
    destruct (x <=? X) eqn:Hl, (X <? x + w) eqn:Hr; breflect; cbn [andb].
    + rewrite (proj2 (Z.leb_le _ _)), (proj2 (Z.ltb_lt _ _)) by lia. cbn. by rewrite andb_false_r, andb_true_r.
    + rewrite (proj2 (Z.leb_gt _ _)) by lia. cbn. by rewrite andb_true_r, andb_false_r, orb_false_r.
    + rewrite (proj2 (Z.ltb_ge (7 - X mod 8) _)) by lia. rewrite andb_false_r. cbn. by rewrite andb_true_r, andb_false_r, orb_false_r.
    + lia.
  - replace ((0 <=? d) && (d mod 16 =? 0) && (d / 16 <? h)) with false.
    + replace ((x <=? X) && (X <? x + w) && (y <=? Y) && (Y <? y + h)) with false; [done|].
      symmetry. apply not_true_iff_false. rewrite !andb_true_iff, !Z.leb_le, !Z.ltb_lt. intros Hc. apply Hout. lia.
    + symmetry. apply not_true_iff_false. rewrite !andb_true_iff, Z.leb_le, Z.eqb_eq, Z.ltb_lt. intros Hc.
      apply Hout. pose proof (Z.div_mod d 16). assert (0 ≤ X / 8 < 16) by lia. assert (0 ≤ x / 8 < 16) by lia. lia.
Qed.

(** ** Characters and cells *)

Lemma font_rows : Forall (λ r, length r = 5%nat ∧ Forall (λ b, 0 ≤ b < 256) r) font_3x5.
Proof. by_computation. Qed.

Lemma char_bmp_testbit f b c i j :
  -128 ≤ c < 128 → 0 ≤ i < 8 → 0 ≤ j < 6 →
  Z.testbit (aget (char_bmp f b c) j) (7 - i) = if Z.testbit (font_line c j) (7 - i) then f =? 1 else b =? 1.
Proof.
  intros Hc Hi Hj. unfold char_bmp, font_line.
  set (n := Z.to_nat (if 0 <=? c then c else 128)).
  assert (Hn : (n < length font_3x5)%nat) by (change (length font_3x5) with 129%nat; unfold n; destruct (0 <=? c) eqn:E; breflect; lia).
  destruct (lookup_lt_is_Some_2 font_3x5 n Hn) as [row Hrow].
  rewrite (nth_lookup_Some _ _ _ _ Hrow). pose proof (proj1 (Forall_lookup _ _) font_rows _ _ Hrow) as [Hlen _].
  assert (Hget : aget ((λ b0 : Z, u8 (Z.lor (Z.land (term_prim_mask_color f) b0) (Z.land (term_prim_mask_color b) (Z.lnot b0)))) <$> row ++ [0]) j
               = u8 (Z.lor (Z.land (term_prim_mask_color f) (aget row j)) (Z.land (term_prim_mask_color b) (Z.lnot (aget row j))))).
  { unfold aget. destruct (decide (j = 5)) as [->|].
    - change (Z.to_nat 5) with 5%nat. rewrite !nth_lookup, list_lookup_fmap, (lookup_ge_None_2 row), lookup_app_r by lia. by rewrite Hlen.
    - destruct (lookup_lt_is_Some_2 row (Z.to_nat j)) as [e He]; [lia|].
      rewrite !nth_lookup, list_lookup_fmap, lookup_app_l, He by lia. done. }
  rewrite Hget, u8_testbit, Z.lor_spec, !Z.land_spec, Z.lnot_spec by lia.
  assert (Hm : ∀ col, Z.testbit (term_prim_mask_color col) (7 - i) = (col =? 1)).
  { intros col. unfold term_prim_mask_color, EARLYTERM_COLOR_BLACK. destruct (col =? 1); [|apply Z.testbit_0_l].
    change 0xFFFFFFFF with (Z.ones 32). rewrite Z.testbit_ones by lia.
    rewrite (proj2 (Z.leb_le _ _)), (proj2 (Z.ltb_lt _ _)) by lia. done. }
  rewrite !Hm. destruct (Z.testbit _ _), (f =? 1), (b =? 1); done.
Qed.

(** Drawing a 4x6 bitmap at a cell is the case of one byte per line. *)
Lemma draw_at_cell px py bm v :
  0 ≤ px < 32 → 0 ≤ py < 10 →
  disp_mono_draw_bitmap (px * 4) (py * 6) bm 4 6 v =
  draw_one_byte (py * 6 * 16 + px * 4 / 8) (px * 4 mod 8) bm 4 6 v ∧ px * 4 mod 8 + 4 ≤ 8.
Proof.
  intros Hpx Hpy. unfold disp_mono_draw_bitmap.
  rewrite !(proj2 (Z.leb_le _ _)) by lia. cbn [andb]. change (4 =? 8) with false. change (4 <? 8) with true. cbn [andb].
  rewrite Z.quot_div_nonneg, Z.rem_mod_nonneg by lia.
  assert (Hm : px * 4 mod 8 + 4 ≤ 8) by (pose proof (Z.div_mod (px * 4) 8); pose proof (Z.mod_pos_bound (px * 4) 8); lia).
  by rewrite (proj2 (Z.leb_le _ _)).
Qed.

Lemma draw_one_byte_length s sh bm w h v : length (draw_one_byte s sh bm w h v) = length v.
Proof. apply each_line_length. intros. apply aset_length. Qed.

Lemma draw_cell px py bm v cx cy :
  length v = 1024%nat → 0 ≤ px < 32 → 0 ≤ py < 10 → 0 ≤ cx < 32 → 0 ≤ cy < 10 →
  cell (disp_mono_draw_bitmap (px * 4) (py * 6) bm 4 6 v) cx cy =
  if (cx =? px) && (cy =? py) then image (λ i j, Z.testbit (aget bm j) (7 - i)) else cell v cx cy.
Proof.
  intros Hv Hpx Hpy Hcx Hcy. destruct (draw_at_cell px py bm v Hpx Hpy) as [-> Hm]. unfold cell.
  destruct (Z.eqb_spec cx px) as [->|], (Z.eqb_spec cy py) as [->|]; cbn [andb]; apply image_ext; intros i j Hi Hj;
    rewrite draw_one_byte_pixel by lia.
  - rewrite !(proj2 (Z.leb_le _ _)), !(proj2 (Z.ltb_lt _ _)) by lia. cbn [andb]. f_equal; [f_equal|]; lia.
  - destruct (_ && _) eqn:Hin; [breflect; lia|done].
  - destruct (_ && _) eqn:Hin; [breflect; lia|done].
  - destruct (_ && _) eqn:Hin; [breflect; lia|done].
Qed.

(** A character the font can draw. *)
Definition drawable (c : Z) : bool := (0 <=? c) || (c =? FX9860_TERM_CURSOR_CHAR).

Lemma write_character_draw px py f b c v :
  0 ≤ px < 32 → 0 ≤ py < 10 →
  term_prim_write_character px py f b c v =
  if drawable c then disp_mono_draw_bitmap (px * 4) (py * 6) (char_bmp f b c) 4 6 v else v.
Proof.
  intros Hx Hy. unfold term_prim_write_character. rewrite !s32_small by lia. fold (drawable c).
  rewrite !(proj2 (Z.ltb_lt _ _)) by lia. by rewrite !andb_true_r.
Qed.

Lemma write_character_cells px py f b c v cx cy :
  length v = 1024%nat → -128 ≤ c < 128 → 0 ≤ px < 32 → 0 ≤ py < 10 → 0 ≤ cx < 32 → 0 ≤ cy < 10 →
  cell (term_prim_write_character px py f b c v) cx cy =
  if drawable c && (cx =? px) && (cy =? py) then glyph f b c else cell v cx cy.
Proof.
  intros Hv Hc Hpx Hpy Hcx Hcy. rewrite write_character_draw by done. destruct (drawable c); [|done].
  rewrite draw_cell by done. cbn [andb]. destruct (_ && _); [|done].
  apply image_ext. intros i j Hi Hj. apply char_bmp_testbit; lia.
Qed.

Lemma write_character_length px py f b c v :
  0 ≤ px < 32 → 0 ≤ py < 10 → length (term_prim_write_character px py f b c v) = length v.
Proof.
  intros Hx Hy. rewrite write_character_draw by done. destruct (drawable c); [|done].
  destruct (draw_at_cell px py (char_bmp f b c) v Hx Hy) as [-> _]. apply draw_one_byte_length.
Qed.

(** ** Scrolling *)

(** Consecutive words stored from word [n] on, each computed from the array. *)
Lemma words_loop_length (f : list Z → nat → list Z) l v :
  length (foldl (λ v i, memcpy_to v (4 * i) (f v i)) v l) = length v.
Proof. revert v. induction l as [|i l IH]; intros v; [done|]. cbn [foldl]. by rewrite IH, memcpy_to_length. Qed.

Lemma scroll_move_get (v : list Z) (n j : nat) :
  (4 * n + 96 ≤ length v)%nat →
  foldl (λ v i, memcpy_to v (4 * i) (memcpy_from v (4 * (i + 4 * 6)) 4)) v (seq 0 n) !! j =
  if decide (j < 4 * n)%nat then v !! (j + 96)%nat else v !! j.
Proof.
  revert j. induction n as [|n IH]; intros j Hn; [done|]. rewrite seq_S, foldl_app. cbn [foldl]. rewrite Nat.add_0_l.
  set (w := foldl _ v _) in *.
  assert (Hw : length w = length v) by (apply (words_loop_length (λ v i, memcpy_from v (4 * (i + 4 * 6)) 4))).
  rewrite memcpy_to_lookup; rewrite memcpy_from_length by lia; [|lia]. rewrite memcpy_from_lookup, !IH by lia.
  repeat case_decide; try lia; f_equal; lia.
Qed.

Lemma scroll_fill_get (v : list Z) b (s n j : nat) :
  (4 * (s + n) ≤ length v)%nat →
  foldl (λ v i, memcpy_to v (4 * i) (replicate 4 b)) v (seq s n) !! j =
  if decide (4 * s ≤ j < 4 * (s + n))%nat then Some b else v !! j.
Proof.
  revert j. induction n as [|n IH]; intros j Hn; [by case_decide; [lia|]|].
  rewrite seq_S, foldl_app. cbn [foldl]. set (w := foldl _ v _) in *.
  assert (Hw : length w = length v) by (apply (words_loop_length (λ v i, replicate 4 b))).
  rewrite memcpy_to_lookup; rewrite length_replicate; [|lia]. rewrite IH by lia.
  repeat case_decide; try lia; try done. apply lookup_replicate_2. lia.
Qed.

Lemma word_bytes_mask c : word_bytes (term_prim_mask_color c) = replicate 4 (if c =? 1 then 255 else 0).
Proof. unfold term_prim_mask_color, EARLYTERM_COLOR_BLACK. by destruct (c =? 1). Qed.

Lemma scroll_up_get v b j :
  length v = 1024%nat → 0 ≤ j →
  aget (term_prim_scroll_up v b) j =
  if j <? 864 then aget v (j + 96) else if j <? 960 then (if b =? 1 then 255 else 0) else aget v j.
Proof.
  intros Hv Hj. unfold term_prim_scroll_up, aget. rewrite word_bytes_mask, !nth_lookup.
  rewrite scroll_fill_get by (rewrite (words_loop_length (λ v i, memcpy_from v (4 * (i + 4 * 6)) 4)), Hv; lia).
  rewrite scroll_move_get by (rewrite Hv; lia).
  replace (Z.to_nat (j + 96)) with (Z.to_nat j + 96)%nat by lia.
  destruct (j <? 864) eqn:H1, (j <? 960) eqn:H2; breflect; repeat case_decide; try lia; done.
Qed.

Lemma scroll_up_length v b : length (term_prim_scroll_up v b) = length v.
Proof.
  unfold term_prim_scroll_up. cbv zeta. rewrite (words_loop_length (λ _ _, word_bytes (term_prim_mask_color b))).
  apply (words_loop_length (λ v i, memcpy_from v (4 * (i + 4 * 6)) 4)).
Qed.

(** An image of one colour. *)
Definition plain (b : bool) : list bool := image (λ _ _, b).

Lemma testbit_const (b : bool) n : 0 ≤ n < 8 → Z.testbit (if b then 255 else 0) n = b.
Proof.
  intros Hn. destruct b; [|apply Z.testbit_0_l]. rewrite testbit_255.
  by rewrite (proj2 (Z.leb_le _ _)), (proj2 (Z.ltb_lt _ _)) by lia.
Qed.

Lemma pixel_at x y i j :
  0 ≤ i → 0 ≤ x → (6 * y + j) * 16 + (4 * x + i) / 8 = 96 * y + (16 * j + (4 * x + i) / 8) ∧ 0 ≤ (4 * x + i) / 8 ∧ 0 ≤ 7 - (4 * x + i) mod 8 < 8.
Proof. intros. pose proof (Z.mod_pos_bound (4 * x + i) 8). split_and!; [lia|apply Z.div_pos; lia|lia|lia]. Qed.

Lemma scroll_up_cells v b cx cy :
  length v = 1024%nat → 0 ≤ cx < 32 → 0 ≤ cy < 10 →
  cell (term_prim_scroll_up v b) cx cy = if cy <? 9 then cell v cx (cy + 1) else plain (b =? 1).
Proof.
  intros Hv Hx Hy. unfold cell, plain.
  destruct (cy <? 9) eqn:Hcy; breflect; apply image_ext; intros i j Hi Hj; unfold pixel;
    destruct (pixel_at cx cy i j) as (He & Hp & Hm); try lia;
    assert ((4 * cx + i) / 8 < 16) by (apply Z.div_lt_upper_bound; lia); rewrite scroll_up_get by lia.
  - rewrite (proj2 (Z.ltb_lt _ _)) by lia. f_equal. f_equal. lia.
  - rewrite (proj2 (Z.ltb_ge _ _)), (proj2 (Z.ltb_lt _ _)) by lia. by apply testbit_const.
Qed.

Lemma clear_cells (b : bool) cx cy :
  0 ≤ cx < 32 → 0 ≤ cy < 10 → cell (replicate 1024 (if b then 0xFF else 0x00)) cx cy = plain b.
Proof.
  intros Hx Hy. apply image_ext. intros i j Hi Hj. unfold pixel.
  destruct (pixel_at cx cy i j) as (He & Hp & Hm); try lia.
  assert ((4 * cx + i) / 8 < 16) by (apply Z.div_lt_upper_bound; lia).
  unfold aget. rewrite nth_lookup, lookup_replicate_2 by lia. by apply testbit_const.
Qed.

(** ** The cursor *)

(** The bitmap saved for the cursor only has the four low bits of each line. *)
Lemma stored_line_high px py v j i :
  0 ≤ j < 6 → 0 ≤ i < 4 → Z.testbit (aget (term_prim_store_character px py v) j) (7 - i) = false.
Proof.
  intros Hj Hi. unfold term_prim_store_character, aget.
  rewrite nth_lookup, list_lookup_fmap, lookup_seqZ_lt by lia. cbn [fmap option_fmap option_map default id]. unfold id.
  rewrite u8_testbit by lia. change (seqZ 0 4) with [0; 1; 2; 3]. cbn [foldl]. rewrite !Z.lor_spec, !Z.shiftl_spec by lia.
  assert (Hp : ∀ x y n, 0 < n → Z.testbit (disp_mono_get_pixel x y v) n = false).
  { intros x y n Hn. unfold disp_mono_get_pixel. destruct (_ &? _); [|apply Z.testbit_0_l].
    etransitivity; [apply (testbit_pow2 0 n); lia|]. apply Z.eqb_neq. lia. }
  rewrite !Hp by lia. by rewrite Z.testbit_0_l.
Qed.

(** What flushing a display with a visible cursor shows and leaves in the VRAM. *)
Lemma flush_cells d g cx cy :
  length (vmem d) = 1024%nat → cursor d = TEXT_CURSOR_NORMAL → 0 ≤ cursx d < 32 → 0 ≤ cursy d < 10 →
  0 ≤ cx < 32 → 0 ≤ cy < 10 →
  let here := (cx =? cursx d) && (cy =? cursy d) in
  cell (dd (fx9860_tdisp_flush d g).2) cx cy =
    (if here then glyph DISPLAY_COLOR_BLACK DISPLAY_COLOR_WHITE FX9860_TERM_CURSOR_CHAR else cell (vmem d) cx cy) ∧
  cell (vmem (fx9860_tdisp_flush d g).1) cx cy = (if here then plain false else cell (vmem d) cx cy).
Proof.
  intros Hv Hc Hx Hy Hcx Hcy here. unfold fx9860_tdisp_flush. rewrite Hc.
  rewrite bool_decide_eq_false_2, !(proj2 (Z.ltb_lt _ _)) by (done || (unfold FX9860_TERM_WIDTH, FX9860_TERM_HEIGHT; lia)).
  cbn [negb andb fst snd dd vmem set_vmem].
  rewrite write_character_cells by (done || (unfold FX9860_TERM_CURSOR_CHAR; cbn; lia)). split; [done|].
  unfold term_prim_restore_character. rewrite !s32_small by lia.
  rewrite draw_cell by (rewrite ?write_character_length; done).
  rewrite write_character_cells by (done || (unfold FX9860_TERM_CURSOR_CHAR; cbn; lia)).
  change (drawable FX9860_TERM_CURSOR_CHAR) with true. cbn [andb]. subst here.
  destruct (_ && _); [|done]. apply image_ext. intros i j Hi Hj. by apply stored_line_high.
Qed.

Lemma flush_length d g :
  0 ≤ cursx d → 0 ≤ cursy d → length (vmem (fx9860_tdisp_flush d g).1) = length (vmem d).
Proof.
  intros Hx Hy. unfold fx9860_tdisp_flush. destruct (_ && _) eqn:Hc; [|done]. breflect.
  unfold FX9860_TERM_WIDTH, FX9860_TERM_HEIGHT in *. cbn [fst vmem set_vmem].
  unfold term_prim_restore_character. rewrite !s32_small by lia.
  rewrite (proj1 (draw_at_cell (cursx d) (cursy d) _ _ ltac:(lia) ltac:(lia))).
  rewrite draw_one_byte_length. apply write_character_length; lia.
Qed.

(** ** What a text display promises

    The cells of the screen, read by [td_cell], are changed by printing and
    scrolling only; the colours choose what a character looks like. *)

Class TextDisplayOk {D G} (td : text_display D G) := {
  td_wf : D → Prop;
  td_cell : D → Z → Z → list bool;
  td_glyph : D → Z → option (list bool);
  td_blank : D → list bool;
  td_size : 0 < cwidth td < 65536 ∧ 0 < cheight td < 65536;
  td_print_wf d x y c : td_wf d → 0 ≤ x < cwidth td → 0 ≤ y < cheight td → td_wf (td_print_char td d x y c);
  td_scroll_wf d : td_wf d → td_wf (td_scroll td d);
  td_cursor_wf d x y : td_wf d → td_wf (td_set_cursor_pos td d x y);
  td_clear_wf d : td_wf d → td_wf (td_clear td d);
  td_print_cell d x y c cx cy : td_wf d → -128 ≤ c < 128 → 0 ≤ x < cwidth td → 0 ≤ y < cheight td →
    0 ≤ cx < cwidth td → 0 ≤ cy < cheight td →
    td_cell (td_print_char td d x y c) cx cy =
    (if (cx =? x) && (cy =? y) then default (td_cell d cx cy) (td_glyph d c) else td_cell d cx cy);
  td_scroll_cell d cx cy : td_wf d → 0 ≤ cx < cwidth td → 0 ≤ cy < cheight td →
    td_cell (td_scroll td d) cx cy = (if cy <? cheight td - 1 then td_cell d cx (cy + 1) else td_blank d);
  td_cursor_cell d x y cx cy : td_cell (td_set_cursor_pos td d x y) cx cy = td_cell d cx cy;
  td_clear_cell d cx cy : td_wf d → 0 ≤ cx < cwidth td → 0 ≤ cy < cheight td → td_cell (td_clear td d) cx cy = td_blank d;
  td_print_colors d x y c : td_glyph (td_print_char td d x y c) = td_glyph d ∧ td_blank (td_print_char td d x y c) = td_blank d;
  td_scroll_colors d : td_glyph (td_scroll td d) = td_glyph d ∧ td_blank (td_scroll td d) = td_blank d;
  td_cursor_colors d x y : td_glyph (td_set_cursor_pos td d x y) = td_glyph d ∧ td_blank (td_set_cursor_pos td d x y) = td_blank d;
  td_clear_colors d : td_glyph (td_clear td d) = td_glyph d ∧ td_blank (td_clear td d) = td_blank d
}.

(** The colours are 0 and 1. *)
Definition fx_wf (d : tdisp_data) : Prop := length (vmem d) = 1024%nat ∧ (back d = 0 ∨ back d = 1).

#[export, refine] Instance fx9860_ok : TextDisplayOk fx9860_text_display := {|
  td_wf := fx_wf;
  td_cell d := cell (vmem d);
  td_glyph d c := if drawable c then Some (glyph (front d) (back d) c) else None;
  td_blank d := plain (back d =? 1);
  td_size := _
|}.
Proof.
  - cbn. unfold FX9860_TERM_WIDTH, FX9860_TERM_HEIGHT. lia.
  - intros d x y c [Hv Hb] Hx Hy. split; [|exact Hb]. by rewrite <- Hv; apply write_character_length.
  - intros d [Hv Hb]. split; [|exact Hb]. by rewrite <- Hv; apply scroll_up_length.
  - done.
  - intros d [Hv Hb]. split; [|exact Hb]. cbn [td_clear fx9860_text_display fx9860_tdisp_clear vmem set_vmem]. by rewrite length_replicate.
  - intros d x y c cx cy [Hv Hb] Hc Hx Hy Hcx Hcy. cbn [td_print_char fx9860_text_display fx9860_tdisp_print_char vmem set_vmem]. rewrite write_character_cells by done.
    destruct (drawable c), (_ =? _), (_ =? _); done.
  - intros d cx cy [Hv Hb] Hcx Hcy.
    cbn [td_scroll fx9860_text_display fx9860_tdisp_scroll vmem set_vmem]. exact (scroll_up_cells _ _ _ _ Hv Hcx Hcy).
  - done.
  - intros d cx cy [Hv Hb] Hcx Hcy. cbn [td_clear fx9860_text_display fx9860_tdisp_clear vmem set_vmem].
    rewrite clear_cells by done. by destruct Hb as [-> | ->].
  - done.
  - done.
  - done.
  - done.
Defined.

(** ** Properties *)

(** Writing a character of the font changes its cell of the screen to the pixels
    of the character in the chosen colours, and no other cell; a character that
    is not in the font changes nothing. *)
Theorem term_prim_write_exact px py f b c v :
  length v = 1024%nat → -128 ≤ c < 128 → 0 ≤ px < 32 → 0 ≤ py < 10 →
  let v' := term_prim_write_character px py f b c v in
  length v' = 1024%nat ∧
  ∀ cx cy, 0 ≤ cx < 32 → 0 ≤ cy < 10 →
    cell v' cx cy = if drawable c && (cx =? px) && (cy =? py) then glyph f b c else cell v cx cy.
Proof.
  intros Hv Hc Hx Hy. split; [by rewrite write_character_length|].
  intros cx cy Hcx Hcy. by apply write_character_cells.
Qed.

Lemma term_prim_write_exact_witness :
  cell (term_prim_write_character 3 2 1 0 65 (replicate 1024 0)) 3 2 = glyph 1 0 65 ∧
  cell (term_prim_write_character 3 2 1 0 65 (replicate 1024 0)) 4 2 = cell (replicate 1024 0) 4 2.
Proof.
  destruct (term_prim_write_exact 3 2 1 0 65 (replicate 1024 0)) as [_ Hw]; [reflexivity|lia..|].
  split; [rewrite (Hw 3 2) by lia; reflexivity|rewrite (Hw 4 2) by lia; reflexivity].
Defined.

(** Flushing a display with its cursor shows the text with the cursor drawn over
    it; but what it restores afterwards is not what it saved: the cell under the
    cursor is left white in the VRAM, whatever it held. *)
Theorem flush_erases_cursor_cell d g cx cy :
  length (vmem d) = 1024%nat → cursor d = TEXT_CURSOR_NORMAL → 0 ≤ cursx d < 32 → 0 ≤ cursy d < 10 →
  0 ≤ cx < 32 → 0 ≤ cy < 10 →
  let here := (cx =? cursx d) && (cy =? cursy d) in
  cell (dd (fx9860_tdisp_flush d g).2) cx cy =
    (if here then glyph DISPLAY_COLOR_BLACK DISPLAY_COLOR_WHITE FX9860_TERM_CURSOR_CHAR else cell (vmem d) cx cy) ∧
  cell (vmem (fx9860_tdisp_flush d g).1) cx cy = (if here then plain false else cell (vmem d) cx cy).
Proof. apply flush_cells. Qed.

Definition one_char_display : tdisp_data :=
  mk_tdisp 1 0 0 0 TEXT_CURSOR_NORMAL 0x8C000000 (term_prim_write_character 0 0 1 0 65 (replicate 1024 0)).

Lemma flush_erases_cursor_cell_witness :
  cell (vmem one_char_display) 0 0 = glyph 1 0 65 ∧ glyph 1 0 65 ≠ plain false ∧
  cell (vmem (fx9860_tdisp_flush one_char_display (mk_screen [] [])).1) 0 0 = plain false.
Proof.
  split; [vm_compute; reflexivity|]. split; [vm_compute; discriminate|].
  apply (flush_erases_cursor_cell one_char_display (mk_screen [] []) 0 0); [vm_compute; reflexivity|reflexivity|cbn; lia..].
Defined.

(** A bitmap whose lines lie across two bytes of the VRAM is not drawn: four black
    pixels drawn from column 6 leave a white line. *)
Example draw_across_bytes : disp_mono_draw_bitmap 6 0 [0xF0] 4 1 (replicate 1024 0) = replicate 1024 0.
Proof. vm_compute. reflexivity. Qed.
