(* ===== verification/VirtualTerm.v ===== *)
(** * Virtual terminals (src/device/terminal/virtual_term.c)

    A virtual terminal prints the characters written to it on a text display and
    interprets VT100 escape sequences.  It is the driver of a terminal ([tty]):
    the echo of the line discipline and the writes of the processes go through
    it.  The display is updated by a software timer.

    The theorems show that the cursor never leaves the screen, that the parser
    of escape sequences never writes outside its array of arguments and that it
    reads back the numbers of a sequence, and that text appears on the screen as
    its last lines. *)

From S2P Require Import Prelude CyclicFifo PhysMem PoolAlloc KMem Pid Mmu PageDir Kernel Sync Tty Time Device TextDisplay.

(** ** Model *)

(** src/device/terminal/virtual_term.c:37-37: VT100_STATE_NONE *)
Definition VT100_STATE_NONE : Z := 0.
(** src/device/terminal/virtual_term.c:39-39: VT100_STATE_SIMPLE_ESCAPE *)
Definition VT100_STATE_SIMPLE_ESCAPE : Z := 1.
(** src/device/terminal/virtual_term.c:41-41: VT100_STATE_CSI_ESCAPE *)
Definition VT100_STATE_CSI_ESCAPE : Z := 2.
(** src/device/terminal/virtual_term.c:43-43: VT100_STATE_CSI_QM_ESCAPE *)
Definition VT100_STATE_CSI_QM_ESCAPE : Z := 3.
(** src/device/terminal/virtual_term.c:46-46: VT100_MAX_INTARGS *)
Definition VT100_MAX_INTARGS : Z := 4.
(** src/device/terminal/virtual_term.h:37-37: VT_MINOR_BASE *)
Definition VT_MINOR_BASE : Z := 0.
(** src/device/terminal/virtual_term.h:38-38: VT_MAX_TERMINALS *)
Definition VT_MAX_TERMINALS : Z := 2.

(** src/device/terminal/virtual_term.c: vt100_esc_state *)
Record vt100_esc_state := mk_esc { discovery_state : Z; arguments : list Z; arguments_index : Z }.

(** The [tty] of the instance is kept apart, as the drivers of terminals do not use it. *)
(** src/device/terminal/virtual_term.c: vt_instance *)
Record vt_instance {D : Type} := mk_vt {
  disp : D; posx : Z; posy : Z; saved_posx : Z; saved_posy : Z; esc_state : vt100_esc_state
}.
Arguments vt_instance : clear implicits.
Arguments mk_vt {D}.

(** The flags of the delayed work and the software timers. *)
(** src/device/terminal/virtual_term.c:111-111: _vt_flush_delayed *)
Record vt_timers := mk_timers { vt_flush_delayed : Z; vt_blink_scheduled : Z; vt_jobs : list stimer_job }.

(** The static variables of the driver; [vt_shared] is what the displays share. *)
(** src/device/terminal/virtual_term.c:77-78: _vts *)
Record vt_state {D G : Type} := mk_vts {
  vts : list (vt_instance D); vt_current : Z; vt_tm : vt_timers; vt_shared : G
}.
Arguments vt_state : clear implicits.
Arguments mk_vts {D G}.

Section ops.
Context {D G : Type} (tdisp : text_display D G).

(** The addresses of the callbacks. *)
Context (vt_flush_display_fn vt_toggle_cursor_fn : ptr).
Implicit Types (term : vt_instance D) (tm : vt_timers) (s : vt_state D G).

Definition set_disp (d : D) term : vt_instance D :=
  mk_vt d (posx term) (posy term) (saved_posx term) (saved_posy term) (esc_state term).
Definition set_pos (x y : Z) term : vt_instance D :=
  mk_vt (disp term) x y (saved_posx term) (saved_posy term) (esc_state term).
Definition set_saved (x y : Z) term : vt_instance D :=
  mk_vt (disp term) (posx term) (posy term) x y (esc_state term).
Definition set_esc (e : vt100_esc_state) term : vt_instance D :=
  mk_vt (disp term) (posx term) (posy term) (saved_posx term) (saved_posy term) e.

(** src/device/terminal/virtual_term.c: vt_clear_escape_code *)
Definition vt_clear_escape_code term : vt_instance D :=
  set_esc (mk_esc VT100_STATE_NONE
             (foldl (λ a i, aset a i 0) (arguments (esc_state term)) (seqZ 0 VT100_MAX_INTARGS)) (-1)) term.

(** src/device/terminal/virtual_term.c: vt_delay_flush *)
Definition vt_delay_flush tm : vt_timers :=
  if vt_flush_delayed tm =? 0 then
    mk_timers 1 (vt_blink_scheduled tm) (stimer_add vt_flush_display_fn NULL (TICKS_MSEC_NOTNULL 20) (vt_jobs tm)).2
  else tm.

(** Comparisons with the size of the display are unsigned. *)
(** src/device/terminal/virtual_term.c: vt_move_cursor *)
Definition vt_move_cursor (newx newy : Z) term tm : vt_instance D * vt_timers :=
  let x := if u32 (cwidth tdisp - 1) <? u32 newx then s32 (cwidth tdisp - 1) else if newx <? 0 then 0 else newx in
  let y := if u32 (cheight tdisp - 1) <? u32 newy then s32 (cheight tdisp - 1) else if newy <? 0 then 0 else newy in
  let term := set_pos x y term in
  let term := set_disp (td_set_cursor_pos tdisp (disp term) (u32 (posx term)) (u32 (posy term))) term in
  (term, vt_delay_flush tm).

(** The next state of the parser and the terminal; 55 is '7', 56 '8', 91 '['. *)
(** src/device/terminal/virtual_term.c: vt_parse_simple_escape_code *)
Definition vt_parse_simple_escape_code (str_char : Z) term tm : Z * vt_instance D * vt_timers :=
  if str_char =? 55 then (VT100_STATE_NONE, set_saved (posx term) (posy term) term, tm)
  else if str_char =? 56 then
    let '(term, tm) := vt_move_cursor (saved_posx term) (saved_posy term) term tm in (VT100_STATE_NONE, term, tm)
  else if str_char =? 91 then (VT100_STATE_CSI_ESCAPE, term, tm)
  else (VT100_STATE_NONE, term, tm).

(** [arguments_index >= 0 ? arguments[0] : 1] *)
(** src/device/terminal/virtual_term.c:280-280: vt_parse_escape_code *)
Definition count_arg term : Z :=
  if 0 <=? arguments_index (esc_state term) then aget (arguments (esc_state term)) 0 else 1.

(** 'H' is 72, 'f' 102, 'A' to 'D' 65 to 68, 's' 115, 'u' 117, 'J' 74; the other
    sequences do nothing. *)
(** src/device/terminal/virtual_term.c: vt_parse_escape_code *)
Definition vt_parse_escape_code (str_char : Z) term tm : Z * vt_instance D * vt_timers :=
  let e := esc_state term in
  let done '(term, tm) := (VT100_STATE_NONE, term, tm) in
  if (str_char =? 72) || (str_char =? 102) then
    if 0 <=? arguments_index e then done (vt_move_cursor (aget (arguments e) 0 - 1) (aget (arguments e) 1 - 1) term tm)
    else done (vt_move_cursor 0 0 term tm)
  else if str_char =? 65 then done (vt_move_cursor (posx term) (s32 (posy term - count_arg term)) term tm)
  else if str_char =? 66 then done (vt_move_cursor (posx term) (s32 (posy term + count_arg term)) term tm)
  else if str_char =? 67 then done (vt_move_cursor (s32 (posx term - count_arg term)) (posy term) term tm)
  else if str_char =? 68 then done (vt_move_cursor (s32 (posx term + count_arg term)) (posy term) term tm)
  else if str_char =? 115 then (VT100_STATE_NONE, set_saved (posx term) (posy term) term, tm)
  else if str_char =? 117 then done (vt_move_cursor (saved_posx term) (saved_posy term) term tm)
  else if str_char =? 74 then
    if (0 <=? arguments_index e) && (aget (arguments e) 0 =? 2) then
      let '(term, tm) := vt_move_cursor 0 0 (set_disp (td_clear tdisp (disp term)) term) tm in
      (VT100_STATE_NONE, term, vt_delay_flush tm)
    else (VT100_STATE_NONE, term, tm)
  else (VT100_STATE_NONE, term, tm).

(** A digit or a separator inside a CSI sequence: the next state and the arguments. *)
(** src/device/terminal/virtual_term.c:367-384: vt_read_escape_code *)
Definition read_argument (str_char : Z) (e : vt100_esc_state) : Z * vt100_esc_state :=
  let index := if arguments_index e <? 0 then 0 else arguments_index e in
  if str_char =? 59 then
    let index := index + 1 in
    (if index =? VT100_MAX_INTARGS then VT100_STATE_NONE else VT100_STATE_CSI_ESCAPE,
     mk_esc (discovery_state e) (arguments e) index)
  else
    let a := aset (arguments e) index (u16 (aget (arguments e) index * 10)) in
    let a := aset a index (u16 (aget a index + (str_char - 48))) in
    (VT100_STATE_CSI_ESCAPE, mk_esc (discovery_state e) a index).

(** src/device/terminal/virtual_term.c: vt_read_escape_code *)
Definition vt_read_escape_code (str_char : Z) term tm : vt_instance D * vt_timers :=
  let st := discovery_state (esc_state term) in
  let '(newstate, term, tm) :=
    if st =? VT100_STATE_NONE then
      (if str_char =? 27 then VT100_STATE_SIMPLE_ESCAPE else VT100_STATE_NONE, term, tm)
    else if st =? VT100_STATE_SIMPLE_ESCAPE then vt_parse_simple_escape_code str_char term tm
    else if st =? VT100_STATE_CSI_ESCAPE then
      if ((48 <=? str_char) && (str_char <=? 57)) || (str_char =? 59) then
        let '(newstate, e) := read_argument str_char (esc_state term) in (newstate, set_esc e term, tm)
      else vt_parse_escape_code str_char term tm
    else (VT100_STATE_NONE, term, tm) in
  let term := if newstate =? VT100_STATE_NONE then vt_clear_escape_code term else term in
  (set_esc (mk_esc newstate (arguments (esc_state term)) (arguments_index (esc_state term))) term, tm).

(** The cursor after the character, before the checks of the limits. *)
(** src/device/terminal/virtual_term.c:408-427: vt_echo_char *)
Definition echo_advance (c : Z) term : vt_instance D :=
  if c =? 8 then
    let x := s32 (posx term - 1) in
    if x <? 0 then set_pos (s32 (cwidth tdisp - 1)) (s32 (posy term - 1)) term else set_pos x (posy term) term
  else if c =? 10 then set_pos 0 (s32 (posy term + 1)) term
  else if c =? 13 then set_pos 0 (posy term) term
  else
    let term := set_disp (td_print_char tdisp (disp term) (u32 (posx term)) (u32 (posy term)) c) term in
    set_pos (s32 (posx term + 1)) (posy term) term.

(** src/device/terminal/virtual_term.c:429-438: vt_echo_char *)
Definition echo_limits term : vt_instance D :=
  let term := if cwidth tdisp <=? u32 (posx term) then set_pos 0 (s32 (posy term + 1)) term else term in
  let term :=
    if cheight tdisp <=? u32 (posy term) then
      set_pos (posx term) (s32 (cheight tdisp - 1)) (set_disp (td_scroll tdisp (disp term)) term)
    else term in
  set_disp (td_set_cursor_pos tdisp (disp term) (u32 (posx term)) (u32 (posy term))) term.

(** src/device/terminal/virtual_term.c: vt_echo_char *)
Definition vt_echo_char (c : Z) '(term, tm) : vt_instance D * vt_timers :=
  if (discovery_state (esc_state term) =? VT100_STATE_NONE) && negb (c =? 27) then (echo_limits (echo_advance c term), tm)
  else vt_read_escape_code c term tm.

(** The bytes are passed as [char]. *)
(** src/device/terminal/virtual_term.c: vt_term_print *)
Definition vt_term_print (source : list Z) (st : vt_instance D * vt_timers) : vt_instance D * vt_timers :=
  foldl (λ st b, vt_echo_char (s8 b) st) st source.

(** *** The driver of a terminal *)

(** [_vts[i]] *)
Definition vt_get (i : Z) s : option (vt_instance D) := if 0 <=? i then vts s !! Z.to_nat i else None.
Definition vt_put (i : Z) term s : vt_state D G := mk_vts (aset (vts s) i term) (vt_current s) (vt_tm s) (vt_shared s).
Definition set_vt_tm tm s : vt_state D G := mk_vts (vts s) (vt_current s) tm (vt_shared s).

(** A change of the instance [i] and of the timers. *)
Definition vt_on (i : Z) (f : vt_instance D * vt_timers → vt_instance D * vt_timers) s : vt_state D G :=
  match vt_get i s with
  | Some term => let '(term, tm) := f (term, vt_tm s) in set_vt_tm tm (vt_put i term s)
  | None => s
  end.

(** A call of an operation of the display of the instance [i]. *)
Definition vt_on_disp (i : Z) (f : D → G → D * G) s : vt_state D G :=
  match vt_get i s with
  | Some term =>
      let '(d, g) := f (disp term) (vt_shared s) in
      let s := vt_put i (set_disp d term) s in mk_vts (vts s) (vt_current s) (vt_tm s) g
  | None => s
  end.

(** src/device/terminal/virtual_term.c: vt_flush_display *)
Definition vt_flush_display s : vt_state D G :=
  let s := if (0 <=? vt_current s) && (vt_current s <? VT_MAX_TERMINALS)
           then vt_on_disp (vt_current s) (td_flush tdisp) s else s in
  set_vt_tm (mk_timers 0 (vt_blink_scheduled (vt_tm s)) (vt_jobs (vt_tm s))) s.

(** [i] is the instance [tty->private] points to. *)
(** src/device/terminal/virtual_term.c: vt_tty_force_flush *)
Definition vt_tty_force_flush (i : Z) s : Z * vt_state D G := (0, vt_on_disp i (td_flush tdisp) s).

(** src/device/terminal/virtual_term.c: vt_tty_putchar *)
Definition vt_tty_putchar (i : Z) (c : Z) s : Z * vt_state D G :=
  let s := vt_on i (vt_echo_char c) s in (0, set_vt_tm (vt_delay_flush (vt_tm s)) s).

(** src/device/terminal/virtual_term.c: vt_tty_write *)
Definition vt_tty_write (i : Z) (data : list Z) s : Z * vt_state D G :=
  let s := vt_on i (vt_term_print data) s in
  let s := if i =? vt_current s then set_vt_tm (vt_delay_flush (vt_tm s)) s else s in
  (Z.of_nat (length data), s).

(** src/device/terminal/virtual_term.c: vt_tty_is_ready *)
Definition vt_tty_is_ready s : Z := 1.

(** src/device/terminal/virtual_term.c: vt_ioctl_getwinsize *)
Definition vt_ioctl_getwinsize s : Z * winsize * vt_state D G :=
  (0, mk_winsize (u16 (cheight tdisp)) (u16 (cwidth tdisp)), s).

(** src/device/terminal/virtual_term.c: vt_ioctl_setwinsize *)
Definition vt_ioctl_setwinsize (w : winsize) s : Z * vt_state D G := (- EINVAL, s).

(** src/device/terminal/virtual_term.c:98-105: _vt_tty_ops *)
Definition vt_tty_ops (i : Z) : tty_ops (vt_state D G) :=
  mk_tty_ops (Some vt_tty_is_ready) (Some (vt_tty_write i)) (vt_tty_putchar i) None (Some vt_ioctl_setwinsize)
    (Some vt_ioctl_getwinsize) None (Some (vt_tty_force_flush i)) None None.

(** *** Activation and the keyboard *)

(** src/device/terminal/virtual_term.c: vt_cursor_schedule_blink *)
Definition vt_cursor_schedule_blink tm : vt_timers :=
  if vt_blink_scheduled tm =? 0 then
    mk_timers (vt_flush_delayed tm) 1 (stimer_add vt_toggle_cursor_fn NULL (TICKS_MSEC_NOTNULL 750) (vt_jobs tm)).2
  else tm.

(** The display of the instance before the first one, which the code names when no
    terminal is active, is deactivated: nothing is done. *)
(** src/device/terminal/virtual_term.c: vt_set_active *)
Definition vt_set_active (term : Z) s : vt_state D G :=
  if (-1 <=? term) && (term <? VT_MAX_TERMINALS) then
    if negb (term =? vt_current s) then
      let s := vt_on_disp (vt_current s) (λ d, td_set_active tdisp d 0) s in
      let s := if negb (term =? -1) then
                 let s := vt_on_disp term (λ d, td_set_active tdisp d 1) s in
                 set_vt_tm (vt_cursor_schedule_blink (vt_tm s)) s
               else s in
      mk_vts (vts s) term (vt_tm s) (vt_shared s)
    else s
  else s.

(** The field [cursor] of the data of the display. *)
Context (disp_cursor : D → text_cursor) (set_disp_cursor : text_cursor → D → D).

(** src/device/terminal/virtual_term.c: vt_toggle_cursor *)
Definition vt_toggle_cursor s : vt_state D G :=
  if (0 <=? vt_current s) && (vt_current s <? VT_MAX_TERMINALS) then
    let s := vt_on_disp (vt_current s) (λ d g,
               (if bool_decide (disp_cursor d = TEXT_CURSOR_NORMAL) then set_disp_cursor TEXT_CURSOR_DISABLE d
                else set_disp_cursor TEXT_CURSOR_NORMAL d, g)) s in
    let tm := vt_delay_flush (vt_tm s) in
    let tm := mk_timers (vt_flush_delayed tm) 0 (vt_jobs tm) in
    set_vt_tm (vt_cursor_schedule_blink tm) s
  else set_vt_tm (mk_timers (vt_flush_delayed (vt_tm s)) 0 (vt_jobs (vt_tm s))) s.

(** [ttys] are the [tty] of the instances. *)
(** src/device/terminal/virtual_term.c: vt_key_stroke *)
Definition vt_key_stroke {A} (code : Z) (ttys : list tty) s (k : kernel A) : list tty * vt_state D G * kernel A :=
  if (0 <=? vt_current s) && (vt_current s <? VT_MAX_TERMINALS) then
    match ttys !! Z.to_nat (vt_current s) with
    | Some t =>
        let '(_, t, s', k) := tty_input_char (vt_tty_ops (vt_current s)) (s8 code) t s k in
        (aset ttys (vt_current s) t, s', k)
    | None => (ttys, s, k)
    end
  else (ttys, s, k).

(** *** Initialisation *)

(** The instance [i]: its display, its position, its [tty] and its minor;
    [tty_addr i] is the address of the [tty]. *)
(** src/device/terminal/virtual_term.c:134-148: vt_init *)
Definition vt_init_instance (tty_addr : Z → ptr)
    (st : list (vt_instance D) * list tty * list ptr * pmem) (i : Z)
    : option (list (vt_instance D) * list tty * list ptr * pmem) :=
  let '(vs, ttys, minors, pm) := st in
  match vs !! Z.to_nat i, ttys !! Z.to_nat i with
  | Some term, Some t =>
      '(d, pm) ← td_init_disp tdisp (disp term) pm;
      let term := vt_clear_escape_code (set_saved 0 0 (set_pos 0 0 (set_disp d term))) in
      let t := tty_default_init (buffer (fifo t)) t in
      Some (aset vs i term, aset ttys i t, (ttydev_set_minor (VT_MINOR_BASE + i) (tty_addr i) minors).2, pm)
  | _, _ => Some st
  end.

Fixpoint vt_init_loop (tty_addr : Z → ptr) (st : list (vt_instance D) * list tty * list ptr * pmem) (is' : list Z) :=
  match is' with
  | [] => Some st
  | i :: is' => st ← vt_init_instance tty_addr st i; vt_init_loop tty_addr st is'
  end.

(** src/device/terminal/virtual_term.c: vt_init *)
Definition vt_init (tty_addr : Z → ptr) (ttys : list tty) (minors : list ptr) (pm : pmem) s
    : option (list tty * list ptr * pmem * vt_state D G) :=
  '(vs, ttys, minors, pm) ← vt_init_loop tty_addr (vts s, ttys, minors, pm) (seqZ 0 VT_MAX_TERMINALS);
  Some (ttys, minors, pm, mk_vts vs (-1) (vt_tm s) (vt_shared s)).
End ops.

(** ** The cursor and the parser *)

Section theorems.
Context {D G : Type} (tdisp : text_display D G) `{!TextDisplayOk tdisp}.
Context (vt_flush_display_fn : ptr).
Implicit Types (term : vt_instance D) (tm : vt_timers).

Abbreviation echo := (vt_echo_char tdisp vt_flush_display_fn).
Abbreviation print := (vt_term_print tdisp vt_flush_display_fn).
Abbreviation TW := (cwidth tdisp).
Abbreviation TH := (cheight tdisp).

(** The arguments are only used inside a CSI sequence. *)
Definition esc_wf (e : vt100_esc_state) : Prop :=
  length (arguments e) = 4%nat ∧ Forall (λ a, 0 ≤ a < 65536) (arguments e) ∧
  -1 ≤ arguments_index e < VT100_MAX_INTARGS ∧
  (discovery_state e = 2 ∨ (discovery_state e = 0 ∨ discovery_state e = 1) ∧ arguments e = replicate 4 0 ∧ arguments_index e = -1).

Definition vt_wf term : Prop :=
  0 ≤ posx term < TW ∧ 0 ≤ posy term < TH ∧ 0 ≤ saved_posx term < TW ∧ 0 ≤ saved_posy term < TH ∧
  td_wf (disp term) ∧ esc_wf (esc_state term).

(** Moving outside of the screen, on any side, goes to its last column or row. *)
Definition clamp (n x : Z) : Z := if (0 <=? x) && (x <? n) then x else n - 1.

Lemma clamp_range n x : 0 < n → 0 ≤ clamp n x < n.
Proof. intros Hn. unfold clamp. destruct (_ && _) eqn:E; breflect; lia. Qed.

Lemma clamp_code n x :
  0 < n < 2147483648 → -2147483648 ≤ x < 2147483648 →
  (if u32 (n - 1) <? u32 x then s32 (n - 1) else if x <? 0 then 0 else x) = clamp n x.
Proof.
  intros Hn Hx. unfold clamp. rewrite s32_small, (u32_small (n - 1)) by lia.
  destruct (0 <=? x) eqn:H0; breflect; cbn [andb].
  - rewrite u32_small by lia. destruct (x <? n) eqn:H1; breflect.
    + rewrite (proj2 (Z.ltb_ge (n - 1) x)), (proj2 (Z.ltb_ge x 0)) by lia. done.
    + rewrite (proj2 (Z.ltb_lt _ _)) by lia. done.
  - rewrite u32_neg by lia. rewrite (proj2 (Z.ltb_lt _ _)) by lia. done.
Qed.

Lemma move_cursor_spec newx newy term tm :
  -2147483648 ≤ newx < 2147483648 → -2147483648 ≤ newy < 2147483648 →
  vt_move_cursor tdisp vt_flush_display_fn newx newy term tm =
  (set_disp (td_set_cursor_pos tdisp (disp term) (clamp TW newx) (clamp TH newy)) (set_pos (clamp TW newx) (clamp TH newy) term),
   vt_delay_flush vt_flush_display_fn tm).
Proof.
  intros Hx Hy. destruct td_size as [HW HH]. unfold vt_move_cursor. rewrite !clamp_code by lia. cbv zeta. cbn [posx posy set_pos disp].
  pose proof (clamp_range TW newx). pose proof (clamp_range TH newy). rewrite !u32_small by lia. done.
Qed.

Lemma move_cursor_wf newx newy term tm :
  vt_wf term → -2147483648 ≤ newx < 2147483648 → -2147483648 ≤ newy < 2147483648 →
  vt_wf (vt_move_cursor tdisp vt_flush_display_fn newx newy term tm).1.
Proof.
  intros (Hx & Hy & Hsx & Hsy & Hd & He) Hnx Hny. destruct td_size as [HW HH]. rewrite move_cursor_spec by done.
  cbn [fst]. unfold vt_wf. cbn. split; [apply clamp_range; lia|]. split; [apply clamp_range; lia|].
  split_and!; try lia; [by apply td_cursor_wf|done].
Qed.

Lemma zero_esc_wf st : st = 0 ∨ st = 1 → esc_wf (mk_esc st (replicate 4 0) (-1)).
Proof.
  intros Hst. split; [done|]. split; [apply Forall_replicate; lia|]. split; [cbn; unfold VT100_MAX_INTARGS; lia|].
  right. by split.
Qed.

Lemma cleared_esc term :
  length (arguments (esc_state term)) = 4%nat → esc_state (vt_clear_escape_code term) = mk_esc 0 (replicate 4 0) (-1).
Proof.
  intros Ha. cbn. destruct (arguments (esc_state term)) as [|a0 [|a1 [|a2 [|a3 [|]]]]]; try discriminate Ha. done.
Qed.

(** A terminal whose parser is in a given state, the rest being unchanged. *)
Lemma set_esc_wf term e : vt_wf term → esc_wf e → vt_wf (set_esc e term).
Proof. intros (Hx & Hy & Hsx & Hsy & Hd & _) He. exact (conj Hx (conj Hy (conj Hsx (conj Hsy (conj Hd He))))). Qed.

Lemma parse_simple_wf c term tm :
  vt_wf term →
  let '(ns, term', _) := vt_parse_simple_escape_code tdisp vt_flush_display_fn c term tm in
  vt_wf term' ∧ esc_state term' = esc_state term ∧ (ns = 0 ∨ ns = 2).
Proof.
  intros Hwf. pose proof Hwf as (Hx & Hy & Hsx & Hsy & Hd & He). destruct td_size as [HW HH].
  unfold vt_parse_simple_escape_code. destruct (c =? 55); [split; [exact (conj Hx (conj Hy (conj Hx (conj Hy (conj Hd He)))))|auto]|].
  destruct (c =? 56); [|destruct (c =? 91); split_and!; auto].
  pose proof (move_cursor_wf (saved_posx term) (saved_posy term) term tm Hwf) as Hm.
  rewrite move_cursor_spec in * by lia. split_and!; [apply Hm; lia|done|by left].
Qed.

Lemma count_arg_range term : vt_wf term → 0 ≤ count_arg term < 65536.
Proof.
  intros (_ & _ & _ & _ & _ & Hl & Ha & _). unfold count_arg. destruct (_ <=? _); [|lia].
  destruct (arguments (esc_state term)) as [|a l]; [done|]. by apply Forall_inv in Ha.
Qed.

Lemma argument_range e i : esc_wf e → 0 ≤ i → 0 ≤ aget (arguments e) i < 65536.
Proof.
  intros (Hl & Ha & _) Hi. unfold aget. destruct (arguments e !! Z.to_nat i) as [a|] eqn:Hn.
  - rewrite (nth_lookup_Some _ _ _ _ Hn). exact (proj1 (Forall_lookup _ _) Ha _ _ Hn).
  - rewrite nth_lookup, Hn. cbn. lia.
Qed.

Lemma parse_escape_wf c term tm :
  vt_wf term →
  let '(ns, term', _) := vt_parse_escape_code tdisp vt_flush_display_fn c term tm in vt_wf term' ∧ ns = 0.
Proof.
  intros Hwf. pose proof Hwf as (Hx & Hy & Hsx & Hsy & Hd & He). destruct td_size as [HW HH].
  pose proof (count_arg_range term Hwf) as Hn.
  pose proof (argument_range _ 0 He ltac:(lia)). pose proof (argument_range _ 1 He ltac:(lia)).
  assert (Hmv : ∀ x y t tm, vt_wf t → -2147483648 ≤ x < 2147483648 → -2147483648 ≤ y < 2147483648 →
    let '(ns, t', _) := (let '(t, tm) := vt_move_cursor tdisp vt_flush_display_fn x y t tm in (VT100_STATE_NONE, t, tm)) in
    vt_wf t' ∧ ns = 0).
  { intros x y t tm' Ht Hxr Hyr. pose proof (move_cursor_wf x y t tm' Ht Hxr Hyr) as Hm.
    destruct (vt_move_cursor _ _ x y t tm'). by split. }
  unfold vt_parse_escape_code. cbv zeta.
  repeat (match goal with |- context [if ?b then _ else _] => destruct b end;
          first [apply Hmv; [exact Hwf|first [lia | apply s32_range]..] | idtac]);
    try exact (conj Hwf eq_refl).
  - split; [exact (conj Hx (conj Hy (conj Hx (conj Hy (conj Hd He)))))|done].
  - pose proof (move_cursor_wf 0 0 (set_disp (td_clear tdisp (disp term)) term) tm) as Hm.
    destruct (vt_move_cursor _ _ _ _ _ _). split; [|done]. apply Hm; [|lia..].
    exact (conj Hx (conj Hy (conj Hsx (conj Hsy (conj (td_clear_wf _ Hd) He))))).
Qed.

Lemma aset_u16 (l : list Z) i v : Forall (λ a, 0 ≤ a < 65536) l → Forall (λ a, 0 ≤ a < 65536) (aset l i (u16 v)).
Proof. intros Hl. apply Forall_insert; [done|]. apply u16_range. Qed.

(** Inside a CSI sequence a digit is stored in the array. *)
Lemma read_argument_wf c e :
  esc_wf e → discovery_state e = 2 →
  let '(ns, e') := read_argument c e in
  length (arguments e') = 4%nat ∧ Forall (λ a, 0 ≤ a < 65536) (arguments e') ∧
  (ns = 0 ∨ ns = 2 ∧ -1 ≤ arguments_index e' < VT100_MAX_INTARGS).
Proof.
  intros (Hl & Ha & Hi & _) Hst. unfold read_argument, VT100_MAX_INTARGS in *. cbv zeta.
  assert (Hidx : 0 ≤ (if arguments_index e <? 0 then 0 else arguments_index e) < 4) by (destruct (_ <? 0) eqn:E; breflect; lia).
  set (index := if arguments_index e <? 0 then 0 else arguments_index e) in *. destruct (c =? 59).
  - split_and!; [done|done|]. destruct (Z.eqb_spec (index + 1) 4); [by left|right]. cbn. unfold VT100_STATE_CSI_ESCAPE. lia.
  - cbn [arguments arguments_index]. split; [by rewrite !aset_length|]. split; [by apply aset_u16, aset_u16|].
    right. unfold VT100_STATE_CSI_ESCAPE. lia.
Qed.

(** The end of [vt_read_escape_code]. *)
Definition esc_finish (ns : Z) term : vt_instance D :=
  let term := if ns =? VT100_STATE_NONE then vt_clear_escape_code term else term in
  set_esc (mk_esc ns (arguments (esc_state term)) (arguments_index (esc_state term))) term.

Lemma esc_finish_none term : length (arguments (esc_state term)) = 4%nat → esc_finish 0 term = set_esc (mk_esc 0 (replicate 4 0) (-1)) term.
Proof. intros Hl. unfold esc_finish, VT100_STATE_NONE. rewrite Z.eqb_refl. cbv zeta. by rewrite (cleared_esc _ Hl). Qed.

Definition is_arg (c : Z) : bool := ((48 <=? c) && (c <=? 57)) || (c =? 59).

(** The parser in each of its states. *)
Lemma read_escape_cases c term tm :
  let st := discovery_state (esc_state term) in
  (st = 0 → vt_read_escape_code tdisp vt_flush_display_fn c term tm = (esc_finish (if c =? 27 then 1 else 0) term, tm)) ∧
  (st = 1 → vt_read_escape_code tdisp vt_flush_display_fn c term tm =
    let '(ns, t, tm) := vt_parse_simple_escape_code tdisp vt_flush_display_fn c term tm in (esc_finish ns t, tm)) ∧
  (st = 2 → vt_read_escape_code tdisp vt_flush_display_fn c term tm =
    if is_arg c then let '(ns, e) := read_argument c (esc_state term) in (esc_finish ns (set_esc e term), tm)
    else let '(ns, t, tm) := vt_parse_escape_code tdisp vt_flush_display_fn c term tm in (esc_finish ns t, tm)).
Proof.
  cbv zeta. unfold vt_read_escape_code, is_arg. split_and!; intros ->.
  - done.
  - done.
  - change (2 =? VT100_STATE_NONE) with false. change (2 =? VT100_STATE_SIMPLE_ESCAPE) with false.
    change (2 =? VT100_STATE_CSI_ESCAPE) with true. cbv iota zeta. destruct (_ || _); [|done].
    by destruct (read_argument c (esc_state term)).
Qed.

(** The state the parser is left in. *)
Lemma esc_finish_wf ns term :
  vt_wf (set_esc (mk_esc 0 (replicate 4 0) (-1)) term) → length (arguments (esc_state term)) = 4%nat →
  Forall (λ a, 0 ≤ a < 65536) (arguments (esc_state term)) →
  ns = 0 ∨ ns = 2 ∧ -1 ≤ arguments_index (esc_state term) < VT100_MAX_INTARGS →
  vt_wf (esc_finish ns term).
Proof.
  intros Hwf Hl Ha [->|[-> Hi]]; [by rewrite esc_finish_none|].
  destruct Hwf as (Hx & Hy & Hsx & Hsy & Hd & _).
  exact (conj Hx (conj Hy (conj Hsx (conj Hsy (conj Hd (conj Hl (conj Ha (conj Hi (or_introl eq_refl))))))))).
Qed.

Lemma wf_reset term e : vt_wf term → vt_wf (set_esc (mk_esc 0 (replicate 4 0) (-1)) (set_esc e term)).
Proof. intros Hwf. apply (set_esc_wf term); [done|]. apply zero_esc_wf. by left. Qed.

Lemma read_escape_wf c term tm :
  vt_wf term → (discovery_state (esc_state term) ≠ 0 ∨ c = 27) → vt_wf (vt_read_escape_code tdisp vt_flush_display_fn c term tm).1.
Proof.
  intros Hwf Hst. pose proof Hwf as (_ & _ & _ & _ & _ & Hl & Ha & Hi & Hcase).
  assert (Hfin : ∀ t ns, vt_wf t → ns = 0 ∨ ns = 2 → vt_wf (esc_finish ns t)).
  { intros t ns Ht Hns. pose proof Ht as (_ & _ & _ & _ & _ & Hl' & Ha' & Hi' & _).
    apply esc_finish_wf; [by apply (wf_reset t (esc_state t))|done|done|]. destruct Hns; auto. }
  destruct (read_escape_cases c term tm) as (C0 & C1 & C2). destruct Hcase as [Hs|[[Hs|Hs] [Hz Hm1]]].
  - rewrite (C2 Hs). destruct (is_arg c).
    + pose proof (read_argument_wf c (esc_state term) (conj Hl (conj Ha (conj Hi (or_introl Hs)))) Hs) as Hr.
      destruct (read_argument c (esc_state term)) as [ns e]. destruct Hr as (Hl' & Ha' & Hi').
      apply esc_finish_wf; [by apply wf_reset|done..].
    + pose proof (parse_escape_wf c term tm Hwf) as Hp. destruct (vt_parse_escape_code _ _ c term tm) as [[ns t] tm'].
      destruct Hp as [Ht ->]. apply Hfin; auto.
  - rewrite (C0 Hs). destruct Hst as [|Hc]; [done|]. rewrite (proj2 (Z.eqb_eq _ _) Hc). cbn [fst].
    change (esc_finish 1 term) with (set_esc (mk_esc 1 (arguments (esc_state term)) (arguments_index (esc_state term))) term).
    rewrite Hz, Hm1. apply set_esc_wf; [done|]. apply zero_esc_wf. by right.
  - rewrite (C1 Hs). pose proof (parse_simple_wf c term tm Hwf) as Hp.
    destruct (vt_parse_simple_escape_code _ _ c term tm) as [[ns t] tm']. destruct Hp as (Ht & He & Hns). by apply Hfin.
Qed.

Lemma echo_limits_wf term :
  0 ≤ posx term ≤ TW → -1 ≤ posy term ≤ TH → 0 ≤ saved_posx term < TW → 0 ≤ saved_posy term < TH →
  td_wf (disp term) → esc_wf (esc_state term) → vt_wf (echo_limits tdisp term).
Proof.
  intros Hx Hy Hsx Hsy Hd He. destruct td_size as [HW HH]. unfold echo_limits. cbv zeta. rewrite (u32_small (posx term)) by lia.
  set (t1 := if TW <=? posx term then _ else _).
  assert (Ht1 : 0 ≤ posx t1 < TW ∧ -1 ≤ posy t1 ≤ TH + 1 ∧ saved_posx t1 = saved_posx term ∧ saved_posy t1 = saved_posy term ∧
                disp t1 = disp term ∧ esc_state t1 = esc_state term).
  { unfold t1. destruct (TW <=? posx term) eqn:E; breflect; cbn; rewrite ?s32_small by lia; split_and!; try lia; done. }
  destruct Ht1 as (Hx1 & Hy1 & Hsx1 & Hsy1 & Hd1 & He1). unfold vt_wf.
  destruct (TH <=? u32 (posy t1)) eqn:E; cbn.
  - rewrite s32_small by lia. rewrite Hsx1, Hsy1, Hd1, He1. split_and!; try lia; [by apply td_cursor_wf, td_scroll_wf|apply He..].
  - breflect. rewrite Hsx1, Hsy1, Hd1, He1. assert (0 ≤ posy t1 < TH).
    { destruct (decide (posy t1 < 0)); [rewrite u32_neg in E by lia; lia|rewrite u32_small in E by lia; lia]. }
    split_and!; try lia; [by apply td_cursor_wf|apply He..].
Qed.

Lemma echo_advance_ok c term :
  vt_wf term →
  let t := echo_advance tdisp c term in
  0 ≤ posx t ≤ TW ∧ -1 ≤ posy t ≤ TH ∧ saved_posx t = saved_posx term ∧ saved_posy t = saved_posy term ∧
  td_wf (disp t) ∧ esc_state t = esc_state term.
Proof.
  intros (Hx & Hy & Hsx & Hsy & Hd & He). destruct td_size as [HW HH]. unfold echo_advance. cbv zeta.
  rewrite !(s32_small (posx term - 1)), !(s32_small (posy term - 1)), !(s32_small (posy term + 1)) by lia.
  destruct (c =? 8); [destruct (posx term - 1 <? 0) eqn:E; breflect|destruct (c =? 10); [|destruct (c =? 13)]]; cbn; rewrite ?s32_small by lia.
  all: split_and!; try lia; try done.
  rewrite !u32_small by lia. by apply td_print_wf.
Qed.

Lemma echo_wf c term tm : vt_wf term → vt_wf (echo c (term, tm)).1.
Proof.
  intros Hwf. unfold vt_echo_char. destruct (_ && _) eqn:Hp.
  - destruct (echo_advance_ok c term Hwf) as (Hx & Hy & Hsx & Hsy & Hd & He). pose proof Hwf as (_ & _ & Hsx' & Hsy' & _ & He').
    apply echo_limits_wf; rewrite ?Hsx, ?Hsy, ?He; done.
  - apply read_escape_wf; [done|]. apply andb_false_iff in Hp as [Hp|Hp]; breflect; auto.
Qed.

Lemma print_wf bytes : ∀ st, vt_wf st.1 → vt_wf (print bytes st).1.
Proof.
  induction bytes as [|b bytes IH]; intros [term tm] Hwf; [done|]. cbn. apply IH. by apply echo_wf.
Qed.

(** ** Escape sequences with arguments *)

(** A number written in decimal, possibly with leading zeros. *)
Definition dec (ds : list Z) : Z := foldl (λ a d, a * 10 + d) 0 ds.
Definition is_digits (ds : list Z) : Prop := Forall (λ d, 0 ≤ d ≤ 9) ds.
Definition digit_bytes (ds : list Z) : list Z := (λ d, 48 + d) <$> ds.

(** ESC [ and the arguments, separated by semicolons. *)
Definition csi_bytes (ds : list Z) (dss : list (list Z)) : list Z :=
  27 :: 91 :: digit_bytes ds ++ (ds' ← dss; 59 :: digit_bytes ds').

(** The parser after the arguments [vals]. *)
Definition csi_state (vals : list Z) : vt100_esc_state :=
  mk_esc 2 (vals ++ replicate (4 - length vals) 0) (Z.of_nat (length vals) - 1).

Lemma u16_dec_step a d : u16 (u16 (u16 a * 10) + d) = u16 (a * 10 + d).
Proof.
  unfold u16. rewrite Z.add_mod_idemp_l by lia. rewrite <- (Z.add_mod_idemp_l (a mod 65536 * 10)) by lia.
  rewrite Z.mul_mod_idemp_l by lia. by rewrite Z.add_mod_idemp_l by lia.
Qed.

Lemma s8_id x : -128 ≤ x < 128 → s8 x = x.
Proof. intros Hx. unfold s8. rewrite Z.mod_small; lia. Qed.

Lemma echo_arg c e term tm :
  discovery_state e = 2 → is_arg c = true →
  echo c (set_esc e term, tm) = let '(ns, e') := read_argument c e in (esc_finish ns (set_esc e' term), tm).
Proof.
  intros He Hc. unfold vt_echo_char. cbn [esc_state set_esc]. rewrite He. cbn [andb Z.eqb].
  change (2 =? VT100_STATE_NONE) with false. cbn [andb].
  destruct (read_escape_cases c (set_esc e term) tm) as (_ & _ & C2). rewrite (C2 He), Hc. cbn [esc_state set_esc].
  by destruct (read_argument c e).
Qed.

Lemma set_esc_twice e e' term : set_esc e (set_esc e' term) = set_esc e term.
Proof. done. Qed.

Lemma csi_digit vals a d term tm :
  (length vals < 4)%nat → 0 ≤ d ≤ 9 →
  echo (s8 (48 + d)) (set_esc (csi_state (vals ++ [u16 a])) term, tm) = (set_esc (csi_state (vals ++ [u16 (a * 10 + d)])) term, tm).
Proof.
  intros Hn Hd. rewrite s8_id by lia. rewrite echo_arg; [|done|unfold is_arg; rewrite !(proj2 (Z.leb_le _ _)) by lia; done].
  unfold read_argument, csi_state. cbn [arguments arguments_index discovery_state]. rewrite !length_app. cbn [length].
  replace (Z.of_nat (length vals + 1) - 1) with (Z.of_nat (length vals)) by lia.
  rewrite (proj2 (Z.ltb_ge _ 0)), (proj2 (Z.eqb_neq (48 + d) 59)) by lia. cbv zeta.
  set (r := replicate (4 - (length vals + 1)) 0). rewrite <- !app_assoc.
  assert (Hget : ∀ x, aget (vals ++ [x] ++ r) (Z.of_nat (length vals)) = x).
  { intros x. unfold aget. rewrite Nat2Z.id, nth_lookup, lookup_app_r by lia. by rewrite Nat.sub_diag. }
  assert (Hset : ∀ x y, aset (vals ++ [x] ++ r) (Z.of_nat (length vals)) y = vals ++ [y] ++ r).
  { intros x y. unfold aset. rewrite Nat2Z.id, insert_app_r_alt by lia. by rewrite Nat.sub_diag. }
  rewrite Hget, Hset, Hget, Hset. replace (48 + d - 48) with d by lia. by rewrite u16_dec_step.
Qed.

Lemma csi_digits ds : ∀ vals a term tm,
  (length vals < 4)%nat → is_digits ds →
  print (digit_bytes ds) (set_esc (csi_state (vals ++ [u16 a])) term, tm) =
  (set_esc (csi_state (vals ++ [u16 (foldl (λ a d, a * 10 + d) a ds)])) term, tm).
Proof.
  induction ds as [|d ds IH]; intros vals a term tm Hn Hds; [done|]. apply Forall_cons in Hds as [Hd Hds].
  cbn [digit_bytes fmap list_fmap vt_term_print foldl]. rewrite csi_digit by done. by apply IH.
Qed.

Lemma csi_separator vals term tm :
  (0 < length vals < 4)%nat →
  echo (s8 59) (set_esc (csi_state vals) term, tm) = (set_esc (csi_state (vals ++ [0])) term, tm).
Proof.
  intros Hn. rewrite s8_id by lia. rewrite echo_arg by done.
  unfold read_argument, csi_state. cbn [arguments arguments_index discovery_state]. rewrite length_app. cbn [length].
  rewrite (proj2 (Z.ltb_ge _ 0)) by lia. change (59 =? 59) with true. cbv iota zeta.
  rewrite (proj2 (Z.eqb_neq _ VT100_MAX_INTARGS)) by (unfold VT100_MAX_INTARGS; lia).
  change (esc_finish VT100_STATE_CSI_ESCAPE ?t) with (set_esc (mk_esc 2 (arguments (esc_state t)) (arguments_index (esc_state t))) t).
  rewrite set_esc_twice. cbn [esc_state set_esc arguments arguments_index]. f_equal. f_equal. f_equal; [|lia].
  rewrite <- app_assoc. f_equal. by replace (4 - length vals)%nat with (S (4 - (length vals + 1))) by lia.
Qed.

Lemma print_app l1 l2 st : print (l1 ++ l2) st = print l2 (print l1 st).
Proof. apply foldl_app. Qed.

Lemma csi_more dss : ∀ vals term tm,
  (0 < length vals)%nat → (length vals + length dss ≤ 4)%nat → Forall is_digits dss →
  print (ds' ← dss; 59 :: digit_bytes ds') (set_esc (csi_state vals) term, tm) =
  (set_esc (csi_state (vals ++ ((λ ds, u16 (dec ds)) <$> dss))) term, tm).
Proof.
  induction dss as [|ds dss IH]; intros vals term tm Hv Hn Hds; [cbn; by rewrite app_nil_r|].
  apply Forall_cons in Hds as [Hd Hds]. cbn [length] in Hn. cbn [mbind list_bind]. rewrite print_app.
  change (print (59 :: ?l) ?st) with (print l (echo (s8 59) st)). rewrite csi_separator by lia.
  change 0 with (u16 0) at 1. rewrite csi_digits by (done || lia). fold (dec ds).
  rewrite IH by (rewrite ?length_app; cbn [length]; (done || lia)). rewrite <- app_assoc. done.
Qed.

(** The first character of the arguments sets the index from -1 to 0. *)
Lemma csi_first c bytes term tm :
  is_arg (s8 c) = true →
  print (c :: bytes) (set_esc (mk_esc 2 (replicate 4 0) (-1)) term, tm) = print (c :: bytes) (set_esc (csi_state [0]) term, tm).
Proof.
  intros Hc. change (print (c :: bytes) ?st) with (print bytes (echo (s8 c) st)). f_equal. rewrite !echo_arg by done. done.
Qed.

Lemma csi_open term tm :
  vt_wf term → discovery_state (esc_state term) = 0 →
  print [27; 91] (term, tm) = (set_esc (mk_esc 2 (replicate 4 0) (-1)) term, tm).
Proof.
  intros (_ & _ & _ & _ & _ & _ & _ & _ & Hcase) Hst.
  destruct Hcase as [H2|[_ [Hz Hi]]]; [rewrite Hst in H2; done|].
  change (print [27; 91] (term, tm)) with (echo 91 (echo 27 (term, tm))).
  unfold vt_echo_char at 2. rewrite Hst. change ((0 =? VT100_STATE_NONE) && negb (27 =? 27)) with false. cbv iota.
  rewrite (proj1 (read_escape_cases 27 term tm) Hst). change (27 =? 27) with true. cbv iota.
  change (esc_finish 1 term) with (set_esc (mk_esc 1 (arguments (esc_state term)) (arguments_index (esc_state term))) term).
  rewrite Hz, Hi. done.
Qed.

Lemma csi_arguments ds dss term tm :
  vt_wf term → discovery_state (esc_state term) = 0 → (length dss < 4)%nat → is_digits ds → Forall is_digits dss →
  (ds ≠ [] ∨ dss ≠ []) →
  print (csi_bytes ds dss) (term, tm) = (set_esc (csi_state (u16 (dec ds) :: ((λ ds, u16 (dec ds)) <$> dss))) term, tm).
Proof.
  intros Hwf Hst Hn Hds Hdss Hne. unfold csi_bytes.
  change (27 :: 91 :: ?l) with ([27; 91] ++ l). rewrite print_app, csi_open by done.
  assert (Hfirst : ∀ st', st' = set_esc (csi_state ([] ++ [u16 0])) term →
    print (digit_bytes ds ++ (ds' ← dss; 59 :: digit_bytes ds')) (st', tm) =
    (set_esc (csi_state (u16 (dec ds) :: ((λ ds, u16 (dec ds)) <$> dss))) term, tm)).
  { intros ? ->. rewrite print_app, csi_digits by (done || cbn; lia). fold (dec ds).
    change ([] ++ [u16 (dec ds)]) with [u16 (dec ds)]. rewrite csi_more by (done || cbn; lia). done. }
  rewrite <- (Hfirst _ eq_refl). change ([] ++ [u16 0]) with [0].
  destruct ds as [|d ds].
  - destruct dss as [|ds' dss]; [by destruct Hne|]. cbn [digit_bytes fmap list_fmap app mbind list_bind]. by apply csi_first.
  - apply Forall_cons in Hds as [Hd Hds]. cbn [digit_bytes fmap list_fmap app]. apply csi_first.
    rewrite s8_id by lia. unfold is_arg. rewrite !(proj2 (Z.leb_le _ _)) by lia. done.
Qed.

(** The end of a sequence: the command is executed with the arguments and the
    parser waits for text again. *)
Lemma csi_command ds dss cmd term tm :
  vt_wf term → discovery_state (esc_state term) = 0 → (length dss < 4)%nat → is_digits ds → Forall is_digits dss →
  (ds ≠ [] ∨ dss ≠ []) → 0 ≤ cmd < 128 → is_arg cmd = false →
  print (csi_bytes ds dss ++ [cmd]) (term, tm) =
  let '(_, t, tm') := vt_parse_escape_code tdisp vt_flush_display_fn cmd
                        (set_esc (csi_state (u16 (dec ds) :: ((λ ds, u16 (dec ds)) <$> dss))) term) tm in
  (set_esc (mk_esc 0 (replicate 4 0) (-1)) t, tm').
Proof.
  intros Hwf Hst Hn Hds Hdss Hne Hcmd Harg. pose proof (print_wf (csi_bytes ds dss) (term, tm) Hwf) as Hwf'.
  rewrite print_app, csi_arguments in * by done. cbn [fst] in Hwf'. set (t0 := set_esc _ term) in *.
  change (print [cmd] (t0, tm)) with (echo (s8 cmd) (t0, tm)). rewrite s8_id by lia.
  unfold vt_echo_char. change (discovery_state (esc_state t0)) with 2. change (2 =? VT100_STATE_NONE) with false. cbn [andb].
  rewrite (proj2 (proj2 (read_escape_cases cmd t0 tm)) eq_refl), Harg.
  pose proof (parse_escape_wf cmd t0 tm Hwf') as Hp. destruct (vt_parse_escape_code _ _ cmd t0 tm) as [[ns t] tm'].
  destruct Hp as [(_ & _ & _ & _ & _ & Hl & _) ->]. by rewrite esc_finish_none.
Qed.

(** ** Text on the screen *)

(** What is shown at a cell when the screen holds [lines] from its top. *)
Definition shown (g : Z → option (list bool)) (blank : list bool) (lines : list (list Z)) (x y : Z) : list bool :=
  match lines !! Z.to_nat y with
  | Some l => match l !! Z.to_nat x with Some c => default blank (g c) | None => blank end
  | None => blank
  end.

(** A character that is printed as it is. *)
Definition printable (g : Z → option (list bool)) (c : Z) : Prop :=
  0 ≤ c < 128 ∧ c ≠ 8 ∧ c ≠ 10 ∧ c ≠ 13 ∧ c ≠ 27 ∧ is_Some (g c).

(** The screen shows [lines] and the beginning [l] of the next line, the cursor at its end. *)
Record at_line (g : Z → option (list bool)) (blank : list bool) (lines : list (list Z)) (l : list Z) term : Prop := {
  al_esc : discovery_state (esc_state term) = 0;
  al_wf : td_wf (disp term);
  al_glyph : td_glyph (disp term) = g;
  al_blank : td_blank (disp term) = blank;
  al_posx : posx term = Z.of_nat (length l);
  al_posy : posy term = Z.of_nat (length lines);
  al_room : Z.of_nat (length l) < TW ∧ Z.of_nat (length lines) < TH;
  al_cells : ∀ x y, 0 ≤ x < TW → 0 ≤ y < TH → td_cell (disp term) x y = shown g blank (lines ++ [l]) x y
}.

Lemma echo_limits_in term :
  0 ≤ posx term < TW → 0 ≤ posy term < TH →
  echo_limits tdisp term = set_disp (td_set_cursor_pos tdisp (disp term) (posx term) (posy term)) term.
Proof.
  intros Hx Hy. destruct td_size as [HW HH]. unfold echo_limits. cbv zeta. rewrite !(u32_small (posx term)) by lia.
  rewrite (proj2 (Z.leb_gt TW _)) by lia. rewrite !u32_small by lia. rewrite (proj2 (Z.leb_gt TH _)) by lia.
  by rewrite !u32_small by lia.
Qed.

Lemma echo_limits_bottom term :
  0 ≤ posx term < TW → posy term = TH →
  echo_limits tdisp term =
  set_pos (posx term) (TH - 1) (set_disp (td_set_cursor_pos tdisp (td_scroll tdisp (disp term)) (posx term) (TH - 1)) term).
Proof.
  intros Hx Hy. destruct td_size as [HW HH]. unfold echo_limits. cbv zeta. rewrite !(u32_small (posx term)) by lia.
  rewrite (proj2 (Z.leb_gt TW _)) by lia. rewrite Hy, !(u32_small TH) by lia. rewrite (proj2 (Z.leb_le TH _)) by lia.
  cbn [posx posy set_pos set_disp disp]. rewrite s32_small, !u32_small by lia. done.
Qed.

Lemma at_line_char g blank lines l c term tm :
  at_line g blank lines l term → printable g c → Z.of_nat (length l) + 1 < TW →
  at_line g blank lines (l ++ [c]) (echo (s8 c) (term, tm)).1.
Proof.
  intros [Hesc Hwf Hg Hb Hx Hy [Hl Hn] Hcells] (Hc & H8 & H10 & H13 & H27 & [im Him]) Hroom. destruct td_size as [HW HH].
  rewrite s8_id by lia. unfold vt_echo_char. rewrite Hesc, (proj2 (Z.eqb_neq c 27)) by done.
  change ((0 =? VT100_STATE_NONE) && negb false) with true. cbv iota. cbn [fst].
  unfold echo_advance. rewrite (proj2 (Z.eqb_neq c 8)), (proj2 (Z.eqb_neq c 10)), (proj2 (Z.eqb_neq c 13)) by done.
  rewrite echo_limits_in; cbn [posx posy set_pos set_disp disp esc_state]; rewrite ?Hx, ?Hy, ?s32_small by lia; [|lia..].
  rewrite !(u32_small (Z.of_nat _)) by lia.
  set (d := td_print_char tdisp _ _ _ _). destruct (td_print_colors (disp term) (Z.of_nat (length l)) (Z.of_nat (length lines)) c) as [Hpg Hpb].
  destruct (td_cursor_colors d (Z.of_nat (length l) + 1) (Z.of_nat (length lines))) as [Hcg Hcb].
  split; cbn [posx posy set_pos set_disp disp esc_state].
  - done.
  - apply td_cursor_wf, td_print_wf; [done|lia..].
  - rewrite Hcg. unfold d. by rewrite Hpg.
  - rewrite Hcb. unfold d. by rewrite Hpb.
  - rewrite length_app. cbn. lia.
  - done.
  - rewrite length_app. cbn. lia.
  - intros x y Hx' Hy'. rewrite td_cursor_cell. unfold d. rewrite td_print_cell by (done || lia). rewrite Hg, Him. cbn [default].
    rewrite Hcells by done. unfold shown.
    destruct (Z.eqb_spec y (Z.of_nat (length lines))) as [->|Hne].
    + rewrite andb_true_r, Nat2Z.id, !lookup_app_r, Nat.sub_diag by lia. cbn [lookup list_lookup].
      destruct (Z.eqb_spec x (Z.of_nat (length l))) as [->|Hnx].
      * rewrite Nat2Z.id, lookup_app_r, Nat.sub_diag by lia. cbn. by rewrite Him.
      * destruct (decide (x < Z.of_nat (length l))); [rewrite lookup_app_l by lia; done|].
        rewrite !lookup_ge_None_2 by (rewrite ?length_app; cbn; lia). done.
    + rewrite andb_false_r. destruct (decide (y < Z.of_nat (length lines))); [rewrite !lookup_app_l by lia; done|].
      rewrite !lookup_ge_None_2 by (rewrite ?length_app; cbn; lia). done.
Qed.

Lemma shown_empty_last g blank lines x y : shown g blank (lines ++ [[]]) x y = shown g blank lines x y.
Proof.
  unfold shown. destruct (decide (Z.to_nat y < length lines)%nat); [by rewrite lookup_app_l|].
  rewrite lookup_app_r, (lookup_ge_None_2 lines) by lia. by destruct (Z.to_nat y - length lines)%nat.
Qed.

(** The lines that stay on the screen with room for one more. *)
Definition keep (lines : list (list Z)) : list (list Z) := drop (length lines - Z.to_nat (TH - 1)) lines.

Lemma at_line_newline g blank lines l term tm :
  at_line g blank lines l term → at_line g blank (keep (lines ++ [l])) [] (echo (s8 10) (term, tm)).1.
Proof.
  intros [Hesc Hwf Hg Hb Hx Hy [Hl Hn] Hcells]. destruct td_size as [HW HH].
  rewrite s8_id by lia. unfold vt_echo_char. rewrite Hesc.
  change ((0 =? VT100_STATE_NONE) && negb (10 =? 27)) with true. cbv iota. cbn [fst].
  change (echo_advance tdisp 10 term) with (set_pos 0 (s32 (posy term + 1)) term). rewrite Hy, s32_small by lia.
  unfold keep. rewrite length_app. cbn [length]. destruct (decide (Z.of_nat (length lines) + 1 < TH)) as [Hfit|Hfull].
  - rewrite echo_limits_in; cbn [posx posy set_pos]; [|lia..].
    replace (length lines + 1 - Z.to_nat (TH - 1))%nat with 0%nat by lia. rewrite drop_0. cbn [set_pos disp].
    destruct (td_cursor_colors (disp term) 0 (Z.of_nat (length lines) + 1)) as [Hcg Hcb].
    split; cbn [posx posy set_pos set_disp disp esc_state]; rewrite ?Hcg, ?Hcb, ?length_app; cbn [length]; try done; try lia.
    + by apply td_cursor_wf.
    + intros x y Hx' Hy'. rewrite td_cursor_cell, shown_empty_last. by apply Hcells.
  - rewrite echo_limits_bottom; cbn [posx posy set_pos]; [|lia..].
    replace (length lines + 1 - Z.to_nat (TH - 1))%nat with 1%nat by lia. cbn [set_pos disp].
    destruct (td_cursor_colors (td_scroll tdisp (disp term)) 0 (TH - 1)) as [Hcg Hcb].
    destruct (td_scroll_colors (disp term)) as [Hsg Hsb].
    split; cbn [posx posy set_pos set_disp disp esc_state]; rewrite ?Hcg, ?Hcb, ?Hsg, ?Hsb, ?length_drop, ?length_app; cbn [length]; try done; try lia.
    + by apply td_cursor_wf, td_scroll_wf.
    + intros x y Hx' Hy'. rewrite td_cursor_cell, shown_empty_last, td_scroll_cell, Hb by done.
      destruct (y <? TH - 1) eqn:E; breflect.
      * rewrite Hcells by lia. unfold shown. rewrite lookup_drop. by replace (1 + Z.to_nat y)%nat with (Z.to_nat (y + 1)) by lia.
      * unfold shown. rewrite lookup_ge_None_2; [done|]. rewrite length_drop, length_app. cbn. lia.
Qed.

Lemma at_line_text g blank lines l : ∀ l0 term tm,
  at_line g blank lines l0 term → Forall (printable g) l → Z.of_nat (length l0 + length l) < TW →
  at_line g blank lines (l0 ++ l) (print l (term, tm)).1.
Proof.
  induction l as [|c l IH]; intros l0 term tm Hat Hp Hw; [by rewrite app_nil_r|]. apply Forall_cons in Hp as [Hc Hp].
  cbn [length] in Hw. change (print (c :: l) (term, tm)) with (print l (echo (s8 c) (term, tm))).
  pose proof (at_line_char g blank lines l0 c term tm Hat Hc ltac:(lia)) as Hat'.
  destruct (echo (s8 c) (term, tm)) as [term' tm']. change (c :: l) with ([c] ++ l). rewrite app_assoc.
  apply IH; [done|done|]. rewrite length_app. cbn. lia.
Qed.

(** A text of several lines. *)
Definition unlines (ls : list (list Z)) : list Z := l ← ls; l ++ [10].

Lemma at_line_lines g blank ls : ∀ lines term tm,
  at_line g blank lines [] term → Forall (λ l, Forall (printable g) l ∧ Z.of_nat (length l) < TW) ls →
  at_line g blank (foldl (λ k l, keep (k ++ [l])) lines ls) [] (print (unlines ls) (term, tm)).1.
Proof.
  induction ls as [|l ls IH]; intros lines term tm Hat Hls; [done|]. apply Forall_cons in Hls as [[Hp Hw] Hls].
  cbn [unlines mbind list_bind]. rewrite print_app. fold (unlines ls). rewrite print_app.
  pose proof (at_line_text g blank lines l [] term tm Hat Hp ltac:(cbn; lia)) as H1.
  destruct (print l (term, tm)) as [t1 tm1]. pose proof (at_line_newline g blank lines _ t1 tm1 H1) as H2.
  change (print [10] (t1, tm1)) with (echo (s8 10) (t1, tm1)). destruct (echo (s8 10) (t1, tm1)) as [t2 tm2].
  by apply IH.
Qed.

(** Dropping line by line or at once is the same. *)
Lemma keep_all ls : ∀ lines, foldl (λ k l, keep (k ++ [l])) (keep lines) ls = keep (lines ++ ls).
Proof.
  induction ls as [|l ls IH]; intros lines; [by rewrite app_nil_r|]. cbn [foldl].
  replace (keep (keep lines ++ [l])) with (keep (lines ++ [l])); [by rewrite IH, <- app_assoc|].
  unfold keep. rewrite !length_app, length_drop. cbn [length].
  rewrite !drop_app, drop_drop, !length_drop. f_equal; [f_equal; lia|]. f_equal. lia.
Qed.

(** C23: whatever bytes are written to a terminal, its cursor and the saved cursor
    stay inside the screen, the display is only asked to print inside of it, and
    the parser never uses an argument outside of its array. *)
Theorem vt_cursor_in_screen bytes term tm :
  vt_wf term →
  let term' := (print bytes (term, tm)).1 in
  0 ≤ posx term' < TW ∧ 0 ≤ posy term' < TH ∧ 0 ≤ saved_posx term' < TW ∧ 0 ≤ saved_posy term' < TH ∧
  td_wf (disp term') ∧ length (arguments (esc_state term')) = 4%nat ∧ -1 ≤ arguments_index (esc_state term') < 4.
Proof.
  intros Hwf. pose proof (print_wf bytes (term, tm) Hwf) as (Hx & Hy & Hsx & Hsy & Hd & Hl & _ & Hi & _).
  cbv zeta. unfold VT100_MAX_INTARGS in Hi. exact (conj Hx (conj Hy (conj Hsx (conj Hsy (conj Hd (conj Hl Hi)))))).
Qed.

(** The sequence ESC [ n ; m H, with the numbers written in decimal, moves the
    cursor to column n and row m, counted from 1, or to the last column or row
    when there is no such one; numbers are read modulo 65536.  It changes nothing
    else on the screen and the terminal is ready for text again. *)
Theorem vt_cursor_address n m term tm :
  vt_wf term → discovery_state (esc_state term) = 0 → is_digits n → is_digits m →
  let term' := (print (csi_bytes n [m] ++ [72]) (term, tm)).1 in
  posx term' = clamp TW (u16 (dec n) - 1) ∧ posy term' = clamp TH (u16 (dec m) - 1) ∧
  (∀ x y, td_cell (disp term') x y = td_cell (disp term) x y) ∧
  esc_state term' = mk_esc 0 (replicate 4 0) (-1).
Proof.
  intros Hwf Hst Hn Hm. cbv zeta.
  rewrite csi_command; [|done|done|cbn; lia|done|by repeat constructor|by right|lia|done].
  pose proof (u16_range (dec n)). pose proof (u16_range (dec m)).
  unfold vt_parse_escape_code. cbn [orb Z.eqb Pos.eqb fmap list_fmap csi_state esc_state set_esc arguments arguments_index app].
  change (0 <=? Z.of_nat (length [u16 (dec n); u16 (dec m)]) - 1) with true. cbv iota zeta.
  change (aget (u16 (dec n) :: u16 (dec m) :: _) 0) with (u16 (dec n)). change (aget (u16 (dec n) :: u16 (dec m) :: _) 1) with (u16 (dec m)).
  rewrite move_cursor_spec by lia. cbn [fst posx posy set_disp set_pos set_esc disp esc_state].
  split_and!; try done. intros x y. apply td_cursor_cell.
Qed.

Lemma last_lines_spec ls term tm :
  discovery_state (esc_state term) = 0 → posx term = 0 → posy term = 0 → td_wf (disp term) →
  (∀ x y, 0 ≤ x < TW → 0 ≤ y < TH → td_cell (disp term) x y = td_blank (disp term)) →
  Forall (λ l, Forall (printable (td_glyph (disp term))) l ∧ Z.of_nat (length l) < TW) ls →
  let term' := (print (unlines ls) (term, tm)).1 in
  (∀ x y, 0 ≤ x < TW → 0 ≤ y < TH →
     td_cell (disp term') x y = shown (td_glyph (disp term)) (td_blank (disp term)) (keep ls) x y) ∧
  posx term' = 0 ∧ posy term' = Z.of_nat (length (keep ls)).
Proof.
  intros Hesc Hx Hy Hwf Hclear Hls. destruct td_size as [HW HH].
  assert (Hat : at_line (td_glyph (disp term)) (td_blank (disp term)) (keep []) [] term).
  { assert (Hk : keep [] = []) by apply drop_nil. rewrite Hk. split; try done; [cbn; lia|]. intros x y Hx' Hy'. rewrite Hclear by done. rewrite shown_empty_last. done. }
  pose proof (at_line_lines _ _ ls _ term tm Hat Hls) as [_ _ _ _ Hpx Hpy _ Hcells]. rewrite keep_all in Hcells, Hpy.
  cbv zeta. split_and!; [|done|done]. intros x y Hx' Hy'. rewrite Hcells by done. apply shown_empty_last.
Qed.

(** A text written on a clear terminal, in lines that fit the width, appears as
    its last lines from the top of the screen, with the last row free for the next line. *)
Theorem vt_shows_last_lines ls term tm :
  discovery_state (esc_state term) = 0 → posx term = 0 → posy term = 0 → td_wf (disp term) →
  (∀ x y, 0 ≤ x < TW → 0 ≤ y < TH → td_cell (disp term) x y = td_blank (disp term)) →
  Forall (λ l, Forall (printable (td_glyph (disp term))) l ∧ Z.of_nat (length l) < TW) ls →
  let term' := (print (unlines ls) (term, tm)).1 in
  (∀ x y, 0 ≤ x < TW → 0 ≤ y < TH →
     td_cell (disp term') x y = shown (td_glyph (disp term)) (td_blank (disp term)) (keep ls) x y) ∧
  posx term' = 0 ∧ posy term' = Z.of_nat (length (keep ls)).
Proof. apply last_lines_spec. Qed.
End theorems.

(** ** A terminal on the display of the fx9860 *)

Definition fx_term : vt_instance tdisp_data :=
  mk_vt (mk_tdisp 1 0 0 0 TEXT_CURSOR_NORMAL 0x8C000000 (replicate 1024 0)) 0 0 0 0 (mk_esc 0 (replicate 4 0) (-1)).

Lemma fx_disp_wf : td_wf (disp fx_term).
Proof. split; [apply (length_replicate 1024)|by left]. Qed.

Lemma fx_term_wf : vt_wf fx9860_text_display fx_term.
Proof.
  split_and!; try (cbn; unfold FX9860_TERM_WIDTH, FX9860_TERM_HEIGHT; lia); [apply fx_disp_wf|].
  apply zero_esc_wf. by left.
Qed.

Definition no_timers : vt_timers := mk_timers 0 0 (replicate 10 job0).

Lemma vt_cursor_in_screen_witness :
  0 ≤ posy (vt_term_print fx9860_text_display 4 [8; 27; 91; 57; 57; 66; 65] (fx_term, no_timers)).1 < 10.
Proof. apply (vt_cursor_in_screen fx9860_text_display 4 [8; 27; 91; 57; 57; 66; 65] fx_term no_timers fx_term_wf). Defined.

Lemma vt_cursor_address_witness :
  posx (vt_term_print fx9860_text_display 4 (csi_bytes [1; 2] [[0; 3]] ++ [72]) (fx_term, no_timers)).1 = 11.
Proof.
  apply (vt_cursor_address fx9860_text_display 4 [1; 2] [0; 3] fx_term no_timers fx_term_wf); [reflexivity|..]; repeat constructor; lia.
Defined.

Lemma vt_shows_last_lines_witness :
  td_cell (disp (vt_term_print fx9860_text_display 4 (unlines [[72; 105]; [33]]) (fx_term, no_timers)).1) 1 0 = glyph 1 0 105.
Proof.
  assert (Hp : ∀ c, c = 72 ∨ c = 105 ∨ c = 33 → printable (td_glyph (disp fx_term)) c).
  { intros c [->|[->| ->]]; (split; [lia|]); split_and!; try lia; eexists; reflexivity. }
  destruct (vt_shows_last_lines fx9860_text_display 4 [[72; 105]; [33]] fx_term no_timers) as [Hc _];
    [reflexivity|reflexivity|reflexivity|apply fx_disp_wf|intros x y Hx Hy; apply (clear_cells false x y Hx Hy)| |].
  - apply Forall_cons_2; [|apply Forall_cons_2; [|apply Forall_nil_2]]; (split; [|reflexivity]);
      repeat (apply Forall_cons_2; [by apply Hp; auto|]); apply Forall_nil_2.
  - rewrite (Hc 1 0); [reflexivity|by split..].
Defined.
