(* ===== verification/Smemfs.v ===== *)
(** * The file system of the storage memory (src/fs/casio_smemfs/)

    The flash memory holds a table of blocks followed by a table of files: each
    file or directory is a 32-byte header, followed for a file by one 32-byte
    header per fragment of its data.  The kernel only reads it.  The memory is a
    function [flash] from addresses to bytes, read as the big-endian target does.

    The theorems relate the code to the contents a table describes: reading a
    file gives the bytes of its fragments in order, looking a name up finds the
    first entry of the directory that has it, and enumerating a directory visits
    its entries in order. *)

From S2P Require Import Prelude CyclicFifo PhysMem PoolAlloc KMem Pid Mmu PageDir Kernel Pipe VfsFile VfsCache Vfs MemArea.

(** ** Model *)

(** src/fs/casio_smemfs/smemfs_primitives_ng.h:64-64: SMEMFS_FILE_EXISTS *)
Definition SMEMFS_FILE_EXISTS : Z := 0x51.
(** src/fs/casio_smemfs/smemfs_primitives_ng.h:65-65: SMEMFS_FILE_DELETED *)
Definition SMEMFS_FILE_DELETED : Z := 0x01.
(** src/fs/casio_smemfs/smemfs_primitives_ng.h:67-67: SMEMFS_FILE_DIR *)
Definition SMEMFS_FILE_DIR : Z := 0x10.
(** src/fs/casio_smemfs/smemfs_primitives_ng.h:68-68: SMEMFS_FILE_FILE_H *)
Definition SMEMFS_FILE_FILE_H : Z := 0x20.
(** src/fs/casio_smemfs/smemfs_primitives_ng.h:69-69: SMEMFS_FILE_FILE_FRAG *)
Definition SMEMFS_FILE_FILE_FRAG : Z := 0x30.
(** src/fs/casio_smemfs/smemfs_primitives_ng.h:71-71: SMEMFS_FILE_ROOT_ID *)
Definition SMEMFS_FILE_ROOT_ID : Z := 0xFFFF.
(** src/fs/casio_smemfs/smemfs_primitives_ng.h:108-108: CHAR_CASE_NOCHANGE *)
Definition CHAR_CASE_NOCHANGE : Z := 0.
(** src/fs/casio_smemfs/smemfs_primitives_ng.h:109-109: CHAR_CASE_UPPER *)
Definition CHAR_CASE_UPPER : Z := 1.
(** src/fs/casio_smemfs/smemfs_primitives_ng.h:110-110: CHAR_CASE_AUTO *)
Definition CHAR_CASE_AUTO : Z := 2.
(** src/fs/casio_smemfs/file_system.c:29-29: CASIO_FS *)
Definition CASIO_FS : ptr := 0xA0270000.
(** src/fs/casio_smemfs/file_system.c:31-31: CASIO_STORAGE_MEM *)
Definition CASIO_STORAGE_MEM : ptr := 0xA0000000.
(** src/fs/casio_smemfs/file_system.c:36-36: FILE_FLAG_ISDIR *)
Definition FILE_FLAG_ISDIR : Z := 0x20000.
(** src/fs/casio_smemfs/file_system.h:30-30: SMEMFS_INVALID_NODE *)
Definition SMEMFS_INVALID_NODE : Z := 0xFFFFFFFF.

(** src/fs/casio_smemfs/smemfs_primitives_ng.c:22-22: tolower *)
Definition tolower (c : Z) : Z := if (65 <=? c) && (c <=? 90) then c - 65 + 97 else c.
(** src/fs/casio_smemfs/smemfs_primitives_ng.c:24-24: toupper *)
Definition toupper (c : Z) : Z := if (97 <=? c) && (c <=? 122) then c - 97 + 65 else c.

(** The static variables of the primitives. *)
(** src/fs/casio_smemfs/smemfs_primitives_ng.c:30-39: _smemfs_start *)
Record smemfs_prim := mk_prim {
  smemfs_base_address : ptr; smemfs_start : ptr; smemfs_file_start : ptr; smemfs_block_magic : Z
}.

Section prim.
Context (flash : Z → Z).

Definition rd8 (a : ptr) : Z := flash a.
Definition rd16 (a : ptr) : Z := flash a * 256 + flash (a + 1).
Definition rd32 (a : ptr) : Z := rd16 a * 65536 + rd16 (a + 2).

(** [sizeof] of the three headers. *)
Definition HEADER_SIZE : Z := 32.

(** Fields of a block entry at [a]. *)
(** src/fs/casio_smemfs/smemfs_primitives_ng.h:26-26: smemfs_block_entry *)
Definition bl_magic (a : ptr) : Z := rd8 a.
(** src/fs/casio_smemfs/smemfs_primitives_ng.h:30-30: smemfs_block_entry *)
Definition rel_offset (a : ptr) : Z := rd32 (a + 4).
(** src/fs/casio_smemfs/smemfs_primitives_ng.h:34-34: smemfs_block_entry *)
Definition bl_id (a : ptr) : Z := rd16 (a + 10).

(** Fields of a file header at [a]. *)
(** src/fs/casio_smemfs/smemfs_primitives_ng.h:52-52: smemfs_file_preheader *)
Definition h_magic (a : ptr) : Z := rd8 a.
(** src/fs/casio_smemfs/smemfs_primitives_ng.h:53-53: smemfs_file_preheader *)
Definition h_type (a : ptr) : Z := rd8 (a + 1).
(** src/fs/casio_smemfs/smemfs_primitives_ng.h:55-55: smemfs_file_preheader *)
Definition h_entry_id (a : ptr) : Z := rd16 (a + 2).
(** src/fs/casio_smemfs/smemfs_primitives_ng.h:58-58: smemfs_file_preheader *)
Definition h_parent_id (a : ptr) : Z := rd16 (a + 6).
(** src/fs/casio_smemfs/smemfs_primitives_ng.h:60-60: smemfs_file_preheader *)
Definition h_name (a : ptr) (i : Z) : Z := rd16 (a + 8 + 2 * i).

(** Fields of a fragment header at [a]. *)
(** src/fs/casio_smemfs/smemfs_primitives_ng.h:90-90: smemfs_frag_header *)
Definition frag_total_num (a : ptr) : Z := rd16 (a + 10).
(** src/fs/casio_smemfs/smemfs_primitives_ng.h:93-93: smemfs_frag_header *)
Definition data_block_id (a : ptr) : Z := rd16 (a + 14).
(** src/fs/casio_smemfs/smemfs_primitives_ng.h:94-94: smemfs_frag_header *)
Definition data_offset (a : ptr) : Z := rd16 (a + 16).
(** src/fs/casio_smemfs/smemfs_primitives_ng.h:98-98: smemfs_frag_header *)
Definition data_size (a : ptr) : Z := rd16 (a + 18).

(** The loops on the tables have a [fuel]: the number of headers they can visit. *)

(** src/fs/casio_smemfs/smemfs_primitives_ng.c: smemfs_prim_get_file_header *)
Fixpoint smemfs_prim_get_file_header (fuel : nat) (magic : Z) (cur_entry : ptr) : option ptr :=
  match fuel with
  | O => None
  | S fuel =>
      if bl_magic cur_entry =? magic then smemfs_prim_get_file_header fuel magic (cur_entry + HEADER_SIZE)
      else Some cur_entry
  end.

(** src/fs/casio_smemfs/smemfs_primitives_ng.c: smemfs_prim_init *)
Definition smemfs_prim_init (fuel : nat) (fs_start base_address : ptr) : option smemfs_prim :=
  let magic := rd8 fs_start in
  file_start ← smemfs_prim_get_file_header fuel magic fs_start;
  Some (mk_prim base_address fs_start file_start magic).

(** [current++] and the loop that skips the fragments. *)
(** src/fs/casio_smemfs/smemfs_primitives_ng.c:83-87: smemfs_prim_get_atomic_file *)
Fixpoint skip_fragments (fuel : nat) (fragment : ptr) : option ptr :=
  match fuel with
  | O => None
  | S fuel => if h_type fragment =? SMEMFS_FILE_FILE_FRAG then skip_fragments fuel (fragment + HEADER_SIZE) else Some fragment
  end.

(** [current->magic == SMEMFS_FILE_EXISTS || current->magic == SMEMFS_FILE_DELETED] *)
(** src/fs/casio_smemfs/smemfs_primitives_ng.c:71-71: smemfs_prim_get_atomic_file *)
Definition in_table (a : ptr) : bool := (h_magic a =? SMEMFS_FILE_EXISTS) || (h_magic a =? SMEMFS_FILE_DELETED).

(** The search loop the three lookups share; [found] is their condition on an
    existing entry.  NULL when the end of the table is reached. *)
(** src/fs/casio_smemfs/smemfs_primitives_ng.c:102-117: smemfs_prim_get_file_byid *)
Fixpoint search_table (fuel : nat) (found : ptr → bool) (skip : bool) (current : ptr) : option ptr :=
  match fuel with
  | O => None
  | S fuel =>
      if in_table current then
        if negb skip && (h_magic current =? SMEMFS_FILE_EXISTS) && found current then Some current
        else next ← skip_fragments fuel (current + HEADER_SIZE); search_table fuel found false next
      else Some NULL
  end.

(** src/fs/casio_smemfs/smemfs_primitives_ng.c: smemfs_prim_get_file_byid *)
Definition smemfs_prim_get_file_byid (fuel : nat) (p : smemfs_prim) (entry_id : Z) (isdir : bool) : option ptr :=
  let type := if isdir then SMEMFS_FILE_DIR else SMEMFS_FILE_FILE_H in
  search_table fuel (λ a, (h_type a =? type) && (h_entry_id a =? entry_id)) false (smemfs_file_start p).

(** The copy of a name in [s], shortened to 8 characters and an extension of 3. *)
(** src/fs/casio_smemfs/smemfs_primitives_ng.c:124-134: cmpstr2fhn *)
Definition short_name (s : list Z) (str : list Z) : list Z :=
  let i := scan (λ c, c =? 46) (take 8 str) in
  let s := memcpy_to s 0 (take i str) in
  let s := if (i =? 8)%nat && negb (aget str 8 =? 46) && negb (aget str 8 =? 0) then aset (aset s 6 126) 7 49 else s in
  let j := Nat.add i (scan (λ c, c =? 46) (drop i str)) in
  let ext := take 4 (drop j str) in
  let s := memcpy_to s i ext in
  aset s (Z.of_nat (i + length ext)) 0.

(** The comparison of the character [i] of the copy and of the name. *)
(** src/fs/casio_smemfs/smemfs_primitives_ng.c:139-150: cmpstr2fhn *)
Definition name_char_ok (caseRule : Z) (j : bool) (c h : Z) : bool :=
  if j then
    if caseRule =? CHAR_CASE_AUTO then (toupper c =? h) || (tolower c =? h)
    else if caseRule =? CHAR_CASE_UPPER then toupper c =? h
    else c =? h
  else h =? 0xFF.

(** [fileHeaderName[i*2+1]], from the address of the name. *)
Definition name_byte (file_name : ptr) (i : Z) : Z := rd8 (file_name + i * 2 + 1).

(** src/fs/casio_smemfs/smemfs_primitives_ng.c:138-155: cmpstr2fhn *)
Fixpoint compare_name (s : list Z) (file_name : ptr) (caseRule : Z) (j : bool) (is' : list Z) : Z :=
  match is' with
  | [] => 0
  | i :: is' =>
      let j := if aget s i =? 0 then false else j in
      if name_char_ok caseRule j (aget s i) (name_byte file_name i) then compare_name s file_name caseRule j is'
      else - i - 1
  end.

(** [s0] is what the array [s] holds before it is written. *)
(** src/fs/casio_smemfs/smemfs_primitives_ng.c: cmpstr2fhn *)
Definition cmpstr2fhn (s0 : list Z) (str : list Z) (file_name : ptr) (caseRule : Z) : Z :=
  compare_name (short_name s0 str) file_name caseRule true (seqZ 0 12).

(** src/fs/casio_smemfs/smemfs_primitives_ng.c: smemfs_prim_get_atomic_file *)
Definition smemfs_prim_get_atomic_file (fuel : nat) (p : smemfs_prim) (s0 filename : list Z) (parent_dir : Z) : option ptr :=
  search_table fuel (λ a, (parent_dir =? h_parent_id a) && (cmpstr2fhn s0 filename (a + 8) CHAR_CASE_AUTO =? 0))
    false (smemfs_file_start p).

(** The characters of the name other than 0xFF, with the NUL. *)
(** src/fs/casio_smemfs/smemfs_primitives_ng.c: smemfs_prim_get_file_name *)
Definition smemfs_prim_get_file_name (header : ptr) (buffer : list Z) : list Z :=
  let chars := filter (λ c, c ≠ 0xFF) ((λ i, Z.land (h_name header i) 0x00FF) <$> seqZ 0 12) in
  memcpy_to buffer 0 (chars ++ [0]).

(** src/fs/casio_smemfs/smemfs_primitives_ng.c: smemfs_prim_get_next_child *)
Definition smemfs_prim_get_next_child (fuel : nat) (p : smemfs_prim) (prev : ptr) (parent_dir : Z) : option ptr :=
  let current := if prev =? NULL then smemfs_file_start p else prev in
  search_table fuel (λ a, h_parent_id a =? parent_dir) (negb (prev =? NULL)) current.

(** src/fs/casio_smemfs/smemfs_primitives_ng.c: smemfs_prim_get_frag_num *)
Definition smemfs_prim_get_frag_num (header : ptr) : Z :=
  if h_type header =? SMEMFS_FILE_DIR then 0 else frag_total_num (header + HEADER_SIZE).

(** src/fs/casio_smemfs/smemfs_primitives_ng.c: smemfs_prim_get_file_size *)
Definition smemfs_prim_get_file_size (header : ptr) : Z :=
  let fragnb := smemfs_prim_get_frag_num header in
  foldl (λ ret i, u32 (ret + (data_size (header + HEADER_SIZE + i * HEADER_SIZE) + 1))) 0 (seqZ 0 fragnb).

(** src/fs/casio_smemfs/smemfs_primitives_ng.c:243-249: smemfs_prim_get_block_header *)
Fixpoint search_block (fuel : nat) (p : smemfs_prim) (block_id : Z) (cur_entry : ptr) : option ptr :=
  match fuel with
  | O => None
  | S fuel =>
      if bl_magic cur_entry =? smemfs_block_magic p then
        if bl_id cur_entry =? block_id then Some cur_entry
        else search_block fuel p block_id (cur_entry + HEADER_SIZE)
      else Some NULL
  end.

(** src/fs/casio_smemfs/smemfs_primitives_ng.c: smemfs_prim_get_block_header *)
Definition smemfs_prim_get_block_header (fuel : nat) (p : smemfs_prim) (block_id : Z) : option ptr :=
  search_block fuel p block_id (smemfs_start p).

(** src/fs/casio_smemfs/smemfs_primitives_ng.c: smemfs_prim_get_frag_data *)
Definition smemfs_prim_get_frag_data (fuel : nat) (p : smemfs_prim) (frag : ptr) : option ptr :=
  block ← smemfs_prim_get_block_header fuel p (data_block_id frag);
  Some (if negb (block =? NULL) then u32 (smemfs_base_address p + rel_offset block + data_offset frag) else NULL).

(** *** Reading a file *)

(** [memcpy] from the flash memory. *)
Definition flash_bytes (a : ptr) (n : Z) : list Z := (λ i, flash (a + i)) <$> seqZ 0 n.

(** The fragment that contains the first byte, and the position of its first byte. *)
(** src/fs/casio_smemfs/file.c:77-81: smemfs_read_data *)
Fixpoint find_fragment (fuel : nat) (frag : ptr) (pos_tmp atpos : Z) : option (ptr * Z) :=
  match fuel with
  | O => None
  | S fuel =>
      if u32 (pos_tmp + (data_size frag + 1)) <=? atpos
      then find_fragment fuel (frag + HEADER_SIZE) (u32 (pos_tmp + (data_size frag + 1))) atpos
      else Some (frag, pos_tmp)
  end.

(** The bytes copied to [dest], chunk by chunk; [blocks] bounds the table of blocks. *)
(** src/fs/casio_smemfs/file.c:87-103: smemfs_read_data *)
Fixpoint read_chunks (blocks fuel : nat) (p : smemfs_prim) (frag : ptr) (pos_frag j n : Z) : option (list Z) :=
  match fuel with
  | O => None
  | S fuel =>
      if j <? n then
        let chunk_size := u32 (data_size frag + 1 - pos_frag) in
        let toread := if u32 (j + chunk_size) <? u32 n then chunk_size else u32 (n - j) in
        data ← smemfs_prim_get_frag_data blocks p frag;
        let bytes := flash_bytes (data + pos_frag) toread in
        rest ← (if toread =? chunk_size then read_chunks blocks fuel p (frag + HEADER_SIZE) 0 (s32 (j + toread)) n
                else read_chunks blocks fuel p frag (u32 (pos_frag + toread)) (s32 (j + toread)) n);
        Some (bytes ++ rest)
      else Some []
  end.

(** Returns the count and the bytes written at [dest]. *)
(** src/fs/casio_smemfs/file.c: smemfs_read_data *)
Definition smemfs_read_data (fuel : nat) (p : smemfs_prim) (header : ptr) (len atpos : Z) : option (Z * list Z) :=
  let frag := header + HEADER_SIZE in
  let file_size := smemfs_prim_get_file_size header in
  let max_read := s32 (file_size - atpos) in
  let max_read := if u32 max_read <? len then max_read else s32 len in
  let n := s32 (atpos + max_read) in
  let j := s32 atpos in
  '(frag, pos_tmp) ← find_fragment fuel frag 0 atpos;
  let pos_frag := u32 (atpos - pos_tmp) in
  bytes ← read_chunks fuel fuel p frag pos_frag j n;
  Some (max_read, bytes).
End prim.

(** *** Operations of the file system and of its files *)

(** src/fs/casio_smemfs/file_system.c:33-34: FULL_NODE_ID *)
Definition FULL_NODE_ID (flash : Z → Z) (header : ptr) : Z :=
  Z.lor (h_entry_id flash header) (if h_type flash header =? SMEMFS_FILE_DIR then FILE_FLAG_ISDIR else 0).

(** src/utils/types.h:95-95: SEEK_SET *)
Definition SEEK_SET : Z := 1.
(** src/utils/types.h:96-96: SEEK_CUR *)
Definition SEEK_CUR : Z := 2.
(** src/utils/types.h:97-97: SEEK_END *)
Definition SEEK_END : Z := 3.

(** src/interface/fixos/stat.h: stat *)
Record stat := mk_stat { st_dev : Z; st_ino : Z; st_mode : Z; st_rdev : Z; st_size : Z }.

(** src/interface/fixos/stat.h:39-39: S_IFREG *)
Definition S_IFREG : Z := 32768.
(** src/interface/fixos/stat.h:41-41: S_IFDIR *)
Definition S_IFDIR : Z := 16384.
(** src/interface/fixos/stat.h:47-47: S_IRUSR *)
Definition S_IRUSR : Z := 256.
(** src/interface/fixos/stat.h:49-49: S_IXUSR *)
Definition S_IXUSR : Z := 64.

Section ops.
Context {A : Type} `{!KMem A}.
Implicit Types (k : kernel A).

(** [tables] bounds the headers of the flash memory and [fuel] a bucket of the
    inode cache; [s0] is the uninitialised array of a name comparison. *)
Context (flash : Z → Z) (tables fuel : nat) (s0 : list Z) (p : smemfs_prim).

(** A NULL [header] stands for the root. *)
(** src/fs/casio_smemfs/file_system.c: smemfs_fill_inode *)
Definition smemfs_fill_inode (inst header : ptr) (ret : inode) : inode :=
  let ret := set_i_abstract header (set_i_fs inst ret) in
  if header =? NULL then
    let ret := set_i_type (Z.lor INODE_TYPE_ROOT INODE_TYPE_PARENT) ret in
    let ret := set_i_name (memcpy_to (i_name ret) 0 [0]) ret in
    set_i_flags (Z.lor 4 1) (set_i_node SMEMFS_FILE_ROOT_ID ret)
  else
    let ret := set_i_node (h_entry_id flash header) ret in
    let ret := set_i_flags 4 ret in
    let ret := set_i_parent (h_parent_id flash header) ret in
    let ret := if negb (i_parent ret =? SMEMFS_FILE_ROOT_ID) then set_i_parent (Z.lor (i_parent ret) FILE_FLAG_ISDIR) ret else ret in
    let ret := set_i_type 0 ret in
    let ret := if h_type flash header =? SMEMFS_FILE_DIR
               then set_i_node (Z.lor (i_node ret) FILE_FLAG_ISDIR) (set_i_type (Z.lor (i_type ret) INODE_TYPE_PARENT) ret)
               else ret in
    set_i_name (smemfs_prim_get_file_name flash header (i_name ret)) ret.

(** src/fs/casio_smemfs/file_system.c: smemfs_get_inode *)
Definition smemfs_get_inode (inst : ptr) (lnode : Z) k : option (ptr * kernel A) :=
  let node := u16 lnode in
  if lnode =? SMEMFS_INVALID_NODE then Some (NULL, k)
  else
    header ← (if negb (node =? SMEMFS_FILE_ROOT_ID)
              then smemfs_prim_get_file_byid flash tables p node (lnode &? FILE_FLAG_ISDIR) else Some NULL);
    if negb (node =? SMEMFS_FILE_ROOT_ID) && (header =? NULL) then Some (NULL, k)
    else
      '(ret, k) ← vfs_alloc_inode inst lnode k;
      if ret =? NULL then Some (NULL, k)
      else Some (ret, upd_inode ret (smemfs_fill_inode inst header) k).

(** [vfs_get_inode(inst, node)] for an instance of smemfs. *)
Definition smem_get (inst : ptr) (node : Z) k : option (ptr * kernel A) :=
  vfs_get_inode fuel (λ _, smemfs_get_inode) inst node k.

(** src/fs/casio_smemfs/file_system.c: smemfs_get_root_node *)
Definition smemfs_get_root_node (inst : ptr) k : option (ptr * kernel A) := smem_get inst SMEMFS_FILE_ROOT_ID k.

(** src/fs/casio_smemfs/file_system.c: smemfs_first_child *)
Definition smemfs_first_child (target : ptr) k : option (ptr * kernel A) :=
  let i := k_inodes k target in
  if i_type i &? INODE_TYPE_PARENT then
    current ← smemfs_prim_get_next_child flash tables p NULL (u16 (i_node i));
    if negb (current =? NULL) then smem_get (i_fs i) (FULL_NODE_ID flash current) k else Some (NULL, k)
  else Some (NULL, k).

(** src/fs/casio_smemfs/file_system.c: smemfs_next_sibling *)
Definition smemfs_next_sibling (target : ptr) k : option (ptr * kernel A) :=
  let i := k_inodes k target in
  if negb (i_node i =? SMEMFS_FILE_ROOT_ID) then
    current ← smemfs_prim_get_next_child flash tables p (i_abstract i) (u16 (i_parent i));
    if negb (current =? NULL) then smem_get (i_fs i) (FULL_NODE_ID flash current) k else Some (NULL, k)
  else Some (NULL, k).

(** src/fs/casio_smemfs/file_system.c: smemfs_find_sub_node *)
Definition smemfs_find_sub_node (target : ptr) (name : list Z) k : option (ptr * kernel A) :=
  let i := k_inodes k target in
  header ← smemfs_prim_get_atomic_file flash tables p s0 name (u16 (i_node i));
  if negb (header =? NULL) then smem_get (i_fs i) (FULL_NODE_ID flash header) k else Some (NULL, k).

(** src/fs/casio_smemfs/file_system.c: smemfs_open *)
Definition smemfs_open (inode filep : ptr) k : option (Z * kernel A) :=
  if i_flags (k_inodes k inode) &? O_WRONLY then Some (- EROFS, k)
  else Some (0, upd_file filep (λ f, set_f_op fop_smemfs (set_f_private NULL f)) k).

(** [st_ino] is not set. *)
(** src/fs/casio_smemfs/file_system.c: smemfs_istat *)
Definition smemfs_istat (inode : ptr) (buf : stat) k : Z * stat :=
  let header := i_abstract (k_inodes k inode) in
  let mode := if h_type flash header =? SMEMFS_FILE_DIR then S_IFDIR else S_IFREG in
  (0, mk_stat 0 (st_ino buf) (Z.lor mode (Z.lor S_IRUSR S_IXUSR)) 0 (s32 (smemfs_prim_get_file_size flash header))).

(** [create_node] is NULL. *)
(** src/fs/casio_smemfs/file_system.c:45-59: smemfs_file_system *)
Definition smemfs_file_system : file_system A :=
  mk_fs _ smemfs_get_root_node smemfs_first_child smemfs_next_sibling smemfs_find_sub_node smemfs_get_inode
    (λ _ _ _ _ _ _, None) (Some smemfs_open).

(** Returns the count and the bytes stored at [dest]. *)
(** src/fs/casio_smemfs/file.c: smemfs_read *)
Definition smemfs_read (filep : ptr) (len : Z) k : option (Z * list Z * kernel A) :=
  let f := k_files k filep in
  if negb (f_flags f &? O_RDONLY) then Some (- EBADF, [], k)
  else if i_type (k_inodes k (f_inode f)) &? INODE_TYPE_PARENT then Some (- EISDIR, [], k)
  else if len =? 0 then Some (0, [], k)
  else
    '(ret, bytes) ← smemfs_read_data flash tables p (i_abstract (k_inodes k (f_inode f))) len (f_pos f);
    Some (ret, bytes, if 0 <? ret then upd_file filep (λ f, set_f_pos (u32 (f_pos f + ret)) f) k else k).

(** The size of the file is computed again when it is 0. *)
(** src/fs/casio_smemfs/file.c: smemfs_lseek *)
Definition smemfs_lseek (filep : ptr) (offset whence : Z) k : Z * kernel A :=
  let f := k_files k filep in
  let file_size := smemfs_prim_get_file_size flash (i_abstract (k_inodes k (f_inode f))) in
  let tmp_pos :=
    if whence =? SEEK_END then if file_size <? u32 (- offset) then 0 else u32 (file_size + offset)
    else if whence =? SEEK_CUR then if f_pos f <? u32 (- offset) then 0 else u32 (f_pos f + offset)
    else if whence =? SEEK_SET then if offset <? 0 then 0 else offset
    else f_pos f in
  let k := upd_file filep (set_f_pos (if file_size <? tmp_pos then file_size else tmp_pos)) k in
  (s32 (f_pos (k_files k filep)), k).

(** The page and its content; [stale] is what the page held. *)
(** src/fs/casio_smemfs/file.c: smemfs_area_pagefault *)
Definition smemfs_area_pagefault (area addr_fault : ptr) (stale : list Z) k : option (pm_page * list Z * kernel A) :=
  let a := k_areas k area in
  let offset := u32 (addr_fault - ma_address a) in
  '(pmaddr, m) ← km_get_page MEM_PM_UNCACHED (k_mem k);
  let k := set_k_mem m k in
  let page := mk_page (PM_PHYSICAL_PAGE pmaddr) (Z.lor MEM_PAGE_PRIVATE MEM_PAGE_VALID) in
  let '(readsize, content) := mem_area_fill_partial_page a offset stale in
  if 0 <? readsize then
    let absoffset := u32 (ma_base a + offset) in
    '(_, bytes) ← smemfs_read_data flash tables p (i_abstract (k_inodes k (f_inode (k_files k (ma_filep a))))) readsize absoffset;
    Some (page, memcpy_to content 0 bytes, k)
  else Some (page, content, k).
End ops.

(** [mounted] is [_smemfs_mounted] and [inst] the address of [_smemfs_inst]. *)
(** src/fs/casio_smemfs/file_system.c: smemfs_mount *)
Definition smemfs_mount (flash : Z → Z) (tables : nat) (inst : ptr) (mounted : Z) (p : smemfs_prim) : option (ptr * Z * smemfs_prim) :=
  if mounted =? 0 then
    p ← smemfs_prim_init flash tables CASIO_FS CASIO_STORAGE_MEM;
    Some (inst, 1, p)
  else Some (NULL, mounted, p).

(** ** The contents of a file *)

Section contents.
Context (flash : Z → Z) (p : smemfs_prim) (blocks : nat).
Hypothesis flash_byte : ∀ a, 0 ≤ flash a < 256.

(** The fragment headers from [a] on describe the data [fs]. *)
Fixpoint frags_at (a : ptr) (fs : list (list Z)) : Prop :=
  match fs with
  | [] => True
  | b :: fs =>
      data_size flash a + 1 = Z.of_nat (length b) ∧
      (∃ d, smemfs_prim_get_frag_data flash blocks p a = Some d ∧ flash_bytes flash d (Z.of_nat (length b)) = b) ∧
      frags_at (a + HEADER_SIZE) fs
  end.

(** The header [h] is that of a file with the fragments [fs]. *)
Definition file_at (h : ptr) (fs : list (list Z)) : Prop :=
  h_type flash h ≠ SMEMFS_FILE_DIR ∧ frag_total_num flash (h + HEADER_SIZE) = Z.of_nat (length fs) ∧
  frags_at (h + HEADER_SIZE) fs ∧ Z.of_nat (length (concat fs)) < 2147483648.

Lemma data_size_range a : 0 ≤ data_size flash a < 65536.
Proof. unfold data_size, rd16. pose proof (flash_byte (a + 18)). pose proof (flash_byte (a + 18 + 1)). lia. Qed.

Lemma frag_length a b fs : frags_at a (b :: fs) → 0 < Z.of_nat (length b) ≤ 65536.
Proof. intros [H _]. pose proof (data_size_range a). lia. Qed.

Lemma file_size_loop a fs : ∀ m acc,
  frags_at (a + m * HEADER_SIZE) fs → 0 ≤ acc → acc + Z.of_nat (length (concat fs)) < 4294967296 →
  foldl (λ ret i, u32 (ret + (data_size flash (a + i * HEADER_SIZE) + 1))) acc (seqZ m (Z.of_nat (length fs))) =
  acc + Z.of_nat (length (concat fs)).
Proof.
  induction fs as [|b fs IH]; intros m acc Hf Hacc Hlt; [cbn [length concat]; rewrite seqZ_nil by lia; cbn [foldl]; lia|]. destruct Hf as (Hsz & _ & Hf).
  cbn [concat length] in *. rewrite length_app in *. rewrite seqZ_cons by lia. cbn [foldl].
  rewrite Hsz, u32_small by lia. replace (Z.pred (Z.of_nat (S (length fs)))) with (Z.of_nat (length fs)) by lia.
  rewrite IH; [lia| |lia|lia]. replace (a + Z.succ m * HEADER_SIZE) with (a + m * HEADER_SIZE + HEADER_SIZE) by (unfold HEADER_SIZE; lia). done.
Qed.

Lemma file_size_spec h fs : file_at h fs → smemfs_prim_get_file_size flash h = Z.of_nat (length (concat fs)).
Proof.
  intros (Hty & Htot & Hf & Hlt). unfold smemfs_prim_get_file_size, smemfs_prim_get_frag_num.
  rewrite (proj2 (Z.eqb_neq _ _) Hty), Htot. rewrite file_size_loop; [lia| |lia|lia]. by rewrite Z.mul_0_l, Z.add_0_r.
Qed.

(** The search stops in the fragment of the position, or after the last one. *)
Lemma find_fragment_spec fs : ∀ fuel a pos atpos,
  frags_at a fs → 0 ≤ pos ≤ atpos → atpos ≤ pos + Z.of_nat (length (concat fs)) → atpos < 2147483648 → (length fs < fuel)%nat →
  ∃ fs1 fs2, fs = fs1 ++ fs2 ∧
    find_fragment flash fuel a pos atpos =
      Some (a + Z.of_nat (length fs1) * HEADER_SIZE, pos + Z.of_nat (length (concat fs1))) ∧
    frags_at (a + Z.of_nat (length fs1) * HEADER_SIZE) fs2 ∧
    pos + Z.of_nat (length (concat fs1)) ≤ atpos ∧
    match fs2 with [] => True | b :: _ => atpos < pos + Z.of_nat (length (concat fs1)) + Z.of_nat (length b) end.
Proof.
  induction fs as [|b fs IH]; intros fuel a pos atpos Hf Hpos Hat Hlt Hfuel; (destruct fuel as [|fuel]; [lia|]); cbn [find_fragment].
  - exists [], []. pose proof (data_size_range a). cbn [concat length] in *. split; [done|].
    rewrite u32_small, (proj2 (Z.leb_gt _ _)) by lia. change (Z.of_nat 0) with 0. rewrite Z.mul_0_l, !Z.add_0_r. split_and!; try done; lia.
  - pose proof (frag_length _ _ _ Hf). destruct Hf as (Hsz & Hd & Hf). rewrite Hsz, u32_small by lia.
    cbn [concat length] in *. rewrite length_app in *. destruct (_ <=? _) eqn:Hle; breflect.
    + destruct (IH fuel (a + HEADER_SIZE) (pos + Z.of_nat (length b)) atpos Hf) as (fs1 & fs2 & -> & Hr & Hf2 & Hle2 & Hm); [lia..|].
      exists (b :: fs1), fs2. cbn [concat length app]. rewrite length_app, Hr.
      replace (a + Z.of_nat (S (length fs1)) * HEADER_SIZE) with (a + HEADER_SIZE + Z.of_nat (length fs1) * HEADER_SIZE) by (unfold HEADER_SIZE; lia).
      split_and!; try done; [do 2 f_equal; lia|lia|]. destruct fs2; [done|]. lia.
    + exists [], (b :: fs). cbn [concat length app]. split; [done|]. change (Z.of_nat 0) with 0. rewrite Z.mul_0_l, !Z.add_0_r. split_and!; try done; lia.
Qed.

Lemma flash_bytes_sub d n b pos m :
  flash_bytes flash d n = b → 0 ≤ pos → 0 ≤ m → pos + m ≤ n →
  flash_bytes flash (d + pos) m = take (Z.to_nat m) (drop (Z.to_nat pos) b).
Proof.
  intros <- Hpos Hm Hn. unfold flash_bytes. apply list_eq. intros i. rewrite lookup_take, lookup_drop, !list_lookup_fmap.
  case_decide as Hi.
  - rewrite !lookup_seqZ_lt by lia. cbn. do 2 f_equal. lia.
  - rewrite lookup_seqZ_ge by lia. done.
Qed.

Lemma read_chunks_spec fs : ∀ fuel a pos j n,
  frags_at a fs → 0 ≤ pos → match fs with [] => True | b :: _ => pos < Z.of_nat (length b) end →
  0 ≤ j ≤ n → n - j ≤ Z.of_nat (length (concat fs)) - pos → n < 2147483648 → Z.of_nat (length (concat fs)) < 2147483648 →
  (length fs + 2 ≤ fuel)%nat →
  read_chunks flash blocks fuel p a pos j n = Some (take (Z.to_nat (n - j)) (drop (Z.to_nat pos) (concat fs))).
Proof.
  induction fs as [|b fs IH]; intros fuel a pos j n Hf Hpos Hp Hj Hn Hn31 Htot Hfuel; (destruct fuel as [|fuel]; [lia|]); cbn [read_chunks].
  { cbn in Hn. rewrite (proj2 (Z.ltb_ge _ _)) by lia. replace (n - j) with 0 by lia. done. }
  destruct (j <? n) eqn:Hjn; breflect; [|replace (n - j) with 0 by lia; done].
  pose proof (frag_length _ _ _ Hf). destruct Hf as (Hsz & (d & Hd & Hbytes) & Hf). cbn [concat length] in *. rewrite length_app in *.
  rewrite Hsz, Hd. cbn [mbind option_bind]. rewrite (u32_small (_ - pos)), (u32_small (j + _)), (u32_small n), (u32_small (n - j)) by lia.
  set (chunk := Z.of_nat (length b) - pos).
  destruct (decide (j + chunk ≤ n)) as [Hfull|Hpart].
  - assert (Ht : (if j + chunk <? n then chunk else n - j) = chunk) by (destruct (_ <? _) eqn:E; breflect; lia).
    rewrite Ht, Z.eqb_refl, s32_small, IH by (done || lia || (destruct fs; [done|]; pose proof (frag_length _ _ _ Hf); lia)).
    cbn [mbind option_bind]. rewrite (flash_bytes_sub _ _ _ pos chunk Hbytes) by lia. f_equal.
    rewrite drop_app_le by lia. rewrite take_app_ge by (rewrite length_drop; lia). f_equal.
    + apply take_ge. rewrite length_drop. lia.
    + rewrite length_drop, drop_0. f_equal. lia.
  - assert (Ht : (if j + chunk <? n then chunk else n - j) = n - j) by (destruct (_ <? _) eqn:E; breflect; lia).
    rewrite Ht, (proj2 (Z.eqb_neq _ chunk)), (s32_small (j + (n - j))) by lia.
    destruct fuel as [|fuel]; [lia|]. cbn [read_chunks]. rewrite (proj2 (Z.ltb_ge (j + (n - j)) n)) by lia. cbn [mbind option_bind].
    rewrite (flash_bytes_sub _ _ _ pos (n - j) Hbytes) by lia. rewrite app_nil_r, drop_app_le, take_app_le by (rewrite ?length_drop; lia). done.
Qed.

(** Reading from a position inside the file, or at its end, gives the bytes of the
    file from this position. *)
Lemma read_data_spec fuel h fs len pos :
  file_at h fs → 0 ≤ pos ≤ Z.of_nat (length (concat fs)) → 0 < len < 4294967296 → fuel = blocks → (length fs + 2 ≤ fuel)%nat →
  smemfs_read_data flash fuel p h len pos =
  Some (Z.min len (Z.of_nat (length (concat fs)) - pos), take (Z.to_nat len) (drop (Z.to_nat pos) (concat fs))).
Proof.
  intros Hfile Hpos Hlen -> Hfuel. pose proof (file_size_spec h fs Hfile) as Hsize. destruct Hfile as (Hty & Htot & Hf & Hlt).
  unfold smemfs_read_data. rewrite Hsize. set (total := Z.of_nat (length (concat fs))) in *.
  rewrite (s32_small (total - pos)), (u32_small (total - pos)) by lia.
  assert (Hmax : (if total - pos <? len then total - pos else s32 len) = Z.min len (total - pos)).
  { destruct (_ <? _) eqn:E; breflect; [lia|]. rewrite s32_small by lia. lia. }
  rewrite Hmax, (s32_small pos), (s32_small (pos + _)) by lia.
  destruct (find_fragment_spec fs blocks (h + HEADER_SIZE) 0 pos Hf) as (fs1 & fs2 & Heq & Hr & Hf2 & Hle & Hm); [lia..|].
  rewrite Hr. cbn [mbind option_bind]. rewrite Z.add_0_l in *. rewrite u32_small by lia.
  assert (Hcat : total = Z.of_nat (length (concat fs1)) + Z.of_nat (length (concat fs2))).
  { unfold total. rewrite Heq, concat_app, length_app. lia. }
  rewrite (read_chunks_spec fs2); [|done|lia|destruct fs2; [done|lia]|lia|lia|lia|lia|rewrite Heq, length_app in Hfuel; lia].
  cbn [mbind option_bind]. do 2 f_equal. rewrite Heq, concat_app, drop_app_ge by lia.
  replace (Z.to_nat (pos - Z.of_nat (length (concat fs1)))) with (Z.to_nat pos - length (concat fs1))%nat by lia.
  replace (Z.to_nat (pos + Z.min len (total - pos) - pos)) with (Z.to_nat len `min` Z.to_nat (total - pos))%nat by lia.
  rewrite <- take_take. f_equal. apply take_ge. rewrite length_drop. lia.
Qed.

(** C24: reading an open file gives the bytes of its fragments from the position of
    the file, at most [len] of them and none at the end of the file, returns
    their number and advances the position by it. *)
Theorem smemfs_read_correct {A} (filep : ptr) fs len (k : kernel A) :
  let f := k_files k filep in
  let content := concat fs in
  (f_flags f &? O_RDONLY) = true → (i_type (k_inodes k (f_inode f)) &? INODE_TYPE_PARENT) = false →
  file_at (i_abstract (k_inodes k (f_inode f))) fs → 0 ≤ f_pos f ≤ Z.of_nat (length content) → 0 < len < 4294967296 →
  (length fs + 2 ≤ blocks)%nat →
  let bytes := take (Z.to_nat len) (drop (Z.to_nat (f_pos f)) content) in
  ∃ k', smemfs_read flash blocks p filep len k = Some (Z.of_nat (length bytes), bytes, k') ∧
    k_files k' filep = set_f_pos (f_pos f + Z.of_nat (length bytes)) f ∧
    (∀ q, q ≠ filep → k_files k' q = k_files k q) ∧ k_procs k' = k_procs k ∧ k_inodes k' = k_inodes k.
Proof.
  cbv zeta. intros Hfl Hty Hfile Hpos Hlen Hfuel. unfold smemfs_read. rewrite Hfl, Hty. cbn [negb].
  rewrite (proj2 (Z.eqb_neq len 0)) by lia. rewrite (read_data_spec blocks _ fs) by done. cbn [mbind option_bind].
  set (bytes := take _ _).
  assert (Hl : Z.min len (Z.of_nat (length (concat fs)) - f_pos (k_files k filep)) = Z.of_nat (length bytes)).
  { unfold bytes. rewrite length_take, length_drop. lia. }
  rewrite Hl. eexists. split; [reflexivity|]. destruct Hfile as (_ & _ & _ & Hlt).
  destruct (0 <? Z.of_nat (length bytes)) eqn:E; breflect.
  - rewrite upd_file_eq, u32_small by lia. split_and!; try done. intros q Hq. by apply upd_file_ne.
  - replace (f_pos (k_files k filep) + Z.of_nat (length bytes)) with (f_pos (k_files k filep)) by lia.
    split_and!; try done. by destruct (k_files k filep).
Qed.

(** Where [smemfs_lseek] moves. *)
Definition seek_target (size pos offset whence : Z) : Z :=
  if whence =? SEEK_SET then Z.min size (Z.max 0 offset)
  else if whence =? SEEK_CUR then (if 0 <? offset then 0 else Z.max 0 (pos + offset))
  else if whence =? SEEK_END then (if 0 <? offset then 0 else Z.max 0 (size + offset))
  else pos.

(** Moving from the beginning of a file stops at its limits.  Moving backwards
    from the position or from the end stops at the beginning; but moving forwards
    from either goes to the beginning, because the test that the target is not
    negative is an unsigned one. *)
Theorem smemfs_lseek_correct {A} (filep : ptr) fs offset whence (k : kernel A) :
  let f := k_files k filep in
  let size := Z.of_nat (length (concat fs)) in
  file_at (i_abstract (k_inodes k (f_inode f))) fs → 0 ≤ f_pos f ≤ size → -2147483648 < offset < 2147483648 →
  let '(ret, k') := smemfs_lseek flash filep offset whence k in
  ret = seek_target size (f_pos f) offset whence ∧ k_files k' filep = set_f_pos ret f ∧ 0 ≤ ret ≤ size.
Proof.
  cbv zeta. intros Hfile Hpos Hoff. pose proof Hfile as (_ & _ & _ & Hlt). unfold smemfs_lseek.
  rewrite (file_size_spec _ _ Hfile). set (size := Z.of_nat (length (concat fs))) in *. set (pos := f_pos (k_files k filep)) in *.
  assert (Hneg : u32 (- offset) = if 0 <? offset then 4294967296 - offset else - offset).
  { destruct (_ <? _) eqn:E; breflect; [rewrite u32_neg by lia; lia|apply u32_small; lia]. }
  rewrite Hneg. set (t := if whence =? SEEK_END then _ else _).
  assert (Ht : (if size <? t then size else t) = seek_target size pos offset whence).
  { unfold t, seek_target, SEEK_END, SEEK_CUR, SEEK_SET.
    destruct (Z.eqb_spec whence 3) as [->|]; [|destruct (Z.eqb_spec whence 2) as [->|]; [|destruct (Z.eqb_spec whence 1) as [->|]]]; cbn [Z.eqb Pos.eqb].
    - destruct (0 <? offset) eqn:E1; breflect.
      + rewrite (proj2 (Z.ltb_lt size (4294967296 - offset))) by lia. by rewrite (proj2 (Z.ltb_ge size 0)) by lia.
      + destruct (size <? - offset) eqn:E2; breflect; [rewrite (proj2 (Z.ltb_ge size 0)) by lia; lia|].
        rewrite u32_small by lia. rewrite (proj2 (Z.ltb_ge _ _)) by lia. lia.
    - destruct (0 <? offset) eqn:E1; breflect.
      + rewrite (proj2 (Z.ltb_lt pos (4294967296 - offset))) by lia. by rewrite (proj2 (Z.ltb_ge size 0)) by lia.
      + destruct (pos <? - offset) eqn:E2; breflect; [rewrite (proj2 (Z.ltb_ge size 0)) by lia; lia|].
        rewrite u32_small by lia. rewrite (proj2 (Z.ltb_ge _ _)) by lia. lia.
    - destruct (offset <? 0) eqn:E1; breflect; [rewrite (proj2 (Z.ltb_ge size 0)) by lia; lia|].
      destruct (size <? offset) eqn:E2; breflect; lia.
    - rewrite (proj2 (Z.ltb_ge _ _)) by lia. done. }
  rewrite Ht, upd_file_eq. cbn [f_pos set_f_pos].
  assert (Hrange : 0 ≤ seek_target size pos offset whence ≤ size) by (unfold seek_target; repeat case_match; breflect; lia).
  rewrite s32_small by lia. done.
Qed.
End contents.

(** ** The table of files *)

Section table.
Context (flash : Z → Z).

(** The table at [a]: entries followed by their fragment headers, whose numbers are
    [ns], and an end mark. *)
Fixpoint table_at (a : ptr) (ns : list nat) : Prop :=
  match ns with
  | [] => in_table flash a = false
  | n :: ns =>
      let next := a + Z.of_nat (S n) * HEADER_SIZE in
      in_table flash a = true ∧
      (∀ i, (i < n)%nat → h_type flash (a + Z.of_nat (S i) * HEADER_SIZE) = SMEMFS_FILE_FILE_FRAG) ∧
      h_type flash next ≠ SMEMFS_FILE_FILE_FRAG ∧ table_at next ns
  end.

(** The addresses of the headers. *)
Fixpoint headers (a : ptr) (ns : list nat) : list ptr :=
  match ns with [] => [] | n :: ns => a :: headers (a + Z.of_nat (S n) * HEADER_SIZE) ns end.

(** The number of headers of all kinds, which bounds the loops. *)
Definition table_size (ns : list nat) : nat := sum_list_with S ns.

Fixpoint first_of (P : ptr → bool) (l : list ptr) : ptr :=
  match l with [] => NULL | x :: l => if P x then x else first_of P l end.

(** An existing entry that satisfies the condition of a search. *)
Definition existing (found : ptr → bool) (a : ptr) : bool := (h_magic flash a =? SMEMFS_FILE_EXISTS) && found a.

Lemma skip_fragments_spec n : ∀ fuel a,
  (∀ i, (i < n)%nat → h_type flash (a + Z.of_nat i * HEADER_SIZE) = SMEMFS_FILE_FILE_FRAG) →
  h_type flash (a + Z.of_nat n * HEADER_SIZE) ≠ SMEMFS_FILE_FILE_FRAG → (n < fuel)%nat →
  skip_fragments flash fuel a = Some (a + Z.of_nat n * HEADER_SIZE).
Proof.
  induction n as [|n IH]; intros fuel a Hfr Hend Hfuel; (destruct fuel as [|fuel]; [lia|]); cbn [skip_fragments].
  - change (Z.of_nat 0) with 0 in *. rewrite Z.mul_0_l, Z.add_0_r in *. by rewrite (proj2 (Z.eqb_neq _ _) Hend).
  - pose proof (Hfr 0%nat ltac:(lia)) as H0. change (Z.of_nat 0) with 0 in H0. rewrite Z.mul_0_l, Z.add_0_r in H0. rewrite H0, Z.eqb_refl.
    assert (Hs : ∀ i, a + HEADER_SIZE + Z.of_nat i * HEADER_SIZE = a + Z.of_nat (S i) * HEADER_SIZE) by (intros; unfold HEADER_SIZE; lia).
    rewrite IH, Hs; [done| |by rewrite Hs|lia]. intros i Hi. rewrite Hs. apply Hfr. lia.
Qed.

Lemma entry_next n ns a fuel :
  table_at a (n :: ns) → (n < fuel)%nat → skip_fragments flash fuel (a + HEADER_SIZE) = Some (a + Z.of_nat (S n) * HEADER_SIZE).
Proof.
  intros (_ & Hfr & Hend & _) Hfuel.
  assert (Hs : ∀ i, a + HEADER_SIZE + Z.of_nat i * HEADER_SIZE = a + Z.of_nat (S i) * HEADER_SIZE) by (intros; unfold HEADER_SIZE; lia).
  rewrite (skip_fragments_spec n), Hs; [done| |by rewrite Hs|done]. intros i Hi. rewrite Hs. by apply Hfr.
Qed.

Lemma search_table_spec found ns : ∀ fuel a,
  table_at a ns → (table_size ns < fuel)%nat → search_table flash fuel found false a = Some (first_of (existing found) (headers a ns)).
Proof.
  induction ns as [|n ns IH]; intros fuel a Ht Hfuel; (destruct fuel as [|fuel]; [lia|]); cbn [search_table].
  - cbn in Ht. by rewrite Ht.
  - cbn in Hfuel. rewrite (entry_next n ns a fuel Ht) by lia. destruct Ht as (Hin & _ & _ & Ht). rewrite Hin. cbn [headers first_of negb andb].
    fold (existing found a). destruct (existing found a); [done|]. cbn [mbind option_bind]. apply IH; [done|]. unfold table_size. lia.
Qed.

(** Searching after an entry searches the entries that follow it. *)
Lemma search_table_after found l1 : ∀ ns a c l2 fuel,
  table_at a ns → headers a ns = l1 ++ c :: l2 → (table_size ns < fuel)%nat →
  search_table flash fuel found true c = Some (first_of (existing found) l2).
Proof.
  induction l1 as [|x l1 IH]; intros ns a c l2 fuel Ht Hh Hfuel; (destruct ns as [|n ns]; [done|]); cbn in Hh; simplify_eq.
  - destruct fuel as [|fuel]; [lia|]. cbn [search_table]. cbn in Hfuel. rewrite (entry_next n ns c fuel Ht) by lia.
    destruct Ht as (Hin & _ & _ & Ht). rewrite Hin. cbn [negb andb mbind option_bind].
    apply search_table_spec; [done|]. unfold table_size. lia.
  - destruct Ht as (_ & _ & _ & Ht). eapply IH; [exact Ht|done|]. cbn in Hfuel. unfold table_size. lia.
Qed.
End table.

(** ** Names *)

Section names.
Context (flash : Z → Z).
Hypothesis flash_byte : ∀ a, 0 ≤ flash a < 256.

(** A name of at most eight characters with an extension of at most three. *)
Definition valid_name (str : list Z) : Prop :=
  ∃ base ext, str = base ++ ext ∧ (length base ≤ 8)%nat ∧ Forall (λ c, 0 < c < 128 ∧ c ≠ 46) base ∧
    (ext = [] ∨ ∃ e, ext = 46 :: e ∧ (length e ≤ 3)%nat ∧ Forall (λ c, 0 < c < 128) e).

(** The name of a header: its characters, followed by 0xFF. *)
Definition named (file_name : ptr) (nm : list Z) : Prop :=
  (name_byte flash file_name <$> seqZ 0 12) = nm ++ replicate (12 - length nm) 0xFF ∧ Forall (λ c, c ≠ 0xFF) nm ∧ (length nm ≤ 12)%nat.

Lemma valid_name_chars str : valid_name str → (length str ≤ 12)%nat ∧ Forall (λ c, 0 < c < 128) str.
Proof.
  intros (base & ext & -> & Hb & Hcb & He). rewrite length_app, Forall_app.
  assert (Forall (λ c, 0 < c < 128) base) by (eapply Forall_impl; [exact Hcb|]; intros c Hc; cbn in Hc; lia).
  destruct He as [->|(e & -> & Hl & Hce)]; cbn [length]; [split; [lia|auto]|].
  split; [lia|]. split; [done|]. constructor; [lia|done].
Qed.

Lemma scan_dot_base base ext :
  Forall (λ c, 0 < c < 128 ∧ c ≠ 46) base → (ext = [] ∨ ∃ e, ext = 46 :: e) → scan (λ c, c =? 46) (base ++ ext) = length base.
Proof.
  intros Hb He. induction Hb as [|c base Hc Hb IH]; cbn.
  - by destruct He as [->|[e ->]].
  - rewrite (proj2 (Z.eqb_neq _ _)) by lia. by rewrite IH.
Qed.

(** A valid name is copied as it is. *)
Lemma short_name_valid s0 str :
  valid_name str → length s0 = 13%nat → ∃ junk, short_name s0 str = str ++ 0 :: junk.
Proof.
  intros Hv Hs. destruct (valid_name_chars str Hv) as [Hlen Hch]. destruct Hv as (base & ext & -> & Hb & Hcb & He).
  rewrite length_app in Hlen.
  assert (He' : ext = [] ∨ ∃ e, ext = 46 :: e) by (destruct He as [->|(e & -> & _)]; eauto).
  assert (Hi : scan (λ c, c =? 46) (take 8 (base ++ ext)) = length base).
  { destruct (decide (length base = 8)%nat) as [Heq|Hne].
    - rewrite <- Heq, take_app_length. rewrite <- (app_nil_r base) at 1. apply scan_dot_base; auto.
    - rewrite take_app_ge by lia. apply scan_dot_base; [done|].
      destruct He' as [->|[e ->]]; [left; apply take_nil|right]. destruct (8 - length base)%nat eqn:E; [lia|]. cbn. eauto. }
  assert (Hext : (length ext ≤ 4)%nat) by (destruct He as [->|(e & -> & Hl & _)]; cbn; lia).
  unfold short_name. rewrite Hi, take_app_length, drop_app_length.
  assert (Hno : (length base =? 8)%nat && negb (aget (base ++ ext) 8 =? 46) && negb (aget (base ++ ext) 8 =? 0) = false).
  { destruct (Nat.eqb_spec (length base) 8) as [H8|]; [|done]. unfold aget. change (Z.to_nat 8) with 8%nat.
    rewrite nth_lookup, lookup_app_r by lia. rewrite H8. destruct He' as [->|[e ->]]; done. }
  rewrite Hno. cbv zeta.
  assert (H0 : scan (λ c, c =? 46) ext = 0%nat) by (destruct He' as [->|[e ->]]; done).
  rewrite H0, Nat.add_0_r, drop_app_length, take_ge by lia.
  exists (drop (length base + length ext + 1) s0).
  rewrite (memcpy_to_spec s0 0 base) by lia. rewrite take_0, app_nil_l.
  rewrite memcpy_to_app; [|done|rewrite length_drop; lia]. rewrite drop_drop.
  unfold aset. rewrite Nat2Z.id, app_assoc, insert_app_r_alt by (rewrite length_app; lia).
  rewrite length_app, Nat.sub_diag. f_equal. destruct (drop (0 + length base + length ext) s0) as [|x l] eqn:Hd.
  - apply (f_equal length) in Hd. rewrite length_drop in Hd. cbn in Hd. lia.
  - cbn. f_equal. change l with (drop 1 (x :: l)). rewrite <- Hd, drop_drop. reflexivity.
Qed.

Lemma case_insensitive c h :
  0 < c < 128 → ((toupper c =? h) || (tolower c =? h)) = (toupper c =? toupper h).
Proof.
  intros Hc. apply eq_true_iff_eq. rewrite orb_true_iff, !Z.eqb_eq. unfold toupper, tolower.
  destruct ((97 <=? c) && (c <=? 122)) eqn:E1, ((65 <=? c) && (c <=? 90)) eqn:E2, ((97 <=? h) && (h <=? 122)) eqn:E3;
    rewrite ?andb_true_iff, ?andb_false_iff, ?Z.leb_le, ?Z.leb_gt in *; lia.
Qed.

(** The comparison succeeds when every character matches. *)
Lemma compare_name_zero s fn str n : ∀ m,
  0 ≤ m → m + Z.of_nat n = 12 → (length str ≤ 12)%nat → Forall (λ c, 0 < c < 128) str →
  (∃ junk, s = str ++ 0 :: junk) →
  compare_name flash s fn CHAR_CASE_AUTO (m <=? Z.of_nat (length str)) (seqZ m (Z.of_nat n)) = 0 ↔
  ∀ i, m ≤ i < 12 →
    if i <? Z.of_nat (length str) then toupper (aget str i) = toupper (name_byte flash fn i) else name_byte flash fn i = 0xFF.
Proof.
  induction n as [|n IH]; intros m Hm Hmn Hl Hc [junk Hs].
  { rewrite seqZ_nil by lia. split; [intros _ i Hi; lia|done]. }
  rewrite seqZ_cons by lia. cbn [compare_name].
  replace (Z.pred (Z.of_nat (S n))) with (Z.of_nat n) by lia.
  assert (Hj : (if aget s m =? 0 then false else m <=? Z.of_nat (length str)) = (Z.succ m <=? Z.of_nat (length str)) ∧
               (m < Z.of_nat (length str) → aget s m = aget str m ∧ 0 < aget str m < 128)).
  { unfold aget. rewrite !nth_lookup, Hs. destruct (decide (m < Z.of_nat (length str))) as [Hlt|Hge].
    - rewrite lookup_app_l by lia. destruct (lookup_lt_is_Some_2 str (Z.to_nat m)) as [c Hci]; [lia|]. rewrite Hci. cbn.
      pose proof (proj1 (Forall_lookup _ _) Hc _ _ Hci) as Hcr. cbn in Hcr. rewrite (proj2 (Z.eqb_neq c 0)) by lia.
      rewrite !(proj2 (Z.leb_le _ _)) by lia. done.
    - rewrite (proj2 (Z.leb_gt (Z.succ m) _)) by lia. split; [|lia]. destruct (decide (m = Z.of_nat (length str))) as [->|].
      + rewrite Nat2Z.id, lookup_app_r, Nat.sub_diag by lia. done.
      + rewrite (proj2 (Z.leb_gt m _)) by lia. by destruct (_ =? _). }
  destruct Hj as [-> Hget]. specialize (IH (Z.succ m) ltac:(lia) ltac:(lia) Hl Hc (ex_intro _ junk Hs)).
  assert (Hok : name_char_ok CHAR_CASE_AUTO (Z.succ m <=? Z.of_nat (length str)) (aget s m) (name_byte flash fn m) = true ↔
    if m <? Z.of_nat (length str) then toupper (aget str m) = toupper (name_byte flash fn m) else name_byte flash fn m = 0xFF).
  { unfold name_char_ok. change (CHAR_CASE_AUTO =? CHAR_CASE_AUTO) with true. cbv iota.
    destruct (decide (m < Z.of_nat (length str))) as [Hlt|Hge].
    - rewrite (proj2 (Z.leb_le _ _)), (proj2 (Z.ltb_lt _ _)) by lia. destruct (Hget Hlt) as [-> Hr].
      rewrite case_insensitive by done. apply Z.eqb_eq.
    - rewrite (proj2 (Z.leb_gt _ _)), (proj2 (Z.ltb_ge _ _)) by lia. apply Z.eqb_eq. }
  destruct (name_char_ok _ _ _ _).
  - rewrite IH. split; intros Hall i Hi; [destruct (decide (i = m)) as [->|]; [by apply Hok|apply Hall; lia]|apply Hall; lia].
  - split; [lia|]. intros Hall. specialize (Hall m ltac:(lia)). apply Hok in Hall. done.
Qed.

(** The characters [smemfs_prim_get_file_name] keeps. *)
Definition entry_name (header : ptr) : list Z := filter (λ c, c ≠ 0xFF) (name_byte flash (header + 8) <$> seqZ 0 12).

Lemma filter_all (P : Z → Prop) `{∀ x, Decision (P x)} l : Forall P l → filter P l = l.
Proof. induction 1 as [|x l Hx Hl IH]; [done|]. rewrite filter_cons, decide_True by done. by rewrite IH. Qed.

Lemma filter_padding n : filter (λ c, c ≠ 0xFF) (replicate n 0xFF) = [].
Proof. induction n as [|n IH]; [done|]. cbn [replicate]. rewrite filter_cons, decide_False by (intros H; by apply H). done. Qed.

Lemma named_entry header nm : named (header + 8) nm → entry_name header = nm.
Proof.
  intros (Hb & Hn & _). unfold entry_name. rewrite Hb, filter_app, filter_padding, app_nil_r. by apply filter_all.
Qed.

Lemma named_byte fn nm i : named fn nm → 0 ≤ i < 12 → name_byte flash fn i = default 0xFF (nm !! Z.to_nat i).
Proof.
  intros (Hb & _ & Hl) Hi. assert (Hlk : (name_byte flash fn <$> seqZ 0 12) !! Z.to_nat i = Some (name_byte flash fn i)).
  { rewrite list_lookup_fmap, lookup_seqZ_lt by lia. cbn. do 2 f_equal. lia. }
  rewrite Hb in Hlk. destruct (decide (Z.to_nat i < length nm)%nat) as [Hlt|Hge].
  - rewrite lookup_app_l in Hlk by done. by rewrite Hlk.
  - rewrite lookup_app_r in Hlk by lia. apply lookup_replicate in Hlk as [-> _]. by rewrite lookup_ge_None_2 by lia.
Qed.

Lemma toupper_ascii c : 0 < c < 128 → toupper c < 128.
Proof. intros Hc. unfold toupper. destruct (_ && _) eqn:E; breflect; lia. Qed.

(** Names are equal up to the case of their letters. *)
Lemma cmpstr2fhn_zero s0 str fn nm :
  valid_name str → length s0 = 13%nat → named fn nm →
  cmpstr2fhn flash s0 str fn CHAR_CASE_AUTO = 0 ↔ toupper <$> str = toupper <$> nm.
Proof.
  intros Hv Hs Hn. destruct (valid_name_chars str Hv) as [Hlen Hch]. pose proof Hn as (_ & Hff & Hnl).
  pose proof (compare_name_zero (short_name s0 str) fn str 12 0 ltac:(lia) ltac:(lia) Hlen Hch (short_name_valid s0 str Hv Hs)) as Hz.
  rewrite (proj2 (Z.leb_le 0 _)) in Hz by lia. unfold cmpstr2fhn. change (seqZ 0 12) with (seqZ 0 (Z.of_nat 12)). rewrite Hz.
  assert (Hbyte : ∀ i, 0 ≤ i < 12 → name_byte flash fn i = default 0xFF (nm !! Z.to_nat i)) by (intros; by apply named_byte).
  split.
  - intros Hall. assert (Hleq : length nm = length str).
    { destruct (decide (length nm < length str)%nat) as [Hlt|Hge1].
      - specialize (Hall (Z.of_nat (length nm)) ltac:(lia)). rewrite (proj2 (Z.ltb_lt _ _)) in Hall by lia.
        rewrite Hbyte, Nat2Z.id, lookup_ge_None_2 in Hall by lia. change (toupper (default 0xFF None)) with 0xFF in Hall.
        destruct (lookup_lt_is_Some_2 str (length nm) Hlt) as [c Hc]. unfold aget in Hall. rewrite Nat2Z.id, (nth_lookup_Some _ _ _ _ Hc) in Hall.
        pose proof (toupper_ascii c (proj1 (Forall_lookup _ _) Hch _ _ Hc)). cbn in *. lia.
      - destruct (decide (length str < length nm)%nat) as [Hlt|Hge2]; [|lia].
        specialize (Hall (Z.of_nat (length str)) ltac:(lia)). rewrite (proj2 (Z.ltb_ge _ _)) in Hall by lia.
        destruct (lookup_lt_is_Some_2 nm (length str) Hlt) as [c Hc]. rewrite Hbyte, Nat2Z.id, Hc in Hall by lia.
        pose proof (proj1 (Forall_lookup _ _) Hff _ _ Hc). by cbn in Hall. }
    apply list_eq. intros i. rewrite !list_lookup_fmap. destruct (decide (i < length str)%nat) as [Hi|Hi].
    + specialize (Hall (Z.of_nat i) ltac:(lia)). rewrite (proj2 (Z.ltb_lt _ _)) in Hall by lia. rewrite Hbyte, Nat2Z.id in Hall by lia.
      destruct (lookup_lt_is_Some_2 str i Hi) as [c Hc], (lookup_lt_is_Some_2 nm i ltac:(lia)) as [h Hh].
      unfold aget in Hall. rewrite Nat2Z.id, (nth_lookup_Some _ _ _ _ Hc), Hh in Hall. rewrite Hc, Hh. cbn in *. by rewrite Hall.
    + rewrite !lookup_ge_None_2 by lia. done.
  - intros Heq i Hi. pose proof (f_equal length Heq) as Hleq. rewrite !length_fmap in Hleq. rewrite Hbyte by lia.
    destruct (i <? Z.of_nat (length str)) eqn:E; breflect.
    + destruct (lookup_lt_is_Some_2 str (Z.to_nat i) ltac:(lia)) as [c Hc], (lookup_lt_is_Some_2 nm (Z.to_nat i) ltac:(lia)) as [h Hh].
      apply (f_equal (lookup (Z.to_nat i))) in Heq. rewrite !list_lookup_fmap, Hc, Hh in Heq. unfold aget.
      rewrite (nth_lookup_Some _ _ _ _ Hc), Hh. cbn in *. congruence.
    + by rewrite lookup_ge_None_2 by lia.
Qed.

Lemma first_of_ext (P Q : ptr → bool) l : (∀ a, a ∈ l → P a = Q a) → first_of P l = first_of Q l.
Proof.
  induction l as [|x l IH]; intros H; [done|]. cbn. rewrite (H x) by apply list_elem_of_here.
  rewrite IH; [done|]. intros a Ha. apply H. by apply list_elem_of_further.
Qed.


Lemma first_of_filter (P : ptr → bool) l : first_of P l = default NULL (head (filter (λ a, P a = true) l)).
Proof. induction l as [|x l IH]; [done|]. cbn [first_of]. rewrite filter_cons. destruct (P x); [by rewrite decide_True|by rewrite decide_False]. Qed.

Lemma filter_split (P : ptr → bool) l : ∀ c1 x c2,
  filter (λ a, P a = true) l = c1 ++ x :: c2 → ∃ l1 l2, l = l1 ++ x :: l2 ∧ filter (λ a, P a = true) l2 = c2.
Proof.
  induction l as [|y l IH]; intros c1 x c2 Hf; [by destruct c1|]. rewrite filter_cons in Hf. case_decide.
  - destruct c1 as [|z c1]; cbn in Hf; injection Hf as -> Hf; [by exists [], l|].
    destruct (IH c1 x c2 Hf) as (l1 & l2 & -> & Hc). by exists (z :: l1), l2.
  - destruct (IH c1 x c2 Hf) as (l1 & l2 & -> & Hc). by exists (y :: l1), l2.
Qed.

(** The entries of a directory are enumerated in the order of the table, each
    once: the search from NULL gives the first one, the search from an entry
    gives the one that follows, and NULL after the last. *)
Theorem smemfs_children_correct tables p dir ns :
  table_at flash (smemfs_file_start p) ns → (table_size ns < tables)%nat → NULL ∉ headers (smemfs_file_start p) ns →
  let children := filter (λ a, existing flash (λ a, h_parent_id flash a =? dir) a = true) (headers (smemfs_file_start p) ns) in
  smemfs_prim_get_next_child flash tables p NULL dir = Some (default NULL (head children)) ∧
  ∀ c1 c c2, children = c1 ++ c :: c2 → smemfs_prim_get_next_child flash tables p c dir = Some (default NULL (head c2)).
Proof.
  intros Ht Hfuel Hnull children. unfold smemfs_prim_get_next_child. split.
  - change (NULL =? NULL) with true. cbn [negb]. rewrite (search_table_spec flash _ ns) by done. f_equal. apply first_of_filter.
  - intros c1 c c2 Hc. destruct (filter_split _ _ _ _ _ Hc) as (l1 & l2 & Hl & <-).
    assert (c ≠ NULL) by (intros ->; apply Hnull; rewrite Hl; apply elem_of_mid).
    rewrite (proj2 (Z.eqb_neq c NULL)) by done. cbn [negb]. rewrite (search_table_after flash _ l1 ns _ c l2 tables Ht Hl Hfuel).
    f_equal. apply first_of_filter.
Qed.
End names.

(** ** A small image

    One block (number 5, at 8192) and, in the root, the file "A.T" of two
    fragments and the directory "D". *)

Definition image_bytes : list Z :=
  [66; 0; 0; 0; 0; 0; 32; 0; 0; 0; 0; 5; 255; 255; 255; 255; 255; 255; 255; 255; 255; 255; 255; 255; 255; 255;
    255; 255; 255; 255; 255; 255; 81; 32; 0; 1; 255; 255; 255; 255; 0; 65; 0; 46; 0; 84; 255; 255; 255; 255; 255;
    255; 255; 255; 255; 255; 255; 255; 255; 255; 255; 255; 255; 255; 81; 48; 0; 1; 1; 32; 0; 1; 0; 2; 0; 2; 0; 1;
    0; 5; 0; 0; 0; 2; 255; 255; 255; 255; 255; 255; 255; 255; 255; 255; 255; 255; 81; 48; 0; 2; 1; 32; 0; 1; 0; 2;
    0; 2; 0; 2; 0; 5; 0; 16; 0; 3; 255; 255; 255; 255; 255; 255; 255; 255; 255; 255; 255; 255; 81; 16; 0; 2; 255;
    255; 255; 255; 0; 68; 255; 255; 255; 255; 255; 255; 255; 255; 255; 255; 255; 255; 255; 255; 255; 255; 255; 255;
    255; 255; 255; 255; 0; 0; 0; 0; 0; 0; 0; 0; 0; 0; 0; 0; 0; 0; 0; 0; 0; 0; 0; 0; 0; 0; 0; 0; 0; 0; 0; 0; 0; 0;
    0; 0].

Definition image_data : list Z := [10; 20; 30; 0; 0; 0; 0; 0; 0; 0; 0; 0; 0; 0; 0; 0; 40; 50; 60; 70].

Definition image_flash (a : ptr) : Z :=
  if (4096 <=? a) && (a <? 4288) then aget image_bytes (a - 4096)
  else if (8192 <=? a) && (a <? 8212) then aget image_data (a - 8192) else 0.

Definition image_prim : smemfs_prim := mk_prim 0 4096 4128 0x42.

Lemma image_byte a : 0 ≤ image_flash a < 256.
Proof.
  assert (Hnth : ∀ l i, Forall (λ b, 0 ≤ b < 256) l → 0 ≤ aget l i < 256).
  { intros l i Hl. unfold aget. rewrite nth_lookup. destruct (l !! Z.to_nat i) eqn:Hi; [|cbn; lia].
    exact (proj1 (Forall_lookup _ _) Hl _ _ Hi). }
  unfold image_flash. repeat case_match; [apply Hnth|apply Hnth|lia];
    by_computation.
Qed.

(** The primitives initialised from the image. *)
Example image_init : smemfs_prim_init image_flash 10 4096 0 = Some image_prim.
Proof. vm_compute. reflexivity. Qed.

Lemma image_file : file_at image_flash image_prim 10 4128 [[10; 20; 30]; [40; 50; 60; 70]].
Proof.
  split; [vm_compute; discriminate|]. split; [vm_compute; reflexivity|]. split; [|vm_compute; reflexivity].
  split; [vm_compute; reflexivity|]. split; [exists 8192; split; vm_compute; reflexivity|].
  split; [vm_compute; reflexivity|]. split; [exists 8208; split; vm_compute; reflexivity|]. exact I.
Qed.

(** A kernel with the file open at position 2. *)
Definition image_kernel : kernel unit :=
  upd_inode 64 (set_i_abstract 4128) (upd_file 32 (λ _, mk_file 2 O_RDONLY 64 fop_smemfs 1 0) (zero_kernel tt)).

Lemma smemfs_read_correct_witness :
  ∃ k', smemfs_read image_flash 10 image_prim 32 3 image_kernel = Some (3, [30; 40; 50], k') ∧ f_pos (k_files k' 32) = 5.
Proof.
  destruct (smemfs_read_correct image_flash image_prim 10 image_byte 32 [[10; 20; 30]; [40; 50; 60; 70]] 3 image_kernel) as (k' & Hr & Hf & _);
    [reflexivity|reflexivity|exact image_file|cbn; lia|lia|cbn; lia|].
  exists k'. split; [exact Hr|]. rewrite Hf. reflexivity.
Defined.

Lemma smemfs_lseek_correct_witness :
  (smemfs_lseek image_flash 32 1 SEEK_CUR image_kernel).1 = 0 ∧ (smemfs_lseek image_flash 32 (-1) SEEK_END image_kernel).1 = 6.
Proof.
  pose proof (smemfs_lseek_correct image_flash image_prim 10 32 [[10; 20; 30]; [40; 50; 60; 70]] 1 SEEK_CUR image_kernel image_file) as H1.
  pose proof (smemfs_lseek_correct image_flash image_prim 10 32 [[10; 20; 30]; [40; 50; 60; 70]] (-1) SEEK_END image_kernel image_file) as H2.
  destruct (smemfs_lseek image_flash 32 1 SEEK_CUR image_kernel) as [r1 k1], (smemfs_lseek image_flash 32 (-1) SEEK_END image_kernel) as [r2 k2].
  split; [apply H1; cbn; lia|apply H2; cbn; lia].
Defined.

Lemma image_table : table_at image_flash 4128 [2%nat; 0%nat].
Proof.
  split; [vm_compute; reflexivity|]. split; [|split; [vm_compute; discriminate|]].
  - intros [|[|i]] Hi; [vm_compute; reflexivity|vm_compute; reflexivity|lia].
  - split; [vm_compute; reflexivity|]. split; [intros i Hi; lia|]. split; [vm_compute; discriminate|vm_compute; reflexivity].
Qed.

Lemma image_names a : a ∈ headers 4128 [2%nat; 0%nat] → ∃ nm, named image_flash (a + 8) nm.
Proof.
  change (headers 4128 [2%nat; 0%nat]) with [4128; 4224]. intros [->|[->|[]%elem_of_nil]%elem_of_cons]%elem_of_cons.
  - exists [65; 46; 84]. split; [vm_compute; reflexivity|]. split; [repeat constructor; lia|cbn; lia].
  - exists [68]. split; [vm_compute; reflexivity|]. split; [repeat constructor; lia|cbn; lia].
Qed.


Lemma smemfs_children_correct_witness :
  smemfs_prim_get_next_child image_flash 10 image_prim NULL 0xFFFF = Some 4128 ∧
  smemfs_prim_get_next_child image_flash 10 image_prim 4128 0xFFFF = Some 4224.
Proof.
  destruct (smemfs_children_correct image_flash 10 image_prim 0xFFFF [2%nat; 0%nat] image_table) as [H1 H2]; [cbn; lia| |].
  - change (headers (smemfs_file_start image_prim) [2%nat; 0%nat]) with [4128; 4224]. intros [H|[H|[]%elem_of_nil]%elem_of_cons]%elem_of_cons; lia.
  - split; [rewrite H1; vm_compute; reflexivity|]. rewrite (H2 [] 4128 [4224]); [reflexivity|vm_compute; reflexivity].
Defined.
