(* ===== verification/PageFault.v ===== *)
(** * Page faults (src/arch/sh/exception.c, src/sys/mem_area.h)

    A TLB miss is resolved from the page directories of the current process or,
    when they have no valid page for the address, from its memory areas: the area
    gives a new page, which is mapped and then loaded in the TLB.  The theorems
    compose the MMU, the page directories, the memory areas, the page allocator
    and the file system: what a process sees at an address it touches for the
    first time. *)

From S2P Require Import Prelude CyclicFifo PhysMem PoolAlloc KMem Pid Mmu PageDir Kernel Scheduler Pipe VfsFile MemArea.
From S2P Require Import Signal Vfs Process Smemfs.

(** ** Model *)

(** How the handler ends: the instruction is run again, or [kdebug_oops] stops the
    kernel.  [Resumed] carries what was written in a new page of a file. *)
Inductive fault_result {A : Type} :=
| Resumed (k : kernel A) (fill : option (list Z))
| Oops (k : kernel A).
Arguments fault_result : clear implicits.

Section ops.
Context {M : Type} `{!PageMem M}.
Context (flash : Z → Z) (tables : nat) (p : smemfs_prim).
Implicit Types (k : kernel (kmem M)).

(** Every kind of area has its operations and its [area_pagefault]. *)
(** src/sys/mem_area.h: mem_area_pagefault *)
Definition mem_area_pagefault (area addrfault : ptr) (stale : list Z) k : option (pm_page * option (list Z) * kernel (kmem M)) :=
  match ma_ops (k_areas k area) with
  | aop_anon => '(page, k) ← anon_area_pagefault area addrfault k; Some (page, None, k)
  | aop_smemfs => '(page, content, k) ← smemfs_area_pagefault flash tables p area addrfault stale k; Some (page, Some content, k)
  end.

(** The part that looks for an area and maps a new page; the result is [page]. *)
(** src/arch/sh/exception.c:193-224: tlbmiss_handler *)
Definition major_fault (curpr : ptr) (vpn : Z) (stale : list Z) (page : option pm_page) k
  : option (option pm_page * option (list Z) * kernel (kmem M)) :=
  let k := sched_preempt_block k in
  let virtaddr := PM_PHYSICAL_ADDR vpn in
  let area := mem_area_find k curpr virtaddr in
  '(page, fill, k) ←
    (if negb (area =? NULL) then
       '(pmpage, fill, k) ← mem_area_pagefault area virtaddr stale k;
       if negb (ppn pmpage =? 0) then
         '(_, dirs, v) ← mem_insert_page pool_fuel (dir_list (k_procs k curpr)) pmpage virtaddr (vmem_of (k_mem k));
         let k := upd_proc curpr (set_dir_list dirs) (set_k_mem (with_vmem v (k_mem k)) k) in
         Some (mem_find_page (dir_list (k_procs k curpr)) virtaddr, fill, k)
       else Some (page, fill, k)
     else Some (page, None, k));
  Some (page, fill, sched_preempt_unblock k).

(** [page == NULL || !(page->private.flags & MEM_PAGE_VALID)] *)
(** src/arch/sh/exception.c:193-193: tlbmiss_handler *)
Definition page_missing (page : option pm_page) : bool :=
  match page with None => true | Some pg => negb (pflags pg &? MEM_PAGE_VALID) end.

(** The flags and the page number for the TLB. *)
(** src/arch/sh/exception.c:227-247: tlbmiss_handler *)
Definition tlb_flags (page : pm_page) : Z * Z :=
  let flags := Z.lor (Z.lor TLB_NOTSHARED TLB_PROT_U_RW) TLB_DIRTY in
  if pflags page &? MEM_PAGE_PRIVATE then
    if pflags page &? MEM_PAGE_VALID then
      let flags := Z.lor flags TLB_VALID in
      (if pflags page &? MEM_PAGE_CACHED then Z.lor flags TLB_CACHEABLE else flags, ppn page)
    else (flags, 0)
  else (flags, 0).

(** [vpn] is the page of PTEH, [recurcive] the static [_recurcive_tlbfault], [keep]
    the choice of the hardware among the entries it may replace.  The entry is
    tagged with the process for the theorems on the TLB. *)
(** src/arch/sh/exception.c: tlbmiss_handler *)
Definition tlbmiss_handler (keep : tlb_entry → bool) (recurcive vpn : Z) (stale : list Z) k : option (fault_result (kmem M)) :=
  let curpr := proc_current k in
  if negb (recurcive =? 0) then Some (Oops k)
  else
    let page := mem_find_page (dir_list (k_procs k curpr)) (u32 (Z.shiftl vpn PM_PAGE_ORDER)) in
    '(page, fill, k) ← (if page_missing page then major_fault curpr vpn stale page k else Some (page, None, k));
    match page with
    | Some page =>
        let '(flags, ppn) := tlb_flags page in
        if flags &? TLB_VALID then
          Some (Resumed (set_k_mmu (mmu_tlb_fillload (Z.to_nat curpr) vpn ppn flags keep (k_mmu k)) k) fill)
        else Some (Oops k)
    | None => Some (Oops k)
    end.
End ops.

(** ** Mapping a page with the pools of the kernel *)

Section kmem_insert.
Context {M : Type} `{!PageMem M}.

Lemma kmem_inv_ext (a a' : kmem M) L H F :
  km_mem a' = km_mem a → (∀ i, km_pools a' i = km_pools a i) → km_inv a L H F → km_inv a' L H F.
Proof.
  intros Hm Hp [pgs Hr]. exists pgs. split; try apply Hr. intros i. rewrite Hm, Hp. apply Hr.
Qed.

(** Inserting a page always succeeds while a physical page is free, and takes at
    most one for a new directory. *)
Lemma insert_page_kmem (a : kmem M) ds page addr L H F :
  km_inv a L H F → F ≠ [] → dirs_wf ds →
  ∃ ds' v' L' F', mem_insert_page pool_fuel ds page addr (vmem_of a) = Some (0, ds', v') ∧
    km_inv (with_vmem v' a) L' H F' ∧ (length F ≤ S (length F'))%nat ∧ dirs_wf ds' ∧
    mem_find_page ds' addr = Some page ∧
    ∀ x, translate ds' x = if decide (addr / 1024 = x / 1024)
                           then (if pflags page &? MEM_PAGE_VALID then Some (ppn page) else None) else translate ds x.
Proof.
  intros Hinv HF Hwf.
  assert (Hins : ∃ ds' v' L' F', mem_insert_page pool_fuel ds page addr (vmem_of a) = Some (0, ds', v') ∧
    km_inv (with_vmem v' a) L' H F' ∧ (length F ≤ S (length F'))%nat).
  { unfold mem_insert_page. cbn zeta. destruct (has_dir ds _).
    - eexists _, _, L, F. split; [done|]. split; [|lia]. apply (kmem_inv_ext a); [done| |done].
      intros i. cbn [with_vmem vmem_of km_pools v_pool]. unfold set_pool. case_decide; by subst.
    - destruct (km_alloc_ok PDir a L H F Hinv HF) as (o & a' & F' & Ha & Ho & _ & Hinv' & Hlen).
      cbn [km_alloc kmem_KMem] in Ha. unfold kmem_alloc in Ha. cbn [vmem_of v_pool v_mem].
      destruct (pool_alloc pool_fuel (km_pools a PDir) (km_mem a)) as [[[o' pl] m]|]; [|done]. cbn [mbind option_bind] in *.
      injection Ha as -> <-. rewrite (proj2 (Z.eqb_neq o NULL)) by done. eexists _, _, _, F'. split; [done|]. split; [exact Hinv'|done]. }
  destruct Hins as (ds' & v' & L' & F' & Hins & Hinv' & Hlen). exists ds', v', L', F'. split; [done|]. split; [done|]. split; [done|].
  destruct (mem_insert_shape pool_fuel ds page addr _ ds' v' Hins) as (fresh & Hf & ->).
  split; [apply inserted_wf; [apply Hf..|done]|]. split; [|intros x; by apply translate_inserted].
  destruct Hf as (Hid & Hfl & _). rewrite find_inserted by done. by rewrite decide_True by done.
Qed.
End kmem_insert.

(** ** What the hardware translates *)

(** The page number and the validity of an entry, as the MMU reads PTEL. *)
Definition entry_ppn (e : tlb_entry) : Z := Z.shiftr (e_ptel e) 10.
Definition entry_valid (e : tlb_entry) : bool := e_ptel e &? TLB_VALID.

(** The translation of a page by the TLB, under the current ASID. *)
Definition hw_translate (m : mmu) (vpn : Z) : option Z :=
  e ← head (filter (λ e, e_asid e = cur_asid m ∧ e_vpn e = vpn) (tlb m));
  if entry_valid e then Some (entry_ppn e) else None.

Lemma fillload_translate owner vpn ppn flags keep m :
  0 ≤ ppn < 2 ^ 22 → 0 ≤ flags < 1024 → (flags &? TLB_VALID) = true →
  hw_translate (mmu_tlb_fillload owner vpn ppn flags keep m) vpn = Some ppn.
Proof.
  intros Hp Hf Hv. unfold hw_translate, mmu_tlb_fillload. cbn [tlb cur_asid]. rewrite filter_cons_True by done. cbn [head mbind option_bind].
  unfold entry_valid, entry_ppn. cbn [e_ptel]. rewrite u16_small by lia. rewrite u32_small by (rewrite Z.shiftl_mul_pow2; lia).
  replace (_ &? TLB_VALID) with true; [f_equal|].
  - rewrite Z.shiftr_lor, Z.shiftr_shiftl_l by lia. rewrite Z.sub_diag, Z.shiftl_0_r.
    rewrite (Z.shiftr_div_pow2 flags), Z.div_small by lia. apply Z.lor_0_r.
  - symmetry. unfold flag_set in *. rewrite Z.land_lor_distr_l.
    destruct (Z.eqb_spec (Z.land flags TLB_VALID) 0) as [|Hn]; [done|]. apply negb_true_iff, Z.eqb_neq. intros [_ H]%Z.lor_eq_0_iff. done.
Qed.

(** ** The handler *)

Section handler.
Context {M : Type} `{!PageMem M}.
Context (flash : Z → Z) (tables : nat) (p : smemfs_prim).
Implicit Types (k : kernel (kmem M)).

Definition new_page (x : ptr) : pm_page := mk_page (PM_PHYSICAL_PAGE x) 3.

(** What an area gives for a page: a page that was free, and possibly its content. *)
Definition gives_page k L H F (area addr : ptr) (stale : list Z) (fill : option (list Z)) : Prop :=
  ∃ x F' a, F ≡ₚ x :: F' ∧
    mem_area_pagefault flash tables p area addr stale k = Some (new_page x, fill, set_k_mem a k) ∧ km_inv a L (x :: H) F'.

Lemma anon_gives k L H F area addr stale :
  km_inv (k_mem k) L H F → F ≠ [] → ma_ops (k_areas k area) = aop_anon → area_ok k area → area_begin k area ≤ addr < area_end k area →
  gives_page k L H F area addr stale None.
Proof.
  intros Hinv HF Hop (_ & Hb & He) Ha. unfold area_begin, area_end in *.
  destruct (km_get_ok MEM_PM_UNCACHED (k_mem k) L H F Hinv HF) as (x & q & a & F' & Hg & Hq & Hpq & HFF & Hinv').
  exists x, F', a. split; [done|]. split; [|done]. unfold mem_area_pagefault. rewrite Hop. unfold anon_area_pagefault. cbn zeta.
  rewrite u32_small by lia. rewrite (proj2 (Z.ltb_lt (addr - _) _)) by lia. rewrite Hg. cbn [mbind option_bind].
  rewrite (proj2 (Z.eqb_neq q NULL)) by done. cbn [negb mbind option_bind]. by rewrite Hpq.
Qed.

Definition page_facts (x : ptr) : Prop := PM_PHYSICAL_PAGE x ≠ 0 ∧ 0 ≤ PM_PHYSICAL_PAGE x < 2 ^ 22.

Lemma new_page_facts a L H F x : km_inv a L (x :: H) F → page_facts x.
Proof.
  intros Hinv. destruct (km_inv_nodup a L (x :: H) F Hinv) as (_ & _ & [Hx _]%Forall_cons & _). destruct Hx as [Hm Hr].
  unfold page_facts. rewrite physical_page_spec by lia. pose proof (Z.mod_pos_bound x (2 ^ 29) ltac:(lia)). pose proof (Z.div_mod x (2 ^ 29) ltac:(lia)).
  pose proof (Z.div_mod x 1024 ltac:(lia)). assert (x / 2 ^ 29 = 4) by (symmetry; apply (Z.div_unique _ _ _ (x - 4 * 2 ^ 29)); lia).
  split; [|split; [apply Z.div_pos; lia|apply Z.div_lt_upper_bound; lia]]. intros Hz. apply Z.div_small_iff in Hz; lia.
Qed.

(** The state of the current process when it faults. *)
Record fault_ready k L H F : Prop := {
  fr_inv : km_inv (k_mem k) L H F;
  fr_free : (2 ≤ length F)%nat;
  fr_dirs : dirs_wf (dir_list (k_procs k (proc_current k)));
  fr_areas : Forall (area_ok k) (mem_areas (k_procs k (proc_current k)));
  fr_disjoint : areas_disjoint k (mem_areas (k_procs k (proc_current k)));
  fr_level : 0 ≤ preempt_level k;
  fr_private page a : mem_find_page (dir_list (k_procs k (proc_current k))) a = Some page →
    (pflags page &? MEM_PAGE_VALID) = true → (pflags page &? MEM_PAGE_PRIVATE) = true ∧ 0 ≤ ppn page < 2 ^ 22
}.

Lemma preempt_bracket k k1 :
  0 ≤ preempt_level k → preempt_level k1 = preempt_level (sched_preempt_block k) →
  sched_preempt_unblock k1 = set_preempt_level (preempt_level k) k1.
Proof.
  intros Hl H1. unfold sched_preempt_unblock. rewrite H1. cbn [preempt_level set_preempt_level sched_preempt_block].
  rewrite (proj2 (Z.ltb_ge _ _)) by lia. f_equal. lia.
Qed.

(** A page of an area that was never used: a free page is mapped there. *)
Lemma major_fault_spec k L H F area vpn stale page fill :
  let cur := proc_current k in let dirs := dir_list (k_procs k cur) in
  fault_ready k L H F → 0 ≤ vpn < 2 ^ 22 → area ∈ mem_areas (k_procs k cur) → area_begin k area ≤ vpn * 1024 < area_end k area →
  gives_page (sched_preempt_block k) L H F area (vpn * 1024) stale fill →
  ∃ x k' L' F', major_fault flash tables p cur vpn stale page k = Some (Some (new_page x), fill, k') ∧
    page_facts x ∧ x ∈ F ∧ km_inv (k_mem k') L' (x :: H) F' ∧ dirs_wf (dir_list (k_procs k' cur)) ∧
    (∀ a, translate (dir_list (k_procs k' cur)) a = if decide (vpn = a / 1024) then Some (PM_PHYSICAL_PAGE x) else translate dirs a) ∧
    (∀ q, q ≠ cur → k_procs k' q = k_procs k q) ∧ k_mmu k' = k_mmu k ∧ preempt_level k' = preempt_level k.
Proof.
  cbv zeta. intros Hr Hv Hin Hrange (x & F1 & a1 & HFF & Hpf & Hinv1).
  assert (Hva : PM_PHYSICAL_ADDR vpn = vpn * 1024) by (unfold PM_PHYSICAL_ADDR, PM_PAGE_ORDER; rewrite Z.shiftl_mul_pow2, u32_small by lia; done).
  destruct (mem_area_find_correct k (proc_current k) (vpn * 1024) (fr_areas _ _ _ _ Hr) (fr_disjoint _ _ _ _ Hr)) as [_ Hfind].
  specialize (Hfind area Hin Hrange).
  pose proof (new_page_facts _ _ _ _ _ Hinv1) as Hx.
  assert (HF1 : F1 ≠ []). { pose proof (fr_free _ _ _ _ Hr) as Hl. rewrite HFF in Hl. destruct F1; cbn in Hl; [lia|done]. }
  destruct (insert_page_kmem a1 (dir_list (k_procs k (proc_current k))) (new_page x) (vpn * 1024) L (x :: H) F1 Hinv1 HF1 (fr_dirs _ _ _ _ Hr))
    as (ds' & v' & L' & F' & Hins & Hinv' & _ & Hwf' & Hfound & Htr).
  unfold major_fault. rewrite Hva. cbn zeta.
  change (mem_area_find (sched_preempt_block k) (proc_current k) (vpn * 1024)) with (mem_area_find k (proc_current k) (vpn * 1024)).
  rewrite Hfind. assert (Hnn : area ≠ NULL) by (pose proof (fr_areas _ _ _ _ Hr) as Ha; rewrite Forall_forall in Ha; by destruct (Ha area Hin)).
  rewrite (proj2 (Z.eqb_neq area NULL)) by done. cbn [negb]. rewrite Hpf. cbn [mbind option_bind ppn new_page].
  destruct Hx as [Hx0 Hxr]. rewrite (proj2 (Z.eqb_neq (PM_PHYSICAL_PAGE x) 0)) by done. cbn [negb].
  cbn [k_procs set_k_mem sched_preempt_block set_preempt_level k_mem]. rewrite Hins. cbn [mbind option_bind].
  rewrite (preempt_bracket k) by (apply Hr || done).
  rewrite upd_proc_eq. cbn [dir_list set_dir_list]. rewrite Hfound.
  eexists x, _, L', F'. split; [reflexivity|]. split; [done|]. split; [rewrite HFF; apply list_elem_of_here|]. split; [exact Hinv'|].
  cbn [k_procs set_preempt_level k_mmu preempt_level]. rewrite upd_proc_eq. cbn [dir_list set_dir_list]. split; [done|].
  split; [|split; [intros q Hq; by rewrite upd_proc_ne|done]]. intros a. rewrite Htr. rewrite Z.div_mul by lia. by case_decide.
Qed.

Lemma new_page_flags x : tlb_flags (new_page x) = (Z.lor (Z.lor (Z.lor TLB_NOTSHARED TLB_PROT_U_RW) TLB_DIRTY) TLB_VALID, PM_PHYSICAL_PAGE x).
Proof. reflexivity. Qed.

Lemma missing_translate ds a : page_missing (mem_find_page ds a) = true ↔ translate ds a = None.
Proof.
  unfold translate, page_missing. destruct (mem_find_page ds a) as [pg|]; [|done]. cbn [mbind option_bind].
  by destruct (pflags pg &? MEM_PAGE_VALID).
Qed.

Lemma vpn_address vpn : 0 ≤ vpn < 2 ^ 22 → u32 (Z.shiftl vpn PM_PAGE_ORDER) = vpn * 1024.
Proof. intros Hv. unfold PM_PAGE_ORDER. rewrite Z.shiftl_mul_pow2, u32_small by lia. done. Qed.

(** An area that gives a page resolves the fault. *)
Lemma tlbmiss_new_page keep k L H F area vpn stale fill :
  let cur := proc_current k in let dirs := dir_list (k_procs k cur) in
  fault_ready k L H F → 0 ≤ vpn < 2 ^ 22 → translate dirs (vpn * 1024) = None →
  area ∈ mem_areas (k_procs k cur) → area_begin k area ≤ vpn * 1024 < area_end k area →
  gives_page (sched_preempt_block k) L H F area (vpn * 1024) stale fill →
  ∃ x k' L' F', tlbmiss_handler flash tables p keep 0 vpn stale k = Some (Resumed k' fill) ∧
    x ∈ F ∧ km_inv (k_mem k') L' (x :: H) F' ∧ dirs_wf (dir_list (k_procs k' cur)) ∧
    (∀ a, translate (dir_list (k_procs k' cur)) a = if decide (vpn = a / 1024) then Some (PM_PHYSICAL_PAGE x) else translate dirs a) ∧
    hw_translate (k_mmu k') vpn = Some (PM_PHYSICAL_PAGE x) ∧
    (∀ q, q ≠ cur → k_procs k' q = k_procs k q) ∧ preempt_level k' = preempt_level k.
Proof.
  cbv zeta. intros Hr Hv Htr Hin Hrange Hg. unfold tlbmiss_handler. cbn [Z.eqb negb]. rewrite vpn_address by done.
  rewrite (proj2 (missing_translate _ _)) by done.
  destruct (major_fault_spec k L H F area vpn stale (mem_find_page (dir_list (k_procs k (proc_current k))) (vpn * 1024)) fill Hr Hv Hin Hrange Hg)
    as (x & k' & L' & F' & Hm & [_ Hx] & HxF & Hinv & Hwf & Htr' & Hother & Hmmu & Hlev).
  rewrite Hm. cbn [mbind option_bind]. rewrite new_page_flags. cbn [flag_set Z.land]. eexists x, _, L', F'. split; [reflexivity|].
  cbn [k_mem set_k_mmu k_procs k_mmu preempt_level]. split_and!; try done. by apply fillload_translate.
Qed.

(** ** Pages of a file *)

(** The bytes of a page of a file area that is completed with zeros. *)
Definition file_page (content : list Z) (area : mem_area) (offset : Z) : list Z :=
  (λ i, if offset + i <? ma_infile area then nth (Z.to_nat (ma_base area + offset + i)) content 0 else 0) <$> seqZ 0 1024.

Lemma file_page_lookup content area offset i :
  (i < 1024)%nat → file_page content area offset !! i =
  Some (if offset + Z.of_nat i <? ma_infile area then nth (Z.to_nat (ma_base area + offset + Z.of_nat i)) content 0 else 0).
Proof. intros Hi. unfold file_page. rewrite list_lookup_fmap, lookup_seqZ_lt by lia. done. Qed.

Lemma partial_page_filled area offset stale content :
  (ma_flags area &? MEM_AREA_TYPE_FILE) = true → (ma_flags area &? MEM_AREA_PARTIAL) = true → length stale = 1024%nat →
  0 ≤ offset → offset + 1024 < 2 ^ 32 → 0 ≤ ma_infile area < 2 ^ 32 → 0 ≤ ma_base area →
  ma_base area + ma_infile area ≤ Z.of_nat (length content) →
  let '(n, page) := mem_area_fill_partial_page area offset stale in
  n = Z.max 0 (Z.min 1024 (ma_infile area - offset)) ∧
  memcpy_to page 0 (take (Z.to_nat n) (drop (Z.to_nat (ma_base area + offset)) content)) = file_page content area offset.
Proof.
  intros Hf Hp Hs Ho Ho' Hi Hb Hlen. pose proof (fill_partial_spec area offset stale Hf Hp Ho Ho' Hi Hs) as H.
  destruct (mem_area_fill_partial_page area offset stale) as [n page]. destruct H as (Hn & Hl & _ & Hz). split; [done|].
  assert (Hd : length (take (Z.to_nat n) (drop (Z.to_nat (ma_base area + offset)) content)) = Z.to_nat n).
  { rewrite length_take, length_drop. lia. }
  apply list_eq. intros i. destruct (decide (i < 1024)%nat) as [Hlt|Hge].
  - rewrite file_page_lookup, memcpy_to_lookup by (rewrite ?Hd; lia). rewrite Hd. case_decide as Hin.
    + rewrite (proj2 (Z.ltb_lt _ _)) by lia. rewrite Nat.sub_0_r, lookup_take_lt, lookup_drop by lia.
      replace (Z.to_nat (ma_base area + offset + Z.of_nat i)) with (Z.to_nat (ma_base area + offset) + i)%nat by lia.
      destruct (lookup_lt_is_Some_2 content (Z.to_nat (ma_base area + offset) + i)) as [b Hb']; [lia|].
      rewrite Hb'. by rewrite (nth_lookup_Some _ _ _ _ Hb').
    + rewrite (proj2 (Z.ltb_ge _ _)) by lia. apply Hz. lia.
  - rewrite !lookup_ge_None_2; [done| |]; [unfold file_page; rewrite length_fmap, length_seqZ|rewrite memcpy_to_length]; lia.
Qed.

Lemma smemfs_gives k L H F area addr stale fs :
  let ar := k_areas k area in
  (∀ a, 0 ≤ flash a < 256) → km_inv (k_mem k) L H F → F ≠ [] → ma_ops ar = aop_smemfs → area_ok k area → area_begin k area ≤ addr < area_end k area →
  area_end k area < 2 ^ 32 - 1024 →
  (ma_flags ar &? MEM_AREA_TYPE_FILE) = true → (ma_flags ar &? MEM_AREA_PARTIAL) = true → length stale = 1024%nat →
  file_at flash p tables (i_abstract (k_inodes k (f_inode (k_files k (ma_filep ar))))) fs → (length fs + 2 ≤ tables)%nat →
  0 ≤ ma_infile ar < 2 ^ 32 → 0 ≤ ma_base ar → ma_base ar + ma_infile ar ≤ Z.of_nat (length (concat fs)) →
  gives_page k L H F area addr stale (Some (file_page (concat fs) ar (addr - ma_address ar))).
Proof.
  cbv zeta. intros Hbyte Hinv HF Hop (_ & Hb & He) Ha Hend Hfl Hpa Hst Hfile Hfuel Hi Hba Hlen. unfold area_begin, area_end in *.
  pose proof Hfile as (_ & _ & _ & Hsz).
  destruct (km_get_ok MEM_PM_UNCACHED (k_mem k) L H F Hinv HF) as (x & q & a & F' & Hg & Hq & Hpq & HFF & Hinv').
  exists x, F', a. split; [done|]. split; [|done]. unfold mem_area_pagefault. rewrite Hop. unfold smemfs_area_pagefault. cbn zeta.
  rewrite u32_small by lia. rewrite Hg. cbn [mbind option_bind]. set (offset := addr - _) in *.
  pose proof (partial_page_filled (k_areas k area) offset stale (concat fs) Hfl Hpa Hst ltac:(lia) ltac:(lia) Hi Hba Hlen) as Hfill.
  destruct (mem_area_fill_partial_page _ _ _) as [n content]. destruct Hfill as [Hn Hfill]. rewrite Hpq, <- Hfill.
  destruct (Z.ltb_spec 0 n) as [Hn0|Hn0].
  - cbn [k_inodes k_files set_k_mem]. rewrite u32_small by lia.
    rewrite (read_data_spec flash p tables Hbyte tables _ fs) by (done || lia). done.
  - replace (Z.to_nat n) with 0%nat by lia. done.
Qed.

(** ** Properties *)

(** C27: the handler of TLB misses.  A valid page of the directories is loaded in the
    TLB and nothing else changes.  A page that is not there but belongs to an
    anonymous area gets a page that was free, which becomes the translation of
    this page and of no other, in the directories and in the TLB; the other
    processes are not touched.  Any other address stops the kernel. *)
Theorem tlbmiss_demand_paging keep k L H F vpn stale :
  let cur := proc_current k in let dirs := dir_list (k_procs k cur) in
  fault_ready k L H F → 0 ≤ vpn < 2 ^ 22 →
  (∀ n, translate dirs (vpn * 1024) = Some n →
     ∃ m, tlbmiss_handler flash tables p keep 0 vpn stale k = Some (Resumed (set_k_mmu m k) None) ∧ hw_translate m vpn = Some n) ∧
  (translate dirs (vpn * 1024) = None → ∀ area, area ∈ mem_areas (k_procs k cur) → area_begin k area ≤ vpn * 1024 < area_end k area →
     ma_ops (k_areas k area) = aop_anon →
     ∃ x k' L' F', tlbmiss_handler flash tables p keep 0 vpn stale k = Some (Resumed k' None) ∧
       x ∈ F ∧ km_inv (k_mem k') L' (x :: H) F' ∧ dirs_wf (dir_list (k_procs k' cur)) ∧
       (∀ a, translate (dir_list (k_procs k' cur)) a = if decide (vpn = a / 1024) then Some (PM_PHYSICAL_PAGE x) else translate dirs a) ∧
       hw_translate (k_mmu k') vpn = Some (PM_PHYSICAL_PAGE x) ∧
       (∀ q, q ≠ cur → k_procs k' q = k_procs k q) ∧ preempt_level k' = preempt_level k) ∧
  (translate dirs (vpn * 1024) = None → (∀ area, area ∈ mem_areas (k_procs k cur) → ¬ area_begin k area ≤ vpn * 1024 < area_end k area) →
     ∃ k', tlbmiss_handler flash tables p keep 0 vpn stale k = Some (Oops k')).
Proof.
  cbv zeta. intros Hr Hv. split_and!.
  - intros n. unfold tlbmiss_handler. cbn [Z.eqb negb]. rewrite vpn_address by done. unfold translate.
    destruct (mem_find_page _ _) as [pg|] eqn:Hpg; [|done]. cbn [mbind option_bind page_missing].
    destruct (pflags pg &? MEM_PAGE_VALID) eqn:Hval; [|done]. intros [= <-]. cbn [negb mbind option_bind].
    destruct (fr_private _ _ _ _ Hr pg _ Hpg Hval) as [Hpr Hn]. unfold tlb_flags. rewrite Hpr, Hval. cbn zeta.
    destruct (pflags pg &? MEM_PAGE_CACHED); cbn [flag_set Z.land]; eexists; (split; [reflexivity|by apply fillload_translate]).
  - intros Htr area Hin Hrange Hop. apply (tlbmiss_new_page keep k L H F area vpn stale None); try done.
    apply anon_gives; try done; [apply Hr|pose proof (fr_free _ _ _ _ Hr); destruct F; cbn in *; [lia|done]|].
    pose proof (fr_areas _ _ _ _ Hr) as Ha. rewrite Forall_forall in Ha. by apply (Ha area).
  - intros Htr Hno. unfold tlbmiss_handler. cbn [Z.eqb negb]. rewrite vpn_address by done. rewrite (proj2 (missing_translate _ _)) by done.
    unfold major_fault. cbn zeta.
    replace (PM_PHYSICAL_ADDR vpn) with (vpn * 1024) by (symmetry; by apply vpn_address).
    change (mem_area_find (sched_preempt_block k) (proc_current k) (vpn * 1024)) with (mem_area_find k (proc_current k) (vpn * 1024)).
    destruct (mem_area_find_correct k (proc_current k) (vpn * 1024) (fr_areas _ _ _ _ Hr) (fr_disjoint _ _ _ _ Hr)) as [[_ Hnone] _].
    rewrite (Hnone Hno). cbn [Z.eqb negb mbind option_bind]. apply missing_translate in Htr.
    destruct (mem_find_page _ _) as [pg|]; [|by eexists]. cbn [page_missing] in Htr. apply negb_true_iff in Htr.
    unfold tlb_flags. rewrite Htr. destruct (pflags pg &? MEM_PAGE_PRIVATE); by eexists.
Qed.

(** A page of a mapped file, used for the first time, holds the bytes of the file
    from the offset of the page up to the size mapped from the file, then zeros,
    and is the only page whose translation changes. *)
Theorem tlbmiss_file_page keep k L H F area vpn stale fs :
  let cur := proc_current k in let dirs := dir_list (k_procs k cur) in let ar := k_areas k area in
  (∀ a, 0 ≤ flash a < 256) → fault_ready k L H F → 0 ≤ vpn < 2 ^ 22 → translate dirs (vpn * 1024) = None →
  area ∈ mem_areas (k_procs k cur) → area_begin k area ≤ vpn * 1024 < area_end k area → area_end k area < 2 ^ 32 - 1024 →
  ma_ops ar = aop_smemfs → (ma_flags ar &? MEM_AREA_TYPE_FILE) = true → (ma_flags ar &? MEM_AREA_PARTIAL) = true →
  length stale = 1024%nat →
  file_at flash p tables (i_abstract (k_inodes k (f_inode (k_files k (ma_filep ar))))) fs → (length fs + 2 ≤ tables)%nat →
  0 ≤ ma_infile ar < 2 ^ 32 → 0 ≤ ma_base ar → ma_base ar + ma_infile ar ≤ Z.of_nat (length (concat fs)) →
  ∃ x k', tlbmiss_handler flash tables p keep 0 vpn stale k = Some (Resumed k' (Some (file_page (concat fs) ar (vpn * 1024 - ma_address ar)))) ∧
    x ∈ F ∧ hw_translate (k_mmu k') vpn = Some (PM_PHYSICAL_PAGE x) ∧
    (∀ a, translate (dir_list (k_procs k' cur)) a = if decide (vpn = a / 1024) then Some (PM_PHYSICAL_PAGE x) else translate dirs a).
Proof.
  cbv zeta. intros Hbyte Hr Hv Htr Hin Hrange Hend Hop Hfl Hpa Hst Hfile Hfuel Hi Hb Hlen.
  destruct (tlbmiss_new_page keep k L H F area vpn stale (Some (file_page (concat fs) (k_areas k area) (vpn * 1024 - ma_address (k_areas k area)))))
    as (x & k' & L' & F' & Hh & HxF & _ & _ & Htr' & Hhw & _); try done; [|by exists x, k'].
  assert (Ha : area_ok k area) by (pose proof (fr_areas _ _ _ _ Hr) as Ha; rewrite Forall_forall in Ha; by apply (Ha area)).
  apply (smemfs_gives (sched_preempt_block k) L H F area (vpn * 1024) stale fs); try done; [apply Hr|].
  pose proof (fr_free _ _ _ _ Hr). destruct F; cbn in *; [lia|done].
Qed.
End handler.

(** ** Witnesses *)

(** Process 48 with an anonymous area and a mapping of the file of the image: the 5
    bytes from offset 1, in an area of two pages. *)
Definition demo_fault : kernel (kmem pmem) :=
  upd_area 96 (λ _, mk_area 58 0x10000000 4096 aop_anon 0 0 0)
    (upd_area 128 (λ _, mk_area 73 0x20000000 2048 aop_smemfs 32 1 5)
      (upd_inode 64 (set_i_abstract 4128) (upd_file 32 (λ _, mk_file 0 O_RDONLY 64 fop_smemfs 1 0)
        (upd_proc 48 (set_mem_areas [96; 128]) (set_proc_current 48 (zero_kernel (kmem_init demo_pmem3))))))).

Lemma demo_fault_ready : fault_ready demo_fault [] [] [0x88000000; 0x88000400; 0x88000800].
Proof.
  split.
  - apply kmem_init_inv, demo_pmem3_rep.
  - cbn. lia.
  - exact I.
  - change (Forall (area_ok demo_fault) [96; 128]). repeat constructor; try done; vm_compute; congruence.
  - change (areas_disjoint demo_fault [96; 128]). split; [|by split; [intros b Hb; by apply elem_of_nil in Hb|]].
    intros b ->%list_elem_of_singleton x [H1 H2].
    change (0x10000000 ≤ x < 0x10001000) in H1. change (0x20000000 ≤ x < 0x20000800) in H2. lia.
  - cbn. lia.
  - intros page a. change (dir_list (k_procs demo_fault (proc_current demo_fault))) with (@nil page_dir). done.
Qed.

Lemma tlbmiss_demand_paging_witness :
  (∃ x k', tlbmiss_handler image_flash 10 image_prim (λ _, true) 0 0x40001 [] demo_fault = Some (Resumed k' None) ∧
     hw_translate (k_mmu k') 0x40001 = Some (PM_PHYSICAL_PAGE x)) ∧
  (∃ k', tlbmiss_handler image_flash 10 image_prim (λ _, true) 0 0x40004 [] demo_fault = Some (Oops k')).
Proof.
  split.
  - destruct (tlbmiss_demand_paging image_flash 10 image_prim (λ _, true) demo_fault _ _ _ 0x40001 [] demo_fault_ready ltac:(lia)) as (_ & H & _).
    destruct (H eq_refl 96) as (x & k' & _ & _ & Hh & _ & _ & _ & _ & Ht & _);
      [change (96 ∈ [96; 128]); apply list_elem_of_here|vm_compute; split; congruence|reflexivity|]. by exists x, k'.
  - destruct (tlbmiss_demand_paging image_flash 10 image_prim (λ _, true) demo_fault _ _ _ 0x40004 [] demo_fault_ready ltac:(lia)) as (_ & _ & H).
    apply (H eq_refl). intros area Hin. change (area ∈ [96; 128]) in Hin.
    apply elem_of_cons in Hin as [->|[->|Hin]%elem_of_cons]; [| |by apply elem_of_nil in Hin]; vm_compute; intros [H1 H2]; congruence.
Defined.

Lemma tlbmiss_file_page_witness :
  ∃ x k', tlbmiss_handler image_flash 10 image_prim (λ _, true) 0 0x80000 (replicate 1024 7) demo_fault =
    Some (Resumed k' (Some ([20; 30; 40; 50; 60] ++ replicate 1019 0))) ∧ hw_translate (k_mmu k') 0x80000 = Some (PM_PHYSICAL_PAGE x).
Proof.
  destruct (tlbmiss_file_page image_flash 10 image_prim (λ _, true) demo_fault _ _ _ 128 0x80000 (replicate 1024 7)
    [[10; 20; 30]; [40; 50; 60; 70]] image_byte demo_fault_ready ltac:(lia)) as (x & k' & Hh & _ & Ht & _);
    [reflexivity|change (128 ∈ [96; 128]); apply list_elem_of_further, list_elem_of_here|vm_compute; split; congruence|vm_compute; reflexivity
    |reflexivity..|exact image_file|cbn; lia|vm_compute; split; congruence|vm_compute; congruence|vm_compute; congruence|].
  exists x, k'. split; [|exact Ht]. rewrite Hh. do 3 f_equal.
Defined.
