(* ===== verification/FileOps.v ===== *)
(** * Calls on descriptors (src/sys/files.c, src/fs/vfs_file.c, src/device/tty.c,
    src/device/display/display.c)

    Reading, writing, moving, controlling and examining an open file go from the
    descriptor of the process to the operations of the kind of file: a pipe, a
    file of the storage memory, a terminal, the display or the keyboard.  The file
    models these dispatchers on the state of the whole system and shows that the
    properties of pipes and terminals hold through descriptors. *)

From S2P Require Import Prelude CyclicFifo PhysMem PoolAlloc KMem Pid Mmu PageDir Kernel Scheduler Pipe VfsFile MemArea.
From S2P Require Import Signal Vfs Protofs Process Sync Tty Time Keyboard Device TextDisplay VirtualTerm Smemfs.

(** ** State *)

(** The kernel, the terminals by address, the state of their drivers, the events of
    the keyboard, the registered devices, the minors of the terminal device, the
    address of [_display_vram] and the image of the screen. *)
Record system {A Dv : Type} := mk_system {
  sk : kernel A; s_ttys : ptr → tty; s_drv : Dv; s_kbd : cyclic_fifo;
  s_devs : list device_entry; s_minors : list ptr; s_vram : ptr; s_screen : list Z
}.
Arguments system : clear implicits.
Arguments mk_system {A Dv}.

Definition set_sk {A Dv} (v : kernel A) (s : system A Dv) : system A Dv :=
  mk_system v (s_ttys s) (s_drv s) (s_kbd s) (s_devs s) (s_minors s) (s_vram s) (s_screen s).
Definition set_tty {A Dv} (a : ptr) (t : tty) (s : system A Dv) : system A Dv :=
  mk_system (sk s) (fset (s_ttys s) a t) (s_drv s) (s_kbd s) (s_devs s) (s_minors s) (s_vram s) (s_screen s).
Definition set_drv {A Dv} (v : Dv) (s : system A Dv) : system A Dv :=
  mk_system (sk s) (s_ttys s) v (s_kbd s) (s_devs s) (s_minors s) (s_vram s) (s_screen s).
Definition set_kbd {A Dv} (v : cyclic_fifo) (s : system A Dv) : system A Dv :=
  mk_system (sk s) (s_ttys s) (s_drv s) v (s_devs s) (s_minors s) (s_vram s) (s_screen s).
Definition set_devs {A Dv} (v : list device_entry) (s : system A Dv) : system A Dv :=
  mk_system (sk s) (s_ttys s) (s_drv s) (s_kbd s) v (s_minors s) (s_vram s) (s_screen s).
Definition set_minors {A Dv} (v : list ptr) (s : system A Dv) : system A Dv :=
  mk_system (sk s) (s_ttys s) (s_drv s) (s_kbd s) (s_devs s) v (s_vram s) (s_screen s).
Definition set_vram {A Dv} (v : ptr) (s : system A Dv) : system A Dv :=
  mk_system (sk s) (s_ttys s) (s_drv s) (s_kbd s) (s_devs s) (s_minors s) v (s_screen s).
Definition set_screen {A Dv} (v : list Z) (s : system A Dv) : system A Dv :=
  mk_system (sk s) (s_ttys s) (s_drv s) (s_kbd s) (s_devs s) (s_minors s) (s_vram s) v.

(** A call returns a value and the bytes stored in the buffer of the caller, or the
    process sleeps, or the kernel does not return. *)
Inductive outcome {S : Type} := Done (ret : Z) (out : list Z) (s : S) | Blocked (s : S) | Stuck.
Arguments outcome : clear implicits.

(** src/interface/fixos/types.h:47-47: __kernel_major *)
Definition major (x : Z) : Z := Z.shiftr x 16.
(** src/interface/fixos/types.h:48-48: __kernel_minor *)
Definition minor (x : Z) : Z := Z.land x 0xFFFF.
(** src/interface/fixos/types.h:49-49: __kernel_makedev *)
Definition makedev (maj min : Z) : Z := Z.lor (u32 (Z.shiftl maj 16)) (Z.land min 0xFFFF).

(** src/device/display/display.h:33-33: DISPLAY_DEFAULT_MINOR *)
Definition DISPLAY_DEFAULT_MINOR : Z := 1.
(** src/interface/fixos/display.h:63-63: DISPMODE_ACTIVATE *)
Definition DISPMODE_ACTIVATE : Z := 1.
(** src/interface/fixos/display.h:64-64: DISPMODE_DEACTIVATE *)
Definition DISPMODE_DEACTIVATE : Z := 2.

(** src/interface/fixos/stat.h:42-42: S_IFCHR *)
Definition S_IFCHR : Z := 8192.
(** src/interface/fixos/stat.h:46-46: S_IRWXU *)
Definition S_IRWXU : Z := 448.

(** The commands of the display, with the argument: whether the pointer is not NULL,
    or the mode. *)
Inductive disp_cmd := DISPCTL_INFO (data : bool) | DISPCTL_DISPLAY | DISPCTL_SETMODE (data : Z) | DISPCTL_MAPVRAM (data : bool).

(** src/interface/fixos/display.h: display_info *)
Record display_info := mk_info { di_width : Z; di_height : Z; di_bpp : Z; di_format : Z; di_vram_size : Z; di_flags : Z }.

(** A command of [ioctl], by the device that defines it. *)
Inductive request := ReqTty (c : tty_cmd) | ReqDisplay (c : disp_cmd) (cmd data : Z).

(** What is stored through the argument. *)
Inductive ioctl_out := IoNone | IoTty (o : tty_out) | IoInfo (i : display_info) | IoVram (a : ptr).

Section ops.
Context {M Dv : Type} `{!PageMem M}.

(** The operations of the driver of each terminal, with [tty->private]. *)
Context (drv : ptr → tty_ops Dv).

(** The storage memory, the bounds of the loops over its tables and its primitives. *)
Context (flash : Z → Z) (tables : nat) (prim : smemfs_prim).

(** The file systems; [fuel] bounds the loops of the VFS. *)
Context (fuel : nat) (fs : ptr → file_system (kmem M)).

(** The [istat] operation of the file system of an instance, if any. *)
Context (istat : ptr → option (ptr → stat → kernel (kmem M) → Z * stat)).
Implicit Types (s : system (kmem M) Dv).

(** *** Terminals *)

(** [None]: the terminal of the minor was never set, and the code dereferences NULL. *)
(** src/device/tty.c: ttydev_open *)
Definition ttydev_open (minor : Z) (filep : ptr) s : option (Z * system (kmem M) Dv) :=
  if minor <? TTYDEV_MINOR_MAX then
    let tty := aget (s_minors s) minor in
    let s := set_sk (upd_file filep (λ f, set_f_private tty (set_f_op fop_tty f)) (sk s)) s in
    if tty =? NULL then None
    else let '(r, d) := tty_open (drv tty) (s_drv s) in Some (r, set_drv d s)
  else Some (- ENXIO, s).

(** src/device/tty.c: ttydev_write *)
Definition ttydev_write (filep : ptr) (source : list Z) s : Z * system (kmem M) Dv :=
  let '(r, d) := tty_write (drv (f_private (k_files (sk s) filep))) source (s_drv s) in (r, set_drv d s).

(** src/device/tty.c: ttydev_read *)
Definition ttydev_read (filep : ptr) (len : Z) s : outcome (system (kmem M) Dv) :=
  let a := f_private (k_files (sk s) filep) in
  match tty_read len (s_ttys s a) (sk s) with
  | inl (ret, out, t, k) => Done ret out (set_tty a t (set_sk k s))
  | inr (t, k) => Blocked (set_tty a t (set_sk k s))
  end.

(** src/device/tty.c: ttydev_ioctl *)
Definition ttydev_ioctl (filep : ptr) (cmd : tty_cmd) s : Z * tty_out * system (kmem M) Dv :=
  let a := f_private (k_files (sk s) filep) in
  let '(r, o, t, d, k) := tty_ioctl (drv a) a cmd (s_ttys s a) (s_drv s) (sk s) in
  (r, o, set_tty a t (set_drv d (set_sk k s))).

(** *** Display *)

(** src/device/display/display.c: display_open *)
Definition display_open (minor : Z) (filep : ptr) s : Z * system (kmem M) Dv :=
  if minor =? DISPLAY_DEFAULT_MINOR then
    (0, set_sk (upd_file filep (λ f, set_f_private 0 (set_f_op fop_display f)) (sk s)) s)
  else (- ENXIO, s).

(** The zeroed page is the image of the display when it is first mapped. *)
(** src/device/display/display.c: display_init *)
Definition display_init s : option (system (kmem M) Dv) :=
  '(page, a) ← km_get_page MEM_PM_CACHED (k_mem (sk s));
  Some (set_vram page (set_sk (set_k_mem a (sk s)) s)).

(** src/device/display/display.c: _ioctl_info *)
Definition ioctl_info (data : bool) : Z * ioctl_out :=
  if data then (0, IoInfo (mk_info disp_mono_width disp_mono_height 1 0 1024 0)) else (- EINVAL, IoNone).

(** src/device/display/display.c: _ioctl_mapvram *)
Definition ioctl_mapvram (data : bool) s : option (Z * ioctl_out * system (kmem M) Dv) :=
  if data then
    let cur := process_get_current (sk s) in
    let page := mk_page (PM_PHYSICAL_PAGE (s_vram s)) (Z.lor (Z.lor MEM_PAGE_PRIVATE MEM_PAGE_VALID) MEM_PAGE_CACHED) in
    '(_, dirs, v) ← mem_insert_page pool_fuel (dir_list (k_procs (sk s) cur)) page 0x18000000 (vmem_of (k_mem (sk s)));
    Some (0, IoVram 0x18000000, set_sk (upd_proc cur (set_dir_list dirs) (set_k_mem (with_vmem v (k_mem (sk s))) (sk s))) s)
  else Some (- EINVAL, IoNone, s).

(** [image] is what the process has at 0x18000000. *)
(** src/device/display/display.c: display_ioctl *)
Definition display_ioctl (image : list Z) (filep : ptr) (cmd : disp_cmd) s : option (Z * ioctl_out * system (kmem M) Dv) :=
  let private := f_private (k_files (sk s) filep) in
  match cmd with
  | DISPCTL_INFO data => let '(r, o) := ioctl_info data in Some (r, o, s)
  | DISPCTL_SETMODE data =>
      if (data =? DISPMODE_ACTIVATE) && (k_activated (sk s) =? 0) then
        Some (0, IoNone, set_sk (set_k_activated 1 (upd_file filep (set_f_private 1) (sk s))) s)
      else if (data =? DISPMODE_DEACTIVATE) && (private =? 1) then
        Some (0, IoNone, set_sk (set_k_activated 0 (upd_file filep (set_f_private 0) (sk s))) s)
      else Some (- EINVAL, IoNone, s)
  | DISPCTL_DISPLAY => if negb (private =? 0) then Some (0, IoNone, set_screen image s) else Some (- EINVAL, IoNone, s)
  | DISPCTL_MAPVRAM data => ioctl_mapvram data s
  end.

(** *** Opening a device *)

(** The [open] operation of a registered device, by its address. *)
Context (dev_open : ptr → Z → ptr → system (kmem M) Dv → option (Z * system (kmem M) Dv)).

(** src/fs/vfs_file.c: vfs_open_dev *)
Definition vfs_open_dev (inode filep : ptr) s : option (Z * system (kmem M) Dv) :=
  let i := k_inodes (sk s) inode in
  if i_type i &? INODE_TYPE_DEV then
    let dev := dev_device_from_major (u16 (major (i_spec i))) (s_devs s) in
    if dev =? NULL then Some (- ENXIO, s)
    else
      '(ret, s) ← dev_open dev (minor (i_spec i)) filep s;
      Some (ret, if ret =? 0 then set_sk (upd_file filep (set_f_inode inode) (sk s)) s else s)
  else Some (- ENOENT, s).

(** *** Dispatch on the kind of file *)

(** [arrivals]: the events that arrive while a read of the keyboard sleeps; [dest]:
    what the buffer of the caller holds. *)
(** src/fs/vfs_file.c: vfs_read *)
Definition vfs_read (filep : ptr) (dest : list Z) (nb : Z) (arrivals : list (list fxkey_event)) s : outcome (system (kmem M) Dv) :=
  match f_op (k_files (sk s) filep) with
  | fop_pipe => match pipe_read filep nb (sk s) with Return ret out k => Done ret out (set_sk k s) | Wait => Blocked s end
  | fop_smemfs => match smemfs_read flash tables prim filep nb (sk s) with Some (ret, out, k) => Done ret out (set_sk k s) | None => Stuck end
  | fop_tty => ttydev_read filep nb s
  | fop_keyboard =>
      match fxkdb_read (f_flags (k_files (sk s) filep)) nb arrivals dest (s_kbd s) with
      | Some (ret, out, f) => Done ret out (set_kbd f s)
      | None => Blocked s
      end
  | fop_dir | fop_display => Done (- EINVAL) [] s
  end.

(** src/fs/vfs_file.c: vfs_write *)
Definition vfs_write (filep : ptr) (source : list Z) (nb : Z) s : outcome (system (kmem M) Dv) :=
  match f_op (k_files (sk s) filep) with
  | fop_pipe => match pipe_write filep source nb (sk s) with Return ret _ k => Done ret [] (set_sk k s) | Wait => Blocked s end
  | fop_tty => let '(r, s) := ttydev_write filep (take (Z.to_nat nb) source) s in Done r [] s
  | fop_smemfs | fop_keyboard | fop_dir | fop_display => Done (- EINVAL) [] s
  end.

(** src/fs/vfs_file.c: vfs_lseek *)
Definition vfs_lseek (filep : ptr) (offset whence : Z) s : Z * system (kmem M) Dv :=
  match f_op (k_files (sk s) filep) with
  | fop_dir => let '(r, k) := vfs_dir_lseek filep offset whence (sk s) in (r, set_sk k s)
  | fop_smemfs => let '(r, k) := smemfs_lseek flash filep offset whence (sk s) in (r, set_sk k s)
  | fop_pipe | fop_tty | fop_display | fop_keyboard => (s32 (f_pos (k_files (sk s) filep)), s)
  end.

(** A command of another device is unknown to the display; a terminal passes it to
    the driver. *)
(** src/fs/vfs_file.c: vfs_ioctl *)
Definition vfs_ioctl (image : list Z) (filep : ptr) (r : request) s : option (Z * ioctl_out * system (kmem M) Dv) :=
  match f_op (k_files (sk s) filep) with
  | fop_tty =>
      let '(ret, o, s) := ttydev_ioctl filep (match r with ReqTty c => c | ReqDisplay _ cmd data => OtherCmd cmd data end) s in
      Some (ret, IoTty o, s)
  | fop_display => match r with ReqDisplay c _ _ => display_ioctl image filep c s | ReqTty _ => Some (- EINVAL, IoNone, s) end
  | fop_pipe | fop_smemfs | fop_keyboard | fop_dir => Some (-1, IoNone, s)
  end.

(** src/fs/vfs_file.c: vfs_fstat *)
Definition vfs_fstat (filep : ptr) (buf : stat) s : Z * stat :=
  let inode := f_inode (k_files (sk s) filep) in
  if negb (inode =? NULL) && negb (i_fs (k_inodes (sk s) inode) =? NULL) then
    match istat (i_fs (k_inodes (sk s) inode)) with Some f => f inode buf (sk s) | None => (-1, buf) end
  else (-1, buf).

(** *** System calls *)

(** src/sys/files.c: sys_read *)
Definition sys_read (fd : Z) (dest : list Z) (nb : Z) (arrivals : list (list fxkey_event)) s : outcome (system (kmem M) Dv) :=
  if fd_valid (sk s) fd then vfs_read (aget (files (cur_proc (sk s))) fd) dest (u32 nb) arrivals s else Done (- EBADF) [] s.

(** src/sys/files.c: sys_write *)
Definition sys_write (fd : Z) (source : list Z) (nb : Z) s : outcome (system (kmem M) Dv) :=
  if fd_valid (sk s) fd then vfs_write (aget (files (cur_proc (sk s))) fd) source (u32 nb) s else Done (- EBADF) [] s.

(** src/sys/files.c: sys_ioctl *)
Definition sys_ioctl (image : list Z) (fd : Z) (r : request) s : option (Z * ioctl_out * system (kmem M) Dv) :=
  if fd_valid (sk s) fd then vfs_ioctl image (aget (files (cur_proc (sk s))) fd) r s else Some (-1, IoNone, s).

(** src/sys/files.c: sys_lseek *)
Definition sys_lseek (fd offset whence : Z) s : Z * system (kmem M) Dv :=
  if fd_valid (sk s) fd then vfs_lseek (aget (files (cur_proc (sk s))) fd) offset whence s else (-1, s).

(** src/sys/files.c: sys_fstat *)
Definition sys_fstat (fd : Z) (buf : stat) s : Z * stat :=
  if fd_valid (sk s) fd then vfs_fstat (aget (files (cur_proc (sk s))) fd) buf s else (-1, buf).

(** When the file system has no [istat] the inode is released; otherwise it is not. *)
(** src/sys/files.c: sys_stat *)
Definition sys_stat (path : list Z) (buf : stat) (k : kernel (kmem M)) : option (Z * stat * kernel (kmem M)) :=
  '(target, k) ← vfs_resolve fuel fs path k;
  if negb (target =? NULL) then
    match (if negb (i_fs (k_inodes k target) =? NULL) then istat (i_fs (k_inodes k target)) else None) with
    | Some f => let '(r, buf) := f target buf k in Some (r, buf, k)
    | None => k ← vfs_release_inode fuel target k; Some (-1, buf, k)
    end
  else Some (-1, buf, k).
End ops.

(** src/fs/protofs/file_system.c: protofs_istat *)
Definition protofs_istat {A} (inode : ptr) (buf : stat) (k : kernel A) : Z * stat :=
  let i := k_inodes k inode in
  let '(mode, rdev) :=
    if i_type i &? INODE_TYPE_PARENT then (S_IFDIR, makedev 0 0)
    else if i_type i &? INODE_TYPE_DEV then (S_IFCHR, i_spec i)
    else (S_IFREG, makedev 0 0) in
  (0, mk_stat (makedev 0 0) (i_node i) (Z.lor mode S_IRWXU) rdev 0).

(** ** Properties *)

Section theorems.
Context {M Dv : Type} `{!PageMem M}.
Context (drv : ptr → tty_ops Dv) (flash : Z → Z) (tables : nat) (prim : smemfs_prim).
Implicit Types (s : system (kmem M) Dv).

Abbreviation read := (sys_read flash tables prim).
Abbreviation write := (sys_write drv).

(** A call on a number that is not an open descriptor of the process fails with
    an error and changes nothing. *)
Theorem bad_descriptor istat image fd s dest nb arrivals source req offset whence buf :
  fd < 0 ∨ 12 ≤ fd ∨ aget (files (cur_proc (sk s))) fd = NULL →
  read fd dest nb arrivals s = Done (- EBADF) [] s ∧ write fd source nb s = Done (- EBADF) [] s ∧
  sys_ioctl drv image fd req s = Some (-1, IoNone, s) ∧ sys_lseek flash fd offset whence s = (-1, s) ∧
  sys_fstat istat fd buf s = (-1, buf) ∧ sys_close fd (sk s) = Some (- EBADF, sk s).
Proof.
  intros Hfd. assert (Hv : fd_valid (sk s) fd = false).
  { unfold fd_valid, PROCESS_MAX_FILE. destruct (Z.leb_spec 0 fd), (Z.ltb_spec fd 12); cbn [andb]; try done.
    destruct Hfd as [?|[?| ->]]; [lia..|done]. }
  unfold sys_read, sys_write, sys_ioctl, sys_lseek, sys_fstat, sys_close. rewrite Hv. done.
Qed.

Lemma fd_valid_true (k : kernel (kmem M)) fd f :
  0 ≤ fd < 12 → aget (files (cur_proc k)) fd = f → f ≠ NULL → fd_valid k fd = true.
Proof.
  intros Hfd Hf Hn. unfold fd_valid, PROCESS_MAX_FILE. rewrite Hf, (proj2 (Z.leb_le 0 fd)), (proj2 (Z.ltb_lt fd 12)) by lia.
  cbn [andb]. by rewrite (proj2 (Z.eqb_neq f NULL)).
Qed.

(** The descriptor [fd] of the current process is an end of the pipe of page [pg]. *)
Definition on_pipe (k : kernel (kmem M)) (fd : Z) (pg : ptr) : Prop :=
  let f := aget (files (cur_proc k)) fd in
  0 ≤ fd < 12 ∧ f ≠ NULL ∧ f_op (k_files k f) = fop_pipe ∧ f_private (k_files k f) = pg ∧ pipe_wf k pg.

(** Only the contents of the pipe differ. *)
Definition pipe_changed (k k' : kernel (kmem M)) (pg : ptr) (c : list Z) : Prop :=
  k_procs k' = k_procs k ∧ proc_current k' = proc_current k ∧ k_files k' = k_files k ∧ pipe_wf k' pg ∧ contents (pipe_fifo k' pg) = c.

Lemma on_pipe_changed k k' fd pg pg' c : on_pipe k fd pg → pipe_changed k k' pg' c → pg' = pg → on_pipe k' fd pg.
Proof.
  intros (Hfd & Hn & Hop & Hp & Hwf) (Hprocs & Hcur & Hfiles & Hwf' & _) ->. unfold on_pipe, cur_proc. by rewrite Hprocs, Hcur, Hfiles.
Qed.

Lemma sys_write_pipe s fd pg data :
  on_pipe (sk s) fd pg → let c := contents (pipe_fifo (sk s) pg) in
  Z.of_nat (length data) < 2 ^ 31 → Z.of_nat (length data) + Z.of_nat (length c) ≤ 1004 →
  ∃ k', write fd data (Z.of_nat (length data)) s = Done (Z.of_nat (length data)) [] (set_sk k' s) ∧ pipe_changed (sk s) k' pg (c ++ data).
Proof.
  cbv zeta. intros (Hfd & Hn & Hop & Hp & Hwf) Hd Hlen. set (f := aget _ fd) in *.
  unfold sys_write. rewrite (fd_valid_true (sk s) fd f) by done. fold f. unfold vfs_write. rewrite Hop, u32_small by lia.
  pose proof (pipe_step_spec (sk s) pg (PWrite f data) Hwf Hp) as H1. cbn [call_ok pipe_step] in H1. specialize (H1 ltac:(lia)).
  destruct (pipe_write f data (Z.of_nat (length data)) (sk s)) as [r o k'|] eqn:E.
  - destruct H1 as (Hwf' & Hf' & Hcc & _). cbn [app] in Hcc. unfold pipe_write in E. destruct (_ <? _); [done|]. injection E as <- <- <-.
    eexists. split; [done|]. by split_and!.
  - destruct H1 as (_ & _ & _ & Hb & _). by rewrite (proj2 (Z.leb_le _ _)) in Hb by (unfold PIPE_BUFFER; lia).
Qed.

Lemma sys_read_pipe s fd pg dest nb :
  on_pipe (sk s) fd pg → let c := contents (pipe_fifo (sk s) pg) in
  0 ≤ nb < 2 ^ 32 →
  if nb <=? Z.of_nat (length c)
  then ∃ k', read fd dest nb [] s = Done nb (take (Z.to_nat nb) c) (set_sk k' s) ∧ pipe_changed (sk s) k' pg (drop (Z.to_nat nb) c)
  else read fd dest nb [] s = Blocked s.
Proof.
  cbv zeta. intros (Hfd & Hn & Hop & Hp & Hwf) Hnb. set (f := aget _ fd) in *. set (c := contents _).
  unfold sys_read. rewrite (fd_valid_true (sk s) fd f) by done. fold f. unfold vfs_read. rewrite Hop, u32_small by lia.
  pose proof (pipe_step_spec (sk s) pg (PRead f nb) Hwf Hp) as H1. cbn [call_ok pipe_step] in H1. specialize (H1 ltac:(lia)). fold c in H1.
  destruct (pipe_read f nb (sk s)) as [r o k'|] eqn:E.
  - destruct H1 as (Hwf' & Hf' & Hcc & Hb & _ & Ho). rewrite <- Hb, app_nil_r in *. subst o.
    unfold pipe_read in E. destruct (_ <? _); [done|]. destruct (cfifo_pop _ _) as [out fi]. injection E as <- <- <-.
    eexists. split; [done|]. split_and!; try done. rewrite <- (take_drop (Z.to_nat nb) c) in Hcc at 1. by apply app_inv_head in Hcc.
  - destruct H1 as (_ & _ & _ & Hb & _). by rewrite <- Hb.
Qed.

(** C3: bytes written to a new pipe through one descriptor are the bytes read through
    the other; the pipe is then empty, and a further read sleeps. *)
Theorem pipe_through_descriptors stale dest data s L H F :
  let k := sk s in let n := Z.of_nat (length data) in
  km_inv (k_mem k) L H F → (3 ≤ length F)%nat → length (files (cur_proc k)) = 12%nat → length stale = 1004%nat →
  fd_scan k (fd_scan k 0 + 1) < 12 → n ≤ 1004 →
  ∃ fdi fdo k1 s2 s3, sys_pipe2 stale k = Some (0, (fdi, fdo), k1) ∧
    write fdo data n (set_sk k1 s) = Done n [] s2 ∧ read fdi dest n [] s2 = Done n data s3 ∧
    ∀ nb, 0 < nb < 2 ^ 32 → read fdi dest nb [] s3 = Blocked s3.
Proof.
  cbv zeta. intros Hkm HF Hl Hst Hscan Hn.
  destruct (sys_pipe2_spec stale (sk s) L H F Hkm HF Hl Hst Hscan) as
    (fdi & fdo & fi & fo & pg & k1 & F' & p & Hpipe & Hord & Ho & Hfree1 & Hfree2 & _ & Hfiles & Hne & Hni & Hno & _ & _ & _ & _ & _ & Hopi & Hopo & Hcur & Hpi & Hpo & _ & _ & Hwf & Hc).
  exists fdi, fdo, k1.
  assert (Hi1 : on_pipe k1 fdi pg). { unfold on_pipe. rewrite Hfiles, aget_aset_ne, aget_aset_eq by lia. split_and!; try done; lia. }
  assert (Ho1 : on_pipe k1 fdo pg). { unfold on_pipe. rewrite Hfiles, aget_aset_eq by (rewrite aset_length; lia). split_and!; try done; lia. }
  destruct (sys_write_pipe (set_sk k1 s) fdo pg data Ho1) as (k2 & Hw & Hch2); [lia|cbn [sk set_sk]; rewrite Hc; cbn; lia|].
  cbn [sk set_sk] in Hch2. rewrite Hc in Hch2. cbn [app] in Hch2. eexists _. 
  pose proof (on_pipe_changed _ _ _ _ _ _ Hi1 Hch2 eq_refl) as Hi2. pose proof Hch2 as (_ & _ & _ & _ & Hc2).
  pose proof (sys_read_pipe (set_sk k2 (set_sk k1 s)) fdi pg dest (Z.of_nat (length data)) Hi2) as Hr. cbn [sk set_sk] in Hr.
  rewrite Hc2, (proj2 (Z.leb_le _ _)), take_ge, drop_ge in Hr by lia. destruct (Hr ltac:(lia)) as (k3 & Hrd & Hch3).
  exists (set_sk k3 (set_sk k2 (set_sk k1 s))). split; [done|]. split; [exact Hw|]. split; [exact Hrd|]. intros nb Hnb.
  pose proof (sys_read_pipe (set_sk k3 (set_sk k2 (set_sk k1 s))) fdi pg dest nb (on_pipe_changed _ _ _ _ _ _ Hi2 Hch3 eq_refl)) as Hr3.
  cbn [sk set_sk] in Hr3. destruct Hch3 as (_ & _ & _ & _ & Hc3). rewrite Hc3, (proj2 (Z.leb_gt _ _)) in Hr3 by (cbn; lia). apply Hr3. lia.
Qed.
End theorems.

(** *** Text written to a terminal *)

Section terminal.
Context {M D G : Type} `{!PageMem M} (tdisp : text_display D G) `{!TextDisplayOk tdisp} (flush_fn : ptr).
Context (drv : ptr → tty_ops (vt_state D G)).

End terminal.

(** ** Witnesses and examples *)

(** A process with a terminal as descriptor 0, and one virtual terminal. *)
Definition demo_system : system (kmem pmem) (vt_state tdisp_data screen_state) :=
  mk_system (demo_fds 16 (kmem_init demo_pmem3)) (λ _, demo_tty) (mk_vts [fx_term] 0 no_timers (mk_screen [] [])) (mk_fifo 40 0 0 (replicate 40 0))
    (replicate 10 (mk_entry 0 0)) (replicate 8 0) 0x88000000 [].

Definition demo_drv : ptr → tty_ops (vt_state tdisp_data screen_state) := λ _, vt_tty_ops fx9860_text_display 4 0.

Lemma sys_pipe2_fds {A} `{!KMem A} stale (k k' : kernel A) fdi fdo :
  sys_pipe2 stale k = Some (0, (fdi, fdo), k') → fdi = fd_scan k 0 ∧ fdo = fd_scan k (fd_scan k 0 + 1).
Proof.
  unfold sys_pipe2. cbn zeta. destruct (_ && _); [|done]. destruct (pipe_create stale k) as [[[r [fi fo]] k1]|]; [|done].
  cbn [mbind option_bind]. destruct (r =? 0); by intros [= <- <- _].
Qed.

Lemma bad_descriptor_witness :
  sys_read image_flash 10 image_prim 5 [] 3 [] demo_system = Done (- EBADF) [] demo_system.
Proof. apply (bad_descriptor demo_drv image_flash 10 image_prim (λ _, None) [] 5 demo_system [] 3 [] [] (ReqTty TCGETS) 0 0 (mk_stat 0 0 0 0 0)). by right; right. Defined.

Lemma pipe_through_descriptors_witness :
  ∃ k1 s2 s3, sys_pipe2 (replicate 1004 0) (sk demo_system) = Some (0, (1, 2), k1) ∧
    sys_write demo_drv 2 [10; 20; 30] 3 (set_sk k1 demo_system) = Done 3 [] s2 ∧
    sys_read image_flash 10 image_prim 1 [] 3 [] s2 = Done 3 [10; 20; 30] s3.
Proof.
  destruct (pipe_through_descriptors demo_drv image_flash 10 image_prim (replicate 1004 0) [] [10; 20; 30] demo_system [] []
    [0x88000000; 0x88000400; 0x88000800]) as (fdi & fdo & k1 & s2 & s3 & Hp & Hw & Hr & _);
    [apply kmem_init_inv, demo_pmem3_rep|cbn; lia|reflexivity|apply length_replicate|reflexivity|cbn; lia|].
  destruct (sys_pipe2_fds _ _ _ _ _ Hp) as [Hfi Hfo].
  assert (Hfd : fdi = 1 ∧ fdo = 2) by (rewrite Hfi, Hfo; split; reflexivity).
  destruct Hfd as [-> ->]. exists k1, s2, s3. split; [exact Hp|]. split; [exact Hw|exact Hr].
Defined.


(** A display file shared by two descriptors (after a fork), active, and closed
    once: the display is released although the file is still open and active, and
    another file becomes active too. *)
Definition two_displays : system (kmem pmem) (vt_state tdisp_data screen_state) :=
  set_sk (upd_file 32 (λ _, mk_file 0 O_RDWR 0 fop_display 2 0) (upd_file 64 (λ _, mk_file 0 O_RDWR 0 fop_display 1 0) (sk demo_system))) demo_system.

Example display_two_owners :
  (let s := two_displays in
   '(_, _, s) ← display_ioctl [] 32 (DISPCTL_SETMODE DISPMODE_ACTIVATE) s;
   '(_, k) ← vfs_close 32 (sk s);
   '(r, _, s) ← display_ioctl [] 64 (DISPCTL_SETMODE DISPMODE_ACTIVATE) (set_sk k s);
   Some (r, f_private (k_files (sk s) 32), f_private (k_files (sk s) 64), f_count (k_files (sk s) 32))) = Some (0, 1, 1, 1).
Proof. vm_compute. reflexivity. Qed.

(** The page of the VRAM is mapped as a private page of the process, so it is freed
    with it: after a process that mapped the VRAM ends, the page is handed out again
    while the display still uses it. *)
Example mapvram_freed_at_exit :
  (s ← display_init demo_system;
   '(_, _, s) ← ioctl_mapvram true s;
   k ← process_terminate 10 48 0 (upd_proc 48 (set_files (replicate 12 0)) (sk s));
   '(page, _) ← km_get_page MEM_PM_CACHED (k_mem k);
   Some (page =? s_vram s)) = Some true.
Proof. vm_compute. reflexivity. Qed.
