(* ===== verification/Elf.v ===== *)
(** * ELF loader (src/loader/elfloader/, src/sys/user.h)

    A program is loaded by mapping its segments: each program header of type LOAD
    becomes a memory area backed by the file, and the pages are read when they are
    first used.  The structures of the file are decoded from the bytes read, in the
    byte order of the target.  The theorem shows that loading a well-formed file
    gives the process exactly the areas of its segments. *)

From S2P Require Import Prelude CyclicFifo PhysMem PoolAlloc KMem Pid Mmu PageDir Kernel Scheduler Pipe VfsFile MemArea.
From S2P Require Import Signal Vfs Protofs Process Sync Tty Time Keyboard Device TextDisplay VirtualTerm Smemfs PageFault FileOps.

(** ** Structures of the file *)

(** Big-endian numbers in a buffer. *)
Definition be16 (b : list Z) (i : Z) : Z := aget b i * 256 + aget b (i + 1).
Definition be32 (b : list Z) (i : Z) : Z := be16 b i * 65536 + be16 b (i + 2).

(** src/loader/elfloader/elf.h: elf_header *)
Record elf_header := mk_elf_header {
  magic : list Z; elf_class : Z; endianness : Z; ident_version : Z; osabi : Z;
  eh_type : Z; machine : Z; eh_version : Z; entry : Z; phoff : Z; shoff : Z; ehsize : Z;
  phentsize : Z; phnum : Z; shentsize : Z; shnum : Z
}.

(** src/loader/elfloader/elf.h: elf_prog_header *)
Record elf_prog_header := mk_prog_header {
  ph_type : Z; ph_offset : Z; ph_vaddr : Z; ph_filesz : Z; ph_memsz : Z
}.

(** src/loader/elfloader/elf.h: elf_section_header *)
Record elf_section_header := mk_section_header { sh_type : Z; sh_offset : Z; sh_size : Z; sh_link : Z }.

(** src/loader/elfloader/elf.h: elf_symbol *)
Record elf_symbol := mk_symbol { sym_name : Z; sym_value : Z }.

(** The fields of the structures in the bytes read from the file. *)
(** src/loader/elfloader/elf.h:32-63: elf_header *)
Definition elf_header_of (b : list Z) : elf_header :=
  mk_elf_header (take 4 b) (aget b 4) (aget b 5) (aget b 6) (aget b 7) (be16 b 16) (be16 b 18) (be32 b 20) (be32 b 24)
    (be32 b 28) (be32 b 32) (be16 b 40) (be16 b 42) (be16 b 44) (be16 b 46) (be16 b 48).
(** src/loader/elfloader/elf.h:92-101: elf_prog_header *)
Definition elf_prog_header_of (b : list Z) : elf_prog_header :=
  mk_prog_header (be32 b 0) (be32 b 4) (be32 b 8) (be32 b 16) (be32 b 20).
(** src/loader/elfloader/elf.h:115-126: elf_section_header *)
Definition elf_section_header_of (b : list Z) : elf_section_header :=
  mk_section_header (be32 b 4) (be32 b 16) (be32 b 20) (be32 b 24).
(** src/loader/elfloader/elf.h:145-152: elf_symbol *)
Definition elf_symbol_of (b : list Z) : elf_symbol := mk_symbol (be32 b 0) (be32 b 4).

(** [sizeof] of the structures. *)
Definition EHDR_SIZE : Z := 52.
Definition PHDR_SIZE : Z := 32.
Definition SHDR_SIZE : Z := 40.
Definition SYM_SIZE : Z := 16.

(** src/loader/elfloader/elf.h:71-71: ELF_CLASS32 *)
Definition ELF_CLASS32 : Z := 1.
(** src/loader/elfloader/elf.h:73-73: ELF_ENDIAN_BIG *)
Definition ELF_ENDIAN_BIG : Z := 2.
(** src/loader/elfloader/elf.h:75-75: ELF_IDENT_VERS *)
Definition ELF_IDENT_VERS : Z := 1.
(** src/loader/elfloader/elf.h:77-77: ELF_OSABI_NONE *)
Definition ELF_OSABI_NONE : Z := 0.
(** src/loader/elfloader/elf.h:80-80: ELF_TYPE_EXEC *)
Definition ELF_TYPE_EXEC : Z := 2.
(** src/loader/elfloader/elf.h:83-83: ELF_MACHINE_SH *)
Definition ELF_MACHINE_SH : Z := 42.
(** src/loader/elfloader/elf.h:85-85: ELF_VERS *)
Definition ELF_VERS : Z := 1.
(** src/loader/elfloader/elf.h:104-104: ELFP_TYPE_LOAD *)
Definition ELFP_TYPE_LOAD : Z := 1.
(** src/loader/elfloader/elf.h:105-105: ELFP_TYPE_SHLIB *)
Definition ELFP_TYPE_SHLIB : Z := 5.
(** src/loader/elfloader/elf.h:132-132: ELFS_TYPE_SYMTAB *)
Definition ELFS_TYPE_SYMTAB : Z := 2.
(** src/loader/elfloader/loader.c:53-53: ELF_LOAD_SET_BRK *)
Definition ELF_LOAD_SET_BRK : Z := 1.

(** src/arch/sh/include/arch/process.h:33-33: ARCH_UNEWPROC_DEFAULT_SR *)
Definition ARCH_UNEWPROC_DEFAULT_SR : Z := 0.
(** src/arch/sh/include/arch/process.h:35-35: ARCH_UNEWPROC_DEFAULT_STACK *)
Definition ARCH_UNEWPROC_DEFAULT_STACK : Z := 0x40000000.
(** src/sys/process.h:60-60: PROCESS_DEFAULT_STACK_SIZE *)
Definition PROCESS_DEFAULT_STACK_SIZE : Z := 65536.

(** src/loader/elfloader/loader.c: check_elf_header *)
Definition check_elf_header (h : elf_header) : Z :=
  if bool_decide (magic h = [0x7F; 69; 76; 70]) then
    if (elf_class h =? ELF_CLASS32) && (endianness h =? ELF_ENDIAN_BIG) && (ident_version h =? ELF_IDENT_VERS) && (osabi h =? ELF_OSABI_NONE) then
      if (eh_type h =? ELF_TYPE_EXEC) && (machine h =? ELF_MACHINE_SH) && (eh_version h =? ELF_VERS)
         && (ehsize h =? EHDR_SIZE) && (phentsize h =? PHDR_SIZE)
      then 0 else -1
    else -1
  else -1.

Section ops.
Context {M Dv : Type} `{!PageMem M}.
Context (flash : Z → Z) (tables : nat) (prim : smemfs_prim) (fuel : nat) (fs : ptr → file_system (kmem M)).
Implicit Types (s : system (kmem M) Dv).

(** A read by the kernel; [None] when it does not return. *)
Definition file_read (filep : ptr) (nb : Z) s : option (Z * list Z * system (kmem M) Dv) :=
  match vfs_read flash tables prim filep [] nb [] s with Done r out s => Some (r, out, s) | Blocked _ | Stuck => None end.

(** [vfs_lseek(filep, pos, SEEK_SET)] and a read of a structure of [size] bytes at
    [buf]: whether it was complete, and the buffer. *)
Definition read_at (filep : ptr) (pos size : Z) (buf : list Z) s : option (bool * list Z * system (kmem M) Dv) :=
  let '(_, s) := vfs_lseek flash filep (s32 (u32 pos)) SEEK_SET s in
  '(r, out, s) ← file_read filep size s;
  Some (r =? size, memcpy_to buf 0 out, s).

(** src/loader/elfloader/elf_utils.c: elf_get_header *)
Definition elf_get_header (filep : ptr) (header : list Z) s : option (Z * list Z * system (kmem M) Dv) :=
  '(ok, header, s) ← read_at filep 0 EHDR_SIZE header s;
  Some (if ok : bool then 0 else -1, header, s).

(** src/loader/elfloader/elf_utils.c: elf_get_section *)
Definition elf_get_section (filep : ptr) (header : elf_header) (index : Z) (section : list Z) s : option (Z * list Z * system (kmem M) Dv) :=
  '(ok, section, s) ← read_at filep (shoff header + u16 index * SHDR_SIZE) SHDR_SIZE section s;
  Some (if ok : bool then 0 else -1, section, s).

(** The loop over the sections from [cursec]; [n] are left. *)
(** src/loader/elfloader/elf_utils.c:29-37: elf_get_symtab *)
Fixpoint find_symtab (n : nat) (filep : ptr) (header : elf_header) (cursec : Z) (symtab : list Z) s
  : option (Z * list Z * system (kmem M) Dv) :=
  match n with
  | O => Some (-1, symtab, s)
  | S n =>
      '(r, symtab, s) ← elf_get_section filep header cursec symtab s;
      if negb (r =? 0) then Some (-1, symtab, s)
      else if sh_type (elf_section_header_of symtab) =? ELFS_TYPE_SYMTAB then Some (0, symtab, s)
      else find_symtab n filep header (cursec + 1) symtab s
  end.

(** src/loader/elfloader/elf_utils.c: elf_get_symtab *)
Definition elf_get_symtab (filep : ptr) (header : elf_header) (symtab : list Z) s : option (Z * list Z * system (kmem M) Dv) :=
  find_symtab (Z.to_nat (shnum header)) filep header 0 symtab s.

(** The count is unsigned: an error of the read is a write far outside [dest]. *)
(** src/loader/elfloader/elf_utils.c: elf_get_string *)
Definition elf_get_string (filep : ptr) (strtab : elf_section_header) (index : Z) (dest : list Z) (max : Z) s
  : option (Z * list Z * system (kmem M) Dv) :=
  let '(_, s) := vfs_lseek flash filep (s32 (u32 (sh_offset strtab + index))) SEEK_SET s in
  '(r, out, s) ← file_read filep (max - 1) s;
  let read := u32 r in
  if read =? 0 then Some (-1, memcpy_to dest 0 out, s)
  else if max <=? read then None
  else Some (0, aset (memcpy_to dest 0 out) read 0, s).

(** src/loader/elfloader/elf_utils.c: elf_get_symbol *)
Definition elf_get_symbol (filep : ptr) (symtab : elf_section_header) (index : Z) (symbol : list Z) s
  : option (Z * list Z * system (kmem M) Dv) :=
  '(ok, symbol, s) ← read_at filep (sh_offset symtab + index * SYM_SIZE) SYM_SIZE symbol s;
  Some (if ok : bool then 0 else -1, symbol, s).

(** The loop over the symbols from [cursym]; [buf] is the array of the name, whose
    content is kept when a name cannot be read. *)
(** src/loader/elfloader/elf_utils.c:94-103: elf_symbol_lookup *)
Fixpoint find_symbol (n : nat) (filep : ptr) (symtab strtab : elf_section_header) (name : list Z) (cursym : Z) (symbol buf : list Z) s
  : option (Z * list Z * system (kmem M) Dv) :=
  match n with
  | O => Some (-1, symbol, s)
  | S n =>
      '(_, symbol, s) ← elf_get_symbol filep symtab cursym symbol s;
      if negb (sym_name (elf_symbol_of symbol) =? 0) then
        '(_, buf, s) ← elf_get_string filep strtab (sym_name (elf_symbol_of symbol)) buf 30 s;
        if bool_decide (c_str buf = name) then Some (0, symbol, s)
        else find_symbol n filep symtab strtab name (cursym + 1) symbol buf s
      else find_symbol n filep symtab strtab name (cursym + 1) symbol buf s
  end.

(** [stale] is what the arrays of the function hold. *)
(** src/loader/elfloader/elf_utils.c: elf_symbol_lookup *)
Definition elf_symbol_lookup (filep : ptr) (symtab : elf_section_header) (header : elf_header) (name symbol stale : list Z) s
  : option (Z * list Z * system (kmem M) Dv) :=
  '(_, strtab, s) ← elf_get_section filep header (sh_link symtab) (take 40 stale) s;
  find_symbol (Z.to_nat (sh_size symtab / SYM_SIZE)) filep symtab (elf_section_header_of strtab) name 0 symbol (take 30 stale) s.

(** src/loader/elfloader/loader.c: elfloader_load_segment *)
Definition elfloader_load_segment (filep : ptr) (offset : ptr) (ph : elf_prog_header) (dest : ptr) s
  : option (Z * system (kmem M) Dv) :=
  if ph_vaddr ph mod PM_PAGE_BYTES =? 0 then
    let prot := Z.lor (Z.lor MEM_AREA_PROT_R MEM_AREA_PROT_W) MEM_AREA_PROT_X in
    '(r, k) ← vfs_map_area filep (ph_memsz ph) (ph_offset ph) (u32 (offset + ph_vaddr ph)) (Z.lor MEM_AREA_PARTIAL prot) (ph_filesz ph) dest (sk s);
    Some (r, set_sk k s)
  else Some (-1, s).

(** *** Memory of a process *)

(** The physical address of a word of a private page, or NULL. *)
(** src/sys/user.h:32-42: user_read_32 *)
Definition user_word (addr : ptr) (proc : ptr) (k : kernel (kmem M)) : ptr :=
  match mem_find_page (dir_list (k_procs k proc)) addr with
  | Some page =>
      if (pflags page &? MEM_PAGE_PRIVATE) && (pflags page &? MEM_PAGE_VALID)
      then u32 (PM_PHYSICAL_ADDR (ppn page) + P1_SECTION_BASE + addr mod PM_PAGE_BYTES) else NULL
  | None => NULL
  end.

(** src/sys/user.h: user_read_32 *)
Definition user_read_32 (addr proc : ptr) (k : kernel (kmem M)) : Z :=
  let pmaddr := user_word addr proc k in if negb (pmaddr =? NULL) then pg_read (km_mem (k_mem k)) pmaddr else 0.

(** src/sys/user.h: user_write_32 *)
Definition user_write_32 (addr : ptr) (value : Z) (proc : ptr) (k : kernel (kmem M)) : kernel (kmem M) :=
  let pmaddr := user_word addr proc k in
  if negb (pmaddr =? NULL) then set_k_mem (mk_kmem (pg_write pmaddr value (km_mem (k_mem k))) (km_pools (k_mem k))) k else k.

(** The relocation of the words from [b] to [e]. *)
(** src/loader/elfloader/loader.c:267-272: elfloader_load_dynlib *)
Definition relocate (b e offset : ptr) (dest : ptr) (k : kernel (kmem M)) : kernel (kmem M) :=
  foldl (λ k i, user_write_32 (b + 4 * i) (u32 (user_read_32 (b + 4 * i) dest k + offset)) dest k) k (seqZ 0 ((e - b + 3) / 4)).

(** *** Loading a file and the libraries it names *)

(** The value of a symbol relative to [offset], or NULL when it is not found. *)
(** src/loader/elfloader/loader.c:249-262: elfloader_load_dynlib *)
Definition lookup_address (lib : ptr) (symtab : elf_section_header) (header : elf_header) (name : list Z) (offset : ptr) (stale : list Z) s
  : option (ptr * system (kmem M) Dv) :=
  '(r, sym, s) ← elf_symbol_lookup lib symtab header name (take 16 stale) stale s;
  Some (if r =? 0 then u32 (offset + sym_value (elf_symbol_of sym)) else NULL, s).

(** The loop over the program headers of [elfloader_load_all], with [cur_brk];
    [load_shlib] does the work for a header of type SHLIB. *)
(** src/loader/elfloader/loader.c:112-160: elfloader_load_all *)
Fixpoint load_headers (load_shlib : ptr → elf_prog_header → system (kmem M) Dv → option (system (kmem M) Dv))
  (n : nat) (filep offset dest : ptr) (header : elf_header) (curph cur_brk : Z) (pheader : list Z) s
  : option (Z * Z * system (kmem M) Dv) :=
  match n with
  | O => Some (0, cur_brk, s)
  | S n =>
      '(ok, pheader, s) ← read_at filep (phoff header + curph * PHDR_SIZE) PHDR_SIZE pheader s;
      if negb ok then Some (-1, cur_brk, s)
      else
        let ph := elf_prog_header_of pheader in
        if ph_type ph =? ELFP_TYPE_LOAD then
          '(r, s) ← elfloader_load_segment filep offset ph dest s;
          if r =? 0 then
            let e := u32 (ph_vaddr ph + ph_memsz ph) in
            load_headers load_shlib n filep offset dest header (curph + 1) (if cur_brk <? e then e else cur_brk) pheader s
          else Some (-1, cur_brk, s)
        else
          s ← (if ph_type ph =? ELFP_TYPE_SHLIB then load_shlib filep ph s else Some s);
          load_headers load_shlib n filep offset dest header (curph + 1) cur_brk pheader s
  end.

(** The result is the code, the header and the new state. *)
(** src/loader/elfloader/loader.c: elfloader_load_all *)
Definition load_all_with (load_shlib : ptr → elf_prog_header → system (kmem M) Dv → option (system (kmem M) Dv))
  (filep offset dest : ptr) (flags : Z) (stale : list Z) s : option (Z * elf_header * system (kmem M) Dv) :=
  '(r, h, s) ← elf_get_header filep (take 52 stale) s;
  let header := elf_header_of h in
  if r =? 0 then
    if negb (check_elf_header header =? 0) then Some (-1, header, s)
    else
      '(r, cur_brk, s) ← load_headers load_shlib (Z.to_nat (phnum header)) filep offset dest header 0 NULL (take 32 stale) s;
      if negb (r =? 0) then Some (-1, header, s)
      else Some (0, header, if flags &? ELF_LOAD_SET_BRK then set_sk (upd_proc dest (set_initial_brk cur_brk) (sk s)) s else s)
  else Some (-1, header, s).

(** The name of a library is copied in an array of 40 bytes after 14 bytes of
    directory; [None] when it does not fit. *)
(** src/loader/elfloader/loader.c:227-233: elfloader_load_dynlib *)
Definition lib_path (soname : list Z) : option (list Z) :=
  if 25 <? Z.of_nat (length soname) then None
  else Some ([47; 109; 110; 116; 47; 115; 109; 101; 109; 47; 108; 105; 98; 47] ++ soname).

(** "RELOC_GOT_B" and "RELOC_GOT_E" *)
Definition RELOC_GOT_B : list Z := [82; 69; 76; 79; 67; 95; 71; 79; 84; 95; 66].
Definition RELOC_GOT_E : list Z := [82; 69; 76; 79; 67; 95; 71; 79; 84; 95; 69].

(** [load_all] is [elfloader_load_all]. *)
(** src/loader/elfloader/loader.c: elfloader_load_dynlib *)
Definition load_dynlib_with (load_all : ptr → ptr → ptr → Z → list Z → system (kmem M) Dv → option (Z * elf_header * system (kmem M) Dv))
  (soname : list Z) (dest : ptr) (stale : list Z) s : option (Z * system (kmem M) Dv) :=
  absname ← lib_path soname;
  '(ilib, k) ← vfs_resolve fuel fs absname (sk s);
  let s := set_sk k s in
  if ilib =? NULL then Some (-1, s)
  else
    '(lib, k) ← vfs_open fs ilib O_RDONLY (sk s);
    let s := set_sk k s in
    if lib =? NULL then Some (-1, s)
    else
      let offset := 0x15000000 in
      '(r, header, s) ← load_all lib offset dest 0 stale s;
      if r =? 0 then
        '(r, symtab, s) ← elf_get_symtab lib header (take 40 stale) s;
        if r =? 0 then
          '(b, s) ← lookup_address lib (elf_section_header_of symtab) header RELOC_GOT_B offset stale s;
          '(e, s) ← lookup_address lib (elf_section_header_of symtab) header RELOC_GOT_E offset stale s;
          let k := relocate b e offset dest (sk s) in
          Some (0, set_sk (upd_proc dest (λ p, set_shared_offset offset (set_shared_file lib p)) k) s)
        else Some (0, s)
      else Some (0, s).

(** The loop over the names of a SHLIB header; [n] bounds the reads, of which the
    code makes as many as it likes when the file cannot be read. *)
(** src/loader/elfloader/loader.c:134-154: elfloader_load_all *)
Fixpoint load_shlibs (n : nat) (dynlib : list Z → system (kmem M) Dv → option (Z * system (kmem M) Dv))
  (filep : ptr) (ph : elf_prog_header) (index : Z) (buf : list Z) s : option (system (kmem M) Dv) :=
  if u32 index <? ph_filesz ph then
    match n with
    | O => None
    | S n =>
        let '(_, s) := vfs_lseek flash filep (s32 (u32 (ph_offset ph + index))) SEEK_SET s in
        '(r, out, s) ← file_read filep 29 s;
        if 0 <? r then
          let buf := aset (memcpy_to buf 0 out) 29 0 in
          let name := c_str buf in
          let index := s32 (index + Z.of_nat (length name)) in
          if 0 <? Z.of_nat (length name) then '(_, s) ← dynlib name s; load_shlibs n dynlib filep ph index buf s
          else Some s
        else load_shlibs n dynlib filep ph index (memcpy_to buf 0 out) s
    end
  else Some s.

(** A library can name libraries: [depth] bounds the nesting, and [reads] the
    reads of a list of names. *)
(** src/loader/elfloader/loader.c: elfloader_load_all *)
Fixpoint elfloader_load_all (depth reads : nat) (filep offset dest : ptr) (flags : Z) (stale : list Z) s
  : option (Z * elf_header * system (kmem M) Dv) :=
  load_all_with
    (λ filep ph s,
       match depth with
       | O => None
       | S depth =>
           load_shlibs reads (λ soname s, load_dynlib_with (λ f o d fl st s, elfloader_load_all depth reads f o d fl st s) soname dest stale s)
             filep ph 0 (take 30 stale) s
       end) filep offset dest flags stale s.

(** src/loader/elfloader/loader.c: elfloader_load_dynlib *)
Definition elfloader_load_dynlib (depth reads : nat) (soname : list Z) (dest : ptr) (stale : list Z) s : option (Z * system (kmem M) Dv) :=
  load_dynlib_with (elfloader_load_all depth reads) soname dest stale s.

(** The first context of a process; [garbage] is what the page of the stack held. *)
(** src/loader/elfloader/loader.c:82-88: elfloader_load *)
Definition first_context (entry : Z) (garbage : context) : context :=
  mk_context (<[6%nat := 0]> (<[5%nat := 0]> (<[4%nat := 0]> (<[15%nat := ARCH_UNEWPROC_DEFAULT_STACK]> (reg garbage)))))
    (gbr garbage) (macl garbage) (mach garbage) entry ARCH_UNEWPROC_DEFAULT_SR (pr garbage).

(** src/loader/elfloader/loader.c: elfloader_load *)
Definition elfloader_load (depth reads : nat) (filep dest : ptr) (stale : list Z) (garbage : context) s : option (Z * system (kmem M) Dv) :=
  '(r, header, s) ← elfloader_load_all depth reads filep NULL dest ELF_LOAD_SET_BRK stale s;
  if r =? 0 then
    '(user_stack, k) ← mem_area_make_anon (ARCH_UNEWPROC_DEFAULT_STACK - PROCESS_DEFAULT_STACK_SIZE) PROCESS_DEFAULT_STACK_SIZE (sk s);
    let '(_, k) := mem_area_insert dest user_stack k in
    '(pageaddr, a) ← km_get_page MEM_PM_CACHED (k_mem k);
    let k := set_k_mem a k in
    if pageaddr =? NULL then Some (-1, set_sk k s)
    else
      Some (0, set_sk (upd_proc dest (λ p, set_acnt [first_context (entry header) garbage] (set_kernel_stack (u32 (pageaddr + PM_PAGE_BYTES)) p)) k) s)
  else Some (0, s).

(** The only library of the process. *)
(** src/loader/elfloader/loader.c: elfloader_resolve_dynsymbol *)
Definition elfloader_resolve_dynsymbol (name : list Z) (target : ptr) (stale : list Z) s : option (ptr * system (kmem M) Dv) :=
  let lib := shared_file (k_procs (sk s) target) in
  '(r, h, s) ← elf_get_header lib (take 52 stale) s;
  if r =? 0 then
    let header := elf_header_of h in
    if negb (check_elf_header header =? 0) then Some (NULL, s)
    else
      '(r, symtab, s) ← elf_get_symtab lib header (take 40 stale) s;
      if r =? 0 then lookup_address lib (elf_section_header_of symtab) header name (shared_offset (k_procs (sk s) target)) stale s
      else Some (NULL, s)
  else Some (NULL, s).

(** The code and the value stored in [*dest]. *)
(** src/loader/elfloader/loader.c: sys_dynbind *)
Definition sys_dynbind (symbol stale : list Z) s : option (Z * ptr * system (kmem M) Dv) :=
  '(ret, s) ← elfloader_resolve_dynsymbol symbol (process_get_current (sk s)) stale s;
  Some (if negb (ret =? NULL) then 0 else -1, ret, s).
End ops.

(** ** Reading structures of a file *)

Section reads.
Context {M Dv : Type} `{!PageMem M}.
Context (flash : Z → Z) (tables : nat) (prim : smemfs_prim) (flash_byte : ∀ a, 0 ≤ flash a < 256).
Implicit Types (s : system (kmem M) Dv) (k : kernel (kmem M)).

(** The file [filep] is open for reading on a file of the storage memory. *)
Definition reads_file k (filep : ptr) (content : list Z) : Prop :=
  let f := k_files k filep in
  f_op f = fop_smemfs ∧ (f_flags f &? O_RDONLY) = true ∧ (i_type (k_inodes k (f_inode f)) &? INODE_TYPE_PARENT) = false ∧
  ∃ fs, content = concat fs ∧ file_at flash prim tables (i_abstract (k_inodes k (f_inode f))) fs ∧ (length fs + 2 ≤ tables)%nat.

(** The running process, the scheduler and the inodes are not changed. *)
Definition same_run {A} (k k' : kernel A) : Prop :=
  proc_current k' = proc_current k ∧ preempt_level k' = preempt_level k ∧ k_mmu k' = k_mmu k ∧
  tasks k' = tasks k ∧ root_fs k' = root_fs k ∧ hash_head k' = hash_head k ∧ k_inodes k' = k_inodes k.

Lemma same_run_trans {A} (k1 k2 k3 : kernel A) : same_run k1 k2 → same_run k2 k3 → same_run k1 k3.
Proof. unfold same_run. intros (-> & -> & -> & -> & -> & -> & ->) (-> & -> & -> & -> & -> & -> & ->). done. Qed.

(** Only the position of [filep] differs. *)
Record moved (filep : ptr) k k' : Prop := {
  mv_mem : k_mem k' = k_mem k; mv_procs : k_procs k' = k_procs k; mv_areas : k_areas k' = k_areas k;
  mv_inodes : k_inodes k' = k_inodes k; mv_run : same_run k k';
  mv_other q : q ≠ filep → k_files k' q = k_files k q;
  mv_file : ∃ p, k_files k' filep = set_f_pos p (k_files k filep)
}.

Lemma reads_file_moved filep k k' content : moved filep k k' → reads_file k filep content → reads_file k' filep content.
Proof.
  intros [_ _ _ Hi _ _ [p Hp]] (H1 & H2 & H3 & fs & H4 & H5 & H6). unfold reads_file. rewrite Hp, Hi. cbn [f_op set_f_pos f_flags f_inode].
  split_and!; try done. by exists fs.
Qed.

Lemma moved_upd filep k (g : file → file) : (∀ f, ∃ p, g f = set_f_pos p f) → moved filep k (upd_file filep g k).
Proof.
  intros Hg. split; try done; [intros q Hq; by apply upd_file_ne|]. rewrite upd_file_eq. apply Hg.
Qed.

Lemma moved_trans filep k1 k2 k3 : moved filep k1 k2 → moved filep k2 k3 → moved filep k1 k3.
Proof.
  intros [A1 A2 A3 A4 A0 A5 [p A6]] [B1 B2 B3 B4 B0 B5 [q B6]]. split; try congruence; [by eapply same_run_trans|..].
  - intros r Hr. by rewrite B5, A5.
  - exists q. by rewrite B6, A6.
Qed.

(** Reading a structure that is inside the file gives its bytes. *)
Lemma read_at_spec filep pos size buf content s :
  reads_file (sk s) filep content → 0 ≤ pos → 0 < size < 2 ^ 31 → pos + size ≤ Z.of_nat (length content) →
  Z.of_nat (length buf) = size →
  ∃ k', read_at flash tables prim filep pos size buf s =
          Some (true, take (Z.to_nat size) (drop (Z.to_nat pos) content), set_sk k' s) ∧ moved filep (sk s) k'.
Proof.
  intros Hf Hpos Hsize Hlen Hbuf. pose proof Hf as (Hop & Hfl & Hty & fs & -> & Hfile & Hfuel).
  pose proof Hfile as (_ & _ & _ & Hlt). unfold read_at, vfs_lseek. rewrite Hop.
  unfold smemfs_lseek. rewrite (file_size_spec flash prim tables _ _ Hfile). rewrite (u32_small pos), (s32_small pos) by lia.
  unfold SEEK_END, SEEK_CUR, SEEK_SET. cbn [Z.eqb Pos.eqb]. rewrite (proj2 (Z.ltb_ge pos 0)), (proj2 (Z.ltb_ge _ pos)) by lia.
  set (k1 := upd_file filep (set_f_pos pos) (sk s)). cbn zeta.
  assert (Hm1 : moved filep (sk s) k1) by (apply moved_upd; intros f; by exists pos).
  pose proof (reads_file_moved _ _ _ _ Hm1 Hf) as (Hop1 & Hfl1 & Hty1 & _).
  assert (Hpos1 : f_pos (k_files k1 filep) = pos) by (unfold k1; by rewrite upd_file_eq).
  assert (Hab : i_abstract (k_inodes k1 (f_inode (k_files k1 filep))) = i_abstract (k_inodes (sk s) (f_inode (k_files (sk s) filep))))
    by (unfold k1; by rewrite upd_file_eq).
  unfold file_read, vfs_read. cbn [sk set_sk]. rewrite Hop1. unfold smemfs_read. rewrite Hfl1, Hty1. cbn [negb].
  rewrite (proj2 (Z.eqb_neq size 0)) by lia. rewrite Hab, Hpos1.
  rewrite (read_data_spec flash prim tables flash_byte tables _ fs) by (done || lia). cbn [mbind option_bind].
  rewrite Z.min_l by lia. rewrite (proj2 (Z.ltb_lt 0 size)), Z.eqb_refl by lia.
  eexists. split.
  - do 4 f_equal. set (d := take _ _). assert (Hd : length d = length buf) by (unfold d; rewrite length_take, length_drop; lia).
    rewrite memcpy_to_spec by lia. rewrite take_0, drop_ge by lia. cbn [app]. by rewrite app_nil_r.
  - apply (moved_trans filep _ k1); [done|]. apply moved_upd. intros f. by eexists.
Qed.
End reads.

(** ** Mapping a segment *)

Section map_segment.
Context {A : Type} `{!KMem A}.
Implicit Types (k : kernel A).

(** The area of a segment of the file. *)
Definition segment_area (filep : ptr) (address size offset filesz : Z) : mem_area :=
  mk_area 121 address size aop_smemfs filep offset filesz.

Lemma areas_upd_file q g k : k_areas (upd_file q g k) = k_areas k.
Proof. reflexivity. Qed.

Lemma mem_area_alloc_spec k L H F :
  km_inv (k_mem k) L H F → F ≠ [] →
  ∃ a k' F', mem_area_alloc k = Some (a, k') ∧ a ≠ NULL ∧ (∀ j, (j, a) ∉ L) ∧ km_inv (k_mem k') ((PArea, a) :: L) H F' ∧
    (length F ≤ S (length F'))%nat ∧ (∀ b, b ≠ a → k_areas k' b = k_areas k b) ∧ k_procs k' = k_procs k ∧ k_inodes k' = k_inodes k ∧ k_files k' = k_files k ∧ same_run k k'.
Proof.
  intros Hkm HF. destruct (km_alloc_ok PArea (k_mem k) L H F Hkm HF) as (a & m & F' & Hal & Hn & Hnew & Hkm' & Hlen).
  unfold mem_area_alloc. rewrite Hal. cbn [mbind option_bind]. rewrite (proj2 (Z.eqb_neq a NULL)) by done. cbn [negb].
  eexists a, _, F'. split; [reflexivity|]. split_and!; try done. intros b Hb. by rewrite upd_area_ne.
Qed.

(** A segment that meets no area of the process is mapped by a new area. *)
Lemma vfs_map_area_spec k filep size offset address filesz p L H F :
  f_op (k_files k filep) = fop_smemfs → km_inv (k_mem k) L H F → F ≠ [] →
  0 ≤ address → 0 ≤ size → address + size < 2 ^ 32 →
  Forall (λ b, area_ok k b ∧ (PArea, b) ∈ L ∧ (area_end k b ≤ address ∨ address + size ≤ area_begin k b)) (mem_areas (k_procs k p)) →
  ∃ a k' F', vfs_map_area filep size offset address 120 filesz p k = Some (0, k') ∧
    a ≠ NULL ∧ (∀ j, (j, a) ∉ L) ∧ km_inv (k_mem k') ((PArea, a) :: L) H F' ∧ (length F ≤ S (length F'))%nat ∧
    k_areas k' a = segment_area filep address size offset filesz ∧ (∀ b, b ≠ a → k_areas k' b = k_areas k b) ∧
    k_procs k' p = set_mem_areas (a :: mem_areas (k_procs k p)) (k_procs k p) ∧ (∀ q, q ≠ p → k_procs k' q = k_procs k q) ∧
    k_inodes k' = k_inodes k ∧ (∀ q, q ≠ filep → k_files k' q = k_files k q) ∧
    k_files k' filep = set_f_count (s32 (f_count (k_files k filep) + 1)) (k_files k filep) ∧ same_run k k'.
Proof.
  intros Hop Hkm HF Ha Hs Has Hareas. unfold vfs_map_area. rewrite Hop.
  destruct (mem_area_alloc_spec k L H F Hkm HF) as (a & k0 & F' & Hal & Hn & Hnew & Hkm' & Hlen & Ha0 & Hp0 & Hi0 & Hf0 & Hrun0).
  rewrite Hal. cbn [mbind option_bind]. rewrite (proj2 (Z.eqb_neq a NULL)) by done.
  change (120 &? MEM_AREA_PARTIAL) with true. change (Z.lor 120 MEM_AREA_TYPE_FILE) with 121. cbn iota.
  set (k2 := upd_area a _ k0).
  assert (Hk2 : k_areas k2 a = set_ma_ops (ma_ops (k_areas k2 a)) (segment_area filep address size offset filesz)) by (unfold k2; by rewrite upd_area_eq).
  assert (Hk2b : ∀ b, b ≠ a → k_areas k2 b = k_areas k b) by (intros b Hb; unfold k2; by rewrite upd_area_ne, Ha0).
  assert (Hk2f : k_procs k2 = k_procs k ∧ k_inodes k2 = k_inodes k ∧ k_files k2 = k_files k ∧ k_mem k2 = k_mem k0 ∧ same_run k k2) by done.
  clearbody k2. destruct Hk2f as (Hp2 & Hi2 & Hf2 & Hmem2 & Hrun2). unfold smemfs_map_area. change (0 =? 0) with true. cbv iota zeta beta.
  set (k1 := upd_file filep _ _).
  assert (Hk1a : k_areas k1 a = segment_area filep address size offset filesz) by (unfold k1; rewrite areas_upd_file, upd_area_eq, Hk2; done).
  assert (Hk1b : ∀ b, b ≠ a → k_areas k1 b = k_areas k b) by (intros b Hb; unfold k1; by rewrite areas_upd_file, upd_area_ne, Hk2b).
  assert (Hk1p : k_procs k1 = k_procs k) by done. assert (Hk1i : k_inodes k1 = k_inodes k) by done.
  assert (Hk1m : k_mem k1 = k_mem k0) by done. assert (Hrun1 : same_run k k1) by done.
  assert (Hk1f : k_files k1 = fset (k_files k) filep (set_f_count (s32 (f_count (k_files k filep) + 1)) (k_files k filep))) by (rewrite <- Hf2; done).
  clearbody k1.
  assert (Hck : mem_area_check_range k1 p (ma_address (k_areas k1 a)) (ma_max_size (k_areas k1 a)) = false).
  { unfold mem_area_check_range. rewrite Hk1a. cbn [ma_address ma_max_size segment_area]. rewrite Hk1p.
    apply not_true_iff_false. intros (b & Hb & Hm)%existsb_exists. apply list_elem_of_In in Hb.
    rewrite Forall_forall in Hareas. destruct (Hareas b Hb) as ((Hbn & Hb0 & Hb1) & HbL & Hsep).
    assert (Hba : b ≠ a) by (intros ->; by apply (Hnew PArea)).
    unfold area_begin, area_end in *. unfold area_meets in Hm. rewrite (Hk1b b Hba) in Hm. rewrite !u32_small in Hm by lia.
    apply andb_true_iff in Hm as [Hm1%Z.ltb_lt Hm2%Z.ltb_lt]. lia. }
  unfold mem_area_insert. rewrite Hck. cbn [negb]. eexists a, _, F'. split; [reflexivity|]. split; [done|]. split; [done|].
  cbn [k_mem k_areas k_inodes k_files upd_proc set_k_procs]. rewrite Hk1m, Hk1i, Hk1f, <- Hk1p.
  split; [done|]. split; [done|]. split; [done|]. split; [done|]. split; [apply fset_eq|].
  split; [intros q Hq; by apply fset_ne|]. split; [done|]. split; [intros q Hq; by apply fset_ne|]. split; [apply fset_eq|done].
Qed.
End map_segment.

(** ** Loading the segments *)

Section load.
Context {M Dv : Type} `{!PageMem M}.
Context (flash : Z → Z) (tables : nat) (prim : smemfs_prim) (flash_byte : ∀ a, 0 ≤ flash a < 256).
Implicit Types (s : system (kmem M) Dv) (k : kernel (kmem M)).

(** The program headers of a file from number [i], and the segments to load. *)
Definition header_at (content : list Z) (h : elf_header) (i : Z) : elf_prog_header :=
  elf_prog_header_of (take 32 (drop (Z.to_nat (phoff h + i * PHDR_SIZE)) content)).
Definition is_load (ph : elf_prog_header) : bool := ph_type ph =? ELFP_TYPE_LOAD.
Definition loads (phs : list elf_prog_header) : list elf_prog_header := filter (λ ph, is_load ph = true) phs.

Definition seg_end (ph : elf_prog_header) : Z := ph_vaddr ph + ph_memsz ph.
Definition seg_ok (ph : elf_prog_header) : Prop :=
  ph_vaddr ph mod 1024 = 0 ∧ 0 ≤ ph_vaddr ph ∧ 0 ≤ ph_memsz ph ∧ seg_end ph < 2 ^ 32.
Definition header_ok (ph : elf_prog_header) : Prop := ph_type ph ≠ ELFP_TYPE_SHLIB ∧ (is_load ph = true → seg_ok ph).

(** Segments do not overlap. *)
Definition apart (b1 e1 b2 e2 : Z) : Prop := e1 ≤ b2 ∨ e2 ≤ b1.
Fixpoint segs_apart (phs : list elf_prog_header) : Prop :=
  match phs with
  | [] => True
  | ph :: phs => Forall (λ p, apart (ph_vaddr ph) (seg_end ph) (ph_vaddr p) (seg_end p)) phs ∧ segs_apart phs
  end.

(** Where the heap starts: after the highest segment. *)
Definition brk_of (cur : Z) (phs : list elf_prog_header) : Z := foldl (λ b ph, Z.max b (seg_end ph)) cur phs.

Definition area_of_seg (filep : ptr) (ph : elf_prog_header) : mem_area :=
  segment_area filep (ph_vaddr ph) (ph_memsz ph) (ph_offset ph) (ph_filesz ph).

(** The state in which segments are loaded: the file, the free memory, and areas of
    [dest] that are allocated and apart from the segments to come. *)
Record load_ready k (filep dest : ptr) (content : list Z) (segs : list elf_prog_header) L H F : Prop := {
  lr_file : reads_file flash tables prim k filep content;
  lr_mem : km_inv (k_mem k) L H F;
  lr_free : (length segs ≤ length F)%nat;
  lr_areas : Forall (λ b, area_ok k b ∧ (PArea, b) ∈ L ∧ Forall (λ ph, apart (area_begin k b) (area_end k b) (ph_vaddr ph) (seg_end ph)) segs)
               (mem_areas (k_procs k dest))
}.

Lemma load_ready_moved k k' filep dest content segs L H F :
  moved filep k k' → load_ready k filep dest content segs L H F → load_ready k' filep dest content segs L H F.
Proof.
  intros Hm [H1 H2 H3 H4]. pose proof Hm as [A1 A2 A3 _ _ _ _]. split; try done.
  - by eapply reads_file_moved.
  - by rewrite A1.
  - rewrite A2. eapply Forall_impl; [exact H4|]. intros b. unfold area_ok, area_begin, area_end. by rewrite A3.
Qed.

(** One segment: a new area, and the state is ready for the others. *)
Lemma load_segment_spec s filep dest content ph segs L H F :
  load_ready (sk s) filep dest content (ph :: segs) L H F → seg_ok ph →
  Forall (λ p, apart (ph_vaddr ph) (seg_end ph) (ph_vaddr p) (seg_end p)) segs →
  ∃ a k' F', elfloader_load_segment filep NULL ph dest s = Some (0, set_sk k' s) ∧
    load_ready k' filep dest content segs ((PArea, a) :: L) H F' ∧
    k_areas k' a = area_of_seg filep ph ∧ a ≠ NULL ∧ (∀ j, (j, a) ∉ L) ∧ (∀ b, b ≠ a → k_areas k' b = k_areas (sk s) b) ∧
    k_procs k' dest = set_mem_areas (a :: mem_areas (k_procs (sk s) dest)) (k_procs (sk s) dest) ∧
    (∀ q, q ≠ dest → k_procs k' q = k_procs (sk s) q) ∧ same_run (sk s) k' ∧ (length F ≤ S (length F'))%nat.
Proof.
  intros [H1 H2 H3 H4] (Hal & Hv & Hsz & He) Hap. unfold elfloader_load_segment. rewrite page_bytes, Hal, Z.eqb_refl.
  change (Z.lor MEM_AREA_PARTIAL _) with 120. rewrite u32_small by (unfold seg_end in *; lia). change (NULL + ph_vaddr ph) with (ph_vaddr ph).
  destruct (vfs_map_area_spec (sk s) filep (ph_memsz ph) (ph_offset ph) (ph_vaddr ph) (ph_filesz ph) dest L H F)
    as (a & k' & F' & Hmap & Hn & Hnew & Hkm & Hlen & Ha & Hb & Hp & Hq & Hi & Hfo & Hff & Hrun);
    [apply H1|done|destruct F; cbn in H3; [lia|done]|done|done|done| |].
  { eapply Forall_impl; [exact H4|]. cbn beta. intros b (Hok & HL & Hb%Forall_cons). split; [done|]. split; [done|]. destruct Hb as [[?|?] _]; unfold seg_end in *; [by left|by right]. }
  rewrite Hmap. cbn [mbind option_bind]. exists a, k', F'. split; [done|]. split; [|split_and!; try done].
  destruct H1 as (F1 & F2 & F3 & fs & F4 & F5 & F6). split.
  - unfold reads_file. rewrite Hff, Hi. cbn [f_op set_f_count f_flags f_inode]. split_and!; try done. by exists fs.
  - done.
  - cbn [length] in H3. lia.
  - rewrite Hp. cbn [mem_areas set_mem_areas]. apply Forall_cons_2.
    + unfold area_ok, area_begin, area_end. rewrite Ha. cbn [segment_area ma_address ma_max_size].
      split; [unfold seg_end in *; split_and!; done || lia|]. split; [apply list_elem_of_here|exact Hap].
    + eapply Forall_impl; [exact H4|]. cbn beta. intros b (Hok & HL & Hbs%Forall_cons).
      assert (b ≠ a) by (intros ->; by apply (Hnew PArea)). unfold area_ok, area_begin, area_end in *. rewrite Hb by done.
      split; [done|]. split; [by right|apply Hbs].
Qed.

(** The loop over the program headers. *)
Lemma load_headers_spec load_shlib filep dest content h : ∀ n curph cur_brk pheader s L H F,
  let phs := header_at content h <$> seqZ curph (Z.of_nat n) in
  0 ≤ phoff h → 0 ≤ curph → phoff h + (curph + Z.of_nat n) * 32 ≤ Z.of_nat (length content) → length pheader = 32%nat →
  Forall header_ok phs → segs_apart (loads phs) → load_ready (sk s) filep dest content (loads phs) L H F →
  ∃ k' new L' F', load_headers flash tables prim load_shlib n filep NULL dest h curph cur_brk pheader s =
      Some (0, brk_of cur_brk (loads phs), set_sk k' s) ∧
    k_procs k' dest = set_mem_areas (rev new ++ mem_areas (k_procs (sk s) dest)) (k_procs (sk s) dest) ∧
    Forall2 (λ ph a, k_areas k' a = area_of_seg filep ph ∧ a ≠ NULL ∧ (∀ j, (j, a) ∉ L) ∧ (PArea, a) ∈ L') (loads phs) new ∧
    (∀ b, (PArea, b) ∈ L → k_areas k' b = k_areas (sk s) b) ∧ (∀ q, q ≠ dest → k_procs k' q = k_procs (sk s) q) ∧
    km_inv (k_mem k') L' H F' ∧ (length F ≤ length (loads phs) + length F')%nat ∧ (∀ x, x ∈ L → x ∈ L') ∧
    reads_file flash tables prim k' filep content ∧ same_run (sk s) k'.
Proof.
  induction n as [|n IH]; intros curph cur_brk pheader s L H F phs Hoff Hcur Hlen Hbuf Hok Hap Hr.
  { exists (sk s), [], L, F. cbn [load_headers rev app]. unfold phs. cbn. destruct Hr as [H1 H2 _ _].
    split_and!; try done; [by destruct s|by destruct (k_procs (sk s) dest)]. }
  cbn [load_headers]. subst phs.
  replace (Z.of_nat (S n)) with (Z.succ (Z.of_nat n)) in * by lia. rewrite seqZ_cons in * by lia. rewrite Z.pred_succ in *. cbn [fmap list_fmap] in *.
  set (ph := header_at content h curph) in *. set (phs := header_at content h <$> seqZ (Z.succ curph) (Z.of_nat n)) in *.
  apply Forall_cons in Hok as [[Hns Hseg] Hok].
  destruct (read_at_spec flash tables prim flash_byte filep (phoff h + curph * PHDR_SIZE) PHDR_SIZE pheader content s (lr_file _ _ _ _ _ _ _ _ Hr))
    as (k1 & Hread & Hm1); [unfold PHDR_SIZE in *; lia..|].
  rewrite Hread. cbn [mbind option_bind negb]. change (elf_prog_header_of _) with ph.
  apply (load_ready_moved _ k1) in Hr; [|done]. pose proof Hm1 as [Hmm Hmp Hma _ Hrun1 _ _].
  assert (Hbuf' : length (take (Z.to_nat PHDR_SIZE) (drop (Z.to_nat (phoff h + curph * PHDR_SIZE)) content)) = 32%nat).
  { rewrite length_take, length_drop. unfold PHDR_SIZE. lia. }
  replace (curph + 1) with (Z.succ curph) by lia. unfold loads in *. rewrite filter_cons in *. unfold is_load in *.
  destruct (Z.eqb_spec (ph_type ph) ELFP_TYPE_LOAD) as [Hld|Hld].
  - rewrite decide_True in Hap, Hr |- * by done. destruct Hap as [Hap1 Hap2].
    destruct (load_segment_spec (set_sk k1 s) filep dest content ph (loads phs) L H F Hr (Hseg eq_refl) Hap1)
      as (a & k2 & F2 & Hseg2 & Hr2 & Ha2 & Hnn2 & Hnew2 & Hb2 & Hp2 & Hq2 & Hrun2 & HlenF2).
    rewrite Hseg2. cbn [mbind option_bind Z.eqb]. destruct (Hseg eq_refl) as (_ & Hv0 & Hv1 & Hv2).
    destruct (IH (Z.succ curph) (Z.max cur_brk (seg_end ph)) _ (set_sk k2 s) ((PArea, a) :: L) H F2 Hoff ltac:(lia) ltac:(lia) Hbuf' Hok Hap2 Hr2)
      as (k' & new & L' & F' & Hl & Hp' & Hf2 & Hold & Hq' & Hkm & HlenF & Hsub & Hrd & Hrun).
    exists k', (a :: new), L', F'. cbn [sk set_sk] in *. rewrite Hmp in *. split.
    { unfold seg_end in *. rewrite u32_small by lia.
      replace (if cur_brk <? ph_vaddr ph + ph_memsz ph then _ else _) with (Z.max cur_brk (ph_vaddr ph + ph_memsz ph)).
      { exact Hl. } destruct (Z.ltb_spec cur_brk (ph_vaddr ph + ph_memsz ph)); lia. }
    rewrite Hp', Hp2. cbn [rev mem_areas set_mem_areas]. rewrite <- app_assoc. split; [done|].
    split; [constructor; [|eapply Forall2_impl; [exact Hf2|]]|].
    + split; [rewrite Hold by apply list_elem_of_here; exact Ha2|]. split; [done|]. split; [done|]. apply Hsub, list_elem_of_here.
    + cbn beta. intros p' a' (Hpa & Hann & Hna & Hin). split; [done|]. split; [done|]. split; [|done]. intros j Hj. apply (Hna j). by right.
    + split; [|split; [|split; [done|split; [|split; [|split; [done|]]]]]].
      * intros b Hb. rewrite Hold by (by right). rewrite Hb2, Hma; [done|]. intros ->. by apply (Hnew2 PArea).
      * intros q Hq. by rewrite Hq', Hq2.
      * change (length F2 ≤ length (loads phs) + length F')%nat in HlenF. change (length F ≤ S (length (loads phs)) + length F')%nat. lia.
      * intros x Hx. apply Hsub. by right.
      * eapply same_run_trans; [|exact Hrun]. by eapply same_run_trans.
  - rewrite decide_False in Hap, Hr |- * by done.
    rewrite (proj2 (Z.eqb_neq (ph_type ph) ELFP_TYPE_SHLIB)) by done. cbn [mbind option_bind].
    destruct (IH (Z.succ curph) cur_brk _ (set_sk k1 s) L H F Hoff ltac:(lia) ltac:(lia) Hbuf' Hok Hap Hr)
      as (k' & new & L' & F' & Hl & Hp' & Hf2 & Hold & Hq' & Hkm & HlenF & Hsub & Hrd & Hrun).
    exists k', new, L', F'. cbn [sk set_sk] in *. rewrite Hmp, Hma in *. split; [exact Hl|]. split_and!; try done. by eapply same_run_trans.
Qed.

(** A file that can be loaded: a header for this machine, and program headers that
    describe page-aligned segments apart from each other. *)
Record loadable (content : list Z) (h : elf_header) (phs : list elf_prog_header) : Prop := {
  ld_len : (52 ≤ length content)%nat;
  ld_header : h = elf_header_of (take 52 content);
  ld_check : check_elf_header h = 0;
  ld_table : 0 ≤ phoff h ∧ 0 ≤ phnum h ∧ phoff h + phnum h * 32 ≤ Z.of_nat (length content);
  ld_phs : phs = header_at content h <$> seqZ 0 (phnum h);
  ld_ok : Forall header_ok phs;
  ld_apart : segs_apart (loads phs)
}.

(** The process that receives the program: no area yet, and memory for the areas. *)
Record empty_process k (filep dest : ptr) (content : list Z) (n : nat) L H F : Prop := {
  ep_file : reads_file flash tables prim k filep content;
  ep_areas : mem_areas (k_procs k dest) = [];
  ep_mem : km_inv (k_mem k) L H F;
  ep_free : (n ≤ length F)%nat
}.

Lemma load_all_spec fuel fs depth reads filep dest stale s content h phs L H F :
  loadable content h phs → empty_process (sk s) filep dest content (length (loads phs)) L H F → (52 ≤ length stale)%nat →
  ∃ k' new L' F', elfloader_load_all flash tables prim fuel fs depth reads filep NULL dest ELF_LOAD_SET_BRK stale s = Some (0, h, set_sk k' s) ∧
    k_procs k' dest = set_initial_brk (brk_of 0 (loads phs)) (set_mem_areas (rev new) (k_procs (sk s) dest)) ∧
    Forall2 (λ ph a, k_areas k' a = area_of_seg filep ph ∧ a ≠ NULL ∧ (∀ j, (j, a) ∉ L) ∧ (PArea, a) ∈ L') (loads phs) new ∧
    (∀ q, q ≠ dest → k_procs k' q = k_procs (sk s) q) ∧
    km_inv (k_mem k') L' H F' ∧ (length F ≤ length (loads phs) + length F')%nat ∧
    reads_file flash tables prim k' filep content ∧ same_run (sk s) k'.
Proof.
  intros [Hlen Hh Hck (Hoff & Hnum & Htab) Hphs Hok Hap] [Hfile Hareas Hmem Hfree] Hst.
  assert (Heq : ∀ load_shlib, ∃ k' new L' F', load_all_with flash tables prim load_shlib filep NULL dest ELF_LOAD_SET_BRK stale s = Some (0, h, set_sk k' s) ∧
    k_procs k' dest = set_initial_brk (brk_of 0 (loads phs)) (set_mem_areas (rev new) (k_procs (sk s) dest)) ∧
    Forall2 (λ ph a, k_areas k' a = area_of_seg filep ph ∧ a ≠ NULL ∧ (∀ j, (j, a) ∉ L) ∧ (PArea, a) ∈ L') (loads phs) new ∧
    (∀ q, q ≠ dest → k_procs k' q = k_procs (sk s) q) ∧
    km_inv (k_mem k') L' H F' ∧ (length F ≤ length (loads phs) + length F')%nat ∧
    reads_file flash tables prim k' filep content ∧ same_run (sk s) k'); [|destruct depth; apply Heq].
  intros load_shlib. unfold load_all_with, elf_get_header.
  destruct (read_at_spec flash tables prim flash_byte filep 0 EHDR_SIZE (take 52 stale) content s Hfile) as (k1 & Hread & Hm1);
    [lia|unfold EHDR_SIZE; lia|unfold EHDR_SIZE; lia|rewrite length_take; unfold EHDR_SIZE; lia|].
  rewrite Hread. cbn [mbind option_bind]. change (Z.to_nat EHDR_SIZE) with 52%nat. rewrite drop_0, <- Hh.
  cbn [Z.eqb]. rewrite Hck. cbn [Z.eqb negb]. pose proof Hm1 as [Hmm Hmp Hma _ Hrun1 _ _].
  destruct (load_headers_spec load_shlib filep dest content h (Z.to_nat (phnum h)) 0 NULL (take 32 stale) (set_sk k1 s) L H F)
    as (k' & new & L' & F' & Hl & Hp & Hf2 & _ & Hq & Hkm & HlF & _ & Hrd & Hrun); rewrite ?Z2Nat.id by lia; rewrite <- ?Hphs; try done; try lia.
  { rewrite length_take. lia. }
  { apply (load_ready_moved (sk s)); [done|]. split; [done..|]. by rewrite Hareas. }
  rewrite Z2Nat.id in Hl, Hf2, HlF by lia. rewrite <- Hphs in Hl, Hf2, HlF. rewrite Hl. cbn [mbind option_bind Z.eqb negb].
  change (ELF_LOAD_SET_BRK &? ELF_LOAD_SET_BRK) with true. cbn iota. cbn [sk set_sk] in *. rewrite Hmp in *. rewrite Hareas, app_nil_r in Hp.
  eexists _, new, L', F'. split; [reflexivity|]. cbn [sk set_sk]. rewrite upd_proc_eq, Hp. split; [done|].
  split; [exact Hf2|]. split; [intros q Hq'; by rewrite upd_proc_ne, Hq|]. split; [exact Hkm|]. split; [done|]. split; [exact Hrd|].
  eapply same_run_trans; [exact Hrun1|exact Hrun].
Qed.

(** Loading a well-formed file in a process without areas succeeds whatever
    libraries exist, and gives the process one area per segment to load, with the
    address and size of the segment and its place in the file; the heap starts
    after the highest segment; no other process changes. *)
Theorem elf_load_maps_segments fuel fs depth reads filep dest stale s content h phs L H F :
  loadable content h phs → empty_process (sk s) filep dest content (length (loads phs)) L H F → (52 ≤ length stale)%nat →
  ∃ s' areas, elfloader_load_all flash tables prim fuel fs depth reads filep NULL dest ELF_LOAD_SET_BRK stale s = Some (0, h, s') ∧
    mem_areas (k_procs (sk s') dest) = rev areas ∧ k_areas (sk s') <$> areas = area_of_seg filep <$> loads phs ∧
    initial_brk (k_procs (sk s') dest) = brk_of 0 (loads phs) ∧ (∀ q, q ≠ dest → k_procs (sk s') q = k_procs (sk s) q).
Proof.
  intros Hl He Hs. destruct (load_all_spec fuel fs depth reads filep dest stale s content h phs L H F Hl He Hs)
    as (k' & new & L' & F' & Hload & Hp & Hf2 & Hq & _). exists (set_sk k' s), new. cbn [sk set_sk]. rewrite Hp.
  split_and!; try done. clear -Hf2. induction Hf2 as [|ph a phs' l [Ha _] _ IH]; [done|]. cbn [fmap list_fmap]. by rewrite Ha, IH.
Qed.

(** The areas of segments are apart when the segments are. *)
Lemma segs_areas_disjoint filep k segs : ∀ new,
  Forall2 (λ ph a, k_areas k a = area_of_seg filep ph) segs new → segs_apart segs → areas_disjoint k new.
Proof.
  induction segs as [|ph segs IH]; intros new Hf; inversion Hf as [|? a ? new' Ha Hf' E1 E2]; subst; [done|]. intros [Hap Hrest].
  split; [|by apply IH]. intros b Hb x. apply list_elem_of_lookup in Hb as [i Hi].
  destruct (Forall2_lookup_r _ _ _ _ _ Hf' Hi) as (ph' & Hph' & Hb). rewrite Forall_lookup in Hap. specialize (Hap i ph' Hph').
  unfold area_begin, area_end. rewrite Ha, Hb. cbn [area_of_seg segment_area ma_address ma_max_size].
  unfold apart, seg_end in Hap. lia.
Qed.

Lemma areas_disjoint_snoc k l a :
  areas_disjoint k l → (∀ b, b ∈ l → ∀ x, ¬ (area_begin k a ≤ x < area_end k a ∧ area_begin k b ≤ x < area_end k b)) → areas_disjoint k (l ++ [a]).
Proof.
  induction l as [|c l IH]; [intros _ _; cbn; split; [intros b Hb; by apply elem_of_nil in Hb|done]|].
  intros [Hc Hl] Ha. cbn [app]. split.
  - intros b [Hb| ->%list_elem_of_singleton]%elem_of_app x; [by apply Hc|]. intros [Hx1 Hx2]. by apply (Ha c (list_elem_of_here _ _) x).
  - apply IH; [done|]. intros b Hb. apply Ha. by right.
Qed.

Lemma areas_disjoint_rev k l : areas_disjoint k l → areas_disjoint k (rev l).
Proof.
  induction l as [|a l IH]; [done|]. intros [Ha Hl]. cbn [rev]. apply areas_disjoint_snoc; [by apply IH|].
  intros b Hb. apply Ha. apply list_elem_of_In. apply in_rev. by apply list_elem_of_In.
Qed.

(** The loaded process is ready to run: what a page fault needs. *)
Lemma loaded_ready fuel fs depth reads filep stale s content h phs L H F :
  let dest := proc_current (sk s) in
  loadable content h phs → empty_process (sk s) filep dest content (length (loads phs) + 2) L H F → (52 ≤ length stale)%nat →
  dir_list (k_procs (sk s) dest) = [] → 0 ≤ preempt_level (sk s) →
  ∃ k' new L' F', elfloader_load_all flash tables prim fuel fs depth reads filep NULL dest ELF_LOAD_SET_BRK stale s = Some (0, h, set_sk k' s) ∧
    fault_ready k' L' H F' ∧ mem_areas (k_procs k' (proc_current k')) = rev new ∧ dir_list (k_procs k' (proc_current k')) = [] ∧
    Forall2 (λ ph a, k_areas k' a = area_of_seg filep ph) (loads phs) new ∧ reads_file flash tables prim k' filep content.
Proof.
  cbv zeta. intros Hl [E1 E2 E3 E4] Hst Hdirs Hlev.
  destruct (load_all_spec fuel fs depth reads filep (proc_current (sk s)) stale s content h phs L H F Hl) as
    (k' & new & L' & F' & Hload & Hp & Hf2 & _ & Hkm & HlF & Hrd & (Hcur & Hlv & _)); [split; done || lia|done|].
  pose proof Hl as [_ _ _ _ _ Hok Hap].
  assert (Hsegs : Forall2 (λ ph a, k_areas k' a = area_of_seg filep ph) (loads phs) new) by (eapply Forall2_impl; [exact Hf2|]; by intros ?? []).
  assert (Hareas : Forall (area_ok k') new).
  { apply Forall_forall. intros a Ha. apply list_elem_of_lookup in Ha as [j Hj].
    destruct (Forall2_lookup_r _ _ _ _ _ Hf2 Hj) as (ph' & Hph' & Ha' & Hn' & _). apply list_elem_of_lookup_2, list_elem_of_filter in Hph' as [Hld Hin].
    rewrite Forall_forall in Hok. destruct (Hok ph' Hin) as [_ Hs']. destruct (Hs' Hld) as (_ & Hv0 & Hv1 & Hv2).
    split; [done|]. unfold area_begin, area_end. rewrite Ha'. cbn [area_of_seg segment_area ma_address ma_max_size]. unfold seg_end in Hv2. lia. }
  assert (Hproc : k_procs k' (proc_current k') = set_initial_brk (brk_of 0 (loads phs)) (set_mem_areas (rev new) (k_procs (sk s) (proc_current (sk s))))) by by rewrite Hcur.
  assert (Hmemb : mem_areas (k_procs k' (proc_current k')) = rev new) by by rewrite Hproc.
  assert (Hd' : dir_list (k_procs k' (proc_current k')) = []) by (rewrite Hproc; exact Hdirs).
  exists k', new, L', F'. split; [exact Hload|]. split; [|done].
  split; [done|lia|by rewrite Hd'|rewrite Hmemb; by apply Forall_rev|rewrite Hmemb; apply areas_disjoint_rev; by eapply segs_areas_disjoint|by rewrite Hlv|].
  intros pg a. by rewrite Hd'.
Qed.

(** C2: from the file to what the program sees: after the file is loaded in the current
    process, the first access to a page of a segment resumes with a page that
    holds the bytes of the segment in the file, followed by zeros after the bytes
    that come from the file. *)
Theorem loaded_program_pages fuel fs depth reads keep filep stale page s content h phs L H F i ph vpn :
  let dest := proc_current (sk s) in
  loadable content h phs → empty_process (sk s) filep dest content (length (loads phs) + 2) L H F → (52 ≤ length stale)%nat →
  dir_list (k_procs (sk s) dest) = [] → 0 ≤ preempt_level (sk s) → length page = 1024%nat →
  loads phs !! i = Some ph → ph_vaddr ph ≤ vpn * 1024 < seg_end ph → seg_end ph < 2 ^ 32 - 1024 →
  0 ≤ ph_offset ph → 0 ≤ ph_filesz ph < 2 ^ 32 → ph_offset ph + ph_filesz ph ≤ Z.of_nat (length content) →
  ∃ s' k2 x, elfloader_load_all flash tables prim fuel fs depth reads filep NULL dest ELF_LOAD_SET_BRK stale s = Some (0, h, s') ∧
    tlbmiss_handler flash tables prim keep 0 vpn page (sk s') =
      Some (Resumed k2 (Some (file_page content (area_of_seg filep ph) (vpn * 1024 - ph_vaddr ph)))) ∧
    hw_translate (k_mmu k2) vpn = Some (PM_PHYSICAL_PAGE x) ∧ x ∉ H.
Proof.
  cbv zeta. intros Hl He Hst Hdirs Hlev Hpage Hi Hrange Hend Hoff Hfsz Hfit.
  destruct (loaded_ready fuel fs depth reads filep stale s content h phs L H F Hl He Hst Hdirs Hlev)
    as (k' & new & L' & F' & Hload & Hready & Hmemb & Hd' & Hsegs & Hrd).
  destruct (Forall2_lookup_l _ _ _ _ _ Hsegs Hi) as (a & Ha & Har).
  assert (Hin : a ∈ mem_areas (k_procs k' (proc_current k'))).
  { rewrite Hmemb. apply list_elem_of_In. rewrite <- in_rev. apply list_elem_of_In. by eapply list_elem_of_lookup_2. }
  assert (Hok_a : area_ok k' a) by (pose proof (fr_areas _ _ _ _ Hready) as HA; rewrite Forall_forall in HA; by apply HA).
  assert (Hr' : area_begin k' a ≤ vpn * 1024 < area_end k' a) by (unfold area_begin, area_end; rewrite Har; exact Hrange).
  pose proof Hrd as (_ & _ & _ & fs' & Hc' & Hfile & Hfuel).
  set (fill := Some (file_page content (area_of_seg filep ph) (vpn * 1024 - ph_vaddr ph))).
  assert (Hfill : gives_page flash tables prim (sched_preempt_block k') L' H F' a (vpn * 1024) page fill).
  { pose proof (smemfs_gives flash tables prim (sched_preempt_block k') L' H F' a (vpn * 1024) page fs') as Hg. cbv zeta in Hg.
    change (k_areas (sched_preempt_block k')) with (k_areas k') in Hg. rewrite Har in Hg. rewrite <- Hc' in Hg. apply Hg; try done; try lia.
    - apply Hready.
    - pose proof (fr_free _ _ _ _ Hready). destruct F'; [cbn in *; lia|done].
    - unfold area_end. change (k_areas (sched_preempt_block k')) with (k_areas k'). rewrite Har. exact Hend. }
  assert (Hvpn : 0 ≤ vpn < 2 ^ 22) by (destruct Hok_a as (_ & Hb & He'); lia).
  destruct (tlbmiss_new_page flash tables prim keep k' L' H F' a vpn page fill Hready Hvpn) as (x & k2 & L2 & F2 & Hh & _ & Hinv2 & _ & _ & Hhw & _);
    [by rewrite Hd'|done|done|exact Hfill|].
  exists (set_sk k' s), k2, x. split; [exact Hload|]. split; [exact Hh|]. split; [exact Hhw|].
  destruct (km_inv_nodup _ _ _ _ Hinv2) as (_ & Hnd & _). cbn in Hnd. apply NoDup_cons in Hnd as [Hx _]. intros HxH. apply Hx, elem_of_app. by left.
Qed.

End load.

(** ** Witnesses *)

(** An executable with one segment of 4 bytes, mapped on two pages at 0x10000000. *)
Definition elf_bytes : list Z :=
  [0x7F; 69; 76; 70; 1; 2; 1; 0] ++ replicate 8 0 ++ [0; 2; 0; 42; 0; 0; 0; 1; 16; 0; 0; 0; 0; 0; 0; 52] ++ replicate 8 0 ++
  [0; 52; 0; 32; 0; 1; 0; 40; 0; 0; 0; 0] ++
  [0; 0; 0; 1; 0; 0; 0; 84; 16; 0; 0; 0; 0; 0; 0; 0; 0; 0; 0; 4; 0; 0; 8; 0; 0; 0; 0; 7; 0; 0; 4; 0] ++ [1; 2; 3; 4].

(** The image of the storage memory with this file in place of the other one. *)
Definition elf_flash (a : ptr) : Z :=
  if (4096 <=? a) && (a <? 4288) then aget (aset (aset image_bytes 75 1) 83 87) (a - 4096)
  else if (8192 <=? a) && (a <? 8280) then aget elf_bytes (a - 8192) else 0.

Lemma elf_flash_byte a : 0 ≤ elf_flash a < 256.
Proof.
  assert (Hnth : ∀ l i, Forall (λ b, 0 ≤ b < 256) l → 0 ≤ aget l i < 256).
  { intros l i Hl. unfold aget. rewrite nth_lookup. destruct (l !! Z.to_nat i) eqn:Hi; [|cbn; lia].
    exact (proj1 (Forall_lookup _ _) Hl _ _ Hi). }
  unfold elf_flash. repeat case_match; [apply Hnth|apply Hnth|lia]; by_computation.
Qed.

Lemma elf_image_file : file_at elf_flash image_prim 10 4128 [elf_bytes].
Proof.
  split; [vm_compute; discriminate|]. split; [vm_compute; reflexivity|]. split; [|vm_compute; reflexivity].
  split; [vm_compute; reflexivity|]. split; [exists 8192; split; vm_compute; reflexivity|]. exact I.
Qed.

Definition demo_header : elf_header := elf_header_of (take 52 elf_bytes).
Definition demo_segment : elf_prog_header := mk_prog_header 1 84 0x10000000 4 2048.

Lemma demo_headers : header_at elf_bytes demo_header <$> seqZ 0 (phnum demo_header) = [demo_segment].
Proof. vm_compute. reflexivity. Qed.

Lemma demo_loadable : loadable elf_bytes demo_header [demo_segment].
Proof.
  split.
  - vm_compute. lia.
  - reflexivity.
  - reflexivity.
  - vm_compute. split_and!; congruence.
  - by rewrite demo_headers.
  - apply Forall_singleton. split; [vm_compute; congruence|]. intros _. vm_compute. split_and!; congruence.
  - change (loads [demo_segment]) with [demo_segment]. split; [constructor|exact I].
Qed.

(** The current process is 48, the file is open at 32. *)
Definition demo_exec : system (kmem pmem) unit :=
  mk_system (upd_inode 64 (set_i_abstract 4128) (upd_file 32 (λ _, mk_file 0 O_RDONLY 64 fop_smemfs 1 0)
      (set_proc_current 48 (zero_kernel (kmem_init demo_pmem3)))))
    (λ _, demo_tty) tt (mk_fifo 40 0 0 (replicate 40 0)) [] [] 0 [].

Lemma demo_exec_file : reads_file elf_flash 10 image_prim (sk demo_exec) 32 elf_bytes.
Proof.
  split; [reflexivity|]. split; [reflexivity|]. split; [reflexivity|]. exists [elf_bytes]. split; [by rewrite concat_cons, app_nil_r|].
  split; [exact elf_image_file|cbn; lia].
Qed.

Lemma demo_empty n : (n ≤ 3)%nat → empty_process elf_flash 10 image_prim (sk demo_exec) 32 48 elf_bytes n [] [] [0x88000000; 0x88000400; 0x88000800].
Proof. intros Hn. split; [exact demo_exec_file|reflexivity|apply kmem_init_inv, demo_pmem3_rep|exact Hn]. Qed.

Definition demo_loader := elfloader_load_all (M := pmem) (Dv := unit) elf_flash 10 image_prim 10 (λ _, protofs_file_system 10 (λ _ _ _, None)) 0 0.

Lemma elf_load_maps_segments_witness :
  ∃ s' a, demo_loader 32 NULL 48 ELF_LOAD_SET_BRK (replicate 52 7) demo_exec = Some (0, demo_header, s') ∧
    mem_areas (k_procs (sk s') 48) = [a] ∧ k_areas (sk s') a = mk_area 121 0x10000000 2048 aop_smemfs 32 84 4 ∧
    initial_brk (k_procs (sk s') 48) = 0x10000800.
Proof.
  destruct (elf_load_maps_segments elf_flash 10 image_prim elf_flash_byte 10 (λ _, protofs_file_system 10 (λ _ _ _, None)) 0 0 32 48 (replicate 52 7)
    demo_exec elf_bytes demo_header [demo_segment] [] [] [0x88000000; 0x88000400; 0x88000800] demo_loadable (demo_empty 1 ltac:(lia)) ltac:(cbn; lia))
    as (s' & areas & Hl & Hm & Ha & Hb & _).
  change (loads [demo_segment]) with [demo_segment] in Ha, Hb. destruct areas as [|a [|]]; [done| |done]. injection Ha as Ha.
  exists s', a. split; [exact Hl|]. split; [exact Hm|]. split; [exact Ha|exact Hb].
Defined.

Lemma loaded_program_pages_witness :
  ∃ s' k2, demo_loader 32 NULL 48 ELF_LOAD_SET_BRK (replicate 52 7) demo_exec = Some (0, demo_header, s') ∧
    tlbmiss_handler elf_flash 10 image_prim (λ _, true) 0 0x40000 (replicate 1024 9) (sk s') = Some (Resumed k2 (Some ([1; 2; 3; 4] ++ replicate 1020 0))).
Proof.
  destruct (loaded_program_pages elf_flash 10 image_prim elf_flash_byte 10 (λ _, protofs_file_system 10 (λ _ _ _, None)) 0 0 (λ _, true) 32 (replicate 52 7)
    (replicate 1024 9) demo_exec elf_bytes demo_header [demo_segment] [] [] [0x88000000; 0x88000400; 0x88000800] 0%nat demo_segment 0x40000
    demo_loadable (demo_empty 3 ltac:(lia)) ltac:(cbn; lia) eq_refl ltac:(cbn; lia) (length_replicate 1024 9) eq_refl)
    as (s' & k2 & x & Hl & Hf & _); [vm_compute; split; congruence..|vm_compute; congruence|vm_compute; split; congruence|vm_compute; congruence|].
  exists s', k2. split; [exact Hl|]. rewrite Hf. do 3 f_equal.
Defined.

(** The same file for another machine. *)
Definition other_flash (a : ptr) : Z := if a =? 8211 then 3 else elf_flash a.

