(* ===== verification/Exec.v ===== *)
(** * execve (src/sys/process.c)

    [sys_execve] copies the arguments and the environment in pages that will be the
    top of the user stack, releases everything of the old program, loads the new
    one and starts it.  The pages are counted from the top of the stack down: page
    [i] holds the addresses from STACK - (i+1)*1024 to STACK - i*1024 - 1.  The
    theorem shows that what the program finds at [argv] are the arguments that were
    given. *)

From S2P Require Import Prelude CyclicFifo PhysMem PoolAlloc KMem Pid Mmu PageDir Kernel Scheduler Pipe VfsFile MemArea.
From S2P Require Import Signal Vfs Protofs Process Sync Tty Time Keyboard Device TextDisplay VirtualTerm Smemfs PageFault FileOps Elf.

(** ** Model *)

(** src/sys/process.h:63-63: PROCESS_ARG_MAX_PAGES *)
Definition PROCESS_ARG_MAX_PAGES : Z := 4.

(** The pages of arguments: their address, NULL when there is none, and their bytes. *)
Abbreviation arg_pages := (list (ptr * list Z)).

(** [* (char** )p = v] on the big-endian target. *)
Definition word_bytes (v : Z) : list Z := [v / 16777216; v / 65536 mod 256; v / 256 mod 256; v mod 256].

Section args.
Context {A : Type} `{!KMem A}.

(** What a page holds when it is allocated. *)
Context (stale : ptr → list Z).

(** [if(pages[i] == NULL) pages[i] = arch_pm_get_free_page(MEM_PM_CACHED);]  The
    accesses outside the array of pages are [None]. *)
(** src/sys/process.c:440-443: copy_arg_array *)
Definition ensure_page (i : Z) (st : arg_pages * A) : option (arg_pages * A) :=
  let '(pages, a) := st in
  '(q, _) ← pages !! Z.to_nat i;
  if q =? NULL then '(p, a) ← km_get_page MEM_PM_CACHED a; Some (<[Z.to_nat i := (p, stale p)]> pages, a)
  else Some (pages, a).

(** [memcpy(pages[i] + pos, data, length data)] *)
(** src/sys/process.c:478-478: copy_arg_array *)
Definition page_write (i pos : Z) (data : list Z) (pages : arg_pages) : option arg_pages :=
  '(q, c) ← pages !! Z.to_nat i;
  if q =? NULL then None else Some (<[Z.to_nat i := (q, memcpy_to c (Z.to_nat pos) data)]> pages).

(** [for(i = first; i <= curpage; i++)], the pages [l]. *)
(** src/sys/process.c:439-444: copy_arg_array *)
Fixpoint prepare_pages (l : list Z) (st : arg_pages * A) : option (arg_pages * A) :=
  match l with [] => Some st | i :: l => st ← ensure_page i st; prepare_pages l st end.

(** The copy of the string [str], with its final zero, from the end: at most [n]
    fragments. *)
(** src/sys/process.c:465-493: copy_arg_array *)
Fixpoint copy_string (n : nat) (str : list Z) (bytesdone curpage pagepos : Z) (st : arg_pages * A)
  : option (Z * Z * (arg_pages * A)) :=
  let arglen := Z.of_nat (length str) in
  if bytesdone <? arglen then
    match n with
    | O => None
    | S n =>
        let fraglen := arglen - bytesdone in
        let fraglen := if pagepos <? fraglen then pagepos else fraglen in
        let pagepos := pagepos - fraglen in
        let bytesdone := bytesdone + fraglen in
        pages ← page_write curpage pagepos (take (Z.to_nat fraglen) (drop (Z.to_nat (arglen - bytesdone)) str)) st.1;
        if pagepos <=? 0 then
          st ← ensure_page (curpage + 1) (pages, st.2);
          copy_string n str bytesdone (curpage + 1) PM_PAGE_BYTES st
        else copy_string n str bytesdone curpage pagepos (pages, st.2)
    end
  else Some (curpage, pagepos, st).

(** The variables of the loop over the arguments. *)
Record arg_loop := mk_arg_loop {
  al_curpage : Z; al_pagepos : Z; al_array_page : Z; al_array_pos : Z; al_vmaddr : ptr; al_abspos : Z; al_pages : arg_pages; al_mem : A
}.

(** One argument. *)
(** src/sys/process.c:455-507: copy_arg_array *)
Definition copy_arg (arg : list Z) (l : arg_loop) : option arg_loop :=
  let str := arg ++ [0] in
  let arglen := Z.of_nat (length str) in
  '(curpage, pagepos, (pages, a)) ← copy_string (length str) str 0 (al_curpage l) (al_pagepos l) (al_pages l, al_mem l);
  let vmaddr := u32 (al_vmaddr l - arglen) in
  pages ← page_write (al_array_page l) (al_array_pos l) (word_bytes vmaddr) pages;
  let array_pos := al_array_pos l + 4 in
  let '(array_page, array_pos) := if PM_PAGE_BYTES <=? array_pos then (al_array_page l + 1, 0) else (al_array_page l, array_pos) in
  Some (mk_arg_loop curpage pagepos array_page array_pos vmaddr (u32 (al_abspos l + arglen)) pages a).

(** src/sys/process.c:455-507: copy_arg_array *)
Fixpoint copy_args (args : list (list Z)) (l : arg_loop) : option arg_loop :=
  match args with [] => Some l | arg :: args => l ← copy_arg arg l; copy_args args l end.

(** Rounds up to a multiple of 4. *)
(** src/sys/process.c:423-424: copy_arg_array *)
Definition align4 (x : Z) : Z := if negb (x mod 4 =? 0) then u32 (x + (4 - x mod 4)) else x.

(** The new [*begin_pos], [*pargc], [*pargv] and the pages. *)
(** src/sys/process.c: copy_arg_array *)
Definition copy_arg_array (begin_pos : Z) (args : list (list Z)) (st : arg_pages * A) : option (Z * Z * ptr * (arg_pages * A)) :=
  let nbargs := Z.of_nat (length args) in
  let abspos := align4 (u32 (begin_pos + (nbargs + 1) * 4)) in
  let array_curpage := Z.shiftr (u32 (abspos - 1)) PM_PAGE_ORDER in
  let array_pagepos := PM_PAGE_BYTES - (abspos - Z.shiftl array_curpage PM_PAGE_ORDER) in
  let curpage := Z.shiftr abspos PM_PAGE_ORDER in
  let pagepos := if 0 <? array_pagepos then array_pagepos else PM_PAGE_BYTES in
  let vmaddr := u32 (ARCH_UNEWPROC_DEFAULT_STACK - abspos) in
  let first := Z.shiftr begin_pos PM_PAGE_ORDER in
  '(pages, a) ← prepare_pages (seqZ first (curpage - first + 1)) st;
  l ← copy_args args (mk_arg_loop curpage pagepos array_curpage array_pagepos vmaddr abspos pages a);
  pages ← page_write (al_array_page l) (al_array_pos l) (word_bytes NULL) (al_pages l);
  Some (align4 (al_abspos l), nbargs, vmaddr, (pages, al_mem l)).
End args.
Arguments mk_arg_loop {A}.
Arguments arg_loop : clear implicits.

(** *** The system call *)

(** How [sys_execve] ends: it returns an error, jumps into the new program, or the
    process is dead. *)
Inductive exec_result {S : Type} := ExecReturns (ret : Z) (s : S) | ExecJumps (s : S) | ExecDead (s : S).
Arguments exec_result : clear implicits.

Section execve.
Context {M Dv : Type} `{!PageMem M}.
Context (flash : Z → Z) (tables : nat) (prim : smemfs_prim) (fuel : nat) (fs : ptr → file_system (kmem M)) (depth reads : nat).

(** What new pages, the local arrays of the loader and the new kernel stack hold. *)
Context (page_stale : ptr → list Z) (stale : list Z) (garbage : context).
Implicit Types (s : system (kmem M) Dv) (k : kernel (kmem M)).

(** src/sys/process.c:553-556: sys_execve *)
Definition copy_opt (begin_pos : Z) (args : option (list (list Z))) (st : arg_pages * kmem M) : option (Z * Z * ptr * (arg_pages * kmem M)) :=
  match args with Some args => copy_arg_array page_stale begin_pos args st | None => Some (begin_pos, 0, NULL, st) end.

(** The slot of a closed file is not cleared. *)
(** src/sys/process.c:560-563: sys_execve *)
Fixpoint close_on_exec (cur : ptr) (fds : list Z) k : option (kernel (kmem M)) :=
  match fds with
  | [] => Some k
  | i :: fds =>
      if negb (aget (files (k_procs k cur)) i =? NULL) && (aget (fdflags (k_procs k cur)) i &? FD_CLOEXEC)
      then '(_, k) ← vfs_close (aget (files (k_procs k cur)) i) k; close_on_exec cur fds k
      else close_on_exec cur fds k
  end.

(** src/sys/process.c:566-569: sys_execve *)
Definition reset_handlers (sigs : list sigaction) : list sigaction :=
  (λ a, if negb (sa_handler a =? SIG_IGN) then mk_sigaction SIG_DFL (sa_mask a) (sa_flags a) else a) <$> sigs.

(** Everything of the old program. *)
(** src/sys/process.c:559-597: sys_execve *)
Definition drop_program (cur : ptr) k : option (kernel (kmem M)) :=
  k ← close_on_exec cur (seqZ 0 PROCESS_MAX_FILE) k;
  let k := upd_proc cur (λ p, set_sig_array (reset_handlers (sig_array p)) p) k in
  k ← release_areas (mem_areas (k_procs k cur)) k;
  let k := upd_proc cur (λ p, set_heap_area NULL (set_mem_areas [] p)) k in
  let '(_, asid', m) := arch_adrsp_release (asid (k_procs k cur)) (k_mmu k) in
  let k := upd_proc cur (set_asid asid') (set_k_mmu m k) in
  a ← release_dirs (dir_list (k_procs k cur)) (k_mem k);
  Some (upd_proc cur (set_dir_list []) (set_k_mem a k)).

(** The pages of arguments become pages of the stack. *)
(** src/sys/process.c:621-630: sys_execve *)
Fixpoint map_arg_pages (cur : ptr) (i : Z) (pages : arg_pages) k : option (kernel (kmem M)) :=
  match pages with
  | [] => Some k
  | (q, _) :: pages =>
      k ← (if negb (q =? NULL) then
             let page := mk_page (PM_PHYSICAL_PAGE q) (Z.lor (Z.lor MEM_PAGE_PRIVATE MEM_PAGE_VALID) MEM_PAGE_CACHED) in
             '(_, dirs, v) ← mem_insert_page pool_fuel (dir_list (k_procs k cur)) page (ARCH_UNEWPROC_DEFAULT_STACK - (i + 1) * PM_PAGE_BYTES) (vmem_of (k_mem k));
             Some (upd_proc cur (set_dir_list dirs) (set_k_mem (with_vmem v (k_mem k)) k))
           else Some k);
      map_arg_pages cur (i + 1) pages k
  end.

(** The registers of the first context. *)
(** src/sys/process.c:632-636: sys_execve *)
Definition start_context (argc : Z) (argv envp : ptr) (arg_pos : Z) (c : context) : context :=
  mk_context (<[15%nat := u32 (ARCH_UNEWPROC_DEFAULT_STACK - arg_pos)]> (<[6%nat := envp]> (<[5%nat := argv]> (<[4%nat := argc]> (reg c)))))
    (gbr c) (macl c) (mach c) (pc c) (sr c) (pr c).

(** Up to the jump of [process_contextjmp] or to [sched_schedule]. *)
(** src/sys/process.c: sys_execve *)
Definition sys_execve (filename : list Z) (argv envp : option (list (list Z))) s : option (exec_result (system (kmem M) Dv)) :=
  '(elf_inode, k) ← vfs_resolve fuel fs filename (sk s);
  if elf_inode =? NULL then Some (ExecReturns (-1) (set_sk k s))
  else
    '(elf_file, k) ← vfs_open fs elf_inode O_RDONLY k;
    if elf_file =? NULL then Some (ExecReturns (-1) (set_sk k s))
    else
      let k := sched_preempt_block k in
      let cur := process_get_current k in
      '(arg_pos, argc, arg_argv, st) ← copy_opt 0 argv (replicate (Z.to_nat PROCESS_ARG_MAX_PAGES) (NULL, []), k_mem k);
      '(arg_pos, _, arg_envp, (pages, a)) ← copy_opt arg_pos envp st;
      k ← drop_program cur (set_k_mem a k);
      let old_kstack := kernel_stack (k_procs k cur) in
      let k := upd_proc cur (set_state PROCESS_STATE_CREATE) k in
      '(r, s) ← elfloader_load flash tables prim fuel fs depth reads elf_file cur stale garbage (set_sk k s);
      let k := sk s in
      if negb (r =? 0) then
        Some (ExecDead (set_sk (sched_preempt_unblock (upd_proc cur (set_state PROCESS_STATE_CREATE) k)) s))
      else
        k ← map_arg_pages cur 0 pages k;
        let k := upd_proc cur (λ p, match acnt p with c :: l => set_acnt (start_context argc arg_argv arg_envp arg_pos c :: l) p | [] => p end) k in
        let k := sched_preempt_unblock k in
        a ← km_put_page (u32 (old_kstack - 1)) (k_mem k);
        Some (ExecJumps (set_sk (set_k_mem a k) s)).
End execve.

(** ** The stack as the program sees it *)

(** The byte at distance [d] from the top of the stack, [0 < d <= 4096]. *)
Definition byte_at (pages : arg_pages) (d : Z) : Z :=
  nth (Z.to_nat (1023 - (d - 1) mod 1024)) (nth (Z.to_nat ((d - 1) / 1024)) pages (NULL, [])).2 0.

(** The word and the string of bytes at an address. *)
Definition stack_byte (pages : arg_pages) (a : ptr) : Z := byte_at pages (ARCH_UNEWPROC_DEFAULT_STACK - a).
Definition stack_word (pages : arg_pages) (a : ptr) : Z :=
  stack_byte pages a * 16777216 + stack_byte pages (a + 1) * 65536 + stack_byte pages (a + 2) * 256 + stack_byte pages (a + 3).
Definition stack_bytes (pages : arg_pages) (a : ptr) (n : nat) : list Z := (λ i, stack_byte pages (a + i)) <$> seqZ 0 (Z.of_nat n).

(** Four pages, of 1024 bytes when they are allocated. *)
Definition pages_ok (pages : arg_pages) : Prop :=
  length pages = 4%nat ∧ ∀ i q c, pages !! i = Some (q, c) → q ≠ NULL → length c = 1024%nat.
Definition allocated (pages : arg_pages) (i : Z) : Prop := ∃ q c, pages !! Z.to_nat i = Some (q, c) ∧ q ≠ NULL.

Lemma page_write_spec i pos data pages :
  pages_ok pages → allocated pages i → 0 ≤ i < 4 → 0 ≤ pos → pos + Z.of_nat (length data) ≤ 1024 →
  ∃ pages', page_write i pos data pages = Some pages' ∧ pages_ok pages' ∧ (∀ j, allocated pages j → allocated pages' j) ∧
    ∀ d, 0 < d ≤ 4096 → byte_at pages' d =
      let top := i * 1024 + 1024 - pos in
      if (top - Z.of_nat (length data) <? d) && (d <=? top) then nth (Z.to_nat (top - d)) data 0 else byte_at pages d.
Proof.
  intros [Hl Hc] (q & c & Hq & Hn) Hi Hpos Hdata. unfold page_write. rewrite Hq. cbn [mbind option_bind].
  rewrite (proj2 (Z.eqb_neq q NULL)) by done. pose proof (Hc _ _ _ Hq Hn) as Hlc.
  eexists. split; [reflexivity|]. split; [|split].
  - split; [by rewrite length_insert|]. intros j q' c' Hj Hn'. destruct (decide (Z.to_nat i = j)) as [<-|Hne].
    + rewrite list_lookup_insert_eq in Hj by lia. injection Hj as <- <-. by rewrite memcpy_to_length.
    + rewrite list_lookup_insert_ne in Hj by done. by eapply Hc.
  - intros j (q' & c' & Hj & Hn'). destruct (decide (Z.to_nat i = Z.to_nat j)) as [He|Hne].
    + eexists q, _. rewrite <- He, list_lookup_insert_eq by lia. done.
    + exists q', c'. by rewrite list_lookup_insert_ne.
  - intros d Hd. cbv zeta. unfold byte_at. rewrite (nth_lookup (<[_ := _]> pages)).
    pose proof (Z.div_mod (d - 1) 1024 ltac:(lia)) as Hdm. pose proof (Z.mod_pos_bound (d - 1) 1024 ltac:(lia)) as Hmod.
    destruct (decide (i = (d - 1) / 1024)) as [He|Hne].
    + rewrite <- He. rewrite list_lookup_insert_eq by lia. cbn [default snd]. unfold id. rewrite (nth_lookup pages), Hq. cbn [default snd]. unfold id. cbn [snd].
      rewrite !nth_lookup, memcpy_to_lookup by lia.
      destruct (Z.ltb_spec (i * 1024 + 1024 - pos - Z.of_nat (length data)) d), (Z.leb_spec d (i * 1024 + 1024 - pos)); cbn [andb].
      * rewrite decide_True by lia. do 2 f_equal. lia.
      * rewrite decide_False by lia. done.
      * rewrite decide_False by lia. done.
      * rewrite decide_False by lia. done.
    + rewrite list_lookup_insert_ne by lia. rewrite <- nth_lookup.
      destruct (Z.ltb_spec (i * 1024 + 1024 - pos - Z.of_nat (length data)) d), (Z.leb_spec d (i * 1024 + 1024 - pos)); cbn [andb]; try done. lia.
Qed.

Section roundtrip.
Context {A : Type} `{!KMem A} (stale : ptr → list Z) (Hstale : ∀ p, length (stale p) = 1024%nat).

(** At least [n] pages are free. *)
Definition has_free (a : A) (n : Z) : Prop := ∃ L H F, km_inv a L H F ∧ n ≤ Z.of_nat (length F).

Lemma ensure_page_spec i pages a n :
  pages_ok pages → 0 ≤ i < 4 → has_free a (n + 1) → 0 ≤ n →
  ∃ pages' a', ensure_page stale i (pages, a) = Some (pages', a') ∧ pages_ok pages' ∧ allocated pages' i ∧
    (∀ j, allocated pages j → allocated pages' j) ∧ has_free a' n ∧
    ∀ d, 0 < d ≤ 4096 → (d - 1) / 1024 ≠ i ∨ allocated pages i → byte_at pages' d = byte_at pages d.
Proof.
  intros [Hl Hc] Hi (L & H & F & Hkm & HF) Hn. unfold ensure_page.
  destruct (lookup_lt_is_Some_2 pages (Z.to_nat i)) as [[q c] Hq]; [lia|]. rewrite Hq. cbn [mbind option_bind].
  destruct (Z.eqb_spec q NULL) as [->|Hqn].
  - destruct (km_get_ok MEM_PM_CACHED a L H F Hkm) as (x & p & a' & F' & Hg & Hpn & _ & HFF & Hkm'); [destruct F; [cbn in HF; lia|done]|].
    rewrite Hg. cbn [mbind option_bind]. eexists _, a'. split; [reflexivity|]. split; [|split; [|split; [|split]]].
    + split; [by rewrite length_insert|]. intros j q' c' Hj Hn'. destruct (decide (Z.to_nat i = j)) as [<-|Hne].
      * rewrite list_lookup_insert_eq in Hj by lia. injection Hj as <- <-. apply Hstale.
      * rewrite list_lookup_insert_ne in Hj by done. by eapply Hc.
    + exists p, (stale p). by rewrite list_lookup_insert_eq by lia.
    + intros j (q' & c' & Hj & Hn'). exists q', c'. rewrite list_lookup_insert_ne; [done|]. intros He. rewrite He, Hj in Hq. by injection Hq as ->.
    + exists L, (x :: H), F'. split; [done|]. rewrite HFF in HF. cbn [length] in HF. lia.
    + intros d Hd [Hne|(q' & c' & Hq' & Hn')].
      * unfold byte_at. rewrite (nth_lookup (<[_ := _]> pages)), list_lookup_insert_ne, <- nth_lookup; [done|].
        pose proof (Z.div_pos (d - 1) 1024). lia.
      * rewrite Hq in Hq'. by injection Hq' as <-.
  - exists pages, a. split; [done|]. split; [done|]. split; [by exists q, c|]. split; [done|]. split; [|done].
    exists L, H, F. split; [done|lia].
Qed.

(** Where the next byte goes: page [cp], below position [pp]; [used] bytes from the
    top of the stack are used, and pages can be taken up to the last one. *)
Record cursor (cp pp used : Z) (pages : arg_pages) (a : A) : Prop := {
  cu_used : used = cp * 1024 + 1024 - pp;
  cu_pos : 0 < pp ≤ 1024;
  cu_page : 0 ≤ cp < 4;
  cu_ok : pages_ok pages;
  cu_alloc : allocated pages cp;
  cu_free : has_free a (3 - cp)
}.

Lemma copy_string_spec str : ∀ n bytesdone cp pp used pages a,
  let r := Z.of_nat (length str) - bytesdone in
  0 ≤ bytesdone → 0 ≤ r ≤ Z.of_nat n → cursor cp pp used pages a → used + r < 4096 →
  ∃ cp' pp' pages' a', copy_string stale n str bytesdone cp pp (pages, a) = Some (cp', pp', (pages', a')) ∧
    cursor cp' pp' (used + r) pages' a' ∧ (∀ j, allocated pages j → allocated pages' j) ∧
    (∀ d, 0 < d ≤ used → byte_at pages' d = byte_at pages d) ∧
    (∀ j, 0 ≤ j < r → byte_at pages' (used + r - j) = nth (Z.to_nat j) str 0).
Proof.
  induction n as [|n IH]; intros bytesdone cp pp used pages a r Hb Hr Hcu Hlt; subst r; cbn [copy_string].
  { rewrite (proj2 (Z.ltb_ge _ _)) by lia. exists cp, pp, pages, a. split_and!; try done; [|lia].
    by replace (used + _) with used by lia. }
  set (len := Z.of_nat (length str)) in *. destruct (Z.ltb_spec bytesdone len) as [Hmore|Hdone].
  2: { exists cp, pp, pages, a. split_and!; try done; [|lia]. by replace (used + _) with used by lia. }
  pose proof Hcu as [Hu Hpp Hcp Hok Hal Hfr].
  set (frag := if pp <? len - bytesdone then pp else len - bytesdone).
  assert (Hfrag : frag = Z.min pp (len - bytesdone)) by (unfold frag; destruct (Z.ltb_spec pp (len - bytesdone)); lia). clearbody frag.
  set (data := take (Z.to_nat frag) (drop (Z.to_nat (len - (bytesdone + frag))) str)).
  assert (Hdl : Z.of_nat (length data) = frag) by (unfold data; rewrite length_take, length_drop; lia).
  assert (Hdn : ∀ j, 0 ≤ j < frag → nth (Z.to_nat j) data 0 = nth (Z.to_nat (len - (bytesdone + frag) + j)) str 0).
  { intros j Hj. unfold data. rewrite !nth_lookup, lookup_take_lt, lookup_drop by lia. do 2 f_equal. lia. }
  destruct (page_write_spec cp (pp - frag) data pages Hok Hal Hcp) as (pages1 & Hw & Hok1 & Hmono1 & Hview1); [lia..|].
  cbn [fst snd]. rewrite Hw. cbn [mbind option_bind]. cbv zeta in Hview1. rewrite Hdl in Hview1.
  (* the rest, from any cursor that extends this one *)
  assert (Hrest : ∀ cp1 pp1 pages2 a2, cursor cp1 pp1 (used + frag) pages2 a2 → (∀ j, allocated pages1 j → allocated pages2 j) →
    (∀ d, 0 < d ≤ used + frag → byte_at pages2 d = byte_at pages1 d) →
    ∃ cp' pp' pages' a', copy_string stale n str (bytesdone + frag) cp1 pp1 (pages2, a2) = Some (cp', pp', (pages', a')) ∧
      cursor cp' pp' (used + (len - bytesdone)) pages' a' ∧ (∀ j, allocated pages j → allocated pages' j) ∧
      (∀ d, 0 < d ≤ used → byte_at pages' d = byte_at pages d) ∧
      (∀ j, 0 ≤ j < len - bytesdone → byte_at pages' (used + (len - bytesdone) - j) = nth (Z.to_nat j) str 0)).
  { intros cp1 pp1 pages2 a2 Hcu2 Hmono2 Hsame2.
    destruct (IH (bytesdone + frag) cp1 pp1 (used + frag) pages2 a2) as (cp' & pp' & pages' & a' & Hc & Hcu' & Hm' & Hp' & Hs'); [lia|fold len; lia|done|fold len; lia|].
    fold len in Hcu', Hs'. exists cp', pp', pages', a'. split; [done|]. split; [by replace (used + (len - bytesdone)) with (used + frag + (len - (bytesdone + frag))) by lia|].
    split; [auto|]. split.
    - intros d Hd. rewrite Hp', Hsame2, Hview1 by lia. rewrite (proj2 (Z.ltb_ge (_ - frag) d)) by lia. done.
    - intros j Hj. destruct (decide (j < len - (bytesdone + frag))) as [Hj1|Hj1].
      + rewrite <- (Hs' j) by lia. f_equal. lia.
      + rewrite Hp', Hsame2, Hview1 by lia. rewrite (proj2 (Z.ltb_lt _ _)), (proj2 (Z.leb_le _ _)) by lia. cbn [andb].
        rewrite Hdn by lia. f_equal. lia. }
  destruct (Z.leb_spec (pp - frag) 0) as [Hfull|Hpart].
  - destruct (ensure_page_spec (cp + 1) pages1 a (3 - (cp + 1))) as (pages2 & a2 & He & Hok2 & Hal2 & Hmono2 & Hfr2 & Hsame2);
      [done|lia|by replace (3 - (cp + 1) + 1) with (3 - cp) by lia|lia|].
    rewrite He. cbn [mbind option_bind]. rewrite page_bytes. apply Hrest; [split; try done; lia|done|].
    intros d Hd. apply Hsame2; [lia|]. left. intros Hx. pose proof (Z.div_mod (d - 1) 1024 ltac:(lia)). pose proof (Z.mod_pos_bound (d - 1) 1024 ltac:(lia)). lia.
  - apply Hrest; [split; try done; [lia|lia|by apply Hmono1]|done|done].
Qed.

(** The size of the strings, with their final zeros. *)
Definition total (args : list (list Z)) : Z := foldr (λ s n, Z.of_nat (length s) + 1 + n) 0 args.

Lemma total_nonneg args : 0 ≤ total args.
Proof. induction args as [|s args IH]; cbn [total foldr] in *; [lia|]. fold (total args). lia. Qed.

(** The four bytes from distance [d] are the word [v]. *)
Definition word_at (pages : arg_pages) (d v : Z) : Prop := ∀ j, 0 ≤ j < 4 → byte_at pages (d - j) = nth (Z.to_nat j) (word_bytes v) 0.

(** The string [s] ends at distance [e] of the top. *)
Definition string_at (pages : arg_pages) (e : Z) (s : list Z) : Prop :=
  ∀ j, 0 ≤ j ≤ Z.of_nat (length s) → byte_at pages (e - j) = nth (Z.to_nat j) (s ++ [0]) 0.

(** The loop between two arguments: [top] is the distance of the next cell of the
    array of pointers, which has room for [n] more pointers in its page. *)
Record loop_ok (l : arg_loop A) (top n : Z) : Prop := {
  lo_cursor : cursor (al_curpage l) (al_pagepos l) (al_abspos l) (al_pages l) (al_mem l);
  lo_vm : al_vmaddr l = ARCH_UNEWPROC_DEFAULT_STACK - al_abspos l;
  lo_top : top = al_array_page l * 1024 + 1024 - al_array_pos l;
  lo_array : 0 ≤ al_array_page l < 4 ∧ 0 ≤ al_array_pos l ∧ al_array_pos l + 4 * n ≤ 1024;
  lo_alloc : allocated (al_pages l) (al_array_page l);
  lo_below : top ≤ al_abspos l
}.

Lemma copy_arg_spec s l top n :
  loop_ok l top n → 2 ≤ n → al_abspos l + Z.of_nat (length s) + 1 < 4096 →
  let e := al_abspos l + Z.of_nat (length s) + 1 in
  ∃ l', copy_arg stale s l = Some l' ∧ loop_ok l' (top - 4) (n - 1) ∧ al_abspos l' = e ∧
    (∀ d, 0 < d ≤ al_abspos l → d ≤ top - 4 ∨ top < d → byte_at (al_pages l') d = byte_at (al_pages l) d) ∧
    word_at (al_pages l') top (ARCH_UNEWPROC_DEFAULT_STACK - e) ∧ string_at (al_pages l') e s.
Proof.
  intros [Hcu Hvm Htop (Hap & Hpos & Hroom) Hal Hbelow] Hn Hlt. cbv zeta. unfold copy_arg.
  assert (Hlen : Z.of_nat (length (s ++ [0])) = Z.of_nat (length s) + 1) by (rewrite length_app; cbn [length]; lia).
  destruct (copy_string_spec (s ++ [0]) (length (s ++ [0])) 0 _ _ _ _ _ ltac:(lia) ltac:(lia) Hcu) as (cp & pp & pages1 & a1 & Hc & Hcu1 & Hm1 & Hp1 & Hs1); [lia|].
  rewrite Hlen, Z.sub_0_r in *. rewrite Hc. cbn [mbind option_bind]. pose proof Hcu as [Hu1 Hu2 Hu3 _ _ _].
  set (e := al_abspos l + Z.of_nat (length s) + 1) in *. assert (He : al_abspos l + (Z.of_nat (length s) + 1) = e) by (unfold e; lia). rewrite He in *.
  assert (Hvm1 : u32 (al_vmaddr l - (Z.of_nat (length s) + 1)) = ARCH_UNEWPROC_DEFAULT_STACK - e).
  { rewrite Hvm. unfold ARCH_UNEWPROC_DEFAULT_STACK, e. rewrite u32_small; lia. }
  rewrite Hvm1. pose proof Hcu1 as [E1 E2 E3 E4 E5 E6].
  destruct (page_write_spec (al_array_page l) (al_array_pos l) (word_bytes (ARCH_UNEWPROC_DEFAULT_STACK - e)) pages1 E4) as (pages2 & Hw & Hok2 & Hm2 & Hv2);
    [by apply Hm1|lia|lia|cbn [word_bytes length]; lia|].
  rewrite Hw. cbn [mbind option_bind]. rewrite page_bytes, (proj2 (Z.leb_gt 1024 _)) by lia.
  cbv zeta in Hv2. rewrite <- Htop in Hv2. change (Z.of_nat (length (word_bytes _))) with 4 in Hv2.
  eexists. split; [reflexivity|]. rewrite u32_small by lia. split; [|split; [reflexivity|split; [|split]]]; cbn [al_pages al_abspos al_curpage al_pagepos al_mem al_vmaddr al_array_page al_array_pos].
  - split; cbn [al_pages al_abspos al_curpage al_pagepos al_mem al_vmaddr al_array_page al_array_pos]; try lia.
    + split; try done. by apply Hm2.
    + apply Hm2, Hm1, Hal.
  - intros d Hd Hside. rewrite Hv2 by lia. replace ((top - 4 <? d) && (d <=? top)) with false; [apply Hp1; lia|].
    symmetry. destruct Hside; [rewrite (proj2 (Z.ltb_ge _ _)) by lia; done|rewrite (proj2 (Z.leb_gt d top)) by lia; apply andb_false_r].
  - intros j Hj. rewrite Hv2 by lia. rewrite (proj2 (Z.ltb_lt _ _)), (proj2 (Z.leb_le _ _)) by lia. cbn [andb]. f_equal. lia.
  - intros j Hj. rewrite Hv2 by lia. rewrite (proj2 (Z.leb_gt (e - j) top)) by (unfold e; lia). rewrite andb_false_r. apply Hs1. lia.
Qed.

(** The whole loop. *)
Lemma copy_args_spec args : ∀ l top,
  loop_ok l top (Z.of_nat (length args) + 1) → al_abspos l + total args < 4096 →
  ∃ l', copy_args stale args l = Some l' ∧ loop_ok l' (top - 4 * Z.of_nat (length args)) 1 ∧ al_abspos l' = al_abspos l + total args ∧
    (∀ d, 0 < d ≤ al_abspos l → d ≤ top - 4 * Z.of_nat (length args) ∨ top < d → byte_at (al_pages l') d = byte_at (al_pages l) d) ∧
    ∀ i s, args !! i = Some s →
      let e := al_abspos l + total (take (S i) args) in
      word_at (al_pages l') (top - 4 * Z.of_nat i) (ARCH_UNEWPROC_DEFAULT_STACK - e) ∧ string_at (al_pages l') e s ∧
      al_abspos l < e ≤ al_abspos l'.
Proof.
  induction args as [|s args IH]; intros l top Hok Hlt.
  { exists l. cbn [length Z.of_nat copy_args total foldr]. rewrite Z.mul_0_r, Z.sub_0_r, Z.add_0_r. split_and!; try done. }
  cbn [length] in *. cbn [total foldr] in Hlt. fold (total args) in Hlt. pose proof (total_nonneg args) as Ht.
  destruct (copy_arg_spec s l top (Z.of_nat (S (length args)) + 1) Hok) as (l1 & Hc1 & Hok1 & Hab1 & Hp1 & Hw1 & Hs1); [lia|lia|].
  replace (Z.of_nat (S (length args)) + 1 - 1) with (Z.of_nat (length args) + 1) in Hok1 by lia.
  destruct (IH l1 (top - 4) Hok1 ltac:(lia)) as (l' & Hc' & Hok' & Hab' & Hp' & Hargs).
  pose proof (lo_below _ _ _ Hok) as Hbelow. pose proof (lo_array _ _ _ Hok) as (Hap & Hpos & Hroom). pose proof (lo_top _ _ _ Hok) as Htop.
  cbn [copy_args]. rewrite Hc1. cbn [mbind option_bind]. exists l'. split; [exact Hc'|].
  replace (top - 4 * Z.of_nat (S (length args))) with (top - 4 - 4 * Z.of_nat (length args)) by lia. split; [done|].
  cbn [total foldr]. fold (total args). split; [lia|]. split.
  - intros d Hd Hside. rewrite Hp', Hp1; [done|lia..].
  - intros [|i] s' Hi; cbn [lookup list_lookup] in Hi.
    + injection Hi as <-. cbn [take total foldr]. replace (take 0 args) with (@nil (list Z)) by (by destruct args). cbn [foldr].
      rewrite Z.add_0_r. rewrite Z.mul_0_r, Z.sub_0_r. rewrite Z.add_assoc, <- Hab1. split; [|split; [|lia]].
      * intros j Hj. rewrite Hp' by lia. rewrite Hab1. by apply Hw1.
      * intros j Hj. rewrite Hp' by lia. rewrite Hab1. by apply Hs1.
    + cbn [take total foldr]. fold (total (take (S i) args)). destruct (Hargs i s' Hi) as (Hw' & Hs' & Hb').
      rewrite Hab1 in *. rewrite Z.add_assoc, Z.add_assoc. replace (top - 4 * Z.of_nat (S i)) with (top - 4 - 4 * Z.of_nat i) by lia.
      split; [done|]. split; [done|lia].
Qed.

Lemma prepare_pages_spec m : ∀ first pages a n,
  pages_ok pages → 0 ≤ first → first + Z.of_nat m ≤ 4 → has_free a (Z.of_nat m + n) → 0 ≤ n →
  ∃ pages' a', prepare_pages stale (seqZ first (Z.of_nat m)) (pages, a) = Some (pages', a') ∧ pages_ok pages' ∧
    (∀ i, first ≤ i < first + Z.of_nat m → allocated pages' i) ∧ (∀ j, allocated pages j → allocated pages' j) ∧ has_free a' n ∧
    ∀ d, 0 < d ≤ 4096 → (d - 1) / 1024 < first ∨ allocated pages ((d - 1) / 1024) → byte_at pages' d = byte_at pages d.
Proof.
  induction m as [|m IH]; intros first pages a n Hok Hf Hm Hfr Hn.
  { exists pages, a. split_and!; try done. lia. }
  replace (Z.of_nat (S m)) with (Z.succ (Z.of_nat m)) in * by lia. rewrite seqZ_cons, Z.pred_succ by lia. cbn [prepare_pages].
  destruct (ensure_page_spec first pages a (Z.of_nat m + n) Hok) as (pages1 & a1 & He & Hok1 & Hal1 & Hm1 & Hfr1 & Hs1);
    [lia|by replace (Z.of_nat m + n + 1) with (Z.succ (Z.of_nat m) + n) by lia|lia|].
  rewrite He. cbn [mbind option_bind]. destruct (IH (Z.succ first) pages1 a1 n Hok1) as (pages2 & a2 & Hp & Hok2 & Hal2 & Hm2 & Hfr2 & Hs2); [lia|lia|done|done|].
  exists pages2, a2. split; [done|]. split; [done|]. split; [|split; [auto|split; [done|]]].
  - intros i Hi. destruct (decide (i = first)) as [->|]; [by apply Hm2|]. apply Hal2. lia.
  - intros d Hd Hside. rewrite Hs2, Hs1; [done|done| |done|].
    + destruct Hside as [?|Ha]; [left; lia|]. destruct (decide ((d - 1) / 1024 = first)) as [<-|]; [by right|by left].
    + destruct Hside as [?|Ha]; [left; lia|right; by apply Hm1].
Qed.

Lemma word_bytes_value v b : 0 ≤ v < 2 ^ 32 → (∀ j, 0 ≤ j < 4 → b j = nth (Z.to_nat j) (word_bytes v) 0) →
  b 0 * 16777216 + b 1 * 65536 + b 2 * 256 + b 3 = v.
Proof.
  intros Hv Hb. rewrite !Hb by lia. change (Z.to_nat 0) with 0%nat. change (Z.to_nat 1) with 1%nat. change (Z.to_nat 2) with 2%nat.
  change (Z.to_nat 3) with 3%nat. cbn [nth word_bytes].
  replace (v / 65536) with (v / 256 / 256) by (by rewrite Z.div_div). replace (v / 16777216) with (v / 256 / 256 / 256) by (by rewrite !Z.div_div).
  pose proof (Z.div_mod v 256 ltac:(lia)). pose proof (Z.div_mod (v / 256) 256 ltac:(lia)). pose proof (Z.div_mod (v / 256 / 256) 256 ltac:(lia)). lia.
Qed.

Lemma stack_word_at pages d v : 0 ≤ v < 2 ^ 32 → word_at pages d v → stack_word pages (ARCH_UNEWPROC_DEFAULT_STACK - d) = v.
Proof.
  intros Hv Hw. unfold stack_word, stack_byte. rewrite <- (word_bytes_value v (λ j, byte_at pages (d - j)) Hv Hw).
  replace (ARCH_UNEWPROC_DEFAULT_STACK - (ARCH_UNEWPROC_DEFAULT_STACK - d)) with (d - 0) by lia.
  replace (ARCH_UNEWPROC_DEFAULT_STACK - (ARCH_UNEWPROC_DEFAULT_STACK - d + 1)) with (d - 1) by lia.
  replace (ARCH_UNEWPROC_DEFAULT_STACK - (ARCH_UNEWPROC_DEFAULT_STACK - d + 2)) with (d - 2) by lia.
  by replace (ARCH_UNEWPROC_DEFAULT_STACK - (ARCH_UNEWPROC_DEFAULT_STACK - d + 3)) with (d - 3) by lia.
Qed.

Lemma stack_string_at pages e s :
  string_at pages e s → stack_bytes pages (ARCH_UNEWPROC_DEFAULT_STACK - e) (S (length s)) = s ++ [0].
Proof.
  intros Hs. unfold stack_bytes. apply list_eq. intros i. destruct (decide (i < S (length s))%nat) as [Hi|Hi].
  - rewrite list_lookup_fmap, lookup_seqZ_lt by lia. cbn [fmap option_fmap option_map]. unfold stack_byte.
    replace (ARCH_UNEWPROC_DEFAULT_STACK - (ARCH_UNEWPROC_DEFAULT_STACK - e + (0 + Z.of_nat i))) with (e - Z.of_nat i) by lia.
    rewrite Hs by lia. rewrite Nat2Z.id, nth_lookup. destruct (lookup_lt_is_Some_2 (s ++ [0]) i) as [c Hc]; [rewrite length_app; cbn; lia|]. by rewrite Hc.
  - rewrite !lookup_ge_None_2; [done|rewrite length_app; cbn; lia|rewrite length_fmap, length_seqZ; lia].
Qed.

Lemma align4_spec x : 0 ≤ x < 2 ^ 31 → x ≤ align4 x < x + 4 ∧ align4 x mod 4 = 0.
Proof.
  intros Hx. unfold align4. pose proof (Z.mod_pos_bound x 4 ltac:(lia)). pose proof (Z.div_mod x 4 ltac:(lia)).
  destruct (Z.eqb_spec (x mod 4) 0); cbn [negb]; [lia|]. rewrite u32_small by lia.
  split; [lia|]. symmetry. apply (Z.mod_unique_pos _ _ (x / 4 + 1)); lia.
Qed.

(** The variables before the loop over the arguments. *)
Lemma first_positions b n :
  0 ≤ b → 0 ≤ n → b mod 4 = 0 → b + 4 * (n + 1) < 4096 → b / 1024 = (b + 4 * (n + 1) - 1) / 1024 →
  let abspos := align4 (u32 (b + (n + 1) * 4)) in let ap := Z.shiftr (u32 (abspos - 1)) PM_PAGE_ORDER in
  let pos := PM_PAGE_BYTES - (abspos - Z.shiftl ap PM_PAGE_ORDER) in let cp := Z.shiftr abspos PM_PAGE_ORDER in
  let pp := if 0 <? pos then pos else PM_PAGE_BYTES in
  abspos = b + 4 * (n + 1) ∧ ap = b / 1024 ∧ pos = ap * 1024 + 1024 - abspos ∧ 0 ≤ pos ∧ pos + 4 * (n + 1) ≤ 1024 ∧
  abspos = cp * 1024 + 1024 - pp ∧ 0 < pp ≤ 1024 ∧ 0 ≤ ap ≤ cp ∧ cp < 4 ∧ Z.shiftr b PM_PAGE_ORDER = ap.
Proof.
  intros Hb Hn Hmod Hlt Hone. cbv zeta. set (x := b + 4 * (n + 1)) in *.
  assert (Hx : align4 (u32 (b + (n + 1) * 4)) = x).
  { rewrite u32_small by lia. replace (b + (n + 1) * 4) with x by lia. unfold align4.
    assert (Hxm : x mod 4 = 0) by (unfold x; rewrite Z.mul_comm, Z.mod_add by lia; done). by rewrite Hxm. }
  rewrite Hx, u32_small by lia. unfold PM_PAGE_ORDER. rewrite !Z.shiftr_div_pow2, Z.shiftl_mul_pow2, page_bytes by lia.
  change (2 ^ 10) with 1024. rewrite <- Hone.
  pose proof (Z.div_mod b 1024 ltac:(lia)). pose proof (Z.mod_pos_bound b 1024 ltac:(lia)).
  pose proof (Z.div_mod (x - 1) 1024 ltac:(lia)). pose proof (Z.mod_pos_bound (x - 1) 1024 ltac:(lia)).
  pose proof (Z.div_mod x 1024 ltac:(lia)). pose proof (Z.mod_pos_bound x 1024 ltac:(lia)).
  destruct (Z.ltb_spec 0 (1024 - (x - b / 1024 * 1024))); split_and!; try done; lia.
Qed.

Lemma copy_arg_array_spec b args pages a :
  let n := Z.of_nat (length args) in let top := b + 4 * (n + 1) in
  pages_ok pages → has_free a 4 → 0 ≤ b → b mod 4 = 0 → top + total args < 4096 → b / 1024 = (top - 1) / 1024 →
  ∃ e pages' a', copy_arg_array stale b args (pages, a) = Some (e, n, ARCH_UNEWPROC_DEFAULT_STACK - top, (pages', a')) ∧
    top + total args ≤ e < top + total args + 4 ∧ e mod 4 = 0 ∧ word_at pages' (b + 4) NULL ∧
    (∀ i s, args !! i = Some s → ∃ x, word_at pages' (top - 4 * Z.of_nat i) (ARCH_UNEWPROC_DEFAULT_STACK - x) ∧ string_at pages' x s ∧ 0 < x < 4096) ∧
    (∀ d, 0 < d ≤ b → allocated pages ((d - 1) / 1024) → byte_at pages' d = byte_at pages d).
Proof.
  cbv zeta. set (n := Z.of_nat (length args)). set (top := b + 4 * (n + 1)). intros Hok Hfr Hb Hmod Hlt Hone.
  pose proof (total_nonneg args) as Htot.
  destruct (first_positions b n Hb ltac:(lia) Hmod ltac:(lia) Hone) as (Habs & Hap & Hpos & Hpos0 & Hroom & Hused & Hpp & Hcp & Hcp4 & Hfirst).
  unfold copy_arg_array. fold n. set (abspos := align4 (u32 (b + (n + 1) * 4))) in *.
  set (ap := Z.shiftr (u32 (abspos - 1)) PM_PAGE_ORDER) in *. set (pos := PM_PAGE_BYTES - (abspos - Z.shiftl ap PM_PAGE_ORDER)) in *.
  set (cp := Z.shiftr abspos PM_PAGE_ORDER) in *. set (pp := if 0 <? pos then pos else PM_PAGE_BYTES) in *.
  rewrite Hfirst. clearbody abspos ap pos cp pp. fold top in Habs. rewrite Habs in *.
  rewrite (u32_small (ARCH_UNEWPROC_DEFAULT_STACK - top)) by (unfold ARCH_UNEWPROC_DEFAULT_STACK; lia).
  destruct (prepare_pages_spec (Z.to_nat (cp - ap + 1)) ap pages a (3 - cp) Hok) as (pages1 & a1 & Hprep & Hok1 & Hal1 & Hm1 & Hfr1 & Hs1);
    [lia|lia| |lia|].
  { destruct Hfr as (L & H & F & Hkm & HF). exists L, H, F. split; [done|lia]. }
  rewrite Z2Nat.id in Hprep, Hal1 by lia. rewrite Hprep. cbn [mbind option_bind].
  set (l0 := mk_arg_loop cp pp ap pos (ARCH_UNEWPROC_DEFAULT_STACK - top) top pages1 a1).
  assert (Hl0 : loop_ok l0 top (n + 1)).
  { split; cbn [l0 al_pages al_abspos al_curpage al_pagepos al_mem al_vmaddr al_array_page al_array_pos]; try lia.
    - split; try done; [lia|apply Hal1; lia].
    - apply Hal1. lia. }
  destruct (copy_args_spec args l0 top Hl0) as (l & Hc & Hl & Hab & Hp & Hargs); [exact Hlt|]. rewrite Hc. cbn [mbind option_bind].
  fold n in Hl, Hp. change (al_abspos l0) with top in *. change (al_pages l0) with pages1 in *.
  pose proof Hl as [Hcu _ Htop (Hap1 & Hap2 & Hap3) Hall _]. pose proof Hcu as [_ _ _ Hok2 _ _].
  destruct (page_write_spec (al_array_page l) (al_array_pos l) (word_bytes NULL) (al_pages l) Hok2 Hall) as (pages2 & Hw & _ & _ & Hv); [lia|lia|cbn [word_bytes length]; lia|].
  rewrite Hw. cbn [mbind option_bind]. cbv zeta in Hv. rewrite <- Htop in Hv. change (Z.of_nat (length (word_bytes _))) with 4 in Hv.
  replace (top - 4 * n) with (b + 4) in * by lia.
  assert (Hkeep : ∀ d, 0 < d ≤ 4096 → d ≤ b ∨ b + 4 < d → byte_at pages2 d = byte_at (al_pages l) d).
  { intros d Hd Hside. rewrite Hv by lia. replace ((b + 4 - 4 <? d) && (d <=? b + 4)) with false; [done|].
    symmetry. destruct Hside; [rewrite (proj2 (Z.ltb_ge _ _)) by lia; done|rewrite (proj2 (Z.leb_gt d _)) by lia; apply andb_false_r]. }
  rewrite Hab. exists (align4 (top + total args)), pages2, (al_mem l). split; [done|].
  destruct (align4_spec (top + total args) ltac:(lia)) as [He1 He2]. split; [done|]. split; [done|]. split; [|split].
  - intros j Hj. rewrite Hv by lia. rewrite (proj2 (Z.ltb_lt _ _)), (proj2 (Z.leb_le _ _)) by lia. cbn [andb]. f_equal. lia.
  - intros i s Hi. destruct (Hargs i s Hi) as (Hwi & Hsi & Hbi). rewrite Hab in Hbi. pose proof (lookup_lt_Some _ _ _ Hi) as Hil.
    assert (Hlen : Z.of_nat (length s) < total (take (S i) args)).
    { clear -Hi. revert i Hi. induction args as [|s' args IH]; intros i Hi; [done|]. destruct i as [|i]; cbn [lookup list_lookup] in Hi.
      - injection Hi as ->. cbn [take total foldr]. fold (total (take 0 args)). pose proof (total_nonneg (take 0 args)). lia.
      - cbn [take total foldr]. fold (total (take (S i) args)). specialize (IH i Hi). lia. }
    exists (top + total (take (S i) args)). split; [|split; [|lia]].
    + intros j Hj. rewrite Hkeep by lia. by apply Hwi.
    + intros j Hj. rewrite Hkeep by lia. by apply Hsi.
  - intros d Hd Hald. rewrite Hkeep by lia. rewrite Hp by lia. apply Hs1; [lia|by right].
Qed.

(** C28: the program finds its arguments: copied in the pages of the stack, the array of
    [n] pointers at [argv] is followed by NULL, each pointer designates the string
    of the argument with its final zero, the stack starts below them, aligned, and
    what was copied before is not changed.  The pointers must lie in one page and
    everything in the four pages. *)
Theorem copy_arg_array_roundtrip b args pages a :
  let n := Z.of_nat (length args) in let top := b + 4 * (n + 1) in
  pages_ok pages → has_free a 4 → 0 ≤ b → b mod 4 = 0 → top + total args < 4096 → b / 1024 = (top - 1) / 1024 →
  ∃ e argv pages' a', copy_arg_array stale b args (pages, a) = Some (e, n, argv, (pages', a')) ∧
    (∀ i s, args !! i = Some s → stack_bytes pages' (stack_word pages' (argv + 4 * Z.of_nat i)) (S (length s)) = s ++ [0]) ∧
    stack_word pages' (argv + 4 * n) = NULL ∧ e mod 4 = 0 ∧ argv - ARCH_UNEWPROC_DEFAULT_STACK = - top ∧ top + total args ≤ e < top + total args + 4 ∧
    (∀ x, ARCH_UNEWPROC_DEFAULT_STACK - b ≤ x < ARCH_UNEWPROC_DEFAULT_STACK → allocated pages ((ARCH_UNEWPROC_DEFAULT_STACK - x - 1) / 1024) →
       stack_byte pages' x = stack_byte pages x).
Proof.
  cbv zeta. intros Hok Hfr Hb Hmod Hlt Hone.
  destruct (copy_arg_array_spec b args pages a Hok Hfr Hb Hmod Hlt Hone) as (e & pages' & a' & Hc & He & Hem & Hnull & Hargs & Hkeep).
  set (n := Z.of_nat (length args)) in *. set (top := b + 4 * (n + 1)) in *.
  exists e, (ARCH_UNEWPROC_DEFAULT_STACK - top), pages', a'. split; [done|]. split; [|split; [|split; [done|split; [lia|split; [done|]]]]].
  - intros i s Hi. destruct (Hargs i s Hi) as (x & Hw & Hs & Hx). replace (ARCH_UNEWPROC_DEFAULT_STACK - top + 4 * Z.of_nat i) with
      (ARCH_UNEWPROC_DEFAULT_STACK - (top - 4 * Z.of_nat i)) by lia.
    rewrite (stack_word_at pages' _ (ARCH_UNEWPROC_DEFAULT_STACK - x)); [by apply stack_string_at|unfold ARCH_UNEWPROC_DEFAULT_STACK; lia|exact Hw].
  - replace (ARCH_UNEWPROC_DEFAULT_STACK - top + 4 * n) with (ARCH_UNEWPROC_DEFAULT_STACK - (b + 4)) by lia. apply stack_word_at; [done|exact Hnull].
  - intros x Hx Hal. unfold stack_byte. apply Hkeep; [lia|done].
Qed.
End roundtrip.

(** ** Witnesses *)

(** Four free pages. *)
Definition demo_pmem4 : pmem :=
  mk_pmem (λ a, if a =? 0x88000000 then 0x88000400 else if a =? 0x88000400 then 0x88000800 else if a =? 0x88000800 then 0x88000C00 else 0) 0x88000000 4.

Lemma demo_pmem4_rep : pm_rep demo_pmem4 [0x88000000; 0x88000400; 0x88000800; 0x88000C00].
Proof.
  split_and!.
  - simpl. split_and!; try done.
  - repeat (constructor; [set_solver|]). constructor.
  - repeat (apply Forall_cons_2; [by split|]). apply Forall_nil_2.
  - reflexivity.
Qed.

Lemma no_pages_ok : pages_ok (replicate 4 (NULL, [])).
Proof. split; [done|]. intros i q c Hi. apply lookup_replicate in Hi as [Hi _]. by injection Hi as -> ->. Qed.

(** Two arguments and an environment of one string after them, as [sys_execve]
    copies them. *)
Definition demo_argv : list (list Z) := [[108; 115]; [45; 108]].

Lemma copy_arg_array_roundtrip_witness :
  ∃ argv pages' a', copy_arg_array (λ _, replicate 1024 7) 0 demo_argv (replicate 4 (NULL, []), kmem_init demo_pmem4) = Some (20, 2, argv, (pages', a')) ∧
    stack_bytes pages' (stack_word pages' (argv + 4)) 3 = [45; 108; 0].
Proof.
  destruct (copy_arg_array_roundtrip (λ _, replicate 1024 7) (λ _, length_replicate 1024 7) 0 demo_argv (replicate 4 (NULL, [])) (kmem_init demo_pmem4))
    as (e & argv & pages' & a' & Hc & Hargs & _ & He & _ & Hr & _).
  - exact no_pages_ok.
  - exists [], [], [0x88000000; 0x88000400; 0x88000800; 0x88000C00]. split; [apply kmem_init_inv, demo_pmem4_rep|cbn; lia].
  - lia.
  - done.
  - vm_compute. reflexivity.
  - reflexivity.
  - assert (e = 20) as ->. { change (total demo_argv) with 6 in Hr. change (Z.of_nat (length demo_argv)) with 2 in Hr.
      pose proof (Z.div_mod e 4 ltac:(lia)). lia. }
    exists argv, pages', a'. split; [exact Hc|]. exact (Hargs 1%nat [45; 108] eq_refl).
Defined.

(** An array of pointers that crosses a page is continued in the page below instead
    of the page above: with an environment of five strings after an argument of
    1000 bytes, the fourth pointer is written through the address of a page that is
    not allocated. *)
Example env_array_crosses_page :
  ('(e, _, _, st) ← copy_arg_array (λ _, replicate 1024 7) 0 [replicate 1000 65] (replicate 4 (NULL, []), kmem_init demo_pmem4);
   Some (e, match copy_arg_array (λ _, replicate 1024 7) e [[66]; [67]; [68]; [69]; [70]] st with Some _ => true | None => false end)) = Some (1012, false).
Proof. vm_compute. reflexivity. Qed.
