(* ===== verification/Log.v ===== *)
(** * Numbers as text and the kernel log (src/utils/strconv.c, src/utils/log.c)

    The conversions write a number in a buffer of the caller; [printk] interprets a
    format with a buffer of 256 bytes and passes what it prints, piece by piece, to
    the current print function: none, the early terminal, or the console.  A write
    outside of a buffer is [None], so that the theorems also show that there is
    none.  They relate the conversions to the number that is read back, and
    [printk] to a formatter without buffer. *)

From S2P Require Import Prelude Tty.

(** ** Model *)

(** [buf[i] = c], inside the buffer. *)
Definition put (buf : list Z) (i c : Z) : option (list Z) :=
  if (0 <=? i) && (i <? Z.of_nat (length buf)) then Some (aset buf i (u8 c)) else None.

(** The largest power of ten, from [i] up, that the number reaches. *)
(** src/utils/strconv.c:38-38: strconv_int_dec *)
Fixpoint dec_scale (fuel : nat) (n i : Z) : option Z :=
  match fuel with
  | O => None
  | S fuel => if 10 <=? Z.quot n i then dec_scale fuel n (s32 (i * 10)) else Some i
  end.

(** The digits, from the one of weight [i], then the NUL. *)
(** src/utils/strconv.c:39-40: strconv_int_dec *)
Fixpoint dec_digits (fuel : nat) (n i cpt : Z) (string : list Z) : option (list Z) :=
  if i =? 0 then put string cpt 0
  else
    match fuel with
    | O => None
    | S fuel =>
        string ← put string cpt (Z.rem (Z.quot n i) 10 + 48);
        dec_digits fuel n (Z.quot i 10) (cpt + 1) string
    end.

(** A number of 32 bits has at most ten digits. *)
Definition DEC_FUEL : nat := 11.

(** src/utils/strconv.c: strconv_int_dec *)
Definition strconv_int_dec (n : Z) (string : list Z) : option (list Z) :=
  if n =? 0 then
    string ← put string 0 48;
    put string 1 0
  else
    '(start, n, string) ←
      (if n <? 0 then string ← put string 0 45; Some (1, s32 (n * -1), string) else Some (0, n, string));
    i ← dec_scale DEC_FUEL n 1;
    dec_digits DEC_FUEL n i start string.

(** A shift by a negative count, which only happens for the value 0, is the right
    shift of the target. *)
(** src/utils/strconv.c:56-57: strconv_int_hex *)
Fixpoint hex_skip (fuel : nat) (val cpt : Z) : Z :=
  match fuel with
  | O => cpt
  | S fuel =>
      if (Z.land val (u32 (Z.shiftl 15 ((7 - cpt) * 4))) =? 0) && (cpt <? 8) then hex_skip fuel val (cpt + 1) else cpt
  end.

(** The character of the digit of weight [16^(7-cpt)]. *)
(** src/utils/strconv.c:59-63: strconv_int_hex *)
Definition hex_char (val cpt : Z) : Z :=
  let c := Z.shiftr (Z.land val (u32 (Z.shiftl 15 ((7 - cpt) * 4)))) ((7 - cpt) * 4) in
  if c <? 10 then c + 48 else c - 10 + 65.

(** The digits from [cpt], written from [i]; [n] of them are left. *)
(** src/utils/strconv.c:58-66: strconv_int_hex *)
Fixpoint hex_digits (n : nat) (val cpt i : Z) (buf : list Z) : option (list Z) :=
  match n with
  | O => Some buf
  | S n => buf ← put buf i (hex_char val cpt); hex_digits n val (cpt + 1) (i + 1) buf
  end.

(** src/utils/strconv.c: strconv_int_hex *)
Definition strconv_int_hex (val : Z) (buf : list Z) : option (list Z) :=
  let cpt := hex_skip 9 val 0 in
  buf ← hex_digits (Z.to_nat (8 - cpt)) val cpt 0 buf;
  let i := 8 - cpt in
  if i =? 0 then buf ← put buf 0 48; put buf 1 0 else put buf i 0.

(** src/utils/strconv.c: strconv_ptr *)
Definition strconv_ptr (val : Z) (buf : list Z) : option (list Z) :=
  buf ← put buf 0 48;
  buf ← put buf 1 120;
  buf ← hex_digits 8 val 0 2 buf;
  put buf 10 0.

(** src/utils/log.h:33-33: LOG_EMERG *)
Definition LOG_EMERG : Z := 7.
(** src/utils/log.h:37-37: LOG_WARNING *)
Definition LOG_WARNING : Z := 3.
(** src/utils/log.h:39-39: LOG_INFO *)
Definition LOG_INFO : Z := 1.
(** src/utils/log.h:40-40: LOG_DEBUG *)
Definition LOG_DEBUG : Z := 0.

(** src/utils/log.c:28-28: BUFFER_SIZE *)
Definition BUFFER_SIZE : Z := 256.

(** What [current_kernel_print] points to. *)
(** src/utils/log.c:30-30: current_kernel_print *)
Inductive print_target := PrintNone | PrintEarly | PrintTty.

#[export] Instance print_target_eq_dec : EqDecision print_target.
Proof. solve_decision. Defined.

(** src/utils/log.c:30-36: _current_console_tty *)
Record logger := mk_logger { kernel_print : print_target; console_tty : ptr; printk_dynamic_level : Z }.

(** The state of the variables at boot. *)
(** src/utils/log.c:30-36: printk_dynamic_level *)
Definition logger0 : logger := mk_logger PrintNone NULL LOG_INFO.

(** An argument of [printk]; an argument taken with another type is undefined. *)
Inductive printk_arg := AStr (s : list Z) | AInt (n : Z) | AUint (n : Z) | APtr (p : ptr).

(** A conversion with the first argument: the piece to print and the other
    arguments.  [buf] is the buffer, which numbers are converted in; a pending '%'
    is what is to add to it. *)
Inductive conversion := Piece (s : list Z) (buf : list Z) (args : list printk_arg) | Percent | Nothing.

(** src/utils/log.c:70-102: printk_internal *)
Definition convert (c : Z) (buf : list Z) (args : list printk_arg) : option conversion :=
  if c =? 115 then match args with AStr s :: args => Some (Piece s buf args) | _ => None end
  else if c =? 100 then
    match args with AInt n :: args => buf ← strconv_int_dec n buf; Some (Piece (c_str buf) buf args) | _ => None end
  else if c =? 120 then
    match args with AUint n :: args => buf ← strconv_int_hex n buf; Some (Piece (c_str buf) buf args) | _ => None end
  else if c =? 112 then
    match args with APtr p :: args => buf ← strconv_ptr p buf; Some (Piece (c_str buf) buf args) | _ => None end
  else if c =? 37 then Some Percent
  else Some Nothing.

(** The buffer is printed when it is full or at the end of the format; [rest] is
    the rest of the loop. *)
(** src/utils/log.c:105-109: printk_internal *)
Definition printk_flush (str : list Z) (args : list printk_arg) (buf : list Z) (bufpos : Z)
    (rest : list printk_arg → list Z → Z → option (list (list Z))) : option (list (list Z)) :=
  if (BUFFER_SIZE - 1 <=? bufpos) || (match str with [] => true | _ => false end) then
    buf ← put buf bufpos 0;
    out ← rest args buf 0;
    Some (c_str buf :: out)
  else rest args buf bufpos.

(** The pieces passed to the print function.  [str] is the rest of the format, the
    NUL excluded. *)
(** src/utils/log.c:51-114: printk_internal *)
Fixpoint printk_loop (str : list Z) (args : list printk_arg) (buf : list Z) (bufpos : Z) : option (list (list Z)) :=
  match str with
  | [] => Some []
  | c :: str =>
      if negb (c =? 37) then
        buf ← put buf bufpos c;
        printk_flush str args buf (bufpos + 1) (printk_loop str)
      else
        match str with
        | [] => printk_flush str args buf bufpos (printk_loop str)
        | c :: str =>
            buf ← put buf bufpos 0;
            let first := c_str buf in
            r ← convert c buf args;
            out ←
              match r with
              | Piece s buf args => out ← printk_flush str args buf 0 (printk_loop str); Some (s :: out)
              | Percent => buf ← put buf 0 37; printk_flush str args buf 1 (printk_loop str)
              | Nothing => printk_flush str args buf 0 (printk_loop str)
              end;
            Some (first :: out)
        end
  end.

Section printk.
Context {D : Type} (early : list Z → D → D) (ops : ptr → tty_ops D).

(** src/utils/log.c: printk_write_tty *)
Definition printk_write_tty (lg : logger) (str : list Z) (d : D) : D := (tty_write (ops (console_tty lg)) str d).2.

(** A call of [current_kernel_print]. *)
(** src/utils/log.h:24-24: print_callback_t *)
Definition print (lg : logger) (str : list Z) (d : D) : D :=
  match kernel_print lg with PrintNone => d | PrintEarly => early str d | PrintTty => printk_write_tty lg str d end.

(** [stale] is the contents of the buffer on the stack. *)
(** src/utils/log.c: printk_internal *)
Definition printk_internal (lg : logger) (level : Z) (str : list Z) (args : list printk_arg) (stale : list Z) (d : D) : option D :=
  if (printk_dynamic_level lg <=? level) && (match kernel_print lg with PrintNone => false | _ => true end) then
    pieces ← printk_loop str args stale 0;
    Some (foldl (λ d s, print lg s d) d pieces)
  else Some d.

(** src/utils/log.c: printk_force_flush *)
Definition printk_force_flush (lg : logger) (d : D) : D :=
  if negb (console_tty lg =? NULL) then (tty_force_flush (ops (console_tty lg)) d).2 else d.
End printk.

(** src/utils/log.c: printk_set_level *)
Definition printk_set_level (level : Z) (lg : logger) : logger := mk_logger (kernel_print lg) (console_tty lg) level.

(** src/utils/log.c: set_kernel_print *)
Definition set_kernel_print (f : print_target) (lg : logger) : logger := mk_logger f (console_tty lg) (printk_dynamic_level lg).

(** src/utils/log.c: printk_set_console_tty *)
Definition printk_set_console_tty (tty : ptr) (lg : logger) : logger :=
  mk_logger (if negb (tty =? NULL) then PrintTty else PrintNone) tty (printk_dynamic_level lg).

(** [None] is the parameter without value, which the code reads through NULL.  The
    returned flag says whether the warning is printed. *)
(** src/utils/log.c: parse_loglevel *)
Definition parse_loglevel (val : option (list Z)) (lg : logger) : option (Z * logger) :=
  match val with
  | None => None
  | Some val =>
      let v0 := nth 0 val 0 in
      Some (if (48 <=? v0) && (v0 <=? 55) && (nth 1 val 0 =? 0) then (0, printk_set_level (v0 - 48) lg) else (-1, lg))
  end.

(** A character of [_print_hexcar]. *)
(** src/utils/log.c:157-157: _print_hexcar *)
Definition print_hexcar (i : Z) : Z := if i <? 10 then 48 + i else 65 + (i - 10).

(** One line of at most 16 bytes: [pos - firstoffset] bytes are done, [bytes] are
    the next ones; the result is what is written in the buffer. *)
(** src/utils/log.c:169-180: print_memory *)
Fixpoint memory_line (done : nat) (bytes : list Z) : list Z :=
  match bytes with
  | [] => []
  | c :: bytes =>
      if (done <? 16)%nat then
        (if negb (done =? 0)%nat && (done mod 4 =? 0)%nat then [32] else []) ++
        [print_hexcar (Z.shiftr c 4); print_hexcar (if negb (c =? 0) then 1 else 0)] ++ memory_line (S done) bytes
      else []
  end.

(** The calls of [printk] for the lines of the memory [bytes] at [addr]. *)
(** src/utils/log.c:165-184: print_memory *)
Fixpoint memory_lines (fuel : nat) (addr : ptr) (bytes : list Z) : list (list Z * list printk_arg) :=
  match fuel, bytes with
  | S fuel, _ :: _ =>
      (text "%p: %s" ++ [10], [APtr addr; AStr (memory_line 0 bytes)]) :: memory_lines fuel (u32 (addr + 16)) (drop 16 bytes)
  | _, _ => []
  end.

(** src/utils/log.c: print_memory *)
Definition print_memory {D} (early : list Z → D → D) (ops : ptr → tty_ops D) (lg : logger) (level : Z) (addr : ptr) (bytes stale : list Z) (d : D) :
  option D :=
  if printk_dynamic_level lg <=? level then
    let calls :=
      (text "Memory content [%p~%p] :" ++ [10], [APtr addr; APtr (u32 (addr + Z.of_nat (length bytes)))]) ::
      memory_lines (length bytes) addr bytes in
    foldl (λ r '(str, args), d ← r; printk_internal early ops lg level str args stale d) (Some d) calls
  else Some d.

(** ** Reference: numbers in a base *)

(** The digits of [n], without leading zeros, of a number below [b^fuel]. *)
Fixpoint num_digits (b : Z) (fuel : nat) (n : Z) : list Z :=
  match fuel with
  | O => []
  | S fuel => (if n <? b then [] else num_digits b fuel (n / b)) ++ [n mod b]
  end.

(** The number the digits stand for. *)
Definition num_value (b : Z) (ds : list Z) : Z := foldl (λ a d, a * b + d) 0 ds.

Definition dec_string (n : Z) : list Z :=
  (if n <? 0 then [45] else []) ++ ((λ d, 48 + d) <$> num_digits 10 10 (Z.abs n)).

Definition hex_string (n : Z) : list Z := print_hexcar <$> num_digits 16 8 n.

(** The digits of weights [b^k] to 1, zeros included. *)
Fixpoint digits (b : Z) (k : nat) (n : Z) : list Z :=
  match k with
  | O => [n mod b]
  | S k' => (n / b ^ Z.of_nat k) mod b :: digits b k' n
  end.

Lemma length_digits b k n : length (digits b k n) = S k.
Proof. induction k as [|k IH]; cbn [digits length]; [done|by rewrite IH]. Qed.

Lemma digits_range b k n : 0 < b → Forall (λ d, 0 ≤ d < b) (digits b k n).
Proof. intros Hb. induction k as [|k IH]; cbn [digits]; repeat constructor; try apply Z.mod_pos_bound; done. Qed.

Lemma digits_snoc b k n : 0 < b → digits b (S k) n = digits b k (n / b) ++ [n mod b].
Proof.
  intros Hb. induction k as [|k IH].
  - cbn [digits app]. change (Z.of_nat 1) with 1. by rewrite Z.pow_1_r.
  - change (digits b (S (S k)) n) with ((n / b ^ Z.of_nat (S (S k))) mod b :: digits b (S k) n).
    rewrite IH. cbn [digits app]. rewrite Nat2Z.inj_succ, Z.pow_succ_r, <- Z.div_div by lia. done.
Qed.

(** From the first digit that is not zero, they are the digits of the number. *)
Lemma digits_num b m : ∀ n fuel, 1 < b → b ^ Z.of_nat m ≤ n < b ^ Z.of_nat (S m) → (m < fuel)%nat → digits b m n = num_digits b fuel n.
Proof.
  induction m as [|m IH]; intros n fuel Hb Hn Hf; destruct fuel as [|fuel]; try lia.
  - change (Z.of_nat 1) with 1 in Hn. rewrite Z.pow_1_r in Hn. cbn [num_digits digits].
    by rewrite (proj2 (Z.ltb_lt n b)) by lia.
  - rewrite digits_snoc by lia. cbn [num_digits].
    assert (Hp : 0 < b ^ Z.of_nat m) by (apply Z.pow_pos_nonneg; lia).
    rewrite !Nat2Z.inj_succ, !Z.pow_succ_r in Hn by lia.
    rewrite (proj2 (Z.ltb_ge n b)) by nia. f_equal. apply IH; [done| |lia].
    rewrite Nat2Z.inj_succ, Z.pow_succ_r by lia. split; [apply Z.div_le_lower_bound; lia|apply Z.div_lt_upper_bound; lia].
Qed.

Lemma num_value_snoc b ds d : num_value b (ds ++ [d]) = num_value b ds * b + d.
Proof. unfold num_value. by rewrite foldl_app. Qed.

Lemma num_digits_value b fuel : ∀ n, 1 < b → 0 ≤ n < b ^ Z.of_nat fuel → num_value b (num_digits b fuel n) = n.
Proof.
  induction fuel as [|fuel IH]; intros n Hb Hn; [change (Z.of_nat 0) with 0 in Hn; rewrite Z.pow_0_r in Hn; cbn; lia|].
  rewrite Nat2Z.inj_succ, Z.pow_succ_r in Hn by lia. cbn [num_digits]. rewrite num_value_snoc.
  pose proof (Z.div_mod n b ltac:(lia)). case_match eqn:E; breflect.
  - unfold num_value. cbn [foldl]. rewrite Z.mod_small; lia.
  - rewrite IH; [lia|done|]. split; [apply Z.div_pos; lia|apply Z.div_lt_upper_bound; lia].
Qed.

Lemma num_digits_range b fuel : ∀ n, 1 < b → Forall (λ d, 0 ≤ d < b) (num_digits b fuel n).
Proof.
  induction fuel as [|fuel IH]; intros n Hb; [done|]. cbn [num_digits]. apply Forall_app. split.
  - case_match; [done|by apply IH].
  - repeat constructor; apply Z.mod_pos_bound; lia.
Qed.

Lemma length_num_digits b fuel : ∀ n, (length (num_digits b fuel n) ≤ fuel)%nat.
Proof.
  induction fuel as [|fuel IH]; intros n; [done|]. cbn [num_digits]. rewrite length_app. cbn [length].
  case_match; cbn [length]; [lia|]. specialize (IH (n / b)). lia.
Qed.

(** ** The conversions *)

Lemma put_at pre x rest i c : Z.of_nat (length pre) = i → put (pre ++ x :: rest) i c = Some (pre ++ u8 c :: rest).
Proof.
  intros <-. unfold put. rewrite length_app. cbn [length].
  rewrite (proj2 (Z.leb_le _ _)), (proj2 (Z.ltb_lt _ _)) by lia. cbn [andb]. f_equal.
  unfold aset. rewrite Nat2Z.id, insert_app_r_alt, Nat.sub_diag by lia. done.
Qed.

Lemma put_0 x rest c : put (x :: rest) 0 c = Some (u8 c :: rest).
Proof. exact (put_at [] x rest 0 c eq_refl). Qed.

Lemma dec_scale_spec fuel : ∀ k n, 10 ^ k ≤ n < 2147483648 → 0 ≤ k → 10 ≤ Z.of_nat fuel + k →
  ∃ m : nat, dec_scale fuel n (10 ^ k) = Some (10 ^ Z.of_nat m) ∧ 10 ^ Z.of_nat m ≤ n < 10 ^ Z.of_nat (S m).
Proof.
  induction fuel as [|fuel IH]; intros k n Hn Hk Hf.
  { pose proof (Z.pow_le_mono_r 10 10 k). lia. }
  assert (Hp : 0 < 10 ^ k) by (apply Z.pow_pos_nonneg; lia).
  cbn [dec_scale]. rewrite Z.quot_div_nonneg by lia. case_match eqn:E; breflect.
  - assert (10 ^ k * 10 ≤ n) by (pose proof (Z.mul_div_le n (10 ^ k)); nia).
    rewrite s32_small, Z.mul_comm, <- Z.pow_succ_r by lia. apply IH; [|lia..]. rewrite Z.pow_succ_r by lia. lia.
  - exists (Z.to_nat k). rewrite Nat2Z.inj_succ, Z2Nat.id, Z.pow_succ_r by lia. split; [done|]. split; [lia|].
    pose proof (Z.div_mod n (10 ^ k) ltac:(lia)). pose proof (Z.mod_pos_bound n (10 ^ k)). nia.
Qed.

Lemma u8_digit d : 0 ≤ d < 10 → u8 (d + 48) = 48 + d.
Proof. intros H. rewrite u8_small; lia. Qed.

Lemma dec_digits_spec k : ∀ fuel n pre rest, 0 ≤ n → (k < fuel)%nat → (k + 2 ≤ length rest)%nat →
  dec_digits fuel n (10 ^ Z.of_nat k) (Z.of_nat (length pre)) (pre ++ rest) =
  Some (pre ++ ((λ d, 48 + d) <$> digits 10 k n) ++ 0 :: drop (k + 2) rest).
Proof.
  induction k as [|k IH]; intros fuel n pre rest Hn Hf Hr; (destruct fuel as [|fuel]; [lia|]);
    (destruct rest as [|x rest]; [cbn in Hr; lia|]); cbn [dec_digits].
  - change (10 ^ Z.of_nat 0) with 1. cbn [Z.eqb]. rewrite put_at by done. cbn [mbind option_bind].
    rewrite Z.quot_1_r, Z.rem_mod_nonneg, u8_digit by (try apply Z.mod_pos_bound; lia). change (Z.quot 1 10) with 0.
    destruct rest as [|y rest]; [cbn in Hr; lia|]. cbn [fmap list_fmap digits app drop Nat.add].
    destruct fuel; cbn [dec_digits Z.eqb];
      rewrite (app_assoc pre [_] _ : pre ++ (48 + n mod 10) :: y :: rest = (pre ++ [48 + n mod 10]) ++ y :: rest), put_at, <- app_assoc
        by (rewrite length_app; cbn [length]; lia); done.
  - assert (Hp : 0 < 10 ^ Z.of_nat k) by (apply Z.pow_pos_nonneg; lia).
    rewrite (Nat2Z.inj_succ k), Z.pow_succ_r by lia. rewrite (proj2 (Z.eqb_neq _ _)) by lia.
    rewrite put_at by done. cbn [mbind option_bind].
    rewrite (Z.mul_comm 10 (10 ^ _)), Z.quot_mul by lia.
    rewrite Z.quot_div_nonneg, Z.rem_mod_nonneg, u8_digit by (try apply Z.mod_pos_bound; try apply Z.div_pos; lia).
    set (d := 48 + _). rewrite (app_assoc pre [d] _ : pre ++ d :: rest = (pre ++ [d]) ++ rest).
    replace (Z.of_nat (length pre) + 1) with (Z.of_nat (length (pre ++ [d]))) by (rewrite length_app; cbn [length]; lia).
    cbn [length] in Hr. rewrite IH by lia. f_equal. rewrite <- app_assoc. f_equal. cbn [digits fmap list_fmap app].
    rewrite (Nat2Z.inj_succ k), Z.pow_succ_r, (Z.mul_comm 10) by lia. reflexivity.
Qed.

Lemma strconv_dec_spec n buf : -2147483648 < n < 2147483648 → (12 ≤ length buf)%nat →
  strconv_int_dec n buf = Some (dec_string n ++ 0 :: drop (S (length (dec_string n))) buf).
Proof.
  intros Hn Hlen. unfold strconv_int_dec. destruct (Z.eqb_spec n 0) as [->|Hne].
  { destruct buf as [|x [|y buf]]; [cbn in Hlen; lia..|]. rewrite put_0.
    cbn [mbind option_bind]. exact (put_at [u8 48] y buf 1 0 eq_refl). }
  assert (Hpos : ∀ m pre rest, 1 ≤ m < 2147483648 → (11 ≤ length rest)%nat →
    (i ← dec_scale DEC_FUEL m 1; dec_digits DEC_FUEL m i (Z.of_nat (length pre)) (pre ++ rest)) =
    Some (pre ++ ((λ d, 48 + d) <$> num_digits 10 10 m) ++ 0 :: drop (S (length (num_digits 10 10 m))) rest)).
  { intros m pre rest Hm Hr. destruct (dec_scale_spec DEC_FUEL 0 m) as (k & Hs & Hk); [change (10 ^ 0) with 1; lia|lia|unfold DEC_FUEL; lia|].
    change (10 ^ 0) with 1 in Hs. rewrite Hs. cbn [mbind option_bind].
    assert (k < 10)%nat. { destruct (decide (k < 10)%nat); [done|]. pose proof (Z.pow_le_mono_r 10 10 (Z.of_nat k)). lia. }
    rewrite dec_digits_spec by (unfold DEC_FUEL; lia). rewrite <- (digits_num 10 k m 10) by lia.
    rewrite length_digits. by replace (k + 2)%nat with (S (S k)) by lia. }
  unfold dec_string. destruct (Z.ltb_spec n 0).
  - destruct buf as [|x buf]; [cbn in Hlen; lia|]. rewrite put_0. cbn [mbind option_bind app].
    cbn [length] in Hlen. rewrite s32_small by lia. etrans; [exact (Hpos (n * -1) [45] buf ltac:(lia) ltac:(lia))|].
    replace (n * -1) with (Z.abs n) by lia. cbn [app length drop]. by rewrite length_fmap.
  - cbn [mbind option_bind]. etrans; [exact (Hpos n [] buf ltac:(lia) ltac:(lia))|].
    replace (Z.abs n) with n by lia. cbn [app]. by rewrite length_fmap.
Qed.

(** The digit of weight [16^j], in place. *)
Lemma nibble val j : 0 ≤ j < 8 → Z.land val (u32 (Z.shiftl 15 (j * 4))) = Z.shiftl ((val / 16 ^ j) mod 16) (j * 4).
Proof.
  intros Hj. assert (H16 : 16 ^ j = 2 ^ (j * 4)) by (change 16 with (2 ^ 4); rewrite <- Z.pow_mul_r by lia; f_equal; lia).
  rewrite H16, <- Z.shiftr_div_pow2 by lia. change 16 with (2 ^ 4). rewrite <- Z.land_ones by lia.
  rewrite u32_small.
  - change (Z.ones 4) with 15. apply Z.bits_inj'. intros i Hi.
    rewrite Z.land_spec. destruct (decide (i < j * 4)).
    + rewrite !Z.shiftl_spec_low, andb_false_r by lia. done.
    + rewrite !Z.shiftl_spec, Z.land_spec, Z.shiftr_spec by lia. f_equal. f_equal. lia.
  - rewrite Z.shiftl_mul_pow2 by lia. split; [lia|].
    assert (2 ^ (j * 4) ≤ 2 ^ 28) by (apply Z.pow_le_mono_r; lia). lia.
Qed.

Lemma hex_char_spec val k : (k < 8)%nat → hex_char val (7 - Z.of_nat k) = print_hexcar ((val / 16 ^ Z.of_nat k) mod 16).
Proof.
  intros Hk. unfold hex_char. replace (7 - (7 - Z.of_nat k)) with (Z.of_nat k) by lia.
  rewrite nibble, Z.shiftr_shiftl_l, Z.sub_diag, Z.shiftl_0_r by lia. unfold print_hexcar. set (d := _ mod 16). case_match; breflect; lia.
Qed.

Lemma u8_hexcar d : 0 ≤ d < 16 → u8 (print_hexcar d) = print_hexcar d.
Proof. intros H. unfold print_hexcar. apply u8_small. case_match; breflect; lia. Qed.

Lemma hex_digits_spec k : ∀ val pre rest, (k < 8)%nat → (S k ≤ length rest)%nat →
  hex_digits (S k) val (7 - Z.of_nat k) (Z.of_nat (length pre)) (pre ++ rest) =
  Some (pre ++ (print_hexcar <$> digits 16 k val) ++ drop (S k) rest).
Proof.
  induction k as [|k IH]; intros val pre rest Hk Hr; (destruct rest as [|x rest]; [cbn in Hr; lia|]);
    set (f := hex_digits); cbn [digits fmap list_fmap]; subst f.
  - cbn [hex_digits]. rewrite put_at, hex_char_spec, Z.pow_0_r, Z.div_1_r, u8_hexcar by (try apply Z.mod_pos_bound; done || lia). done.
  - remember (S k) as k'. cbn [hex_digits]. subst k'. rewrite put_at, hex_char_spec, u8_hexcar by (try apply Z.mod_pos_bound; done || lia).
    cbn [mbind option_bind]. set (d := print_hexcar _). rewrite (app_assoc pre [d] _ : pre ++ d :: rest = (pre ++ [d]) ++ rest).
    replace (7 - Z.of_nat (S k) + 1) with (7 - Z.of_nat k) by lia.
    replace (Z.of_nat (length pre) + 1) with (Z.of_nat (length (pre ++ [d]))) by (rewrite length_app; cbn [length]; lia).
    cbn [length] in Hr. rewrite IH by lia. by rewrite <- app_assoc.
Qed.

Lemma hex_skip_zero fuel : ∀ cpt, 0 ≤ cpt → 8 ≤ Z.of_nat fuel + cpt → cpt ≤ 8 → hex_skip fuel 0 cpt = 8.
Proof.
  induction fuel as [|fuel IH]; intros cpt Hc Hf Hle; [cbn; lia|]. cbn [hex_skip]. rewrite Z.land_0_l.
  cbn [Z.eqb andb]. case_match; breflect; [apply IH; lia|lia].
Qed.

Lemma hex_skip_spec fuel : ∀ val (m : nat) cpt, 16 ^ Z.of_nat m ≤ val < 16 ^ Z.of_nat (S m) → (m < 8)%nat →
  0 ≤ cpt ≤ 7 - Z.of_nat m → 8 - Z.of_nat m - cpt ≤ Z.of_nat fuel → hex_skip fuel val cpt = 7 - Z.of_nat m.
Proof.
  induction fuel as [|fuel IH]; intros val m cpt Hv Hm Hc Hf; [lia|]. cbn [hex_skip].
  assert (Hp : 0 < 16 ^ Z.of_nat m) by (apply Z.pow_pos_nonneg; lia).
  rewrite nibble by lia. rewrite (proj2 (Z.ltb_lt cpt 8)), andb_true_r by lia.
  rewrite Z.shiftl_mul_pow2 by lia. assert (0 < 2 ^ ((7 - cpt) * 4)) by (apply Z.pow_pos_nonneg; lia).
  destruct (decide (cpt = 7 - Z.of_nat m)) as [->|Hne].
  - replace (7 - (7 - Z.of_nat m)) with (Z.of_nat m) in * by lia.
    assert (Hq : 1 ≤ val / 16 ^ Z.of_nat m < 16).
    { rewrite Nat2Z.inj_succ, Z.pow_succ_r in Hv by lia. split; [apply Z.div_le_lower_bound|apply Z.div_lt_upper_bound]; lia. }
    rewrite (Z.mod_small (val / _)) by lia. rewrite (proj2 (Z.eqb_neq _ _)) by nia. done.
  - rewrite (Z.div_small val); [cbn [Z.eqb Z.mul Z.modulo]|].
    + rewrite Z.mod_0_l, Z.mul_0_l by lia. cbn [Z.eqb]. apply (IH val m); [done|lia..].
    + split; [lia|]. eapply Z.lt_le_trans; [apply Hv|]. apply Z.pow_le_mono_r; lia.
Qed.

(** The position of the first digit of a number. *)
Lemma leading_digit b n fuel : 1 < b → 1 ≤ n < b ^ Z.of_nat fuel → ∃ m, (m < fuel)%nat ∧ b ^ Z.of_nat m ≤ n < b ^ Z.of_nat (S m).
Proof.
  intros Hb. induction fuel as [|fuel IH]; intros Hn; [change (Z.of_nat 0) with 0 in Hn; rewrite Z.pow_0_r in Hn; lia|].
  destruct (decide (n < b ^ Z.of_nat fuel)).
  - destruct IH as (m & Hm & Hr); [lia|]. exists m. split; [lia|done].
  - exists fuel. split; lia.
Qed.

Lemma strconv_hex_spec val buf : 0 ≤ val < 4294967296 → (9 ≤ length buf)%nat →
  strconv_int_hex val buf = Some (hex_string val ++ 0 :: drop (S (length (hex_string val))) buf).
Proof.
  intros Hv Hlen. unfold strconv_int_hex, hex_string. destruct (decide (val = 0)) as [->|Hne].
  { rewrite (hex_skip_zero 9 0) by lia. destruct buf as [|x [|y buf]]; [cbn in Hlen; lia..|]. change (Z.to_nat (8 - 8)) with 0%nat. change (8 - 8 =? 0) with true.
    cbn [hex_digits mbind option_bind]. rewrite put_0. cbn [mbind option_bind]. exact (put_at [u8 48] y buf 1 0 eq_refl). }
  destruct (leading_digit 16 val 8 ltac:(lia)) as (m & Hm & Hr); [change (16 ^ Z.of_nat 8) with 4294967296; lia|].
  rewrite (hex_skip_spec 9 val m 0) by lia. replace (Z.to_nat (8 - (7 - Z.of_nat m))) with (S m) by lia.
  rewrite (hex_digits_spec m val [] buf ltac:(lia) ltac:(lia) : hex_digits (S m) val (7 - Z.of_nat m) 0 buf = _).
  cbn [mbind option_bind app].
  rewrite (proj2 (Z.eqb_neq _ _)) by lia. rewrite (digits_num 16 m val 8) by lia.
  assert (Hl : length (num_digits 16 8 val) = S m) by (rewrite <- (digits_num 16 m val 8) by lia; apply length_digits).
  destruct (drop (S m) buf) as [|y l] eqn:Hd.
  { apply (f_equal length) in Hd. rewrite length_drop in Hd. cbn [length] in Hd. lia. }
  rewrite put_at by (rewrite length_fmap, Hl; lia). rewrite length_fmap, Hl. do 3 f_equal.
  change l with (drop 1 (y :: l)). rewrite <- Hd, drop_drop. f_equal. lia.
Qed.

Lemma strconv_ptr_spec val buf : (11 ≤ length buf)%nat →
  strconv_ptr val buf = Some ([48; 120] ++ (print_hexcar <$> digits 16 7 val) ++ 0 :: drop 11 buf).
Proof.
  intros Hlen. unfold strconv_ptr. destruct buf as [|x [|y buf]]; [cbn in Hlen; lia..|]. rewrite put_0. cbn [mbind option_bind].
  rewrite (put_at [u8 48] y buf 1 120 eq_refl : put (u8 48 :: y :: buf) 1 120 = _). cbn [mbind option_bind].
  cbn [length] in Hlen. pose proof (hex_digits_spec 7 val [48; 120] buf ltac:(lia) ltac:(lia)) as H.
  change (Z.of_nat (length [48; 120])) with 2 in H. change (7 - Z.of_nat 7) with 0 in H.
  change ([u8 48] ++ u8 120 :: buf) with ([48; 120] ++ buf). rewrite H. cbn [mbind option_bind].
  destruct (drop 8 buf) as [|z l] eqn:Hd.
  { apply (f_equal length) in Hd. rewrite length_drop in Hd. cbn [length] in Hd. lia. }
  rewrite app_assoc, put_at by (rewrite length_app, length_fmap, length_digits; done). rewrite <- app_assoc. do 4 f_equal.
  change (drop 11 (x :: y :: buf)) with (drop 9 buf). change l with (drop 1 (z :: l)). by rewrite <- Hd, drop_drop.
Qed.

(** ** printk *)

(** What a format prints, without buffer. *)
Fixpoint format (str : list Z) (args : list printk_arg) : option (list Z) :=
  match str with
  | [] => Some []
  | c :: str =>
      if negb (c =? 37) then out ← format str args; Some (c :: out)
      else
        match str with
        | [] => Some []
        | c :: str =>
            '(s, args) ←
              (if c =? 115 then match args with AStr s :: args => Some (s, args) | _ => None end
               else if c =? 100 then match args with AInt n :: args => Some (dec_string n, args) | _ => None end
               else if c =? 120 then match args with AUint n :: args => Some (hex_string n, args) | _ => None end
               else if c =? 112 then
                 match args with APtr q :: args => Some (text "0x" ++ (print_hexcar <$> digits 16 7 q), args) | _ => None end
               else if c =? 37 then Some ([37], args)
               else Some ([], args));
            out ← format str args;
            Some (s ++ out)
        end
  end.

(** The integers are in the range of their type; the smallest [int] has no opposite. *)
Definition arg_ok (a : printk_arg) : Prop :=
  match a with AInt n => -2147483648 < n < 2147483648 | AUint n => 0 ≤ n < 4294967296 | _ => True end.

Definition no_nul (s : list Z) : Prop := Forall (λ c, c ≠ 0) s.

Lemma no_nul_digits (f : Z → Z) b ds : Forall (λ d, 0 ≤ d < b) ds → (∀ d, 0 ≤ d < b → f d ≠ 0) → no_nul (f <$> ds).
Proof. intros Hd Hf. unfold no_nul. rewrite Forall_fmap. eapply Forall_impl; [exact Hd|]. intros d Hd'. by apply Hf. Qed.

Lemma no_nul_hexcar d : 0 ≤ d < 16 → print_hexcar d ≠ 0.
Proof. intros Hd. unfold print_hexcar. case_match; lia. Qed.

Lemma no_nul_dec n : no_nul (dec_string n).
Proof.
  unfold dec_string. apply Forall_app. split; [case_match; repeat constructor; lia|].
  apply (no_nul_digits _ 10); [apply num_digits_range; lia|lia].
Qed.

(** A conversion prints what the formatter prints and leaves the size of the buffer. *)
Lemma convert_spec c str args buf out : length buf = 256%nat → Forall arg_ok args → format (37 :: c :: str) args = Some out →
  ∃ r, convert c buf args = Some r ∧
    match r with
    | Piece s buf' args' => ∃ out', format str args' = Some out' ∧ out = s ++ out' ∧ length buf' = 256%nat ∧ Forall arg_ok args'
    | Percent => ∃ out', format str args = Some out' ∧ out = 37 :: out'
    | Nothing => format str args = Some out
    end.
Proof.
  intros Hlen Hargs. cbn [format]. change (negb (37 =? 37)) with false. cbn [negb]. unfold convert.
  destruct (c =? 115).
  { destruct args as [|[s| | |] args]; try done. cbn [mbind option_bind]. destruct (format str args) as [out'|] eqn:Hf; [|done].
    intros [= <-]. eexists. split; [done|]. exists out'. apply Forall_inv_tail in Hargs. done. }
  assert (Hpiece : ∀ s r args', no_nul s → (S (length s) ≤ 256)%nat → r = Some (s ++ 0 :: drop (S (length s)) buf) → Forall arg_ok args' →
    (out' ← format str args'; Some (s ++ out')) = Some out →
    ∃ r', (b ← r; Some (Piece (c_str b) b args')) = Some r' ∧
      match r' with
      | Piece s buf' args' => ∃ out', format str args' = Some out' ∧ out = s ++ out' ∧ length buf' = 256%nat ∧ Forall arg_ok args'
      | Percent => ∃ out', format str args = Some out' ∧ out = 37 :: out'
      | Nothing => format str args = Some out
      end).
  { intros s r args' Hs Hl -> Ha Hf. cbn [mbind option_bind]. eexists. split; [done|]. cbn beta iota. rewrite c_str_app_nul by done.
    destruct (format str args') as [out'|]; [|done]. cbn in Hf. exists out'. injection Hf as <-. split; [done|]. split; [done|].
    split; [rewrite length_app; cbn [length]; rewrite length_drop; lia|done]. }
  destruct (c =? 100).
  { destruct args as [|[|n| |] args]; try done. cbn [mbind option_bind]. apply Forall_cons in Hargs as [Ha Hargs]. intros Hf.
    apply (Hpiece (dec_string n)); [apply no_nul_dec| |apply strconv_dec_spec; [exact Ha|lia]|done..].
    unfold dec_string. rewrite length_app, length_fmap. pose proof (length_num_digits 10 10 (Z.abs n)). case_match; cbn [length]; lia. }
  destruct (c =? 120).
  { destruct args as [|[| |n|] args]; try done. cbn [mbind option_bind]. apply Forall_cons in Hargs as [Ha Hargs]. intros Hf.
    apply (Hpiece (hex_string n)); [|unfold hex_string; rewrite length_fmap; pose proof (length_num_digits 16 8 n); lia|apply strconv_hex_spec; [exact Ha|lia]|done..].
    apply (no_nul_digits _ 16); [apply num_digits_range; lia|apply no_nul_hexcar]. }
  destruct (c =? 112).
  { destruct args as [|[| | |q] args]; try done. cbn [mbind option_bind]. apply Forall_cons in Hargs as [Ha Hargs]. intros Hf.
    apply (Hpiece (text "0x" ++ (print_hexcar <$> digits 16 7 q))); [|rewrite length_app, length_fmap, length_digits; cbn; lia| |done..].
    - apply Forall_app. split; [change (text "0x") with [48; 120]; repeat constructor; lia|]. apply (no_nul_digits _ 16); [apply digits_range; lia|apply no_nul_hexcar].
    - rewrite strconv_ptr_spec by lia. rewrite length_app, length_fmap, length_digits. by rewrite <- app_assoc. }
  destruct (c =? 37); cbn [mbind option_bind]; (destruct (format str args) as [out'|]; [|done]); intros [= <-]; eexists; (split; [done|]); cbn; eauto.
Qed.

(** [k], the rest of the loop, prints the bytes [p] of the buffer and then [out]. *)
Definition continues (str : list Z) (k : list Z → Z → option (list (list Z))) (out : list Z) : Prop :=
  ∀ p rest, no_nul p → (length p < 255)%nat → length (p ++ rest) = 256%nat → (str = [] → p = []) →
    ∃ pieces, k (p ++ rest) (Z.of_nat (length p)) = Some pieces ∧ concat pieces = p ++ out.

Lemma printk_flush_spec str args p rest k out :
  no_nul p → (length p ≤ 255)%nat → length (p ++ rest) = 256%nat → continues str (k args) out →
  ∃ pieces, printk_flush str args (p ++ rest) (Z.of_nat (length p)) k = Some pieces ∧ concat pieces = p ++ out.
Proof.
  intros Hp Hl Hlen Hk. unfold printk_flush, BUFFER_SIZE. rewrite length_app in Hlen.
  destruct (Z.leb_spec (256 - 1) (Z.of_nat (length p))); cbn [orb].
  2: destruct str as [|c str]; [|apply Hk; [done|lia|rewrite length_app; lia|done]].
  all: destruct rest as [|x rest]; [cbn [length] in Hlen; lia|]; rewrite put_at by done; cbn [mbind option_bind];
    destruct (Hk [] (p ++ u8 0 :: rest)) as (pieces & Hrun & Hc); [constructor|cbn; lia|cbn [app]; rewrite length_app; cbn [length] in *; lia|done|].
  all: cbn [app length] in Hrun; change (Z.of_nat 0) with 0 in Hrun; rewrite Hrun; cbn [mbind option_bind]; eexists; split; [reflexivity|];
    cbn [concat]; rewrite Hc; by rewrite (c_str_app_nul p rest Hp : c_str (p ++ u8 0 :: rest) = p).
Qed.

Lemma printk_loop_spec n : ∀ str args out, (length str ≤ n)%nat → Forall (λ c, 0 < c < 256) str → Forall arg_ok args →
  format str args = Some out → continues str (printk_loop str args) out.
Proof.
  induction n as [|n IH]; intros str args out Hn Hstr Hargs Hf p rest Hp Hl Hlen Hnil.
  { destruct str; [|cbn in Hn; lia]. injection Hf as <-. rewrite Hnil by done. by exists []. }
  destruct str as [|c str]; [injection Hf as <-; rewrite Hnil by done; by exists []|].
  apply Forall_cons in Hstr as [Hc Hstr]. cbn [length] in Hn. rewrite length_app in Hlen.
  destruct rest as [|x rest]; [cbn [length] in Hlen; lia|]. cbn [length] in Hlen. cbn [printk_loop].
  destruct (Z.eqb_spec c 37) as [->|Hne]; cbn [negb].
  - destruct str as [|c str].
    { injection Hf as <-. apply printk_flush_spec; [done|lia|rewrite length_app; cbn [length]; lia|].
      apply IH; [cbn; lia|done|done|done]. }
    apply Forall_cons in Hstr as [Hc' Hstr]. cbn [length] in Hn. rewrite put_at by done. cbn [mbind option_bind].
    rewrite (c_str_app_nul p rest Hp : c_str (p ++ u8 0 :: rest) = p).
    destruct (convert_spec c str args (p ++ u8 0 :: rest) out) as (r & -> & Hr); [rewrite length_app; cbn [length]; lia|done|exact Hf|].
    cbn [mbind option_bind]. destruct r as [s buf' args'| |].
    + destruct Hr as (out' & Hf' & -> & Hlen' & Hargs').
      destruct (printk_flush_spec str args' [] buf' (printk_loop str) out') as (pieces & Hrun & Hcat); [constructor|cbn; lia|done|apply IH; [lia|done..]|].
      cbn [app length] in Hrun. change (Z.of_nat 0) with 0 in Hrun. rewrite Hrun. cbn [mbind option_bind]. eexists. split; [done|].
      cbn [concat]. by rewrite Hcat.
    + destruct Hr as (out' & Hf' & ->). destruct (p ++ u8 0 :: rest) as [|y buf'] eqn:Hb; [by destruct p|]. rewrite put_0. cbn [mbind option_bind].
      assert (Hlb : length (y :: buf') = 256%nat) by (rewrite <- Hb, length_app; cbn [length]; lia).
      destruct (printk_flush_spec str args [37] buf' (printk_loop str) out') as (pieces & Hrun & Hcat);
        [repeat constructor; lia|cbn; lia|exact Hlb|apply IH; [lia|done..]|].
      rewrite (Hrun : printk_flush str args (u8 37 :: buf') 1 (printk_loop str) = _). cbn [mbind option_bind].
      eexists. split; [done|]. cbn [concat]. by rewrite Hcat.
    + destruct (printk_flush_spec str args [] (p ++ u8 0 :: rest) (printk_loop str) out) as (pieces & Hrun & Hcat);
        [constructor|cbn; lia|cbn [app]; rewrite length_app; cbn [length]; lia|apply IH; [lia|done..]|].
      rewrite (Hrun : printk_flush str args (p ++ u8 0 :: rest) 0 (printk_loop str) = _). cbn [mbind option_bind]. eexists. split; [done|].
      cbn [concat]. by rewrite Hcat.
  - cbn [format] in Hf. rewrite (proj2 (Z.eqb_neq c 37) Hne) in Hf. cbn [negb] in Hf.
    destruct (format str args) as [out'|] eqn:Hf'; [|done]. cbn in Hf. injection Hf as <-.
    rewrite put_at by done. cbn [mbind option_bind]. rewrite u8_small by lia.
    rewrite (app_assoc p [c] rest : p ++ c :: rest = (p ++ [c]) ++ rest).
    replace (Z.of_nat (length p) + 1) with (Z.of_nat (length (p ++ [c]))) by (rewrite length_app; cbn [length]; lia).
    destruct (printk_flush_spec str args (p ++ [c]) rest (printk_loop str) out') as (pieces & Hrun & Hcat).
    { apply Forall_app. split; [done|]. repeat constructor. lia. }
    { rewrite length_app. cbn [length]. lia. }
    { rewrite !length_app. cbn [length]. lia. }
    { apply IH; [lia|done..]. }
    exists pieces. split; [exact Hrun|]. rewrite Hcat, <- app_assoc. done.
Qed.

(** ** Theorems *)

(** The number a decimal string stands for. *)
Definition dec_value (s : list Z) : Z :=
  let value s := num_value 10 ((λ c, c - 48) <$> s) in
  match s with [] => 0 | c :: s' => if c =? 45 then - value s' else value s end.

Lemma dec_chars (ds : list Z) : (λ c, c - 48) <$> ((λ d, 48 + d) <$> ds) = ds.
Proof. induction ds as [|d ds IH]; [done|]. cbn. rewrite IH. f_equal. lia. Qed.

Lemma dec_value_string n : Z.abs n < 10 ^ 10 → dec_value (dec_string n) = n.
Proof.
  intros Hn. pose proof (num_digits_value 10 10 (Z.abs n) ltac:(lia) ltac:(split; [lia|exact Hn])) as Hv.
  unfold dec_string. destruct (Z.ltb_spec n 0); cbn [app].
  - unfold dec_value. change (45 =? 45) with true. cbn beta iota. rewrite dec_chars, Hv. lia.
  - pose proof (num_digits_range 10 10 (Z.abs n) ltac:(lia)) as Hr. destruct (num_digits 10 10 (Z.abs n)) as [|d ds]; [cbn in Hv |- *; lia|].
    apply Forall_inv in Hr. unfold dec_value. cbn [fmap list_fmap]. rewrite (proj2 (Z.eqb_neq (48 + d) 45)) by lia.
    change ((48 + d) :: list_fmap _ _ _ ds) with ((λ x, 48 + x) <$> d :: ds). etrans; [exact (f_equal (num_value 10) (dec_chars (d :: ds)))|]. lia.
Qed.

(** Printing a number in decimal writes, in a buffer of twelve bytes or more, a
    string of at most eleven characters from which the number is read back, and
    nothing after its NUL.  The one number left out is the smallest [int]. *)
Theorem strconv_int_dec_roundtrip n buf :
  -2147483648 < n < 2147483648 → (12 ≤ length buf)%nat →
  ∃ s, strconv_int_dec n buf = Some (s ++ 0 :: drop (S (length s)) buf) ∧ dec_value s = n ∧
    (length s ≤ 11)%nat ∧ no_nul s ∧ ((1 < length s)%nat → s !! 0%nat ≠ Some 48).
Proof.
  intros Hn Hlen. exists (dec_string n). split; [by apply strconv_dec_spec|]. split; [apply dec_value_string; lia|].
  split; [unfold dec_string; rewrite length_app, length_fmap; pose proof (length_num_digits 10 10 (Z.abs n)); case_match; cbn [length]; lia|].
  split; [apply no_nul_dec|]. intros Hl. unfold dec_string in *. destruct (Z.ltb_spec n 0); [done|]. cbn [app] in *.
  destruct (decide (n = 0)) as [->|]; [vm_compute in Hl; lia|].
  destruct (leading_digit 10 (Z.abs n) 10) as (m & Hm & Hr); [lia|change (10 ^ Z.of_nat 10) with 10000000000; lia|].
  rewrite <- (digits_num 10 m _ 10) by lia. rewrite list_lookup_fmap. assert (Hd : ∃ d, digits 10 m (Z.abs n) !! 0%nat = Some d ∧ d ≠ 0).
  { destruct m as [|m]; cbn [digits lookup list_lookup]; eexists; (split; [done|]).
    - change (Z.of_nat 1) with 1 in Hr. rewrite Z.pow_1_r in Hr. change (10 ^ Z.of_nat 0) with 1 in Hr. rewrite Z.mod_small; lia.
    - assert (0 < 10 ^ Z.of_nat (S m)) by (apply Z.pow_pos_nonneg; lia). rewrite (Nat2Z.inj_succ (S m)), Z.pow_succ_r in Hr by lia.
      assert (1 ≤ Z.abs n / 10 ^ Z.of_nat (S m) < 10) by (split; [apply Z.div_le_lower_bound|apply Z.div_lt_upper_bound]; lia).
      rewrite Z.mod_small; lia. }
  destruct Hd as (d & -> & Hd). cbn. intros [= ?]. lia.
Qed.

Lemma strconv_int_dec_roundtrip_witness :
  strconv_int_dec (-2048) (replicate 12 7) = Some (text "-2048" ++ 0 :: replicate 6 7) ∧
  ∃ s, strconv_int_dec (-2048) (replicate 12 7) = Some (s ++ 0 :: drop (S (length s)) (replicate 12 7)) ∧ dec_value s = -2048.
Proof.
  split; [vm_compute; reflexivity|].
  destruct (strconv_int_dec_roundtrip (-2048) (replicate 12 7)) as (s & Hs & Hv & _); [lia|cbn; lia|]. by exists s.
Defined.

(** The smallest [int] is printed as "-(": its opposite is itself. *)
Example strconv_int_min : strconv_int_dec (-2147483648) (replicate 12 7) = Some (text "-(" ++ 0 :: replicate 9 7).
Proof. vm_compute. reflexivity. Qed.

(** The second digit of a byte of a memory dump only says whether the byte is zero. *)
Example print_memory_digits : memory_line 0 [0xAB; 0x20; 0] = text "A12100".
Proof. vm_compute. reflexivity. Qed.

(** C31: A message of a level that is shown is printed as the formatter says, in pieces
    that follow each other, and no byte is written outside of the buffer, for any
    format and any length of the message; the other messages print nothing. *)
Theorem printk_prints_format {D} (early : list Z → D → D) ops lg level str args stale out d :
  Forall (λ c, 0 < c < 256) str → Forall arg_ok args → length stale = 256%nat → format str args = Some out →
  ∃ pieces, printk_internal early ops lg level str args stale d = Some (foldl (λ d s, print early ops lg s d) d pieces) ∧
    (printk_dynamic_level lg ≤ level → kernel_print lg ≠ PrintNone → concat pieces = out) ∧
    (level < printk_dynamic_level lg ∨ kernel_print lg = PrintNone → pieces = []).
Proof.
  intros Hstr Hargs Hst Hf. unfold printk_internal.
  destruct (Z.leb_spec (printk_dynamic_level lg) level); cbn [andb].
  2: exists []; split; [done|]; split; [lia|done].
  destruct (decide (kernel_print lg = PrintNone)) as [Hk|Hk].
  { rewrite Hk. exists []. split; [done|]. split; [intros _ H'; by destruct H'|done]. }
  destruct (printk_loop_spec (length str) str args out ltac:(done) Hstr Hargs Hf [] stale) as (pieces & Hrun & Hcat); [constructor|cbn; lia|done|done|].
  cbn [app length] in Hrun, Hcat. change (Z.of_nat 0) with 0 in Hrun.
  exists pieces. rewrite Hrun. split; [by destruct (kernel_print lg)|]. split; [done|]. intros [?|?]; [lia|done].
Qed.

Lemma printk_prints_format_witness :
  ∃ pieces, printk_internal (λ s d, d ++ s) (λ _, mk_tty_ops None None (λ _ d, (0, d)) None None None None None None None)
      (mk_logger PrintEarly NULL 1) 4 (text "pid %d at %p%%") [AInt 12; APtr 0x8C001000] (replicate 256 7) [] =
    Some (foldl (λ d s, d ++ s) [] pieces) ∧ concat pieces = text "pid 12 at 0x8C001000%".
Proof.
  destruct (printk_prints_format (λ s d, d ++ s) (λ _, mk_tty_ops None None (λ _ d, (0, d)) None None None None None None None)
    (mk_logger PrintEarly NULL 1) 4 (text "pid %d at %p%%") [AInt 12; APtr 0x8C001000] (replicate 256 7) (text "pid 12 at 0x8C001000%") [])
    as (pieces & Hp & Hc & _).
  - vm_compute. repeat constructor.
  - repeat constructor.
  - reflexivity.
  - vm_compute. reflexivity.
  - exists pieces. split; [exact Hp|]. apply Hc; [cbn; lia|done].
Defined.
