(* ===== verification/Cmdline.v ===== *)
(** * Kernel command line and console (src/sys/cmdline.c, src/sys/console.c)

    The boot loader leaves a string of arguments, [name=value] or [name], separated
    by spaces.  The parser cuts it in place and calls the functions registered for
    the names.  Two of them are modelled: the level of the log and the device of
    the console, which is made active later in the boot.  The theorem shows that a
    command line made of well-formed arguments calls, for each of them, the
    functions registered for its name with its value. *)

From S2P Require Import Prelude Tty Device VirtualTerm FileOps Log.

(** ** The parser *)

(** The pointer [p] moved until [stop] holds of [*p]; [None] when it leaves the buffer. *)
Definition find_char (stop : Z → bool) (buf : list Z) (p : nat) : option nat :=
  let j := (p + scan stop (drop p buf))%nat in if (j <? length buf)%nat then Some j else None.

Section parser.
Context {S : Type}.

(** A callback gets its value, [None] for a NULL pointer; [None] is a call that
    does not return. *)
(** src/sys/cmdline.h: kernel_arg *)
Record kernel_arg := mk_karg { argname : list Z; callback : option (list Z) → S → option S }.

Context (argvector : list kernel_arg).

(** src/sys/cmdline.c:59-64: cmdline_parse *)
Definition call_args (name : list Z) (val : option (list Z)) (s : S) : option S :=
  foldl (λ r karg, s ← r; if bool_decide (argname karg = name) then callback karg val s else Some s) (Some s) argvector.

(** One iteration per argument, each one advancing [curarg]. *)
(** src/sys/cmdline.c:32-67: cmdline_parse *)
Fixpoint cmdline_loop (fuel : nat) (max_size : Z) (buf : list Z) (curarg : nat) (s : S) : option (list Z * S) :=
  match fuel with
  | O => None
  | Datatypes.S fuel =>
      c ← buf !! curarg;
      if negb (c =? 0) && (Z.of_nat curarg <? max_size) then
        endarg ← find_char (λ c, (c =? 61) || (c =? 32) || (c =? 0)) buf curarg;
        ce ← buf !! endarg;
        '(valbegin, valend, nextarg) ←
          (if ce =? 61 then
             let valbegin := (endarg + 1)%nat in
             valend ← find_char (λ c, (c =? 32) || (c =? 0)) buf valbegin;
             cv ← buf !! valend;
             Some (Some valbegin, Some valend, if cv =? 0 then valend else (valend + 1)%nat)
           else Some (None, None, if ce =? 0 then endarg else (endarg + 1)%nat));
        let buf := <[endarg := 0]> buf in
        let buf := match valend with Some e => <[e := 0]> buf | None => buf end in
        s ← call_args (c_str (drop curarg buf)) ((λ v, c_str (drop v buf)) <$> valbegin) s;
        cmdline_loop fuel max_size buf nextarg s
      else Some (buf, s)
  end.

(** src/sys/cmdline.c: cmdline_parse *)
Definition cmdline_parse (bootargs : list Z) (max_size : Z) (s : S) : option (list Z * S) :=
  cmdline_loop (length bootargs + 1) max_size bootargs 0 s.
End parser.
Arguments kernel_arg : clear implicits.

(** ** The console *)

(** src/sys/console.c:31-31: CONSOLE_TTY_MAJOR *)
Definition CONSOLE_TTY_MAJOR : Z := 4.
(** src/sys/console.c:32-32: CONSOLE_VT_MINOR_BASE *)
Definition CONSOLE_VT_MINOR_BASE : Z := VT_MINOR_BASE.
(** src/device/usb/cdc_acm/acm_device.h:31-31: ACM_USB_TTY_MINOR *)
Definition ACM_USB_TTY_MINOR : Z := 6.

Section console.
Context {D : Type} (early : list Z → D → D) (ops : ptr → tty_ops D) (stale : list Z).

(** The variables of the boot: the log, the device of the console, and the state of
    the terminals the log is printed on. *)
(** src/sys/console.c:36-37: _console_node *)
Record boot := mk_boot { b_log : logger; console_node : Z; b_drv : D }.

(** src/sys/console.c:36-37: makedev *)
Definition boot0 (d : D) : boot := mk_boot logger0 (makedev CONSOLE_TTY_MAJOR CONSOLE_VT_MINOR_BASE) d.

Definition set_log lg b := mk_boot lg (console_node b) (b_drv b).
Definition set_node n b := mk_boot (b_log b) n (b_drv b).

(** src/utils/log.h:62-64: printk *)
Definition printk (level : Z) (str : list Z) (args : list printk_arg) (b : boot) : option boot :=
  d ← printk_internal early ops (b_log b) level str args stale (b_drv b);
  Some (mk_boot (b_log b) (console_node b) d).

(** src/utils/log.c:189-197: parse_loglevel *)
Definition loglevel_arg (val : option (list Z)) (b : boot) : option boot :=
  '(ret, lg) ← parse_loglevel val (b_log b);
  let b := set_log lg b in
  if ret =? 0 then Some b else printk LOG_WARNING (text "malformed 'loglevel' parameter" ++ [10]) [] b.

(** src/sys/console.c: parse_console *)
Definition parse_console (val : option (list Z)) (b : boot) : option (Z * boot) :=
  let malformed :=
    b ← printk 4 (text "malformed 'console' parameter" ++ [10]) [] b;
    Some (-1, b) in
  match val with
  | None => malformed
  | Some val =>
      let c i := nth i val 0 in
      if (c 0%nat =? 116) && (c 1%nat =? 116) && (c 2%nat =? 121) then
        if (49 <=? c 3%nat) && (c 3%nat <=? 57) then
          let minorvt := u16 (c 3%nat - 49 + CONSOLE_VT_MINOR_BASE) in
          if minorvt <? CONSOLE_VT_MINOR_BASE + VT_MAX_TERMINALS then
            b ← printk LOG_INFO (text "console: will use tty%d soon" ++ [10]) [AInt (c 3%nat - 48)] (set_node (makedev CONSOLE_TTY_MAJOR minorvt) b);
            Some (0, b)
          else malformed
        else if bool_decide (drop 3 val = text "USB0") then
          b ← printk LOG_INFO (text "console: will use USB soon" ++ [10]) [] (set_node (makedev CONSOLE_TTY_MAJOR ACM_USB_TTY_MINOR) b);
          Some (0, b)
        else malformed
      else malformed
  end.

(** The loop [while(!tty_is_ready(tty))]: [irq] is what the interrupts do to the
    terminals between two tests. *)
(** src/sys/console.c:87-87: console_make_active *)
Fixpoint wait_ready (fuel : nat) (irq : D → D) (tty : ptr) (d : D) : option D :=
  if negb (tty_is_ready (ops tty) d =? 0) then Some d
  else match fuel with O => None | Datatypes.S fuel => wait_ready fuel irq tty (irq d) end.

(** src/sys/console.c: console_make_active *)
Definition console_make_active (fuel : nat) (irq : D → D) (devs : list device_entry) (minors : list ptr) (b : boot) : option boot :=
  let console_dev := dev_device_from_major (major (console_node b)) devs in
  if negb (console_dev =? NULL) then
    let tty := ttydev_get_minor (minor (console_node b)) minors in
    if negb (tty =? NULL) then
      let b := mk_boot (b_log b) (console_node b) (tty_open (ops tty) (b_drv b)).2 in
      b ←
        (if tty_is_ready (ops tty) (b_drv b) =? 0 then
           b ← printk LOG_INFO (text "[console tty not ready...]" ++ [10]) [] b;
           d ← wait_ready fuel irq tty (b_drv b);
           printk LOG_INFO (text "[ready!]" ++ [10]) [] (mk_boot (b_log b) (console_node b) d)
         else Some b);
      let b := set_log (printk_set_console_tty tty (b_log b)) b in
      printk LOG_INFO (text "Now using console device for printk()!" ++ [10]) [] b
    else printk 4 (text "console: unable to open minor %d!" ++ [10]) [AInt (minor (console_node b))] b
  else printk 4 (text "console: unable to find device %d!" ++ [10]) [AInt (major (console_node b))] b.

(** src/sys/console.c: console_get_device *)
Definition console_get_device (b : boot) : Z := console_node b.

(** The arguments of the kernel; the table is gathered by the linker. *)
(** src/sys/console.c:70-70: KERNEL_BOOT_ARG *)
Definition kernel_args : list (kernel_arg boot) :=
  [mk_karg (text "console") (λ v b, '(_, b) ← parse_console v b; Some b);
   mk_karg (text "loglevel") loglevel_arg].
End console.
Arguments boot : clear implicits.

(** A terminal that is ready becomes the one of the log at once. *)
Lemma console_ready {D} (early : list Z → D → D) ops stale fuel irq devs minors (b : boot D) tty :
  dev_device_from_major (major (console_node b)) devs ≠ NULL → ttydev_get_minor (minor (console_node b)) minors = tty → tty ≠ NULL →
  tty_is_ready (ops tty) (tty_open (ops tty) (b_drv b)).2 ≠ 0 →
  console_make_active early ops stale fuel irq devs minors b =
  printk early ops stale LOG_INFO (text "Now using console device for printk()!" ++ [10]) []
    (mk_boot (printk_set_console_tty tty (b_log b)) (console_node b) (tty_open (ops tty) (b_drv b)).2).
Proof.
  intros Hd Hm Ht Hr. assert (Hif : ∀ T (c : bool) (x y : T), c = true → (if c then x else y) = x) by (intros T c x y ->; done).
  assert (Helse : ∀ T (c : bool) (x y : T), c = false → (if c then x else y) = y) by (intros T c x y ->; done).
  unfold console_make_active. cbv zeta. rewrite Hif by (by rewrite (proj2 (Z.eqb_neq _ _) Hd)). rewrite Hm.
  rewrite Hif by (by rewrite (proj2 (Z.eqb_neq _ _) Ht)). rewrite Helse by (by apply Z.eqb_neq). done.
Qed.

(** ** Arguments as text *)

Definition boot_arg : Type := list Z * option (list Z).

Definition arg_text (a : boot_arg) : list Z := a.1 ++ match a.2 with Some v => 61 :: v | None => [] end.

Fixpoint args_text (l : list boot_arg) : list Z :=
  match l with
  | [] => []
  | [a] => arg_text a
  | a :: l => arg_text a ++ 32 :: args_text l
  end.

(** A name is not empty; no part holds a character that ends it. *)
Definition boot_arg_ok (a : boot_arg) : Prop :=
  a.1 ≠ [] ∧ Forall (λ c, c ≠ 61 ∧ c ≠ 32 ∧ c ≠ 0) a.1 ∧ match a.2 with Some v => Forall (λ c, c ≠ 32 ∧ c ≠ 0) v | None => True end.

Lemma scan_app stop (a : list Z) c rest : Forall (λ x, stop x = false) a → stop c = true → scan stop (a ++ c :: rest) = length a.
Proof. intros Ha Hc. induction Ha as [|x a Hx Ha IH]; cbn [app scan length]; [by rewrite Hc|by rewrite Hx, IH]. Qed.

Lemma find_char_app stop pre a c rest : Forall (λ x, stop x = false) a → stop c = true →
  find_char stop (pre ++ a ++ c :: rest) (length pre) = Some (length pre + length a)%nat.
Proof.
  intros Ha Hc. unfold find_char. rewrite drop_app_length, scan_app by done. rewrite !length_app. cbn [length].
  by rewrite (proj2 (Nat.ltb_lt _ _)) by lia.
Qed.

Lemma insert_mid (pre : list Z) x y rest : <[length pre := y]> (pre ++ x :: rest) = pre ++ y :: rest.
Proof. by rewrite insert_app_r_alt, Nat.sub_diag by lia. Qed.

Lemma lookup_mid (pre : list Z) x rest : (pre ++ x :: rest) !! length pre = Some x.
Proof. by rewrite lookup_app_r, Nat.sub_diag by lia. Qed.

Section calls.
Context {S : Type} (argvector : list (kernel_arg S)).

(** What is called for a list of arguments. *)
Definition call_all (l : list boot_arg) (s : S) : option S :=
  foldl (λ r a, s ← r; call_args argvector a.1 a.2 s) (Some s) l.

Lemma call_all_cons a l s : call_all (a :: l) s = (s ← call_args argvector a.1 a.2 s; call_all l s).
Proof.
  unfold call_all. cbn [foldl mbind option_bind]. destruct (call_args argvector a.1 a.2 s) as [s'|]; [done|]. cbn [mbind option_bind].
  induction l; [done|exact IHl].
Qed.

Lemma loop_end fuel max_size pre rest s :
  cmdline_loop argvector (Datatypes.S fuel) max_size (pre ++ 0 :: rest) (length pre) s = Some (pre ++ 0 :: rest, s).
Proof. cbn [cmdline_loop]. by rewrite lookup_mid. Qed.

(** One iteration, on an argument followed by a space or by the end. *)
Lemma loop_step fuel max_size pre a ce rest s :
  boot_arg_ok a → ce = 32 ∨ ce = 0 → Z.of_nat (length pre) < max_size →
  ∃ pre', length pre' = (length pre + length (arg_text a))%nat ∧
  cmdline_loop argvector (Datatypes.S fuel) max_size (pre ++ arg_text a ++ ce :: rest) (length pre) s =
  (s ← call_args argvector a.1 a.2 s;
   cmdline_loop argvector fuel max_size (pre' ++ 0 :: rest) (if ce =? 0 then length pre' else (length pre' + 1)%nat) s).
Proof.
  destruct a as [name v]. intros (Hne & Hname & Hv) Hce Hmax. cbn [fst snd] in *.
  destruct name as [|n0 name]; [done|]. assert (Hn0 : n0 ≠ 0) by (apply Forall_inv in Hname; lia).
  assert (Hnn : Forall (λ c, c ≠ 0) (n0 :: name)) by (eapply Forall_impl; [exact Hname|]; cbn; intros; lia).
  assert (Hstop : Forall (λ x, (λ c, (c =? 61) || (c =? 32) || (c =? 0)) x = false) (n0 :: name)).
  { eapply Forall_impl; [exact Hname|]. cbn. intros c (? & ? & ?). rewrite !(proj2 (Z.eqb_neq _ _)) by done. done. }
  set (nm := n0 :: name) in *. cbn [cmdline_loop]. unfold arg_text. cbn [fst snd].
  assert (Hc0 : ∀ t, (pre ++ nm ++ t) !! length pre = Some n0) by (intros t; unfold nm; cbn [app]; apply lookup_mid).
  destruct v as [v|].
  - exists (pre ++ nm ++ 0 :: v). split; [rewrite !length_app; cbn [length]; lia|].
    rewrite <- app_assoc. cbn [app]. rewrite Hc0. cbn [mbind option_bind]. rewrite (proj2 (Z.eqb_neq n0 0) Hn0), (proj2 (Z.ltb_lt _ _) Hmax). cbn [negb andb].
    rewrite find_char_app by done. cbn [mbind option_bind].
    assert (Hl : (pre ++ nm ++ 61 :: v ++ ce :: rest) !! (length pre + length nm)%nat = Some 61).
    { rewrite app_assoc, <- length_app. apply lookup_mid. }
    rewrite Hl. cbn [mbind option_bind]. change (61 =? 61) with true. cbn beta iota.
    assert (Hf : find_char (λ c, (c =? 32) || (c =? 0)) (pre ++ nm ++ 61 :: v ++ ce :: rest) (length pre + length nm + 1) =
      Some (length pre + length nm + 1 + length v)%nat).
    { replace (pre ++ nm ++ 61 :: v ++ ce :: rest) with ((pre ++ nm ++ [61]) ++ v ++ ce :: rest) by (rewrite <- !app_assoc; done).
      replace (length pre + length nm + 1)%nat with (length (pre ++ nm ++ [61])) by (rewrite !length_app; cbn [length]; lia).
      apply find_char_app; [|by destruct Hce as [-> | ->]]. eapply Forall_impl; [exact Hv|]. cbn. intros c [? ?]. rewrite !(proj2 (Z.eqb_neq _ _)) by done. done. }
    rewrite Hf. cbn [mbind option_bind].
    assert (Hl2 : (pre ++ nm ++ 61 :: v ++ ce :: rest) !! (length pre + length nm + 1 + length v)%nat = Some ce).
    { replace (pre ++ nm ++ 61 :: v ++ ce :: rest) with ((pre ++ nm ++ 61 :: v) ++ ce :: rest) by (rewrite <- !app_assoc; done).
      replace (length pre + length nm + 1 + length v)%nat with (length (pre ++ nm ++ 61 :: v)) by (rewrite !length_app; cbn [length]; lia). apply lookup_mid. }
    rewrite Hl2. cbn [mbind option_bind].
    assert (Hi : <[(length pre + length nm + 1 + length v)%nat := 0]> (<[(length pre + length nm)%nat := 0]> (pre ++ nm ++ 61 :: v ++ ce :: rest)) =
      (pre ++ nm ++ 0 :: v) ++ 0 :: rest).
    { rewrite app_assoc, <- length_app, insert_mid.
      replace (length (pre ++ nm) + 1 + length v)%nat with (length ((pre ++ nm) ++ 0 :: v)) by (rewrite !length_app; cbn [length]; lia).
      replace ((pre ++ nm) ++ 0 :: v ++ ce :: rest) with (((pre ++ nm) ++ 0 :: v) ++ ce :: rest) by (rewrite <- !app_assoc; done).
      rewrite insert_mid. by rewrite <- !app_assoc. }
    rewrite Hi. cbn [fmap option_fmap option_map].
    assert (Hs1 : c_str (drop (length pre) ((pre ++ nm ++ 0 :: v) ++ 0 :: rest)) = nm).
    { rewrite <- app_assoc, drop_app_length, <- app_assoc. by apply c_str_app_nul. }
    assert (Hs2 : c_str (drop (length pre + length nm + 1) ((pre ++ nm ++ 0 :: v) ++ 0 :: rest)) = v).
    { replace ((pre ++ nm ++ 0 :: v) ++ 0 :: rest) with ((pre ++ nm ++ [0]) ++ v ++ 0 :: rest) by (rewrite <- !app_assoc; done).
      replace (length pre + length nm + 1)%nat with (length (pre ++ nm ++ [0])) by (rewrite !length_app; cbn [length]; lia).
      rewrite drop_app_length. apply c_str_app_nul. eapply Forall_impl; [exact Hv|]. cbn. intros; lia. }
    rewrite Hs1, Hs2. replace (length pre + length nm + 1 + length v)%nat with (length (pre ++ nm ++ 0 :: v)) by (rewrite !length_app; cbn [length]; lia).
    done.
  - exists (pre ++ nm). rewrite app_nil_r. split; [by rewrite length_app|].
    rewrite Hc0. cbn [mbind option_bind]. rewrite (proj2 (Z.eqb_neq n0 0) Hn0), (proj2 (Z.ltb_lt _ _) Hmax). cbn [negb andb].
    rewrite find_char_app by (done || by destruct Hce as [-> | ->]). cbn [mbind option_bind].
    rewrite app_assoc, <- length_app, lookup_mid. cbn [mbind option_bind].
    rewrite (proj2 (Z.eqb_neq ce 61)) by lia. cbn beta iota. cbn [mbind option_bind fmap option_fmap option_map]. rewrite insert_mid.
    assert (Hs1 : c_str (drop (length pre) ((pre ++ nm) ++ 0 :: rest)) = nm).
    { rewrite <- app_assoc, drop_app_length. by apply c_str_app_nul. }
    by rewrite Hs1.
Qed.

Lemma cmdline_loop_spec max_size rest l : ∀ fuel pre s,
  Forall boot_arg_ok l → (length l < fuel)%nat → Z.of_nat (length pre + length (args_text l)) ≤ max_size →
  snd <$> cmdline_loop argvector fuel max_size (pre ++ args_text l ++ 0 :: rest) (length pre) s = call_all l s.
Proof.
  induction l as [|a l IH]; intros fuel pre s Hok Hf Hmax; (destruct fuel as [|fuel]; [lia|]).
  { cbn [args_text app]. by rewrite loop_end. }
  apply Forall_cons in Hok as [Ha Hok]. cbn [length] in Hf. rewrite call_all_cons.
  assert (Hpos : (0 < length (arg_text a))%nat) by (destruct a as [[|] v], Ha; [done|]; unfold arg_text; cbn; lia).
  destruct l as [|b l].
  - cbn [args_text] in *. destruct (loop_step fuel max_size pre a 0 rest s Ha ltac:(by right)) as (pre' & Hl & ->); [lia|].
    destruct (call_args argvector a.1 a.2 s) as [s'|]; [|done]. cbn [mbind option_bind]. destruct fuel as [|fuel]; [lia|].
    change (0 =? 0) with true. cbn beta iota. by rewrite loop_end.
  - remember (b :: l) as l' eqn:El. replace (args_text (a :: l')) with (arg_text a ++ 32 :: args_text l') in * by (rewrite El; done).
    rewrite !length_app in Hmax. cbn [length] in Hmax. rewrite <- app_assoc. cbn [app].
    destruct (loop_step fuel max_size pre a 32 (args_text l' ++ 0 :: rest) s Ha ltac:(by left)) as (pre' & Hl & ->); [lia|].
    destruct (call_args argvector a.1 a.2 s) as [s'|]; [|done]. cbn [mbind option_bind]. change (32 =? 0) with false. cbn beta iota.
    replace (pre' ++ 0 :: args_text l' ++ 0 :: rest) with ((pre' ++ [0]) ++ args_text l' ++ 0 :: rest) by (rewrite <- app_assoc; done).
    replace (length pre' + 1)%nat with (length (pre' ++ [0])) by (rewrite length_app; done).
    apply IH; [done|lia|]. rewrite length_app. cbn [length]. lia.
Qed.
End calls.

Lemma args_text_length l : Forall boot_arg_ok l → (length l ≤ length (args_text l))%nat.
Proof.
  induction 1 as [|a l Ha Hl IH]; [done|]. assert ((0 < length (arg_text a))%nat) by (destruct a as [[|] v], Ha; [done|]; unfold arg_text; cbn; lia).
  destruct l as [|b l]; [cbn in *; lia|]. remember (b :: l) as l'. replace (args_text (a :: l')) with (arg_text a ++ 32 :: args_text l') by (subst; done).
  rewrite length_app. cbn [length]. lia.
Qed.

(** C33: A command line that holds well-formed arguments, separated by spaces, within
    the size given, calls in order for each argument the functions registered for
    its name, with its value, and nothing else; it returns if they do. *)
Theorem cmdline_parse_roundtrip {S} (argvector : list (kernel_arg S)) l rest max_size s :
  Forall boot_arg_ok l → Z.of_nat (length (args_text l)) ≤ max_size →
  snd <$> cmdline_parse argvector (args_text l ++ 0 :: rest) max_size s = call_all argvector l s.
Proof.
  intros Hok Hmax. apply (cmdline_loop_spec argvector max_size rest l _ []); [done| |done].
  pose proof (args_text_length l Hok). rewrite length_app. cbn [length]. lia.
Qed.

Definition demo_boot : boot (list Z) := boot0 [].
Definition demo_term_ops : ptr → tty_ops (list Z) := λ _, mk_tty_ops None (Some (λ s d, (0, d ++ s))) (λ _ d, (0, d)) None None None None None None None.

Lemma cmdline_parse_roundtrip_witness :
  args_text [(text "console", Some (text "tty2")); (text "loglevel", Some (text "0"))] = text "console=tty2 loglevel=0" ∧
  ∃ b, snd <$> cmdline_parse (kernel_args (λ s d, d ++ s) demo_term_ops (replicate 256 0)) (text "console=tty2 loglevel=0" ++ [0; 7]) 128 demo_boot = Some b ∧
    minor (console_node b) = 1 ∧ printk_dynamic_level (b_log b) = 0.
Proof.
  split; [reflexivity|]. eexists. split.
  - refine (eq_trans (cmdline_parse_roundtrip (kernel_args (λ s d, d ++ s) demo_term_ops (replicate 256 0))
      [(text "console", Some (text "tty2")); (text "loglevel", Some (text "0"))] [7] 128 demo_boot _ _) _).
    + vm_compute. repeat constructor; discriminate.
    + vm_compute. discriminate.
    + vm_compute. reflexivity.
  - vm_compute. done.
Defined.

(** The level without a value reads through a NULL pointer. *)
Example loglevel_null :
  cmdline_parse (kernel_args (λ s d, d ++ s) demo_term_ops (replicate 256 0)) (text "loglevel" ++ [0]) 128 demo_boot = None.
Proof. vm_compute. reflexivity. Qed.
