(* ===== verification/Sysctl.v ===== *)
(** * sysctl (src/sys/sysctl.c, and the views of processes of src/sys/process.c)

    The values the kernel shows to programs form a tree: each object has a number
    and a name under its parent.  A program reads a value by the numbers of the path
    and can convert a dotted name into these numbers.  The objects are gathered by
    the linker in an array that every search scans.

    The theorems hold for any well-formed array: converting the dotted name of an
    object and looking the numbers up finds that object.  They also describe what
    the views of processes return. *)

From S2P Require Import Prelude Kernel Scheduler Process Time.

(** ** Objects *)

(** src/sys/sysctl.h:41-41: CTL_TYPE_OPAQUE *)
Definition CTL_TYPE_OPAQUE : Z := 1.
(** src/sys/sysctl.h:43-43: CTL_TYPE_OPAQUE_NDX *)
Definition CTL_TYPE_OPAQUE_NDX : Z := 2.
(** src/sys/sysctl.h:45-45: CTL_TYPE_NODE *)
Definition CTL_TYPE_NODE : Z := 3.

(** src/interface/fixos/process.h:63-76: proc_uinfo *)
Record proc_uinfo := mk_uinfo {
  u_pid : Z; u_ppid : Z; u_state : Z; u_exit_status : Z; u_uticks : Z; u_kticks : Z; u_cpu_usage : Z
}.

(** [sizeof(struct proc_uinfo)] *)
Definition UINFO_SIZE : Z := 28.

(** What is copied in the buffer of the program. *)
Inductive ctl_data := DBytes (b : list Z) | DProcs (l : list proc_uinfo).

(** What an access returns: its result, what it copied, the new value of [*oldlen]
    and the state. *)
Definition ctl_result (K : Type) : Type := Z * option ctl_data * option Z * K.

Section sysctl.
Context {K : Type}.

(** An access gets whether the buffer is given and [*oldlen], [None] for a NULL
    pointer; nothing in the kernel uses the arguments for writing. *)
(** src/sys/sysctl.h:48-49: ctl_access *)
Definition ctl_access : Type := bool → option Z → K → ctl_result K.
(** src/sys/sysctl.h:50-51: ctl_access_ndx *)
Definition ctl_access_ndx : Type := bool → option Z → Z → K → ctl_result K.

(** src/sys/sysctl.h:66-69: access *)
Inductive accessor := NoAccess | AccData (f : ctl_access) | AccIndexed (f : ctl_access_ndx).

(** With the address of the object; the parent of a top-level object is NULL. *)
(** src/sys/sysctl.h: ctl_object *)
Record ctl_object := mk_ctl {
  o_addr : ptr; o_parent : ptr; o_name : list Z; o_id : Z; o_type : Z; o_access : accessor
}.

Context (objs : list ctl_object).

(** The loop over the levels of the name; [None] is [error], and the address of the
    root is NULL. *)
(** src/sys/sysctl.c: ctl_find_object *)
Fixpoint ctl_find_loop (curparent : option ctl_object) (name : list Z) : option (option ctl_object) :=
  match name with
  | [] => Some curparent
  | id :: name =>
      let addr := match curparent with Some o => o_addr o | None => NULL end in
      match List.find (λ o, (o_parent o =? addr) && (o_id o =? id)) objs with
      | None => None
      | Some o =>
          if o_type o =? CTL_TYPE_NODE then ctl_find_loop (Some o) name
          else if (o_type o =? CTL_TYPE_OPAQUE_NDX) && (length name =? 1)%nat then Some (Some o)
          else if (o_type o =? CTL_TYPE_OPAQUE) && (length name =? 0)%nat then Some (Some o)
          else None
      end
  end.

(** src/sys/sysctl.c:172-177: ctl_find_object *)
Definition ctl_find_object (name : list Z) : option ctl_object := default None (ctl_find_loop None name).

(** src/sys/sysctl.c: sys_sysctl_read *)
Definition sys_sysctl_read (name : list Z) (buf : bool) (len : option Z) (k : K) : ctl_result K :=
  match ctl_find_object name with
  | Some o =>
      if o_type o =? CTL_TYPE_OPAQUE then match o_access o with AccData f => f buf len k | _ => (-1, None, len, k) end
      else if o_type o =? CTL_TYPE_OPAQUE_NDX then
        match o_access o with AccIndexed f => f buf len (List.last name 0) k | _ => (-1, None, len, k) end
      else (-1, None, len, k)
  | None => (-1, None, len, k)
  end.

(** src/sys/sysctl.c: sys_sysctl_write *)
Definition sys_sysctl_write (name : list Z) (buf : list Z) (len : Z) : Z := -1.

(** src/sys/sysctl.c: ctl_find_child_byname *)
Definition ctl_find_child_byname (parent : ptr) (strname : list Z) : option ctl_object :=
  List.find (λ o, (o_parent o =? parent) && bool_decide (o_name o = strname)) objs.

(** src/sys/sysctl.c:271-271: NAMEPART_MAX *)
Definition NAMEPART_MAX : nat := 20.

(** The loop over the parts of the name; [name] holds the numbers found.  The
    result is what is returned, the numbers written and the new [*name_len]. *)
(** src/sys/sysctl.c:279-312: sys_sysctl_mibname *)
Fixpoint mib_loop (fuel : nat) (curparent : ptr) (strname : list Z) (name : list Z) (name_len : Z) : option (Z * list Z * Z) :=
  match fuel with
  | O => None
  | S fuel =>
      let plen := scan (λ c, c =? 46) (take (NAMEPART_MAX - 1) strname) in
      if (plen <? NAMEPART_MAX - 1)%nat then
        match ctl_find_child_byname curparent (take plen strname) with
        | None => Some (-1, name, name_len)
        | Some o =>
            if name_len <? Z.of_nat (length name) + 1 then Some (-1, name, name_len)
            else
              let name := name ++ [o_id o] in
              match drop plen strname with
              | [] => Some (0, name, Z.of_nat (length name))
              | _ :: strname => mib_loop fuel (o_addr o) strname name name_len
              end
        end
      else Some (-1, name, name_len)
  end.

(** The pointers are not NULL. *)
(** src/sys/sysctl.c: sys_sysctl_mibname *)
Definition sys_sysctl_mibname (strname : list Z) (name_len : Z) : option (Z * list Z * Z) :=
  mib_loop (length strname + 1) NULL strname [] name_len.

(** src/sys/sysctl.c: ctl_access_read_helper *)
Definition ctl_access_read_helper (oldbuf : bool) (oldlen : Z) (data : list Z) (k : K) : ctl_result K :=
  let datalen := Z.of_nat (length data) in
  if (datalen <=? oldlen) && oldbuf then (0, Some (DBytes data), Some datalen, k) else (-1, None, Some datalen, k).

(** The accesses to constant strings, with their NUL. *)
(** src/sys/sysctl.c:46-53: access_kern_ostype *)
Definition access_string (data : list Z) : ctl_access := λ oldbuf oldlen k,
  match oldlen with Some len => ctl_access_read_helper oldbuf len (data ++ [0]) k | None => (-1, None, None, k) end.
End sysctl.
Arguments ctl_object : clear implicits.
Arguments ctl_access : clear implicits.
Arguments ctl_access_ndx : clear implicits.

(** ** Views of the processes *)

Section procs.
Context {A : Type}.
Implicit Types (k : kernel A).

(** The value read from the clock is [ticks].  Computing the average load updates
    the samples of the process. *)
(** src/sys/process.c: copy_proc_user *)
Definition copy_proc_user (ticks : Z) (proc : ptr) k : proc_uinfo * kernel A :=
  let '(usage, p) := load_proc_average ticks (k_procs k proc) in
  let k := upd_proc proc (λ _, p) k in
  (mk_uinfo (pid p) (process_get_ppid k) (state p) (exit_status p) (uticks p) (kticks p) usage, k).

(** src/sys/process.c: access_proc_pid *)
Definition access_proc_pid (ticks : Z) : ctl_access_ndx (kernel A) := λ oldbuf oldlen index k,
  match oldlen with
  | None => (-1, None, None, k)
  | Some len =>
      let proc := process_from_pid (s32 index) k in
      if negb (proc =? NULL) && (UINFO_SIZE <=? len) && oldbuf then
        let '(u, k) := copy_proc_user ticks proc k in (0, Some (DProcs [u]), Some UINFO_SIZE, k)
      else (-1, None, Some UINFO_SIZE, k)
  end.

(** The loop over the list of processes: [pos] is [cur_uinfo - oldbuf]. *)
(** src/sys/process.c:897-902: access_proc_all *)
Fixpoint copy_procs (ticks size pos : Z) (procs : list ptr) k : list proc_uinfo * kernel A :=
  match procs with
  | [] => ([], k)
  | proc :: procs =>
      let '(u, k) := copy_proc_user ticks proc k in
      let pos := pos + UINFO_SIZE in
      if size <? pos then ([u], k)
      else let '(us, k) := copy_procs ticks size pos procs k in (u :: us, k)
  end.

(** src/sys/process.c: access_proc_all *)
Definition access_proc_all (ticks : Z) : ctl_access (kernel A) := λ oldbuf oldlen k,
  match oldlen with
  | None => (-1, None, None, k)
  | Some len =>
      let size := u32 (process_number k * UINFO_SIZE) in
      if (size <=? len) && oldbuf then
        let '(us, k) := copy_procs ticks size 0 (process_list k) k in (0, Some (DProcs us), Some size, k)
      else (-1, None, Some (u32 (size + UINFO_SIZE)), k)
  end.

(** The array of the kernel, for an address of its section; the date of the build
    is given by the compiler.  CONFIG_MODEL is not defined, so the name of the model
    is the name of the macro. *)
(** src/sys/sysctl.c:28-146: SYSCTL_OBJECT *)
Definition sysctl_objs (base : ptr) (osdate : list Z) (ticks : Z) : list (ctl_object (kernel A)) :=
  let at_ i := base + 16 * i in
  [mk_ctl (at_ 0) NULL (text "hw") 0 CTL_TYPE_NODE NoAccess;
   mk_ctl (at_ 1) NULL (text "kern") 1 CTL_TYPE_NODE NoAccess;
   mk_ctl (at_ 2) (at_ 1) (text "ostype") 0 CTL_TYPE_OPAQUE (AccData (access_string (text "FiXos")));
   mk_ctl (at_ 3) (at_ 0) (text "machine") 0 CTL_TYPE_OPAQUE (AccData (access_string (text "sh3")));
   mk_ctl (at_ 4) (at_ 0) (text "model") 1 CTL_TYPE_OPAQUE (AccData (access_string (text "CONFIG_MODEL")));
   mk_ctl (at_ 5) (at_ 1) (text "osrelease") 2 CTL_TYPE_OPAQUE (AccData (access_string (text "0.10")));
   mk_ctl (at_ 6) (at_ 1) (text "osbuilddate") 3 CTL_TYPE_OPAQUE (AccData (access_string osdate));
   mk_ctl (at_ 7) (at_ 1) (text "proc") 1 CTL_TYPE_NODE NoAccess;
   mk_ctl (at_ 8) (at_ 7) (text "pid") 2 CTL_TYPE_OPAQUE_NDX (AccIndexed (access_proc_pid ticks));
   mk_ctl (at_ 9) (at_ 7) (text "all") 0 CTL_TYPE_OPAQUE (AccData (access_proc_all ticks))].
End procs.

(** ** Names and numbers *)

Section tree.
Context {K : Type} (objs : list (ctl_object K)).

(** Under a parent, numbers and names are distinct; parts of names are shorter than
    19 characters and hold no dot. *)
Record tree_ok : Prop := {
  tr_addr o : o ∈ objs → o_addr o ≠ NULL;
  tr_id o o' : o ∈ objs → o' ∈ objs → o_parent o = o_parent o' → o_id o = o_id o' → o = o';
  tr_name o o' : o ∈ objs → o' ∈ objs → o_parent o = o_parent o' → o_name o = o_name o' → o = o';
  tr_part o : o ∈ objs → (length (o_name o) < 19)%nat ∧ Forall (λ c, c ≠ 46) (o_name o)
}.

(** A path of objects from the object (or root) at an address; all but the last are nodes. *)
Fixpoint ctl_path (parent : ptr) (path : list (ctl_object K)) : Prop :=
  match path with
  | [] => True
  | o :: path => o ∈ objs ∧ o_parent o = parent ∧ (path ≠ [] → o_type o = CTL_TYPE_NODE) ∧ ctl_path (o_addr o) path
  end.

(** The dotted name of a path. *)
Fixpoint dotted (path : list (ctl_object K)) : list Z :=
  match path with
  | [] => []
  | [o] => o_name o
  | o :: path => o_name o ++ 46 :: dotted path
  end.

Lemma find_unique (P : ctl_object K → bool) (l : list (ctl_object K)) o :
  o ∈ l → P o = true → (∀ o', o' ∈ l → P o' = true → o' = o) → List.find P l = Some o.
Proof.
  intros Hin HP Hu. destruct (List.find P l) as [o'|] eqn:Hf.
  - apply List.find_some in Hf as [Hin' HP']. apply list_elem_of_In in Hin'. by rewrite (Hu o').
  - apply list_elem_of_In in Hin. rewrite (List.find_none _ _ Hf o Hin) in HP. done.
Qed.

Lemma find_by_id o : tree_ok → o ∈ objs → List.find (λ x, (o_parent x =? o_parent o) && (o_id x =? o_id o)) objs = Some o.
Proof.
  intros Ht Hin. apply find_unique; [done|by rewrite !Z.eqb_refl|]. intros o' Hin' HP. breflect. by apply (tr_id Ht).
Qed.

Lemma find_by_name o : tree_ok → o ∈ objs → ctl_find_child_byname objs (o_parent o) (o_name o) = Some o.
Proof.
  intros Ht Hin. apply find_unique; [done|by rewrite Z.eqb_refl, bool_decide_eq_true_2|]. intros o' Hin' HP. breflect.
  apply bool_decide_eq_true_1 in H0. by apply (tr_name Ht).
Qed.

(** The object of a path is found by its numbers. *)
Lemma find_path path : ∀ cur o, tree_ok → ctl_path (match cur with Some o => o_addr o | None => NULL end) (path ++ [o]) →
  (o_type o = CTL_TYPE_NODE ∨ o_type o = CTL_TYPE_OPAQUE → ctl_find_loop objs cur ((o_id <$> path) ++ [o_id o]) = Some (Some o)) ∧
  (o_type o = CTL_TYPE_OPAQUE_NDX → ∀ i, ctl_find_loop objs cur ((o_id <$> path) ++ [o_id o; i]) = Some (Some o)).
Proof.
  induction path as [|p path IH]; intros cur o Ht Hp.
  - cbn [app ctl_path] in Hp. destruct Hp as (Hin & Hpar & _). cbn [fmap list_fmap app ctl_find_loop].
    rewrite <- Hpar, find_by_id by done. split.
    + intros [-> | ->]; done.
    + intros -> i. done.
  - cbn [app ctl_path] in Hp. destruct Hp as (Hin & Hpar & Hty & Hp). cbn [fmap list_fmap app ctl_find_loop].
    rewrite <- Hpar, find_by_id by done. rewrite Hty by (by destruct path). change (CTL_TYPE_NODE =? CTL_TYPE_NODE) with true. cbn beta iota.
    apply (IH (Some p)); done.
Qed.

(** The length of the first part of a name. *)
Lemma part_scan nm rest : (length nm < 19)%nat → Forall (λ c, c ≠ 46) nm → rest = [] ∨ (∃ t, rest = 46 :: t) →
  scan (λ c, c =? 46) (take 19 (nm ++ rest)) = length nm.
Proof.
  intros Hl Hnm Hrest. rewrite take_app_ge by lia.
  assert (Hs : ∀ t, scan (λ c, c =? 46) (nm ++ t) = (length nm + scan (λ c, (c =? 46)%Z) t)%nat).
  { clear Hl. intros t. induction Hnm as [|c nm Hc _ IH]; [done|]. cbn [app scan length]. apply Z.eqb_neq in Hc. by rewrite Hc, IH. }
  rewrite Hs. destruct Hrest as [->|[t ->]]; [by rewrite take_nil, Nat.add_0_r|].
  destruct (19 - length nm)%nat eqn:E; [lia|]. cbn [take scan]. change (46 =? 46) with true. cbn beta iota. lia.
Qed.

Lemma mib_path path : ∀ fuel parent name cap, tree_ok → path ≠ [] → ctl_path parent path → (length path ≤ fuel)%nat →
  Z.of_nat (length name + length path) ≤ cap →
  mib_loop objs fuel parent (dotted path) name cap = Some (0, name ++ (o_id <$> path), Z.of_nat (length name + length path)).
Proof.
  induction path as [|o path IH]; intros fuel parent name cap Ht Hne Hp Hf Hcap; [done|].
  destruct fuel as [|fuel]; [cbn in Hf; lia|]. cbn [length] in *. destruct Hp as (Hin & <- & Hty & Hp).
  destruct (tr_part Ht o Hin) as [Hl Hd]. cbn [mib_loop]. change (NAMEPART_MAX - 1)%nat with 19%nat.
  destruct path as [|p path].
  - cbn [dotted]. pose proof (part_scan (o_name o) [] Hl Hd ltac:(by left)) as Hs. rewrite app_nil_r in Hs. rewrite Hs.
    rewrite (proj2 (Nat.ltb_lt _ _) Hl). rewrite firstn_all, find_by_name by done.
    rewrite (proj2 (Z.ltb_ge _ _)) by lia. rewrite drop_all. rewrite length_app. cbn [length fmap list_fmap]. done.
  - remember (p :: path) as path' eqn:Ep. replace (dotted (o :: path')) with (o_name o ++ 46 :: dotted path') by (subst; done).
    rewrite part_scan by (eauto). rewrite (proj2 (Nat.ltb_lt _ _) Hl). rewrite take_app_length, find_by_name by done.
    rewrite (proj2 (Z.ltb_ge _ _)) by lia. rewrite drop_app_length.
    rewrite IH; [|done|by subst|done|lia|rewrite length_app; cbn [length]; lia].
    rewrite length_app, <- app_assoc. cbn [length fmap list_fmap app]. do 2 f_equal. lia.
Qed.

Lemma dotted_length path parent : tree_ok → ctl_path parent path → (length path ≤ length (dotted path) + 1)%nat.
Proof.
  revert parent. induction path as [|o path IH]; intros parent Ht Hp; [cbn; lia|]. destruct Hp as (_ & _ & _ & Hp).
  destruct path as [|p path]; [cbn; lia|]. specialize (IH _ Ht Hp). remember (p :: path) as path'.
  replace (dotted (o :: path')) with (o_name o ++ 46 :: dotted path') by (subst; done). rewrite length_app. cbn [length]. lia.
Qed.

(** The dotted name of an object converts to the numbers of its path when they fit
    in the array, and reading by these numbers reaches that object: a value directly,
    an indexed value with one more number. *)
Theorem sysctl_name_roundtrip path o cap :
  tree_ok → ctl_path NULL (path ++ [o]) → Z.of_nat (length (path ++ [o])) ≤ cap →
  sys_sysctl_mibname objs (dotted (path ++ [o])) cap = Some (0, o_id <$> (path ++ [o]), Z.of_nat (length (path ++ [o]))) ∧
  (o_type o = CTL_TYPE_OPAQUE → ctl_find_object objs (o_id <$> (path ++ [o])) = Some o) ∧
  (o_type o = CTL_TYPE_OPAQUE_NDX → ∀ i, ctl_find_object objs ((o_id <$> (path ++ [o])) ++ [i]) = Some o).
Proof.
  intros Ht Hp Hcap. unfold sys_sysctl_mibname. rewrite mib_path; [|done|by destruct path|done| |cbn [length]; lia].
  2: { by apply (dotted_length _ NULL). }
  split; [done|]. destruct (find_path path None o Ht Hp) as [H1 H2]. unfold ctl_find_object. rewrite fmap_app. split.
  - intros Hty. cbn [fmap list_fmap]. rewrite H1 by (by right). done.
  - intros Hty i. rewrite <- app_assoc. cbn [fmap list_fmap app]. rewrite H2 by done. done.
Qed.
End tree.
Arguments tree_ok : clear implicits.
Arguments tree_ok {K}.

(** The array of the kernel is well formed. *)
Lemma sysctl_objs_ok {A} base osdate ticks : 0 < base → tree_ok (@sysctl_objs A base osdate ticks).
Proof.
  intros Hb. unfold sysctl_objs. split.
  - intros o Ho. set_unfold in Ho. destruct_or! Ho; subst o; cbn; lia.
  - intros o o' Ho Ho' Hp Hi. set_unfold in Ho. set_unfold in Ho'.
    destruct_or! Ho; subst o; destruct_or! Ho'; subst o'; cbn [o_parent o_id] in *; try reflexivity; lia.
  - intros o o' Ho Ho' Hp Hi. set_unfold in Ho. set_unfold in Ho'.
    destruct_or! Ho; subst o; destruct_or! Ho'; subst o'; cbn [o_parent o_name] in *; try reflexivity; discriminate.
  - intros o Ho. set_unfold in Ho. destruct_or! Ho; subst o; (split; [vm_compute; lia|vm_compute; repeat constructor; discriminate]).
Qed.

Lemma sysctl_name_roundtrip_witness :
  let objs := @sysctl_objs unit 0x8C010000 (text "today") 5 in
  sys_sysctl_mibname objs (text "kern.osrelease") 4 = Some (0, [1; 2], 2) ∧
  o_name <$> ctl_find_object objs [1; 2] = Some (text "osrelease").
Proof.
  cbv zeta. set (objs := sysctl_objs _ _ _).
  destruct (sysctl_name_roundtrip objs [nth 1 objs (nth 0 objs (mk_ctl 0 0 [] 0 0 NoAccess))] (nth 5 objs (nth 0 objs (mk_ctl 0 0 [] 0 0 NoAccess))) 4)
    as (H1 & H2 & _).
  - apply sysctl_objs_ok. lia.
  - subst objs. unfold sysctl_objs. cbn [nth app ctl_path]. split_and!; try reflexivity; try done; set_solver.
  - vm_compute. discriminate.
  - split; [exact H1|]. specialize (H2 eq_refl). change [1; 2] with (o_id <$> ([nth 1 objs (nth 0 objs (mk_ctl 0 0 [] 0 0 NoAccess))] ++ [nth 5 objs (nth 0 objs (mk_ctl 0 0 [] 0 0 NoAccess))])).
    rewrite H2. reflexivity.
Defined.

(** ** The views of processes *)

Section views.
Context {A : Type}.
Implicit Types (k : kernel A).

(** What the record of a process holds, apart from its load. *)
Definition uinfo_of k (proc : ptr) (u : proc_uinfo) : Prop :=
  let p := k_procs k proc in
  u_pid u = pid p ∧ u_ppid u = process_get_ppid k ∧ u_state u = state p ∧ u_exit_status u = exit_status p ∧ u_uticks u = uticks p ∧ u_kticks u = kticks p.

(** Two kernels that differ by the samples of load. *)
Definition same_but_load k k' : Prop :=
  process_list k' = process_list k ∧ process_number k' = process_number k ∧ proc_current k' = proc_current k ∧
  ∀ q, let p := k_procs k q in let p' := k_procs k' q in
    pid p' = pid p ∧ parent p' = parent p ∧ state p' = state p ∧ exit_status p' = exit_status p ∧ uticks p' = uticks p ∧ kticks p' = kticks p.

Lemma load_average_fields ticks p : let p' := (load_proc_average ticks p).2 in
  pid p' = pid p ∧ parent p' = parent p ∧ state p' = state p ∧ exit_status p' = exit_status p ∧ uticks p' = uticks p ∧ kticks p' = kticks p.
Proof. unfold load_proc_average, load_proc_update. cbn [snd]. cbv zeta. repeat case_match; done. Qed.

Lemma same_load_refl k : same_but_load k k.
Proof. unfold same_but_load. split_and!; try done. Qed.

Lemma same_load_ppid k k' : same_but_load k k' → process_get_ppid k' = process_get_ppid k.
Proof.
  intros (_ & _ & Hc & Hf). unfold process_get_ppid. rewrite Hc. destruct (Hf (proc_current k)) as (_ & -> & _).
  case_match; [done|]. apply Hf.
Qed.

Lemma same_load_trans k1 k2 k3 : same_but_load k1 k2 → same_but_load k2 k3 → same_but_load k1 k3.
Proof.
  intros (A1 & A2 & A3 & A4) (B1 & B2 & B3 & B4). unfold same_but_load. split_and!; [congruence..|].
  intros q. destruct (A4 q) as (? & ? & ? & ? & ? & ?), (B4 q) as (? & ? & ? & ? & ? & ?). cbv zeta. split_and!; congruence.
Qed.

Lemma uinfo_same k k' proc u : same_but_load k k' → uinfo_of k' proc u → uinfo_of k proc u.
Proof.
  intros Hs (H1 & H2 & H3 & H4 & H5 & H6). pose proof (same_load_ppid k k' Hs). destruct Hs as (_ & _ & _ & Hf). destruct (Hf proc) as (? & ? & ? & ? & ? & ?).
  unfold uinfo_of. cbv zeta. split_and!; congruence.
Qed.

Lemma copy_proc_user_spec ticks proc k : let '(u, k') := copy_proc_user ticks proc k in uinfo_of k proc u ∧ same_but_load k k'.
Proof.
  unfold copy_proc_user. destruct (load_proc_average ticks (k_procs k proc)) as [usage p] eqn:E.
  pose proof (load_average_fields ticks (k_procs k proc)) as Hf. rewrite E in Hf. cbn [snd] in Hf.
  assert (Hs : same_but_load k (upd_proc proc (λ _, p) k)).
  { unfold same_but_load. split_and!; try done. intros q. destruct (decide (q = proc)) as [->|Hq]; [rewrite upd_proc_eq|rewrite upd_proc_ne by done]; [exact Hf|done]. }
  split; [|exact Hs]. unfold uinfo_of. cbn [u_pid u_ppid u_state u_exit_status u_uticks u_kticks]. rewrite (same_load_ppid _ _ Hs).
  destruct Hf as (? & ? & ? & ? & ? & ?). by split_and!.
Qed.

Lemma copy_procs_spec ticks size procs : ∀ pos k, pos + UINFO_SIZE * Z.of_nat (length procs) ≤ size →
  let '(us, k') := copy_procs ticks size pos procs k in Forall2 (uinfo_of k) procs us ∧ same_but_load k k'.
Proof.
  induction procs as [|proc procs IH]; intros pos k Hs; [split; [constructor|apply same_load_refl]|].
  cbn [copy_procs]. pose proof (copy_proc_user_spec ticks proc k) as Hu. destruct (copy_proc_user ticks proc k) as [u k1].
  destruct Hu as [Hu Hk1]. unfold UINFO_SIZE in *. cbn [length] in Hs. rewrite (proj2 (Z.ltb_ge _ _)) by lia.
  specialize (IH (pos + 28) k1 ltac:(lia)). destruct (copy_procs ticks size (pos + 28) procs k1) as [us k2]. destruct IH as [Hus Hk2].
  split; [|by eapply same_load_trans]. constructor; [done|]. eapply Forall2_impl; [exact Hus|]. intros q x. by apply uinfo_same.
Qed.

(** Reading the list of the processes with a buffer that is large enough copies
    exactly one record per process, in the order of the list, and reports their
    size; each record holds the data of its process, except that its parent is the
    parent of the caller.  With a smaller buffer or none, nothing is copied and the
    size asked for has room for one more process. *)
Theorem sysctl_all_processes ticks len k :
  process_number k = Z.of_nat (length (process_list k)) → Z.of_nat (length (process_list k)) ≤ 100 →
  let size := 28 * Z.of_nat (length (process_list k)) in
  (size ≤ len → ∃ us k', access_proc_all ticks true (Some len) k = (0, Some (DProcs us), Some size, k') ∧
     Forall2 (uinfo_of k) (process_list k) us ∧ same_but_load k k') ∧
  (len < size → ∀ buf, access_proc_all ticks buf (Some len) k = (-1, None, Some (size + 28), k)) ∧
  access_proc_all ticks false (Some len) k = (-1, None, Some (size + 28), k).
Proof.
  intros Hn Hmax. cbv zeta. unfold access_proc_all, UINFO_SIZE. rewrite Hn, (Z.mul_comm _ 28), !u32_small by lia. split_and!.
  - intros Hle. rewrite (proj2 (Z.leb_le _ _) Hle). cbn [andb].
    pose proof (copy_procs_spec ticks (28 * Z.of_nat (length (process_list k))) (process_list k) 0 k ltac:(unfold UINFO_SIZE; lia)) as Hc.
    destruct (copy_procs _ _ 0 (process_list k) k) as [us k']. by exists us, k'.
  - intros Hlt buf. rewrite (proj2 (Z.leb_gt _ _) Hlt). done.
  - by rewrite andb_false_r.
Qed.
End views.

(** Two processes, 32 child of 16. *)
Definition demo_two : kernel unit := set_process_list [16; 32] (set_process_number 2 demo_family).

Lemma sysctl_all_processes_witness :
  ∃ us k', access_proc_all 0 true (Some 100) demo_two = (0, Some (DProcs us), Some 56, k') ∧ u_pid <$> us = [7; 0].
Proof.
  destruct (sysctl_all_processes 0 100 demo_two) as (H & _); [reflexivity|vm_compute; discriminate|].
  destruct H as (us & k' & Ha & Hu & _); [vm_compute; discriminate|]. exists us, k'. split; [exact Ha|].
  inversion Hu as [|? u1 ? us1 Hu1 Hr]; subst. inversion Hr as [|? u2 ? us2 Hu2 Hr2]; subst. inversion Hr2; subst.
  destruct Hu1 as [E1 _], Hu2 as [E2 _]. cbn [fmap list_fmap]. rewrite E1, E2. reflexivity.
Defined.
