(* ===== verification/SmemFile.v ===== *)
(** * Files of the boot loader (src/bootloader/smem_file.c)

    The boot loader reads the files of the storage memory with its own open files,
    which remember the current fragment and the position in it.  The file models
    these operations over the primitives of the file system and shows that an open
    file is a cursor in the contents of the file; [CharSource] is the interface the
    parser of the configuration uses. *)

From S2P Require Import Prelude Smemfs.

(** ** Model *)

(** src/bootloader/smem_file.h: smem_file *)
Record smem_file := mk_sfile { sf_pos : Z; sf_size : Z; sf_header : ptr; cur_frag : ptr; frag_pos : Z }.

Section ops.
Context (flash : Z → Z) (tables : nat) (p : smemfs_prim).

(** One iteration per part of the path; [s0] is the buffer of the name comparison. *)
(** src/bootloader/smem_file.c:41-76: smem_open *)
Fixpoint smem_open_loop (fuel : nat) (s0 : list Z) (cur_parent : Z) (cur_path : list Z) : option (option ptr) :=
  match fuel with
  | O => None
  | S fuel =>
      let i := scan (λ c, c =? 47) (take 15 cur_path) in
      let partname := take i cur_path in
      let cur_path := drop i cur_path in
      cur_header ← smemfs_prim_get_atomic_file flash tables p s0 partname cur_parent;
      if cur_header =? NULL then Some None
      else
        match cur_path with
        | [] => Some (Some cur_header)
        | c :: cur_path => if c =? 47 then smem_open_loop fuel s0 (h_entry_id flash cur_header) cur_path else Some None
        end
  end.

(** src/bootloader/smem_file.c: smem_open *)
Definition smem_open (s0 path : list Z) : option (option smem_file) :=
  match path with
  | c :: path =>
      if c =? 47 then
        r ← smem_open_loop (length path + 1) s0 SMEMFS_FILE_ROOT_ID path;
        Some (h ← r; Some (mk_sfile 0 (smemfs_prim_get_file_size flash h) h (h + HEADER_SIZE) 0))
      else Some None
  | [] => Some None
  end.

(** src/bootloader/smem_file.c: smem_seek *)
Definition smem_seek (offset whence : Z) (f : smem_file) : option (Z * smem_file) :=
  let tmp_pos :=
    if whence =? SEEK_END then if sf_size f <? u32 (- offset) then 0 else u32 (sf_size f + offset)
    else if whence =? SEEK_CUR then if sf_pos f <? u32 (- offset) then 0 else u32 (sf_pos f + offset)
    else if whence =? SEEK_SET then if offset <? 0 then 0 else offset
    else sf_pos f in
  let pos := if sf_size f <? tmp_pos then sf_size f else tmp_pos in
  '(frag, pos_tmp) ← find_fragment flash tables (sf_header f + HEADER_SIZE) 0 pos;
  Some (s32 pos, mk_sfile pos (sf_size f) (sf_header f) frag (u32 (pos - pos_tmp))).

(** The loop over the fragments: the bytes copied, the fragment and the position in it. *)
(** src/bootloader/smem_file.c:141-157: smem_read *)
Fixpoint smem_read_loop (fuel : nat) (frag : ptr) (fpos j n : Z) : option (list Z * ptr * Z) :=
  match fuel with
  | O => None
  | S fuel =>
      if j <? n then
        let chunk_size := u32 (data_size flash frag + 1 - fpos) in
        let toread := if u32 (j + chunk_size) <? u32 n then chunk_size else u32 (n - j) in
        data ← smemfs_prim_get_frag_data flash tables p frag;
        let bytes := flash_bytes flash (data + fpos) toread in
        '(rest, frag, fpos) ←
          (if toread =? chunk_size then smem_read_loop fuel (frag + HEADER_SIZE) 0 (s32 (j + toread)) n
           else smem_read_loop fuel frag (u32 (fpos + toread)) (s32 (j + toread)) n);
        Some (bytes ++ rest, frag, fpos)
      else Some ([], frag, fpos)
  end.

(** src/bootloader/smem_file.c: smem_read *)
Definition smem_read (len : Z) (f : smem_file) : option (Z * list Z * smem_file) :=
  if sf_size f <=? sf_pos f then Some (-1, [], f)
  else
    let max_read := u32 (sf_size f - sf_pos f) in
    let max_read := if max_read <? len then max_read else len in
    '(bytes, frag, fpos) ← smem_read_loop tables (cur_frag f) (frag_pos f) (s32 (sf_pos f)) (s32 (sf_pos f + max_read));
    Some (s32 max_read, bytes, mk_sfile (u32 (sf_pos f + max_read)) (sf_size f) (sf_header f) frag fpos).

(** src/bootloader/smem_file.c: smem_readchar *)
Definition smem_readchar (f : smem_file) : option (Z * smem_file) :=
  if sf_size f <=? sf_pos f then Some (-1, f)
  else
    fragdata ← smemfs_prim_get_frag_data flash tables p (cur_frag f);
    let ret := flash (fragdata + frag_pos f) in
    let fpos := u32 (frag_pos f + 1) in
    let '(fpos, frag) := if data_size flash (cur_frag f) <? fpos then (0, cur_frag f + HEADER_SIZE) else (fpos, cur_frag f) in
    Some (u8 ret, mk_sfile (u32 (sf_pos f + 1)) (sf_size f) (sf_header f) frag fpos).
End ops.

(** ** An open file is a cursor *)

(** What the parser relies on: [stream f] is what is left to read. *)
Class CharSource (F : Type) := {
  readchar : F → option (Z * F);
  stream : F → list Z → Prop;
  stream_end f : stream f [] → readchar f = Some (-1, f);
  stream_next f c l : stream f (c :: l) → ∃ f', readchar f = Some (c, f') ∧ stream f' l ∧ 0 ≤ c < 256
}.

Section cursor.
Context (flash : Z → Z) (tables : nat) (p : smemfs_prim).
Hypothesis flash_byte : ∀ a, 0 ≤ flash a < 256.

(** The file [f] is open on the fragments [fs1 ++ fs2], the current one being the
    first of [fs2]. *)
Record open_on (f : smem_file) (fs1 fs2 : list (list Z)) : Prop := {
  oo_file : file_at flash p tables (sf_header f) (fs1 ++ fs2);
  oo_size : sf_size f = Z.of_nat (length (concat (fs1 ++ fs2)));
  oo_frag : cur_frag f = sf_header f + HEADER_SIZE + Z.of_nat (length fs1) * HEADER_SIZE;
  oo_pos : sf_pos f = Z.of_nat (length (concat fs1)) + frag_pos f;
  oo_fpos : 0 ≤ frag_pos f ∧ match fs2 with [] => frag_pos f = 0 | b :: _ => frag_pos f < Z.of_nat (length b) end
}.

(** The file has the contents [c] and is at position [pos]. *)
Definition at_pos (f : smem_file) (c : list Z) (pos : Z) : Prop :=
  ∃ fs1 fs2, open_on f fs1 fs2 ∧ c = concat (fs1 ++ fs2) ∧ sf_pos f = pos ∧ (length (fs1 ++ fs2) + 2 ≤ tables)%nat.

Lemma frags_at_drop fs1 : ∀ a fs2, frags_at flash p tables a (fs1 ++ fs2) → frags_at flash p tables (a + Z.of_nat (length fs1) * HEADER_SIZE) fs2.
Proof.
  induction fs1 as [|b fs1 IH]; intros a fs2 H; [cbn [length app] in *; change (Z.of_nat 0) with 0; by rewrite Z.mul_0_l, Z.add_0_r|].
  destruct H as (_ & _ & H). apply IH in H. cbn [length].
  replace (a + Z.of_nat (S (length fs1)) * HEADER_SIZE) with (a + HEADER_SIZE + Z.of_nat (length fs1) * HEADER_SIZE) by (unfold HEADER_SIZE; lia). done.
Qed.

Lemma at_pos_range f c pos : at_pos f c pos → 0 ≤ pos ≤ Z.of_nat (length c) ∧ Z.of_nat (length c) < 2147483648 ∧ sf_size f = Z.of_nat (length c) ∧ sf_pos f = pos.
Proof.
  intros (fs1 & fs2 & [Hf Hs Hc Hp [Hfp Hm]] & -> & Hpos & _). destruct Hf as (_ & _ & _ & Hlt). rewrite concat_app, length_app in *.
  split; [|done]. destruct fs2 as [|b fs2]; cbn [concat length] in *; rewrite ?length_app in *; lia.
Qed.

(** Opening puts the cursor at the beginning. *)
Lemma opened_at h fs : file_at flash p tables h fs → (length fs + 2 ≤ tables)%nat →
  at_pos (mk_sfile 0 (smemfs_prim_get_file_size flash h) h (h + HEADER_SIZE) 0) (concat fs) 0.
Proof.
  intros Hf Ht. exists [], fs. split; [|done]. split; cbn [sf_header sf_size cur_frag sf_pos frag_pos app concat length]; try done.
  - by apply (file_size_spec flash p tables).
  - change (Z.of_nat 0) with 0. lia.
  - split; [lia|]. destruct fs as [|b fs]; [done|]. destruct Hf as (_ & _ & Hf & _). pose proof (frag_length flash p tables flash_byte _ _ _ Hf). lia.
Qed.

(** After reading to the end of a fragment the cursor is at the start of the next. *)
Lemma next_fragment f fs1 b fs2 pos' frag' fpos' :
  open_on f fs1 (b :: fs2) → pos' = sf_pos f + (Z.of_nat (length b) - frag_pos f) →
  frag' = cur_frag f + HEADER_SIZE → fpos' = 0 →
  open_on (mk_sfile pos' (sf_size f) (sf_header f) frag' fpos') (fs1 ++ [b]) fs2.
Proof.
  intros [Hf Hs Hc Hp [Hfp Hm]] -> -> ->. assert (He : (fs1 ++ [b]) ++ fs2 = fs1 ++ b :: fs2) by (by rewrite <- app_assoc).
  split; cbn [sf_header sf_size cur_frag sf_pos frag_pos]; rewrite ?He; try done.
  - rewrite Hc, length_app. cbn [length]. unfold HEADER_SIZE. lia.
  - rewrite Hp, concat_app, length_app. cbn [concat]. rewrite app_nil_r. lia.
  - split; [lia|]. destruct fs2 as [|b2 fs2]; [done|]. destruct Hf as (_ & _ & Hf & _). apply frags_at_drop in Hf. destruct Hf as (_ & _ & Hf).
    pose proof (frag_length flash p tables flash_byte _ _ _ Hf). lia.
Qed.

(** Reading a character returns the byte under the cursor and moves it. *)
Lemma readchar_spec f c pos : at_pos f c pos → pos < Z.of_nat (length c) →
  ∃ b f', smem_readchar flash tables p f = Some (b, f') ∧ c !! Z.to_nat pos = Some b ∧ at_pos f' c (pos + 1) ∧ 0 ≤ b < 256.
Proof.
  intros Hat Hlt. destruct (at_pos_range _ _ _ Hat) as (Hr & H31 & Hsz & Hps). destruct Hat as (fs1 & fs2 & Ho & Hc & _ & Ht).
  pose proof Ho as [Hf Hs Hcf Hp [Hfp Hm]]. unfold smem_readchar. rewrite (proj2 (Z.leb_gt _ _)) by lia.
  destruct fs2 as [|b fs2]; [rewrite app_nil_r in *; rewrite Hc in *; lia|].
  assert (Hfr := Hf). destruct Hfr as (_ & _ & Hfr & _). apply frags_at_drop in Hfr. rewrite <- Hcf in Hfr.
  pose proof (frag_length flash p tables flash_byte _ _ _ Hfr) as Hbl. destruct Hfr as (Hds & (d & Hd & Hb) & _). rewrite Hd. cbn [mbind option_bind].
  rewrite (u32_small (frag_pos f + 1)), (u32_small (sf_pos f + 1)), u8_small by (lia || apply flash_byte).
  assert (Hbyte : c !! Z.to_nat pos = Some (flash (d + frag_pos f))).
  { rewrite Hc, concat_app, lookup_app_r by lia. cbn [concat].
    replace (Z.to_nat pos - length (concat fs1))%nat with (Z.to_nat (frag_pos f)) by lia. rewrite lookup_app_l by lia.
    rewrite <- Hb. unfold flash_bytes. rewrite list_lookup_fmap, lookup_seqZ_lt by lia. cbn. do 2 f_equal. lia. }
  destruct (Z.ltb_spec (data_size flash (cur_frag f)) (frag_pos f + 1)).
  - eexists _, _. split; [done|]. split; [done|]. split; [|apply flash_byte].
    exists (fs1 ++ [b]), fs2. split; [eapply next_fragment; [exact Ho|lia|done|done]|].
    rewrite <- app_assoc. cbn [sf_pos app]. split_and!; [done|lia|done].
  - eexists _, _. split; [done|]. split; [done|]. split; [|apply flash_byte].
    exists fs1, (b :: fs2). split; [|cbn [sf_pos]; split_and!; [done|lia|done]].
    split; cbn [sf_header sf_size cur_frag sf_pos frag_pos]; [done|done|done|lia|lia].
Qed.

Lemma readchar_end f c : at_pos f c (Z.of_nat (length c)) → smem_readchar flash tables p f = Some (-1, f).
Proof.
  intros Hat. destruct (at_pos_range _ _ _ Hat) as (_ & _ & Hsz & Hps). unfold smem_readchar. by rewrite (proj2 (Z.leb_le _ _)) by lia.
Qed.

(** The files of the boot loader are sources of characters. *)
#[global] Instance smem_source : CharSource smem_file.
Proof.
  refine {| readchar := smem_readchar flash tables p;
            stream f l := ∃ c pos, at_pos f c pos ∧ l = drop (Z.to_nat pos) c |}.
  - intros f (c & pos & Hat & Hl). destruct (at_pos_range _ _ _ Hat) as (Hr & _).
    assert (pos = Z.of_nat (length c)) as ->.
    { symmetry in Hl. apply (f_equal length) in Hl. rewrite length_drop in Hl. cbn in Hl. lia. }
    by apply readchar_end with c.
  - intros f x l (c & pos & Hat & Hl). destruct (at_pos_range _ _ _ Hat) as (Hr & _).
    assert (Hlt : pos < Z.of_nat (length c)).
    { apply (f_equal length) in Hl. rewrite length_drop in Hl. cbn [length] in Hl. lia. }
    destruct (readchar_spec f c pos Hat Hlt) as (b & f' & Hrd & Hb & Hat' & Hbr).
    rewrite (drop_S _ b) in Hl by done. injection Hl as -> ->. exists f'. split; [done|]. split; [|done].
    exists c, (pos + 1). split; [done|]. f_equal. lia.
Defined.

(** The fragment loop reads the next bytes and leaves the cursor after them. *)
Lemma read_loop_spec fs2 : ∀ fuel fs1 f n,
  open_on f fs1 fs2 → 0 ≤ n → n ≤ Z.of_nat (length (concat fs2)) - frag_pos f → sf_pos f + n < 2147483648 → (length fs2 + 2 ≤ fuel)%nat →
  ∃ frag fpos fs1' fs2', smem_read_loop flash tables p fuel (cur_frag f) (frag_pos f) (sf_pos f) (sf_pos f + n) =
      Some (take (Z.to_nat n) (drop (Z.to_nat (frag_pos f)) (concat fs2)), frag, fpos) ∧
    fs1' ++ fs2' = fs1 ++ fs2 ∧ open_on (mk_sfile (sf_pos f + n) (sf_size f) (sf_header f) frag fpos) fs1' fs2'.
Proof.
  induction fs2 as [|b fs2 IH]; intros fuel fs1 f n Ho Hn Hle H31 Hfuel; (destruct fuel as [|fuel]; [cbn in Hfuel; lia|]); cbn [smem_read_loop].
  - assert (n = 0) as -> by (destruct Ho as [_ _ _ _ [Hfp Hm]]; cbn in Hle; lia). rewrite Z.add_0_r, Z.ltb_irrefl.
    exists (cur_frag f), (frag_pos f), fs1, []. split; [done|]. split; [done|]. by destruct f.
  - destruct (Z.ltb_spec (sf_pos f) (sf_pos f + n)) as [Hlt|Hge].
    2: { assert (n = 0) as -> by lia. rewrite Z.add_0_r. exists (cur_frag f), (frag_pos f), fs1, (b :: fs2). split; [done|]. split; [done|]. by destruct f. }
    pose proof Ho as [Hf Hs Hcf Hp [Hfp Hm]]. assert (Hfr := Hf). destruct Hfr as (_ & _ & Hfr & Htot). apply frags_at_drop in Hfr. rewrite <- Hcf in Hfr.
    pose proof (frag_length flash p tables flash_byte _ _ _ Hfr) as Hbl. destruct Hfr as (Hds & (d & Hd & Hb) & _).
    rewrite Hds, Hd. cbn [mbind option_bind]. cbn [concat] in *. rewrite !length_app in *.
    set (chunk := Z.of_nat (length b) - frag_pos f). rewrite (u32_small chunk), (u32_small (sf_pos f + chunk)), (u32_small (sf_pos f + n)), (u32_small (sf_pos f + n - sf_pos f))
      by (rewrite concat_app, length_app in Htot; cbn [concat] in Htot; rewrite length_app in Htot; lia).
    destruct (decide (chunk ≤ n)) as [Hfull|Hpart].
    + assert (Ht : (if sf_pos f + chunk <? sf_pos f + n then chunk else sf_pos f + n - sf_pos f) = chunk) by (destruct (_ <? _) eqn:E; breflect; lia).
      rewrite Ht, Z.eqb_refl, s32_small by lia.
      set (f2 := mk_sfile (sf_pos f + chunk) (sf_size f) (sf_header f) (cur_frag f + HEADER_SIZE) 0).
      assert (Ho2 : open_on f2 (fs1 ++ [b]) fs2) by (eapply next_fragment; [exact Ho|done..]).
      destruct (IH fuel (fs1 ++ [b]) f2 (n - chunk)) as (frag & fpos & fs1' & fs2' & Hr & He & Ho'); [done|lia|cbn; lia|cbn; lia|cbn in Hfuel; lia|].
      cbn [f2 cur_frag frag_pos sf_pos sf_size sf_header] in Hr, Ho'. replace (sf_pos f + chunk + (n - chunk)) with (sf_pos f + n) in * by lia.
      rewrite Hr. cbn [mbind option_bind]. exists frag, fpos, fs1', fs2'. split; [|split; [by rewrite He, <- app_assoc|done]].
      rewrite (flash_bytes_sub flash _ _ _ (frag_pos f) chunk Hb) by lia. rewrite drop_app_le by lia. rewrite take_app_ge by (rewrite length_drop; lia).
      do 4 f_equal; [apply take_ge; rewrite length_drop; lia|]. rewrite length_drop, drop_0. f_equal. lia.
    + assert (Ht : (if sf_pos f + chunk <? sf_pos f + n then chunk else sf_pos f + n - sf_pos f) = n) by (destruct (_ <? _) eqn:E; breflect; lia).
      rewrite Ht, (proj2 (Z.eqb_neq n chunk)), s32_small, u32_small by lia. destruct fuel as [|fuel]; [cbn in Hfuel; lia|]. cbn [smem_read_loop].
      rewrite Z.ltb_irrefl. cbn [mbind option_bind]. exists (cur_frag f), (frag_pos f + n), fs1, (b :: fs2). split; [|split; [done|]].
      * rewrite (flash_bytes_sub flash _ _ _ (frag_pos f) n Hb) by lia. rewrite app_nil_r, drop_app_le, take_app_le by (rewrite ?length_drop; lia). done.
      * split; cbn [sf_header sf_size cur_frag sf_pos frag_pos]; [done|by rewrite Hs|done|lia|lia].
Qed.

(** Reading returns the next bytes, as many as are asked for and left. *)
Lemma smem_read_spec f c pos len : at_pos f c pos → 0 ≤ len < 2147483648 → pos < Z.of_nat (length c) →
  let n := Z.min len (Z.of_nat (length c) - pos) in
  ∃ f', smem_read flash tables p len f = Some (n, take (Z.to_nat n) (drop (Z.to_nat pos) c), f') ∧ at_pos f' c (pos + n).
Proof.
  intros Hat Hlen Hlt n. destruct (at_pos_range _ _ _ Hat) as (Hr & H31 & Hsz & Hps). destruct Hat as (fs1 & fs2 & Ho & Hc & _ & Ht).
  pose proof Ho as [Hf Hs Hcf Hp [Hfp Hm]]. unfold smem_read. rewrite (proj2 (Z.leb_gt _ _)) by lia.
  rewrite (u32_small (sf_size f - sf_pos f)) by lia.
  assert (Hmax : (if sf_size f - sf_pos f <? len then sf_size f - sf_pos f else len) = n) by (subst n; destruct (_ <? _) eqn:E; breflect; lia).
  rewrite Hmax, !s32_small, u32_small by lia.
  assert (Hlc : Z.of_nat (length c) = Z.of_nat (length (concat fs1)) + Z.of_nat (length (concat fs2))) by (rewrite Hc, concat_app, length_app; lia).
  destruct (read_loop_spec fs2 tables fs1 f n) as (frag & fpos & fs1' & fs2' & Hrun & He & Ho'); [done|lia|lia|lia|rewrite length_app in Ht; lia|].
  rewrite Hrun. cbn [mbind option_bind]. eexists. split.
  - do 3 f_equal. rewrite Hc, concat_app, drop_app_ge by lia. do 2 f_equal. lia.
  - exists fs1', fs2'. split; [done|]. cbn [sf_pos]. rewrite He. split_and!; [done|lia|done].
Qed.

(** Moving from the beginning of the file puts the cursor there, or at the end. *)
Lemma smem_seek_spec f c pos offset : at_pos f c pos → 0 ≤ offset < 2147483648 →
  let pos' := Z.min offset (Z.of_nat (length c)) in
  ∃ f', smem_seek flash tables offset SEEK_SET f = Some (pos', f') ∧ at_pos f' c pos'.
Proof.
  intros Hat Hoff pos'. destruct (at_pos_range _ _ _ Hat) as (Hr & H31 & Hsz & Hps). destruct Hat as (fs1 & fs2 & Ho & Hc & _ & Ht).
  pose proof Ho as [Hf Hs Hcf Hp _]. unfold smem_seek. change (SEEK_SET =? SEEK_END) with false. change (SEEK_SET =? SEEK_CUR) with false. change (SEEK_SET =? SEEK_SET) with true.
  cbn beta iota. rewrite (proj2 (Z.ltb_ge offset 0)) by lia.
  assert (Hp' : (if sf_size f <? offset then sf_size f else offset) = pos') by (subst pos'; destruct (_ <? _) eqn:E; breflect; lia). rewrite Hp'.
  assert (Hff := Hf). destruct Hff as (_ & _ & Hfr & Htot). rewrite <- Hc in Htot.
  destruct (find_fragment_spec flash p tables flash_byte (fs1 ++ fs2) tables (sf_header f + HEADER_SIZE) 0 pos' Hfr) as (g1 & g2 & Heq & Hrun & Hg & Hle & Hm);
    [lia|rewrite <- Hc; lia|lia|lia|].
  rewrite Hrun. cbn [mbind option_bind]. rewrite s32_small, u32_small, Z.add_0_l in * by lia.
  assert (Hcat : Z.of_nat (length c) = Z.of_nat (length (concat g1)) + Z.of_nat (length (concat g2))) by (rewrite Hc, Heq, concat_app, length_app; lia).
  eexists. split; [done|]. exists g1, g2. split; [|rewrite <- Heq; cbn [sf_pos]; done].
  split; cbn [sf_header sf_size cur_frag sf_pos frag_pos]; rewrite <- ?Heq; [done|done|done|lia|].
  split; [lia|]. destruct g2 as [|b g2]; [cbn in Hcat; lia|lia].
Qed.
End cursor.
