(* ===== verification/BootConfig.v ===== *)
(** * Configuration of the boot loader (src/bootloader/config_parser.c,
    src/bootloader/bootloader.c)

    The configuration is a text: comments, scopes in brackets, and attributes with
    a string, a boolean or an integer.  The parser reads it character by character,
    from any source of characters, into fixed buffers; a write outside of a buffer
    is [None].  The theorem shows that parsing the text of a configuration has the
    effect of its lines. *)

From S2P Require Import Prelude Smemfs SmemFile Log.

(** ** Reading the lines *)

(** src/bootloader/config_parser.h:34-34: CONFIG_TAG_EMPTY *)
Definition CONFIG_TAG_EMPTY : Z := 0.
(** src/bootloader/config_parser.h:36-36: CONFIG_TAG_SCOPE *)
Definition CONFIG_TAG_SCOPE : Z := 1.
(** src/bootloader/config_parser.h:38-38: CONFIG_TAG_ASSIGN *)
Definition CONFIG_TAG_ASSIGN : Z := 2.
(** src/bootloader/config_parser.h:40-40: CONFIG_TAG_UNKNOWN *)
Definition CONFIG_TAG_UNKNOWN : Z := -1.
(** src/bootloader/config_parser.h:42-42: CONFIG_TAG_EOF *)
Definition CONFIG_TAG_EOF : Z := -2.

Section parser.
Context {F : Type} `{!CharSource F}.

(** [while(c != '\n' && c >= 0) c = smem_readchar(file);] *)
(** src/bootloader/config_parser.c:34-35: config_read_tag *)
Fixpoint skip_line (fuel : nat) (c : Z) (file : F) : option F :=
  if negb (c =? 10) && (0 <=? c) then
    match fuel with O => None | S fuel => '(c, file) ← readchar file; skip_line fuel c file end
  else Some file.

(** The characters up to [stop], or the end of the line, of the file or of the
    buffer, of which [n] bytes are left. *)
(** src/bootloader/config_parser.c:43-47: config_read_tag *)
Fixpoint read_until (n : nat) (stop c i : Z) (buffer : list Z) (file : F) : option (Z * Z * list Z * F) :=
  if negb (c =? 10) && (0 <=? c) && negb (c =? stop) then
    match n with
    | O => Some (c, i, buffer, file)
    | S n =>
        '(c, file) ← readchar file;
        buffer ← put buffer i c;
        read_until n stop c (i + 1) buffer file
    end
  else Some (c, i, buffer, file).

(** src/bootloader/config_parser.c: config_read_tag *)
Definition config_read_tag (fuel : nat) (file : F) (buffer : list Z) (bufsize : Z) : option (Z * list Z * F) :=
  '(c, file) ← readchar file;
  if c <? 0 then Some (CONFIG_TAG_EOF, buffer, file)
  else if (c =? 35) || (c =? 10) then
    file ← skip_line fuel c file;
    Some (CONFIG_TAG_EMPTY, buffer, file)
  else if c =? 91 then
    '(c, i, buffer, file) ← read_until (Z.to_nat bufsize) 93 c 0 buffer file;
    if (i <=? bufsize) && (c =? 93) then
      buffer ← put buffer (i - 1) 0;
      file ← skip_line fuel c file;
      Some (CONFIG_TAG_SCOPE, buffer, file)
    else Some (CONFIG_TAG_UNKNOWN, buffer, file)
  else
    buffer ← put buffer 0 c;
    '(c, i, buffer, file) ← read_until (Z.to_nat (bufsize - 1)) 61 c 1 buffer file;
    if (i <=? bufsize) && (c =? 61) then
      buffer ← put buffer (i - 1) 0;
      Some (CONFIG_TAG_ASSIGN, buffer, file)
    else Some (CONFIG_TAG_UNKNOWN, buffer, file).

(** The first iteration of the loop is done whatever the character. *)
(** src/bootloader/config_parser.c: config_read_assign_string *)
Definition config_read_assign_string (fuel : nat) (file : F) (buffer : list Z) (bufsize : Z) : option (Z * list Z * F) :=
  '(c, file) ← readchar file;
  if c =? 34 then
    '(c, file) ← readchar file;
    buffer ← put buffer 0 c;
    '(c, i, buffer, file) ← read_until (Z.to_nat (bufsize - 1)) 34 c 1 buffer file;
    if (i <=? bufsize) && (c =? 34) then
      buffer ← put buffer (i - 1) 0;
      file ← skip_line fuel c file;
      Some (0, buffer, file)
    else Some (-1, buffer, file)
  else Some (-1, buffer, file).

(** The value is unchanged when the text is not a boolean. *)
(** src/bootloader/config_parser.c: config_read_assign_bool *)
Definition config_read_assign_bool (file : F) (value : Z) : option (Z * Z * F) :=
  '(c, file) ← readchar file;
  '(tempval, file) ←
    (if c =? 121 then
       '(c, file) ← readchar file;
       if c =? 10 then Some (1, file)
       else if c =? 101 then
         '(c, file) ← readchar file;
         if c =? 115 then '(c, file) ← readchar file; Some (if c =? 10 then 1 else -1, file) else Some (-1, file)
       else Some (-1, file)
     else if c =? 110 then
       '(c, file) ← readchar file;
       if c =? 10 then Some (0, file)
       else if c =? 111 then '(c, file) ← readchar file; Some (if c =? 10 then 0 else -1, file)
       else Some (-1, file)
     else Some (-1, file));
  Some (if negb (tempval =? -1) then (0, tempval, file) else (-1, value, file)).

(** The loop over the digits: the last character and the number. *)
(** src/bootloader/config_parser.c:160-165: config_read_assign_int *)
Fixpoint read_digits (fuel : nat) (tmpval : Z) (file : F) : option (Z * Z * F) :=
  match fuel with
  | O => None
  | S fuel =>
      '(c, file) ← readchar file;
      let tmpval := if (48 <=? c) && (c <=? 57) then s32 (tmpval * 10 + c - 48) else tmpval in
      if negb (c =? 10) && (0 <=? c) && (48 <=? c) && (c <=? 57) then read_digits fuel tmpval file else Some (c, tmpval, file)
  end.

(** src/bootloader/config_parser.c: config_read_assign_int *)
Definition config_read_assign_int (fuel : nat) (file : F) (value : Z) : option (Z * Z * F) :=
  '(c, tmpval, file) ← read_digits fuel 0 file;
  if (c =? 10) || (c =? -1) then
    file ← skip_line fuel c file;
    Some (0, tmpval, file)
  else Some (-1, value, file).
End parser.

(** ** The configuration *)

(** src/bootloader/bootloader.c: boot_entry *)
Record boot_entry := mk_bentry { e_defined : Z; e_label : list Z; e_args : list Z; e_type : list Z; e_kernel : list Z }.

(** src/bootloader/bootloader.c:82-82: ENTRY_NUMBER *)
Definition ENTRY_NUMBER : Z := 3.
(** src/bootloader/bootloader.c:86-86: SCOPE_GLOBAL *)
Definition SCOPE_GLOBAL : Z := 1.
(** src/bootloader/bootloader.c:87-87: SCOPE_ENTRY *)
Definition SCOPE_ENTRY : Z := 2.

(** The static variables, with the scope and the index of the current entry. *)
(** src/bootloader/bootloader.c:67-83: _entries *)
Record config := mk_config {
  cfg_message : list Z; cfg_quiet : Z; cfg_default : Z; cfg_entries : list boot_entry; cur_scope : Z; cur_entry : Z
}.

Definition bentry0 : boot_entry := mk_bentry 0 (replicate 30 0) (replicate 50 0) (replicate 20 0) (replicate 50 0).

(** The variables at the start of the parsing. *)
(** src/bootloader/bootloader.c:68-102: parse_config_file *)
Definition config0 : config := mk_config (replicate 30 0) 0 1 (replicate 3 bentry0) SCOPE_GLOBAL (-1).

Definition set_message v x := mk_config v (cfg_quiet x) (cfg_default x) (cfg_entries x) (cur_scope x) (cur_entry x).
Definition set_quiet v x := mk_config (cfg_message x) v (cfg_default x) (cfg_entries x) (cur_scope x) (cur_entry x).
Definition set_default v x := mk_config (cfg_message x) (cfg_quiet x) v (cfg_entries x) (cur_scope x) (cur_entry x).
Definition set_entries v x := mk_config (cfg_message x) (cfg_quiet x) (cfg_default x) v (cur_scope x) (cur_entry x).
Definition set_scope v e x := mk_config (cfg_message x) (cfg_quiet x) (cfg_default x) (cfg_entries x) v e.

Definition entry_at (i : Z) (x : config) : boot_entry := nth (Z.to_nat i) (cfg_entries x) bentry0.
Definition upd_entry (i : Z) (f : boot_entry → boot_entry) (x : config) : config :=
  set_entries (aset (cfg_entries x) i (f (entry_at i x))) x.
Definition set_label v e := mk_bentry (e_defined e) v (e_args e) (e_type e) (e_kernel e).
Definition set_args v e := mk_bentry (e_defined e) (e_label e) v (e_type e) (e_kernel e).
Definition set_type v e := mk_bentry (e_defined e) (e_label e) (e_args e) v (e_kernel e).
Definition set_kernel v e := mk_bentry (e_defined e) (e_label e) (e_args e) (e_type e) v.

(** A scope line. *)
(** src/bootloader/bootloader.c:117-134: parse_config_file *)
Definition enter_scope (tagbuf : list Z) (x : config) : config :=
  let name := c_str tagbuf in
  if bool_decide (name = text "Global") then set_scope SCOPE_GLOBAL (cur_entry x) x
  else if bool_decide (take 5 name = text "Entry") && (length name =? 6)%nat then
    let c := nth 5 name 0 in
    if (49 <=? c) && (c <=? 48 + ENTRY_NUMBER) then
      let i := c - 49 in
      upd_entry i (λ e, mk_bentry 1 (e_label e) (e_args e) (e_type e) (e_kernel e)) (set_scope SCOPE_ENTRY i x)
    else x
  else x.

Section config.
Context {F : Type} `{!CharSource F} (fuel : nat).

(** An attribute; the value is read according to its name. *)
(** src/bootloader/bootloader.c:136-174: parse_config_file *)
Definition assign_attribute (tagbuf : list Z) (file : F) (x : config) : option (F * config) :=
  let name := c_str tagbuf in
  let str size (buf : list Z) (set : list Z → config → config) :=
    '(_, buf, file) ← config_read_assign_string fuel file buf size;
    Some (file, set buf x) in
  if cur_scope x =? SCOPE_GLOBAL then
    if bool_decide (name = text "message") then str 30 (cfg_message x) set_message
    else if bool_decide (name = text "quiet") then
      '(_, v, file) ← config_read_assign_bool file (cfg_quiet x);
      Some (file, set_quiet v x)
    else if bool_decide (name = text "default") then
      '(_, v, file) ← config_read_assign_int fuel file (cfg_default x);
      Some (file, set_default v x)
    else Some (file, x)
  else if cur_scope x =? SCOPE_ENTRY then
    let e := entry_at (cur_entry x) x in
    if bool_decide (name = text "label") then str 30 (e_label e) (λ v, upd_entry (cur_entry x) (set_label v))
    else if bool_decide (name = text "args") then str 50 (e_args e) (λ v, upd_entry (cur_entry x) (set_args v))
    else if bool_decide (name = text "type") then str 20 (e_type e) (λ v, upd_entry (cur_entry x) (set_type v))
    else if bool_decide (name = text "kernel") then str 50 (e_kernel e) (λ v, upd_entry (cur_entry x) (set_kernel v))
    else Some (file, x)
  else Some (file, x).

(** One iteration per line. *)
(** src/bootloader/bootloader.c:104-182: parse_config_file *)
Fixpoint parse_lines (lines : nat) (tagbuf : list Z) (file : F) (x : config) : option config :=
  match lines with
  | O => None
  | S lines =>
      '(curtag, tagbuf, file) ← config_read_tag fuel file tagbuf 50;
      '(file, x) ←
        (if curtag =? CONFIG_TAG_SCOPE then Some (file, enter_scope tagbuf x)
         else if curtag =? CONFIG_TAG_ASSIGN then assign_attribute tagbuf file x
         else Some (file, x));
      if curtag =? CONFIG_TAG_EOF then Some x else parse_lines lines tagbuf file x
  end.

(** [stale] is the buffer on the stack; the entries are set undefined first. *)
(** src/bootloader/bootloader.c: parse_config_file *)
Definition parse_config_file (stale : list Z) (file : F) (x : config) : option config :=
  let x := set_entries ((λ e, mk_bentry 0 (e_label e) (e_args e) (e_type e) (e_kernel e)) <$> cfg_entries x) (set_scope SCOPE_GLOBAL (-1) x) in
  parse_lines fuel stale file x.
End config.

(** ** Lines as text *)

(** The lines a configuration is made of. *)
Inductive cfg_line :=
  | LEmpty | LComment (s : list Z) | LGlobal | LEntry (i : Z)
  | LMessage (v : list Z) | LQuiet (b : bool) | LDefault (n : Z)
  | LLabel (v : list Z) | LArgs (v : list Z) | LType (v : list Z) | LKernel (v : list Z).

Definition str_line (attr : list Z) (v : list Z) : list Z := attr ++ 61 :: 34 :: v ++ [34; 10].

Definition line_text (l : cfg_line) : list Z :=
  match l with
  | LEmpty => [10]
  | LComment s => 35 :: s ++ [10]
  | LGlobal => 91 :: text "Global" ++ [93; 10]
  | LEntry i => 91 :: (text "Entry" ++ [49 + i]) ++ [93; 10]
  | LMessage v => str_line (text "message") v
  | LQuiet b => text "quiet" ++ 61 :: (if b then text "yes" else text "no") ++ [10]
  | LDefault n => text "default" ++ 61 :: dec_string n ++ [10]
  | LLabel v => str_line (text "label") v
  | LArgs v => str_line (text "args") v
  | LType v => str_line (text "type") v
  | LKernel v => str_line (text "kernel") v
  end.

(** What a line means, on a configuration whose buffers are replaced by strings. *)
Definition apply_line (x : config) (l : cfg_line) : config :=
  match l with
  | LEmpty | LComment _ => x
  | LGlobal => set_scope SCOPE_GLOBAL (cur_entry x) x
  | LEntry i => upd_entry i (λ e, mk_bentry 1 (e_label e) (e_args e) (e_type e) (e_kernel e)) (set_scope SCOPE_ENTRY i x)
  | LMessage v => set_message v x
  | LQuiet b => set_quiet (if b then 1 else 0) x
  | LDefault n => set_default n x
  | LLabel v => upd_entry (cur_entry x) (set_label v) x
  | LArgs v => upd_entry (cur_entry x) (set_args v) x
  | LType v => upd_entry (cur_entry x) (set_type v) x
  | LKernel v => upd_entry (cur_entry x) (set_kernel v) x
  end.

(** A string fits in its buffer and holds no quote, line feed or NUL. *)
Definition value_ok (size : nat) (v : list Z) : Prop := (length v < size)%nat ∧ Forall (λ c, 0 < c < 256 ∧ c ≠ 34 ∧ c ≠ 10) v.

(** A line is well formed in a scope. *)
Definition line_ok (scope : Z) (l : cfg_line) : Prop :=
  match l with
  | LEmpty | LGlobal => True
  | LComment s => Forall (λ c, 0 ≤ c < 256 ∧ c ≠ 10) s
  | LEntry i => 0 ≤ i < 3
  | LMessage v => scope = SCOPE_GLOBAL ∧ value_ok 30 v
  | LQuiet _ => scope = SCOPE_GLOBAL
  | LDefault n => scope = SCOPE_GLOBAL ∧ 0 ≤ n < 2147483648
  | LLabel v => scope = SCOPE_ENTRY ∧ value_ok 30 v
  | LArgs v => scope = SCOPE_ENTRY ∧ value_ok 50 v
  | LType v => scope = SCOPE_ENTRY ∧ value_ok 20 v
  | LKernel v => scope = SCOPE_ENTRY ∧ value_ok 50 v
  end.

Fixpoint lines_ok (scope : Z) (ls : list cfg_line) : Prop :=
  match ls with
  | [] => True
  | l :: ls => line_ok scope l ∧ lines_ok (match l with LGlobal => SCOPE_GLOBAL | LEntry _ => SCOPE_ENTRY | _ => scope end) ls
  end.

(** The configuration with its strings. *)
Definition view_entry (e : boot_entry) : boot_entry :=
  mk_bentry (e_defined e) (c_str (e_label e)) (c_str (e_args e)) (c_str (e_type e)) (c_str (e_kernel e)).
Definition view (x : config) : config :=
  mk_config (c_str (cfg_message x)) (cfg_quiet x) (cfg_default x) (view_entry <$> cfg_entries x) (cur_scope x) (cur_entry x).

(** The buffers have their sizes, and the current entry is one of the three. *)
Definition entry_wf (e : boot_entry) : Prop :=
  length (e_label e) = 30%nat ∧ length (e_args e) = 50%nat ∧ length (e_type e) = 20%nat ∧ length (e_kernel e) = 50%nat.
Definition config_wf (x : config) : Prop :=
  length (cfg_message x) = 30%nat ∧ length (cfg_entries x) = 3%nat ∧ Forall entry_wf (cfg_entries x) ∧
  (cur_scope x = SCOPE_GLOBAL ∨ cur_scope x = SCOPE_ENTRY ∧ 0 ≤ cur_entry x < 3).

(** A name that is read as that of an attribute. *)
Definition attr_name (a : list Z) : Prop :=
  a ≠ [] ∧ (length a < 50)%nat ∧ Forall (λ c, 0 < c < 256 ∧ c ≠ 10 ∧ c ≠ 61) a ∧ match a with [] => True | c :: _ => c ≠ 35 ∧ c ≠ 91 end.

Ltac solve_attr_name :=
  split; [done|]; split; [vm_compute; lia|]; split; [by_computation|vm_compute; split; discriminate].

(** ** Correctness of the readers *)

Section readers.
Context {F : Type} `{!CharSource F}.

Lemma skip_line_spec s : ∀ fuel c f rest, Forall (λ c, 0 ≤ c < 256 ∧ c ≠ 10) s → 0 ≤ c → c ≠ 10 → stream f (s ++ 10 :: rest) → (length s < fuel)%nat →
  ∃ f', skip_line fuel c f = Some f' ∧ stream f' rest.
Proof.
  induction s as [|d s IH]; intros fuel c f rest Hs Hc Hn Hst Hf; (destruct fuel as [|fuel]; [lia|]); cbn [skip_line];
    rewrite (proj2 (Z.eqb_neq c 10) Hn), (proj2 (Z.leb_le 0 c) Hc); cbn [negb andb].
  - destruct (stream_next _ _ _ Hst) as (f' & -> & Hst' & _). cbn [mbind option_bind]. exists f'. split; [|done]. by destruct fuel.
  - destruct (stream_next _ _ _ Hst) as (f' & -> & Hst' & _). cbn [mbind option_bind]. apply Forall_cons in Hs as [[Hd Hd10] Hs].
    cbn [length] in Hf. apply IH; [done|lia|done|done|lia].
Qed.

Lemma read_until_spec stop s : ∀ n c f rest pre old,
  Forall (λ c, 0 ≤ c < 256 ∧ c ≠ 10 ∧ c ≠ stop) s → 0 ≤ c → c ≠ 10 → c ≠ stop → 0 < stop < 256 → stream f (s ++ stop :: rest) →
  (length s < n)%nat → (length s < length old)%nat →
  ∃ f', read_until n stop c (Z.of_nat (length pre)) (pre ++ old) f =
      Some (stop, Z.of_nat (length pre + length s + 1), pre ++ s ++ stop :: drop (length s + 1) old, f') ∧ stream f' rest.
Proof.
  induction s as [|d s IH]; intros n c f rest pre old Hs Hc Hn Hne Hstop Hst Hf Ho; (destruct n as [|n]; [lia|]); (destruct old as [|o old]; [cbn in Ho; lia|]);
    cbn [read_until]; rewrite (proj2 (Z.eqb_neq c 10) Hn), (proj2 (Z.eqb_neq c stop) Hne), (proj2 (Z.leb_le 0 c) Hc); cbn [negb andb].
  - destruct (stream_next _ _ _ Hst) as (f' & -> & Hst' & _). cbn [mbind option_bind]. rewrite put_at, u8_small by (done || lia). cbn [mbind option_bind].
    exists f'. split; [|done]. replace (Z.of_nat (length pre + length (@nil Z) + 1)) with (Z.of_nat (length pre) + 1) by (cbn [length]; lia).
    assert (Hend : negb (stop =? 10) && (0 <=? stop) && negb (stop =? stop) = false) by (rewrite Z.eqb_refl; cbn; apply andb_false_r).
    cbn [length Nat.add drop app]. rewrite drop_0. destruct n; cbn [read_until]; rewrite Hend; done.
  - destruct (stream_next _ _ _ Hst) as (f' & -> & Hst' & _). cbn [mbind option_bind]. apply Forall_cons in Hs as [(Hd & Hd10 & Hds) Hs].
    rewrite put_at, u8_small by (done || lia). cbn [mbind option_bind]. cbn [length] in Hf, Ho.
    rewrite (app_assoc pre [d] old : pre ++ d :: old = (pre ++ [d]) ++ old).
    replace (Z.of_nat (length pre) + 1) with (Z.of_nat (length (pre ++ [d]))) by (rewrite length_app; cbn [length]; lia).
    destruct (IH n d f' rest (pre ++ [d]) old) as (f2 & -> & Hst2); [done|lia|done|done|done|done|lia|lia|].
    exists f2. split; [|done]. rewrite length_app, <- app_assoc. cbn [length app Nat.add drop]. do 4 f_equal. lia.
Qed.

(** The buffer after a string of it was read and its end replaced by a NUL. *)
Lemma put_end pre s stop old : put (pre ++ s ++ stop :: old) (Z.of_nat (length pre + length s)) 0 = Some (pre ++ s ++ 0 :: old).
Proof. rewrite app_assoc, put_at by (rewrite length_app; lia). by rewrite <- app_assoc. Qed.

(** Reading the name of an attribute. *)
Lemma read_tag_assign fuel f a rest buf : attr_name a → length buf = 50%nat → stream f (a ++ 61 :: rest) →
  ∃ buf' f', config_read_tag fuel f buf 50 = Some (CONFIG_TAG_ASSIGN, buf', f') ∧ c_str buf' = a ∧ length buf' = 50%nat ∧ stream f' rest.
Proof.
  intros (Hne & Hl & Ha & Hfirst) Hbuf Hst. destruct a as [|c a]; [done|]. pose proof Ha as [(Hc & Hc10 & Hc61) Ha']%Forall_cons. destruct Hfirst as [H35 H91].
  unfold config_read_tag. destruct (stream_next _ _ _ Hst) as (f1 & -> & Hst1 & _). cbn [mbind option_bind].
  rewrite (proj2 (Z.ltb_ge c 0)), (proj2 (Z.eqb_neq c 35)), (proj2 (Z.eqb_neq c 10)), (proj2 (Z.eqb_neq c 91)) by (done || lia). cbn [orb].
  destruct buf as [|b buf]; [done|]. rewrite put_0. cbn [mbind option_bind]. rewrite u8_small by lia. cbn [length] in Hbuf, Hl.
  destruct (read_until_spec 61 a (Z.to_nat (50 - 1)) c f1 rest [c] buf) as (f2 & Hr & Hst2);
    [eapply Forall_impl; [exact Ha'|]; cbn; intros; lia|lia|done|done|lia|done|change (Z.to_nat (50 - 1)) with 49%nat; lia|lia|].
  cbn [app length] in Hr. change (Z.of_nat 1) with 1 in Hr. rewrite Hr. cbn [mbind option_bind].
  rewrite (proj2 (Z.leb_le _ 50)) by lia. change (61 =? 61) with true. cbn [andb].
  replace (Z.of_nat (1 + length a + 1) - 1) with (Z.of_nat (length [c] + length a)) by (cbn [length]; lia).
  rewrite (put_end [c] a 61 _ : put (c :: a ++ 61 :: drop (length a + 1) buf) _ 0 = _). cbn [mbind option_bind].
  eexists _, f2. split; [done|]. split; [apply (c_str_app_nul (c :: a)); eapply Forall_impl; [exact Ha|]; cbn; lia|].
  split; [|done]. cbn [app length]. rewrite length_app. cbn [length]. rewrite length_drop. lia.
Qed.

(** Reading the value of a string attribute. *)
Lemma read_string fuel f v rest buf size : value_ok size v → length buf = size → (2 ≤ fuel)%nat → stream f (34 :: v ++ 34 :: 10 :: rest) →
  ∃ buf' f', config_read_assign_string fuel f buf (Z.of_nat size) = Some (0, buf', f') ∧ c_str buf' = v ∧ length buf' = size ∧ stream f' rest.
Proof.
  intros [Hl Hv] Hbuf Hfuel Hst. unfold config_read_assign_string. destruct (stream_next _ _ _ Hst) as (f1 & -> & Hst1 & _). cbn [mbind option_bind].
  change (34 =? 34) with true. cbn beta iota. destruct buf as [|b buf]; [cbn in Hbuf; lia|]. cbn [length] in Hbuf.
  assert (Hnn : Forall (λ c, c ≠ 0) v) by (eapply Forall_impl; [exact Hv|]; cbn; lia).
  destruct v as [|c v].
  - cbn [app] in Hst1. destruct (stream_next _ _ _ Hst1) as (f2 & -> & Hst2 & _). cbn [mbind option_bind]. rewrite put_0. cbn [mbind option_bind].
    assert (Hr : ∀ n, read_until n 34 34 1 (u8 34 :: buf) f2 = Some (34, 1, u8 34 :: buf, f2)) by (by destruct n). rewrite Hr. cbn [mbind option_bind].
    rewrite (proj2 (Z.leb_le 1 _)) by lia. change (34 =? 34) with true. cbn [andb]. change (1 - 1) with 0. rewrite put_0. cbn [mbind option_bind].
    destruct (skip_line_spec [] fuel 34 f2 rest) as (f3 & -> & Hst3); [done|lia|lia|done|cbn; lia|]. cbn [mbind option_bind].
    eexists _, f3. split; [done|]. split; [done|]. split; [cbn [length]; lia|done].
  - pose proof Hv as [(Hc & Hc34 & Hc10) Hv']%Forall_cons. cbn [app] in Hst1. destruct (stream_next _ _ _ Hst1) as (f2 & -> & Hst2 & _). cbn [mbind option_bind].
    rewrite put_0. cbn [mbind option_bind]. rewrite u8_small by lia. cbn [length] in Hl.
    destruct (read_until_spec 34 v (Z.to_nat (Z.of_nat size - 1)) c f2 (10 :: rest) [c] buf) as (f3 & Hr & Hst3);
      [eapply Forall_impl; [exact Hv'|]; cbn; intros; lia|lia|done|done|lia|done|lia|lia|].
    cbn [app length] in Hr. change (Z.of_nat 1) with 1 in Hr. rewrite Hr. cbn [mbind option_bind].
    rewrite (proj2 (Z.leb_le _ (Z.of_nat size))) by lia. change (34 =? 34) with true. cbn [andb].
    replace (Z.of_nat (1 + length v + 1) - 1) with (Z.of_nat (length [c] + length v)) by (cbn [length]; lia).
    rewrite (put_end [c] v 34 _ : put (c :: v ++ 34 :: drop (length v + 1) buf) _ 0 = _). cbn [mbind option_bind].
    destruct (skip_line_spec [] fuel 34 f3 rest) as (f4 & -> & Hst4); [done|lia|lia|done|cbn; lia|]. cbn [mbind option_bind].
    eexists _, f4. split; [done|]. split; [by apply (c_str_app_nul (c :: v))|]. split; [|done].
    cbn [app length]. rewrite length_app. cbn [length]. rewrite length_drop. lia.
Qed.

Lemma read_bool f (b : bool) rest v0 : stream f ((if b then text "yes" else text "no") ++ 10 :: rest) →
  ∃ f', config_read_assign_bool f v0 = Some (0, if b then 1 else 0, f') ∧ stream f' rest.
Proof.
  intros Hst. unfold config_read_assign_bool. destruct b; cbn [text String.list_ascii_of_string fmap list_fmap app] in Hst.
  - change (text "yes" ++ 10 :: rest) with (121 :: 101 :: 115 :: 10 :: rest) in Hst.
    destruct (stream_next _ _ _ Hst) as (f1 & -> & H1 & _). cbn [mbind option_bind Z.eqb Pos.eqb]. destruct (stream_next _ _ _ H1) as (f2 & -> & H2 & _). cbn [mbind option_bind Z.eqb Pos.eqb].
    destruct (stream_next _ _ _ H2) as (f3 & -> & H3 & _). cbn [mbind option_bind Z.eqb Pos.eqb]. destruct (stream_next _ _ _ H3) as (f4 & -> & H4 & _).
    exists f4. split; [reflexivity|done].
  - change (text "no" ++ 10 :: rest) with (110 :: 111 :: 10 :: rest) in Hst.
    destruct (stream_next _ _ _ Hst) as (f1 & -> & H1 & _). cbn [mbind option_bind Z.eqb Pos.eqb]. destruct (stream_next _ _ _ H1) as (f2 & -> & H2 & _). cbn [mbind option_bind Z.eqb Pos.eqb].
    destruct (stream_next _ _ _ H2) as (f3 & -> & H3 & _). exists f3. split; [reflexivity|done].
Qed.

(** The value never decreases while digits are added. *)
Lemma num_value_mono ds : ∀ a, 0 ≤ a → Forall (λ d, 0 ≤ d < 10) ds → a ≤ foldl (λ a d, a * 10 + d) a ds.
Proof.
  induction ds as [|d ds IH]; intros a Ha Hd; [done|]. apply Forall_cons in Hd as [Hd Hds]. cbn [foldl].
  specialize (IH (a * 10 + d) ltac:(lia) Hds). lia.
Qed.

Lemma read_digits_spec ds : ∀ fuel a f rest, Forall (λ d, 0 ≤ d < 10) ds → 0 ≤ a → foldl (λ a d, a * 10 + d) a ds < 2147483648 →
  stream f (((λ d, 48 + d) <$> ds) ++ 10 :: rest) → (length ds < fuel)%nat →
  ∃ f', read_digits fuel a f = Some (10, foldl (λ a d, a * 10 + d) a ds, f') ∧ stream f' rest.
Proof.
  induction ds as [|d ds IH]; intros fuel a f rest Hd Ha Hlt Hst Hf; (destruct fuel as [|fuel]; [lia|]); cbn [read_digits].
  - destruct (stream_next _ _ _ Hst) as (f' & -> & Hst' & _). exists f'. by split.
  - destruct (stream_next _ _ _ Hst) as (f' & -> & Hst' & _). cbn [mbind option_bind]. apply Forall_cons in Hd as [Hd Hds].
    rewrite (proj2 (Z.leb_le 48 _)), (proj2 (Z.leb_le _ 57)), (proj2 (Z.leb_le 0 _)), (proj2 (Z.eqb_neq _ 10)) by lia. cbn [andb negb].
    cbn [foldl] in Hlt. pose proof (num_value_mono ds (a * 10 + d) ltac:(lia) Hds). rewrite s32_small by lia.
    replace (a * 10 + (48 + d) - 48) with (a * 10 + d) by lia. cbn [length] in Hf. apply IH; [done|lia|done|done|lia].
Qed.

Lemma read_int fuel f n rest v0 : 0 ≤ n < 2147483648 → (11 ≤ fuel)%nat → stream f (dec_string n ++ 10 :: rest) →
  ∃ f', config_read_assign_int fuel f v0 = Some (0, n, f') ∧ stream f' rest.
Proof.
  intros Hn Hf Hst. unfold config_read_assign_int. unfold dec_string in Hst. rewrite (proj2 (Z.ltb_ge n 0)) in Hst by lia. cbn [app] in Hst.
  pose proof (num_digits_value 10 10 (Z.abs n) ltac:(lia) ltac:(lia)) as Hv. pose proof (num_digits_range 10 10 (Z.abs n) ltac:(lia)) as Hr.
  pose proof (length_num_digits 10 10 (Z.abs n)). unfold num_value in Hv.
  destruct (read_digits_spec (num_digits 10 10 (Z.abs n)) fuel 0 f rest Hr) as (f' & -> & Hst'); [lia|lia|done|lia|].
  cbn [mbind option_bind]. change ((10 =? 10) || (10 =? -1)) with true. cbn beta iota. rewrite Hv.
  assert (Hs : skip_line fuel 10 f' = Some f') by (by destruct fuel). rewrite Hs. cbn [mbind option_bind]. exists f'.
  replace (Z.abs n) with n by lia. done.
Qed.

(** Reading a scope. *)
Lemma read_tag_scope fuel f s rest buf : (length s < 50)%nat → Forall (λ c, 0 < c < 256 ∧ c ≠ 10 ∧ c ≠ 93) s → length buf = 50%nat →
  (2 ≤ fuel)%nat → stream f (91 :: s ++ 93 :: 10 :: rest) →
  ∃ buf' f', config_read_tag fuel f buf 50 = Some (CONFIG_TAG_SCOPE, buf', f') ∧ c_str buf' = s ∧ length buf' = 50%nat ∧ stream f' rest.
Proof.
  intros Hl Hs Hbuf Hf Hst. unfold config_read_tag. destruct (stream_next _ _ _ Hst) as (f1 & -> & Hst1 & _). cbn [mbind option_bind].
  change (91 <? 0) with false. change ((91 =? 35) || (91 =? 10)) with false. change (91 =? 91) with true. cbn beta iota.
  destruct (read_until_spec 93 s (Z.to_nat 50) 91 f1 (10 :: rest) [] buf) as (f2 & Hr & Hst2);
    [eapply Forall_impl; [exact Hs|]; cbn; intros; lia|lia|lia|lia|lia|done|change (Z.to_nat 50) with 50%nat; lia|lia|].
  cbn [app length] in Hr. change (Z.of_nat 0) with 0 in Hr. rewrite Hr. cbn [mbind option_bind].
  rewrite (proj2 (Z.leb_le _ 50)) by lia. change (93 =? 93) with true. cbn [andb].
  replace (Z.of_nat (0 + length s + 1) - 1) with (Z.of_nat (length (@nil Z) + length s)) by (cbn [length]; lia).
  rewrite (put_end [] s 93 _ : put (s ++ 93 :: drop (length s + 1) buf) _ 0 = _). cbn [mbind option_bind app].
  destruct (skip_line_spec [] fuel 93 f2 rest) as (f3 & -> & Hst3); [done|lia|lia|done|cbn; lia|]. cbn [mbind option_bind].
  eexists _, f3. split; [done|]. split; [apply c_str_app_nul; eapply Forall_impl; [exact Hs|]; cbn; lia|]. split; [|done].
  rewrite length_app. cbn [length]. rewrite length_drop. lia.
Qed.

(** Reading an empty line or a comment. *)
Lemma read_tag_empty fuel f s rest buf : Forall (λ c, 0 ≤ c < 256 ∧ c ≠ 10) s → (length s < fuel)%nat →
  stream f ((if bool_decide (s = []) then [10] else 35 :: s ++ [10]) ++ rest) ∨ stream f (35 :: s ++ 10 :: rest) →
  ∃ f', config_read_tag fuel f buf 50 = Some (CONFIG_TAG_EMPTY, buf, f') ∧ stream f' rest.
Proof.
  intros Hs Hf Hst. assert (Hcase : stream f (10 :: rest) ∨ stream f (35 :: s ++ 10 :: rest)).
  { destruct Hst as [Hst|Hst]; [|by right]. case_bool_decide; [by left|]. right. by rewrite <- app_comm_cons, <- app_assoc in Hst. }
  unfold config_read_tag. destruct Hcase as [H|H]; destruct (stream_next _ _ _ H) as (f1 & -> & H1 & _); cbn [mbind option_bind].
  - change (10 <? 0) with false. change ((10 =? 35) || (10 =? 10)) with true. cbn beta iota.
    assert (Hk : skip_line fuel 10 f1 = Some f1) by (by destruct fuel). rewrite Hk. by exists f1.
  - change (35 <? 0) with false. change ((35 =? 35) || (35 =? 10)) with true. cbn beta iota.
    destruct (skip_line_spec s fuel 35 f1 rest) as (f2 & -> & H2); [done|lia|lia|done|lia|]. by exists f2.
Qed.
End readers.

(** ** Correctness of the parser *)

Lemma view_upd_entry i g g' x : 0 ≤ i < 3 → length (cfg_entries x) = 3%nat → (∀ e, view_entry (g e) = g' (view_entry e)) → view (upd_entry i g x) = upd_entry i g' (view x).
Proof.
  intros Hi Hl Hg. unfold view, upd_entry, set_entries, entry_at, aset. cbn [cfg_message cfg_quiet cfg_default cfg_entries cur_scope cur_entry].
  f_equal. rewrite list_fmap_insert, Hg. f_equal. f_equal. rewrite !nth_lookup, list_lookup_fmap.
  destruct (lookup_lt_is_Some_2 (cfg_entries x) (Z.to_nat i)) as [e ->]; [lia|done].
Qed.

Lemma upd_entry_wf i g x : 0 ≤ i < 3 → config_wf x → entry_wf (g (entry_at i x)) → config_wf (upd_entry i g x).
Proof.
  intros Hi (Hm & Hl & Hw & Hs) Hg. unfold upd_entry. split_and!; cbn [set_entries cfg_message cfg_entries cur_scope cur_entry]; [done|by rewrite aset_length| |done].
  unfold aset. by apply Forall_insert.
Qed.

Lemma entry_at_wf i x : 0 ≤ i < 3 → config_wf x → entry_wf (entry_at i x).
Proof.
  intros Hi (Hm & Hl & Hw & Hs). unfold entry_at. destruct (lookup_lt_is_Some_2 (cfg_entries x) (Z.to_nat i)) as [e He]; [lia|].
  rewrite nth_lookup, He. cbn. rewrite Forall_lookup in Hw. by apply (Hw _ _ He).
Qed.

Section parse.
Context {F : Type} `{!CharSource F} (fuel : nat).

(** The state after a line. *)
Definition line_done (l : cfg_line) (rest : list Z) (x : config) (r : option (list Z * F * config)) : Prop :=
  ∃ buf f x', r = Some (buf, f, x') ∧ length buf = 50%nat ∧ stream f rest ∧ config_wf x' ∧ view x' = apply_line (view x) l ∧
    cur_scope x' = match l with LGlobal => SCOPE_GLOBAL | LEntry _ => SCOPE_ENTRY | _ => cur_scope x end.

(** The body of the loop on a line that is not the end of the file. *)
Definition line_body (tagbuf : list Z) (file : F) (x : config) : option (list Z * F * config) :=
  '(curtag, tagbuf, file) ← config_read_tag fuel file tagbuf 50;
  '(file, x) ←
    (if curtag =? CONFIG_TAG_SCOPE then Some (file, enter_scope tagbuf x)
     else if curtag =? CONFIG_TAG_ASSIGN then assign_attribute fuel tagbuf file x
     else Some (file, x));
  if curtag =? CONFIG_TAG_EOF then None else Some (tagbuf, file, x).

Lemma parse_lines_step n tagbuf f x buf f' x' : line_body tagbuf f x = Some (buf, f', x') →
  parse_lines fuel (S n) tagbuf f x = parse_lines fuel n buf f' x'.
Proof.
  unfold line_body. cbn [parse_lines]. destruct (config_read_tag fuel f tagbuf 50) as [[[tag b] f1]|]; [|done]. cbn [mbind option_bind].
  destruct (if tag =? CONFIG_TAG_SCOPE then _ else _) as [[f2 x2]|]; [|done]. cbn [mbind option_bind].
  destruct (tag =? CONFIG_TAG_EOF); [done|]. by intros [= -> -> ->].
Qed.

(** An attribute line, given what reading its value does. *)
Lemma attribute_line a rest rest' l x f buf : attr_name a → length buf = 50%nat → stream f (a ++ 61 :: rest) →
  (∀ tagbuf f1, c_str tagbuf = a → stream f1 rest →
     ∃ f2 x', assign_attribute fuel tagbuf f1 x = Some (f2, x') ∧ stream f2 rest' ∧ config_wf x' ∧ view x' = apply_line (view x) l ∧ cur_scope x' = cur_scope x) →
  match l with LGlobal | LEntry _ => False | _ => True end →
  line_done l rest' x (line_body buf f x).
Proof.
  intros Ha Hbuf Hst Hval Hk. destruct (read_tag_assign fuel f a rest buf Ha Hbuf Hst) as (buf' & f1 & Ht & Hc & Hb & Hst1).
  destruct (Hval buf' f1 Hc Hst1) as (f2 & x' & Has & Hst2 & Hw & Hv & Hsc). unfold line_body. rewrite Ht. cbn [mbind option_bind].
  change (CONFIG_TAG_ASSIGN =? CONFIG_TAG_SCOPE) with false. change (CONFIG_TAG_ASSIGN =? CONFIG_TAG_ASSIGN) with true. change (CONFIG_TAG_ASSIGN =? CONFIG_TAG_EOF) with false.
  cbn beta iota. rewrite Has. cbn [mbind option_bind]. exists buf', f2, x'. split_and!; try done. by destruct l.
Qed.

(** A string attribute: [set] stores the buffer that held [old]. *)
Lemma string_line a v size rest l x f buf (old : list Z) (set : list Z → config → config) :
  attr_name a → length buf = 50%nat → value_ok size v → length old = size → (2 ≤ fuel)%nat →
  (∀ tagbuf f1, c_str tagbuf = a → assign_attribute fuel tagbuf f1 x =
     ('(_, b, f2) ← config_read_assign_string fuel f1 old (Z.of_nat size); Some (f2, set b x))) →
  (∀ b, length b = size → c_str b = v → config_wf (set b x) ∧ view (set b x) = apply_line (view x) l ∧ cur_scope (set b x) = cur_scope x) →
  match l with LGlobal | LEntry _ => False | _ => True end →
  stream f (str_line a v ++ rest) → line_done l rest x (line_body buf f x).
Proof.
  intros Ha Hbuf Hv Hold Hfuel Has Hset Hk Hst.
  apply (attribute_line a (34 :: v ++ 34 :: 10 :: rest)); try done.
  { unfold str_line in Hst. rewrite <- app_assoc in Hst. cbn [app] in Hst. by rewrite <- app_assoc in Hst. }
  intros tagbuf f1 Hc Hst1. rewrite (Has tagbuf f1 Hc). destruct (read_string fuel f1 v rest old size Hv Hold Hfuel Hst1) as (b & f2 & -> & Hcb & Hlb & Hst2).
  cbn [mbind option_bind]. exists f2, (set b x). split; [done|]. split; [done|]. by apply Hset.
Qed.

(** A string attribute of the current entry. *)
Lemma entry_line a v size rest l x f buf (get : boot_entry → list Z) (set : list Z → boot_entry → boot_entry) :
  attr_name a → length buf = 50%nat → value_ok size v → (2 ≤ fuel)%nat → config_wf x → cur_scope x = SCOPE_ENTRY →
  (∀ tagbuf f1, c_str tagbuf = a → assign_attribute fuel tagbuf f1 x =
     ('(_, b, f2) ← config_read_assign_string fuel f1 (get (entry_at (cur_entry x) x)) (Z.of_nat size); Some (f2, upd_entry (cur_entry x) (set b) x))) →
  (∀ e, entry_wf e → length (get e) = size ∧ ∀ b, length b = size → entry_wf (set b e)) →
  (∀ e b, view_entry (set b e) = set (c_str b) (view_entry e)) → apply_line (view x) l = upd_entry (cur_entry x) (set v) (view x) →
  match l with LGlobal | LEntry _ => False | _ => True end →
  stream f (str_line a v ++ rest) → line_done l rest x (line_body buf f x).
Proof.
  intros Ha Hbuf Hv Hfuel Hx Hg Has Hwf Hview Hl Hk Hst. pose proof Hx as (_ & Hle & _ & Hsc).
  assert (Hcur : 0 ≤ cur_entry x < 3) by (rewrite Hg in Hsc; by destruct Hsc as [|[_ ?]]).
  destruct (Hwf _ (entry_at_wf _ _ Hcur Hx)) as [Hlen Hset].
  apply (string_line a v size rest l x f buf _ (λ b, upd_entry (cur_entry x) (set b)) Ha Hbuf Hv Hlen Hfuel Has); [|done|done].
  intros b Hb Hcb. split; [apply upd_entry_wf; auto|]. split; [|done]. rewrite Hl. apply view_upd_entry; [done|done|]. intros e. by rewrite Hview, Hcb.
Qed.

Lemma line_body_spec l x f buf rest : config_wf x → line_ok (cur_scope x) l → length buf = 50%nat → (length (line_text l) < fuel)%nat → (11 ≤ fuel)%nat →
  stream f (line_text l ++ rest) → line_done l rest x (line_body buf f x).
Proof.
  intros Hx Hl Hbuf Hfuel H11 Hst. pose proof Hx as (Hm & Hle & Hwe & Hsc).
  destruct l as [|s| |i|v|b|n|v|v|v|v]; cbn [line_text line_ok] in *.
  - destruct (read_tag_empty fuel f [] rest buf) as (f1 & Ht & Hst1); [done|cbn; lia|by left|].
    unfold line_body. rewrite Ht. cbn [mbind option_bind]. exists buf, f1, x. split_and!; done.
  - destruct (read_tag_empty fuel f s rest buf) as (f1 & Ht & Hst1); [done|cbn [length] in Hfuel; rewrite length_app in Hfuel; lia|right; by rewrite <- app_comm_cons, <- app_assoc in Hst|].
    unfold line_body. rewrite Ht. cbn [mbind option_bind]. exists buf, f1, x. split_and!; done.
  - destruct (read_tag_scope fuel f (text "Global") rest buf) as (b & f1 & Ht & Hc & Hb & Hst1);
      [vm_compute; lia|by_computation|done|lia|by rewrite <- app_comm_cons, <- app_assoc in Hst|].
    unfold line_body. rewrite Ht. cbn [mbind option_bind]. exists b, f1, (set_scope SCOPE_GLOBAL (cur_entry x) x).
    split; [unfold enter_scope; rewrite Hc; reflexivity|]. split_and!; try done. split_and!; try done. by left.
  - destruct (read_tag_scope fuel f (text "Entry" ++ [49 + i]) rest buf) as (b & f1 & Ht & Hc & Hb & Hst1).
    { cbn. lia. } { apply Forall_app. split; [by_computation|repeat constructor; lia]. } { done. } { lia. }
    { by rewrite <- app_comm_cons, <- app_assoc in Hst. }
    unfold line_body. rewrite Ht. cbn [mbind option_bind].
    set (x1 := upd_entry i (λ e, mk_bentry 1 (e_label e) (e_args e) (e_type e) (e_kernel e)) (set_scope SCOPE_ENTRY i x)).
    assert (He : enter_scope b x = x1).
    { unfold enter_scope. rewrite Hc. rewrite bool_decide_eq_false_2 by (vm_compute; intros [= ]).
      change (take 5 (text "Entry" ++ [49 + i])) with (text "Entry"). rewrite bool_decide_eq_true_2 by done. cbn [andb length].
      change (nth 5 (text "Entry" ++ [49 + i]) 0) with (49 + i). change (Nat.eqb (length (text "Entry" ++ [49 + i])) 6) with true. cbn [andb].
      unfold ENTRY_NUMBER. rewrite (proj2 (Z.leb_le 49 _)), (proj2 (Z.leb_le _ (48 + 3))) by lia. cbn [andb].
      replace (49 + i - 49) with i by lia. done. }
    rewrite He. assert (Hw1 : config_wf (set_scope SCOPE_ENTRY i x)) by (split_and!; try done; by right).
    exists b, f1, x1. split; [done|]. split; [done|]. split; [done|]. split; [|split; [|done]].
    + apply upd_entry_wf; [done|done|]. exact (entry_at_wf i _ Hl Hw1).
    + unfold x1. erewrite view_upd_entry; [reflexivity|done|done|done].
  - destruct Hl as [Hg Hv]. apply (string_line (text "message") v 30 rest _ x f buf (cfg_message x) set_message);
      [solve_attr_name|done|done|done|lia| | |done|done].
    + intros tagbuf f1 Hc. unfold assign_attribute. rewrite Hg, Hc. reflexivity.
    + intros b Hb Hcb. split_and!; try done. unfold view. cbn. by rewrite Hcb.
  - apply (attribute_line (text "quiet") ((if b then text "yes" else text "no") ++ 10 :: rest)); try done; [solve_attr_name| |].
    { rewrite <- app_assoc in Hst. cbn [app] in Hst. by rewrite <- app_assoc in Hst. }
    intros tagbuf f1 Hc Hst1. unfold assign_attribute. rewrite Hl, Hc. change (SCOPE_GLOBAL =? SCOPE_GLOBAL) with true.
    change (bool_decide (text "quiet" = text "message")) with false. change (bool_decide (text "quiet" = text "quiet")) with true. cbn beta iota.
    destruct (read_bool f1 b rest (cfg_quiet x) Hst1) as (f2 & -> & Hst2). cbn [mbind option_bind]. exists f2, (set_quiet (if b then 1 else 0) x). by split_and!.
  - destruct Hl as [Hg Hn]. apply (attribute_line (text "default") (dec_string n ++ 10 :: rest)); try done; [solve_attr_name| |].
    { rewrite <- app_assoc in Hst. cbn [app] in Hst. by rewrite <- app_assoc in Hst. }
    intros tagbuf f1 Hc Hst1. unfold assign_attribute. rewrite Hg, Hc. change (SCOPE_GLOBAL =? SCOPE_GLOBAL) with true.
    change (bool_decide (text "default" = text "message")) with false. change (bool_decide (text "default" = text "quiet")) with false.
    change (bool_decide (text "default" = text "default")) with true. cbn beta iota.
    destruct (read_int fuel f1 n rest (cfg_default x) Hn H11 Hst1) as (f2 & -> & Hst2). cbn [mbind option_bind]. exists f2, (set_default n x). by split_and!.
  - destruct Hl as [Hg Hv]. apply (entry_line (text "label") v 30 rest _ x f buf e_label set_label); try done; [solve_attr_name|lia| |].
    + intros tagbuf f1 Hc. unfold assign_attribute. rewrite Hg, Hc. reflexivity.
    + intros e (? & ? & ? & ?). split; [done|]. intros b Hb. by split_and!.
  - destruct Hl as [Hg Hv]. apply (entry_line (text "args") v 50 rest _ x f buf e_args set_args); try done; [solve_attr_name|lia| |].
    + intros tagbuf f1 Hc. unfold assign_attribute. rewrite Hg, Hc. reflexivity.
    + intros e (? & ? & ? & ?). split; [done|]. intros b Hb. by split_and!.
  - destruct Hl as [Hg Hv]. apply (entry_line (text "type") v 20 rest _ x f buf e_type set_type); try done; [solve_attr_name|lia| |].
    + intros tagbuf f1 Hc. unfold assign_attribute. rewrite Hg, Hc. reflexivity.
    + intros e (? & ? & ? & ?). split; [done|]. intros b Hb. by split_and!.
  - destruct Hl as [Hg Hv]. apply (entry_line (text "kernel") v 50 rest _ x f buf e_kernel set_kernel); try done; [solve_attr_name|lia| |].
    + intros tagbuf f1 Hc. unfold assign_attribute. rewrite Hg, Hc. reflexivity.
    + intros e (? & ? & ? & ?). split; [done|]. intros b Hb. by split_and!.
Qed.
End parse.

Section main.
Context {F : Type} `{!CharSource F}.

Definition lines_text (ls : list cfg_line) : list Z := l ← ls; line_text l.

Lemma parse_lines_spec fuel ls : ∀ n x f buf, config_wf x → lines_ok (cur_scope x) ls → length buf = 50%nat →
  (length (lines_text ls) < fuel)%nat → (11 ≤ fuel)%nat → (length ls < n)%nat → stream f (lines_text ls) →
  ∃ x', parse_lines fuel n buf f x = Some x' ∧ view x' = foldl apply_line (view x) ls.
Proof.
  induction ls as [|l ls IH]; intros n x f buf Hx Hok Hbuf Hfuel H11 Hn Hst; (destruct n as [|n]; [lia|]).
  - cbn [parse_lines]. unfold config_read_tag. rewrite (stream_end _ Hst). cbn [mbind option_bind]. exists x. by split.
  - destruct Hok as [Hl Hok]. cbn [lines_text mbind list_bind] in *. fold (lines_text ls) in *. rewrite length_app in Hfuel. cbn [length] in Hn.
    destruct (line_body_spec fuel l x f buf (lines_text ls) Hx Hl Hbuf ltac:(lia) H11 Hst) as (buf' & f' & x' & Hb & Hlb & Hst' & Hx' & Hv & Hsc).
    rewrite (parse_lines_step fuel n buf f x buf' f' x' Hb). cbn [foldl]. rewrite <- Hv. apply IH; [done|by rewrite Hsc|done|lia|done|lia|done].
Qed.

Lemma lines_text_length ls : (length ls ≤ length (lines_text ls))%nat.
Proof.
  induction ls as [|l ls IH]; [done|]. cbn [lines_text mbind list_bind length]. fold (lines_text ls). rewrite length_app.
  assert (1 ≤ length (line_text l))%nat; [|lia]. destruct l; cbn [line_text length]; unfold str_line; rewrite ?length_app; cbn [length]; lia.
Qed.

(** C30: parsing a file that consists of well-formed lines ends and has the effect of
    the lines one after the other, on a configuration where no entry is defined and
    the scope is global; no buffer overflows. *)
Theorem parse_config_roundtrip fuel ls file stale x :
  config_wf x → lines_ok SCOPE_GLOBAL ls → length stale = 50%nat → stream file (lines_text ls) →
  (length (lines_text ls) + 11 ≤ fuel)%nat →
  ∃ x', parse_config_file fuel stale file x = Some x' ∧
    view x' = foldl apply_line (mk_config (c_str (cfg_message x)) (cfg_quiet x) (cfg_default x)
      ((λ e, mk_bentry 0 (c_str (e_label e)) (c_str (e_args e)) (c_str (e_type e)) (c_str (e_kernel e))) <$> cfg_entries x) SCOPE_GLOBAL (-1)) ls.
Proof.
  intros (Hm & Hl & Hw & _) Hok Hst Hstr Hfuel. unfold parse_config_file. set (x1 := set_entries _ _).
  assert (Hx1 : config_wf x1).
  { split_and!; [done|unfold x1; cbn [set_entries cfg_entries]; by rewrite length_fmap| |by left].
    unfold x1. cbn [set_entries cfg_entries]. apply Forall_fmap. exact Hw. }
  pose proof (lines_text_length ls).
  destruct (parse_lines_spec fuel ls fuel x1 file stale Hx1 Hok Hst ltac:(lia) ltac:(lia) ltac:(lia) Hstr) as (x' & Hp & Hv).
  exists x'. split; [done|]. rewrite Hv. f_equal. unfold view, x1. cbn [set_entries cfg_message cfg_quiet cfg_default cfg_entries cur_scope cur_entry set_scope].
  f_equal. rewrite <- list_fmap_compose. done.
Qed.
End main.

(** A string as a source of characters. *)
#[export] Program Instance list_source : CharSource (list Z) := {|
  readchar l := match l with [] => Some (-1, []) | c :: l => Some (c, l) end;
  stream l l' := l = l' ∧ Forall (λ c, 0 ≤ c < 256) l
|}.
Next Obligation. by intros f [-> _]. Qed.
Next Obligation. intros f c l [-> H]. apply Forall_cons in H as [Hc Hl]. by exists l. Qed.

Definition demo_lines : list cfg_line :=
  [LComment (text " boot"); LGlobal; LMessage (text "FiXos"); LQuiet true; LDefault 2; LEmpty; LEntry 1; LKernel (text "/fixos"); LArgs (text "console=tty1")].

Lemma demo_lines_ok : lines_ok SCOPE_GLOBAL demo_lines.
Proof.
  unfold demo_lines. repeat match goal with |- lines_ok _ (_ :: _) => split end; try exact I; try reflexivity.
  - by_computation.
  - split; [reflexivity|]. split; [vm_compute; lia|]. by_computation.
  - split; [reflexivity|lia].
  - unfold line_ok. lia.
  - split; [reflexivity|]. split; [vm_compute; lia|]. by_computation.
  - split; [reflexivity|]. split; [vm_compute; lia|]. by_computation.
Qed.

Lemma parse_config_roundtrip_witness :
  ∃ x', parse_config_file 200 (replicate 50 7) (lines_text demo_lines) config0 = Some x' ∧
    cfg_quiet (view x') = 1 ∧ cfg_default (view x') = 2 ∧ cfg_message (view x') = text "FiXos" ∧
    e_kernel (entry_at 1 (view x')) = text "/fixos" ∧ e_defined (entry_at 1 (view x')) = 1 ∧ e_defined (entry_at 0 (view x')) = 0.
Proof.
  destruct (parse_config_roundtrip 200 demo_lines (lines_text demo_lines) (replicate 50 7) config0) as (x' & Hp & Hv).
  - split_and!; try done; [repeat constructor|by left].
  - exact demo_lines_ok.
  - reflexivity.
  - split; [reflexivity|]. by_computation.
  - vm_compute. lia.
  - exists x'. split; [exact Hp|]. rewrite Hv. vm_compute. repeat split.
Defined.
