(* ===== verification/Bootloader.v ===== *)
(** * Boot loader (src/bootloader/elf_loader.c, src/bootloader/bootloader.c)

    The kernel is an ELF file of the storage memory: its segments are copied at
    their physical addresses, the command line is copied at a fixed address and the
    entry point is called.  The memory is a map from addresses to bytes.  The menu
    of the boot loader moves a selection over the entries of the configuration; what
    it displays are calls to the firmware of the calculator and is not modelled.

    The theorems show which memory the kernel starts with, and which entries the
    menu can select. *)

From S2P Require Import Prelude Smemfs Log SmemFile BootConfig Elf.

(** ** Loading the kernel *)

(** [memcpy] to physical memory. *)
Definition store (m : Z → Z) (addr : ptr) (bytes : list Z) : Z → Z :=
  λ a, if (addr <=? a) && (a <? addr + Z.of_nat (length bytes)) then aget bytes (a - addr) else m a.

(** src/bootloader/elf_loader.c: elf_check_header *)
Definition elf_check_header (h : elf_header) : Z :=
  if bool_decide (magic h = [0x7F; 69; 76; 70]) then
    if (elf_class h =? ELF_CLASS32) && (endianness h =? ELF_ENDIAN_BIG) && (ident_version h =? ELF_IDENT_VERS) && (osabi h =? ELF_OSABI_NONE) then
      if (eh_type h =? ELF_TYPE_EXEC) && (machine h =? ELF_MACHINE_SH) && (eh_version h =? ELF_VERS)
         && (ehsize h =? EHDR_SIZE) && (phentsize h =? PHDR_SIZE)
      then 0 else -1
    else -1
  else -1.

(** The physical address of a segment, from the bytes of its header. *)
(** src/loader/elfloader/elf.h:95-95: paddr *)
Definition paddr_of (b : list Z) : ptr := be32 b 12.

Section load.
Context (flash : Z → Z) (tables : nat) (p : smemfs_prim).

(** [pheader] are the bytes of the program header. *)
(** src/bootloader/elf_loader.c: elf_load_segment *)
Definition elf_load_segment (pheader : list Z) (filep : smem_file) (m : Z → Z) : option (smem_file * (Z → Z)) :=
  let ph := elf_prog_header_of pheader in
  '(_, filep) ← smem_seek flash tables (s32 (ph_offset ph)) SEEK_SET filep;
  '(_, bytes, filep) ← smem_read flash tables p (ph_filesz ph) filep;
  let m := store m (paddr_of pheader) bytes in
  let m := store m (u32 (paddr_of pheader + ph_filesz ph)) (replicate (Z.to_nat (u32 (ph_memsz ph - ph_filesz ph))) 0) in
  Some (filep, m).

(** The loop over the program headers, from [i], of which [n] are left: [error] and
    the memory. *)
(** src/bootloader/elf_loader.c:93-109: elf_load_kernel *)
Fixpoint load_segments (n : nat) (header : elf_header) (i : Z) (kernel : smem_file) (m : Z → Z) : option (bool * (Z → Z)) :=
  match n with
  | O => Some (false, m)
  | S n =>
      '(_, kernel) ← smem_seek flash tables (s32 (u32 (phoff header + i * PHDR_SIZE))) SEEK_SET kernel;
      '(r, pheader, kernel) ← smem_read flash tables p PHDR_SIZE kernel;
      if negb (r =? PHDR_SIZE) then Some (true, m)
      else if ph_type (elf_prog_header_of pheader) =? ELFP_TYPE_LOAD then
        '(kernel, m) ← elf_load_segment pheader kernel m;
        load_segments n header (i + 1) kernel m
      else load_segments n header (i + 1) kernel m
  end.

(** The command line, cut to [cmd_max] bytes with its NUL. *)
(** src/bootloader/elf_loader.c:113-120: elf_load_kernel *)
Definition copy_cmdline (cmdline : option (list Z)) (cmd_addr : ptr) (cmd_max : Z) (m : Z → Z) : Z → Z :=
  match cmdline with
  | None => m
  | Some s =>
      let i := Z.min cmd_max (Z.of_nat (length s)) in
      let m := store m cmd_addr (take (Z.to_nat i) s) in
      let i := if cmd_max <=? i then i - 1 else i in
      store m (cmd_addr + i) [0]
  end.

(** What the loader ends with: the kernel runs, or an error is returned. *)
Inductive boot_result := Jump (entry : ptr) (m : Z → Z) | BootError (ret : Z) (m : Z → Z).

(** src/bootloader/elf_loader.c: elf_load_kernel *)
Definition elf_load_kernel (s0 path : list Z) (cmdline : option (list Z)) (cmd_addr : ptr) (cmd_max : Z) (m : Z → Z) : option boot_result :=
  r ← smem_open flash tables p s0 path;
  match r with
  | Some kernel =>
      '(r, header, kernel) ← smem_read flash tables p EHDR_SIZE kernel;
      if negb (r =? EHDR_SIZE) then Some (BootError (-1) m)
      else
        let header := elf_header_of header in
        if negb (elf_check_header header =? 0) then Some (BootError (-1) m)
        else
          '(error, m) ← load_segments (Z.to_nat (phnum header)) header 0 kernel m;
          if error : bool then Some (BootError (-2) m)
          else Some (Jump (entry header) (copy_cmdline cmdline cmd_addr cmd_max m))
  | None => Some (BootError (-2) m)
  end.

(** src/bootloader/bootloader.c:63-63: CMDLINE_ADDR *)
Definition CMDLINE_ADDR : ptr := 0x88000000.
(** src/bootloader/bootloader.c:64-64: CMDLINE_MAX *)
Definition CMDLINE_MAX : Z := 1024.

(** src/bootloader/bootloader.c: bootloader_boot_entry *)
Definition bootloader_boot_entry (s0 : list Z) (e : boot_entry) (m : Z → Z) : option boot_result :=
  let cmdline := if aget (e_args e) 0 =? 0 then None else Some (c_str (e_args e)) in
  elf_load_kernel s0 (c_str (e_kernel e)) cmdline CMDLINE_ADDR CMDLINE_MAX m.
End load.

(** ** The menu *)

(** src/bootloader/casio_syscalls.h:55-55: KEY_CTRL_EXE *)
Definition KEY_CTRL_EXE : Z := 30004.
(** src/bootloader/casio_syscalls.h:56-56: KEY_CTRL_SHIFT *)
Definition KEY_CTRL_SHIFT : Z := 30006.
(** src/bootloader/casio_syscalls.h:57-57: KEY_CTRL_UP *)
Definition KEY_CTRL_UP : Z := 30018.
(** src/bootloader/casio_syscalls.h:58-58: KEY_CTRL_DOWN *)
Definition KEY_CTRL_DOWN : Z := 30023.

Definition is_defined (x : config) (sel : Z) : bool := negb (e_defined (entry_at (sel - 1) x) =? 0).

(** The loops that skip the undefined entries; there are three of them. *)
(** src/bootloader/bootloader.c:278-280: bootloader_init *)
Fixpoint skip_up (fuel : nat) (x : config) (tempsel : Z) : Z :=
  match fuel with
  | O => tempsel
  | S fuel => if (1 <=? tempsel) && negb (is_defined x tempsel) then skip_up fuel x (tempsel - 1) else tempsel
  end.
(** src/bootloader/bootloader.c:286-288: bootloader_init *)
Fixpoint skip_down (fuel : nat) (x : config) (tempsel : Z) : Z :=
  match fuel with
  | O => tempsel
  | S fuel => if (tempsel <? ENTRY_NUMBER) && negb (is_defined x tempsel) then skip_down fuel x (tempsel + 1) else tempsel
  end.

(** src/bootloader/bootloader.c:277-292: bootloader_init *)
Definition menu_move (x : config) (key selected : Z) : Z :=
  if key =? KEY_CTRL_UP then
    let tempsel := skip_up 4 x (selected - 1) in
    if (1 <=? tempsel) && is_defined x tempsel then tempsel else selected
  else if key =? KEY_CTRL_DOWN then
    let tempsel := skip_down 4 x (selected + 1) in
    if (tempsel <? ENTRY_NUMBER) && is_defined x tempsel then tempsel else selected
  else selected.

(** The title, the message in the middle of a line of 32 characters. *)
(** src/bootloader/bootloader.c:221-243: bootloader_init *)
Definition menu_title (message : list Z) : list Z :=
  let title_size := Z.min 32 (Z.of_nat (length (c_str message))) in
  let title_offset := Z.quot (32 - title_size) 2 in
  memcpy_to (replicate 32 61) (Z.to_nat title_offset) (take (Z.to_nat title_size) message).

Section init.
Context (flash : Z → Z) (tables : nat) (p : smemfs_prim) (s0 : list Z).

(** The keys typed in the menu, one more being read when a boot fails.  The inner
    [None] is the menu still waiting for a key; displaying or booting an entry that is
    not in the array is the outer [None]. *)
(** src/bootloader/bootloader.c:245-306: bootloader_init *)
Fixpoint menu_loop (keys : list Z) (x : config) (selected : Z) (m : Z → Z) : option (option (ptr * (Z → Z))) :=
  if negb ((1 <=? selected) && (selected <=? ENTRY_NUMBER)) then None else
  match keys with
  | [] => Some None
  | key :: keys =>
      if (key =? KEY_CTRL_EXE) || (key =? KEY_CTRL_SHIFT) then
        r ← bootloader_boot_entry flash tables p s0 (entry_at (selected - 1) x) m;
        match r with
        | Jump entry m => Some (Some (entry, m))
        | BootError _ m => match keys with [] => Some None | _ :: keys => menu_loop keys x selected m end
        end
      else menu_loop keys x (menu_move x key selected) m
  end.

(** src/bootloader/bootloader.c: bootloader_init *)
Definition bootloader_init (fuel : nat) (byte : ∀ a, 0 ≤ flash a < 256) (stale : list Z) (keys : list Z) (x : config) (m : Z → Z) :
  option (option (ptr * (Z → Z))) :=
  r ← smem_open flash tables p s0 (text "/bootldr.cfg");
  match r with
  | None => Some None
  | Some cfgfile =>
      x ← @parse_config_file _ (smem_source flash tables p byte) fuel stale cfgfile x;
      let selected := cfg_default x in
      if cfg_quiet x =? 0 then menu_loop keys x selected m
      else if negb ((1 <=? selected) && (selected <=? ENTRY_NUMBER)) then None
      else
        r ← bootloader_boot_entry flash tables p s0 (entry_at (selected - 1) x) m;
        match r with Jump entry m => Some (Some (entry, m)) | BootError _ _ => Some None end
  end.
End init.

(** ** The memory of the kernel *)

(** Memories are compared address by address. *)
Definition same_memory (m m' : Z → Z) : Prop := ∀ a, m a = m' a.

#[export] Instance same_memory_equiv : Equivalence same_memory.
Proof. split; [by intros m a|by intros m m' H a|intros m1 m2 m3 H1 H2 a; by rewrite H1]. Qed.

#[export] Instance store_proper : Proper (same_memory ==> eq ==> eq ==> same_memory) store.
Proof. intros m m' Hm ? addr -> ? bytes -> a. unfold store. by case_match. Qed.

#[export] Instance copy_cmdline_proper s addr mx : Proper (same_memory ==> same_memory) (copy_cmdline s addr mx).
Proof. intros m m' Hm. unfold copy_cmdline. destruct s; [|done]. by rewrite Hm. Qed.

Lemma store_nil m addr : same_memory (store m addr []) m.
Proof. intros a. unfold store. cbn [length]. destruct (Z.leb_spec addr a), (Z.ltb_spec a (addr + Z.of_nat 0)); cbn [andb]; try done. lia. Qed.

(** Two stores one after the other are one store. *)
Lemma store_app m addr x y : same_memory (store (store m addr x) (addr + Z.of_nat (length x)) y) (store m addr (x ++ y)).
Proof.
  intros a. unfold store. rewrite length_app.
  destruct (Z.leb_spec (addr + Z.of_nat (length x)) a); cbn [andb].
  - destruct (Z.ltb_spec a (addr + Z.of_nat (length x) + Z.of_nat (length y))); cbn [andb].
    + rewrite (proj2 (Z.leb_le _ _)), (proj2 (Z.ltb_lt _ _)) by lia. cbn [andb]. unfold aget. rewrite app_nth2 by lia. f_equal. lia.
    + rewrite !(proj2 (Z.ltb_ge _ _)) by lia. by rewrite !andb_false_r.
  - destruct (Z.leb_spec addr a); cbn [andb]; [|done]. rewrite !(proj2 (Z.ltb_lt _ _)) by lia. unfold aget. by rewrite app_nth1 by lia.
Qed.

(** A store that overwrites the last byte of another. *)
Lemma store_last m addr x c z : same_memory (store (store m addr (x ++ [c])) (addr + Z.of_nat (length x)) [z]) (store m addr (x ++ [z])).
Proof.
  rewrite <- !store_app. intros a. unfold store. cbn [length]. change (Z.of_nat 1) with 1.
  destruct (Z.leb_spec (addr + Z.of_nat (length x)) a), (Z.ltb_spec a (addr + Z.of_nat (length x) + 1)); cbn [andb]; done.
Qed.

Lemma copy_cmdline_spec s addr mx m : 1 ≤ mx →
  same_memory (copy_cmdline (Some s) addr mx m) (store m addr (take (Z.to_nat (mx - 1)) s ++ [0])).
Proof.
  intros Hmx. unfold copy_cmdline. destruct (decide (Z.of_nat (length s) < mx)).
  - rewrite Z.min_r, (proj2 (Z.leb_gt mx _)), Nat2Z.id, firstn_all, (take_ge s) by lia. apply store_app.
  - rewrite Z.min_l, (proj2 (Z.leb_le mx mx)) by lia. destruct (lookup_lt_is_Some_2 s (Z.to_nat (mx - 1))) as [c Hc]; [lia|].
    replace (Z.to_nat mx) with (S (Z.to_nat (mx - 1))) by lia. rewrite (take_S_r _ _ c Hc).
    set (x := take (Z.to_nat (mx - 1)) s). replace (mx - 1) with (Z.of_nat (length x)) by (unfold x; rewrite length_take; lia). apply store_last.
Qed.

(** What a segment puts in memory. *)
Definition segment_image (content b : list Z) : list Z :=
  let ph := elf_prog_header_of b in
  take (Z.to_nat (ph_filesz ph)) (drop (Z.to_nat (ph_offset ph)) content) ++ replicate (Z.to_nat (ph_memsz ph - ph_filesz ph)) 0.

(** The program headers of a file. *)
Definition prog_headers (content : list Z) (h : elf_header) : list (list Z) :=
  (λ i, take 32 (drop (Z.to_nat (phoff h + 32 * i)) content)) <$> seqZ 0 (phnum h).

Definition load_image (content : list Z) (m : Z → Z) (b : list Z) : Z → Z :=
  if ph_type (elf_prog_header_of b) =? ELFP_TYPE_LOAD then store m (paddr_of b) (segment_image content b) else m.

(** A segment to load is inside the file and does not wrap around the address space. *)
Definition segment_ok (content b : list Z) : Prop :=
  let ph := elf_prog_header_of b in
  ph_type ph = ELFP_TYPE_LOAD →
  0 ≤ ph_offset ph < Z.of_nat (length content) ∧ 0 ≤ ph_filesz ph ∧ ph_offset ph + ph_filesz ph ≤ Z.of_nat (length content) ∧
  ph_filesz ph ≤ ph_memsz ph ∧ 0 ≤ paddr_of b ∧ paddr_of b + ph_memsz ph < 2 ^ 32.

#[export] Instance load_image_proper content : Proper (same_memory ==> eq ==> same_memory) (load_image content).
Proof. intros m m' Hm ? b ->. unfold load_image. case_match; [by rewrite Hm|done]. Qed.

Lemma images_proper content bs : ∀ m m', same_memory m m' → same_memory (foldl (load_image content) m bs) (foldl (load_image content) m' bs).
Proof. induction bs as [|b bs IH]; intros m m' Hm; [done|]. cbn [foldl]. apply IH. by rewrite Hm. Qed.

Section kernel.
Context (flash : Z → Z) (tables : nat) (p : smemfs_prim).
Hypothesis flash_byte : ∀ a, 0 ≤ flash a < 256.

Lemma seek_read f c pos off len : at_pos flash tables p f c pos → 0 ≤ off < Z.of_nat (length c) → 0 ≤ len → off + len ≤ Z.of_nat (length c) →
  ∃ f1 f2, smem_seek flash tables off SEEK_SET f = Some (off, f1) ∧
    smem_read flash tables p len f1 = Some (len, take (Z.to_nat len) (drop (Z.to_nat off) c), f2) ∧ at_pos flash tables p f2 c (off + len).
Proof.
  intros Hat Hoff Hlen Hle. destruct (at_pos_range _ _ _ _ _ _ Hat) as (_ & H31 & _).
  destruct (smem_seek_spec flash tables p flash_byte f c pos off Hat ltac:(lia)) as (f1 & Hs & H1). rewrite Z.min_l in * by lia.
  destruct (smem_read_spec flash tables p flash_byte f1 c off len H1 ltac:(lia) ltac:(lia)) as (f2 & Hr & H2). rewrite Z.min_l in * by lia.
  by exists f1, f2.
Qed.

Lemma boot_segment_spec f c pos b m : at_pos flash tables p f c pos → segment_ok c b → ph_type (elf_prog_header_of b) = ELFP_TYPE_LOAD →
  ∃ f' m' pos', elf_load_segment flash tables p b f m = Some (f', m') ∧ at_pos flash tables p f' c pos' ∧ same_memory m' (load_image c m b).
Proof.
  intros Hat Hok Hty. destruct (at_pos_range _ _ _ _ _ _ Hat) as (_ & H31 & _). destruct (Hok Hty) as (Ho & Hf & Hof & Hfm & Hp & Hpm).
  unfold elf_load_segment. rewrite s32_small by lia.
  destruct (seek_read f c pos (ph_offset (elf_prog_header_of b)) (ph_filesz (elf_prog_header_of b)) Hat Ho Hf Hof) as (f1 & f2 & -> & Hr & Hat2).
  cbn [mbind option_bind]. rewrite Hr. cbn [mbind option_bind]. eexists f2, _, _. split; [done|]. split; [exact Hat2|].
  unfold load_image. rewrite Hty. change (ELFP_TYPE_LOAD =? ELFP_TYPE_LOAD) with true. cbn beta iota. unfold segment_image.
  rewrite (u32_small (_ - _)), (u32_small (_ + _)) by lia. set (x := take _ _).
  replace (ph_filesz (elf_prog_header_of b)) with (Z.of_nat (length x)) at 1 by (unfold x; rewrite length_take, length_drop; lia). apply store_app.
Qed.

Lemma boot_segments_spec h c n : ∀ i f pos m, at_pos flash tables p f c pos → 0 ≤ i → 0 ≤ phoff h → (n > 0)%nat ∨ n = 0%nat →
  phoff h + 32 * (i + Z.of_nat n) ≤ Z.of_nat (length c) →
  Forall (segment_ok c) ((λ i, take 32 (drop (Z.to_nat (phoff h + 32 * i)) c)) <$> seqZ i (Z.of_nat n)) →
  ∃ m', load_segments flash tables p n h i f m = Some (false, m') ∧
    same_memory m' (foldl (load_image c) m ((λ i, take 32 (drop (Z.to_nat (phoff h + 32 * i)) c)) <$> seqZ i (Z.of_nat n))).
Proof.
  induction n as [|n IH]; intros i f pos m Hat Hi Hph _ Hlen Hok; [by exists m|]. destruct (at_pos_range _ _ _ _ _ _ Hat) as (_ & H31 & _).
  rewrite (seqZ_cons i) in * by lia. replace (Z.pred (Z.of_nat (S n))) with (Z.of_nat n) in * by lia. cbn [fmap list_fmap foldl] in *.
  apply Forall_cons in Hok as [Hb Hok]. unfold Z.succ in *. set (b := take 32 _) in *. cbn [load_segments]. unfold PHDR_SIZE.
  rewrite u32_small, s32_small by lia. replace (phoff h + i * 32) with (phoff h + 32 * i) by lia.
  destruct (seek_read f c pos (phoff h + 32 * i) 32 Hat) as (f1 & f2 & -> & Hr & Hat2); [lia..|].
  cbn [mbind option_bind]. rewrite Hr. cbn [mbind option_bind]. change (Z.to_nat 32) with 32%nat. fold b. change (negb (32 =? 32)) with false. cbn beta iota.
  destruct (Z.eqb_spec (ph_type (elf_prog_header_of b)) ELFP_TYPE_LOAD) as [Hty|Hty].
  - destruct (boot_segment_spec f2 c _ b m Hat2 Hb Hty) as (f3 & m3 & pos3 & -> & Hat3 & Hm3). cbn [mbind option_bind].
    destruct (IH (i + 1) f3 pos3 m3 Hat3) as (m' & -> & Hm'); [lia|done|lia|lia|exact Hok|]. exists m'. split; [done|]. rewrite Hm'. by apply images_proper.
  - destruct (IH (i + 1) f2 _ m Hat2) as (m' & -> & Hm'); [lia|done|lia|lia|exact Hok|]. exists m'. split; [done|]. rewrite Hm'. apply images_proper.
    unfold load_image. by rewrite (proj2 (Z.eqb_neq _ _) Hty).
Qed.

(** C29: booting a well-formed kernel file that exists jumps to its entry point with a
    memory that holds, for each segment to load in the order of the headers, its
    bytes from the file followed by zeros, then the command line at its address,
    cut to the room it has, with a NUL; every other byte is unchanged. *)
Theorem kernel_boot_memory s0 path cmdline cmd_addr cmd_max m h fs :
  let c := concat fs in let header := elf_header_of (take 52 c) in
  smem_open flash tables p s0 path = Some (Some (mk_sfile 0 (smemfs_prim_get_file_size flash h) h (h + HEADER_SIZE) 0)) →
  file_at flash p tables h fs → (length fs + 2 ≤ tables)%nat → (52 ≤ length c)%nat → elf_check_header header = 0 →
  0 ≤ phoff header → 0 ≤ phnum header → phoff header + 32 * phnum header ≤ Z.of_nat (length c) →
  Forall (segment_ok c) (prog_headers c header) → 1 ≤ cmd_max →
  ∃ m', elf_load_kernel flash tables p s0 path cmdline cmd_addr cmd_max m = Some (Jump (entry header) m') ∧
    let loaded := foldl (load_image c) m (prog_headers c header) in
    same_memory m' (match cmdline with None => loaded | Some s => store loaded cmd_addr (take (Z.to_nat (cmd_max - 1)) s ++ [0]) end).
Proof.
  cbv zeta. intros Hopen Hfile Ht Hlen Hck Hph Hpn Htab Hok Hmx. unfold elf_load_kernel. rewrite Hopen. cbn [mbind option_bind].
  pose proof (opened_at flash tables p flash_byte h fs Hfile Ht) as Hat. set (f := mk_sfile _ _ _ _ _) in *.
  destruct (smem_read_spec flash tables p flash_byte f (concat fs) 0 EHDR_SIZE Hat) as (f1 & Hr & Hat1); [unfold EHDR_SIZE; lia|lia|].
  rewrite Z.min_l in * by (unfold EHDR_SIZE; lia). rewrite Hr. cbn [mbind option_bind]. change (negb (EHDR_SIZE =? EHDR_SIZE)) with false. cbn beta iota.
  change (Z.to_nat EHDR_SIZE) with 52%nat. change (Z.to_nat 0) with 0%nat. rewrite drop_0, Hck. change (negb (0 =? 0)) with false. cbn beta iota.
  unfold prog_headers in *. set (hd := elf_header_of (take 52 (concat fs))) in *.
  destruct (boot_segments_spec hd (concat fs) (Z.to_nat (phnum hd)) 0 f1 _ m Hat1) as (m1 & -> & Hm1); [lia|done|lia|lia|by rewrite Z2Nat.id|].
  rewrite Z2Nat.id in Hm1 by done. cbn [mbind option_bind]. eexists. split; [done|].
  destruct cmdline as [s|]; [|exact Hm1]. rewrite copy_cmdline_spec by done. by rewrite Hm1.
Qed.
End kernel.

(** ** The selection *)

(** The loops stop at the nearest defined entry, or at the limit. *)
Lemma skip_up_spec x fuel : ∀ t, t < Z.of_nat fuel → let u := skip_up fuel x t in
  u ≤ t ∧ (∀ v, u < v ≤ t → is_defined x v = false) ∧ (u < 1 ∨ is_defined x u = true).
Proof.
  induction fuel as [|fuel IH]; intros t Ht; cbn [skip_up]; cbv zeta.
  - split; [lia|]. split; [lia|]. left. lia.
  - destruct (Z.leb_spec 1 t); cbn [andb]; [|split; [lia|]; split; [lia|]; by left].
    destruct (is_defined x t) eqn:D; cbn [negb]; [split; [lia|]; split; [lia|]; by right|].
    destruct (IH (t - 1) ltac:(lia)) as (Hu & Hv & He). split; [lia|]. split; [|done].
    intros v Hv'. destruct (decide (v = t)) as [->|]; [done|]. apply Hv. lia.
Qed.

Lemma skip_down_spec x fuel : ∀ t, 3 - t < Z.of_nat fuel → let u := skip_down fuel x t in
  t ≤ u ∧ (∀ v, t ≤ v < u → is_defined x v = false) ∧ (3 ≤ u ∨ is_defined x u = true).
Proof.
  induction fuel as [|fuel IH]; intros t Ht; cbn [skip_down]; cbv zeta; unfold ENTRY_NUMBER.
  - split; [lia|]. split; [lia|]. left. lia.
  - destruct (Z.ltb_spec t 3); cbn [andb]; [|split; [lia|]; split; [lia|]; by left].
    destruct (is_defined x t) eqn:D; cbn [negb]; [split; [lia|]; split; [lia|]; by right|].
    destruct (IH (t + 1) ltac:(lia)) as (Hu & Hv & He). split; [lia|]. split; [|done].
    intros v Hv'. destruct (decide (v = t)) as [->|]; [done|]. apply Hv. lia.
Qed.

(** The up key selects the nearest defined entry above, and the down key the nearest
    one below among the first two; without one, the selection does not move.  The
    last entry is out of reach of the keys: the test of the loop excludes it. *)
Theorem menu_selects_nearest x selected key :
  1 ≤ selected ≤ 3 →
  let s' := menu_move x key selected in
  (s' = selected ∨ is_defined x s' = true ∧ 1 ≤ s' < 3) ∧
  (key = KEY_CTRL_UP → s' ≤ selected ∧ ∀ t, 1 ≤ t < selected → is_defined x t = true → s' < selected ∧ t ≤ s') ∧
  (key = KEY_CTRL_DOWN → selected ≤ s' ∧ ∀ t, selected < t < 3 → is_defined x t = true → selected < s' ∧ s' ≤ t).
Proof.
  intros Hr. cbv zeta. unfold menu_move, ENTRY_NUMBER. destruct (Z.eqb_spec key KEY_CTRL_UP) as [->|Hu].
  - destruct (skip_up_spec x 4 (selected - 1) ltac:(lia)) as (Hu & Hv & He). set (u := skip_up 4 x (selected - 1)) in *.
    destruct (Z.leb_spec 1 u); cbn [andb].
    + destruct He as [?|He]; [lia|]. rewrite He. split; [right; split; [done|lia]|]. split; [|discriminate]. intros _. split; [lia|].
      intros t Ht Hd. split; [lia|]. destruct (decide (t ≤ u)); [done|]. rewrite (Hv t) in Hd by lia. done.
    + split; [by left|]. split; [|discriminate]. intros _. split; [lia|]. intros t Ht Hd. rewrite (Hv t) in Hd by lia. done.
  - destruct (Z.eqb_spec key KEY_CTRL_DOWN) as [->|Hd]; [|by split_and!; [left|..]].
    destruct (skip_down_spec x 4 (selected + 1) ltac:(lia)) as (Hu' & Hv & He). set (u := skip_down 4 x (selected + 1)) in *.
    destruct (Z.ltb_spec u 3); cbn [andb].
    + destruct He as [?|He]; [lia|]. rewrite He. split; [right; split; [done|lia]|]. split; [discriminate|]. intros _. split; [lia|].
      intros t Ht Hd. split; [lia|]. destruct (decide (u ≤ t)); [done|]. rewrite (Hv t) in Hd by lia. done.
    + split; [by left|]. split; [discriminate|]. intros _. split; [lia|]. intros t Ht Hd. rewrite (Hv t) in Hd by lia. done.
Qed.

Definition demo_menu : config := set_entries [bentry0; mk_bentry 1 [] [] [] []; mk_bentry 1 [] [] [] []] config0.

Lemma menu_selects_nearest_witness :
  is_defined demo_menu 3 = true ∧ menu_move demo_menu KEY_CTRL_DOWN 1 = 2 ∧ menu_move demo_menu KEY_CTRL_DOWN 2 ≠ 3.
Proof.
  split; [reflexivity|]. split.
  - destruct (menu_selects_nearest demo_menu 1 KEY_CTRL_DOWN) as (_ & _ & H); [lia|]. destruct (H eq_refl) as [_ H'].
    destruct (H' 2) as [H1 H2]; [lia|reflexivity|]. lia.
  - destruct (menu_selects_nearest demo_menu 2 KEY_CTRL_DOWN) as (H & _); [lia|]. destruct H as [H|[_ H]]; lia.
Defined.

Lemma kernel_boot_memory_witness :
  ∃ m', elf_load_kernel elf_flash 10 image_prim (replicate 13 7) (text "/a.t") (Some (text "quiet")) CMDLINE_ADDR CMDLINE_MAX (λ _, 9) =
      Some (Jump 0x10000000 m') ∧ m' 0 = 1 ∧ m' 3 = 4 ∧ m' 4 = 0 ∧ m' 2048 = 9 ∧ m' (CMDLINE_ADDR + 5) = 0.
Proof.
  destruct (kernel_boot_memory elf_flash 10 image_prim elf_flash_byte (replicate 13 7) (text "/a.t") (Some (text "quiet")) CMDLINE_ADDR CMDLINE_MAX (λ _, 9) 4128 [elf_bytes])
    as (m' & Hr & Hm).
  - vm_compute. reflexivity.
  - exact elf_image_file.
  - cbn. lia.
  - vm_compute. lia.
  - vm_compute. reflexivity.
  - vm_compute. discriminate.
  - vm_compute. discriminate.
  - vm_compute. discriminate.
  - repeat constructor; vm_compute; discriminate.
  - vm_compute. discriminate.
  - exists m'. split; [exact Hr|]. rewrite !Hm. vm_compute. repeat split.
Defined.
