(* ===== verification/Flash.v ===== *)
(** * Programming the flash memory (src/arch/sh/memory/c_s29jl032h.c)

    The chip is driven by writes of 16-bit words on the bus; after each operation
    its status is read until it ends.  The model returns the writes, in order; what
    the chip answers is an input: [polls i] are the words read by the [i]-th wait.
    [None] is a wait that does not end.

    The theorems interpret the writes as the chip does: a word programmed in bypass
    mode is combined with what the memory holds, an erased byte being 0xFF. *)

From S2P Require Import Prelude.

(** ** Model *)

(** src/arch/sh/memory/c_s29jl032h.c:23-23: EEPROM_MODIFY_LOW *)
Definition EEPROM_MODIFY_LOW : Z := 0x1A0000.
(** src/arch/sh/memory/c_s29jl032h.c:24-24: EEPROM_MODIFY_HIGH *)
Definition EEPROM_MODIFY_HIGH : Z := 0x200000.
(** src/arch/sh/memory/c_s29jl032h.c:29-29: EEPROM_ADDRESS_MASK *)
Definition EEPROM_ADDRESS_MASK : Z := 0x3FFFFF.
(** src/arch/sh/memory/c_s29jl032h.c:32-32: COMMAND_ADDR_A *)
Definition COMMAND_ADDR_A : Z := 0xAAA.
(** src/arch/sh/memory/c_s29jl032h.c:33-33: COMMAND_ADDR_B *)
Definition COMMAND_ADDR_B : Z := 0x554.
(** src/arch/sh/memory/c_s29jl032h.c:34-34: COMMAND_ADDR_CFI *)
Definition COMMAND_ADDR_CFI : Z := 0x0AA.
(** src/arch/sh/memory/c_s29jl032h.c:36-36: COMMAND_ADDR_AUTOSELECT_A *)
Definition COMMAND_ADDR_AUTOSELECT_A (bank : Z) : Z := Z.lor 0xAAA (Z.land bank 0x3C0000).
(** src/arch/sh/memory/c_s29jl032h.c:38-40: COMMAND_ADDR_AUTOSELECT_DEVID1 *)
Definition COMMAND_ADDR_AUTOSELECT_DEVID (i bank : Z) : Z := Z.lor i (Z.land bank 0x3C0000).
(** src/arch/sh/memory/c_s29jl032h.c:42-42: COMMAND_CMD_A *)
Definition COMMAND_CMD_A : Z := 0xAA.
(** src/arch/sh/memory/c_s29jl032h.c:43-43: COMMAND_CMD_B *)
Definition COMMAND_CMD_B : Z := 0x55.
(** src/arch/sh/memory/c_s29jl032h.c:44-44: COMMAND_CMD_C *)
Definition COMMAND_CMD_C : Z := 0x90.
(** src/arch/sh/memory/c_s29jl032h.c:45-45: COMMAND_CMD_RESET *)
Definition COMMAND_CMD_RESET : Z := 0xF0.
(** src/arch/sh/memory/c_s29jl032h.c:46-46: COMMAND_CMD_CFI *)
Definition COMMAND_CMD_CFI : Z := 0x98.
(** src/arch/sh/memory/c_s29jl032h.c:47-47: COMMAND_CMD_PROGRAM *)
Definition COMMAND_CMD_PROGRAM : Z := 0xA0.
(** src/arch/sh/memory/c_s29jl032h.c:48-48: COMMAND_CMD_ERASE *)
Definition COMMAND_CMD_ERASE : Z := 0x80.
(** src/arch/sh/memory/c_s29jl032h.c:49-49: COMMAND_CMD_ERASE_SECTOR *)
Definition COMMAND_CMD_ERASE_SECTOR : Z := 0x30.
(** src/arch/sh/memory/c_s29jl032h.c:51-51: COMMAND_CMD_BYPASS *)
Definition COMMAND_CMD_BYPASS : Z := 0x20.
(** src/arch/sh/memory/c_s29jl032h.c:52-52: COMMAND_CMD_BYPASS_PROGRAM *)
Definition COMMAND_CMD_BYPASS_PROGRAM : Z := 0xA0.
(** src/arch/sh/memory/c_s29jl032h.c:53-53: COMMAND_CMD_BYPASS_RESET1 *)
Definition COMMAND_CMD_BYPASS_RESET1 : Z := 0x90.
(** src/arch/sh/memory/c_s29jl032h.c:54-54: COMMAND_CMD_BYPASS_RESET2 *)
Definition COMMAND_CMD_BYPASS_RESET2 : Z := 0x00.

(** A write on the bus, at an offset of the chip. *)
(** src/arch/sh/memory/c_s29jl032h.c:58-58: BYTEWR *)
Definition BYTEWR (addr value : Z) : Z * Z := (addr, u16 value).

(** The loop of the wait, on the words read from the chip. *)
(** src/arch/sh/memory/c_s29jl032h.c:210-215: eeprom_wait_erase *)
Fixpoint wait_loop (expected_data : Z) (reads : list Z) : option (bool * list Z) :=
  match reads with
  | [] => None
  | curbyte :: reads =>
      if Z.land curbyte 0x80 =? Z.land expected_data 0x80 then Some (true, reads)
      else if Z.land curbyte 0x20 =? 0x20 then Some (false, reads)
      else wait_loop expected_data reads
  end.

(** The first word read is not used.  After a timeout, [curbyte && 0x80] is 0 or 1. *)
(** src/arch/sh/memory/c_s29jl032h.c: eeprom_wait_erase *)
Definition eeprom_wait_erase (expected_data : Z) (reads : list Z) : option Z :=
  match reads with
  | [] => None
  | _ :: reads =>
      '(done, reads) ← wait_loop expected_data reads;
      if done : bool then Some 0
      else
        match reads with
        | [] => None
        | curbyte :: _ => Some (if (if negb (curbyte =? 0) then 1 else 0) =? Z.land expected_data 0x80 then 0 else 1)
        end
  end.

(** The words read are those of the three identifiers. *)
(** src/arch/sh/memory/c_s29jl032h.c: eeprom_get_device_id *)
Definition eeprom_get_device_id (read : Z → Z) : Z * list (Z * Z) :=
  let value := Z.shiftl (Z.land 0xFF (read (COMMAND_ADDR_AUTOSELECT_DEVID 0x002 0))) 16
    + Z.shiftl (Z.land 0xFF (read (COMMAND_ADDR_AUTOSELECT_DEVID 0x01C 0))) 8
    + Z.land 0xFF (read (COMMAND_ADDR_AUTOSELECT_DEVID 0x01E 0)) in
  (value, [BYTEWR COMMAND_ADDR_A COMMAND_CMD_A; BYTEWR COMMAND_ADDR_B COMMAND_CMD_B; BYTEWR (COMMAND_ADDR_AUTOSELECT_A 0) COMMAND_CMD_C;
           BYTEWR 0 COMMAND_CMD_RESET]).

(** src/arch/sh/memory/c_s29jl032h.c: eeprom_get_cfi *)
Definition eeprom_get_cfi (read : Z → Z) (cfi_query : Z) : Z * list (Z * Z) :=
  (u16 (read cfi_query), [BYTEWR COMMAND_ADDR_CFI COMMAND_CMD_CFI; BYTEWR 0 COMMAND_CMD_RESET]).

Definition in_modify_range (a : Z) : bool := (EEPROM_MODIFY_LOW <=? a) && (a <? EEPROM_MODIFY_HIGH).

Section waits.
Context (polls : nat → list Z).

(** src/arch/sh/memory/c_s29jl032h.c: eeprom_program_word *)
Definition eeprom_program_word (addr data : Z) : option (list (Z * Z)) :=
  let maskedaddr := Z.land addr EEPROM_ADDRESS_MASK in
  if in_modify_range maskedaddr then
    _ ← eeprom_wait_erase data (polls 0);
    Some [BYTEWR COMMAND_ADDR_A COMMAND_CMD_A; BYTEWR COMMAND_ADDR_B COMMAND_CMD_B; BYTEWR COMMAND_ADDR_A COMMAND_CMD_PROGRAM;
          BYTEWR maskedaddr data; BYTEWR 0 COMMAND_CMD_RESET]
  else Some [].

(** A word programmed in bypass mode. *)
(** src/arch/sh/memory/c_s29jl032h.c:175-177: eeprom_program_array *)
Definition bypass_program (i : nat) (addr tocopy : Z) : option (list (Z * Z)) :=
  _ ← eeprom_wait_erase tocopy (polls i);
  Some [BYTEWR 0 COMMAND_CMD_BYPASS_PROGRAM; BYTEWR addr tocopy].

(** The loop over the words, then the last byte; [i] counts the waits.  Reading
    outside of the array is [None]. *)
(** src/arch/sh/memory/c_s29jl032h.c:171-190: eeprom_program_array *)
Fixpoint program_words (fuel i : nat) (maskedlow : Z) (from : list Z) (size : Z) : option (list (Z * Z)) :=
  match fuel with
  | O => None
  | S fuel =>
      if 2 <=? size then
        match from with
        | b0 :: b1 :: from =>
            w ← bypass_program i maskedlow (u16 (Z.shiftl b0 8 + b1));
            rest ← program_words fuel (S i) (u32 (maskedlow + 2)) from (size - 2);
            Some (w ++ rest)
        | _ => None
        end
      else if negb (size =? 0) then
        match from with
        | b :: _ => bypass_program i maskedlow (u16 (0x00FF + Z.shiftl b 8))
        | [] => None
        end
      else Some []
  end.

(** src/arch/sh/memory/c_s29jl032h.c: eeprom_program_array *)
Definition eeprom_program_array (fuel : nat) (addr_dest : Z) (from : list Z) (size : Z) : option (list (Z * Z)) :=
  let maskedlow := Z.land addr_dest EEPROM_ADDRESS_MASK in
  let maskedhigh := Z.land (u32 (addr_dest + size)) EEPROM_ADDRESS_MASK in
  if (EEPROM_MODIFY_LOW <=? maskedlow) && (maskedhigh <? EEPROM_MODIFY_HIGH) then
    let enter := [BYTEWR COMMAND_ADDR_A COMMAND_CMD_A; BYTEWR COMMAND_ADDR_B COMMAND_CMD_B; BYTEWR COMMAND_ADDR_A COMMAND_CMD_BYPASS] in
    '(first, i, maskedlow, from, size) ←
      (if negb (addr_dest mod 2 =? 0) then
         match from with
         | b :: from =>
             w ← bypass_program 0 (maskedlow - 1) (u16 (0xFF00 + b));
             Some (w, 1%nat, maskedlow + 1, from, u32 (size - 1))
         | [] => None
         end
       else Some ([], 0%nat, maskedlow, from, size));
    words ← program_words fuel i maskedlow from size;
    Some (enter ++ first ++ words ++ [BYTEWR 0 COMMAND_CMD_BYPASS_RESET1; BYTEWR 0 COMMAND_CMD_BYPASS_RESET2])
  else Some [].

(** src/arch/sh/memory/c_s29jl032h.c: eeprom_erase_sector *)
Definition eeprom_erase_sector (addr : Z) : option (list (Z * Z)) :=
  let maskedaddr := Z.land addr EEPROM_ADDRESS_MASK in
  if in_modify_range maskedaddr then
    let sector := if 0x10000 <=? maskedaddr then Z.land maskedaddr 0xFFFF0000 else Z.land maskedaddr 0xFFFFE000 in
    _ ← eeprom_wait_erase 0xFFFF (polls 0);
    Some [BYTEWR COMMAND_ADDR_A COMMAND_CMD_A; BYTEWR COMMAND_ADDR_B COMMAND_CMD_B; BYTEWR COMMAND_ADDR_A COMMAND_CMD_ERASE;
          BYTEWR COMMAND_ADDR_A COMMAND_CMD_A; BYTEWR COMMAND_ADDR_B COMMAND_CMD_B; BYTEWR sector COMMAND_CMD_ERASE_SECTOR]
  else Some [].
End waits.

(** ** What the chip does with the writes *)

(** Programming a word only clears bits; the first byte of a word is its high one. *)
Definition program (m : Z → Z) (a w : Z) : Z → Z :=
  λ x, if x =? a then Z.land (m x) (w / 256) else if x =? a + 1 then Z.land (m x) (w mod 256) else m x.

(** Writes in bypass mode, two by two: the command and the word. *)
Fixpoint bypass_writes (t : list (Z * Z)) (m : Z → Z) : option (Z → Z) :=
  match t with
  | [] => Some m
  | (c, cmd) :: (a, w) :: t => if (c =? 0) && (cmd =? COMMAND_CMD_BYPASS_PROGRAM) then bypass_writes t (program m a w) else None
  | _ => None
  end.

(** A sequence that enters bypass mode, programs, and leaves it. *)
Definition chip (t : list (Z * Z)) (m : Z → Z) : option (Z → Z) :=
  match t with
  | [] => Some m
  | (a1, c1) :: (a2, c2) :: (a3, c3) :: t =>
      if bool_decide ([(a1, c1); (a2, c2); (a3, c3)] =
           [(COMMAND_ADDR_A, COMMAND_CMD_A); (COMMAND_ADDR_B, COMMAND_CMD_B); (COMMAND_ADDR_A, COMMAND_CMD_BYPASS)]) &&
         bool_decide (drop (length t - 2) t = [(0, COMMAND_CMD_BYPASS_RESET1); (0, COMMAND_CMD_BYPASS_RESET2)])
      then bypass_writes (take (length t - 2) t) m else None
  | _ => None
  end.

(** Each wait ends, for any data. *)
Definition polls_end (polls : nat → list Z) : Prop := ∀ i w, eeprom_wait_erase w (polls i) ≠ None.

(** What an array leaves in memory: each byte combined with the old one. *)
Definition programmed (m : Z → Z) (a : Z) (bytes : list Z) : Z → Z :=
  λ x, if (a <=? x) && (x <? a + Z.of_nat (length bytes)) then Z.land (m x) (aget bytes (x - a)) else m x.

Definition bytes_ok (l : list Z) : Prop := Forall (λ b, 0 ≤ b < 256) l.

(** ** Lemmas *)

Definition mem_ok (m : Z → Z) : Prop := ∀ x, 0 ≤ m x < 256.

Lemma land_byte a b : 0 ≤ a < 256 → 0 ≤ b < 256 → 0 ≤ Z.land a b < 256.
Proof.
  intros Ha Hb. split; [apply Z.land_nonneg; lia|].
  destruct (decide (Z.land a b = 0)) as [->|Hn]; [lia|].
  apply (Z.log2_lt_pow2 _ 8); [pose proof (proj2 (Z.land_nonneg a b) ltac:(lia)); lia|].
  eapply Z.le_lt_trans; [apply Z.log2_land; lia|].
  destruct (decide (a = 0)) as [->|]; [rewrite Z.min_l by (simpl; apply Z.log2_nonneg); simpl; lia|].
  apply Z.min_lt_iff; left. apply Z.log2_lt_pow2; lia.
Qed.

Lemma land_full a : 0 ≤ a < 256 → Z.land a 255 = a.
Proof. intros. change 255 with (Z.ones 8). rewrite Z.land_ones by lia. apply Z.mod_small; lia. Qed.

Lemma u16_bytes h l : 0 ≤ h < 256 → 0 ≤ l < 256 →
  u16 (Z.shiftl h 8 + l) / 256 = h ∧ u16 (Z.shiftl h 8 + l) mod 256 = l.
Proof.
  intros. rewrite Z.shiftl_mul_pow2 by lia. change (2 ^ 8) with 256. rewrite u16_small by lia. split.
  - symmetry. apply (Z.div_unique _ _ _ l); lia.
  - symmetry. apply (Z.mod_unique _ _ h); lia.
Qed.

(** A word changes its two bytes. *)
Lemma program_bytes m a h l x : 0 ≤ h < 256 → 0 ≤ l < 256 →
  program m a (u16 (Z.shiftl h 8 + l)) x = programmed m a [h; l] x.
Proof.
  intros Hh Hl. destruct (u16_bytes h l Hh Hl) as [E1 E2]. unfold program, programmed. rewrite E1, E2. simpl length.
  destruct (Z.eqb_spec x a) as [->|N1].
  { rewrite (proj2 (Z.leb_le _ _)), (proj2 (Z.ltb_lt _ _)) by lia. rewrite Z.sub_diag. done. }
  destruct (Z.eqb_spec x (a + 1)) as [->|N2].
  { rewrite (proj2 (Z.leb_le _ _)), (proj2 (Z.ltb_lt _ _)) by lia. replace (a + 1 - a) with 1 by lia. done. }
  destruct (Z.leb_spec a x), (Z.ltb_spec x (a + Z.of_nat 2)); simpl andb; try done. lia.
Qed.

Lemma programmed_nil m a x : programmed m a [] x = m x.
Proof.
  unfold programmed. change (Z.of_nat (length [])) with 0. destruct (Z.leb_spec a x), (Z.ltb_spec x (a + 0)); simpl andb; cbv iota; try done.
  lia.
Qed.

Lemma programmed_app m a l1 l2 x :
  programmed (programmed m a l1) (a + Z.of_nat (length l1)) l2 x = programmed m a (l1 ++ l2) x.
Proof.
  unfold programmed. rewrite length_app, Nat2Z.inj_add.
  destruct (Z.leb_spec (a + Z.of_nat (length l1)) x), (Z.ltb_spec x (a + Z.of_nat (length l1) + Z.of_nat (length l2))),
    (Z.leb_spec a x), (Z.ltb_spec x (a + Z.of_nat (length l1))), (Z.ltb_spec x (a + (Z.of_nat (length l1) + Z.of_nat (length l2))));
    simpl andb; cbv iota; try lia; try done; f_equal; unfold aget.
  - rewrite app_nth2 by lia. f_equal. lia.
  - rewrite app_nth1 by lia. done.
Qed.

Lemma programmed_proper m1 m2 a l x : m1 x = m2 x → programmed m1 a l x = programmed m2 a l x.
Proof. unfold programmed. by intros ->. Qed.

Lemma programmed_ok m a l : bytes_ok l → mem_ok m → mem_ok (programmed m a l).
Proof.
  intros Hl Hm x. unfold programmed. destruct (Z.leb_spec a x), (Z.ltb_spec x (a + Z.of_nat (length l))); simpl; try apply Hm.
  apply land_byte; [apply Hm|].
  destruct (lookup_lt_is_Some_2 l (Z.to_nat (x - a))) as [b Hb]; [lia|].
  rewrite (aget_lookup _ _ _ Hb). by eapply Forall_lookup_1 in Hl.
Qed.

(** A byte 0xFF leaves the old one. *)
Lemma programmed_pad_last m a b x : mem_ok m → programmed m a [b; 255] x = programmed m a [b] x.
Proof.
  intros Hm. change [b; 255] with ([b] ++ [255]). rewrite <- programmed_app. unfold programmed at 1.
  simpl length. destruct (Z.leb_spec (a + Z.of_nat 1) x), (Z.ltb_spec x (a + Z.of_nat 1 + Z.of_nat 1)); simpl andb; cbv iota; try done.
  replace (x - (a + Z.of_nat 1)) with 0 by lia. change (aget [255] 0) with 255. unfold programmed.
  simpl length. rewrite (proj2 (Z.ltb_ge x (a + Z.of_nat 1))), andb_false_r by lia. apply land_full, Hm.
Qed.

Lemma programmed_pad_first m a b x : mem_ok m → programmed m (a - 1) [255; b] x = programmed m a [b] x.
Proof.
  intros Hm. change [255; b] with ([255] ++ [b]). rewrite <- programmed_app. simpl length.
  replace (a - 1 + Z.of_nat 1) with a by lia. apply programmed_proper. unfold programmed. simpl length.
  destruct (Z.leb_spec (a - 1) x), (Z.ltb_spec x (a - 1 + Z.of_nat 1)); simpl andb; cbv iota; try done.
  replace (x - (a - 1)) with 0 by lia. apply land_full, Hm.
Qed.

(** Pairs of writes in bypass mode, one after the other. *)
Definition bypasses (t : list (Z * Z)) (f : (Z → Z) → Z → Z) : Prop :=
  ∀ m, mem_ok m → ∀ rest, ∃ m', bypass_writes (t ++ rest) m = bypass_writes rest m' ∧ (∀ x, m' x = f m x).

Lemma bypass_program_spec polls i a h l : polls_end polls → 0 ≤ h < 256 → 0 ≤ l < 256 →
  ∃ t, bypass_program polls i a (u16 (Z.shiftl h 8 + l)) = Some t ∧ bypasses t (λ m, programmed m a [h; l]).
Proof.
  intros Hp Hh Hl. unfold bypass_program. destruct (eeprom_wait_erase _ _) eqn:E; [|by destruct (Hp i _ E)].
  eexists; split; [done|]. intros m _ rest. eexists; split; [done|].
  intros x. rewrite <- program_bytes by done. unfold u16. by rewrite Z.mod_mod.
Qed.

Lemma bypasses_app t1 t2 f g : bypasses t1 f → bypasses t2 g → (∀ m, mem_ok m → mem_ok (f m)) →
  (∀ m1 m2, (∀ x, m1 x = m2 x) → ∀ x, g m1 x = g m2 x) → bypasses (t1 ++ t2) (λ m, g (f m)).
Proof.
  intros H1 H2 Hok Hg m Hm rest. destruct (H1 m Hm (t2 ++ rest)) as (m1 & E1 & F1).
  destruct (H2 m1) with (rest := rest) as (m2 & E2 & F2); [intros x; rewrite F1; by apply Hok|].
  exists m2. split; [by rewrite <- app_assoc, E1, E2|]. intros x. rewrite F2. by apply Hg.
Qed.

Lemma bypasses_proper t f g : bypasses t f → (∀ m, mem_ok m → ∀ x, f m x = g m x) → bypasses t g.
Proof. intros H E m Hm rest. destruct (H m Hm rest) as (m' & ? & F). exists m'. split; [done|]. intros x. by rewrite F, E. Qed.

Lemma programmed_step a l1 l2 t1 t2 : bytes_ok l1 →
  bypasses t1 (λ m, programmed m a l1) → bypasses t2 (λ m, programmed m (a + Z.of_nat (length l1)) l2) →
  bypasses (t1 ++ t2) (λ m, programmed m a (l1 ++ l2)).
Proof.
  intros Hl H1 H2. eapply bypasses_proper.
  - apply (bypasses_app _ _ _ _ H1 H2); [intros; by apply programmed_ok|].
    intros m1 m2 E x. apply programmed_proper, E.
  - intros m _ x. apply programmed_app.
Qed.

Lemma program_words_spec polls fuel : polls_end polls → ∀ i a bytes more, bytes_ok bytes →
  (length bytes < 2 * fuel)%nat → 0 ≤ a → a + Z.of_nat (length bytes) < 2 ^ 32 →
  ∃ t, program_words polls fuel i a (bytes ++ more) (Z.of_nat (length bytes)) = Some t ∧ bypasses t (λ m, programmed m a bytes).
Proof.
  intros Hp. induction fuel as [|fuel IH]; intros i a bytes more Hb Hf Ha Hs; [lia|].
  destruct bytes as [|b0 [|b1 bytes]]; cbn [program_words app].
  - exists []. split; [done|]. intros m Hm rest. exists m. split; [done|]. intros x. by rewrite programmed_nil.
  - inversion_clear Hb. destruct (bypass_program_spec polls i a b0 255 Hp) as (t & E & Ht); [done|lia|].
    replace (Z.shiftl b0 8 + 255) with (0x00FF + Z.shiftl b0 8) in E by lia. exists t. split; [exact E|].
    eapply bypasses_proper; [exact Ht|]. intros m Hm x. by apply programmed_pad_last.
  - inversion_clear Hb as [|?? H0 Hb']. inversion_clear Hb' as [|?? H1 Hb]. cbn [length] in *.
    rewrite (proj2 (Z.leb_le _ _)) by lia.
    destruct (bypass_program_spec polls i a b0 b1 Hp H0 H1) as (t & E & Ht). rewrite E. cbn [mbind option_bind].
    rewrite u32_small by lia. replace (Z.of_nat (S (S (length bytes))) - 2) with (Z.of_nat (length bytes)) by lia.
    destruct (IH (S i) (a + 2) bytes more) as (t' & E' & Ht'); [done|lia|lia|lia|]. rewrite E'. cbn [mbind option_bind].
    eexists; split; [done|]. change (b0 :: b1 :: bytes) with ([b0; b1] ++ bytes). apply programmed_step; [|done|exact Ht'].
    repeat (apply Forall_cons_2; [done|]). apply Forall_nil_2.
Qed.

(** The chip follows a whole sequence. *)
Lemma chip_bypasses t f m : bypasses t f → mem_ok m →
  ∃ m', chip ([BYTEWR COMMAND_ADDR_A COMMAND_CMD_A; BYTEWR COMMAND_ADDR_B COMMAND_CMD_B; BYTEWR COMMAND_ADDR_A COMMAND_CMD_BYPASS] ++
      t ++ [BYTEWR 0 COMMAND_CMD_BYPASS_RESET1; BYTEWR 0 COMMAND_CMD_BYPASS_RESET2]) m = Some m' ∧ ∀ x, m' x = f m x.
Proof.
  intros Ht Hm. destruct (Ht m Hm []) as (m' & E & F). exists m'. split; [|done]. rewrite app_nil_r in E.
  cbn [app chip]. rewrite length_app. cbn [length]. replace (length t + 2 - 2)%nat with (length t) by lia.
  rewrite drop_app_length, take_app_length. exact E.
Qed.

Lemma masked_range addr size : 0 ≤ addr → 0 ≤ size →
  Z.land addr EEPROM_ADDRESS_MASK + size < 0x400000 →
  Z.land (u32 (addr + size)) EEPROM_ADDRESS_MASK = Z.land addr EEPROM_ADDRESS_MASK + size.
Proof.
  intros Ha Hs. change EEPROM_ADDRESS_MASK with (Z.ones 22). rewrite !Z.land_ones by lia. change (2 ^ 22) with 0x400000. unfold u32.
  intros H. rewrite <- (Znumtheory.Zmod_div_mod 0x400000) by (lia || by exists 0x400).
  rewrite <- Z.add_mod_idemp_l by lia. apply Z.mod_small. pose proof (Z.mod_pos_bound addr 0x400000). lia.
Qed.

Lemma odd_masked addr : (Z.land addr EEPROM_ADDRESS_MASK) mod 2 = addr mod 2.
Proof.
  change EEPROM_ADDRESS_MASK with (Z.ones 22). rewrite Z.land_ones by lia. change (2 ^ 22) with 0x400000.
  rewrite <- (Znumtheory.Zmod_div_mod 2 0x400000); [done|lia|lia|by exists 0x200000].
Qed.

(** C34: writing an array in the range that may be modified leaves in the flash memory
    each byte of the array combined with the byte it had (the byte itself when the
    memory was erased), changes no other byte, whatever the parity of the address and
    of the size, and leaves bypass mode. *)
Theorem eeprom_program_array_correct polls fuel addr bytes more m :
  polls_end polls → bytes_ok bytes → mem_ok m → bytes ≠ [] → 0 ≤ addr →
  EEPROM_MODIFY_LOW ≤ Z.land addr EEPROM_ADDRESS_MASK →
  Z.land addr EEPROM_ADDRESS_MASK + Z.of_nat (length bytes) < EEPROM_MODIFY_HIGH →
  (length bytes < 2 * fuel)%nat →
  ∃ t m', eeprom_program_array polls fuel addr (bytes ++ more) (Z.of_nat (length bytes)) = Some t ∧
    chip t m = Some m' ∧ ∀ x, m' x = programmed m (Z.land addr EEPROM_ADDRESS_MASK) bytes x.
Proof.
  intros Hp Hb Hm Hne Ha Hlow Hhigh Hf. unfold eeprom_program_array.
  pose proof Hhigh as Hhigh'. unfold EEPROM_MODIFY_HIGH, EEPROM_MODIFY_LOW in Hhigh', Hlow.
  rewrite masked_range by lia. rewrite (proj2 (Z.leb_le _ _)), (proj2 (Z.ltb_lt _ _)) by done.
  set (a := Z.land addr EEPROM_ADDRESS_MASK) in *. cbn [andb].
  destruct (Z.eqb_spec (addr mod 2) 0); cbn [negb].
  - destruct (program_words_spec polls fuel Hp 0%nat a bytes more) as (t & E & Ht); [done..|lia|lia|].
    cbn [mbind option_bind]. rewrite E. cbn [mbind option_bind]. destruct (chip_bypasses t _ m Ht Hm) as (m' & Ec & F).
    eexists _, m'. split; [done|]. by split.
  - destruct bytes as [|b bytes]; [done|]. inversion_clear Hb as [|?? Hb0 Hbs]. cbn [app length] in *.
    destruct (bypass_program_spec polls 0 (a - 1) 255 b Hp) as (t1 & E1 & H1); [lia|done|].
    change (Z.shiftl 255 8) with 0xFF00 in E1. rewrite E1. cbn [mbind option_bind].
    rewrite u32_small by lia. replace (Z.of_nat (S (length bytes)) - 1) with (Z.of_nat (length bytes)) by lia.
    destruct (program_words_spec polls fuel Hp 1%nat (a + 1) bytes more) as (t2 & E2 & H2); [done|lia..|].
    rewrite E2. cbn [mbind option_bind].
    assert (H : bypasses (t1 ++ t2) (λ m, programmed m a ([b] ++ bytes))).
    { apply programmed_step; [by apply Forall_cons_2; [|apply Forall_nil_2]| |exact H2].
      eapply bypasses_proper; [exact H1|]. intros m0 Hm0 x. by apply programmed_pad_first. }
    destruct (chip_bypasses _ _ m H Hm) as (m' & Ec & F). eexists _, m'. split; [done|].
    split; [|done]. by rewrite <- app_assoc in Ec.
Qed.

(** The chip answers at once. *)
Definition ready_polls (i : nat) : list Z := [0; 0; 0x20; 0x80; 0x20; 0].

Lemma ready_polls_end : polls_end ready_polls.
Proof.
  intros i w. unfold eeprom_wait_erase, ready_polls. cbn [mbind option_bind wait_loop].
  repeat (case_match; simplify_eq/=; try done).
Qed.

(** Three bytes at an odd address of erased memory. *)
Lemma eeprom_program_array_correct_witness : ∃ t m',
  eeprom_program_array ready_polls 2 0xA01A0001 [1; 2; 3] 3 = Some t ∧ chip t (λ _, 255) = Some m' ∧
  ∀ x, m' x = programmed (λ _, 255) 0x1A0001 [1; 2; 3] x.
Proof.
  apply (eeprom_program_array_correct ready_polls 2 0xA01A0001 [1; 2; 3] [] (λ _, 255)).
  - apply ready_polls_end.
  - by_computation.
  - intros x. lia.
  - done.
  - lia.
  - vm_compute. done.
  - vm_compute. done.
  - simpl. lia.
Defined.

(** ** The protected range *)

Lemma sector_base a : in_modify_range a = true →
  in_modify_range (Z.land a 0xFFFF0000) = true ∧ in_modify_range (Z.land a 0xFFFF0000 + 0xFFFF) = true.
Proof.
  unfold in_modify_range, EEPROM_MODIFY_LOW, EEPROM_MODIFY_HIGH. rewrite !andb_true_iff, !Z.leb_le, !Z.ltb_lt. intros Ha.
  assert (Z.land a 0xFFFF0000 = a / 0x10000 * 0x10000) as ->; [|pose proof (Z.div_mod a 0x10000); pose proof (Z.mod_pos_bound a 0x10000);
    assert (0x1A ≤ a / 0x10000 < 0x20) by (split; [apply Z.div_le_lower_bound; lia|apply Z.div_lt_upper_bound; lia]); lia].
  change 0xFFFF0000 with (Z.land (Z.ones 32) (Z.shiftl (Z.ones 16) 16)).
  rewrite Z.land_assoc, Z.land_ones, Z.mod_small by lia.
  apply Z.bits_inj'; intros n Hn. rewrite Z.land_spec, Z.shiftl_spec by lia.
  change 0x10000 with (2 ^ 16). rewrite <- Z.shiftr_div_pow2, <- Z.shiftl_mul_pow2, Z.shiftl_spec by lia.
  destruct (decide (n < 16)); [rewrite !(Z.testbit_neg_r _ (n - 16)) by lia; apply andb_false_r|].
  rewrite Z.shiftr_spec by lia. replace (n - 16 + 16) with n by lia.
  destruct (decide (n < 32)); [rewrite Z.ones_spec_low by lia; apply andb_true_r|].
  rewrite (Z.bits_above_log2 a n); [done|lia|]. apply Z.log2_lt_pow2; [lia|].
  eapply Z.lt_le_trans with (2 ^ 32); [lia|]. apply Z.pow_le_mono_r; lia.
Qed.

(** Programming a word and erasing a sector write nothing when the address is out
    of the range that may be modified; in the range, the word programmed, or the whole
    64 KiB sector erased, lies in it, and every other write is a command. *)
Theorem eeprom_word_sector_protected polls addr data :
  let commands := [COMMAND_ADDR_A; COMMAND_ADDR_B; 0] in
  (∀ t, eeprom_program_word polls addr data = Some t →
     Forall (λ w, w.1 ∈ commands ∨ (in_modify_range w.1 = true ∧ w.2 = u16 data)) t) ∧
  (∀ t, eeprom_erase_sector polls addr = Some t →
     Forall (λ w, w.1 ∈ commands ∨ (in_modify_range w.1 = true ∧ in_modify_range (w.1 + 0xFFFF) = true ∧ w.2 = COMMAND_CMD_ERASE_SECTOR)) t) ∧
  (in_modify_range (Z.land addr EEPROM_ADDRESS_MASK) = false →
     eeprom_program_word polls addr data = Some [] ∧ eeprom_erase_sector polls addr = Some []).
Proof.
  intros commands. unfold eeprom_program_word, eeprom_erase_sector. generalize (Z.land addr EEPROM_ADDRESS_MASK). intros a.
  destruct (in_modify_range a) eqn:Ea; [|split_and!; [intros; simplify_eq; apply Forall_nil_2..|done]].
  assert (a <? 0x10000 = false) as Hs.
  { apply Z.ltb_ge. unfold in_modify_range, EEPROM_MODIFY_LOW in Ea. apply andb_true_iff in Ea as [?%Z.leb_le _]. lia. }
  rewrite Z.ltb_antisym in Hs. apply negb_false_iff in Hs. rewrite Hs. destruct (sector_base a Ea).
  split_and!; [intros t Ht..|done]; destruct (eeprom_wait_erase _ _); simplify_eq/=.
  - repeat (apply Forall_cons_2; [first [right; split; [exact Ea|reflexivity]|left; repeat constructor]|]); apply Forall_nil_2.
  - repeat (apply Forall_cons_2; [first [right; split_and!; [eassumption..|reflexivity]|left; repeat constructor]|]); apply Forall_nil_2.
Qed.

Lemma eeprom_word_sector_protected_witness :
  eeprom_program_word ready_polls 0xA0010000 0x1234 = Some [] ∧ eeprom_erase_sector ready_polls 0xA0010000 = Some [].
Proof. apply (eeprom_word_sector_protected ready_polls 0xA0010000 0x1234). vm_compute. done. Defined.

(** The test of an array compares its start with the low bound and its end, reduced
    to the size of the chip, with the high one: an array that starts above the range
    and goes over the end of the chip is written, from the sectors above the range. *)
Example array_protection_bypassed :
  eeprom_program_array ready_polls 3 0x3FFFFE [1; 2; 3; 4] 4 =
    Some [(0xAAA, 0xAA); (0x554, 0x55); (0xAAA, 0x20); (0, 0xA0); (0x3FFFFE, 0x0102); (0, 0xA0); (0x400000, 0x0304); (0, 0x90); (0, 0)].
Proof. vm_compute. reflexivity. Qed.

(** The last byte of the range cannot be written by an array. *)
Example array_end_refused : eeprom_program_array ready_polls 3 0x1FFFFE [1; 2] 2 = Some [].
Proof. vm_compute. reflexivity. Qed.
