(* ===== verification/Usb.v ===== *)
(** * The USB controller (src/arch/sh/modules/usb.c)

    The controller is registers: what the driver writes is a trace, in order; what it
    reads of the status registers while it waits is an input, a stream for each
    endpoint that sends.  The operations are programs of a monad that passes the state
    of the driver and stops, as [None], when a wait does not end.

    The theorems relate the two copies between the endpoints and the cyclic FIFOs to
    streams of bytes, and the trace of a transmission to the packets on the bus. *)

From S2P Require Import Prelude CyclicFifo.

(** ** Registers *)

(** The bits of the interrupt flag registers IFR0 and IFR1 (VBUSMN is not an
    interrupt); those of IER0 and IER1 have the same places. *)
Inductive flag := BRST | EP1FULL | EP2TR | EP2EMPTY | SETUPTS | EP0oTS | EP0iTR | EP0iTS | EP3TS | EP3TR | VBUS.
#[export] Instance flag_eq : EqDecision flag. Proof. solve_decision. Defined.

(** The register (0 or 1) and the bit, the first field of a structure being the
    highest bit. *)
(** src/arch/sh/7705.h:556-578: IER0, IER1 *)
Definition flag_bit (f : flag) : Z * Z :=
  match f with
  | BRST => (0, 7) | EP1FULL => (0, 6) | EP2TR => (0, 5) | EP2EMPTY => (0, 4)
  | SETUPTS => (0, 3) | EP0oTS => (0, 2) | EP0iTR => (0, 1) | EP0iTS => (0, 0)
  | EP3TS => (1, 2) | EP3TR => (1, 1) | VBUS => (1, 0)
  end.

(** The bits of TRG the driver writes. *)
Inductive trigger := EP1RDFN | EP2PKTE | EP0sRDFN | EP0oRDFN | EP0iPKTE.

(** The registers only written by the initialisation. *)
Inductive reg := PNCR | PNCR2 | PM6MD | STBCR3_USB | ISR0 | ISR1 | EPSTL | XVEROFF | UKNPORT_u2 | UCLKCR | INTERRUPT_PRIORITY_USB.
#[export] Instance reg_eq : EqDecision reg. Proof. solve_decision. Defined.

(** Writes of the driver: a flag cleared in IFR, both flag registers cleared, a trigger,
    FIFOs cleared, data of the endpoints 0 and 2, a stall of endpoint 2, and
    the registers of the initialisation. *)
Inductive usb_write :=
| Ifr (f : flag) | IfrAll | Trg (t : trigger) | Fclr (bits : Z) | EPDR0i (b : Z) | EPDR2 (b : Z) | EP2STL | Reg (r : reg) (v : Z).
#[export] Instance trigger_eq : EqDecision trigger. Proof. solve_decision. Defined.
#[export] Instance usb_write_eq : EqDecision usb_write. Proof. solve_decision. Defined.

(** ** Constants *)

(** src/arch/sh/modules/usb.c:37-37: USB_EP0o_BUFFER_SIZE *)
Definition USB_EP0o_BUFFER_SIZE : Z := 128.
(** src/arch/sh/modules/usb.c:43-43: USB_EP1o_BUFFER_SIZE *)
Definition USB_EP1o_BUFFER_SIZE : Z := 512.
(** src/device/usb/usb_device_protocol.h:177-177: USB_EP_EP1 *)
Definition USB_EP_EP1 : Z := 0x01.
(** src/device/usb/usb_device_protocol.h:181-181: USB_EP_DIR_OUT *)
Definition USB_EP_DIR_OUT : Z := 0x00.
(** src/device/usb/usb_device_protocol.h:182-182: USB_EP_DIR_IN *)
Definition USB_EP_DIR_IN : Z := 0x80.
(** src/device/usb/usb_device_protocol.h:174-174: USB_EP_ADDR *)
Definition USB_EP_ADDR (ep dir : Z) : Z := Z.lor ep dir.
(** src/device/usb/usb_device_protocol.h:184-184: USB_EP_ADDR_EP0OUT *)
Definition USB_EP_ADDR_EP0OUT : Z := Eval vm_compute in USB_EP_ADDR 0x00 USB_EP_DIR_OUT.
(** src/device/usb/usb_device_protocol.h:185-185: USB_EP_ADDR_EP0IN *)
Definition USB_EP_ADDR_EP0IN : Z := Eval vm_compute in USB_EP_ADDR 0x00 USB_EP_DIR_IN.
(** src/device/usb/usb_device_protocol.h:186-186: USB_EP_ADDR_EP1OUT *)
Definition USB_EP_ADDR_EP1OUT : Z := Eval vm_compute in USB_EP_ADDR 0x01 USB_EP_DIR_OUT.
(** src/device/usb/usb_device_protocol.h:187-187: USB_EP_ADDR_EP2IN *)
Definition USB_EP_ADDR_EP2IN : Z := Eval vm_compute in USB_EP_ADDR 0x02 USB_EP_DIR_IN.
(** src/device/usb/usb_device_protocol.h:188-188: USB_EP_ADDR_EP3IN *)
Definition USB_EP_ADDR_EP3IN : Z := Eval vm_compute in USB_EP_ADDR 0x03 USB_EP_DIR_IN.
(** src/device/usb/usb_device_protocol.h:195-195: USB_EP_ATTR_BULK *)
Definition USB_EP_ATTR_BULK : Z := 0x02.
(** src/device/usb/usb_device_protocol.h:196-196: USB_EP_ATTR_INTER *)
Definition USB_EP_ATTR_INTER : Z := 0x03.
(** src/device/usb/usb_device_protocol.h:243-243: USB_RECV_PARTIAL *)
Definition USB_RECV_PARTIAL : Z := 0x01.
(** src/device/usb/usb_device_protocol.h:244-244: USB_RECV_NONBLOCK *)
Definition USB_RECV_NONBLOCK : Z := 0x02.

(** src/arch/sh/interrupt.h:107-107: INTERRUPT_PVALUE_HIGH *)
Definition INTERRUPT_PVALUE_HIGH : Z := 8.

(** ** State *)

(** The FIFOs, the callbacks (addresses of functions), the interrupt enable registers,
    the packets of the host for endpoint 1, of which the controller shows the first one
    until the driver says it is read, the writes, and what the next reads of the status
    give: EP0iTS, BRST and VBUSMN for endpoint 0, EP2EMPTY for
    endpoint 2, where the reads after those listed all give [ep2_then]. *)
(** src/arch/sh/modules/usb.c:37-55: _usb_fifo_ep0o *)
Record usb := mk_usb {
  ep0o : cyclic_fifo;
  ep1o : cyclic_fifo;
  setup_callback : ptr;
  ep1_callback : ptr;
  ier0 : Z;
  ier1 : Z;
  ep1_packets : list (list Z);
  trace : list usb_write;
  ep0_reads : list (bool * bool * bool);
  ep2_reads : list bool;
  ep2_then : bool
}.

Definition set_ep0o v u := mk_usb v (ep1o u) (setup_callback u) (ep1_callback u) (ier0 u) (ier1 u) (ep1_packets u) (trace u) (ep0_reads u) (ep2_reads u) (ep2_then u).
Definition set_ep1o v u := mk_usb (ep0o u) v (setup_callback u) (ep1_callback u) (ier0 u) (ier1 u) (ep1_packets u) (trace u) (ep0_reads u) (ep2_reads u) (ep2_then u).
Definition set_setup_cb v u := mk_usb (ep0o u) (ep1o u) v (ep1_callback u) (ier0 u) (ier1 u) (ep1_packets u) (trace u) (ep0_reads u) (ep2_reads u) (ep2_then u).
Definition set_ep1_cb v u := mk_usb (ep0o u) (ep1o u) (setup_callback u) v (ier0 u) (ier1 u) (ep1_packets u) (trace u) (ep0_reads u) (ep2_reads u) (ep2_then u).
Definition set_ier a b u := mk_usb (ep0o u) (ep1o u) (setup_callback u) (ep1_callback u) a b (ep1_packets u) (trace u) (ep0_reads u) (ep2_reads u) (ep2_then u).
Definition set_ep1_packets v u := mk_usb (ep0o u) (ep1o u) (setup_callback u) (ep1_callback u) (ier0 u) (ier1 u) v (trace u) (ep0_reads u) (ep2_reads u) (ep2_then u).
Definition add_writes w u := mk_usb (ep0o u) (ep1o u) (setup_callback u) (ep1_callback u) (ier0 u) (ier1 u) (ep1_packets u) (trace u ++ w) (ep0_reads u) (ep2_reads u) (ep2_then u).
Definition set_ep0_reads v u := mk_usb (ep0o u) (ep1o u) (setup_callback u) (ep1_callback u) (ier0 u) (ier1 u) (ep1_packets u) (trace u) v (ep2_reads u) (ep2_then u).
Definition set_ep2_reads v u := mk_usb (ep0o u) (ep1o u) (setup_callback u) (ep1_callback u) (ier0 u) (ier1 u) (ep1_packets u) (trace u) (ep0_reads u) v (ep2_then u).

(** *** Programs *)

Definition prog (A : Type) : Type := usb → option (A * usb).
#[export] Instance prog_ret : MRet prog := λ A x u, Some (x, u).
#[export] Instance prog_bind : MBind prog := λ A B f m u, '(x, u) ← m u; f x u.

Definition update (f : usb → usb) : prog () := λ u, Some ((), f u).
Definition get {A} (f : usb → A) : prog A := λ u, Some (f u, u).
Definition out (w : list usb_write) : prog () := update (add_writes w).
Definition skip : prog () := mret ().

Definition enabled (f : flag) (u : usb) : bool :=
  let '(r, b) := flag_bit f in Z.testbit (if r =? 0 then ier0 u else ier1 u) b.
Definition set_enabled (f : flag) (v : bool) (u : usb) : usb :=
  let '(r, b) := flag_bit f in
  let upd x := if v then Z.setbit x b else Z.clearbit x b in
  if r =? 0 then set_ier (upd (ier0 u)) (ier1 u) u else set_ier (ier0 u) (upd (ier1 u)) u.

(** The packet in endpoint 1: EPSZ1 is its length and EPDR1 gives its bytes.  The
    trigger makes room for the next one. *)
Definition ep1_bytes (u : usb) : list Z := default [] (head (ep1_packets u)).
Definition EPSZ1 (u : usb) : Z := Z.of_nat (length (ep1_bytes u)).
Definition ep1_read_done : prog () :=
  _ ← out [Trg EP1RDFN];
  update (λ u, set_ep1_packets (tail (ep1_packets u)) u).

(** ** Initialisation *)

(** The result is the callback of the USB interrupts. *)
(** src/arch/sh/modules/usb.c: usb_init *)
Definition usb_init (usb_sh3_interrupt_handler : ptr) : prog ptr :=
  _ ← out [Reg PNCR 0x4000; Reg PNCR2 0x7F; Reg PM6MD 0; Reg STBCR3_USB 0];
  _ ← update (set_ier 0xEF 0x07);
  _ ← out [IfrAll; Reg ISR0 0x00; Reg ISR1 0x00; Reg EPSTL 0x00; Reg XVEROFF 0; Reg UKNPORT_u2 1; Fclr 0x20; Trg EP1RDFN];
  _ ← update (set_enabled EP2EMPTY false);
  _ ← update (set_enabled EP2TR false);
  _ ← update (set_enabled EP3TR false);
  _ ← update (set_enabled EP3TS false);
  _ ← out [Reg UCLKCR 0xA5E0; Reg INTERRUPT_PRIORITY_USB INTERRUPT_PVALUE_HIGH];
  mret usb_sh3_interrupt_handler.

(** ** Sending *)

(** The wait for the end of a packet of endpoint 0: the result is [error], which is 0
    when it starts. *)
(** src/arch/sh/modules/usb.c:488-488: usb_send_sync_ep0 *)
Fixpoint wait_ep0 (reads : list (bool * bool * bool)) : option (bool * list (bool * bool * bool)) :=
  match reads with
  | [] => None
  | (ts, brst, vbusmn) :: reads =>
      if ts : bool then Some (false, reads)
      else let error := negb brst || vbusmn in
        if error : bool then Some (true, reads) else wait_ep0 reads
  end.

Definition wait0 : prog bool := λ u, '(error, reads) ← wait_ep0 (ep0_reads u); Some (error, set_ep0_reads reads u).

(** [data] is the memory from the pointer. *)
(** src/arch/sh/modules/usb.c:470-491: usb_send_sync_ep0 *)
Fixpoint send_loop_ep0 (fuel : nat) (data : Z → Z) (max_size nb_written : Z) (error : bool) : prog (Z * bool) :=
  match fuel with
  | O => λ _, None
  | S fuel =>
      if (nb_written <? max_size) && negb error then
        let i := Z.min 8 (max_size - nb_written) in
        _ ← out (map (λ j, EPDR0i (data (nb_written + j))) (seqZ 0 i));
        _ ← out [Ifr EP0iTS; Ifr EP0iTR; Trg EP0iPKTE];
        error ← wait0;
        _ ← out [Ifr EP0iTS; Ifr EP0iTR];
        send_loop_ep0 fuel data max_size (nb_written + i) error
      else mret (nb_written, error)
  end.

(** The loop makes at most one pass for each byte. *)
(** src/arch/sh/modules/usb.c: usb_send_sync_ep0 *)
Definition usb_send_sync_ep0 (data : Z → Z) (max_size : Z) : prog Z :=
  '(nb_written, error) ← send_loop_ep0 (S (Z.to_nat max_size)) data max_size 0 false;
  error ← (if negb error && (Z.rem max_size 8 =? 0) then
             _ ← out [Ifr EP0iTS; Ifr EP0iTR; Trg EP0iPKTE];
             error ← wait0;
             _ ← out [Ifr EP0iTS; Ifr EP0iTR];
             mret error
           else mret error);
  mret (if error : bool then -1 else nb_written).

(** src/arch/sh/modules/usb.c:542-542: usb_send_sync_ep2 *)
Fixpoint wait_ep2 (reads : list bool) (after : bool) : option (list bool) :=
  match reads with
  | [] => if after then Some [] else None
  | ep2empty :: reads => if ep2empty : bool then Some reads else wait_ep2 reads after
  end.

Definition wait2 : prog () := λ u, reads ← wait_ep2 (ep2_reads u) (ep2_then u); Some ((), set_ep2_reads reads u).
Definition read_ep2empty : prog bool := λ u, match ep2_reads u with [] => Some (ep2_then u, u) | b :: reads => Some (b, set_ep2_reads reads u) end.

(** src/arch/sh/modules/usb.c:540-547: usb_send_sync_ep2 *)
Fixpoint send_loop_ep2 (fuel : nat) (data : Z → Z) (max_size total : Z) : prog () :=
  match fuel with
  | O => λ _, None
  | S fuel =>
      if total <? max_size then
        _ ← wait2;
        _ ← out (map (λ i, EPDR2 (data (total + i))) (seqZ 0 (Z.min max_size 64)));
        _ ← out [Trg EP2PKTE];
        send_loop_ep2 fuel data max_size (total + 64)
      else skip
  end.

(** src/arch/sh/modules/usb.c: usb_send_sync_ep2 *)
Definition usb_send_sync_ep2 (data : Z → Z) (max_size : Z) : prog Z :=
  _ ← send_loop_ep2 (S (Z.to_nat max_size)) data max_size 0;
  empty ← read_ep2empty;
  _ ← (if empty : bool then out [Trg EP2PKTE] else skip);
  mret max_size.

(** src/arch/sh/modules/usb.c: usb_send *)
Definition usb_send (endpoint : Z) (data : Z → Z) (size : Z) : prog Z :=
  if endpoint =? USB_EP_ADDR_EP2IN then usb_send_sync_ep2 data (s32 size)
  else if endpoint =? USB_EP_ADDR_EP0IN then usb_send_sync_ep0 data (s32 size)
  else mret (-1).

(** ** Receiving *)

(** src/arch/sh/modules/usb.c: usb_sh3_ep1_read *)
Definition usb_sh3_ep1_read (u : usb) : usb :=
  if EPSZ1 u <? u32 (max_size (ep1o u) - size (ep1o u)) then set_enabled EP1FULL true u else u.

Definition fifo_of (endpoint : Z) (u : usb) : cyclic_fifo := if endpoint =? USB_EP_ADDR_EP0OUT then ep0o u else ep1o u.
Definition set_fifo_of (endpoint : Z) (f : cyclic_fifo) (u : usb) : usb := if endpoint =? USB_EP_ADDR_EP0OUT then set_ep0o f u else set_ep1o f u.

(** The body of the loop, with the interrupts blocked: the bytes taken. *)
(** src/arch/sh/modules/usb.c:161-188: usb_receive *)
Definition receive_pass (endpoint size : Z) (ret : Z) : prog (list Z) :=
  bufsize ← get (λ u, s32 (CyclicFifo.size (fifo_of endpoint u)));
  let nbbytes := bufsize + ret in
  let nbbytes := if size <? nbbytes then size - ret else nbbytes - ret in
  if 0 <? nbbytes then
    popped ← get (λ u, cfifo_pop (fifo_of endpoint u) nbbytes);
    _ ← update (set_fifo_of endpoint popped.2);
    _ ← (if endpoint =? USB_EP_ADDR_EP1OUT then update usb_sh3_ep1_read else skip);
    mret popped.1
  else mret [].

(** [between i] is what the interrupts do after the [i]-th pass. *)
(** src/arch/sh/modules/usb.c:161-191: usb_receive *)
Fixpoint receive_loop (fuel i : nat) (between : nat → usb → usb) (endpoint size flags : Z) (data : list Z) (tried_once : bool) : prog (list Z) :=
  match fuel with
  | O => λ _, None
  | S fuel =>
      let ret := Z.of_nat (length data) in
      if (ret <? size) && negb ((flags &? USB_RECV_PARTIAL) && negb (ret =? 0)) && negb ((flags &? USB_RECV_NONBLOCK) && tried_once) then
        got ← receive_pass endpoint size ret;
        _ ← update (between i);
        receive_loop fuel (S i) between endpoint size flags (data ++ got) true
      else mret data
  end.

(** What is returned and the bytes written at [data]. *)
(** src/arch/sh/modules/usb.c: usb_receive *)
Definition usb_receive (fuel : nat) (between : nat → usb → usb) (endpoint size flags : Z) : prog (Z * list Z) :=
  if (endpoint =? USB_EP_ADDR_EP0OUT) || (endpoint =? USB_EP_ADDR_EP1OUT) then
    data ← receive_loop fuel 0 between endpoint size flags [] false;
    mret (Z.of_nat (length data), data)
  else mret (-1, []).

(** src/arch/sh/modules/usb.c: usb_set_receive_callback *)
Definition usb_set_receive_callback (endpoint : Z) (callback : ptr) : prog () :=
  if endpoint =? USB_EP_EP1 then update (set_ep1_cb callback) else skip.

(** src/arch/sh/modules/usb.c: usb_set_setup_callback *)
Definition usb_set_setup_callback (callback : ptr) : prog () := update (set_setup_cb callback).

(** ** Choice of the endpoints *)

(** src/device/usb/usb_device_protocol.h: usb_endpoint_ability *)
Record usb_endpoint_ability := mk_ability { endpoint : Z; attributes : Z; ep_max_size : Z }.

(** src/arch/sh/modules/usb.c: usb_find_endpoint_config *)
Fixpoint find_endpoints (eps : list usb_endpoint_ability) (ep1used ep2used ep3used : bool) : Z * list usb_endpoint_ability :=
  match eps with
  | [] => (0, [])
  | e :: eps =>
      if (attributes e =? USB_EP_ATTR_BULK) && (ep_max_size e <=? 64) then
        if (endpoint e =? USB_EP_DIR_OUT) && negb ep1used then
          let '(ret, eps) := find_endpoints eps true ep2used ep3used in
          (ret, mk_ability USB_EP_ADDR_EP1OUT (attributes e) 64 :: eps)
        else if (endpoint e =? USB_EP_DIR_IN) && negb ep2used then
          let '(ret, eps) := find_endpoints eps ep1used true ep3used in
          (ret, mk_ability USB_EP_ADDR_EP2IN (attributes e) 64 :: eps)
        else (-1, e :: eps)
      else if (attributes e =? USB_EP_ATTR_INTER) && (ep_max_size e <=? 8) && (endpoint e =? USB_EP_DIR_IN) && negb ep3used then
        let '(ret, eps) := find_endpoints eps ep1used ep2used true in
        (ret, mk_ability USB_EP_ADDR_EP3IN (attributes e) 8 :: eps)
      else (-1, e :: eps)
  end.

(** src/arch/sh/modules/usb.c: usb_find_endpoint_config *)
Definition usb_find_endpoint_config (eps : list usb_endpoint_ability) : Z * list usb_endpoint_ability :=
  find_endpoints eps false false false.

(** ** Interrupts *)

(** A SETUP packet; words are as the big-endian processor reads them. *)
(** src/device/usb/usb_device_protocol.h: usb_setup *)
Record usb_setup := mk_setup { bm_request_type : Z; b_request : Z; w_value : Z; w_index : Z; w_length : Z }.

Definition setup_of (b : list Z) : usb_setup :=
  let w i := aget b i * 256 + aget b (i + 1) in
  mk_setup (aget b 0) (aget b 1) (w 2) (w 4) (w 6).

(** The copy of a packet behind the contents of a FIFO. *)
(** src/arch/sh/modules/usb.c:395-397: usb_sh3_interrupt_handler *)
Fixpoint copy_packet (bufpos : Z) (bytes : list Z) (f : cyclic_fifo) : cyclic_fifo :=
  match bytes with
  | [] => f
  | b :: bytes =>
      let f := mk_fifo (max_size f) (top f) (size f) (aset (buffer f) bufpos b) in
      copy_packet (if u32 (max_size f - 1) <=? bufpos then 0 else bufpos + 1) bytes f
  end.

(** src/arch/sh/modules/usb.c:394-398: usb_sh3_interrupt_handler *)
Definition receive_packet (bytes : list Z) (f : cyclic_fifo) : cyclic_fifo :=
  let f := copy_packet (u32 (top f + size f) mod max_size f) bytes f in
  mk_fifo (max_size f) (top f) (u32 (size f + Z.of_nat (length bytes))) (buffer f).

Section handler.
(** The state of the functions called back, and what they do. *)
Context {D : Type} (call_setup : ptr → usb_setup → D → prog (Z * D)) (call_recv : ptr → Z → D → prog D).

(** What the hardware presents: the flags that are raised when they are tested, the
    SETUP packet, and the packet of endpoint 0, whose length is read from EPSZ0o. *)
Context (raised : flag → bool) (setup_bytes ep0_bytes : list Z).

(** The state called back, and [jobdone]. *)
Definition on_flag (f : flag) (body : D → prog D) (s : D * bool) : prog (D * bool) :=
  en ← get (enabled f);
  if en && raised f then d ← body s.1; mret (d, true) else mret s.

(** src/arch/sh/modules/usb.c:290-323: usb_sh3_interrupt_handler *)
Definition on_setup (d : D) : prog D :=
  _ ← out [Ifr SETUPTS; Fclr 0x01; Fclr 0x02; Trg EP0sRDFN];
  cb ← get setup_callback;
  if negb (cb =? NULL) then '(_, d) ← call_setup cb (setup_of setup_bytes) d; mret d
  else mret d.

(** src/arch/sh/modules/usb.c:354-377: usb_sh3_interrupt_handler *)
Definition on_ep0_out (d : D) : prog D :=
  let nbreceived := Z.of_nat (length ep0_bytes) in
  _ ← out [Ifr EP0oTS];
  f ← get ep0o;
  _ ← (if (0 <? nbreceived) && (u32 (size f + nbreceived) <=? max_size f)
       then update (set_ep0o (receive_packet ep0_bytes f)) else skip);
  _ ← out [Trg EP0oRDFN];
  mret d.

Fixpoint call_recv_all (cb : ptr) (bytes : list Z) (d : D) : prog D :=
  match bytes with
  | [] => mret d
  | b :: bytes => d ← call_recv cb (s8 b) d; call_recv_all cb bytes d
  end.

(** src/arch/sh/modules/usb.c:379-413: usb_sh3_interrupt_handler *)
Definition on_ep1_full (d : D) : prog D :=
  bytes ← get ep1_bytes;
  let nbreceived := Z.of_nat (length bytes) in
  cb ← get ep1_callback;
  d ← (if negb (cb =? NULL) then
         d ← call_recv_all cb bytes d;
         _ ← ep1_read_done;
         mret d
       else
         f ← get ep1o;
         if u32 (size f + nbreceived) <=? max_size f then
           _ ← update (set_ep1o (receive_packet bytes f));
           _ ← ep1_read_done;
           mret d
         else
           _ ← update (set_enabled EP1FULL false);
           mret d);
  _ ← out [Ifr EP1FULL];
  mret d.

(** A branch that only writes registers. *)
Definition writes (w : list usb_write) (d : D) : prog D := _ ← out w; mret d.

(** src/arch/sh/modules/usb.c: usb_sh3_interrupt_handler *)
Definition usb_sh3_interrupt_handler (d : D) : prog D :=
  s ← on_flag VBUS (writes [Ifr VBUS]) (d, false);
  s ← on_flag BRST (writes [Ifr BRST; Fclr 0x73]) s;
  s ← on_flag SETUPTS on_setup s;
  s ← on_flag EP0iTR (writes [Ifr EP0iTR]) s;
  s ← on_flag EP0iTS (writes [Ifr EP0iTS]) s;
  s ← on_flag EP0oTS on_ep0_out s;
  s ← on_flag EP1FULL on_ep1_full s;
  s ← on_flag EP3TR (writes [Ifr EP3TR]) s;
  s ← on_flag EP3TS (writes [Ifr EP3TS]) s;
  s ← on_flag EP2TR (writes [EP2STL; Ifr EP2TR]) s;
  _ ← (if negb s.2 then out [IfrAll] else skip);
  mret s.1.
End handler.

(** ** The packets received *)

(** One byte behind the contents. *)
Lemma byte_appended f b : fifo_wf f → size f < max_size f →
  let f' := mk_fifo (max_size f) (top f) (size f + 1) (aset (buffer f) ((top f + size f) mod max_size f) b) in
  contents f' = contents f ++ [b] ∧ fifo_wf f'.
Proof.
  intros Hf Hs f'. pose proof Hf as (Hm & Hl & Ht & Hz).
  destruct (cfifo_push_ok f [b] 1 Hf) as (Hc & Hw & _); [lia|simpl; lia|].
  assert (E : cfifo_push f [b] 1 = f').
  { rewrite (push_unfold f [b] 1 1) by (done || lia). unfold f'. f_equal. rewrite mod_wrap by lia.
    unfold aset. destruct (Z.ltb_spec (top f + size f) (max_size f)).
    - rewrite Nat.min_l, <- Z2Nat.inj_add by lia. done.
    - done. }
  rewrite E in Hc, Hw. split; [|done]. rewrite Hc. unfold Spec.push. f_equal.
  rewrite contents_length by done. rewrite Z.min_l by lia. done.
Qed.

(** The FIFO with [n] more bytes counted. *)
Definition grow (f : cyclic_fifo) (n : Z) : cyclic_fifo := mk_fifo (max_size f) (top f) (size f + n) (buffer f).

Lemma copy_packet_spec bytes : ∀ f n, fifo_wf (grow f n) → size f + n + Z.of_nat (length bytes) ≤ max_size f →
  let f' := grow (copy_packet ((top f + (size f + n)) mod max_size f) bytes f) (n + Z.of_nat (length bytes)) in
  contents f' = contents (grow f n) ++ bytes ∧ fifo_wf f' ∧
  max_size f' = max_size f ∧ top f' = top f ∧ size f' = size f + n + Z.of_nat (length bytes).
Proof.
  induction bytes as [|b bytes IH]; intros f n Hf Hlen; cbn [copy_packet length].
  - cbn [length] in *. rewrite Z.add_0_r, app_nil_r. cbn [grow max_size top size]. split_and!; done || lia.
  - cbn [length] in Hlen. destruct (byte_appended (grow f n) b Hf) as [Hc Hw]; [cbn [grow max_size size]; lia|].
    cbn [grow max_size top size buffer] in Hc, Hw.
    set (f1 := mk_fifo (max_size f) (top f) (size f) (aset (buffer f) ((top f + (size f + n)) mod max_size f) b)).
    pose proof Hf as (Hm & _ & Ht & Hz). cbn [grow max_size top size] in Hm, Ht, Hz.
    destruct (IH f1 (n + 1)) as (Hc1 & Hw1 & Hrest); [| |].
    { unfold grow. cbn. by rewrite Z.add_assoc. }
    { cbn. lia. }
    assert (Hpos : (if u32 (max_size f1 - 1) <=? (top f + (size f + n)) mod max_size f then 0 else (top f + (size f + n)) mod max_size f + 1)
                   = (top f1 + (size f1 + (n + 1))) mod max_size f1).
    { cbn [f1 max_size top size]. rewrite u32_small, !mod_wrap by lia.
      destruct (Z.ltb_spec (top f + (size f + n)) (max_size f)), (Z.ltb_spec (top f + (size f + (n + 1))) (max_size f));
        destruct (Z.leb_spec (max_size f - 1) (top f + (size f + n))); try lia;
        destruct (Z.leb_spec (max_size f - 1) (top f + (size f + n) - max_size f)); lia. }
    fold f1. rewrite Hpos. replace (n + Z.of_nat (S (length bytes))) with (n + 1 + Z.of_nat (length bytes)) by lia.
    split_and!; [|done|apply Hrest..|]; [|destruct Hrest as (_ & _ & ->); cbn [f1 size]; lia].
    rewrite Hc1. change (contents (grow f1 (n + 1)) ++ bytes = contents (grow f n) ++ [b] ++ bytes). rewrite app_assoc. f_equal.
    rewrite <- Hc. unfold grow, f1. cbn. by rewrite Z.add_assoc.
Qed.

Lemma receive_packet_spec bytes f : fifo_wf f → size f + Z.of_nat (length bytes) ≤ max_size f →
  contents (receive_packet bytes f) = contents f ++ bytes ∧ fifo_wf (receive_packet bytes f) ∧
  max_size (receive_packet bytes f) = max_size f.
Proof.
  intros Hf Hlen. pose proof Hf as (Hm & _ & Ht & Hz).
  assert (Hg : grow f 0 = f) by (unfold grow; rewrite Z.add_0_r; by destruct f).
  destruct (copy_packet_spec bytes f 0) as (Hc & Hw & Hmx & Htp & Hsz); [by rewrite Hg|lia|].
  rewrite Hg, Z.add_0_r, Z.add_0_l in *. unfold receive_packet. rewrite (u32_small (top f + size f)) by lia.
  set (g := copy_packet _ bytes f) in *. cbn [grow max_size size] in Hsz, Hmx.
  rewrite (u32_small (size g + _)) by lia. done.
Qed.

(** Runs the steps of a program. *)
Ltac run_prog := cbv [mbind prog_bind option_bind get update out mret prog_ret skip ep1_read_done].

(** *** Programs that keep a relation between the states before and after *)

Definition keeps {A} (R : relation usb) (m : prog A) : Prop := ∀ u x u', m u = Some (x, u') → R u u'.

Lemma keeps_ret {A} (R : relation usb) `{!Reflexive R} (x : A) : keeps R (mret x).
Proof. intros u y u' [= _ <-]. done. Qed.

Lemma keeps_bind {A B} (R : relation usb) `{!Transitive R} (m : prog A) (f : A → prog B) :
  keeps R m → (∀ x, keeps R (f x)) → keeps R (m ≫= f).
Proof.
  intros Hm Hf u y u' H. unfold mbind, prog_bind in H. destruct (m u) as [[x u1]|] eqn:E; [|done].
  transitivity u1; [by eapply Hm|]. by eapply Hf.
Qed.

Lemma keeps_update (R : relation usb) f : (∀ u, R u (f u)) → keeps R (update f).
Proof. intros Hf u x u' [= _ <-]. apply Hf. Qed.

Lemma keeps_get {A} (R : relation usb) `{!Reflexive R} (f : usb → A) : keeps R (get f).
Proof. intros u y u' [= _ <-]. done. Qed.

(** *** Endpoint 1 as a stream *)

(** The bytes the host has sent and the driver has not given yet. *)
Definition stream (u : usb) : list Z := contents (ep1o u) ++ concat (ep1_packets u).

(** The bytes go to the FIFO, packets have at most 64 bytes, and the interrupt is only
    disabled when there is something to read. *)
Definition ep1_ok (u : usb) : Prop :=
  ep1_callback u = NULL ∧ fifo_wf (ep1o u) ∧ max_size (ep1o u) = USB_EP1o_BUFFER_SIZE ∧
  Forall (λ p, (0 < length p ≤ 64)%nat) (ep1_packets u) ∧ (enabled EP1FULL u = true ∨ 0 < size (ep1o u)).

Definition keep_stream : relation usb := λ u u', ep1_ok u → ep1_ok u' ∧ stream u' = stream u.
#[export] Instance keep_stream_pre : PreOrder keep_stream.
Proof. split; [by intros u H|]. intros u v w H1 H2 Hu. destruct (H1 Hu) as [Hv <-]. by apply H2. Qed.

Lemma keep_stream_out w : keeps keep_stream (out w).
Proof. by apply keeps_update. Qed.

Lemma ep1_bytes_fits u : ep1_ok u → (length (ep1_bytes u) ≤ 64)%nat.
Proof. intros (_ & _ & _ & Hp & _). unfold ep1_bytes. destruct Hp as [|p ps]; simpl; lia. Qed.

Lemma enabled_set_same f v u : enabled f (set_enabled f v u) = v.
Proof.
  unfold enabled, set_enabled. destruct (flag_bit f) as [r b] eqn:E. assert (0 ≤ b) by (destruct f; simplify_eq/=; lia).
  destruct (r =? 0), v; cbn; by rewrite ?Z.setbit_eq, ?Z.clearbit_eq by lia.
Qed.

(** The packet is moved behind the contents, or kept with the interrupt disabled. *)
Lemma ep1_full_spec {D} (call_recv : ptr → Z → D → prog D) d u : ep1_ok u →
  ∃ u', on_ep1_full call_recv d u = Some (d, u') ∧ ep1_ok u' ∧ stream u' = stream u ∧
    (if size (ep1o u) + EPSZ1 u <=? USB_EP1o_BUFFER_SIZE
     then contents (ep1o u') = contents (ep1o u) ++ ep1_bytes u ∧ ep1_packets u' = tail (ep1_packets u)
     else ep1o u' = ep1o u ∧ ep1_packets u' = ep1_packets u).
Proof.
  intros Hok. pose proof (ep1_bytes_fits u Hok) as Hb. pose proof Hok as (Hcb & Hf & Hm & Hp & He).
  unfold on_ep1_full. run_prog. rewrite Hcb. change (negb (NULL =? NULL)) with false. cbv iota beta. pose proof Hf as (_ & _ & _ & Hs). unfold USB_EP1o_BUFFER_SIZE, EPSZ1 in *.
  rewrite u32_small, Hm by lia. destruct (Z.leb_spec (size (ep1o u) + Z.of_nat (length (ep1_bytes u))) 512) as [Hle|Hgt].
  - destruct (receive_packet_spec (ep1_bytes u) (ep1o u)) as (Hc & Hw & Hmx); [done|lia|].
    eexists; split; [done|]. split; [|split; [|done]].
    + split_and!; [exact Hcb|exact Hw|exact (eq_trans Hmx Hm)|cbn; by destruct Hp|]. destruct He as [He|He]; [by left|right].
      pose proof (contents_length _ Hw) as L. rewrite Hc, length_app, contents_length in L by done.
      change (0 < size (receive_packet (ep1_bytes u) (ep1o u))). lia.
    + change (contents (receive_packet (ep1_bytes u) (ep1o u)) ++ concat (tail (ep1_packets u)) = stream u).
      rewrite Hc, <- app_assoc. unfold stream, ep1_bytes. by destruct (ep1_packets u).
  - eexists; split; [done|]. split; [|done]. split_and!; cbn; [done..|]. right. lia.
Qed.

Lemma keep_ep0o f : ∀ u, keep_stream u (set_ep0o f u).
Proof. by intros u H. Qed.

(** What the function that handles the SETUP packets promises. *)
Class SetupKeepsStream {D} (call_setup : ptr → usb_setup → D → prog (Z * D)) : Prop :=
  setup_keeps : ∀ cb s d, keeps keep_stream (call_setup cb s d).

Section handler_stream.
Context {D : Type} (call_setup : ptr → usb_setup → D → prog (Z * D)) (call_recv : ptr → Z → D → prog D).
Context `{!SetupKeepsStream call_setup} (raised : flag → bool) (setup_bytes ep0_bytes : list Z).

Lemma on_flag_keeps (R : relation usb) `{!PreOrder R} f (body : D → prog D) s :
  (∀ d, keeps R (body d)) → keeps R (on_flag raised f body s).
Proof.
  intros H. apply keeps_bind; [apply _|apply keeps_get, _|]. intros en. destruct (en && raised f); [|apply keeps_ret, _].
  apply keeps_bind; [apply _|apply H|]. intros d. apply keeps_ret, _.
Qed.

Lemma writes_keeps w d : keeps keep_stream (writes (D := D) w d).
Proof. apply keeps_bind; [apply _|apply keep_stream_out|]. intros _. apply keeps_ret, _. Qed.

Lemma on_setup_keeps (d : D) : keeps keep_stream (on_setup call_setup setup_bytes d).
Proof.
  apply keeps_bind; [apply _|apply keep_stream_out|]. intros _. apply keeps_bind; [apply _|apply keeps_get, _|]. intros cb.
  destruct (negb _); [|apply keeps_ret, _]. apply keeps_bind; [apply _|apply setup_keeps|]. intros [r d']. apply keeps_ret, _.
Qed.

Lemma on_ep0_out_keeps (d : D) : keeps keep_stream (on_ep0_out ep0_bytes d).
Proof.
  apply keeps_bind; [apply _|apply keep_stream_out|]. intros _. apply keeps_bind; [apply _|apply keeps_get, _|]. intros f.
  apply keeps_bind; [apply _|destruct (_ && _); [apply keeps_update, keep_ep0o|apply keeps_ret, _]|]. intros _.
  apply writes_keeps.
Qed.

Lemma on_ep1_full_keeps (d : D) : keeps keep_stream (on_ep1_full call_recv d).
Proof.
  intros u x u' H Hok. destruct (ep1_full_spec call_recv d u Hok) as (u1 & E & Hok1 & Hs & _). rewrite E in H. by simplify_eq.
Qed.

(** Whatever flags are raised, the handler loses no byte of endpoint 1. *)
Lemma handler_keeps_stream d :
  keeps keep_stream (usb_sh3_interrupt_handler call_setup call_recv raised setup_bytes ep0_bytes d).
Proof.
  unfold usb_sh3_interrupt_handler.
  do 10 (apply keeps_bind; [apply _|apply on_flag_keeps; [apply _|]; intros;
    first [apply writes_keeps|apply on_setup_keeps|apply on_ep0_out_keeps|apply on_ep1_full_keeps]|intros ?]).
  apply keeps_bind; [apply _|case_match; [apply keep_stream_out|apply keeps_ret, _]|]. intros _. apply keeps_ret, _.
Qed.
End handler_stream.

(** After a read, the interrupt is enabled or there is something left to read. *)
Lemma ep1_read_ok f u : ep1_ok u → fifo_wf f → max_size f = USB_EP1o_BUFFER_SIZE →
  ep1_ok (usb_sh3_ep1_read (set_ep1o f u)) ∧ ep1o (usb_sh3_ep1_read (set_ep1o f u)) = f ∧
  ep1_packets (usb_sh3_ep1_read (set_ep1o f u)) = ep1_packets u.
Proof.
  intros Hok Hf Hm. pose proof (ep1_bytes_fits u Hok) as Hb. pose proof Hok as (Hcb & _ & _ & Hp & _). pose proof Hf as (_ & _ & _ & Hs).
  unfold usb_sh3_ep1_read. change (EPSZ1 (set_ep1o f u)) with (Z.of_nat (length (ep1_bytes u))). change (ep1o (set_ep1o f u)) with f.
  unfold USB_EP1o_BUFFER_SIZE in Hm. rewrite u32_small by lia.
  destruct (Z.ltb_spec (Z.of_nat (length (ep1_bytes u))) (max_size f - size f)).
  - split; [|done]. split_and!; [done..|]. left. apply enabled_set_same.
  - split; [|done]. split_and!; [done..|]. right. change (0 < size f). lia.
Qed.

(** A pass of the receiver takes the first bytes. *)
Lemma receive_pass_spec size ret u : ep1_ok u → 0 ≤ ret < size → size < 2 ^ 31 →
  ∃ got u', receive_pass USB_EP_ADDR_EP1OUT size ret u = Some (got, u') ∧ ep1_ok u' ∧
    got = take (Z.to_nat (size - ret)) (contents (ep1o u)) ∧
    contents (ep1o u') = drop (Z.to_nat (size - ret)) (contents (ep1o u)) ∧ ep1_packets u' = ep1_packets u.
Proof.
  intros Hok Hr Hsz. pose proof Hok as (Hcb & Hf & Hm & Hp & He).
  pose proof (contents_length _ Hf) as Hl. pose proof Hf as (_ & _ & _ & Hs). pose proof Hm as Hm'. unfold USB_EP1o_BUFFER_SIZE in Hm'.
  unfold receive_pass. run_prog. cbn [fifo_of set_fifo_of USB_EP_ADDR_EP1OUT USB_EP_ADDR_EP0OUT Z.eqb Pos.eqb].
  rewrite s32_small by lia. set (n := CyclicFifo.size (ep1o u)) in *.
  replace (if size <? n + ret then size - ret else n + ret - ret) with (Z.min (size - ret) n)
    by (destruct (Z.ltb_spec size (n + ret)); lia).
  destruct (Z.ltb_spec 0 (Z.min (size - ret) n)).
  - destruct (cfifo_pop_ok (ep1o u) (Z.min (size - ret) n) Hf) as (Ho & Hc & Hw & Hmx); [lia|]. unfold Spec.pop in Ho, Hc. cbn [fst snd] in Ho, Hc.
    destruct (ep1_read_ok _ u Hok Hw) as (Hok' & Hf' & Hp'); [by rewrite Hmx|]. eexists _, _. split; [reflexivity|]. split; [exact Hok'|].
    rewrite Ho, Hf', Hc. destruct (Z.min_spec (size - ret) n) as [[? E]|[? E]]; rewrite E in *; [by split_and!|].
    split_and!; [by rewrite !take_ge by lia|by rewrite !drop_ge by lia|exact Hp'].
  - exists [], u. assert (contents (ep1o u) = []) as -> by (apply nil_length_inv; lia). by rewrite take_nil, drop_nil.
Qed.

Section receive.
Context {D : Type} (call_setup : ptr → usb_setup → D → prog (Z * D)) (call_recv : ptr → Z → D → prog D) (d : D).
Context `{!SetupKeepsStream call_setup}.

(** The interrupt of endpoint 1, raised while there is a packet. *)
Definition ep1_irq (u : usb) : usb :=
  let raised f := bool_decide (f = EP1FULL) && negb (bool_decide (ep1_packets u = [])) in
  match usb_sh3_interrupt_handler call_setup call_recv raised [] [] d u with Some (_, u') => u' | None => u end.

Lemma on_flag_off (raised : flag → bool) f body (s : D * bool) u : raised f = false → on_flag raised f body s u = Some (s, u).
Proof. intros H. unfold on_flag. run_prog. by rewrite H, andb_false_r. Qed.

Lemma ep1_irq_keeps u : ep1_ok u → ep1_ok (ep1_irq u) ∧ stream (ep1_irq u) = stream u.
Proof.
  intros Hok. unfold ep1_irq. destruct (usb_sh3_interrupt_handler _ _ _ _ _ _ _) as [[d' u']|] eqn:E; [|done].
  exact (handler_keeps_stream call_setup call_recv _ _ _ _ _ _ _ E Hok).
Qed.

(** With an empty FIFO the packet is taken. *)
Lemma ep1_irq_takes u : ep1_ok u → contents (ep1o u) = [] →
  contents (ep1o (ep1_irq u)) = ep1_bytes u ∧ ep1_packets (ep1_irq u) = tail (ep1_packets u).
Proof.
  intros Hok Hc. pose proof (ep1_bytes_fits u Hok) as Hb. pose proof Hok as (_ & Hf & _ & _ & He).
  pose proof (contents_length _ Hf) as Hl. rewrite Hc in Hl. cbn in Hl. pose proof Hf as (_ & _ & _ & Hs).
  destruct He as [He|He]; [|lia].
  set (raised f := bool_decide (f = EP1FULL) && negb (bool_decide (ep1_packets u = []))).
  assert (E : ep1_irq u = match on_flag raised EP1FULL (on_ep1_full call_recv) (d, false) u with
                          | Some (s, u') => if negb s.2 then add_writes [IfrAll] u' else u' | None => u end).
  { unfold ep1_irq. fold raised. unfold usb_sh3_interrupt_handler. cbv [mbind prog_bind option_bind]. rewrite !(on_flag_off raised) by done.
    destruct (on_flag raised EP1FULL _ _ u) as [[s u']|]; [|done]. rewrite !(on_flag_off raised) by done. run_prog. by destruct (negb s.2). }
  rewrite E. destruct (decide (ep1_packets u = [])) as [Ep|Ep].
  - rewrite (on_flag_off raised) by (unfold raised; rewrite (bool_decide_true (ep1_packets u = [])) by done; apply andb_false_r). unfold ep1_bytes. rewrite Ep. split; [exact Hc|exact Ep].
  - destruct (ep1_full_spec call_recv d u Hok) as (u' & E' & _ & _ & H).
    assert (on_flag raised EP1FULL (on_ep1_full call_recv) (d, false) u = Some ((d, true), u')) as ->.
    { unfold on_flag, raised. run_prog. rewrite He, !bool_decide_true, bool_decide_false by done. cbn [andb negb fst]. by rewrite E'. }
    rewrite (proj2 (Z.leb_le _ _)) in H; [|unfold EPSZ1, USB_EP1o_BUFFER_SIZE; lia]. by rewrite Hc in H.
Qed.

Lemma receive_loop_done size fuel i data tried u : Z.of_nat (length data) = size →
  receive_loop (S fuel) i (λ _, ep1_irq) USB_EP_ADDR_EP1OUT size 0 data tried u = Some (data, u).
Proof. intros <-. cbn [receive_loop]. by rewrite Z.ltb_irrefl. Qed.

Lemma receive_loop_spec size fuel : size < 2 ^ 31 → ∀ i tried u data, ep1_ok u →
  Z.of_nat (length data) ≤ size ≤ Z.of_nat (length data + length (stream u)) → (length (ep1_packets u) + 2 ≤ fuel)%nat →
  let n := Z.to_nat (size - Z.of_nat (length data)) in
  ∃ u', receive_loop fuel i (λ _, ep1_irq) USB_EP_ADDR_EP1OUT size 0 data tried u = Some (data ++ take n (stream u), u') ∧
    ep1_ok u' ∧ stream u' = drop n (stream u).
Proof.
  intros Hsz. induction fuel as [|fuel IH]; intros i tried u data Hok Hlen Hfuel n; [lia|]. cbn [receive_loop].
  change (0 &? USB_RECV_PARTIAL) with false. change (0 &? USB_RECV_NONBLOCK) with false. cbn [andb negb]. rewrite !andb_true_r.
  destruct (Z.ltb_spec (Z.of_nat (length data)) size) as [Hlt|Hge].
  2:{ exists u. replace n with 0%nat by lia. by rewrite take_0, drop_0, app_nil_r. }
  destruct (receive_pass_spec size (Z.of_nat (length data)) u Hok) as (got & u1 & E & Hok1 & Hgot & Hc1 & Hp1); [lia..|].
  fold n in Hgot, Hc1. run_prog. rewrite E. destruct (ep1_irq_keeps u1 Hok1) as [Hok2 Hs2].
  assert (Hs1 : stream u = got ++ stream u1) by (unfold stream; rewrite Hc1, Hp1, app_assoc, Hgot, take_drop; done).
  destruct (decide (n ≤ length (contents (ep1o u)))%nat) as [Hn|Hn].
  - assert (Hg : length got = n) by (rewrite Hgot, length_take; lia). destruct fuel as [|fuel]; [lia|].
    exists (ep1_irq u1). rewrite receive_loop_done by (rewrite length_app; lia). rewrite Hs2, Hs1, <- Hg, take_app_length, drop_app_length. done.
  - assert (Hg : got = contents (ep1o u)) by (rewrite Hgot; apply take_ge; lia).
    destruct (ep1_irq_takes u1 Hok1) as [_ Hp2]; [rewrite Hc1; apply drop_ge; lia|].
    assert (ep1_packets u ≠ []) as Hpne.
    { intros Ep. unfold stream in Hlen. rewrite Ep, length_app in Hlen. cbn in Hlen. lia. }
    destruct (IH (S i) true (ep1_irq u1) (data ++ got)) as (u' & E' & Hok' & Hs'); [done| | |].
    + rewrite Hs2, length_app. rewrite Hs1, length_app in Hlen. rewrite Hg in *. lia.
    + rewrite Hp2, Hp1. destruct (ep1_packets u); [done|]. cbn in *. lia.
    + exists u'. rewrite E', Hs', Hs2, Hs1, length_app.
      replace (Z.to_nat (size - Z.of_nat (length data + length got))) with (n - length got)%nat by lia.
      rewrite take_app_ge, drop_app_ge, <- app_assoc by (rewrite Hg; lia). done.
Qed.
End receive.

(** C35: A blocking receive on endpoint 1, while the host keeps sending, returns the
    next bytes the host sent, in order and as many as were asked for; no byte is lost
    or given twice, also when packets find the FIFO full and the interrupt is
    disabled. *)
Theorem usb_receive_delivers {D} (call_setup : ptr → usb_setup → D → prog (Z * D)) `{!SetupKeepsStream call_setup} call_recv d fuel size u :
  ep1_ok u → 0 ≤ size < 2 ^ 31 → size ≤ Z.of_nat (length (stream u)) → (length (ep1_packets u) + 2 ≤ fuel)%nat →
  ∃ u', usb_receive fuel (λ _, ep1_irq call_setup call_recv d) USB_EP_ADDR_EP1OUT size 0 u = Some ((size, take (Z.to_nat size) (stream u)), u') ∧
    ep1_ok u' ∧ stream u' = drop (Z.to_nat size) (stream u).
Proof.
  intros Hok Hsz Hlen Hfuel.
  destruct (receive_loop_spec call_setup call_recv d size fuel (proj2 Hsz) 0 false u [] Hok) as (u' & E & Hok' & Hs'); [cbn; lia|done|].
  cbn [length Z.of_nat app] in E, Hs'. rewrite Z.sub_0_r in E, Hs'. exists u'.
  unfold usb_receive. change ((USB_EP_ADDR_EP1OUT =? USB_EP_ADDR_EP0OUT) || (USB_EP_ADDR_EP1OUT =? USB_EP_ADDR_EP1OUT)) with true. run_prog.
  rewrite E, length_take, Nat.min_l, Z2Nat.id by lia. done.
Qed.

Definition ignore_setup (cb : ptr) (s : usb_setup) (d : ()) : prog (Z * ()) := mret (0, d).
#[export] Instance ignore_setup_keeps : SetupKeepsStream ignore_setup.
Proof. intros cb s d. apply keeps_ret, _. Qed.

(** Twelve packets of 60 bytes, more than the FIFO holds; 650 bytes are asked for. *)
Definition demo_usb : usb :=
  mk_usb (mk_fifo 128 0 0 (replicate 128 0)) (mk_fifo 512 0 0 (replicate 512 0)) NULL NULL 0xCF 0x01
    (replicate 12 (seqZ 0 60)) [] [] [] false.

Lemma usb_receive_delivers_witness : ∃ u',
  usb_receive 20 (λ _, ep1_irq ignore_setup (λ _ _ d, mret d) ()) USB_EP_ADDR_EP1OUT 650 0 demo_usb =
    Some ((650, take (Z.to_nat 650) (stream demo_usb)), u') ∧
  ep1_ok u' ∧ stream u' = drop (Z.to_nat 650) (stream demo_usb).
Proof.
  apply (usb_receive_delivers ignore_setup (λ _ _ d, mret d) () 20 650 demo_usb).
  - split_and!; [done|split_and!; vm_compute; done|done| |left; done].
    by_computation.
  - lia.
  - vm_compute. done.
  - cbn. lia.
Defined.

(** ** The packets sent *)

(** The packets of endpoint 0 in the writes of the driver: the bytes put in its FIFO
    before each trigger. *)
Fixpoint ep0_sent (w : list usb_write) (cur : list Z) : list (list Z) :=
  match w with
  | [] => []
  | EPDR0i b :: w => ep0_sent w (cur ++ [b])
  | Trg EP0iPKTE :: w => cur :: ep0_sent w []
  | _ :: w => ep0_sent w cur
  end.

(** A control transfer: full packets, then a shorter one, which ends it. *)
Definition transfer (bytes : list Z) (packets : list (list Z)) : Prop :=
  ∃ full last, packets = full ++ [last] ∧ Forall (λ p, length p = 8%nat) full ∧ (length last < 8)%nat ∧ concat full ++ last = bytes.

(** The writes [w] send [ps], and the reads of the status all see the end of a packet. *)
Definition sends (ps : list (list Z)) (u u' : usb) : Prop :=
  ∃ w acks rest, u' = set_ep0_reads rest (add_writes w u) ∧ ep0_reads u = acks ++ rest ∧ length acks = length ps ∧
    ∀ more, ep0_sent (w ++ more) [] = ps ++ ep0_sent more [].

Definition acked (n : nat) (u : usb) : Prop := (n ≤ length (ep0_reads u))%nat ∧ Forall (λ r, r.1.1 = true) (take n (ep0_reads u)).

Lemma ep0_sent_data bytes more cur : ep0_sent (map EPDR0i bytes ++ more) cur = ep0_sent more (cur ++ bytes).
Proof.
  revert cur. induction bytes as [|b bytes IH]; intros cur; [by rewrite app_nil_r|].
  cbn [map app ep0_sent]. by rewrite IH, <- app_assoc.
Qed.

Lemma add_writes_add w1 w2 u : add_writes w2 (add_writes w1 u) = add_writes (w1 ++ w2) u.
Proof. unfold add_writes. cbn. by rewrite app_assoc. Qed.

Lemma add_writes_nil u : add_writes [] u = u.
Proof. unfold add_writes. rewrite app_nil_r. by destruct u. Qed.

Lemma sends_trans ps1 ps2 u1 u2 u3 : sends ps1 u1 u2 → sends ps2 u2 u3 → sends (ps1 ++ ps2) u1 u3.
Proof.
  intros (w1 & a1 & r1 & -> & E1 & L1 & H1) (w2 & a2 & r2 & -> & E2 & L2 & H2). cbn in E2. subst r1.
  exists (w1 ++ w2), (a1 ++ a2), r2. split_and!.
  - unfold set_ep0_reads, add_writes. cbn. by rewrite app_assoc.
  - by rewrite <- app_assoc.
  - rewrite !length_app. lia.
  - intros more. by rewrite <- app_assoc, H1, H2, app_assoc.
Qed.

(** One packet and the wait for its end. *)
Definition send_packet (bytes : list Z) : prog bool :=
  _ ← out (map EPDR0i bytes);
  _ ← out [Ifr EP0iTS; Ifr EP0iTR; Trg EP0iPKTE];
  error ← wait0;
  _ ← out [Ifr EP0iTS; Ifr EP0iTR];
  mret error.

Lemma send_packet_spec bytes u : acked 1 u → ∃ u', send_packet bytes u = Some (false, u') ∧ sends [bytes] u u'.
Proof.
  intros [Hl Hr]. destruct (ep0_reads u) as [|[[ts b] v] reads] eqn:E; [cbn in Hl; lia|]. inversion_clear Hr as [|?? Hts _]. cbn in Hts. subst ts.
  unfold send_packet, wait0. run_prog. cbn [ep0_reads add_writes]. rewrite E. cbn [wait_ep0].
  eexists; split; [done|]. exists (map EPDR0i bytes ++ [Ifr EP0iTS; Ifr EP0iTR; Trg EP0iPKTE; Ifr EP0iTS; Ifr EP0iTR]), [(true, b, v)], reads.
  split_and!; [|done|done|intros more; by rewrite <- app_assoc, ep0_sent_data].
  unfold add_writes, set_ep0_reads. cbn. by rewrite <- !app_assoc.
Qed.

Lemma acked_after ps n u u' : sends ps u u' → acked (length ps + n) u → acked n u'.
Proof.
  intros (w & a & r & -> & E & <- & _) [Hl Hr]. unfold acked. cbn. rewrite E in Hl, Hr. rewrite length_app in Hl.
  rewrite take_app_add' in Hr by done. apply Forall_app in Hr as [_ Hr]. split; [lia|done].
Qed.

Lemma send_packet_bind {A} bytes (K : bool → prog A) u :
  (_ ← out (map EPDR0i bytes); _ ← out [Ifr EP0iTS; Ifr EP0iTR; Trg EP0iPKTE]; error ← wait0; _ ← out [Ifr EP0iTS; Ifr EP0iTR]; K error) u =
  (send_packet bytes ≫= K) u.
Proof. unfold send_packet. run_prog. by destruct (wait0 _) as [[e u']|]. Qed.

Lemma seqZ_cut nb m i : 0 ≤ i ≤ m → seqZ nb m = map (λ j, nb + j) (seqZ 0 i) ++ seqZ (nb + i) (m - i).
Proof.
  intros H. replace m with (i + (m - i)) at 1 by lia. rewrite seqZ_app by lia. f_equal.
  change (map (λ j, nb + j) (seqZ 0 i)) with (Z.add nb <$> seqZ 0 i). by rewrite fmap_add_seqZ, Z.add_0_r.
Qed.

Lemma sends_nil u : sends [] u u.
Proof. exists [], [], (ep0_reads u). split_and!; [|done..]. destruct u. unfold set_ep0_reads, add_writes. cbn. by rewrite app_nil_r. Qed.

(** The shape of what remains to send: full packets, and a short one when the size
    is not a multiple of 8. *)
Definition cut (m : Z) (ps : list (list Z)) : Prop :=
  ∃ full short, ps = full ++ short ∧ Forall (λ p, length p = 8%nat) full ∧
    (if m mod 8 =? 0 then short = [] else ∃ p, short = [p] ∧ (length p < 8)%nat).

Lemma cut_full m p ps : length p = 8%nat → cut (m - 8) ps → cut m (p :: ps).
Proof.
  intros Hp (full & short & -> & Hf & Hs). exists (p :: full), short. split; [done|]. split; [by apply Forall_cons_2|].
  replace (m - 8) with (m + (-1) * 8) in Hs by lia. by rewrite Z.mod_add in Hs by lia.
Qed.

Lemma send_loop_spec data max_size fuel : ∀ nb u, 0 ≤ nb ≤ max_size → (Z.to_nat (max_size - nb) < fuel)%nat →
  acked (Z.to_nat ((max_size - nb + 7) / 8)) u →
  ∃ ps u', send_loop_ep0 fuel data max_size nb false u = Some ((max_size, false), u') ∧ sends ps u u' ∧
    length ps = Z.to_nat ((max_size - nb + 7) / 8) ∧ concat ps = map data (seqZ nb (max_size - nb)) ∧ cut (max_size - nb) ps.
Proof.
  induction fuel as [|fuel IH]; intros nb u Hnb Hf Hack; [lia|]. cbn [send_loop_ep0]. cbn [negb]. rewrite andb_true_r.
  destruct (Z.ltb_spec nb max_size) as [Hlt|Hge].
  2:{ replace nb with max_size by lia. exists [], u. rewrite Z.sub_diag. split_and!; [done|apply sends_nil|done|done|]. by exists [], []. }
  set (i := Z.min 8 (max_size - nb)). set (bytes := map (λ j, data (nb + j)) (seqZ 0 i)).
  assert (Hlb : length bytes = Z.to_nat i) by (unfold bytes; rewrite length_map, length_seqZ; done).
  rewrite <- (map_map (λ j, data (nb + j)) EPDR0i). fold bytes. rewrite send_packet_bind.
  assert (Hk : (max_size - nb + 7) / 8 = (max_size - (nb + i) + 7) / 8 + 1).
  { unfold i. destruct (Z.min_spec 8 (max_size - nb)) as [[? ->]|[? ->]].
    - rewrite <- Z.div_add by lia. f_equal. lia.
    - replace (max_size - (nb + (max_size - nb)) + 7) with 7 by lia. change (7 / 8 + 1) with 1.
      symmetry. apply (Z.div_unique _ _ _ (max_size - nb - 1)); lia. }
  assert (0 ≤ (max_size - (nb + i) + 7) / 8) by (apply Z.div_pos; lia).
  rewrite Hk, Z2Nat.inj_add, Nat.add_comm in * by lia.
  assert (Ha1 : acked 1 u). { destruct Hack as [Hl Hr]. cbn in Hl. split; [lia|]. destruct (ep0_reads u); [by apply Forall_nil_2|]. inversion_clear Hr. cbn. rewrite take_0. by apply Forall_singleton. }
  destruct (send_packet_spec bytes u Ha1) as (u1 & E1 & H1). run_prog. rewrite E1.
  destruct (IH (nb + i) u1) as (ps & u' & E2 & H2 & Hl2 & Hc2 & Hcut); [lia|lia|by apply (acked_after [bytes] _ u)|].
  exists (bytes :: ps), u'. split; [exact E2|]. split; [exact (sends_trans [bytes] ps _ _ _ H1 H2)|]. split; [cbn; by rewrite Hl2|]. split.
  - cbn. rewrite Hc2, (seqZ_cut nb (max_size - nb) i), map_app, map_map by lia. do 3 f_equal. lia.
  - destruct (decide (8 ≤ max_size - nb)).
    + apply cut_full; [lia|]. by replace (max_size - nb - 8) with (max_size - (nb + i)) by lia.
    + replace i with (max_size - nb) in * by lia. destruct ps as [|p ps].
      2:{ replace (max_size - (nb + (max_size - nb)) + 7) with 7 in Hl2 by lia. done. }
      exists [], [bytes]. split; [done|]. split; [by apply Forall_nil_2|].
      rewrite Z.mod_small by lia. rewrite (proj2 (Z.eqb_neq _ _)) by lia. exists bytes. split; [done|lia].
Qed.

Lemma acked_le n m u : (n ≤ m)%nat → acked m u → acked n u.
Proof.
  intros Hle [Hl Hr]. split; [lia|]. replace n with (Nat.min n m) by lia. rewrite <- take_take. by apply Forall_take.
Qed.

Lemma packet_count n : 0 ≤ n → (n + 7) / 8 = if n mod 8 =? 0 then n / 8 else n / 8 + 1.
Proof.
  intros Hn. pose proof (Z.div_mod n 8 ltac:(lia)). pose proof (Z.mod_pos_bound n 8 ltac:(lia)).
  destruct (Z.eqb_spec (n mod 8) 0); symmetry.
  - apply (Z.div_unique _ _ _ 7); lia.
  - apply (Z.div_unique _ _ _ (n mod 8 - 1)); lia.
Qed.

Lemma send_ep0_spec data n u :
  0 ≤ n < 2 ^ 31 → acked (S (Z.to_nat (n / 8))) u →
  ∃ u' ps, usb_send USB_EP_ADDR_EP0IN data n u = Some (n, u') ∧ sends ps u u' ∧ transfer (map data (seqZ 0 n)) ps.
Proof.
  intros Hn Hack. unfold usb_send. change (USB_EP_ADDR_EP0IN =? USB_EP_ADDR_EP2IN) with false. change (USB_EP_ADDR_EP0IN =? USB_EP_ADDR_EP0IN) with true.
  cbv iota. rewrite s32_small by lia. unfold usb_send_sync_ep0. pose proof (Z.div_pos n 8 ltac:(lia) ltac:(lia)).
  pose proof (packet_count n ltac:(lia)) as Hk.
  destruct (send_loop_spec data n (S (Z.to_nat n)) 0 u) as (ps & u1 & E & H1 & Hl & Hc & full & short & -> & Hfull & Hs); [lia|lia| |].
  { eapply acked_le; [|exact Hack]. rewrite Z.sub_0_r, Hk. destruct (_ =? _); lia. }
  rewrite Z.sub_0_r in *. rewrite concat_app in Hc. run_prog. rewrite E. cbn [negb andb]. rewrite Z.rem_mod_nonneg by lia.
  destruct (Z.eqb_spec (n mod 8) 0) as [Hz|Hz].
  - subst short. rewrite app_nil_r in *.
    destruct (send_packet_spec [] u1) as (u2 & E2 & H2); [eapply (acked_after full); [exact H1|]|].
    { eapply acked_le; [|exact Hack]. rewrite Hl, Hk. lia. }
    exists u2, (full ++ [[]]). split; [|split; [by eapply sends_trans|]].
    + revert E2. unfold send_packet. run_prog. cbn [map]. rewrite add_writes_nil.
      destruct (wait0 (add_writes _ u1)) as [[e u']|]; [|done]. intros [= -> <-]. done.
    + exists full, []. split_and!; [done|done|cbn; lia|]. by rewrite app_nil_r.
  - destruct Hs as (p & -> & Hp). exists u1, (full ++ [p]). split; [done|]. split; [done|].
    exists full, p. split_and!; [done..|]. cbn in Hc. by rewrite app_nil_r in Hc.
Qed.

(** Sending bytes on endpoint 0, when the controller reports the end of each packet
    at the first look, makes the control transfer of these bytes: packets of 8 bytes
    and a last shorter one, possibly empty, whose bytes together are the data; the
    call returns the size. *)
Theorem usb_send_control_transfer data n u :
  0 ≤ n < 2 ^ 31 → acked (S (Z.to_nat (n / 8))) u →
  ∃ u' ps, usb_send USB_EP_ADDR_EP0IN data n u = Some (n, u') ∧ sends ps u u' ∧ transfer (map data (seqZ 0 n)) ps.
Proof. apply send_ep0_spec. Qed.

Lemma usb_send_control_transfer_witness : ∃ u' ps,
  usb_send USB_EP_ADDR_EP0IN (λ i, i) 16 (set_ep0_reads (replicate 3 (true, false, false)) demo_usb) = Some (16, u') ∧
  sends ps (set_ep0_reads (replicate 3 (true, false, false)) demo_usb) u' ∧ transfer (map (λ i, i) (seqZ 0 16)) ps.
Proof.
  apply (usb_send_control_transfer (λ i, i) 16 (set_ep0_reads (replicate 3 (true, false, false)) demo_usb)).
  - lia.
  - split; [vm_compute; lia|]. by_computation.
Defined.

(** While a packet is being sent and the bus is not being reset, the test of the wait
    takes this for an error: the transfer stops after its first packet unless it ends
    before the first look, which the delay before it is for. *)
Lemma usb_send_fails_without_reset data n u vbusmn reads :
  0 < n < 2 ^ 31 → ep0_reads u = (false, false, vbusmn) :: reads →
  ∃ u' w, usb_send USB_EP_ADDR_EP0IN data n u = Some (-1, u') ∧ trace u' = trace u ++ w ∧
    ep0_sent w [] = [map data (seqZ 0 (Z.min 8 n))].
Proof.
  intros Hn Hr. unfold usb_send. change (USB_EP_ADDR_EP0IN =? USB_EP_ADDR_EP2IN) with false. change (USB_EP_ADDR_EP0IN =? USB_EP_ADDR_EP0IN) with true.
  cbv iota. rewrite s32_small by lia. unfold usb_send_sync_ep0. destruct (Z.to_nat n) as [|f] eqn:Ef; [lia|].
  cbn [send_loop_ep0]. rewrite (proj2 (Z.ltb_lt 0 n)) by lia. cbn [andb negb]. unfold wait0. run_prog.
  cbn [ep0_reads add_writes]. rewrite Hr. cbn [wait_ep0 negb orb]. rewrite andb_false_r. cbn [negb andb].
  eexists _, (map (λ j, EPDR0i (data (0 + j))) (seqZ 0 (Z.min 8 n)) ++ [Ifr EP0iTS; Ifr EP0iTR; Trg EP0iPKTE; Ifr EP0iTS; Ifr EP0iTR]).
  split; [done|]. split; [cbn; by rewrite <- !app_assoc, Z.sub_0_r|].
  rewrite <- (map_map data EPDR0i), ep0_sent_data. done.
Qed.

(** The packets of endpoint 2. *)
Fixpoint ep2_sent (w : list usb_write) (cur : list Z) : list (list Z) :=
  match w with
  | [] => []
  | EPDR2 b :: w => ep2_sent w (cur ++ [b])
  | Trg EP2PKTE :: w => cur :: ep2_sent w []
  | _ :: w => ep2_sent w cur
  end.

Lemma ep2_sent_data bytes more cur : ep2_sent (map EPDR2 bytes ++ more) cur = ep2_sent more (cur ++ bytes).
Proof.
  revert cur. induction bytes as [|b bytes IH]; intros cur; [by rewrite app_nil_r|].
  cbn [map app ep2_sent]. by rewrite IH, <- app_assoc.
Qed.

Lemma wait_ep2_spec k rest after : wait_ep2 (replicate k false ++ true :: rest) after = Some rest.
Proof. by induction k. Qed.

(** At most 64 bytes go in one packet; a second, empty one follows when the endpoint
    is still empty. *)
Lemma usb_send_bulk data n u k e rest :
  0 < n ≤ 64 → ep2_reads u = replicate k false ++ true :: e :: rest →
  usb_send USB_EP_ADDR_EP2IN data n u =
    Some (n, set_ep2_reads rest (add_writes (map EPDR2 (map data (seqZ 0 n)) ++ Trg EP2PKTE :: if e : bool then [Trg EP2PKTE] else []) u)).
Proof.
  intros Hn Hr. unfold usb_send. change (USB_EP_ADDR_EP2IN =? USB_EP_ADDR_EP2IN) with true. cbv iota. rewrite s32_small by lia.
  unfold usb_send_sync_ep2. destruct (Z.to_nat n) as [|f] eqn:Ef; [lia|]. cbn [send_loop_ep2].
  rewrite (proj2 (Z.ltb_lt 0 n)), (proj2 (Z.ltb_ge (0 + 64) n)) by lia. unfold wait2, read_ep2empty. run_prog.
  rewrite Hr, wait_ep2_spec. cbn [ep2_reads set_ep2_reads add_writes]. rewrite Z.min_l, <- (map_map data EPDR2) by lia.
  change (λ x, data (0 + x)) with data.
  destruct e; unfold set_ep2_reads, add_writes; cbn; rewrite <- !app_assoc; done.
Qed.

(** With 65 bytes, two packets of 64 bytes are sent: 63 bytes behind the data. *)
Example usb_send_bulk_overruns :
  (λ p, ep2_sent (trace p.2) []) <$> usb_send USB_EP_ADDR_EP2IN (λ i, i) 65 (set_ep2_reads [true; true; false] demo_usb) =
  Some [seqZ 0 64; seqZ 64 64].
Proof. vm_compute. reflexivity. Qed.

(** ** Endpoints *)

(** The choice keeps what was asked for. *)
Definition meets (e e' : usb_endpoint_ability) : Prop :=
  attributes e' = attributes e ∧ ep_max_size e ≤ ep_max_size e' ∧ Z.land (endpoint e') 0x80 = endpoint e.

Definition unused (ep1 ep2 ep3 : bool) : list Z :=
  (if ep1 then [] else [USB_EP_ADDR_EP1OUT]) ++ (if ep2 then [] else [USB_EP_ADDR_EP2IN]) ++ (if ep3 then [] else [USB_EP_ADDR_EP3IN]).

(** What the choice of a list of endpoints in [L] gives. *)
Definition chosen (L : list Z) (eps eps' : list usb_endpoint_ability) : Prop :=
  Forall2 meets eps eps' ∧ NoDup (map endpoint eps') ∧ (∀ a, a ∈ map endpoint eps' → a ∈ L).

Lemma chosen_cons L L' e e' eps eps' : meets e e' → chosen L' eps eps' →
  (∀ a, a ∈ L' → a ∈ L) → endpoint e' ∈ L → endpoint e' ∉ L' → chosen L (e :: eps) (e' :: eps').
Proof.
  intros Hm (Hf & Hn & Hl) Hsub Hin Hnot. split_and!.
  - by constructor.
  - cbn. apply NoDup_cons. split; [|done]. intros H%Hl. done.
  - intros a. cbn. rewrite elem_of_cons. intros [->|H%Hl]; [done|by apply Hsub].
Qed.

Lemma unused_sub ep1 ep2 ep3 a :
  (a ∈ unused true ep2 ep3 → a ∈ unused ep1 ep2 ep3) ∧ (a ∈ unused ep1 true ep3 → a ∈ unused ep1 ep2 ep3) ∧
  (a ∈ unused ep1 ep2 true → a ∈ unused ep1 ep2 ep3).
Proof. unfold unused. rewrite !elem_of_app. destruct ep1, ep2, ep3; set_solver. Qed.

Lemma find_endpoints_spec eps : ∀ ep1 ep2 ep3 eps', find_endpoints eps ep1 ep2 ep3 = (0, eps') →
  chosen (unused ep1 ep2 ep3) eps eps'.
Proof.
  induction eps as [|e eps IH]; intros ep1 ep2 ep3 eps' H; cbn [find_endpoints] in H.
  { simplify_eq. split; [constructor|]. split; [constructor|]. intros a Ha. by apply elem_of_nil in Ha. }
  repeat case_match; simplify_eq; breflect; subst;
    match goal with E : find_endpoints _ _ _ _ = _ |- _ => apply IH in E; eapply chosen_cons; [|exact E|intros a; apply unused_sub| |] end; cbn [endpoint].
  1, 4, 7: split_and!; cbn [attributes ep_max_size endpoint]; [done|lia|]; match goal with E : endpoint _ = _ |- _ => rewrite E end; reflexivity.
  all: repeat match goal with b : bool |- _ => destruct b end; by_computation.
Qed.

(** When a configuration of endpoints is found, the endpoints are distinct, and each
    has the direction and the type that was asked for and at least the size. *)
Theorem usb_find_endpoint_config_correct eps eps' :
  usb_find_endpoint_config eps = (0, eps') → chosen (unused false false false) eps eps'.
Proof. apply find_endpoints_spec. Qed.

(** An interrupt endpoint and the two bulk ones. *)
Lemma usb_find_endpoint_config_correct_witness :
  chosen (unused false false false) [mk_ability 0x80 3 8; mk_ability 0x80 2 8; mk_ability 0 2 8]
    [mk_ability 0x83 3 8; mk_ability 0x82 2 64; mk_ability 1 2 64].
Proof. apply (usb_find_endpoint_config_correct _ _). vm_compute. reflexivity. Defined.

(** ** What sending changes *)

(** Only the writes and the reads of the status differ. *)
Definition io_only : relation usb := λ u u',
  ep0o u' = ep0o u ∧ ep1o u' = ep1o u ∧ setup_callback u' = setup_callback u ∧ ep1_callback u' = ep1_callback u ∧
  ier0 u' = ier0 u ∧ ier1 u' = ier1 u ∧ ep1_packets u' = ep1_packets u ∧ ep2_then u' = ep2_then u.
#[export] Instance io_only_pre : PreOrder io_only.
Proof. split; [by intros u; split_and!|]. intros u v w (? & ? & ? & ? & ? & ? & ? & ?) (? & ? & ? & ? & ? & ? & ? & ?). split_and!; congruence. Qed.

Lemma io_only_out w : keeps io_only (out w).
Proof. by apply keeps_update; intros u; split_and!. Qed.

Lemma io_only_wait0 : keeps io_only wait0.
Proof. intros u e u' H. unfold wait0 in H. destruct (wait_ep0 _) as [[e' r]|]; simplify_eq/=. by split_and!. Qed.

Lemma io_only_wait2 : keeps io_only wait2.
Proof. intros u e u' H. unfold wait2 in H. destruct (wait_ep2 _ _) as [r|]; simplify_eq/=. by split_and!. Qed.

Lemma io_only_read : keeps io_only read_ep2empty.
Proof. intros u e u' H. unfold read_ep2empty in H. case_match; simplify_eq/=; by split_and!. Qed.

Ltac io_only_tac := repeat first
  [ apply io_only_out | apply io_only_wait0 | apply io_only_wait2 | apply io_only_read
  | apply keeps_ret; apply _ | apply keeps_bind; [apply _| |intros ?] ].

Lemma io_only_loop0 fuel data n : ∀ nb e, keeps io_only (send_loop_ep0 fuel data n nb e).
Proof.
  induction fuel as [|fuel IH]; intros nb e; [by intros u x u'|]. cbn [send_loop_ep0]. case_match; [|io_only_tac].
  io_only_tac. apply IH.
Qed.

Lemma io_only_loop2 fuel data n : ∀ total, keeps io_only (send_loop_ep2 fuel data n total).
Proof.
  induction fuel as [|fuel IH]; intros total; [by intros u x u'|]. cbn [send_loop_ep2]. case_match; [|io_only_tac].
  io_only_tac. apply IH.
Qed.

Lemma usb_send_io_only ep data n : keeps io_only (usb_send ep data n).
Proof.
  unfold usb_send. repeat case_match; [| |io_only_tac].
  - unfold usb_send_sync_ep2. apply keeps_bind; [apply _|apply io_only_loop2|intros _]. io_only_tac. case_match; io_only_tac.
  - unfold usb_send_sync_ep0. apply keeps_bind; [apply _|apply io_only_loop0|intros [nb e]]. io_only_tac. case_match; io_only_tac.
Qed.

Lemma io_only_keep_stream u u' : io_only u u' → keep_stream u u'.
Proof.
  intros (_ & H1 & _ & H2 & H3 & _ & H4 & _) (Hc & Hf & Hm & Hp & He). unfold stream, ep1_ok, enabled in *. cbn in *. rewrite H1, H2, H3, H4. done.
Qed.

(** The transmission on endpoint 2 ends when the controller empties it. *)
Lemma wait_ep2_ends reads : wait_ep2 reads true ≠ None.
Proof. induction reads as [|[] reads IH]; done. Qed.

Lemma send_loop_ep2_ends fuel data n : ∀ total u, 0 ≤ total → (Z.to_nat (n - total) < fuel)%nat → ep2_then u = true →
  send_loop_ep2 fuel data n total u ≠ None.
Proof.
  induction fuel as [|fuel IH]; intros total u Ht Hf Hu; [lia|]. cbn [send_loop_ep2]. destruct (Z.ltb_spec total n); [|done].
  unfold wait2. run_prog. rewrite Hu. destruct (wait_ep2 (ep2_reads u) true) eqn:E; [|by apply wait_ep2_ends in E].
  apply IH; [lia|lia|done].
Qed.

Lemma send_ep2_ends data n u : ep2_then u = true → ∃ r u', usb_send USB_EP_ADDR_EP2IN data n u = Some (r, u') ∧ io_only u u'.
Proof.
  intros Hu. destruct (usb_send USB_EP_ADDR_EP2IN data n u) as [[r u']|] eqn:E; [exists r, u'; split; [done|by eapply usb_send_io_only]|exfalso].
  unfold usb_send in E. change (USB_EP_ADDR_EP2IN =? USB_EP_ADDR_EP2IN) with true in E. cbv iota in E.
  unfold usb_send_sync_ep2 in E. revert E. run_prog.
  destruct (send_loop_ep2 _ _ _ _ _) as [[[] u1]|] eqn:El; [|intros _; revert El; apply send_loop_ep2_ends; [lia|lia|done]].
  unfold read_ep2empty. destruct (ep2_reads u1) as [|b r]; [|by destruct b]. by destruct (ep2_then u1).
Qed.
