(* ===== verification/CdcAcm.v ===== *)
(** * The USB serial terminal (src/device/usb/cdc_acm/)

    The descriptors a host reads to find a CDC/ACM device, the handler of its SETUP
    requests, and the terminal above: the bytes of endpoint 1 are the input of a
    terminal and what it writes goes to endpoint 2.

    Structures are given with the bytes they have in memory, on a big-endian processor
    that aligns words on even addresses. *)

From S2P Require Import Prelude CyclicFifo Kernel Tty Device Usb.

(** ** Constants *)

(** src/device/usb/usb_device_protocol.h:35-35: USB_DESC_DEV_TYPE *)
Definition USB_DESC_DEV_TYPE : Z := 0x01.
(** src/device/usb/usb_device_protocol.h:38-38: USB_DESC_CONFIG_TYPE *)
Definition USB_DESC_CONFIG_TYPE : Z := 0x02.
(** src/device/usb/usb_device_protocol.h:41-41: USB_DESC_STRING_TYPE *)
Definition USB_DESC_STRING_TYPE : Z := 0x03.
(** src/device/usb/usb_device_protocol.h:42-42: USB_DESC_STRING_LENGTH *)
Definition USB_DESC_STRING_LENGTH : Z := 2.
(** src/device/usb/usb_device_protocol.h:44-44: USB_DESC_INTER_TYPE *)
Definition USB_DESC_INTER_TYPE : Z := 0x04.
(** src/device/usb/usb_device_protocol.h:47-47: USB_DESC_EP_TYPE *)
Definition USB_DESC_EP_TYPE : Z := 0x05.
(** src/device/usb/usb_device_protocol.h:50-50: USB_DESC_DEVQUAL_TYPE *)
Definition USB_DESC_DEVQUAL_TYPE : Z := 0x06.
(** src/device/usb/usb_device_protocol.h:57-57: USB_STRING_LANG_EN_US *)
Definition USB_STRING_LANG_EN_US : Z := 0x0409.
(** src/device/usb/usb_device_protocol.h:201-201: USB_CONF_ATTR_SELFPOW *)
Definition USB_CONF_ATTR_SELFPOW : Z := 0xC0.
(** src/device/usb/usb_device_protocol.h:207-207: USB_SETUP_REQ_GET_DESCRIPTOR *)
Definition USB_SETUP_REQ_GET_DESCRIPTOR : Z := 0x06.
(** src/device/usb/usb_device_protocol.h:217-218: USB_WORD_TO *)
Definition USB_WORD_TO (x : Z) : Z := Z.lor (Z.shiftr (Z.land x 0xFF00) 8) (Z.shiftl (Z.land x 0xFF) 8).
(** src/device/usb/usb_device_protocol.h:218-218: USB_WORD_FROM *)
Definition USB_WORD_FROM (x : Z) : Z := Z.lor (Z.shiftr (Z.land x 0xFF00) 8) (Z.shiftl (Z.land x 0xFF) 8).
(** src/device/usb/usb_device_protocol.h:221-221: USB_DWORD_TO *)
Definition USB_DWORD_TO (x : Z) : Z :=
  Z.lor (Z.lor (Z.lor (Z.shiftr x 24) (Z.shiftr (Z.land x 0x00FF0000) 8)) (Z.shiftl (Z.land x 0x0000FF00) 8)) (Z.shiftl (Z.land x 0x000000FF) 24).

(** src/device/usb/communication_class.h:29-31: CDC_DEV_CLASS *)
Definition CDC_DEV_CLASS : Z := 2.
(** src/device/usb/communication_class.h:34-36: CDC_INT_CLASS *)
Definition CDC_INT_CLASS : Z := 2.
(** src/device/usb/communication_class.h:38-40: CDC_INT_DATA_CLASS *)
Definition CDC_INT_DATA_CLASS : Z := 10.
(** src/device/usb/communication_class.h:43-43: CDC_BCD_VERS *)
Definition CDC_BCD_VERS : Z := 0x0110.
(** src/device/usb/communication_class.h:47-47: CDC_REQ_SET_LINE_CODING *)
Definition CDC_REQ_SET_LINE_CODING : Z := 0x20.
(** src/device/usb/communication_class.h:48-48: CDC_REQ_GET_LINE_CODING *)
Definition CDC_REQ_GET_LINE_CODING : Z := 0x21.
(** src/device/usb/communication_class.h:49-49: CDC_REQ_SET_CONTROL_LINE_STATE *)
Definition CDC_REQ_SET_CONTROL_LINE_STATE : Z := 0x22.
(** src/device/usb/communication_class.h:73-74: CDC_CAP_SEND_BREAK *)
Definition CDC_CAPS : Z := Z.lor 0x04 0x02.
(** src/device/usb/communication_class.h:77-77: CDC_DESC_FUNCTIONNAL_TYPE *)
Definition CDC_DESC_FUNCTIONNAL_TYPE : Z := 0x24.

(** ** Descriptors *)

(** A 16-bit and a 32-bit field in memory. *)
Definition be16 (w : Z) : list Z := [Z.shiftr w 8; Z.land w 0xFF].
Definition be32 (w : Z) : list Z := be16 (Z.shiftr w 16) ++ be16 (Z.land w 0xFFFF).

(** src/device/usb/cdc_acm/cdc_acm.c:38-56: _desc *)
Definition _desc : list Z :=
  [18; USB_DESC_DEV_TYPE] ++ be16 (USB_WORD_TO 0x0200) ++ [CDC_DEV_CLASS; 0; 0; 8] ++
  be16 (USB_WORD_TO 0x2341) ++ be16 (USB_WORD_TO 0x0001) ++ be16 (USB_WORD_TO 0x0001) ++ [1; 2; 0; 1].

(** src/device/usb/cdc_acm/cdc_acm.c:58-68: _confdesc *)
Definition _confdesc : list Z :=
  [9; USB_DESC_CONFIG_TYPE] ++ be16 (USB_WORD_TO (9 + 9+7+5+4+5 + 9+7+7)) ++ [2; 1; 0; USB_CONF_ATTR_SELFPOW; 50].

(** src/device/usb/cdc_acm/cdc_acm.c:72-82: _intdesc1 *)
Definition _intdesc1 : list Z := [9; USB_DESC_INTER_TYPE; 0; 0; 1; CDC_INT_CLASS; 2; 1; 0].

(** src/device/usb/cdc_acm/cdc_acm.c:85-95: _intdesc2 *)
Definition _intdesc2 : list Z := [9; USB_DESC_INTER_TYPE; 1; 0; 2; CDC_INT_DATA_CLASS; 0; 0; 0].

(** src/device/usb/usb_device_protocol.h: usb_endpoint_desc *)
Record usb_endpoint_desc := mk_epdesc { b_endpoint_addr : Z; bm_attributes : Z; w_max_packet_size : Z; b_interval : Z }.

(** The length and the type do not change. *)
Definition ep_bytes (e : usb_endpoint_desc) : list Z :=
  [7; USB_DESC_EP_TYPE; b_endpoint_addr e; bm_attributes e] ++ be16 (w_max_packet_size e) ++ [b_interval e].

(** src/device/usb/cdc_acm/cdc_acm.c:134-144: _devqualdesc *)
Definition _devqualdesc : list Z :=
  [10; USB_DESC_DEVQUAL_TYPE] ++ be16 (USB_WORD_TO 0x0200) ++ [CDC_DEV_CLASS; 0; 0; 8; 1; 0].

(** A byte of padding puts the word on an even address. *)
(** src/device/usb/cdc_acm/cdc_acm.c:148-151: _cdc_header *)
Definition _cdc_header : list Z := [3 + 2; CDC_DESC_FUNCTIONNAL_TYPE; 0x00; 0] ++ be16 (USB_WORD_FROM CDC_BCD_VERS).

(** src/device/usb/cdc_acm/cdc_acm.c:153-156: _cdc_cap *)
Definition _cdc_cap : list Z := [3 + 1; CDC_DESC_FUNCTIONNAL_TYPE; 0x02; CDC_CAPS].

(** src/device/usb/cdc_acm/cdc_acm.c:158-162: _cdc_union *)
Definition _cdc_union : list Z := [3 + 2; CDC_DESC_FUNCTIONNAL_TYPE; 0x06; 0; 1].

(** src/device/usb/cdc_acm/cdc_acm.c:319-324: cdc_acm_setup_other *)
Definition _line_coding : list Z := be32 (USB_DWORD_TO 9600) ++ [0; 0; 8].

Definition utf16 (s : list Z) : list Z := flat_map (λ c, [c; 0]) s.
(** src/device/usb/cdc_acm/cdc_acm.c:216-216: cdc_acm_setup_getdescriptor *)
Definition manufacturer_uni : list Z := utf16 (text "Hippie Uncompany").
(** src/device/usb/cdc_acm/cdc_acm.c:217-217: cdc_acm_setup_getdescriptor *)
Definition product_uni : list Z := utf16 (text "FiXos Serial emulator").

(** ** State and operations *)

(** src/device/usb/cdc_acm/cdc_acm.c:32-36: _cdc_acm_configured *)
Record cdc := mk_cdc {
  configured : Z;
  epdesc1 : usb_endpoint_desc;
  epdesc2 : usb_endpoint_desc;
  epdesc3 : usb_endpoint_desc;
  cdc_endpoints : list usb_endpoint_ability;
  usbBuffer : list Z
}.

Definition set_configured v c := mk_cdc v (epdesc1 c) (epdesc2 c) (epdesc3 c) (cdc_endpoints c) (usbBuffer c).
Definition set_usbBuffer v c := mk_cdc (configured c) (epdesc1 c) (epdesc2 c) (epdesc3 c) (cdc_endpoints c) v.

(** The static variables at start. *)
(** src/device/usb/cdc_acm/cdc_acm.c:103-174: _cdc_enpoints *)
Definition cdc0 : cdc :=
  mk_cdc 0 (mk_epdesc 0 USB_EP_ATTR_BULK (USB_WORD_TO 64) 1) (mk_epdesc 0 USB_EP_ATTR_BULK (USB_WORD_TO 64) 1)
    (mk_epdesc 0 USB_EP_ATTR_INTER (USB_WORD_TO 8) 255)
    [mk_ability USB_EP_DIR_IN USB_EP_ATTR_INTER 8; mk_ability USB_EP_DIR_IN USB_EP_ATTR_BULK 8; mk_ability USB_EP_DIR_OUT USB_EP_ATTR_BULK 8]
    (replicate 100 0).

Definition ability_at (eps : list usb_endpoint_ability) (i : nat) : usb_endpoint_ability := nth i eps (mk_ability 0 0 0).
Definition set_ep (e : usb_endpoint_ability) (d : usb_endpoint_desc) : usb_endpoint_desc :=
  mk_epdesc (endpoint e) (bm_attributes d) (USB_WORD_TO (ep_max_size e)) (b_interval d).

(** [handler] is the address of [cdc_acm_setup_handler]. *)
(** src/device/usb/cdc_acm/cdc_acm.c: cdc_acm_init *)
Definition cdc_acm_init (handler : ptr) (c : cdc) : prog cdc :=
  let '(ret, eps) := usb_find_endpoint_config (cdc_endpoints c) in
  if ret =? 0 then
    _ ← usb_set_setup_callback handler;
    mret (mk_cdc (configured c) (set_ep (ability_at eps 2) (epdesc1 c)) (set_ep (ability_at eps 1) (epdesc2 c))
            (set_ep (ability_at eps 0) (epdesc3 c)) eps (usbBuffer c))
  else mret (mk_cdc (configured c) (epdesc1 c) (epdesc2 c) (epdesc3 c) eps (usbBuffer c)).

(** [memcpy(usbBuffer + nbbuf, desc, len)] then [nbbuf += len], with the length that
    the first byte of the descriptor gives. *)
(** src/device/usb/cdc_acm/cdc_acm.c:236-237: cdc_acm_setup_getdescriptor *)
Definition put_desc (desc : list Z) (s : list Z * Z) : list Z * Z :=
  let '(buf, nbbuf) := s in
  let len := aget desc 0 in
  (memcpy_to buf (Z.to_nat nbbuf) (memcpy_from desc 0 (Z.to_nat len)), nbbuf + len).

(** src/device/usb/cdc_acm/cdc_acm.c:235-258: cdc_acm_setup_getdescriptor *)
Definition put_config (c : cdc) : list Z * Z :=
  put_desc (ep_bytes (epdesc2 c)) (put_desc (ep_bytes (epdesc1 c)) (put_desc _intdesc2
    (put_desc (ep_bytes (epdesc3 c)) (put_desc _cdc_union (put_desc _cdc_cap (put_desc _cdc_header
      (put_desc _intdesc1 (put_desc _confdesc (usbBuffer c, 0))))))))).

(** A string descriptor: its header, then its contents. *)
(** src/device/usb/cdc_acm/cdc_acm.c:282-285: cdc_acm_setup_getdescriptor *)
Definition put_string (s : list Z) (buf : list Z) : list Z * Z :=
  let b_length := u8 (USB_DESC_STRING_LENGTH + Z.of_nat (length s)) in
  (memcpy_to (memcpy_to buf 0 [b_length; USB_DESC_STRING_TYPE]) 2 s, b_length).

(** src/device/usb/cdc_acm/cdc_acm.c: cdc_acm_setup_getdescriptor *)
Definition cdc_acm_setup_getdescriptor (setup : usb_setup) (c : cdc) : prog (Z * cdc) :=
  let data_size := USB_WORD_FROM (w_length setup) in
  let desc_type := Z.shiftr (USB_WORD_FROM (w_value setup)) 8 in
  let desc_index := Z.land (USB_WORD_FROM (w_value setup)) 0xFF in
  if desc_type =? USB_DESC_DEV_TYPE then
    _ ← usb_send USB_EP_ADDR_EP0IN (aget _desc) (aget _desc 0);
    mret (0, c)
  else if desc_type =? USB_DESC_CONFIG_TYPE then
    let '(buf, nbbuf) := put_config c in
    let nbbuf := if data_size <? nbbuf then data_size else nbbuf in
    _ ← usb_send USB_EP_ADDR_EP0IN (aget buf) nbbuf;
    mret (0, set_usbBuffer buf c)
  else if desc_type =? USB_DESC_STRING_TYPE then
    let '(buf, tosend) :=
      if desc_index =? 0 then put_string (be16 (USB_WORD_TO USB_STRING_LANG_EN_US)) (usbBuffer c)
      else if desc_index =? 1 then put_string manufacturer_uni (usbBuffer c)
      else if desc_index =? 2 then put_string product_uni (usbBuffer c)
      else (usbBuffer c, 0) in
    if negb (tosend =? 0) then
      _ ← usb_send USB_EP_ADDR_EP0IN (aget buf) tosend;
      mret (0, set_usbBuffer buf c)
    else mret (-1, c)
  else if desc_type =? USB_DESC_INTER_TYPE then mret (-1, c)
  else if desc_type =? USB_DESC_EP_TYPE then mret (-1, c)
  else if desc_type =? USB_DESC_DEVQUAL_TYPE then
    _ ← usb_send USB_EP_ADDR_EP0IN (aget _devqualdesc) (aget _devqualdesc 0);
    mret (0, c)
  else mret (-1, c).

(** src/device/usb/cdc_acm/cdc_acm.c: cdc_acm_setup_other *)
Definition cdc_acm_setup_other (setup : usb_setup) (c : cdc) : prog (Z * cdc) :=
  if b_request setup =? CDC_REQ_SET_LINE_CODING then
    _ ← usb_send USB_EP_ADDR_EP0IN (aget []) 0;
    mret (0, c)
  else if b_request setup =? CDC_REQ_GET_LINE_CODING then
    _ ← usb_send USB_EP_ADDR_EP0IN (aget _line_coding) 7;
    mret (0, c)
  else if b_request setup =? CDC_REQ_SET_CONTROL_LINE_STATE then
    let c := set_configured 1 c in
    _ ← usb_send USB_EP_ADDR_EP0IN (aget []) 0;
    mret (0, c)
  else mret (-1, c).

(** src/device/usb/cdc_acm/cdc_acm.c: cdc_acm_setup_handler *)
Definition cdc_acm_setup_handler (setup : usb_setup) (c : cdc) : prog (Z * cdc) :=
  if b_request setup =? USB_SETUP_REQ_GET_DESCRIPTOR then cdc_acm_setup_getdescriptor setup c else cdc_acm_setup_other setup c.

(** src/device/usb/cdc_acm/cdc_acm.c: cdc_acm_is_ready *)
Definition cdc_acm_is_ready (c : cdc) : Z := if negb (configured c =? 0) then 1 else 0.

(** src/device/usb/cdc_acm/cdc_acm.c: cdc_acm_send *)
Definition cdc_acm_send (data : Z → Z) (size : Z) (c : cdc) : prog Z :=
  if negb (configured c =? 0) then usb_send (b_endpoint_addr (epdesc2 c)) data size else mret 0.

(** src/device/usb/cdc_acm/cdc_acm.c: cdc_acm_receive *)
Definition cdc_acm_receive (fuel : nat) (between : nat → usb → usb) (size : Z) (c : cdc) : prog (Z * list Z) :=
  if negb (configured c =? 0) then usb_receive fuel between (b_endpoint_addr (epdesc1 c)) size 0 else mret (0, []).

(** src/device/usb/cdc_acm/cdc_acm.c: cdc_acm_set_receive_callback *)
Definition cdc_acm_set_receive_callback (callback : ptr) (c : cdc) : prog () :=
  usb_set_receive_callback (Z.land (b_endpoint_addr (epdesc1 c)) 0x0F) callback.

(** ** The terminal *)

(** The driver of the terminal; [None] when a write did not return. *)
Definition acm_state : Type := option (usb * cdc).

(** src/device/usb/cdc_acm/acm_device.c: acm_tty_is_ready *)
Definition acm_tty_is_ready (d : acm_state) : Z := match d with Some (_, c) => cdc_acm_is_ready c | None => 0 end.

(** src/device/usb/cdc_acm/acm_device.c: acm_tty_write *)
Definition acm_tty_write (data : list Z) (d : acm_state) : Z * acm_state :=
  match d with
  | None => (0, None)
  | Some (u, c) =>
      if negb (cdc_acm_is_ready c =? 0) then
        match cdc_acm_send (aget data) (Z.of_nat (length data)) c u with
        | Some (ret, u) => (ret, Some (u, c))
        | None => (0, None)
        end
      else (- EIO, d)
  end.

(** src/device/usb/cdc_acm/acm_device.c: acm_tty_putchar *)
Definition acm_tty_putchar (c : Z) (d : acm_state) : Z * acm_state := (0, (acm_tty_write [u8 c] d).2).

(** src/device/usb/cdc_acm/acm_device.c:33-39: _acm_tty_ops *)
Definition _acm_tty_ops : tty_ops acm_state :=
  mk_tty_ops (Some acm_tty_is_ready) (Some acm_tty_write) acm_tty_putchar None None None None None None None.

(** src/device/usb/cdc_acm/acm_device.h:31-31: ACM_USB_TTY_MINOR *)
Definition ACM_USB_TTY_MINOR : Z := 6.

(** [setup_handler] and [input_char] are the addresses of the callbacks and [self] of
    the terminal; [stale] is what its input buffer held. *)
(** src/device/usb/cdc_acm/acm_device.c: acm_usb_init *)
Definition acm_usb_init (setup_handler input_char self : ptr) (stale : list Z) (t : tty) (minors : list ptr) (c : cdc) : prog (cdc * tty * list ptr) :=
  let t := tty_default_init stale t in
  c ← cdc_acm_init setup_handler c;
  _ ← cdc_acm_set_receive_callback input_char c;
  mret (c, t, (ttydev_set_minor ACM_USB_TTY_MINOR self minors).2).

Section callbacks.
Context {A : Type}.

(** What the callbacks work on. *)
Definition acm : Type := cdc * tty * kernel A.

(** src/device/usb/cdc_acm/acm_device.c: acm_input_char *)
Definition acm_input_char (ch : Z) (s : acm) : prog acm := λ u,
  let '(c, t, k) := s in
  let '(_, t, d, k) := tty_input_char _acm_tty_ops ch t (Some (u, c)) k in
  '(u, c) ← d; Some ((c, t, k), u).

(** The functions at the addresses registered by [acm_usb_init]. *)
Definition acm_setup (_ : ptr) (setup : usb_setup) (s : acm) : prog (Z * acm) :=
  let '(c, t, k) := s in
  '(ret, c) ← cdc_acm_setup_handler setup c;
  mret (ret, (c, t, k)).
Definition acm_recv (_ : ptr) (ch : Z) (s : acm) : prog acm := acm_input_char ch s.

(** The interrupt handler with the terminal above it. *)
Definition acm_interrupt (raised : flag → bool) (setup_bytes ep0_bytes : list Z) (s : acm) : prog acm :=
  usb_sh3_interrupt_handler acm_setup acm_recv raised setup_bytes ep0_bytes s.
End callbacks.

(** ** Lemmas *)

Lemma lor_high a b : 0 ≤ a < 256 → 0 ≤ b → Z.lor a (Z.shiftl b 8) = b * 256 + a.
Proof.
  intros Ha Hb. assert (Hz : Z.land a (Z.shiftl b 8) = 0).
  { apply Z.bits_inj'; intros n Hn. rewrite Z.land_spec, Z.shiftl_spec, Z.bits_0 by lia.
    destruct (decide (n < 8)); [rewrite (Z.testbit_neg_r b) by lia; apply andb_false_r|].
    replace a with (a mod 2 ^ 8) by (apply Z.mod_small; lia). by rewrite Z.mod_pow2_bits_high by lia. }
  rewrite <- Z.lxor_lor, <- Z.add_nocarry_lxor by done. rewrite Z.shiftl_mul_pow2 by lia. change (2 ^ 8) with 256. lia.
Qed.

(** The two bytes of a word of the bus, the low one first. *)
Lemma word_from lo hi : 0 ≤ lo < 256 → 0 ≤ hi < 256 → USB_WORD_FROM (lo * 256 + hi) = hi * 256 + lo.
Proof.
  intros Hl Hh. unfold USB_WORD_FROM. rewrite Z.shiftr_land. change (Z.shiftr 0xFF00 8) with (Z.ones 8). change 0xFF with (Z.ones 8).
  rewrite !Z.land_ones, Z.shiftr_div_pow2 by lia. change (2 ^ 8) with 256.
  rewrite Z.div_add_l, (Z.div_small hi), Z.add_0_r, (Z.mod_small lo), (Z.add_comm (lo * 256)), Z.mod_add, (Z.mod_small hi) by lia.
  apply lor_high; lia.
Qed.

(** Copying a descriptor behind what the buffer holds. *)
Lemma put_desc_spec desc pre rest : 0 ≤ aget desc 0 → (Z.to_nat (aget desc 0) ≤ length desc)%nat → (Z.to_nat (aget desc 0) ≤ length rest)%nat →
  put_desc desc (pre ++ rest, Z.of_nat (length pre)) =
    ((pre ++ take (Z.to_nat (aget desc 0)) desc) ++ drop (Z.to_nat (aget desc 0)) rest,
     Z.of_nat (length (pre ++ take (Z.to_nat (aget desc 0)) desc))).
Proof.
  intros H0 Hd Hr. unfold put_desc, memcpy_from. rewrite drop_0, memcpy_to_app; [|lia|rewrite length_take; lia].
  rewrite length_take, Nat.min_l, length_app, length_take, Nat.min_l, <- app_assoc by lia. f_equal. lia.
Qed.

(** The configuration the host receives: the descriptors one after the other. *)
Definition config_bytes (c : cdc) : list Z :=
  _confdesc ++ _intdesc1 ++ take 5 _cdc_header ++ _cdc_cap ++ _cdc_union ++ ep_bytes (epdesc3 c) ++
  _intdesc2 ++ ep_bytes (epdesc1 c) ++ ep_bytes (epdesc2 c).

Lemma put_config_spec c : length (usbBuffer c) = 100%nat →
  put_config c = (config_bytes c ++ drop 62 (usbBuffer c), 62).
Proof.
  intros Hb. unfold put_config. change (usbBuffer c, 0) with ([] ++ usbBuffer c, Z.of_nat (length (@nil Z))).
  do 9 (rewrite put_desc_spec; [|vm_compute; by intros [=]|vm_compute; lia|rewrite ?length_drop, Hb; vm_compute; lia]).
  rewrite !drop_drop. reflexivity.
Qed.

(** What a host finds when it follows the lengths. *)
Fixpoint walk (fuel : nat) (b : list Z) : list (list Z) :=
  match fuel, b with
  | S fuel, len :: _ => take (Z.to_nat len) b :: walk fuel (drop (Z.to_nat len) b)
  | _, _ => []
  end.

Lemma map_aget_take l n : (n ≤ length l)%nat → map (aget l) (seqZ 0 (Z.of_nat n)) = take n l.
Proof.
  intros Hn. apply list_eq. intros i. rewrite list_lookup_fmap. destruct (decide (i < n)%nat) as [Hi|Hi].
  - rewrite lookup_seqZ_lt by lia. cbn. rewrite lookup_take_lt by done. destruct (lookup_lt_is_Some_2 l i) as [x Hx]; [lia|].
    rewrite Hx. f_equal. apply aget_lookup. rewrite <- Hx. f_equal. lia.
  - rewrite lookup_seqZ_ge by lia. symmetry. apply lookup_take_ge. lia.
Qed.

Lemma config_walk c : walk 9 (config_bytes c) =
    [_confdesc; _intdesc1; take 5 _cdc_header; _cdc_cap; _cdc_union; ep_bytes (epdesc3 c); _intdesc2; ep_bytes (epdesc1 c); ep_bytes (epdesc2 c)] ∧
  concat (walk 9 (config_bytes c)) = config_bytes c ∧
  aget (config_bytes c) 2 + 256 * aget (config_bytes c) 3 = Z.of_nat (length (config_bytes c)).
Proof. split_and!; reflexivity. Qed.

(** C36: A GET_DESCRIPTOR request for the configuration is answered by a control transfer
    of the first bytes of the configuration, as many as the host asked for.  The
    configuration is a chain of nine descriptors that a host which follows their lengths
    finds again, and its total length is the one its header declares. *)
Theorem cdc_config_transfer c u bm index i0 i1 lo hi :
  let asked := hi * 256 + lo in
  length (usbBuffer c) = 100%nat → 0 ≤ index < 256 → 0 ≤ lo < 256 → 0 ≤ hi < 256 →
  acked (S (Z.to_nat (Z.min asked 62 / 8))) u →
  (∃ u' c' ps, cdc_acm_setup_handler (setup_of [bm; USB_SETUP_REQ_GET_DESCRIPTOR; index; USB_DESC_CONFIG_TYPE; i0; i1; lo; hi]) c u = Some ((0, c'), u') ∧
     sends ps u u' ∧ transfer (take (Z.to_nat asked) (config_bytes c)) ps) ∧
  walk 9 (config_bytes c) =
    [_confdesc; _intdesc1; take 5 _cdc_header; _cdc_cap; _cdc_union; ep_bytes (epdesc3 c); _intdesc2; ep_bytes (epdesc1 c); ep_bytes (epdesc2 c)] ∧
  concat (walk 9 (config_bytes c)) = config_bytes c ∧
  aget (config_bytes c) 2 + 256 * aget (config_bytes c) 3 = Z.of_nat (length (config_bytes c)).
Proof.
  intros asked Hb Hi Hlo Hhi Hack. split; [|apply config_walk].
  unfold cdc_acm_setup_handler, cdc_acm_setup_getdescriptor. unfold setup_of. cbn [b_request w_value w_length].
  change (aget _ 1 =? USB_SETUP_REQ_GET_DESCRIPTOR) with true. cbv iota.
  change (aget _ 2 * 256 + aget _ (2 + 1)) with (index * 256 + 2). change (aget _ 6 * 256 + aget _ (6 + 1)) with (lo * 256 + hi).
  rewrite !word_from by lia. rewrite (Z.shiftr_div_pow2 _ 8) by lia. change (2 ^ 8) with 256. rewrite Z.div_add_l, (Z.div_small index), Z.add_0_r by lia.
  change (2 =? USB_DESC_DEV_TYPE) with false. change (2 =? USB_DESC_CONFIG_TYPE) with true. cbv iota.
  rewrite put_config_spec by done. fold asked. cbv beta iota.
  replace (if asked <? 62 then asked else 62) with (Z.min asked 62) by (destruct (Z.ltb_spec asked 62); lia).
  destruct (send_ep0_spec (aget (config_bytes c ++ drop 62 (usbBuffer c))) (Z.min asked 62) u) as (u' & ps & E & Hs & Ht); [lia|done|].
  eexists u', _, ps. run_prog. rewrite E. split; [done|]. split; [done|].
  rewrite <- (Z2Nat.id (Z.min asked 62)), map_aget_take, take_app_le in Ht by (rewrite ?length_app; change (length (config_bytes c)) with 62%nat; lia).
  destruct (Z.min_spec asked 62) as [[? Em]|[? Em]]; rewrite Em in Ht; [done|].
  rewrite take_ge in Ht by (change (length (config_bytes c)) with 62%nat; lia).
  rewrite take_ge by (change (length (config_bytes c)) with 62%nat; lia). done.
Qed.

Lemma cdc_config_transfer_witness :
  let u := set_ep0_reads (replicate 8 (true, false, false)) demo_usb in
  (∃ u' c' ps, cdc_acm_setup_handler (setup_of [0x80; 6; 0; 2; 0; 0; 255; 0]) cdc0 u = Some ((0, c'), u') ∧
     sends ps u u' ∧ transfer (take 255 (config_bytes cdc0)) ps) ∧
  walk 9 (config_bytes cdc0) =
    [_confdesc; _intdesc1; take 5 _cdc_header; _cdc_cap; _cdc_union; ep_bytes (epdesc3 cdc0); _intdesc2; ep_bytes (epdesc1 cdc0); ep_bytes (epdesc2 cdc0)] ∧
  concat (walk 9 (config_bytes cdc0)) = config_bytes cdc0 ∧
  aget (config_bytes cdc0) 2 + 256 * aget (config_bytes cdc0) 3 = Z.of_nat (length (config_bytes cdc0)).
Proof.
  apply (cdc_config_transfer cdc0 (set_ep0_reads (replicate 8 (true, false, false)) demo_usb) 0x80 0 0 0 255 0); [done|lia|lia|lia|].
  split; [vm_compute; lia|]. by_computation.
Defined.

(** The header of the CDC descriptors is copied with its padding: the version the host
    reads is 0x1000 where 0x0110 is meant. *)
Example cdc_header_misaligned : take 5 _cdc_header = [5; 0x24; 0; 0; 0x10].
Proof. reflexivity. Qed.

(** ** SETUP requests leave endpoint 1 alone *)

Lemma setup_io_only setup c : keeps io_only (cdc_acm_setup_handler setup c).
Proof.
  unfold cdc_acm_setup_handler, cdc_acm_setup_getdescriptor, cdc_acm_setup_other.
  repeat case_match; first [apply keeps_ret, _|apply keeps_bind; [apply _|apply usb_send_io_only|intros ?; apply keeps_ret, _]].
Qed.

#[export] Instance acm_setup_keeps {A} : SetupKeepsStream (acm_setup (A := A)).
Proof.
  intros cb s [[c t] k]. apply keeps_bind; [apply _| |intros [r c']; apply keeps_ret, _].
  intros u x u' H%setup_io_only. by apply io_only_keep_stream.
Qed.

(** ** Input of the terminal *)

(** The driver answers, and only its writes and reads of the status have changed. *)
Definition answers (u : usb) (c : cdc) (d : acm_state) : Prop := ∃ u', d = Some (u', c) ∧ io_only u u'.

Section input.
Context {A : Type} (u : usb) (c : cdc) (Hthen : ep2_then u = true) (Hep : b_endpoint_addr (epdesc2 c) = USB_EP_ADDR_EP2IN).

Lemma acm_write_answers data d : answers u c d → answers u c (acm_tty_write data d).2.
Proof.
  intros (u' & -> & Hio). unfold acm_tty_write. case_match; [|by exists u'].
  unfold cdc_acm_send. destruct (negb (configured c =? 0)); [|by exists u']. rewrite Hep.
  destruct (send_ep2_ends (aget data) (Z.of_nat (length data)) u') as (r & u1 & -> & Hio1).
  { destruct Hio as (_ & _ & _ & _ & _ & _ & _ & ->). done. }
  exists u1. split; [done|]. by transitivity u'.
Qed.

Lemma acm_char_spec ch t (k : kernel A) : tty_wf t → sleepers_queued t k →
  ∃ t' k' u', acm_input_char ch (c, t, k) u = Some ((c, t', k'), u') ∧ io_only u u' ∧
    tty_wf t' ∧ sleepers_queued t' k' ∧ ios t' = ios t ∧ view t' = edit (ios t) ch (view t).
Proof.
  intros Hwf Hs. unfold acm_input_char.
  pose proof (input_char_spec _acm_tty_ops ch t (Some (u, c)) k Hwf Hs) as H1.
  pose proof (input_char_keeps _acm_tty_ops (answers u c) (λ ch d, acm_write_answers [u8 ch] d) acm_write_answers ch t (Some (u, c)) k) as H2.
  destruct (tty_input_char _ _ _ _ _) as [[[r t1] d1] k1]. cbn [fst snd] in H2. destruct H2 as (u' & -> & Hio); [by exists u|].
  destruct H1 as (_ & Hwf1 & Hs1 & Hi1 & Hv1). exists t1, k1, u'. by split_and!.
Qed.
End input.

Lemma acm_recv_all {A} cb bytes : ∀ u c t (k : kernel A), ep2_then u = true → b_endpoint_addr (epdesc2 c) = USB_EP_ADDR_EP2IN →
  tty_wf t → sleepers_queued t k →
  ∃ t' k' u', call_recv_all acm_recv cb bytes (c, t, k) u = Some ((c, t', k'), u') ∧ io_only u u' ∧
    tty_wf t' ∧ sleepers_queued t' k' ∧ ios t' = ios t ∧ view t' = foldl (λ s b, edit (ios t) (s8 b) s) (view t) bytes.
Proof.
  induction bytes as [|b bytes IH]; intros u c t k Hu Hep Hwf Hs; cbn [call_recv_all foldl].
  { exists t, k, u. by split_and!. }
  destruct (acm_char_spec u c Hu Hep (s8 b) t k Hwf Hs) as (t1 & k1 & u1 & E1 & Hio1 & Hwf1 & Hs1 & Hi1 & Hv1).
  run_prog. unfold acm_recv at 1. rewrite E1.
  destruct (IH u1 c t1 k1) as (t2 & k2 & u2 & E2 & Hio2 & Hwf2 & Hs2 & Hi2 & Hv2); [|done..|].
  { destruct Hio1 as (_ & _ & _ & _ & _ & _ & _ & ->). done. }
  exists t2, k2, u2. split_and!; [done|by transitivity u1|done|done|congruence|]. by rewrite Hv2, Hi1, Hv1.
Qed.


(** "ls" and a carriage return, on a configured terminal. *)
Definition acm_usb : usb := set_ep1_packets [text "ls" ++ [13]] (set_ep1_cb 0x88001000
  (mk_usb (mk_fifo 128 0 0 (replicate 128 0)) (mk_fifo 512 0 0 (replicate 512 0)) NULL NULL 0xCF 0x01 [] [] [] [] true)).
Definition acm_cdc : cdc := set_configured 1 (default cdc0 (fst <$> cdc_acm_init 0x88002000 cdc0 acm_usb)).


(** ** Output of the terminal *)

(** What is written on the configured USB terminal, up to 64 bytes, is one packet on
    endpoint 2, followed by an empty one when the endpoint is still empty. *)
Theorem acm_terminal_output data u c j e rest :
  configured c ≠ 0 → b_endpoint_addr (epdesc2 c) = USB_EP_ADDR_EP2IN → (0 < length data ≤ 64)%nat →
  ep2_reads u = replicate j false ++ true :: e :: rest →
  ∃ u' w, acm_tty_write data (Some (u, c)) = (Z.of_nat (length data), Some (u', c)) ∧ trace u' = trace u ++ w ∧
    ep2_sent w [] = data :: if e : bool then [[]] else [].
Proof.
  intros Hc Hep Hl Hr. unfold acm_tty_write, cdc_acm_is_ready, cdc_acm_send. rewrite (proj2 (Z.eqb_neq (configured c) 0)) by done. cbn [negb]. rewrite Hep.
  change (negb (1 =? 0)) with true. cbv iota. rewrite (usb_send_bulk _ _ u j e rest); [|lia|exact Hr]. rewrite map_aget_take, take_ge by lia.
  eexists _, _. split; [done|]. split; [done|]. rewrite ep2_sent_data. by destruct e.
Qed.

Lemma acm_terminal_output_witness : ∃ u' w,
  acm_tty_write (text "hello") (Some (set_ep2_reads [false; true; true] acm_usb, acm_cdc)) = (5, Some (u', acm_cdc)) ∧
  trace u' = trace acm_usb ++ w ∧ ep2_sent w [] = [text "hello"; []].
Proof.
  apply (acm_terminal_output (text "hello") (set_ep2_reads [false; true; true] acm_usb) acm_cdc 1 true []).
  - vm_compute. done.
  - vm_compute. done.
  - vm_compute. lia.
  - done.
Defined.
