(* ===== verification/Interrupt.v ===== *)
(** * Interrupts, exceptions and system calls (src/arch/sh/interrupt.c,
    src/arch/sh/exception.c, src/arch/sh/process.c, src/sys/syscall.c)

    The entry points, in assembly, push the interrupted registers on the contexts of
    the current process and call these handlers, which end with a jump: to the next
    task, to a signal handler, or back.  A handler is modelled up to that jump and the
    registers it loads.

    The functions called back and the system calls are parameters; the theorems hold
    for any of them. *)

From S2P Require Import Prelude Kernel Mmu Scheduler Signal Process.

(** ** The status register *)

(** I3-I0, the priority under which interrupts are masked. *)
Definition SR_IMASK : Z := 0x000000F0.

(** src/arch/sh/interrupt.h:105-105: INTERRUPT_PVALUE_LOW *)
Definition INTERRUPT_PVALUE_LOW : Z := 4.
(** src/arch/sh/interrupt.h:108-108: INTERRUPT_PVALUE_CRITICAL *)
Definition INTERRUPT_PVALUE_CRITICAL : Z := 15.

(** The new value of SR. *)
(** src/arch/sh/interrupt.c: arch_int_weak_atomic_block *)
Definition arch_int_weak_atomic_block (mode sr : Z) : Z :=
  let value := if mode =? 0 then INTERRUPT_PVALUE_LOW - 1 else INTERRUPT_PVALUE_CRITICAL - 1 in
  Z.lor (Z.land sr (Z.lnot 0xF0)) (Z.shiftl (Z.land value 0xF) 4).

(** The saved state and the new SR. *)
(** src/arch/sh/interrupt.c: interrupt_atomic_save *)
Definition interrupt_atomic_save (sr : Z) : Z * Z := (Z.land sr 0x000000F0, Z.lor sr 0x000000F0).

(** src/arch/sh/interrupt.c: interrupt_atomic_restore *)
Definition interrupt_atomic_restore (state sr : Z) : Z :=
  Z.lor (Z.land sr (Z.lnot 0x000000F0)) (Z.land state 0x000000F0).

(** src/arch/sh/interrupt.c: interrupt_in_atomic *)
Definition interrupt_in_atomic (sr : Z) : bool := Z.land sr 0x000000F0 =? 0xF0.

(** ** Callbacks *)

(** src/arch/sh/interrupt.h:27-27: INT_TMU0 *)
Definition INT_TMU0 : Z := 0x00.
(** src/arch/sh/interrupt.h:28-28: INT_TMU1 *)
Definition INT_TMU1 : Z := 0x01.
(** src/arch/sh/interrupt.h:29-29: INT_TMU2 *)
Definition INT_TMU2 : Z := 0x02.
(** src/arch/sh/interrupt.h:31-31: INT_PINT_0_7 *)
Definition INT_PINT_0_7 : Z := 0x03.
(** src/arch/sh/interrupt.h:32-32: INT_PINT_8_15 *)
Definition INT_PINT_8_15 : Z := 0x04.
(** src/arch/sh/interrupt.h:34-34: INT_USB *)
Definition INT_USB : Z := 0x05.
(** src/arch/sh/interrupt.h:36-36: INT_RTC_PERIODIC *)
Definition INT_RTC_PERIODIC : Z := 0x06.
(** src/arch/sh/interrupt.h:38-38: INT__NUMBER *)
Definition INT__NUMBER : Z := 0x07.

(** src/arch/sh/interrupt.c: interrupt_set_callback *)
Definition interrupt_set_callback (interruptID : Z) (address : ptr) (callbacks : list ptr) : list ptr :=
  if interruptID <? INT__NUMBER then aset callbacks interruptID address else callbacks.

(** src/arch/sh/interrupt.c: interrupt_get_callback *)
Definition interrupt_get_callback (interruptID : Z) (callbacks : list ptr) : ptr :=
  if interruptID <? INT__NUMBER then aget callbacks interruptID else 0.

(** ** The interrupt handler *)

(** What is written to acknowledge a source: the start bit of a timer, its underflow
    flag, the flags of the pins and of the clock, the flags of the card interface. *)
Inductive ack := STR (timer v : Z) | UNF (timer : Z) | PINT0R | PINT1R | PEF | SDHI_u14.

Definition timer_acks (n : Z) : list ack := [STR n 0; UNF n; STR n 1].

(** The callback of an event and the writes that acknowledge it. *)
(** src/arch/sh/interrupt.c:117-176: interrupt_handler *)
Definition interrupt_source (evt : Z) : option Z * list ack :=
  if evt =? 0x400 then (Some INT_TMU0, timer_acks 0)
  else if evt =? 0x420 then (Some INT_TMU1, timer_acks 1)
  else if evt =? 0x440 then (Some INT_TMU2, timer_acks 2)
  else if evt =? 0x700 then (Some INT_PINT_0_7, [PINT0R])
  else if evt =? 0x720 then (Some INT_PINT_8_15, [PINT1R])
  else if (evt =? 0xA20) || (evt =? 0xA40) then (Some INT_USB, [])
  else if (evt =? 0x4A0) || (evt =? 0x480) then (Some INT_RTC_PERIODIC, [PEF])
  else if evt =? 0xE80 then (None, [SDHI_u14])
  else (None, []).

Section handlers.
Context {A R : Type} (trampoline : Z).
Implicit Types (k : kernel A).

(** The callbacks act on the kernel and on the state [R] of the drivers. *)
Context (call : ptr → kernel A * R → kernel A * R).

(** The end of both handlers, up to the jump: another task, or the current process
    and its signals. *)
(** src/arch/sh/interrupt.c:178-184: interrupt_handler *)
Definition leave_kernel (cur : ptr) k (u : umem) : delivery A :=
  if sched_needed k then let '(k, next) := choose_next k in process_contextjmp trampoline next k u
  else if arch_process_mode k cur =? 1 then signal_deliver_pending trampoline k u
  else Continues k u.

(** The call of the callback of an event, if there is one. *)
(** src/arch/sh/interrupt.c:118-121: interrupt_handler *)
Definition serve (evt : Z) (callbacks : list ptr) (s : kernel A * R) : kernel A * R :=
  match (interrupt_source evt).1 with
  | Some id => let handler := aget callbacks id in if negb (handler =? NULL) then call handler s else s
  | None => s
  end.

(** src/arch/sh/interrupt.c: interrupt_handler *)
Definition interrupt_handler (evt : Z) (callbacks : list ptr) (s : kernel A * R) (u : umem) : delivery A * R * list ack :=
  let s := serve evt callbacks s in
  (leave_kernel (proc_current s.1) s.1 u, s.2, (interrupt_source evt).2).

(** The registers loaded by the jump, which takes the context off the process. *)
(** src/arch/sh/process.c: arch_kernel_contextjmp *)
Definition arch_kernel_contextjmp (proc : ptr) k : option (context * kernel A) :=
  match acnt (k_procs k proc) with
  | [] => None
  | cnt :: previous => Some (cnt, upd_proc proc (set_acnt previous) k)
  end.

(** Where the processor goes on after a handler; [None] when the process ended. *)
Definition resume (d : delivery A) : option (context * kernel A * umem) :=
  match d with
  | Continues k u | Jumps k u => '(cnt, k) ← arch_kernel_contextjmp (proc_current k) k; Some (cnt, k, u)
  | Terminates _ _ => None
  end.

(** What the entry point does with the registers. *)
Definition enter (cnt : context) k : kernel A := upd_proc (proc_current k) (λ p, set_acnt (cnt :: acnt p) p) k.
End handlers.

(** ** System calls *)

(** The functions of the table. *)
Inductive sysfunc :=
| f_open | f_read | f_write | f_fork | f_exit | f_getpid | f_getppid | f_wait | f_execve | f_gettimeofday | f_times
| f_sigaction | f_kill | f_sigprocmask | f_sigreturn | f_pipe2 | f_ioctl | f_dynbind | f_sbrk | f_sysctl_read
| f_sysctl_write | f_nanosleep | f_sysctl_mibname | f_lseek | f_fstat | f_stat | f_getdents | f_close | f_chdir
| f_fchdir | f_setpgid | f_getpgid | f_dup | f_dup2.

(** src/sys/syscall.h:31-31: SYSCALL_NUMBER *)
Definition SYSCALL_NUMBER : Z := 35.

(** src/sys/syscall.c:29-65: _syscall_funcs *)
Definition _syscall_funcs : list (option sysfunc) :=
  [None; Some f_open; Some f_read; Some f_write; Some f_fork; Some f_exit; Some f_getpid; Some f_getppid; Some f_wait;
   Some f_execve; Some f_gettimeofday; Some f_times; Some f_sigaction; Some f_kill; Some f_sigprocmask; Some f_sigreturn;
   Some f_pipe2; Some f_ioctl; Some f_dynbind; Some f_sbrk; Some f_sysctl_read; Some f_sysctl_write; Some f_nanosleep;
   Some f_sysctl_mibname; Some f_lseek; Some f_fstat; Some f_stat; Some f_getdents; Some f_close; Some f_chdir;
   Some f_fchdir; Some f_setpgid; Some f_getpgid; Some f_dup; Some f_dup2].

(** src/sys/syscall.c: syscall_get_function *)
Definition syscall_get_function (sysnum : Z) : option sysfunc :=
  if (0 <=? sysnum) && (sysnum <? SYSCALL_NUMBER) then nth (Z.to_nat sysnum) _syscall_funcs None else None.

(** The numbers user programs are compiled with. *)
(** src/interface/fixos/syscalls.h:25-130: SYSCALL_OPEN *)
Definition syscall_number (f : sysfunc) : Z :=
  match f with
  | f_open => 1 | f_read => 2 | f_write => 3 | f_fork => 4 | f_exit => 5 | f_getpid => 6 | f_getppid => 7 | f_wait => 8
  | f_execve => 9 | f_gettimeofday => 10 | f_times => 11 | f_sigaction => 12 | f_kill => 13 | f_sigprocmask => 14
  | f_sigreturn => 15 | f_pipe2 => 16 | f_ioctl => 17 | f_dynbind => 18 | f_sbrk => 19 | f_sysctl_read => 20
  | f_sysctl_write => 21 | f_nanosleep => 22 | f_sysctl_mibname => 23 | f_lseek => 24 | f_fstat => 25 | f_stat => 26
  | f_getdents => 27 | f_close => 28 | f_chdir => 29 | f_fchdir => 30 | f_setpgid => 31 | f_getpgid => 32 | f_dup => 33
  | f_dup2 => 34
  end.

(** ** The exception handler *)

Inductive oops_cause := AccessViolation | IllegalInstruction | IllegalSlot | DmaError | TlbProtection | TlbMiss.

(** An exception stops the kernel, blocks it, or ends with a jump. *)
Inductive exn_end (A : Type) := Oops (c : oops_cause) | Blocked | Leaves (d : delivery A).
Arguments Oops {A}. Arguments Blocked {A}. Arguments Leaves {A}.

Section exceptions.
Context {A : Type} (trampoline : Z).
Implicit Types (k : kernel A).

(** What a system call does with the registers r4 to r7: its result, or [None] when it
    does not return (exit, execve, sigreturn). *)
Context (sys : sysfunc → Z → Z → Z → Z → kernel A → umem → option (Z * kernel A * umem)).

Definition set_r0 (v : Z) (cnt : context) : context :=
  mk_context (aset (reg cnt) 0 v) (gbr cnt) (macl cnt) (mach cnt) (pc cnt) (sr cnt) (pr cnt).

(** The result is stored in the context that was current when the call was made. *)
(** src/arch/sh/exception.c:68-96: exception_handler *)
Definition trapa (tra : Z) (cur : ptr) k (u : umem) : option (kernel A * umem) :=
  match syscall_get_function (Z.shiftr tra 2) with
  | None => Some (k, u)
  | Some f =>
      match acnt (k_procs k cur) with
      | [] => None
      | cnt :: _ =>
          '(ret, k, u) ← sys f (aget (reg cnt) 4) (aget (reg cnt) 5) (aget (reg cnt) 6) (aget (reg cnt) 7) k u;
          Some (upd_proc cur (λ p, set_acnt (match acnt p with [] => [] | c :: cs => set_r0 ret c :: cs end) p) k, u)
      end
  end.

(** [None] when the system call does not return. *)
(** src/arch/sh/exception.c: exception_handler *)
Definition exception_handler (evt tra : Z) k (u : umem) : option (exn_end A) :=
  let cur := proc_current k in
  let end_ k u := Some (Leaves (leave_kernel trampoline cur k u)) in
  if (evt =? 0x0E0) || (evt =? 0x100) then Some (Oops AccessViolation)
  else if evt =? 0x160 then '(k, u) ← trapa tra cur k u; end_ k u
  else if evt =? 0x180 then Some (Oops IllegalInstruction)
  else if evt =? 0x1A0 then Some (Oops IllegalSlot)
  else if evt =? 0x1E0 then Some Blocked
  else if evt =? 0x5C0 then Some (Oops DmaError)
  else if evt =? 0x080 then end_ k u
  else if (evt =? 0x0A0) || (evt =? 0x0C0) then Some (Oops TlbProtection)
  else if (evt =? 0x040) || (evt =? 0x060) then Some (Oops TlbMiss)
  else end_ k u.
End exceptions.

(** ** The idle task *)

Section idle.
Context {A : Type} (trampoline : Z).
Implicit Types (k : kernel A).

(** The registers the static context does not set are 0. *)
(** src/arch/sh/process.c: arch_init_idle *)
Definition arch_init_idle (arch_idle_func end_stack : Z) (proc : ptr) k : kernel A :=
  let acnt_idle := mk_context (aset (replicate 16 0) 15 end_stack) 0 0 0 arch_idle_func 0x40000000 arch_idle_func in
  upd_proc proc (λ p, set_asid 0xFF (set_sig_blocked 0xFFFFFFFF (set_sig_pending 0 (set_kernel_stack end_stack
    (set_dir_list [] (set_acnt [acnt_idle] p)))))) k.

(** Up to the jump. *)
(** src/sys/scheduler.c: sched_start *)
Definition sched_start (arch_idle_func end_stack : Z) k (u : umem) : delivery A :=
  let k := arch_init_idle arch_idle_func end_stack proc_idle_task k in
  let k := set_started 1 k in
  let k := set_cur_task 0 k in
  let k := set_need_reschedule 1 k in
  process_contextjmp trampoline proc_idle_task k u.
End idle.

(** ** Giving the processor away *)

Section schedule.
Context {A : Type} (trampoline : Z).
Implicit Types (k : kernel A).

(** The context [arch_sched_preempt_task] saves: the registers a call keeps, the address
    it returns to, and for the others what the stack held. *)
(** src/arch/sh/scheduler.S:13-46: arch_sched_preempt_task *)
Definition preempted (stale : context) (cnt : context) : context :=
  mk_context (take 8 (reg stale) ++ drop 8 (reg cnt)) (gbr cnt) (macl cnt) (mach cnt) (pr cnt) (sr cnt) (pr stale).

(** Up to the jump to the next process, with the saved state of the interrupts, which is
    restored when the call returns. *)
(** src/sys/scheduler.c: sched_schedule *)
Definition sched_schedule (stale cnt : context) k (u : umem) : Z * delivery A :=
  let '(atomicsaved, sr') := interrupt_atomic_save (sr cnt) in
  let cnt := mk_context (reg cnt) (gbr cnt) (macl cnt) (mach cnt) (pc cnt) sr' (pr cnt) in
  let k := enter (preempted stale cnt) k in
  let '(k, next) := choose_next k in
  (atomicsaved, process_contextjmp trampoline next k u).

(** The registers after [sched_schedule] returns, from those its context was resumed with. *)
(** src/sys/scheduler.c:114-115: sched_schedule *)
Definition sched_schedule_return (atomicsaved : Z) (cnt : context) : context :=
  mk_context (reg cnt) (gbr cnt) (macl cnt) (mach cnt) (pc cnt) (interrupt_atomic_restore atomicsaved (sr cnt)) (pr cnt).
End schedule.

(** ** Starting *)

(** The sources of interrupts, by the registers of their priorities. *)
(** src/arch/sh/interrupt.h:79-102: INTERRUPT_PRIORITY_IRQ0 *)
Inductive irq_source :=
| IRQ0 | IRQ1 | IRQ2 | IRQ3 | IRQ4 | IRQ5 | PINT0_7 | PINT8_15 | DMAC | SCIF0 | SCIF2 | ADC | USB | TPU0 | TPU1 | TPU2 | TPU3
| TMU0 | TMU1 | TMU2 | TMU3 | RTC | WDT | REF.
#[export] Instance irq_source_eq : EqDecision irq_source. Proof. solve_decision. Defined.

(** The vector base register, and the priorities written, in order. *)
(** src/arch/sh/interrupt.c: interrupt_init *)
Definition interrupt_init (fixos_vbr : ptr) : ptr * list (irq_source * Z) :=
  (fixos_vbr, (λ s, (s, 0)) <$> [IRQ0; IRQ1; IRQ2; IRQ3; IRQ4; IRQ5; PINT0_7; PINT8_15; DMAC; SCIF0; SCIF2; ADC; USB; TPU0; TPU1; TPU2; TPU3;
                               TMU0; TMU1; TMU2; TMU3; RTC; WDT; REF]).

(** ** Lemmas *)

Lemma in_imask n : Z.testbit 0xF0 n = (4 <=? n) && (n <? 8).
Proof.
  destruct (Z.leb_spec 4 n), (Z.ltb_spec n 8); cbn [andb].
  - assert (n = 4 ∨ n = 5 ∨ n = 6 ∨ n = 7) as [->|[->|[->| ->]]] by lia; done.
  - apply Z.bits_above_log2; [lia|]. change (Z.log2 0xF0) with 7. lia.
  - destruct (decide (n < 0)); [by rewrite Z.testbit_neg_r by lia|]. assert (n = 0 ∨ n = 1 ∨ n = 2 ∨ n = 3) as [->|[->|[->| ->]]] by lia; done.
  - lia.
Qed.

(** Restoring what was saved gives back the mask, and leaves the other bits as they
    are at that moment; between the two the interrupts are masked. *)
Lemma atomic_save_restore sr sr' :
  let '(state, sr1) := interrupt_atomic_save sr in
  interrupt_in_atomic sr1 = true ∧
  (∀ n, 0 ≤ n → Z.testbit (interrupt_atomic_restore state sr') n = if (4 <=? n) && (n <? 8) then Z.testbit sr n else Z.testbit sr' n).
Proof.
  cbn. split.
  - apply Z.eqb_eq, Z.bits_inj'. intros n Hn. rewrite Z.land_spec, Z.lor_spec. by destruct (Z.testbit 0xF0 n), (Z.testbit sr n).
  - intros n Hn. unfold interrupt_atomic_restore. rewrite Z.lor_spec, !Z.land_spec, Z.lnot_spec, in_imask by done.
    destruct ((4 <=? n) && (n <? 8)); cbn [negb]; rewrite ?andb_true_r, ?andb_false_r, ?orb_false_r; done.
Qed.

(** The table of the kernel and the numbers of the user programs agree. *)
Lemma syscall_number_roundtrip f : syscall_get_function (syscall_number f) = Some f.
Proof. by destruct f. Qed.

Lemma syscall_function_number n f : syscall_get_function n = Some f → syscall_number f = n.
Proof.
  unfold syscall_get_function. destruct (Z.leb_spec 0 n), (Z.ltb_spec n SYSCALL_NUMBER); cbn [andb]; try done.
  unfold SYSCALL_NUMBER in *. rewrite <- (Z2Nat.id n) at 2 by lia. assert (Hn : (Z.to_nat n < 35)%nat) by lia. revert Hn. generalize (Z.to_nat n). clear. intros m Hm.
  do 35 (destruct m as [|m]; [cbn; intros; simplify_eq; reflexivity|]). lia.
Qed.

Section theorems.
Context {A R : Type} (trampoline : Z).
Implicit Types (k : kernel A).

(** No signal to deliver to the process, or it is in kernel mode. *)
Definition quiet k : Prop := arch_process_mode k (proc_current k) = 1 → signal_pending (k_procs k (proc_current k)) = 0.

Lemma leave_quiet k u : sched_needed k = false → quiet k → leave_kernel trampoline (proc_current k) k u = Continues k u.
Proof.
  intros Hs Hq. unfold leave_kernel. rewrite Hs. destruct (Z.eqb_spec (arch_process_mode k (proc_current k)) 1) as [E|]; [|done].
  unfold signal_deliver_pending. by rewrite (Hq E).
Qed.

Lemma resume_context k cnt cs u : acnt (k_procs k (proc_current k)) = cnt :: cs →
  resume (Continues k u) = Some (cnt, upd_proc (proc_current k) (set_acnt cs) k, u).
Proof. intros E. unfold resume, arch_kernel_contextjmp. by rewrite E. Qed.

Lemma acnt_upd k p f : acnt (k_procs (upd_proc p f k) p) = acnt (f (k_procs k p)).
Proof. by rewrite upd_proc_eq. Qed.

(** An interrupt is invisible to what it interrupts: when no task switch is needed
    and no signal is pending, the handler calls the callback of the source once and the
    processor goes on with the registers it had, whatever the callback did elsewhere. *)
Theorem interrupt_resumes (call : ptr → kernel A * R → kernel A * R) evt callbacks cnt k r u :
  let cur := proc_current k in
  let s := serve call evt callbacks (enter cnt k, r) in
  proc_current s.1 = cur → acnt (k_procs s.1 cur) = cnt :: acnt (k_procs k cur) →
  sched_needed s.1 = false → quiet s.1 →
  let '(d, r', acks) := interrupt_handler trampoline call evt callbacks (enter cnt k, r) u in
  ∃ k', resume d = Some (cnt, k', u) ∧ acnt (k_procs k' cur) = acnt (k_procs k cur) ∧ proc_current k' = cur ∧
    r' = s.2 ∧ (∀ p, p ≠ cur → k_procs k' p = k_procs s.1 p) ∧ acks = (interrupt_source evt).2.
Proof.
  intros cur s Hc Ha Hs Hq. unfold interrupt_handler. fold s. rewrite leave_quiet by done.
  rewrite (resume_context s.1 cnt (acnt (k_procs k cur))) by (by rewrite Hc). rewrite Hc.
  eexists. split; [done|]. split; [by rewrite upd_proc_eq|]. split; [exact Hc|]. split; [done|]. split; [|done].
  intros p Hp. by rewrite upd_proc_ne.
Qed.

(** C38: A system call: the trap calls the function user programs name by that number,
    with the registers r4 to r7; unless a task switch or a signal is due, the program
    goes on with the result in r0 and every other register as it was. *)
Theorem system_call_returns (sys : sysfunc → Z → Z → Z → Z → kernel A → umem → option (Z * kernel A * umem)) f cnt k u ret k1 u1 :
  let cur := proc_current k in
  length (reg cnt) = 16%nat →
  sys f (aget (reg cnt) 4) (aget (reg cnt) 5) (aget (reg cnt) 6) (aget (reg cnt) 7) (enter cnt k) u = Some (ret, k1, u1) →
  proc_current k1 = cur → acnt (k_procs k1 cur) = cnt :: acnt (k_procs k cur) → sched_needed k1 = false → quiet k1 →
  ∃ d cnt' k2, exception_handler trampoline sys 0x160 (4 * syscall_number f) (enter cnt k) u = Some (Leaves d) ∧
    resume d = Some (cnt', k2, u1) ∧ aget (reg cnt') 0 = ret ∧ (∀ i, 0 < i < 16 → aget (reg cnt') i = aget (reg cnt) i) ∧
    pc cnt' = pc cnt ∧ pr cnt' = pr cnt ∧ sr cnt' = sr cnt ∧ gbr cnt' = gbr cnt ∧ macl cnt' = macl cnt ∧ mach cnt' = mach cnt ∧
    acnt (k_procs k2 cur) = acnt (k_procs k cur).
Proof.
  intros cur Hlen Hsys Hc Ha Hs Hq. unfold exception_handler, trapa.
  assert (Hcur : proc_current (enter cnt k) = cur) by done. rewrite Hcur.
  assert (Ee : acnt (k_procs (enter cnt k) cur) = cnt :: acnt (k_procs k cur)) by (unfold enter; by rewrite upd_proc_eq).
  change ((0x160 =? 0x0E0) || (0x160 =? 0x100)) with false. change (0x160 =? 0x160) with true. cbv iota.
  rewrite Z.mul_comm, Z.shiftr_div_pow2, Z.div_mul, syscall_number_roundtrip, Ee, Hsys by (cbn; lia). cbn [mbind option_bind].
  set (k2 := upd_proc cur _ k1). assert (Hc2 : proc_current k2 = cur) by exact Hc.
  assert (Hp2 : k_procs k2 cur = set_acnt (set_r0 ret cnt :: acnt (k_procs k cur)) (k_procs k1 cur)) by (unfold k2; rewrite upd_proc_eq; cbv beta; rewrite Ha; done).
  rewrite <- Hc2. rewrite leave_quiet; [|exact Hs|].
  2:{ intros Hm. rewrite Hc2, Hp2. unfold quiet in Hq. rewrite Hc in Hq. apply Hq. revert Hm. unfold arch_process_mode. rewrite Hc2, Hp2, Ha. done. }
  eexists _, (set_r0 ret cnt), _. split; [done|]. split; [apply resume_context; rewrite Hc2, Hp2; done|].
  split; [apply aget_aset_eq; lia|]. split; [intros i Hi; apply aget_aset_ne; lia|]. split_and!; try done.
  by rewrite Hc2, upd_proc_eq.
Qed.

(** An unknown number changes nothing, in particular not r0. *)
Lemma unknown_system_call (sys : sysfunc → Z → Z → Z → Z → kernel A → umem → option (Z * kernel A * umem)) n k u :
  (∀ f, syscall_number f ≠ n) → trapa sys (4 * n) (proc_current k) k u = Some (k, u).
Proof.
  intros Hn. unfold trapa. rewrite Z.mul_comm, Z.shiftr_div_pow2, Z.div_mul by (cbn; lia).
  destruct (syscall_get_function n) as [f|] eqn:E; [|done]. by apply syscall_function_number, Hn in E.
Qed.

(** C39: when the quantum of the running task ends, the clock interrupt leaves to the
    first runnable task after it, with a new quantum, and to the idle task when there
    is none. *)
Theorem quantum_end_preempts (call : ptr → kernel A * R → kernel A * R) tick k k1 r r1 u callbacks :
  sched_wf k1 → aget callbacks INT_RTC_PERIODIC = tick → tick ≠ NULL → call tick (k, r) = (sched_check k1, r1) →
  started k1 ≠ 0 → preempt_level k1 ≤ 0 → cur_quantum_left k1 ≤ 1 →
  ∃ k2 next, interrupt_handler trampoline call 0x4A0 callbacks (k, r) u = (process_contextjmp trampoline next k2 u, r1, [PEF]) ∧
    cur_quantum_left k2 = SCHED_QUANTUM_TICKS ∧ need_reschedule k2 = 0 ∧ tasks k2 = tasks k1 ∧ k_procs k2 = k_procs k1 ∧
    ((next = proc_idle_task ∧ ∀ s, 0 ≤ s < 10 → runnable k1 (aget (tasks k1) s) = false) ∨
     (∃ d, 1 ≤ d ≤ 10 ∧ next = aget (tasks k1) ((cur_task k1 + d) mod 10) ∧ runnable k1 next = true ∧ cur_task k2 = (cur_task k1 + d) mod 10 ∧
        ∀ i, 1 ≤ i < d → runnable k1 (aget (tasks k1) ((cur_task k1 + i) mod 10)) = false)).
Proof.
  intros Hwf Htick Hnn Hcall Hst Hpre Hq. set (kc := set_need_reschedule 1 (set_cur_quantum_left (cur_quantum_left k1 - 1) k1)).
  assert (Hchk : sched_check k1 = kc).
  { unfold sched_check. rewrite (proj2 (Z.eqb_neq _ _)) by done. cbn [negb]. rewrite (proj2 (Z.leb_le _ _)); [done|]. cbn. lia. }
  rewrite Hchk in Hcall. assert (Hserve : serve call 0x4A0 callbacks (k, r) = (kc, r1)).
  { unfold serve. change (interrupt_source 0x4A0) with (Some INT_RTC_PERIODIC, [PEF]). cbn [fst]. rewrite Htick, (proj2 (Z.eqb_neq _ _)) by done. exact Hcall. }
  unfold interrupt_handler. rewrite Hserve. cbn [fst snd]. change (interrupt_source 0x4A0) with (Some INT_RTC_PERIODIC, [PEF]). cbn [snd].
  unfold leave_kernel. assert (sched_needed kc = true) as ->.
  { unfold sched_needed. change (started kc) with (started k1). change (preempt_level kc) with (preempt_level k1). change (need_reschedule kc) with 1.
    rewrite (proj2 (Z.eqb_neq _ _)), (proj2 (Z.leb_le _ _)) by done. done. }
  pose proof (choose_next_spec kc Hwf) as Hn. destruct (choose_next kc) as [k2 next]. exists k2, next. split; [done|].
  destruct Hn as (_ & Ht & Hp & Hnr & Hcq & Hd). split_and!; [done..|].
  destruct Hd as [(-> & _ & H)|(d & Hd & Hc & Hnx & Hr & H)]; [left; split; [done|exact H]|right].
  exists d. change (cur_task kc) with (cur_task k1) in Hc. rewrite <- Hc. split_and!; [lia|lia|exact Hnx|exact Hr|done|exact H].
Qed.
End theorems.

(** ** Witnesses *)

Definition irq_kernel : kernel () := set_proc_current 16 demo_sched.
Definition no_umem : umem := λ _, 0.

(** A timer interrupt, with a callback that charges a tick to the process. *)
Definition irq_call (_ : ptr) (s : kernel () * ()) : kernel () * () := (upd_proc 16 (λ p, set_uticks (uticks p + 1) p) s.1, s.2).

Lemma interrupt_resumes_witness :
  let '(d, _, acks) := interrupt_handler 0 irq_call 0x400 (replicate 7 0x8800) (enter demo_ctx irq_kernel, ()) no_umem in
  ∃ k', resume d = Some (demo_ctx, k', no_umem) ∧ acnt (k_procs k' 16) = [] ∧ acks = timer_acks 0.
Proof.
  pose proof (interrupt_resumes 0 irq_call 0x400 (replicate 7 0x8800) demo_ctx irq_kernel () no_umem) as H.
  destruct (interrupt_handler _ _ _ _ _ _) as [[d r'] acks].
  destruct H as (k' & Hr & Ha & _ & _ & _ & Hk); [reflexivity|reflexivity|reflexivity|intros _; reflexivity|].
  exists k'. split; [exact Hr|]. split; [exact Ha|exact Hk].
Defined.

(** [getpid], and failure for the other calls. *)
Definition demo_sys (f : sysfunc) (_ _ _ _ : Z) (k : kernel ()) (u : umem) : option (Z * kernel () * umem) :=
  Some (match f with f_getpid => sys_getpid k | _ => -1 end, k, u).

Lemma system_call_returns_witness : ∃ d cnt' k2,
  exception_handler 0 demo_sys 0x160 (4 * 6) (enter demo_ctx (upd_proc 16 (set_pid 42) irq_kernel)) no_umem = Some (Leaves d) ∧
  resume d = Some (cnt', k2, no_umem) ∧ aget (reg cnt') 0 = 42 ∧ pc cnt' = pc demo_ctx.
Proof.
  destruct (system_call_returns 0 demo_sys f_getpid demo_ctx (upd_proc 16 (set_pid 42) irq_kernel) no_umem 42
    (enter demo_ctx (upd_proc 16 (set_pid 42) irq_kernel)) no_umem) as (d & cnt' & k2 & H1 & H2 & H3 & _ & H4 & _);
    [reflexivity|reflexivity|reflexivity|reflexivity|reflexivity|intros _; reflexivity|].
  exists d, cnt', k2. split; [exact H1|]. split; [exact H2|]. split; [exact H3|exact H4].
Defined.

(** The quantum of the task in slot 0 ends; slot 1 sleeps, slot 2 runs next. *)
Lemma quantum_end_preempts_witness : ∃ k2,
  (interrupt_handler 0 (λ _ s, (sched_check s.1, s.2)) 0x4A0 (replicate 7 0x8800) (set_cur_quantum_left 1 irq_kernel, ()) no_umem).1.1 =
    process_contextjmp 0 48 k2 no_umem ∧ cur_quantum_left k2 = SCHED_QUANTUM_TICKS.
Proof.
  destruct (quantum_end_preempts 0 (λ _ s, (sched_check s.1, s.2)) 0x8800 (set_cur_quantum_left 1 irq_kernel) (set_cur_quantum_left 1 irq_kernel)
    () () no_umem (replicate 7 0x8800)) as (k2 & next & E & Hq & _ & _ & _ & Hn);
    [exact demo_sched_wf|reflexivity|done|reflexivity|done|cbn; lia|cbn; lia|].
  destruct Hn as [[_ H]|(d & Hd & Hx & Hr & _ & H)]; [specialize (H 2 ltac:(lia)); vm_compute in H; discriminate|].
  assert (¬ (2 < d)) by (intros Hlt; specialize (H 2 ltac:(lia)); vm_compute in H; discriminate).
  assert (d ≠ 1) by (intros ->; subst next; vm_compute in Hr; discriminate). assert (d = 2) as -> by lia.
  exists k2. rewrite E. split; [|exact Hq]. subst next. reflexivity.
Defined.

(** No source is left enabled. *)
Lemma interrupt_init_all vbr s : (s, 0) ∈ (interrupt_init vbr).2.
Proof. apply list_elem_of_fmap. exists s. split; [done|]. destruct s; by_computation. Qed.

(** A task that gives the processor away waits with the interrupts masked; when its
    context is resumed the call returns to its caller with the registers a call keeps and
    with the status register it had. *)
Lemma sched_schedule_keeps {A} trampoline stale cnt (k : kernel A) u : length (reg stale) = 16%nat →
  let cur := proc_current k in
  let saved := (sched_schedule trampoline stale cnt k u).1 in
  ∃ k' next, (sched_schedule trampoline stale cnt k u).2 = process_contextjmp trampoline next k' u ∧
    ∃ c, acnt (k_procs k' cur) = c :: acnt (k_procs k cur) ∧ interrupt_in_atomic (sr c) = true ∧
      let r := sched_schedule_return saved c in
      drop 8 (reg r) = drop 8 (reg cnt) ∧ pc r = pr cnt ∧ sr r = sr cnt ∧ gbr r = gbr cnt ∧ macl r = macl cnt ∧ mach r = mach cnt.
Proof.
  intros Hst. cbv zeta. unfold sched_schedule. cbn [interrupt_atomic_save].
  set (c := preempted _ _). destruct (choose_next (enter c k)) as [k' next] eqn:Hc. cbn [fst snd]. exists k', next. split; [done|]. exists c.
  destruct (atomic_save_restore (sr cnt) (Z.lor (sr cnt) 240)) as [Hin Hbit].
  split; [|split; [exact Hin|]].
  { assert (Hp : k_procs k' = k_procs (enter c k)) by (unfold choose_next in Hc; destruct (_ <=? _); by simplify_eq).
    rewrite Hp. unfold enter. by rewrite upd_proc_eq. }
  cbn [sched_schedule_return reg pc sr gbr macl mach]. split; [|split; [done|split; [|done]]].
  - unfold c, preempted. cbn [reg]. rewrite drop_app_length'; [done|]. rewrite length_take. lia.
  - apply Z.bits_inj'. intros n Hn. change (sr c) with (Z.lor (sr cnt) 240). rewrite (Hbit n Hn), Z.lor_spec, in_imask.
    destruct ((4 <=? n) && (n <? 8)); [done|]. by rewrite orb_false_r.
Qed.

(** The scheduler starts in the idle loop, in kernel mode with the interrupts enabled,
    and asks for a task switch at the first interrupt. *)
Lemma sched_start_idles {A} trampoline func stack (k : kernel A) u :
  ∃ k', sched_start trampoline func stack k u = Continues k' u ∧ proc_current k' = proc_idle_task ∧
    (preempt_level k ≤ 0 → sched_needed k' = true) ∧ tasks k' = tasks k ∧ cur_task k' = 0 ∧ k_areas k' = k_areas k ∧
    (∀ q, q ≠ proc_idle_task → k_procs k' q = k_procs k q) ∧
    ∃ cnt, acnt (k_procs k' proc_idle_task) = [cnt] ∧ pc cnt = func ∧ sr cnt = 0x40000000 ∧ aget (reg cnt) 15 = stack.
Proof.
  unfold sched_start, process_contextjmp. destruct (arch_adrsp_switch_to _ _) as [[r asid'] m]. cbn zeta.
  set (k1 := arch_init_idle func stack proc_idle_task k).
  set (k' := upd_proc proc_idle_task (set_state PROCESS_STATE_RUNNING) _).
  assert (Hp : acnt (k_procs k' proc_idle_task) = [mk_context (aset (replicate 16 0) 15 stack) 0 0 0 func 0x40000000 func]).
  { unfold k'. rewrite !upd_proc_eq. unfold k1, arch_init_idle. cbn [k_procs set_proc_current set_need_reschedule set_cur_task set_started set_k_mmu].
    by rewrite upd_proc_eq. }
  assert (Hm : arch_process_mode k' proc_idle_task = 0) by (unfold arch_process_mode; by rewrite Hp). rewrite Hm.
  exists k'. split; [done|]. split; [done|]. split.
  - intros Hl. unfold sched_needed. change (started k') with 1. change (need_reschedule k') with 1. change (preempt_level k') with (preempt_level k).
    by rewrite (proj2 (Z.leb_le _ _)).
  - split; [done|]. split; [done|]. split; [done|]. split; [|eexists; split; [exact Hp|]; done].
    intros q Hq. unfold k'. rewrite !upd_proc_ne by done. unfold k1, arch_init_idle.
    cbn [k_procs set_proc_current set_need_reschedule set_cur_task set_started set_k_mmu]. by rewrite upd_proc_ne.
Qed.
