(* ===== verification/Clock.v ===== *)
(** * Clocks, timers and delays (src/arch/sh/kdelay.c, src/arch/sh/timer.c,
    src/arch/sh/freq.c, src/arch/sh/rtc.c, src/arch/sh/time.c)

    The functions write registers; the model gives the writes, in order, and takes what
    is read from the registers as inputs.  A wait that does not end is [None]. *)

From S2P Require Import Prelude Interrupt.

(** ** Registers *)

(** The watchdog, the timers, the frequency control, the clock, and the priorities. *)
Inductive creg :=
| WTCSR | WTCNT | IPR_WDT | IPR_RTC | IPR_TMU (n : Z)
| TSTR_STR (n : Z) | TCR_UNF (n : Z) | TCR_UNIE (n : Z) | TCR_CKEG (n : Z) | TCR_TPSC (n : Z) | TCOR (n : Z) | TCNT (n : Z)
| FRQCR | RCR1 | RCR2 | RCR2_PES | RCR2_PEF.
#[export] Instance creg_eq : EqDecision creg. Proof. solve_decision. Defined.

Definition cwrite : Type := creg * Z.

(** ** Delays *)

(** src/arch/sh/kdelay.c:23-23: KDELAY_USECONDS_TIME *)
Definition KDELAY_USECONDS_TIME : Z := 140.

(** The wait for the overflow of the watchdog; the words read after it. *)
(** src/arch/sh/kdelay.c:45-45: kdelay *)
Fixpoint wait_overflow (reads : list Z) : option (list Z) :=
  match reads with
  | [] => None
  | r :: reads => if Z.land r 0x08 =? 0 then wait_overflow reads else Some reads
  end.

(** [reads] are the values of WTCSR, the last one for the write that clears the flag. *)
(** src/arch/sh/kdelay.c: kdelay *)
Definition kdelay (time : Z) (reads : list Z) : option (list cwrite * list Z) :=
  let time := if time <=? 0 then 1 else if 40 <? time then 40 else time in
  let counter := u16 (Z.quot (time * 92) 16) in
  let counter := Z.land (Z.lnot counter) 0xFF in
  reads ← wait_overflow reads;
  match reads with
  | [] => None
  | r :: reads =>
      Some ([(IPR_WDT, 0); (WTCSR, 0xA500); (WTCNT, Z.lor 0xA500 counter); (WTCSR, 0xA505); (WTCSR, 0xA585);
             (WTCSR, Z.lor (Z.land r 0xF7) 0xA500); (WTCSR, 0xA500); (WTCNT, 0x5A00)], reads)
  end.

(** The delays made by the loop; each takes at least one unit. *)
(** src/arch/sh/kdelay.c:58-62: kusleep *)
Fixpoint kusleep_units (fuel : nat) (kdelay_units : Z) : list Z :=
  match fuel with
  | O => []
  | S fuel =>
      if 0 <? kdelay_units then
        let nbunits := if kdelay_units <? 40 then kdelay_units else 40 in
        nbunits :: kusleep_units fuel (kdelay_units - nbunits)
      else []
  end.

Fixpoint kdelays (units : list Z) (reads : list Z) : option (list cwrite * list Z) :=
  match units with
  | [] => Some ([], reads)
  | n :: units => '(w, reads) ← kdelay n reads; '(ws, reads) ← kdelays units reads; Some (w ++ ws, reads)
  end.

(** src/arch/sh/kdelay.c: kusleep *)
Definition kusleep (time : Z) (reads : list Z) : option (list cwrite * list Z) :=
  let kdelay_units := Z.quot time KDELAY_USECONDS_TIME in
  kdelays (kusleep_units (Z.to_nat kdelay_units) kdelay_units) reads.

(** ** Timers *)

(** The same code for the timers 0 and 1, which are also the numbers of their callbacks. *)
(** src/arch/sh/timer.c: timer_init_tmu0 *)
Definition timer_init_tmu (n time prescaler : Z) (callback : ptr) (callbacks : list ptr) : list cwrite * list ptr :=
  ([(TSTR_STR n, 0); (TCR_UNF n, 0); (TCR_UNIE n, 0); (TCOR n, time); (TCNT n, time); (TCR_CKEG n, 1); (TCR_TPSC n, prescaler);
    (IPR_TMU n, 0xF)], interrupt_set_callback n callback callbacks).

(** src/arch/sh/timer.c: timer_init_tmu1 *)
Definition timer_init_tmu1 := timer_init_tmu INT_TMU1.

(** src/arch/sh/timer.c: timer_start_tmu0 *)
Definition timer_start_tmu (n interrupting : Z) : list cwrite :=
  [(TSTR_STR n, 0)] ++ (if negb (interrupting =? 0) then [(TCR_UNIE n, 1)] else []) ++ [(TSTR_STR n, 1)].

(** src/arch/sh/timer.c: timer_start_tmu1 *)
Definition timer_start_tmu1 := timer_start_tmu INT_TMU1.

(** src/arch/sh/timer.c: timer_stop_tmu0 *)
Definition timer_stop_tmu (n : Z) : list cwrite := [(TSTR_STR n, 0); (TCR_UNIE n, 0)].

(** src/arch/sh/timer.c: timer_stop_tmu1 *)
Definition timer_stop_tmu1 := timer_stop_tmu INT_TMU1.

(** ** Frequencies *)

(** The fields of FRQCR. *)
(** src/arch/sh/7705.h:25-37: FRQCR *)
Definition STC (frqcr : Z) : Z := Z.land (Z.shiftr frqcr 8) 3.
(** src/arch/sh/7705.h:33-33: FRQCR *)
Definition IFC (frqcr : Z) : Z := Z.land (Z.shiftr frqcr 4) 3.
(** src/arch/sh/7705.h:35-35: FRQCR *)
Definition PFC (frqcr : Z) : Z := Z.land frqcr 3.

(** -1 keeps a field.  The writes to the watchdog and the new register. *)
(** src/arch/sh/freq.c: freq_change *)
Definition freq_change (ckio_mul ifc pfc frqcr : Z) : list cwrite * Z :=
  let new_stc := if ckio_mul =? -1 then STC frqcr else Z.land ckio_mul 3 in
  let new_ifc := if ifc =? -1 then IFC frqcr else Z.land ifc 3 in
  let new_pfc := if pfc =? -1 then PFC frqcr else Z.land pfc 3 in
  ((if negb (new_stc =? STC frqcr) then [(WTCSR, 0xA587); (WTCNT, 0x5A80)] else []),
   Z.lor (Z.lor (Z.lor (Z.land frqcr 0xFC00) new_pfc) (Z.shiftl new_ifc 4)) (Z.shiftl new_stc 8)).

(** The two waits for the periodic flag of the clock. *)
(** src/arch/sh/freq.c:72-76: freq_time_calibrate *)
Fixpoint wait_pef (reads : list bool) : option (list bool) :=
  match reads with
  | [] => None
  | pef :: reads => if pef : bool then Some reads else wait_pef reads
  end.

(** The clock frequency, from the counter of the timer when it is stopped, and the
    writes. *)
(** src/arch/sh/freq.c: freq_time_calibrate *)
Definition freq_time_calibrate (pefs : list bool) (tcnt frqcr old_rcr2 : Z) (callbacks : list ptr) : option (Z * list cwrite * list ptr) :=
  let '(w1, callbacks) := timer_init_tmu INT_TMU0 0xFFFFFFFF 1 NULL callbacks in
  pefs ← wait_pef pefs;
  _ ← wait_pef pefs;
  let tmu0_time := u32 (0xFFFFFFFF - tcnt) in
  let hz := u32 (u32 (u32 (tmu0_time * 64) * 16) * (PFC frqcr + 1)) / (STC frqcr + 1) in
  Some (hz, w1 ++ [(RCR2_PES, 2); (RCR2_PEF, 0); (RCR2_PEF, 0)] ++ timer_start_tmu INT_TMU0 0 ++ timer_stop_tmu INT_TMU0 ++ [(RCR2, old_rcr2)], callbacks).

(** src/arch/sh/freq.c: freq_get_ckio_hz *)
Definition freq_get_ckio_hz (_freq_ckio_hz : Z) : Z := _freq_ckio_hz.

(** src/arch/sh/freq.c: freq_get_peripheral_hz *)
Definition freq_get_peripheral_hz (_freq_ckio_hz frqcr : Z) : Z := u32 (_freq_ckio_hz * (STC frqcr + 1)) / (PFC frqcr + 1).

(** src/arch/sh/freq.c: freq_get_internal_hz *)
Definition freq_get_internal_hz (_freq_ckio_hz frqcr : Z) : Z := u32 (_freq_ckio_hz * (STC frqcr + 1)) / (IFC frqcr + 1).

(** ** The real time clock *)

(** src/arch/sh/rtc.c: rtc_init *)
Definition rtc_init : list cwrite := [(RCR1, 0x00); (RCR2, 0x0B)].

(** src/arch/sh/rtc.c: rtc_set_interrupt *)
Definition rtc_set_interrupt (callback : ptr) (period : Z) (callbacks : list ptr) : list cwrite * list ptr :=
  if (period <? 0) || (7 <? period) then ([], callbacks)
  else if period =? 0 then
    ([(RCR2_PES, period); (IPR_RTC, 0); (RCR2_PEF, 0)], interrupt_set_callback INT_RTC_PERIODIC NULL callbacks)
  else
    ([(RCR2_PES, period); (IPR_RTC, 8); (RCR2_PEF, 0)], interrupt_set_callback INT_RTC_PERIODIC callback callbacks).

(** [time_do_tick] is the address of the function. *)
(** src/arch/sh/time.c: arch_time_init *)
Definition arch_time_init (time_do_tick : ptr) (callbacks : list ptr) : list cwrite * list ptr :=
  rtc_set_interrupt time_do_tick 1 callbacks.

(** ** Lemmas *)

(** A sleep is made of delays the watchdog can count, and lasts the whole units of the
    time asked for. *)
Lemma kusleep_units_spec fuel n : (Z.to_nat n ≤ fuel)%nat →
  Forall (λ x, 1 ≤ x ≤ 40) (kusleep_units fuel n) ∧ foldr Z.add 0 (kusleep_units fuel n) = Z.max 0 n.
Proof.
  revert n. induction fuel as [|fuel IH]; intros n Hn; cbn [kusleep_units].
  - split; [by apply Forall_nil_2|cbn; lia].
  - destruct (Z.ltb_spec 0 n); [|split; [by apply Forall_nil_2|cbn; lia]].
    destruct (Z.ltb_spec n 40); (edestruct IH as [Hf Hs]; [|split; [apply Forall_cons_2; [|exact Hf]; lia|cbn [foldr]; rewrite Hs]]); lia.
Qed.

(** A delay ends when the watchdog overflows, and the sleep with it. *)
Lemma kdelays_end units : ∃ ws, kdelays units (concat (replicate (length units) [0x08; 0x08])) = Some (ws, []).
Proof.
  induction units as [|n units [ws IH]]; [by exists []|]. cbn [kdelays length replicate concat app].
  unfold kdelay at 1. cbn [mbind option_bind wait_overflow]. change (Z.land 0x08 0x08 =? 0) with false. cbv iota.
  cbn [mbind option_bind]. rewrite IH. by eexists.
Qed.

Lemma testbit3 n : 0 ≤ n → Z.testbit 3 n = (n <? 2).
Proof.
  intros Hn. destruct (Z.ltb_spec n 2); [assert (n = 0 ∨ n = 1) as [->| ->] by lia; done|].
  apply Z.bits_above_log2; [lia|]. change (Z.log2 3) with 1. lia.
Qed.

Lemma testbit_fc00 n : 0 ≤ n < 10 → Z.testbit 0xFC00 n = false.
Proof. intros Hn. assert (n = 0 ∨ n = 1 ∨ n = 2 ∨ n = 3 ∨ n = 4 ∨ n = 5 ∨ n = 6 ∨ n = 7 ∨ n = 8 ∨ n = 9) as H by lia.
  repeat (destruct H as [->|H]; [done|]). by subst n. Qed.

(** A field of two bits at [s] of the new register. *)
Lemma frqcr_field frqcr p i c : Z.land p 3 = p → Z.land i 3 = i → Z.land c 3 = c →
  let r := Z.lor (Z.lor (Z.lor (Z.land frqcr 0xFC00) p) (Z.shiftl i 4)) (Z.shiftl c 8) in
  PFC r = p ∧ IFC r = i ∧ STC r = c.
Proof.
  intros Hp Hi Hc r.
  assert (H2 : ∀ x n, Z.land x 3 = x → 2 ≤ n → Z.testbit x n = false).
  { intros x n <- Hn. rewrite Z.land_spec, testbit3 by lia. rewrite (proj2 (Z.ltb_ge n 2)) by lia. apply andb_false_r. }
  assert (Hr : ∀ n, 0 ≤ n < 10 → Z.testbit r n = Z.testbit p n || Z.testbit i (n - 4) || Z.testbit c (n - 8)).
  { intros n Hn. unfold r. rewrite !Z.lor_spec, Z.land_spec, testbit_fc00, andb_false_r, !Z.shiftl_spec by lia. done. }
  unfold PFC, IFC, STC. split_and!; apply Z.bits_inj'; intros n Hn; rewrite Z.land_spec, testbit3 by done;
    (destruct (Z.ltb_spec n 2); [rewrite andb_true_r|rewrite andb_false_r; symmetry; by apply H2]).
  - rewrite Hr, !(Z.testbit_neg_r _ (n - _)) by lia. by rewrite !orb_false_r.
  - rewrite Z.shiftr_spec, Hr, (H2 p), (Z.testbit_neg_r c) by (done || lia). replace (n + 4 - 4) with n by lia. by rewrite orb_false_r.
  - rewrite Z.shiftr_spec, Hr, (H2 p), (H2 i) by (done || lia). by replace (n + 8 - 8) with n by lia.
Qed.

Lemma land3 x : Z.land (Z.land x 3) 3 = Z.land x 3.
Proof. by rewrite <- Z.land_assoc. Qed.

(** The new dividers are those asked for; -1 keeps the old one. *)
Lemma freq_change_fields m i p frqcr :
  let r := (freq_change m i p frqcr).2 in
  STC r = (if m =? -1 then STC frqcr else Z.land m 3) ∧ IFC r = (if i =? -1 then IFC frqcr else Z.land i 3) ∧
  PFC r = (if p =? -1 then PFC frqcr else Z.land p 3).
Proof.
  cbn. edestruct (frqcr_field frqcr (if p =? -1 then PFC frqcr else Z.land p 3) (if i =? -1 then IFC frqcr else Z.land i 3)
    (if m =? -1 then STC frqcr else Z.land m 3)) as (H1 & H2 & H3); [case_match; apply land3..|]. done.
Qed.

Lemma field_range x : 0 ≤ Z.land x 3 ≤ 3.
Proof.
  change (0 ≤ Z.land x (Z.ones 2) ≤ 3). rewrite Z.land_ones by lia. change (2 ^ 2) with 4. pose proof (Z.mod_pos_bound x 4). lia.
Qed.

(** The calibration: from the ticks the timer counted in a 64th of a second, the
    peripheral frequency computed back from the clock frequency is the measured one, up
    to the rounding of two divisions (at most 4 Hz). *)
Theorem calibrated_frequency pefs tcnt frqcr rcr2 callbacks hz w cb :
  0 ≤ tcnt ≤ 0xFFFFFFFF → (0xFFFFFFFF - tcnt) * 1024 * 4 < 2 ^ 32 →
  freq_time_calibrate pefs tcnt frqcr rcr2 callbacks = Some (hz, w, cb) →
  (0xFFFFFFFF - tcnt) * 1024 - 4 ≤ freq_get_peripheral_hz hz frqcr ≤ (0xFFFFFFFF - tcnt) * 1024.
Proof.
  intros Ht Hov E. unfold freq_time_calibrate in E. cbn zeta in E. destruct (wait_pef pefs) as [p1|]; [|done]. cbn [mbind option_bind] in E.
  destruct (wait_pef p1); [|done]. cbn [mbind option_bind] in E. injection E as <- _ _.
  set (P := (0xFFFFFFFF - tcnt) * 1024) in *. pose proof (field_range frqcr) as Hp. pose proof (field_range (Z.shiftr frqcr 8)) as Hs.
  fold (PFC frqcr) in Hp. fold (STC frqcr) in Hs. set (a := PFC frqcr + 1). set (b := STC frqcr + 1).
  unfold freq_get_peripheral_hz. fold a b. rewrite !(u32_small (0xFFFFFFFF - tcnt)), (u32_small ((0xFFFFFFFF - tcnt) * 64)), (u32_small (_ * 16)) by lia.
  replace ((0xFFFFFFFF - tcnt) * 64 * 16) with P by lia. assert (Ha : 1 ≤ a ≤ 4) by (unfold a; lia). assert (Hb : 1 ≤ b ≤ 4) by (unfold b; lia). assert (0 ≤ P) by (unfold P; lia).
  clearbody P a b. rewrite (u32_small (P * a)) by nia. set (q := P * a / b).
  assert (Hq : b * q ≤ P * a < b * q + b) by (pose proof (Z.mul_div_le (P * a) b); pose proof (Z.mul_succ_div_gt (P * a) b); unfold q; lia).
  assert (0 ≤ q) by (apply Z.div_pos; nia). clearbody q. assert (P * a ≤ P * 4) by nia. rewrite u32_small by nia. split.
  - apply Z.div_le_lower_bound; nia.
  - apply Z.div_le_upper_bound; nia.
Qed.

(** 28672 ticks in a 64th of a second: 29.36 MHz. *)
Lemma calibrated_frequency_witness :
  29360128 - 4 ≤ freq_get_peripheral_hz 14680064 0x0100 ≤ 29360128.
Proof.
  eapply (calibrated_frequency [false; true; true] (0xFFFFFFFF - 28672) 0x0100 0x09 (replicate 7 0) 14680064).
  - lia.
  - lia.
  - vm_compute. reflexivity.
Defined.
