(* ===== verification/Debug.v ===== *)
(** * Output for debugging (src/sys/kdebug.c, src/arch/sh/oops.c)

    What the kernel prints when it stops: the memory map of the process, the call trace
    found on the stack, with the symbols.  A message is a format of the kernel log and
    its arguments; all have the highest level. *)

From S2P Require Import Prelude PageDir Kernel Log.

Definition message : Type := list Z * list printk_arg.

(** ** Memory map *)

(** src/sys/kdebug.c:36-42: kdebug_print_vmspace *)
Definition page_state (p : pm_page) : Z :=
  if pflags p &? MEM_PAGE_PRIVATE then if pflags p &? MEM_PAGE_VALID then 118 else 117 else 83.

(** src/sys/kdebug.c:30-46: kdebug_print_vmspace *)
Definition dir_messages (dir : page_dir) : list message :=
  [(text "DIR(%p~%p):" ++ [10; 32; 32], [APtr (MEM_PAGE_ADDRESS (dir_id dir) 0); APtr (MEM_PAGE_ADDRESS (dir_id dir) MEM_DIRECTORY_PAGES)]);
   (text "%s" ++ [10], [AStr (map page_state (pages dir))])].

(** src/sys/kdebug.c: kdebug_print_vmspace *)
Definition kdebug_print_vmspace (dir_list : list page_dir) : list message :=
  [(text "Memory Map :" ++ [10], [])] ++ flat_map dir_messages dir_list ++ [(text "(End of Memory Map)" ++ [10], [])].

(** ** Symbols *)

(** src/sys/kdebug.h: symbol_entry *)
Record symbol_entry := mk_symbol { val : Z; name : list Z }.

(** The loop from [cur], whose index is not 0 when there is an entry before it. *)
(** src/arch/sh/oops.c:45-50: kdebug_nearest_symbol *)
Fixpoint symbol_loop (addr : Z) (before : option symbol_entry) (table : list symbol_entry) : option symbol_entry :=
  match table with
  | [] => None
  | cur :: table =>
      match before with
      | Some e => if addr <? val cur then Some e else symbol_loop addr (Some cur) table
      | None => symbol_loop addr (Some cur) table
      end
  end.

(** With the names of the symbols configured. *)
(** src/arch/sh/oops.c:41-52: kdebug_nearest_symbol *)
Definition kdebug_nearest_symbol (table : list symbol_entry) (addr : Z) : option symbol_entry := symbol_loop addr None table.

(** src/sys/kdebug.c: kdebug_print_symbol *)
Definition kdebug_print_symbol (table : list symbol_entry) (addr : Z) : list message :=
  match kdebug_nearest_symbol table addr with
  | Some symbol => [(text "<%s + %d> (%p)", [AStr (name symbol); AInt (s32 (u32 (addr - val symbol))); APtr addr])]
  | None => [(text "<%p>", [APtr addr])]
  end.

(** ** Call trace *)

(** src/arch/sh/oops.c:33-33: MAX_STACK_FRAMES *)
Definition MAX_STACK_FRAMES : nat := 15.

Section trace.
Context (kernel_text_begin kernel_text_end : Z) (table : list symbol_entry).

(** src/arch/sh/oops.c:30-31: IS_KERNEL_TEXT *)
Definition IS_KERNEL_TEXT (addr : Z) : bool := (kernel_text_begin <=? addr) && (addr <=? kernel_text_end).

(** The words from [stack] up to the bottom. *)
(** src/arch/sh/oops.c:75-83: arch_print_trace *)
Fixpoint trace_loop (stack : ptr) (words : list Z) (i : nat) : list message :=
  match words with
  | [] => []
  | w :: words =>
      if Nat.ltb i MAX_STACK_FRAMES then
        if IS_KERNEL_TEXT w then
          [(text "@%p: ", [APtr stack])] ++ kdebug_print_symbol table w ++ [([10], [])] ++ trace_loop (stack + 4) words (S i)
        else trace_loop (stack + 4) words i
      else []
  end.

(** src/arch/sh/oops.c: arch_print_trace *)
Definition arch_print_trace (stack : ptr) (words : list Z) : list message :=
  [(text "Stack=%p" ++ [10] ++ text "Call trace:" ++ [10], [APtr stack])] ++ trace_loop stack words 0 ++
  [(text "(End of call trace)" ++ [10; 10], [])].

(** The contexts of the process but the first one that was saved; [stack_of] gives the
    words of a stack up to the next context. *)
(** src/arch/sh/oops.c:124-133: kdebug_oops *)
Fixpoint oops_contexts (stack_of : context → list Z) (cs : list context) : list message :=
  match cs with
  | [] => []
  | [_] => []
  | cont :: cs =>
      [(text "---- Previous Context ----" ++ [10] ++ text "       PC: ", [])] ++ kdebug_print_symbol table (pc cont) ++
      [([10] ++ text "       PR: ", [])] ++ kdebug_print_symbol table (pr cont) ++ [([10], [])] ++
      arch_print_trace (aget (reg cont) 15) (stack_of cont) ++ oops_contexts stack_of cs
  end.

(** What is printed before the kernel stops; [words] is the kernel stack. *)
(** src/arch/sh/oops.c: kdebug_oops *)
Definition kdebug_oops (errstr : option (list Z)) (asid : Z) (dirs : list page_dir) (proc : process) (stack : ptr) (words : list Z)
    (stack_of : context → list Z) : list message :=
  [(text "Fatal kernel oops!" ++ [10], [])] ++
  (match errstr with Some s => [(text "(%s)" ++ [10], [AStr s])] | None => [] end) ++
  [(text "Following informations may help :" ++ [10], [])] ++
  [(text "Running pid %d (asid=%d)" ++ [10], [AInt (pid proc); AInt asid])] ++
  kdebug_print_vmspace dirs ++ arch_print_trace stack words ++ oops_contexts stack_of (acnt proc).
End trace.

(** ** Lemmas *)

(** A table sorted by address. *)
Definition table_sorted (t : list symbol_entry) : Prop :=
  ∀ i j a b, (i < j)%nat → t !! i = Some a → t !! j = Some b → val a < val b.

Lemma symbol_loop_spec addr t : ∀ before, table_sorted (before :: t) → val before ≤ addr →
  match symbol_loop addr (Some before) t with
  | Some e => ∃ i e', (before :: t) !! i = Some e ∧ (before :: t) !! S i = Some e' ∧ val e ≤ addr < val e'
  | None => ∀ e, e ∈ before :: t → val e ≤ addr
  end.
Proof.
  induction t as [|cur t IH]; intros before Hs Hb; cbn [symbol_loop].
  - intros e He. apply list_elem_of_singleton in He. by subst e.
  - destruct (Z.ltb_spec addr (val cur)) as [Hlt|Hge]; [exists 0%nat, cur; split_and!; [done|done|lia|lia]|].
    assert (Hs' : table_sorted (cur :: t)) by (intros i j a b Hij Ha Hb'; apply (Hs (S i) (S j) a b); [lia|done..]).
    specialize (IH cur Hs' Hge). destruct (symbol_loop addr (Some cur) t) as [e|].
    + destruct IH as (i & e' & H1 & H2 & H3). exists (S i), e'. split; [exact H1|]. split; [exact H2|exact H3].
    + intros e He. apply elem_of_cons in He as [->|He]; [done|by apply IH].
Qed.

(** An address from the first symbol up to the last one is attributed to the last symbol
    at or before it. *)
Lemma nearest_symbol_correct first t addr last : table_sorted (first :: t) → val first ≤ addr → last ∈ first :: t → addr < val last →
  ∃ i e e', kdebug_nearest_symbol (first :: t) addr = Some e ∧ (first :: t) !! i = Some e ∧ (first :: t) !! S i = Some e' ∧ val e ≤ addr < val e'.
Proof.
  intros Hs Hf Hin Hl. unfold kdebug_nearest_symbol. cbn [symbol_loop]. pose proof (symbol_loop_spec addr t first Hs Hf) as H.
  destruct (symbol_loop addr (Some first) t) as [e|]; [|specialize (H last Hin); lia].
  destruct H as (i & e' & H1 & H2 & H3). by exists i, e, e'.
Qed.

Definition demo_symbols : list symbol_entry := [mk_symbol 0x1000 (text "start"); mk_symbol 0x1100 (text "main"); mk_symbol 0x1400 (text "end")].

(** An address before the first symbol is attributed to it, and the code of the last
    symbol to none. *)
Example nearest_symbol_ends :
  kdebug_nearest_symbol demo_symbols 0x10 = Some (mk_symbol 0x1000 (text "start")) ∧
  kdebug_nearest_symbol demo_symbols 0x1110 = Some (mk_symbol 0x1100 (text "main")) ∧
  kdebug_nearest_symbol demo_symbols 0x1404 = None.
Proof. vm_compute. done. Qed.

(** The words of a stack with their addresses. *)
Fixpoint slots (stack : ptr) (words : list Z) : list (ptr * Z) :=
  match words with [] => [] | w :: words => (stack, w) :: slots (stack + 4) words end.

(** The trace shows the first words of the stack that point into the kernel, with their
    addresses, and at most [MAX_STACK_FRAMES] of them. *)
Lemma trace_frames b e table words : ∀ stack i,
  trace_loop b e table stack words i =
  flat_map (λ f, [(text "@%p: ", [APtr f.1])] ++ kdebug_print_symbol table f.2 ++ [([10], [])])
    (take (MAX_STACK_FRAMES - i) (filter (λ f, IS_KERNEL_TEXT b e f.2 = true) (slots stack words))).
Proof.
  induction words as [|w words IH]; intros stack i; cbn [trace_loop slots]; [by rewrite filter_nil, take_nil|].
  rewrite filter_cons. cbn [snd]. destruct (Nat.ltb_spec i MAX_STACK_FRAMES) as [Hlt|Hge].
  - destruct (IS_KERNEL_TEXT b e w); [rewrite decide_True by done|rewrite decide_False by done; apply IH].
    destruct (MAX_STACK_FRAMES - i)%nat as [|n] eqn:En; [lia|]. cbn [take flat_map fst snd].
    rewrite IH. replace (MAX_STACK_FRAMES - S i)%nat with n by lia. by rewrite <- !app_assoc.
  - replace (MAX_STACK_FRAMES - i)%nat with 0%nat by lia. done.
Qed.
