(* ===== verification/Sdhi.v ===== *)
(** * The SD card host (src/arch/sh/modules/sdhi.c, src/device/sd_card.h)

    The controller, the DMA and the 64 Hz clock are an environment with registers, any
    type with the operations of [SdDevice]: a read may change it, since a register is
    read again until it changes.  The driver is a program which also keeps its writes,
    in order.  Loops take fuel; [None] is a loop that does not end.

    The theorems: whatever the card does a command is sent once, and the driver gives up
    when the clock has moved enough ([sd_send_command_returns]); the words of a long
    response are put together as the comments say, and the size of the card is where the
    protocol has it ([sd_response_csize]); a block is asked for at most three times. *)

From S2P Require Import Prelude Clock.

(** ** Registers *)

(** The controller, then the clock, the DMA and the ports. *)
Inductive sreg :=
| command | wk1 | arg0 | arg1 | word_u4 | word_u5 | resp (n : Z) | word_u14 | word_u15 | config (n : Z) | data | word_u21
| word_far_1 | word_far_2
| R64CNT | DMATCR_0 | SAR_0 | DAR_0 | CHCR_0 | DMAOR | DMARS0
| PE_DR | SCP_DR | PECR | SCPCR | SDCLKCR_u1 | UKNPORT_u1 | TOTALY_UNKNOWN_1 | IPRI_SDI.
#[export] Instance sreg_eq : EqDecision sreg. Proof. solve_decision. Defined.

(** The members of the structure in order; all are 16 bits wide ([wk1] is two bytes), so
    that none is padded. *)
(** src/arch/sh/7705_Casio.h:38-87: st_sdhi *)
Definition st_sdhi : list sreg :=
  [command; wk1; arg0; arg1; word_u4; word_u5; resp 0; resp 1; resp 2; resp 3; resp 4; resp 5; resp 6; resp 7;
   word_u14; word_u15; config 0; config 1; config 2; config 3; config 4; data; word_u21; word_far_1; word_far_2].

(** src/arch/sh/7705_Casio.h:123-123: SDHI *)
Definition SDHI : ptr := 0xA4550000.

(** The address the compiler gives to a member. *)
Definition member_address (r : sreg) : ptr := SDHI + 2 * Z.of_nat (scan (λ x, bool_decide (x = r)) st_sdhi).

(** The value a register of its width holds. *)
Definition reg_value (r : sreg) (v : Z) : Z :=
  match r with
  | DMATCR_0 | SAR_0 | DAR_0 | CHCR_0 => u32 v
  | R64CNT | PE_DR | SCP_DR | TOTALY_UNKNOWN_1 => u8 v
  | SDCLKCR_u1 | UKNPORT_u1 => v mod 2
  | IPRI_SDI => v mod 16
  | _ => u16 v
  end.

(** The environment: reads and writes of registers, the delays of [kdelay], and the
    buffer in memory where the DMA writes. *)
Class SdDevice (D : Type) := {
  dev_read : sreg → D → Z * D;
  dev_write : sreg → Z → D → D;
  dev_delay : Z → D → D;
  dev_buffer : D → list Z;
  dev_set_buffer : list Z → D → D;
}.

(** [sd_sdmode] is 1 for an SD card and 0 for an MMC; [writes] are the writes so far. *)
(** src/arch/sh/modules/sdhi.c:32-32: _sd_sdmode *)
Record sd (D : Type) := mk_sd { env : D; sd_sdmode : Z; writes : list (sreg * Z) }.
Arguments mk_sd {D}. Arguments env {D}. Arguments sd_sdmode {D}. Arguments writes {D}.

(** ** Programs *)

Definition io (D A : Type) : Type := sd D → option (A * sd D).
#[export] Instance io_ret {D} : MRet (io D) := λ A x s, Some (x, s).
#[export] Instance io_bind {D} : MBind (io D) := λ A B f m s, '(x, s) ← m s; f x s.

Section driver.
Context {D : Type} `{SdDevice D}.

Definition nop : io D () := mret ().
Definition diverge {A} : io D A := λ _, None.
Definition rd (r : sreg) : io D Z := λ s,
  let '(v, d) := dev_read r (env s) in Some (reg_value r v, mk_sd d (sd_sdmode s) (writes s)).
Definition wr (r : sreg) (v : Z) : io D () := λ s,
  Some ((), mk_sd (dev_write r (reg_value r v) (env s)) (sd_sdmode s) (writes s ++ [(r, reg_value r v)])).
(** [r &= m] *)
Definition mask (r : sreg) (m : Z) : io D () := v ← rd r; wr r (Z.land v m).
Definition on_env (f : D → D) : io D () := λ s, Some ((), mk_sd (f (env s)) (sd_sdmode s) (writes s)).
Definition kdelay (n : Z) : io D () := on_env (dev_delay n).
Fixpoint delay_each (l : list Z) : io D () := match l with [] => nop | n :: l => _ ← kdelay n; delay_each l end.
Definition buffer : io D (list Z) := λ s, Some (dev_buffer (env s), s).
Definition get_sdmode : io D Z := λ s, Some (sd_sdmode s, s).
Definition set_sdmode (v : Z) : io D () := λ s, Some ((), mk_sd (env s) v (writes s)).

(** ** The controller *)

(** src/arch/sh/modules/sdhi.c: sd_sdhi_fun4 *)
Definition sd_sdhi_fun4 (mode : Z) : io D () := if mode &? 1 then mask (config 2) 0x0EFF else nop.

(** src/arch/sh/modules/sdhi.c: sd_sdhi_fun8_1 *)
Definition sd_sdhi_fun8_1 : io D () :=
  m ← get_sdmode;
  if negb (m =? 0) then v ← rd (config 2); wr (config 2) (Z.lor (Z.land v 0x0100) 0x0020)
  else v ← rd (config 2); wr (config 2) (Z.lor (Z.land v 0x0100) 0x0080).

(** src/arch/sh/modules/sdhi.c: sd_isready_0 *)
Definition sd_isready_0 : io D Z :=
  v ← rd (config 2);
  if Z.land v 0x0100 =? 0 then
    v ← rd (config 2);
    _ ← wr (config 2) (Z.lor (Z.land v 0x0EFF) 0x0100);
    mret 1
  else mret 0.

(** src/arch/sh/modules/sdhi.c: sd_inhibit_interupt *)
Definition sd_inhibit_interupt : io D () := wr IPRI_SDI 0.

(** src/arch/sh/modules/sdhi.c: sd_allow_interupt *)
Definition sd_allow_interupt : io D () := wr IPRI_SDI 0xF.

(** src/arch/sh/modules/sdhi.c:238-251: sd_init_ports *)
Definition sd_init_ports : io D () :=
  _ ← mask PE_DR 0xDF;
  _ ← mask PE_DR 0xEF;
  _ ← mask SCP_DR 0xFD;
  v ← rd PECR; _ ← wr PECR v;
  v ← rd PECR; _ ← wr PECR v;
  v ← rd SCPCR; _ ← wr SCPCR v;
  sd_inhibit_interupt.

(** src/arch/sh/modules/sdhi.c:208-235: sd_init_registers *)
Definition sd_init_registers : io D () :=
  _ ← sd_init_ports;
  _ ← wr SDCLKCR_u1 0;
  _ ← wr UKNPORT_u1 0;
  _ ← kdelay 10;
  _ ← wr SDCLKCR_u1 1;
  _ ← wr TOTALY_UNKNOWN_1 0;
  _ ← wr word_far_2 0;
  _ ← kdelay 1;
  _ ← wr word_far_2 1;
  _ ← kdelay 10;
  _ ← wr (config 2) 0x0020;
  _ ← wr (config 3) 0x0200;
  _ ← wr word_far_1 0;
  _ ← wr word_far_2 0x00C0;
  _ ← wr (config 4) 0x40E0;
  _ ← wr (config 0) 0x0305;
  _ ← wr (config 1) 0x837F;
  sd_allow_interupt.

(** ** Timeouts *)

(** src/arch/sh/modules/sdhi.c:28-28: SD_TIMEOUT_COMMAND *)
Definition SD_TIMEOUT_COMMAND : Z := 80.

(** src/arch/sh/modules/sdhi.c: rtc64_timer *)
Record rtc64_timer := mk_rtc64_timer { prev_val : Z; counter : Z }.

(** src/arch/sh/modules/sdhi.c: rtc_init_timer *)
Definition rtc_init_timer : io D rtc64_timer := v ← rd R64CNT; mret (mk_rtc64_timer v 0).

(** The counter is the result. *)
(** src/arch/sh/modules/sdhi.c: rtc_update_timer *)
Definition rtc_update_timer (timer : rtc64_timer) : io D rtc64_timer :=
  rtc64cnt ← rd R64CNT;
  mret (if negb (prev_val timer =? rtc64cnt) then mk_rtc64_timer rtc64cnt (counter timer + 1) else timer).

(** The loops that wait until a register is [ready] or the time is over.  The result is
    [check] of the first of them, which the others do not have. *)
(** src/arch/sh/modules/sdhi.c:301-307: sd_send_command *)
Fixpoint timed_wait (fuel : nat) (r : sreg) (ready : Z → bool) (timeout : rtc64_timer) (check : Z) : io D Z :=
  match fuel with
  | O => diverge
  | S fuel =>
      timeout ← rtc_update_timer timeout;
      if counter timeout <? SD_TIMEOUT_COMMAND then
        v ← rd r;
        if ready v then mret 0 else timed_wait fuel r ready timeout 0x00CD
      else mret check
  end.

(** ** Commands *)

(** src/arch/sh/modules/sdhi.c: sd_get_resp32 *)
Definition sd_get_resp32 : io D Z :=
  r1 ← rd (resp 1); r0 ← rd (resp 0);
  mret (u32 (Z.lor (Z.shiftl r1 16) r0)).

(** src/device/sd_card.h:46-51: _sd_resp128 *)
Record sd_resp128 := mk_resp128 { r0 : Z; r1 : Z; r2 : Z; r3 : Z }.

(** src/arch/sh/modules/sdhi.c: sd_get_resp128 *)
Definition sd_get_resp128 : io D sd_resp128 :=
  x1 ← rd (resp 1); x0 ← rd (resp 0);
  let r3 := u32 (Z.lor (Z.shiftl x1 24) (Z.shiftl x0 8)) in
  x3 ← rd (resp 3); x2 ← rd (resp 2); x1 ← rd (resp 1);
  let r2 := u32 (Z.lor (Z.lor (Z.shiftl x3 24) (Z.shiftl x2 8)) (Z.shiftr x1 8)) in
  x5 ← rd (resp 5); x4 ← rd (resp 4); x3 ← rd (resp 3);
  let r1 := u32 (Z.lor (Z.lor (Z.shiftl x5 24) (Z.shiftl x4 8)) (Z.shiftr x3 8)) in
  x7 ← rd (resp 7); x6 ← rd (resp 6); x5 ← rd (resp 5);
  let r0 := u32 (Z.lor (Z.lor (Z.shiftl x7 24) (Z.shiftl x6 8)) (Z.shiftr x5 8)) in
  mret (mk_resp128 r0 r1 r2 r3).

(** The flags of the end of a command; the later tests win. *)
(** src/arch/sh/modules/sdhi.c:336-344: sd_send_command *)
Definition command_status : io D Z :=
  v ← rd word_u15;
  let retval := if v &? 0x0040 then 0x00C9 else 0 in
  v ← rd word_u15;
  let retval := if v &? 0x0002 then 0x00CA else retval in
  v ← rd word_u15;
  mret (if v &? 0x0001 then 0x00D0 else retval).

(** src/arch/sh/modules/sdhi.c:314-316: sd_send_command *)
Definition clear_flags : io D () := _ ← mask word_u14 0xFFFA; mask word_u15 0xFF80.

(** The part from the clearing of the flags. *)
(** src/arch/sh/modules/sdhi.c:314-373: sd_send_command *)
Definition issue_command (fuel : nat) (cmd arg : Z) : io D Z :=
  _ ← clear_flags;
  funret ← sd_isready_0;
  _ ← kdelay 10;
  _ ← wr arg1 (Z.shiftr arg 16);
  _ ← wr arg0 (Z.land arg 0xFFFF);
  _ ← wr command cmd;
  timeout ← rtc_init_timer;
  _ ← timed_wait fuel word_u14 (λ v, v &? 0x0001) timeout 0;
  retval ← command_status;
  _ ← (if (cmd =? 0) || (cmd =? 7) then
         timeout ← rtc_init_timer;
         _ ← timed_wait fuel word_u15 (λ v, Z.land v 0x4000 =? 0) timeout 0;
         delay_each (reverse (seqZ 1 10))
       else nop);
  _ ← clear_flags;
  _ ← sd_sdhi_fun4 funret;
  mret retval.

(** src/arch/sh/modules/sdhi.c:286-374: sd_send_command *)
Definition sd_send_command (fuel : nat) (cmd arg : Z) : io D Z :=
  refused ← (if cmd &? 0xFF00 then
               timeout ← rtc_init_timer;
               check ← timed_wait fuel word_u15 (λ v, Z.land v 0x4000 =? 0) timeout 0;
               mret (negb (check =? 0x00CD))
             else mret false);
  if refused : bool then mret 0x00CD else issue_command fuel cmd arg.

(** ** Initialisation of a card *)

(** src/arch/sh/modules/sdhi.c:143-176: sd_init *)
Fixpoint sd_init_sd (fuel : nat) (fun2ret : Z) : io D (option Z) :=
  match fuel with
  | O => diverge
  | S fuel' =>
      tmp ← sd_send_command fuel 105 0x001F8000;
      if negb (tmp =? 0) then _ ← sd_sdhi_fun4 fun2ret; mret None
      else
        resp32 ← sd_get_resp32;
        if Z.land resp32 0x80000000 =? 0 then
          tmp ← sd_send_command fuel 55 0;
          if negb (tmp =? 0) then _ ← sd_sdhi_fun4 fun2ret; mret None
          else sd_init_sd fuel' fun2ret
        else _ ← set_sdmode 1; mret (Some 1)
  end.

(** src/arch/sh/modules/sdhi.c:182-192: sd_init *)
Fixpoint sd_init_mmc (fuel : nat) (fun2ret : Z) : io D (option Z) :=
  match fuel with
  | O => diverge
  | S fuel' =>
      tmp ← sd_send_command fuel 1 0x001F8000;
      if negb (tmp =? 0) then _ ← sd_sdhi_fun4 fun2ret; mret None
      else
        resp32 ← sd_get_resp32;
        if Z.land resp32 0x80000000 =? 0 then sd_init_mmc fuel' fun2ret
        else _ ← set_sdmode 0; mret (Some 1)
  end.

(** The loops end at an early return ([None]) or with the value to return. *)
(** src/arch/sh/modules/sdhi.c: sd_init *)
Definition sd_init (fuel : nat) : io D Z :=
  _ ← sd_init_registers;
  fun2ret ← sd_isready_0;
  _ ← set_sdmode 1;
  _ ← sd_sdhi_fun8_1;
  _ ← sd_send_command fuel 0 0;
  _ ← sd_get_resp32;
  tmp ← sd_send_command fuel 55 0;
  _ ← sd_get_resp32;
  retvalue ←
    (if tmp =? 0 then sd_init_sd fuel fun2ret
     else if tmp =? 0x00C9 then _ ← wr (config 4) 0xC0E0; sd_init_mmc fuel fun2ret
     else mret (Some 0));
  match retvalue with
  | None => mret 0
  | Some v => _ ← sd_sdhi_fun8_1; _ ← sd_sdhi_fun4 fun2ret; mret v
  end.

(** ** Reading a block *)

(** The address of the buffer, which the DMA uses without its cache. *)
Context (_sd_tmp_buffer : ptr).

(** src/device/sd_card.h:33-33: SD_CMD_READ_SINGLE_BLOCK *)
Definition SD_CMD_READ_SINGLE_BLOCK : Z := 17.

(** src/arch/sh/modules/sdhi.c:493-515: sd_dma_read *)
Definition sd_dma_read (dest : ptr) (nbwords : Z) : io D () :=
  let dest := Z.lor (Z.land dest 0x1FFFFFFF) 0xA0000000 in
  _ ← wr DMATCR_0 nbwords;
  _ ← wr SAR_0 (member_address data);
  _ ← wr DAR_0 dest;
  _ ← mask CHCR_0 0xFFFFFFFE;
  _ ← wr CHCR_0 0x00004809;
  _ ← wr DMARS0 0x00C2;
  wr DMAOR 0x0001.

(** [kusleep(100000)], by delays (Clock). *)
Definition kusleep_100000 : io D () := delay_each (kusleep_units 18 (Z.quot 100000 KDELAY_USECONDS_TIME)).

(** The debug message reads the counter and the data register. *)
(** src/arch/sh/modules/sdhi.c:439-450: sd_read_block *)
Fixpoint dma_wait (fuel : nat) (retval : Z) : io D Z :=
  match fuel with
  | O => diverge
  | S fuel =>
      v ← rd DMATCR_0;
      if negb (v =? 0) then
        _ ← rd DMATCR_0; _ ← rd data;
        _ ← kusleep_100000;
        o1 ← rd DMAOR;
        failed ← (if o1 &? 0x0006 then mret true
                  else
                    o2 ← rd DMAOR;
                    if Z.land o2 0x0001 =? 0 then mret true
                    else c ← rd CHCR_0; mret (Z.land c 0x00000001 =? 0));
        if failed : bool then mret 0x00d7 else dma_wait fuel retval
      else mret retval
  end.

(** The variables of the loops: [retval], [blocksdone], and what was copied to [dest]. *)
Record progress := mk_progress { retval : Z; blocksdone : Z; dest : option (list Z) }.

(** One pass of the inner loop. *)
(** src/arch/sh/modules/sdhi.c:426-466: sd_read_block *)
Definition read_pass (fuel : nat) (p : progress) : io D progress :=
  v ← rd word_u15;
  p ← (if v &? 0x0100 then
         _ ← on_env (dev_set_buffer (replicate 512 0));
         _ ← sd_dma_read _sd_tmp_buffer 256;
         ret ← dma_wait fuel (retval p);
         if ret =? 0 then b ← buffer; mret (mk_progress ret (blocksdone p + 1) (Some b))
         else mret (mk_progress ret (blocksdone p) (dest p))
       else mret p);
  v ← rd word_u15;
  let ret := if v &? 0x0048 then 0xC9 else retval p in
  v ← rd word_u15;
  let ret := if v &? 0x0022 then 0xCB else ret in
  mret (mk_progress ret (blocksdone p) (dest p)).

(** src/arch/sh/modules/sdhi.c:425-468: sd_read_block *)
Fixpoint read_loop (fuel : nat) (p : progress) : io D progress :=
  match fuel with
  | O => diverge
  | S fuel' =>
      p ← read_pass fuel p;
      again ← (if retval p =? 0 then v ← rd word_u14; mret (Z.land v 0x0004 =? 0) else mret false);
      if again : bool then read_loop fuel' p else mret p
  end.

(** One try: the registers of the transfer, the command, the loop. *)
(** src/arch/sh/modules/sdhi.c:405-475: sd_read_block *)
Definition read_try (fuel : nat) (firstaddr : Z) (p : progress) : io D progress :=
  _ ← wr word_u4 0x0100;
  _ ← wr word_u5 0x0001;
  _ ← wr word_far_1 0x0002;
  _ ← clear_flags;
  ret ← sd_send_command fuel SD_CMD_READ_SINGLE_BLOCK firstaddr;
  let p := mk_progress ret (blocksdone p) (dest p) in
  if ret =? 0 then
    _ ← sd_get_resp32;
    p ← read_loop fuel p;
    _ ← sd_get_resp32;
    mret p
  else mret p.

(** src/arch/sh/modules/sdhi.c:403-477: sd_read_block *)
Fixpoint read_tries (fuel : nat) (nbtryleft : nat) (firstaddr : Z) (p : progress) : io D progress :=
  match nbtryleft with
  | O => mret p
  | S nbtryleft =>
      if (1 =? blocksdone p) && (retval p =? 0) then mret p
      else p ← read_try fuel firstaddr p; read_tries fuel nbtryleft firstaddr p
  end.

(** The block copied to [dest], if any, with the result.  The address is an [int] passed
    as an unsigned argument. *)
(** src/arch/sh/modules/sdhi.c:380-488: sd_read_block *)
Definition sd_read_block (fuel : nat) (blocknb : Z) : io D (Z * option (list Z)) :=
  c ← rd (config 2);
  let unknown_condition := Z.land c 0x0100 in
  _ ← (if unknown_condition =? 0 then c ← rd (config 2); wr (config 2) (Z.lor c 0x0100) else nop);
  let firstaddr := u32 (blocknb * 512) in
  ret ← sd_send_command fuel 16 512;
  p ← read_tries fuel 3 firstaddr (mk_progress ret 0 None);
  _ ← clear_flags;
  _ ← (if unknown_condition =? 0 then mask (config 2) 0x0EFF else nop);
  mret (retval p, dest p).
End driver.

(** ** What the card sees *)

(** The argument registers and the commands sent, with their arguments. *)
Record view := mk_view { high : Z; low : Z; sent : list (Z * Z) }.

Definition see (v : view) (w : sreg * Z) : view :=
  match w.1 with
  | arg1 => mk_view w.2 (low v) (sent v)
  | arg0 => mk_view (high v) w.2 (sent v)
  | command => mk_view (high v) (low v) (sent v ++ [(w.2, Z.lor (Z.shiftl (high v) 16) (low v))])
  | _ => v
  end.

Definition commands (w : list (sreg * Z)) : list (Z * Z) := sent (foldl see (mk_view 0 0 []) w).

Lemma commands_other w r v : r ≠ command → commands (w ++ [(r, v)]) = commands w.
Proof. intros Hr. unfold commands. rewrite foldl_app. by destruct r. Qed.

Lemma lor_shiftl h l n : 0 ≤ n → 0 ≤ l < 2 ^ n → Z.lor (Z.shiftl h n) l = h * 2 ^ n + l.
Proof.
  intros Hn Hl. rewrite <- Z.shiftl_mul_pow2 by done.
  assert (Z.land (Z.shiftl h n) l = 0) as E.
  { apply Z.bits_inj'. intros i Hi. rewrite Z.land_spec, Z.testbit_0_l. destruct (decide (i < n)).
    - by rewrite Z.shiftl_spec_low.
    - rewrite (testbit_high l i n) by lia. apply andb_false_r. }
  pose proof (Z.add_lor_land (Z.shiftl h n) l). lia.
Qed.

(** The three writes of a command. *)
Lemma commands_issue w cmd arg : 0 ≤ cmd < 65536 → 0 ≤ arg < 4294967296 →
  commands (((w ++ [(arg1, u16 (Z.shiftr arg 16))]) ++ [(arg0, u16 (Z.land arg 0xFFFF))]) ++ [(command, u16 cmd)]) =
  commands w ++ [(cmd, arg)].
Proof.
  intros Hc Ha. unfold commands. rewrite !foldl_app. cbn. do 3 f_equal; [by apply u16_small|].
  change 0xFFFF with (Z.ones 16). rewrite Z.land_ones, Z.shiftr_div_pow2 by lia.
  pose proof (Z.mod_pos_bound arg (2 ^ 16)). pose proof (Z.div_mod arg (2 ^ 16)).
  rewrite !u16_small by lia. rewrite lor_shiftl by lia. lia.
Qed.

Section lemmas.
Context {D : Type} `{SdDevice D}.
Implicit Types s : sd D.

(** A program returns, with a result and a state of which something holds. *)
Definition returns {A} (m : io D A) s (Q : A → sd D → Prop) : Prop := ∃ x s', m s = Some (x, s') ∧ Q x s'.

Lemma returns_bind {A B} (m : io D A) (f : A → io D B) s Q :
  returns m s (λ x s1, returns (f x) s1 Q) → returns (x ← m; f x) s Q.
Proof.
  intros (x & s1 & Hm & y & s2 & Hf & HQ). exists y, s2. split; [|done].
  unfold mbind, io_bind. by rewrite Hm.
Qed.

Lemma returns_ret {A} (x : A) s (Q : A → sd D → Prop) : Q x s → returns (mret x) s Q.
Proof. intros HQ. by exists x, s. Qed.

Lemma returns_rd_env r s (Q : Z → sd D → Prop) :
  (∀ s', writes s' = writes s → env s' = (dev_read r (env s)).2 → Q (reg_value r (dev_read r (env s)).1) s') → returns (rd r) s Q.
Proof. intros HQ. unfold returns, rd. destruct (dev_read r (env s)) as [v d]. eexists _, _. split; [done|]. by apply HQ. Qed.

Lemma returns_rd r s (Q : Z → sd D → Prop) : (∀ v s', writes s' = writes s → Q v s') → returns (rd r) s Q.
Proof. intros HQ. apply returns_rd_env. auto. Qed.

Lemma returns_wr r v s (Q : () → sd D → Prop) :
  (∀ s', writes s' = writes s ++ [(r, reg_value r v)] → Q () s') → returns (wr r v) s Q.
Proof. intros HQ. eexists _, _. split; [done|]. by apply HQ. Qed.

Lemma returns_env f s (Q : () → sd D → Prop) : (∀ s', writes s' = writes s → Q () s') → returns (on_env f) s Q.
Proof. intros HQ. eexists _, _. split; [done|]. by apply HQ. Qed.

Lemma returns_mono {A} (m : io D A) s (Q1 Q2 : A → sd D → Prop) :
  returns m s Q1 → (∀ x s', Q1 x s' → Q2 x s') → returns m s Q2.
Proof. intros (x & s' & Hm & H1) H12. exists x, s'. auto. Qed.

(** *** The clock *)

(** A pass of a wait, of which only the clock is looked at. *)
Definition poll (r : sreg) (d : D) : Z * D :=
  let '(t, d1) := dev_read R64CNT d in (u8 t, (dev_read r d1).2).

(** The clock counts: of [K] passes of a wait, one shows another value than a given one. *)
Class ClockRuns (K : nat) := clock_runs r d p : ∃ n, (n < K)%nat ∧ (poll r (Nat.iter n (λ d, (poll r d).2) d)).1 ≠ p.

(** A pass of a wait ends it, or goes on in the state a poll gives; the counter moves
    with the clock. *)
Lemma timed_wait_pass r ready check fuel p c s Q :
  (∀ x s', writes s' = writes s → Q x s') →
  (∀ s', writes s' = writes s → env s' = (poll r (env s)).2 → c < SD_TIMEOUT_COMMAND →
     let t := (poll r (env s)).1 in
     returns (timed_wait fuel r ready (if negb (p =? t) then mk_rtc64_timer t (c + 1) else mk_rtc64_timer p c) 0xCD) s' Q) →
  returns (timed_wait (S fuel) r ready (mk_rtc64_timer p c) check) s Q.
Proof.
  intros Hend Hgo. cbn [timed_wait]. apply returns_bind, returns_bind, returns_rd_env. intros s1 Hw1 He1.
  apply returns_ret. cbn [reg_value prev_val counter].
  assert (Ht : (poll r (env s)).1 = u8 (dev_read R64CNT (env s)).1) by (unfold poll; by destruct (dev_read R64CNT (env s))).
  destruct (_ <? _) eqn:Hc; [|apply returns_ret, Hend, Hw1].
  apply returns_bind, returns_rd_env. intros s2 Hw2 He2.
  destruct (ready _); [apply returns_ret, Hend; congruence|]. rewrite <- Ht. apply Hgo; [congruence| |].
  - rewrite He2, He1. unfold poll. by destruct (dev_read R64CNT (env s)).
  - cases; lia.
Qed.

(** When a poll after [n] passes shows that the clock moves, the wait ends if it ends
    with the counter moved. *)
Lemma timed_wait_moves r ready m K p c : ∀ n check fuel s,
  (∀ fuel s p', (m * K < fuel)%nat →
     returns (timed_wait fuel r ready (mk_rtc64_timer p' (c + 1)) 0xCD) s (λ _ s', writes s' = writes s)) →
  (poll r (Nat.iter n (λ d, (poll r d).2) (env s))).1 ≠ p → (n + 1 + m * K < fuel)%nat →
  returns (timed_wait fuel r ready (mk_rtc64_timer p c) check) s (λ _ s', writes s' = writes s).
Proof.
  intros n. induction n as [|n IH]; intros check fuel s Hm Hp Hf; (destruct fuel as [|fuel]; [lia|]);
    (apply timed_wait_pass; [done|]); intros s' Hw He Hc; cbn zeta; case_match eqn:Ht; breflect.
  - eapply returns_mono; [apply Hm; lia|]. by intros x s2 ->.
  - by destruct Hp.
  - eapply returns_mono; [apply Hm; lia|]. by intros x s2 ->.
  - eapply returns_mono; [apply IH; [done| |lia]|by intros x s2 ->].
    rewrite He. by rewrite Nat.iter_succ_r in Hp.
Qed.

(** A wait ends after at most [K] passes for each count that is left. *)
Lemma timed_wait_ends K `{ClockRuns K} r ready : ∀ m c fuel s p check,
  SD_TIMEOUT_COMMAND ≤ c + Z.of_nat m → (m * K < fuel)%nat →
  returns (timed_wait fuel r ready (mk_rtc64_timer p c) check) s (λ _ s', writes s' = writes s).
Proof.
  intros m. induction m as [|m IH]; intros c fuel s p check Hc Hf.
  - destruct fuel as [|fuel]; [lia|]. apply timed_wait_pass; [done|lia].
  - destruct (clock_runs r (env s) p) as (n & Hn & Hp).
    apply (timed_wait_moves r ready m K p c n); [|done|lia]. intros fuel' s' p' Hf'. apply IH; lia.
Qed.
(** *** Programs that send no command *)

Definition silent {A} (m : io D A) : Prop := ∀ s, returns m s (λ _ s', commands (writes s') = commands (writes s)).

Lemma silent_bind {A B} (m : io D A) (f : A → io D B) : silent m → (∀ x, silent (f x)) → silent (x ← m; f x).
Proof.
  intros Hm Hf s. apply returns_bind. eapply returns_mono; [apply Hm|]. intros x s1 H1.
  eapply returns_mono; [apply Hf|]. intros y s2 H2. cbn in *. congruence.
Qed.

Lemma silent_ret {A} (x : A) : silent (mret x).
Proof. intros s. by apply returns_ret. Qed.

Lemma silent_rd r : silent (rd r).
Proof. intros s. apply returns_rd. by intros v s' ->. Qed.

Lemma silent_wr r v : r ≠ command → silent (wr r v).
Proof. intros Hr s. apply returns_wr. intros s' ->. by apply commands_other. Qed.

Lemma silent_env f : silent (on_env f).
Proof. intros s. apply returns_env. by intros s' ->. Qed.

Lemma silent_sdmode v : silent (set_sdmode v).
Proof. intros s. by eexists _, _. Qed.

Lemma silent_get_sdmode : silent get_sdmode.
Proof. intros s. by eexists _, _. Qed.

Lemma silent_buffer : silent buffer.
Proof. intros s. by eexists _, _. Qed.
End lemmas.

Create HintDb sdhi.
#[export] Hint Resolve silent_ret silent_rd silent_env silent_sdmode silent_get_sdmode silent_buffer : sdhi.
#[export] Hint Extern 1 (silent (wr _ _)) => by apply silent_wr : sdhi.

(** Goes through a program, by the operations it is made of. *)
Ltac silent_steps :=
  repeat first
    [ progress auto with sdhi
    | apply silent_bind; [|intros ?]
    | case_match
    | progress unfold mask, kdelay, nop ].

Section sending.
Context {D : Type} `{SdDevice D} (K : nat) {clock : ClockRuns K} (_sd_tmp_buffer : ptr).
Implicit Types s : sd D.

Lemma silent_flags : silent (clear_flags (D:=D)).
Proof. unfold clear_flags. silent_steps. Qed.

Lemma silent_fun4 mode : silent (sd_sdhi_fun4 (D:=D) mode).
Proof. unfold sd_sdhi_fun4. silent_steps. Qed.

Lemma silent_isready : silent (sd_isready_0 (D:=D)).
Proof. unfold sd_isready_0. silent_steps. Qed.

Lemma silent_delays l : silent (delay_each (D:=D) l).
Proof. induction l; cbn [delay_each]; silent_steps. Qed.

Lemma silent_status : silent (command_status (D:=D)).
Proof. unfold command_status. silent_steps. Qed.

Lemma silent_wait fuel r ready p : (80 * K < fuel)%nat →
  silent (timed_wait fuel r ready (mk_rtc64_timer p 0) 0).
Proof.
  intros Hf s. eapply returns_mono; [apply (timed_wait_ends K r ready 80 0); [done|lia]|]. by intros x s' ->.
Qed.
Lemma returns_silent {A B} (m : io D A) (f : A → io D B) s (Q : B → sd D → Prop) :
  silent m → (∀ x s', commands (writes s') = commands (writes s) → returns (f x) s' Q) → returns (x ← m; f x) s Q.
Proof. intros Hm Hf. apply returns_bind. eapply returns_mono; [apply Hm|]. intros x s'. apply Hf. Qed.

Lemma silent_timer {A} fuel r ready (k : io D A) : (80 * K < fuel)%nat → silent k →
  silent (timeout ← rtc_init_timer; _ ← timed_wait fuel r ready timeout 0; k).
Proof.
  intros Hf Hk s. apply returns_bind, returns_bind, returns_rd. intros v s1 H1. apply returns_ret.
  apply returns_silent; [by apply silent_wait|]. intros x s2 H2.
  eapply returns_mono; [apply Hk|]. intros y s3 H3. cbn in *. congruence.
Qed.

(** The codes a command gives. *)
Definition status_codes : list Z := [0; 0x00C9; 0x00CA; 0x00D0].

Lemma status_code s : returns (command_status (D:=D)) s (λ v s', v ∈ status_codes ∧ commands (writes s') = commands (writes s)).
Proof.
  unfold command_status. do 3 (apply returns_bind, returns_rd; intros ? ? ?). apply returns_ret.
  split; [|congruence]. unfold status_codes. cases; set_solver.
Qed.

(** After the registers are written: the rest of [issue_command]. *)
Lemma issue_end fuel cmd funret s : (80 * K < fuel)%nat →
  returns (timeout ← rtc_init_timer;
           _ ← timed_wait fuel word_u14 (λ v, v &? 0x0001) timeout 0;
           retval ← command_status;
           _ ← (if (cmd =? 0) || (cmd =? 7) then
                  timeout ← rtc_init_timer;
                  _ ← timed_wait fuel word_u15 (λ v, Z.land v 0x4000 =? 0) timeout 0;
                  delay_each (reverse (seqZ 1 10))
                else nop);
           _ ← clear_flags;
           _ ← sd_sdhi_fun4 funret;
           mret retval) s (λ v s', v ∈ status_codes ∧ commands (writes s') = commands (writes s)).
Proof.
  intros Hf. apply returns_bind, returns_bind, returns_rd. intros t s1 H1. apply returns_ret.
  apply returns_silent; [by apply silent_wait|]. intros _ s2 H2.
  apply returns_bind. eapply returns_mono; [apply status_code|]. intros v s3 [Hv H3].
  apply returns_silent; [case_match; [apply silent_timer; [done|apply silent_delays]|apply silent_ret]|]. intros _ s4 H4.
  apply returns_silent; [apply silent_flags|]. intros _ s5 H5.
  apply returns_silent; [apply silent_fun4|]. intros _ s6 H6.
  apply returns_ret. split; [done|congruence].
Qed.

(** The first part of [sd_send_command] is only for longer commands. *)
Lemma short_command fuel cmd arg : 0 ≤ cmd < 256 → sd_send_command (D:=D) fuel cmd arg = issue_command fuel cmd arg.
Proof.
  intros Hc. unfold sd_send_command.
  assert ((cmd &? 0xFF00) = false) as ->; [|done].
  unfold flag_set. apply negb_false_iff, Z.eqb_eq. apply Z.bits_inj'. intros n Hn.
  rewrite Z.land_spec, Z.testbit_0_l. destruct (decide (n < 8)).
  - change 0xFF00 with (Z.shiftl 0xFF 8). rewrite Z.shiftl_spec_low by done. apply andb_false_r.
  - by rewrite (testbit_high cmd n 8) by lia.
Qed.

(** A command of eight bits ends, with one of the codes, and is sent exactly once with
    its argument, whatever the card answers. *)
Lemma send_command_spec fuel cmd arg s : (80 * K < fuel)%nat → 0 ≤ cmd < 256 → 0 ≤ arg < 4294967296 →
  returns (sd_send_command fuel cmd arg) s (λ v s',
    v ∈ status_codes ∧ commands (writes s') = commands (writes s) ++ [(cmd, arg)]).
Proof.
  intros Hf Hc Ha. rewrite short_command by done. unfold issue_command.
  apply returns_silent; [apply silent_flags|]. intros _ s1 H1.
  apply returns_silent; [apply silent_isready|]. intros funret s2 H2.
  apply returns_silent; [apply silent_env|]. intros _ s3 H3.
  apply returns_bind, returns_wr. intros s4 H4. apply returns_bind, returns_wr. intros s5 H5.
  apply returns_bind, returns_wr. intros s6 H6. cbn [reg_value] in *.
  eapply returns_mono; [by apply issue_end|]. intros v s' [Hv H7]. split; [done|].
  rewrite H7, H6, H5, H4, commands_issue by lia. congruence.
Qed.
(** *** Reading a block *)

(** When a program ends, it has sent some commands. *)
Definition sends {A} (m : io D A) (Q : A → list (Z * Z) → Prop) : Prop :=
  ∀ s x s', m s = Some (x, s') → ∃ w, commands (writes s') = commands (writes s) ++ w ∧ Q x w.

Lemma sends_silent {A} (m : io D A) : silent m → sends m (λ _ w, w = []).
Proof.
  intros Hm s x s' E. destruct (Hm s) as (x1 & s1 & E1 & H1). exists []. rewrite E1 in E. simplify_eq.
  by rewrite app_nil_r.
Qed.

Lemma sends_bind {A B} (m : io D A) (f : A → io D B) P Q :
  sends m P → (∀ x w1, P x w1 → sends (f x) (λ y w2, Q y (w1 ++ w2))) → sends (x ← m; f x) Q.
Proof.
  intros Hm Hf s y s' E. unfold mbind, io_bind in E. apply bind_Some in E as ([x s1] & E1 & E2).
  destruct (Hm _ _ _ E1) as (w1 & H1 & HP). destruct (Hf x w1 HP _ _ _ E2) as (w2 & H2 & HQ).
  exists (w1 ++ w2). split; [|done]. by rewrite H2, H1, app_assoc.
Qed.

Lemma sends_mono {A} (m : io D A) (P Q : A → list (Z * Z) → Prop) : sends m P → (∀ x w, P x w → Q x w) → sends m Q.
Proof. intros Hm HPQ s x s' E. destruct (Hm _ _ _ E) as (w & ? & ?). eauto. Qed.

(** A silent step first. *)
Lemma sends_skip {A B} (m : io D A) (f : A → io D B) Q : silent m → (∀ x, sends (f x) Q) → sends (x ← m; f x) Q.
Proof. intros Hm Hf. eapply sends_bind; [by apply sends_silent|]. intros x w1 ->. apply Hf. Qed.

Lemma sends_ret {A} (x : A) (Q : A → list (Z * Z) → Prop) : Q x [] → sends (mret x) Q.
Proof. intros HQ s y s' [= <- <-]. exists []. by rewrite app_nil_r. Qed.

Lemma sends_diverge {A} Q : sends (diverge (A:=A)) Q.
Proof. by intros s x s'. Qed.

Lemma sends_wait fuel r ready : ∀ timeout check, sends (timed_wait (D:=D) fuel r ready timeout check) (λ _ w, w = []).
Proof.
  induction fuel as [|fuel IH]; intros timeout check; [apply sends_diverge|]. cbn [timed_wait].
  apply sends_skip; [unfold rtc_update_timer; silent_steps|]. intros tm. case_match; [|by apply sends_ret].
  apply sends_skip; [apply silent_rd|]. intros v. case_match; [by apply sends_ret|apply IH].
Qed.

Lemma sends_issue {A} cmd arg (k : io D A) Q : 0 ≤ cmd < 256 → 0 ≤ arg < 4294967296 →
  sends k (λ x w, Q x ((cmd, arg) :: w)) →
  sends (_ ← wr arg1 (Z.shiftr arg 16); _ ← wr arg0 (Z.land arg 0xFFFF); _ ← wr command cmd; k) Q.
Proof.
  intros Hc Ha Hk s x s' E. destruct (Hk _ _ _ E) as (w & Hw & HQ). exists ((cmd, arg) :: w). split; [|done].
  rewrite Hw. cbn [writes reg_value]. rewrite commands_issue by lia. by rewrite <- app_assoc.
Qed.

(** The same for any clock, when it ends. *)
Lemma sends_command fuel cmd arg : 0 ≤ cmd < 256 → 0 ≤ arg < 4294967296 →
  sends (sd_send_command (D:=D) fuel cmd arg) (λ v w, w = [(cmd, arg)]).
Proof.
  intros Hc Ha. rewrite short_command by done. unfold issue_command.
  apply sends_skip; [apply silent_flags|intros _]. apply sends_skip; [apply silent_isready|intros funret].
  apply sends_skip; [apply silent_env|intros _]. apply sends_issue; [done..|].
  apply sends_skip; [unfold rtc_init_timer; silent_steps|intros tm].
  eapply sends_bind; [apply sends_wait|]. intros _ w ->. apply sends_skip; [apply silent_status|intros ret].
  eapply (sends_bind _ _ (λ _ w, w = [])).
  { case_match; [|by apply sends_ret]. apply sends_skip; [unfold rtc_init_timer; silent_steps|intros tm'].
    eapply sends_bind; [apply sends_wait|]. intros _ w ->. apply sends_silent, silent_delays. }
  intros _ w ->. apply sends_skip; [apply silent_flags|intros _]. apply sends_skip; [apply silent_fun4|intros _].
  by apply sends_ret.
Qed.

Lemma silent_dma dest n : silent (sd_dma_read (D:=D) dest n).
Proof. unfold sd_dma_read. silent_steps. Qed.

Lemma silent_resp32 : silent (sd_get_resp32 (D:=D)).
Proof. unfold sd_get_resp32. silent_steps. Qed.

Lemma sends_dma_wait fuel ret : sends (dma_wait (D:=D) fuel ret) (λ _ w, w = []).
Proof.
  induction fuel as [|fuel IH]; [apply sends_diverge|]. cbn [dma_wait].
  apply sends_skip; [apply silent_rd|]. intros v. case_match; [|by apply sends_ret].
  do 2 (apply sends_skip; [apply silent_rd|intros _]).
  apply sends_skip; [apply silent_delays|intros _]. apply sends_skip; [apply silent_rd|]. intros o.
  apply sends_skip; [silent_steps|]. intros b. case_match; [by apply sends_ret|done].
Qed.

(** A block is counted only with its contents. *)
Definition counted (p : progress) : Prop := 0 ≤ blocksdone p ∧ (0 < blocksdone p → is_Some (dest p)).

Lemma sends_pass fuel p : counted p → sends (read_pass (D:=D) _sd_tmp_buffer fuel p) (λ p' w, w = [] ∧ counted p').
Proof.
  intros Hp. unfold read_pass. apply sends_skip; [apply silent_rd|]. intros v.
  apply (sends_bind _ _ (λ p' w, w = [] ∧ counted p')).
  - case_match; [|by apply sends_ret].
    apply sends_skip; [apply silent_env|intros _]. apply sends_skip; [apply silent_dma|intros _].
    eapply sends_bind; [apply sends_dma_wait|]. intros ret w ->. case_match; [|by apply sends_ret].
    apply sends_skip; [apply silent_buffer|]. intros b. apply sends_ret. destruct Hp. by repeat split; cbn; [lia|].
  - intros p' w [-> Hp']. do 2 (apply sends_skip; [apply silent_rd|intros ?]). by apply sends_ret.
Qed.

Lemma sends_loop fuel p : counted p → sends (read_loop (D:=D) _sd_tmp_buffer fuel p) (λ p' w, w = [] ∧ counted p').
Proof.
  revert p. induction fuel as [|fuel IH]; intros p Hp; [apply sends_diverge|]. cbn [read_loop].
  eapply sends_bind; [by apply sends_pass|]. intros p' w [-> Hp'].
  apply sends_skip; [silent_steps|]. intros again. case_match; [by apply IH|by apply sends_ret].
Qed.

Lemma sends_try fuel addr p : 0 ≤ addr < 4294967296 → counted p →
  sends (read_try (D:=D) _sd_tmp_buffer fuel addr p) (λ p' w, w = [(SD_CMD_READ_SINGLE_BLOCK, addr)] ∧ counted p').
Proof.
  intros Ha Hp. unfold read_try. do 3 (apply sends_skip; [by apply silent_wr|intros _]).
  apply sends_skip; [apply silent_flags|intros _].
  eapply sends_bind; [by apply sends_command|]. intros ret w ->. case_match; [|by apply sends_ret].
  apply sends_skip; [apply silent_resp32|intros _].
  eapply sends_bind; [by apply sends_loop|]. intros p' w [-> Hp'].
  apply sends_skip; [apply silent_resp32|intros _]. by apply sends_ret.
Qed.

Lemma sends_tries fuel addr : 0 ≤ addr < 4294967296 → ∀ n p, counted p →
  sends (read_tries (D:=D) _sd_tmp_buffer fuel n addr p) (λ p' w, ∃ k, (k ≤ n)%nat ∧
    w = replicate k (SD_CMD_READ_SINGLE_BLOCK, addr) ∧ ((k < n)%nat → retval p' = 0 ∧ blocksdone p' = 1) ∧ counted p' ∧
    (blocksdone p = 0 → n ≠ O → k ≠ O)).
Proof.
  intros Ha n. induction n as [|n IH]; intros p Hp; cbn [read_tries].
  { apply sends_ret. exists O. split_and!; try done. lia. }
  case_match; breflect.
  - apply sends_ret. exists O. split_and!; try done; lia.
  - eapply sends_bind; [by apply sends_try|]. intros p1 w1 [-> Hp1].
    eapply sends_mono; [by apply IH|]. intros p' w (k & Hk & -> & Hend & Hp' & _).
    exists (S k). split_and!; try done; [lia|]. intros Hlt. apply Hend. lia.
Qed.

(** Reading a block sets the block length, then asks for the block, once to three times;
    before the third time it gives up only with a block that was copied. *)
Lemma read_block_tries fuel blocknb :
  sends (sd_read_block (D:=D) _sd_tmp_buffer fuel blocknb) (λ r w, ∃ k, (1 ≤ k ≤ 3)%nat ∧
    w = (16, 512) :: replicate k (SD_CMD_READ_SINGLE_BLOCK, u32 (blocknb * 512)) ∧ ((k < 3)%nat → r.1 = 0 ∧ is_Some r.2)).
Proof.
  unfold sd_read_block. apply sends_skip; [apply silent_rd|]. intros c.
  apply sends_skip; [silent_steps|intros _]. eapply sends_bind; [by apply sends_command|]. intros ret w ->.
  eapply sends_bind; [apply sends_tries; [apply u32_range|by split; cbn; [lia|]]|].
  intros p w (k & Hk & -> & Hend & [_ Hp] & Hne). apply sends_skip; [apply silent_flags|intros _].
  apply sends_skip; [silent_steps|intros _]. apply sends_ret. exists k. cbn [blocksdone] in Hne.
  assert (k ≠ O) by auto. split_and!; [lia|lia|cbn; by rewrite app_nil_r|].
  intros Hlt. destruct (Hend Hlt) as [Hr Hb]. cbn. split; [done|]. apply Hp. lia.
Qed.
(** *** Initialisation *)

(** A card is initialised with 1 after the commands of an SD card, or of an MMC. *)
Definition sd_sequence (k : nat) : list (Z * Z) := concat (replicate k [(105, 0x001F8000); (55, 0)]) ++ [(105, 0x001F8000)].
Definition mmc_sequence (k : nat) : list (Z * Z) := replicate (S k) (1, 0x001F8000).

Lemma sends_init_sd fun2ret : ∀ fuel, sends (sd_init_sd (D:=D) fuel fun2ret) (λ r w, r = None ∨ (r = Some 1 ∧ ∃ k, w = sd_sequence k)).
Proof.
  induction fuel as [|fuel IH]; [apply sends_diverge|]. cbn [sd_init_sd].
  eapply sends_bind; [by apply sends_command|]. intros tmp w ->. case_match.
  { apply sends_skip; [apply silent_fun4|intros _]. apply sends_ret. auto. }
  apply sends_skip; [apply silent_resp32|intros v]. case_match.
  - eapply sends_bind; [by apply sends_command|]. intros tmp' w ->. case_match.
    { apply sends_skip; [apply silent_fun4|intros _]. apply sends_ret. auto. }
    eapply sends_mono; [apply IH|]. intros r w [->|[-> [k ->]]]; [by left|right]. split; [done|]. by exists (S k).
  - apply sends_skip; [apply silent_sdmode|intros _]. apply sends_ret. right. split; [done|]. by exists O.
Qed.

Lemma sends_init_mmc fun2ret : ∀ fuel, sends (sd_init_mmc (D:=D) fuel fun2ret) (λ r w, r = None ∨ (r = Some 1 ∧ ∃ k, w = mmc_sequence k)).
Proof.
  induction fuel as [|fuel IH]; [apply sends_diverge|]. cbn [sd_init_mmc].
  eapply sends_bind; [by apply sends_command|]. intros tmp w ->. case_match.
  { apply sends_skip; [apply silent_fun4|intros _]. apply sends_ret. auto. }
  apply sends_skip; [apply silent_resp32|intros v]. case_match.
  - eapply sends_mono; [apply IH|]. intros r w [->|[-> [k ->]]]; [by left|right]. split; [done|]. by exists (S k).
  - apply sends_skip; [apply silent_sdmode|intros _]. apply sends_ret. right. split; [done|]. by exists O.
Qed.

Lemma silent_fun8 : silent (sd_sdhi_fun8_1 (D:=D)).
Proof. unfold sd_sdhi_fun8_1. silent_steps. Qed.

Lemma silent_init_registers : silent (sd_init_registers (D:=D)).
Proof. unfold sd_init_registers, sd_init_ports, sd_inhibit_interupt, sd_allow_interupt. silent_steps. Qed.

(** The reset and the first command are always sent; 1 is the result only when the card
    has been through one of the two sequences. *)
Lemma sd_init_sequence fuel : sends (sd_init (D:=D) fuel) (λ r w, ∃ rest, w = (0, 0) :: (55, 0) :: rest ∧
  (r = 0 ∨ (r = 1 ∧ ∃ k, rest = sd_sequence k ∨ rest = mmc_sequence k))).
Proof.
  unfold sd_init. apply sends_skip; [apply silent_init_registers|intros _]. apply sends_skip; [apply silent_isready|intros f].
  apply sends_skip; [apply silent_sdmode|intros _]. apply sends_skip; [apply silent_fun8|intros _].
  eapply sends_bind; [by apply sends_command|]. intros _ w ->. apply sends_skip; [apply silent_resp32|intros _].
  eapply sends_bind; [by apply sends_command|]. intros tmp w ->. apply sends_skip; [apply silent_resp32|intros _].
  apply (sends_bind _ _ (λ r w, r = None ∨ r = Some 0 ∨ (r = Some 1 ∧ ∃ k, w = sd_sequence k ∨ w = mmc_sequence k))).
  - case_match; [|case_match].
    + eapply sends_mono; [apply sends_init_sd|]. naive_solver.
    + apply sends_skip; [by apply silent_wr|intros _]. eapply sends_mono; [apply sends_init_mmc|]. naive_solver.
    + apply sends_ret. auto.
  - intros r rest Hr. destruct r as [v|].
    + apply sends_skip; [apply silent_fun8|intros _]. apply sends_skip; [apply silent_fun4|intros _].
      apply sends_ret. exists rest. rewrite app_nil_r. split; [done|]. naive_solver.
    + apply sends_ret. exists rest. rewrite app_nil_r. auto.
Qed.
End sending.

(** A command of the protocol ends, however the card behaves, as soon as the clock runs:
    [80 * K] passes of the waits are enough when the clock moves once in [K] passes.  The
    result is one of the codes, and the card has seen exactly that command, with its
    argument. *)
Theorem sd_send_command_returns {D} `{SdDevice D} K `{!ClockRuns K} fuel cmd arg (s : sd D) :
  (80 * K < fuel)%nat → 0 ≤ cmd < 256 → 0 ≤ arg < 4294967296 →
  ∃ v s', sd_send_command fuel cmd arg s = Some (v, s') ∧ v ∈ status_codes ∧
    commands (writes s') = commands (writes s) ++ [(cmd, arg)].
Proof. intros Hf Hc Ha. exact (send_command_spec K fuel cmd arg s Hf Hc Ha). Qed.

(** ** Long responses *)

(** The high part of the size is at the end of the second word, the low part at the
    beginning of the third one. *)
(** src/device/sd_card.h:98-98: c_size_h *)
Definition c_size_h (csd : sd_resp128) : Z := Z.land (r1 csd) 0x3FF.
(** src/device/sd_card.h:102-102: c_size_l *)
Definition c_size_l (csd : sd_resp128) : Z := Z.land (Z.shiftr (r2 csd) 30) 3.
(** src/device/sd_card.h:39-39: SD_CSD_GET_C_SIZE *)
Definition SD_CSD_GET_C_SIZE (csd : sd_resp128) : Z := Z.lor (Z.shiftl (c_size_h csd) 2) (c_size_l csd).

Lemma join_bytes x y z : 0 ≤ x → 0 ≤ y < 65536 → 0 ≤ z < 256 →
  u32 (Z.lor (Z.lor (Z.shiftl x 24) (Z.shiftl y 8)) z) = (x mod 256) * 16777216 + y * 256 + z.
Proof.
  intros Hx Hy Hz. rewrite (lor_shiftl x _ 24); [|lia|rewrite Z.shiftl_mul_pow2; lia].
  rewrite Z.shiftl_mul_pow2 by lia.
  replace (x * 2 ^ 24 + y * 2 ^ 8) with (Z.shiftl (x * 2 ^ 16 + y) 8) by (rewrite Z.shiftl_mul_pow2; lia).
  rewrite lor_shiftl by lia. pose proof (Z.div_mod x 256). pose proof (Z.mod_pos_bound x 256).
  unfold u32. symmetry. apply Z.mod_unique_pos with (x / 256); lia.
Qed.

(** The response the registers hold: fifteen bytes, without its checksum. *)
Definition response (word : Z → Z) : Z :=
  word 0 + word 1 * 2 ^ 16 + word 2 * 2 ^ 32 + word 3 * 2 ^ 48 + word 4 * 2 ^ 64 + word 5 * 2 ^ 80 + word 6 * 2 ^ 96 + word 7 * 2 ^ 112.

Definition value128 (r : sd_resp128) : Z := r0 r * 2 ^ 96 + r1 r * 2 ^ 64 + r2 r * 2 ^ 32 + r3 r.

Lemma c_size_bits r : 0 ≤ r0 r → 0 ≤ r1 r < 2 ^ 32 → 0 ≤ r2 r < 2 ^ 32 → 0 ≤ r3 r < 2 ^ 32 →
  SD_CSD_GET_C_SIZE r = (value128 r / 2 ^ 62) mod 2 ^ 12.
Proof.
  intros H0 H1 H2 H3. unfold SD_CSD_GET_C_SIZE, c_size_h, c_size_l, value128.
  change 0x3FF with (Z.ones 10). change 3 with (Z.ones 2). rewrite !Z.land_ones, Z.shiftr_div_pow2 by lia.
  rewrite lor_shiftl by (try apply Z.mod_pos_bound; lia).
  assert (E : (r0 r * 2 ^ 96 + r1 r * 2 ^ 64 + r2 r * 2 ^ 32 + r3 r) / 2 ^ 62 = r0 r * 2 ^ 34 + r1 r * 4 + r2 r / 2 ^ 30).
  { pose proof (Z.div_mod (r2 r) (2 ^ 30)). pose proof (Z.mod_pos_bound (r2 r) (2 ^ 30)).
    symmetry. apply Z.div_unique_pos with (r2 r mod 2 ^ 30 * 2 ^ 32 + r3 r); lia. }
  rewrite E, (Z.mod_small (r2 r / 2 ^ 30)) by (split; [apply Z.div_pos | apply Z.div_lt_upper_bound]; lia).
  pose proof (Z.div_pos (r2 r) (2 ^ 30)). pose proof (Z.div_lt_upper_bound (r2 r) (2 ^ 30) 4).
  pose proof (Z.div_mod (r1 r) (2 ^ 10)). pose proof (Z.mod_pos_bound (r1 r) (2 ^ 10)). apply Z.mod_unique_pos with (r0 r * 2 ^ 22 + r1 r / 2 ^ 10); lia.
Qed.

(** The words of a long response are put together as the comments say: the response with
    eight more bits at its end; and the size of the card is the field of twelve bits the
    protocol has at bit 62. *)
Theorem sd_response_csize {D} `{SdDevice D} (word : Z → Z) (s : sd D) :
  (∀ n d, dev_read (resp n) d = (word n, d)) → (∀ n, 0 ≤ word n < 65536) → word 7 < 256 →
  ∃ r, sd_get_resp128 s = Some (r, s) ∧ value128 r = 256 * response word ∧
    SD_CSD_GET_C_SIZE r = (256 * response word / 2 ^ 62) mod 2 ^ 12.
Proof.
  intros Hr Hw H7. destruct s as [e m w].
  unfold sd_get_resp128, rd, mbind, io_bind, mret, io_ret, mbind, option_bind. cbn [env].
  rewrite !Hr; cbn [env]. repeat (rewrite Hr; cbn [env]).
  cbn [reg_value]. rewrite !u16_small by apply Hw. eexists. split; [done|].
  set (r := mk_resp128 _ _ _ _).
  assert (Hb : ∀ n, 0 ≤ Z.shiftr (word n) 8 < 256) by (intros n; specialize (Hw n); rewrite Z.shiftr_div_pow2 by lia;
    split; [apply Z.div_pos | apply Z.div_lt_upper_bound]; lia).
  assert (E0 : r0 r = _) by (apply join_bytes; [apply Hw|apply Hw|apply Hb]).
  assert (E1 : r1 r = _) by (apply join_bytes; [apply Hw|apply Hw|apply Hb]).
  assert (E2 : r2 r = _) by (apply join_bytes; [apply Hw|apply Hw|apply Hb]).
  assert (E3 : r3 r = _) by (cbn [r3 r]; rewrite <- (Z.lor_0_r (Z.lor _ _)); apply join_bytes; [apply Hw|apply Hw|lia]).
  assert (Hv : value128 r = 256 * response word).
  { unfold value128, response. rewrite E0, E1, E2, E3, !Z.shiftr_div_pow2 by lia.
    pose proof (Hw 7). pose proof (Z.div_mod (word 1) 256). pose proof (Z.div_mod (word 3) 256). pose proof (Z.div_mod (word 5) 256).
    rewrite (Z.mod_small (word 7)) by lia. change (2 ^ 8) with 256. lia. }
  split; [done|]. rewrite <- Hv.
  assert (Hm : ∀ n, 0 ≤ word n mod 256 < 256) by (intros; apply Z.mod_pos_bound; lia).
  pose proof (Hm 1). pose proof (Hm 3). pose proof (Hm 5). pose proof (Hm 7). pose proof (Hb 1). pose proof (Hb 3). pose proof (Hb 5).
  pose proof (Hw 0). pose proof (Hw 2). pose proof (Hw 4). pose proof (Hw 6).
  apply c_size_bits; rewrite ?E0, ?E1, ?E2, ?E3; lia.
Qed.

(** ** Witnesses *)

(** A controller whose registers do not change, with a clock that counts when it is read. *)
Definition fixed_device (regs : sreg → Z) : SdDevice Z := {|
  dev_read r t := match r with R64CNT => (t, t + 1) | _ => (regs r, t) end;
  dev_write _ _ t := t;
  dev_delay _ t := t;
  dev_buffer _ := [];
  dev_set_buffer _ t := t
|}.

Lemma fixed_clock regs : regs R64CNT = 0 → @ClockRuns Z (fixed_device regs) 2.
Proof.
  intros Hr r d p. unfold poll. cbn.
  destruct (decide (u8 d = p)) as [<-|]; [|exists O; split; [lia|done]].
  exists 1%nat. split; [lia|]. cbn. unfold u8.
  pose proof (Z.div_mod d 256). pose proof (Z.div_mod (d + 1) 256).
  pose proof (Z.mod_pos_bound d 256). pose proof (Z.mod_pos_bound (d + 1) 256).
  pose proof (Z.div_mod (d + 2) 256). pose proof (Z.mod_pos_bound (d + 2) 256).
  destruct r; cbn; try lia. replace (d + 1 + 1) with (d + 2) by lia. lia.
Qed.

Definition start : sd Z := mk_sd 0 1 [].

(** Commands end at once, without a flag. *)
Definition quiet_regs (r : sreg) : Z := match r with word_u14 => 0x0005 | _ => 0 end.

Lemma sd_send_command_returns_witness : ∃ v s',
  @sd_send_command Z (fixed_device quiet_regs) 161 17 512 start = Some (v, s') ∧ v ∈ status_codes ∧
  commands (writes s') = commands (writes start) ++ [(17, 512)].
Proof.
  apply (@sd_send_command_returns Z (fixed_device quiet_regs) 2 (fixed_clock quiet_regs eq_refl) 161 17 512 start); lia.
Defined.

Lemma sd_response_csize_witness : ∃ r,
  @sd_get_resp128 Z (fixed_device (λ _, 7)) start = Some (r, start) ∧ value128 r = 256 * response (λ _, 7) ∧
  SD_CSD_GET_C_SIZE r = (256 * response (λ _, 7) / 2 ^ 62) mod 2 ^ 12.
Proof. apply (@sd_response_csize Z (fixed_device (λ _, 7)) (λ _, 7) start); [done|lia|lia]. Defined.

(** ** Behaviour that was not intended *)

(** The structure has no room for the registers that are not known: the data register is
    not at the address the comments give (0x30), where [word_far_2] is instead. *)
Example sdhi_members_misplaced :
  member_address (config 4) = SDHI + 40 ∧ member_address data = SDHI + 42 ∧ member_address word_far_1 = SDHI + 46 ∧
  member_address word_far_2 = SDHI + 0x30.
Proof. by vm_compute. Qed.

(** A read of a block gives 0 although the card has never had data: nothing is copied. *)
Example read_block_without_data :
  fst <$> @sd_read_block Z (fixed_device quiet_regs) 0x8C000000 200 3 start = Some (0, None).
Proof. by vm_compute. Qed.

(** The check before a long command is inverted: it is refused when the controller is
    ready and sent when the controller is still busy after the delay. *)
Example ready_refused :
  fst <$> @sd_send_command Z (fixed_device quiet_regs) 200 0x111 0 start = Some 0x00CD ∧
  fst <$> @sd_send_command Z (fixed_device (λ r, match r with word_u15 => 0x4000 | _ => quiet_regs r end)) 200 0x111 0 start = Some 0.
Proof. by vm_compute. Qed.
