(* ===== verification/Startup.v ===== *)
(** * Starting the system (src/init.c, src/tests.c)

    The end of [init] puts the other components together: the file systems are
    registered and mounted, the nodes of the devices created, the processes and the
    scheduler initialised, and [test_process] loads the first program and gives the
    processor to the scheduler.

    The theorem follows the first program from the file to the processor: when its file
    is found and well formed, the first interrupt of the idle task switches to its entry
    point, in user mode with an empty stack, and its areas are the segments of the file
    and the stack.  The nodes the initialisation creates are found by their paths. *)

From S2P Require Import Prelude CyclicFifo PhysMem PoolAlloc KMem Pid Mmu PageDir Kernel Scheduler VfsCache Pipe VfsFile MemArea.
From S2P Require Import Signal Vfs Protofs ProtofsTree Process Sync Tty Time Keyboard Device TextDisplay VirtualTerm Smemfs PageFault FileOps Elf Interrupt.

(** src/fs/inode.h:40-40: INODE_FLAG_READ *)
Definition INODE_FLAG_READ : Z := 4.
(** src/fs/inode.h:41-41: INODE_FLAG_WRITE *)
Definition INODE_FLAG_WRITE : Z := 2.
(** src/fs/inode.h:42-42: INODE_FLAG_EXEC *)
Definition INODE_FLAG_EXEC : Z := 1.
(** src/fs/vfs.h:50-50: VFS_MOUNT_NORMAL *)
Definition VFS_MOUNT_NORMAL : Z := 0.

(** ** Devices *)

(** The terminals, by the address of the device; their driver has nothing to initialise. *)
(** src/init.c:109-113: init *)
Definition init_tty_device (ttydev_device : ptr) (devs : list device_entry) : list device_entry :=
  (dev_register_device ttydev_device 4 (dev_init devs)).2.

(** [dev_register_device], of which the result is not looked at. *)
Definition register {A Dv} (d : ptr) (major_id : Z) (s : system A Dv) : system A Dv :=
  set_devs (dev_register_device d major_id (s_devs s)).2 s.

Section startup.
Context {M Dv : Type} `{!PageMem M}.
Implicit Types (s : system (kmem M) Dv) (k : kernel (kmem M)).

(** The flash memory; the primitives of its file system before and after it is mounted;
    the instances of the two file systems; uninitialised memory; the code of the idle
    task and its stack. *)
Context (flash : Z → Z) (tables fuel depth reads : nat) (prim0 prim : smemfs_prim).
Context (protofs_inst smemfs_inst : ptr) (open_dev : ptr → ptr → kernel (kmem M) → option (Z * kernel (kmem M))).
Context (display_device fxkeyboard_device : ptr) (pf_stale : list protofs_node) (s0 stale : list Z) (garbage : context) (trampoline idle_func end_stack : Z).

(** [inst->fs] *)
Definition fs_of (inst : ptr) : file_system (kmem M) :=
  if inst =? smemfs_inst then smemfs_file_system flash tables fuel s0 prim else protofs_file_system fuel open_dev.

Definition reg_smemfs : @registered_fs (kmem M) :=
  mk_registered (text "smemfs") (λ _ k, '(inst, _, _) ← smemfs_mount flash tables smemfs_inst 0 prim0; Some (inst, k)).
Definition reg_protofs : @registered_fs (kmem M) := mk_registered (text "protofs") (λ _, protofs_mount protofs_inst pf_stale).

(** ** Files *)

(** The results of the calls are not looked at. *)
Definition create (path name : list Z) (type_flags mode_flags special : Z) k : option (kernel (kmem M)) :=
  snd <$> vfs_create fuel fs_of path name type_flags mode_flags special k.

(** The root file system and the nodes of /dev, with the number of the console's device. *)
(** src/init.c:165-173: init *)
Definition init_nodes (console : Z) (fslist : list (option (registered_fs (kmem M)))) k : option (kernel (kmem M)) :=
  k ← snd <$> vfs_mount fuel fs_of fslist (text "protofs") [] VFS_MOUNT_ROOT k;
  k ← create (text "/") (text "dev") INODE_TYPE_PARENT (Z.lor INODE_FLAG_READ INODE_FLAG_EXEC) 0 k;
  k ← create (text "/dev") (text "tty1") INODE_TYPE_DEV INODE_FLAG_WRITE 0x00040000 k;
  k ← create (text "/dev") (text "tty2") INODE_TYPE_DEV INODE_FLAG_WRITE 0x00040001 k;
  k ← create (text "/dev") (text "serial") INODE_TYPE_DEV INODE_FLAG_WRITE 0x00030000 k;
  create (text "/dev") (text "console") INODE_TYPE_DEV INODE_FLAG_WRITE console k.

(** The directories the storage memory is mounted on. *)
(** src/init.c:182-183: init *)
Definition init_mnt k : option (kernel (kmem M)) :=
  k ← create (text "/") (text "mnt") INODE_TYPE_PARENT INODE_FLAG_WRITE 0 k;
  create (text "/mnt") (text "smem") INODE_TYPE_PARENT INODE_FLAG_WRITE 0 k.

(** The display and the keyboard, with their nodes. *)
(** src/init.c:189-198: init *)
Definition init_devices s : option (system (kmem M) Dv) :=
  s ← display_init s;
  let s := register display_device 0x20 s in
  k ← create (text "/dev") (text "display") INODE_TYPE_DEV INODE_FLAG_WRITE 0x00200001 (sk s);
  let s := register fxkeyboard_device 0x21 (set_sk (fxkdb_init k) s) in
  k ← create (text "/dev") (text "keyboard") INODE_TYPE_DEV INODE_FLAG_WRITE 0x00210000 (sk s);
  Some (set_sk k s).

(** ** The first process *)

(** The argument init=name of the kernel. *)
(** src/tests.c: parse_init *)
Definition parse_init (val : option (list Z)) (init_name : list Z) : Z * list Z :=
  match val with Some v => (0, v) | None => (0, init_name) end.

(** The kernel waits for ever without a program, or the scheduler starts. *)
Inductive boot_end := NoInit (s : system (kmem M) Dv) | Booted (d : delivery (kmem M)) (s : system (kmem M) Dv).

(** [None] also when there is no memory for the process, which the code does not test. *)
(** src/tests.c:225-264: test_process *)
Definition test_process (init_name : list Z) s (u : umem) : option boot_end :=
  '(elf_inode, k) ← vfs_resolve fuel fs_of init_name (sk s);
  if elf_inode =? NULL then Some (NoInit (set_sk k s))
  else
    '(elf_file, k) ← vfs_open fs_of elf_inode O_RDONLY k;
    if elf_file =? NULL then Some (NoInit (set_sk k s))
    else
      '(proc1, k) ← process_alloc k;
      if proc1 =? NULL then None
      else
        '(_, s) ← elfloader_load flash tables prim fuel fs_of depth reads elf_file proc1 stale garbage (set_sk k s);
        '(root, k) ← vfs_resolve fuel fs_of (text "/") (sk s);
        let k := upd_proc proc1 (set_cwd root) k in
        let k := sched_add_task proc1 k in
        Some (Booted (sched_start trampoline idle_func end_stack k u) (set_sk k s)).
End startup.

(** ** The first nodes *)

Section root_tree.
Context {M : Type} `{!PageMem M}.
Context (flash : Z → Z) (tables fuel : nat) (prim : smemfs_prim) (Hfuel : (37 ≤ fuel)%nat).
Context (protofs_inst smemfs_inst : ptr) (Hinst : protofs_inst ≠ NULL) (Hdiff : protofs_inst ≠ smemfs_inst).
Context (open_dev : ptr → ptr → kernel (kmem M) → option (Z * kernel (kmem M))) (s0 : list Z).
Implicit Types (k : kernel (kmem M)).
Notation fs_of := (fs_of flash tables fuel prim smemfs_inst open_dev s0).
Notation create := (create flash tables fuel prim smemfs_inst open_dev s0).
Notation init_nodes := (init_nodes flash tables fuel prim smemfs_inst open_dev s0).
Notation init_mnt := (init_mnt flash tables fuel prim smemfs_inst open_dev s0).

Lemma fs_of_protofs : fs_of protofs_inst = protofs_file_system fuel open_dev.
Proof. unfold Startup.fs_of. by rewrite (proj2 (Z.eqb_neq _ _) Hdiff). Qed.

(** A state in which the paths are those of a table, with enough memory left. *)
Definition tree_shown (T : list (list (list Z) * Z * node_props)) (pages : nat) k : Prop :=
  ∃ L H F bk, rooted fuel protofs_inst k L H F bk ∧ shows (k_protofs k) T ∧ (pages ≤ length F)%nat.

Lemma create_step path name ty mode sp k T (pages : nat) p pty :
  tree_shown T (2 + length (path_names path) + pages) k → (path_names path, p, pty) ∈ T → (np_type pty &? INODE_TYPE_PARENT) = true →
  Forall (λ s, (length s < 20)%nat) (split_path path) → (0 < length T ≤ 36)%nat →
  type_ok ty → Forall (λ c, c ≠ 0) name → (length name < PROTOFS_MAX_NAME)%nat → plain_name name → path_names path ++ [name] ∉ (λ e, e.1.1) <$> T →
  ∃ k', create (47 :: path) name ty mode sp k = Some k' ∧ tree_shown ((path_names path ++ [name], Z.of_nat (length T) - 1, mk_props ty mode sp) :: T) pages k'.
Proof.
  intros (L & H & F & bk & Hro & Hsh & HF) Hp Hd Hs HT Hty Hnn Hlen Hpl Hno.
  destruct (create_shows fuel Hfuel protofs_inst Hinst open_dev fs_of fs_of_protofs path name ty mode sp k L H F bk T p pty Hro Hsh Hp Hd Hs) as
    (k' & L' & F' & bk' & Hcr & Hro' & Hsh' & HlF); [lia|done|done|done|done|done| |].
  { intros j ty' Hin. apply Hno, list_elem_of_fmap. by exists (path_names path ++ [name], j, ty'). }
  exists k'. unfold Startup.create. rewrite Hcr. split; [done|]. exists L', H, F', bk'. split_and!; [done|done|lia].
Qed.

(** The table after the first part of the initialisation. *)
Definition boot_paths (console : Z) : list (list (list Z) * Z * node_props) :=
  [([text "mnt"; text "smem"], 6, mk_props INODE_TYPE_PARENT INODE_FLAG_WRITE 0); ([text "mnt"], 5, mk_props INODE_TYPE_PARENT INODE_FLAG_WRITE 0);
   ([text "dev"; text "console"], 4, mk_props INODE_TYPE_DEV INODE_FLAG_WRITE console);
   ([text "dev"; text "serial"], 3, mk_props INODE_TYPE_DEV INODE_FLAG_WRITE 0x00030000);
   ([text "dev"; text "tty2"], 2, mk_props INODE_TYPE_DEV INODE_FLAG_WRITE 0x00040001);
   ([text "dev"; text "tty1"], 1, mk_props INODE_TYPE_DEV INODE_FLAG_WRITE 0x00040000);
   ([text "dev"], 0, mk_props INODE_TYPE_PARENT (Z.lor INODE_FLAG_READ INODE_FLAG_EXEC) 0); ([], root_node, root_props)].

(** The text of a path. *)
Definition path_text (q : list (list Z)) : list Z := q ≫= cons 47.

(** Registration in an empty list. *)
Definition boot_fslist (prim0 : smemfs_prim) (stale : list protofs_node) (fslist : list (option (registered_fs (kmem M)))) : list (option (registered_fs (kmem M))) :=
  vfs_register_fs (reg_protofs protofs_inst stale) VFS_REGISTER_STATIC
    (vfs_register_fs (reg_smemfs flash tables prim0 smemfs_inst) VFS_REGISTER_STATIC fslist).

Lemma boot_fslist_find prim0 stale fslist k : (2 ≤ length fslist)%nat →
  find_fs (text "protofs") (boot_fslist prim0 stale (vfs_init fslist k).1) = Some (reg_protofs protofs_inst stale).
Proof. intros Hl. destruct fslist as [|x [|y fslist]]; [cbn in Hl; lia..|]. reflexivity. Qed.

(** A node of the table resolves. *)
Lemma shown_resolves T k q j ty : tree_shown T 3 k → (q, j, ty) ∈ T → q ≠ [] → (length q ≤ 2)%nat → Forall (λ s, (length s < 20)%nat ∧ s ≠ [] ∧ 47 ∉ s) q →
  ∃ r k', vfs_resolve fuel fs_of (path_text q) k = Some (r, k') ∧ r ≠ NULL ∧ i_node (k_inodes k' r) = j ∧ (j ≠ root_node → inode_shows (k_inodes k' r) ty).
Proof.
  intros (L & H & F & bk & [Hok Hrf _ _ Hr1 Hr2] & Hsh & HF) Hin Hq Hl Hs. destruct q as [|s q]; [done|]. apply Forall_cons in Hs as [(Hs1 & Hs2 & Hs3) Hs].
  assert (Hpath : ∃ p, path_text (s :: q) = 47 :: p ∧ path_names p = s :: q ∧ Forall (λ s, (length s < 20)%nat) (split_path p)).
  { destruct q as [|s' [|? ?]]; [| |cbn in Hl; lia].
    - exists s. unfold path_text. cbn [mbind list_bind]. rewrite app_nil_r. split; [done|]. unfold path_names. rewrite (split_path_name s Hs3).
      split; [by rewrite filter_cons_True|by apply Forall_singleton].
    - apply Forall_singleton in Hs as (Hs1' & Hs2' & Hs3'). exists (s ++ 47 :: s'). unfold path_text. cbn [mbind list_bind]. rewrite app_nil_r. split; [done|].
      rewrite (path_names_snoc s s' Hs3' Hs2'). unfold path_names. rewrite split_path_app, (split_path_name s Hs3), (split_path_name s' Hs3').
      split; [by rewrite filter_cons_True|apply Forall_app; split; by apply Forall_singleton]. }
  destruct Hpath as (p & -> & Hn & Hsp). destruct (sh_entry _ _ Hsh _ _ _ Hin) as [Hpl _].
  destruct (resolve_absolute fuel Hfuel protofs_inst open_dev fs_of fs_of_protofs p k L H F bk Hok Hrf Hinst Hsp) as
    (r & k' & L' & F' & bk' & Hres & Hok' & Hpf' & _ & _ & Hcase); [rewrite Hn; lia|done|done|].
  rewrite Hn, (proj2 (sh_walk _ _ Hsh (s :: q) j Hpl) ltac:(by exists ty)) in Hcase. destruct Hcase as (H1 & [Hrb H2] & _).
  exists r, k'. split_and!; [done|done|done|]. intros Hj. destruct (sh_node _ _ Hsh _ _ _ Hin Hj) as (Hty & n & Hat & Hnd).
  apply (coherent_shows protofs_inst (k_protofs k') _ n); [by apply Hok'|by rewrite H2|by rewrite H2, Hpf'|done|done].
Qed.

(** The next creation, under the entry [p] of the table. *)
Ltac next_node T path name ty mode sp pages p pty :=
  match type of T with tree_shown _ _ ?k =>
    let k' := fresh "k" in let Hc := fresh "Hc" in let T' := fresh "T" in
    destruct (create_step path name ty mode sp k _ pages p pty T) as (k' & Hc & T');
    [repeat (apply list_elem_of_here || apply list_elem_of_further)|reflexivity|by_computation|cbn; lia|split; reflexivity|by_computation|by_computation|split; discriminate|by_computation|];
    rewrite Hc; cbn [mbind option_bind]; clear T Hc; rename T' into T
  end.

(** The initialisation mounts the root file system and creates its first nodes,
    whatever the page it is given held before: afterwards the directories /dev, /mnt and
    /mnt/smem and the four devices of /dev are there, each path resolves to its own
    node, with the type, the mode and the device number it was created with, and no
    other path without dots leads to one. *)
Lemma boot_root_tree prim0 stale fslist console k L H F :
  km_inv (k_mem k) L H F → (24 ≤ length F)%nat → root_fs k = NULL → pf_mounted (k_protofs k) = 0 → length (hash_head k) = 31%nat →
  (∀ e, length (i_name (k_inodes k e)) = 20%nat) → length stale = 36%nat → Forall (λ n, length (pn_name n) = PROTOFS_MAX_NAME) stale → (2 ≤ length fslist)%nat →
  ∃ k1 k', init_nodes console (boot_fslist prim0 stale (vfs_init fslist k).1) (vfs_init fslist k).2 = Some k1 ∧ init_mnt k1 = Some k' ∧
    (∀ q j, Forall plain_name q → tree_walk (k_protofs k') root_node q = Some j ↔ ∃ e, (q, j, e) ∈ boot_paths console) ∧
    ∀ q j e, (q, j, e) ∈ boot_paths console → q ≠ [] →
      ∃ r k'', vfs_resolve fuel fs_of (path_text q) k' = Some (r, k'') ∧ r ≠ NULL ∧ i_node (k_inodes k'' r) = j ∧ inode_shows (k_inodes k'' r) e.
Proof.
  intros Hkm HF Hrf Hpm Hh Hnames Hst Hstn Hl. set (fl := boot_fslist _ _ _). set (k0 := (vfs_init fslist k).2).
  destruct (mount_root fuel Hfuel protofs_inst Hinst open_dev fs_of fs_of_protofs fl (reg_protofs protofs_inst stale) stale k0 L H F) as
    (k1 & L1 & H1 & F1 & bk1 & Hm & Hro1 & He1 & HlF1);
    [by apply boot_fslist_find|done|exact Hrf|exact Hpm| |exact Hkm|lia|done|done|exact Hnames|].
  { apply (cache_rep_ext (vfs_cache_init k)); [done|done|by apply cache_init_rep]. }
  assert (T1 : tree_shown [([], root_node, root_props)] 22 k1).
  { exists L1, H1, F1, bk1. split_and!; [done| |lia]. apply shows_empty; [apply Hro1|done]. }
  unfold Startup.init_nodes. rewrite Hm. cbn [fmap option_fmap option_map snd mbind option_bind].
  change (text "/") with [47]. change (text "/dev") with (47 :: text "dev").
  next_node T1 (@nil Z) (text "dev") INODE_TYPE_PARENT (Z.lor INODE_FLAG_READ INODE_FLAG_EXEC) 0 20%nat root_node root_props.
  next_node T1 (text "dev") (text "tty1") INODE_TYPE_DEV INODE_FLAG_WRITE 0x00040000 17%nat 0 (mk_props INODE_TYPE_PARENT (Z.lor INODE_FLAG_READ INODE_FLAG_EXEC) 0).
  next_node T1 (text "dev") (text "tty2") INODE_TYPE_DEV INODE_FLAG_WRITE 0x00040001 14%nat 0 (mk_props INODE_TYPE_PARENT (Z.lor INODE_FLAG_READ INODE_FLAG_EXEC) 0).
  next_node T1 (text "dev") (text "serial") INODE_TYPE_DEV INODE_FLAG_WRITE 0x00030000 11%nat 0 (mk_props INODE_TYPE_PARENT (Z.lor INODE_FLAG_READ INODE_FLAG_EXEC) 0).
  next_node T1 (text "dev") (text "console") INODE_TYPE_DEV INODE_FLAG_WRITE console 8%nat 0 (mk_props INODE_TYPE_PARENT (Z.lor INODE_FLAG_READ INODE_FLAG_EXEC) 0).
  match type of T1 with tree_shown _ _ ?k => exists k end. unfold Startup.init_mnt.
  change (text "/") with [47]. change (text "/mnt") with (47 :: text "mnt").
  next_node T1 (@nil Z) (text "mnt") INODE_TYPE_PARENT INODE_FLAG_WRITE 0 6%nat root_node root_props.
  next_node T1 (text "mnt") (text "smem") INODE_TYPE_PARENT INODE_FLAG_WRITE 0 3%nat 5 (mk_props INODE_TYPE_PARENT INODE_FLAG_WRITE 0).
  eexists. split; [reflexivity|]. split; [reflexivity|]. rename T1 into T. split.
  - destruct T as (L' & H' & F' & bk' & _ & Hsh & _). apply (sh_walk _ _ Hsh).
  - intros q j e Hin Hq.
    assert (Hall : Forall (λ e : list (list Z) * Z * node_props, (length e.1.1 ≤ 2)%nat ∧ (e.1.1 ≠ [] → e.1.2 ≠ root_node) ∧ Forall (λ s, (length s < 20)%nat ∧ s ≠ [] ∧ 47 ∉ s) e.1.1)
      (boot_paths console)) by (repeat (apply Forall_cons; split; [split; [cbn; lia|]; split; [discriminate||done|by_computation]|]); apply Forall_nil_2).
    rewrite Forall_forall in Hall. destruct (Hall _ Hin) as (H2 & Hj & H3).
    destruct (shown_resolves (boot_paths console) _ q j e T Hin Hq H2 H3) as (r & k'' & Hr & Hrn & Hi & Hs).
    exists r, k''. split_and!; [done|done|done|exact (Hs (Hj Hq))].
Qed.
End root_tree.

(** ** From the file to the processor *)

Section first_program.
Context {M Dv : Type} `{!PageMem M}.
Context (flash : Z → Z) (tables : nat) (prim : smemfs_prim) (flash_byte : ∀ a, 0 ≤ flash a < 256).
Implicit Types (s : system (kmem M) Dv) (k : kernel (kmem M)).

(** An area with the address, the size and the kind of the stack. *)
Definition is_stack (a : mem_area) : Prop :=
  ma_address a = ARCH_UNEWPROC_DEFAULT_STACK - PROCESS_DEFAULT_STACK_SIZE ∧ ma_max_size a = PROCESS_DEFAULT_STACK_SIZE ∧ ma_ops a = aop_anon.

(** The segments of a file that can be loaded do not meet the stack above them. *)
Lemma below_stack content h phs filep k proc st new :
  loadable content h phs → Forall (λ ph, seg_end ph ≤ ARCH_UNEWPROC_DEFAULT_STACK - PROCESS_DEFAULT_STACK_SIZE) (loads phs) →
  Forall2 (λ ph a, k_areas k a = area_of_seg filep ph) (loads phs) new → mem_areas (k_procs k proc) = rev new → is_stack (k_areas k st) →
  mem_area_check_range k proc (ma_address (k_areas k st)) (ma_max_size (k_areas k st)) = false.
Proof.
  intros [_ _ _ _ _ Hok _] Hbelow Hf2 Hm (Ha & Hs & _). unfold mem_area_check_range. rewrite Hm, Ha, Hs.
  apply not_true_iff_false. intros (b & Hb & Hmeet)%existsb_exists. apply in_rev, list_elem_of_In, list_elem_of_lookup in Hb as [i Hi].
  destruct (Forall2_lookup_r _ _ _ _ _ Hf2 Hi) as (ph & Hph & Hab). apply list_elem_of_lookup_2 in Hph.
  rewrite Forall_forall in Hbelow, Hok. specialize (Hbelow ph Hph). unfold loads in Hph. apply list_elem_of_filter in Hph as [Hld Hin].
  destruct (Hok ph Hin) as [_ Hs']. destruct (Hs' Hld) as (_ & Hv0 & Hv1 & Hv2).
  unfold area_meets in Hmeet. rewrite Hab in Hmeet. cbn [area_of_seg segment_area ma_address ma_max_size] in Hmeet.
  apply andb_true_iff in Hmeet as [_ Hlt%Z.ltb_lt]. unfold seg_end in *. rewrite u32_small in Hlt by lia. lia.
Qed.

(** Loading a program: the areas are the stack and the segments, and the process starts
    at its entry point. *)
Lemma elfloader_load_spec fuel fs depth reads filep dest stale garbage s content h phs L H F :
  loadable content h phs → Forall (λ ph, seg_end ph ≤ ARCH_UNEWPROC_DEFAULT_STACK - PROCESS_DEFAULT_STACK_SIZE) (loads phs) →
  empty_process flash tables prim (sk s) filep dest content (length (loads phs) + 2) L H F → (52 ≤ length stale)%nat →
  ∃ k' st new, elfloader_load flash tables prim fuel fs depth reads filep dest stale garbage s = Some (0, set_sk k' s) ∧
    acnt (k_procs k' dest) = [first_context (entry h) garbage] ∧ mem_areas (k_procs k' dest) = st :: rev new ∧
    is_stack (k_areas k' st) ∧ Forall2 (λ ph a, k_areas k' a = area_of_seg filep ph) (loads phs) new ∧
    (∀ q, q ≠ dest → k_procs k' q = k_procs (sk s) q) ∧ same_run (sk s) k'.
Proof.
  intros Hl Hbelow [E1 E2 E3 E4] Hst.
  destruct (load_all_spec flash tables prim flash_byte fuel fs depth reads filep dest stale s content h phs L H F Hl) as
    (k1 & new & L1 & F1 & Hload & Hp & Hf2 & Hq & Hkm & HlF & _ & Hrun); [split; done || lia|done|].
  unfold elfloader_load. rewrite Hload. cbn [mbind option_bind Z.eqb]. cbn [sk set_sk].
  destruct (mem_area_alloc_spec k1 L1 H F1 Hkm) as (a & k2 & F2 & Hal & Hn & Hnew & Hkm2 & HlF2 & Ha2 & Hp2 & Hi2 & _ & Hrun2);
    [intros ->; cbn in HlF; lia|].
  unfold mem_area_make_anon. rewrite Hal. cbn [mbind option_bind]. rewrite (proj2 (Z.eqb_neq a NULL)) by done. cbn [negb mbind option_bind].
  set (k3 := upd_area a _ k2).
  assert (Ha3 : is_stack (k_areas k3 a)) by (unfold k3; rewrite upd_area_eq; done).
  assert (Hb3 : ∀ b, b ≠ a → k_areas k3 b = k_areas k1 b) by (intros b Hb; unfold k3; by rewrite upd_area_ne, Ha2).
  assert (Hf3 : Forall2 (λ ph b, k_areas k3 b = area_of_seg filep ph) (loads phs) new).
  { eapply Forall2_impl; [exact Hf2|]. cbn beta. intros ph b (Hb & _ & _ & Hin). rewrite Hb3; [done|]. intros ->. by apply (Hnew PArea). }
  assert (Hm3 : mem_areas (k_procs k3 dest) = rev new) by (change (k_procs k3) with (k_procs k2); by rewrite Hp2, Hp).
  unfold mem_area_insert. rewrite (below_stack content h phs filep k3 dest a new Hl Hbelow Hf3 Hm3 Ha3). cbn [negb].
  destruct (km_get_ok MEM_PM_CACHED (k_mem k2) _ H F2 Hkm2) as (p & q & m & F3 & Hg & Hqn & _); [intros ->; cbn in HlF2; lia|].
  cbn [k_mem upd_proc set_k_procs]. change (k_mem k3) with (k_mem k2). rewrite Hg. cbn [mbind option_bind].
  rewrite (proj2 (Z.eqb_neq q NULL)) by done. eexists _, a, new. split; [reflexivity|].
  rewrite upd_proc_eq. cbn [k_procs set_k_mem k_areas upd_proc set_k_procs]. rewrite fset_eq. cbn [acnt set_acnt mem_areas set_kernel_stack set_mem_areas].
  rewrite Hm3. split_and!; [done|done|done|done| |].
  - intros x Hx. rewrite !fset_ne by done. change (k_procs k3) with (k_procs k2). by rewrite Hp2, Hq.
  - eapply same_run_trans; [exact Hrun|]. exact Hrun2.
Qed.
(** Looking in the cache depends on the inodes only. *)
Lemma cache_find_inodes fuel inst node k k' : hash_head k' = hash_head k → k_inodes k' = k_inodes k →
  vfs_cache_find fuel inst node k' = vfs_cache_find fuel inst node k.
Proof.
  intros Hh Hi. unfold vfs_cache_find. rewrite Hh. generalize (aget (hash_head k) (VFS_CACHE_HASH inst node)).
  induction fuel as [|fuel IH]; intros c; cbn [cache_search]; unfold has_key; rewrite Hi; [done|]. case_match; [|done]. apply IH.
Qed.

(** The root of the tree, when it is in the cache. *)
Definition root_cached (fuel : nat) (fs : ptr → file_system (kmem M)) k (root : ptr) : Prop :=
  root_fs k ≠ NULL ∧ (∃ open_dev, fs (root_fs k) = protofs_file_system fuel open_dev) ∧
  vfs_cache_find fuel (root_fs k) PROTOFS_ROOT_NODE k = Some root ∧ root ≠ NULL.

Lemma root_cached_same fuel fs k k' root : root_fs k' = root_fs k → hash_head k' = hash_head k → k_inodes k' = k_inodes k →
  root_cached fuel fs k root → root_cached fuel fs k' root.
Proof. intros Hr Hh Hi. unfold root_cached. by rewrite Hr, (cache_find_inodes fuel _ _ k k' Hh Hi). Qed.

Lemma resolve_root fuel fs k root : root_cached fuel fs k root →
  vfs_resolve fuel fs (text "/") k = Some (root, upd_inode root (λ i, set_i_count (u16 (i_count i + 1)) i) k).
Proof.
  intros (Hn & (open_dev & Hfs) & Hc & Hr). unfold vfs_resolve. rewrite (proj2 (Z.eqb_neq _ _) Hn). cbn [negb].
  change (text "/") with [47]. change (47 =? 47) with true. cbn [orb drop]. rewrite Hfs.
  cbn [protofs_file_system fs_get_root_node]. unfold protofs_get_root_node, proto_get, vfs_get_inode. rewrite Hc.
  cbn [mbind option_bind]. rewrite (proj2 (Z.eqb_neq root NULL) Hr). cbn [mbind option_bind].
  rewrite (proj2 (Z.eqb_neq root NULL) Hr). done.
Qed.

(** What the allocation of a process does not change. *)
Lemma process_alloc_frame k p k' : process_alloc k = Some (p, k') →
  k_files k' = k_files k ∧ k_inodes k' = k_inodes k ∧ tasks k' = tasks k ∧ root_fs k' = root_fs k ∧ hash_head k' = hash_head k ∧
  preempt_level k' = preempt_level k.
Proof.
  unfold process_alloc. intros E. destruct (_ <? _); [|by simplify_eq].
  destruct (km_alloc PProc (k_mem k)) as [[q a]|]; [|done]. cbn [mbind option_bind] in E. destruct (negb _); [|by simplify_eq].
  destruct (process_get_pid _ _) as [[n ps]|]; [|done]. cbn [mbind option_bind] in E. by simplify_eq.
Qed.

(** With one task in the first slot, the scheduler that has started chooses it. *)
Lemma choose_only k p : tasks k = p :: replicate 9 NULL → cur_task k = 0 → p ≠ NULL → state (k_procs k p) = PROCESS_STATE_RUNNING →
  (choose_next k).2 = p.
Proof.
  intros Ht Hc Hp Hs. assert (Hr : runnable k p = true) by (unfold runnable; by rewrite (proj2 (Z.eqb_neq p NULL) Hp), Hs).
  assert (Hn : search_next k = 10).
  { unfold search_next. rewrite Ht, Hc.
    transitivity (1 + Z.of_nat (S (S (S (S (S (S (S (S (S (if runnable k p then 0 else 1)))))))))));
      [reflexivity|by rewrite Hr]. }
  unfold choose_next. rewrite Hn. cbn [tasks set_cur_task set_need_reschedule set_cur_quantum_left cur_task Z.leb Z.compare Pos.compare].
  change (10 <=? SCHED_MAX_TASKS) with true. cbn [snd tasks set_cur_task set_need_reschedule set_cur_quantum_left cur_task]. by rewrite Ht, Hc.
Qed.

(** A new process with its program is ready to be started: the memory it needs is one
    page for the structure of the process, one for each area at most, and its stack in
    the kernel. *)
Record bootable (fuel : nat) (fs : ptr → file_system (kmem M)) k (filep root : ptr) content h phs L H F : Prop := {
  bt_file : reads_file flash tables prim k filep content;
  bt_elf : loadable content h phs;
  bt_low : Forall (λ ph, seg_end ph ≤ ARCH_UNEWPROC_DEFAULT_STACK - PROCESS_DEFAULT_STACK_SIZE) (loads phs);
  bt_table : table_ok k L H F;
  bt_procs : (length (process_list k) < 100)%nat;
  bt_free : (length (loads phs) + 3 ≤ length F)%nat;
  bt_tasks : tasks k = replicate 10 NULL;
  bt_level : preempt_level k ≤ 0;
  bt_root : root_cached fuel fs k root;
  bt_idle p k' : process_alloc k = Some (p, k') → p ≠ proc_idle_task
}.

(** C5: when the file of the first program is found, can be read and is well formed, booting
    enters the idle task with a switch of tasks pending, and the task the
    scheduler then chooses is a process which starts at the entry point of the program,
    in the root directory; its areas are its stack and the segments of the file. *)
Theorem first_program_starts fuel depth reads smemfs_inst open_dev name0 stale garbage trampoline idle_func end_stack
    init_name s u inode k1 filep k2 root content h phs L H F :
  let fs := fs_of flash tables fuel prim smemfs_inst open_dev name0 in
  vfs_resolve fuel fs init_name (sk s) = Some (inode, k1) → inode ≠ NULL →
  vfs_open fs inode O_RDONLY k1 = Some (filep, k2) → filep ≠ NULL →
  bootable fuel fs k2 filep root content h phs L H F → (52 ≤ length stale)%nat →
  ∃ k' s', test_process flash tables fuel depth reads prim smemfs_inst open_dev name0 stale garbage trampoline idle_func end_stack init_name s u =
      Some (Booted (Continues k' u) s') ∧ proc_current k' = proc_idle_task ∧ sched_needed k' = true ∧
    let p := (choose_next k').2 in
    p ≠ NULL ∧ acnt (k_procs k' p) = [first_context (entry h) garbage] ∧ cwd (k_procs k' p) = root ∧
    ∃ st new, mem_areas (k_procs k' p) = st :: rev new ∧ is_stack (k_areas k' st) ∧
      Forall2 (λ ph a, k_areas k' a = area_of_seg filep ph) (loads phs) new.
Proof.
  intros fs Hres Hi Hopen Hf [B1 B2 B3 B4 B5 B6 B7 B8 B9 B10] Hst.
  unfold test_process. fold fs. rewrite Hres. cbn [mbind option_bind]. rewrite (proj2 (Z.eqb_neq inode NULL) Hi).
  rewrite Hopen. cbn [mbind option_bind]. rewrite (proj2 (Z.eqb_neq filep NULL) Hf).
  destruct (process_alloc_spec k2 L H F B4) as (p & k3 & F3 & Hal & Hp & _ & _ & [_ _ _ Hkm _] & HlF & _ & _ & _ & Hma & _); [intros ->; cbn in B6; lia|done|].
  rewrite Hal. cbn [mbind option_bind]. rewrite (proj2 (Z.eqb_neq p NULL) Hp).
  destruct (process_alloc_frame _ _ _ Hal) as (A1 & A2 & A3 & A4 & A5 & A6).
  destruct (elfloader_load_spec fuel fs depth reads filep p stale garbage (set_sk k3 s) content h phs ((PProc, p) :: L) H F3 B2 B3)
    as (k4 & st & new & Hload & Hac & Hm & Hstk & Hf2 & Hq & (R1 & R2 & _ & R4 & R5 & R6 & R7)); [|done|].
  { split; [|exact Hma|exact Hkm|lia]. unfold reads_file in *. cbn [sk set_sk]. by rewrite A1, A2. }
  rewrite Hload. cbn [mbind option_bind sk set_sk] in *.
  assert (Hroot : root_cached fuel fs k4 root) by (apply (root_cached_same fuel fs k2); [congruence..|done]).
  rewrite (resolve_root fuel fs k4 root Hroot). cbn [mbind option_bind].
  set (k5 := upd_proc p (set_cwd root) _).
  assert (Ht5 : tasks k5 = replicate 10 NULL) by (change (tasks k5) with (tasks k4); congruence).
  set (k6 := sched_add_task p k5).
  assert (Hk6 : k6 = upd_proc p (set_state PROCESS_STATE_RUNNING) (set_tasks (p :: replicate 9 NULL) k5))
    by (unfold k6, sched_add_task; rewrite Ht5; reflexivity).
  destruct (sched_start_idles trampoline idle_func end_stack k6 u) as (k' & Hstart & Hcur & Hneed & Htasks & Hct & Har & Hother & _).
  assert (Hproc : k_procs k' p = set_state PROCESS_STATE_RUNNING (set_cwd root (k_procs k4 p))).
  { rewrite Hother by (by apply (B10 p k3)). rewrite Hk6, upd_proc_eq. cbn [k_procs set_tasks]. unfold k5. by rewrite upd_proc_eq. }
  assert (Hch : (choose_next k').2 = p).
  { apply choose_only; [by rewrite Htasks, Hk6|done|done|by rewrite Hproc]. }
  eexists k', _. rewrite Hstart. split; [reflexivity|]. split; [done|]. split.
  { apply Hneed. rewrite Hk6. change (preempt_level _) with (preempt_level k4). rewrite R2, A6. done. }
  cbn zeta. rewrite Hch, Hproc. split; [done|]. split; [exact Hac|]. split; [done|].
  exists st, new. rewrite Har, Hk6. change (k_areas _) with (k_areas k4). done.
Qed.
End first_program.

(** ** Examples *)

(** Twenty pages of memory. *)
Definition boot_pmem : pmem :=
  mk_pmem (λ a, if (0x88000000 <=? a) && (a <? 0x88004C00) && (a mod 1024 =? 0) then a + 1024 else 0) 0x88000000 20.

Definition boot_system : system (kmem pmem) unit :=
  mk_system (zero_kernel (kmem_init boot_pmem)) (λ _, demo_tty) tt (mk_fifo 40 0 0 (replicate 40 0)) [] [] 0 [].

Definition boot_garbage : context := mk_context (replicate 16 7) 7 7 7 7 7 7.

(** ** Witness *)

(** The root of the tree at 1000, the file at 2000 and the root of the storage memory at
    3000, which is the directory of the idle task. *)
Definition start_inodes (a : ptr) : inode :=
  if a =? 1000 then mk_inode (replicate 20 0) 64 PROTOFS_ROOT_NODE 0 (Z.lor INODE_TYPE_ROOT INODE_TYPE_PARENT) 7 0 0 1 0
  else if a =? 2000 then mk_inode (replicate 20 0) 128 (FULL_NODE_ID elf_flash 4128) 0xFFFF 0 4 4128 0 0 0
  else mk_inode (replicate 20 0) 128 SMEMFS_FILE_ROOT_ID 0 (Z.lor INODE_TYPE_ROOT INODE_TYPE_PARENT) 7 0 0 1 0.

Definition start_heads : list ptr :=
  aset (aset (replicate 31 0) (VFS_CACHE_HASH 64 PROTOFS_ROOT_NODE) 1000) (VFS_CACHE_HASH 128 (FULL_NODE_ID elf_flash 4128)) 2000.

Definition start_kernel : kernel (kmem pmem) :=
  upd_proc proc_idle_task (set_cwd 3000) (set_root_fs 64 (set_hash_head start_heads (set_k_inodes start_inodes (boot_kernel (kmem_init demo_pmem5))))).

Definition start_system : system (kmem pmem) unit := set_sk start_kernel boot_system.

Definition start_fs := fs_of (M:=pmem) elf_flash 10 40 image_prim 128 (λ _ _ _, None) (replicate 13 7).
Definition start_resolved : kernel (kmem pmem) := upd_inode 2000 (λ i, set_i_count (u16 (i_count i + 1)) i) start_kernel.

Lemma start_resolves : vfs_resolve 40 start_fs (text "a.t") start_kernel = Some (2000, start_resolved).
Proof.
  unfold vfs_resolve. change (root_fs start_kernel) with 64. change (text "a.t") with [97; 46; 116].
  change (cwd (k_procs start_kernel (proc_current start_kernel))) with 3000. cbn [negb Z.eqb Pos.eqb orb length resolve_loop next_name].
  unfold INODE_MAX_NAME. cbn [length Z.leb Z.compare Z.of_nat Pos.of_succ_nat Pos.succ Pos.compare Pos.compare_cont Z.ltb].
  unfold vfs_walk_entry. change (bool_decide ([97; 46; 116] = [46])) with false. change (bool_decide ([97; 46; 116] = [46; 46])) with false.
  change (i_type (k_inodes start_kernel 3000) &? INODE_TYPE_MOUNTPOINT) with false. cbv iota zeta.
  change (start_fs (i_fs (k_inodes start_kernel 3000))) with (smemfs_file_system (A:=kmem pmem) elf_flash 10 40 (replicate 13 7) image_prim).
  cbn [smemfs_file_system fs_find_sub_node]. unfold smemfs_find_sub_node.
  replace (smemfs_prim_get_atomic_file _ _ _ _ _ _) with (Some 4128) by (vm_compute; reflexivity). cbn [mbind option_bind Z.eqb negb].
  unfold smem_get, vfs_get_inode.
  replace (vfs_cache_find _ _ _ _) with (Some 2000) by (vm_compute; reflexivity). cbn [mbind option_bind Z.eqb negb].
  reflexivity.
Qed.

(** The file opened at the address [f]. *)
Definition start_opened (f : ptr) (a : kmem pmem) : kernel (kmem pmem) :=
  upd_file f (λ x, set_f_op fop_smemfs (set_f_private NULL x))
    (upd_file f (λ x, set_f_count 1 (set_f_pos 0 (set_f_inode 2000 (set_f_flags O_RDONLY x)))) (set_k_mem a start_resolved)).

Lemma start_opens f a : km_alloc PFile (kmem_init demo_pmem5) = Some (f, a) → f ≠ NULL →
  vfs_open start_fs 2000 O_RDONLY start_resolved = Some (f, start_opened f a).
Proof.
  intros Ha Hf. unfold vfs_open. change (O_RDONLY &? O_RDWR) with true. change (O_RDONLY &? O_WRONLY) with false. cbn [negb orb andb].
  unfold vfs_file_alloc. change (k_mem start_resolved) with (kmem_init demo_pmem5). rewrite Ha. cbn [mbind option_bind].
  rewrite (proj2 (Z.eqb_neq f NULL) Hf). reflexivity.
Qed.

Lemma start_memory : km_inv (kmem_init demo_pmem5) [] [] [0x88000000; 0x88000400; 0x88000800; 0x88000C00; 0x88001000].
Proof. apply kmem_init_inv, demo_pmem5_rep. Qed.

Lemma start_bootable : ∃ f a F, km_alloc PFile (kmem_init demo_pmem5) = Some (f, a) ∧ f ≠ NULL ∧
  bootable elf_flash 10 image_prim 40 start_fs (start_opened f a) f 1000 elf_bytes demo_header [demo_segment] [(PFile, f)] [] F.
Proof.
  destruct (km_alloc_ok PFile (kmem_init demo_pmem5) [] [] _ start_memory) as (f & a & F & Ha & Hf & _ & Hkm & HF); [done|].
  exists f, a, F. split; [exact Ha|]. split; [exact Hf|].
  assert (Hfile : k_files (start_opened f a) f = mk_file 0 O_RDONLY 2000 fop_smemfs 1 NULL) by (unfold start_opened; by rewrite !upd_file_eq).
  split.
  - unfold reads_file. rewrite Hfile. cbn [f_op f_flags f_inode]. split; [reflexivity|]. split; [reflexivity|]. split; [reflexivity|].
    exists [elf_bytes]. split; [by rewrite concat_cons, app_nil_r|]. split; [exact elf_image_file|cbn; lia].
  - exact demo_loadable.
  - apply Forall_singleton. vm_compute. discriminate.
  - split; [constructor|reflexivity| |change (km_inv a [(PFile, f)] [] F); exact Hkm|].
    { change (∀ p, p ∈ @nil Z → (PProc, p) ∈ [(PFile, f)]). intros p Hp. apply elem_of_nil in Hp. destruct Hp. }
    change (pid_inv (process_init (mk_pids 0 (replicate 32 0))) []). apply process_init_inv. split; [reflexivity|]. apply Forall_replicate. lia.
  - cbn. lia.
  - change (length (loads [demo_segment])) with 1%nat. cbn [length] in HF. lia.
  - reflexivity.
  - change (0 ≤ 0). lia.
  - split; [discriminate|]. split; [by eexists|]. split; [vm_compute; reflexivity|discriminate].
  - intros p k' E.
    assert (Hc : (match km_alloc PFile (kmem_init demo_pmem5) with Some (_, a) => fst <$> km_alloc PProc a | None => None end) = Some 2281702412)
      by (vm_compute; reflexivity).
    rewrite Ha in Hc. unfold process_alloc in E. change (k_mem (start_opened f a)) with a in E.
    change (process_number (start_opened f a) <? CONFIG_PROC_MAX) with true in E. cbn iota in E.
    destruct (km_alloc PProc a) as [[q m]|]; [|done]. cbn in Hc. injection Hc as ->. cbn [mbind option_bind] in E.
    rewrite (proj2 (Z.eqb_neq 2281702412 NULL)) in E by discriminate. cbn [negb] in E.
    destruct (process_get_pid _ _) as [[n ps]|]; [|done]. cbn [mbind option_bind] in E. injection E as <- _. discriminate.
Qed.

Lemma first_program_starts_witness : ∃ k' s', 
  test_process elf_flash 10 40 0 0 image_prim 128 (λ _ _ _, None) (replicate 13 7) (replicate 52 7) boot_garbage 0 0x88100000 0x88200000
    (text "a.t") start_system (λ _, 0) = Some (Booted (Continues k' (λ _, 0)) s') ∧
  pc <$> head (acnt (k_procs k' (choose_next k').2)) = Some 0x10000000.
Proof.
  destruct start_bootable as (f & a & F & Ha & Hf & Hb).
  destruct (first_program_starts elf_flash 10 image_prim elf_flash_byte 40 0 0 128 (λ _ _ _, None) (replicate 13 7) (replicate 52 7) boot_garbage
    0 0x88100000 0x88200000 (text "a.t") start_system (λ _, 0) 2000 start_resolved f (start_opened f a) 1000 elf_bytes demo_header
    [demo_segment] [(PFile, f)] [] F start_resolves ltac:(discriminate) (start_opens f a Ha Hf) Hf Hb ltac:(cbn; lia))
    as (k' & s' & Ht & _ & _ & _ & Hac & _).
  exists k', s'. split; [exact Ht|]. rewrite Hac. reflexivity.
Defined.
