(* ===== verification/Init.v ===== *)
(** * The beginning of initialisation (src/init.c)

    Before the file systems exist, [init] sets the interrupts, the clock and the
    keyboard, prints on the early terminal, reads the command line, gives the free pages
    to the allocator, starts the terminals and chooses the one the log is printed on.
    This file puts the components together in that order: the state is the system of
    FileOps with the variables of the drivers, and each step calls the definitions of the
    component it belongs to.

    Interrupts are masked until [interrupt_inhibit_all(0)]; after that [irq] is what they
    do to the terminals while the code waits for a key or for the console.

    The theorem follows the name of the console from the command line to the file tree:
    the log goes to the terminal it names, the pages behind the kernel are free but for
    the two screens, and the node /dev/console has the number of that terminal. *)

From S2P Require Import Prelude CyclicFifo PhysMem PoolAlloc KMem Pid Mmu PageDir Kernel Scheduler VfsCache Pipe VfsFile MemArea.
From S2P Require Import Signal Vfs Protofs ProtofsTree Process Sync Tty Time Keyboard Device TextDisplay VirtualTerm Smemfs PageFault FileOps.
From S2P Require Import Elf Log Cmdline Usb CdcAcm Interrupt Clock Startup.

(** ** State *)

(** What the drivers of the terminals keep: the early terminal, the virtual terminals
    and the USB terminal. *)
Record terms := mk_terms { t_early : early_term; t_vt : vt_state tdisp_data screen_state; t_acm : acm_state }.
Definition set_t_early v (d : terms) : terms := mk_terms v (t_vt d) (t_acm d).
Definition set_t_vt v (d : terms) : terms := mk_terms (t_early d) v (t_acm d).
Definition set_t_acm v (d : terms) : terms := mk_terms (t_early d) (t_vt d) v.

(** The functions of a driver on a part of the state. *)
Section lift.
Context {D E : Type} (get : E → D) (set : D → E → E).
Definition lift {X} (f : D → X * D) (e : E) : X * E := let '(x, d) := f (get e) in (x, set d e).
Definition lift_ops (o : tty_ops D) : tty_ops E :=
  mk_tty_ops ((λ f e, f (get e)) <$> op_is_ready o) ((λ f data, lift (f data)) <$> op_tty_write o) (λ c, lift (op_putchar o c))
    ((λ f cmd arg, lift (f cmd arg)) <$> op_ioctl o) ((λ f w, lift (f w)) <$> op_setwinsize o) ((λ f, lift f) <$> op_getwinsize o)
    ((λ f old new, lift (f old new)) <$> op_set_termios o) ((λ f, lift f) <$> op_force_flush o) ((λ f, lift f) <$> op_open o)
    ((λ f e, set (f (get e)) e) <$> op_release o).
End lift.

(** The system; the vector base register and the priorities of the interrupts, and
    whether they are masked; the state of the key matrix, of the keyboard, and what
    reading the EXE key gives next; the writes to the clock registers; the callbacks of
    the interrupts; the clock; the log and the device of the console; the name of the
    first program; the command line; the frequency of the bus. *)
Record machine := mk_machine {
  m_sys : system (kmem pmem) terms;
  m_vbr : ptr;
  m_prio : list (irq_source * Z);
  m_masked : bool;
  m_keys : list Z;
  m_kbd : kbd;
  m_reads : list bool;
  m_io : list cwrite;
  m_calls : list ptr;
  m_clock : clock;
  m_log : logger;
  m_console : Z;
  m_init : list Z;
  m_args : list Z;
  m_freq : Z
}.

Definition set_m_sys (v : system (kmem pmem) terms) (m : machine) : machine :=
  mk_machine v (m_vbr m) (m_prio m) (m_masked m) (m_keys m) (m_kbd m) (m_reads m) (m_io m) (m_calls m) (m_clock m) (m_log m) (m_console m) (m_init m) (m_args m) (m_freq m).
Definition set_m_vbr (v : ptr) (m : machine) : machine :=
  mk_machine (m_sys m) v (m_prio m) (m_masked m) (m_keys m) (m_kbd m) (m_reads m) (m_io m) (m_calls m) (m_clock m) (m_log m) (m_console m) (m_init m) (m_args m) (m_freq m).
Definition set_m_prio (v : list (irq_source * Z)) (m : machine) : machine :=
  mk_machine (m_sys m) (m_vbr m) v (m_masked m) (m_keys m) (m_kbd m) (m_reads m) (m_io m) (m_calls m) (m_clock m) (m_log m) (m_console m) (m_init m) (m_args m) (m_freq m).
Definition set_m_masked (v : bool) (m : machine) : machine :=
  mk_machine (m_sys m) (m_vbr m) (m_prio m) v (m_keys m) (m_kbd m) (m_reads m) (m_io m) (m_calls m) (m_clock m) (m_log m) (m_console m) (m_init m) (m_args m) (m_freq m).
Definition set_m_keys (v : list Z) (m : machine) : machine :=
  mk_machine (m_sys m) (m_vbr m) (m_prio m) (m_masked m) v (m_kbd m) (m_reads m) (m_io m) (m_calls m) (m_clock m) (m_log m) (m_console m) (m_init m) (m_args m) (m_freq m).
Definition set_m_kbd (v : kbd) (m : machine) : machine :=
  mk_machine (m_sys m) (m_vbr m) (m_prio m) (m_masked m) (m_keys m) v (m_reads m) (m_io m) (m_calls m) (m_clock m) (m_log m) (m_console m) (m_init m) (m_args m) (m_freq m).
Definition set_m_reads (v : list bool) (m : machine) : machine :=
  mk_machine (m_sys m) (m_vbr m) (m_prio m) (m_masked m) (m_keys m) (m_kbd m) v (m_io m) (m_calls m) (m_clock m) (m_log m) (m_console m) (m_init m) (m_args m) (m_freq m).
Definition set_m_io (v : list cwrite) (m : machine) : machine :=
  mk_machine (m_sys m) (m_vbr m) (m_prio m) (m_masked m) (m_keys m) (m_kbd m) (m_reads m) v (m_calls m) (m_clock m) (m_log m) (m_console m) (m_init m) (m_args m) (m_freq m).
Definition set_m_calls (v : list ptr) (m : machine) : machine :=
  mk_machine (m_sys m) (m_vbr m) (m_prio m) (m_masked m) (m_keys m) (m_kbd m) (m_reads m) (m_io m) v (m_clock m) (m_log m) (m_console m) (m_init m) (m_args m) (m_freq m).
Definition set_m_clock (v : clock) (m : machine) : machine :=
  mk_machine (m_sys m) (m_vbr m) (m_prio m) (m_masked m) (m_keys m) (m_kbd m) (m_reads m) (m_io m) (m_calls m) v (m_log m) (m_console m) (m_init m) (m_args m) (m_freq m).
Definition set_m_log (v : logger) (m : machine) : machine :=
  mk_machine (m_sys m) (m_vbr m) (m_prio m) (m_masked m) (m_keys m) (m_kbd m) (m_reads m) (m_io m) (m_calls m) (m_clock m) v (m_console m) (m_init m) (m_args m) (m_freq m).
Definition set_m_console (v : Z) (m : machine) : machine :=
  mk_machine (m_sys m) (m_vbr m) (m_prio m) (m_masked m) (m_keys m) (m_kbd m) (m_reads m) (m_io m) (m_calls m) (m_clock m) (m_log m) v (m_init m) (m_args m) (m_freq m).
Definition set_m_init (v : list Z) (m : machine) : machine :=
  mk_machine (m_sys m) (m_vbr m) (m_prio m) (m_masked m) (m_keys m) (m_kbd m) (m_reads m) (m_io m) (m_calls m) (m_clock m) (m_log m) (m_console m) v (m_args m) (m_freq m).
Definition set_m_args (v : list Z) (m : machine) : machine :=
  mk_machine (m_sys m) (m_vbr m) (m_prio m) (m_masked m) (m_keys m) (m_kbd m) (m_reads m) (m_io m) (m_calls m) (m_clock m) (m_log m) (m_console m) (m_init m) v (m_freq m).
Definition set_m_freq (v : Z) (m : machine) : machine :=
  mk_machine (m_sys m) (m_vbr m) (m_prio m) (m_masked m) (m_keys m) (m_kbd m) (m_reads m) (m_io m) (m_calls m) (m_clock m) (m_log m) (m_console m) (m_init m) (m_args m) v.

Abbreviation tdisp := fx9860_text_display.

Definition set_terms (d : terms) (m : machine) : machine := set_m_sys (set_drv d (m_sys m)) m.
Definition drv (m : machine) : terms := s_drv (m_sys m).
Definition kern (m : machine) : kernel (kmem pmem) := sk (m_sys m).
Definition set_kern k (m : machine) : machine := set_m_sys (set_sk k (m_sys m)) m.
Definition set_vt v (m : machine) : machine := set_terms (set_t_vt v (drv m)) m.

(** The software timers are with the virtual terminals, which use them. *)
Definition jobs (m : machine) : list stimer_job := vt_jobs (vt_tm (t_vt (drv m))).
Definition set_jobs js (m : machine) : machine :=
  let vt := t_vt (drv m) in
  set_vt (set_vt_tm (mk_timers (vt_flush_delayed (vt_tm vt)) (vt_blink_scheduled (vt_tm vt)) js) vt) m.

(** Addresses given by the linker: the vectors, the functions called by interrupts and
    timers, the terminals and their device. *)
Record symbols := mk_symbols {
  fixos_vbr : ptr; time_do_tick_fn : ptr; keycheck_fn : ptr; flush_fn : ptr; toggle_fn : ptr;
  usb_handler_fn : ptr; acm_setup_fn : ptr; acm_input_fn : ptr; ttydev_device : ptr; vt_tty : Z → ptr; acm_tty : ptr
}.

(** What the hardware gives: the columns of the keys when they are scanned, the date, the
    size of the RAM and the end of the kernel, and what is read to measure the clock. *)
Record hardware := mk_hardware {
  hw_port : Z → Z; hw_rtc : rtc_regs; hw_ram_order : Z; hw_end_stack : ptr;
  hw_pefs : list bool; hw_tcnt : Z; hw_frqcr : Z; hw_rcr2 : Z
}.

Section init.
Context (sym : symbols) (hw : hardware) (irq : terms → terms) (fuel : nat) (stale : list Z).

(** [tty->ops] *)
Definition term_ops (t : ptr) : tty_ops terms :=
  if t =? acm_tty sym then lift_ops t_acm set_t_acm _acm_tty_ops
  else lift_ops t_vt set_t_vt (vt_tty_ops tdisp (flush_fn sym) (if t =? vt_tty sym 0 then 0 else 1)).

Definition early_print (str : list Z) (d : terms) : terms := set_t_early (earlyterm_write str (t_early d)) d.

(** The log and the console, as their component has them. *)
Definition boot_of (m : machine) : boot terms := mk_boot (m_log m) (m_console m) (drv m).
Definition with_boot (b : boot terms) (m : machine) : machine := set_m_log (b_log b) (set_m_console (console_node b) (set_terms (b_drv b) m)).

Definition say (level : Z) (str : list Z) (args : list printk_arg) (m : machine) : option machine :=
  b ← printk early_print term_ops stale level str args (boot_of m); Some (with_boot b m).

(** The target of the log for tests on endpoint 2; [str] ends with a NUL. *)
(** src/init.c: print_usb_ep2 *)
Definition print_usb_ep2 (str : list Z) : prog Z := usb_send USB_EP_ADDR_EP2IN (aget str) (Z.of_nat (length (c_str str))).

(** ** Steps *)

(** The polls that give [key], then one that does not. *)
Fixpoint while_key (key : bool) (reads : list bool) : option (nat * list bool) :=
  match reads with
  | [] => None
  | r :: reads => if Bool.eqb r key then '(n, reads) ← while_key key reads; Some (S n, reads) else Some (O, reads)
  end.

(** The key is released, then pressed. *)
(** src/tests.h:28-29: DBG_WAIT *)
Definition DBG_WAIT (m : machine) : option machine :=
  '(n1, reads) ← while_key true (m_reads m);
  '(n2, reads) ← while_key false reads;
  let m := set_m_reads reads m in
  Some (if m_masked m then m else set_terms (Nat.iter (n1 + n2) irq (drv m)) m).

(** src/init.c:82-89: init *)
Definition init_hardware (m : machine) : machine :=
  let '(vbr, prio) := interrupt_init (fixos_vbr sym) in
  let m := set_m_vbr vbr (set_m_prio (m_prio m ++ prio) m) in
  let m := set_terms (set_t_early (earlyterm_clear (t_early (drv m))) (drv m)) m in
  let m := set_m_kbd (kbd_init (m_kbd m)) (set_m_keys (hwkbd_init (m_keys m)) m) in
  let m := set_m_io (m_io m ++ rtc_init) m in
  let '(io, calls) := arch_time_init (time_do_tick_fn sym) (m_calls m) in
  set_m_clock (time_init (hw_rtc hw) (m_clock m)) (set_m_calls calls (set_m_io (m_io m ++ io) m)).

(** The argument init=name. *)
(** src/tests.c: parse_init *)
Definition init_arg (val : option (list Z)) (m : machine) : option machine :=
  m ← match val with Some v => say LOG_DEBUG (text "init : '%s'" ++ [10]) [AStr v] m | None => Some m end;
  Some (set_m_init (parse_init val (m_init m)).2 m).

(** The arguments of the kernel, of which the names differ. *)
(** src/tests.c:277-277: KERNEL_BOOT_ARG *)
Definition machine_args : list (kernel_arg machine) :=
  ((λ a, mk_karg (argname a) (λ v m, b ← callback a v (boot_of m); Some (with_boot b m))) <$> kernel_args early_print term_ops stale)
  ++ [mk_karg (text "init") init_arg].

(** src/init.c:91-96: init *)
Definition init_log (m : machine) : option machine :=
  let m := set_terms (early_print (text "Kernel initialization..." ++ [10]) (drv m)) m in
  let m := set_m_log (set_kernel_print PrintEarly (m_log m)) m in
  m ← say LOG_INFO (text "cmd args: '%s'" ++ [10]) [AStr (c_str (m_args m))] m;
  '(args, m) ← cmdline_parse machine_args (m_args m) 1024 m;
  Some (set_m_args args m).

(** What a key press does. *)
(** src/device/keyboard/fx9860/keyboard.c:304-310: kbd_kpressed_handler *)
Definition do_action (m : machine) (a : kbd_action) : machine :=
  match a with
  | SetActive term => set_vt (vt_set_active tdisp (toggle_fn sym) term (t_vt (drv m))) m
  | KeyStroke c =>
      let ttys := (λ i, s_ttys (m_sys m) (vt_tty sym i)) <$> seqZ 0 VT_MAX_TERMINALS in
      let '(ttys, vt, k) := vt_key_stroke tdisp (flush_fn sym) c ttys (t_vt (drv m)) (kern m) in
      let m := set_vt vt (set_kern k m) in
      set_m_sys (foldl (λ s '(i, t), set_tty (vt_tty sym i) t s) (m_sys m) (zip (seqZ 0 VT_MAX_TERMINALS) ttys)) m
  end.

(** src/device/keyboard/fx9860/keymatrix.c: hwkbd_update_status *)
Definition scan_keys (m : machine) : machine :=
  let '(keys, evs) := hwkbd_update_status (hw_port hw) (m_keys m) in
  let '(b, f, acts) := foldl (dispatch_event (kern m)) (m_kbd m, s_kbd (m_sys m), []) evs in
  foldl do_action (set_m_keys keys (set_m_kbd b (set_m_sys (set_kbd f (m_sys m)) m))) acts.

(** src/device/keyboard/fx9860/keymatrix.c: periodic_keycheck_timer *)
Definition start_keyboard (m : machine) : machine :=
  let m := scan_keys m in
  set_jobs (stimer_add (keycheck_fn sym) NULL (TICKS_MSEC_NOTNULL 30) (jobs m)).2 m.

(** src/init.c:98-106: init *)
Definition init_memory (m : machine) : option machine :=
  let k := set_k_mmu (mmu_init (k_mmu (kern m))) (kern m) in
  let k := set_k_mem (mk_kmem (pm_init_pages (hw_end_stack hw) (hw_ram_order hw) (km_mem (k_mem k))) (km_pools (k_mem k))) k in
  let m := set_kern k m in
  let m := start_keyboard (set_jobs (stimer_init (jobs m)) m) in
  m ← DBG_WAIT m;
  Some (set_m_masked false m).

(** The virtual terminals, with their [tty], their minors and their pages. *)
(** src/init.c:116-116: vt_init *)
Definition init_vts (m : machine) : option machine :=
  let s := m_sys m in
  let ttys := (λ i, s_ttys s (vt_tty sym i)) <$> seqZ 0 VT_MAX_TERMINALS in
  '(ttys, minors, pm, vt) ← vt_init tdisp (vt_tty sym) ttys (s_minors s) (km_mem (k_mem (sk s))) (t_vt (s_drv s));
  let s := set_minors minors (set_sk (set_k_mem (mk_kmem pm (km_pools (k_mem (sk s)))) (sk s)) s) in
  let s := foldl (λ s '(i, t), set_tty (vt_tty sym i) t s) s (zip (seqZ 0 VT_MAX_TERMINALS) ttys) in
  Some (set_vt vt (set_m_sys s m)).

(** src/arch/sh/interrupt.h:34-34: INT_USB *)
Definition INT_USB : Z := 0x05.

(** src/init.c:119-121: usb_init *)
Definition init_usb (m : machine) : option machine :=
  let s := m_sys m in
  '(u, c) ← t_acm (s_drv s);
  '(h, u) ← usb_init (usb_handler_fn sym) u;
  let m := set_m_calls (interrupt_set_callback INT_USB h (m_calls m)) m in
  let t := s_ttys s (acm_tty sym) in
  '(c, t, minors, u) ← acm_usb_init (acm_setup_fn sym) (acm_input_fn sym) (acm_tty sym) (buffer (fifo t)) t (s_minors s) c u;
  let s := set_tty (acm_tty sym) t (set_minors minors s) in
  Some (set_terms (set_t_acm (Some (u, c)) (s_drv s)) (set_m_sys s m)).

(** src/init.c:109-131: init *)
Definition init_terminals (m : machine) : option machine :=
  let m := set_m_sys (set_devs (init_tty_device (ttydev_device sym) (s_devs (m_sys m))) (m_sys m)) m in
  m ← init_vts m;
  m ← init_usb m;
  m ← DBG_WAIT m;
  m ← say LOG_INFO (text "Switching screen to tty1..." ++ [10] ++ text "  The display will be cleared." ++ [10]) [] m;
  b ← console_make_active early_print term_ops stale fuel irq (s_devs (m_sys m)) (s_minors (m_sys m)) (boot_of m);
  m ← DBG_WAIT (with_boot b m);
  Some (set_vt (vt_set_active tdisp (toggle_fn sym) 0 (t_vt (drv m))) m).

(** src/init.c:137-143: init *)
Definition init_clock (m : machine) : option machine :=
  '(hz, io, calls) ← freq_time_calibrate (hw_pefs hw) (hw_tcnt hw) (hw_frqcr hw) (hw_rcr2 hw) (m_calls m);
  let m := set_m_freq hz (set_m_calls calls (set_m_io (m_io m ++ io) m)) in
  let freq := freq_get_internal_hz (m_freq m) (hw_frqcr hw) in
  m ← say LOG_INFO (text "CPU freq : %d.%dMHz" ++ [10]) [AInt (freq / 1000000); AInt (freq / 100000 mod 10)] m;
  let freq := freq_get_peripheral_hz (m_freq m) (hw_frqcr hw) in
  say LOG_INFO (text "Peripheral freq : %d.%dMHz" ++ [10]) [AInt (freq / 1000000); AInt (freq / 100000 mod 10)] m.

(** All that comes before the file systems; [earlyterm_init] and [ctl_init] are empty. *)
(** src/init.c:79-147: init *)
Definition init_early (m : machine) : option machine :=
  m ← init_log (init_hardware m);
  m ← init_memory m;
  m ← init_terminals m;
  init_clock m.
End init.

(** ** Opening the devices *)

(** [dev->open] of the three devices that are registered. *)
(** src/device/tty.c:41-45: ttydev_device *)
Definition device_open (sym : symbols) (display_device fxkeyboard_device : ptr) (d : ptr) (minor : Z) (filep : ptr) (s : system (kmem pmem) terms)
    : option (Z * system (kmem pmem) terms) :=
  if d =? ttydev_device sym then ttydev_open (term_ops sym) minor filep s
  else if d =? display_device then Some (display_open minor filep s)
  else if d =? fxkeyboard_device then let '(r, k) := fxkdb_open minor filep (sk s) in Some (r, set_sk k s)
  else None.

(** ** The whole of [init]

    The flash memory and the primitives of its file system before and after it is
    mounted, the instances of the file systems and what uninitialised memory holds are
    those of Startup; the messages the components print themselves are left out. *)

Section whole.
Context (sym : symbols) (hw : hardware) (irq : terms → terms) (wait : nat) (msg_stale : list Z).
Context (flash : Z → Z) (tables fuel depth reads : nat) (prim0 prim : smemfs_prim).
Context (protofs_inst smemfs_inst : ptr) (open_dev : ptr → ptr → kernel (kmem pmem) → option (Z * kernel (kmem pmem))).
Context (display_device fxkeyboard_device : ptr) (pf_stale : list protofs_node) (s0 stale : list Z) (garbage : context) (trampoline idle_func end_stack : Z).
Notation fs_of := (fs_of flash tables fuel prim smemfs_inst open_dev s0).

(** src/init.c:79-247: init *)
Definition init (fslist : list (option (registered_fs (kmem pmem)))) (u : umem) (m : machine) : option (@boot_end pmem terms) :=
  m ← init_early sym hw irq wait msg_stale m;
  let '(fslist, k) := vfs_init fslist (kern m) in
  let fslist := vfs_register_fs (reg_smemfs flash tables prim0 smemfs_inst) VFS_REGISTER_STATIC fslist in
  let fslist := vfs_register_fs (reg_protofs protofs_inst pf_stale) VFS_REGISTER_STATIC fslist in
  k ← init_nodes flash tables fuel prim smemfs_inst open_dev s0 (console_get_device (boot_of m)) fslist k;
  m ← DBG_WAIT irq (set_kern k m);
  let m := set_m_kbd (kbd_set_kstroke_handler true (m_kbd m)) m in
  k ← init_mnt flash tables fuel prim smemfs_inst open_dev s0 (kern m);
  k ← snd <$> vfs_mount fuel fs_of fslist (text "smemfs") (text "/mnt/smem") VFS_MOUNT_NORMAL k;
  m ← DBG_WAIT irq (set_kern k m);
  s ← init_devices flash tables fuel prim smemfs_inst open_dev display_device fxkeyboard_device s0 (m_sys m);
  m ← DBG_WAIT irq (set_m_sys s m);
  m ← DBG_WAIT irq m;
  let k := set_k_pids (process_init (k_pids (kern m))) (kern m) in
  test_process flash tables fuel depth reads prim smemfs_inst open_dev s0 stale garbage trampoline idle_func end_stack (m_init m)
    (set_sk (sched_init k) (m_sys m)) u.
End whole.

(** ** The command line *)

(** The device that a value of console= names. *)
Definition console_value (v : list Z) : option Z :=
  match v with
  | 116 :: 116 :: 121 :: c :: rest =>
      if (c =? 49) || (c =? 50) then Some (makedev CONSOLE_TTY_MAJOR (c - 49))
      else if bool_decide (c :: rest = text "USB0") then Some (makedev CONSOLE_TTY_MAJOR Cmdline.ACM_USB_TTY_MINOR) else None
  | _ => None
  end.

(** The console after an argument: the last one that is well formed counts. *)
Definition console_of (node : Z) (a : boot_arg) : Z :=
  if bool_decide (a.1 = text "console") then default node (v ← a.2; console_value v) else node.

Section log.
Context (sym : symbols) (hw : hardware) (irq : terms → terms) (fuel : nat) (stale : list Z) (Hstale : length stale = 256%nat).
Notation Say := (say sym stale).
Notation args_of := (machine_args sym stale).

(** While the log is printed on the early terminal, messages change only that terminal
    and arguments only the level of the log, the console and the name of the program. *)
Definition adv (e : early_term) (lv node : Z) (nm : list Z) (m : machine) : machine :=
  set_m_init nm (set_m_console node (set_m_log (mk_logger PrintEarly (console_tty (m_log m)) lv) (set_terms (set_t_early e (drv m)) m))).

Lemma printk_early lg level str args d out : Forall (λ c, 0 < c < 256) str → Forall arg_ok args → format str args = Some out → kernel_print lg = PrintEarly →
  ∃ e, printk_internal early_print (term_ops sym) lg level str args stale d = Some (set_t_early e d).
Proof.
  intros Hs Ha Hf He. unfold printk_internal. rewrite He. destruct (printk_dynamic_level lg <=? level); cbn [andb]; [|exists (t_early d); by destruct d].
  destruct (printk_loop_spec (length str) str args out ltac:(done) Hs Ha Hf [] stale) as (pieces & Hrun & _); [constructor|cbn; lia|done|done|].
  cbn [app length] in Hrun. change (Z.of_nat 0) with 0 in Hrun. rewrite Hrun. cbn [mbind option_bind]. clear Hrun. revert d.
  induction pieces as [|s ps IH]; intros d; [exists (t_early d); by destruct d|]. cbn [foldl].
  destruct (IH (print early_print (term_ops sym) lg s d)) as [e ->]. exists e. unfold print. rewrite He. by destruct d.
Qed.

Lemma say_adv level str args e lv node nm m out : Forall (λ c, 0 < c < 256) str → Forall arg_ok args → format str args = Some out →
  ∃ e', Say level str args (adv e lv node nm m) = Some (adv e' lv node nm m).
Proof.
  intros Hs Ha Hf. unfold say, printk.
  destruct (printk_early (m_log (adv e lv node nm m)) level str args (drv (adv e lv node nm m)) out Hs Ha Hf eq_refl) as [e' He].
  exists e'. cbn [boot_of b_log b_drv console_node]. rewrite He. reflexivity.
Qed.

Lemma boot_adv level str args e lv node nm m out : Forall (λ c, 0 < c < 256) str → Forall arg_ok args → format str args = Some out →
  ∃ e', printk early_print (term_ops sym) stale level str args (boot_of (adv e lv node nm m)) = Some (boot_of (adv e' lv node nm m)).
Proof.
  intros Hs Ha Hf. unfold printk. destruct (printk_early (m_log (adv e lv node nm m)) level str args (drv (adv e lv node nm m)) out Hs Ha Hf eq_refl) as [e' He].
  exists e'. cbn [boot_of b_log b_drv console_node]. rewrite He. reflexivity.
Qed.

Lemma with_adv e lv node nm e' lv' node' m : with_boot (boot_of (adv e' lv' node' nm m)) (adv e lv node nm m) = adv e' lv' node' nm m.
Proof. reflexivity. Qed.

Lemma parse_console_adv v e lv node nm m : ∃ r e',
  parse_console early_print (term_ops sym) stale v (boot_of (adv e lv node nm m)) =
  Some (r, boot_of (adv e' lv (default node (v ← v; console_value v)) nm m)).
Proof.
  destruct (boot_adv 4 (text "malformed 'console' parameter" ++ [10]) [] e lv node nm m _ ltac:(by_computation) ltac:(constructor) eq_refl) as [eb Hbad].
  assert (Hmal : ∀ node', node' = node → ∃ r e', (b ← printk early_print (term_ops sym) stale 4 (text "malformed 'console' parameter" ++ [10]) [] (boot_of (adv e lv node nm m)); Some (-1, b)) =
    Some (r, boot_of (adv e' lv node' nm m))) by (intros ? ->; exists (-1), eb; by rewrite Hbad).
  unfold parse_console. destruct v as [v|]; [|by apply Hmal]. cbn [mbind option_bind]. cbn zeta.
  destruct ((nth 0 v 0 =? 116) && (nth 1 v 0 =? 116) && (nth 2 v 0 =? 121)) eqn:Htty.
  2: { apply Hmal. destruct v as [|c0 [|c1 [|c2 [|c3 v]]]]; try done; cbn [nth] in Htty; unfold console_value.
       all: repeat (case_match; subst; try done). }
  apply andb_true_iff in Htty as [[H0 H1]%andb_true_iff H2]. apply Z.eqb_eq in H0, H1, H2.
  destruct v as [|c0 [|c1 [|c2 v]]]; try done. cbn [nth] in H0, H1, H2. subst c0 c1 c2. cbn [nth drop].
  destruct v as [|c v]; [by apply Hmal|]. cbn [nth console_value].
  destruct ((49 <=? c) && (c <=? 57)) eqn:Hd.
  - apply andb_true_iff in Hd as [Hd1%Z.leb_le Hd2%Z.leb_le]. unfold CONSOLE_VT_MINOR_BASE, VT_MINOR_BASE, VT_MAX_TERMINALS. rewrite Z.add_0_r. rewrite u16_small by lia.
    destruct (Z.ltb_spec (c - 49) (0 + 2)) as [Hm|Hm].
    + assert ((c =? 49) || (c =? 50) = true) as -> by lia. cbn [default].
      destruct (boot_adv LOG_INFO (text "console: will use tty%d soon" ++ [10]) [AInt (c - 48)] e lv (makedev CONSOLE_TTY_MAJOR (c - 49)) nm m _ ltac:(by_computation)
        ltac:(repeat constructor; lia) eq_refl) as [e1 H1].
      exists 0, e1. change (set_node ?x (boot_of (adv e lv node nm m))) with (boot_of (adv e lv x nm m)). rewrite H1. reflexivity.
    + assert ((c =? 49) || (c =? 50) = false) as -> by lia. rewrite bool_decide_eq_false_2; [by apply Hmal|]. change (text "USB0") with [85; 83; 66; 48]. intros [= -> _]. lia.
  - assert ((c =? 49) || (c =? 50) = false) as -> by lia. change (drop 0 (c :: v)) with (c :: v). case_bool_decide; [|by apply Hmal]. cbn [default].
    destruct (boot_adv LOG_INFO (text "console: will use USB soon" ++ [10]) [] e lv (makedev CONSOLE_TTY_MAJOR Cmdline.ACM_USB_TTY_MINOR) nm m _ ltac:(by_computation)
      ltac:(constructor) eq_refl) as [e1 H1'].
    exists 0, e1. change (set_node ?x (boot_of (adv e lv node nm m))) with (boot_of (adv e lv x nm m)). rewrite H1'. reflexivity.
Qed.

Lemma loglevel_adv v e lv node nm m : ∃ e' lv',
  loglevel_arg early_print (term_ops sym) stale (Some v) (boot_of (adv e lv node nm m)) = Some (boot_of (adv e' lv' node nm m)).
Proof.
  unfold loglevel_arg, parse_loglevel. cbn zeta. destruct (_ && _); cbn [mbind option_bind].
  - exists e, (nth 0 v 0 - 48). reflexivity.
  - destruct (boot_adv LOG_WARNING (text "malformed 'loglevel' parameter" ++ [10]) [] e lv node nm m _ ltac:(by_computation) ltac:(constructor) eq_refl) as [e' He].
    exists e', lv. exact He.
Qed.

Lemma init_adv v e lv node nm m : ∃ e' nm', init_arg sym stale v (adv e lv node nm m) = Some (adv e' lv node nm' m).
Proof.
  unfold init_arg. destruct v as [v|]; [|by exists e, nm].
  destruct (say_adv LOG_DEBUG (text "init : '%s'" ++ [10]) [AStr v] e lv node nm m _ ltac:(by_computation) ltac:(repeat constructor) eq_refl) as [e' ->].
  by exists e', v.
Qed.

(** The parameters whose value the kernel reads are given one. *)
Definition valued (a : boot_arg) : Prop := a.1 = text "loglevel" → a.2 ≠ None.

Lemma arg_adv a e lv node nm m : valued a → ∃ e' lv' nm',
  call_args args_of a.1 a.2 (adv e lv node nm m) = Some (adv e' lv' (console_of node a) nm' m).
Proof.
  destruct a as [name v]. cbn [fst snd]. intros Hv. unfold console_of, valued in *. cbn [fst snd] in *.
  unfold call_args, machine_args, kernel_args. cbn [fmap list_fmap app foldl mbind option_bind argname callback].
  destruct (decide (name = text "console")) as [->|Hc].
  { rewrite !(bool_decide_eq_true_2 (text "console" = text "console")) by reflexivity. destruct (parse_console_adv v e lv node nm m) as (r & e' & ->).
    cbn [mbind option_bind]. rewrite (bool_decide_eq_false_2 (text "loglevel" = _)) by discriminate. cbn [mbind option_bind].
    rewrite (bool_decide_eq_false_2 (text "init" = _)) by discriminate. by exists e', lv, nm. }
  rewrite (bool_decide_eq_false_2 (text "console" = name)), (bool_decide_eq_false_2 (name = text "console")) by congruence.
  destruct (decide (name = text "loglevel")) as [->|Hl].
  { rewrite (bool_decide_eq_true_2 (text "loglevel" = text "loglevel")) by reflexivity. destruct v as [v|]; [|by destruct (Hv eq_refl)].
    cbn [mbind option_bind]. destruct (loglevel_adv v e lv node nm m) as (e' & lv' & ->). cbn [mbind option_bind].
    rewrite (bool_decide_eq_false_2 (text "init" = _)) by discriminate. by exists e', lv', nm. }
  rewrite (bool_decide_eq_false_2 (text "loglevel" = name)) by congruence. cbn [mbind option_bind].
  case_bool_decide; [|by exists e, lv, nm]. destruct (init_adv v e lv node nm m) as (e' & nm' & ->). by exists e', lv, nm'.
Qed.

Lemma args_adv l : ∀ e lv node nm m, Forall valued l → ∃ e' lv' nm', call_all args_of l (adv e lv node nm m) = Some (adv e' lv' (foldl console_of node l) nm' m).
Proof.
  induction l as [|a l IH]; intros e lv node nm m Hl; [by exists e, lv, nm|]. apply Forall_cons in Hl as [Ha Hl].
  rewrite call_all_cons. destruct (arg_adv a e lv node nm m Ha) as (e1 & lv1 & nm1 & ->). cbn [mbind option_bind foldl]. by apply IH.
Qed.

(** A command line made of well-formed arguments. *)
Definition args_ready (m : machine) (l : list boot_arg) : Prop :=
  ∃ rest, m_args m = args_text l ++ 0 :: rest ∧ Forall boot_arg_ok l ∧ Forall valued l ∧ Z.of_nat (length (args_text l)) ≤ 1024.

Lemma init_log_spec m l : args_ready m l →
  ∃ e lv nm args, init_log sym stale m = Some (set_m_args args (adv e lv (foldl console_of (m_console m) l) nm m)).
Proof.
  intros (rest & Hargs & Hok & Hv & Hlen). unfold init_log. cbn zeta.
  set (e0 := earlyterm_write (text "Kernel initialization..." ++ [10]) (t_early (drv m))).
  set (m0 := set_m_log _ _). replace m0 with (adv e0 (printk_dynamic_level (m_log m)) (m_console m) (m_init m) m) by done. clear m0.
  destruct (say_adv LOG_INFO (text "cmd args: '%s'" ++ [10]) [AStr (c_str (m_args m))] e0 (printk_dynamic_level (m_log m)) (m_console m) (m_init m) m _ ltac:(by_computation)
    ltac:(repeat constructor) eq_refl) as [e1 He1].
  change (m_args (adv e0 _ _ _ m)) with (m_args m). rewrite He1. cbn [mbind option_bind].
  change (m_args (adv e1 _ _ _ m)) with (m_args m). rewrite Hargs.
  pose proof (cmdline_loop_spec args_of 1024 rest l (length (args_text l ++ 0%Z :: rest) + 1) [] (adv e1 (printk_dynamic_level (m_log m)) (m_console m) (m_init m) m) Hok) as Hp.
  pose proof (args_text_length l Hok) as Hll. specialize (Hp ltac:(rewrite length_app; cbn [length]; lia) Hlen). cbn [app] in Hp.
  destruct (args_adv l e1 (printk_dynamic_level (m_log m)) (m_console m) (m_init m) m Hv) as (e2 & lv2 & nm2 & H2). rewrite H2 in Hp. unfold cmdline_parse.
  change (length []) with 0%nat in Hp.
  destruct (cmdline_loop args_of _ 1024 _ 0 _) as [[args m']|]; [|done]. cbn in Hp. injection Hp as ->. cbn [mbind option_bind].
  by exists e2, lv2, nm2, args.
Qed.
End log.

(** ** Memory *)

(** What later steps look at; the keyboard and the early terminal are not in it. *)
Definition core (m : machine) :=
  (kern m, s_devs (m_sys m), s_minors (m_sys m), m_log m, m_console m, m_reads m, m_masked m, t_acm (drv m), length (vts (t_vt (drv m)))).

Lemma vt_set_active_length fn term (s : vt_state tdisp_data screen_state) : length (vts (vt_set_active tdisp fn term s)) = length (vts s).
Proof.
  assert (Hon : ∀ i f (s : vt_state tdisp_data screen_state), length (vts (vt_on_disp i f s)) = length (vts s)).
  { intros i f s'. unfold vt_on_disp. destruct (vt_get i s') as [term'|]; [|done]. destruct (f _ _) as [d g]. unfold vt_put. cbn [vts]. apply aset_length. }
  unfold vt_set_active. destruct (_ && _); [|done]. destruct (negb _); [|done]. cbn [vts]. destruct (negb _); cbn [set_vt_tm vts]; by rewrite ?Hon.
Qed.

Section memory.
Context (sym : symbols) (hw : hardware) (irq : terms → terms).

(** Without a handler of key strokes, keys can only choose the terminal that is shown. *)
Lemma dispatch_actions (k : kernel (kmem pmem)) evs : ∀ b f acts, kbd_handler b = false → Forall (λ a, ∃ t, a = SetActive t) acts →
  Forall (λ a, ∃ t, a = SetActive t) (foldl (dispatch_event k) (b, f, acts) evs).2.
Proof.
  induction evs as [|ev evs IH]; intros b f acts Hb Ha; [done|]. cbn [foldl]. unfold dispatch_event at 2.
  destruct (ev_event ev =? K_EVENT_RELEASED); [by apply IH|].
  destruct (kbd_kpressed_handler (ev_key ev) b) as [b' a] eqn:Hp. unfold kbd_kpressed_handler in Hp. cbn zeta in Hp.
  destruct ((ev_key ev =? K_SHIFT) || (ev_key ev =? K_ALPHA)); injection Hp as <- <-; (apply IH; [exact Hb|]).
  - by rewrite app_nil_r.
  - apply Forall_app. split; [done|]. rewrite Hb. destruct (_ && _); [|constructor]. apply Forall_singleton. by eexists.
Qed.

Lemma do_action_core m t : core (do_action sym m (SetActive t)) = core m.
Proof. unfold core. cbn [do_action]. cbn. by rewrite vt_set_active_length. Qed.

Lemma start_keyboard_core m : kbd_handler (m_kbd m) = false → core (start_keyboard sym hw m) = core m.
Proof.
  intros Hb. unfold start_keyboard. cbn zeta. transitivity (core (scan_keys sym hw m)); [reflexivity|]. unfold scan_keys.
  destruct (hwkbd_update_status (hw_port hw) (m_keys m)) as [keys evs].
  pose proof (dispatch_actions (kern m) evs (m_kbd m) (s_kbd (m_sys m)) [] Hb ltac:(constructor)) as Ha.
  destruct (foldl (dispatch_event (kern m)) (m_kbd m, s_kbd (m_sys m), []) evs) as [[b f] acts]. cbn [snd] in Ha.
  set (m1 := set_m_keys _ _). transitivity (core m1); [|reflexivity]. clearbody m1. revert m1.
  induction Ha as [|a acts [t ->] Ha IH]; intros m1; [done|]. cbn [foldl]. by rewrite IH, do_action_core.
Qed.

(** The EXE key is released and pressed [n] times. *)
Fixpoint presses (n : nat) (reads : list bool) : Prop :=
  match n with
  | O => True
  | S n => ∃ a b reads', reads = replicate a true ++ false :: replicate b false ++ true :: reads' ∧ presses n reads'
  end.

Lemma while_key_run key a reads : while_key key (replicate a key ++ negb key :: reads) = Some (a, reads).
Proof.
  induction a as [|a IH]; cbn [replicate app while_key]; [by destruct key|]. by rewrite Bool.eqb_reflx, IH.
Qed.

Lemma DBG_WAIT_spec n m : presses (S n) (m_reads m) → ∃ reads d, DBG_WAIT irq m = Some (set_terms d (set_m_reads reads m)) ∧ presses n reads ∧ (m_masked m = true → d = drv m).
Proof.
  intros (a & b & reads & Hr & Hn). unfold DBG_WAIT. rewrite Hr. change false with (negb true) at 1. rewrite while_key_run. cbn [mbind option_bind].
  change true with (negb false) at 1. rewrite while_key_run. cbn [mbind option_bind]. cbn zeta. exists reads. change (m_masked (set_m_reads reads m)) with (m_masked m).
  destruct (m_masked m).
  - exists (drv m). split; [|done]. f_equal. by destruct m as [[] ? ? ? ? ? ? ? ? ? ? ? ? ? ?].
  - eexists. split; [reflexivity|done].
Qed.

(** At least [n] whole pages lie between the kernel and the end of the RAM. *)
Lemma init_pages_enough pm n : 10 ≤ hw_ram_order hw < 26 → pm_first_free pm = NULL → RAM_START_ADDRESS < Z.land (hw_end_stack hw) 0x1FFFFFFF →
  Z.land (hw_end_stack hw) 0x1FFFFFFF + 1024 * (Z.of_nat n + 1) ≤ RAM_START_ADDRESS + 2 ^ hw_ram_order hw →
  ∃ F, pm_rep (pm_init_pages (hw_end_stack hw) (hw_ram_order hw) pm) F ∧ (n ≤ length F)%nat ∧
    ∀ p, p ∈ F ↔ p mod 1024 = 0 ∧ 0x80000000 + Z.land (hw_end_stack hw) 0x1FFFFFFF ≤ p ∧ p + 1024 ≤ 0x80000000 + RAM_START_ADDRESS + 2 ^ hw_ram_order hw.
Proof.
  intros Ho Hf Hp Hn. destruct (pm_init_pages_correct (hw_end_stack hw) (hw_ram_order hw) pm Ho Hf ltac:(lia)) as (F & Hrep & HF). exists F. split; [done|]. split; [|done].
  set (phy := Z.land (hw_end_stack hw) 0x1FFFFFFF) in *. set (q := (0x80000000 + phy + 1023) / 1024).
  pose proof (Z.div_mod (0x80000000 + phy + 1023) 1024 ltac:(lia)) as Hdm. pose proof (Z.mod_pos_bound (0x80000000 + phy + 1023) 1024 ltac:(lia)). fold q in Hdm.
  assert (Hsub : (λ i, 1024 * i) <$> seqZ q (Z.of_nat n) ⊆+ F).
  { apply NoDup_submseteq; [apply NoDup_fmap_2; [intros x y ?; lia|apply NoDup_seqZ]|]. intros x Hx. apply list_elem_of_fmap in Hx as (i & -> & Hi%elem_of_seqZ).
    apply HF. split; [rewrite Z.mul_comm; apply Z.mod_mul; lia|]. lia. }
  apply submseteq_length in Hsub. rewrite length_fmap, length_seqZ in Hsub. lia.
Qed.

Lemma get_screen pm pools L H F : km_inv (mk_kmem pm pools) L H F → F ≠ [] →
  ∃ q pm' p F', arch_pm_get_free_page MEM_PM_CACHED pm = Some (q, pm') ∧ F ≡ₚ p :: F' ∧ km_inv (mk_kmem pm' pools) L (p :: H) F'.
Proof.
  intros Hk HF. destruct (km_get_ok MEM_PM_CACHED _ L H F Hk HF) as (p & q & a' & F' & Hg & _ & _ & HpF & Hk').
  unfold km_get_page in Hg. cbn [kmem_KMem] in Hg. unfold kmem_get_page in Hg. cbn [km_mem km_pools pg_get pmem_PageMem] in Hg.
  destruct (arch_pm_get_free_page MEM_PM_CACHED pm) as [[q' pm']|]; [|done]. cbn in Hg. injection Hg as -> <-. by exists q, pm', p, F'.
Qed.

(** The kernel with the free pages in the allocator and an empty TLB. *)
Definition paged (k : kernel (kmem pmem)) : kernel (kmem pmem) :=
  set_k_mem (mk_kmem (pm_init_pages (hw_end_stack hw) (hw_ram_order hw) (km_mem (k_mem k))) (km_pools (k_mem k))) (set_k_mmu (mmu_init (k_mmu k)) k).

Lemma init_memory_spec m n : kbd_handler (m_kbd m) = false → m_masked m = true → presses (S n) (m_reads m) →
  ∃ m' reads, init_memory sym hw irq m = Some m' ∧ presses n reads ∧
    core m' = (paged (kern m), s_devs (m_sys m), s_minors (m_sys m), m_log m, m_console m, reads, false, t_acm (drv m), length (vts (t_vt (drv m)))).
Proof.
  intros Hb Hm Hr. unfold init_memory. cbn zeta. fold (paged (kern m)).
  change (set_k_mem _ _) with (paged (kern m)). set (m0 := set_jobs _ _).
  pose proof (start_keyboard_core m0 Hb) as Hc. generalize dependent (start_keyboard sym hw m0). intros m1 Hc. injection Hc as H1 H2 H3 H4 H5 H6 H7 H8 H9.
  destruct (DBG_WAIT_spec n m1) as (reads & d & -> & Hn & Hd); [rewrite H6; exact Hr|]. cbn [mbind option_bind]. specialize (Hd ltac:(rewrite H7; exact Hm)). subst d.
  eexists _, reads. split; [reflexivity|]. split; [done|]. unfold core.
  change (kern (set_m_masked false _)) with (kern m1). change (drv (set_m_masked false _)) with (drv m1). cbn [m_sys m_log m_console m_reads m_masked set_m_masked set_m_reads set_terms set_m_sys s_devs s_minors set_drv].
  rewrite H1, H2, H3, H4, H5, H8, H9. reflexivity.
Qed.

(** ** Terminals *)

Lemma set_ttys_frame l : ∀ s : system (kmem pmem) terms, let s' := foldl (λ s '(i, t), set_tty (vt_tty sym i) t s) s l in
  sk s' = sk s ∧ s_devs s' = s_devs s ∧ s_minors s' = s_minors s ∧ s_drv s' = s_drv s.
Proof. induction l as [|[i t] l IH]; intros s; [done|]. cbn [foldl]. destruct (IH (set_tty (vt_tty sym i) t s)) as (H1 & H2 & H3 & H4). cbn zeta. rewrite H1, H2, H3, H4. done. Qed.

Lemma vt_instance_ok (vs : list (vt_instance tdisp_data)) ttys minors pm i v t page pm' :
  vs !! Z.to_nat i = Some v → ttys !! Z.to_nat i = Some t → arch_pm_get_free_page MEM_PM_CACHED pm = Some (page, pm') →
  vt_init_instance tdisp (vt_tty sym) (vs, ttys, minors, pm) i =
  Some (aset vs i (vt_clear_escape_code (set_saved 0 0 (set_pos 0 0 (set_disp (mk_tdisp 1 0 0 0 TEXT_CURSOR_NORMAL page (replicate 1024 0)) v)))),
        aset ttys i (tty_default_init (buffer (fifo t)) t), (ttydev_set_minor (VT_MINOR_BASE + i) (vt_tty sym i) minors).2, pm').
Proof.
  intros Hv Ht Hg. unfold vt_init_instance. rewrite Hv, Ht. cbn [td_init_disp fx9860_text_display]. unfold fx9860_tdisp_init_disp. by rewrite Hg.
Qed.

Lemma init_vts_spec m L H F : length (vts (t_vt (drv m))) = 2%nat → km_inv (k_mem (kern m)) L H F → (2 ≤ length F)%nat →
  ∃ m' a p q F' n, init_vts sym m = Some m' ∧ F ≡ₚ p :: q :: F' ∧ km_inv a L (q :: p :: H) F' ∧
    core m' = (set_k_mem a (kern m), s_devs (m_sys m), aset (aset (s_minors (m_sys m)) 0 (vt_tty sym 0)) 1 (vt_tty sym 1), m_log m, m_console m, m_reads m, m_masked m, t_acm (drv m), n).
Proof.
  intros Hv Hk HF. unfold kern, drv in *. destruct (k_mem (sk (m_sys m))) as [pm pools] eqn:Hkm.
  destruct (get_screen pm pools L H F Hk) as (x & pm1 & p & F1 & Hg1 & Hp1 & Hk1); [destruct F; [cbn in HF; lia|done]|].
  assert (HF1 : (1 ≤ length F1)%nat) by (apply Permutation_length in Hp1; cbn in Hp1; lia).
  destruct (get_screen pm1 pools L (p :: H) F1 Hk1) as (y & pm2 & q & F2 & Hg2 & Hp2 & Hk2); [destruct F1; [cbn in HF1; lia|done]|].
  destruct (vts (t_vt (s_drv (m_sys m)))) as [|v0 [|v1 [|? ?]]] eqn:Hvts; try done.
  unfold init_vts, vt_init. cbn zeta. rewrite Hkm, Hvts. change (seqZ 0 VT_MAX_TERMINALS) with [0; 1]. cbn [fmap list_fmap vt_init_loop km_mem km_pools].
  rewrite (vt_instance_ok _ _ _ pm 0 v0 (s_ttys (m_sys m) (vt_tty sym 0)) x pm1) by done. cbn [mbind option_bind].
  rewrite (vt_instance_ok _ _ _ pm1 1 v1 (s_ttys (m_sys m) (vt_tty sym 1)) y pm2) by done. cbn [mbind option_bind].
  eexists _, (mk_kmem pm2 pools), p, q, F2, _. split; [reflexivity|]. split; [by rewrite Hp1, Hp2|]. split; [exact Hk2|].
  unfold core, kern, drv, set_vt, set_terms, set_m_sys. cbn [m_sys m_log m_console m_reads m_masked set_drv s_drv sk s_devs s_minors set_t_vt t_acm t_vt].
  match goal with |- context [foldl ?f ?s ?l] => destruct (set_ttys_frame l s) as (-> & -> & -> & E) end.
  unfold drv. cbn [m_sys]. rewrite E. reflexivity.
Qed.
End memory.

Section console.
Context (sym : symbols) (hw : hardware) (irq : terms → terms) (fuel : nat) (stale : list Z) (Hstale : length stale = 256%nat).
Context (Hvt : ∀ i, 0 ≤ i < 2 → vt_tty sym i ≠ NULL ∧ vt_tty sym i ≠ acm_tty sym) (Hdev : ttydev_device sym ≠ NULL).

Lemma acm_usb_init_ok setup input self st t minors c u : ∃ c' u',
  acm_usb_init setup input self st t minors c u = Some ((c', tty_default_init st t, (ttydev_set_minor CdcAcm.ACM_USB_TTY_MINOR self minors).2), u').
Proof.
  unfold acm_usb_init, cdc_acm_init, cdc_acm_set_receive_callback, usb_set_setup_callback, usb_set_receive_callback. cbn zeta.
  unfold update, skip, mbind, prog_bind, mret, prog_ret. cbn beta iota.
  destruct (usb_find_endpoint_config (cdc_endpoints c)) as [ret eps]. destruct (ret =? 0); cbn [mbind option_bind];
    destruct (_ =? USB_EP_EP1); by eexists _, _.
Qed.

Lemma init_usb_spec m u c : t_acm (drv m) = Some (u, c) →
  ∃ m' x, init_usb sym m = Some m' ∧
    core m' = (kern m, s_devs (m_sys m), aset (s_minors (m_sys m)) 6 (acm_tty sym), m_log m, m_console m, m_reads m, m_masked m, x, length (vts (t_vt (drv m)))).
Proof.
  intros Hu. unfold init_usb. unfold drv in Hu. rewrite Hu. cbn [mbind option_bind]. cbn zeta.
  assert (Hinit : ∃ u', usb_init (usb_handler_fn sym) u = Some (usb_handler_fn sym, u')) by (eexists; reflexivity). destruct Hinit as [u1 ->]. cbn [mbind option_bind].
  match goal with |- context [acm_usb_init ?a ?b ?c ?d ?e ?f ?g ?h] => destruct (acm_usb_init_ok a b c d e f g h) as (c2 & u2 & ->) end.
  eexists _, _. split; reflexivity.
Qed.

Lemma vt_on_current i f (v : vt_state tdisp_data screen_state) : vt_current (vt_on i f v) = vt_current v.
Proof. unfold vt_on. destruct (vt_get i v); [|done]. by destruct (f _). Qed.

Lemma print_current lg s d : vt_current (t_vt (print early_print (term_ops sym) lg s d)) = vt_current (t_vt d).
Proof.
  unfold print. destruct (kernel_print lg); [done|done|]. unfold printk_write_tty, term_ops. destruct (_ =? acm_tty sym).
  - unfold tty_write. cbn [lift_ops _acm_tty_ops op_tty_write fmap option_fmap option_map]. unfold lift. by destruct (acm_tty_write s (t_acm d)).
  - unfold tty_write. cbn [lift_ops vt_tty_ops op_tty_write fmap option_fmap option_map]. unfold lift, vt_tty_write. cbn [snd set_t_vt t_vt].
    destruct (_ =? vt_current _); cbn [set_vt_tm vt_current]; apply vt_on_current.
Qed.

(** A message, wherever the log goes. *)
Lemma printk_any lg level str args d out : Forall (λ c, 0 < c < 256) str → Forall arg_ok args → format str args = Some out →
  ∃ d', printk_internal early_print (term_ops sym) lg level str args stale d = Some d' ∧ vt_current (t_vt d') = vt_current (t_vt d).
Proof.
  intros Hs Ha Hf. unfold printk_internal. destruct (_ && _); [|by exists d].
  destruct (printk_loop_spec (length str) str args out ltac:(done) Hs Ha Hf [] stale) as (pieces & Hrun & _); [constructor|cbn; lia|done|done|].
  cbn [app length] in Hrun. change (Z.of_nat 0) with 0 in Hrun. rewrite Hrun. eexists. split; [reflexivity|]. clear Hrun.
  revert d. induction pieces as [|s ps IH]; intros d; [done|]. cbn [foldl]. by rewrite IH, print_current.
Qed.

Lemma say_any level str args m out : Forall (λ c, 0 < c < 256) str → Forall arg_ok args → format str args = Some out →
  ∃ d, say sym stale level str args m = Some (set_terms d m) ∧ vt_current (t_vt d) = vt_current (t_vt (drv m)).
Proof.
  intros Hs Ha Hf. unfold say, printk. cbn [boot_of b_log console_node b_drv]. destruct (printk_any (m_log m) level str args (drv m) out Hs Ha Hf) as (d & -> & Hd).
  exists d. cbn [mbind option_bind]. split; [|done]. by destruct m as [[] ? ? ? ? ? ? ? ? ? ? ? ? ? ?].
Qed.

Lemma active_text : let s := text "Now using console device for printk()!" ++ [10] in Forall (λ c, 0 < c < 256) s ∧ ∃ out, format s [] = Some out.
Proof. split; [by_computation|by eexists]. Qed.

Lemma vt_ready i d : 0 ≤ i < 2 → tty_is_ready (term_ops sym (vt_tty sym i)) d = 1.
Proof. intros Hi. destruct (Hvt i Hi) as [_ Ha]. unfold term_ops. by rewrite (proj2 (Z.eqb_neq _ _) Ha). Qed.

(** A virtual terminal is ready as soon as it is there. *)
Lemma console_spec m i lv : 0 ≤ i < 2 → m_console m = makedev CONSOLE_TTY_MAJOR i → m_log m = mk_logger PrintEarly (console_tty (m_log m)) lv →
  dev_device_from_major 4 (s_devs (m_sys m)) = ttydev_device sym → aget (s_minors (m_sys m)) i = vt_tty sym i →
  ∃ d, console_make_active early_print (term_ops sym) stale fuel irq (s_devs (m_sys m)) (s_minors (m_sys m)) (boot_of m) =
    Some (mk_boot (mk_logger PrintTty (vt_tty sym i) lv) (m_console m) d).
Proof.
  intros Hi Hc Hlg Hd Hm. pose proof active_text as [Hmsg [out Hfmt]]. destruct (Hvt i Hi) as [Hn Ha].
  assert (Hmm : major (m_console m) = 4 ∧ minor (m_console m) = i) by (rewrite Hc; assert (i = 0 ∨ i = 1) as [->| ->] by lia; done). destruct Hmm as [Hmaj Hmin].
  rewrite (console_ready _ _ _ _ _ _ _ _ (vt_tty sym i)).
  - unfold printk. cbn [b_log b_drv console_node boot_of].
    destruct (printk_any (printk_set_console_tty (vt_tty sym i) (m_log m)) LOG_INFO _ [] (tty_open (term_ops sym (vt_tty sym i)) (drv m)).2 _ Hmsg ltac:(constructor) Hfmt) as (d' & -> & _).
    exists d'. cbn [mbind option_bind]. f_equal. unfold printk_set_console_tty. rewrite (proj2 (Z.eqb_neq _ _) Hn), Hlg. done.
  - change (console_node (boot_of m)) with (m_console m). by rewrite Hmaj, Hd.
  - change (console_node (boot_of m)) with (m_console m). rewrite Hmin. unfold ttydev_get_minor. by rewrite (proj2 (Z.ltb_lt i TTYDEV_MINOR_MAX)) by (unfold TTYDEV_MINOR_MAX; lia).
  - done.
  - by rewrite vt_ready.
Qed.

Lemma init_clock_spec m : (∃ a b rest, hw_pefs hw = replicate a false ++ true :: replicate b false ++ true :: rest) →
  ∃ m' d, init_clock sym hw stale m = Some m' ∧ m_sys m' = set_drv d (m_sys m) ∧ m_log m' = m_log m ∧ m_console m' = m_console m ∧ vt_current (t_vt d) = vt_current (t_vt (drv m)).
Proof.
  intros (a & b & rest & Hp). unfold init_clock, freq_time_calibrate. destruct (timer_init_tmu _ _ _ _ _) as [w calls].
  assert (Hw : ∀ a l, wait_pef (replicate a false ++ true :: l) = Some l) by (clear; induction a as [|a IH]; intros l; [done|exact (IH l)]).
  rewrite Hp, Hw. cbn [mbind option_bind]. rewrite Hw. cbn [mbind option_bind]. cbn zeta. set (m1 := set_m_freq _ _).
  assert (Hfr : ∀ x y, 0 ≤ y → 0 ≤ u32 x / (y + 1) < 4294967296).
  { intros x y Hy. pose proof (u32_range x). split; [apply Z.div_pos; lia|]. apply Z.div_lt_upper_bound; [lia|]. nia. }
  assert (Hok : ∀ f, 0 ≤ f < 4294967296 → Forall arg_ok [AInt (f / 1000000); AInt (f / 100000 mod 10)]).
  { intros f Hf. pose proof (Z.mod_pos_bound (f / 100000) 10 ltac:(lia)). repeat constructor; cbn; try lia.
    - pose proof (Z.div_pos f 1000000). lia.
    - apply Z.div_lt_upper_bound; lia. }
  destruct (say_any LOG_INFO (text "CPU freq : %d.%dMHz" ++ [10]) [AInt (freq_get_internal_hz (m_freq m1) (hw_frqcr hw) / 1000000); AInt (freq_get_internal_hz (m_freq m1) (hw_frqcr hw) / 100000 mod 10)] m1 _
    ltac:(by_computation) ltac:(apply Hok, Hfr; unfold IFC; apply Z.land_nonneg; right; lia) eq_refl) as (d1 & -> & Hd1). cbn [mbind option_bind].
  set (m2 := set_terms d1 m1).
  destruct (say_any LOG_INFO (text "Peripheral freq : %d.%dMHz" ++ [10]) [AInt (freq_get_peripheral_hz (m_freq m2) (hw_frqcr hw) / 1000000); AInt (freq_get_peripheral_hz (m_freq m2) (hw_frqcr hw) / 100000 mod 10)] m2 _
    ltac:(by_computation) ltac:(apply Hok, Hfr; unfold PFC; apply Z.land_nonneg; right; lia) eq_refl) as (d2 & -> & Hd2).
  exists (set_terms d2 m2), d2. split_and!; [reflexivity..|]. rewrite Hd2. exact Hd1.
Qed.

Lemma init_tty_found d devs : d ≠ NULL → (0 < length devs)%nat → dev_device_from_major 4 (init_tty_device d devs) = d.
Proof.
  intros Hd Hl. destruct devs as [|e devs]; [cbn in Hl; lia|].
  transitivity (dev_device_from_major 4 (mk_entry d 4 :: dev_init devs)); [reflexivity|]. cbn [dev_device_from_major dev de_major]. by rewrite (proj2 (Z.eqb_neq _ _) Hd).
Qed.

Lemma vt_set_active_current fn (v : vt_state tdisp_data screen_state) : vt_current (vt_set_active tdisp fn 0 v) = 0.
Proof.
  unfold vt_set_active. change ((-1 <=? 0) && (0 <? VT_MAX_TERMINALS)) with true. cbn iota. destruct (Z.eqb_spec 0 (vt_current v)) as [E|]; [by symmetry|done].
Qed.

Lemma init_terminals_spec m L H F u c i lv :
  length (vts (t_vt (drv m))) = 2%nat → km_inv (k_mem (kern m)) L H F → (2 ≤ length F)%nat → t_acm (drv m) = Some (u, c) → presses 2 (m_reads m) →
  0 ≤ i < 2 → m_console m = makedev CONSOLE_TTY_MAJOR i → m_log m = mk_logger PrintEarly (console_tty (m_log m)) lv →
  length (s_minors (m_sys m)) = 10%nat → length (s_devs (m_sys m)) = 10%nat →
  ∃ m' a p q F', init_terminals sym irq fuel stale m = Some m' ∧ F ≡ₚ p :: q :: F' ∧ km_inv a L (q :: p :: H) F' ∧ kern m' = set_k_mem a (kern m) ∧
    m_console m' = m_console m ∧ m_log m' = mk_logger PrintTty (vt_tty sym i) lv ∧ dev_device_from_major 4 (s_devs (m_sys m')) = ttydev_device sym ∧
    aget (s_minors (m_sys m')) i = vt_tty sym i ∧ vt_current (t_vt (drv m')) = 0.
Proof.
  intros Hv Hk HF Hu Hr Hi Hc Hlg Hmin Hdv. unfold init_terminals. cbn zeta. set (m0 := set_m_sys _ _).
  destruct (init_vts_spec sym m0 L H F Hv Hk HF) as (m1 & a & p & q & F' & n1 & -> & Hp & Hk1 & Hc1). cbn [mbind option_bind].
  injection Hc1 as K1 D1 M1 L1 C1 R1 S1 U1 _.
  destruct (init_usb_spec m1 u c) as (m2 & x & -> & Hc2); [by rewrite U1|]. cbn [mbind option_bind]. injection Hc2 as K2 D2 M2 L2 C2 R2 S2 _ _.
  destruct (DBG_WAIT_spec irq 1 m2) as (reads & d3 & -> & Hr3 & _); [rewrite R2, R1; exact Hr|]. cbn [mbind option_bind].
  destruct (say_any LOG_INFO (text "Switching screen to tty1..." ++ [10] ++ text "  The display will be cleared." ++ [10]) [] (set_terms d3 (set_m_reads reads m2)) _ ltac:(by_computation)
    ltac:(constructor) eq_refl) as (d4 & -> & _). cbn [mbind option_bind]. set (m4 := set_terms d4 _).
  assert (K4 : kern m4 = kern m2) by done. assert (D4 : s_devs (m_sys m4) = s_devs (m_sys m2)) by done. assert (M4 : s_minors (m_sys m4) = s_minors (m_sys m2)) by done.
  assert (L4 : m_log m4 = m_log m2) by done. assert (C4 : m_console m4 = m_console m2) by done. assert (R4 : m_reads m4 = reads) by done. clearbody m4.
  assert (Hdev4 : dev_device_from_major 4 (s_devs (m_sys m4)) = ttydev_device sym).
  { rewrite D4, D2, D1. apply init_tty_found; [done|]. change (s_devs (m_sys m)) with (s_devs (m_sys m)). rewrite Hdv. lia. }
  assert (Hmin4 : aget (s_minors (m_sys m4)) i = vt_tty sym i).
  { rewrite M4, M2, M1. change (s_minors (m_sys m0)) with (s_minors (m_sys m)). rewrite aget_aset_ne by lia.
    assert (i = 0 ∨ i = 1) as [->| ->] by lia.
    - rewrite aget_aset_ne, aget_aset_eq by lia. done.
    - rewrite aget_aset_eq; [done|]. rewrite aset_length. lia. }
  assert (Hlog4 : m_log m4 = mk_logger PrintEarly (console_tty (m_log m4)) lv) by (rewrite L4, L2, L1; exact Hlg).
  destruct (console_spec m4 i lv Hi ltac:(by rewrite C4, C2, C1) Hlog4 Hdev4 Hmin4) as [d5 ->]. cbn [mbind option_bind].
  set (m5 := with_boot _ m4). destruct (DBG_WAIT_spec irq 0 m5) as (reads6 & d6 & -> & _); [change (m_reads m5) with (m_reads m4); by rewrite R4|]. cbn [mbind option_bind].
  eexists _, a, p, q, F'. split; [reflexivity|]. split_and!; [done|done| |rewrite <- C1, <- C2, <- C4; done|done|exact Hdev4|exact Hmin4|apply vt_set_active_current].
  change (kern m4 = set_k_mem a (kern m)). by rewrite K4, K2, K1.
Qed.
End console.

(** ** From the reset to the file tree *)

(** The state the boot loader leaves: nothing is allocated, nothing is mounted, interrupts
    are masked, no handler of key strokes is set, and the tables have their sizes. *)
Record at_reset (m : machine) : Prop := {
  rs_mem : ∃ pm, k_mem (kern m) = kmem_init pm ∧ pm_first_free pm = NULL;
  rs_root : root_fs (kern m) = NULL ∧ pf_mounted (k_protofs (kern m)) = 0;
  rs_cache : length (hash_head (kern m)) = 31%nat ∧ ∀ e, length (i_name (k_inodes (kern m) e)) = 20%nat;
  rs_console : m_console m = makedev CONSOLE_TTY_MAJOR CONSOLE_VT_MINOR_BASE;
  rs_keys : kbd_handler (m_kbd m) = false ∧ m_masked m = true;
  rs_terms : length (vts (t_vt (drv m))) = 2%nat ∧ t_acm (drv m) ≠ None;
  rs_tables : length (s_minors (m_sys m)) = 10%nat ∧ length (s_devs (m_sys m)) = 10%nat
}.

(** The RAM has room for [n] pages behind the kernel, and the clock ticks twice. *)
Record hw_ok (hw : hardware) (n : nat) : Prop := {
  hw_order : 10 ≤ hw_ram_order hw < 26;
  hw_end : RAM_START_ADDRESS < Z.land (hw_end_stack hw) 0x1FFFFFFF;
  hw_room : Z.land (hw_end_stack hw) 0x1FFFFFFF + 1024 * (Z.of_nat n + 1) ≤ RAM_START_ADDRESS + 2 ^ hw_ram_order hw;
  hw_ticks : ∃ a b rest, hw_pefs hw = replicate a false ++ true :: replicate b false ++ true :: rest
}.

Lemma console_of_value l : ∀ node, (∃ i, 0 ≤ i < 2 ∧ node = makedev CONSOLE_TTY_MAJOR i) ∨ node = makedev CONSOLE_TTY_MAJOR Cmdline.ACM_USB_TTY_MINOR →
  (∃ i, 0 ≤ i < 2 ∧ foldl console_of node l = makedev CONSOLE_TTY_MAJOR i) ∨ foldl console_of node l = makedev CONSOLE_TTY_MAJOR Cmdline.ACM_USB_TTY_MINOR.
Proof.
  induction l as [|a l IH]; intros node Hn; [done|]. cbn [foldl]. apply IH. unfold console_of. case_bool_decide; [|done]. destruct a.2 as [v|]; [|done].
  cbn [mbind option_bind]. destruct (console_value v) as [x|] eqn:Hx; [|done]. cbn [default]. clear -Hx. unfold console_value in Hx.
  repeat (case_match; try done); simplify_eq; [|by right]. left. eexists. split; [|reflexivity]. lia.
Qed.

Section boot.
Context (sym : symbols) (hw : hardware) (irq : terms → terms) (wait : nat) (stale : list Z) (Hstale : length stale = 256%nat).
Context (Hvt : ∀ i, 0 ≤ i < 2 → vt_tty sym i ≠ NULL ∧ vt_tty sym i ≠ acm_tty sym) (Hdev : ttydev_device sym ≠ NULL).

(** The device of a virtual terminal opens that terminal. *)
Lemma open_terminal display_device fxkeyboard_device (s : system (kmem pmem) terms) r f i : 0 ≤ i < 2 →
  i_type (k_inodes (sk s) r) = INODE_TYPE_DEV → i_spec (k_inodes (sk s) r) = makedev CONSOLE_TTY_MAJOR i →
  dev_device_from_major 4 (s_devs s) = ttydev_device sym → aget (s_minors s) i = vt_tty sym i →
  ∃ s', vfs_open_dev (device_open sym display_device fxkeyboard_device) r f s = Some (0, s') ∧
    f_op (k_files (sk s') f) = fop_tty ∧ f_private (k_files (sk s') f) = vt_tty sym i ∧ f_inode (k_files (sk s') f) = r.
Proof.
  intros Hi Hty Hsp Hd Hm. assert (Hmm : u16 (major (makedev CONSOLE_TTY_MAJOR i)) = 4 ∧ minor (makedev CONSOLE_TTY_MAJOR i) = i) by (assert (i = 0 ∨ i = 1) as [->| ->] by lia; done).
  destruct Hmm as [Hmaj Hmin]. destruct (Hvt i Hi) as [Hn Ha]. unfold vfs_open_dev. rewrite Hty, Hsp, Hmaj, Hmin, Hd.
  rewrite (proj2 (Z.eqb_neq _ _) Hdev). unfold device_open. rewrite Z.eqb_refl. unfold ttydev_open.
  rewrite (proj2 (Z.ltb_lt i TTYDEV_MINOR_MAX)), Hm, (proj2 (Z.eqb_neq _ _) Hn) by (unfold TTYDEV_MINOR_MAX; lia).
  unfold tty_open, term_ops. rewrite (proj2 (Z.eqb_neq _ _) Ha). eexists. split; [reflexivity|]. change (0 =? 0) with true. cbn [sk set_sk set_drv]. rewrite !upd_file_eq. done.
Qed.

Lemma init_early_spec m l i n : at_reset m → hw_ok hw (S (S n)) → args_ready m l → presses 3 (m_reads m) →
  0 ≤ i < 2 → foldl console_of (m_console m) l = makedev CONSOLE_TTY_MAJOR i →
  ∃ m' a p q F, init_early sym hw irq wait stale m = Some m' ∧ kern m' = set_k_mem a (paged hw (kern m)) ∧ km_inv a [] [q; p] F ∧ (n ≤ length F)%nat ∧
    (∀ x, x ∈ p :: q :: F ↔ x mod 1024 = 0 ∧ 0x80000000 + Z.land (hw_end_stack hw) 0x1FFFFFFF ≤ x ∧ x + 1024 ≤ 0x80000000 + RAM_START_ADDRESS + 2 ^ hw_ram_order hw) ∧
    m_console m' = makedev CONSOLE_TTY_MAJOR i ∧ kernel_print (m_log m') = PrintTty ∧ console_tty (m_log m') = vt_tty sym i ∧
    dev_device_from_major 4 (s_devs (m_sys m')) = ttydev_device sym ∧ aget (s_minors (m_sys m')) i = vt_tty sym i ∧ vt_current (t_vt (drv m')) = 0.
Proof.
  intros [(pm & Hpm & Hfree) _ _ _ [Hkb Hmask] [Hv Hu] [Hmin Hdv]] [Ho He Hroom Htick] Hargs Hpr Hi Hnode. unfold init_early.
  destruct (init_log_spec sym stale Hstale (init_hardware sym hw m) l) as (e & lv & nm & args & ->); [exact Hargs|]. cbn [mbind option_bind].
  change (m_console (init_hardware sym hw m)) with (m_console m). rewrite Hnode. set (m1 := set_m_args _ _).
  destruct (init_memory_spec sym hw irq m1 2 Hkb Hmask Hpr) as (m2 & reads & -> & Hpr2 & Hc2). cbn [mbind option_bind]. injection Hc2 as K2 D2 M2 L2 C2 R2 _ U2 V2.
  destruct (init_pages_enough hw pm (S (S n)) Ho Hfree He Hroom) as (F & Hrep & HlF & HF).
  assert (Hk2 : km_inv (k_mem (kern m2)) [] [] F).
  { rewrite K2. change (kern m1) with (kern m). unfold paged. cbn [k_mem set_k_mem]. rewrite Hpm. by apply kmem_init_inv. }
  destruct (t_acm (drv m)) as [[u c]|] eqn:Hacm; [|done].
  destruct (init_terminals_spec sym irq wait stale Hstale Hvt Hdev m2 [] [] F u c i lv) as (m3 & a & p & q & F' & -> & Hp & Hk3 & K3 & C3 & L3 & D3 & M3 & V3);
    [by rewrite V2|done|lia|by rewrite U2|by rewrite R2|done|by rewrite C2|by rewrite L2|by rewrite M2|by rewrite D2|]. cbn [mbind option_bind].
  destruct (init_clock_spec sym hw stale Hstale m3 Htick) as (m4 & d & -> & S4 & L4 & C4 & V4).
  exists m4, a, p, q, F'. split; [done|]. unfold kern, drv. rewrite S4, L4, C4, C3, L3. cbn [sk s_devs s_minors s_drv set_drv kernel_print console_tty].
  split_and!; try done.
  - change (sk (m_sys m3)) with (kern m3). by rewrite K3, K2.
  - apply Permutation_length in Hp. cbn [length] in Hp. lia.
  - intros x. rewrite <- HF, Hp. done.
  - by rewrite V4.
Qed.

Context (flash : Z → Z) (tables fuel : nat) (prim0 prim : smemfs_prim) (Hfuel : (37 ≤ fuel)%nat).
Context (protofs_inst smemfs_inst : ptr) (Hinst : protofs_inst ≠ NULL) (Hdiff : protofs_inst ≠ smemfs_inst).
Context (open_dev : ptr → ptr → kernel (kmem pmem) → option (Z * kernel (kmem pmem))) (s0 : list Z).

(** C7: from the reset, with a command line of well-formed arguments of which the last
    valid console= does not name the USB terminal, and once the key the code waits for has
    been pressed three times, initialisation reaches the file systems.  The log is then
    printed on the terminal that was named (the first one by default), which is a minor of
    the registered device; the first terminal is shown; of the pages behind the kernel all
    are free but the two screens.  The nodes are created next, and /dev/console resolves to
    a device whose number is that of the terminal of the log: opening it gives a file of
    this very terminal. *)
Theorem boot_console m l pf_stale fslist display_device fxkeyboard_device :
  let node := foldl console_of (m_console m) l in
  at_reset m → hw_ok hw 26 → args_ready m l → presses 3 (m_reads m) → node ≠ makedev CONSOLE_TTY_MAJOR Cmdline.ACM_USB_TTY_MINOR →
  length pf_stale = 36%nat → Forall (λ n, length (pn_name n) = PROTOFS_MAX_NAME) pf_stale → (2 ≤ length fslist)%nat →
  ∃ m' k1 k', init_early sym hw irq wait stale m = Some m' ∧
    init_nodes flash tables fuel prim smemfs_inst open_dev s0 (console_get_device (boot_of m'))
      (boot_fslist flash tables protofs_inst smemfs_inst prim0 pf_stale (vfs_init fslist (kern m')).1) (vfs_init fslist (kern m')).2 = Some k1 ∧
    init_mnt flash tables fuel prim smemfs_inst open_dev s0 k1 = Some k' ∧
    m_console m' = node ∧ kernel_print (m_log m') = PrintTty ∧ console_tty (m_log m') = ttydev_get_minor (minor node) (s_minors (m_sys m')) ∧
    console_tty (m_log m') ≠ NULL ∧ dev_device_from_major (major node) (s_devs (m_sys m')) = ttydev_device sym ∧ vt_current (t_vt (drv m')) = 0 ∧
    (∃ p q F, km_inv (k_mem (kern m')) [] [q; p] F ∧
      ∀ x, x ∈ p :: q :: F ↔ x mod 1024 = 0 ∧ 0x80000000 + Z.land (hw_end_stack hw) 0x1FFFFFFF ≤ x ∧ x + 1024 ≤ 0x80000000 + RAM_START_ADDRESS + 2 ^ hw_ram_order hw) ∧
    ∃ r k'', vfs_resolve fuel (fs_of flash tables fuel prim smemfs_inst open_dev s0) (text "/dev/console") k' = Some (r, k'') ∧ r ≠ NULL ∧
      i_type (k_inodes k'' r) = INODE_TYPE_DEV ∧ i_spec (k_inodes k'' r) = node ∧
      ∀ f, ∃ s', vfs_open_dev (device_open sym display_device fxkeyboard_device) r f (set_sk k'' (m_sys m')) = Some (0, s') ∧
        f_op (k_files (sk s') f) = fop_tty ∧ f_private (k_files (sk s') f) = console_tty (m_log m') ∧ f_inode (k_files (sk s') f) = r.
Proof.
  intros node Hr Hhw Hargs Hpr Hne Hst Hstn Hfs.
  destruct (console_of_value l (m_console m)) as [(i & Hi & Hnode)|Husb]; [left; exists 0; split; [lia|apply Hr]| |done]. fold node in Hnode.
  destruct (init_early_spec m l i 24 Hr Hhw Hargs Hpr Hi Hnode) as (m' & a & p & q & F & He & Hk & Hkm & HlF & Hpages & Hcon & Hpt & Htty & Hd & Hm & Hcur).
  assert (Hmm : major node = 4 ∧ minor node = i) by (rewrite Hnode; assert (i = 0 ∨ i = 1) as [->| ->] by lia; done). destruct Hmm as [Hmaj Hminor].
  destruct (boot_root_tree flash tables fuel prim Hfuel protofs_inst smemfs_inst Hinst Hdiff open_dev s0 prim0 pf_stale fslist node (kern m') [] [q; p] F) as
    (k1 & k' & Hk1 & Hk' & _ & Hres); [by rewrite Hk|done|by rewrite Hk; apply Hr|by rewrite Hk; apply Hr|by rewrite Hk; apply Hr|rewrite Hk; apply Hr|done|done|done|].
  destruct (Hres [text "dev"; text "console"] 4 (mk_props INODE_TYPE_DEV INODE_FLAG_WRITE node)) as (r & k'' & Hv & Hrn & _ & Hty & _ & Hsp);
    [do 2 apply list_elem_of_further; apply list_elem_of_here|done|].
  exists m', k1, k'. unfold console_get_device, boot_of. cbn [console_node]. rewrite Hcon, <- Hnode, Hmaj, Hminor, Htty. unfold ttydev_get_minor.
  rewrite (proj2 (Z.ltb_lt i TTYDEV_MINOR_MAX)) by (unfold TTYDEV_MINOR_MAX; lia).
  split_and!; try done; [by apply Hvt|exists p, q, F; rewrite Hk; by split|]. exists r, k''. specialize (Hsp eq_refl).
  split_and!; [exact Hv|done|exact Hty|exact Hsp|]. intros f. apply (open_terminal display_device fxkeyboard_device (set_sk k'' (m_sys m'))); [done|exact Hty|exact (eq_trans Hsp Hnode)|exact Hd|exact Hm].
Qed.
End boot.

(** ** A machine *)

Definition demo_sym : symbols :=
  mk_symbols 0x88000000 0x88000100 0x88000110 0x88000120 0x88000130 0x88000140 0x88000150 0x88000160 0x88000200 (λ i, 0x88000300 + 0x100 * i) 0x88000600.

(** 64 KB of RAM with 4 KB of kernel; the frequency is measured after a few polls. *)
Definition demo_hw : hardware :=
  mk_hardware (λ _, 0xFF) (mk_rtc 2 0 1 5 0 6 1 2 1 0 3 0 0 0) 16 0x88001000 [false; true; false; false; true; false] 0xFFFF0000 0x0112 0x09.

Definition demo_vt : vt_instance tdisp_data := mk_vt (mk_tdisp 0 0 0 0 TEXT_CURSOR_NORMAL 0 []) 0 0 0 0 (mk_esc 0 (replicate 4 0) 0).

Definition demo_terms : terms :=
  mk_terms (mk_early 1 0 0 0 0 (replicate 1024 0) []) (mk_vts [demo_vt; demo_vt] 0 (mk_timers 0 0 (replicate 10 job0)) (mk_screen [] [])) (Some (demo_usb, cdc0)).

(** The command line is [args]; the EXE key is pressed often enough. *)
Definition demo_machine (args : list Z) : machine :=
  mk_machine (mk_system (zero_kernel (kmem_init (mk_pmem (λ _, 0) 0 0))) (λ _, demo_tty) demo_terms (mk_fifo 40 0 0 (replicate 40 0)) (replicate 10 (mk_entry 0 0)) (replicate 10 0) 0 [])
    0 [] true (replicate 10 0) (mk_kbd (replicate 6 0) 0 false) (concat (replicate 8 [true; false; false; true])) [] (replicate 7 0)
    (mk_clock 0 (mk_timespec 0 0) (mk_timespec 0 0)) logger0 (makedev CONSOLE_TTY_MAJOR CONSOLE_VT_MINOR_BASE) (text "/mnt/smem/test.elf") args 0.

Definition demo_args : list boot_arg := [(text "console", Some (text "tty2")); (text "init", Some (text "/mnt/smem/a.t"))].

(** The log goes to the second terminal, with the message of the switch on it. *)
Example early_runs :
  match init_early demo_sym demo_hw (λ d, d) 10 (replicate 256 7) (demo_machine (args_text demo_args ++ [0; 7])) with
  | Some m => (console_tty (m_log m), m_console m, m_init m, map posy (vts (t_vt (drv m))), length (filter (λ j, negb (func j =? 0)) (jobs m)))
              = (0x88000400, 0x00040001, text "/mnt/smem/a.t", [0; 4], 2%nat)
  | None => False
  end.
Proof. vm_compute. reflexivity. Qed.

(** A function key held when the keys are first scanned switches to a terminal before the
    terminals are initialised: its display has no memory yet. *)
Example early_function_key :
  let hw := mk_hardware (λ l, if l =? Z.land K_F2 0x0F then Z.lxor 0xFF (Z.shiftl 1 (Z.shiftr K_F2 4)) else 0xFF) (hw_rtc demo_hw) 16 0x88001000 [] 0 0 0 in
  let m := start_keyboard demo_sym hw (init_hardware demo_sym hw (demo_machine [0])) in
  vt_current (t_vt (drv m)) = 1 ∧ (vram ∘ disp <$> vts (t_vt (drv m))) = [NULL; NULL].
Proof. split; vm_compute; reflexivity. Qed.

(** The image with the executable (Elf), at the addresses of the real flash memory. *)
Definition boot_flash (a : ptr) : Z :=
  if CASIO_FS <=? a then (if a <? CASIO_FS + 192 then elf_flash (a - CASIO_FS + 4096) else 0)
  else if a <? CASIO_STORAGE_MEM + 8192 then 0 else elf_flash (a - CASIO_STORAGE_MEM).

Definition boot_prim : smemfs_prim := mk_prim CASIO_STORAGE_MEM CASIO_FS (CASIO_FS + 32) 0x42.

Definition boot_run (args : list boot_arg) : option (@boot_end pmem terms) :=
  init demo_sym demo_hw (λ d, d) 10 (replicate 256 7) boot_flash 10 40 0 0 (mk_prim 0 0 0 0) boot_prim 0x80000040 0x80000080 (λ _ _ _, None)
    0x80000100 0x80000200 (replicate 36 (mk_pnode (replicate 16 7) 7 7 7 7)) (replicate 13 7) (replicate 52 7) boot_garbage 0 0x88100000 0x88200000
    (replicate 4 None) (λ _, 0) (demo_machine (args_text args ++ [0; 7])).

(** The whole sequence: the program of the image is the task the scheduler chooses, with
    its segment and its stack. *)
Example boot_runs_program :
  match boot_run demo_args with
  | Some (Booted (Continues k _) _) =>
      let p := k_procs k (choose_next k).2 in
      (pc <$> head (acnt p), aget (default [] (Kernel.reg <$> head (acnt p))) 15, length (mem_areas p), pid p) = (Some 0x10000000, 0x40000000, 2%nat, 1)
  | _ => False
  end.
Proof. vm_compute. reflexivity. Qed.

(** Without the file, the kernel stays where it is. *)
Example boot_without_program : match boot_run [] with Some (NoInit _) => True | _ => False end.
Proof. vm_compute. exact I. Qed.

(** ** Witness *)

Lemma demo_reset args : at_reset (demo_machine args).
Proof.
  split.
  - exists (mk_pmem (λ _, 0) 0 0). split; reflexivity.
  - split; reflexivity.
  - split; [reflexivity|]. intros e. reflexivity.
  - reflexivity.
  - split; reflexivity.
  - split; [reflexivity|discriminate].
  - split; reflexivity.
Qed.

Lemma demo_hw_ok : hw_ok demo_hw 26.
Proof.
  split; [cbn; lia|by vm_compute|vm_compute; discriminate|]. by exists 1%nat, 2%nat, [false].
Qed.

Lemma demo_args_ready : args_ready (demo_machine (args_text demo_args ++ [0; 7])) demo_args.
Proof.
  exists [7]. split; [reflexivity|]. split; [|split].
  - apply Forall_cons. split; [|apply Forall_cons; split; [|constructor]]; (split; [discriminate|split; by_computation]).
  - apply Forall_cons. split; [|apply Forall_cons; split; [|constructor]]; (intros _; discriminate).
  - vm_compute. discriminate.
Qed.

Lemma demo_presses args : presses 3 (m_reads (demo_machine args)).
Proof. do 3 (exists 1%nat, 1%nat; eexists; split; [reflexivity|]). exact I. Qed.

(** "console=tty2": the log and /dev/console are the second terminal. *)
Lemma boot_console_witness : ∃ m' r (k' k'' : kernel (kmem pmem)),
  init_early demo_sym demo_hw (λ d, d) 10 (replicate 256 7) (demo_machine (args_text demo_args ++ [0; 7])) = Some m' ∧
  console_tty (m_log m') = ttydev_get_minor 1 (s_minors (m_sys m')) ∧
  vfs_resolve 37 (fs_of boot_flash 10 37 boot_prim 0x80000080 (λ _ _ _, None) (replicate 13 7)) (text "/dev/console") k' = Some (r, k'') ∧
  i_spec (k_inodes k'' r) = 0x00040001 ∧
  ∃ s', vfs_open_dev (device_open demo_sym 0x80000100 0x80000200) r 0x88005000 (set_sk k'' (m_sys m')) = Some (0, s') ∧ f_private (k_files (sk s') 0x88005000) = console_tty (m_log m').
Proof.
  destruct (boot_console demo_sym demo_hw (λ d, d) 10 (replicate 256 7) eq_refl) with (flash := boot_flash) (tables := 10%nat) (fuel := 37%nat)
    (prim0 := mk_prim 0 0 0 0) (prim := boot_prim) (protofs_inst := 0x80000040) (smemfs_inst := 0x80000080) (open_dev := λ (_ _ : ptr) (_ : kernel (kmem pmem)), @None (Z * kernel (kmem pmem)))
    (s0 := replicate 13 7) (m := demo_machine (args_text demo_args ++ [0; 7])) (l := demo_args) (pf_stale := demo_stale) (fslist := replicate 4 (@None (@registered_fs (kmem pmem)))) (display_device := 0x80000100) (fxkeyboard_device := 0x80000200)
    as (m' & k1 & k' & He & _ & _ & _ & _ & Htty & _ & _ & _ & _ & r & k'' & Hv & _ & _ & Hsp & Hop).
  - intros i Hi. assert (i = 0 ∨ i = 1) as [->| ->] by lia; split; discriminate.
  - discriminate.
  - lia.
  - discriminate.
  - discriminate.
  - apply demo_reset.
  - exact demo_hw_ok.
  - exact demo_args_ready.
  - apply demo_presses.
  - vm_compute. discriminate.
  - reflexivity.
  - apply Forall_replicate. reflexivity.
  - cbn. lia.
  - exists m', r, k', k''. split; [exact He|]. split; [exact Htty|]. split; [exact Hv|]. split; [exact Hsp|].
    destruct (Hop 0x88005000) as (s' & Hs & _ & Hpr & _). exists s'. split; [exact Hs|exact Hpr].
Defined.
