(* ===== verification/User.v ===== *)
(** * The first user program (src/user/first_test_elf.c, src/user/lib/syscalls.h,
    src/user/dynld.c, src/user/sharedtest/test.c)

    A user program sees the kernel through its system calls only: it is an interaction
    tree whose events are the calls, with the results they give.  The kernel is a handler
    of these events over any state.  The buffers of the program are values; an access
    outside of one is the event [Fault], after which nothing is known.

    The theorems: the numbers are printed as the reference of Log prints them, as long as
    they fit the buffers; copying between two descriptors moves all the input; listing a
    directory ends and prints every entry once, for any kernel that keeps the contract of
    [getdents] (Protofs); the test of the heap reports a problem, for a kernel whose
    [sbrk] gives the beginning of the heap as that of MemArea does. *)

From ITree Require Import ITree ITreeFacts Events.State Events.StateFacts.
From S2P Require Import Prelude Kernel Keyboard Pipe VfsFile Vfs Protofs Tty Smemfs FileOps Log Sysctl.

(** ** System calls *)

(** A call with what it gives the program: the result, and what it stored.  The memory
    the kernel gives the program is read and written with [Load] and [Store]. *)
(** src/user/lib/syscalls.h:69-135: open *)
Variant sysE : Type → Type :=
| Open (path : list Z) (flags : Z) : sysE Z
| Close (fd : Z) : sysE Z
| Read (fd nb : Z) : sysE (Z * list Z)
| Write (fd : Z) (data : list Z) : sysE Z
| Fork : sysE Z
| Exit (status : Z) : sysE void
| Getpid : sysE Z
| Getppid : sysE Z
| Wait : sysE (Z * Z)
| Execve (path : list Z) (argv : list (list Z)) : sysE Z
| Gettimeofday : sysE (Z * Z)
| Times : sysE (Z * list Z)
| Sigaction (sig : Z) (act : option sigaction) : sysE (Z * sigaction)
| Kill (pid sig : Z) : sysE Z
| Sigprocmask (how : Z) (mask : option Z) : sysE (Z * Z)
| Pipe2 (flags : Z) : sysE (Z * (Z * Z))
| Ioctl (fd : Z) (req : request) : sysE (Z * ioctl_out)
| Dynbind (symbol : list Z) : sysE (Z * ptr)
| Sbrk (incr : Z) : sysE ptr
| Sysctl_read (mib : list Z) (len : Z) : sysE (Z * ctl_data * Z)
| Sysctl_write (mib data : list Z) : sysE Z
| Nanosleep (sec nsec : Z) : sysE Z
| Sysctl_mibname (name : list Z) (len : Z) : sysE (Z * list Z)
| Fstat (fd : Z) : sysE (Z * stat)
| Stat (path : list Z) : sysE (Z * stat)
| Getdents (fd len : Z) : sysE (Z * list dirent)
| Chdir (path : list Z) : sysE Z
| Fchdir (fd : Z) : sysE Z
| Setpgid (pid pgid : Z) : sysE Z
| Getpgid (pid : Z) : sysE Z
| Dup (oldfd : Z) : sysE Z
| Dup2 (oldfd newfd : Z) : sysE Z
| Load (a : ptr) : sysE Z
| Store (a : ptr) (v : Z) : sysE ()
| Fault : sysE void.

Definition prog (A : Type) : Type := itree sysE A.
#[export] Instance user_ret : MRet prog := λ A x, Ret x.
#[export] Instance user_bind : MBind prog := λ A B f m, ITree.bind m f.

Definition sys {A} (e : sysE A) : prog A := ITree.trigger e.
Definition call {A} (e : sysE A) : prog () := _ ← sys e; mret ().
Definition fault {A} : prog A := v ← sys Fault; match v : void with end.
(** A value that an access outside of a buffer leaves undefined. *)
Definition checked {A} (o : option A) : prog A := match o with Some x => mret x | None => fault end.
(** [while(1) body] *)
Definition forever (body : prog ()) : prog () := ITree.iter (λ _, ITree.bind body (λ _, Ret (inl ()))) ().
Definition nothing : prog () := mret ().

(** src/user/first_test_elf.c:33-33: write_const *)
Definition write_const (fd : Z) (msg : list Z) : prog () := call (Write fd msg).

(** The bytes before the NUL: [for(i=0; s[i]!='\0'; i++); write(fd, s, i)]. *)
Definition write_str (fd : Z) (s : list Z) : prog () := call (Write fd (c_str s)).

Definition NL : list Z := [10].

(** ** Numbers *)

(** The digits from the one of weight [i]; the position after them. *)
(** src/user/first_test_elf.c:57-57: write_int_dec *)
Fixpoint dec_out (fuel : nat) (n i cpt : Z) (string : list Z) : option (Z * list Z) :=
  if i =? 0 then Some (cpt, string)
  else
    match fuel with
    | O => None
    | S fuel =>
        string ← put string cpt (Z.rem (Z.quot n i) 10 + 48);
        dec_out fuel n (Z.quot i 10) (cpt + 1) string
    end.

(** The text; the array is not initialised. *)
(** src/user/first_test_elf.c:42-58: write_int_dec *)
Definition dec_text (stale : list Z) (n : Z) : option (list Z) :=
  '(start, n, string) ← (if n <? 0 then string ← put stale 0 45; Some (1, s32 (n * -1), string) else Some (0, n, stale));
  i ← dec_scale DEC_FUEL n 1;
  '(cpt, string) ← dec_out DEC_FUEL n i start string;
  Some (take (Z.to_nat cpt) string).

(** src/user/first_test_elf.c: write_int_dec *)
Definition write_int_dec (fd n : Z) : prog () :=
  if n =? 0 then write_const fd (text "0")
  else s ← checked (dec_text (replicate 10 0) n); call (Write fd s).

(** src/user/first_test_elf.c:70-81: write_int_hex *)
Definition hex_text (val : Z) : option (list Z) :=
  let cpt := hex_skip 9 val 0 in
  buf ← hex_digits (Z.to_nat (8 - cpt)) val cpt 0 (replicate 8 0);
  let i := 8 - cpt in
  if i =? 0 then buf ← put buf 0 48; Some (take 1 buf) else Some (take (Z.to_nat i) buf).

(** src/user/first_test_elf.c: write_int_hex *)
Definition write_int_hex (fd val : Z) : prog () := s ← checked (hex_text val); call (Write fd s).

(** src/user/first_test_elf.c:94-95: write_int_oct *)
Fixpoint oct_skip (fuel : nat) (val cpt : Z) : Z :=
  match fuel with
  | O => cpt
  | S fuel =>
      if (Z.land val (u32 (Z.shiftl 7 ((10 - cpt) * 3))) =? 0) && (cpt <? 11) then oct_skip fuel val (cpt + 1) else cpt
  end.

(** src/user/first_test_elf.c:96-101: write_int_oct *)
Fixpoint oct_digits (n : nat) (val cpt i : Z) (buf : list Z) : option (list Z) :=
  match n with
  | O => Some buf
  | S n =>
      buf ← put buf i (Z.land (Z.shiftr val ((10 - cpt) * 3)) 7 + 48);
      oct_digits n val (cpt + 1) (i + 1) buf
  end.

(** src/user/first_test_elf.c: write_int_oct *)
Definition write_int_oct (fd val : Z) : prog () :=
  let cpt := oct_skip 12 val 0 in
  buf ← checked (oct_digits (Z.to_nat (11 - cpt)) val cpt 0 (replicate 11 0));
  let i := 11 - cpt in
  if i =? 0 then call (Write fd (text "0")) else call (Write fd (take (Z.to_nat i) buf)).

(** ** Tests of the kernel *)

(** One turn of the loop: a second after the last mark there is another one. *)
(** src/user/first_test_elf.c: test_gettimeofday *)
Definition test_gettimeofday (fd : Z) : prog () :=
  '(sec, _) ← sys Gettimeofday;
  ITree.iter (λ prev : Z,
    '(cur, _) ← sys Gettimeofday;
    if 1 <=? s32 (cur - prev) then _ ← call (Write fd (text "-")); (mret (inl cur) : prog (Z + ()))
    else mret (inl prev)) sec.

(** src/user/first_test_elf.c: print_args *)
Definition print_args (fd : Z) (argv : list (list Z)) : prog () :=
  _ ← write_const fd (text "Args:" ++ NL);
  foldr (λ arg k, _ ← call (Write fd [34]); _ ← write_str fd arg; _ ← call (Write fd [34; 10]); k) nothing argv.

(** src/user/first_test_elf.c:156-158: test_copy_files *)
Definition copy_once (fdin fdout ibs : Z) : prog () :=
  '(nbread, buf) ← sys (Read fdin ibs);
  if 0 <? nbread then call (Write fdout (take (Z.to_nat nbread) buf)) else nothing.

(** src/user/first_test_elf.c: test_copy_files *)
Definition test_copy_files (fdin fdout ibs : Z) : prog () := forever (copy_once fdin fdout ibs).

(** src/user/first_test_elf.c: test_execve *)
Definition test_execve (path : list Z) : prog () :=
  call (Execve path [text "Hello"; text "dear execve()"; text "arguments"]).

(** src/interface/fixos/sysctl.h:29-29: CTL_KERN *)
Definition CTL_KERN : Z := 1.
(** src/interface/fixos/sysctl.h:49-49: KERN_PROC *)
Definition KERN_PROC : Z := 1.
(** src/interface/fixos/sysctl.h:58-58: KERN_PROC_ALL *)
Definition KERN_PROC_ALL : Z := 0.

(** src/user/first_test_elf.c:477-489: test_print_all_proc *)
Definition print_proc (fdout : Z) (p : proc_uinfo) : prog () :=
  _ ← write_const fdout (text "pid ");
  _ ← write_int_dec fdout (u_pid p);
  _ ← write_const fdout (text " : cpu=");
  _ ← write_int_dec fdout (Z.quot (u_cpu_usage p) 100);
  _ ← write_const fdout (text "%, {");
  _ ← write_int_dec fdout (u_uticks p);
  _ ← write_const fdout (text ",");
  _ ← write_int_dec fdout (u_kticks p);
  write_const fdout (text "}" ++ NL).

(** The array has room for twenty processes. *)
(** src/user/first_test_elf.c: test_print_all_proc *)
Definition test_print_all_proc (fdout : Z) : prog () :=
  '(ret, data, size) ← sys (Sysctl_read [CTL_KERN; KERN_PROC; KERN_PROC_ALL] (20 * UINFO_SIZE));
  if ret =? 0 then
    let nb := size / UINFO_SIZE in
    match data with
    | DProcs l => foldr (λ p k, _ ← print_proc fdout p; k) nothing (take (Z.to_nat nb) l)
    | DBytes _ => fault
    end
  else
    _ ← write_const fdout (text "sysctl() error, with size=");
    _ ← write_int_dec fdout size;
    write_const fdout NL.

(** src/user/first_test_elf.c: test_sysctl_proc *)
Definition test_sysctl_proc (fdout : Z) : prog () :=
  forever (_ ← test_print_all_proc fdout; call (Nanosleep 0 500000000)).

(** The result, and the bytes and the length stored. *)
(** src/user/first_test_elf.c: sysctl_rdbyname *)
Definition sysctl_rdbyname (strname : list Z) (oldlen : Z) : prog (Z * ctl_data * Z) :=
  '(r, name) ← sys (Sysctl_mibname strname 5);
  if r =? 0 then sys (Sysctl_read name oldlen)
  else _ ← write_const 0 (text "{???}"); mret (1, DBytes [], oldlen).

(** src/user/first_test_elf.c:532-534: test_print_sysinfo *)
Definition print_info (fdout : Z) (name after : list Z) : prog () :=
  '(r, data, size) ← sysctl_rdbyname name 64;
  _ ← (if r =? 0 then
         match data with
         | DBytes b => call (Write fdout (take (Z.to_nat (u32 (size - 1))) b))
         | DProcs _ => fault
         end
       else nothing);
  write_const fdout after.

(** src/user/first_test_elf.c: test_print_sysinfo *)
Definition test_print_sysinfo (fdout : Z) : prog () :=
  _ ← print_info fdout (text "kern.ostype") (text " ");
  _ ← print_info fdout (text "kern.osrelease") (text " (");
  _ ← print_info fdout (text "kern.osbuilddate") (text ") ");
  print_info fdout (text "hw.machine") NL.

(** ** Files *)

(** src/interface/fixos/stat.h:36-36: S_IFMT *)
Definition S_IFMT : Z := 0xF000.

(** src/interface/fixos/stat.h:48-48: S_IWUSR *)
Definition S_IWUSR : Z := 128.

(** The ten characters of the type and the mode. *)
(** src/user/first_test_elf.c:558-578: test_print_stat *)
Definition mode_text (st_mode : Z) : list Z :=
  let kind := Z.land st_mode S_IFMT in
  [if kind =? S_IFDIR then 100 else if kind =? S_IFCHR then 99 else if kind =? S_IFREG then 45 else 63;
   if st_mode &? S_IRUSR then 114 else 45; if st_mode &? S_IWUSR then 119 else 45; if st_mode &? S_IXUSR then 120 else 45;
   45; 45; 45; 45; 45; 45].

(** src/user/first_test_elf.c: test_print_stat *)
Definition test_print_stat (fdout : Z) (name : list Z) (s : stat) : prog () :=
  _ ← call (Write fdout (mode_text (st_mode s)));
  _ ← write_const fdout (text " (");
  _ ← (if Z.land (st_mode s) S_IFMT =? S_IFCHR then
         _ ← write_int_dec fdout (Z.shiftr (st_rdev s) 16);
         _ ← write_const fdout (text ", ");
         write_int_dec fdout (Z.land (st_rdev s) 0xFFFF)
       else write_int_dec fdout (st_size s));
  _ ← write_const fdout (text ") ");
  _ ← write_str fdout name;
  write_const fdout NL.

(** src/user/first_test_elf.c: test_stat *)
Definition test_stat (fdout : Z) : prog () :=
  '(r, s) ← sys (Stat (text "/mnt/smem/test.elf"));
  _ ← (if r =? 0 then test_print_stat fdout (text "/mnt/smem/test.elf") s else nothing);
  '(r, s) ← sys (Fstat fdout);
  if r =? 0 then test_print_stat fdout (text "{fdout}") s else nothing.

(** ** Directories *)

(** src/user/first_test_elf.c:635-638: test_dirent *)
Definition print_entry (fdout : Z) (d : dirent) : prog () :=
  _ ← write_str fdout (d_name d);
  _ ← write_const fdout (text " (@0x");
  _ ← write_int_hex fdout (d_ino d);
  write_const fdout (text ")" ++ NL).

(** The entries in the buffer, from the position [pos] of the first one; behind the last
    one the buffer holds nothing known. *)
(** src/user/first_test_elf.c:633-641: test_dirent *)
Fixpoint print_entries (fdout : Z) (ds : list dirent) (pos len : Z) : prog () :=
  if pos <? len then
    match ds with
    | [] => fault
    | d :: ds => _ ← print_entry fdout d; print_entries fdout ds (pos + d_off d) len
    end
  else nothing.

(** One turn of the loop, which goes on with [inl]. *)
(** src/user/first_test_elf.c:624-646: test_dirent *)
Definition dirent_turn (fdout dirfd : Z) : prog (() + ()) :=
  '(len, ds) ← sys (Getdents dirfd 512);
  _ ← (if 0 <? len then
         _ ← print_entries fdout ds 0 len;
         _ ← write_const fdout (text "[total lenght = ");
         _ ← write_int_dec fdout len;
         write_const fdout (text "]" ++ NL)
       else nothing);
  mret (if 0 <=? len then inl () else inr ()).

(** src/user/first_test_elf.c:624-646: test_dirent *)
Definition dirent_loop (fdout dirfd : Z) : prog () := ITree.iter (λ _, dirent_turn fdout dirfd) ().

(** src/user/first_test_elf.c: test_dirent *)
Definition test_dirent (fdout : Z) (path : list Z) : prog () :=
  dirfd ← sys (Open path O_RDONLY);
  _ ← write_const fdout (text "Directory entries in '");
  _ ← write_str fdout path;
  _ ← write_const fdout (text "' :" ++ NL);
  _ ← dirent_loop fdout dirfd;
  if 0 <=? dirfd then call (Close dirfd) else nothing.

(** ** Terminals *)

(** src/user/first_test_elf.c: test_tty_master *)
Definition test_tty_master (fdout fdtty : Z) : prog () :=
  _ ← call (Setpgid 0 0);
  _ ← call (Ioctl fdtty (ReqTty (TIOCSCTTY 0)));
  pid ← sys (Getpgid 0);
  call (Ioctl fdtty (ReqTty (TIOCSPGRP (Some pid)))).

(** src/user/first_test_elf.c: test_tty_vt100 *)
Definition test_tty_vt100 (fdout : Z) : prog () :=
  _ ← write_const fdout (text "ABCD" ++ [27] ++ text "[HDEF" ++ NL);
  write_const fdout ([27] ++ text "[5;2H  LOL  " ++ NL).

(** ** The display *)

(** The loop over the video memory. *)
(** src/user/first_test_elf.c:327-328: test_display *)
Fixpoint fill_vram (n : nat) (vram i val : Z) : prog () :=
  match n with
  | O => nothing
  | S n => _ ← call (Store (u32 (vram + i)) val); fill_vram n vram (i + 1) val
  end.

(** One image; [inl] has the next state: the second of the last count, the value, and
    the images since. *)
(** src/user/first_test_elf.c:325-348: test_display *)
Definition display_turn (fdout disp vram vram_size : Z) (st : Z * Z * Z) : prog (Z * Z * Z + ()) :=
  let '(prev, val, fps) := st in
  _ ← fill_vram (Z.to_nat vram_size) vram 0 val;
  let val := if val =? 0 then 0xFF else 0 in
  _ ← call (Ioctl disp (ReqDisplay DISPCTL_DISPLAY 0 0));
  let fps := s32 (fps + 1) in
  '(cur, _) ← sys Gettimeofday;
  if 1 <=? s32 (cur - prev) then
    _ ← write_const fdout (text "fps: 0x");
    _ ← write_int_hex fdout (u32 fps);
    _ ← write_const fdout NL;
    mret (inl (cur, val, 0))
  else mret (inl (prev, val, fps)).

(** When the request for the information fails, the structure is not initialised. *)
(** src/user/first_test_elf.c: test_display *)
Definition test_display (stale_info : display_info) (stale_vram : ptr) (fdout : Z) : prog () :=
  disp ← sys (Open (text "/dev/display") O_RDWR);
  '(_, out) ← sys (Ioctl disp (ReqDisplay (DISPCTL_INFO true) 0 0));
  let info := match out with IoInfo i => i | _ => stale_info end in
  _ ← write_const fdout (text "info :" ++ NL ++ text "  w=0x");
  _ ← write_int_hex fdout (di_width info);
  _ ← write_const fdout (NL ++ text "  h=0x");
  _ ← write_int_hex fdout (di_height info);
  _ ← write_const fdout (NL ++ text "  size=0x");
  _ ← write_int_hex fdout (di_vram_size info);
  _ ← write_const fdout NL;
  '(r, _) ← sys (Ioctl disp (ReqDisplay (DISPCTL_SETMODE DISPMODE_ACTIVATE) 0 0));
  _ ← (if r =? 0 then
         '(r, out) ← sys (Ioctl disp (ReqDisplay (DISPCTL_MAPVRAM true) 0 0));
         let vram := match out with IoVram a => a | _ => stale_vram end in
         if r =? 0 then
           '(prev, _) ← sys Gettimeofday;
           ITree.iter (display_turn fdout disp vram (di_vram_size info)) (prev, 0xFF, 0)
         else nothing
       else nothing);
  forever nothing.

(** ** The heap *)

(** src/user/first_test_elf.c:375-379: test_sbrk *)
Fixpoint heap_fill (n : nat) (i : Z) : prog () :=
  match n with
  | O => nothing
  | S n => cur ← sys (Sbrk 4); _ ← call (Store cur i); heap_fill n (i + 1)
  end.

(** src/user/first_test_elf.c:382-384: test_sbrk *)
Fixpoint heap_check (n : nat) (cur_sbrk i : Z) (ok : bool) : prog bool :=
  match n with
  | O => mret ok
  | S n => v ← sys (Load (u32 (cur_sbrk + 4 * i))); heap_check n cur_sbrk (i + 1) (if negb (v =? i) then false else ok)
  end.

(** src/user/first_test_elf.c: test_sbrk *)
Definition test_sbrk (fdout : Z) : prog () :=
  cur_sbrk ← sys (Sbrk 0);
  _ ← write_const fdout (text "Current brk=");
  _ ← write_int_hex fdout cur_sbrk;
  _ ← write_const fdout NL;
  _ ← heap_fill 1234 0;
  ok ← heap_check 1234 cur_sbrk 0 true;
  _ ← (if ok : bool then write_const fdout (text "Alloc seems to work" ++ NL) else write_const fdout (text "Alloc problem!" ++ NL));
  cur_sbrk ← sys (Sbrk 0);
  _ ← write_const fdout (text "After alloc brk=");
  _ ← write_int_hex fdout cur_sbrk;
  _ ← write_const fdout NL;
  _ ← call (Sbrk (s32 (u32 (- 4) * 1234)));
  cur_sbrk ← sys (Sbrk 0);
  _ ← write_const fdout (text "After freeing brk=");
  _ ← write_int_hex fdout cur_sbrk;
  write_const fdout NL.

(** ** Keyboard and system information *)

(** src/user/first_test_elf.c:411-422: test_fxkeyboard *)
Definition key_turn (fdout kdb : Z) : prog () :=
  '(r, evt) ← sys (Read kdb 2);
  if r =? 2 then
    match evt with
    | key :: event :: _ =>
        _ ← (if event =? K_EVENT_PRESSED then write_const fdout (text "+0x") else write_const fdout (text "-0x"));
        _ ← write_int_hex fdout key;
        write_const fdout NL
    | _ => fault
    end
  else write_const fdout (text "#").

(** src/user/first_test_elf.c: test_fxkeyboard *)
Definition test_fxkeyboard (fdout : Z) : prog () :=
  kdb ← sys (Open (text "/dev/keyboard") (Z.lor O_RDONLY O_NONBLOCK));
  forever (key_turn fdout kdb).

(** src/interface/fixos/sysctl.h:47-47: KERN_OSTYPE *)
Definition KERN_OSTYPE : Z := 0.

(** The string must end in the buffer. *)
(** src/user/first_test_elf.c: test_sysctl *)
Definition test_sysctl (fdout : Z) : prog () :=
  '(r, data, len) ← sys (Sysctl_read [CTL_KERN; KERN_OSTYPE] 20);
  _ ← (if r =? 0 then
         match data with
         | DBytes buf =>
             _ ← write_const fdout (text "kern.ostype = '");
             _ ← (if existsb (λ c, c =? 0) buf then write_str fdout buf else fault);
             _ ← write_const fdout (text "' len=0x");
             _ ← write_int_hex fdout len;
             write_const fdout NL
         | DProcs _ => fault
         end
       else
         _ ← write_const fdout (text "kern.ostype (error), len=0x");
         _ ← write_int_hex fdout len;
         write_const fdout NL);
  forever nothing.

(** ** The shared library *)

(** The variables [abc] and [def] of the library. *)
(** src/user/sharedtest/test.c:24-25: abc *)
Record shared := mk_shared { abc : Z; def : Z }.

(** The address of a string of the program is not NULL. *)
(** src/user/sharedtest/test.c: name *)
Definition name (str : list Z) : prog Z :=
  _ ← write_const 0 (text "shared name(" ++ [34]);
  _ ← write_str 0 str;
  _ ← write_const 0 ([34] ++ text ")" ++ NL);
  mret 0.

(** src/user/sharedtest/test.c: myfunc *)
Definition myfunc (a : Z) (g : shared) : prog (Z * shared) :=
  let g := mk_shared a (s32 (- a)) in
  _ ← name (text "test myfunc");
  mret (-1, g).

(** src/user/sharedtest/test.c: myfunc2 *)
Definition myfunc2 (g : shared) : prog (Z * shared) :=
  '(_, g) ← myfunc 458 g;
  _ ← write_const 0 (text "myfunc2()" ++ NL);
  mret (1, g).

(** src/user/sharedtest/test.c: tada *)
Definition tada (a : Z) (g : shared) : prog (Z * shared) :=
  let g := mk_shared (s32 (- a)) a in
  '(_, g) ← myfunc2 g;
  mret (-5, g).

(** The address of a symbol, found at its first call. *)
(** src/user/dynld.c: dynld_solvename *)
Definition dynld_solvename (symbol : list Z) : prog ptr :=
  '(r, ret) ← sys (Dynbind symbol);
  mret (if r =? 0 then ret else NULL).

(** src/user/first_test_elf.c: test_sharedlib *)
Definition test_sharedlib (g : shared) : prog shared :=
  _ ← name (text "rst call");
  _ ← name (text "Second call");
  '(_, g) ← tada 10 g;
  mret g.

(** ** The program *)

(** src/user/first_test_elf.c:672-765: usertest_main *)
Definition usertest_main : prog () :=
  fd ← sys (Open (text "/dev/console") O_RDWR);
  _ ← write_const fd (text "*** Hey! I'm a User process!" ++ NL ++ text "*** I AM ALIVE!" ++ NL);
  fd_serial ← sys (Open (text "/dev/serial") O_RDWR);
  _ ← write_const fd_serial (text "*** Hi, dear serial terminal!" ++ NL);
  tty1 ← sys (Open (text "/dev/tty1") O_RDWR);
  _ ← write_const tty1 (text "Welcome!" ++ NL);
  _ ← test_print_sysinfo tty1;
  pid ← sys Fork;
  _ ← (if negb (pid =? 0) then
         tty2 ← sys (Open (text "/dev/tty2") O_RDWR);
         _ ← write_const tty2 (text "Welcome!" ++ NL);
         _ ← test_print_sysinfo tty2;
         _ ← write_const tty1 (text "I'm writing on tty1." ++ NL);
         _ ← write_const tty2 (text "I'm writing on tty2." ++ NL);
         _ ← call (Chdir (text "/mnt/smem"));
         _ ← test_dirent tty2 (text ".");
         _ ← test_dirent tty2 (text "bf");
         _ ← test_tty_vt100 tty2;
         test_copy_files tty2 tty1 1
       else
         _ ← test_tty_master tty1 tty1;
         _ ← test_stat fd;
         _ ← test_dirent fd (text "/");
         _ ← test_dirent fd (text "/mnt/smem");
         test_sysctl_proc fd);
  v ← sys (Exit 0);
  match v : void with end.

(** ** The kernel as a handler *)

(** What a kernel promises here: writing completes, and the output is what was written,
    with the descriptors, in order. *)
Class UserKernel (S : Type) := {
  uk_step : sysE ~> Monads.stateT S (itree void1);
  output : S → list (Z * list Z);
  emit : Z → list Z → S → S;
  uk_write fd data s : ∃ r, uk_step _ (Write fd data) s = Ret (emit fd data s, r);
  uk_output fd data s : output (emit fd data s) = output s ++ [(fd, data)];
}.

Section run.
Context {S : Type} `{!UserKernel S}.
Implicit Types s : S.

Definition run_user {A} (t : prog A) s : itree void1 (S * A) := interp_state uk_step t s.

(** A program ends in a state, with a result. *)
Definition ends {A} (t : prog A) s s' (x : A) : Prop := eutt eq (run_user t s) (Ret (s', x)).

Lemma run_bind {A B} (m : prog A) (f : A → prog B) s :
  eutt eq (run_user (x ← m; f x) s) (ITree.bind (run_user m s) (λ p, run_user (f p.2) p.1)).
Proof. unfold run_user, mbind, user_bind. rewrite interp_state_bind. reflexivity. Qed.

Lemma run_after {A B} (m : prog A) (f : A → prog B) s s1 x : ends m s s1 x → eutt eq (run_user (x ← m; f x) s) (run_user (f x) s1).
Proof. intros Hm. rewrite run_bind. unfold ends in Hm. rewrite Hm, bind_ret_l. reflexivity. Qed.

Lemma ends_bind {A B} (m : prog A) (f : A → prog B) s s1 s2 x y : ends m s s1 x → ends (f x) s1 s2 y → ends (x ← m; f x) s s2 y.
Proof. intros Hm Hf. unfold ends. rewrite (run_after m f s s1 x Hm). exact Hf. Qed.

Lemma ends_ret {A} (x : A) s : ends (mret x) s s x.
Proof. unfold ends, run_user, mret, user_ret. rewrite interp_state_ret. reflexivity. Qed.

Lemma ends_sys {A} (e : sysE A) s s' x : uk_step _ e s = Ret (s', x) → ends (sys e) s s' x.
Proof. intros He. unfold ends, run_user, sys. rewrite interp_state_trigger, He. reflexivity. Qed.

Lemma ends_write fd data s : ends (call (Write fd data)) s (emit fd data s) ().
Proof. destruct (uk_write fd data s) as [r Hr]. eapply ends_bind; [by apply ends_sys|apply ends_ret]. Qed.

(** A loop goes on, or is left, as its body says. *)
Lemma run_iter {A B} (body : A → prog (A + B)) x y s s1 : ends (body x) s s1 (inl y) →
  eutt eq (run_user (ITree.iter body x) s) (run_user (ITree.iter body y) s1).
Proof.
  intros Hb. unfold run_user. rewrite unfold_iter. rewrite interp_state_bind. unfold ends, run_user in Hb. rewrite Hb, bind_ret_l. cbn [fst snd].
  rewrite tau_eutt. reflexivity.
Qed.

Lemma ends_iter {A B} (body : A → prog (A + B)) x (y : B) s s1 : ends (body x) s s1 (inr y) → ends (ITree.iter body x) s s1 y.
Proof.
  intros Hb. unfold ends, run_user in *. rewrite unfold_iter, interp_state_bind, Hb, bind_ret_l. cbn [fst snd]. rewrite interp_state_ret. reflexivity.
Qed.

Lemma ends_iter_next {A B} (body : A → prog (A + B)) x x' (y : B) s s1 s2 : ends (body x) s s1 (inl x') →
  ends (ITree.iter body x') s1 s2 y → ends (ITree.iter body x) s s2 y.
Proof. intros Hb Hy. unfold ends. rewrite (run_iter body x x' s s1 Hb). exact Hy. Qed.

(** Several writes. *)
Definition emit_all (fd : Z) (l : list (list Z)) s : S := foldl (λ s d, emit fd d s) s l.

Lemma emit_all_app fd l1 l2 s : emit_all fd (l1 ++ l2) s = emit_all fd l2 (emit_all fd l1 s).
Proof. apply foldl_app. Qed.

Lemma emit_all_output fd l : ∀ s, output (emit_all fd l s) = output s ++ ((λ d, (fd, d)) <$> l).
Proof.
  induction l as [|d l IH]; intros s; [by rewrite app_nil_r|]. change (emit_all fd (d :: l) s) with (emit_all fd l (emit fd d s)).
  rewrite IH, uk_output, <- app_assoc. done.
Qed.
End run.

Create HintDb user.
#[export] Hint Resolve ends_ret ends_write : user.

(** Goes through writes. *)
Ltac user_steps := repeat (eapply ends_bind; [solve [eauto with user]|]); eauto with user.

(** ** Numbers *)

Lemma dec_out_spec k : ∀ fuel n pre rest, 0 ≤ n → (k < fuel)%nat → (k + 1 ≤ length rest)%nat →
  dec_out fuel n (10 ^ Z.of_nat k) (Z.of_nat (length pre)) (pre ++ rest) =
  Some (Z.of_nat (length pre + k + 1), pre ++ ((λ d, 48 + d) <$> digits 10 k n) ++ drop (k + 1) rest).
Proof.
  induction k as [|k IH]; intros fuel n pre rest Hn Hf Hr; (destruct fuel as [|fuel]; [lia|]);
    (destruct rest as [|x rest]; [cbn in Hr; lia|]); cbn [dec_out].
  - change (10 ^ Z.of_nat 0) with 1. cbn [Z.eqb]. rewrite put_at by done. cbn [mbind option_bind].
    rewrite Z.quot_1_r, Z.rem_mod_nonneg, u8_digit by (try apply Z.mod_pos_bound; lia). change (Z.quot 1 10) with 0.
    cbn [fmap list_fmap digits app drop Nat.add]. destruct fuel; cbn [dec_out Z.eqb]; do 2 f_equal; lia.
  - assert (Hp : 0 < 10 ^ Z.of_nat k) by (apply Z.pow_pos_nonneg; lia).
    rewrite (Nat2Z.inj_succ k), Z.pow_succ_r by lia. rewrite (proj2 (Z.eqb_neq _ _)) by lia.
    rewrite put_at by done. cbn [mbind option_bind].
    rewrite (Z.mul_comm 10 (10 ^ _)), Z.quot_mul by lia.
    rewrite Z.quot_div_nonneg, Z.rem_mod_nonneg, u8_digit by (try apply Z.mod_pos_bound; try apply Z.div_pos; lia).
    set (d := 48 + _). rewrite (app_assoc pre [d] _ : pre ++ d :: rest = (pre ++ [d]) ++ rest).
    replace (Z.of_nat (length pre) + 1) with (Z.of_nat (length (pre ++ [d]))) by (rewrite length_app; cbn [length]; lia).
    cbn [length] in Hr. rewrite IH by lia. f_equal. rewrite length_app, <- app_assoc. cbn [length]. f_equal; [lia|]. cbn [digits fmap list_fmap app].
    rewrite (Nat2Z.inj_succ k), Z.pow_succ_r, (Z.mul_comm 10) by lia. reflexivity.
Qed.

(** The digits of a number from 1, in a buffer with the room. *)
Lemma dec_out_number m pre rest : 1 ≤ m < 2147483648 → (length (num_digits 10 10 m) ≤ length rest)%nat →
  ('(cpt, string) ← (i ← dec_scale DEC_FUEL m 1; dec_out DEC_FUEL m i (Z.of_nat (length pre)) (pre ++ rest)); Some (take (Z.to_nat cpt) string)) =
  Some (pre ++ ((λ d, 48 + d) <$> num_digits 10 10 m)).
Proof.
  intros Hm Hr. destruct (dec_scale_spec DEC_FUEL 0 m) as (k & Hs & Hk); [change (10 ^ 0) with 1; lia|lia|unfold DEC_FUEL; lia|].
  change (10 ^ 0) with 1 in Hs. rewrite Hs. cbn [mbind option_bind].
  assert (k < 10)%nat. { destruct (decide (k < 10)%nat); [done|]. pose proof (Z.pow_le_mono_r 10 10 (Z.of_nat k)). lia. }
  rewrite <- (digits_num 10 k m 10) in Hr |- * by lia. rewrite length_digits in Hr.
  rewrite dec_out_spec by (unfold DEC_FUEL; lia). cbn [mbind option_bind]. f_equal.
  rewrite app_assoc, Nat2Z.id, take_app_le by (rewrite length_app, length_fmap, length_digits; lia).
  apply take_ge. rewrite length_app, length_fmap, length_digits. lia.
Qed.

Lemma length_small_digits b m fuel n : 1 < b → 0 ≤ n < b ^ Z.of_nat m → (1 ≤ m)%nat → (length (num_digits b fuel n) ≤ m)%nat.
Proof.
  intros Hb. revert m n. induction fuel as [|fuel IH]; intros m n Hn Hm; [cbn; lia|]. cbn [num_digits]. rewrite length_app. cbn [length].
  destruct (Z.ltb_spec n b); cbn [length]; [lia|]. destruct m as [|m]; [lia|].
  destruct (decide (m = 0%nat)) as [->|]. { change (Z.of_nat 1) with 1 in Hn. rewrite Z.pow_1_r in Hn. lia. }
  assert (length (num_digits b fuel (n / b)) ≤ m)%nat; [|lia]. apply IH; [|lia]. rewrite Nat2Z.inj_succ, Z.pow_succ_r in Hn by lia.
  split; [apply Z.div_pos; lia|]. apply Z.div_lt_upper_bound; lia.
Qed.

(** The buffer has room for any number above minus a thousand million. *)
Lemma dec_text_spec n : -1000000000 < n < 2147483648 → n ≠ 0 → dec_text (replicate 10 0) n = Some (dec_string n).
Proof.
  intros Hn Hne. unfold dec_text, dec_string. destruct (Z.ltb_spec n 0).
  - change (replicate 10 0) with (0 :: replicate 9 0). rewrite put_0. cbn [mbind option_bind]. rewrite s32_small by lia. replace (n * -1) with (Z.abs n) by lia.
    assert (Hl : (length (num_digits 10 10 (Z.abs n)) ≤ 9)%nat) by (apply length_small_digits; [lia|change (10 ^ Z.of_nat 9) with 1000000000; lia|lia]).
    pose proof (dec_out_number (Z.abs n) [45] (replicate 9 0) ltac:(lia)) as Hd. rewrite length_replicate in Hd. specialize (Hd Hl).
    change (Z.of_nat (length [45])) with 1 in Hd. change ([45] ++ replicate 9 0) with (u8 45 :: replicate 9 0) in Hd.
    rewrite option_bind_assoc in Hd. exact Hd.
  - cbn [mbind option_bind]. replace (Z.abs n) with n by lia.
    assert (Hl : (length (num_digits 10 10 n) ≤ 10)%nat) by (apply length_small_digits; [lia|change (10 ^ Z.of_nat 10) with 10000000000; lia|lia]).
    pose proof (dec_out_number n [] (replicate 10 0) ltac:(lia)) as Hd. rewrite length_replicate in Hd. specialize (Hd Hl).
    rewrite option_bind_assoc in Hd. exact Hd.
Qed.

(** The sign and ten digits are eleven characters: the last one is stored behind the
    buffer. *)
Example dec_text_overflow : dec_text (replicate 10 0) (-1000000000) = None ∧ dec_text (replicate 11 0) (-1000000000) = Some (text "-1000000000").
Proof. split; reflexivity. Qed.

Lemma hex_text_spec val : 0 ≤ val < 4294967296 → hex_text val = Some (hex_string val).
Proof.
  intros Hv. unfold hex_text, hex_string. destruct (decide (val = 0)) as [->|Hne]; [by vm_compute|].
  destruct (leading_digit 16 val 8 ltac:(lia)) as (m & Hm & Hr); [change (16 ^ Z.of_nat 8) with 4294967296; lia|].
  rewrite (hex_skip_spec 9 val m 0) by lia. replace (Z.to_nat (8 - (7 - Z.of_nat m))) with (S m) by lia.
  rewrite (hex_digits_spec m val [] (replicate 8 0) ltac:(lia) ltac:(rewrite length_replicate; lia) : hex_digits (S m) val (7 - Z.of_nat m) 0 (replicate 8 0) = _).
  cbn [mbind option_bind app]. rewrite (proj2 (Z.eqb_neq _ _)) by lia. rewrite (digits_num 16 m val 8) by lia. f_equal.
  assert (Hl : length (num_digits 16 8 val) = S m) by (rewrite <- (digits_num 16 m val 8) by lia; apply length_digits).
  rewrite take_app_le by (rewrite length_fmap; lia). apply take_ge. rewrite length_fmap. lia.
Qed.

Section numbers.
Context {S : Type} `{!UserKernel S}.

Lemma ends_write_dec fd n (s : S) : -1000000000 < n < 2147483648 → ends (write_int_dec fd n) s (emit fd (dec_string n) s) ().
Proof.
  intros Hn. unfold write_int_dec. destruct (Z.eqb_spec n 0) as [->|Hne]; [exact (ends_write fd (text "0") s)|].
  rewrite dec_text_spec by done. user_steps.
Qed.

Lemma ends_write_hex fd val (s : S) : 0 ≤ val < 4294967296 → ends (write_int_hex fd val) s (emit fd (hex_string val) s) ().
Proof. intros Hv. unfold write_int_hex. rewrite hex_text_spec by done. user_steps. Qed.
End numbers.

(** ** Listing a directory *)

(** The entries that fit what is left of the buffer, and the bytes then used. *)
Fixpoint fit_entries (len used : Z) (ds : list dirent) : list dirent * Z :=
  match ds with
  | [] => ([], used)
  | d :: ds =>
      if len <=? used + d_off d then ([], used) else let '(es, u) := fit_entries len (used + d_off d) ds in (d :: es, u)
  end.

(** They are what [getdents] gives for a directory of protofs. *)
Lemma fit_node_entries pf len ks : ∀ used,
  fit_entries len used (node_dirent pf <$> ks) = (node_dirent pf <$> (fit pf len used ks).1, (fit pf len used ks).2).
Proof.
  induction ks as [|j ks IH]; intros used; [done|]. rewrite fmap_cons. cbn [fit_entries fit node_dirent d_off]. case_match; [done|].
  rewrite IH. by destruct (fit pf len _ ks) as [js u].
Qed.

(** The sizes of the entries, one behind the other. *)
Definition total_len (ds : list dirent) : Z := foldr (λ d n, d_off d + n) 0 ds.

(** An entry of a kernel: it has a name, and its size is that of the name. *)
Definition entry_ok (d : dirent) : Prop := no_nul (d_name d) ∧ 0 ≤ d_ino d < 4294967296 ∧ 0 < d_off d < 512.

Lemma total_len_pos ds : Forall entry_ok ds → 0 ≤ total_len ds.
Proof. induction 1 as [|d ds (_ & _ & ?) _ IH]; cbn [total_len foldr]; [lia|]. fold (total_len ds). lia. Qed.

Lemma fit_entries_spec len ds : ∀ used, Forall entry_ok ds →
  (fit_entries len used ds).1 `prefix_of` ds ∧ (fit_entries len used ds).2 = used + total_len (fit_entries len used ds).1 ∧
  ((fit_entries len used ds).1 = [] ∨ (fit_entries len used ds).2 < len).
Proof.
  induction ds as [|d ds IH]; intros used Hds; cbn [fit_entries]; [split_and!; [done|cbn; lia|by left]|].
  apply Forall_cons in Hds as [Hd Hds]. destruct (Z.leb_spec len (used + d_off d)); [split_and!; [apply prefix_nil|cbn; lia|by left]|].
  destruct (IH (used + d_off d) Hds) as (Hp & Hu & Hl). destruct (fit_entries len (used + d_off d) ds) as [es u]. cbn [fst snd] in *.
  split_and!; [by apply prefix_cons|change (total_len (d :: es)) with (d_off d + total_len es); lia|].
  right. destruct Hl as [->|]; [cbn in Hu; lia|done].
Qed.

(** What a kernel promises of an open directory: the entries that are left are given in
    order, as many as fit, and a call for which there is none fails. *)
Class DirKernel (S : Type) `{!UserKernel S} := {
  dir_left : Z → S → list dirent;
  dk_write fd' fd data s : dir_left fd' (emit fd data s) = dir_left fd' s;
  dk_getdents fd len s : let '(ds, used) := fit_entries len 0 (dir_left fd s) in
    ∃ s', uk_step _ (Getdents fd len) s = Ret (s', (if bool_decide (ds = []) then - EINVAL else used, ds)) ∧
      dir_left fd s' = drop (length ds) (dir_left fd s) ∧ output s' = output s;
}.

Section listing.
Context {S : Type} `{!UserKernel S, !DirKernel S}.
Implicit Types s : S.

(** The writes for an entry, and for the entries of one call. *)
Definition entry_lines (d : dirent) : list (list Z) := [d_name d; text " (@0x"; hex_string (d_ino d); text ")" ++ NL].
Definition batch_lines (ds : list dirent) : list (list Z) :=
  (ds ≫= entry_lines) ++ [text "[total lenght = "; dec_string (total_len ds); text "]" ++ NL].

Lemma c_str_id l : no_nul l → c_str l = l.
Proof. induction 1 as [|c l Hc _ IH]; [done|]. cbn [c_str]. rewrite (proj2 (Z.eqb_neq c 0) Hc). by rewrite IH. Qed.

Lemma ends_entry fdout d s : entry_ok d → ends (print_entry fdout d) s (emit_all fdout (entry_lines d) s) ().
Proof.
  intros (Hn & Hi & _). unfold print_entry, write_str. rewrite c_str_id by done.
  eapply ends_bind; [apply ends_write|]. eapply ends_bind; [apply ends_write|]. eapply ends_bind; [by apply ends_write_hex|]. apply ends_write.
Qed.

Lemma ends_entries fdout ds : ∀ pos s, Forall entry_ok ds →
  ends (print_entries fdout ds pos (pos + total_len ds)) s (emit_all fdout (ds ≫= entry_lines) s) ().
Proof.
  induction ds as [|d ds IH]; intros pos s Hds.
  - cbn [print_entries total_len foldr]. rewrite (proj2 (Z.ltb_ge _ _)) by lia. apply ends_ret.
  - apply Forall_cons in Hds as [Hd Hds]. cbn [print_entries]. change (total_len (d :: ds)) with (d_off d + total_len ds).
    pose proof (total_len_pos ds Hds). rewrite (proj2 (Z.ltb_lt _ _)) by (destruct Hd as (_ & _ & ?); lia).
    rewrite bind_cons, emit_all_app. eapply ends_bind; [by apply ends_entry|]. rewrite Z.add_assoc. by apply IH.
Qed.

Lemma dir_left_emit_all fd fdout l : ∀ s, dir_left fd (emit_all fdout l s) = dir_left fd s.
Proof. induction l as [|d l IH]; intros s; [done|]. change (emit_all fdout (d :: l) s) with (emit_all fdout l (emit fdout d s)). by rewrite IH, dk_write. Qed.

(** One call with entries prints them. *)
Lemma ends_batch fdout dirfd s : Forall entry_ok (dir_left dirfd s) → dir_left dirfd s ≠ [] →
  ∃ ds s', ds ≠ [] ∧ total_len ds < 512 ∧ dir_left dirfd s = ds ++ dir_left dirfd s' ∧
    output s' = output s ++ ((λ w, (fdout, w)) <$> batch_lines ds) ∧ ends (dirent_turn fdout dirfd) s s' (inl ()).
Proof.
  intros Hes Hne. pose proof (dk_getdents dirfd 512 s) as Hg. destruct (fit_entries_spec 512 _ 0 Hes) as ([rest Hp] & Hu & Hl).
  destruct (fit_entries 512 0 (dir_left dirfd s)) as [ds used] eqn:Hf. cbn [fst snd] in *. destruct Hg as (s1 & Hstep & Hleft & Hout).
  assert (Hds : ds ≠ []).
  { intros ->. destruct (dir_left dirfd s) as [|e es]; [done|]. apply Forall_cons in Hes as [(_ & _ & Hoff) _]. cbn [fit_entries] in Hf.
    rewrite (proj2 (Z.leb_gt _ _)) in Hf by lia. destruct (fit_entries 512 (0 + d_off e) es). done. }
  destruct Hl as [?|Hl]; [done|]. rewrite bool_decide_eq_false_2 in Hstep by done. rewrite Hp in Hes. apply Forall_app in Hes as [Hok _].
  assert (0 < used). { destruct ds as [|d ds]; [done|]. apply Forall_cons in Hok as [(_ & _ & ?) Hok]. pose proof (total_len_pos ds Hok).
    change (total_len (d :: ds)) with (d_off d + total_len ds) in Hu. lia. }
  exists ds, (emit_all fdout (batch_lines ds) s1). split; [done|]. split; [lia|]. split_and!.
  - rewrite dir_left_emit_all, Hleft, Hp, drop_app_length. done.
  - by rewrite emit_all_output, Hout.
  - unfold dirent_turn. eapply ends_bind; [by apply ends_sys|]. cbn beta iota. rewrite (proj2 (Z.ltb_lt 0 used)), (proj2 (Z.leb_le 0 used)) by lia.
    eapply ends_bind; [|apply ends_ret]. unfold batch_lines. rewrite emit_all_app.
    pose proof (ends_entries fdout ds 0 s1 Hok) as He. rewrite <- Hu in He. eapply ends_bind; [exact He|].
    eapply ends_bind; [apply ends_write|]. replace (total_len ds) with used by lia. eapply ends_bind; [apply ends_write_dec; lia|]. apply ends_write.
Qed.

(** Without entries the loop is left. *)
Lemma ends_last fdout dirfd s : dir_left dirfd s = [] → ∃ s', dir_left dirfd s' = [] ∧ output s' = output s ∧ ends (dirent_turn fdout dirfd) s s' (inr ()).
Proof.
  intros He. pose proof (dk_getdents dirfd 512 s) as Hg. rewrite He in Hg. cbn [fit_entries] in Hg. destruct Hg as (s' & Hstep & Hleft & Hout).
  exists s'. split; [done|]. split; [done|]. unfold dirent_turn. eapply ends_bind; [by apply ends_sys|].
  rewrite bool_decide_eq_true_2 by done. change (0 <? - EINVAL) with false. change (0 <=? - EINVAL) with false. cbn beta iota.
  eapply ends_bind; apply ends_ret.
Qed.

(** C32: listing a directory ends, for any kernel that gives the entries of a directory in
    order as they fit the buffer and fails when there is none left: every entry is
    printed once, in order, with its name and its number, in groups of those that fit the
    512 bytes of the buffer, each with its size in bytes. *)
Theorem dirent_loop_lists fdout dirfd s : Forall entry_ok (dir_left dirfd s) →
  ∃ batches s', ends (dirent_loop fdout dirfd) s s' () ∧ concat batches = dir_left dirfd s ∧
    Forall (λ ds, ds ≠ [] ∧ total_len ds < 512) batches ∧
    dir_left dirfd s' = [] ∧ output s' = output s ++ ((λ w, (fdout, w)) <$> (batches ≫= batch_lines)).
Proof.
  remember (length (dir_left dirfd s)) as n eqn:Hn. revert s Hn. induction (lt_wf n) as [n _ IH]. intros s -> Hes.
  destruct (decide (dir_left dirfd s = [])) as [He|Hne].
  - destruct (ends_last fdout dirfd s He) as (s' & Hl & Ho & Hend). exists [], s'. rewrite He. cbn [concat mbind list_bind fmap list_fmap]. rewrite app_nil_r.
    split; [by apply ends_iter|]. done.
  - destruct (ends_batch fdout dirfd s Hes Hne) as (ds & s1 & Hds & Hlen & Hsplit & Ho & Hend).
    rewrite Hsplit in Hes. apply Forall_app in Hes as [_ Hes].
    destruct (IH (length (dir_left dirfd s1))) with (s := s1) as (batches & s' & Hend' & Hc & Hb & Hl & Ho'); [|done|done|].
    { rewrite Hsplit, length_app. destruct ds; [done|cbn [length]; lia]. }
    exists (ds :: batches), s'. split; [by eapply ends_iter_next|]. split; [by cbn [concat]; rewrite Hc|]. split; [by constructor|]. split; [done|].
    rewrite Ho', Ho, bind_cons, fmap_app, app_assoc. done.
Qed.
End listing.

(** ** Copying *)

(** What a kernel promises of a descriptor with input: as long as there is some, reading
    gives the next bytes of it, at least one and no more than asked. *)
Class InputKernel (S : Type) `{!UserKernel S} := {
  input : Z → S → list Z;
  ik_write fd' fd data s : input fd' (emit fd data s) = input fd' s;
  ik_read fd nb s : 0 < nb → input fd s ≠ [] →
    ∃ s' chunk, uk_step _ (Read fd nb) s = Ret (s', (Z.of_nat (length chunk), chunk)) ∧ chunk ≠ [] ∧ Z.of_nat (length chunk) ≤ nb ∧
      input fd s = chunk ++ input fd s' ∧ output s' = output s;
}.

Section copying.
Context {S : Type} `{!UserKernel S, !InputKernel S}.
Implicit Types s : S.

Lemma ends_copy_once fdin fdout ibs s : 0 < ibs → input fdin s ≠ [] →
  ∃ s' chunk, ends (copy_once fdin fdout ibs) s s' () ∧ chunk ≠ [] ∧ Z.of_nat (length chunk) ≤ ibs ∧ input fdin s = chunk ++ input fdin s' ∧
    output s' = output s ++ [(fdout, chunk)].
Proof.
  intros Hi Hne. destruct (ik_read fdin ibs s Hi Hne) as (s1 & chunk & Hr & Hc & Hl & Hin & Ho).
  exists (emit fdout chunk s1), chunk. rewrite uk_output, ik_write, Ho. split_and!; try done.
  eapply ends_bind; [by apply ends_sys|]. cbn beta iota. rewrite (proj2 (Z.ltb_lt _ _)) by (destruct chunk; [done|cbn [length]; lia]).
  rewrite Nat2Z.id, firstn_all. apply ends_write.
Qed.

(** The copy comes back to its loop with all the input written, in order, in pieces of at
    most [ibs] bytes. *)
Theorem test_copy_files_moves fdin fdout ibs s : 0 < ibs →
  ∃ chunks s', eutt eq (run_user (test_copy_files fdin fdout ibs) s) (run_user (test_copy_files fdin fdout ibs) s') ∧
    concat chunks = input fdin s ∧ Forall (λ c, c ≠ [] ∧ Z.of_nat (length c) ≤ ibs) chunks ∧
    input fdin s' = [] ∧ output s' = output s ++ ((λ c, (fdout, c)) <$> chunks).
Proof.
  intros Hi. remember (length (input fdin s)) as n eqn:Hn. revert s Hn. induction (lt_wf n) as [n _ IH]. intros s ->.
  destruct (decide (input fdin s = [])) as [He|Hne].
  { exists [], s. rewrite He. cbn [concat fmap list_fmap]. rewrite app_nil_r. split; [reflexivity|done]. }
  destruct (ends_copy_once fdin fdout ibs s Hi Hne) as (s1 & c & Hend & Hc & Hl & Hin & Ho).
  destruct (IH (length (input fdin s1))) with (s := s1) as (chunks & s' & Hrun & Hcc & Hf & Hi' & Ho'); [|done|].
  { rewrite Hin, length_app. destruct c; [done|cbn [length]; lia]. }
  exists (c :: chunks), s'. split_and!; [|by rewrite Hin; cbn [concat]; rewrite Hcc|by constructor|done|by rewrite Ho', Ho, <- app_assoc].
  rewrite <- Hrun. apply run_iter. eapply ends_bind; [exact Hend|apply ends_ret].
Qed.
End copying.

(** ** The heap *)

(** What the kernel does for the heap (MemArea, [sys_sbrk_beginning]): [sbrk] changes its
    size, up to a limit, and gives the address of its beginning. *)
Class HeapKernel (S : Type) `{!UserKernel S} := {
  heap_begin : S → Z;
  heap_size : S → Z;
  heap_max : Z;
  word : S → Z → Z;
  hk_write fd data s : heap_begin (emit fd data s) = heap_begin s ∧ heap_size (emit fd data s) = heap_size s ∧ word (emit fd data s) = word s;
  hk_sbrk incr s : 0 ≤ heap_size s + incr ≤ heap_max →
    ∃ s', uk_step _ (Sbrk incr) s = Ret (s', heap_begin s) ∧ heap_begin s' = heap_begin s ∧ heap_size s' = heap_size s + incr ∧
      (∀ a, heap_begin s ≤ a → a + 4 ≤ heap_begin s + heap_size s `min` heap_size s' → word s' a = word s a) ∧ output s' = output s;
  hk_store a v s : heap_begin s ≤ a → a + 4 ≤ heap_begin s + heap_size s →
    ∃ s', uk_step _ (Store a v) s = Ret (s', ()) ∧ heap_begin s' = heap_begin s ∧ heap_size s' = heap_size s ∧ word s' a = v ∧
      (∀ b, b + 4 ≤ a ∨ a + 4 ≤ b → word s' b = word s b) ∧ output s' = output s;
  hk_load a s : heap_begin s ≤ a → a + 4 ≤ heap_begin s + heap_size s → uk_step _ (Load a) s = Ret (s, word s a);
}.

Section heap.
Context {S : Type} `{!UserKernel S, !HeapKernel S}.
Implicit Types s : S.

(** Every number is stored at the beginning. *)
Lemma ends_heap_fill n : ∀ i s, 0 ≤ heap_size s → heap_size s + 4 * Z.of_nat n ≤ heap_max →
  ∃ s', ends (heap_fill n i) s s' () ∧ heap_begin s' = heap_begin s ∧ heap_size s' = heap_size s + 4 * Z.of_nat n ∧ output s' = output s ∧
    (n = 0%nat ∧ s' = s ∨ word s' (heap_begin s) = i + Z.of_nat n - 1).
Proof.
  induction n as [|n IH]; intros i s Hs Hm; [exists s; split_and!; [apply ends_ret|done|lia|done|by left]|].
  destruct (hk_sbrk 4 s) as (s1 & H1 & Hb1 & Hz1 & _ & Ho1); [lia..|].
  destruct (hk_store (heap_begin s) i s1) as (s2 & H2 & Hb2 & Hz2 & Hw2 & _ & Ho2); [lia..|].
  destruct (IH (i + 1) s2 ltac:(lia) ltac:(lia)) as (s3 & H3 & Hb3 & Hz3 & Ho3 & Hw3). exists s3. split_and!; [|congruence|lia|congruence|].
  - cbn [heap_fill]. eapply ends_bind; [by apply ends_sys|]. eapply ends_bind; [|exact H3].
    eapply ends_bind; [by apply ends_sys|apply ends_ret].
  - right. rewrite Hb2, Hb1 in Hw3. destruct Hw3 as [[-> ->]|Hw3]; lia.
Qed.

Lemma ends_heap_check n : ∀ i ok s, 0 ≤ i → 0 ≤ heap_begin s → heap_begin s + heap_size s < 4294967296 → 4 * (i + Z.of_nat n) ≤ heap_size s →
  ∃ ok', ends (heap_check n (heap_begin s) i ok) s s ok' ∧ (ok = false → ok' = false).
Proof.
  induction n as [|n IH]; intros i ok s Hi Hb Hm Hs; [exists ok; split; [apply ends_ret|done]|].
  destruct (IH (i + 1) (if negb (word s (heap_begin s + 4 * i) =? i) then false else ok) s) as (ok' & Hend & Hok); [lia..|].
  exists ok'. split; [|intros ->; apply Hok; by case_match]. cbn [heap_check].
  rewrite u32_small by lia. eapply ends_bind; [apply ends_sys, hk_load; lia|]. exact Hend.
Qed.

Lemma heap_emit_all fd l : ∀ s, heap_begin (emit_all fd l s) = heap_begin s ∧ heap_size (emit_all fd l s) = heap_size s ∧ word (emit_all fd l s) = word s.
Proof.
  induction l as [|d l IH]; intros s; [done|]. change (emit_all fd (d :: l) s) with (emit_all fd l (emit fd d s)).
  destruct (IH (emit fd d s)) as (-> & -> & ->). apply hk_write.
Qed.

(** The writes for the current end of the heap. *)
Definition brk_lines (msg : list Z) s : list (list Z) := [msg; hex_string (heap_begin s); NL].

Lemma ends_print_brk fdout msg s : 0 ≤ heap_size s ≤ heap_max → 0 ≤ heap_begin s < 4294967296 →
  ∃ s1, heap_begin s1 = heap_begin s ∧ heap_size s1 = heap_size s ∧ output s1 = output s ++ ((λ w, (fdout, w)) <$> brk_lines msg s) ∧
    ∀ (f : ptr → prog ()) s', ends (f (heap_begin s)) s1 s' () →
      ends (cur ← sys (Sbrk 0); _ ← write_const fdout msg; _ ← write_int_hex fdout cur; _ ← write_const fdout NL; f cur) s s' ().
Proof.
  intros Hs Hb. destruct (hk_sbrk 0 s) as (s1 & H1 & Hb1 & Hz1 & Hw1 & Ho1); [lia..|].
  destruct (heap_emit_all fdout (brk_lines msg s) s1) as (Hb2 & Hz2 & Hw2). exists (emit_all fdout (brk_lines msg s) s1).
  split_and!; [congruence|lia|by rewrite emit_all_output, Ho1|]. intros f s' Hf. eapply ends_bind; [by apply ends_sys|].
  eapply ends_bind; [apply ends_write|]. eapply ends_bind; [by apply ends_write_hex|]. eapply ends_bind; [apply ends_write|]. exact Hf.
Qed.

(** The last message is the end of the program. *)
Lemma ends_print_last fdout msg s : 0 ≤ heap_size s ≤ heap_max → 0 ≤ heap_begin s < 4294967296 →
  ∃ s1, heap_size s1 = heap_size s ∧ output s1 = output s ++ ((λ w, (fdout, w)) <$> brk_lines msg s) ∧
    ends (cur ← sys (Sbrk 0); _ ← write_const fdout msg; _ ← write_int_hex fdout cur; write_const fdout NL) s s1 ().
Proof.
  intros Hs Hb. destruct (hk_sbrk 0 s) as (s1 & H1 & Hb1 & Hz1 & Hw1 & Ho1); [lia..|].
  destruct (heap_emit_all fdout (brk_lines msg s) s1) as (Hb2 & Hz2 & Hw2). exists (emit_all fdout (brk_lines msg s) s1).
  split_and!; [lia|by rewrite emit_all_output, Ho1|]. eapply ends_bind; [by apply ends_sys|].
  eapply ends_bind; [apply ends_write|]. eapply ends_bind; [by apply ends_write_hex|]. apply ends_write.
Qed.

(** The check fails at the first number when it was replaced by the last one. *)
Lemma ends_heap_check_fails n s : word s (heap_begin s) ≠ 0 → 0 ≤ heap_begin s → heap_begin s + heap_size s < 4294967296 →
  4 * Z.of_nat (Datatypes.S n) ≤ heap_size s → ends (heap_check (Datatypes.S n) (heap_begin s) 0 true) s s false.
Proof.
  intros Hw Hb Hm Hs. destruct (ends_heap_check n 1 false s ltac:(lia) Hb Hm ltac:(lia)) as (ok & Hend & Hok). rewrite (Hok eq_refl) in Hend.
  cbn [heap_check]. rewrite u32_small by lia. eapply ends_bind; [apply ends_sys, hk_load; lia|].
  replace (heap_begin s + 4 * 0) with (heap_begin s) by lia. rewrite (proj2 (Z.eqb_neq _ _) Hw). exact Hend.
Qed.

(** The test of the heap reports a problem on such a kernel: the numbers it stores go all
    to the beginning of the heap, where [sbrk] says each new word is.  The heap has its
    size again at the end. *)
Theorem test_sbrk_finds_problem fdout s : 0 ≤ heap_size s → heap_size s + 4936 ≤ heap_max → 0 ≤ heap_begin s → heap_begin s + heap_max < 4294967296 →
  ∃ s', ends (test_sbrk fdout) s s' () ∧ heap_size s' = heap_size s ∧
    output s' = output s ++ ((λ w, (fdout, w)) <$> (brk_lines (text "Current brk=") s ++ [text "Alloc problem!" ++ NL] ++
      brk_lines (text "After alloc brk=") s ++ brk_lines (text "After freeing brk=") s)).
Proof.
  intros Hs Hm Hb Hbm. destruct (ends_print_brk fdout (text "Current brk=") s) as (s1 & Hb1 & Hz1 & Ho1 & H1); [lia..|].
  destruct (ends_heap_fill 1234 0 s1) as (s2 & H2 & Hb2 & Hz2 & Ho2 & [[? _]|Hw2]); [lia..|done|].
  rewrite <- Hb2 in Hw2. pose proof (ends_heap_check_fails 1233 s2 ltac:(lia) ltac:(lia) ltac:(lia) ltac:(lia)) as H3.
  set (s3 := emit fdout (text "Alloc problem!" ++ NL) s2). destruct (hk_write fdout (text "Alloc problem!" ++ NL) s2) as (Hb3 & Hz3 & _). fold s3 in Hb3, Hz3.
  destruct (ends_print_brk fdout (text "After alloc brk=") s3) as (s4 & Hb4 & Hz4 & Ho4 & H4); [lia..|].
  destruct (hk_sbrk (-4936) s4) as (s5 & H5 & Hb5 & Hz5 & _ & Ho5); [lia..|].
  destruct (ends_print_last fdout (text "After freeing brk=") s5) as (s6 & Hz6 & Ho6 & H6); [lia..|].
  exists s6. split; [|split; [lia|]].
  - unfold test_sbrk. apply H1. eapply ends_bind; [exact H2|]. replace (heap_begin s) with (heap_begin s2) by congruence.
    eapply ends_bind; [exact H3|]. eapply ends_bind; [apply ends_write|]. fold s3. apply H4. eapply ends_bind; [|exact H6].
    eapply ends_bind; [apply ends_sys; exact H5|apply ends_ret].
  - assert (Ho3 : output s3 = output s2 ++ [(fdout, text "Alloc problem!" ++ NL)]) by apply uk_output.
    unfold brk_lines in *. rewrite Ho6, Ho5, Ho4, Ho3, Ho2, Ho1, Hb5, Hb4, Hb3, Hb2, Hb1, !fmap_app, <- !app_assoc. done.
Qed.
End heap.

(** ** Witnesses *)

(** A kernel with one directory, one input, a heap and what was written. *)
Record demo_user := mk_demo_user { du_dir : list dirent; du_in : list Z; du_size : Z; du_word : Z → Z; du_out : list (Z * list Z) }.

Definition DEMO_HEAP : Z := 0x10000000.

Definition demo_step (A : Type) (e : sysE A) (s : demo_user) : itree void1 (demo_user * A) :=
  match e in sysE A return itree void1 (demo_user * A) with
  | Write fd data => Ret (mk_demo_user (du_dir s) (du_in s) (du_size s) (du_word s) (du_out s ++ [(fd, data)]), Z.of_nat (length data))
  | Read fd nb =>
      let c := take (Z.to_nat nb) (du_in s) in
      Ret (mk_demo_user (du_dir s) (drop (Z.to_nat nb) (du_in s)) (du_size s) (du_word s) (du_out s), (Z.of_nat (length c), c))
  | Getdents fd len =>
      let '(ds, used) := fit_entries len 0 (du_dir s) in
      Ret (mk_demo_user (drop (length ds) (du_dir s)) (du_in s) (du_size s) (du_word s) (du_out s), (if bool_decide (ds = []) then - EINVAL else used, ds))
  | Sbrk incr => Ret (mk_demo_user (du_dir s) (du_in s) (du_size s + incr) (du_word s) (du_out s), DEMO_HEAP)
  | Store a v => Ret (mk_demo_user (du_dir s) (du_in s) (du_size s) (λ b, if b =? a then v else du_word s b) (du_out s), ())
  | Load a => Ret (s, du_word s a)
  | _ => ITree.spin
  end.

#[export] Program Instance demo_user_kernel : UserKernel demo_user := {|
  uk_step := demo_step;
  output := du_out;
  emit := λ fd data s, mk_demo_user (du_dir s) (du_in s) (du_size s) (du_word s) (du_out s ++ [(fd, data)]);
|}.
Next Obligation. intros fd data s. by eexists. Qed.
Next Obligation. done. Qed.

#[export] Program Instance demo_heap_kernel : HeapKernel demo_user := {|
  heap_begin := λ _, DEMO_HEAP; heap_size := du_size; heap_max := 65536; word := du_word
|}.
Next Obligation. done. Qed.
Next Obligation. intros incr s _. eexists. split; [reflexivity|]. done. Qed.
Next Obligation.
  intros a v s _ _. eexists. split; [reflexivity|]. cbn [du_size du_word]. rewrite Z.eqb_refl. split_and!; try done.
  intros b Hb. by rewrite (proj2 (Z.eqb_neq b a)) by lia.
Qed.
Next Obligation. done. Qed.

#[export] Program Instance demo_dir_kernel : DirKernel demo_user := {| dir_left := λ _, du_dir |}.
Next Obligation. done. Qed.
Next Obligation.
  intros fd len s. cbn [uk_step demo_user_kernel demo_step]. destruct (fit_entries len 0 (du_dir s)) as [ds used]. by eexists.
Qed.

#[export] Program Instance demo_input_kernel : InputKernel demo_user := {| input := λ _, du_in |}.
Next Obligation. done. Qed.
Next Obligation.
  intros fd nb s Hnb Hne. eexists _, (take (Z.to_nat nb) (du_in s)). split; [reflexivity|]. cbn [du_in output demo_user_kernel du_out].
  split_and!; [|rewrite length_take; lia|by rewrite take_drop|done].
  destruct (du_in s), (Z.to_nat nb) eqn:E; try done. lia.
Qed.

Definition demo_entries : list dirent := [mk_dirent 0 16 0 (text "dev"); mk_dirent 26 16 0 (text "smem")].

Lemma dirent_loop_lists_witness : ∃ batches s',
  ends (dirent_loop 1 3) (mk_demo_user demo_entries [] 0 (λ _, 0) []) s' () ∧ concat batches = demo_entries ∧
  output s' = (λ w, (1, w)) <$> (batches ≫= batch_lines).
Proof.
  destruct (dirent_loop_lists 1 3 (mk_demo_user demo_entries [] 0 (λ _, 0) [])) as (batches & s' & He & Hc & _ & _ & Ho).
  - apply Forall_cons. split; [|apply Forall_cons; split; [|apply Forall_nil_2]]; (split; [by repeat constructor|cbn; lia]).
  - exists batches, s'. done.
Defined.

Lemma test_copy_files_moves_witness : ∃ chunks s',
  eutt eq (run_user (test_copy_files 4 1 1) (mk_demo_user [] (text "abc") 0 (λ _, 0) [])) (run_user (test_copy_files 4 1 1) s') ∧
  concat chunks = text "abc" ∧ output s' = (λ c, (1, c)) <$> chunks.
Proof.
  destruct (test_copy_files_moves 4 1 1 (mk_demo_user [] (text "abc") 0 (λ _, 0) []) ltac:(lia)) as (chunks & s' & He & Hc & _ & _ & Ho).
  exists chunks, s'. done.
Defined.

Lemma test_sbrk_finds_problem_witness : ∃ s' before after, ends (test_sbrk 1) (mk_demo_user [] [] 0 (λ _, 0) []) s' () ∧
  output s' = before ++ [(1, text "Alloc problem!" ++ NL)] ++ after.
Proof.
  destruct (test_sbrk_finds_problem 1 (mk_demo_user [] [] 0 (λ _, 0) [])) as (s' & He & _ & Ho); [cbn; unfold DEMO_HEAP; lia..|].
  eexists s', _, _. split; [exact He|]. rewrite Ho, !fmap_app. reflexivity.
Defined.
